(* ===== verification/_CoqProject ===== *)
-Q . S2P
Prelude.v
Texts.v
WrappingIntegers.v
Buffers.v
ByteStreams.v
StreamReassemblers.v
Parsers.v
TCPSegments.v
IPv4Datagrams.v
EthernetFrames.v
Addresses.v
Summaries.v
Effects.v
FileDescriptors.v
EventLoops.v
RuleSets.v
Sockets.v
StreamCopies.v
NetworkInterfaces.v
Routers.v
Adapters.v
TCPReceivers.v
TCPSenders.v
SocketAdapters.v
TCPConnections.v
TCPStates.v
EndToEnd.v
Recovery.v
Flows.v
SpongeSockets.v
SpongeRuns.v
SpongeNetworks.v
Benchmarks.v
BenchmarkRuns.v
Simulators.v
Links.v
Stars.v
SimulatorRuns.v
Tcpdumps.v
CommandLines.v
Usages.v
Programs.v
