(* ===== verification/Prelude.v ===== *)
(** * A verification of the sponge TCP/IP stack

    The program under src/ is a user-space TCP/IP stack in C++.  Its parts, from
    the application down to the wire:

    - the applications of src/apps use sockets: of the kernel, or
      [TCPSpongeSocket]s, in which a thread with an [EventLoop] moves bytes between
      the owner's pipe and a [TCPConnection], and segments between the connection
      and an adapter;
    - a [ByteStream] is a bounded queue of bytes between a writer and a reader;
    - a [StreamReassembler] puts substrings that arrive in any order back into a
      [ByteStream];
    - a [TCPReceiver] feeds a reassembler from TCP segments and computes the
      acknowledgment number and the window; a [TCPSender] cuts an outgoing
      [ByteStream] into segments, keeps them until they are acknowledged and
      resends them; sequence numbers are [WrappingInt32];
    - a [TCPConnection] joins a receiver and a sender into an endpoint;
    - [TCPSegment], [IPv4Datagram], [EthernetFrame] and [ARPMessage] are what
      goes over the wire, parsed and serialised with [NetParser], [NetUnparser]
      and [InternetChecksum] from [Buffer]s;
    - adapters carry segments in UDP payloads, IPv4 datagrams or Ethernet frames;
    - a [NetworkInterface] resolves next hops with ARP, and a [Router] forwards
      datagrams between interfaces by longest-prefix match in a [Trie];
    - [FileDescriptor]s, sockets and TUN devices wrap what the operating system
      offers.

    ** Files

    Each file models the classes of one or two source files.  A class is a
    [Record] with its data members; a method [C::m] is a definition [C_m] that
    takes the object and returns what the method returns and the object after
    it.  Assignments to single members are the definitions [C_set_...].

    - [Prelude]: exceptions as values of [result] with its monad notation,
      machine integers [u8], [u16], [u32], [u64] and [i32], byte strings indexed
      by [Z], the tactics and the hint and rewrite databases.
    - [Texts]: what the programs use of the C and C++ libraries on their arguments
      and in their messages, [strtol] and [strtof] among it, and [hexdump] of
      libsponge/util/util.cc.
    - [WrappingIntegers]: libsponge/wrapping_integers.hh and .cc.
    - [Buffers]: libsponge/util/buffer.hh and .cc.
    - [ByteStreams]: libsponge/byte_stream.hh and .cc.
    - [StreamReassemblers]: libsponge/stream_reassembler.hh and .cc.
    - [Parsers]: libsponge/util/parser.hh and .cc, and [InternetChecksum] of
      libsponge/util/util.hh and .cc; the classes [WireFormat] and
      [WireRoundtrip], which the wire formats implement and the layers below
      them use.
    - [TCPSegments], [IPv4Datagrams], [EthernetFrames] (with ARP): the headers
      and packets of libsponge/tcp_helpers.
    - [Addresses]: libsponge/util/address.hh and .cc.
    - [Summaries]: the texts of headers and messages, [to_string] and [summary] of
      libsponge/tcp_helpers, and [summary] of apps/network_simulator.cc.
    - [Effects]: code that works on a world and may throw, its weakest
      preconditions, system calls, and the kernel that answers them.
    - [FileDescriptors], [EventLoops], [Sockets]: file_descriptor, eventloop,
      socket and tun of libsponge/util; [RuleSets] has what the proofs about rules
      of an event loop share.
    - [StreamCopies]: apps/bidirectional_stream_copy.cc.
    - [NetworkInterfaces]: libsponge/network_interface.hh and .cc.
    - [Routers]: libsponge/router.hh and .cc.
    - [Adapters]: fd_adapter, lossy_fd_adapter, tcp_over_ip and tuntap_adapter of
      libsponge/tcp_helpers, as functions of the packets; [SocketAdapters]: the
      same on the descriptors they read and write, with the class
      [DatagramAdapter] that the sockets use and its laws [AdapterLaws].
    - [TCPReceivers], [TCPSenders], [TCPConnections]: libsponge/tcp_receiver,
      tcp_sender and tcp_connection, with tcp_helpers/tcp_config.hh.
    - [TCPStates]: libsponge/tcp_helpers/tcp_state.hh and .cc.
    - [EndToEnd]: two connections and the network between them; [Recovery]: a
      sender, a receiver and a network that loses what they send; [Flows]: two
      connections that hand each other all they send.
    - [SpongeSockets]: libsponge/tcp_helpers/tcp_sponge_socket.hh and .cc;
      [SpongeRuns]: what a run of its event loop does to the connection;
      [SpongeNetworks]: two sockets and the network between them.
    - [Benchmarks]: apps/tcp_benchmark.cc; [BenchmarkRuns]: that it ends.
    - [Simulators]: apps/network_simulator.cc; [Links]: interfaces that share a
      link; [Stars]: links around a router; [SimulatorRuns]: runs of the simulator.
    - [Tcpdumps]: apps/udp_tcpdump.cc, from the captured packet to what is shown.
    - [CommandLines]: the arguments of apps/tcp_ipv4.cc, tcp_udp.cc,
      tcp_ip_ethernet.cc and udp_tcpdump.cc; [Usages]: their usage texts and the one
      of tcp_native.cc; [Programs]: what the first three do with the arguments up to
      the connection, the rest of udp_tcpdump.cc, and tcp_native.cc, tun.cc and
      webget.cc of apps.

    ** What the theorems show

    - Data: [unwrap] is the closest absolute number, but for the checkpoints at the
      end of the 64-bit range where a carry is lost; [ByteStream] refines an abstract
      queue for owners that do not write after the end; the checksum is the one of RFC
      1071; what is serialised parses back at every layer; parsing arbitrary bytes as
      a TCP segment, an IPv4 datagram or an ARP message does not throw; addresses come
      back from their texts, and the text of a header shows all of it.
    - One side of a connection: the reassembler and the receiver deliver a prefix of
      the peer's stream, in whatever order its segments arrive, and what reaches back
      to what they have is taken as far as the window allows; only data that starts
      beyond the window makes them throw; every segment a sender emits carries the
      bytes its sequence number stands for, whatever is acknowledged; with a peer that
      does not take back its window and acknowledges only what was sent, the window is
      filled and respected and no segment is forgotten before it is acknowledged; the
      timer backs off, but for a window of zero.
    - Two sides: over a network that loses, repeats, delays and reorders segments each
      side reads a prefix of what the other one wrote, and exactly that when it sees
      the end of the stream, unless the run is stopped by a [length_error], the only
      exception there can be; an undisturbed handshake reaches ESTABLISHED; a reset
      that is in order ends a connection, and one that is done and to linger ends
      after ten timeouts without a segment.  This is safety.  That everything is
      delivered in the end is shown for a sender and a receiver whose acknowledgments
      are not overtaken: whatever else is lost, repeated, delayed or reordered, as
      many undisturbed retransmissions as the stream has sequence numbers are enough.
    - The operating system's side: writing everything ends with every byte handed
      over; a descriptor lives as long as its handles; an event loop whose callbacks
      make progress keeps the invariants its rules keep; a stream copy loses nothing;
      and two [TCPSpongeSocket]s, with their threads, pipes, adapters and kernels,
      deliver to each owner a prefix of what the other one wrote, and all of it at the
      end of the stream if there was no reset.
    - The network layer: interfaces neither lose nor repeat datagrams and limit their
      requests; two interfaces resolve each other; the trie implements longest-prefix
      match; the router sends every well-formed datagram on the interface of its route
      to the next hop, in order, or drops it when it has none or its time is up; a
      segment written by a TUN adapter is read by its peer.
    - The programs: the benchmark ends for every string, in either order of delivery,
      without an exception or a reset, after a number of turns that is linear in the
      length of the string, with all of it received and both connections closed; a
      host of the simulator accepts exactly what it expects, and the simulator's test
      succeeds for all random numbers that give different addresses to the interfaces
      of a link of three; the options are read without leaving the arguments, and
      those of a client give the configuration they ask for, and the usage texts list
      exactly the options there are, but for one of [udp_tcpdump] that its code does
      not know; [udp_tcpdump] and [tun] show the segments that the adapters send, and
      get through every packet, but for those cut off in their IPv4 or UDP header; a
      [hexdump] shows every byte in its place.
    - Where the code does something its authors will not have wanted: theorems that
      state it exactly, such as a window announcement overtaken by a newer one, after
      which what a sender sends can make the receiver throw the [length_error] above;
      a packet of another IP version that stops the router; a datagram waiting for an
      address that holds up others; a connection that does not linger; or the loop of
      [webget], which waits for the end of a stream that it does not read.

    ** Conventions and bounds

    The release build is modelled: [assert] is compiled out.  The assertions of
    [ByteStream] and [Buffer] are separate predicates, and the theorem on
    [ByteStream] covers builds with them too.  Undefined behaviour is
    an exception of its own.  64-bit counters wrap around where they do in the
    code.  Stream indices stay below [index_limit], 2^63, the bound of a string's
    size; in the theorems on two endpoints each stream has at most [stream_limit],
    2^31 - 3, bytes, so that 32 bits tell every sequence number of a connection
    however late a segment arrives; for sockets this is a bound on what their
    kernels deliver from the owner's pipe.  The clock of an interface stays below
    2^64 milliseconds.

    Loops that are not structural have fuel: [fill_loop] as many turns as there
    are bytes in the stream and two more, [write_loop] and [write_input] as many as
    there are bytes to write and one more, [fold_carry] three, [poll_pending] and
    [route_queue] the length of the queue, [ipv6_headers] the length of the packet.
    That this is enough is proved in [fill_loop_spec], [write_loop_all],
    [write_input_ok] and [ipv6_headers_ok], where running out of fuel would be an
    exception, in [fold_carry_done], in [poll_pending_enough] and in
    [route_queue_ok].  [decimal] has 20 digits and [hex_digits] 16, as many as 64
    bits need.  Loops that end only when the outside world lets them, the event
    loops and those of the benchmark, of [tun] and of [webget], take the number of
    turns as an argument; their theorems hold for every number.  For a string of
    [n] bytes the loops of the benchmark need at most [n + 5] and [2n + 26] turns:
    three until both SYNs are acknowledged and the first data is not passed over any
    more, at least one more sequence number of the stream, SYN and FIN included, in
    each further turn, and then the time for which a connection lingers, counted
    from a moment within as many turns.

    What comes from outside the sources is a parameter: the random initial
    sequence number of a sender, the numbers of random generators, what a device
    delivers, the packet capture library (the class [Pcap]), the C library's
    conversions between addresses and text (the class [NameService] with the laws
    [NameServiceLaws]) and the operating system (the class [Kernel], which answers
    system calls, with the laws [KernelLaws]).  Example instances satisfy the laws.

    ** What is not modelled

    Messages on standard error, other than the texts of headers and the lookups of
    addresses made for them, which can throw; threads as such: a
    [TCPSpongeSocket]'s thread is the sequence of turns of its loop, and what the
    owner does in between appears as what the kernel delivers and as the flag to
    abort, so that a program with a [TCPSpongeSocket] is modelled up to the
    connection, and its copying of streams on its own; the seeding of a random
    generator; the tests and the documentation examples. *)

From stdpp Require Export base tactics list list_numbers numbers option gmap.
From Stdlib Require Export ZArith Lia.

#[global] Open Scope Z_scope.

(** ** Exceptions

    Fallible C++ code returns [result]: [Ok] with the value, or [Throw] with
    the exception (or undefined behaviour) that ends the call.  The state of
    the objects after an exception is not represented: in every caller of the
    library an exception leaves the thread that owns the objects. *)

Inductive exn : Type :=
  | out_of_range
  | runtime_error
  | length_error
  | bad_optional_access
  | invalid_argument
  | unix_error (errno : Z)
  | gai_error (code : Z)
  | undefined_behaviour.

Inductive result (A : Type) : Type :=
  | Ok (a : A)
  | Throw (e : exn).
Arguments Ok {A} a.
Arguments Throw {A} e.

#[export] Instance exn_eq_dec : EqDecision exn.
Proof. solve_decision. Defined.

#[export] Instance result_ret : MRet result := fun A a => Ok a.
#[export] Instance result_bind : MBind result :=
  fun A B f m => match m with Ok a => f a | Throw e => Throw e end.
#[export] Instance result_fmap : FMap result :=
  fun A B f m => match m with Ok a => Ok (f a) | Throw e => Throw e end.

(** ** Machine integers

    A [w]-bit unsigned integer is a [Z] between 0 and [2^w - 1]; the functions
    below are the conversions to each width, and every C++ operation whose
    result may leave the range is followed by the conversion of its type. *)

Definition u8 (x : Z) : Z := x mod 2 ^ 8.
Definition u16 (x : Z) : Z := x mod 2 ^ 16.
Definition u32 (x : Z) : Z := x mod 2 ^ 32.
Definition u64 (x : Z) : Z := x mod 2 ^ 64.

(** The value of a 32-bit pattern read as a two's complement [int32_t]. *)
Definition i32 (x : Z) : Z := (x + 2 ^ 31) mod 2 ^ 32 - 2 ^ 31.

Arguments u8 : simpl never.
Arguments u16 : simpl never.
Arguments u32 : simpl never.
Arguments u64 : simpl never.
Arguments i32 : simpl never.

Definition b2z (b : bool) : Z := if b then 1 else 0.

(** ** Bytes and strings, indexed by [Z] *)

Abbreviation byte := Z (only parsing).
Abbreviation bytes := (list Z) (only parsing).

Definition byte_ok (b : Z) : Prop := 0 <= b < 256.

Definition zlen {A} (l : list A) : Z := Z.of_nat (length l).
Definition ztake {A} (n : Z) (l : list A) : list A := take (Z.to_nat n) l.
Definition zdrop {A} (n : Z) (l : list A) : list A := drop (Z.to_nat n) l.

(** [slice i n l]: the [n] elements of [l] from index [i] on. *)
Definition slice {A} (i n : Z) (l : list A) : list A := ztake n (zdrop i l).

Arguments zlen : simpl never.
Arguments ztake : simpl never.
Arguments zdrop : simpl never.
Arguments slice : simpl never.

(** ** Automation *)

Create HintDb sponge.
Create Rewrite HintDb zlist.

(** Case analysis on the boolean comparisons and options of the code. *)
Ltac cases_if :=
  repeat match goal with
  | |- context [if ?b then _ else _] => destruct b eqn:?
  | H : context [if ?b then _ else _] |- _ => destruct b eqn:?
  end.

(** Boolean comparisons to propositions. *)
Ltac b2p :=
  repeat match goal with
  | H : _ && _ = true |- _ => apply andb_true_iff in H; destruct H
  | H : _ && _ = false |- _ => apply andb_false_iff in H
  | H : _ || _ = true |- _ => apply orb_true_iff in H
  | H : _ || _ = false |- _ => apply orb_false_iff in H; destruct H
  | H : negb _ = true |- _ => apply negb_true_iff in H
  | H : negb _ = false |- _ => apply negb_false_iff in H
  | H : (_ =? _) = true |- _ => apply Z.eqb_eq in H
  | H : (_ =? _) = false |- _ => apply Z.eqb_neq in H
  | H : (_ <? _) = true |- _ => apply Z.ltb_lt in H
  | H : (_ <? _) = false |- _ => apply Z.ltb_ge in H
  | H : (_ <=? _) = true |- _ => apply Z.leb_le in H
  | H : (_ <=? _) = false |- _ => apply Z.leb_gt in H
  end.

(** [u64] and its siblings vanish when the argument is in range. *)
Lemma u8_small x : 0 <= x < 2 ^ 8 -> u8 x = x.
Proof. apply Z.mod_small. Qed.
Lemma u16_small x : 0 <= x < 2 ^ 16 -> u16 x = x.
Proof. apply Z.mod_small. Qed.
Lemma u32_small x : 0 <= x < 2 ^ 32 -> u32 x = x.
Proof. apply Z.mod_small. Qed.
Lemma u64_small x : 0 <= x < 2 ^ 64 -> u64 x = x.
Proof. apply Z.mod_small. Qed.

Lemma u8_range x : 0 <= u8 x < 2 ^ 8.
Proof. apply Z.mod_pos_bound. lia. Qed.
Lemma u16_range x : 0 <= u16 x < 2 ^ 16.
Proof. apply Z.mod_pos_bound. lia. Qed.
Lemma u32_range x : 0 <= u32 x < 2 ^ 32.
Proof. apply Z.mod_pos_bound. lia. Qed.
Lemma u64_range x : 0 <= u64 x < 2 ^ 64.
Proof. apply Z.mod_pos_bound. lia. Qed.

Lemma u64_idem_l x y : u64 (u64 x + y) = u64 (x + y).
Proof. unfold u64. apply Z.add_mod_idemp_l. lia. Qed.
Lemma u64_idem_r x y : u64 (x + u64 y) = u64 (x + y).
Proof. unfold u64. apply Z.add_mod_idemp_r. lia. Qed.

(** Replace every in-range conversion of the goal and of the hypotheses. *)
Ltac wsimpl_step :=
  match goal with
  | |- context [u64 ?x] => rewrite (u64_small x) by lia
  | |- context [u32 ?x] => rewrite (u32_small x) by lia
  | |- context [u16 ?x] => rewrite (u16_small x) by lia
  | |- context [u8 ?x] => rewrite (u8_small x) by lia
  | H : context [u64 ?x] |- _ => rewrite (u64_small x) in H by lia
  | H : context [u32 ?x] |- _ => rewrite (u32_small x) in H by lia
  | H : context [u16 ?x] |- _ => rewrite (u16_small x) in H by lia
  | H : context [u8 ?x] |- _ => rewrite (u8_small x) in H by lia
  end.
Ltac wsimpl := repeat wsimpl_step.

(** Linear arithmetic over the wrap-around itself. *)
Ltac wrap_lia :=
  unfold u8, u16, u32, u64, i32 in *; Z.div_mod_to_equations; lia.

(** ** Lists *)

Lemma zlen_nonneg {A} (l : list A) : 0 <= zlen l.
Proof. unfold zlen. lia. Qed.
Lemma zlen_nil {A} : zlen (@nil A) = 0.
Proof. reflexivity. Qed.
Lemma zlen_cons {A} (x : A) l : zlen (x :: l) = 1 + zlen l.
Proof. unfold zlen. simpl length. lia. Qed.
Lemma zlen_app {A} (l k : list A) : zlen (l ++ k) = zlen l + zlen k.
Proof. unfold zlen. rewrite length_app. lia. Qed.
Lemma zlen_ztake {A} n (l : list A) : zlen (ztake n l) = Z.max 0 (Z.min n (zlen l)).
Proof. unfold zlen, ztake. rewrite length_take. lia. Qed.
Lemma zlen_zdrop {A} n (l : list A) : zlen (zdrop n l) = zlen l - Z.max 0 (Z.min n (zlen l)).
Proof. unfold zlen, zdrop. rewrite length_drop. lia. Qed.
Lemma zlen_slice {A} i n (l : list A) :
  zlen (slice i n l) = Z.max 0 (Z.min n (zlen l - Z.max 0 (Z.min i (zlen l)))).
Proof. unfold slice. rewrite zlen_ztake, zlen_zdrop. lia. Qed.
Lemma zlen_zero_nil {A} (l : list A) : zlen l = 0 -> l = [].
Proof. destruct l; [done|]. rewrite zlen_cons. pose proof (zlen_nonneg l). lia. Qed.

#[export] Hint Rewrite @zlen_nil @zlen_cons @zlen_app @zlen_ztake @zlen_zdrop @zlen_slice : zlist.

(** Arithmetic over lengths. *)
Ltac zl :=
  autorewrite with zlist in *;
  repeat match goal with
  | |- context [zlen ?l] =>
      lazymatch goal with
      | _ : 0 <= zlen l |- _ => fail
      | _ => pose proof (zlen_nonneg l)
      end
  | _ : context [zlen ?l] |- _ =>
      lazymatch goal with
      | _ : 0 <= zlen l |- _ => fail
      | _ => pose proof (zlen_nonneg l)
      end
  end; try lia.

Lemma ztake_ge {A} n (l : list A) : zlen l <= n -> ztake n l = l.
Proof. unfold zlen, ztake. intros. apply take_ge. lia. Qed.
Lemma ztake_le0 {A} n (l : list A) : n <= 0 -> ztake n l = [].
Proof. unfold ztake. intros. replace (Z.to_nat n) with 0%nat by lia. done. Qed.
Lemma zdrop_le0 {A} n (l : list A) : n <= 0 -> zdrop n l = l.
Proof. unfold zdrop. intros. replace (Z.to_nat n) with 0%nat by lia. done. Qed.
Lemma zdrop_ge {A} n (l : list A) : zlen l <= n -> zdrop n l = [].
Proof. unfold zlen, zdrop. intros. apply drop_ge. lia. Qed.
Lemma ztake_zdrop {A} n (l : list A) : ztake n l ++ zdrop n l = l.
Proof. apply take_drop. Qed.
Lemma zdrop_zdrop {A} n m (l : list A) :
  0 <= n -> 0 <= m -> zdrop n (zdrop m l) = zdrop (m + n) l.
Proof. unfold zdrop. intros. rewrite drop_drop. f_equal. lia. Qed.
Lemma ztake_ztake {A} n m (l : list A) : ztake n (ztake m l) = ztake (Z.min n m) l.
Proof. unfold ztake. rewrite take_take. f_equal. lia. Qed.
Lemma ztake_app_le {A} n (l k : list A) : n <= zlen l -> ztake n (l ++ k) = ztake n l.
Proof. unfold zlen, ztake. intros. rewrite take_app_le; [done|lia]. Qed.
Lemma ztake_app_ge {A} n (l k : list A) :
  zlen l <= n -> ztake n (l ++ k) = l ++ ztake (n - zlen l) k.
Proof. unfold zlen, ztake. intros. rewrite take_app_ge; [|lia]. do 2 f_equal. lia. Qed.
Lemma zdrop_app_le {A} n (l k : list A) : n <= zlen l -> zdrop n (l ++ k) = zdrop n l ++ k.
Proof. unfold zlen, zdrop. intros. rewrite drop_app_le; [done|lia]. Qed.
Lemma zdrop_app_ge {A} n (l k : list A) :
  zlen l <= n -> zdrop n (l ++ k) = zdrop (n - zlen l) k.
Proof. unfold zlen, zdrop. intros. rewrite drop_app_ge; [|lia]. f_equal. lia. Qed.
Lemma ztake_zdrop_comm {A} n m (l : list A) :
  0 <= n -> 0 <= m -> ztake n (zdrop m l) = zdrop m (ztake (m + n) l).
Proof. unfold ztake, zdrop. intros. rewrite Z2Nat.inj_add by lia. apply take_drop_commute. Qed.

Lemma slice_0 {A} n (l : list A) : slice 0 n l = ztake n l.
Proof. unfold slice. by rewrite zdrop_le0 by lia. Qed.
Lemma slice_all {A} (l : list A) : slice 0 (zlen l) l = l.
Proof. rewrite slice_0. apply ztake_ge. lia. Qed.
Lemma slice_slice {A} i n j m (l : list A) :
  0 <= i -> 0 <= j -> j + m <= n -> slice j m (slice i n l) = slice (i + j) m l.
Proof.
  intros. unfold slice.
  destruct (decide (m <= 0)); [by rewrite !ztake_le0 by lia|].
  rewrite (ztake_zdrop_comm n i l), zdrop_zdrop by lia.
  rewrite ztake_zdrop_comm by lia. rewrite ztake_ztake.
  rewrite Z.min_l by lia. rewrite <- ztake_zdrop_comm by lia. done.
Qed.
Lemma slice_app_adj {A} i n m (l : list A) :
  0 <= i -> 0 <= n -> 0 <= m -> slice i n l ++ slice (i + n) m l = slice i (n + m) l.
Proof.
  intros. unfold slice, ztake, zdrop.
  replace (drop (Z.to_nat (i + n)) l) with (drop (Z.to_nat n) (drop (Z.to_nat i) l))
    by (rewrite drop_drop; f_equal; lia).
  rewrite Z2Nat.inj_add by lia. by rewrite take_take_drop.
Qed.
Lemma zdrop_min {A} n (l : list A) : 0 <= n -> zdrop (Z.min n (zlen l)) l = zdrop n l.
Proof.
  intros. destruct (Z.le_gt_cases n (zlen l)); [by rewrite Z.min_l|].
  rewrite Z.min_r by lia. by rewrite !zdrop_ge by lia.
Qed.
Lemma zdrop_slice {A} i n k (l : list A) :
  0 <= i -> 0 <= k <= n -> zdrop k (slice i n l) = slice (i + k) (n - k) l.
Proof.
  intros. unfold slice. rewrite (ztake_zdrop_comm n), zdrop_zdrop by lia.
  rewrite (ztake_zdrop_comm (n - k)) by lia. do 2 f_equal. lia.
Qed.

Lemma slice_none {A} i n (l : list A) : n <= 0 -> slice i n l = [].
Proof. intros. unfold slice. by rewrite ztake_le0. Qed.
Lemma slice_app_l {A} i n (l k : list A) :
  0 <= i -> i + n <= zlen l -> slice i n (l ++ k) = slice i n l.
Proof.
  intros. destruct (Z.le_gt_cases n 0); [by rewrite !slice_none|].
  unfold slice. rewrite zdrop_app_le by lia. apply ztake_app_le. zl.
Qed.

(** ** [std::string::resize] *)

Definition resize (n : Z) (s : bytes) : bytes :=
  ztake n s ++ replicate (Z.to_nat (n - zlen s)) 0.

Lemma resize_ge n (s : bytes) : zlen s <= n -> resize n s = s ++ replicate (Z.to_nat (n - zlen s)) 0.
Proof. intros. unfold resize. by rewrite ztake_ge. Qed.

Lemma zlen_replicate {A} n (x : A) : zlen (replicate n x) = Z.of_nat n.
Proof. unfold zlen. by rewrite length_replicate. Qed.

Lemma zlen_resize n (s : bytes) : 0 <= n -> zlen (resize n s) = n.
Proof. intros. unfold resize. rewrite zlen_app, zlen_ztake, zlen_replicate. zl. Qed.

Lemma replicate_zero_ok n : Forall byte_ok (replicate n 0).
Proof. apply Forall_replicate. split; lia. Qed.

(** The bytes of a literal are bytes. *)
Ltac bytes_ok := repeat apply Forall_cons_2; first [apply Forall_nil_2|split; lia].
