(* ===== verification/Texts.v ===== *)
(** Texts: the conversions of the C and C++ libraries that the programs under src/apps/
    use on their arguments and in their messages ([to_string], [strncmp], [strtol],
    [strtof]), and [hexdump] (src/libsponge/util/util.cc).

    A text is a list of bytes.  [float] is the binary32 format of [SpecFloat].

    Theorems: [strtol] reads what [to_string] writes; a loss rate between 0 and 1
    becomes a 16-bit number without undefined behaviour; the bytes can be read back
    from their [hexdump]. *)

From S2P Require Import Prelude.
From stdpp Require Import strings.
From Stdlib Require Import SpecFloat.

#[local] Open Scope Z_scope.
#[local] Open Scope list_scope.

(** ** Numbers as text *)

Definition string_bytes (s : string) : bytes := map (fun c => Z.of_nat (Ascii.nat_of_ascii c)) (String.list_ascii_of_string s).

(** [to_string] of a number with at most twenty digits. *)
Fixpoint decimal_digits (fuel : nat) (n : Z) (acc : bytes) : bytes :=
  match fuel with
  | O => acc
  | S fuel =>
      let acc := 48 + n mod 10 :: acc in
      if n <? 10 then acc else decimal_digits fuel (n / 10) acc
  end.
Definition decimal (n : Z) : bytes := decimal_digits 20 n [].

(** [strncmp(a, b, n) == 0], for texts that end with a zero byte. *)
Definition strncmp_eq (a b : bytes) (n : nat) : bool := bool_decide (take n (a ++ [0]) = take n (b ++ [0])).

Definition is_space (c : Z) : bool := (c =? 32) || (9 <=? c) && (c <=? 13).

Fixpoint skip_spaces (s : bytes) : bytes :=
  match s with
  | c :: s' => if is_space c then skip_spaces s' else s
  | [] => []
  end.

(** A sign, if there is one. *)
Definition take_sign (s : bytes) : bool * bytes :=
  match s with
  | c :: s' => if c =? 45 then (true, s') else if c =? 43 then (false, s') else (false, s)
  | [] => (false, [])
  end.

Definition digit_value (c : Z) : Z :=
  if (48 <=? c) && (c <=? 57) then c - 48
  else if (97 <=? c) && (c <=? 122) then c - 87
  else if (65 <=? c) && (c <=? 90) then c - 55
  else 36.

Definition is_digit (base c : Z) : bool := digit_value c <? base.

(** The digits at the front of [s], with the number of them and what follows. *)
Fixpoint take_digits (base acc count : Z) (s : bytes) : Z * Z * bytes :=
  match s with
  | c :: s' => if is_digit base c then take_digits base (acc * base + digit_value c) (count + 1) s' else (acc, count, s)
  | [] => (acc, count, [])
  end.

(** Whether [s] starts with "0x" and a digit of base 16. *)
Definition hex_prefix (s : bytes) : bool :=
  match s with
  | z :: x :: d :: _ => (z =? 48) && ((x =? 120) || (x =? 88)) && is_digit 16 d
  | _ => false
  end.

(** [strtol(s, nullptr, 0)], with a [long] of 64 bits. *)
Definition strtol (s : bytes) : Z :=
  let '(negative, s) := take_sign (skip_spaces s) in
  let '(n, _, _) :=
    if hex_prefix s then take_digits 16 0 0 (drop 2 s)
    else take_digits (if bool_decide (head s = Some 48) then 8 else 10) 0 0 s in
  if negative then Z.max (- n) (- 2 ^ 63) else Z.min n (2 ^ 63 - 1).

(** ** hexdump *)

Definition hex_digit (d : Z) : Z := if d <? 10 then 48 + d else 87 + d.

(** [stoi(s)] *)
Definition stoi (s : bytes) : result Z :=
  let '(negative, s) := take_sign (skip_spaces s) in
  let '(n, count, _) := take_digits 10 0 0 s in
  let v := if negative then - n else n in
  if count =? 0 then Throw invalid_argument
  else if (v <? - 2 ^ 31) || (2 ^ 31 <=? v) then Throw out_of_range
  else Ok v.

(** [setw(width) << hex << n] with zeros to fill up, for a number of at most [fuel] digits. *)
Fixpoint hex_digits (fuel : nat) (n : Z) (acc : bytes) : bytes :=
  match fuel with
  | O => acc
  | S fuel =>
      let acc := hex_digit (n mod 16) :: acc in
      if n <? 16 then acc else hex_digits fuel (n / 16) acc
  end.
Definition hex_padded (width n : Z) : bytes :=
  let s := hex_digits 16 n [] in replicate (Z.to_nat (width - zlen s)) 48 ++ s.

Definition spaces (n : Z) : bytes := replicate (Z.to_nat n) 32.

(** [isprint(c)] *)
Definition is_print (c : Z) : bool := (32 <=? c) && (c <=? 126).

(** [pchars.str()]: the stream starts with a space, which the first character replaces. *)
Definition pchars_str (pchars : bytes) : bytes := match pchars with [] => [32] | _ => pchars end.

(** The loop of [hexdump] and what follows it. *)
Fixpoint hexdump_from (indent : bytes) (printed : Z) (pchars : bytes) (data : bytes) : bytes :=
  match data with
  | [] =>
      let print_rem := (16 - Z.land printed 15) mod 16 in
      spaces (2 * print_rem + print_rem / 2 + 4) ++ pchars_str pchars ++ [10; 10]
  | c :: data =>
      let '(lead, pchars) :=
        if Z.land printed 15 =? 0 then
          let '(before, pchars) := if negb (printed =? 0) then (spaces 4 ++ pchars_str pchars ++ [10], []) else ([], pchars) in
          (before ++ indent ++ hex_padded 8 printed ++ string_bytes ":    ", pchars)
        else if Z.land printed 1 =? 0 then ([32], pchars)
        else ([], pchars) in
      lead ++ hex_padded 2 c ++ hexdump_from indent (printed + 1) (pchars ++ [if is_print c then c else 46]) data
  end.

Definition hexdump (data : bytes) (indent : Z) : bytes := hexdump_from (spaces indent) 0 [] data.

(** ** Floating point *)

Definition f32_prec : Z := 24.
Definition f32_emax : Z := 128.

(** [m * base ^ e], correctly rounded. *)
Definition f32_of (m : Z) (base e : Z) : spec_float :=
  if m =? 0 then S754_zero false
  else if 0 <=? e then binary_normalize f32_prec f32_emax (m * base ^ e) 0 false
  else let '(q, e', l) := SFdiv_core_binary f32_prec f32_emax m 0 (base ^ (- e)) 0 in binary_round_aux f32_prec f32_emax false q e' l.

(** The exponent after [mark] or its capital letter, if there are digits. *)
Definition take_exponent (mark : Z) (s : bytes) : Z :=
  match s with
  | c :: s' =>
      if (c =? mark) || (c =? mark - 32) then
        let '(negative, s') := take_sign s' in
        let '(n, count, _) := take_digits 10 0 0 s' in
        if negative then - n else n
      else 0
  | [] => 0
  end.

(** Digits with a point among them: the number without the point, how many digits there
    are, how many of them after the point, and what follows. *)
Definition take_mantissa (base : Z) (s : bytes) : Z * Z * Z * bytes :=
  let '(n, count, s') := take_digits base 0 0 s in
  match s' with
  | c :: s'' =>
      if c =? 46 then let '(n, count', s'') := take_digits base n 0 s'' in (n, count + count', count', s'')
      else (n, count, 0, s')
  | [] => (n, count, 0, s')
  end.

Definition lower (c : Z) : Z := if (65 <=? c) && (c <=? 90) then c + 32 else c.

(** Whether [s] starts with [word], in letters of either case. *)
Definition starts_with (word : string) (s : bytes) : bool :=
  bool_decide (map lower (take (length (string_bytes word)) s) = string_bytes word).

(** [strtof(s, nullptr)] *)
Definition strtof (s : bytes) : spec_float :=
  let '(negative, s) := take_sign (skip_spaces s) in
  let x :=
    if starts_with "inf" s then S754_infinity false
    else if starts_with "nan" s then S754_nan
    else
      let '(n, count, places, rest) := take_mantissa 16 (drop 2 s) in
      if starts_with "0x" s && (0 <? count) then f32_of n 2 (take_exponent 112 rest - 4 * places)
      else
        let '(n, count, places, rest) := take_mantissa 10 s in
        if 0 <? count then f32_of n 10 (take_exponent 101 rest - places) else S754_zero false in
  if negative then SFopp x else x.

(** [static_cast<uint16_t>]: the fraction is dropped; what does not fit is undefined. *)
Definition u16_of_float (x : spec_float) : result Z :=
  match x with
  | S754_zero _ => Ok 0
  | S754_finite s m e =>
      let n := if 0 <=? e then Zpos m * 2 ^ e else Zpos m / 2 ^ (- e) in
      if s then (if n =? 0 then Ok 0 else Throw undefined_behaviour)
      else if n <? 2 ^ 16 then Ok n else Throw undefined_behaviour
  | _ => Throw undefined_behaviour
  end.

(** [static_cast<float>(numeric_limits<uint16_t>::max())] *)
Definition float_of_u16_max : spec_float := binary_normalize f32_prec f32_emax 65535 0 false.

(** The loss rate that an argument stands for. *)
Definition loss_rate (arg : bytes) : result Z := u16_of_float (SFmul f32_prec f32_emax float_of_u16_max (strtof arg)).

(** ** Reading numbers back *)

Lemma decimal_digits_app fuel n acc : decimal_digits fuel n acc = decimal_digits fuel n [] ++ acc.
Proof.
  revert n acc. induction fuel as [|fuel IH]; intros n acc; cbn [decimal_digits]; [done|]. destruct (n <? 10); [done|].
  rewrite IH, (IH _ [_]), <- app_assoc. done.
Qed.

Lemma take_digits_app base acc count s t : Forall (fun c => is_digit base c = true) s ->
  take_digits base acc count (s ++ t) = let '(n, k, _) := take_digits base acc count s in take_digits base n k t.
Proof.
  revert acc count. induction s as [|c s IH]; intros acc count; [done|]. intros [Hc Hs]%Forall_cons. simpl. rewrite Hc. by apply IH.
Qed.

Lemma digit_decimal d : 0 <= d < 10 -> digit_value (48 + d) = d /\ is_digit 10 (48 + d) = true.
Proof.
  intros Hd. assert (digit_value (48 + d) = d) as E.
  { unfold digit_value. rewrite (proj2 (Z.leb_le _ _)), (proj2 (Z.leb_le _ _)) by lia. cbn [andb]. lia. }
  split; [done|]. unfold is_digit. rewrite E. apply Z.ltb_lt. lia.
Qed.

Lemma decimal_read fuel n : 0 <= n < 10 ^ Z.of_nat fuel -> (0 < fuel)%nat ->
  let s := decimal_digits fuel n [] in
  Forall (fun c => is_digit 10 c = true) s /\
  (forall acc count, take_digits 10 acc count s = (acc * 10 ^ zlen s + n, count + zlen s, [])) /\
  (head s = Some 48 -> n = 0) /\ 1 <= zlen s.
Proof.
  cbn zeta. revert n. induction fuel as [|fuel IH]; intros n Hn Hf; [lia|]. cbn [decimal_digits].
  pose proof (Z.mod_pos_bound n 10 ltac:(lia)) as Hm. destruct (digit_decimal (n mod 10) Hm) as [Hv Hd].
  destruct (Z.ltb_spec n 10) as [H10|H10].
  { rewrite (Z.mod_small n) in * by lia. split_and!; [by apply Forall_singleton| |cbn; intros [= H]; lia|done].
    intros acc count. cbn [take_digits]. rewrite Hd, Hv. change (zlen [48 + n]) with 1. by rewrite Z.pow_1_r. }
  rewrite decimal_digits_app. rewrite Nat2Z.inj_succ, Z.pow_succ_r in Hn by lia. pose proof (Z.div_mod n 10 ltac:(lia)) as Hdm.
  assert (0 <= n / 10 < 10 ^ Z.of_nat fuel) as Hq by lia. assert (1 <= n / 10) as Hq1 by lia.
  assert (0 < fuel)%nat as Hf' by (destruct fuel; [simpl in Hq; lia|lia]).
  destruct (IH _ Hq Hf') as (I1 & I2 & I3 & I4). rewrite zlen_app. change (zlen [48 + n mod 10]) with 1. split_and!; [| | |lia].
  - apply Forall_app. split; [done|by apply Forall_singleton].
  - intros acc count. rewrite take_digits_app by done. rewrite I2.
    cbn [take_digits]. rewrite Hd, Hv. rewrite Z.pow_add_r by lia. do 2 f_equal; lia.
  - destruct (decimal_digits fuel (n / 10) []) as [|c l] eqn:E; [change (1 <= 0) in I4; lia|]. intros H. specialize (I3 H). lia.
Qed.

(** A number that [to_string] has written starts with a digit. *)
Lemma decimal_plain n : 0 <= n < 2 ^ 63 -> skip_spaces (decimal n) = decimal n /\ take_sign (decimal n) = (false, decimal n).
Proof.
  intros Hn. destruct (decimal_read 20 n ltac:(lia) ltac:(lia)) as (H1 & _ & _ & H4). unfold decimal.
  destruct (decimal_digits 20 n []) as [|c l]; [change (1 <= 0) in H4; lia|]. apply Forall_cons in H1 as [H1 _].
  assert (48 <= c <= 57) as Hc.
  { unfold is_digit, digit_value in H1. destruct (Z.leb_spec 48 c), (Z.leb_spec c 57); cbn in H1; try lia; b2p;
      destruct (Z.leb_spec 97 c), (Z.leb_spec c 122), (Z.leb_spec 65 c), (Z.leb_spec c 90); cbn in H1; lia. }
  cbn. unfold is_space. rewrite !(proj2 (Z.eqb_neq _ _)) by lia. rewrite (proj2 (Z.leb_gt c 13)) by lia. by rewrite andb_false_r.
Qed.

(** Reading stops where the digits end. *)
Lemma take_decimal n rest : 0 <= n < 2 ^ 63 -> (forall c, head rest = Some c -> is_digit 10 c = false) ->
  take_digits 10 0 0 (decimal n ++ rest) = (n, zlen (decimal n), rest).
Proof.
  intros Hn Hr. destruct (decimal_read 20 n ltac:(lia) ltac:(lia)) as (H1 & H2 & _). fold (decimal n) in *.
  rewrite take_digits_app, H2 by done. destruct rest as [|c rest]; cbn [take_digits]; [|rewrite Hr by done]; by rewrite Z.mul_0_l.
Qed.

(** [strtol] reads a number that [to_string] has written. *)
Lemma strtol_decimal n : 0 <= n < 2 ^ 63 -> strtol (decimal n) = n.
Proof.
  intros Hn. destruct (decimal_read 20 n ltac:(lia) ltac:(lia)) as (_ & H2 & H3 & _). destruct (decimal_plain n Hn) as [E1 E2].
  unfold strtol. rewrite E1, E2. unfold decimal. set (s := decimal_digits 20 n []) in *.
  destruct (bool_decide (head s = Some 48)) eqn:Eh.
  - apply bool_decide_eq_true in Eh. specialize (H3 Eh). subst n. by vm_compute.
  - apply bool_decide_eq_false in Eh. assert (hex_prefix s = false) as ->.
    { destruct s as [|z [|x [|d l]]]; try done. cbn in *. destruct (Z.eqb_spec z 48) as [->|]; [by destruct Eh|done]. }
    rewrite H2. lia.
Qed.

Lemma stoi_decimal n : 0 <= n < 2 ^ 31 -> stoi (decimal n) = Ok n.
Proof.
  intros Hn. unfold stoi. destruct (decimal_plain n ltac:(lia)) as [-> ->].
  destruct (decimal_read 20 n ltac:(lia) ltac:(lia)) as (_ & _ & _ & H4). fold (decimal n) in H4.
  pose proof (take_decimal n [] ltac:(lia) ltac:(done)) as E. rewrite app_nil_r in E. rewrite E.
  rewrite (proj2 (Z.eqb_neq _ _)), (proj2 (Z.ltb_ge _ _)), (proj2 (Z.leb_gt _ _)) by lia. done.
Qed.

(** ** Loss rates *)

(** Shifting right: the quotient, and nothing is lost of a multiple. *)
Lemma shr_1_spec m r s : 0 <= m ->
  shr_m (shr_1 (Build_shr_record m r s)) = m / 2 /\
  (m mod 2 = 0 -> shr_r (shr_1 (Build_shr_record m r s)) = false) /\
  shr_s (shr_1 (Build_shr_record m r s)) = r || s.
Proof.
  intros Hm. destruct m as [|[p|p|]|p]; [done| | |done|lia]; cbn -[Z.div Z.modulo].
  - split_and!; [|intros H|done].
    + rewrite Pos2Z.inj_xI. rewrite Z.mul_comm, Z.div_add_l by lia. by rewrite Z.add_0_r.
    + rewrite Pos2Z.inj_xI in H. rewrite Z.mul_comm, Z.add_comm, Z.mod_add in H by lia. done.
  - split_and!; [|done|done]. rewrite Pos2Z.inj_xO, Z.mul_comm, Z.div_mul by lia. done.
Qed.

Lemma iter_pos_nat {A} (f : A -> A) p x : iter_pos f p x = Nat.iter (Pos.to_nat p) f x.
Proof.
  revert x. induction p as [p IH|p IH|]; intros x; cbn [iter_pos]; rewrite ?IH.
  - rewrite Pos2Nat.inj_xI. rewrite <- Nat.iter_add. replace (S (2 * Pos.to_nat p)) with (Pos.to_nat p + Pos.to_nat p + 1)%nat by lia.
    by rewrite (Nat.iter_add (_ + _) 1).
  - rewrite Pos2Nat.inj_xO. rewrite <- Nat.iter_add. f_equal. lia.
  - done.
Qed.

Lemma shr_iter n m : 0 <= m ->
  let R := Nat.iter n shr_1 (Build_shr_record m false false) in
  shr_m R = m / 2 ^ Z.of_nat n /\ (m mod 2 ^ Z.of_nat n = 0 -> shr_r R = false /\ shr_s R = false).
Proof.
  intros Hm. induction n as [|n IH]; [by rewrite Z.div_1_r|]. cbn zeta in *. cbn [Nat.iter].
  change (Nat.iter (S n) shr_1 ?x) with (shr_1 (Nat.iter n shr_1 x)).
  destruct (Nat.iter n shr_1 (Build_shr_record m false false)) as [M r b]. cbn [shr_m shr_r shr_s] in IH. destruct IH as [-> I2].
  assert (0 < 2 ^ Z.of_nat n) as Hp by (apply Z.pow_pos_nonneg; lia).
  destruct (shr_1_spec (m / 2 ^ Z.of_nat n) r b) as (S1 & S2 & S3); [apply Z.div_pos; lia|].
  rewrite Nat2Z.inj_succ, Z.pow_succ_r by lia. rewrite (Z.mul_comm 2). split; [by rewrite S1, Z.div_div by lia|].
  intros H. rewrite Z.rem_mul_r in H by lia. pose proof (Z.mod_pos_bound m (2 ^ Z.of_nat n) Hp).
  pose proof (Z.mod_pos_bound (m / 2 ^ Z.of_nat n) 2 ltac:(lia)).
  assert (m mod 2 ^ Z.of_nat n = 0) as E1 by nia. assert ((m / 2 ^ Z.of_nat n) mod 2 = 0) as E2 by nia.
  destruct (I2 E1) as [-> ->]. by rewrite S3, S2.
Qed.

(** Rounding to a coarser grid does not pass a point of that grid. *)
Lemma shr_round_bound m e n N : 0 <= m -> m <= N * 2 ^ Z.max 0 n ->
  let '(mrs, e') := shr (Build_shr_record m false false) e n in
  e' = e + Z.max 0 n /\ 0 <= shr_m mrs <= N /\ 0 <= round_nearest_even (shr_m mrs) (loc_of_shr_record mrs) <= N.
Proof.
  intros Hm HN. destruct n as [|p|p]; cbn [shr].
  - rewrite Z.max_id, Z.pow_0_r in HN. cbn. lia.
  - rewrite Z.max_r in HN |- * by lia. split; [done|]. rewrite iter_pos_nat.
    destruct (shr_iter (Pos.to_nat p) m Hm) as [S1 S2]. rewrite positive_nat_Z in *.
    assert (0 < 2 ^ Zpos p) as Hp by (apply Z.pow_pos_nonneg; lia).
    destruct (Nat.iter _ _ _) as [M r b]. cbn [shr_m shr_r shr_s] in *. subst M.
    pose proof (Z.div_mod m (2 ^ Zpos p) ltac:(lia)) as Hdm. pose proof (Z.mod_pos_bound m (2 ^ Zpos p) Hp) as Hmod.
    assert (0 <= m / 2 ^ Zpos p) as Hq0 by (apply Z.div_pos; lia).
    destruct (Z.eq_dec (m mod 2 ^ Zpos p) 0) as [E|E].
    + destruct (S2 E) as [-> ->]. cbn. nia.
    + assert (m / 2 ^ Zpos p < N) as Hlt by nia. cbn. destruct r, b; cbn; try destruct (Z.even _); lia.
  - rewrite Z.max_l in HN |- * by lia. rewrite Z.pow_0_r in HN. cbn. lia.
Qed.

Lemma digits2_pos_low p : 2 ^ (Zpos (digits2_pos p) - 1) <= Zpos p.
Proof.
  induction p as [p IH|p IH|]; cbn [digits2_pos]; [| |done];
    (rewrite Pos2Z.inj_succ; replace (Z.succ (Zpos (digits2_pos p)) - 1) with (Z.succ (Zpos (digits2_pos p) - 1)) by lia;
     rewrite Z.pow_succ_r by lia; lia).
Qed.

Lemma Zdigits2_bound m k : 0 <= m < 2 ^ k -> 0 <= k -> 0 <= Zdigits2 m <= k.
Proof.
  intros Hm Hk. destruct m as [|p|p]; [cbn; lia| |lia]. cbn [Zdigits2]. pose proof (digits2_pos_low p) as H. split; [lia|].
  destruct (Z.le_gt_cases (Zpos (digits2_pos p)) k) as [|Hgt]; [done|exfalso].
  assert (2 ^ k <= 2 ^ (Zpos (digits2_pos p) - 1)) by (apply Z.pow_le_mono_r; lia). lia.
Qed.

(** One rounding of a number that is at most 65535. *)
Lemma shr_fexp_u16 m e : 0 <= m -> e <= 0 -> m <= 65535 * 2 ^ (- e) ->
  let '(mrs, e') := shr_fexp f32_prec f32_emax m e loc_Exact in
  e' <= 0 /\ 0 <= shr_m mrs <= 65535 * 2 ^ (- e') /\
  0 <= round_nearest_even (shr_m mrs) (loc_of_shr_record mrs) <= 65535 * 2 ^ (- e').
Proof.
  intros Hm He Hle. unfold shr_fexp. cbn [shr_record_of_loc]. assert (0 < 2 ^ (- e)) as Hpe by (apply Z.pow_pos_nonneg; lia).
  destruct (Zdigits2_bound m (16 + - e)) as [D1 D2]; [split; [done|]; rewrite Z.pow_add_r by lia; lia|lia|].
  set (n := fexp f32_prec f32_emax (Zdigits2 m + e) - e).
  assert (e + Z.max 0 n <= 0) as Hn by (unfold n, fexp, emin, f32_prec, f32_emax; lia).
  pose proof (shr_round_bound m e n (65535 * 2 ^ (- (e + Z.max 0 n))) Hm) as H.
  destruct (shr (Build_shr_record m false false) e n) as [mrs e'].
  destruct H as (-> & H1 & H2); [|done]. rewrite <- Z.mul_assoc, <- Z.pow_add_r by lia.
  by replace (- (e + Z.max 0 n) + Z.max 0 n) with (- e) by lia.
Qed.

(** What is at most 65535 becomes a number of sixteen bits. *)
Lemma round_u16 m e : 0 <= m -> e <= 0 -> m <= 65535 * 2 ^ (- e) ->
  exists n, u16_of_float (binary_round_aux f32_prec f32_emax false m e loc_Exact) = Ok n /\ 0 <= n <= 65535.
Proof.
  intros Hm He Hle. unfold binary_round_aux. pose proof (shr_fexp_u16 m e Hm He Hle) as H1.
  destruct (shr_fexp f32_prec f32_emax m e loc_Exact) as [mrs1 e1]. destruct H1 as (He1 & _ & H1). set (m1 := round_nearest_even _ _) in *.
  pose proof (shr_fexp_u16 m1 e1 (proj1 H1) He1 (proj2 H1)) as H2.
  destruct (shr_fexp f32_prec f32_emax m1 e1 loc_Exact) as [mrs2 e2]. destruct H2 as (He2 & H2 & _).
  assert (0 < 2 ^ (- e2)) as Hp by (apply Z.pow_pos_nonneg; lia).
  destruct (shr_m mrs2) as [|p|p]; [by exists 0| |lia]. rewrite (proj2 (Z.leb_le e2 _)) by (unfold f32_prec, f32_emax; lia).
  unfold u16_of_float. destruct (Z.leb_spec 0 e2).
  - assert (e2 = 0) as -> by lia. rewrite Z.pow_0_r in *. rewrite (proj2 (Z.ltb_lt _ _)) by lia. eexists. split; [done|]. lia.
  - assert (0 <= Zpos p / 2 ^ (- e2) <= 65535) as Hq.
    { split; [apply Z.div_pos; lia|]. apply Z.div_le_upper_bound; lia. }
    rewrite (proj2 (Z.ltb_lt _ _)) by lia. by eexists.
Qed.

(** A number between 0 and 1. *)
Definition unit_float (x : spec_float) : Prop :=
  match x with
  | S754_zero _ => True
  | S754_finite false m e => e <= 0 /\ Zpos m <= 2 ^ (- e)
  | _ => False
  end.

(** C28.  A loss rate between 0 and 1, as the options of [tcp_ipv4] and [tcp_udp] ask for
    it, is turned into a number of sixteen bits: neither the rounding of the product
    nor the cast can make it too big. *)
Theorem loss_rate_in_range arg : unit_float (strtof arg) -> exists n, loss_rate arg = Ok n /\ 0 <= n <= 65535.
Proof.
  intros Hx. unfold loss_rate. change float_of_u16_max with (S754_finite false 16776960 (-8)).
  destruct (strtof arg) as [s| | |[] m e]; try done; [by exists 0|]. destruct Hx as [He Hm].
  cbn [SFmul xorb]. rewrite Pos2Z.inj_mul. apply round_u16; [lia|lia|].
  replace (- (-8 + e)) with (8 + - e) by lia. rewrite Z.pow_add_r by lia. lia.
Qed.

Lemma loss_rate_in_range_witness : unit_float (strtof (string_bytes "0.25")) /\
  exists n, loss_rate (string_bytes "0.25") = Ok n /\ 0 <= n <= 65535.
Proof.
  assert (unit_float (strtof (string_bytes "0.25"))) as H by (vm_compute; split; congruence).
  split; [exact H|]. exact (loss_rate_in_range (string_bytes "0.25") H).
Defined.

(** ** Where the bytes are in a hexdump *)

Lemma land_15 n : Z.land n 15 = n mod 16.
Proof. change 15 with (Z.ones 4). by rewrite Z.land_ones. Qed.

Lemma land_1 n : Z.land n 1 = n mod 2.
Proof. change 1 with (Z.ones 1) at 1. by rewrite Z.land_ones. Qed.

Lemma hex_digits_len fuel n acc k : 0 <= n < 16 ^ Z.of_nat k -> (0 < k <= fuel)%nat ->
  zlen acc < zlen (hex_digits fuel n acc) <= zlen acc + Z.of_nat k.
Proof.
  revert n acc k. induction fuel as [|fuel IH]; intros n acc k Hn Hk; [lia|]. cbn [hex_digits].
  destruct (Z.ltb_spec n 16) as [|H16]; [rewrite zlen_cons; lia|]. destruct k as [|k]; [lia|].
  rewrite Nat2Z.inj_succ, Z.pow_succ_r in Hn by lia. pose proof (Z.div_mod n 16 ltac:(lia)). pose proof (Z.mod_pos_bound n 16 ltac:(lia)).
  assert (0 <= n / 16 < 16 ^ Z.of_nat k) as Hq by lia. assert (1 <= n / 16) by lia.
  assert (0 < k)%nat by (destruct k; [cbn in Hq; lia|lia]).
  specialize (IH (n / 16) (hex_digit (n mod 16) :: acc) k Hq ltac:(lia)). rewrite zlen_cons in IH. lia.
Qed.

Lemma hex_padded_len width n : 0 < width <= 16 -> 0 <= n < 16 ^ width -> zlen (hex_padded width n) = width.
Proof.
  intros Hw Hn. unfold hex_padded. pose proof (hex_digits_len 16 n [] (Z.to_nat width)) as H. rewrite Z2Nat.id in H by lia.
  specialize (H Hn ltac:(lia)). change (zlen (@nil Z)) with 0 in H. rewrite zlen_app, zlen_replicate. lia.
Qed.

(** The place of the byte at [i], in lines of sixteen. *)
Definition place (indent i : Z) : Z := (i / 16) * (indent + 73) + indent + 13 + 2 * (i mod 16) + (i mod 16) / 2.

(** Where the text for the byte at [i] starts. *)
Definition text_start (indent i : Z) : Z := if i =? 0 then 0 else place indent (i - 1) + 2.

(** How many characters of the line are there before the byte at [i]. *)
Definition line_chars (i : Z) : Z := if i =? 0 then 0 else (i - 1) mod 16 + 1.

(** Sixteen bytes to a line, two and a half places to a byte. *)
Lemma place_mono indent p i : 0 <= indent -> 0 <= p < i -> place indent p + 2 <= place indent i.
Proof.
  intros Hind Hp. unfold place.
  pose proof (Z.div_mod p 16 ltac:(lia)). pose proof (Z.mod_pos_bound p 16 ltac:(lia)).
  pose proof (Z.div_mod i 16 ltac:(lia)). pose proof (Z.mod_pos_bound i 16 ltac:(lia)).
  pose proof (Z.div_mod (p mod 16) 2 ltac:(lia)). pose proof (Z.mod_pos_bound (p mod 16) 2 ltac:(lia)).
  pose proof (Z.div_mod (i mod 16) 2 ltac:(lia)). pose proof (Z.mod_pos_bound (i mod 16) 2 ltac:(lia)).
  destruct (Z.eq_dec (p / 16) (i / 16)) as [E|E]; [rewrite E in *; lia|].
  assert ((p / 16 + 1) * (indent + 73) <= i / 16 * (indent + 73)) by (apply Z.mul_le_mono_nonneg_r; lia). lia.
Qed.

(** What comes before the byte at [p]. *)
Definition lead_len (indent p : Z) : Z :=
  if p mod 16 =? 0 then (if p =? 0 then 0 else 4 + 16 + 1) + indent + 13 else if p mod 2 =? 0 then 1 else 0.

Lemma place_lead indent p : 0 <= p -> place indent p - text_start indent p = lead_len indent p.
Proof.
  intros Hp. unfold lead_len, text_start. destruct (Z.eqb_spec p 0) as [->|H0]; [unfold place; change (0 mod 16) with 0; change (0 / 16) with 0; change (0 / 2) with 0; cbn [Z.eqb]; lia|]. unfold place.
  pose proof (Z.div_mod p 16 ltac:(lia)) as D1. pose proof (Z.mod_pos_bound p 16 ltac:(lia)) as M1.
  pose proof (Z.div_mod (p mod 16) 2 ltac:(lia)). pose proof (Z.mod_pos_bound (p mod 16) 2 ltac:(lia)).
  destruct (Z.eqb_spec (p mod 16) 0) as [E|E].
  - assert ((p - 1) / 16 = p / 16 - 1) as -> by (symmetry; apply (Z.div_unique _ _ _ 15); lia).
    assert ((p - 1) mod 16 = 15) as -> by (symmetry; apply (Z.mod_unique _ _ (p / 16 - 1)); lia).
    rewrite E. change (0 / 2) with 0. change (15 / 2) with 7. lia.
  - assert ((p - 1) / 16 = p / 16) as -> by (symmetry; apply (Z.div_unique _ _ _ (p mod 16 - 1)); lia).
    assert ((p - 1) mod 16 = p mod 16 - 1) as -> by (symmetry; apply (Z.mod_unique _ _ (p / 16)); lia).
    assert (p mod 2 = (p mod 16) mod 2) as -> by (symmetry; apply Z.mod_mod_divide; by exists 8).
    pose proof (Z.div_mod (p mod 16 - 1) 2 ltac:(lia)). pose proof (Z.mod_pos_bound (p mod 16 - 1) 2 ltac:(lia)).
    destruct (Z.eqb_spec ((p mod 16) mod 2) 0); lia.
Qed.

Lemma line_chars_next p : 0 <= p -> line_chars (p + 1) = p mod 16 + 1.
Proof. intros Hp. unfold line_chars. rewrite (proj2 (Z.eqb_neq _ _)) by lia. by replace (p + 1 - 1) with p by lia. Qed.

Lemma line_chars_at p : 0 < p -> line_chars p = if p mod 16 =? 0 then 16 else p mod 16.
Proof.
  intros Hp. unfold line_chars. rewrite (proj2 (Z.eqb_neq _ _)) by lia.
  pose proof (Z.div_mod p 16 ltac:(lia)). pose proof (Z.mod_pos_bound p 16 ltac:(lia)). destruct (Z.eqb_spec (p mod 16) 0) as [E|E].
  - by rewrite <- (Z.mod_unique (p - 1) 16 (p / 16 - 1) 15) by lia.
  - rewrite <- (Z.mod_unique (p - 1) 16 (p / 16) (p mod 16 - 1)) by lia. lia.
Qed.

Lemma hexdump_from_places indent p pchars data i :
  0 <= indent -> 0 <= p -> p + zlen data < 2 ^ 31 -> Forall byte_ok data -> zlen pchars = line_chars p ->
  p <= i < p + zlen data ->
  slice (place indent i - text_start indent p) 2 (hexdump_from (spaces indent) p pchars data) =
    hex_padded 2 (default 0 (head (zdrop (i - p) data))).
Proof.
  intros Hind. revert p pchars. induction data as [|c data IH]; intros p pchars Hp Hlen Hb Hpc Hi; [change (zlen []) with 0 in Hi; lia|].
  apply Forall_cons in Hb as [Hc Hb]. rewrite zlen_cons in *. pose proof (zlen_nonneg data) as Hz. cbn [hexdump_from]. rewrite land_15, land_1.
  set (lp := if p mod 16 =? 0 then _ else _).
  assert (zlen (fst lp) = place indent p - text_start indent p /\ zlen (snd lp) + 1 = line_chars (p + 1)) as [Hlead Hpc'].
  { rewrite place_lead, line_chars_next by done. unfold lp, lead_len. destruct (Z.eqb_spec (p mod 16) 0) as [E|E].
    - assert (zlen (hex_padded 8 p) = 8) as H8 by (apply hex_padded_len; lia). destruct (Z.eqb_spec p 0) as [->|H0]; cbn [negb fst snd].
      + rewrite !zlen_app, H8. unfold spaces. rewrite zlen_replicate. change (zlen []) with 0. change (zlen (string_bytes ":    ")) with 5.
        split; [lia|]. rewrite Hpc. done.
      + rewrite line_chars_at, E in Hpc by lia. cbn in Hpc. rewrite !zlen_app, H8. unfold spaces. rewrite !zlen_replicate. change (zlen (string_bytes ":    ")) with 5.
        destruct pchars; [done|]. cbn [pchars_str]. rewrite Hpc. change (zlen [10]) with 1. change (zlen []) with 0. lia.
    - assert (0 < p) as Hp0 by (destruct (Z.eq_dec p 0) as [->|]; [done|lia]). rewrite line_chars_at in Hpc by done.
      rewrite (proj2 (Z.eqb_neq _ _) E) in Hpc. destruct (p mod 2 =? 0); cbn [fst snd]; rewrite Hpc; done. }
  destruct lp as [lead pchars']. cbn [fst snd] in *. assert (zlen (hex_padded 2 c) = 2) as H2 by (apply hex_padded_len; [lia|exact Hc]).
  unfold slice in *. destruct (Z.eq_dec i p) as [->|Hne].
  - rewrite Z.sub_diag, <- Hlead, zdrop_app_ge, Z.sub_diag, !zdrop_le0 by lia. cbn [head default]. by rewrite ztake_app_le, ztake_ge by lia.
  - assert (text_start indent (p + 1) = text_start indent p + zlen lead + 2) as Ets.
    { unfold text_start at 1. rewrite (proj2 (Z.eqb_neq (p + 1) 0)) by lia. replace (p + 1 - 1) with p by lia. lia. }
    pose proof (place_mono indent p i Hind ltac:(lia)). rewrite zdrop_app_ge, zdrop_app_ge by lia.
    replace (place indent i - text_start indent p - zlen lead - zlen (hex_padded 2 c)) with (place indent i - text_start indent (p + 1)) by lia.
    rewrite IH; [|lia|lia|done|rewrite zlen_app; change (zlen [_]) with 1; lia|lia].
    replace (i - p) with (1 + (i - (p + 1))) by lia. rewrite <- zdrop_zdrop by lia. done.
Qed.

(** Every byte of the data is in its [hexdump], at the place of its index. *)
Lemma hexdump_shows data indent i : 0 <= indent -> zlen data < 2 ^ 31 -> Forall byte_ok data -> 0 <= i < zlen data ->
  slice (place indent i) 2 (hexdump data indent) = hex_padded 2 (default 0 (head (zdrop i data))).
Proof.
  intros Hind Hlen Hb Hi. pose proof (hexdump_from_places indent 0 [] data i Hind ltac:(lia) ltac:(lia) Hb eq_refl ltac:(lia)) as H.
  by rewrite !Z.sub_0_r in H.
Qed.
