(* ===== verification/WrappingIntegers.v ===== *)
(** Sequence numbers: [WrappingInt32] with [wrap] and [unwrap]
    (src/libsponge/wrapping_integers.hh and .cc).

    The theorems say that [unwrap] returns an absolute sequence number that wraps
    to its argument and that it is the closest to the checkpoint, unless an
    addition near 2^64 loses its carry, and that it undoes [wrap] for every number
    less than 2^31 away from the checkpoint. *)

From S2P Require Import Prelude.

Record WrappingInt32 : Type := MkWrappingInt32 { raw_value : Z }.

#[export] Instance WrappingInt32_eq_dec : EqDecision WrappingInt32.
Proof. solve_decision. Defined.

Definition WrappingInt32_ok (a : WrappingInt32) : Prop := 0 <= raw_value a < 2 ^ 32.

(** [int32_t operator-(WrappingInt32 a, WrappingInt32 b)] *)
Definition WrappingInt32_diff (a b : WrappingInt32) : Z :=
  i32 (u32 (raw_value a - raw_value b)).

Definition WrappingInt32_eqb (a b : WrappingInt32) : bool := raw_value a =? raw_value b.

(** [operator+(WrappingInt32 a, uint32_t b)] *)
Definition WrappingInt32_add (a : WrappingInt32) (b : Z) : WrappingInt32 :=
  MkWrappingInt32 (u32 (raw_value a + b)).

(** [operator-(WrappingInt32 a, uint32_t b)] *)
Definition WrappingInt32_sub (a : WrappingInt32) (b : Z) : WrappingInt32 :=
  WrappingInt32_add a (u32 (- b)).

Definition wrap (n : Z) (isn : WrappingInt32) : WrappingInt32 :=
  let relative_seqno := u64 (n + raw_value isn) in
  let seqno := u32 (relative_seqno mod 2 ^ 32) in
  MkWrappingInt32 seqno.

Definition unwrap (n isn : WrappingInt32) (checkpoint : Z) : Z :=
  let offset :=
    if 0 <=? WrappingInt32_diff n isn
    then u64 (WrappingInt32_diff n isn)
    else u64 (2 ^ 32 - u64 (WrappingInt32_diff isn n)) in
  let offset := u64 (offset + u64 (Z.shiftl (Z.shiftr checkpoint 32) 32)) in
  let offset := if offset <? checkpoint then u64 (offset + 2 ^ 32) else offset in
  if (2 ^ 31 <? u64 (offset - checkpoint)) && (2 ^ 32 <=? offset)
  then u64 (offset - 2 ^ 32)
  else offset.

(** The sequence numbers that the code handles stay this far below 2^64. *)
Definition seq_limit : Z := 2 ^ 64 - 2 ^ 33.

Lemma wrap_ok n isn : WrappingInt32_ok (wrap n isn).
Proof. apply u32_range. Qed.

Lemma wrap_raw n isn : raw_value (wrap n isn) = (n + raw_value isn) mod 2 ^ 32.
Proof. unfold wrap. simpl. wrap_lia. Qed.

(** The first number from the checkpoint on that wraps to [n] does not fit into
    64 bits, or the code, which goes one turn too far for a [n] that is 2^31 away
    from the [isn], comes to one that does not. *)
Definition carry_lost (n isn : WrappingInt32) (cp : Z) : bool :=
  let o := (raw_value n - raw_value isn) mod 2 ^ 32 in
  (2 ^ 64 - 2 ^ 32 <=? cp) && ((o <? cp mod 2 ^ 32) || (o =? 2 ^ 31)).

(** [unwrap] in closed form: the first number from [checkpoint - 2^31] on that
    wraps to [n], or the smallest such number when that one is negative or the
    carry is lost. *)
Lemma unwrap_total n isn cp :
  WrappingInt32_ok n -> WrappingInt32_ok isn -> 0 <= cp < 2 ^ 64 ->
  let d := (raw_value n - raw_value isn - cp) mod 2 ^ 32 in
  unwrap n isn cp =
    if carry_lost n isn cp then (raw_value n - raw_value isn) mod 2 ^ 32
    else if (2 ^ 31 <? d) && (2 ^ 32 <=? cp + d) then cp + d - 2 ^ 32 else cp + d.
Proof.
  unfold WrappingInt32_ok, unwrap, WrappingInt32_diff, carry_lost.
  destruct n as [n], isn as [m]. simpl raw_value. intros Hn Hm Hcp.
  rewrite Z.shiftl_mul_pow2, Z.shiftr_div_pow2 by lia.
  assert (exists hi lo, cp = hi * 2 ^ 32 + lo /\ 0 <= lo < 2 ^ 32 /\ 0 <= hi < 2 ^ 32 /\
    cp / 2 ^ 32 = hi /\ cp mod 2 ^ 32 = lo) as (hi & lo & Hc & Hlo & Hhi & -> & ->).
  { exists (cp / 2 ^ 32), (cp mod 2 ^ 32). wrap_lia. }
  assert (exists o, 0 <= o < 2 ^ 32 /\ u32 (n - m) = o /\ (n - m) mod 2 ^ 32 = o /\
    (n - m - cp) mod 2 ^ 32 = (o - lo) mod 2 ^ 32 /\ u32 (m - n) = (- o) mod 2 ^ 32)
    as (o & Ho & -> & -> & -> & ->).
  { exists (u32 (n - m)). wrap_lia. }
  assert ((o - lo) mod 2 ^ 32 = if lo <=? o then o - lo else o - lo + 2 ^ 32) as ->.
  { destruct (Z.leb_spec lo o); wrap_lia. }
  assert (i32 o = if o <? 2 ^ 31 then o else o - 2 ^ 32) as ->.
  { destruct (Z.ltb_spec o (2 ^ 31)); wrap_lia. }
  assert (i32 ((- o) mod 2 ^ 32) = if o <=? 2 ^ 31 then (if o =? 2 ^ 31 then - 2 ^ 31 else - o)
                                  else 2 ^ 32 - o) as ->.
  { destruct (Z.leb_spec o (2 ^ 31)), (Z.eqb_spec o (2 ^ 31)); wrap_lia. }
  assert (hi = 2 ^ 32 - 1 \/ hi < 2 ^ 32 - 1) as [->|Hh] by lia.
  - rewrite (proj2 (Z.leb_le (2 ^ 64 - 2 ^ 32) _)) by lia. destruct (Z.eqb_spec o (2 ^ 31)) as [->|Ho1].
    + replace (u64 (_ + u64 _)) with (2 ^ 31) by reflexivity. cases_if; b2p; wsimpl; try lia. all: wrap_lia.
    + rewrite orb_false_r. cases_if; b2p; wsimpl; try lia. all: wrap_lia.
  - rewrite (proj2 (Z.leb_gt (2 ^ 64 - 2 ^ 32) _)) by lia. cbn [andb].
    cases_if; b2p; subst; try lia; wsimpl; try lia.
    all: change (u64 (2 ^ 32 - u64 (- 2 ^ 31))) with (2 ^ 32 + 2 ^ 31) in *; wsimpl; lia.
Qed.

Lemma unwrap_closed n isn cp :
  WrappingInt32_ok n -> WrappingInt32_ok isn -> 0 <= cp < seq_limit ->
  let d := (raw_value n - raw_value isn - cp) mod 2 ^ 32 in
  unwrap n isn cp =
    if (2 ^ 31 <? d) && (2 ^ 32 <=? cp + d) then cp + d - 2 ^ 32 else cp + d.
Proof.
  unfold seq_limit. intros Hn Hm Hcp. rewrite unwrap_total by (done || lia). unfold carry_lost.
  by rewrite (proj2 (Z.leb_gt _ _)) by lia.
Qed.

(** The numbers that wrap to [n]. *)
Lemma wrap_iff n isn cp y :
  WrappingInt32_ok n -> WrappingInt32_ok isn -> 0 <= y < 2 ^ 64 ->
  wrap y isn = n <-> exists j, y = cp + (raw_value n - raw_value isn - cp) mod 2 ^ 32 + j * 2 ^ 32.
Proof.
  destruct n as [n], isn as [m]. unfold WrappingInt32_ok. simpl raw_value. intros Hn Hm Hy. split.
  - intros Hw. apply (f_equal raw_value) in Hw. rewrite wrap_raw in Hw. simpl in Hw.
    exists ((y - cp - (n - m - cp) mod 2 ^ 32) / 2 ^ 32). subst. wrap_lia.
  - intros [j ->]. apply (f_equal MkWrappingInt32). unfold wrap in *. simpl raw_value. wrap_lia.
Qed.

(** C27.  [unwrap] returns a 64-bit number that wraps to [n].  For every checkpoint
    below [2^64 - 2^32], and beyond unless the carry is lost, it is the closest to
    the checkpoint: no 64-bit number that wraps to [n] is strictly closer.  When the
    carry is lost it is the distance of [n] from the [isn], below [2^32] and so not
    the closest. *)
Theorem unwrap_closest n isn cp :
  WrappingInt32_ok n -> WrappingInt32_ok isn -> 0 <= cp < 2 ^ 64 ->
  0 <= unwrap n isn cp < 2 ^ 64 /\
  wrap (unwrap n isn cp) isn = n /\
  (cp < 2 ^ 64 - 2 ^ 32 -> carry_lost n isn cp = false) /\
  if carry_lost n isn cp then unwrap n isn cp = (raw_value n - raw_value isn) mod 2 ^ 32
  else forall y, 0 <= y < 2 ^ 64 -> wrap y isn = n -> Z.abs (unwrap n isn cp - cp) <= Z.abs (y - cp).
Proof.
  intros Hn Hm Hcp. pose proof (fun y => wrap_iff n isn cp y Hn Hm) as Hwrap. rewrite unwrap_total by done.
  set (d := (raw_value n - raw_value isn - cp) mod 2 ^ 32) in *.
  assert (0 <= d < 2 ^ 32) by (apply Z.mod_pos_bound; lia).
  assert (cp < 2 ^ 64 - 2 ^ 32 -> carry_lost n isn cp = false) as Hlost.
  { intros Hc. unfold carry_lost. by rewrite (proj2 (Z.leb_gt _ _)) by lia. }
  destruct (carry_lost n isn cp) eqn:El.
  { split; [wrap_lia|]. split; [|done]. apply Hwrap; [wrap_lia|]. unfold d.
    exists (((raw_value n - raw_value isn) mod 2 ^ 32 - cp - d) / 2 ^ 32). unfold d. wrap_lia. }
  assert (cp + d < 2 ^ 64 \/ 2 ^ 31 < d).
  { unfold carry_lost in El. unfold d in *. clear Hwrap Hlost. b2p; wrap_lia. }
  destruct ((2 ^ 31 <? d) && (2 ^ 32 <=? cp + d)) eqn:E; b2p; (split; [lia|]; split).
  - apply Hwrap; [lia|]. exists (-1). lia.
  - split; [done|]. intros y Hy [j ->]%Hwrap; [|done]. assert (j <= -1 \/ 0 <= j) by lia. lia.
  - apply Hwrap; [lia|]. exists 0. lia.
  - split; [done|]. intros y Hy [j ->]%Hwrap; [|done].
    assert (j <= -2 \/ j = -1 \/ j = 0 \/ 1 <= j) by lia. lia.
Qed.

Lemma unwrap_closest_witness :
  wrap (unwrap (MkWrappingInt32 5) (MkWrappingInt32 7) (2 ^ 33)) (MkWrappingInt32 7) = MkWrappingInt32 5 /\
  unwrap (MkWrappingInt32 7) (MkWrappingInt32 7) (2 ^ 64 - 1) = 0 /\
  wrap (2 ^ 64 - 2 ^ 32) (MkWrappingInt32 7) = MkWrappingInt32 7.
Proof.
  split; [apply unwrap_closest; unfold WrappingInt32_ok; simpl; lia|]. split; [|reflexivity].
  apply (unwrap_closest (MkWrappingInt32 7) (MkWrappingInt32 7) (2 ^ 64 - 1)); unfold WrappingInt32_ok; simpl; lia.
Defined.

Lemma unwrap_near n isn cp x :
  WrappingInt32_ok isn -> 0 <= cp < seq_limit -> 0 <= x < 2 ^ 64 ->
  n = wrap x isn -> - 2 ^ 31 < x - cp < 2 ^ 31 -> unwrap n isn cp = x.
Proof.
  intros Hm Hcp Hx -> Hd. rewrite (unwrap_closed _ isn cp) by (done || apply wrap_ok).
  rewrite wrap_raw. destruct isn as [m]. unfold WrappingInt32_ok, seq_limit in *. simpl in *.
  replace (((x + m) mod 2 ^ 32 - m - cp) mod 2 ^ 32)
    with (if 0 <=? x - cp then x - cp else x - cp + 2 ^ 32)
    by (destruct (Z.leb_spec 0 (x - cp)); wrap_lia).
  cases_if; b2p; lia.
Qed.

(** [unwrap] undoes [wrap] for every absolute sequence number less than
    2^31 away from the checkpoint. *)
Theorem unwrap_wrap_roundtrip x isn cp :
  WrappingInt32_ok isn -> 0 <= cp < seq_limit -> 0 <= x < 2 ^ 64 ->
  - 2 ^ 31 < x - cp < 2 ^ 31 -> unwrap (wrap x isn) isn cp = x.
Proof. intros. by apply unwrap_near. Qed.

Lemma unwrap_wrap_roundtrip_witness :
  unwrap (wrap (2 ^ 40 + 3) (MkWrappingInt32 4294967295)) (MkWrappingInt32 4294967295) (2 ^ 40) =
  2 ^ 40 + 3.
Proof. apply unwrap_wrap_roundtrip; unfold WrappingInt32_ok, seq_limit; simpl; lia. Defined.
