(* ===== verification/Buffers.v ===== *)
(** Reference-counted strings: [Buffer], [BufferList] and [BufferViewList]
    (src/libsponge/util/buffer.hh and .cc).

    The storage of a [Buffer] is shared but never written, so a [Buffer] is a
    value: the string it points to (or no string) and the offset of its first
    byte.  The theorems relate every operation to the string a buffer stands
    for, and prove that [remove_prefix] throws exactly when asked for more
    bytes than there are. *)

From S2P Require Import Prelude.

(** ** Buffer *)

Record Buffer : Type := MkBuffer {
  buf_storage : option bytes;
  buf_starting_offset : Z
}.

#[export] Instance Buffer_eq_dec : EqDecision Buffer.
Proof. solve_decision. Defined.

(** [Buffer() = default] *)
Definition Buffer_default : Buffer := MkBuffer None 0.

(** [Buffer(std::string &&str)] *)
Definition Buffer_of_string (str : bytes) : Buffer := MkBuffer (Some str) 0.

Definition Buffer_str (b : Buffer) : bytes :=
  match buf_storage b with
  | None => []
  | Some s => slice (buf_starting_offset b) (u64 (zlen s - buf_starting_offset b)) s
  end.

(** [str(size_t len)], without its assertion *)
Definition Buffer_str_len (b : Buffer) (len : Z) : bytes :=
  match buf_storage b with
  | None => []
  | Some s => slice (buf_starting_offset b) len s
  end.

Definition Buffer_size (b : Buffer) : Z := zlen (Buffer_str b).

(** The assertion of [str(size_t len)], true when a build with assertions goes
    past it: [size() <= len]. *)
Definition Buffer_str_len_assert (b : Buffer) (len : Z) : bool :=
  match buf_storage b with
  | None => true
  | Some _ => Buffer_size b <=? len
  end.

(** [str().at(n)]: [std::string_view::at] throws outside of the view. *)
Definition Buffer_at (b : Buffer) (n : Z) : result Z :=
  if n <? Buffer_size b
  then match Buffer_str b !! Z.to_nat n with
       | Some c => Ok c
       | None => Throw out_of_range
       end
  else Throw out_of_range.

Definition Buffer_copy (b : Buffer) : bytes := Buffer_str b.

Definition Buffer_remove_prefix (b : Buffer) (n : Z) : result Buffer :=
  if zlen (Buffer_str b) <? n then Throw out_of_range
  else
    let offset := u64 (buf_starting_offset b + n) in
    let storage :=
      match buf_storage b with
      | Some s => if offset =? zlen s then None else Some s
      | None => None
      end in
    Ok (MkBuffer storage offset).

(** ** BufferList *)

(** The deque of a [BufferList]. *)
Definition BufferList : Type := list Buffer.

Definition BufferList_default : BufferList := [].
Definition BufferList_of_Buffer (buffer : Buffer) : BufferList := [buffer].
Definition BufferList_of_string (str : bytes) : BufferList := [] ++ [Buffer_of_string str].

Definition BufferList_append (l other : BufferList) : BufferList := l ++ other.

(** [operator Buffer()] *)
Definition BufferList_to_Buffer (l : BufferList) : result Buffer :=
  match l with
  | [] => Ok Buffer_default
  | [b] => Ok b
  | _ => Throw runtime_error
  end.

Fixpoint BufferList_concatenate_from (ret : bytes) (l : BufferList) : bytes :=
  match l with
  | [] => ret
  | buf :: l => BufferList_concatenate_from (ret ++ Buffer_str buf) l
  end.

Definition BufferList_concatenate (l : BufferList) : bytes := BufferList_concatenate_from [] l.

Fixpoint BufferList_size_from (ret : Z) (l : BufferList) : Z :=
  match l with
  | [] => ret
  | buf :: l => BufferList_size_from (u64 (ret + Buffer_size buf)) l
  end.

Definition BufferList_size (l : BufferList) : Z := BufferList_size_from 0 l.

(** The [while (n > 0)] loop: each turn either ends it or pops a buffer. *)
Fixpoint BufferList_remove_prefix (l : BufferList) (n : Z) : result BufferList :=
  if 0 <? n then
    match l with
    | [] => Throw out_of_range
    | front :: rest =>
        if n <? zlen (Buffer_str front)
        then front' ← Buffer_remove_prefix front n; Ok (front' :: rest)
        else BufferList_remove_prefix rest (n - zlen (Buffer_str front))
    end
  else Ok l.

(** ** BufferViewList *)

(** The deque of string views. *)
Definition BufferViewList : Type := list bytes.

Definition BufferViewList_of_string (str : bytes) : BufferViewList := [str].
Definition BufferViewList_of_BufferList (buffers : BufferList) : BufferViewList :=
  map Buffer_str buffers.

(** [std::string_view::remove_prefix] drops the first [n] bytes. *)
Fixpoint BufferViewList_remove_prefix (l : BufferViewList) (n : Z) : result BufferViewList :=
  if 0 <? n then
    match l with
    | [] => Throw out_of_range
    | front :: rest =>
        if n <? zlen front
        then Ok (zdrop n front :: rest)
        else BufferViewList_remove_prefix rest (n - zlen front)
    end
  else Ok l.

Fixpoint BufferViewList_size_from (ret : Z) (l : BufferViewList) : Z :=
  match l with
  | [] => ret
  | buf :: l => BufferViewList_size_from (u64 (ret + zlen buf)) l
  end.

Definition BufferViewList_size (l : BufferViewList) : Z := BufferViewList_size_from 0 l.

(** An [iovec] is a base pointer and a length: here the bytes it points to. *)
Definition BufferViewList_as_iovecs (l : BufferViewList) : list (bytes * Z) :=
  map (fun x => (x, zlen x)) l.

(** ** Well-formed buffers *)

(** A string fits in memory and the offset lies inside it. *)
Definition Buffer_wf (b : Buffer) : Prop :=
  0 <= buf_starting_offset b < 2 ^ 64 /\
  forall s, buf_storage b = Some s -> buf_starting_offset b <= zlen s < 2 ^ 64.

Definition BufferList_wf (l : BufferList) : Prop := Forall Buffer_wf l.

(** The string a list of buffers stands for. *)
Definition flatten (l : BufferList) : bytes := concat (map Buffer_str l).

Lemma Buffer_str_eq b : Buffer_wf b ->
  Buffer_str b = match buf_storage b with None => [] | Some s => zdrop (buf_starting_offset b) s end.
Proof.
  intros [H1 H2]. unfold Buffer_str. destruct (buf_storage b) as [s|]; [|done].
  specialize (H2 s eq_refl). unfold slice. wsimpl. apply ztake_ge. zl.
Qed.

Lemma Buffer_size_bound b : Buffer_wf b -> 0 <= Buffer_size b < 2 ^ 64.
Proof.
  intros Hwf. unfold Buffer_size. rewrite Buffer_str_eq by done. destruct Hwf as [H1 H2].
  destruct (buf_storage b) as [s|]; zl. specialize (H2 s eq_refl). lia.
Qed.

Lemma Buffer_of_string_wf s : zlen s < 2 ^ 64 -> Buffer_wf (Buffer_of_string s).
Proof. intros. split; simpl; [lia|]. intros ? [= <-]. zl. Qed.

Lemma Buffer_of_string_str s : zlen s < 2 ^ 64 -> Buffer_str (Buffer_of_string s) = s.
Proof.
  intros. rewrite Buffer_str_eq by by apply Buffer_of_string_wf. simpl. by rewrite zdrop_le0.
Qed.

Lemma Buffer_default_wf : Buffer_wf Buffer_default.
Proof. split; simpl; [lia|]. done. Qed.

#[export] Hint Resolve Buffer_of_string_wf Buffer_default_wf : sponge.

Lemma Buffer_remove_prefix_ok b n :
  Buffer_wf b -> 0 <= n <= zlen (Buffer_str b) ->
  exists b', Buffer_remove_prefix b n = Ok b' /\ Buffer_wf b' /\ Buffer_str b' = zdrop n (Buffer_str b).
Proof.
  intros Hwf Hn. unfold Buffer_remove_prefix.
  destruct (Z.ltb_spec (zlen (Buffer_str b)) n); [lia|].
  rewrite Buffer_str_eq in * by done. destruct Hwf as [H1 H2].
  destruct (buf_storage b) as [s|] eqn:Es.
  - specialize (H2 s eq_refl). assert (buf_starting_offset b + n <= zlen s) by zl.
    rewrite (u64_small (_ + n)) by lia.
    destruct (Z.eqb_spec (buf_starting_offset b + n) (zlen s)) as [E|E]; eexists.
    + split; [done|]. split; [split; simpl; [lia|done]|].
      cbn. rewrite zdrop_zdrop by lia. rewrite E. by rewrite zdrop_ge by lia.
    + split; [done|]. split; [split; simpl; [lia|]; intros ? [= <-]; lia|].
      rewrite Buffer_str_eq by (split; simpl; [lia|]; intros ? [= <-]; lia).
      simpl. by rewrite zdrop_zdrop by lia.
  - zl. assert (n = 0) as -> by lia. eexists. split; [done|].
    rewrite Z.add_0_r. wsimpl. split; [by split|]. done.
Qed.

Lemma BufferList_of_string_inj s t : BufferList_of_string s = BufferList_of_string t -> s = t.
Proof. by intros [= ->]. Qed.

Lemma BufferList_concatenate_from_app l ret :
  BufferList_concatenate_from ret l = ret ++ flatten l.
Proof.
  revert ret. induction l as [|b l IH]; intros ret; simpl; [by rewrite app_nil_r|].
  rewrite IH. by rewrite <- app_assoc.
Qed.

Lemma BufferList_concatenate_flatten l : BufferList_concatenate l = flatten l.
Proof. apply BufferList_concatenate_from_app. Qed.

Lemma flatten_app l k : flatten (l ++ k) = flatten l ++ flatten k.
Proof. unfold flatten. by rewrite map_app, concat_app. Qed.

Lemma flatten_cons b l : flatten (b :: l) = Buffer_str b ++ flatten l.
Proof. done. Qed.

Lemma BufferList_size_from_flatten l ret :
  0 <= ret < 2 ^ 64 -> BufferList_size_from ret l = u64 (ret + zlen (flatten l)).
Proof.
  revert ret. induction l as [|b l IH]; intros ret Hr; cbn [BufferList_size_from].
  - unfold flatten. simpl. zl. rewrite Z.add_0_r. by wsimpl.
  - rewrite IH by apply u64_range. rewrite u64_idem_l, flatten_cons, zlen_app.
    f_equal. unfold Buffer_size. lia.
Qed.

Lemma BufferList_size_flatten l : zlen (flatten l) < 2 ^ 64 -> BufferList_size l = zlen (flatten l).
Proof.
  intros. unfold BufferList_size. rewrite BufferList_size_from_flatten by lia. zl. by wsimpl.
Qed.

Lemma BufferList_remove_prefix_ok l n :
  BufferList_wf l -> 0 <= n <= zlen (flatten l) ->
  exists l', BufferList_remove_prefix l n = Ok l' /\ BufferList_wf l' /\ flatten l' = zdrop n (flatten l).
Proof.
  revert n. induction l as [|b l IH]; intros n Hwf Hn; simpl.
  - unfold flatten in Hn. simpl in Hn. zl. destruct (Z.ltb_spec 0 n); [lia|].
    eexists. split; [done|]. split; [done|]. by rewrite zdrop_le0 by lia.
  - inversion_clear Hwf as [|? ? Hb Hl]. rewrite flatten_cons in *.
    destruct (Z.ltb_spec 0 n); [|eexists; split; [done|]; split; [by constructor|]; by rewrite zdrop_le0 by lia].
    destruct (Z.ltb_spec n (zlen (Buffer_str b))).
    + destruct (Buffer_remove_prefix_ok b n) as (b' & -> & Hb' & Hs); [done|lia|].
      eexists. split; [done|]. split; [by constructor|].
      rewrite flatten_cons, Hs, zdrop_app_le by lia. done.
    + destruct (IH (n - zlen (Buffer_str b))) as (l' & -> & Hl' & Hs); [done|zl|].
      eexists. split; [done|]. split; [done|]. rewrite Hs. rewrite zdrop_app_ge by lia. done.
Qed.

Lemma BufferList_remove_prefix_throws l n :
  zlen (flatten l) < n -> BufferList_remove_prefix l n = Throw out_of_range.
Proof.
  revert n. induction l as [|b l IH]; intros n Hn; simpl.
  - unfold flatten in Hn. simpl in Hn. zl. by destruct (Z.ltb_spec 0 n); [|lia].
  - rewrite flatten_cons in Hn. zl. destruct (Z.ltb_spec 0 n); [|lia].
    destruct (Z.ltb_spec n (zlen (Buffer_str b))); [lia|]. apply IH. lia.
Qed.

(** [BufferList::remove_prefix] discards exactly the first [n] bytes of the
    string the list stands for, and throws [out_of_range] exactly when the
    string is shorter than [n]. *)
Theorem BufferList_remove_prefix_spec l n :
  BufferList_wf l -> 0 <= n ->
  match BufferList_remove_prefix l n with
  | Ok l' => n <= zlen (BufferList_concatenate l) /\ BufferList_wf l' /\
             BufferList_concatenate l' = zdrop n (BufferList_concatenate l)
  | Throw e => zlen (BufferList_concatenate l) < n /\ e = out_of_range
  end.
Proof.
  intros Hwf Hn. rewrite !BufferList_concatenate_flatten.
  destruct (Z.le_gt_cases n (zlen (flatten l))).
  - destruct (BufferList_remove_prefix_ok l n) as (l' & -> & Hl' & Hs); [done|lia|].
    by rewrite !BufferList_concatenate_flatten.
  - by rewrite BufferList_remove_prefix_throws.
Qed.

Lemma BufferList_remove_prefix_spec_witness :
  match BufferList_remove_prefix [Buffer_of_string [1; 2]; Buffer_of_string [3; 4; 5]] 3 with
  | Ok l' => 3 <= 5 /\ BufferList_wf l' /\ BufferList_concatenate l' = [4; 5]
  | Throw e => 5 < 3 /\ e = out_of_range
  end.
Proof.
  apply (BufferList_remove_prefix_spec [Buffer_of_string [1; 2]; Buffer_of_string [3; 4; 5]] 3).
  - unfold BufferList_wf. repeat apply Forall_cons_2; [..|apply Forall_nil_2];
      by apply Buffer_of_string_wf.
  - lia.
Defined.

(** The view list obtained from a buffer list loses the same bytes. *)
Lemma BufferViewList_remove_prefix_ok l n :
  0 <= n <= zlen (concat l) ->
  exists l', BufferViewList_remove_prefix l n = Ok l' /\ concat l' = zdrop n (concat l).
Proof.
  revert n. induction l as [|b l IH]; intros n Hn; simpl in *.
  - zl. destruct (Z.ltb_spec 0 n); [lia|]. eexists. split; [done|]. by rewrite zdrop_le0 by lia.
  - destruct (Z.ltb_spec 0 n); [|eexists; split; [done|]; by rewrite zdrop_le0 by lia].
    destruct (Z.ltb_spec n (zlen b)).
    + eexists. split; [done|]. simpl. by rewrite zdrop_app_le by lia.
    + destruct (IH (n - zlen b)) as (l' & -> & Hs); [zl|].
      eexists. split; [done|]. rewrite Hs. by rewrite zdrop_app_ge by lia.
Qed.
