(* ===== verification/ByteStreams.v ===== *)
(** The flow-controlled in-memory byte stream [ByteStream]
    (src/libsponge/byte_stream.hh and .cc).

    [stream_spec] is the abstract stream: all the bytes accepted so far, the
    number of bytes already consumed, and the two flags; after the end of the input
    it accepts nothing.  The refinement theorem shows that every sequence of calls
    that does not write after [end_input] returns what the abstract stream returns
    and never throws; a build with assertions may stop at the assertion of
    [Buffer::str].  A write after [end_input] is accepted by the code.  The counters
    are 64-bit and wrap around; only their difference is used by the code. *)

From S2P Require Import Prelude Buffers.

Record ByteStream : Type := MkByteStream {
  bs_error : bool;
  bs_input_ended : bool;
  bs_capacity : Z;
  bs_bytes_written : Z;
  bs_bytes_read : Z;
  bs_buffer : BufferList
}.

Definition ByteStream_new (capacity : Z) : ByteStream :=
  MkByteStream false false capacity 0 0 BufferList_default.

Definition ByteStream_buffer_size (s : ByteStream) : Z :=
  u64 (bs_bytes_written s - bs_bytes_read s).

Definition ByteStream_remaining_capacity (s : ByteStream) : Z :=
  u64 (bs_capacity s - ByteStream_buffer_size s).

Definition ByteStream_buffer_empty (s : ByteStream) : bool := ByteStream_buffer_size s =? 0.

Definition ByteStream_input_ended (s : ByteStream) : bool := bs_input_ended s.

Definition ByteStream_eof (s : ByteStream) : bool :=
  bs_input_ended s && ByteStream_buffer_empty s.

Definition ByteStream_bytes_written (s : ByteStream) : Z := bs_bytes_written s.
Definition ByteStream_bytes_read (s : ByteStream) : Z := bs_bytes_read s.

Definition ByteStream_end_input (s : ByteStream) : ByteStream :=
  MkByteStream (bs_error s) true (bs_capacity s) (bs_bytes_written s) (bs_bytes_read s) (bs_buffer s).

Definition ByteStream_set_error (s : ByteStream) : ByteStream :=
  MkByteStream true (bs_input_ended s) (bs_capacity s) (bs_bytes_written s) (bs_bytes_read s)
    (bs_buffer s).

(** [_bytes_written += wc; _buffer.append(b);] *)
Definition ByteStream_push (s : ByteStream) (wc : Z) (b : Buffer) : ByteStream :=
  MkByteStream (bs_error s) (bs_input_ended s) (bs_capacity s) (u64 (bs_bytes_written s + wc))
    (bs_bytes_read s) (BufferList_append (bs_buffer s) (BufferList_of_Buffer b)).

(** [write(const std::string &data)] *)
Definition ByteStream_write (s : ByteStream) (data : bytes) : ByteStream * Z :=
  let data_size := zlen data in
  let wc := Z.min data_size (ByteStream_remaining_capacity s) in
  if wc =? data_size
  then (ByteStream_push s wc (Buffer_of_string data), wc)
  else (ByteStream_push s wc (Buffer_of_string (ztake wc data)), wc).

(** [write(std::string &&data)]: [data.resize(wc)] keeps the first [wc] bytes. *)
Definition ByteStream_write_move (s : ByteStream) (data : bytes) : ByteStream * Z :=
  let data_size := zlen data in
  let wc := Z.min data_size (ByteStream_remaining_capacity s) in
  (ByteStream_push s wc (Buffer_of_string (ztake wc data)), wc).

(** The [for] loop of [peek_output] over the segments of the buffer. *)
Fixpoint ByteStream_peek_loop (remain : Z) (ret : bytes) (segments : BufferList) : bytes :=
  match segments with
  | [] => ret
  | segment :: segments =>
      let segment_size := Buffer_size segment in
      if segment_size <=? remain then
        let ret := ret ++ Buffer_str segment in
        let remain := u64 (remain - segment_size) in
        if remain =? 0 then ret else ByteStream_peek_loop remain ret segments
      else ret ++ Buffer_str_len segment remain
  end.

Definition ByteStream_peek_output (s : ByteStream) (len : Z) : bytes :=
  let remain := Z.min len (ByteStream_buffer_size s) in
  ByteStream_peek_loop remain [] (bs_buffer s).

(** Whether a build with assertions gets through [peek_output]: the
    conjunction of the assertions of [Buffer::str(len)] that the loop runs. *)
Fixpoint ByteStream_peek_loop_asserts (remain : Z) (segments : BufferList) : bool :=
  match segments with
  | [] => true
  | segment :: segments =>
      let segment_size := Buffer_size segment in
      if segment_size <=? remain then
        let remain := u64 (remain - segment_size) in
        if remain =? 0 then true else ByteStream_peek_loop_asserts remain segments
      else Buffer_str_len_assert segment remain
  end.

Definition ByteStream_peek_output_asserts (s : ByteStream) (len : Z) : bool :=
  ByteStream_peek_loop_asserts (Z.min len (ByteStream_buffer_size s)) (bs_buffer s).

Definition ByteStream_pop_output (s : ByteStream) (len : Z) : result ByteStream :=
  let rc := Z.min len (ByteStream_buffer_size s) in
  buffer ← BufferList_remove_prefix (bs_buffer s) rc;
  Ok (MkByteStream (bs_error s) (bs_input_ended s) (bs_capacity s) (bs_bytes_written s)
        (u64 (bs_bytes_read s + rc)) buffer).

Definition ByteStream_read (s : ByteStream) (len : Z) : result (ByteStream * bytes) :=
  let res := ByteStream_peek_output s len in
  s' ← ByteStream_pop_output s len;
  Ok (s', res).

(** ** The abstract stream *)

Record stream_spec : Type := MkStreamSpec {
  sp_capacity : Z;
  sp_written : bytes;   (* every byte accepted so far, in order *)
  sp_consumed : Z;      (* how many of them were popped *)
  sp_ended : bool;
  sp_failed : bool
}.

Definition spec_unread (a : stream_spec) : bytes := zdrop (sp_consumed a) (sp_written a).
Definition spec_room (a : stream_spec) : Z := sp_capacity a - zlen (spec_unread a).

Inductive stream_op : Type :=
  | op_write (data : bytes)
  | op_write_move (data : bytes)
  | op_peek (len : Z)
  | op_pop (len : Z)
  | op_read (len : Z)
  | op_end_input
  | op_set_error.

Inductive stream_out : Type :=
  | out_count (n : Z)
  | out_bytes (b : bytes)
  | out_unit.

Definition stream_op_ok (o : stream_op) : Prop :=
  match o with
  | op_write d | op_write_move d => zlen d < 2 ^ 64
  | op_peek n | op_pop n | op_read n => 0 <= n < 2 ^ 64
  | _ => True
  end.

(** After the end of the input no more bytes can be written. *)
Definition spec_step (o : stream_op) (a : stream_spec) : stream_spec * stream_out :=
  match o with
  | op_write d | op_write_move d =>
      let k := if sp_ended a then 0 else Z.min (zlen d) (spec_room a) in
      (MkStreamSpec (sp_capacity a) (sp_written a ++ ztake k d) (sp_consumed a) (sp_ended a) (sp_failed a),
       out_count k)
  | op_peek n => (a, out_bytes (ztake n (spec_unread a)))
  | op_pop n =>
      (MkStreamSpec (sp_capacity a) (sp_written a) (sp_consumed a + Z.min n (zlen (spec_unread a)))
         (sp_ended a) (sp_failed a), out_unit)
  | op_read n =>
      (MkStreamSpec (sp_capacity a) (sp_written a) (sp_consumed a + Z.min n (zlen (spec_unread a)))
         (sp_ended a) (sp_failed a), out_bytes (ztake n (spec_unread a)))
  | op_end_input => (MkStreamSpec (sp_capacity a) (sp_written a) (sp_consumed a) true (sp_failed a), out_unit)
  | op_set_error => (MkStreamSpec (sp_capacity a) (sp_written a) (sp_consumed a) (sp_ended a) true, out_unit)
  end.

(** The calls that the writer may make: none of [write] after [end_input]. *)
Fixpoint writes_before_end (ended : bool) (ops : list stream_op) : bool :=
  match ops with
  | [] => true
  | op_write _ :: ops | op_write_move _ :: ops => negb ended && writes_before_end ended ops
  | op_end_input :: ops => writes_before_end true ops
  | _ :: ops => writes_before_end ended ops
  end.

Definition stream_step (o : stream_op) (s : ByteStream) : result (ByteStream * stream_out) :=
  match o with
  | op_write d => let '(s', n) := ByteStream_write s d in Ok (s', out_count n)
  | op_write_move d => let '(s', n) := ByteStream_write_move s d in Ok (s', out_count n)
  | op_peek n => Ok (s, out_bytes (ByteStream_peek_output s n))
  | op_pop n => s' ← ByteStream_pop_output s n; Ok (s', out_unit)
  | op_read n => '(s', b) ← ByteStream_read s n; Ok (s', out_bytes b)
  | op_end_input => Ok (ByteStream_end_input s, out_unit)
  | op_set_error => Ok (ByteStream_set_error s, out_unit)
  end.

(** Do the assertions of a call hold? *)
Definition step_asserts (o : stream_op) (s : ByteStream) : bool :=
  match o with
  | op_peek n | op_read n => ByteStream_peek_output_asserts s n
  | _ => true
  end.

(** A sequence of calls, in a build with or without assertions; [None] when one of
    them stops the program. *)
Fixpoint stream_run (asserts : bool) (ops : list stream_op) (s : ByteStream) : option (result (ByteStream * list stream_out)) :=
  match ops with
  | [] => Some (Ok (s, []))
  | o :: ops =>
      if asserts && negb (step_asserts o s) then None
      else
        match stream_step o s with
        | Throw e => Some (Throw e)
        | Ok (s', out) => r ← stream_run asserts ops s'; Some ('(s'', outs) ← r; Ok (s'', out :: outs))
        end
  end.

Fixpoint spec_run (ops : list stream_op) (a : stream_spec) : stream_spec * list stream_out :=
  match ops with
  | [] => (a, [])
  | o :: ops =>
      let '(a', out) := spec_step o a in
      let '(a'', outs) := spec_run ops a' in (a'', out :: outs)
  end.

(** What the accessors of the stream show. *)
Definition stream_observe (s : ByteStream) : bool * bool * bool * bool * Z * Z * Z * Z :=
  (bs_error s, ByteStream_input_ended s, ByteStream_eof s, ByteStream_buffer_empty s,
   ByteStream_buffer_size s, ByteStream_remaining_capacity s,
   ByteStream_bytes_written s, ByteStream_bytes_read s).

Definition spec_observe (a : stream_spec) : bool * bool * bool * bool * Z * Z * Z * Z :=
  (sp_failed a, sp_ended a, sp_ended a && (zlen (spec_unread a) =? 0), zlen (spec_unread a) =? 0,
   zlen (spec_unread a), spec_room a, u64 (zlen (sp_written a)), u64 (sp_consumed a)).

(** ** Invariant *)

(** The unread bytes. *)
Definition bs_contents (s : ByteStream) : bytes := flatten (bs_buffer s).

Record bs_wf (s : ByteStream) : Prop := {
  bs_wf_capacity : 0 <= bs_capacity s < 2 ^ 64;
  bs_wf_written : 0 <= bs_bytes_written s < 2 ^ 64;
  bs_wf_read : 0 <= bs_bytes_read s < 2 ^ 64;
  bs_wf_buffers : BufferList_wf (bs_buffer s);
  bs_wf_size : ByteStream_buffer_size s = zlen (bs_contents s);
  bs_wf_fits : zlen (bs_contents s) <= bs_capacity s
}.

Lemma ByteStream_new_wf cap : 0 <= cap < 2 ^ 64 -> bs_wf (ByteStream_new cap).
Proof.
  intros. split; unfold bs_contents, flatten; simpl; zl; try done. apply Forall_nil_2.
Qed.

Lemma ByteStream_end_input_wf s : bs_wf s -> bs_wf (ByteStream_end_input s).
Proof. by intros []. Qed.
Lemma ByteStream_set_error_wf s : bs_wf s -> bs_wf (ByteStream_set_error s).
Proof. by intros []. Qed.
#[export] Hint Resolve ByteStream_new_wf ByteStream_end_input_wf ByteStream_set_error_wf : sponge.

Lemma ByteStream_remaining_capacity_eq s :
  bs_wf s -> ByteStream_remaining_capacity s = bs_capacity s - zlen (bs_contents s).
Proof.
  intros []. unfold ByteStream_remaining_capacity. rewrite bs_wf_size0. zl. by wsimpl.
Qed.

Lemma ByteStream_write_move_eq s d : ByteStream_write_move s d = ByteStream_write s d.
Proof.
  unfold ByteStream_write_move, ByteStream_write. destruct (Z.eqb_spec (Z.min (zlen d) (ByteStream_remaining_capacity s)) (zlen d)) as [E|E];
    [|done]. rewrite E, ztake_ge by lia. done.
Qed.

(** [write] appends as much of the data as fits and changes nothing else. *)
Record write_spec (s : ByteStream) (d : bytes) (s' : ByteStream) (n : Z) : Prop := {
  ws_count : n = Z.min (zlen d) (bs_capacity s - zlen (bs_contents s));
  ws_wf : bs_wf s';
  ws_contents : bs_contents s' = bs_contents s ++ ztake n d;
  ws_written : bs_bytes_written s' = u64 (bs_bytes_written s + n);
  ws_read : bs_bytes_read s' = bs_bytes_read s;
  ws_capacity : bs_capacity s' = bs_capacity s;
  ws_ended : bs_input_ended s' = bs_input_ended s;
  ws_error : bs_error s' = bs_error s
}.

Lemma ByteStream_write_ok s d s' n :
  bs_wf s -> zlen d < 2 ^ 64 -> ByteStream_write s d = (s', n) -> write_spec s d s' n.
Proof.
  intros Hwf Hd. rewrite <- ByteStream_write_move_eq. unfold ByteStream_write_move.
  rewrite ByteStream_remaining_capacity_eq by done. intros [= <- <-].
  pose proof (zlen_nonneg d). pose proof (zlen_nonneg (bs_contents s)). destruct Hwf.
  set (k := Z.min _ _). assert (0 <= k < 2 ^ 64) by lia.
  assert (zlen (ztake k d) = k) as Hk by (zl; lia).
  assert (Buffer_str (Buffer_of_string (ztake k d)) = ztake k d) as Hs.
  { apply Buffer_of_string_str. lia. }
  assert (flatten (BufferList_append (bs_buffer s) (BufferList_of_Buffer (Buffer_of_string (ztake k d))))
          = bs_contents s ++ ztake k d) as Hf.
  { unfold BufferList_append, BufferList_of_Buffer. rewrite flatten_app, flatten_cons, Hs. unfold flatten at 2. simpl. by rewrite app_nil_r. }
  split; simpl; try done. split; simpl; try done; try apply u64_range.
  - apply Forall_app. split; [done|]. apply Forall_singleton, Buffer_of_string_wf. lia.
  - unfold bs_contents, ByteStream_buffer_size in *. simpl. rewrite Hf, zlen_app, Hk.
    clear Hf Hs Hk. subst k. wrap_lia.
  - unfold bs_contents at 1. simpl. rewrite Hf. zl.
Qed.

Lemma ByteStream_write_exists s d :
  bs_wf s -> zlen d < 2 ^ 64 -> exists s' n, ByteStream_write s d = (s', n) /\ write_spec s d s' n.
Proof.
  intros. destruct (ByteStream_write s d) as [s' n] eqn:E. exists s', n.
  split; [done|]. by apply ByteStream_write_ok.
Qed.

Lemma Buffer_str_len_take b n :
  Buffer_wf b -> 0 <= n <= Buffer_size b -> Buffer_str_len b n = ztake n (Buffer_str b).
Proof.
  intros Hwf Hn. unfold Buffer_size in Hn. unfold Buffer_str_len. rewrite Buffer_str_eq in * by done.
  destruct (buf_storage b); [done|]. by destruct (Z.to_nat n) eqn:?; unfold ztake; destruct (Z.to_nat n).
Qed.

Lemma ByteStream_peek_loop_take remain ret segments :
  BufferList_wf segments -> 0 <= remain < 2 ^ 64 -> remain <= zlen (flatten segments) ->
  ByteStream_peek_loop remain ret segments = ret ++ ztake remain (flatten segments).
Proof.
  revert remain ret. induction segments as [|b l IH]; intros remain ret Hwf Hr Hle; simpl.
  - unfold flatten in *. simpl in *. zl. rewrite ztake_le0 by lia. by rewrite app_nil_r.
  - inversion_clear Hwf as [|? ? Hb Hl]. rewrite flatten_cons in *.
    unfold Buffer_size. destruct (Z.leb_spec (zlen (Buffer_str b)) remain).
    + pose proof (zlen_nonneg (Buffer_str b)). wsimpl. rewrite ztake_app_ge by lia.
      destruct (Z.eqb_spec (remain - zlen (Buffer_str b)) 0) as [E|E].
      * rewrite E, ztake_le0 by lia. by rewrite app_nil_r.
      * rewrite IH by (done || zl). by rewrite app_assoc.
    + rewrite ztake_app_le by lia. by rewrite Buffer_str_len_take by (unfold Buffer_size; done || lia).
Qed.

Lemma ByteStream_peek_output_eq s n :
  bs_wf s -> 0 <= n -> ByteStream_peek_output s n = ztake n (bs_contents s).
Proof.
  intros Hwf Hn. unfold ByteStream_peek_output. destruct Hwf. rewrite bs_wf_size0.
  rewrite ByteStream_peek_loop_take; [|done|pose proof (zlen_nonneg (bs_contents s)); lia|].
  - fold (bs_contents s). simpl. destruct (Z.le_gt_cases n (zlen (bs_contents s))).
    + by rewrite Z.min_l.
    + rewrite Z.min_r by lia. by rewrite !ztake_ge by lia.
  - unfold bs_contents. lia.
Qed.

(** [pop_output] drops the first bytes and changes nothing else. *)
Record pop_spec (s : ByteStream) (n : Z) (s' : ByteStream) : Prop := {
  ps_wf : bs_wf s';
  ps_contents : bs_contents s' = zdrop n (bs_contents s);
  ps_written : bs_bytes_written s' = bs_bytes_written s;
  ps_read : bs_bytes_read s' = u64 (bs_bytes_read s + Z.min n (zlen (bs_contents s)));
  ps_capacity : bs_capacity s' = bs_capacity s;
  ps_ended : bs_input_ended s' = bs_input_ended s;
  ps_error : bs_error s' = bs_error s
}.

Lemma ByteStream_pop_output_ok s n :
  bs_wf s -> 0 <= n -> exists s', ByteStream_pop_output s n = Ok s' /\ pop_spec s n s'.
Proof.
  intros Hwf Hn. unfold ByteStream_pop_output. pose proof (zlen_nonneg (bs_contents s)).
  destruct Hwf. rewrite bs_wf_size0.
  destruct (BufferList_remove_prefix_ok (bs_buffer s) (Z.min n (zlen (bs_contents s))))
    as (l' & -> & Hl & Hf); [done|unfold bs_contents in *; lia|].
  eexists. split; [done|].
  assert (zdrop (Z.min n (zlen (bs_contents s))) (flatten (bs_buffer s)) = zdrop n (bs_contents s)) as E.
  { unfold bs_contents. destruct (Z.le_gt_cases n (zlen (flatten (bs_buffer s)))).
    - by rewrite Z.min_l.
    - rewrite Z.min_r by lia. by rewrite !zdrop_ge by lia. }
  rewrite E in Hf.
  assert (forall e i c w r, bs_contents (MkByteStream e i c w r l') = zdrop n (bs_contents s)) as Hc
    by (intros; exact Hf).
  split; simpl; try done. split; simpl; try done; try apply u64_range; rewrite Hc, zlen_zdrop; [|lia].
  clear Hf Hc E. unfold ByteStream_buffer_size in *. simpl. set (c := zlen _) in *. wrap_lia.
Qed.

Lemma ByteStream_read_ok s n :
  bs_wf s -> 0 <= n ->
  exists s', ByteStream_read s n = Ok (s', ztake n (bs_contents s)) /\ pop_spec s n s'.
Proof.
  intros Hwf Hn. unfold ByteStream_read. rewrite ByteStream_peek_output_eq by done.
  destruct (ByteStream_pop_output_ok s n) as (s' & -> & Hs); [done..|]. by exists s'.
Qed.

(** ** Refinement *)

Record bs_refines (s : ByteStream) (a : stream_spec) : Prop := {
  rf_wf : bs_wf s;
  rf_capacity : bs_capacity s = sp_capacity a;
  rf_contents : bs_contents s = spec_unread a;
  rf_consumed : 0 <= sp_consumed a <= zlen (sp_written a);
  rf_written : bs_bytes_written s = u64 (zlen (sp_written a));
  rf_read : bs_bytes_read s = u64 (sp_consumed a);
  rf_ended : bs_input_ended s = sp_ended a;
  rf_error : bs_error s = sp_failed a
}.

Lemma bs_refines_observe s a : bs_refines s a -> stream_observe s = spec_observe a.
Proof.
  intros []. unfold stream_observe, spec_observe, ByteStream_eof, ByteStream_buffer_empty.
  rewrite ByteStream_remaining_capacity_eq, bs_wf_size, rf_contents0 by done.
  unfold spec_room, ByteStream_input_ended, ByteStream_bytes_written, ByteStream_bytes_read.
  by rewrite rf_capacity0, rf_written0, rf_read0, rf_ended0, rf_error0.
Qed.

Lemma refines_write s a d s' n :
  bs_refines s a -> zlen d < 2 ^ 64 -> sp_ended a = false -> ByteStream_write s d = (s', n) ->
  exists a', spec_step (op_write d) a = (a', out_count n) /\ bs_refines s' a'.
Proof.
  intros [] Hd He E. apply ByteStream_write_ok in E as []; [|done..].
  rewrite rf_capacity0, rf_contents0 in ws_count0. fold (spec_room a) in ws_count0.
  assert (zlen (ztake n d) = n) as Hn.
  { pose proof (bs_wf_fits _ rf_wf0). rewrite rf_contents0, rf_capacity0 in H.
    unfold spec_room in *. zl. }
  eexists. split; [cbn [spec_step]; by rewrite He, <- ws_count0|].
  assert (spec_unread (MkStreamSpec (sp_capacity a) (sp_written a ++ ztake n d) (sp_consumed a)
     (sp_ended a) (sp_failed a)) = spec_unread a ++ ztake n d) as Hu.
  { unfold spec_unread. simpl. by rewrite zdrop_app_le by lia. }
  split; simpl; try congruence.
  - zl.
  - rewrite ws_written0, rf_written0, u64_idem_l, zlen_app, Hn. done.
Qed.

Lemma refines_pop s a n s' :
  bs_refines s a -> 0 <= n -> pop_spec s n s' ->
  bs_refines s' (fst (spec_step (op_pop n) a)).
Proof.
  intros [] Hn []. rewrite rf_contents0 in *. split; simpl; try congruence.
  - rewrite ps_contents0. unfold spec_unread. simpl. rewrite zdrop_zdrop by lia.
    destruct (Z.le_gt_cases n (zlen (zdrop (sp_consumed a) (sp_written a)))).
    + by rewrite Z.min_l.
    + rewrite Z.min_r by lia. rewrite !zdrop_ge; [done|zl..].
  - unfold spec_unread. zl.
  - rewrite ps_read0, rf_read0, u64_idem_l. done.
Qed.

Lemma refines_step o s a :
  bs_refines s a -> stream_op_ok o -> writes_before_end (sp_ended a) [o] = true ->
  exists s', stream_step o s = Ok (s', snd (spec_step o a)) /\ bs_refines s' (fst (spec_step o a)).
Proof.
  intros Hr Ho Hw. pose proof (rf_wf _ _ Hr) as Hwf. pose proof (rf_contents _ _ Hr) as Hc.
  destruct o as [d|d|n|n|n| |]; simpl in Ho; unfold stream_step.
  1-2: rewrite ?ByteStream_write_move_eq; destruct (ByteStream_write s d) as [s' n] eqn:E;
    destruct (refines_write s a d s' n) as (a' & Ha & Hr'); [done|done|by destruct (sp_ended a)|done|];
    exists s'; change (spec_step (op_write_move d) a) with (spec_step (op_write d) a);
    by rewrite Ha.
  - exists s. rewrite ByteStream_peek_output_eq, Hc by (done || lia). done.
  - destruct (ByteStream_pop_output_ok s n) as (s' & -> & Hs); [done|lia|].
    exists s'. split; [done|]. apply (refines_pop s); [done|lia|done].
  - destruct (ByteStream_read_ok s n) as (s' & -> & Hs); [done|lia|].
    exists s'. split; [simpl; by rewrite Hc|]. apply (refines_pop s a n s'); [done|lia|done].
  - exists (ByteStream_end_input s). split; [done|]. destruct Hr. split; simpl; auto with sponge.
  - exists (ByteStream_set_error s). split; [done|]. destruct Hr. split; simpl; auto with sponge.
Qed.

(** One call at a time. *)
Lemma writes_before_end_cons o ops a : writes_before_end (sp_ended a) (o :: ops) = true ->
  writes_before_end (sp_ended a) [o] = true /\ writes_before_end (sp_ended (fst (spec_step o a))) ops = true.
Proof. destruct o; cbn [writes_before_end spec_step fst sp_ended]; destruct (sp_ended a); by cbn. Qed.

(** The state and the results of a run, or the call at which it stopped. *)
Lemma refines_run asserts ops s a :
  bs_refines s a -> Forall stream_op_ok ops -> writes_before_end (sp_ended a) ops = true ->
  match stream_run asserts ops s with
  | Some r => exists s', r = Ok (s', snd (spec_run ops a)) /\ bs_refines s' (fst (spec_run ops a))
  | None => asserts = true /\ exists before o after s' outs, ops = before ++ o :: after /\
      stream_run true before s = Some (Ok (s', outs)) /\ step_asserts o s' = false
  end.
Proof.
  revert s a. induction ops as [|o ops IH]; intros s a Hr Hops Hw; cbn [stream_run spec_run]; [by exists s|].
  apply Forall_cons in Hops as [Ho Hops]. destruct (writes_before_end_cons o ops a Hw) as [Hw1 Hw2].
  destruct (asserts && negb (step_asserts o s)) eqn:Ea.
  { apply andb_true_iff in Ea as [-> Ea]. split; [done|]. exists [], o, ops, s, []. split_and!; [done|done|by destruct (step_asserts o s)]. }
  destruct (refines_step o s a Hr Ho Hw1) as (s1 & E1 & Hr1). rewrite E1.
  specialize (IH s1 _ Hr1 Hops Hw2). destruct (spec_step o a) as [a1 out1]. cbn [fst snd] in *.
  destruct (stream_run asserts ops s1) as [r|]; cbn [mbind option_bind].
  - destruct IH as (s2 & -> & Hr2). exists s2. by destruct (spec_run ops a1).
  - destruct IH as (-> & before & o' & after & s' & outs & -> & Eb & Eo). split; [done|].
    exists (o :: before), o', after, s', (out1 :: outs). split; [done|]. split; [|done].
    cbn [stream_run]. cbn [andb] in Ea. by rewrite Ea, E1, Eb.
Qed.

(** C29.  Every sequence of calls on a new [ByteStream] that does not write after
    [end_input] behaves like the abstract stream, which accepts nothing then: no call
    throws, every call returns what the specification returns (how much was accepted,
    which bytes come out), and afterwards all the accessors agree.  A build with
    assertions may stop instead, at the first [peek_output] or [read] that the
    assertion of [Buffer::str(len)] refuses, and nowhere else; a build without them
    does not stop. *)
Theorem ByteStream_refines_spec asserts cap ops :
  0 <= cap < 2 ^ 64 -> Forall stream_op_ok ops -> writes_before_end false ops = true ->
  match stream_run asserts ops (ByteStream_new cap) with
  | Some r => exists s, r = Ok (s, snd (spec_run ops (MkStreamSpec cap [] 0 false false))) /\
      stream_observe s = spec_observe (fst (spec_run ops (MkStreamSpec cap [] 0 false false)))
  | None => asserts = true /\ exists before o after s outs, ops = before ++ o :: after /\
      stream_run true before (ByteStream_new cap) = Some (Ok (s, outs)) /\ step_asserts o s = false
  end.
Proof.
  intros Hcap Hops Hw.
  pose proof (refines_run asserts ops (ByteStream_new cap) (MkStreamSpec cap [] 0 false false)) as Hr.
  destruct (stream_run asserts ops (ByteStream_new cap)) as [r|].
  - destruct Hr as (s & Hs & Hr); [|done|done|exists s; split; [done|by apply bs_refines_observe]].
    split; simpl; try done. by apply ByteStream_new_wf.
  - apply Hr; [|done|done]. split; simpl; try done. by apply ByteStream_new_wf.
Qed.

Lemma ByteStream_refines_spec_witness :
  exists s, stream_run false [op_write [1; 2; 3]; op_read 1; op_end_input; op_peek 9] (ByteStream_new 2) =
              Some (Ok (s, [out_count 2; out_bytes [1]; out_unit; out_bytes [2]])) /\
            stream_observe s = (false, true, false, false, 1, 1, 2, 1).
Proof.
  pose proof (ByteStream_refines_spec false 2 [op_write [1; 2; 3]; op_read 1; op_end_input; op_peek 9]) as H.
  destruct (stream_run false _ _) as [r|].
  - destruct H as (s & -> & H); [lia|repeat apply Forall_cons_2; [..|apply Forall_nil_2]; simpl; zl|reflexivity|].
    exists s. split; [reflexivity|exact H].
  - exfalso. destruct H as [H _]; [lia|repeat apply Forall_cons_2; [..|apply Forall_nil_2]; simpl; zl|reflexivity|discriminate H].
Defined.

(** The code does not look at the end of the input: a later write is accepted like
    any other. *)
Lemma write_after_end_accepted s d s' n :
  bs_wf s -> zlen d < 2 ^ 64 -> ByteStream_write (ByteStream_end_input s) d = (s', n) ->
  n = Z.min (zlen d) (bs_capacity s - zlen (bs_contents s)) /\ bs_contents s' = bs_contents s ++ ztake n d.
Proof.
  intros Hs Hd E. apply ByteStream_write_ok in E as [H1 _ H2 _ _ _ _ _]; [done|auto with sponge|done].
Qed.

(** In a build with assertions, [peek_output] aborts as soon as the bytes
    asked for end strictly inside a stored segment: the assertion of
    [Buffer::str(len)] demands [size() <= len], the opposite of what its
    comment asks of the caller. *)
Theorem ByteStream_peek_output_assert_fails b rest len ended err cap w r :
  Buffer_wf b -> 0 <= len < Buffer_size b ->
  u64 (w - r) = zlen (flatten (b :: rest)) ->
  ByteStream_peek_output_asserts (MkByteStream err ended cap w r (b :: rest)) len = false.
Proof.
  intros Hb Hlen Hsz. unfold ByteStream_peek_output_asserts, ByteStream_buffer_size. simpl.
  rewrite Hsz, flatten_cons, zlen_app. unfold Buffer_size in *.
  pose proof (zlen_nonneg (flatten rest)).
  rewrite Z.min_l by lia.
  destruct (Z.leb_spec (zlen (Buffer_str b)) len); [lia|].
  unfold Buffer_str_len_assert, Buffer_size, Buffer_str in *. destruct (buf_storage b).
  - apply Z.leb_gt. lia.
  - zl.
Qed.

Lemma ByteStream_peek_output_assert_fails_witness :
  ByteStream_peek_output_asserts (fst (ByteStream_write (ByteStream_new 9) [1; 2; 3])) 2 = false.
Proof.
  apply (ByteStream_peek_output_assert_fails (Buffer_of_string [1; 2; 3]) [] 2 false false 9 3 0).
  - by apply Buffer_of_string_wf.
  - vm_compute. intuition congruence.
  - reflexivity.
Defined.
