(* ===== verification/StreamReassemblers.v ===== *)
(** The reassembler: [Segment] and [StreamReassembler]
    (src/libsponge/stream_reassembler.hh and .cc).

    The [std::set<Segment>] is a list sorted by start index; an iterator of the
    set is a position in that list.  The invariant keeps the stored segments
    non-empty, disjoint, ordered and past the bytes already written.  The
    theorems give the complete effect of [push_substring]: which indices are
    held afterwards, that the bytes are those of the sender's stream, that
    nothing writable is left behind, and when it throws. *)

From S2P Require Import Prelude Buffers ByteStreams.

(** ** Segment *)

Record Segment : Type := MkSegment {
  sg_index : Z;
  sg_data : Buffer;
  sg_start_index : Z;
  sg_end_index : Z
}.

Definition Segment_new (index : Z) (data : bytes) : Segment :=
  MkSegment index (Buffer_of_string data) index (u64 (index + zlen data)).

Definition Segment_remove_prefix (s : Segment) (n : Z) : Segment :=
  MkSegment (sg_index s) (sg_data s) (u64 (sg_start_index s + n)) (sg_end_index s).

Definition Segment_remove_suffix (s : Segment) (n : Z) : Segment :=
  MkSegment (sg_index s) (sg_data s) (sg_start_index s) (u64 (sg_end_index s - n)).

(** The assertion at the end of [remove_prefix] and [remove_suffix]. *)
Definition Segment_assert (s : Segment) : bool := sg_start_index s <=? sg_end_index s.

Definition Segment_start_index (s : Segment) : Z := sg_start_index s.
Definition Segment_end_index (s : Segment) : Z := sg_end_index s.

(** The view that shadows the trimmed parts, and its length. *)
Definition Segment_str (s : Segment) : bytes :=
  slice (u64 (sg_start_index s - sg_index s)) (u64 (sg_end_index s - sg_start_index s))
    (Buffer_str (sg_data s)).
Definition Segment_size (s : Segment) : Z := u64 (sg_end_index s - sg_start_index s).

(** [operator<(const size_t &rhs)] and [operator<(const Segment &rhs)] *)
Definition Segment_lt_index (s : Segment) (rhs : Z) : bool := Segment_end_index s <? rhs.
Definition Segment_lt (s rhs : Segment) : bool := Segment_start_index s <? Segment_start_index rhs.

(** ** The ordered set of segments *)

(** [std::set::insert]: nothing is inserted next to an equivalent element. *)
Fixpoint set_insert (x : Segment) (l : list Segment) : list Segment :=
  match l with
  | [] => [x]
  | y :: l' =>
      if Segment_lt x y then x :: l
      else if Segment_lt y x then y :: set_insert x l'
      else l
  end.

(** [std::lower_bound]: the position of the first segment that does not end
    before [v]. *)
Fixpoint lower_bound (l : list Segment) (v : Z) : nat :=
  match l with
  | [] => 0
  | s :: l => if Segment_lt_index s v then S (lower_bound l v) else 0
  end.

(** The loop [for (it = remove_begin; it != remove_end; it++)]. *)
Fixpoint subtract_sizes (unassembled : Z) (l : list Segment) : Z :=
  match l with
  | [] => unassembled
  | s :: l => subtract_sizes (u64 (unassembled - Segment_size s)) l
  end.

(** ** StreamReassembler *)

Record StreamReassembler : Type := MkStreamReassembler {
  sr_output : ByteStream;
  sr_capacity : Z;
  sr_end_index : Z;
  sr_unassembled_bytes : Z;
  sr_got_eof : bool;
  sr_segments : list Segment
}.

Definition StreamReassembler_new (capacity : Z) : StreamReassembler :=
  MkStreamReassembler (ByteStream_new capacity) capacity 0 0 false [].

(** The first half of [push_interval]: the segment without what the previous
    one holds, and [remove_begin]; [None] is the early return. *)
Definition trim_previous (segs : list Segment) (segment : Segment) : option (Segment * nat) :=
  let it := lower_bound segs (Segment_start_index segment) in
  match segs !! it with
  | Some e =>
      if Segment_start_index e <=? Segment_start_index segment then
        let remove_n := u64 (Segment_end_index e - Segment_start_index segment) in
        if Segment_size segment <? remove_n then None
        else Some (Segment_remove_prefix segment remove_n, S it)
      else Some (segment, it)
  | None => Some (segment, it)
  end.

(** The second half: the segment without what the next one holds, and
    [remove_end]. *)
Definition trim_behind (segs : list Segment) (segment : Segment) : option (Segment * nat) :=
  let it := lower_bound segs (Segment_end_index segment) in
  match segs !! it with
  | Some e =>
      if Segment_start_index e <=? Segment_end_index segment then
        let remove_n := u64 (Segment_end_index segment - Segment_start_index e) in
        if Segment_size segment <? remove_n then None
        else Some (Segment_remove_suffix segment remove_n, it)
      else Some (segment, it)
  | None => Some (segment, it)
  end.

Definition push_interval (segs : list Segment) (unassembled : Z) (segment : Segment)
    : list Segment * Z :=
  if Segment_size segment =? 0 then (segs, unassembled)
  else match trim_previous segs segment with
  | None => (segs, unassembled)
  | Some (segment, remove_begin) =>
      match trim_behind segs segment with
      | None => (segs, unassembled)
      | Some (segment, remove_end) =>
          let removed := take (remove_end - remove_begin) (drop remove_begin segs) in
          let unassembled := subtract_sizes unassembled removed in
          let segs := take remove_begin segs ++ drop remove_end segs in
          (set_insert segment segs, u64 (unassembled + Segment_size segment))
      end
  end.

(** The [while (not _segments.empty())] loop of [push_substring]. *)
Fixpoint reassemble (segs : list Segment) (output : ByteStream) (unassembled : Z)
    : list Segment * ByteStream * Z :=
  match segs with
  | [] => ([], output, unassembled)
  | s :: rest =>
      if Segment_start_index s =? ByteStream_bytes_written output then
        let '(output, wc) := ByteStream_write_move output (Segment_str s) in
        if wc =? 0 then (segs, output, unassembled)
        else
          let unassembled := u64 (unassembled - wc) in
          if wc <? Segment_size s
          then (set_insert (Segment_remove_prefix s wc) rest, output, unassembled)
          else reassemble rest output unassembled
      else (segs, output, unassembled)
  end.

(** [std::string{std::string_view{data.c_str(), len}}]: a length above
    [max_size()] throws [length_error], any other length beyond the string
    reads outside of it. *)
Definition string_max_size : Z := 2 ^ 63 - 1.
Definition string_of_view (data : bytes) (len : Z) : result bytes :=
  if len <=? zlen data then Ok (ztake len data)
  else if string_max_size <? len then Throw length_error
  else Throw undefined_behaviour.

Definition StreamReassembler_push_substring (r : StreamReassembler) (data : bytes) (index : Z)
    (eof : bool) : result StreamReassembler :=
  if ByteStream_input_ended (sr_output r) then Ok r
  else
    let expected := ByteStream_bytes_written (sr_output r) in
    if u64 (index + zlen data) <? expected then Ok r
    else
      let set_eof := eof && negb (sr_got_eof r) in
      let got_eof := if set_eof then true else sr_got_eof r in
      let end_index := if set_eof then u64 (index + zlen data) else sr_end_index r in
      let len :=
        if u64 (expected + sr_capacity r) <? u64 (index + zlen data)
        then u64 (u64 (expected + sr_capacity r) - index)
        else zlen data in
      view ← string_of_view data len;
      let segment := Segment_new index view in
      let segment :=
        if Segment_start_index segment <? expected
        then Segment_remove_prefix segment (u64 (expected - Segment_start_index segment))
        else segment in
      let '(segs, unassembled) :=
        push_interval (sr_segments r) (sr_unassembled_bytes r) segment in
      let '(segs, output, unassembled) := reassemble segs (sr_output r) unassembled in
      let output :=
        if got_eof && (end_index =? ByteStream_bytes_written output)
        then ByteStream_end_input output else output in
      Ok (MkStreamReassembler output (sr_capacity r) end_index unassembled got_eof segs).

Definition StreamReassembler_stream_out (r : StreamReassembler) : ByteStream := sr_output r.
Definition StreamReassembler_unassembled_bytes (r : StreamReassembler) : Z := sr_unassembled_bytes r.
Definition StreamReassembler_empty (r : StreamReassembler) : bool := sr_unassembled_bytes r =? 0.

(** The owner of the reassembler reads from [stream_out()]. *)
Definition StreamReassembler_with_output (r : StreamReassembler) (out : ByteStream) : StreamReassembler :=
  MkStreamReassembler out (sr_capacity r) (sr_end_index r) (sr_unassembled_bytes r) (sr_got_eof r)
    (sr_segments r).

(** ** Invariant *)

(** Stream indices stay below this bound, so that no index computation wraps. *)
Definition index_limit : Z := 2 ^ 63.

(** A segment whose bounds lie in its data. *)
Record seg_ok (s : Segment) : Prop := {
  so_offset : buf_starting_offset (sg_data s) = 0;
  so_stored : Buffer_wf (sg_data s);
  so_start : 0 <= sg_index s <= sg_start_index s;
  so_order : sg_start_index s <= sg_end_index s;
  so_end : sg_end_index s <= sg_index s + Buffer_size (sg_data s);
  so_limit : sg_end_index s < index_limit
}.

(** The stored segments: ordered from [lo] on, disjoint and not empty. *)
Fixpoint segs_ok (lo : Z) (l : list Segment) : Prop :=
  match l with
  | [] => True
  | s :: l =>
      seg_ok s /\ lo <= sg_start_index s < sg_end_index s /\ segs_ok (sg_end_index s) l
  end.

(** Where the segments end. *)
Fixpoint segs_hi (lo : Z) (l : list Segment) : Z :=
  match l with
  | [] => lo
  | s :: l => segs_hi (sg_end_index s) l
  end.

Fixpoint total_size (l : list Segment) : Z :=
  match l with
  | [] => 0
  | s :: l => sg_end_index s - sg_start_index s + total_size l
  end.

(** Index [i] lies in a stored segment. *)
Definition covered (l : list Segment) (i : Z) : Prop :=
  Exists (fun s => sg_start_index s <= i < sg_end_index s) l.

(** The bytes of a segment are those of the stream [S]. *)
Definition seg_agrees (S : bytes) (s : Segment) : Prop :=
  (sg_start_index s < sg_end_index s -> sg_end_index s <= zlen S) /\
  Segment_str s = slice (sg_start_index s) (sg_end_index s - sg_start_index s) S.

Lemma Segment_size_eq s : seg_ok s -> Segment_size s = sg_end_index s - sg_start_index s.
Proof. intros []. unfold Segment_size, index_limit in *. by wsimpl. Qed.

Lemma Segment_str_eq s : seg_ok s ->
  Segment_str s = slice (sg_start_index s - sg_index s) (sg_end_index s - sg_start_index s)
                    (Buffer_str (sg_data s)).
Proof. intros []. unfold Segment_str, index_limit in *. by wsimpl. Qed.

Lemma Segment_str_len s : seg_ok s -> zlen (Segment_str s) = sg_end_index s - sg_start_index s.
Proof. intros Hs. rewrite Segment_str_eq by done. destruct Hs. unfold Buffer_size in *. zl. Qed.

Lemma Segment_remove_prefix_eq s n :
  seg_ok s -> 0 <= n <= sg_end_index s - sg_start_index s ->
  Segment_remove_prefix s n =
    MkSegment (sg_index s) (sg_data s) (sg_start_index s + n) (sg_end_index s).
Proof. intros [] Hn. unfold Segment_remove_prefix, index_limit in *. by wsimpl. Qed.

Lemma Segment_remove_suffix_eq s n :
  seg_ok s -> 0 <= n <= sg_end_index s - sg_start_index s ->
  Segment_remove_suffix s n =
    MkSegment (sg_index s) (sg_data s) (sg_start_index s) (sg_end_index s - n).
Proof. intros [] Hn. unfold Segment_remove_suffix, index_limit in *. by wsimpl. Qed.

(** Narrowing a segment keeps it well formed and keeps its bytes right. *)
Definition narrow (s : Segment) (a b : Z) : Segment := MkSegment (sg_index s) (sg_data s) a b.

Lemma narrow_ok s a b :
  seg_ok s -> sg_start_index s <= a <= b -> b <= sg_end_index s -> seg_ok (narrow s a b).
Proof. intros [] ? ?. split; simpl; try done; lia. Qed.

Lemma narrow_agrees S s a b :
  seg_ok s -> sg_start_index s <= a <= b -> b <= sg_end_index s ->
  seg_agrees S s -> seg_agrees S (narrow s a b).
Proof.
  intros Hs Ha Hb [Hz Heq]. split; simpl; [lia|].
  rewrite Segment_str_eq in Heq by done.
  rewrite Segment_str_eq by by apply narrow_ok. simpl. destruct Hs.
  replace (a - sg_index s) with (sg_start_index s - sg_index s + (a - sg_start_index s)) by lia.
  rewrite <- (slice_slice _ (sg_end_index s - sg_start_index s)) by lia.
  rewrite Heq, slice_slice by lia. f_equal. lia.
Qed.

Lemma segs_ok_lower lo lo' l : segs_ok lo l -> lo' <= lo -> segs_ok lo' l.
Proof. destruct l; simpl; [done|]. intuition lia. Qed.

Lemma segs_ok_app lo l k : segs_ok lo (l ++ k) <-> segs_ok lo l /\ segs_ok (segs_hi lo l) k.
Proof. revert lo. induction l as [|s l IH]; intros lo; simpl; [tauto|]. rewrite IH. tauto. Qed.

Lemma segs_ok_Forall lo l : segs_ok lo l ->
  Forall (fun s => seg_ok s /\ lo <= sg_start_index s < sg_end_index s) l.
Proof.
  revert lo. induction l as [|s l IH]; intros lo; [done|]. simpl. intros (H1 & H2 & H3).
  apply Forall_cons_2; [done|]. eapply Forall_impl; [apply IH, H3|]. simpl. intuition lia.
Qed.

Lemma covered_nil i : covered [] i <-> False.
Proof. apply Exists_nil. Qed.
Lemma covered_cons s l i :
  covered (s :: l) i <-> sg_start_index s <= i < sg_end_index s \/ covered l i.
Proof. apply Exists_cons. Qed.
Lemma covered_app l k i : covered (l ++ k) i <-> covered l i \/ covered k i.
Proof. apply Exists_app. Qed.

Lemma total_size_app l k : total_size (l ++ k) = total_size l + total_size k.
Proof. induction l as [|s l IH]; simpl; lia. Qed.

Lemma total_size_nonneg lo l : segs_ok lo l -> 0 <= total_size l.
Proof.
  revert lo. induction l as [|s l IH]; intros lo; simpl; [lia|]. intros (? & ? & H).
  apply IH in H. lia.
Qed.

Lemma total_size_bound lo hi l :
  segs_ok lo l -> lo <= hi -> Forall (fun s => sg_end_index s <= hi) l -> total_size l <= hi - lo.
Proof.
  revert lo. induction l as [|s l IH]; intros lo; simpl; [lia|]. intros (? & ? & H) Hlo Hf.
  inversion_clear Hf. pose proof (IH _ H ltac:(lia) ltac:(done)). lia.
Qed.

Lemma subtract_sizes_eq un lo l :
  segs_ok lo l -> total_size l <= un < 2 ^ 64 -> subtract_sizes un l = un - total_size l.
Proof.
  revert un lo. induction l as [|s l IH]; intros un lo; simpl; [lia|]. intros (Hs & Ho & H) Hun.
  rewrite Segment_size_eq by done. pose proof (total_size_nonneg _ _ H).
  wsimpl. erewrite IH by (done || lia). lia.
Qed.

(** ** Positions in the ordered set *)

Lemma lower_bound_app l k v :
  Forall (fun s => sg_end_index s < v) l -> lower_bound (l ++ k) v = (length l + lower_bound k v)%nat.
Proof.
  induction 1 as [|s l Hs _ IH]; [done|]. cbn.
  unfold Segment_lt_index, Segment_end_index. rewrite IH. by destruct (Z.ltb_spec (sg_end_index s) v); [|lia].
Qed.

Lemma lower_bound_split l v :
  exists l1 l2, l = l1 ++ l2 /\ lower_bound l v = length l1 /\
    Forall (fun s => sg_end_index s < v) l1 /\
    (forall e k, l2 = e :: k -> v <= sg_end_index e).
Proof.
  induction l as [|s l IH]; [by exists [], []|]. cbn. unfold Segment_lt_index, Segment_end_index.
  destruct (Z.ltb_spec (sg_end_index s) v).
  - destruct IH as (l1 & l2 & -> & Hlb & Hf & Hh). exists (s :: l1), l2.
    split; [done|]. split; [by rewrite Hlb|]. split; [by constructor|]. done.
  - exists [], (s :: l). repeat split; try done. by intros e k [= -> ->].
Qed.

Lemma set_insert_middle x l k :
  Forall (fun s => sg_start_index s < sg_start_index x) l ->
  (forall e k', k = e :: k' -> sg_start_index x < sg_start_index e) ->
  set_insert x (l ++ k) = l ++ x :: k.
Proof.
  intros Hl Hk. induction Hl as [|s l Hs _ IH]; simpl.
  - destruct k as [|e k]; simpl; [done|]. specialize (Hk e k eq_refl).
    unfold Segment_lt, Segment_start_index. by destruct (Z.ltb_spec (sg_start_index x) (sg_start_index e)); [|lia].
  - rewrite IH. unfold Segment_lt, Segment_start_index.
    destruct (Z.ltb_spec (sg_start_index x) (sg_start_index s)); [lia|].
    by destruct (Z.ltb_spec (sg_start_index s) (sg_start_index x)); [|lia].
Qed.

Lemma set_insert_head x k :
  (forall e k', k = e :: k' -> sg_start_index x < sg_start_index e) -> set_insert x k = x :: k.
Proof. intros. by apply (set_insert_middle x []). Qed.

Lemma set_insert_duplicate x l e k :
  Forall (fun s => sg_start_index s < sg_start_index x) l ->
  sg_start_index e = sg_start_index x ->
  set_insert x (l ++ e :: k) = l ++ e :: k.
Proof.
  intros Hl He. induction Hl as [|s l Hs _ IH]; simpl; unfold Segment_lt, Segment_start_index.
  - by rewrite He, Z.ltb_irrefl.
  - fold (Segment_lt s x). rewrite IH.
    destruct (Z.ltb_spec (sg_start_index x) (sg_start_index s)); [lia|].
    unfold Segment_lt, Segment_start_index.
    by destruct (Z.ltb_spec (sg_start_index s) (sg_start_index x)); [|lia].
Qed.

(** ** Merging one interval into the set *)

Lemma segs_hi_ge lo l : segs_ok lo l -> lo <= segs_hi lo l.
Proof.
  revert lo. induction l as [|s l IH]; intros lo; simpl; [lia|]. intros (? & ? & H).
  apply IH in H. lia.
Qed.

Lemma segs_hi_Forall lo l : segs_ok lo l ->
  Forall (fun s => sg_start_index s < sg_end_index s <= segs_hi lo l) l.
Proof.
  revert lo. induction l as [|s l IH]; intros lo; simpl; [constructor|]. intros (? & ? & H).
  apply Forall_cons_2; [|by apply IH]. pose proof (segs_hi_ge _ _ H). lia.
Qed.

Lemma segs_hi_lt lo l v : lo <= v -> Forall (fun s => sg_end_index s < v) l -> segs_hi lo l <= v.
Proof. intros Hlo Hf. revert lo Hlo. induction Hf as [|s l]; simpl; intros; [done|]. apply IHHf. lia. Qed.

Lemma covered_bounds lo l i : segs_ok lo l -> covered l i -> lo <= i < segs_hi lo l.
Proof.
  intros Hok Hc. pose proof (segs_ok_Forall _ _ Hok) as H1. pose proof (segs_hi_Forall _ _ Hok) as H2.
  apply Exists_exists in Hc as (s & Hin & Hi).
  eapply Forall_forall in H1; [|done]. eapply Forall_forall in H2; [|done]. simpl in *. lia.
Qed.

Lemma lookup_app_length {A} (l : list A) k : (l ++ k) !! length l = head k.
Proof. rewrite lookup_app_r by lia. rewrite Nat.sub_diag. by destruct k. Qed.

(** What [trim_previous] leaves of the segment [g]: the part from [a] on, with
    the segments [A] before it. *)
Record previous_spec (lo : Z) (segs : list Segment) (g g' : Segment) (rb : nat) (A B : list Segment)
    (a : Z) : Prop := {
  pv_split : segs = A ++ B;
  pv_begin : rb = length A;
  pv_trim : g' = narrow g a (sg_end_index g);
  pv_bounds : sg_start_index g <= a <= sg_end_index g;
  pv_before : segs_ok lo A /\ segs_hi lo A <= a;
  pv_after : segs_ok a B;
  pv_covered : forall i, sg_start_index g <= i < a -> covered A i;
  pv_empty : a < sg_end_index g \/ a = sg_end_index g /\ trim_behind segs g' = None
}.

Lemma trim_behind_covered segs g A e B :
  segs = A ++ e :: B -> seg_ok g -> sg_start_index g = sg_end_index g ->
  Forall (fun s => sg_end_index s < sg_end_index g) A -> sg_end_index e = sg_end_index g ->
  0 <= sg_start_index e < sg_end_index e -> trim_behind segs g = None.
Proof.
  intros -> Hg Hempty HA He Hs. unfold trim_behind, Segment_end_index, Segment_start_index.
  rewrite lower_bound_app by done. cbn. unfold Segment_lt_index, Segment_end_index.
  rewrite He, Z.ltb_irrefl, Nat.add_0_r, lookup_app_length. simpl.
  destruct (Z.leb_spec (sg_start_index e) (sg_end_index g)); [|lia].
  rewrite Segment_size_eq by done. destruct Hg. unfold index_limit in *. wsimpl.
  by destruct (Z.ltb_spec (sg_end_index g - sg_start_index g) (sg_end_index g - sg_start_index e)); [|lia].
Qed.

Lemma trim_previous_spec lo segs g :
  segs_ok lo segs -> seg_ok g -> 0 <= lo <= sg_start_index g -> sg_start_index g < sg_end_index g ->
  match trim_previous segs g with
  | None => forall i, sg_start_index g <= i < sg_end_index g -> covered segs i
  | Some (g', rb) => exists A B a, previous_spec lo segs g g' rb A B a
  end.
Proof.
  intros Hok Hg Hlo Hne. unfold trim_previous, Segment_start_index, Segment_end_index.
  destruct (lower_bound_split segs (sg_start_index g)) as (A & B & -> & -> & HA & HB).
  rewrite lookup_app_length. apply segs_ok_app in Hok as [HokA HokB].
  pose proof (segs_hi_lt lo A (sg_start_index g) ltac:(lia) HA).
  assert (g = narrow g (sg_start_index g) (sg_end_index g)) as Hself by by destruct g.
  destruct B as [|e B]; simpl.
  { exists A, [], (sg_start_index g). split; try done; try lia. }
  specialize (HB e B eq_refl). simpl in HokB. destruct HokB as (Hoke & He & HokB).
  pose proof (segs_hi_ge _ _ HokA).
  destruct (Z.leb_spec (sg_start_index e) (sg_start_index g)).
  - rewrite Segment_size_eq by done. pose proof (so_limit _ Hoke). pose proof (so_limit _ Hg).
    unfold index_limit in *. wsimpl.
    destruct (Z.ltb_spec (sg_end_index g - sg_start_index g) (sg_end_index e - sg_start_index g)).
    + intros i Hi. rewrite covered_app, covered_cons. lia.
    + rewrite Segment_remove_prefix_eq by (done || lia).
      replace (sg_start_index g + (sg_end_index e - sg_start_index g)) with (sg_end_index e) by lia.
      exists (A ++ [e]), B, (sg_end_index e).
      split; try done; try lia.
      * by rewrite <- app_assoc.
      * rewrite length_app. simpl. lia.
      * rewrite segs_ok_app. simpl. split; [|].
        { split_and!; done || lia. }
        clear -HokA. revert lo HokA. induction A as [|x A IH]; simpl; intros lo; [lia|].
        intros (_ & _ & HA). by apply IH.
      * intros i Hi. rewrite covered_app, covered_cons. lia.
      * destruct (Z.eq_dec (sg_end_index e) (sg_end_index g)) as [E|E]; [right; split; [done|]|left; lia].
        apply (trim_behind_covered _ _ A e B); simpl; try done; try lia.
        { apply (narrow_ok g (sg_end_index e) (sg_end_index g)); try done; lia. }
        eapply Forall_impl; [exact HA|]. simpl. lia.
  - exists A, (e :: B), (sg_start_index g). split; try done; try lia.
    simpl. split_and!; done || lia.
Qed.

(** What [trim_behind] leaves: the part up to [b], with the segments [C] that
    it swallows and the segments [D] after it. *)
Record behind_spec (A : list Segment) (g : Segment) (r : option (Segment * nat))
    (B C D : list Segment) (b : Z) : Prop := {
  bh_split : B = C ++ D;
  bh_result : r = Some (narrow g (sg_start_index g) b, (length A + length C)%nat);
  bh_bounds : sg_start_index g <= b <= sg_end_index g;
  bh_removed : segs_ok (sg_start_index g) C /\ segs_hi (sg_start_index g) C <= b;
  bh_after : segs_ok b D;
  bh_covered : forall i, b <= i < sg_end_index g -> covered D i;
  bh_empty : b = sg_start_index g -> C = [] /\ exists d D', D = d :: D' /\ sg_start_index d = b
}.

Lemma trim_behind_spec lo A B g :
  segs_ok lo A -> segs_hi lo A <= sg_start_index g -> segs_ok (sg_start_index g) B ->
  seg_ok g -> sg_start_index g < sg_end_index g ->
  exists C D b, behind_spec A g (trim_behind (A ++ B) g) B C D b.
Proof.
  intros HokA Hhi HokB Hg Hne. unfold trim_behind, Segment_end_index, Segment_start_index.
  rewrite lower_bound_app.
  2:{ eapply Forall_impl; [by apply segs_hi_Forall|]. simpl. lia. }
  destruct (lower_bound_split B (sg_end_index g)) as (C & D & -> & -> & HC & HD).
  apply segs_ok_app in HokB as [HokC HokD].
  rewrite app_assoc, <- length_app, lookup_app_length, length_app.
  pose proof (segs_hi_lt (sg_start_index g) C (sg_end_index g) ltac:(lia) HC).
  pose proof (segs_hi_ge _ _ HokC).
  assert (g = narrow g (sg_start_index g) (sg_end_index g)) as Hself by by destruct g.
  destruct D as [|d D]; simpl.
  { exists C, [], (sg_end_index g). split; try done; try lia. by rewrite Hself at 1. }
  specialize (HD d D eq_refl). simpl in HokD. destruct HokD as (Hokd & Hd & HokD).
  destruct (Z.leb_spec (sg_start_index d) (sg_end_index g)).
  - rewrite Segment_size_eq by done. pose proof (so_limit _ Hokd). pose proof (so_limit _ Hg).
    pose proof (so_start _ Hokd). unfold index_limit in *. wsimpl.
    destruct (Z.ltb_spec (sg_end_index g - sg_start_index g) (sg_end_index g - sg_start_index d)); [lia|].
    rewrite Segment_remove_suffix_eq by (done || lia).
    exists C, (d :: D), (sg_start_index d).
    split; simpl; try done; try lia.
    + unfold narrow. do 3 f_equal. lia.
    + split_and!; done || lia.
    + split_and!; done || lia.
    + intros i Hi. rewrite covered_cons. lia.
    + intros E. split; [|by eauto]. destruct C as [|c C]; [done|]. simpl in HokC.
      destruct HokC as (_ & Hc & HokC). pose proof (segs_hi_ge _ _ HokC). simpl in *. lia.
  - exists C, (d :: D), (sg_end_index g). split; simpl; try done; try lia.
    + by rewrite Hself at 1.
    + split_and!; done || lia.
Qed.

(** The effect of [push_interval]. *)
Record interval_spec (lo : Z) (segs : list Segment) (g : Segment) (segs' : list Segment) (un' : Z) : Prop := {
  iv_ok : segs_ok lo segs';
  iv_size : un' = total_size segs';
  iv_covered : forall i, covered segs' i <->
                 covered segs i \/ sg_start_index g <= i < sg_end_index g;
  iv_agrees : forall S, Forall (seg_agrees S) segs -> seg_agrees S g -> Forall (seg_agrees S) segs';
  iv_bound : forall hi, Forall (fun s => sg_end_index s <= hi) segs -> sg_end_index g <= hi ->
               Forall (fun s => sg_end_index s <= hi) segs'
}.

Lemma interval_spec_unchanged lo segs g :
  segs_ok lo segs -> (forall i, sg_start_index g <= i < sg_end_index g -> covered segs i) ->
  interval_spec lo segs g segs (total_size segs).
Proof. intros. split; try done. intuition. Qed.

(** The new segment between the untouched ones. *)
Lemma interval_spec_inserted lo A C D g a b :
  segs_ok lo A -> segs_hi lo A <= a -> segs_ok a C -> segs_hi a C <= b -> segs_ok b D ->
  seg_ok g -> sg_start_index g <= a < b -> b <= sg_end_index g ->
  (forall i, sg_start_index g <= i < a -> covered A i) ->
  (forall i, b <= i < sg_end_index g -> covered D i) ->
  interval_spec lo (A ++ C ++ D) g (A ++ narrow g a b :: D) (total_size (A ++ narrow g a b :: D)).
Proof.
  intros HA1 HA2 HC1 HC2 HD Hg Hab Hb Hcov1 Hcov2. split.
  - apply segs_ok_app. split; [done|]. simpl.
    split_and!; [apply narrow_ok; done || lia | lia | lia | done].
  - done.
  - intros i. rewrite !covered_app, covered_cons. simpl. split.
    + intros [?|[?|?]]; [tauto|lia|tauto].
    + intros [[?|[Hc|?]]|Hi]; [tauto| |tauto|].
      * apply (covered_bounds a) in Hc; [|done]. right. left. lia.
      * destruct (Z.lt_ge_cases i a); [left; apply Hcov1; lia|].
        destruct (Z.lt_ge_cases i b); [right; left; lia|]. right. right. apply Hcov2. lia.
  - intros S Hf Hgs. rewrite !Forall_app in *. destruct Hf as (? & ? & ?).
    split; [done|]. apply Forall_cons_2; [|done]. apply narrow_agrees; done || lia.
  - intros hi Hf Hgs. rewrite !Forall_app in *. destruct Hf as (? & ? & ?).
    split; [done|]. apply Forall_cons_2; [|done]. simpl. lia.
Qed.

Lemma push_interval_spec lo segs g segs' un' :
  segs_ok lo segs -> seg_ok g -> 0 <= lo <= sg_start_index g ->
  Forall (fun s => sg_end_index s <= index_limit) segs ->
  push_interval segs (total_size segs) g = (segs', un') ->
  interval_spec lo segs g segs' un'.
Proof.
  intros Hok Hg Hlo Hlim. unfold push_interval. rewrite Segment_size_eq by done.
  destruct (Z.eqb_spec (sg_end_index g - sg_start_index g) 0) as [Hz|Hz].
  { intros [= <- <-]. apply interval_spec_unchanged; [done|lia]. }
  pose proof (so_order _ Hg). pose proof (so_limit _ Hg) as Hgl. unfold index_limit in *.
  pose proof (trim_previous_spec lo segs g Hok Hg Hlo ltac:(lia)) as Hprev.
  destruct (trim_previous segs g) as [[g' rb]|].
  2:{ intros [= <- <-]. by apply interval_spec_unchanged. }
  destruct Hprev as (A & B & a & [-> -> -> Hab [HA1 HA2] HB Hcov [Hlt|[-> Hnone]]]).
  2:{ rewrite Hnone. intros [= <- <-]. apply interval_spec_unchanged; [done|].
      intros i Hi. apply covered_app. auto. }
  pose proof (narrow_ok g a (sg_end_index g) Hg ltac:(lia) ltac:(lia)) as Hg'.
  destruct (trim_behind_spec lo A B (narrow g a (sg_end_index g))) as (C & D & b & []);
    simpl in *; try done.
  subst B. rewrite bh_result0. destruct bh_removed0 as [HC1 HC2].
  replace (length A + length C - length A)%nat with (length C) by lia.
  rewrite drop_app_length, take_app_length, take_app_length, app_assoc, <- length_app, drop_app_length.
  pose proof (total_size_bound lo (2 ^ 63) _ Hok ltac:(lia) Hlim) as Htot.
  pose proof (total_size_nonneg _ _ HC1). pose proof (total_size_nonneg _ _ HA1).
  pose proof (total_size_nonneg _ _ bh_after0). rewrite !total_size_app in *.
  rewrite (subtract_sizes_eq _ a) by (done || lia).
  assert (seg_ok (narrow g a b)) as Hgab by (apply narrow_ok; done || lia).
  change (narrow (narrow g a (sg_end_index g)) a b) with (narrow g a b).
  rewrite Segment_size_eq by done. simpl.
  assert (Forall (fun s => sg_start_index s < a) A) as HAs.
  { eapply Forall_impl; [by apply segs_hi_Forall|]. simpl. lia. }
  destruct (Z.eq_dec b a) as [E|E].
  - destruct (bh_empty0 E) as (-> & d & D' & -> & Hd). subst b.
    rewrite set_insert_duplicate by done. intros [= <- <-]. rewrite app_nil_r.
    match goal with |- context [u64 ?x] => replace (u64 x) with (total_size (A ++ d :: D')) end.
    2:{ rewrite total_size_app. simpl total_size in *. rewrite u64_small; lia. }
    apply interval_spec_unchanged; [done|]. intros i Hi. apply covered_app.
    destruct (Z.lt_ge_cases i a); [left; apply Hcov; lia|right; apply bh_covered0; lia].
  - rewrite set_insert_middle; [|done|].
    2:{ intros d D' ->. simpl in *. lia. }
    intros [= <- <-].
    match goal with |- context [u64 ?x] => replace (u64 x) with (total_size (A ++ narrow g a b :: D)) end.
    2:{ rewrite total_size_app. simpl. rewrite u64_small; lia. }
    rewrite <- app_assoc. apply interval_spec_inserted; done || lia.
Qed.

(** ** Writing what is contiguous *)

Record reassemble_spec (segs : list Segment) (out : ByteStream) (segs' : list Segment) (out' : ByteStream)
    (un' : Z) : Prop := {
  ra_wf : bs_wf out';
  ra_segs : segs_ok (bs_bytes_written out') segs';
  ra_size : un' = total_size segs';
  ra_grows : bs_bytes_written out <= bs_bytes_written out' < index_limit;
  ra_held : forall i, i < bs_bytes_written out' \/ covered segs' i <->
                      i < bs_bytes_written out \/ covered segs i;
  ra_progress : zlen (bs_contents out') = bs_capacity out' \/
                forall s l, segs' = s :: l -> bs_bytes_written out' < sg_start_index s;
  ra_same : bs_capacity out' = bs_capacity out /\ bs_bytes_read out' = bs_bytes_read out /\
            bs_input_ended out' = bs_input_ended out /\ bs_error out' = bs_error out;
  ra_bound : forall hi, Forall (fun s => sg_end_index s <= hi) segs ->
                        Forall (fun s => sg_end_index s <= hi) segs';
  ra_length : zlen (bs_contents out') = zlen (bs_contents out) + (bs_bytes_written out' - bs_bytes_written out);
  ra_agrees : forall S, bs_bytes_written out <= zlen S -> Forall (seg_agrees S) segs ->
    Forall (seg_agrees S) segs' /\ bs_bytes_written out' <= zlen S /\
    bs_contents out' = bs_contents out ++
      slice (bs_bytes_written out) (bs_bytes_written out' - bs_bytes_written out) S
}.

Lemma reassemble_spec_stop segs out :
  bs_wf out -> segs_ok (bs_bytes_written out) segs -> bs_bytes_written out < index_limit ->
  zlen (bs_contents out) = bs_capacity out \/
    (forall s l, segs = s :: l -> bs_bytes_written out < sg_start_index s) ->
  reassemble_spec segs out segs out (total_size segs).
Proof.
  intros. split; try done; try lia.
  intros S HS Hf. split_and!; try done. rewrite slice_none by lia. by rewrite app_nil_r.
Qed.

(** One segment written in full or in part, then the rest of the loop. *)
Lemma reassemble_spec_step s rest out out1 n segs' out' un' :
  seg_ok s -> sg_start_index s < sg_end_index s -> sg_start_index s = bs_bytes_written out ->
  write_spec out (Segment_str s) out1 n -> 0 < n -> bs_bytes_written out1 = bs_bytes_written out + n ->
  let segs1 := if n <? sg_end_index s - sg_start_index s
               then narrow s (sg_start_index s + n) (sg_end_index s) :: rest else rest in
  reassemble_spec segs1 out1 segs' out' un' ->
  reassemble_spec (s :: rest) out segs' out' un'.
Proof.
  intros Hs Hne Hst [Wcount Wwf Wcont Wwritten Wread Wcap Wended Werror] Hn Hbw segs1 [].
  rewrite Segment_str_len in Wcount by done.
  destruct ra_same0 as (? & ? & ? & ?). split; try done; try lia.
  - intros i. rewrite ra_held0, covered_cons. subst segs1.
    destruct (Z.ltb_spec n (sg_end_index s - sg_start_index s)).
    + rewrite covered_cons. simpl. split; intros [?|[?|?]]; try tauto; try lia.
    + split; [intros [?|?]|intros [?|[?|?]]]; try tauto; try lia.
  - split_and!; congruence.
  - intros hi Hf. apply ra_bound0. inversion_clear Hf. subst segs1.
    destruct (n <? _); [apply Forall_cons_2|]; done.
  - rewrite ra_length0, Wcont, zlen_app, zlen_ztake, Segment_str_len by done. lia.
  - intros S HS Hf. inversion_clear Hf as [|? ? Has Hfr]. pose proof Has as [Has1 Has2].
    assert (Forall (seg_agrees S) segs1) as Hf1.
    { subst segs1. destruct (Z.ltb_spec n (sg_end_index s - sg_start_index s)); [|done].
      apply Forall_cons_2; [|done]. apply narrow_agrees; done || lia. }
    destruct (ra_agrees0 S ltac:(lia) Hf1) as (Hr1 & Hr2 & Hr3). split_and!; [done..|].
    pose proof (so_start _ Hs). rewrite Hr3, Wcont, Has2, <- slice_0, slice_slice by lia.
    rewrite <- app_assoc. f_equal. rewrite Z.add_0_r, Hst, Hbw.
    rewrite slice_app_adj by lia. f_equal. lia.
Qed.

Lemma reassemble_ok segs out segs' out' un' :
  bs_wf out -> segs_ok (bs_bytes_written out) segs -> bs_bytes_written out < index_limit ->
  Forall (fun s => sg_end_index s <= index_limit) segs ->
  reassemble segs out (total_size segs) = (segs', out', un') ->
  reassemble_spec segs out segs' out' un'.
Proof.
  revert out. induction segs as [|s rest IH]; intros out Hwf Hok Hbw Hlim.
  { cbn. intros [= <- <- <-]. apply (reassemble_spec_stop []); try done. by right. }
  pose proof Hok as (Hs & Hst & Hrest). inversion_clear Hlim as [|? ? Hl1 Hl2].
  cbn [reassemble]. unfold Segment_start_index, ByteStream_bytes_written.
  destruct (Z.eqb_spec (sg_start_index s) (bs_bytes_written out)) as [E|E].
  2:{ intros [= <- <- <-]. apply reassemble_spec_stop; try done. right. intros ? ? [= <- <-]. lia. }
  rewrite ByteStream_write_move_eq.
  pose proof (so_limit _ Hs). pose proof (so_start _ Hs). unfold index_limit in *.
  destruct (ByteStream_write_exists out (Segment_str s) Hwf) as (out1 & n & -> & Hw).
  { rewrite Segment_str_len by done. lia. }
  pose proof Hw as [Wcount Wwf Wcont Wwritten Wread Wcap Wended Werror].
  rewrite Segment_str_len in Wcount by done.
  pose proof (bs_wf_written _ Hwf). pose proof (bs_wf_fits _ Hwf).
  rewrite u64_small in Wwritten by lia.
  destruct (Z.eqb_spec n 0) as [->|Hn0].
  { intros [= <- <- <-].
    assert (bs_contents out1 = bs_contents out) as Hc.
    { rewrite Wcont, ztake_le0 by lia. by rewrite app_nil_r. }
    assert (bs_bytes_written out1 = bs_bytes_written out) as Hb by lia.
    split; rewrite ?Hc, ?Hb; try done; try lia.
    intros S HS Hf. split_and!; try done. rewrite slice_none by lia. by rewrite app_nil_r. }
  rewrite Segment_size_eq by done.
  pose proof (total_size_bound _ (2 ^ 63) _ Hrest ltac:(lia) Hl2).
  pose proof (total_size_nonneg _ _ Hrest). cbn [total_size]. rewrite u64_small by lia.
  destruct (Z.ltb_spec n (sg_end_index s - sg_start_index s)) as [Hlt|Hge].
  - intros [= <- <- <-]. rewrite Segment_remove_prefix_eq by (done || lia).
    change (MkSegment _ _ _ _) with (narrow s (sg_start_index s + n) (sg_end_index s)).
    assert (seg_ok (narrow s (sg_start_index s + n) (sg_end_index s))) by (apply narrow_ok; done || lia).
    rewrite set_insert_head by (intros e k' ->; simpl in *; lia).
    eapply reassemble_spec_step; try done; try lia.
    destruct (Z.ltb_spec n (sg_end_index s - sg_start_index s)); [|lia].
    match goal with |- context [reassemble_spec _ _ _ _ ?u] =>
      replace u with (total_size (narrow s (sg_start_index s + n) (sg_end_index s) :: rest)) by (simpl; lia) end.
    apply reassemble_spec_stop; try done; try (unfold index_limit; lia).
    + simpl. split_and!; done || lia.
    + left. rewrite Wcont, zlen_app, zlen_ztake, Segment_str_len by done. lia.
  - assert (n = sg_end_index s - sg_start_index s) by lia.
    replace (sg_end_index s - sg_start_index s + total_size rest - n) with (total_size rest) by lia.
    intros Hr. eapply reassemble_spec_step; try done; try lia.
    destruct (Z.ltb_spec n (sg_end_index s - sg_start_index s)); [lia|].
    apply IH; try done; [|lia]. by replace (bs_bytes_written out1) with (sg_end_index s) by lia.
Qed.

(** ** [push_substring] *)

Abbreviation sr_written r := (bs_bytes_written (sr_output r)).

Record sr_wf (r : StreamReassembler) : Prop := {
  sw_output : bs_wf (sr_output r);
  sw_capacity : bs_capacity (sr_output r) = sr_capacity r /\ sr_capacity r < index_limit;
  sw_written : 0 <= sr_written r < index_limit;
  sw_read : bs_bytes_read (sr_output r) = sr_written r - zlen (bs_contents (sr_output r));
  sw_nonneg : 0 <= bs_bytes_read (sr_output r);
  sw_segments : segs_ok (sr_written r) (sr_segments r);
  sw_window : Forall (fun s => sg_end_index s <= sr_written r + sr_capacity r) (sr_segments r);
  sw_unassembled : sr_unassembled_bytes r = total_size (sr_segments r);
  sw_ended : bs_input_ended (sr_output r) = sr_got_eof r && (sr_end_index r =? sr_written r)
}.

(** The reassembler has the byte at index [i], written or waiting. *)
Definition held (r : StreamReassembler) (i : Z) : Prop :=
  i < sr_written r \/ covered (sr_segments r) i.

(** The state agrees with the stream [S]. *)
Record sr_agrees (S : bytes) (r : StreamReassembler) : Prop := {
  sa_limit : zlen S < index_limit;
  sa_written : sr_written r <= zlen S;
  sa_segments : Forall (seg_agrees S) (sr_segments r);
  sa_unread : bs_contents (sr_output r) =
              slice (bs_bytes_read (sr_output r)) (zlen (bs_contents (sr_output r))) S;
  sa_end : sr_got_eof r = true -> sr_end_index r = zlen S
}.

(** A substring of [S] as the sender cuts it; an empty one may lie beyond the
    end of [S], as the segments after a FIN do. *)
Record substring_of (S data : bytes) (index : Z) (eof : bool) : Prop := {
  so_index : 0 <= index /\ index + zlen data < index_limit;
  so_data : data = slice index (zlen data) S;
  so_eof : eof = true -> index + zlen data = zlen S
}.

Lemma StreamReassembler_new_wf cap : 0 <= cap < index_limit -> sr_wf (StreamReassembler_new cap).
Proof.
  unfold index_limit. intros. split; simpl; unfold index_limit, bs_contents, flatten; simpl; zl; try done.
  apply ByteStream_new_wf. lia.
Qed.

Lemma seg_ok_limit lo l : segs_ok lo l -> Forall (fun s => sg_end_index s <= index_limit) l.
Proof.
  intros. eapply Forall_impl; [by apply segs_ok_Forall|]. simpl. intros s [[] ?]. lia.
Qed.

Lemma Segment_new_ok index d :
  0 <= index -> index + zlen d < index_limit -> seg_ok (Segment_new index d) /\
  sg_end_index (Segment_new index d) = index + zlen d.
Proof.
  intros H1 H2. pose proof (zlen_nonneg d). unfold index_limit in *.
  assert (zlen d < 2 ^ 64) by lia.
  unfold Segment_new. wsimpl. split; [|done]. split; simpl; try done; try lia.
  - by apply Buffer_of_string_wf.
  - unfold Buffer_size. rewrite Buffer_of_string_str by done. lia.
Qed.

(** Bytes that the stream has at [index] end within it. *)
Lemma slice_inside (S d : bytes) index :
  0 <= index -> d = slice index (zlen d) S -> 0 < zlen d -> index + zlen d <= zlen S.
Proof. intros H1 H2 H3. apply (f_equal zlen) in H2. zl. Qed.

Lemma Segment_new_agrees S index d :
  0 <= index -> index + zlen d < index_limit -> d = slice index (zlen d) S ->
  seg_agrees S (Segment_new index d).
Proof.
  intros H1 H2 H4. destruct (Segment_new_ok index d) as [Hok He]; [done|lia|].
  split; rewrite ?He; [simpl; intros; apply slice_inside; done || lia|]. rewrite Segment_str_eq by done. rewrite He. simpl.
  unfold index_limit in *. rewrite Buffer_of_string_str by lia. rewrite Z.sub_diag.
  replace (index + zlen d - index) with (zlen d) by lia. rewrite slice_all. done.
Qed.

(** The segment that [push_substring] builds for [push_interval]. *)
Definition cut_segment (expected : Z) (index : Z) (view : bytes) : Segment :=
  let segment := Segment_new index view in
  if Segment_start_index segment <? expected
  then Segment_remove_prefix segment (u64 (expected - Segment_start_index segment))
  else segment.

Lemma cut_segment_spec expected index view :
  0 <= index -> 0 <= expected <= index + zlen view -> index + zlen view < index_limit ->
  let g := cut_segment expected index view in
  g = narrow (Segment_new index view) (Z.max index expected) (index + zlen view) /\
  seg_ok g /\ expected <= sg_start_index g.
Proof.
  intros H1 H2 H3. destruct (Segment_new_ok index view) as [Hok He]; [done..|].
  pose proof (zlen_nonneg view).
  unfold cut_segment, Segment_start_index. cbn [sg_start_index Segment_new].
  unfold index_limit in *. destruct (Z.ltb_spec index expected).
  - wsimpl. rewrite Segment_remove_prefix_eq by (done || (rewrite He; simpl; lia)).
    rewrite He. simpl sg_start_index. replace (index + (expected - index)) with expected by lia.
    rewrite Z.max_r by lia. split; [done|].
    split; [|simpl; lia]. apply (narrow_ok (Segment_new index view)); try done; simpl; wsimpl; lia.
  - rewrite Z.max_l by lia. split; [|by simpl].
    unfold narrow, Segment_new. simpl. by wsimpl.
Qed.

(** The effect of one accepted call. *)
Record push_spec (r : StreamReassembler) (data : bytes) (index : Z) (eof : bool)
    (r' : StreamReassembler) : Prop := {
  pp_wf : sr_wf r';
  pp_capacity : sr_capacity r' = sr_capacity r;
  pp_read : bs_bytes_read (sr_output r') = bs_bytes_read (sr_output r);
  pp_held : forall i, held r' i <->
              held r i \/ (index <= i < index + zlen data /\ i < sr_written r + sr_capacity r);
  pp_progress : zlen (bs_contents (sr_output r')) = sr_capacity r \/
                ~ held r' (sr_written r');
  pp_agrees : forall S, sr_agrees S r -> substring_of S data index eof ->
                sr_agrees S r' /\
                bs_contents (sr_output r') = bs_contents (sr_output r) ++
                  slice (sr_written r) (sr_written r' - sr_written r) S;
  pp_eof : sr_got_eof r' = eof || sr_got_eof r
}.

Lemma push_spec_unchanged r data index eof :
  sr_wf r -> index + zlen data <= sr_written r -> ~ held r (sr_written r) ->
  eof || sr_got_eof r = sr_got_eof r -> push_spec r data index eof r.
Proof.
  intros Hwf Hle Hp He. split; try done.
  - unfold held. intros i. split; [tauto|]. intros [?|?]; [done|]. lia.
  - by right.
  - intros S HS Hsub. split; [done|]. rewrite slice_none by lia. by rewrite app_nil_r.
Qed.

Lemma view_agrees (S data : bytes) index k :
  0 <= index -> 0 <= k -> data = slice index (zlen data) S ->
  ztake k data = slice index (zlen (ztake k data)) S.
Proof.
  intros Hi Hk Hd. pose proof (zlen_nonneg data).
  assert (ztake k data = slice 0 (Z.min k (zlen data)) data) as ->.
  { rewrite slice_0. destruct (Z.le_gt_cases k (zlen data)); [by rewrite Z.min_l|].
    rewrite Z.min_r by lia. by rewrite !ztake_ge by lia. }
  replace (zlen (slice 0 (Z.min k (zlen data)) data)) with (Z.min k (zlen data)) by zl.
  rewrite Hd at 2. rewrite slice_slice by lia. f_equal. lia.
Qed.

(** The state that a call past the early returns builds, before it looks at
    the end of the stream. *)
Definition pushed (r : StreamReassembler) (data : bytes) (index : Z) (eof : bool)
    (out : ByteStream) (segs : list Segment) : StreamReassembler :=
  let set_eof := eof && negb (sr_got_eof r) in
  let got_eof := if set_eof then true else sr_got_eof r in
  let end_index := if set_eof then index + zlen data else sr_end_index r in
  MkStreamReassembler
    (if got_eof && (end_index =? bs_bytes_written out) then ByteStream_end_input out else out)
    (sr_capacity r) end_index (total_size segs) got_eof segs.

(** The segment of the call: what lies in the window and is not yet written. *)
Record window_segment (r : StreamReassembler) (data : bytes) (index : Z) (g : Segment) : Prop := {
  wg_ok : seg_ok g;
  wg_start : sg_start_index g = Z.max index (sr_written r);
  wg_end : sg_end_index g = Z.min (index + zlen data) (sr_written r + sr_capacity r);
  wg_agrees : forall S, data = slice index (zlen data) S -> seg_agrees S g
}.

Lemma push_substring_decompose r data index eof :
  sr_wf r -> 0 <= index -> index + zlen data < index_limit ->
  ByteStream_input_ended (sr_output r) = false ->
  sr_written r <= index + zlen data -> index <= sr_written r + sr_capacity r ->
  exists g segs1 segs2 out2,
    window_segment r data index g /\
    interval_spec (sr_written r) (sr_segments r) g segs1 (total_size segs1) /\
    reassemble_spec segs1 (sr_output r) segs2 out2 (total_size segs2) /\
    StreamReassembler_push_substring r data index eof = Ok (pushed r data index eof out2 segs2).
Proof.
  intros Hwf Hi Hlim Hend Hnew Hwin. pose proof (zlen_nonneg data).
  destruct Hwf as [Wout [Wcap1 Wcap2] Wwr Wrd Wnn Wseg Wwin Wun Wended].
  unfold StreamReassembler_push_substring, ByteStream_bytes_written. rewrite Hend.
  pose proof (bs_wf_capacity _ Wout). unfold index_limit in *. wsimpl.
  destruct (Z.ltb_spec (index + zlen data) (sr_written r)); [lia|].
  set (view := ztake (sr_written r + sr_capacity r - index) data).
  assert (zlen view = Z.min (zlen data) (sr_written r + sr_capacity r - index)) as Hv
    by (unfold view; zl).
  assert (string_of_view data
    (if sr_written r + sr_capacity r <? index + zlen data
     then sr_written r + sr_capacity r - index else zlen data) = Ok view) as ->.
  { unfold string_of_view, view. destruct (Z.ltb_spec (sr_written r + sr_capacity r) (index + zlen data)).
    - by destruct (Z.leb_spec (sr_written r + sr_capacity r - index) (zlen data)); [|lia].
    - rewrite Z.leb_refl. by rewrite !ztake_ge by lia. }
  cbn [mbind result_bind]. fold (cut_segment (sr_written r) index view).
  destruct (cut_segment_spec (sr_written r) index view) as (Hg & Hgok & Hgst); unfold index_limit; try lia.
  set (g := cut_segment (sr_written r) index view) in *.
  assert (window_segment r data index g) as Hwg.
  { split; [done|by rewrite Hg|rewrite Hg; simpl; lia|]. intros S Hd. rewrite Hg.
    destruct (Segment_new_ok index view Hi ltac:(unfold index_limit; lia)) as [Hn1 Hn2].
    apply narrow_agrees; try done; try (rewrite ?Hn2; simpl; lia).
    apply Segment_new_agrees; unfold index_limit; try done; try lia. apply view_agrees; done || lia. }
  rewrite Wun. destruct (push_interval (sr_segments r) (total_size (sr_segments r)) g) as [segs1 un1] eqn:Epi.
  apply (push_interval_spec (sr_written r)) in Epi; [|done|done|lia|by eapply seg_ok_limit].
  pose proof (iv_size _ _ _ _ _ Epi) as ->. pose proof (iv_ok _ _ _ _ _ Epi).
  destruct (reassemble segs1 (sr_output r) (total_size segs1)) as [[segs2 out2] un2] eqn:Era.
  apply reassemble_ok in Era; [|done|done|unfold index_limit; lia|by eapply seg_ok_limit].
  pose proof (ra_size _ _ _ _ _ Era) as ->.
  by exists g, segs1, segs2, out2.
Qed.

Lemma pushed_output r data index eof out segs :
  bs_wf out -> bs_input_ended out = false ->
  let r' := pushed r data index eof out segs in
  bs_wf (sr_output r') /\ bs_contents (sr_output r') = bs_contents out /\
  sr_written r' = bs_bytes_written out /\ bs_bytes_read (sr_output r') = bs_bytes_read out /\
  bs_capacity (sr_output r') = bs_capacity out /\
  bs_input_ended (sr_output r') = sr_got_eof r' && (sr_end_index r' =? bs_bytes_written out).
Proof.
  intros Hwf He. cbn. destruct (_ && (_ =? bs_bytes_written out)); split_and!; try done; auto with sponge.
Qed.

Lemma pushed_wf r data index eof g segs1 segs2 out2 :
  sr_wf r -> bs_input_ended (sr_output r) = false -> window_segment r data index g ->
  interval_spec (sr_written r) (sr_segments r) g segs1 (total_size segs1) ->
  reassemble_spec segs1 (sr_output r) segs2 out2 (total_size segs2) ->
  sr_wf (pushed r data index eof out2 segs2).
Proof.
  intros [Wout [Wcap1 Wcap2] Wwr Wrd Wnn Wseg Wwin Wun Wended] Hend [G1 G2 G3 G4] [I1 I2 I3 I4 I5]
    [R1 R2 R3 R4 R5 R6 (R71 & R72 & R73 & R74) R8 R9 R10].
  destruct (pushed_output r data index eof out2 segs2) as (O1 & O2 & O3 & O4 & O5 & O6); [done|congruence|].
  split; rewrite ?O2, ?O3, ?O4, ?O5, ?O6; simpl; try done; try lia.
  eapply Forall_impl; [apply R8, (I5 (sr_written r + sr_capacity r)); [done|lia]|]. simpl. lia.
Qed.

(** [push_substring] past its early returns. *)
Lemma push_substring_ok r data index eof :
  sr_wf r -> 0 <= index -> index + zlen data < index_limit ->
  ByteStream_input_ended (sr_output r) = false ->
  sr_written r <= index + zlen data -> index <= sr_written r + sr_capacity r ->
  exists r', StreamReassembler_push_substring r data index eof = Ok r' /\ push_spec r data index eof r'.
Proof.
  intros Hwf Hi Hlim Hend Hnew Hwin.
  destruct (push_substring_decompose r data index eof) as (g & segs1 & segs2 & out2 & Hg & HI & HR & ->);
    try done. eexists. split; [done|].
  pose proof (pushed_wf r data index eof g segs1 segs2 out2 Hwf Hend Hg HI HR) as Hwf'.
  destruct Hg as [G1 G2 G3 G4], HI as [I1 I2 I3 I4 I5],
    HR as [R1 R2 R3 R4 R5 R6 (R71 & R72 & R73 & R74) R8 R9 R10], (sw_capacity _ Hwf) as [Wcap1 Wcap2].
  destruct (pushed_output r data index eof out2 segs2) as (O1 & O2 & O3 & O4 & O5 & O6).
  { done. } { unfold ByteStream_input_ended in Hend. congruence. }
  split; rewrite ?O2, ?O3, ?O4, ?O5; try done.
  - intros i. unfold held. rewrite O3. simpl. rewrite R5, I3, G2, G3.
    destruct (Z.lt_ge_cases i (sr_written r)); [tauto|].
    split; intros [?|?]; intuition lia.
  - destruct R6 as [R6|R6]; [left; lia|right]. unfold held. rewrite O3. simpl.
    intros [?|Hc]; [lia|]. apply (covered_bounds (bs_bytes_written out2 + 1)) in Hc; [lia|].
    destruct segs2 as [|s l]; [done|]. specialize (R6 s l eq_refl). simpl in *. intuition lia.
  - intros S [A1 A2 A3 A4 A5] [[_ S1] S2 S3].
    destruct (R10 S A2 (I4 S A3 (G4 S S2))) as (Q1 & Q2 & Q3).
    split; [|done]. split; rewrite ?O2, ?O3, ?O4; try done.
    + rewrite R9, Q3, A4, R72 at 1. replace (sr_written r) with (bs_bytes_read (sr_output r)
        + zlen (bs_contents (sr_output r))) at 1 by (rewrite (sw_read _ Hwf); lia).
      apply slice_app_adj; [apply (sw_nonneg _ Hwf)|apply zlen_nonneg|lia].
    + simpl. intros He. destruct eof, (sr_got_eof r); simpl in *; auto; try done.
  - simpl. by destruct eof, (sr_got_eof r).
Qed.

Lemma push_substring_beyond_throws r data index eof :
  sr_wf r -> sr_written r + sr_capacity r < index -> index + zlen data < index_limit ->
  ByteStream_input_ended (sr_output r) = false ->
  StreamReassembler_push_substring r data index eof = Throw length_error.
Proof.
  intros [Wout [Wcap1 Wcap2] Wwr _ _ _ _ _ _] Hi Hlim Hend. pose proof (zlen_nonneg data).
  pose proof (bs_wf_capacity _ Wout).
  unfold StreamReassembler_push_substring, ByteStream_bytes_written. rewrite Hend.
  unfold index_limit in *. rewrite (u64_small (index + zlen data)), (u64_small (_ + sr_capacity r)) by lia.
  destruct (Z.ltb_spec (index + zlen data) (sr_written r)); [lia|].
  destruct (Z.ltb_spec (sr_written r + sr_capacity r) (index + zlen data)); [|lia].
  assert (u64 (sr_written r + sr_capacity r - index) = 2 ^ 64 + (sr_written r + sr_capacity r - index))
    as -> by wrap_lia.
  unfold string_of_view, string_max_size.
  destruct (Z.leb_spec (2 ^ 64 + (sr_written r + sr_capacity r - index)) (zlen data)); [lia|].
  by destruct (Z.ltb_spec (2 ^ 63 - 1) (2 ^ 64 + (sr_written r + sr_capacity r - index))); [|lia].
Qed.

(** A substring that is older than what has been written changes nothing. *)
Lemma push_substring_stale r data index eof :
  sr_wf r -> 0 <= index -> index + zlen data < sr_written r ->
  StreamReassembler_push_substring r data index eof = Ok r.
Proof.
  intros Hwf Hi Hlt. pose proof (zlen_nonneg data). pose proof (sw_written _ Hwf). unfold index_limit in *.
  unfold StreamReassembler_push_substring, ByteStream_bytes_written. destruct (ByteStream_input_ended _); [done|].
  by rewrite u64_small, (proj2 (Z.ltb_lt _ _)) by lia.
Qed.

(** Whatever the substring, an accepted call keeps the invariant and the
    agreement with the sender's stream. *)
Lemma push_substring_preserves S r data index eof r' :
  sr_wf r -> sr_agrees S r -> substring_of S data index eof ->
  StreamReassembler_push_substring r data index eof = Ok r' ->
  sr_wf r' /\ sr_agrees S r' /\ bs_bytes_read (sr_output r') = bs_bytes_read (sr_output r) /\
  bs_contents (sr_output r') = bs_contents (sr_output r) ++
    slice (sr_written r) (sr_written r' - sr_written r) S.
Proof.
  intros Hwf HS Hsub Hpush.
  assert (forall r', r' = r -> sr_wf r' /\ sr_agrees S r' /\
    bs_bytes_read (sr_output r') = bs_bytes_read (sr_output r) /\
    bs_contents (sr_output r') = bs_contents (sr_output r) ++
      slice (sr_written r) (sr_written r' - sr_written r) S) as Hsame.
  { intros ? ->. split_and!; try done. rewrite slice_none by lia. by rewrite app_nil_r. }
  pose proof Hsub as [[Hi1 Hi2] _ _]. pose proof (sa_limit _ _ HS). pose proof (zlen_nonneg data).
  destruct (ByteStream_input_ended (sr_output r)) eqn:Hend.
  { unfold StreamReassembler_push_substring in Hpush. rewrite Hend in Hpush. apply Hsame. congruence. }
  destruct (Z.lt_ge_cases (index + zlen data) (sr_written r)).
  { rewrite push_substring_stale in Hpush by done. apply Hsame. congruence. }
  destruct (Z.le_gt_cases index (sr_written r + sr_capacity r)) as [Hw|Hw].
  { destruct (push_substring_ok r data index eof) as (r2 & E & Hspec); try done; try lia.
    rewrite Hpush in E. injection E as <-. destruct Hspec.
    destruct (pp_agrees0 S HS Hsub). done. }
  rewrite push_substring_beyond_throws in Hpush by (done || lia). discriminate.
Qed.

(** A push either succeeds or, beyond the window, ends with [length_error]. *)
Lemma push_substring_cases r data index eof :
  sr_wf r -> 0 <= index -> index + zlen data < index_limit ->
  (exists r', StreamReassembler_push_substring r data index eof = Ok r') \/
  StreamReassembler_push_substring r data index eof = Throw length_error.
Proof.
  intros Hwf Hi Hlim. pose proof (zlen_nonneg data). pose proof (sw_written _ Hwf).
  destruct (ByteStream_input_ended (sr_output r)) eqn:Hend.
  { left. exists r. unfold StreamReassembler_push_substring. by rewrite Hend. }
  destruct (Z.lt_ge_cases (index + zlen data) (sr_written r)).
  { left. exists r. by apply push_substring_stale. }
  destruct (Z.le_gt_cases index (sr_written r + sr_capacity r)) as [Hw|Hw].
  - left. destruct (push_substring_ok r data index eof) as (r' & E & _); try done; try lia. by exists r'.
  - right. by apply push_substring_beyond_throws.
Qed.

(** More of the stream may be written as long as its end has not been seen. *)
Lemma sr_agrees_more (S S' : bytes) r :
  sr_wf r -> sr_agrees S r -> sr_got_eof r = false -> zlen (S ++ S') < index_limit -> sr_agrees (S ++ S') r.
Proof.
  intros Hwf [A1 A2 A3 A4 A5] He Hlim. pose proof (zlen_nonneg S'). split; [done|zl| | |by rewrite He].
  - pose proof (sw_segments _ Hwf) as Hs. revert A3 Hs. generalize (sr_written r).
    induction (sr_segments r) as [|s l IH]; intros lo A3 Hs; [apply Forall_nil_2|].
    apply Forall_cons in A3 as [[G1 G2] A3]. destruct Hs as (H1 & H2 & H3). destruct H1.
    apply Forall_cons_2; [|by eapply IH]. split; [intros; zl|]. rewrite G2, slice_app_l by lia. done.
  - rewrite A4 at 1. symmetry. apply slice_app_l; [apply Hwf|]. rewrite (sw_read _ Hwf). lia.
Qed.

Lemma set_error_wf r : sr_wf r ->
  sr_wf (StreamReassembler_with_output r (ByteStream_set_error (sr_output r))).
Proof. intros [W1 W2 W3 W4 W5 W6 W7 W8 W9]. split; simpl; try done. by apply ByteStream_set_error_wf. Qed.

(** ** The reassembler and its reader *)

(** The states reached, with the bytes read so far, when substrings of the
    stream [S] are pushed in any order, with any overlap and repetition, and
    the owner reads from the output at any time. *)
Inductive reassembled (S : bytes) (cap : Z) : StreamReassembler -> bytes -> Prop :=
  | rs_new : reassembled S cap (StreamReassembler_new cap) []
  | rs_push r acc data index eof r' :
      reassembled S cap r acc -> substring_of S data index eof ->
      StreamReassembler_push_substring r data index eof = Ok r' ->
      reassembled S cap r' acc
  | rs_read r acc n out b :
      reassembled S cap r acc -> 0 <= n < 2 ^ 64 ->
      ByteStream_read (sr_output r) n = Ok (out, b) ->
      reassembled S cap (StreamReassembler_with_output r out) (acc ++ b).

Lemma read_preserves S r n out b :
  sr_wf r -> sr_agrees S r -> 0 <= n -> ByteStream_read (sr_output r) n = Ok (out, b) ->
  sr_wf (StreamReassembler_with_output r out) /\ sr_agrees S (StreamReassembler_with_output r out) /\
  b ++ bs_contents out = bs_contents (sr_output r) /\ bs_bytes_written out = sr_written r.
Proof.
  intros Hwf HS Hn Hr. destruct (ByteStream_read_ok (sr_output r) n) as (out2 & E & Hp); [apply Hwf|done|].
  rewrite Hr in E. injection E as -> ->. destruct Hp as [P1 P2 P3 P4 P5 P6 P7].
  destruct Hwf as [W1 [W21 W22] W3 W4 W5 W6 W7 W8 W9]. destruct HS as [A1 A2 A3 A4 A5].
  set (c := bs_contents (sr_output r)) in *. pose proof (zlen_nonneg c).
  assert (bs_bytes_read out2 = bs_bytes_read (sr_output r) + Z.min n (zlen c)) as Hrd.
  { rewrite P4. unfold index_limit in *. rewrite u64_small; lia. }
  split_and!; [| |by rewrite P2; apply ztake_zdrop|done].
  - split; simpl; rewrite ?P2, ?P3, ?P5, ?P6; try done; rewrite ?Hrd; zl.
  - split; simpl; rewrite ?P3; try done. rewrite P2, Hrd.
    rewrite <- (zdrop_min n c) by done.
    replace (zlen (zdrop (Z.min n (zlen c)) c)) with (zlen c - Z.min n (zlen c)) by zl.
    rewrite A4 at 2. apply zdrop_slice; lia.
Qed.

Lemma push_substring_capacity r data index eof r' :
  StreamReassembler_push_substring r data index eof = Ok r' -> sr_capacity r' = sr_capacity r.
Proof.
  unfold StreamReassembler_push_substring.
  destruct (ByteStream_input_ended (sr_output r)); [congruence|].
  destruct (_ <? ByteStream_bytes_written (sr_output r)); [congruence|].
  destruct (string_of_view data _) as [view|]; cbn [mbind result_bind]; [|done].
  destruct (push_interval _ _ _) as [segs un], (reassemble segs _ un) as [[? ?] ?].
  by intros [= <-].
Qed.

Lemma push_substring_got_eof r data index eof r' :
  StreamReassembler_push_substring r data index eof = Ok r' ->
  sr_got_eof r' = true -> sr_got_eof r = true \/ eof = true.
Proof.
  unfold StreamReassembler_push_substring.
  destruct (ByteStream_input_ended (sr_output r)); [intros [= <-]; by left|].
  destruct (_ <? ByteStream_bytes_written (sr_output r)); [intros [= <-]; by left|].
  destruct (string_of_view data _) as [view|]; cbn [mbind result_bind]; [|done].
  destruct (push_interval _ _ _) as [segs un], (reassemble segs _ un) as [[? ?] ?].
  intros [= <-]. simpl. destruct eof; [by right|by left].
Qed.

(** The bytes delivered stay a prefix of the stream. *)
Lemma push_substring_extends S r data index eof r' acc :
  sr_wf r -> sr_agrees S r -> substring_of S data index eof ->
  StreamReassembler_push_substring r data index eof = Ok r' ->
  acc ++ bs_contents (sr_output r) = ztake (sr_written r) S ->
  acc ++ bs_contents (sr_output r') = ztake (sr_written r') S.
Proof.
  intros Hwf Ha Hsub Hpush He.
  pose proof (push_substring_preserves S r data index eof r' Hwf Ha Hsub Hpush) as (Hwf' & Ha' & Hrd & Hcont).
  rewrite Hcont, app_assoc, He, <- slice_0. pose proof (sw_written _ Hwf). pose proof (sw_written _ Hwf').
  assert (sr_written r <= sr_written r').
  { pose proof (sw_read _ Hwf). pose proof (sw_read _ Hwf').
    assert (zlen (bs_contents (sr_output r')) >= zlen (bs_contents (sr_output r))) by (rewrite Hcont; zl).
    lia. }
  rewrite (slice_app_adj 0) by lia. rewrite slice_0. f_equal. lia.
Qed.

Lemma reassembled_inv S cap r acc :
  0 <= cap < index_limit -> zlen S < index_limit -> reassembled S cap r acc ->
  sr_wf r /\ sr_agrees S r /\ sr_capacity r = cap /\
  acc ++ bs_contents (sr_output r) = ztake (sr_written r) S.
Proof.
  intros Hcap HS. induction 1 as [|r acc data index eof r' _ (Hwf & Ha & Hc & He) Hsub Hpush
                                 |r acc n out b _ (Hwf & Ha & Hc & He) Hn Hr].
  - split_and!; [by apply StreamReassembler_new_wf| |done|by rewrite ztake_le0].
    split; simpl; try done; zl.
  - pose proof (push_substring_preserves S r data index eof r' Hwf Ha Hsub Hpush)
      as (Hwf' & Ha' & Hrd & Hcont).
    assert (sr_capacity r' = sr_capacity r) as Hc'.
    { by apply (push_substring_capacity r data index eof). }
    split_and!; try done; [congruence|]. by apply (push_substring_extends S r data index eof).
  - destruct (read_preserves S r n out b Hwf Ha ltac:(lia) Hr) as (Hwf' & Ha' & Hb & Hw).
    split_and!; try done. simpl. rewrite <- app_assoc, Hb, Hw. done.
Qed.

(** The effect of [push_substring] on a substring that reaches past the
    bytes already written and starts inside the window: it does not throw, it
    keeps the invariant, the indices held afterwards are exactly those held
    before and those of the substring that lie in the window, and unless the
    output is full the next byte to write is not among them. *)
Theorem push_substring_held r data index eof :
  sr_wf r -> 0 <= index -> index + zlen data < index_limit ->
  ByteStream_input_ended (sr_output r) = false ->
  sr_written r <= index + zlen data -> index <= sr_written r + sr_capacity r ->
  exists r', StreamReassembler_push_substring r data index eof = Ok r' /\ sr_wf r' /\
    (forall i, held r' i <->
       held r i \/ (index <= i < index + zlen data /\ i < sr_written r + sr_capacity r)) /\
    (ByteStream_remaining_capacity (sr_output r') = 0 \/ ~ held r' (sr_written r')).
Proof.
  intros Hwf H1 H2 H3 H4 H5.
  destruct (push_substring_ok r data index eof Hwf H1 H2 H3 H4 H5) as (r' & E & []).
  exists r'. split_and!; try done. destruct (sw_capacity _ pp_wf0) as [Hc _].
  rewrite ByteStream_remaining_capacity_eq by apply pp_wf0.
  destruct pp_progress0; [left; lia|by right].
Qed.

Lemma push_substring_held_witness :
  exists r', StreamReassembler_push_substring (StreamReassembler_new 8) [7; 8] 3 false = Ok r' /\ sr_wf r' /\
    (forall i, held r' i <->
       held (StreamReassembler_new 8) i \/ (3 <= i < 3 + zlen [7; 8] /\ i < 0 + 8)) /\
    (ByteStream_remaining_capacity (sr_output r') = 0 \/ ~ held r' (sr_written r')).
Proof.
  apply (push_substring_held (StreamReassembler_new 8) [7; 8] 3 false); try reflexivity; try (vm_compute; congruence).
  apply StreamReassembler_new_wf. unfold index_limit. lia.
Defined.

(** A push in a state where nothing is lost: what it brings is held, and the end of
    the stream is noted. *)
Lemma push_held S r data index eof r' :
  sr_wf r -> sr_agrees S r -> substring_of S data index eof -> zlen S <= sr_capacity r ->
  StreamReassembler_push_substring r data index eof = Ok r' ->
  (forall i, held r i \/ index <= i < index + zlen data -> held r' i) /\ sr_got_eof r' = eof || sr_got_eof r /\
  (r' = r \/ ~ held r' (sr_written r') \/ sr_written r' = zlen S).
Proof.
  intros Hwf HS Hsub Hfit Hpush. pose proof Hsub as [[Hi1 Hi2] Hd He]. pose proof (zlen_nonneg data).
  assert (forall i, index <= i < index + zlen data -> i < zlen S) as Hin.
  { intros i Hi. pose proof (slice_inside S data index Hi1 Hd). lia. }
  pose proof (sa_written _ _ HS) as Hws. pose proof (sw_written _ Hwf) as Hw.
  destruct (ByteStream_input_ended (sr_output r)) eqn:Hend.
  { unfold StreamReassembler_push_substring in Hpush. rewrite Hend in Hpush. injection Hpush as <-.
    unfold ByteStream_input_ended in Hend. rewrite (sw_ended _ Hwf) in Hend. b2p.
    pose proof (sa_end _ _ HS ltac:(done)). split_and!; [|by destruct eof, (sr_got_eof r)|by left].
    intros i [?|Hi]; [done|]. left. specialize (Hin i Hi). lia. }
  destruct (Z.lt_ge_cases (index + zlen data) (sr_written r)).
  { rewrite push_substring_stale in Hpush by done. injection Hpush as <-.
    destruct eof; [specialize (He eq_refl); lia|]. split_and!; [|done|by left].
    intros i [?|Hi]; [done|]. left. lia. }
  destruct (Z.le_gt_cases index (sr_written r + sr_capacity r)) as [Hwin|Hwin].
  2:{ rewrite push_substring_beyond_throws in Hpush by (done || lia). discriminate. }
  destruct (push_substring_ok r data index eof) as (r2 & E & [P1 P2 P3 P4 P5 P6 P7]); try done; try lia.
  rewrite Hpush in E. injection E as <-. split_and!; [|done|].
  - intros i Hi. apply P4. destruct Hi as [Hi|Hi]; [by left|right]. specialize (Hin i Hi). lia.
  - right. destruct P5 as [P5|P5]; [right|by left]. destruct (P6 S HS Hsub) as [HS' _].
    pose proof (sa_written _ _ HS'). pose proof (sw_read _ P1). pose proof (sw_nonneg _ P1). lia.
Qed.

(** A push that reaches back to what has been written delivers all of it that fits. *)
Lemma push_delivers S r data index eof :
  sr_wf r -> sr_agrees S r -> substring_of S data index eof -> ByteStream_input_ended (sr_output r) = false ->
  index <= sr_written r ->
  exists r', StreamReassembler_push_substring r data index eof = Ok r' /\
    Z.min (index + zlen data) (bs_bytes_read (sr_output r) + sr_capacity r) <= sr_written r'.
Proof.
  intros Hwf HS Hsub Hend Hle. pose proof Hsub as [[Hi1 Hi2] Hd He]. pose proof (zlen_nonneg data).
  destruct (sw_capacity _ Hwf) as [Hc1 Hc2]. pose proof (bs_wf_capacity _ (sw_output _ Hwf)). pose proof (sw_written _ Hwf).
  pose proof (sw_read _ Hwf). pose proof (zlen_nonneg (bs_contents (sr_output r))).
  destruct (Z.lt_ge_cases (index + zlen data) (sr_written r)).
  { exists r. split; [by apply push_substring_stale|]. lia. }
  destruct (push_substring_ok r data index eof) as (r' & E & [P1 P2 P3 P4 P5 P6 P7]); try done; try lia.
  exists r'. split; [done|]. pose proof (sw_read _ P1) as Hr'. rewrite P3 in Hr'.
  destruct P5 as [P5|P5]; [lia|]. destruct (Z.le_gt_cases (Z.min (index + zlen data) (bs_bytes_read (sr_output r) + sr_capacity r)) (sr_written r')); [done|].
  exfalso. apply P5, P4. destruct (Z.lt_ge_cases (sr_written r') (sr_written r)); [left; by left|right; lia].
Qed.

(** What the owner does: push substrings and read. *)
Inductive asm_op : Type :=
  | asm_push (data : bytes) (index : Z) (eof : bool)
  | asm_read (n : Z).

(** The operations one after the other, with the bytes read so far. *)
Definition asm_step (o : asm_op) (w : StreamReassembler * bytes) : result (StreamReassembler * bytes) :=
  let '(r, acc) := w in
  match o with
  | asm_push data index eof => r ← StreamReassembler_push_substring r data index eof; Ok (r, acc)
  | asm_read n =>
      '(out, b) ← ByteStream_read (sr_output r) n;
      Ok (StreamReassembler_with_output r out, acc ++ b)
  end.

Fixpoint asm_run (ops : list asm_op) (w : StreamReassembler * bytes) : result (StreamReassembler * bytes) :=
  match ops with
  | [] => Ok w
  | o :: ops => w ← asm_step o w; asm_run ops w
  end.

Definition asm_op_ok (S : bytes) (o : asm_op) : Prop :=
  match o with
  | asm_push data index eof => substring_of S data index eof
  | asm_read n => 0 <= n < 2 ^ 64
  end.

(** The substrings pushed contain every byte of the stream, and one of them its end. *)
Definition pushes_all (S : bytes) (ops : list asm_op) : Prop :=
  (forall i, 0 <= i < zlen S -> exists data index eof, asm_push data index eof ∈ ops /\ index <= i < index + zlen data) /\
  exists data index, asm_push data index true ∈ ops.

(** The push that starts beyond the window of the state it finds. *)
Definition beyond_window (cap : Z) (ops : list asm_op) (w : StreamReassembler * bytes) : Prop :=
  exists before data index eof after r acc, ops = before ++ asm_push data index eof :: after /\
    asm_run before w = Ok (r, acc) /\ ByteStream_input_ended (sr_output r) = false /\ sr_written r + cap < index.

(** When the whole stream fits into the capacity nothing pushed is lost, and nothing
    waits that could be written. *)
Record nothing_lost (S : bytes) (past : list asm_op) (r : StreamReassembler) : Prop := {
  nl_held : forall data index eof i, asm_push data index eof ∈ past -> index <= i < index + zlen data -> held r i;
  nl_eof : forall data index, asm_push data index true ∈ past -> sr_got_eof r = true;
  nl_next : ~ held r (sr_written r) \/ sr_written r = zlen S
}.

Lemma nothing_lost_push S past r data index eof r' :
  sr_wf r -> sr_agrees S r -> substring_of S data index eof -> zlen S <= sr_capacity r ->
  StreamReassembler_push_substring r data index eof = Ok r' -> nothing_lost S past r ->
  nothing_lost S (past ++ [asm_push data index eof]) r'.
Proof.
  intros Hwf HS Hsub Hfit Hpush [N1 N2 N3].
  destruct (push_held S r data index eof r' Hwf HS Hsub Hfit Hpush) as (H1 & H2 & H3). split.
  - intros d k e i [Hin|Hin%list_elem_of_singleton]%elem_of_app Hi; apply H1; [left; by eapply N1|].
    injection Hin as -> -> ->. by right.
  - intros d k [Hin|Hin%list_elem_of_singleton]%elem_of_app; rewrite H2; [rewrite (N2 d k Hin); apply orb_true_r|].
    by injection Hin as _ _ <-.
  - by destruct H3 as [->|[H3|H3]]; [|left|right].
Qed.

Lemma nothing_lost_read S past r n out :
  bs_bytes_written out = sr_written r -> nothing_lost S past r ->
  nothing_lost S (past ++ [asm_read n]) (StreamReassembler_with_output r out).
Proof.
  intros Hw [N1 N2 N3]. split; unfold held in *; cbn [StreamReassembler_with_output sr_output sr_segments sr_got_eof]; rewrite ?Hw.
  - intros d k e i [Hin|Hin%list_elem_of_singleton]%elem_of_app Hi; [by eapply N1|discriminate Hin].
  - intros d k [Hin|Hin%list_elem_of_singleton]%elem_of_app; [by eapply N2|discriminate Hin].
  - done.
Qed.

Lemma asm_run_spec S cap ops past r acc :
  0 <= cap < index_limit -> zlen S < index_limit -> Forall (asm_op_ok S) ops -> reassembled S cap r acc ->
  (zlen S <= cap -> nothing_lost S past r) ->
  match asm_run ops (r, acc) with
  | Ok (r', acc') => reassembled S cap r' acc' /\ (zlen S <= cap -> nothing_lost S (past ++ ops) r')
  | Throw e => e = length_error /\ beyond_window cap ops (r, acc)
  end.
Proof.
  intros Hcap HS Hops. revert past r acc. induction Hops as [|o ops Ho Hops IH]; intros past r acc Hr Hn; cbn [asm_run].
  { split; [done|]. by rewrite app_nil_r. }
  destruct (reassembled_inv S cap r acc Hcap HS Hr) as (Hwf & Ha & Hc & _).
  assert (forall r1 acc1, asm_step o (r, acc) = Ok (r1, acc1) -> reassembled S cap r1 acc1 ->
    (zlen S <= cap -> nothing_lost S (past ++ [o]) r1) ->
    match asm_run ops (r1, acc1) with
    | Ok (r', acc') => reassembled S cap r' acc' /\ (zlen S <= cap -> nothing_lost S (past ++ o :: ops) r')
    | Throw e => e = length_error /\ beyond_window cap (o :: ops) (r, acc)
    end) as Hnext.
  { intros r1 acc1 E1 Hr1 Hn1. specialize (IH _ _ _ Hr1 Hn1). destruct (asm_run ops (r1, acc1)) as [[r' acc']|e].
    - destruct IH as [H1 H2]. split; [done|]. by rewrite <- app_assoc in H2.
    - destruct IH as (-> & before & d & k & eo & after & r2 & acc2 & -> & E2 & H1 & H2). split; [done|].
      exists (o :: before), d, k, eo, after, r2, acc2. split; [done|]. split; [|done]. cbn [asm_run]. by rewrite E1. }
  destruct o as [data index eof|n]; cbn [asm_op_ok] in Ho; cbn [asm_step] in *.
  - pose proof Ho as [[Hi1 Hi2] _ _].
    destruct (StreamReassembler_push_substring r data index eof) as [r1|e] eqn:E; cbn [mbind result_bind] in *.
    + apply Hnext; [done|by eapply rs_push|]. intros Hf. eapply nothing_lost_push; [done..|by rewrite Hc|done|auto].
    + destruct (push_substring_cases r data index eof Hwf Hi1 Hi2) as [[r1 E1]|E1]; [congruence|].
      rewrite E in E1. injection E1 as ->. split; [done|]. exists [], data, index, eof, ops, r, acc. split; [done|]. split; [done|].
      assert (ByteStream_input_ended (sr_output r) = false) as Hend.
      { destruct (ByteStream_input_ended (sr_output r)) eqn:Hend; [|done].
        unfold StreamReassembler_push_substring in E. by rewrite Hend in E. }
      split; [done|]. rewrite <- Hc. destruct (Z.lt_ge_cases (sr_written r + sr_capacity r) index) as [|Hge]; [done|exfalso].
      destruct (Z.lt_ge_cases (index + zlen data) (sr_written r)); [by rewrite push_substring_stale in E|].
      destruct (push_substring_ok r data index eof Hwf Hi1 Hi2 Hend) as (r1 & E1 & _); [done|lia|congruence].
  - destruct (ByteStream_read_ok (sr_output r) n) as (out & E & Hp); [apply Hwf|lia|]. rewrite E in *.
    cbn [mbind result_bind] in *. apply Hnext; [done|by eapply rs_read|]. intros Hf.
    apply nothing_lost_read; [apply Hp|auto].
Qed.

(** C7.  Substrings of a stream [S] are pushed in any order, with any overlap and
    repetition, and the owner reads at any time.  Then the bytes read so far followed
    by the bytes ready to be read are the first bytes of [S], the count of unassembled
    bytes is the number of indices waiting, and a reader that sees the end of the
    stream has read exactly [S].  A substring that reaches back to what has been
    assembled delivers all of it that the capacity allows; and when [S] fits into the
    capacity and all of it has been pushed, with its end, all of it is delivered and
    the stream has ended.  The only exception is [length_error], thrown by a push that
    starts beyond the window. *)
Theorem reassembler_delivers_stream S cap ops :
  0 <= cap < index_limit -> zlen S < index_limit -> Forall (asm_op_ok S) ops ->
  match asm_run ops (StreamReassembler_new cap, []) with
  | Ok (r, acc) =>
      acc ++ bs_contents (sr_output r) = ztake (sr_written r) S /\
      StreamReassembler_unassembled_bytes r = total_size (sr_segments r) /\
      segs_ok (sr_written r) (sr_segments r) /\
      (ByteStream_eof (sr_output r) = true -> acc = S) /\
      (forall data index eof, substring_of S data index eof -> ByteStream_input_ended (sr_output r) = false ->
         index <= sr_written r -> exists r', StreamReassembler_push_substring r data index eof = Ok r' /\
           Z.min (index + zlen data) (zlen acc + cap) <= sr_written r') /\
      (zlen S <= cap -> pushes_all S ops ->
         acc ++ bs_contents (sr_output r) = S /\ ByteStream_input_ended (sr_output r) = true)
  | Throw e => e = length_error /\ beyond_window cap ops (StreamReassembler_new cap, [])
  end.
Proof.
  intros Hcap HS Hops. pose proof (asm_run_spec S cap ops [] (StreamReassembler_new cap) [] Hcap HS Hops (rs_new _ _)) as Hrun.
  destruct (asm_run ops (StreamReassembler_new cap, [])) as [[r acc]|e].
  2:{ apply Hrun. intros _. split; [intros ? ? ? ? Hin; by inversion Hin|intros ? ? Hin; by inversion Hin|].
      left. intros [?|Hc]; [simpl in *; lia|by apply covered_nil in Hc]. }
  destruct Hrun as [Hr Hn].
  { intros _. split; [intros ? ? ? ? Hin; by inversion Hin|intros ? ? Hin; by inversion Hin|].
    left. intros [?|Hc]; [simpl in *; lia|by apply covered_nil in Hc]. }
  destruct (reassembled_inv S cap r acc Hcap HS Hr) as (Hwf & Ha & Hc & He). cbn [app] in Hn.
  assert (zlen acc = bs_bytes_read (sr_output r)) as Hacc.
  { apply (f_equal zlen) in He. rewrite zlen_app, zlen_ztake in He. pose proof (sa_written _ _ Ha).
    pose proof (sw_read _ Hwf). pose proof (sw_written _ Hwf). lia. }
  split_and!; [done|apply Hwf|apply Hwf| | |].
  - unfold ByteStream_eof, ByteStream_buffer_empty. rewrite (sw_ended _ Hwf), (bs_wf_size _ (sw_output _ Hwf)). intros H. b2p.
    rewrite (zlen_zero_nil (bs_contents (sr_output r))), app_nil_r in He by done.
    rewrite (sa_end _ _ Ha) in * by done. rewrite He. apply ztake_ge. lia.
  - rewrite Hacc, <- Hc. intros data index eof Hsub Hend Hle. by apply (push_delivers S).
  - intros Hfit [Hall (d & k & Hin)]. destruct (Hn Hfit) as [N1 N2 N3]. pose proof (sa_written _ _ Ha).
    pose proof (sw_written _ Hwf). assert (sr_written r = zlen S) as Hw.
    { destruct N3 as [N3|N3]; [|done]. destruct (Z.lt_ge_cases (sr_written r) (zlen S)); [|lia]. exfalso.
      destruct (Hall (sr_written r)) as (d' & k' & e' & Hin' & Hi'); [lia|]. by apply N3, (N1 d' k' e'). }
    split; [rewrite He; apply ztake_ge; lia|]. unfold ByteStream_input_ended.
    by rewrite (sw_ended _ Hwf), (N2 d k Hin), (sa_end _ _ Ha (N2 d k Hin)), Hw, Z.eqb_refl.
Qed.

(** Three bytes in two substrings, the second one first. *)
Lemma reassembler_delivers_stream_witness :
  exists r, asm_run [asm_push [2; 3] 1 true; asm_push [1; 2] 0 false; asm_read 1] (StreamReassembler_new 5, []) = Ok (r, [1]) /\
    [1] ++ bs_contents (sr_output r) = [1; 2; 3] /\ ByteStream_input_ended (sr_output r) = true.
Proof.
  pose proof (reassembler_delivers_stream [1; 2; 3] 5 [asm_push [2; 3] 1 true; asm_push [1; 2] 0 false; asm_read 1]) as H.
  destruct (asm_run _ _) as [[r acc]|e] eqn:E; [|vm_compute in E; discriminate E].
  pose proof E as E'. vm_compute in E'. injection E' as Er Ea. exists r. rewrite <- Ea. split; [reflexivity|].
  destruct H as (_ & _ & _ & _ & _ & H).
  - unfold index_limit. lia.
  - reflexivity.
  - repeat apply Forall_cons_2; [..|apply Forall_nil_2]; cbn; try lia;
      (split; [split; vm_compute; congruence|reflexivity|intros; first [reflexivity|discriminate]]).
  - rewrite Ea. apply H; [vm_compute; congruence|]. split.
    + intros i Hi. change (zlen [1; 2; 3]) with 3 in Hi. destruct (Z.eq_dec i 0) as [->|Hne].
      * exists [1; 2], 0, false. split; [apply elem_of_cons; right; apply elem_of_cons; by left|vm_compute; split; congruence].
      * exists [2; 3], 1, true. split; [apply elem_of_cons; by left|]. change (zlen [2; 3]) with 2. lia.
    + exists [2; 3], 1. apply elem_of_cons. by left.
Defined.

(** A substring that starts beyond the window makes the unsigned length
    computation wrap around, and the call ends with [std::length_error] instead
    of silently discarding the bytes. *)
Theorem push_substring_beyond_window r data index eof :
  sr_wf r -> sr_written r + sr_capacity r < index -> index + zlen data < index_limit ->
  ByteStream_input_ended (sr_output r) = false ->
  StreamReassembler_push_substring r data index eof = Throw length_error.
Proof. apply push_substring_beyond_throws. Qed.

Lemma push_substring_beyond_window_witness :
  StreamReassembler_push_substring (StreamReassembler_new 2) [9] 3 false = Throw length_error.
Proof.
  apply push_substring_beyond_window; try reflexivity.
  apply StreamReassembler_new_wf. unfold index_limit. lia.
Defined.

(** The reassembler stores at most twice its capacity, and this is attained:
    the window starts at the first byte not yet written, not at the first byte
    not yet read, so the capacity does not bound the bytes that are
    reassembled and those that are not, together. *)
Theorem reassembler_storage_bound :
  (forall r, sr_wf r ->
     ByteStream_buffer_size (sr_output r) + StreamReassembler_unassembled_bytes r <= 2 * sr_capacity r) /\
  (exists r1 r2, StreamReassembler_push_substring (StreamReassembler_new 2) [1; 2] 0 false = Ok r1 /\
     StreamReassembler_push_substring r1 [3; 4] 2 false = Ok r2 /\
     ByteStream_buffer_size (sr_output r2) + StreamReassembler_unassembled_bytes r2 = 2 * sr_capacity r2).
Proof.
  split.
  - intros r [W1 [W21 W22] W3 W4 W5 W6 W7 W8 W9]. unfold StreamReassembler_unassembled_bytes.
    rewrite W8, (bs_wf_size _ W1). pose proof (bs_wf_fits _ W1). pose proof (bs_wf_capacity _ W1).
    pose proof (total_size_bound _ (sr_written r + sr_capacity r) _ W6 ltac:(lia) W7). lia.
  - eexists _, _. split; [vm_compute; reflexivity|]. split; [vm_compute; reflexivity|]. vm_compute. reflexivity.
Qed.
