(* ===== verification/Parsers.v ===== *)
(** Wire-format primitives: [ParseResult], [NetParser] and [NetUnparser]
    (src/libsponge/util/parser.hh and .cc) and [InternetChecksum]
    (src/libsponge/util/util.hh and .cc).

    Theorems: an integer written in network byte order is read back; a parser
    never throws, and once it has run out of data it stays in the error state;
    the loop that folds the checksum ends within its three turns, the checksum
    is the complement of the one's-complement sum of RFC 1071, and a message
    that carries the checksum of its other bytes checks to zero.  The classes
    [WireFormat] and [WireRoundtrip] are the interface of the wire formats. *)

From S2P Require Import Prelude Buffers.

(** ** ParseResult *)

Inductive ParseResult : Type :=
  | NoError
  | BadChecksum
  | PacketTooShort
  | WrongIPVersion
  | HeaderTooShort
  | TruncatedPacket
  | Unsupported.

#[export] Instance ParseResult_eq_dec : EqDecision ParseResult.
Proof. solve_decision. Defined.

Definition is_NoError (r : ParseResult) : bool := bool_decide (r = NoError).

(** ** NetParser *)

Record NetParser : Type := MkNetParser {
  np_buffer : Buffer;
  np_error : ParseResult
}.

Definition NetParser_new (buffer : Buffer) : NetParser := MkNetParser buffer NoError.

Definition NetParser_set_error (p : NetParser) (res : ParseResult) : NetParser :=
  MkNetParser (np_buffer p) res.

Definition NetParser_get_error (p : NetParser) : ParseResult := np_error p.

(** [error()]: has there been an error? *)
Definition NetParser_has_error (p : NetParser) : bool := negb (is_NoError (np_error p)).

Definition NetParser_check_size (p : NetParser) (size : Z) : NetParser :=
  if Buffer_size (np_buffer p) <? size then NetParser_set_error p PacketTooShort else p.

(** The [for] loop of [_parse_int]: [n] bytes from index [i] on, accumulated in
    an integer of [len] bytes. *)
Fixpoint parse_int_loop (b : Buffer) (len i : Z) (n : nat) (ret : Z) : result Z :=
  match n with
  | O => Ok ret
  | S n =>
      let ret := Z.shiftl ret 8 mod 2 ^ (8 * len) in
      c ← Buffer_at b i;
      let ret := (ret + c) mod 2 ^ (8 * len) in
      parse_int_loop b len (i + 1) n ret
  end.

(** [_parse_int<T>()] with [len = sizeof(T)] *)
Definition NetParser_parse_int (len : Z) (p : NetParser) : result (Z * NetParser) :=
  let p := NetParser_check_size p len in
  if NetParser_has_error p then Ok (0, p)
  else
    ret ← parse_int_loop (np_buffer p) len 0 (Z.to_nat len) 0;
    buffer ← Buffer_remove_prefix (np_buffer p) len;
    Ok (ret, MkNetParser buffer (np_error p)).

Definition NetParser_u32 (p : NetParser) : result (Z * NetParser) := NetParser_parse_int 4 p.
Definition NetParser_u16 (p : NetParser) : result (Z * NetParser) := NetParser_parse_int 2 p.
Definition NetParser_u8 (p : NetParser) : result (Z * NetParser) := NetParser_parse_int 1 p.

Definition NetParser_remove_prefix (p : NetParser) (n : Z) : result NetParser :=
  let p := NetParser_check_size p n in
  if NetParser_has_error p then Ok p
  else
    buffer ← Buffer_remove_prefix (np_buffer p) n;
    Ok (MkNetParser buffer (np_error p)).

(** ** NetUnparser *)

(** [_unparse_int<T>(s, val)] with [len = sizeof(T)]: the bytes pushed for
    [i = 0 .. len - 1]. *)
Definition NetUnparser_unparse_int (len : Z) (s : bytes) (val : Z) : bytes :=
  s ++ map (fun i => u8 (Z.land (Z.shiftr val ((len - Z.of_nat i - 1) * 8)) 255))
         (seq 0 (Z.to_nat len)).

Definition NetUnparser_u32 (s : bytes) (val : Z) : bytes := NetUnparser_unparse_int 4 s val.
Definition NetUnparser_u16 (s : bytes) (val : Z) : bytes := NetUnparser_unparse_int 2 s val.
Definition NetUnparser_u8 (s : bytes) (val : Z) : bytes := NetUnparser_unparse_int 1 s val.

(** ** InternetChecksum *)

Record InternetChecksum : Type := MkInternetChecksum {
  ic_sum : Z;
  ic_parity : bool
}.

Definition InternetChecksum_new (initial_sum : Z) : InternetChecksum :=
  MkInternetChecksum initial_sum false.

Fixpoint InternetChecksum_add (c : InternetChecksum) (data : bytes) : InternetChecksum :=
  match data with
  | [] => c
  | b :: data =>
      let val := u16 (u8 b) in
      let val := if negb (ic_parity c) then u16 (Z.shiftl val 8) else val in
      InternetChecksum_add (MkInternetChecksum (u32 (ic_sum c + val)) (negb (ic_parity c))) data
  end.

(** The loop of [value()].  Two turns bring any 32-bit sum to 16 bits, see
    [fold_carry_done]. *)
Fixpoint fold_carry (fuel : nat) (ret : Z) : Z :=
  match fuel with
  | O => ret
  | S fuel =>
      if 65535 <? ret
      then fold_carry fuel (u32 (Z.shiftr ret 16 + Z.land ret 65535))
      else ret
  end.

Definition InternetChecksum_value (c : InternetChecksum) : Z :=
  u16 (Z.lnot (fold_carry 3 (ic_sum c))).

(** ** Reading what was written *)

(** The parser has met no error and [bs] is what is left to parse. *)
Record parser_at (p : NetParser) (bs : bytes) : Prop := {
  pa_wf : Buffer_wf (np_buffer p);
  pa_str : Buffer_str (np_buffer p) = bs;
  pa_error : np_error p = NoError
}.

Lemma NetParser_new_at b : Buffer_wf b -> parser_at (NetParser_new b) (Buffer_str b).
Proof. by split. Qed.

Lemma NetParser_check_size_at p bs n :
  parser_at p bs -> n <= zlen bs -> NetParser_check_size p n = p.
Proof.
  intros [] Hn. unfold NetParser_check_size, Buffer_size. rewrite pa_str0.
  by destruct (Z.ltb_spec (zlen bs) n); [lia|].
Qed.

Lemma NetParser_has_error_at p bs : parser_at p bs -> NetParser_has_error p = false.
Proof. intros []. unfold NetParser_has_error. by rewrite pa_error0. Qed.

Lemma Buffer_at_str b bs n c :
  Buffer_str b = bs -> 0 <= n -> bs !! Z.to_nat n = Some c -> Buffer_at b n = Ok c.
Proof.
  intros <- Hn Hc. unfold Buffer_at, Buffer_size. rewrite Hc.
  apply lookup_lt_Some in Hc. unfold zlen. by destruct (Z.ltb_spec n (Z.of_nat (length (Buffer_str b)))); [|lia].
Qed.

(** The value of a byte string in network order. *)
Fixpoint be_value (acc : Z) (bs : bytes) : Z :=
  match bs with
  | [] => acc
  | b :: bs => be_value (acc * 256 + b) bs
  end.

Lemma be_value_bound bs acc k :
  Forall byte_ok bs -> 0 <= acc < 2 ^ (8 * k) -> 0 <= k ->
  0 <= be_value acc bs < 2 ^ (8 * (k + zlen bs)).
Proof.
  intros Hbs. revert acc k. induction Hbs as [|b bs Hb _ IH]; intros acc k Hacc Hk; simpl.
  - zl. by rewrite Z.add_0_r.
  - rewrite zlen_cons. replace (k + (1 + zlen bs)) with (k + 1 + zlen bs) by lia. apply IH; [|lia].
    replace (8 * (k + 1)) with (8 * k + 8) by lia. rewrite Z.pow_add_r by lia. unfold byte_ok in Hb. lia.
Qed.

Lemma parse_int_loop_be b pre bs post len acc k :
  Buffer_str b = pre ++ bs ++ post -> Forall byte_ok bs ->
  0 <= acc < 2 ^ (8 * k) -> 0 <= k -> k + zlen bs <= len ->
  parse_int_loop b len (zlen pre) (length bs) acc = Ok (be_value acc bs).
Proof.
  intros Hs Hbs. revert pre acc k Hs. induction Hbs as [|c bs Hc Hbs IH]; intros pre acc k Hs Hacc Hk Hlen; [done|].
  cbn [parse_int_loop length be_value]. rewrite (Buffer_at_str b _ _ c Hs).
  2: apply zlen_nonneg.
  2:{ unfold zlen. rewrite Nat2Z.id, lookup_app_r by lia. by rewrite Nat.sub_diag. }
  cbn [mbind result_bind]. rewrite zlen_cons in Hlen. pose proof (zlen_nonneg bs).
  assert (2 ^ (8 * (k + 1)) <= 2 ^ (8 * len)) by (apply Z.pow_le_mono_r; lia).
  assert (2 ^ (8 * (k + 1)) = 2 ^ (8 * k) * 256) as Hp.
  { replace (8 * (k + 1)) with (8 * k + 8) by lia. by rewrite Z.pow_add_r by lia. }
  unfold byte_ok in Hc. rewrite Z.shiftl_mul_pow2 by lia. change (2 ^ 8) with 256.
  rewrite (Z.mod_small (acc * 256)) by lia. rewrite Z.mod_small by lia.
  replace (zlen pre + 1) with (zlen (pre ++ [c])) by zl.
  apply (IH (pre ++ [c]) _ (k + 1)); [by rewrite <- app_assoc|lia..].
Qed.

Lemma NetParser_parse_int_at p bs rest :
  parser_at p (bs ++ rest) -> Forall byte_ok bs ->
  exists p', NetParser_parse_int (zlen bs) p = Ok (be_value 0 bs, p') /\ parser_at p' rest.
Proof.
  intros Hp Hbs. unfold NetParser_parse_int. pose proof (zlen_nonneg rest).
  rewrite (NetParser_check_size_at p _ _ Hp) by zl. rewrite (NetParser_has_error_at p _ Hp).
  destruct Hp as [Pwf Pstr Perr].
  replace (Z.to_nat (zlen bs)) with (length bs) by (unfold zlen; lia).
  rewrite (parse_int_loop_be _ [] bs rest (zlen bs) 0 0) by (done || simpl; lia).
  destruct (Buffer_remove_prefix_ok (np_buffer p) (zlen bs)) as (b' & E & Hb' & Hs).
  { done. } { rewrite Pstr. zl. }
  cbn [mbind result_bind]. rewrite E. cbn. eexists. split; [done|]. split; [done| |done].
  cbn. rewrite Hs, Pstr, zdrop_app_ge by lia. by rewrite Z.sub_diag, zdrop_le0.
Qed.

Lemma land_255 x : Z.land x 255 = x mod 256.
Proof. change 255 with (Z.ones 8). by rewrite Z.land_ones by lia. Qed.

Lemma land_65535 x : Z.land x 65535 = x mod 65536.
Proof. change 65535 with (Z.ones 16). by rewrite Z.land_ones by lia. Qed.

(** The bytes of an integer in network order. *)
Definition be_bytes (len val : Z) : bytes :=
  map (fun i => u8 (Z.land (Z.shiftr val ((len - Z.of_nat i - 1) * 8)) 255)) (seq 0 (Z.to_nat len)).

Lemma NetUnparser_be len s val : NetUnparser_unparse_int len s val = s ++ be_bytes len val.
Proof. done. Qed.

Lemma be_bytes_ok len val : Forall byte_ok (be_bytes len val).
Proof. apply Forall_map, Forall_true. intros i. apply u8_range. Qed.

Lemma be_bytes_len len val : 0 <= len -> zlen (be_bytes len val) = len.
Proof. intros. unfold zlen, be_bytes. rewrite length_map, length_seq. lia. Qed.

Lemma be_bytes_1 v : be_bytes 1 v = [v mod 256].
Proof. unfold be_bytes. change (seq 0 (Z.to_nat 1)) with [0%nat]. cbn [map].
  simpl Z.of_nat. rewrite land_255, Z.shiftr_div_pow2 by lia. f_equal. wrap_lia. Qed.

Lemma be_bytes_2 v : be_bytes 2 v = [(v / 256) mod 256; v mod 256].
Proof.
  unfold be_bytes. change (seq 0 (Z.to_nat 2)) with [0%nat; 1%nat]. cbn [map].
  simpl Z.of_nat. rewrite !land_255, !Z.shiftr_div_pow2 by lia. change (2 ^ 8) with 256.
  f_equal; [|f_equal]; wrap_lia.
Qed.

Lemma be_bytes_4 v :
  be_bytes 4 v = [(v / 2 ^ 24) mod 256; (v / 2 ^ 16) mod 256; (v / 256) mod 256; v mod 256].
Proof.
  unfold be_bytes. change (seq 0 (Z.to_nat 4)) with [0%nat; 1%nat; 2%nat; 3%nat]. cbn [map].
  simpl Z.of_nat. rewrite !land_255, !Z.shiftr_div_pow2 by lia. change (2 ^ 8) with 256.
  repeat f_equal; unfold u8; rewrite ?Z.mod_mod by lia; try done. by rewrite Z.pow_0_r, Z.div_1_r.
Qed.

Lemma be_value_bytes len v :
  len = 1 \/ len = 2 \/ len = 4 -> 0 <= v < 2 ^ (8 * len) -> be_value 0 (be_bytes len v) = v.
Proof.
  intros [->|[->| ->]] Hv; rewrite ?be_bytes_1, ?be_bytes_2, ?be_bytes_4; cbn [be_value];
    change (2 ^ 16) with 65536 in *; change (2 ^ 24) with 16777216; cbn in Hv; wrap_lia.
Qed.

Lemma NetParser_int_ok p len v rest :
  len = 1 \/ len = 2 \/ len = 4 -> parser_at p (be_bytes len v ++ rest) -> 0 <= v < 2 ^ (8 * len) ->
  exists p', NetParser_parse_int len p = Ok (v, p') /\ parser_at p' rest.
Proof.
  intros Hlen Hp Hv. destruct (NetParser_parse_int_at p (be_bytes len v) rest Hp (be_bytes_ok _ _)) as (p' & E & Hp').
  rewrite be_bytes_len in E by lia. rewrite be_value_bytes in E by done. by exists p'.
Qed.

Lemma NetParser_remove_prefix_at p bs rest :
  parser_at p (bs ++ rest) -> exists p', NetParser_remove_prefix p (zlen bs) = Ok p' /\ parser_at p' rest.
Proof.
  intros Hp. unfold NetParser_remove_prefix. pose proof (zlen_nonneg rest).
  rewrite (NetParser_check_size_at p _ _ Hp) by zl. rewrite (NetParser_has_error_at p _ Hp).
  destruct Hp as [Pwf Pstr Perr].
  destruct (Buffer_remove_prefix_ok (np_buffer p) (zlen bs)) as (b' & E & Hb' & Hs).
  { done. } { rewrite Pstr. zl. }
  rewrite E. cbn. eexists. split; [done|]. split; [done| |done].
  cbn. rewrite Hs, Pstr, zdrop_app_ge by lia. by rewrite Z.sub_diag, zdrop_le0.
Qed.

(** ** Running out of data *)

Lemma NetParser_parse_int_error p len :
  NetParser_has_error (NetParser_check_size p len) = true ->
  NetParser_parse_int len p = Ok (0, NetParser_check_size p len).
Proof. intros H. unfold NetParser_parse_int. by rewrite H. Qed.

Lemma NetParser_check_size_sticky p n : NetParser_has_error p = true ->
  NetParser_has_error (NetParser_check_size p n) = true.
Proof. intros H. unfold NetParser_check_size. by destruct (_ <? n). Qed.

(** The parser can go on: its buffer is well formed and holds bytes. *)
Record parser_wf (p : NetParser) : Prop := {
  pw_wf : Buffer_wf (np_buffer p);
  pw_bytes : Forall byte_ok (Buffer_str (np_buffer p))
}.

(** Parsing an integer never throws.  Without an earlier error and with enough
    data left, it returns the number those bytes stand for in network order and
    moves past them; otherwise it returns 0, leaves the data alone and reports
    an error from then on. *)
Lemma NetParser_parse_int_cases p len :
  0 < len -> parser_wf p ->
  exists v p', NetParser_parse_int len p = Ok (v, p') /\ parser_wf p' /\ 0 <= v < 2 ^ (8 * len) /\
    if NetParser_has_error p || (Buffer_size (np_buffer p) <? len)
    then v = 0 /\ np_buffer p' = np_buffer p /\ NetParser_has_error p' = true
    else v = be_value 0 (ztake len (Buffer_str (np_buffer p))) /\
         Buffer_str (np_buffer p') = zdrop len (Buffer_str (np_buffer p)) /\
         NetParser_has_error p' = false.
Proof.
  intros Hlen [Hwf Hok]. unfold Buffer_size.
  destruct (NetParser_has_error p) eqn:He; simpl orb.
  { rewrite NetParser_parse_int_error by by apply NetParser_check_size_sticky.
    eexists _, _. split; [done|]. split; [unfold NetParser_check_size; by destruct (_ <? len)|].
    split; [lia|]. unfold NetParser_check_size. by destruct (_ <? len). }
  destruct (Z.ltb_spec (zlen (Buffer_str (np_buffer p))) len) as [Hlt|Hge].
  { assert (NetParser_check_size p len = NetParser_set_error p PacketTooShort) as Hc.
    { unfold NetParser_check_size, Buffer_size. by destruct (Z.ltb_spec (zlen (Buffer_str (np_buffer p))) len); [|lia]. }
    rewrite NetParser_parse_int_error by by rewrite Hc. rewrite Hc. eexists _, _.
    split; [done|]. split; [done|]. split; [lia|done]. }
  set (bs := Buffer_str (np_buffer p)) in *.
  assert (parser_at p (ztake len bs ++ zdrop len bs)) as Hp.
  { split; [done|by rewrite ztake_zdrop|]. unfold NetParser_has_error, is_NoError in He.
    b2p. by apply bool_decide_eq_true in He. }
  destruct (NetParser_parse_int_at p _ _ Hp) as (p' & E & Hp'); [by apply Forall_take|].
  rewrite zlen_ztake, Z.max_r, Z.min_l in E by lia.
  eexists _, p'. split; [done|]. split.
  { split; [apply Hp'|]. rewrite (pa_str _ _ Hp'). by apply Forall_drop. }
  split; [|split; [done|split; [apply Hp'|]]].
  { pose proof (be_value_bound (ztake len bs) 0 0 ltac:(by apply Forall_take) ltac:(lia) ltac:(lia)) as Hb.
    by rewrite zlen_ztake, Z.max_r, Z.min_l in Hb by lia. } by eapply NetParser_has_error_at.
Qed.

Lemma NetParser_remove_prefix_cases p n :
  0 <= n -> parser_wf p -> exists p', NetParser_remove_prefix p n = Ok p' /\ parser_wf p'.
Proof.
  intros Hn [Hwf Hok]. unfold NetParser_remove_prefix.
  destruct (NetParser_has_error (NetParser_check_size p n)) eqn:He.
  { eexists. split; [done|]. unfold NetParser_check_size. by destruct (_ <? n). }
  assert (n <= Buffer_size (np_buffer p) /\ np_buffer (NetParser_check_size p n) = np_buffer p) as [Hle ->].
  { unfold NetParser_check_size in *. by destruct (Z.ltb_spec (Buffer_size (np_buffer p)) n). }
  destruct (Buffer_remove_prefix_ok (np_buffer p) n) as (b' & E & Hb' & Hs); [done|by unfold Buffer_size in Hle|].
  rewrite E. cbn. eexists. split; [done|]. split; [done|]. cbn. rewrite Hs. by apply Forall_drop.
Qed.

(** ** The checksum *)

(** What the bytes add to the sum. *)
Fixpoint cksum_sum (parity : bool) (bs : bytes) : Z :=
  match bs with
  | [] => 0
  | b :: bs => (if parity then b else b * 256) + cksum_sum (negb parity) bs
  end.

Fixpoint cksum_parity (parity : bool) (bs : bytes) : bool :=
  match bs with
  | [] => parity
  | _ :: bs => cksum_parity (negb parity) bs
  end.

Lemma cksum_sum_app parity l k :
  cksum_sum parity (l ++ k) = cksum_sum parity l + cksum_sum (cksum_parity parity l) k.
Proof. revert parity. induction l as [|b l IH]; intros parity; simpl; [done|]. rewrite IH. lia. Qed.

Lemma cksum_sum_bound parity bs : Forall byte_ok bs -> 0 <= cksum_sum parity bs <= 65280 * zlen bs.
Proof.
  intros Hbs. revert parity. induction Hbs as [|b bs Hb _ IH]; intros parity; simpl; [zl|].
  specialize (IH (negb parity)). unfold byte_ok in Hb. rewrite zlen_cons. destruct parity; lia.
Qed.

Lemma cksum_parity_even n bs parity : zlen bs = 2 * Z.of_nat n -> cksum_parity parity bs = parity.
Proof.
  revert bs parity. induction n as [|n IH]; intros bs parity Hlen.
  - by rewrite (zlen_zero_nil bs) by lia.
  - destruct bs as [|a [|b bs]]; zl. simpl. rewrite negb_involutive. apply IH. lia.
Qed.

Lemma InternetChecksum_add_sum c bs :
  Forall byte_ok bs -> 0 <= ic_sum c -> ic_sum c + cksum_sum (ic_parity c) bs < 2 ^ 32 ->
  InternetChecksum_add c bs =
    MkInternetChecksum (ic_sum c + cksum_sum (ic_parity c) bs) (cksum_parity (ic_parity c) bs).
Proof.
  intros Hbs. revert c. induction Hbs as [|b bs Hb Hbs IH]; intros c H0 Hs.
  - destruct c. simpl. by rewrite Z.add_0_r.
  - cbn [InternetChecksum_add cksum_sum cksum_parity] in *. pose proof (cksum_sum_bound (negb (ic_parity c)) bs Hbs).
    unfold byte_ok in Hb. rewrite (u8_small b), (u16_small b) by lia.
    replace (if negb (ic_parity c) then u16 (Z.shiftl b 8) else b)
      with (if ic_parity c then b else b * 256).
    2:{ destruct (ic_parity c); [done|]. simpl. rewrite Z.shiftl_mul_pow2 by lia. rewrite u16_small; lia. }
    rewrite IH; cbn [ic_sum ic_parity]; [f_equal|..]; destruct (ic_parity c); wsimpl; lia.
Qed.

Lemma fold_carry_step fuel s : 0 <= s < 2 ^ 32 -> 65535 < s ->
  exists t, fold_carry (S fuel) s = fold_carry fuel t /\
    (s - t) mod 65535 = 0 /\ 0 < t <= 131070 /\ (s <= 131070 -> t <= 65535).
Proof.
  intros Hs Hlt. cbn [fold_carry]. rewrite (proj2 (Z.ltb_lt _ _)) by done. eexists. split; [done|].
  rewrite land_65535, Z.shiftr_div_pow2 by lia. change (2 ^ 16) with 65536. wrap_lia.
Qed.

Lemma fold_carry_small fuel s : s <= 65535 -> fold_carry fuel s = s.
Proof. intros. destruct fuel; [done|]. cbn [fold_carry]. by rewrite (proj2 (Z.ltb_ge _ _)). Qed.

Lemma fold_carry_spec s : 0 <= s < 2 ^ 32 ->
  0 <= fold_carry 3 s <= 65535 /\ (s - fold_carry 3 s) mod 65535 = 0 /\ (fold_carry 3 s = 0 <-> s = 0).
Proof.
  intros Hs. destruct (Z.le_gt_cases s 65535); [rewrite fold_carry_small by done; wrap_lia|].
  destruct (fold_carry_step 2 s) as (t & -> & Ht1 & Ht2 & _); [done|lia|].
  destruct (Z.le_gt_cases t 65535); [rewrite fold_carry_small by done; wrap_lia|].
  destruct (fold_carry_step 1 t) as (r & -> & Hr1 & Hr2 & Hr3); [lia..|].
  rewrite fold_carry_small by lia. wrap_lia.
Qed.

(** The fuel of [fold_carry] is enough: the loop has ended. *)
Lemma fold_carry_done s : 0 <= s < 2 ^ 32 -> (65535 <? fold_carry 3 s) = false.
Proof. intros Hs. pose proof (fold_carry_spec s Hs). apply Z.ltb_ge. lia. Qed.

Lemma InternetChecksum_value_eq s parity : 0 <= s < 2 ^ 32 ->
  InternetChecksum_value (MkInternetChecksum s parity) = 65535 - fold_carry 3 s.
Proof.
  intros Hs. pose proof (fold_carry_spec s Hs). unfold InternetChecksum_value. simpl ic_sum.
  unfold Z.lnot. wrap_lia.
Qed.

(** Adding a message in pieces of any length, odd ones included, is adding it
    in one piece. *)
Lemma InternetChecksum_add_app c l k :
  InternetChecksum_add (InternetChecksum_add c l) k = InternetChecksum_add c (l ++ k).
Proof. revert c. induction l as [|b l IH]; intros c; simpl; [done|]. apply IH. Qed.

Lemma InternetChecksum_value_range c : 0 <= InternetChecksum_value c < 2 ^ 16.
Proof. apply u16_range. Qed.

Lemma checksum_verifies s ck parity :
  0 <= s -> s + 65535 < 2 ^ 32 -> ck = InternetChecksum_value (MkInternetChecksum s parity) ->
  InternetChecksum_value (MkInternetChecksum (s + ck) parity) = 0.
Proof.
  intros Hs Hb ->. rewrite !InternetChecksum_value_eq.
  2: lia. 2: pose proof (fold_carry_spec s ltac:(lia)); rewrite InternetChecksum_value_eq; lia.
  pose proof (fold_carry_spec s ltac:(lia)) as (H1 & H2 & H3).
  set (f := fold_carry 3 s) in *. rewrite ?InternetChecksum_value_eq by lia. fold f.
  pose proof (fold_carry_spec (s + (65535 - f)) ltac:(lia)) as (G1 & G2 & G3).
  set (g := fold_carry 3 (s + (65535 - f))) in *. clearbody f g. wrap_lia.
Qed.

(** The checksum field at an even offset of a message. *)
Lemma checksum_field_verifies init l k ck :
  Forall byte_ok l -> Forall byte_ok k -> Z.Even (zlen l) ->
  0 <= init <= 2 ^ 20 -> zlen l + 2 + zlen k <= 65535 ->
  ck = InternetChecksum_value (InternetChecksum_add (InternetChecksum_new init) (l ++ be_bytes 2 0 ++ k)) ->
  InternetChecksum_value (InternetChecksum_add (InternetChecksum_new init) (l ++ be_bytes 2 ck ++ k)) = 0.
Proof.
  intros Hl Hk [n Hn] Hi Hlen Hck. pose proof (zlen_nonneg l). pose proof (zlen_nonneg k).
  pose proof (cksum_parity_even (Z.to_nat n) l false ltac:(lia)) as Hpar.
  pose proof (cksum_sum_bound false l Hl) as Bl. pose proof (cksum_sum_bound false k Hk) as Bk.
  assert (forall m, 0 <= m < 65536 ->
    InternetChecksum_add (InternetChecksum_new init) (l ++ be_bytes 2 m ++ k) =
    MkInternetChecksum (init + cksum_sum false l + cksum_sum false k + m) (cksum_parity false (l ++ be_bytes 2 m ++ k)))
    as Hadd.
  { intros m Hm.
    assert (cksum_sum false (l ++ be_bytes 2 m ++ k) = cksum_sum false l + cksum_sum false k + m) as Hs.
    { rewrite cksum_sum_app, Hpar, be_bytes_2. simpl app. cbn [cksum_sum negb]. wrap_lia. }
    rewrite InternetChecksum_add_sum; cbn [ic_sum ic_parity InternetChecksum_new];
      [f_equal; lia| |lia|lia].
    repeat apply Forall_app_2; [done|apply be_bytes_ok|done]. }
  rewrite (Hadd 0) in Hck by lia. rewrite Z.add_0_r in Hck.
  pose proof (InternetChecksum_value_range (InternetChecksum_add (InternetChecksum_new init) (l ++ be_bytes 2 0 ++ k))) as Hr.
  rewrite (Hadd 0), Z.add_0_r, <- Hck in Hr by lia. rewrite Hadd by lia.
  apply checksum_verifies; [lia..|]. rewrite Hck. reflexivity.
Qed.

(** ** The checksum of RFC 1071 *)

(** The 16-bit words of a message, an odd last byte padded with a zero. *)
Fixpoint words (bs : bytes) : list Z :=
  match bs with
  | [] => []
  | [a] => [a * 256]
  | a :: b :: bs => (a * 256 + b) :: words bs
  end.

(** One's complement addition of 16-bit words: the carry comes back at once. *)
Definition ones_add (a b : Z) : Z := if 65535 <? a + b then a + b - 65535 else a + b.

Definition ones_sum (ws : list Z) : Z := foldl ones_add 0 ws.

Lemma words_ind (P : bytes -> Prop) :
  P [] -> (forall a, P [a]) -> (forall a b bs, P bs -> P (a :: b :: bs)) -> forall bs, P bs.
Proof.
  intros H0 H1 H2. fix IH 1. intros [|a [|b bs]]; [done|done|]. apply H2, IH.
Qed.

Lemma ones_sum_spec bs acc :
  Forall byte_ok bs -> 0 <= acc <= 65535 ->
  0 <= foldl ones_add acc (words bs) <= 65535 /\
  (acc + cksum_sum false bs - foldl ones_add acc (words bs)) mod 65535 = 0 /\
  (foldl ones_add acc (words bs) = 0 <-> acc + cksum_sum false bs = 0).
Proof.
  revert acc. induction bs as [|a|a b bs IH] using words_ind; intros acc Hbs Hacc.
  - simpl. wrap_lia.
  - apply Forall_cons in Hbs as [Ha _]. unfold byte_ok in Ha. simpl. unfold ones_add.
    destruct (Z.ltb_spec 65535 (acc + a * 256)); wrap_lia.
  - apply Forall_cons in Hbs as [Ha Hbs]. apply Forall_cons in Hbs as [Hb Hbs]. unfold byte_ok in Ha, Hb.
    cbn [words foldl cksum_sum negb]. pose proof (cksum_sum_bound false bs Hbs).
    destruct (IH (ones_add acc (a * 256 + b)) Hbs) as (I1 & I2 & I3);
      unfold ones_add in *; destruct (Z.ltb_spec 65535 (acc + (a * 256 + b))); [lia|lia| |];
      (split; [done|]; split; [wrap_lia|lia]).
Qed.

(** C33.  The checksum of a message added piece by piece is the one RFC 1071
    defines: the complement of the one's complement sum of its 16-bit words,
    whatever the lengths of the pieces, up to 65535 bytes in all.  The code
    sums in 32 bits and folds the carries only at the end. *)
Theorem InternetChecksum_rfc1071 (pieces : list bytes) :
  Forall byte_ok (concat pieces) -> zlen (concat pieces) <= 65535 ->
  InternetChecksum_value (foldl InternetChecksum_add (InternetChecksum_new 0) pieces) =
    65535 - ones_sum (words (concat pieces)).
Proof.
  intros Hok Hlen.
  assert (forall c, foldl InternetChecksum_add c pieces = InternetChecksum_add c (concat pieces)) as ->.
  { clear. induction pieces as [|l pieces IH]; intros c; simpl; [done|].
    by rewrite IH, InternetChecksum_add_app. }
  pose proof (cksum_sum_bound false _ Hok). pose proof (zlen_nonneg (concat pieces)).
  rewrite InternetChecksum_add_sum by (done || simpl; lia). rewrite InternetChecksum_value_eq by (simpl; lia).
  f_equal. simpl ic_sum. simpl ic_parity.
  destruct (fold_carry_spec (0 + cksum_sum false (concat pieces)) ltac:(lia)) as (F1 & F2 & F3).
  destruct (ones_sum_spec (concat pieces) 0 Hok ltac:(lia)) as (G1 & G2 & G3).
  unfold ones_sum. revert F1 F2 F3 G1 G2 G3.
  generalize (fold_carry 3 (0 + cksum_sum false (concat pieces))), (foldl ones_add 0 (words (concat pieces))),
    (cksum_sum false (concat pieces)). intros. wrap_lia.
Qed.

Lemma InternetChecksum_rfc1071_witness :
  InternetChecksum_value (foldl InternetChecksum_add (InternetChecksum_new 0) [[255]; [250; 255; 7]; [1]]) =
    65535 - ones_sum (words [255; 250; 255; 7; 1]).
Proof.
  apply (InternetChecksum_rfc1071 [[255]; [250; 255; 7]; [1]]).
  - vm_compute. repeat apply Forall_cons_2; [..|apply Forall_nil_2]; split; congruence.
  - vm_compute. congruence.
Defined.

(** Read the next integer of a header whose bytes are known. *)
Ltac parse_next :=
  match goal with
  | Hp : parser_at ?p (be_bytes ?len ?v ++ ?rest) |- context [NetParser_parse_int ?len ?p] =>
      let p' := fresh "p" in
      let E := fresh "E" in
      let Hp' := fresh "Hp" in
      destruct (NetParser_int_ok p len v rest) as (p' & E & Hp'); [lia|exact Hp|lia|];
      rewrite E; clear E Hp; cbn [mbind result_bind]
  end.

(** Read the next integer of a header whose bytes are not known. *)
Ltac parse_any :=
  match goal with
  | Hp : parser_wf ?p |- context [NetParser_parse_int ?len ?p] =>
      let v := fresh "v" in
      let p' := fresh "p" in
      let E := fresh "E" in
      let Hp' := fresh "Hp" in
      let Hv := fresh "Hv" in
      destruct (NetParser_parse_int_cases p len) as (v & p' & E & Hp' & Hv & _); [lia|exact Hp|];
      rewrite E; clear E Hp; cbn [mbind result_bind]
  end.

(** Read the next integer of a packet known to be long enough. *)
Lemma NetParser_parse_int_take p len bs :
  parser_at p bs -> Forall byte_ok bs -> 0 < len <= zlen bs ->
  exists p', NetParser_parse_int len p = Ok (be_value 0 (ztake len bs), p') /\ parser_at p' (zdrop len bs).
Proof.
  intros Hp Hok Hlen. rewrite <- (ztake_zdrop len bs) in Hp.
  destruct (NetParser_parse_int_at p _ _ Hp) as (p' & E & Hp'); [by apply Forall_take|].
  rewrite zlen_ztake, Z.max_r, Z.min_l in E by lia. by exists p'.
Qed.

Lemma NetParser_parse_int_field p len bs k :
  parser_at p (zdrop k bs) -> Forall byte_ok bs -> 0 <= k -> 0 < len -> k + len <= zlen bs ->
  exists v p', NetParser_parse_int len p = Ok (v, p') /\ 0 <= v < 2 ^ (8 * len) /\ parser_at p' (zdrop (k + len) bs).
Proof.
  intros Hp Hok Hk Hlen Hle.
  destruct (NetParser_parse_int_take p len (zdrop k bs)) as (p' & E & Hp'); [done|by apply Forall_drop|zl|].
  rewrite zdrop_zdrop in Hp' by lia. eexists _, p'. split; [exact E|]. split; [|done].
  pose proof (be_value_bound (ztake len (zdrop k bs)) 0 0 ltac:(by apply Forall_take, Forall_drop) ltac:(lia) ltac:(lia)) as Hb.
  by replace (0 + zlen (ztake len (zdrop k bs))) with len in Hb by (rewrite zlen_ztake, zlen_zdrop; lia).
Qed.

(** Read the next integer of a packet [bs] known to be long enough, of which only
    the range matters. *)
Ltac parse_field :=
  match goal with
  | Hp : parser_at ?p (zdrop ?k ?bs), Hok : Forall byte_ok ?bs |- context [NetParser_parse_int ?len ?p] =>
      let v := fresh "v" in
      let p' := fresh "p" in
      let E := fresh "E" in
      let Hp' := fresh "Hp" in
      let Hv := fresh "Hv" in
      destruct (NetParser_parse_int_field p len bs k) as (v & p' & E & Hv & Hp');
        [exact Hp|exact Hok|lia|lia|lia|];
      rewrite E; clear E Hp; cbn [mbind result_bind];
      let m := eval vm_compute in (k + len) in change (k + len) with m in Hp'
  end.

(** ** Wire formats *)

(** The types with a [parse] that reads a buffer into an object and a [serialize]
    that writes it out.  [wire_ok] says when an object can be put on the wire,
    [wire_same] what of it comes back. *)
Class WireFormat (T : Type) : Type := {
  wire_parse : T -> Buffer -> result (ParseResult * T);
  wire_serialize : T -> result BufferList;
  wire_ok : T -> Prop;
  wire_same : T -> T -> Prop
}.

(** What is serialised is parsed back, whatever the object it is parsed into. *)
Class WireRoundtrip (T : Type) `{WireFormat T} : Prop :=
  wire_roundtrip : forall x, wire_ok x ->
    exists l, wire_serialize x = Ok l /\
      forall old b, Buffer_wf b -> Buffer_str b = flatten l ->
        exists y, wire_parse old b = Ok (NoError, y) /\ wire_same x y.
