(* ===== verification/TCPSegments.v ===== *)
(** TCP segments on the wire: [TCPHeader] (src/libsponge/tcp_helpers/tcp_header.hh
    and .cc) and [TCPSegment] (src/libsponge/tcp_helpers/tcp_segment.hh and .cc).

    Theorems: a serialised segment parses back to itself under the same
    pseudo-checksum; parsing any bytes whatever ends without an exception; and
    what becomes of a header whose data offset is too short. *)

From S2P Require Import Prelude WrappingIntegers Buffers Parsers.

(** ** TCPHeader *)

Record TCPHeader : Type := MkTCPHeader {
  th_sport : Z;
  th_dport : Z;
  th_seqno : WrappingInt32;
  th_ackno : WrappingInt32;
  th_doff : Z;
  th_urg : bool;
  th_ack : bool;
  th_psh : bool;
  th_rst : bool;
  th_syn : bool;
  th_fin : bool;
  th_win : Z;
  th_cksum : Z;
  th_uptr : Z
}.

Definition TCPHeader_LENGTH : Z := 20.

(** The member initialisers. *)
Definition TCPHeader_default : TCPHeader :=
  MkTCPHeader 0 0 (MkWrappingInt32 0) (MkWrappingInt32 0) (TCPHeader_LENGTH / 4)
    false false false false false false 0 0 0.

(** [static_cast<bool>(x & mask)] *)
Definition has_bit (x mask : Z) : bool := negb (Z.land x mask =? 0).

Definition TCPHeader_parse (p : NetParser) : result (ParseResult * TCPHeader * NetParser) :=
  '(sport, p) ← NetParser_u16 p;
  '(dport, p) ← NetParser_u16 p;
  '(seqno, p) ← NetParser_u32 p;
  '(ackno, p) ← NetParser_u32 p;
  '(off_b, p) ← NetParser_u8 p;
  let doff := Z.shiftr off_b 4 in
  '(fl_b, p) ← NetParser_u8 p;
  '(win, p) ← NetParser_u16 p;
  '(cksum, p) ← NetParser_u16 p;
  '(uptr, p) ← NetParser_u16 p;
  let h := MkTCPHeader sport dport (MkWrappingInt32 seqno) (MkWrappingInt32 ackno) doff
             (has_bit fl_b 32) (has_bit fl_b 16) (has_bit fl_b 8) (has_bit fl_b 4)
             (has_bit fl_b 2) (has_bit fl_b 1) win cksum uptr in
  if doff <? 5 then Ok (HeaderTooShort, h, p)
  else
    p ← NetParser_remove_prefix p (u64 (doff * 4 - TCPHeader_LENGTH));
    if NetParser_has_error p then Ok (NetParser_get_error p, h, p)
    else Ok (NoError, h, p).

(** The byte of the flags. *)
Definition TCPHeader_flags (h : TCPHeader) : Z :=
  Z.lor (Z.lor (Z.lor (Z.lor (Z.lor
    (if th_urg h then 32 else 0) (if th_ack h then 16 else 0)) (if th_psh h then 8 else 0))
    (if th_rst h then 4 else 0)) (if th_syn h then 2 else 0)) (if th_fin h then 1 else 0).

Definition TCPHeader_serialize (h : TCPHeader) : result bytes :=
  if th_doff h <? 5 then Throw runtime_error
  else
    let ret := [] in
    let ret := NetUnparser_u16 ret (th_sport h) in
    let ret := NetUnparser_u16 ret (th_dport h) in
    let ret := NetUnparser_u32 ret (raw_value (th_seqno h)) in
    let ret := NetUnparser_u32 ret (raw_value (th_ackno h)) in
    let ret := NetUnparser_u8 ret (u8 (Z.shiftl (th_doff h) 4)) in
    let fl_b := TCPHeader_flags h in
    let ret := NetUnparser_u8 ret fl_b in
    let ret := NetUnparser_u16 ret (th_win h) in
    let ret := NetUnparser_u16 ret (th_cksum h) in
    let ret := NetUnparser_u16 ret (th_uptr h) in
    Ok (resize (4 * th_doff h) ret).

(** [operator==]: the ports and the checksum are not compared. *)
Definition TCPHeader_eqb (h other : TCPHeader) : bool :=
  WrappingInt32_eqb (th_seqno h) (th_seqno other) && WrappingInt32_eqb (th_ackno h) (th_ackno other) &&
  (th_doff h =? th_doff other) && eqb (th_urg h) (th_urg other) && eqb (th_ack h) (th_ack other) &&
  eqb (th_psh h) (th_psh other) && eqb (th_rst h) (th_rst other) && eqb (th_syn h) (th_syn other) &&
  eqb (th_fin h) (th_fin other) && (th_win h =? th_win other) && (th_uptr h =? th_uptr other).

(** Assignments to one or more fields of a header. *)
Definition TCPHeader_set_cksum (h : TCPHeader) (cksum : Z) : TCPHeader :=
  MkTCPHeader (th_sport h) (th_dport h) (th_seqno h) (th_ackno h) (th_doff h) (th_urg h) (th_ack h)
    (th_psh h) (th_rst h) (th_syn h) (th_fin h) (th_win h) cksum (th_uptr h).

Definition TCPHeader_set_ports (h : TCPHeader) (sport dport : Z) : TCPHeader :=
  MkTCPHeader sport dport (th_seqno h) (th_ackno h) (th_doff h) (th_urg h) (th_ack h)
    (th_psh h) (th_rst h) (th_syn h) (th_fin h) (th_win h) (th_cksum h) (th_uptr h).

Definition TCPHeader_set_seqno (h : TCPHeader) (seqno : WrappingInt32) : TCPHeader :=
  MkTCPHeader (th_sport h) (th_dport h) seqno (th_ackno h) (th_doff h) (th_urg h) (th_ack h)
    (th_psh h) (th_rst h) (th_syn h) (th_fin h) (th_win h) (th_cksum h) (th_uptr h).

Definition TCPHeader_set_syn (h : TCPHeader) (syn : bool) : TCPHeader :=
  MkTCPHeader (th_sport h) (th_dport h) (th_seqno h) (th_ackno h) (th_doff h) (th_urg h) (th_ack h)
    (th_psh h) (th_rst h) syn (th_fin h) (th_win h) (th_cksum h) (th_uptr h).

Definition TCPHeader_set_fin (h : TCPHeader) (fin : bool) : TCPHeader :=
  MkTCPHeader (th_sport h) (th_dport h) (th_seqno h) (th_ackno h) (th_doff h) (th_urg h) (th_ack h)
    (th_psh h) (th_rst h) (th_syn h) fin (th_win h) (th_cksum h) (th_uptr h).

Definition TCPHeader_set_rst (h : TCPHeader) (rst : bool) : TCPHeader :=
  MkTCPHeader (th_sport h) (th_dport h) (th_seqno h) (th_ackno h) (th_doff h) (th_urg h) (th_ack h)
    (th_psh h) rst (th_syn h) (th_fin h) (th_win h) (th_cksum h) (th_uptr h).

Definition TCPHeader_set_ackno (h : TCPHeader) (ack : bool) (ackno : WrappingInt32) : TCPHeader :=
  MkTCPHeader (th_sport h) (th_dport h) (th_seqno h) ackno (th_doff h) (th_urg h) ack
    (th_psh h) (th_rst h) (th_syn h) (th_fin h) (th_win h) (th_cksum h) (th_uptr h).

Definition TCPHeader_set_win (h : TCPHeader) (win : Z) : TCPHeader :=
  MkTCPHeader (th_sport h) (th_dport h) (th_seqno h) (th_ackno h) (th_doff h) (th_urg h) (th_ack h)
    (th_psh h) (th_rst h) (th_syn h) (th_fin h) win (th_cksum h) (th_uptr h).

(** ** TCPSegment *)

Record TCPSegment : Type := MkTCPSegment {
  ts_header : TCPHeader;
  ts_payload : Buffer
}.

Definition TCPSegment_default : TCPSegment := MkTCPSegment TCPHeader_default Buffer_default.

(** [parse] on the segment [seg]; what [_header.parse] returns is dropped. *)
Definition TCPSegment_parse (seg : TCPSegment) (buffer : Buffer) (datagram_layer_checksum : Z) :
    result (ParseResult * TCPSegment) :=
  let check := InternetChecksum_new datagram_layer_checksum in
  let check := InternetChecksum_add check (Buffer_str buffer) in
  if negb (InternetChecksum_value check =? 0) then Ok (BadChecksum, seg)
  else
    let p := NetParser_new buffer in
    '(_, h, p) ← TCPHeader_parse p;
    Ok (NetParser_get_error p, MkTCPSegment h (np_buffer p)).

Definition TCPSegment_length_in_sequence_space (seg : TCPSegment) : Z :=
  u64 (zlen (Buffer_str (ts_payload seg)) + (if th_syn (ts_header seg) then 1 else 0)
       + (if th_fin (ts_header seg) then 1 else 0)).

Definition TCPSegment_serialize (seg : TCPSegment) (datagram_layer_checksum : Z) : result BufferList :=
  let header_out := TCPHeader_set_cksum (ts_header seg) 0 in
  let check := InternetChecksum_new datagram_layer_checksum in
  s ← TCPHeader_serialize header_out;
  let check := InternetChecksum_add check s in
  let check := InternetChecksum_add check (Buffer_str (ts_payload seg)) in
  let header_out := TCPHeader_set_cksum header_out (InternetChecksum_value check) in
  let ret := BufferList_default in
  s ← TCPHeader_serialize header_out;
  let ret := BufferList_append ret (BufferList_of_string s) in
  let ret := BufferList_append ret (BufferList_of_Buffer (ts_payload seg)) in
  Ok ret.

(** ** Round trip *)

(** Every field within the range of its type, and a data offset that fits its
    four bits and covers the header. *)
Record TCPHeader_ok (h : TCPHeader) : Prop := {
  tho_sport : 0 <= th_sport h < 2 ^ 16;
  tho_dport : 0 <= th_dport h < 2 ^ 16;
  tho_seqno : WrappingInt32_ok (th_seqno h);
  tho_ackno : WrappingInt32_ok (th_ackno h);
  tho_doff : 5 <= th_doff h <= 15;
  tho_win : 0 <= th_win h < 2 ^ 16;
  tho_cksum : 0 <= th_cksum h < 2 ^ 16;
  tho_uptr : 0 <= th_uptr h < 2 ^ 16
}.

(** The bytes of a header before and after its checksum. *)
Definition header_pre (h : TCPHeader) : bytes :=
  be_bytes 2 (th_sport h) ++ be_bytes 2 (th_dport h) ++ be_bytes 4 (raw_value (th_seqno h)) ++
  be_bytes 4 (raw_value (th_ackno h)) ++ be_bytes 1 (16 * th_doff h) ++
  be_bytes 1 (TCPHeader_flags h) ++ be_bytes 2 (th_win h).

Definition header_post (h : TCPHeader) : bytes :=
  be_bytes 2 (th_uptr h) ++ replicate (Z.to_nat (4 * th_doff h - 20)) 0.

Lemma header_pre_len h : zlen (header_pre h) = 16.
Proof. unfold header_pre. rewrite !zlen_app, !be_bytes_len by lia. done. Qed.

Lemma header_post_len h : 5 <= th_doff h -> zlen (header_post h) = 4 * th_doff h - 18.
Proof. intros. unfold header_post. rewrite zlen_app, zlen_replicate, be_bytes_len by lia. lia. Qed.

Lemma header_pre_ok h : Forall byte_ok (header_pre h).
Proof. unfold header_pre. repeat apply Forall_app_2; apply be_bytes_ok. Qed.

Lemma header_post_ok h : Forall byte_ok (header_post h).
Proof. apply Forall_app_2; [apply be_bytes_ok|apply replicate_zero_ok]. Qed.

Lemma TCPHeader_serialize_eq h : 5 <= th_doff h <= 15 ->
  TCPHeader_serialize h = Ok (header_pre h ++ be_bytes 2 (th_cksum h) ++ header_post h).
Proof.
  intros Hd. unfold TCPHeader_serialize. rewrite (proj2 (Z.ltb_ge _ _)) by lia.
  rewrite Z.shiftl_mul_pow2 by lia. change (2 ^ 4) with 16. rewrite (Z.mul_comm _ 16), u8_small by lia.
  unfold NetUnparser_u16, NetUnparser_u32, NetUnparser_u8. rewrite !NetUnparser_be. f_equal.
  rewrite resize_ge; rewrite !zlen_app, !be_bytes_len, zlen_nil by lia; [|lia].
  unfold header_pre, header_post. rewrite <- !app_assoc. repeat (f_equal; try lia).
Qed.

Lemma TCPHeader_flags_bits h :
  0 <= TCPHeader_flags h < 2 ^ 8 /\
  has_bit (TCPHeader_flags h) 32 = th_urg h /\ has_bit (TCPHeader_flags h) 16 = th_ack h /\
  has_bit (TCPHeader_flags h) 8 = th_psh h /\ has_bit (TCPHeader_flags h) 4 = th_rst h /\
  has_bit (TCPHeader_flags h) 2 = th_syn h /\ has_bit (TCPHeader_flags h) 1 = th_fin h.
Proof.
  unfold TCPHeader_flags.
  destruct (th_urg h), (th_ack h), (th_psh h), (th_rst h), (th_syn h), (th_fin h); by vm_compute.
Qed.

Lemma TCPHeader_parse_serialized h p rest :
  TCPHeader_ok h ->
  parser_at p ((header_pre h ++ be_bytes 2 (th_cksum h) ++ header_post h) ++ rest) ->
  exists p', TCPHeader_parse p = Ok (NoError, h, p') /\ parser_at p' rest.
Proof.
  intros [] Hp. unfold WrappingInt32_ok in *. pose proof (TCPHeader_flags_bits h) as (Hf & F1 & F2 & F3 & F4 & F5 & F6).
  unfold header_pre, header_post in Hp. rewrite <- !app_assoc in Hp.
  unfold TCPHeader_parse, NetParser_u16, NetParser_u32, NetParser_u8.
  do 9 parse_next. rewrite Z.shiftr_div_pow2 by lia.
  replace (16 * th_doff h / 2 ^ 4) with (th_doff h) by (change (2 ^ 4) with 16; wrap_lia).
  rewrite (proj2 (Z.ltb_ge _ _)) by lia. unfold TCPHeader_LENGTH. rewrite u64_small by lia.
  edestruct NetParser_remove_prefix_at as (p' & E & Hp'); [eassumption|].
  rewrite zlen_replicate in E. replace (th_doff h * 4 - 20) with (Z.of_nat (Z.to_nat (4 * th_doff h - 20))) by lia.
  rewrite E. cbn [mbind result_bind]. rewrite (NetParser_has_error_at _ _ Hp').
  exists p'. split; [|done]. do 3 f_equal. rewrite F1, F2, F3, F4, F5, F6. by destruct h as [? ? [] [] ?].
Qed.

Lemma header_pre_set_cksum h ck : header_pre (TCPHeader_set_cksum h ck) = header_pre h.
Proof. reflexivity. Qed.

Lemma header_post_set_cksum h ck : header_post (TCPHeader_set_cksum h ck) = header_post h.
Proof. reflexivity. Qed.

(** The checksum that [serialize] fills in, and the bytes of the header with it. *)
Definition sealing_cksum (seg : TCPSegment) (pseudo : Z) : Z :=
  InternetChecksum_value (InternetChecksum_add (InternetChecksum_new pseudo)
    (header_pre (ts_header seg) ++ be_bytes 2 0 ++ header_post (ts_header seg) ++ Buffer_str (ts_payload seg))).

Definition sealed_header (seg : TCPSegment) (pseudo : Z) : bytes :=
  header_pre (ts_header seg) ++ be_bytes 2 (sealing_cksum seg pseudo) ++ header_post (ts_header seg).

Lemma sealed_header_ok seg pseudo : Forall byte_ok (sealed_header seg pseudo).
Proof.
  apply Forall_app_2; [apply header_pre_ok|]. apply Forall_app_2; [apply be_bytes_ok|apply header_post_ok].
Qed.

Lemma sealed_header_len seg pseudo : 5 <= th_doff (ts_header seg) ->
  zlen (sealed_header seg pseudo) = 4 * th_doff (ts_header seg).
Proof.
  intros. unfold sealed_header. rewrite !zlen_app, header_pre_len, header_post_len, be_bytes_len by lia. lia.
Qed.

Lemma TCPSegment_serialize_eq seg pseudo : 5 <= th_doff (ts_header seg) <= 15 ->
  TCPSegment_serialize seg pseudo = Ok [Buffer_of_string (sealed_header seg pseudo); ts_payload seg].
Proof.
  intros Hd. unfold TCPSegment_serialize. rewrite TCPHeader_serialize_eq by done.
  cbn [mbind result_bind]. rewrite TCPHeader_serialize_eq by done. cbn [mbind result_bind].
  rewrite InternetChecksum_add_app, !header_pre_set_cksum, !header_post_set_cksum, <- !app_assoc.
  unfold sealed_header, sealing_cksum. do 3 f_equal.
Qed.

(** The bytes [serialize] produces carry a checksum that verifies. *)
Lemma sealed_verifies seg pseudo bs :
  bs = Buffer_str (ts_payload seg) ->
  5 <= th_doff (ts_header seg) -> Forall byte_ok bs ->
  4 * th_doff (ts_header seg) + zlen bs <= 65535 -> 0 <= pseudo <= 2 ^ 20 ->
  InternetChecksum_value (InternetChecksum_add (InternetChecksum_new pseudo)
    (sealed_header seg pseudo ++ bs)) = 0.
Proof.
  intros -> Hd Hok Hlen Hps. unfold sealed_header. rewrite <- !app_assoc. apply checksum_field_verifies.
  - apply header_pre_ok.
  - apply Forall_app_2; [apply header_post_ok|done].
  - rewrite header_pre_len. by exists 8.
  - done.
  - rewrite header_pre_len, zlen_app, header_post_len by lia. lia.
  - reflexivity.
Qed.

Lemma TCPSegment_parse_sealed seg old pseudo b :
  TCPHeader_ok (ts_header seg) ->
  Buffer_wf b -> Buffer_str b = sealed_header seg pseudo ++ Buffer_str (ts_payload seg) ->
  Forall byte_ok (Buffer_str (ts_payload seg)) ->
  4 * th_doff (ts_header seg) + Buffer_size (ts_payload seg) <= 65535 -> 0 <= pseudo <= 2 ^ 20 ->
  exists seg', TCPSegment_parse old b pseudo = Ok (NoError, seg') /\
    ts_header seg' = TCPHeader_set_cksum (ts_header seg) (sealing_cksum seg pseudo) /\
    Buffer_wf (ts_payload seg') /\ Buffer_str (ts_payload seg') = Buffer_str (ts_payload seg).
Proof.
  intros Hh Hb Hs Hok Hlen Hps. unfold TCPSegment_parse. rewrite Hs.
  rewrite sealed_verifies by (done || apply Hh). rewrite Z.eqb_refl. cbn [negb].
  pose proof (NetParser_new_at b Hb) as Hp. rewrite Hs in Hp.
  destruct (TCPHeader_parse_serialized (TCPHeader_set_cksum (ts_header seg) (sealing_cksum seg pseudo))
    (NetParser_new b) (Buffer_str (ts_payload seg))) as (p' & E & Hp').
  - destruct Hh. split; [assumption..| |assumption]. apply InternetChecksum_value_range.
  - exact Hp.
  - rewrite E. cbn [mbind result_bind].
    exists (MkTCPSegment (TCPHeader_set_cksum (ts_header seg) (sealing_cksum seg pseudo)) (np_buffer p')).
    split; [|split; [reflexivity|split; apply Hp']].
    unfold NetParser_get_error. by rewrite (pa_error _ _ Hp').
Qed.

Lemma TCPSegment_parse_serialized seg old pseudo :
  TCPHeader_ok (ts_header seg) -> Buffer_wf (ts_payload seg) ->
  Forall byte_ok (Buffer_str (ts_payload seg)) ->
  4 * th_doff (ts_header seg) + Buffer_size (ts_payload seg) <= 65535 -> 0 <= pseudo <= 2 ^ 20 ->
  exists l ck seg', TCPSegment_serialize seg pseudo = Ok l /\
    TCPSegment_parse old (Buffer_of_string (BufferList_concatenate l)) pseudo = Ok (NoError, seg') /\
    ts_header seg' = TCPHeader_set_cksum (ts_header seg) ck /\
    Buffer_str (ts_payload seg') = Buffer_str (ts_payload seg).
Proof.
  intros Hh Hwf Hok Hlen Hps. pose proof (tho_doff _ Hh) as Hd.
  pose proof (sealed_header_len seg pseudo ltac:(lia)) as Hsl. unfold Buffer_size in Hlen.
  rewrite TCPSegment_serialize_eq by done.
  assert (flatten [Buffer_of_string (sealed_header seg pseudo); ts_payload seg] =
    sealed_header seg pseudo ++ Buffer_str (ts_payload seg)) as Hfl.
  { rewrite flatten_cons, Buffer_of_string_str by lia. rewrite flatten_cons. f_equal. apply app_nil_r. }
  assert (zlen (sealed_header seg pseudo ++ Buffer_str (ts_payload seg)) < 2 ^ 64) as Hl64 by (rewrite zlen_app; lia).
  destruct (TCPSegment_parse_sealed seg old pseudo
    (Buffer_of_string (sealed_header seg pseudo ++ Buffer_str (ts_payload seg)))) as (seg' & E & Hh' & _ & Hp').
  - exact Hh.
  - by apply Buffer_of_string_wf.
  - by rewrite Buffer_of_string_str.
  - exact Hok.
  - exact Hlen.
  - exact Hps.
  - eexists _, _, seg'. split; [reflexivity|]. rewrite BufferList_concatenate_flatten, Hfl.
    split; [exact E|]. split; [exact Hh'|exact Hp'].
Qed.

(** C23.  A segment whose fields are in range and whose payload fits an Internet
    datagram serialises under any small enough pseudo-checksum, and parsing
    those bytes under the same pseudo-checksum gives the segment back: the
    header with the checksum filled in, and the same payload. *)
Theorem TCPSegment_roundtrip seg old pseudo :
  TCPHeader_ok (ts_header seg) -> Buffer_wf (ts_payload seg) ->
  Forall byte_ok (Buffer_str (ts_payload seg)) ->
  4 * th_doff (ts_header seg) + Buffer_size (ts_payload seg) <= 65535 -> 0 <= pseudo <= 2 ^ 20 ->
  exists l ck seg', TCPSegment_serialize seg pseudo = Ok l /\
    TCPSegment_parse old (Buffer_of_string (BufferList_concatenate l)) pseudo = Ok (NoError, seg') /\
    ts_header seg' = TCPHeader_set_cksum (ts_header seg) ck /\
    Buffer_str (ts_payload seg') = Buffer_str (ts_payload seg).
Proof. apply TCPSegment_parse_serialized. Qed.

Lemma TCPSegment_roundtrip_witness :
  exists l ck seg', TCPSegment_serialize (MkTCPSegment (TCPHeader_set_syn TCPHeader_default true) (Buffer_of_string [104; 105])) 7 = Ok l /\
    TCPSegment_parse TCPSegment_default (Buffer_of_string (BufferList_concatenate l)) 7 = Ok (NoError, seg') /\
    ts_header seg' = TCPHeader_set_cksum (TCPHeader_set_syn TCPHeader_default true) ck /\
    Buffer_str (ts_payload seg') = [104; 105].
Proof.
  apply (TCPSegment_roundtrip
    (MkTCPSegment (TCPHeader_set_syn TCPHeader_default true) (Buffer_of_string [104; 105])) TCPSegment_default 7).
  - split; vm_compute; split; congruence.
  - apply Buffer_of_string_wf. reflexivity.
  - repeat apply Forall_cons_2; [split; lia..|apply Forall_nil_2].
  - vm_compute. congruence.
  - lia.
Defined.

(** ** Segments from the wire *)

(** The ranges of the fields of a header that was parsed. *)
Record TCPHeader_parsed (h : TCPHeader) : Prop := {
  thp_ports : 0 <= th_sport h < 2 ^ 16 /\ 0 <= th_dport h < 2 ^ 16;
  thp_seqno : WrappingInt32_ok (th_seqno h);
  thp_ackno : WrappingInt32_ok (th_ackno h);
  thp_doff : 0 <= th_doff h <= 15;
  thp_win : 0 <= th_win h < 2 ^ 16
}.

Lemma TCPHeader_parse_total p : parser_wf p ->
  exists r h p', TCPHeader_parse p = Ok (r, h, p') /\ TCPHeader_parsed h /\ parser_wf p'.
Proof.
  intros Hp. unfold TCPHeader_parse, NetParser_u16, NetParser_u32, NetParser_u8. do 9 parse_any.
  rewrite Z.shiftr_div_pow2 by lia.
  match goal with |- context [MkTCPHeader ?a ?b ?c ?d ?e ?f ?g ?i ?j ?k ?l ?m ?n ?o] =>
    set (h := MkTCPHeader a b c d e f g i j k l m n o) end.
  assert (TCPHeader_parsed h) as Hh.
  { unfold h. split; cbn; unfold WrappingInt32_ok; cbn; try (split; assumption); try assumption. wrap_lia. }
  pose proof (thp_doff h Hh) as Hd. change (th_doff h) with (v3 / 2 ^ 4) in Hd.
  destruct (Z.ltb_spec (v3 / 2 ^ 4) 5); [by eexists _, _, _|].
  unfold TCPHeader_LENGTH. rewrite u64_small by lia.
  edestruct NetParser_remove_prefix_cases as (p' & E & Hp'); [|eassumption|rewrite E]; [lia|].
  cbn [mbind result_bind]. destruct (NetParser_has_error p'); by eexists _, _, _.
Qed.

Lemma TCPSegment_parse_any old b pseudo :
  Buffer_wf b -> Forall byte_ok (Buffer_str b) ->
  exists r seg, TCPSegment_parse old b pseudo = Ok (r, seg) /\
    (r = BadChecksum /\ seg = old \/
     TCPHeader_parsed (ts_header seg) /\ Buffer_wf (ts_payload seg) /\
     Forall byte_ok (Buffer_str (ts_payload seg))).
Proof.
  intros Hb Hok. unfold TCPSegment_parse. destruct (negb _); [by eexists _, _; split; [|left]|].
  destruct (TCPHeader_parse_total (NetParser_new b)) as (r & h & p' & E & Hh & Hp'); [by split|].
  rewrite E. cbn [mbind result_bind]. eexists _, _. split; [reflexivity|].
  right. split; [exact Hh|split; apply Hp'].
Qed.

(** C35.  Parsing never throws, whatever the bytes and the pseudo-checksum: it
    either reports a bad checksum and leaves the segment as it was, or fills in
    a segment whose fields are in range and whose payload is a well-formed
    buffer of bytes. *)
Theorem TCPSegment_parse_total old b pseudo :
  Buffer_wf b -> Forall byte_ok (Buffer_str b) ->
  exists r seg, TCPSegment_parse old b pseudo = Ok (r, seg) /\
    (r = BadChecksum /\ seg = old \/
     TCPHeader_parsed (ts_header seg) /\ Buffer_wf (ts_payload seg) /\
     Forall byte_ok (Buffer_str (ts_payload seg))).
Proof. apply TCPSegment_parse_any. Qed.

Lemma TCPSegment_parse_total_witness :
  exists r seg, TCPSegment_parse TCPSegment_default (Buffer_of_string [255; 255]) 0 = Ok (r, seg) /\
    (r = BadChecksum /\ seg = TCPSegment_default \/
     TCPHeader_parsed (ts_header seg) /\ Buffer_wf (ts_payload seg) /\
     Forall byte_ok (Buffer_str (ts_payload seg))).
Proof.
  apply (TCPSegment_parse_total TCPSegment_default (Buffer_of_string [255; 255]) 0).
  - apply Buffer_of_string_wf. reflexivity.
  - repeat apply Forall_cons_2; [split; lia..|apply Forall_nil_2].
Defined.

Ltac parse_take :=
  match goal with
  | Hp : parser_at ?p (zdrop ?k ?bs), Hok : Forall byte_ok ?bs |- context [NetParser_parse_int ?len ?p] =>
      let p' := fresh "p" in
      let E := fresh "E" in
      let Hp' := fresh "Hp" in
      destruct (NetParser_parse_int_take p len (zdrop k bs)) as (p' & E & Hp');
        [exact Hp|by apply Forall_drop|zl|];
      rewrite E; clear E Hp; cbn [mbind result_bind]; rewrite zdrop_zdrop in Hp' by lia;
      let m := eval vm_compute in (k + len) in change (k + len) with m in Hp'
  end.

(** A packet of at least 20 bytes with a good checksum whose data offset
    is below five words is accepted: [TCPHeader::parse] reports
    [HeaderTooShort], but [TCPSegment::parse] drops that result and returns
    [NoError], with everything after the first 20 bytes as the payload. *)
Theorem TCPSegment_parse_accepts_short_doff old b pseudo o :
  Buffer_wf b -> Forall byte_ok (Buffer_str b) -> 20 <= Buffer_size b ->
  InternetChecksum_value (InternetChecksum_add (InternetChecksum_new pseudo) (Buffer_str b)) = 0 ->
  ztake 1 (zdrop 12 (Buffer_str b)) = [o] -> o < 80 ->
  exists seg h p, TCPHeader_parse (NetParser_new b) = Ok (HeaderTooShort, h, p) /\
    TCPSegment_parse old b pseudo = Ok (NoError, seg) /\ ts_header seg = h /\
    Buffer_str (ts_payload seg) = zdrop 20 (Buffer_str b).
Proof.
  intros Hb Hok Hlen Hck Ho Hlt. set (bs := Buffer_str b) in *. unfold Buffer_size in Hlen. fold bs in Hlen.
  assert (exists h p, TCPHeader_parse (NetParser_new b) = Ok (HeaderTooShort, h, p) /\ parser_at p (zdrop 20 bs))
    as (h & p & E & Hp).
  { pose proof (NetParser_new_at b Hb) as Hp. fold bs in Hp. rewrite <- (zdrop_le0 0 bs) in Hp by lia.
    unfold TCPHeader_parse, NetParser_u16, NetParser_u32, NetParser_u8. do 9 parse_take.
    rewrite Ho. cbn [be_value]. rewrite Z.shiftr_div_pow2 by lia.
    destruct (Z.ltb_spec ((0 * 256 + o) / 2 ^ 4) 5); [eexists _, _; split; [reflexivity|done]|].
    exfalso. change (2 ^ 4) with 16 in *. wrap_lia. }
  exists (MkTCPSegment h (np_buffer p)), h, p. split; [exact E|]. unfold TCPSegment_parse. fold bs.
  rewrite Hck, Z.eqb_refl. cbn [negb]. rewrite E. cbn [mbind result_bind].
  split; [|split; [reflexivity|apply Hp]]. unfold NetParser_get_error. by rewrite (pa_error _ _ Hp).
Qed.

Lemma TCPSegment_parse_accepts_short_doff_witness :
  exists seg h p,
    TCPHeader_parse (NetParser_new (Buffer_of_string (replicate 16 0 ++ [255; 255] ++ replicate 4 0))) =
      Ok (HeaderTooShort, h, p) /\
    TCPSegment_parse TCPSegment_default (Buffer_of_string (replicate 16 0 ++ [255; 255] ++ replicate 4 0)) 0 =
      Ok (NoError, seg) /\
    ts_header seg = h /\ Buffer_str (ts_payload seg) = [0; 0].
Proof.
  apply (TCPSegment_parse_accepts_short_doff TCPSegment_default
           (Buffer_of_string (replicate 16 0 ++ [255; 255] ++ replicate 4 0)) 0 0).
  - apply Buffer_of_string_wf. reflexivity.
  - vm_compute. repeat apply Forall_cons_2; [split; congruence..|apply Forall_nil_2].
  - vm_compute. congruence.
  - vm_compute. reflexivity.
  - vm_compute. reflexivity.
  - lia.
Defined.
