(* ===== verification/IPv4Datagrams.v ===== *)
(** IPv4 on the wire: [IPv4Header] (src/libsponge/tcp_helpers/ipv4_header.hh and
    .cc) and [IPv4Datagram] (src/libsponge/tcp_helpers/ipv4_datagram.hh and .cc).

    Theorems: a serialised datagram parses back to itself with its checksum
    filled in; parsing any bytes whatever ends without an exception; a datagram
    whose header checksum is bad is accepted all the same. *)

From S2P Require Import Prelude WrappingIntegers Buffers Parsers TCPSegments.

(** ** IPv4Header *)

Definition IPv4Header_LENGTH : Z := 20.
Definition DEFAULT_TTL : Z := 128.
Definition PROTO_TCP : Z := 6.

Record IPv4Header : Type := MkIPv4Header {
  ih_ver : Z;
  ih_hlen : Z;
  ih_tos : Z;
  ih_len : Z;
  ih_id : Z;
  ih_df : bool;
  ih_mf : bool;
  ih_offset : Z;
  ih_ttl : Z;
  ih_proto : Z;
  ih_cksum : Z;
  ih_src : Z;
  ih_dst : Z
}.

(** The member initialisers. *)
Definition IPv4Header_default : IPv4Header :=
  MkIPv4Header 4 (IPv4Header_LENGTH / 4) 0 0 0 true false 0 DEFAULT_TTL PROTO_TCP 0 0 0.

(** Assignments to one or more fields of a header. *)
Definition IPv4Header_set_cksum (h : IPv4Header) (cksum : Z) : IPv4Header :=
  MkIPv4Header (ih_ver h) (ih_hlen h) (ih_tos h) (ih_len h) (ih_id h) (ih_df h) (ih_mf h) (ih_offset h)
    (ih_ttl h) (ih_proto h) cksum (ih_src h) (ih_dst h).

Definition IPv4Header_set_ttl (h : IPv4Header) (ttl : Z) : IPv4Header :=
  MkIPv4Header (ih_ver h) (ih_hlen h) (ih_tos h) (ih_len h) (ih_id h) (ih_df h) (ih_mf h) (ih_offset h)
    ttl (ih_proto h) (ih_cksum h) (ih_src h) (ih_dst h).

Definition IPv4Header_set_route (h : IPv4Header) (src dst len : Z) : IPv4Header :=
  MkIPv4Header (ih_ver h) (ih_hlen h) (ih_tos h) len (ih_id h) (ih_df h) (ih_mf h) (ih_offset h)
    (ih_ttl h) (ih_proto h) (ih_cksum h) src dst.

(** [parse] on the header [h]: a packet that is too short leaves it alone, any
    other one overwrites it, also when an error is reported. *)
Definition IPv4Header_parse (h : IPv4Header) (p : NetParser) : result (ParseResult * IPv4Header * NetParser) :=
  let original_serialized_version := np_buffer p in
  let data_size := Buffer_size (np_buffer p) in
  if data_size <? IPv4Header_LENGTH then Ok (PacketTooShort, h, p)
  else
    '(first_byte, p) ← NetParser_u8 p;
    let ver := Z.shiftr first_byte 4 in
    let hlen := Z.land first_byte 15 in
    '(tos, p) ← NetParser_u8 p;
    '(len, p) ← NetParser_u16 p;
    '(id, p) ← NetParser_u16 p;
    '(fo_val, p) ← NetParser_u16 p;
    '(ttl, p) ← NetParser_u8 p;
    '(proto, p) ← NetParser_u8 p;
    '(cksum, p) ← NetParser_u16 p;
    '(src, p) ← NetParser_u32 p;
    '(dst, p) ← NetParser_u32 p;
    let h := MkIPv4Header ver hlen tos len id (has_bit fo_val 16384) (has_bit fo_val 8192)
               (Z.land fo_val 8191) ttl proto cksum src dst in
    if data_size <? 4 * hlen then Ok (PacketTooShort, h, p)
    else if negb (ver =? 4) then Ok (WrongIPVersion, h, p)
    else if hlen <? 5 then Ok (HeaderTooShort, h, p)
    else if negb (data_size =? len) then Ok (TruncatedPacket, h, p)
    else
      p ← NetParser_remove_prefix p (u64 (hlen * 4 - IPv4Header_LENGTH));
      if NetParser_has_error p then Ok (NetParser_get_error p, h, p)
      else
        let check := InternetChecksum_add (InternetChecksum_new 0)
                       (ztake (4 * hlen) (Buffer_str original_serialized_version)) in
        if negb (InternetChecksum_value check =? 0) then Ok (BadChecksum, h, p)
        else Ok (NoError, h, p).

(** The 16 bits of the flags and the fragment offset. *)
Definition IPv4Header_fo_val (h : IPv4Header) : Z :=
  Z.lor (Z.lor (if ih_df h then 16384 else 0) (if ih_mf h then 8192 else 0)) (Z.land (ih_offset h) 8191).

Definition IPv4Header_serialize (h : IPv4Header) : result bytes :=
  if negb (ih_ver h =? 4) then Throw runtime_error
  else if 4 * ih_hlen h <? IPv4Header_LENGTH then Throw runtime_error
  else
    let ret := [] in
    let first_byte := u8 (Z.lor (Z.shiftl (ih_ver h) 4) (Z.land (ih_hlen h) 15)) in
    let ret := NetUnparser_u8 ret first_byte in
    let ret := NetUnparser_u8 ret (ih_tos h) in
    let ret := NetUnparser_u16 ret (ih_len h) in
    let ret := NetUnparser_u16 ret (ih_id h) in
    let ret := NetUnparser_u16 ret (IPv4Header_fo_val h) in
    let ret := NetUnparser_u8 ret (ih_ttl h) in
    let ret := NetUnparser_u8 ret (ih_proto h) in
    let ret := NetUnparser_u16 ret (ih_cksum h) in
    let ret := NetUnparser_u32 ret (ih_src h) in
    let ret := NetUnparser_u32 ret (ih_dst h) in
    Ok (resize (4 * ih_hlen h) ret).

Definition IPv4Header_payload_length (h : IPv4Header) : Z := u16 (ih_len h - 4 * ih_hlen h).

Definition IPv4Header_pseudo_cksum (h : IPv4Header) : Z :=
  let pcksum := u32 (Z.shiftr (ih_src h) 16 + Z.land (ih_src h) 65535) in
  let pcksum := u32 (pcksum + u32 (Z.shiftr (ih_dst h) 16 + Z.land (ih_dst h) 65535)) in
  let pcksum := u32 (pcksum + ih_proto h) in
  u32 (pcksum + IPv4Header_payload_length h).

(** ** IPv4Datagram *)

Record IPv4Datagram : Type := MkIPv4Datagram {
  id_header : IPv4Header;
  id_payload : BufferList
}.

Definition IPv4Datagram_default : IPv4Datagram := MkIPv4Datagram IPv4Header_default BufferList_default.

(** What [_header.parse] returns is dropped. *)
Definition IPv4Datagram_parse (d : IPv4Datagram) (buffer : Buffer) : result (ParseResult * IPv4Datagram) :=
  let p := NetParser_new buffer in
  '(_, h, p) ← IPv4Header_parse (id_header d) p;
  let d := MkIPv4Datagram h (BufferList_of_Buffer (np_buffer p)) in
  if negb (BufferList_size (id_payload d) =? IPv4Header_payload_length h) then Ok (PacketTooShort, d)
  else Ok (NetParser_get_error p, d).

Definition IPv4Datagram_serialize (d : IPv4Datagram) : result BufferList :=
  if negb (BufferList_size (id_payload d) =? IPv4Header_payload_length (id_header d)) then Throw runtime_error
  else
    let header_out := IPv4Header_set_cksum (id_header d) 0 in
    header_zero_checksum ← IPv4Header_serialize header_out;
    let check := InternetChecksum_add (InternetChecksum_new 0) header_zero_checksum in
    let header_out := IPv4Header_set_cksum header_out (InternetChecksum_value check) in
    let ret := BufferList_default in
    s ← IPv4Header_serialize header_out;
    let ret := BufferList_append ret (BufferList_of_string s) in
    let ret := BufferList_append ret (id_payload d) in
    Ok ret.

(** ** Round trip *)

(** Every field within its range on the wire. *)
Record IPv4Header_ok (h : IPv4Header) : Prop := {
  iho_ver : ih_ver h = 4;
  iho_hlen : 5 <= ih_hlen h <= 15;
  iho_tos : 0 <= ih_tos h < 2 ^ 8;
  iho_len : 0 <= ih_len h < 2 ^ 16;
  iho_id : 0 <= ih_id h < 2 ^ 16;
  iho_offset : 0 <= ih_offset h < 2 ^ 13;
  iho_ttl : 0 <= ih_ttl h < 2 ^ 8;
  iho_proto : 0 <= ih_proto h < 2 ^ 8;
  iho_cksum : 0 <= ih_cksum h < 2 ^ 16;
  iho_src : 0 <= ih_src h < 2 ^ 32;
  iho_dst : 0 <= ih_dst h < 2 ^ 32
}.

(** The bytes of a header before and after its checksum. *)
Definition ip_pre (h : IPv4Header) : bytes :=
  be_bytes 1 (64 + ih_hlen h) ++ be_bytes 1 (ih_tos h) ++ be_bytes 2 (ih_len h) ++ be_bytes 2 (ih_id h) ++
  be_bytes 2 (IPv4Header_fo_val h) ++ be_bytes 1 (ih_ttl h) ++ be_bytes 1 (ih_proto h).

Definition ip_post (h : IPv4Header) : bytes :=
  be_bytes 4 (ih_src h) ++ be_bytes 4 (ih_dst h) ++ replicate (Z.to_nat (4 * ih_hlen h - 20)) 0.

Definition ip_bytes (h : IPv4Header) : bytes := ip_pre h ++ be_bytes 2 (ih_cksum h) ++ ip_post h.

Lemma ip_pre_len h : zlen (ip_pre h) = 10.
Proof. unfold ip_pre. rewrite !zlen_app, !be_bytes_len by lia. done. Qed.

Lemma ip_post_len h : 5 <= ih_hlen h -> zlen (ip_post h) = 4 * ih_hlen h - 12.
Proof. intros. unfold ip_post. rewrite !zlen_app, zlen_replicate, !be_bytes_len by lia. lia. Qed.

Lemma ip_bytes_len h : 5 <= ih_hlen h -> zlen (ip_bytes h) = 4 * ih_hlen h.
Proof. intros. unfold ip_bytes. rewrite !zlen_app, ip_pre_len, ip_post_len, be_bytes_len by lia. lia. Qed.

Lemma ip_pre_ok h : Forall byte_ok (ip_pre h).
Proof. unfold ip_pre. repeat apply Forall_app_2; apply be_bytes_ok. Qed.

Lemma ip_post_ok h : Forall byte_ok (ip_post h).
Proof. unfold ip_post. repeat apply Forall_app_2; first [apply be_bytes_ok|apply replicate_zero_ok]. Qed.

Lemma ip_first_byte hlen : 5 <= hlen <= 15 ->
  u8 (Z.lor (Z.shiftl 4 4) (Z.land hlen 15)) = 64 + hlen /\
  Z.shiftr (64 + hlen) 4 = 4 /\ Z.land (64 + hlen) 15 = hlen.
Proof.
  intros H. assert (hlen = 5 \/ hlen = 6 \/ hlen = 7 \/ hlen = 8 \/ hlen = 9 \/ hlen = 10 \/ hlen = 11 \/
    hlen = 12 \/ hlen = 13 \/ hlen = 14 \/ hlen = 15) as Hc by lia.
  by repeat (destruct Hc as [->|Hc]; [done|]); subst.
Qed.

Lemma IPv4Header_serialize_eq h : ih_ver h = 4 -> 5 <= ih_hlen h <= 15 ->
  IPv4Header_serialize h = Ok (ip_bytes h).
Proof.
  intros Hv Hl. unfold IPv4Header_serialize, IPv4Header_LENGTH. rewrite Hv, Z.eqb_refl. cbn [negb].
  rewrite (proj2 (Z.ltb_ge _ _)) by lia. destruct (ip_first_byte (ih_hlen h) Hl) as (-> & _).
  unfold NetUnparser_u16, NetUnparser_u32, NetUnparser_u8. rewrite !NetUnparser_be. f_equal.
  rewrite resize_ge; rewrite !zlen_app, !be_bytes_len, zlen_nil by lia; [|lia].
  unfold ip_bytes, ip_pre, ip_post. rewrite <- !app_assoc. repeat (f_equal; try lia).
Qed.

(** The flags and the offset do not share bits. *)
Lemma land_pow2_high x n k : 0 <= x < 2 ^ n -> 0 <= n <= k -> Z.land x (2 ^ k) = 0.
Proof.
  intros Hx Hk. apply Z.bits_inj'. intros i Hi. rewrite Z.land_spec, Z.bits_0, Z.pow2_bits_eqb by lia.
  destruct (Z.eqb_spec k i) as [<-|]; [|apply andb_false_r]. rewrite andb_true_r.
  destruct (Z.eq_dec x 0) as [->|Hx0]; [apply Z.bits_0|].
  apply Z.bits_above_log2; [lia|]. apply Z.lt_le_trans with n; [|lia]. apply Z.log2_lt_pow2; lia.
Qed.

Lemma lor_bound a b n : 0 <= n -> 0 <= a < 2 ^ n -> 0 <= b < 2 ^ n -> 0 <= Z.lor a b < 2 ^ n.
Proof.
  intros Hn Ha Hb. split; [apply Z.lor_nonneg; lia|].
  destruct (Z.eq_dec (Z.lor a b) 0) as [->|H0]; [lia|].
  assert (0 < Z.lor a b) by (pose proof (proj2 (Z.lor_nonneg a b) ltac:(lia)); lia).
  apply Z.log2_lt_pow2; [done|]. rewrite Z.log2_lor by lia.
  assert (forall x, 0 <= x < 2 ^ n -> n <> 0 -> Z.log2 x < n) as Hlog.
  { intros x [Hx0 Hx] Hn0. destruct (Z.eq_dec x 0) as [->|]; [rewrite Z.log2_nonpos; lia|apply Z.log2_lt_pow2; lia]. }
  destruct (Z.eq_dec n 0) as [->|Hn0].
  - assert (a = 0 /\ b = 0) as [-> ->] by lia. done.
  - pose proof (Hlog a Ha Hn0). pose proof (Hlog b Hb Hn0). lia.
Qed.

Lemma fo_val_bits h : 0 <= ih_offset h < 2 ^ 13 ->
  0 <= IPv4Header_fo_val h < 2 ^ 16 /\ has_bit (IPv4Header_fo_val h) 16384 = ih_df h /\
  has_bit (IPv4Header_fo_val h) 8192 = ih_mf h /\ Z.land (IPv4Header_fo_val h) 8191 = ih_offset h.
Proof.
  intros Ho. unfold IPv4Header_fo_val, has_bit. set (o := ih_offset h) in *.
  assert (Z.land o 8191 = o) as E.
  { change 8191 with (Z.ones 13). rewrite Z.land_ones, Z.mod_small by lia. done. }
  pose proof (land_pow2_high o 13 14 Ho ltac:(lia)) as H1. change (2 ^ 14) with 16384 in H1.
  pose proof (land_pow2_high o 13 13 Ho ltac:(lia)) as H2. change (2 ^ 13) with 8192 in H2.
  rewrite E, !Z.land_lor_distr_l, H1, H2, E. split.
  - repeat apply lor_bound; destruct (ih_df h), (ih_mf h); lia.
  - by destruct (ih_df h), (ih_mf h).
Qed.

Lemma IPv4Header_parse_serialized h old b payload :
  IPv4Header_ok h -> Buffer_wf b -> Buffer_str b = ip_bytes h ++ payload ->
  ih_len h = 4 * ih_hlen h + zlen payload ->
  InternetChecksum_value (InternetChecksum_add (InternetChecksum_new 0) (ip_bytes h)) = 0 ->
  exists p', IPv4Header_parse old (NetParser_new b) = Ok (NoError, h, p') /\ parser_at p' payload.
Proof.
  intros [] Hb Hs Hlen Hck. pose proof (NetParser_new_at b Hb) as Hp. rewrite Hs in Hp.
  destruct (fo_val_bits h iho_offset0) as (Hfo & F1 & F2 & F3).
  destruct (ip_first_byte (ih_hlen h) iho_hlen0) as (_ & B1 & B2).
  pose proof (ip_bytes_len h ltac:(lia)) as Hhl. pose proof (zlen_nonneg payload).
  unfold IPv4Header_parse. cbn [np_buffer NetParser_new]. fold (NetParser_new b). unfold Buffer_size. rewrite Hs, zlen_app, Hhl, <- Hlen.
  unfold IPv4Header_LENGTH. rewrite (proj2 (Z.ltb_ge _ 20)) by lia.
  unfold ip_bytes, ip_pre, ip_post in Hp. rewrite <- !app_assoc in Hp.
  unfold NetParser_u16, NetParser_u32, NetParser_u8. do 10 parse_next.
  rewrite B1, B2, F1, F2, F3, !Z.eqb_refl. cbn [negb].
  rewrite !(proj2 (Z.ltb_ge _ _)) by lia. rewrite u64_small by lia.
  edestruct NetParser_remove_prefix_at as (p' & E & Hp'); [eassumption|].
  rewrite zlen_replicate in E. replace (ih_hlen h * 4 - 20) with (Z.of_nat (Z.to_nat (4 * ih_hlen h - 20))) by lia.
  rewrite E. cbn [mbind result_bind]. rewrite (NetParser_has_error_at _ _ Hp').
  rewrite ztake_app_le, ztake_ge, Hck, Z.eqb_refl by lia. cbn [negb].
  exists p'. split; [|done]. do 3 f_equal. clear - iho_ver0. destruct h. cbn in *. by subst.
Qed.

(** The checksum that [serialize] fills in. *)
Definition ip_sealing_cksum (h : IPv4Header) : Z :=
  InternetChecksum_value (InternetChecksum_add (InternetChecksum_new 0) (ip_bytes (IPv4Header_set_cksum h 0))).

Definition ip_sealed (h : IPv4Header) : IPv4Header := IPv4Header_set_cksum h (ip_sealing_cksum h).

Lemma set_cksum_twice h x y : IPv4Header_set_cksum (IPv4Header_set_cksum h x) y = IPv4Header_set_cksum h y.
Proof. reflexivity. Qed.

Lemma ip_sealed_ok h : IPv4Header_ok h -> IPv4Header_ok (ip_sealed h).
Proof. intros []. split; try assumption. apply InternetChecksum_value_range. Qed.

Lemma ip_sealed_verifies h : IPv4Header_ok h ->
  InternetChecksum_value (InternetChecksum_add (InternetChecksum_new 0) (ip_bytes (ip_sealed h))) = 0.
Proof.
  intros Hh. pose proof (iho_hlen _ Hh). unfold ip_bytes.
  change (ip_pre (ip_sealed h)) with (ip_pre h). change (ip_post (ip_sealed h)) with (ip_post h).
  apply checksum_field_verifies.
  - apply ip_pre_ok.
  - apply ip_post_ok.
  - rewrite ip_pre_len. by exists 5.
  - lia.
  - rewrite ip_pre_len, ip_post_len by lia. lia.
  - reflexivity.
Qed.

(** A datagram whose header describes its payload. *)
Record IPv4Datagram_ok (d : IPv4Datagram) : Prop := {
  ido_header : IPv4Header_ok (id_header d);
  ido_len : ih_len (id_header d) = 4 * ih_hlen (id_header d) + zlen (flatten (id_payload d))
}.

Lemma payload_length_ok d : IPv4Datagram_ok d ->
  IPv4Header_payload_length (id_header d) = zlen (flatten (id_payload d)) /\
  BufferList_size (id_payload d) = zlen (flatten (id_payload d)).
Proof.
  intros [[] Hlen]. unfold IPv4Header_payload_length. pose proof (zlen_nonneg (flatten (id_payload d))).
  rewrite BufferList_size_flatten by lia. split; [|done]. rewrite Hlen, u16_small; lia.
Qed.

Lemma IPv4Datagram_serialize_eq d : IPv4Datagram_ok d ->
  IPv4Datagram_serialize d = Ok (Buffer_of_string (ip_bytes (ip_sealed (id_header d))) :: id_payload d).
Proof.
  intros Hd. destruct (payload_length_ok d Hd) as [H1 H2]. destruct Hd as [Hh _].
  unfold IPv4Datagram_serialize. rewrite H1, H2, Z.eqb_refl. cbn [negb].
  rewrite !IPv4Header_serialize_eq by apply Hh. cbn [mbind result_bind].
  rewrite IPv4Header_serialize_eq by apply Hh. rewrite set_cksum_twice. cbn [mbind result_bind].
  unfold ip_sealed, ip_sealing_cksum, BufferList_append, BufferList_of_string, BufferList_default. cbn [app].
  reflexivity.
Qed.

Lemma IPv4Datagram_parse_sealed d old b :
  IPv4Datagram_ok d -> Buffer_wf b -> Buffer_str b = ip_bytes (ip_sealed (id_header d)) ++ flatten (id_payload d) ->
  exists buf, IPv4Datagram_parse old b = Ok (NoError, MkIPv4Datagram (ip_sealed (id_header d)) [buf]) /\
    Buffer_wf buf /\ Buffer_str buf = flatten (id_payload d).
Proof.
  intros Hd Hb Hs. destruct (payload_length_ok d Hd) as [H1 H2]. destruct Hd as [Hh Hlen].
  destruct (IPv4Header_parse_serialized (ip_sealed (id_header d)) (id_header old) b (flatten (id_payload d)))
    as (p' & E & Hp').
  - by apply ip_sealed_ok.
  - done.
  - exact Hs.
  - exact Hlen.
  - by apply ip_sealed_verifies.
  - unfold IPv4Datagram_parse. rewrite E. cbn [mbind result_bind id_payload].
    destruct Hp' as [P1 P2 P3]. exists (np_buffer p').
    assert (BufferList_size (BufferList_of_Buffer (np_buffer p')) = zlen (flatten (id_payload d))) as ->.
    { pose proof (iho_len _ Hh). pose proof (iho_hlen _ Hh).
      rewrite BufferList_size_flatten; unfold BufferList_of_Buffer; rewrite flatten_cons, P2; unfold flatten at 2;
        simpl concat; rewrite app_nil_r; [done|lia]. }
    change (IPv4Header_payload_length (ip_sealed (id_header d))) with (IPv4Header_payload_length (id_header d)).
    rewrite H1, Z.eqb_refl. cbn [negb]. unfold NetParser_get_error. rewrite P3. done.
Qed.

Lemma IPv4Datagram_serialize_len d l :
  IPv4Datagram_ok d -> IPv4Datagram_serialize d = Ok l -> zlen (flatten l) < 2 ^ 17.
Proof.
  intros Hd E. rewrite IPv4Datagram_serialize_eq in E by done. injection E as <-. destruct Hd as [Hh Hlen].
  pose proof (ip_bytes_len (ip_sealed (id_header d)) ltac:(apply Hh)) as Hb.
  change (ih_hlen (ip_sealed (id_header d))) with (ih_hlen (id_header d)) in Hb.
  pose proof (iho_hlen _ Hh). pose proof (iho_len _ Hh). rewrite flatten_cons, Buffer_of_string_str, zlen_app; lia.
Qed.

(** The same datagram, with its checksum filled in and its payload in one buffer. *)
Definition IPv4Datagram_same (d d' : IPv4Datagram) : Prop :=
  id_header d' = ip_sealed (id_header d) /\ flatten (id_payload d') = flatten (id_payload d) /\
  exists buf, id_payload d' = [buf] /\ Buffer_wf buf.

#[export] Instance IPv4Datagram_wire : WireFormat IPv4Datagram := {|
  wire_parse := IPv4Datagram_parse;
  wire_serialize := IPv4Datagram_serialize;
  wire_ok := IPv4Datagram_ok;
  wire_same := IPv4Datagram_same
|}.

#[export] Instance IPv4Datagram_wire_roundtrip : WireRoundtrip IPv4Datagram.
Proof.
  intros d Hd. cbn [wire_serialize IPv4Datagram_wire wire_parse wire_same wire_ok] in *.
  pose proof (iho_hlen _ (ido_header _ Hd)) as Hl.
  pose proof (ip_bytes_len (ip_sealed (id_header d)) ltac:(exact (proj1 Hl))) as Hlen.
  change (ih_hlen (ip_sealed (id_header d))) with (ih_hlen (id_header d)) in Hlen.
  eexists. split; [by apply IPv4Datagram_serialize_eq|]. intros old b Hb Hs.
  rewrite flatten_cons, Buffer_of_string_str in Hs by (rewrite Hlen; lia).
  destruct (IPv4Datagram_parse_sealed d old b Hd Hb Hs) as (buf & E & Hbuf & Hstr).
  eexists. split; [exact E|]. split; [reflexivity|]. cbn [id_payload].
  split; [rewrite flatten_cons, Hstr; apply app_nil_r|by exists buf].
Qed.

(** C24.  A datagram whose fields are in range and whose length field describes its
    payload serialises, and the bytes parse back to it whatever the object they
    are parsed into: the header with the checksum filled in, which verifies, and
    the same payload. *)
Theorem IPv4Datagram_roundtrip d old :
  IPv4Datagram_ok d ->
  exists l d', IPv4Datagram_serialize d = Ok l /\
    IPv4Datagram_parse old (Buffer_of_string (BufferList_concatenate l)) = Ok (NoError, d') /\
    id_header d' = ip_sealed (id_header d) /\ flatten (id_payload d') = flatten (id_payload d) /\
    InternetChecksum_value (InternetChecksum_add (InternetChecksum_new 0) (ip_bytes (id_header d'))) = 0.
Proof.
  intros Hd. destruct (IPv4Datagram_wire_roundtrip d Hd) as (l & E & Hl). cbn [wire_serialize wire_parse IPv4Datagram_wire] in *. pose proof Hd as [Hh Hlen].
  pose proof (IPv4Datagram_serialize_len d l Hd E) as H64.
  destruct (Hl old (Buffer_of_string (flatten l))) as (d' & E' & H1 & H2 & _);
    [apply Buffer_of_string_wf; lia|apply Buffer_of_string_str; lia|].
  exists l, d'. rewrite BufferList_concatenate_flatten. rewrite H1.
  split_and!; [exact E|exact E'|reflexivity|exact H2|by apply ip_sealed_verifies].
Qed.

(** A datagram to a host, with a payload of three bytes in two buffers. *)
Definition sample_datagram : IPv4Datagram :=
  MkIPv4Datagram (IPv4Header_set_route IPv4Header_default 167772161 3232235521 23)
    [Buffer_of_string [1; 2]; Buffer_of_string [3]].

Lemma IPv4Datagram_roundtrip_witness :
  exists l d', IPv4Datagram_serialize sample_datagram = Ok l /\
    IPv4Datagram_parse IPv4Datagram_default (Buffer_of_string (BufferList_concatenate l)) = Ok (NoError, d') /\
    id_header d' = ip_sealed (id_header sample_datagram) /\ flatten (id_payload d') = [1; 2; 3] /\
    InternetChecksum_value (InternetChecksum_add (InternetChecksum_new 0) (ip_bytes (id_header d'))) = 0.
Proof.
  apply (IPv4Datagram_roundtrip sample_datagram IPv4Datagram_default).
  split; [split; vm_compute; try split; congruence|reflexivity].
Defined.

(** ** Datagrams from the wire *)

(** The fields of a header that was parsed. *)
Record IPv4Header_parsed (h : IPv4Header) : Prop := {
  ihp_ver : 0 <= ih_ver h <= 15;
  ihp_hlen : 0 <= ih_hlen h <= 15;
  ihp_len : 0 <= ih_len h < 2 ^ 16;
  ihp_ttl : 0 <= ih_ttl h < 2 ^ 8;
  ihp_proto : 0 <= ih_proto h < 2 ^ 8;
  ihp_src : 0 <= ih_src h < 2 ^ 32;
  ihp_dst : 0 <= ih_dst h < 2 ^ 32
}.

(** Where [parse] leaves the parser: past the 20 bytes of the fixed part when it
    stops at one of the first four checks, past the options otherwise. *)
Lemma IPv4Header_parse_cases h b :
  Buffer_wf b -> Forall byte_ok (Buffer_str b) -> IPv4Header_LENGTH <= Buffer_size b ->
  exists r h' p', IPv4Header_parse h (NetParser_new b) = Ok (r, h', p') /\ IPv4Header_parsed h' /\
    (parser_at p' (zdrop 20 (Buffer_str b)) /\ (r <> NoError /\ r <> BadChecksum) \/
     parser_at p' (zdrop (4 * ih_hlen h') (Buffer_str b)) /\ (r = NoError \/ r = BadChecksum) /\
       ih_ver h' = 4 /\ 5 <= ih_hlen h' /\ 4 * ih_hlen h' <= Buffer_size b /\ ih_len h' = Buffer_size b).
Proof.
  intros Hb Hok Hlen. unfold Buffer_size, IPv4Header_LENGTH in *. set (bs := Buffer_str b) in *.
  unfold IPv4Header_parse. cbn [np_buffer NetParser_new]. fold (NetParser_new b).
  unfold IPv4Header_LENGTH, Buffer_size. fold bs. rewrite (proj2 (Z.ltb_ge _ 20)) by lia.
  pose proof (NetParser_new_at b Hb) as Hp. fold bs in Hp. rewrite <- (zdrop_le0 0 bs) in Hp by lia.
  unfold NetParser_u16, NetParser_u32, NetParser_u8. do 10 parse_field.
  match goal with |- context [MkIPv4Header ?a ?b ?c ?d ?e ?f ?g ?i ?j ?k ?l ?m ?n] =>
    set (h' := MkIPv4Header a b c d e f g i j k l m n) end.
  assert (IPv4Header_parsed h') as Hh.
  { unfold h'. split; cbn; try assumption; try lia.
    - rewrite Z.shiftr_div_pow2 by lia. change (2 ^ 4) with 16. wrap_lia.
    - pose proof (Z.land_ones v 4 ltac:(lia)) as Hm. change (Z.ones 4) with 15 in Hm. rewrite Hm. change (2 ^ 4) with 16. wrap_lia. }
  pose proof (ihp_hlen h' Hh) as Hl. change (Z.land v 15) with (ih_hlen h'). change (Z.shiftr v 4) with (ih_ver h').
  change v1 with (ih_len h'). clearbody h'.
  destruct (Z.ltb_spec (zlen bs) (4 * ih_hlen h')) as [|Hge]; [eexists _, h', _; by split_and!; [| |left]|].
  destruct (Z.eqb_spec (ih_ver h') 4) as [Hver|]; cbn [negb]; [|eexists _, h', _; by split_and!; [| |left]].
  destruct (Z.ltb_spec (ih_hlen h') 5) as [|Hl5]; [eexists _, h', _; by split_and!; [| |left]|].
  destruct (Z.eqb_spec (zlen bs) (ih_len h')) as [Heq|]; cbn [negb]; [|eexists _, h', _; by split_and!; [| |left]].
  rewrite u64_small by lia. replace (ih_hlen h' * 4 - 20) with (zlen (ztake (4 * ih_hlen h' - 20) (zdrop 20 bs))) by zl.
  match goal with Hp : parser_at ?p (zdrop 20 bs) |- _ =>
    rewrite <- (ztake_zdrop (4 * ih_hlen h' - 20) (zdrop 20 bs)) in Hp;
    destruct (NetParser_remove_prefix_at p _ _ Hp) as (p' & E & Hp')
  end.
  rewrite E. cbn [mbind result_bind]. rewrite (NetParser_has_error_at _ _ Hp'), zdrop_zdrop in * by lia.
  replace (20 + (4 * ih_hlen h' - 20)) with (4 * ih_hlen h') in Hp' by lia.
  destruct (negb _); eexists _, h', p'; split_and!; try done; right; split_and!; auto.
Qed.

Lemma IPv4Datagram_parse_short d b :
  Buffer_size b < IPv4Header_LENGTH ->
  exists r, IPv4Datagram_parse d b = Ok (r, MkIPv4Datagram (id_header d) (BufferList_of_Buffer b)).
Proof.
  intros Hlt. unfold IPv4Datagram_parse, IPv4Header_parse. cbn [np_buffer NetParser_new].
  rewrite (proj2 (Z.ltb_lt _ _) Hlt). cbn [mbind result_bind np_buffer id_payload]. destruct (negb _); by eexists.
Qed.

Lemma IPv4Datagram_parse_any d b :
  Buffer_wf b -> Forall byte_ok (Buffer_str b) -> exists r d', IPv4Datagram_parse d b = Ok (r, d').
Proof.
  intros Hb Hok. destruct (Z.lt_ge_cases (Buffer_size b) IPv4Header_LENGTH) as [Hlt|Hge].
  - destruct (IPv4Datagram_parse_short d b Hlt) as (r & E). by exists r; eexists.
  - destruct (IPv4Header_parse_cases (id_header d) b Hb Hok Hge) as (r & h' & p' & E & _).
    unfold IPv4Datagram_parse. rewrite E. cbn [mbind result_bind]. destruct (negb _); by eexists _, _.
Qed.

(** Parsing never throws, whatever the bytes: the payload is what is left of
    the buffer, and unless the buffer is too short to hold a header, the fields
    of the result are in range. *)
Theorem IPv4Datagram_parse_total d b :
  Buffer_wf b -> Forall byte_ok (Buffer_str b) ->
  exists r d' buf, IPv4Datagram_parse d b = Ok (r, d') /\ id_payload d' = [buf] /\ Buffer_wf buf /\
    (exists k, 0 <= k <= 60 /\ Buffer_str buf = zdrop k (Buffer_str b)) /\
    (Buffer_size b < IPv4Header_LENGTH /\ id_header d' = id_header d \/ IPv4Header_parsed (id_header d')).
Proof.
  intros Hb Hok. destruct (Z.lt_ge_cases (Buffer_size b) IPv4Header_LENGTH) as [Hlt|Hge].
  - destruct (IPv4Datagram_parse_short d b Hlt) as (r & E). exists r. eexists _, b. split; [exact E|].
    split_and!; [done|done| |by left]. exists 0. split; [lia|]. by rewrite zdrop_le0.
  - destruct (IPv4Header_parse_cases (id_header d) b Hb Hok Hge) as (r & h' & p' & E & Hh & Hcase).
    assert (Buffer_wf (np_buffer p') /\
      exists k, 0 <= k <= 60 /\ Buffer_str (np_buffer p') = zdrop k (Buffer_str b)) as [Hwf Hk].
    { pose proof (ihp_hlen _ Hh).
      destruct Hcase as [[[] _]|[[] _]]; (split; [done|]); [exists 20|exists (4 * ih_hlen h')]; (split; [lia|done]). }
    unfold IPv4Datagram_parse. rewrite E. cbn [mbind result_bind id_payload].
    destruct (negb _); eexists _, _, (np_buffer p'); (split; [reflexivity|]);
      split_and!; try assumption; [reflexivity|by right|reflexivity|by right].
Qed.

Lemma IPv4Datagram_parse_total_witness :
  exists r d' buf, IPv4Datagram_parse IPv4Datagram_default (Buffer_of_string [69; 0]) = Ok (r, d') /\
    id_payload d' = [buf] /\ Buffer_wf buf /\
    (exists k, 0 <= k <= 60 /\ Buffer_str buf = zdrop k [69; 0]) /\
    (Buffer_size (Buffer_of_string [69; 0]) < IPv4Header_LENGTH /\ id_header d' = id_header IPv4Datagram_default \/
     IPv4Header_parsed (id_header d')).
Proof.
  apply (IPv4Datagram_parse_total IPv4Datagram_default (Buffer_of_string [69; 0])).
  - apply Buffer_of_string_wf. reflexivity.
  - repeat apply Forall_cons_2; [split; lia..|apply Forall_nil_2].
Defined.

(** The header checksum is computed and then ignored: when [IPv4Header::parse]
    reports [BadChecksum], [IPv4Datagram::parse] reports [NoError] and hands out
    the corrupted header with the payload behind it. *)
Theorem IPv4Datagram_parse_accepts_bad_checksum d b h p :
  Buffer_wf b -> Forall byte_ok (Buffer_str b) ->
  IPv4Header_parse (id_header d) (NetParser_new b) = Ok (BadChecksum, h, p) ->
  IPv4Datagram_parse d b = Ok (NoError, MkIPv4Datagram h [np_buffer p]) /\
  Buffer_str (np_buffer p) = zdrop (4 * ih_hlen h) (Buffer_str b).
Proof.
  intros Hb Hok Hbad. destruct (Z.lt_ge_cases (Buffer_size b) IPv4Header_LENGTH) as [Hlt|Hge].
  { unfold IPv4Header_parse in Hbad. cbn [np_buffer NetParser_new] in Hbad.
    rewrite (proj2 (Z.ltb_lt _ _) Hlt) in Hbad. discriminate Hbad. }
  destruct (IPv4Header_parse_cases (id_header d) b Hb Hok Hge) as (r & h' & p' & E & Hh & Hcase).
  rewrite Hbad in E. injection E as <- <- <-.
  destruct Hcase as [[_ [_ []]]|([P1 P2 P3] & _ & _ & Hl & Hsz & Hlen)]; [done|]. split; [|exact P2].
  unfold IPv4Datagram_parse. rewrite Hbad. cbn [mbind result_bind id_payload].
  pose proof (ihp_hlen _ Hh). pose proof (ihp_len _ Hh). unfold Buffer_size in Hlen, Hsz.
  assert (zlen (Buffer_str (np_buffer p)) = ih_len h - 4 * ih_hlen h) as Hz.
  { rewrite P2, zlen_zdrop, Hlen. lia. }
  assert (BufferList_size (BufferList_of_Buffer (np_buffer p)) = IPv4Header_payload_length h) as ->.
  { rewrite BufferList_size_flatten; unfold BufferList_of_Buffer; rewrite flatten_cons, app_nil_r; [|lia].
    unfold IPv4Header_payload_length. rewrite u16_small; lia. }
  rewrite Z.eqb_refl. cbn [negb]. unfold NetParser_get_error. by rewrite P3.
Qed.

(** A packet of 21 bytes with a header checksum of zero. *)
Definition corrupt_packet : Buffer :=
  Buffer_of_string ([69; 0; 0; 21; 0; 0; 64; 0; 128; 6; 0; 0; 10; 0; 0; 1; 192; 168; 0; 1] ++ [9]).

Lemma IPv4Datagram_parse_accepts_bad_checksum_witness :
  exists h p, IPv4Header_parse IPv4Header_default (NetParser_new corrupt_packet) = Ok (BadChecksum, h, p) /\
    IPv4Datagram_parse IPv4Datagram_default corrupt_packet = Ok (NoError, MkIPv4Datagram h [np_buffer p]) /\
    Buffer_str (np_buffer p) = [9].
Proof.
  destruct (IPv4Header_parse IPv4Header_default (NetParser_new corrupt_packet)) as [[[r h] p]|e] eqn:E.
  - pose proof E as E'. vm_compute in E'. injection E' as Hr Hh Hp. rewrite <- Hr in E.
    exists h, p. split; [rewrite <- Hr; reflexivity|].
    destruct (IPv4Datagram_parse_accepts_bad_checksum IPv4Datagram_default corrupt_packet h p) as [H1 H2].
    + apply Buffer_of_string_wf. reflexivity.
    + vm_compute. repeat apply Forall_cons_2; [split; congruence..|apply Forall_nil_2].
    + exact E.
    + split; [exact H1|]. rewrite H2, <- Hh. reflexivity.
  - vm_compute in E. discriminate E.
Defined.

(** ** Packets of another version *)

(** The 20 bytes of the fixed part of a header of any version. *)
Definition fixed_bytes (h : IPv4Header) : bytes :=
  be_bytes 1 (16 * ih_ver h + ih_hlen h) ++ be_bytes 1 (ih_tos h) ++ be_bytes 2 (ih_len h) ++ be_bytes 2 (ih_id h) ++
  be_bytes 2 (IPv4Header_fo_val h) ++ be_bytes 1 (ih_ttl h) ++ be_bytes 1 (ih_proto h) ++ be_bytes 2 (ih_cksum h) ++
  be_bytes 4 (ih_src h) ++ be_bytes 4 (ih_dst h).

(** Every field within its range, the version another one, and a length field that
    fits the number of bytes that follow. *)
Record other_version (h : IPv4Header) (payload : bytes) : Prop := {
  ov_ver : 0 <= ih_ver h <= 15;
  ov_other : ih_ver h <> 4;
  ov_hlen : 0 <= ih_hlen h <= 15;
  ov_tos : 0 <= ih_tos h < 2 ^ 8;
  ov_len : 0 <= ih_len h < 2 ^ 16;
  ov_id : 0 <= ih_id h < 2 ^ 16;
  ov_offset : 0 <= ih_offset h < 2 ^ 13;
  ov_ttl : 0 <= ih_ttl h < 2 ^ 8;
  ov_proto : 0 <= ih_proto h < 2 ^ 8;
  ov_cksum : 0 <= ih_cksum h < 2 ^ 16;
  ov_src : 0 <= ih_src h < 2 ^ 32;
  ov_dst : 0 <= ih_dst h < 2 ^ 32;
  ov_payload : zlen payload = IPv4Header_payload_length h
}.

Lemma version_byte ver hlen : 0 <= ver <= 15 -> 0 <= hlen <= 15 ->
  Z.shiftr (16 * ver + hlen) 4 = ver /\ Z.land (16 * ver + hlen) 15 = hlen.
Proof.
  intros Hv Hh. change 15 with (Z.ones 4). rewrite Z.shiftr_div_pow2, Z.land_ones by lia.
  change (2 ^ 4) with 16. split; wrap_lia.
Qed.

(** [IPv4Datagram::parse] accepts a packet of any version: the parser, left where
    [IPv4Header::parse] gave up, has no error of its own. *)
Lemma other_version_parse d b h payload :
  other_version h payload -> Buffer_wf b -> Buffer_str b = fixed_bytes h ++ payload ->
  exists buf, IPv4Datagram_parse d b = Ok (NoError, MkIPv4Datagram h [buf]) /\ Buffer_str buf = payload.
Proof.
  intros [] Hb Hs. pose proof (NetParser_new_at b Hb) as Hp. rewrite Hs in Hp.
  destruct (fo_val_bits h ov_offset0) as (Hfo & F1 & F2 & F3).
  destruct (version_byte _ _ ov_ver0 ov_hlen0) as [B1 B2].
  unfold IPv4Datagram_parse, IPv4Header_parse. cbn [np_buffer NetParser_new]. fold (NetParser_new b). unfold Buffer_size, IPv4Header_LENGTH.
  assert (20 <= zlen (Buffer_str b)) as Hlen.
  { rewrite Hs. unfold fixed_bytes. rewrite !zlen_app, !be_bytes_len by lia. pose proof (zlen_nonneg payload). lia. }
  rewrite (proj2 (Z.ltb_ge _ 20)) by lia. clear Hs. unfold fixed_bytes in Hp. rewrite <- !app_assoc in Hp.
  unfold NetParser_u16, NetParser_u32, NetParser_u8. do 10 parse_next. rewrite B1, B2, F1, F2, F3.
  assert (forall q : NetParser, (if zlen (Buffer_str b) <? 4 * ih_hlen h then Ok (PacketTooShort, h, q)
    else Ok (WrongIPVersion, h, q)) = Ok (if zlen (Buffer_str b) <? 4 * ih_hlen h then PacketTooShort else WrongIPVersion, h, q)) as Hif
    by (intros q; by destruct (_ <? _)).
  rewrite (proj2 (Z.eqb_neq _ _) ov_other0). cbn [negb]. replace (MkIPv4Header _ _ _ _ _ _ _ _ _ _ _ _ _) with h by by destruct h.
  rewrite Hif. cbn [mbind result_bind id_payload].
  match goal with Hp : parser_at ?p payload |- _ => destruct Hp as [P1 P2 P3]; exists (np_buffer p) end. split; [|done].
  assert (BufferList_size (BufferList_of_Buffer (np_buffer p8)) = zlen payload) as ->.
  { unfold BufferList_of_Buffer. rewrite BufferList_size_flatten; rewrite flatten_cons, P2; unfold flatten at 1; cbn [concat map fmap list_fmap];
      rewrite app_nil_r; [done|]. rewrite ov_payload0. unfold IPv4Header_payload_length. wrap_lia. }
  rewrite ov_payload0, Z.eqb_refl. cbn [negb]. unfold NetParser_get_error. by rewrite P3.
Qed.

(** Such a datagram cannot be serialised. *)
Lemma other_version_serialize d : ih_ver (id_header d) <> 4 -> IPv4Datagram_serialize d = Throw runtime_error.
Proof.
  intros Hv. unfold IPv4Datagram_serialize. destruct (negb _); [done|].
  unfold IPv4Header_serialize. cbn [ih_ver IPv4Header_set_cksum]. by rewrite (proj2 (Z.eqb_neq _ _) Hv).
Qed.
