(* ===== verification/EthernetFrames.v ===== *)
(** Ethernet and ARP on the wire: [EthernetHeader], [EthernetFrame] and
    [ARPMessage] (src/libsponge/tcp_helpers/ethernet_header.hh and .cc,
    ethernet_frame.hh and .cc, arp_message.hh and .cc).

    Theorems: a frame that carries any of the wire formats of the stack parses
    back, and so does what it carries; an ARP message is accepted exactly when it
    is a request or reply for IPv4 over Ethernet, and then serialises to the
    bytes it came from; a frame that is too short to hold a header is accepted with the header the object had. *)

From S2P Require Import Prelude WrappingIntegers Buffers Parsers TCPSegments IPv4Datagrams.

(** ** EthernetHeader *)

(** Six bytes. *)
Definition EthernetAddress : Type := bytes.

Definition ETHERNET_BROADCAST : EthernetAddress := [255; 255; 255; 255; 255; 255].

Definition EthernetHeader_LENGTH : Z := 14.
Definition TYPE_IPv4 : Z := 2048.
Definition TYPE_ARP : Z := 2054.

Record EthernetHeader : Type := MkEthernetHeader {
  eh_dst : EthernetAddress;
  eh_src : EthernetAddress;
  eh_type : Z
}.

(** Value initialisation, [EthernetHeader{}]. *)
Definition EthernetHeader_default : EthernetHeader :=
  MkEthernetHeader [0; 0; 0; 0; 0; 0] [0; 0; 0; 0; 0; 0] 0.

(** The loop [for (auto &byte : addr) byte = p.u8();] over an array of [n] bytes. *)
Fixpoint parse_bytes (n : nat) (p : NetParser) : result (bytes * NetParser) :=
  match n with
  | O => Ok ([], p)
  | S n =>
      '(byte, p) ← NetParser_u8 p;
      '(rest, p) ← parse_bytes n p;
      Ok (byte :: rest, p)
  end.

(** The loop [for (auto &byte : addr) NetUnparser::u8(ret, byte);]. *)
Fixpoint unparse_bytes (ret : bytes) (addr : bytes) : bytes :=
  match addr with
  | [] => ret
  | byte :: addr => unparse_bytes (NetUnparser_u8 ret byte) addr
  end.

Definition EthernetHeader_parse (h : EthernetHeader) (p : NetParser) :
    result (ParseResult * EthernetHeader * NetParser) :=
  if Buffer_size (np_buffer p) <? EthernetHeader_LENGTH then Ok (PacketTooShort, h, p)
  else
    '(dst, p) ← parse_bytes 6 p;
    '(src, p) ← parse_bytes 6 p;
    '(type, p) ← NetParser_u16 p;
    Ok (NetParser_get_error p, MkEthernetHeader dst src type, p).

Definition EthernetHeader_serialize (h : EthernetHeader) : bytes :=
  let ret := [] in
  let ret := unparse_bytes ret (eh_dst h) in
  let ret := unparse_bytes ret (eh_src h) in
  NetUnparser_u16 ret (eh_type h).

(** ** EthernetFrame *)

Record EthernetFrame : Type := MkEthernetFrame {
  ef_header : EthernetHeader;
  ef_payload : BufferList
}.

Definition EthernetFrame_default : EthernetFrame := MkEthernetFrame EthernetHeader_default BufferList_default.

(** What [_header.parse] returns is dropped. *)
Definition EthernetFrame_parse (f : EthernetFrame) (buffer : Buffer) : result (ParseResult * EthernetFrame) :=
  let p := NetParser_new buffer in
  '(_, h, p) ← EthernetHeader_parse (ef_header f) p;
  Ok (NetParser_get_error p, MkEthernetFrame h (BufferList_of_Buffer (np_buffer p))).

Definition EthernetFrame_serialize (f : EthernetFrame) : BufferList :=
  let ret := BufferList_default in
  let ret := BufferList_append ret (BufferList_of_string (EthernetHeader_serialize (ef_header f))) in
  BufferList_append ret (ef_payload f).

(** ** ARPMessage *)

Definition ARPMessage_LENGTH : Z := 28.
Definition TYPE_ETHERNET : Z := 1.
Definition OPCODE_REQUEST : Z := 1.
Definition OPCODE_REPLY : Z := 2.

Record ARPMessage : Type := MkARPMessage {
  am_hardware_type : Z;
  am_protocol_type : Z;
  am_hardware_address_size : Z;
  am_protocol_address_size : Z;
  am_opcode : Z;
  am_sender_ethernet_address : EthernetAddress;
  am_sender_ip_address : Z;
  am_target_ethernet_address : EthernetAddress;
  am_target_ip_address : Z
}.

(** The member initialisers, with the fields that are assigned afterwards as
    arguments. *)
Definition ARPMessage_with (opcode : Z) (sender : EthernetAddress) (sender_ip : Z)
    (target : EthernetAddress) (target_ip : Z) : ARPMessage :=
  MkARPMessage TYPE_ETHERNET TYPE_IPv4 6 4 opcode sender sender_ip target target_ip.

Definition ARPMessage_default : ARPMessage :=
  ARPMessage_with 0 [0; 0; 0; 0; 0; 0] 0 [0; 0; 0; 0; 0; 0] 0.

Definition ARPMessage_supported (m : ARPMessage) : bool :=
  (am_hardware_type m =? TYPE_ETHERNET) && (am_protocol_type m =? TYPE_IPv4) &&
  (am_hardware_address_size m =? 6) && (am_protocol_address_size m =? 4) &&
  ((am_opcode m =? OPCODE_REQUEST) || (am_opcode m =? OPCODE_REPLY)).

Definition ARPMessage_parse (m : ARPMessage) (buffer : Buffer) : result (ParseResult * ARPMessage) :=
  let p := NetParser_new buffer in
  if Buffer_size (np_buffer p) <? ARPMessage_LENGTH then Ok (PacketTooShort, m)
  else
    '(hardware_type, p) ← NetParser_u16 p;
    '(protocol_type, p) ← NetParser_u16 p;
    '(hardware_address_size, p) ← NetParser_u8 p;
    '(protocol_address_size, p) ← NetParser_u8 p;
    '(opcode, p) ← NetParser_u16 p;
    let m := MkARPMessage hardware_type protocol_type hardware_address_size protocol_address_size opcode
               (am_sender_ethernet_address m) (am_sender_ip_address m)
               (am_target_ethernet_address m) (am_target_ip_address m) in
    if negb (ARPMessage_supported m) then Ok (Unsupported, m)
    else
      '(sender, p) ← parse_bytes 6 p;
      '(sender_ip, p) ← NetParser_u32 p;
      '(target, p) ← parse_bytes 6 p;
      '(target_ip, p) ← NetParser_u32 p;
      Ok (NetParser_get_error p,
          MkARPMessage hardware_type protocol_type hardware_address_size protocol_address_size opcode
            sender sender_ip target target_ip).

Definition ARPMessage_serialize (m : ARPMessage) : result bytes :=
  if negb (ARPMessage_supported m) then Throw runtime_error
  else
    let ret := [] in
    let ret := NetUnparser_u16 ret (am_hardware_type m) in
    let ret := NetUnparser_u16 ret (am_protocol_type m) in
    let ret := NetUnparser_u8 ret (am_hardware_address_size m) in
    let ret := NetUnparser_u8 ret (am_protocol_address_size m) in
    let ret := NetUnparser_u16 ret (am_opcode m) in
    let ret := unparse_bytes ret (am_sender_ethernet_address m) in
    let ret := NetUnparser_u32 ret (am_sender_ip_address m) in
    let ret := unparse_bytes ret (am_target_ethernet_address m) in
    Ok (NetUnparser_u32 ret (am_target_ip_address m)).

(** ** Addresses *)

Definition EthernetAddress_ok (a : EthernetAddress) : Prop := zlen a = 6 /\ Forall byte_ok a.

Lemma unparse_bytes_eq ret addr : Forall byte_ok addr -> unparse_bytes ret addr = ret ++ addr.
Proof.
  intros Ha. revert ret. induction Ha as [|x addr Hx _ IH]; intros ret; simpl; [by rewrite app_nil_r|].
  unfold byte_ok in Hx. rewrite IH. unfold NetUnparser_u8. rewrite NetUnparser_be, be_bytes_1, Z.mod_small by done.
  by rewrite <- app_assoc.
Qed.

Lemma parse_bytes_at addr p rest :
  parser_at p (addr ++ rest) -> Forall byte_ok addr ->
  exists p', parse_bytes (length addr) p = Ok (addr, p') /\ parser_at p' rest.
Proof.
  intros Hp Ha. revert p Hp. induction Ha as [|x addr Hx _ IH]; intros p Hp; simpl; [by exists p|].
  destruct (NetParser_parse_int_at p [x] (addr ++ rest)) as (p1 & E & Hp1); [done|by apply Forall_cons_2|].
  unfold NetParser_u8. change 1 with (zlen [x]). rewrite E. cbn [mbind result_bind be_value].
  destruct (IH p1 Hp1) as (p2 & -> & Hp2). cbn [mbind result_bind]. exists p2. split; [|done]. done.
Qed.

Lemma parse_address_at addr p rest :
  parser_at p (addr ++ rest) -> EthernetAddress_ok addr ->
  exists p', parse_bytes 6 p = Ok (addr, p') /\ parser_at p' rest.
Proof.
  intros Hp [Hl Ha]. replace 6%nat with (length addr) by (unfold zlen in Hl; lia). by apply parse_bytes_at.
Qed.

(** Read an address of a header whose bytes are known. *)
Ltac parse_addr :=
  match goal with
  | Hp : parser_at ?p (?addr ++ ?rest) |- context [parse_bytes 6 ?p] =>
      let p' := fresh "p" in
      let E := fresh "E" in
      let Hp' := fresh "Hp" in
      destruct (parse_address_at addr p rest) as (p' & E & Hp'); [exact Hp|assumption|];
      rewrite E; clear E Hp; cbn [mbind result_bind]
  end.

(** ** Round trip of frames *)

Record EthernetHeader_ok (h : EthernetHeader) : Prop := {
  eho_dst : EthernetAddress_ok (eh_dst h);
  eho_src : EthernetAddress_ok (eh_src h);
  eho_type : 0 <= eh_type h < 2 ^ 16
}.

Definition ethernet_bytes (h : EthernetHeader) : bytes := eh_dst h ++ eh_src h ++ be_bytes 2 (eh_type h).

Lemma EthernetHeader_serialize_eq h : EthernetHeader_ok h -> EthernetHeader_serialize h = ethernet_bytes h.
Proof.
  intros [[_ H1] [_ H2] _]. unfold EthernetHeader_serialize, NetUnparser_u16.
  rewrite NetUnparser_be, !unparse_bytes_eq by done. unfold ethernet_bytes. by rewrite <- app_assoc.
Qed.

Lemma ethernet_bytes_len h : EthernetHeader_ok h -> zlen (ethernet_bytes h) = 14.
Proof. intros [[H1 _] [H2 _] _]. unfold ethernet_bytes. rewrite !zlen_app, be_bytes_len by lia. lia. Qed.

Lemma EthernetHeader_parse_serialized h old b rest :
  EthernetHeader_ok h -> Buffer_wf b -> Buffer_str b = ethernet_bytes h ++ rest ->
  exists p', EthernetHeader_parse old (NetParser_new b) = Ok (NoError, h, p') /\ parser_at p' rest.
Proof.
  intros Hh Hb Hs. pose proof (NetParser_new_at b Hb) as Hp. rewrite Hs in Hp. unfold EthernetHeader_parse.
  cbn [np_buffer NetParser_new]. fold (NetParser_new b). unfold Buffer_size, EthernetHeader_LENGTH.
  pose proof (zlen_nonneg rest). rewrite Hs, zlen_app, ethernet_bytes_len, (proj2 (Z.ltb_ge _ 14)) by (done || lia).
  destruct Hh. unfold ethernet_bytes in Hp. rewrite <- !app_assoc in Hp. unfold NetParser_u16.
  do 2 parse_addr. parse_next. exists p1. split; [|done]. unfold NetParser_get_error.
  rewrite (pa_error _ _ Hp0). by destruct h.
Qed.

Record EthernetFrame_ok (f : EthernetFrame) : Prop := {
  efo_header : EthernetHeader_ok (ef_header f);
  efo_size : zlen (flatten (ef_payload f)) < 2 ^ 63
}.

(** The same frame, with its payload in one buffer. *)
Definition EthernetFrame_same (f f' : EthernetFrame) : Prop :=
  ef_header f' = ef_header f /\
  exists buf, ef_payload f' = [buf] /\ Buffer_wf buf /\ Buffer_str buf = flatten (ef_payload f).

#[export] Instance EthernetFrame_wire : WireFormat EthernetFrame := {|
  wire_parse := EthernetFrame_parse;
  wire_serialize f := Ok (EthernetFrame_serialize f);
  wire_ok := EthernetFrame_ok;
  wire_same := EthernetFrame_same
|}.

Lemma EthernetFrame_serialize_flatten f : EthernetHeader_ok (ef_header f) ->
  flatten (EthernetFrame_serialize f) = ethernet_bytes (ef_header f) ++ flatten (ef_payload f).
Proof.
  intros Hh. unfold EthernetFrame_serialize, BufferList_append, BufferList_of_string, BufferList_default. cbn [app].
  rewrite EthernetHeader_serialize_eq by done.
  rewrite flatten_cons, Buffer_of_string_str by (rewrite ethernet_bytes_len by done; lia). done.
Qed.

#[export] Instance EthernetFrame_wire_roundtrip : WireRoundtrip EthernetFrame.
Proof.
  intros f [Hh Hsz]. cbn [wire_serialize EthernetFrame_wire wire_parse wire_same wire_ok] in *.
  eexists. split; [reflexivity|]. intros old b Hb Hs. rewrite EthernetFrame_serialize_flatten in Hs by done.
  destruct (EthernetHeader_parse_serialized _ (ef_header old) b _ Hh Hb Hs) as (p' & E & [P1 P2 P3]).
  unfold EthernetFrame_parse. rewrite E. cbn [mbind result_bind]. unfold NetParser_get_error. rewrite P3.
  eexists. split; [reflexivity|]. split; [reflexivity|]. by exists (np_buffer p').
Qed.

(** C25.  Ethernet carries every wire format: an object [x] that can be put on the
    wire, serialised into the payload of a frame, comes back when the bytes of
    the frame are parsed and the payload, turned into a single buffer, is parsed
    in turn. *)
Theorem EthernetFrame_carries T `{WireRoundtrip T} (x old : T) h f0 l :
  EthernetHeader_ok h -> wire_ok x -> wire_serialize x = Ok l -> zlen (flatten l) < 2 ^ 63 ->
  exists f buf y,
    EthernetFrame_parse f0 (Buffer_of_string (BufferList_concatenate (EthernetFrame_serialize (MkEthernetFrame h l)))) =
      Ok (NoError, f) /\
    ef_header f = h /\ BufferList_to_Buffer (ef_payload f) = Ok buf /\
    wire_parse old buf = Ok (NoError, y) /\ wire_same x y.
Proof.
  intros Hh Hx Hl Hsz. destruct (EthernetFrame_wire_roundtrip (MkEthernetFrame h l)) as (k & E & Hk); [by split|].
  injection E as <-. rewrite BufferList_concatenate_flatten. set (s := flatten (EthernetFrame_serialize _)) in *.
  assert (zlen s < 2 ^ 64) as Hs.
  { unfold s. rewrite EthernetFrame_serialize_flatten by done. cbn [ef_header ef_payload].
    rewrite zlen_app, ethernet_bytes_len by done. lia. }
  destruct (Hk f0 (Buffer_of_string s)) as (f & Ef & H1 & buf & H2 & H3 & H4);
    [by apply Buffer_of_string_wf|by apply Buffer_of_string_str|].
  destruct (wire_roundtrip x Hx) as (l' & El & Hp). assert (l' = l) as -> by congruence.
  destruct (Hp old buf H3 H4) as (y & Ey & Hy).
  exists f, buf, y. split; [exact Ef|]. split; [exact H1|]. by rewrite H2.
Qed.

Lemma EthernetFrame_carries_witness :
  exists l f buf y, IPv4Datagram_serialize sample_datagram = Ok l /\
    EthernetFrame_parse EthernetFrame_default (Buffer_of_string (BufferList_concatenate
      (EthernetFrame_serialize (MkEthernetFrame (MkEthernetHeader ETHERNET_BROADCAST [2; 0; 0; 0; 0; 1] TYPE_IPv4) l)))) =
      Ok (NoError, f) /\
    BufferList_to_Buffer (ef_payload f) = Ok buf /\
    IPv4Datagram_parse IPv4Datagram_default buf = Ok (NoError, y) /\ flatten (id_payload y) = [1; 2; 3].
Proof.
  destruct (IPv4Datagram_serialize sample_datagram) as [l|] eqn:E; [|vm_compute in E; discriminate E].
  destruct (EthernetFrame_carries IPv4Datagram sample_datagram IPv4Datagram_default
    (MkEthernetHeader ETHERNET_BROADCAST [2; 0; 0; 0; 0; 1] TYPE_IPv4) EthernetFrame_default l)
    as (f & buf & y & H1 & _ & H2 & H3 & _ & H4 & _).
  - split; [split; [reflexivity|bytes_ok]..|vm_compute; split; congruence].
  - split; [split; vm_compute; try split; congruence|reflexivity].
  - exact E.
  - vm_compute in E. injection E as <-. reflexivity.
  - exists l, f, buf, y. split; [reflexivity|]. split; [exact H1|]. split; [exact H2|]. split; [exact H3|].
    exact H4.
Defined.

(** A frame too short to hold a header is not refused: [parse] returns
    [NoError], keeps the header the object had, and takes all of the bytes for
    the payload. *)
Lemma EthernetFrame_parse_accepts_short f b :
  Buffer_size b < EthernetHeader_LENGTH ->
  EthernetFrame_parse f b = Ok (NoError, MkEthernetFrame (ef_header f) [b]).
Proof.
  intros Hlt. unfold EthernetFrame_parse, EthernetHeader_parse. cbn [np_buffer NetParser_new].
  by rewrite (proj2 (Z.ltb_lt _ _) Hlt).
Qed.

(** ** Round trip of ARP messages *)

Record ARPMessage_ok (m : ARPMessage) : Prop := {
  amo_supported : ARPMessage_supported m = true;
  amo_sender : EthernetAddress_ok (am_sender_ethernet_address m);
  amo_sender_ip : 0 <= am_sender_ip_address m < 2 ^ 32;
  amo_target : EthernetAddress_ok (am_target_ethernet_address m);
  amo_target_ip : 0 <= am_target_ip_address m < 2 ^ 32
}.

Lemma supported_fields m : ARPMessage_supported m = true ->
  am_hardware_type m = 1 /\ am_protocol_type m = 2048 /\ am_hardware_address_size m = 6 /\
  am_protocol_address_size m = 4 /\ 1 <= am_opcode m <= 2.
Proof.
  unfold ARPMessage_supported, TYPE_ETHERNET, TYPE_IPv4, OPCODE_REQUEST, OPCODE_REPLY. intros H. b2p.
  split_and!; try done; lia.
Qed.

Definition arp_bytes (m : ARPMessage) : bytes :=
  be_bytes 2 (am_hardware_type m) ++ be_bytes 2 (am_protocol_type m) ++ be_bytes 1 (am_hardware_address_size m) ++
  be_bytes 1 (am_protocol_address_size m) ++ be_bytes 2 (am_opcode m) ++
  am_sender_ethernet_address m ++ be_bytes 4 (am_sender_ip_address m) ++
  am_target_ethernet_address m ++ be_bytes 4 (am_target_ip_address m).

Lemma ARPMessage_serialize_eq m :
  ARPMessage_supported m = true -> Forall byte_ok (am_sender_ethernet_address m) ->
  Forall byte_ok (am_target_ethernet_address m) -> ARPMessage_serialize m = Ok (arp_bytes m).
Proof.
  intros Hs H1 H2. unfold ARPMessage_serialize. rewrite Hs. cbn [negb].
  unfold NetUnparser_u16, NetUnparser_u32, NetUnparser_u8.
  rewrite !NetUnparser_be, !unparse_bytes_eq by done.
  unfold arp_bytes. by rewrite <- !app_assoc.
Qed.

Lemma arp_bytes_len m : ARPMessage_ok m -> zlen (arp_bytes m) = 28.
Proof. intros [_ [H1 _] _ [H2 _] _]. unfold arp_bytes. rewrite !zlen_app, !be_bytes_len by lia. lia. Qed.

#[export] Instance ARPMessage_wire : WireFormat ARPMessage := {|
  wire_parse := ARPMessage_parse;
  wire_serialize m := s ← ARPMessage_serialize m; Ok (BufferList_of_string s);
  wire_ok := ARPMessage_ok;
  wire_same := eq
|}.

#[export] Instance ARPMessage_wire_roundtrip : WireRoundtrip ARPMessage.
Proof.
  intros m Hm. cbn [wire_serialize ARPMessage_wire wire_parse wire_same wire_ok] in *.
  pose proof (arp_bytes_len m Hm) as Hlen. destruct Hm as [Hsup Hs Hsip Ht Htip].
  rewrite ARPMessage_serialize_eq by (done || apply Hs || apply Ht). cbn [mbind result_bind].
  eexists. split; [reflexivity|]. intros old b Hb Hstr.
  unfold BufferList_of_string in Hstr. cbn [app] in Hstr.
  rewrite flatten_cons, Buffer_of_string_str, app_nil_r in Hstr by lia.
  pose proof (NetParser_new_at b Hb) as Hp. rewrite Hstr, <- (app_nil_r (arp_bytes m)) in Hp.
  destruct (supported_fields m Hsup) as (F1 & F2 & F3 & F4 & F5).
  unfold ARPMessage_parse. cbn [np_buffer NetParser_new]. fold (NetParser_new b).
  unfold Buffer_size, ARPMessage_LENGTH. rewrite Hstr, Hlen. change (28 <? 28) with false. cbn [negb].
  unfold arp_bytes in Hp. rewrite <- !app_assoc in Hp. unfold NetParser_u16, NetParser_u32, NetParser_u8.
  do 5 parse_next.
  match goal with |- context [ARPMessage_supported ?x] =>
    assert (ARPMessage_supported x = true) as -> by (rewrite <- Hsup; reflexivity) end. cbn [negb].
  parse_addr. parse_next. parse_addr. parse_next. eexists. split; [|reflexivity].
  unfold NetParser_get_error. match goal with H : parser_at _ [] |- _ => rewrite (pa_error _ _ H) end. by destruct m.
Qed.

(** ** ARP messages from the wire *)

Lemma be_bytes_value len bs :
  len = 1 \/ len = 2 \/ len = 4 -> Forall byte_ok bs -> zlen bs = len -> be_bytes len (be_value 0 bs) = bs.
Proof.
  intros Hl Hok Hlen.
  assert (forall l : bytes, zlen l = 0 -> l = []) as Hnil by apply zlen_zero_nil.
  destruct Hl as [->|[->| ->]]; rewrite ?be_bytes_1, ?be_bytes_2, ?be_bytes_4.
  - destruct bs as [|a bs]; zl. rewrite (Hnil bs) in * by lia. apply Forall_cons in Hok as [Ha _].
    unfold byte_ok in *. cbn [be_value]. f_equal. wrap_lia.
  - destruct bs as [|a [|b bs]]; zl. rewrite (Hnil bs) in * by lia.
    apply Forall_cons in Hok as [Ha Hok]. apply Forall_cons in Hok as [Hb _]. unfold byte_ok in *.
    cbn [be_value]. repeat f_equal; wrap_lia.
  - destruct bs as [|a [|b [|c [|d bs]]]]; zl. rewrite (Hnil bs) in * by lia.
    apply Forall_cons in Hok as [Ha Hok]. apply Forall_cons in Hok as [Hb Hok].
    apply Forall_cons in Hok as [Hc Hok]. apply Forall_cons in Hok as [Hd _]. unfold byte_ok in *.
    cbn [be_value]. change (2 ^ 24) with 16777216. change (2 ^ 16) with 65536. repeat f_equal; wrap_lia.
Qed.

Lemma parse_address_take p k bs :
  parser_at p (zdrop k bs) -> Forall byte_ok bs -> 0 <= k -> k + 6 <= zlen bs ->
  exists p', parse_bytes 6 p = Ok (slice k 6 bs, p') /\ parser_at p' (zdrop (k + 6) bs) /\
    EthernetAddress_ok (slice k 6 bs).
Proof.
  intros Hp Hok Hk Hlen. rewrite <- (ztake_zdrop 6 (zdrop k bs)), zdrop_zdrop in Hp by lia.
  assert (EthernetAddress_ok (slice k 6 bs)) as Ha.
  { split; [rewrite zlen_slice; lia|]. by apply Forall_take, Forall_drop. }
  destruct (parse_address_at _ p _ Hp Ha) as (p' & E & Hp'). by exists p'.
Qed.

Ltac parse_addr_take :=
  match goal with
  | Hp : parser_at ?p (zdrop ?k ?bs), Hok : Forall byte_ok ?bs |- context [parse_bytes 6 ?p] =>
      let p' := fresh "p" in
      let E := fresh "E" in
      let Hp' := fresh "Hp" in
      let Ha := fresh "Ha" in
      destruct (parse_address_take p k bs) as (p' & E & Hp' & Ha); [exact Hp|exact Hok|lia|lia|];
      rewrite E; clear E Hp; cbn [mbind result_bind];
      let m := eval vm_compute in (k + 6) in change (k + 6) with m in Hp'
  end.

(** The message that [parse] makes of 28 bytes, if it is of the supported kind. *)
Definition arp_decode (bs : bytes) : ARPMessage :=
  MkARPMessage (be_value 0 (slice 0 2 bs)) (be_value 0 (slice 2 2 bs)) (be_value 0 (slice 4 1 bs))
    (be_value 0 (slice 5 1 bs)) (be_value 0 (slice 6 2 bs)) (slice 8 6 bs) (be_value 0 (slice 14 4 bs))
    (slice 18 6 bs) (be_value 0 (slice 24 4 bs)).

Lemma ARPMessage_parse_long old b :
  Buffer_wf b -> Forall byte_ok (Buffer_str b) -> ARPMessage_LENGTH <= Buffer_size b ->
  exists r m, ARPMessage_parse old b = Ok (r, m) /\
    if ARPMessage_supported (arp_decode (Buffer_str b)) then r = NoError /\ m = arp_decode (Buffer_str b)
    else r = Unsupported.
Proof.
  intros Hb Hok Hlen. unfold ARPMessage_LENGTH, Buffer_size in Hlen. pose proof (NetParser_new_at b Hb) as Hp.
  unfold ARPMessage_parse. cbn [np_buffer NetParser_new]. fold (NetParser_new b).
  unfold Buffer_size, ARPMessage_LENGTH. rewrite (proj2 (Z.ltb_ge _ 28)) by lia.
  set (bs := Buffer_str b) in *. rewrite <- (zdrop_le0 0 bs) in Hp by lia.
  unfold NetParser_u16, NetParser_u32, NetParser_u8. do 5 parse_take.
  match goal with |- context [ARPMessage_supported (MkARPMessage ?a ?b ?c ?d ?e ?f ?g ?h ?i)] =>
    change (ARPMessage_supported (MkARPMessage a b c d e f g h i)) with (ARPMessage_supported (arp_decode bs)) end.
  destruct (ARPMessage_supported (arp_decode bs)); cbn [negb]; [|by eexists _, _].
  parse_addr_take. parse_take. parse_addr_take. parse_take. eexists _, _. split; [reflexivity|].
  split; [|reflexivity]. unfold NetParser_get_error. by match goal with H : parser_at _ _ |- _ => rewrite (pa_error _ _ H) end.
Qed.

Lemma slice_bytes_ok i n (bs : bytes) : Forall byte_ok bs -> Forall byte_ok (slice i n bs).
Proof. intros. by apply Forall_take, Forall_drop. Qed.

Lemma be_value_slice bs i n : Forall byte_ok bs -> 0 <= i -> 0 <= n -> i + n <= zlen bs ->
  0 <= be_value 0 (slice i n bs) < 2 ^ (8 * n).
Proof.
  intros Hok Hi Hn Hle.
  pose proof (be_value_bound (slice i n bs) 0 0 ltac:(by apply slice_bytes_ok) ltac:(lia) ltac:(lia)) as Hb.
  by replace (0 + zlen (slice i n bs)) with n in Hb by (rewrite zlen_slice; lia).
Qed.

Lemma arp_decode_bytes bs : Forall byte_ok bs -> 28 <= zlen bs -> arp_bytes (arp_decode bs) = ztake 28 bs.
Proof.
  intros Hok Hlen. unfold arp_bytes, arp_decode. cbn [am_hardware_type am_protocol_type am_hardware_address_size
    am_protocol_address_size am_opcode am_sender_ethernet_address am_sender_ip_address am_target_ethernet_address
    am_target_ip_address].
  rewrite !be_bytes_value by first [lia|by apply slice_bytes_ok|rewrite zlen_slice; lia].
  rewrite <- slice_0.
  rewrite (slice_app_adj 18 6), (slice_app_adj 14 4), (slice_app_adj 8 6), (slice_app_adj 6 2), (slice_app_adj 5 1),
    (slice_app_adj 4 1), (slice_app_adj 2 2), (slice_app_adj 0 2) by lia. reflexivity.
Qed.

Lemma arp_decode_ok bs :
  Forall byte_ok bs -> 28 <= zlen bs -> ARPMessage_supported (arp_decode bs) = true -> ARPMessage_ok (arp_decode bs).
Proof.
  intros Hok Hlen Hs. split; [done|..]; cbn.
  - split; [rewrite zlen_slice; lia|by apply slice_bytes_ok].
  - apply (be_value_slice bs 14 4); (done || lia).
  - split; [rewrite zlen_slice; lia|by apply slice_bytes_ok].
  - apply (be_value_slice bs 24 4); (done || lia).
Qed.

Lemma ARPMessage_parse_short old b :
  Buffer_size b < ARPMessage_LENGTH -> ARPMessage_parse old b = Ok (PacketTooShort, old).
Proof.
  intros Hlt. unfold ARPMessage_parse. cbn [np_buffer NetParser_new]. by rewrite (proj2 (Z.ltb_lt _ _) Hlt).
Qed.

Lemma ARPMessage_parse_any old b :
  Buffer_wf b -> Forall byte_ok (Buffer_str b) ->
  exists r m, ARPMessage_parse old b = Ok (r, m) /\ (r = NoError -> ARPMessage_ok m).
Proof.
  intros Hb Hok. destruct (Z.lt_ge_cases (Buffer_size b) ARPMessage_LENGTH) as [Hlt|Hge].
  { eexists _, _. split; [by apply ARPMessage_parse_short|done]. }
  destruct (ARPMessage_parse_long old b Hb Hok Hge) as (r & m & E & Hcase). exists r, m. split; [exact E|].
  destruct (ARPMessage_supported _) eqn:Hs; [|by subst r]. destruct Hcase as [_ ->]. intros _.
  by apply arp_decode_ok.
Qed.

(** C34.  Parsing an ARP message never throws; it accepts exactly the packets of at
    least 28 bytes that hold an Ethernet and IPv4 request or reply, and an
    accepted message serialises to the first 28 bytes of the packet it came
    from. *)
Theorem ARPMessage_parse_exact old b :
  Buffer_wf b -> Forall byte_ok (Buffer_str b) ->
  exists r m, ARPMessage_parse old b = Ok (r, m) /\
    (r = NoError <-> ARPMessage_LENGTH <= Buffer_size b /\ ARPMessage_supported (arp_decode (Buffer_str b)) = true) /\
    (r = NoError -> ARPMessage_ok m /\ ARPMessage_serialize m = Ok (ztake ARPMessage_LENGTH (Buffer_str b))).
Proof.
  intros Hb Hok. destruct (Z.lt_ge_cases (Buffer_size b) ARPMessage_LENGTH) as [Hlt|Hge].
  { exists PacketTooShort, old. split; [by apply ARPMessage_parse_short|]. split; [|done].
    split; [done|]. intros [H _]. lia. }
  destruct (ARPMessage_parse_long old b Hb Hok Hge) as (r & m & E & Hcase). exists r, m. split; [exact E|].
  destruct (ARPMessage_supported (arp_decode (Buffer_str b))) eqn:Hs;
    [|subst r; split; [split; [done|by intros [_ ?]]|done]].
  destruct Hcase as [-> ->]. split; [done|]. intros _.
  pose proof (arp_decode_ok (Buffer_str b) Hok Hge Hs) as Hm. split; [exact Hm|].
  rewrite ARPMessage_serialize_eq by apply Hm. by rewrite arp_decode_bytes.
Qed.

(** A request for 10.0.0.2 from 10.0.0.1, followed by padding. *)
Definition sample_arp : bytes :=
  [0; 1; 8; 0; 6; 4; 0; 1; 2; 0; 0; 0; 0; 1; 10; 0; 0; 1; 0; 0; 0; 0; 0; 0; 10; 0; 0; 2; 99].

Lemma ARPMessage_parse_exact_witness :
  exists r m, ARPMessage_parse ARPMessage_default (Buffer_of_string sample_arp) = Ok (r, m) /\ r = NoError /\
    ARPMessage_serialize m = Ok (ztake ARPMessage_LENGTH sample_arp).
Proof.
  destruct (ARPMessage_parse_exact ARPMessage_default (Buffer_of_string sample_arp)) as (r & m & E & H1 & H2).
  - apply Buffer_of_string_wf. reflexivity.
  - change (Buffer_str (Buffer_of_string sample_arp)) with sample_arp. unfold sample_arp. bytes_ok.
  - assert (r = NoError) as Hr by (apply H1; split; [vm_compute; congruence|reflexivity]).
    exists r, m. split; [exact E|]. split; [exact Hr|]. apply (H2 Hr).
Defined.
