(* ===== verification/Addresses.v ===== *)
(** Socket addresses: [Address] (src/libsponge/util/address.hh and .cc).

    An [Address] is the memory of a [sockaddr_storage] with the size of the address in
    it; numbers in it are in network byte order, but for the family, which has the
    byte order of the machine, here with the low byte first.

    The conversions between addresses and text are the C library's: [getaddrinfo],
    [getnameinfo] and [inet_ntoa] are a parameter, the class [NameService], and
    [NameServiceLaws] states what is documented of them for numeric addresses.

    Theorems: an IPv4 address and a port come back from every form they are brought
    into, and addresses that the constructors have made are compared exactly. *)

From stdpp Require Import strings.
From S2P Require Import Prelude Texts Parsers.

#[local] Open Scope Z_scope.
#[local] Open Scope list_scope.

Record Address : Type := MkAddress {
  ad_size : Z;
  ad_storage : bytes
}.

#[export] Instance Address_eq_dec : EqDecision Address.
Proof. solve_decision. Defined.

Definition AF_INET : Z := 2.
Definition sizeof_sockaddr_in : Z := 16.
Definition sizeof_sockaddr_storage : Z := 128.

(** [memcpy] into a [sockaddr_storage] of zeros. *)
Definition storage_of (addr : bytes) (size : Z) : bytes := resize sizeof_sockaddr_storage (ztake size addr).

(** [Address(const sockaddr *addr, const size_t size)] *)
Definition Address_of_sockaddr (addr : bytes) (size : Z) : result Address :=
  if sizeof_sockaddr_storage <? size then Throw runtime_error
  else if zlen addr <? size then Throw undefined_behaviour
  else Ok (MkAddress size (storage_of addr size)).

(** A [sockaddr_in] with these numbers. *)
Definition sockaddr_in (port ip : Z) : bytes := [AF_INET; 0] ++ be_bytes 2 port ++ be_bytes 4 ip ++ replicate 8 0.

(** [ss_family] *)
Definition Address_family (a : Address) : Z :=
  let family := ztake 2 (ad_storage a) in default 0 (family !! 0%nat) + 256 * default 0 (family !! 1%nat).

Definition Address_ipv4_numeric (a : Address) : result Z :=
  if negb (Address_family a =? AF_INET) || negb (ad_size a =? sizeof_sockaddr_in)
  then Throw runtime_error
  else Ok (be_value 0 (ztake 4 (zdrop 4 (ad_storage a)))).

(** The sixteen bytes fit. *)
Definition Address_from_ipv4_numeric (ip_address : Z) : Address :=
  MkAddress sizeof_sockaddr_in (storage_of (sockaddr_in 0 ip_address) sizeof_sockaddr_in).

(** [operator==] *)
Definition Address_eqb (a other : Address) : bool :=
  if negb (ad_size a =? ad_size other) then false
  else bool_decide (ztake (ad_size a) (ad_storage a) = ztake (ad_size a) (ad_storage other)).

(** ** Addresses and text *)

(** The members of an [addrinfo] that are used. *)
Record addrinfo : Type := MkAddrinfo {
  ai_flags : Z;
  ai_family : Z;
  ai_addr : bytes;
  ai_addrlen : Z
}.

Definition AI_NUMERICHOST : Z := 4.
Definition AI_ALL : Z := 16.
Definition AI_NUMERICSERV : Z := 1024.
Definition NI_NUMERICHOST : Z := 1.
Definition NI_NUMERICSERV : Z := 2.

(** The C library.  [getaddrinfo] takes a node, a service and hints, [getnameinfo] an
    address with its length and flags; both return a code, which is 0 if all went
    well, and what they have found.  [inet_ntoa] gets its number in host byte order
    here; the code converts it first. *)
Class NameService : Type := {
  getaddrinfo : bytes -> bytes -> addrinfo -> Z * option addrinfo;
  getnameinfo : bytes -> Z -> Z -> Z * bytes * bytes;
  inet_ntoa : Z -> bytes
}.

Section text.
Context `{NameService}.

Definition make_hints (ai_flags ai_family : Z) : addrinfo := MkAddrinfo ai_flags ai_family [] 0.

(** [Address(node, service, hints)] *)
Definition Address_resolve (node service : bytes) (hints : addrinfo) : result Address :=
  let '(gai_ret, resolved_address) := getaddrinfo node service hints in
  if negb (gai_ret =? 0) then Throw (gai_error gai_ret)
  else
    match resolved_address with
    | None => Throw runtime_error
    | Some wrapped_address => Address_of_sockaddr (ai_addr wrapped_address) (ai_addrlen wrapped_address)
    end.

(** [Address(hostname, service)] *)
Definition Address_of_host (hostname service : bytes) : result Address :=
  Address_resolve hostname service (make_hints AI_ALL AF_INET).

(** [Address(ip, port)] *)
Definition Address_of_ip (ip : bytes) (port : Z) : result Address :=
  Address_resolve ip (decimal port) (make_hints (Z.lor AI_NUMERICHOST AI_NUMERICSERV) AF_INET).

Definition Address_ip_port (a : Address) : result (bytes * Z) :=
  let '(gni_ret, ip, port) := getnameinfo (ad_storage a) (ad_size a) (Z.lor NI_NUMERICHOST NI_NUMERICSERV) in
  if negb (gni_ret =? 0) then Throw (gai_error gni_ret)
  else number ← stoi port; Ok (ip, u16 number).

Definition Address_ip (a : Address) : result bytes := p ← Address_ip_port a; Ok (fst p).
Definition Address_port (a : Address) : result Z := p ← Address_ip_port a; Ok (snd p).

Definition Address_to_string (a : Address) : result bytes :=
  '(ip, port) ← Address_ip_port a;
  Ok (ip ++ string_bytes ":" ++ decimal port).

End text.

(** ** What is documented of the C library *)

(** The number that a dotted quad stands for, and its text. *)
Definition quad (a b c d : Z) : Z := ((a * 256 + b) * 256 + c) * 256 + d.

Definition dotted_quad (ip : Z) : bytes :=
  decimal (ip / 2 ^ 24) ++ [46] ++ decimal (ip / 2 ^ 16 mod 256) ++ [46] ++ decimal (ip / 2 ^ 8 mod 256) ++ [46] ++ decimal (ip mod 256).

Definition finds_sockaddr (r : Z * option addrinfo) (port ip : Z) : Prop :=
  exists x, r = (0, Some x) /\ ai_addr x = sockaddr_in port ip /\ ai_addrlen x = sizeof_sockaddr_in.

(** [inet_ntoa] writes a dotted quad; [getaddrinfo] reads one, and "0" as the address
    0, with or without the flags that ask for numbers; [getnameinfo] writes numbers if
    asked to. *)
Class NameServiceLaws `{NameService} : Prop := {
  inet_ntoa_dotted : forall ip, 0 <= ip < 2 ^ 32 -> inet_ntoa ip = dotted_quad ip;
  getaddrinfo_dotted : forall ip port flags, 0 <= ip < 2 ^ 32 -> 0 <= port < 2 ^ 16 ->
    flags = AI_ALL \/ flags = Z.lor AI_NUMERICHOST AI_NUMERICSERV ->
    finds_sockaddr (getaddrinfo (dotted_quad ip) (decimal port) (make_hints flags AF_INET)) port ip;
  getaddrinfo_zero : forall port flags, 0 <= port < 2 ^ 16 ->
    flags = AI_ALL \/ flags = Z.lor AI_NUMERICHOST AI_NUMERICSERV ->
    finds_sockaddr (getaddrinfo (string_bytes "0") (decimal port) (make_hints flags AF_INET)) port 0;
  getnameinfo_number : forall storage ip port, 0 <= ip < 2 ^ 32 -> 0 <= port < 2 ^ 16 ->
    ztake sizeof_sockaddr_in storage = sockaddr_in port ip ->
    getnameinfo storage sizeof_sockaddr_in (Z.lor NI_NUMERICHOST NI_NUMERICSERV) = (0, dotted_quad ip, decimal port)
}.

(** ** IPv4 addresses *)

(** An IPv4 address, as the constructors make it. *)
Definition Address_v4 (ip port : Z) : Address := MkAddress sizeof_sockaddr_in (sockaddr_in port ip ++ replicate 112 0).

Lemma sockaddr_in_len port ip : zlen (sockaddr_in port ip) = 16.
Proof. reflexivity. Qed.

Lemma Address_of_sockaddr_in port ip : Address_of_sockaddr (sockaddr_in port ip) sizeof_sockaddr_in = Ok (Address_v4 ip port).
Proof. reflexivity. Qed.

Lemma from_ipv4_numeric_v4 ip : Address_from_ipv4_numeric ip = Address_v4 ip 0.
Proof. reflexivity. Qed.

Lemma Address_v4_numeric ip port : 0 <= ip < 2 ^ 32 -> Address_ipv4_numeric (Address_v4 ip port) = Ok ip.
Proof.
  intros Hip. transitivity (Ok (be_value 0 (be_bytes 4 ip))); [reflexivity|]. by rewrite be_value_bytes by (lia || auto).
Qed.

(** Of two IPv4 addresses every part is compared. *)
Lemma Address_v4_inj ip port ip' port' : 0 <= ip < 2 ^ 32 -> 0 <= ip' < 2 ^ 32 -> 0 <= port < 2 ^ 16 -> 0 <= port' < 2 ^ 16 ->
  Address_v4 ip port = Address_v4 ip' port' -> ip = ip' /\ port = port'.
Proof.
  intros Hi Hi' Hp Hp' E. apply (f_equal ad_storage) in E. split.
  - rewrite <- (be_value_bytes 4 ip), <- (be_value_bytes 4 ip') by (lia || auto). f_equal.
    by apply (f_equal (fun s => ztake 4 (zdrop 4 s))) in E.
  - rewrite <- (be_value_bytes 2 port), <- (be_value_bytes 2 port') by (lia || auto). f_equal.
    by apply (f_equal (fun s => ztake 2 (zdrop 2 s))) in E.
Qed.

(** Addresses that were made from a [sockaddr], as all are, are equal if the bytes of
    the address are. *)
Lemma Address_eqb_eq addr size addr' size' a a' :
  Address_of_sockaddr addr size = Ok a -> Address_of_sockaddr addr' size' = Ok a' -> 0 <= size -> 0 <= size' ->
  Address_eqb a a' = true <-> a = a'.
Proof.
  assert (forall addr size a, Address_of_sockaddr addr size = Ok a -> 0 <= size ->
    a = MkAddress size (resize 128 (ztake size (ad_storage a)))) as Hmade.
  { intros ad sz x E Hs. unfold Address_of_sockaddr, sizeof_sockaddr_storage in E. destruct (Z.ltb_spec 128 sz); [done|]. destruct (Z.ltb_spec (zlen ad) sz); [done|]. injection E as <-.
    cbn [ad_storage]. unfold sizeof_sockaddr_storage in *. f_equal. unfold storage_of. f_equal.
    unfold resize, sizeof_sockaddr_storage. rewrite (ztake_ge 128) by zl. rewrite ztake_app_le by zl. rewrite ztake_ztake. f_equal. lia. }
  intros E E' Hs Hs'. apply Hmade in E, E'; try done. unfold Address_eqb. split; [|intros <-; rewrite Z.eqb_refl; by apply bool_decide_eq_true].
  destruct (Z.eqb_spec (ad_size a) (ad_size a')) as [Esz|]; [|done]. cbn [negb]. intros Hb%bool_decide_eq_true.
  rewrite E, E' in Esz. cbn [ad_size] in Esz. subst size'. rewrite E, E'. f_equal. f_equal.
  replace (ad_size a) with size in Hb by (by rewrite E). done.
Qed.

Section laws.
Context `{NameServiceLaws}.

Lemma found_address node service hints port ip : finds_sockaddr (getaddrinfo node service hints) port ip ->
  Address_resolve node service hints = Ok (Address_v4 ip port).
Proof. intros (x & E & Ea & El). unfold Address_resolve. rewrite E. cbn [Z.eqb negb]. by rewrite Ea, El, Address_of_sockaddr_in. Qed.

Lemma Address_of_dotted ip port : 0 <= ip < 2 ^ 32 -> 0 <= port < 2 ^ 16 -> Address_of_ip (dotted_quad ip) port = Ok (Address_v4 ip port).
Proof. intros. apply found_address, getaddrinfo_dotted; auto. Qed.

Lemma Address_of_ntoa ip port : 0 <= ip < 2 ^ 32 -> 0 <= port < 2 ^ 16 -> Address_of_ip (inet_ntoa ip) port = Ok (Address_v4 ip port).
Proof. intros. rewrite inet_ntoa_dotted by done. by apply Address_of_dotted. Qed.

Lemma Address_of_zero port : 0 <= port < 2 ^ 16 -> Address_of_ip (string_bytes "0") port = Ok (Address_v4 0 port).
Proof. intros. apply found_address, getaddrinfo_zero; auto. Qed.

Lemma Address_host_zero port : 0 <= port < 2 ^ 16 -> Address_of_host (string_bytes "0") (decimal port) = Ok (Address_v4 0 port).
Proof. intros. apply found_address, getaddrinfo_zero; auto. Qed.

Lemma Address_host_dotted ip port : 0 <= ip < 2 ^ 32 -> 0 <= port < 2 ^ 16 ->
  Address_of_host (dotted_quad ip) (decimal port) = Ok (Address_v4 ip port).
Proof. intros. apply found_address, getaddrinfo_dotted; auto. Qed.

Lemma Address_v4_ip_port ip port : 0 <= ip < 2 ^ 32 -> 0 <= port < 2 ^ 16 -> Address_ip_port (Address_v4 ip port) = Ok (dotted_quad ip, port).
Proof.
  intros Hi Hp. unfold Address_ip_port. cbn [ad_storage ad_size Address_v4]. rewrite (getnameinfo_number _ ip port) by done.
  cbn [Z.eqb negb]. rewrite stoi_decimal by lia. cbn [mbind result_bind]. by rewrite u16_small by lia.
Qed.

Lemma Address_port_v4 ip port : 0 <= ip < 2 ^ 32 -> 0 <= port < 2 ^ 16 -> Address_port (Address_v4 ip port) = Ok port.
Proof. intros. unfold Address_port. by rewrite Address_v4_ip_port. Qed.

Lemma Address_ip_v4 ip port : 0 <= ip < 2 ^ 32 -> 0 <= port < 2 ^ 16 -> Address_ip (Address_v4 ip port) = Ok (dotted_quad ip).
Proof. intros. unfold Address_ip. by rewrite Address_v4_ip_port. Qed.

(** An address and a port come back from the text of an address, from the address and
    from its number. *)
Theorem Address_roundtrip ip port : 0 <= ip < 2 ^ 32 -> 0 <= port < 2 ^ 16 ->
  exists a, Address_of_ip (inet_ntoa ip) port = Ok a /\ Address_of_host (dotted_quad ip) (decimal port) = Ok a /\
    Address_ip_port a = Ok (inet_ntoa ip, port) /\ Address_ipv4_numeric a = Ok ip /\
    Address_to_string a = Ok (inet_ntoa ip ++ string_bytes ":" ++ decimal port) /\
    (Address_eqb (Address_from_ipv4_numeric ip) a = true <-> port = 0).
Proof.
  intros Hi Hp. exists (Address_v4 ip port). rewrite Address_of_ntoa, Address_host_dotted, inet_ntoa_dotted, Address_v4_numeric by done.
  unfold Address_to_string. rewrite Address_v4_ip_port by done. split_and!; try done.
  rewrite (Address_eqb_eq (sockaddr_in 0 ip) 16 (sockaddr_in port ip) 16) by done. rewrite from_ipv4_numeric_v4.
  split; [|by intros ->]. intros E%Address_v4_inj; lia.
Qed.

End laws.

(** ** A name service *)

(** Numbers with dots between them; at most [parts] more. *)
Fixpoint read_quad (parts : nat) (acc : Z) (s : bytes) : option Z :=
  let '(n, count, rest) := take_digits 10 0 0 s in
  if count =? 0 then None
  else
    match rest, parts with
    | [], _ => Some (acc * 256 + n)
    | c :: rest, S parts => if c =? 46 then read_quad parts (acc * 256 + n) rest else None
    | _, O => None
    end.

(** One that knows numbers only. *)
Definition dotted_name_service : NameService := {|
  getaddrinfo node service hints :=
    match read_quad 3 0 node with
    | Some ip => (0, Some (MkAddrinfo 0 (ai_family hints) (sockaddr_in (strtol service) ip) sizeof_sockaddr_in))
    | None => (-2, None)
    end;
  getnameinfo storage size flags :=
    (0, dotted_quad (be_value 0 (ztake 4 (zdrop 4 storage))), decimal (be_value 0 (ztake 2 (zdrop 2 storage))));
  inet_ntoa := dotted_quad
|}.

Lemma read_number parts acc n rest : 0 <= n < 2 ^ 63 ->
  read_quad (S parts) acc (decimal n ++ [46] ++ rest) = read_quad parts (acc * 256 + n) rest /\
  read_quad parts acc (decimal n) = Some (acc * 256 + n).
Proof.
  intros Hn. destruct (decimal_read 20 n ltac:(lia) ltac:(lia)) as (_ & _ & _ & H4). fold (decimal n) in H4.
  split.
  - cbn [read_quad]. rewrite take_decimal by (done || by intros c [= <-]). by rewrite (proj2 (Z.eqb_neq _ _)) by lia.
  - pose proof (take_decimal n [] Hn ltac:(done)) as E. rewrite app_nil_r in E.
    destruct parts; cbn [read_quad]; rewrite E, (proj2 (Z.eqb_neq _ _)) by lia; done.
Qed.

Lemma read_dotted ip : 0 <= ip < 2 ^ 32 -> read_quad 3 0 (dotted_quad ip) = Some ip.
Proof.
  intros Hi. unfold dotted_quad. assert (0 <= ip / 2 ^ 24 < 256) as H1 by (split; [apply Z.div_pos|apply Z.div_lt_upper_bound]; lia).
  pose proof (Z.mod_pos_bound (ip / 2 ^ 16) 256 ltac:(lia)). pose proof (Z.mod_pos_bound (ip / 2 ^ 8) 256 ltac:(lia)).
  pose proof (Z.mod_pos_bound ip 256 ltac:(lia)).
  rewrite (proj1 (read_number 2 0 (ip / 2 ^ 24) _ ltac:(lia))), (proj1 (read_number 1 _ (ip / 2 ^ 16 mod 256) _ ltac:(lia))),
    (proj1 (read_number 0 _ (ip / 2 ^ 8 mod 256) _ ltac:(lia))), (proj2 (read_number 0 _ (ip mod 256) [] ltac:(lia))). f_equal.
  change (2 ^ 24) with 16777216 in *. change (2 ^ 16) with 65536 in *. change (2 ^ 8) with 256 in *. wrap_lia.
Qed.

Lemma dotted_name_service_laws : @NameServiceLaws dotted_name_service.
Proof.
  split; [done| | |].
  - intros ip port flags Hi Hp _. cbn [getaddrinfo dotted_name_service]. rewrite read_dotted, strtol_decimal by lia. by eexists.
  - intros port flags Hp _. cbn [getaddrinfo dotted_name_service]. rewrite strtol_decimal by lia. by eexists.
  - intros storage ip port Hi Hp E. cbn [getnameinfo dotted_name_service].
    replace (ztake 4 (zdrop 4 storage)) with (be_bytes 4 ip).
    + replace (ztake 2 (zdrop 2 storage)) with (be_bytes 2 port); [by rewrite !be_value_bytes by (lia || auto)|].
      change (be_bytes 2 port) with (ztake 2 (zdrop 2 (sockaddr_in port ip))). rewrite <- E, !ztake_zdrop_comm, ztake_ztake by lia. done.
    + change (be_bytes 4 ip) with (ztake 4 (zdrop 4 (sockaddr_in port ip))). rewrite <- E, !ztake_zdrop_comm, ztake_ztake by lia. done.
Qed.

Lemma Address_roundtrip_witness : @Address_to_string dotted_name_service (Address_v4 (quad 18 243 0 1) 80) = Ok (string_bytes "18.243.0.1:80").
Proof.
  destruct (@Address_roundtrip dotted_name_service dotted_name_service_laws (quad 18 243 0 1) 80) as (a & E & _ & _ & _ & Es & _).
  - unfold quad. lia.
  - lia.
  - rewrite (@Address_of_ntoa dotted_name_service dotted_name_service_laws) in E by (unfold quad; lia). injection E as <-. exact Es.
Defined.
