(* ===== verification/Summaries.v ===== *)
(** Headers and frames as text: [to_string] and [summary] of TCPHeader, IPv4Header,
    EthernetHeader and ARPMessage (src/libsponge/tcp_helpers), and [summary] of
    src/apps/network_simulator.cc.

    Theorems: the text of a TCP header or of an IPv4 header shows all of it, so that
    different headers have different texts; and what the simulator says of a frame that
    it delivers cannot throw. *)

From stdpp Require Import strings.
From S2P Require Import Prelude Texts WrappingIntegers Buffers Parsers TCPSegments IPv4Datagrams EthernetFrames Addresses.

#[local] Open Scope Z_scope.
#[local] Open Scope list_scope.

(** [<< hex << n] *)
Definition hex_text (n : Z) : bytes := hex_digits 16 n [].

(** [<< boolalpha << b] *)
Definition bool_text (b : bool) : bytes := string_bytes (if b then "true" else "false").

(** A line ends. *)
Definition newline : bytes := [10].

Definition TCPHeader_to_string (h : TCPHeader) : bytes :=
  string_bytes "TCP source port: " ++ hex_text (th_sport h) ++ newline ++
  string_bytes "TCP dest port: " ++ hex_text (th_dport h) ++ newline ++
  string_bytes "TCP seqno: " ++ hex_text (raw_value (th_seqno h)) ++ newline ++
  string_bytes "TCP ackno: " ++ hex_text (raw_value (th_ackno h)) ++ newline ++
  string_bytes "TCP doff: " ++ hex_text (th_doff h) ++ newline ++
  string_bytes "Flags: urg: " ++ bool_text (th_urg h) ++ string_bytes " ack: " ++ bool_text (th_ack h) ++
  string_bytes " psh: " ++ bool_text (th_psh h) ++ string_bytes " rst: " ++ bool_text (th_rst h) ++
  string_bytes " syn: " ++ bool_text (th_syn h) ++ string_bytes " fin: " ++ bool_text (th_fin h) ++ newline ++
  string_bytes "TCP winsize: " ++ hex_text (th_win h) ++ newline ++
  string_bytes "TCP cksum: " ++ hex_text (th_cksum h) ++ newline ++
  string_bytes "TCP uptr: " ++ hex_text (th_uptr h) ++ newline.

Definition TCPHeader_summary (h : TCPHeader) : bytes :=
  let flag (b : bool) (s : string) := if b then string_bytes s else [] in
  string_bytes "Header(flags=" ++ flag (th_syn h) "S" ++ flag (th_ack h) "A" ++ flag (th_rst h) "R" ++ flag (th_fin h) "F" ++
  string_bytes ",seqno=" ++ decimal (raw_value (th_seqno h)) ++ string_bytes ",ack=" ++ decimal (raw_value (th_ackno h)) ++
  string_bytes ",win=" ++ decimal (th_win h) ++ string_bytes ")".

Definition IPv4Header_to_string (h : IPv4Header) : bytes :=
  string_bytes "IP version: " ++ hex_text (ih_ver h) ++ newline ++
  string_bytes "IP hdr len: " ++ hex_text (ih_hlen h) ++ newline ++
  string_bytes "IP tos: " ++ hex_text (ih_tos h) ++ newline ++
  string_bytes "IP dgram len: " ++ hex_text (ih_len h) ++ newline ++
  string_bytes "IP id: " ++ hex_text (ih_id h) ++ newline ++
  string_bytes "Flags: df: " ++ bool_text (ih_df h) ++ string_bytes " mf: " ++ bool_text (ih_mf h) ++ newline ++
  string_bytes "Offset: " ++ hex_text (ih_offset h) ++ newline ++
  string_bytes "TTL: " ++ hex_text (ih_ttl h) ++ newline ++
  string_bytes "Protocol: " ++ hex_text (ih_proto h) ++ newline ++
  string_bytes "Checksum: " ++ hex_text (ih_cksum h) ++ newline ++
  string_bytes "Src addr: " ++ hex_text (ih_src h) ++ newline ++
  string_bytes "Dst addr: " ++ hex_text (ih_dst h) ++ newline.

(** [to_string(const EthernetAddress address)] *)
Fixpoint EthernetAddress_to_string (address : EthernetAddress) : bytes :=
  match address with
  | [] => []
  | [byte] => hex_padded 2 byte
  | byte :: address => hex_padded 2 byte ++ string_bytes ":" ++ EthernetAddress_to_string address
  end.

Definition EthernetHeader_to_string (h : EthernetHeader) : bytes :=
  string_bytes "dst=" ++ EthernetAddress_to_string (eh_dst h) ++
  string_bytes ", src=" ++ EthernetAddress_to_string (eh_src h) ++
  string_bytes ", type=" ++
  (if eh_type h =? TYPE_IPv4 then string_bytes "IPv4"
   else if eh_type h =? TYPE_ARP then string_bytes "ARP"
   else string_bytes "[unknown type " ++ hex_text (eh_type h) ++ string_bytes "!]").

Section addresses.
Context `{NameService}.

Definition IPv4Header_summary (h : IPv4Header) : bytes :=
  string_bytes "IPv" ++ hex_text (ih_ver h) ++ string_bytes ", " ++
  string_bytes "len=" ++ hex_text (ih_len h) ++ string_bytes ", " ++
  string_bytes "protocol=" ++ hex_text (ih_proto h) ++ string_bytes ", " ++
  (if 10 <=? ih_ttl h then [] else string_bytes "ttl=" ++ decimal (ih_ttl h) ++ string_bytes ", ") ++
  string_bytes "src=" ++ inet_ntoa (ih_src h) ++ string_bytes ", " ++
  string_bytes "dst=" ++ inet_ntoa (ih_dst h).

Definition ARPMessage_to_string (m : ARPMessage) : bytes :=
  let opcode_str := string_bytes "(unknown type)" in
  let opcode_str := if am_opcode m =? OPCODE_REQUEST then string_bytes "REQUEST" else opcode_str in
  let opcode_str := if am_opcode m =? OPCODE_REPLY then string_bytes "REPLY" else opcode_str in
  string_bytes "opcode=" ++ opcode_str ++
  string_bytes ", sender=" ++ EthernetAddress_to_string (am_sender_ethernet_address m) ++ string_bytes "/" ++
  inet_ntoa (am_sender_ip_address m) ++
  string_bytes ", target=" ++ EthernetAddress_to_string (am_target_ethernet_address m) ++ string_bytes "/" ++
  inet_ntoa (am_target_ip_address m).

(** [summary(frame)]; the quotation mark is 34. *)
Definition frame_summary (frame : EthernetFrame) : result bytes :=
  let ret := EthernetHeader_to_string (ef_header frame) in
  if eh_type (ef_header frame) =? TYPE_IPv4 then
    payload ← BufferList_to_Buffer (ef_payload frame);
    '(res, dgram) ← IPv4Datagram_parse IPv4Datagram_default payload;
    if is_NoError res then
      Ok (ret ++ string_bytes " " ++ IPv4Header_summary (id_header dgram) ++
          string_bytes " payload=" ++ [34] ++ BufferList_concatenate (id_payload dgram) ++ [34])
    else Ok (ret ++ string_bytes " (bad IPv4)")
  else if eh_type (ef_header frame) =? TYPE_ARP then
    payload ← BufferList_to_Buffer (ef_payload frame);
    '(res, arp) ← ARPMessage_parse ARPMessage_default payload;
    if is_NoError res then Ok (ret ++ string_bytes " " ++ ARPMessage_to_string arp)
    else Ok (ret ++ string_bytes " (bad ARP)")
  else Ok ret.

End addresses.

(** ** Texts that can be read back *)

Lemma hex_digits_app fuel n acc : hex_digits fuel n acc = hex_digits fuel n [] ++ acc.
Proof.
  revert n acc. induction fuel as [|fuel IH]; intros n acc; cbn [hex_digits]; [done|]. destruct (n <? 16); [done|].
  rewrite IH, (IH _ [_]), <- app_assoc. done.
Qed.

(** The number that hexadecimal digits stand for. *)
Definition hex_value (s : bytes) : Z := foldl (fun acc c => acc * 16 + digit_value c) 0 s.

Lemma hex_digit_value d : 0 <= d < 16 -> digit_value (hex_digit d) = d /\ 48 <= hex_digit d <= 102.
Proof.
  intros Hd. unfold hex_digit, digit_value. destruct (Z.ltb_spec d 10).
  - rewrite (proj2 (Z.leb_le 48 _)), (proj2 (Z.leb_le _ 57)) by lia. cbn [andb]. lia.
  - rewrite (proj2 (Z.leb_le 48 _)), (proj2 (Z.leb_gt _ 57)), (proj2 (Z.leb_le 97 _)), (proj2 (Z.leb_le _ 122)) by lia. cbn [andb]. lia.
Qed.

Lemma hex_digits_read fuel n : 0 <= n < 16 ^ Z.of_nat fuel ->
  hex_value (hex_digits fuel n []) = n /\ Forall (fun c => 48 <= c) (hex_digits fuel n []).
Proof.
  revert n. induction fuel as [|fuel IH]; intros n Hn; cbn [hex_digits]; [cbn; cbn in Hn; split; [lia|done]|].
  rewrite Nat2Z.inj_succ, Z.pow_succ_r in Hn by lia. pose proof (Z.div_mod n 16 ltac:(lia)) as Hdm.
  pose proof (Z.mod_pos_bound n 16 ltac:(lia)) as Hm. destruct (hex_digit_value (n mod 16) Hm) as [Hv Hc].
  destruct (Z.ltb_spec n 16) as [H16|H16].
  { rewrite Z.mod_small in * by lia. split; [cbn; lia|apply Forall_singleton; lia]. }
  destruct (IH (n / 16)) as [I1 I2]; [lia|]. rewrite hex_digits_app. split.
  - unfold hex_value in *. rewrite foldl_app, I1. cbn [foldl]. lia.
  - apply Forall_app. split; [done|]. apply Forall_singleton. lia.
Qed.

Lemma hex_text_inj n m : 0 <= n < 2 ^ 64 -> 0 <= m < 2 ^ 64 -> hex_text n = hex_text m -> n = m.
Proof.
  intros Hn Hm E. unfold hex_text in E. rewrite <- (proj1 (hex_digits_read 16 n Hn)), <- (proj1 (hex_digits_read 16 m Hm)). by rewrite E.
Qed.

Lemma hex_text_plain n : 0 <= n < 2 ^ 64 -> Forall (fun c => 48 <= c) (hex_text n).
Proof. intros Hn. by apply hex_digits_read. Qed.

Lemma bool_text_plain b : Forall (fun c => 48 <= c) (bool_text b).
Proof. destruct b; vm_compute; repeat apply Forall_cons_2; first [apply Forall_nil_2|congruence]. Qed.

Lemma bool_text_inj b b' : bool_text b = bool_text b' -> b = b'.
Proof. by destruct b, b'. Qed.

(** A text without blanks and line ends stops where one of these follows. *)
Lemma plain_field s s' sep r r' : Forall (fun c => 48 <= c) s -> Forall (fun c => 48 <= c) s' ->
  (exists c t, sep = c :: t /\ c < 48) -> s ++ sep ++ r = s' ++ sep ++ r' -> s = s' /\ r = r'.
Proof.
  intros Hs Hs' (c & t & -> & Hc). revert s' Hs'. induction Hs as [|x s Hx Hs IH]; intros [|y s'] Hs' E;
    try (apply Forall_cons in Hs' as [Hy Hs']); cbn in E.
  - injection E as E. by apply app_inv_head in E.
  - injection E as -> _. lia.
  - injection E as -> _. lia.
  - injection E as -> E. destruct (IH s' Hs' E) as [-> ->]. done.
Qed.

(** Takes a label and a value off both sides of an equation of texts. *)
Ltac read_field E :=
  try apply app_inv_head in E;
  let F := fresh "F" in
  first [apply plain_field in E as [F E]; [|first [apply hex_text_plain; lia|apply bool_text_plain].. |by eexists _, _]
        |apply app_inv_tail in E; rename E into F];
  first [apply hex_text_inj in F; [|lia..]|apply bool_text_inj in F].

(** The text of a TCP header shows every field. *)
Theorem TCPHeader_to_string_shows h h' : TCPHeader_ok h -> TCPHeader_ok h' -> TCPHeader_to_string h = TCPHeader_to_string h' -> h = h'.
Proof.
  intros [] [] E. unfold WrappingInt32_ok in *. unfold TCPHeader_to_string in E. do 14 read_field E.
  destruct h as [? ? [] []], h' as [? ? [] []]. cbn in *. by subst.
Qed.

(** The text of an IPv4 header shows every field. *)
Theorem IPv4Header_to_string_shows h h' : IPv4Header_ok h -> IPv4Header_ok h' -> IPv4Header_to_string h = IPv4Header_to_string h' -> h = h'.
Proof.
  intros [] [] E. unfold IPv4Header_to_string in E. do 13 read_field E. destruct h, h'. cbn in *. by subst.
Qed.

(** ** What the simulator says *)

Section frames.
Context `{NameService}.

(** The payload of a frame that is delivered is one buffer; whatever is in it, the
    summary of the frame is computed without an exception, and starts with that of its
    header. *)
Theorem frame_summary_total header payload : zlen payload < 2 ^ 64 -> Forall byte_ok payload ->
  exists text, frame_summary (MkEthernetFrame header (BufferList_of_string payload)) = Ok (EthernetHeader_to_string header ++ text).
Proof.
  intros Hl Hb. pose proof (Buffer_of_string_wf payload Hl) as Hwf. assert (Forall byte_ok (Buffer_str (Buffer_of_string payload))) as Hs.
  { by rewrite Buffer_of_string_str. }
  unfold frame_summary. cbn [ef_header ef_payload BufferList_of_string app BufferList_to_Buffer mbind result_bind].
  destruct (eh_type header =? TYPE_IPv4); [|destruct (eh_type header =? TYPE_ARP); [|exists []; by rewrite app_nil_r]].
  - destruct (IPv4Datagram_parse_total IPv4Datagram_default _ Hwf Hs) as (r & d & buf & -> & _). cbn [mbind result_bind].
    destruct (is_NoError r); by eexists.
  - assert (exists r m, ARPMessage_parse ARPMessage_default (Buffer_of_string payload) = Ok (r, m)) as (r & m & ->).
    { destruct (Z.lt_ge_cases (Buffer_size (Buffer_of_string payload)) ARPMessage_LENGTH) as [Hlt|Hge].
      - by exists PacketTooShort, ARPMessage_default; apply ARPMessage_parse_short.
      - destruct (ARPMessage_parse_long ARPMessage_default _ Hwf Hs Hge) as (r & m & E & _). by exists r, m. }
    cbn [mbind result_bind]. destruct (is_NoError r); by eexists.
Qed.

End frames.

(** A frame as the simulator shows it. *)
Lemma frame_summary_example :
  @frame_summary dotted_name_service (MkEthernetFrame (MkEthernetHeader ETHERNET_BROADCAST [2; 0; 0; 0; 0; 1] TYPE_ARP) (BufferList_of_string sample_arp)) =
  Ok (string_bytes "dst=ff:ff:ff:ff:ff:ff, src=02:00:00:00:00:01, type=ARP opcode=REQUEST, sender=02:00:00:00:00:01/10.0.0.1, target=00:00:00:00:00:00/10.0.0.2").
Proof. vm_compute. reflexivity. Qed.
