(* ===== verification/Effects.v ===== *)
(** Effectful code and system calls.

    The parts of the program that work on file descriptors pass a world around:
    [io W A] is code that reads and changes a world [W] and returns an [A] or
    throws.  [wp] is its weakest precondition, with a postcondition for normal
    returns and one for exceptions.

    The operating system is a parameter: a [Kernel] answers each [syscall] with a
    [reply], and may keep any state it likes.  [KernelLaws] is what the manual pages
    promise of the replies, [calm] that no call fails.  [logged] adds a record of
    all calls to any kernel; the bytes that went through a descriptor are read off
    that record.

    [SystemCall] and [unix_error] are those of src/libsponge/util/util.hh and .cc. *)

From S2P Require Import Prelude Addresses.

(** ** State and exceptions *)

Definition io (W A : Type) : Type := W -> result (A * W).

#[export] Instance io_ret {W} : MRet (io W) := fun A a w => Ok (a, w).
#[export] Instance io_bind {W} : MBind (io W) :=
  fun A B f m w => match m w with Ok (a, w') => f a w' | Throw e => Throw e end.

Definition throw {W A} (e : exn) : io W A := fun _ => Throw e.
Definition gets {W A} (f : W -> A) : io W A := fun w => Ok (f w, w).
Definition modify {W} (f : W -> W) : io W unit := fun w => Ok (tt, f w).

(** Code that touches no world. *)
Definition lift {W A} (r : result A) : io W A :=
  fun w => match r with Ok a => Ok (a, w) | Throw e => Throw e end.

Definition wp {W A} (m : io W A) (E : exn -> Prop) (Q : A -> W -> Prop) (w : W) : Prop :=
  match m w with Ok (a, w') => Q a w' | Throw e => E e end.

Section wp.
Context {W : Type}.
Implicit Types (w : W) (E : exn -> Prop).

Lemma wp_ret {A} (a : A) E (Q : A -> W -> Prop) w : Q a w -> wp (mret a) E Q w.
Proof. done. Qed.

Lemma wp_throw {A} e E (Q : A -> W -> Prop) w : E e -> wp (throw e) E Q w.
Proof. done. Qed.

Lemma wp_gets {A} (f : W -> A) E Q w : Q (f w) w -> wp (gets f) E Q w.
Proof. done. Qed.

Lemma wp_modify (f : W -> W) E Q w : Q tt (f w) -> wp (modify f) E Q w.
Proof. done. Qed.

Lemma wp_lift {A} (r : result A) E Q w :
  match r with Ok a => Q a w | Throw e => E e end -> wp (lift r) E Q w.
Proof. unfold wp, lift. by destruct r. Qed.

Lemma wp_bind {A B} (m : io W A) (f : A -> io W B) E Q w :
  wp m E (fun a => wp (f a) E Q) w -> wp (mbind f m) E Q w.
Proof. unfold wp, mbind, io_bind. by destruct (m w) as [[a w']|e]. Qed.

Lemma wp_mono {A} (m : io W A) (E E' : exn -> Prop) (Q Q' : A -> W -> Prop) w :
  wp m E Q w -> (forall e, E e -> E' e) -> (forall a w', Q a w' -> Q' a w') -> wp m E' Q' w.
Proof. unfold wp. destruct (m w) as [[a w']|e]; auto. Qed.

Lemma wp_ok {A} (m : io W A) E Q w a w' : wp m E Q w -> m w = Ok (a, w') -> Q a w'.
Proof. unfold wp. intros H E1. by rewrite E1 in H. Qed.

Lemma wp_result {A} (m : io W A) E Q w :
  wp m E Q w -> (exists a w', m w = Ok (a, w') /\ Q a w') \/ exists e, m w = Throw e /\ E e.
Proof. unfold wp. destruct (m w) as [[a w']|e]; [left|right]; eauto. Qed.
End wp.

(** One step of effectful code. *)
Ltac wp_step :=
  lazymatch goal with
  | |- wp (mbind _ _) _ _ _ => apply wp_bind
  | |- wp (mret _) _ _ _ => apply wp_ret
  | |- wp (gets _) _ _ _ => apply wp_gets
  | |- wp (modify _) _ _ _ => apply wp_modify
  | |- wp (throw _) _ _ _ => apply wp_throw
  | |- wp (lift _) _ _ _ => apply wp_lift
  end.

(** Case analysis on the condition of the code at hand. *)
Ltac wp_if :=
  lazymatch goal with |- wp (if ?b then _ else _) _ _ _ => destruct b eqn:? end.

(** ** System calls *)

(** The calls the program makes, with their arguments.  Buffers that the kernel
    fills in are part of the reply. *)
Inductive syscall : Type :=
  | sys_close (fd : Z)
  | sys_read (fd count : Z)
  | sys_writev (fd : Z) (iov : list (bytes * Z))
  | sys_getfl (fd : Z)
  | sys_setfl (fd flags : Z)
  | sys_poll (fds : list (Z * Z)) (timeout : Z)
  | sys_socket (domain type : Z)
  | sys_socketpair (domain type : Z)
  | sys_getsockopt (fd option : Z)
  | sys_setsockopt (fd level option value : Z)
  | sys_getsockname (fd : Z)
  | sys_getpeername (fd : Z)
  | sys_bind (fd : Z) (address : Address)
  | sys_connect (fd : Z) (address : Address)
  | sys_shutdown (fd how : Z)
  | sys_listen (fd backlog : Z)
  | sys_accept (fd : Z)
  | sys_recvfrom (fd size : Z)
  | sys_sendmsg (fd : Z) (address : option Address) (iov : list (bytes * Z))
  | sys_open (path : bytes) (flags : Z)
  | sys_tunsetiff (fd flags : Z) (name : bytes)
  | sys_clock.

(** A reply: the value returned, [errno], and what was written to the caller's
    buffers: bytes, the [revents] of [poll], numbers, and an address. *)
Record reply : Type := MkReply {
  rp_value : Z;
  rp_errno : Z;
  rp_buffer : bytes;
  rp_numbers : list Z;
  rp_address : Address
}.

Class Kernel (K : Type) : Type := {
  k_call : syscall -> K -> reply * K
}.

(** The states that calls lead to. *)
Definition kernel_steps {K} `{Kernel K} : relation K := rtc (fun k k' => exists c, k' = snd (k_call c k)).

Lemma kernel_step {K} `{Kernel K} c k : kernel_steps k (snd (k_call c k)).
Proof. apply rtc_once. by exists c. Qed.

(** [SystemCall(attempt, return_value, errno_mask)]; its second parameter is an
    [int]. *)
Definition SystemCall (return_value errno errno_mask : Z) : result Z :=
  let return_value := i32 return_value in
  if (0 <=? return_value) || (errno =? errno_mask) then Ok return_value else Throw (unix_error errno).

(** ** A record of the calls *)

Definition event : Type := syscall * reply.

#[export] Instance logged {K} `{Kernel K} : Kernel (K * list event) := {|
  k_call c k := let '(r, k') := k_call c (fst k) in (r, (k', snd k ++ [(c, r)]))
|}.

(** The bytes that came out of descriptor [fd], and those that went in. *)
Definition event_read (fd : Z) (e : event) : bytes :=
  match fst e with
  | sys_read fd' _ => if fd' =? fd then ztake (rp_value (snd e)) (rp_buffer (snd e)) else []
  | _ => []
  end.

Definition event_written (fd : Z) (e : event) : bytes :=
  match fst e with
  | sys_writev fd' iov => if fd' =? fd then ztake (rp_value (snd e)) (concat (map fst iov)) else []
  | _ => []
  end.

Definition bytes_read (fd : Z) (log : list event) : bytes := concat (map (event_read fd) log).
Definition bytes_written (fd : Z) (log : list event) : bytes := concat (map (event_written fd) log).

Lemma bytes_read_snoc fd log e : bytes_read fd (log ++ [e]) = bytes_read fd log ++ event_read fd e.
Proof. unfold bytes_read. rewrite map_app, concat_app. simpl. by rewrite app_nil_r. Qed.

Lemma bytes_written_snoc fd log e : bytes_written fd (log ++ [e]) = bytes_written fd log ++ event_written fd e.
Proof. unfold bytes_written. rewrite map_app, concat_app. simpl. by rewrite app_nil_r. Qed.

(** ** What the manual pages promise *)

(** The values of <poll.h>. *)
Definition POLLIN : Z := 1.
Definition POLLOUT : Z := 4.
Definition POLLERR : Z := 8.
Definition POLLHUP : Z := 16.
Definition POLLNVAL : Z := 32.

(** A call fails with -1 and sets [errno], or it returns a number; reading and
    writing return how much was read or written, at most what was asked for. *)
Definition reply_law (c : syscall) (r : reply) : Prop :=
  rp_value r = -1 /\ rp_errno r <> 0 \/
  0 <= rp_value r < 2 ^ 31 /\
  match c with
  | sys_read _ count => zlen (rp_buffer r) = rp_value r /\ rp_value r <= Z.max 0 count
  | sys_recvfrom _ size => zlen (rp_buffer r) = Z.max 0 (Z.min (rp_value r) size)
  | sys_writev _ iov | sys_sendmsg _ _ iov => rp_value r <= zlen (concat (map fst iov))
  | _ => True
  end.

Class KernelLaws (K : Type) `{Kernel K} : Prop :=
  kernel_law : forall c k, reply_law c (fst (k_call c k)).

(** A reply without trouble: the call succeeds, some of what is to be written is
    written, and [poll] reports neither errors nor invalid descriptors. *)
Definition reply_calm (c : syscall) (r : reply) : Prop :=
  0 <= rp_value r /\
  match c with
  | sys_writev _ iov => rp_value r = 0 -> concat (map fst iov) = []
  | sys_poll _ _ => Forall (fun x => Z.land x (Z.lor POLLERR POLLNVAL) = 0) (rp_numbers r)
  | _ => True
  end.

Definition calm (K : Type) `{Kernel K} : Prop := forall c k, reply_calm c (fst (k_call c k)).

(** [poll] reports no hangups. *)
Definition no_hangup (K : Type) `{Kernel K} : Prop :=
  forall fds t k, Forall (fun x => Z.land x POLLHUP = 0) (rp_numbers (fst (k_call (sys_poll fds t) k))).

(** The exceptions that system calls cause: none when the kernel is calm. *)
Definition trouble (K : Type) `{Kernel K} (e : exn) : Prop :=
  ~ calm K /\ (e = runtime_error \/ exists n, e = unix_error n).

Section laws.
Context {K : Type} `{KernelLaws K}.

Lemma logged_call c k l :
  k_call c (k, l) = (fst (k_call (K:=K) c k), (snd (k_call (K:=K) c k), l ++ [(c, fst (k_call (K:=K) c k))])).
Proof. cbn [k_call logged fst snd]. by destruct (k_call (K:=K) c k). Qed.

#[export] Instance logged_laws : KernelLaws (K * list event).
Proof. intros c [k l]. rewrite logged_call. apply kernel_law. Qed.

Lemma calm_logged : calm K -> calm (K * list event).
Proof. intros Hc c [k l]. rewrite logged_call. apply Hc. Qed.

Lemma no_hangup_logged : no_hangup K -> no_hangup (K * list event).
Proof. intros Hc fds t [k l]. rewrite logged_call. apply Hc. Qed.

Lemma trouble_logged e : trouble (K * list event) e -> trouble K e.
Proof. intros [Hn He]. split; [|done]. intros Hc. by apply Hn, calm_logged. Qed.

(** A failed call throws [unix_error]; a successful one hands on its value. *)
Lemma SystemCall_law c k :
  let r := fst (k_call (K:=K) c k) in
  SystemCall (rp_value r) (rp_errno r) 0 = Ok (rp_value r) /\ 0 <= rp_value r < 2 ^ 31 \/
  SystemCall (rp_value r) (rp_errno r) 0 = Throw (unix_error (rp_errno r)) /\ ~ calm K.
Proof.
  intros r. destruct (kernel_law c k) as [[H1 H2]|[H1 _]]; fold r in H1.
  - right. split.
    + unfold SystemCall. fold r in H2. rewrite H1. change (i32 (-1)) with (-1). cbn [Z.leb Z.compare orb].
      by rewrite (proj2 (Z.eqb_neq _ _)).
    + intros Hc. destruct (Hc c k) as [H3 _]. fold r in H3. lia.
  - left. split; [|done]. unfold SystemCall. assert (i32 (rp_value r) = rp_value r) as -> by wrap_lia.
    by rewrite (proj2 (Z.leb_le _ _)) by lia.
Qed.
End laws.

(** ** A small kernel *)

(** For examples: every descriptor is ready all the time; a read returns at most
    [toy_chunk] bytes of what is left for the descriptor, a write accepts at most
    that many, and every other call succeeds. *)
Record toy : Type := MkToy { toy_inputs : gmap Z bytes; toy_chunk : Z }.

Definition toy_limit (k : toy) : Z := Z.max 1 (Z.min 1000 (toy_chunk k)).

Definition toy_reply (v : Z) : reply := MkReply v 0 [] [] (Address_v4 0 0).

#[export] Instance toy_kernel : Kernel toy := {|
  k_call c k :=
    match c with
    | sys_read fd count =>
        let input := default [] (toy_inputs k !! fd) in
        let d := ztake (Z.min count (toy_limit k)) input in
        (MkReply (zlen d) 0 d [] (Address_v4 0 0), MkToy (<[fd := zdrop (zlen d) input]> (toy_inputs k)) (toy_chunk k))
    | sys_writev _ iov | sys_sendmsg _ _ iov =>
        (toy_reply (Z.min (toy_limit k) (zlen (concat (map fst iov)))), k)
    | sys_poll fds _ => (MkReply 1 0 [] (map (fun f => Z.land (snd f) (Z.lor POLLIN POLLOUT)) fds) (Address_v4 0 0), k)
    | sys_clock => (toy_reply 0, k)
    | _ => (toy_reply 0, k)
    end
|}.

#[export] Instance toy_laws : KernelLaws toy.
Proof. intros c k. right. destruct c; cbn -[toy_limit]; try (split; [lia|done]); unfold toy_limit; zl. Qed.

(** The [revents] of this kernel hold no other bit. *)
Lemma toy_events x m : Z.land m 5 = 0 -> Z.land (Z.land x 5) m = 0.
Proof. intros Hm. by rewrite <- Z.land_assoc, (Z.land_comm 5 m), Hm, Z.land_0_r. Qed.

Lemma toy_calm : calm toy.
Proof.
  intros c k. unfold reply_calm. destruct c; cbn -[toy_limit]; try (split; [lia|done]); unfold toy_limit; try (split; [zl|done]).
  - split; [zl|]. intros Hz. apply zlen_zero_nil. zl.
  - split; [lia|]. apply Forall_map, Forall_true. intros [fd ev]. by apply toy_events.
Qed.

Lemma toy_no_hangup : no_hangup toy.
Proof. intros fds t k. cbn. apply Forall_map, Forall_true. intros [fd ev]. by apply toy_events. Qed.
