(* ===== verification/FileDescriptors.v ===== *)
(** Reference-counted file descriptors: [FileDescriptor] and its [FDWrapper]
    (src/libsponge/util/file_descriptor.hh and .cc).

    A [FileDescriptor] is a shared pointer to an [FDWrapper].  The wrappers live in
    a store, each with the number of pointers to it, so that the flags and counters
    one handle changes are seen through all the others.  The rest of the world is
    the kernel and the state of the program that uses the descriptors.

    Theorems: writing everything hands all bytes to the kernel, in order, whatever
    part of them each call accepts; a descriptor is closed when its last handle
    goes, once, and not before. *)

From S2P Require Import Prelude Buffers StreamReassemblers Addresses Effects.

(** ** The store *)

Record FDWrapper : Type := MkFDWrapper {
  fw_fd : Z;
  fw_eof : bool;
  fw_closed : bool;
  fw_read_count : Z;
  fw_write_count : Z
}.

(** The pointer [_internal_fd]. *)
Definition FileDescriptor : Type := nat.

(** [w_fds]: each wrapper with its use count; [w_next] is a pointer not in use. *)
Record world (K U : Type) : Type := MkWorld {
  w_kernel : K;
  w_fds : gmap nat (FDWrapper * nat);
  w_next : nat;
  w_state : U
}.

Arguments MkWorld {K U}.
Arguments w_kernel {K U}.
Arguments w_fds {K U}.
Arguments w_next {K U}.
Arguments w_state {K U}.

(** [std::string::resize] to a size that may be too large. *)
Definition string_resize (n : Z) (s : bytes) : result bytes :=
  if string_max_size <? n then Throw length_error else Ok (resize n s).

(** What a buffer holds after the kernel has written to its beginning. *)
Definition overwrite (written s : bytes) : bytes := ztake (zlen s) written ++ zdrop (zlen written) s.

Section descriptors.
Context {K U : Type} `{Kernel K}.

Abbreviation prog := (io (world K U)).

Definition world_set_kernel (w : world K U) (k : K) : world K U := MkWorld k (w_fds w) (w_next w) (w_state w).
Definition world_set_fds (w : world K U) (fds : gmap nat (FDWrapper * nat)) : world K U :=
  MkWorld (w_kernel w) fds (w_next w) (w_state w).
Definition world_set_state (w : world K U) (s : U) : world K U := MkWorld (w_kernel w) (w_fds w) (w_next w) s.

Definition call (c : syscall) : prog reply :=
  fun w => let '(r, k) := k_call c (w_kernel w) in Ok (r, world_set_kernel w k).

(** [SystemCall("...", ::c(...))] *)
Definition system (c : syscall) : prog (Z * reply) :=
  r ← call c;
  v ← lift (SystemCall (rp_value r) (rp_errno r) 0);
  mret (v, r).

(** Dereferencing [_internal_fd]. *)
Definition deref (fd : FileDescriptor) : prog FDWrapper :=
  fun w => match w_fds w !! fd with Some (o, _) => Ok (o, w) | None => Throw undefined_behaviour end.

Definition store (fd : FileDescriptor) (o : FDWrapper) : prog unit :=
  fun w => match w_fds w !! fd with
           | Some (_, n) => Ok (tt, world_set_fds w (<[fd := (o, n)]> (w_fds w)))
           | None => Throw undefined_behaviour
           end.

(** ** FDWrapper *)

Definition FDWrapper_new (fd : Z) : result FDWrapper :=
  if fd <? 0 then Throw runtime_error else Ok (MkFDWrapper fd false false 0 0).

Definition FDWrapper_close (fd : FileDescriptor) : prog unit :=
  o ← deref fd;
  _ ← system (sys_close (fw_fd o));
  store fd (MkFDWrapper (fw_fd o) true true (fw_read_count o) (fw_write_count o)).

(** The destructor: an exception from [close] is reported and goes no further. *)
Definition FDWrapper_destroy (fd : FileDescriptor) : prog unit :=
  o ← deref fd;
  if fw_closed o then mret tt
  else _ ← call (sys_close (fw_fd o)); mret tt.

(** ** FileDescriptor *)

(** [make_shared<FDWrapper>] *)
Definition make_shared (o : FDWrapper) : prog FileDescriptor :=
  fun w => Ok (w_next w, MkWorld (w_kernel w) (<[w_next w := (o, 1%nat)]> (w_fds w)) (S (w_next w)) (w_state w)).

Definition FileDescriptor_new (fd : Z) : prog FileDescriptor :=
  o ← lift (FDWrapper_new fd);
  make_shared o.

(** The copied pointer counts. *)
Definition FileDescriptor_duplicate (fd : FileDescriptor) : prog FileDescriptor :=
  fun w => match w_fds w !! fd with
           | Some (o, n) => Ok (fd, world_set_fds w (<[fd := (o, S n)]> (w_fds w)))
           | None => Throw undefined_behaviour
           end.

(** A handle goes: the last one takes the wrapper with it. *)
Definition FileDescriptor_destroy (fd : FileDescriptor) : prog unit :=
  fun w => match w_fds w !! fd with
           | Some (o, S (S n)) =>
               Ok (tt, world_set_fds w (<[fd := (o, S n)]> (w_fds w)))
           | Some _ =>
               match FDWrapper_destroy fd w with
               | Ok (_, w) => Ok (tt, world_set_fds w (delete fd (w_fds w)))
               | Throw e => Throw e
               end
           | None => Throw undefined_behaviour
           end.

Definition FileDescriptor_fd_num (fd : FileDescriptor) : prog Z := o ← deref fd; mret (fw_fd o).
Definition FileDescriptor_eof (fd : FileDescriptor) : prog bool := o ← deref fd; mret (fw_eof o).
Definition FileDescriptor_closed (fd : FileDescriptor) : prog bool := o ← deref fd; mret (fw_closed o).
Definition FileDescriptor_read_count (fd : FileDescriptor) : prog Z := o ← deref fd; mret (fw_read_count o).
Definition FileDescriptor_write_count (fd : FileDescriptor) : prog Z := o ← deref fd; mret (fw_write_count o).

Definition FileDescriptor_register_read (fd : FileDescriptor) : prog unit :=
  o ← deref fd;
  store fd (MkFDWrapper (fw_fd o) (fw_eof o) (fw_closed o) (u32 (fw_read_count o + 1)) (fw_write_count o)).

Definition FileDescriptor_register_write (fd : FileDescriptor) : prog unit :=
  o ← deref fd;
  store fd (MkFDWrapper (fw_fd o) (fw_eof o) (fw_closed o) (fw_read_count o) (u32 (fw_write_count o + 1))).

Definition FileDescriptor_close (fd : FileDescriptor) : prog unit := FDWrapper_close fd.

(** [constexpr size_t BUFFER_SIZE] *)
Definition BUFFER_SIZE : Z := 1024 * 1024.

(** [read(std::string &str, const size_t limit)]: the new value of [str]. *)
Definition FileDescriptor_read_into (fd : FileDescriptor) (str : bytes) (limit : Z) : prog bytes :=
  let size_to_read := Z.min BUFFER_SIZE limit in
  let str := resize size_to_read str in
  num ← FileDescriptor_fd_num fd;
  '(bytes_read, r) ← system (sys_read num size_to_read);
  let str := overwrite (rp_buffer r) str in
  _ ← (if (0 <? limit) && (bytes_read =? 0)
       then o ← deref fd;
            store fd (MkFDWrapper (fw_fd o) true (fw_closed o) (fw_read_count o) (fw_write_count o))
       else mret tt);
  if size_to_read <? bytes_read then throw runtime_error
  else
    str ← lift (string_resize (u64 bytes_read) str);
    _ ← FileDescriptor_register_read fd;
    mret str.

(** [string read(const size_t limit)] *)
Definition FileDescriptor_read (fd : FileDescriptor) (limit : Z) : prog bytes :=
  FileDescriptor_read_into fd [] limit.

(** The [do ... while (write_all and buffer.size())] loop. *)
Fixpoint write_loop (fuel : nat) (fd : FileDescriptor) (buffer : BufferViewList) (write_all : bool)
    (total_bytes_written : Z) : prog Z :=
  match fuel with
  | O => throw undefined_behaviour
  | S fuel =>
      let iovecs := BufferViewList_as_iovecs buffer in
      num ← FileDescriptor_fd_num fd;
      '(bytes_written, _) ← system (sys_writev num iovecs);
      if (bytes_written =? 0) && negb (BufferViewList_size buffer =? 0) then throw runtime_error
      else if BufferViewList_size buffer <? bytes_written then throw runtime_error
      else
        _ ← FileDescriptor_register_write fd;
        buffer ← lift (BufferViewList_remove_prefix buffer (u64 bytes_written));
        let total_bytes_written := u64 (total_bytes_written + bytes_written) in
        if write_all && negb (BufferViewList_size buffer =? 0)
        then write_loop fuel fd buffer write_all total_bytes_written
        else mret total_bytes_written
  end.

(** Each turn but the last writes a byte or throws. *)
Definition FileDescriptor_write_views (fd : FileDescriptor) (buffer : BufferViewList) (write_all : bool) : prog Z :=
  write_loop (S (length (concat buffer))) fd buffer write_all 0.

(** [write(const std::string &str, const bool write_all)] *)
Definition FileDescriptor_write (fd : FileDescriptor) (str : bytes) (write_all : bool) : prog Z :=
  FileDescriptor_write_views fd (BufferViewList_of_string str) write_all.

Definition O_NONBLOCK : Z := 2048.

Definition FileDescriptor_set_blocking (fd : FileDescriptor) (blocking_state : bool) : prog unit :=
  num ← FileDescriptor_fd_num fd;
  '(flags, _) ← system (sys_getfl num);
  let flags :=
    if blocking_state then Z.lxor flags (Z.land flags O_NONBLOCK) else Z.lor flags O_NONBLOCK in
  _ ← system (sys_setfl num flags);
  mret tt.

End descriptors.

(** ** What the operations do *)

(** The wrapper after a read of [d], and after a write. *)
Definition read_done (o : FDWrapper) (limit : Z) (d : bytes) : FDWrapper :=
  MkFDWrapper (fw_fd o) (fw_eof o || (0 <? limit) && (zlen d =? 0)) (fw_closed o)
    (u32 (fw_read_count o + 1)) (fw_write_count o).

Definition write_done (o : FDWrapper) : FDWrapper :=
  MkFDWrapper (fw_fd o) (fw_eof o) (fw_closed o) (fw_read_count o) (u32 (fw_write_count o + 1)).

(** A turn of the kernel, and one with a change to a wrapper. *)
Definition world_call {K U} `{Kernel K} (w : world K U) (c : syscall) : world K U :=
  world_set_kernel w (snd (k_call c (w_kernel w))).
Definition world_store {K U} (w : world K U) (fd : FileDescriptor) (o : FDWrapper) (n : nat) : world K U :=
  world_set_fds w (<[fd := (o, n)]> (w_fds w)).

Lemma call_eq {K U} `{Kernel K} (w : world K U) c : call c w = Ok (fst (k_call c (w_kernel w)), world_call w c).
Proof. unfold call, world_call. by destruct (k_call c (w_kernel w)). Qed.

Lemma views_size_from ret l :
  0 <= ret < 2 ^ 64 -> BufferViewList_size_from ret l = u64 (ret + zlen (concat l)).
Proof.
  revert ret. induction l as [|b l IH]; intros ret Hr; simpl.
  - rewrite zlen_nil, u64_small; lia.
  - rewrite IH by apply u64_range. rewrite u64_idem_l. f_equal. zl.
Qed.

Lemma views_size l : zlen (concat l) < 2 ^ 64 -> BufferViewList_size l = zlen (concat l).
Proof.
  intros Hl. unfold BufferViewList_size. rewrite views_size_from by lia. apply u64_small. zl.
Qed.

Lemma iovecs_concat l : concat (map fst (BufferViewList_as_iovecs l)) = concat l.
Proof. unfold BufferViewList_as_iovecs. by rewrite map_map, map_id. Qed.

Lemma overwrite_all d n : zlen d <= n -> resize (zlen d) (overwrite d (resize n [])) = d.
Proof.
  intros Hd. unfold overwrite. pose proof (zlen_nonneg d). rewrite zlen_resize by lia.
  rewrite (ztake_ge n d) by lia. unfold resize at 1. rewrite ztake_app_le, ztake_ge by lia.
  rewrite zlen_app. replace (zlen d - _) with (- zlen (zdrop (zlen d) (resize n []))) by lia.
  rewrite Z2Nat.nonpos by zl. apply app_nil_r.
Qed.

Section specs.
Context {K U : Type} `{KernelLaws K}.
Implicit Types (w : world K U) (E : exn -> Prop).
Context (E : exn -> Prop) (HE : forall e, trouble K e -> E e).

Lemma deref_wp fd w o n (Q : FDWrapper -> world K U -> Prop) :
  w_fds w !! fd = Some (o, n) -> Q o w -> wp (deref fd) E Q w.
Proof. unfold wp, deref. by intros ->. Qed.

Lemma store_wp fd o' w o n (Q : unit -> world K U -> Prop) :
  w_fds w !! fd = Some (o, n) -> Q tt (world_store w fd o' n) -> wp (store fd o') E Q w.
Proof. unfold wp, store. by intros ->. Qed.

Lemma system_wp c w (Q : Z * reply -> world K U -> Prop) :
  (let r := fst (k_call c (w_kernel w)) in
   0 <= rp_value r < 2 ^ 31 -> reply_law c r -> Q (rp_value r, r) (world_call w c)) ->
  wp (system c) E Q w.
Proof.
  intros HQ. unfold system, call, wp, mbind, io_bind, lift, mret, io_ret.
  destruct (SystemCall_law c (w_kernel w)) as [[E1 H1]|[E1 H1]]; pose proof (kernel_law c (w_kernel w)) as Hl;
    unfold world_call in HQ; destruct (k_call c (w_kernel w)) as [r k]; cbn [fst snd] in *; rewrite E1.
  - by apply HQ.
  - apply HE. split; [done|]. right. by eexists.
Qed.

Lemma fd_num_wp fd w o n (Q : Z -> world K U -> Prop) :
  w_fds w !! fd = Some (o, n) -> Q (fw_fd o) w -> wp (FileDescriptor_fd_num fd) E Q w.
Proof. intros Ho HQ. unfold FileDescriptor_fd_num. wp_step. eapply deref_wp; [done|]. by wp_step. Qed.

Lemma read_wp fd limit w o n (Q : bytes -> world K U -> Prop) :
  w_fds w !! fd = Some (o, n) -> 0 <= limit < 2 ^ 64 ->
  (let c := sys_read (fw_fd o) (Z.min BUFFER_SIZE limit) in
   let r := fst (k_call c (w_kernel w)) in
   let d := ztake (rp_value r) (rp_buffer r) in
   zlen d <= limit -> Q d (world_store (world_call w c) fd (read_done o limit d) n)) ->
  wp (FileDescriptor_read fd limit) E Q w.
Proof.
  intros Ho Hlim HQ. unfold FileDescriptor_read, FileDescriptor_read_into.
  wp_step. eapply fd_num_wp; [done|]. wp_step. apply system_wp. intros r Hv Hlaw.
  set (c := sys_read _ _) in *. cbv zeta in HQ. fold r in HQ. unfold BUFFER_SIZE in *.
  assert (zlen (rp_buffer r) = rp_value r /\ rp_value r <= Z.min (1024 * 1024) limit) as [Hb Hle].
  { destruct Hlaw as [[]|(_ & Hl)]; [lia|]. cbn in Hl. lia. }
  rewrite ztake_ge in HQ by lia. specialize (HQ ltac:(lia)).
  assert (w_fds (world_call w c) !! fd = Some (o, n)) as Ho' by done.
  rewrite <- Hb in *. wp_step. unfold read_done in HQ.
  assert (forall w' o', w_fds w' !! fd = Some (o', n) ->
    Q (rp_buffer r) (world_store w' fd (MkFDWrapper (fw_fd o') (fw_eof o') (fw_closed o')
                                          (u32 (fw_read_count o' + 1)) (fw_write_count o')) n) ->
    wp (if Z.min (1024 * 1024) limit <? zlen (rp_buffer r) then throw runtime_error
        else str ← lift (string_resize (u64 (zlen (rp_buffer r)))
                     (overwrite (rp_buffer r) (resize (Z.min (1024 * 1024) limit) [])));
             _ ← FileDescriptor_register_read fd; mret str) E Q w') as Hrest.
  { intros w' o' Hw' HQ'. rewrite (proj2 (Z.ltb_ge _ _)) by lia. wp_step. wp_step.
    rewrite u64_small by lia. unfold string_resize, string_max_size. rewrite (proj2 (Z.ltb_ge _ _)) by lia.
    rewrite overwrite_all by lia. wp_step. unfold FileDescriptor_register_read. wp_step. eapply deref_wp; [done|]. eapply store_wp; [done|]. by wp_step. }
  destruct ((0 <? limit) && (zlen (rp_buffer r) =? 0)) eqn:Eeof.
  - wp_step. eapply deref_wp; [done|]. eapply store_wp; [done|]. eapply Hrest; [apply lookup_insert_eq|]. cbn.
    rewrite orb_true_r in HQ. unfold world_store, world_set_fds in *. cbn in *. by rewrite insert_insert_eq.
  - wp_step. eapply Hrest; [done|]. by rewrite orb_false_r in HQ.
Qed.

(** A handle goes, but not the last one. *)
Lemma destroy_shared_wp fd w o n (Q : unit -> world K U -> Prop) :
  w_fds w !! fd = Some (o, S (S n)) -> Q tt (world_store w fd o (S n)) -> wp (FileDescriptor_destroy fd) E Q w.
Proof. unfold wp, FileDescriptor_destroy. by intros ->. Qed.

(** And one is added. *)
Lemma duplicate_wp fd w o n (Q : FileDescriptor -> world K U -> Prop) :
  w_fds w !! fd = Some (o, n) -> Q fd (world_store w fd o (S n)) -> wp (FileDescriptor_duplicate fd) E Q w.
Proof. unfold wp, FileDescriptor_duplicate. by intros ->. Qed.

(** One turn of the writing loop. *)
Lemma write_turn_wp fuel fd buffer write_all total w o n (Q : Z -> world K U -> Prop) :
  w_fds w !! fd = Some (o, n) -> zlen (concat buffer) < 2 ^ 63 ->
  (let c := sys_writev (fw_fd o) (BufferViewList_as_iovecs buffer) in
   let v := rp_value (fst (k_call c (w_kernel w))) in
   forall buffer', concat buffer' = zdrop v (concat buffer) ->
   0 <= v <= zlen (concat buffer) -> (v = 0 -> concat buffer = []) ->
   wp (if write_all && negb (BufferViewList_size buffer' =? 0)
       then write_loop fuel fd buffer' write_all (u64 (total + v)) else mret (u64 (total + v))) E Q
     (world_store (world_call w c) fd (write_done o) n)) ->
  wp (write_loop (S fuel) fd buffer write_all total) E Q w.
Proof.
  intros Ho Hsz HQ. cbn [write_loop]. wp_step. eapply fd_num_wp; [done|].
  set (c := sys_writev _ _) in *. wp_step. apply system_wp. intros r Hv Hlaw. cbv zeta in HQ. fold r in HQ.
  pose proof (zlen_nonneg (concat buffer)) as Hpos. rewrite views_size by lia.
  assert (rp_value r <= zlen (concat buffer)) as Hle.
  { destruct Hlaw as [[]|(_ & Hl)]; [lia|]. cbn in Hl. by rewrite iovecs_concat in Hl. }
  destruct ((rp_value r =? 0) && negb (zlen (concat buffer) =? 0)) eqn:E0.
  { wp_step. apply HE. split; [|by left]. intros Hc. destruct (Hc c (w_kernel w)) as [_ Hl]. fold r in Hl. cbn in Hl.
    rewrite iovecs_concat in Hl. b2p. rewrite Hl, zlen_nil in * by done. lia. }
  rewrite (proj2 (Z.ltb_ge _ _)) by lia.
  wp_step. unfold FileDescriptor_register_write. wp_step. eapply deref_wp; [done|]. eapply store_wp; [done|].
  wp_step. wp_step. rewrite u64_small by lia.
  destruct (BufferViewList_remove_prefix_ok buffer (rp_value r)) as (buffer' & -> & Hb); [lia|].
  apply HQ; [done|lia|]. intros Hz. apply zlen_zero_nil. rewrite Hz in E0. cbn in E0. b2p. lia.
Qed.

(** A single write. *)
Lemma write_some_wp fd str w o n (Q : Z -> world K U -> Prop) :
  w_fds w !! fd = Some (o, n) -> zlen str < 2 ^ 63 ->
  (let c := sys_writev (fw_fd o) [(str, zlen str)] in
   let v := rp_value (fst (k_call c (w_kernel w))) in
   0 <= v <= zlen str -> (v = 0 -> str = []) -> Q v (world_store (world_call w c) fd (write_done o) n)) ->
  wp (FileDescriptor_write fd str false) E Q w.
Proof.
  intros Ho Hsz HQ. unfold FileDescriptor_write, FileDescriptor_write_views, BufferViewList_of_string.
  eapply write_turn_wp; [done|by rewrite concat_cons, app_nil_r|]. cbn [concat BufferViewList_as_iovecs map].
  rewrite app_nil_r. cbv zeta in *. intros buffer' _ Hv Hz. cbn [andb]. wp_step.
  rewrite Z.add_0_l, u64_small by lia. by apply HQ.
Qed.

Lemma close_wp fd w o n (Q : unit -> world K U -> Prop) :
  w_fds w !! fd = Some (o, n) ->
  Q tt (world_store (world_call w (sys_close (fw_fd o))) fd
          (MkFDWrapper (fw_fd o) true true (fw_read_count o) (fw_write_count o)) n) ->
  wp (FileDescriptor_close fd) E Q w.
Proof.
  intros Ho HQ. unfold FileDescriptor_close, FDWrapper_close. wp_step. eapply deref_wp; [done|].
  wp_step. apply system_wp. intros r _ _. by eapply store_wp.
Qed.

End specs.

(** ** Writing everything *)

Section logs.
Context {K U : Type} `{KernelLaws K}.

Definition w_log (w : world (K * list event) U) : list event := snd (w_kernel w).

Lemma world_call_log (w : world (K * list event) U) c :
  w_log (world_call w c) = w_log w ++ [(c, fst (k_call c (w_kernel w)))].
Proof. unfold w_log, world_call. cbn [w_kernel world_set_kernel]. destruct (w_kernel w). by rewrite logged_call. Qed.

(** What a call adds to the bytes read and written. *)
Lemma call_read num (w : world (K * list event) U) c :
  bytes_read num (w_log (world_call w c)) =
  bytes_read num (w_log w) ++ event_read num (c, fst (k_call c (w_kernel w))).
Proof. by rewrite world_call_log, bytes_read_snoc. Qed.

Lemma call_written num (w : world (K * list event) U) c :
  bytes_written num (w_log (world_call w c)) =
  bytes_written num (w_log w) ++ event_written num (c, fst (k_call c (w_kernel w))).
Proof. by rewrite world_call_log, bytes_written_snoc. Qed.

(** A call that neither reads nor writes. *)
Lemma quiet_call n (w w' : world (K * list event) U) c :
  w_kernel w' = snd (k_call c (w_kernel w)) ->
  (forall r, event_read n (c, r) = [] /\ event_written n (c, r) = []) ->
  bytes_read n (w_log w') = bytes_read n (w_log w) /\ bytes_written n (w_log w') = bytes_written n (w_log w).
Proof.
  intros Hk Hq. assert (w_log w' = w_log (world_call w c)) as -> by (unfold w_log; by rewrite Hk).
  rewrite call_read, call_written. destruct (Hq (fst (k_call c (w_kernel w)))) as [-> ->].
  by rewrite !app_nil_r.
Qed.

(** What a piece of code has written to [num], and that it leaves the rest alone. *)
Record wrote (num : Z) (d : bytes) (w w' : world (K * list event) U) : Prop := {
  wr_same : bytes_written num (w_log w') = bytes_written num (w_log w) ++ d;
  wr_other : forall num', num' <> num -> bytes_written num' (w_log w') = bytes_written num' (w_log w);
  wr_read : forall num', bytes_read num' (w_log w') = bytes_read num' (w_log w);
  wr_state : w_state w' = w_state w
}.

Lemma wrote_turn w fd iov num o n :
  let c := sys_writev num iov in
  wrote num (ztake (rp_value (fst (k_call c (w_kernel w)))) (concat (map fst iov)))
    w (world_store (world_call w c) fd o n).
Proof.
  intros c. unfold c. split; try done; try intros num';
    change (w_log (world_store ?w' _ _ _)) with (w_log w'); rewrite world_call_log.
  - rewrite bytes_written_snoc. cbn. by rewrite Z.eqb_refl.
  - intros Hn. rewrite bytes_written_snoc. cbn. rewrite (proj2 (Z.eqb_neq _ _)) by done. apply app_nil_r.
  - rewrite bytes_read_snoc. apply app_nil_r.
Qed.

Lemma wrote_trans num d1 d2 w1 w2 w3 : wrote num d1 w1 w2 -> wrote num d2 w2 w3 -> wrote num (d1 ++ d2) w1 w3.
Proof.
  intros [A1 A2 A3 A4] [B1 B2 B3 B4]. split; try congruence.
  - by rewrite B1, A1, app_assoc.
  - intros num' Hn. by rewrite B2, A2.
Qed.

Lemma write_loop_all fuel fd buffer total w o n :
  w_fds w !! fd = Some (o, n) -> (length (concat buffer) < fuel)%nat ->
  0 <= total -> total + zlen (concat buffer) < 2 ^ 63 ->
  wp (write_loop fuel fd buffer true total) (trouble (K * list event))
    (fun v w' => v = total + zlen (concat buffer) /\ wrote (fw_fd o) (concat buffer) w w') w.
Proof.
  revert buffer total w o. induction fuel as [|fuel IH]; intros buffer total w o Ho Hf Ht Hsz; [lia|].
  eapply write_turn_wp; [done|done|lia|]. intros c v buffer' Hb Hv Hz. cbn [andb].
  pose proof (wrote_turn w fd (BufferViewList_as_iovecs buffer) (fw_fd o) (write_done o) n) as Hw.
  cbv zeta in Hw. fold c v in Hw. rewrite iovecs_concat in Hw. rewrite u64_small by lia.
  assert (zlen (concat buffer') = zlen (concat buffer) - v) as Hb' by (rewrite Hb; zl).
  rewrite views_size by lia. destruct (Z.eqb_spec (zlen (concat buffer')) 0) as [Hend|Hend]; cbn [negb].
  - wp_step. split; [lia|]. by rewrite ztake_ge in Hw by lia.
  - assert (v <> 0) as Hv0 by (intros Hv0; rewrite (Hz Hv0), zlen_nil in *; lia).
    eapply wp_mono; [apply (IH _ _ _ (write_done o)); [apply lookup_insert_eq|unfold zlen in *; lia|lia|lia]|done|].
    intros v' w' [-> Hw']. split; [lia|]. rewrite Hb in Hw'.
    pose proof (wrote_trans _ _ _ _ _ _ Hw Hw') as Hall. by rewrite ztake_zdrop in Hall.
Qed.

(** C20.  Writing with [write_all] ends, and unless a call fails it hands the whole
    buffer to the kernel: whatever part each [writev] accepts, the bytes written to
    the descriptor are exactly those of the buffer, in order, nothing goes to
    another descriptor, and the number returned is the size of the buffer. *)
Theorem write_all_delivers fd buffer (w : world (K * list event) U) o n :
  w_fds w !! fd = Some (o, n) -> zlen (concat buffer) < 2 ^ 63 ->
  match FileDescriptor_write_views fd buffer true w with
  | Ok (v, w') => v = zlen (concat buffer) /\ wrote (fw_fd o) (concat buffer) w w'
  | Throw e => trouble K e
  end.
Proof.
  intros Ho Hsz. pose proof (write_loop_all (S (length (concat buffer))) fd buffer 0 w o n Ho) as Hw.
  unfold wp in Hw. unfold FileDescriptor_write_views.
  specialize (Hw ltac:(lia) ltac:(lia) ltac:(lia)). destruct (write_loop _ _ _ _ _ w) as [[v w']|e]; [done|].
  by apply trouble_logged.
Qed.

(** ** The life of a descriptor *)

(** What the holders of handles on one descriptor do. *)
Inductive handle_op : Type :=
  | h_duplicate
  | h_destroy
  | h_read (limit : Z)
  | h_write (data : bytes)
  | h_close.

Definition handle_exec (fd : FileDescriptor) (op : handle_op) : io (world (K * list event) U) unit :=
  match op with
  | h_duplicate => _ ← FileDescriptor_duplicate fd; mret tt
  | h_destroy => FileDescriptor_destroy fd
  | h_read limit => _ ← FileDescriptor_read fd limit; mret tt
  | h_write data => _ ← FileDescriptor_write fd data true; mret tt
  | h_close => FileDescriptor_close fd
  end.

Fixpoint handle_run (fd : FileDescriptor) (ops : list handle_op) : io (world (K * list event) U) unit :=
  match ops with
  | [] => mret tt
  | op :: ops => _ ← handle_exec fd op; handle_run fd ops
  end.

(** From the first handle on. *)
Definition handle_life (num : Z) (ops : list handle_op) : io (world (K * list event) U) FileDescriptor :=
  fd ← FileDescriptor_new num;
  _ ← handle_run fd ops;
  mret fd.

Definition handle_op_ok (op : handle_op) : Prop :=
  match op with
  | h_read limit => 0 <= limit < 2 ^ 64
  | h_write data => zlen data < 2 ^ 63
  | _ => True
  end.

(** The number of handles after an operation, from [n], and after several of them:
    none when the last one is gone before the end. *)
Definition handles_after (op : handle_op) (n : nat) : nat :=
  match op with h_duplicate => S n | h_destroy => pred n | _ => n end.

Fixpoint handles_end (ops : list handle_op) (n : nat) : option nat :=
  match ops, n with
  | [], _ => Some n
  | _ :: _, O => None
  | op :: ops, S _ => handles_end ops (handles_after op n)
  end.

Definition is_close_op (op : handle_op) : bool := match op with h_close => true | _ => false end.
Definition asked_to_close (ops : list handle_op) : nat := length (List.filter is_close_op ops).

(** How often [::close] was called with [num]. *)
Definition is_close (num : Z) (e : event) : bool :=
  match fst e with sys_close num' => num' =? num | _ => false end.
Definition closes (num : Z) (log : list event) : nat := length (List.filter (is_close num) log).

(** The descriptor has [n] handles left and was closed [k] times. *)
Definition handle_state (fd : FileDescriptor) (num : Z) (n k k0 : nat) (w : world (K * list event) U) : Prop :=
  match n with
  | O => w_fds w !! fd = None /\ closes num (w_log w) = (k0 + Nat.max 1 k)%nat
  | S _ => closes num (w_log w) = (k0 + k)%nat /\
           exists o, w_fds w !! fd = Some (o, n) /\ fw_fd o = num /\ fw_closed o = bool_decide (k <> 0%nat)
  end.

Lemma closes_call num (w : world (K * list event) U) c :
  closes num (w_log (world_call w c)) =
  (closes num (w_log w) + match c with sys_close num' => if (num' =? num)%Z then 1 else 0 | _ => 0 end)%nat.
Proof.
  rewrite world_call_log. unfold closes. rewrite List.filter_app, length_app. f_equal. cbn.
  unfold is_close. cbn. by destruct c; try done; destruct (_ =? _).
Qed.

Lemma closes_turn num (w : world (K * list event) U) c fd o n :
  closes num (w_log (world_store (world_call w c) fd o n)) =
  (closes num (w_log w) + match c with sys_close num' => if (num' =? num)%Z then 1 else 0 | _ => 0 end)%nat.
Proof. apply closes_call. Qed.

(** Writing keeps what every turn of the loop keeps. *)
Lemma write_loop_inv (P : world (K * list event) U -> Prop) fuel fd buffer write_all total w :
  (forall w, P w -> exists o n, w_fds w !! fd = Some (o, n) /\
     forall iov, P (world_store (world_call w (sys_writev (fw_fd o) iov)) fd (write_done o) n)) ->
  (length (concat buffer) < fuel)%nat -> zlen (concat buffer) < 2 ^ 63 -> P w ->
  wp (write_loop fuel fd buffer write_all total) (trouble (K * list event)) (fun _ => P) w.
Proof.
  intros HP. revert buffer total w. induction fuel as [|fuel IH]; intros buffer total w Hf Hsz Hw; [lia|].
  destruct (HP w Hw) as (o & n & Ho & Hturn). eapply write_turn_wp; [done|done|done|].
  intros c v buffer' Hb Hv Hz. destruct (write_all && _) eqn:Eg; [|by wp_step; apply Hturn].
  b2p. assert (zlen (concat buffer') = zlen (concat buffer) - v) as Hb' by (rewrite Hb; zl).
  rewrite views_size in * by lia.
  assert (v <> 0) as Hv0 by (intros Hv0; rewrite (Hz Hv0), zlen_nil in *; lia).
  apply IH; [unfold zlen in *; lia|lia|apply Hturn].
Qed.

Lemma handle_exec_ok fd num op n k k0 w :
  handle_op_ok op -> handle_state fd num (S n) k k0 w ->
  wp (handle_exec fd op) (trouble (K * list event))
    (fun _ => handle_state fd num (handles_after op (S n)) (k + if is_close_op op then 1 else 0) k0) w.
Proof.
  intros Hop Hw. pose proof Hw as (Hc & o & Ho & Hnum & Hcl).
  destruct op as [| |limit|data|]; cbn [handle_exec handles_after is_close_op pred] in *; rewrite ?Nat.add_0_r.
  - wp_step. unfold wp, FileDescriptor_duplicate. rewrite Ho. split; [done|]. exists o.
    split; [apply lookup_insert_eq|done].
  - unfold wp, FileDescriptor_destroy. rewrite Ho. destruct n as [|n].
    + unfold FDWrapper_destroy, deref, mbind, io_bind, mret, io_ret. rewrite Ho, Hcl.
      case_bool_decide as Hk; cbn [handle_state].
      * split; [apply lookup_delete_eq|]. change (w_log _) with (w_log w). lia.
      * rewrite call_eq. split; [apply lookup_delete_eq|].
        rewrite Hk in *.
        change (w_log _) with (w_log (world_call w (sys_close (fw_fd o)))).
        rewrite closes_call, Hnum, Z.eqb_refl. lia.
    + split; [done|]. exists o. split; [apply lookup_insert_eq|done].
  - wp_step. eapply read_wp; [done|done|done|]. intros c r d Hd. wp_step.
    split; [rewrite closes_turn, Hc; unfold c; lia|]. eexists. split; [apply lookup_insert_eq|done].
  - wp_step. eapply wp_mono; [apply (write_loop_inv (handle_state fd num (S n) k k0))|done|intros; by apply wp_ret];
      [|cbn; rewrite app_nil_r; lia|cbn; by rewrite app_nil_r|exact Hw].
    intros w1 (Hc1 & o1 & Ho1 & Hnum1 & Hcl1). exists o1, (S n). split; [done|]. intros iov.
    split; [rewrite closes_turn; lia|]. eexists. split; [apply lookup_insert_eq|done].
  - eapply close_wp; [done|done|]. split.
    + rewrite closes_turn, Hnum, Z.eqb_refl. lia.
    + eexists. split; [apply lookup_insert_eq|]. split; [done|]. cbn. symmetry. apply bool_decide_eq_true. lia.
Qed.

Lemma handle_run_ok fd num ops n k k0 w m :
  Forall handle_op_ok ops -> handles_end ops n = Some m -> handle_state fd num n k k0 w ->
  wp (handle_run fd ops) (trouble (K * list event)) (fun _ => handle_state fd num m (k + asked_to_close ops) k0) w.
Proof.
  intros Hok. revert n k w. induction Hok as [|op ops Hop Hok IH]; intros n k w Hm Hw; cbn [handle_run].
  - wp_step. cbn in *. rewrite Nat.add_0_r. by injection Hm as ->.
  - destruct n as [|n]; [done|]. wp_step. eapply wp_mono; [by apply handle_exec_ok|done|]. intros [] w' Hw'.
    eapply wp_mono; [by eapply IH|done|]. intros [] w2. unfold asked_to_close. cbn [List.filter].
    destruct (is_close_op op); cbn [length]; rewrite <- Nat.add_assoc; done.
Qed.

(** C21.  A descriptor lives as long as its handles: whatever its holders do, with
    handles left the kernel has closed it only as often as it was asked to with
    [close()]; when the last handle is gone so is the wrapper, and the kernel has
    closed the descriptor at least once, exactly once unless [close()] was called
    more than once. *)
Theorem descriptor_closed_with_last_handle num ops (w0 : world (K * list event) U) n :
  0 <= num -> Forall handle_op_ok ops -> handles_end ops 1 = Some n ->
  match handle_life num ops w0 with
  | Ok (fd, w) => handle_state fd num n (asked_to_close ops) (closes num (w_log w0)) w
  | Throw e => trouble K e
  end.
Proof.
  intros Hnum Hops Hn.
  enough (wp (handle_life num ops) (trouble (K * list event))
    (fun fd => handle_state fd num n (asked_to_close ops) (closes num (w_log w0))) w0) as Hwp.
  { unfold wp in Hwp. destruct (handle_life num ops w0) as [[fd w]|e]; [done|by apply trouble_logged]. }
  unfold handle_life, FileDescriptor_new, FDWrapper_new. rewrite (proj2 (Z.ltb_ge _ _)) by done.
  wp_step. wp_step. wp_step. unfold wp at 1, make_shared. wp_step.
  eapply wp_mono; [apply (handle_run_ok (w_next w0) num ops 1 0 (closes num (w_log w0))); [done|done|]|done|].
  - split; [by rewrite Nat.add_0_r|]. eexists. split; [apply lookup_insert_eq|done].
  - intros [] w Hw. by wp_step.
Qed.

End logs.

(** ** Examples *)

Definition toy_world (inputs : gmap Z bytes) (chunk : Z) : world (toy * list event) unit :=
  MkWorld (MkToy inputs chunk, []) ∅ 0 tt.

(** Seven bytes, written three at a time. *)
Definition toy_writer : world (toy * list event) unit :=
  MkWorld (MkToy ∅ 3, []) {[ 0%nat := (MkFDWrapper 5 false false 0 0, 1%nat) ]} 1 tt.

Lemma write_all_delivers_witness :
  exists v w', FileDescriptor_write_views 0%nat [[1; 2]; [3; 4; 5; 6; 7]] true toy_writer = Ok (v, w') /\
    v = 7 /\ bytes_written 5 (w_log w') = [1; 2; 3; 4; 5; 6; 7] /\ length (w_log w') = 3%nat.
Proof.
  pose proof (write_all_delivers (K:=toy) 0%nat [[1; 2]; [3; 4; 5; 6; 7]] toy_writer (MkFDWrapper 5 false false 0 0) 1%nat
    eq_refl eq_refl) as Hw.
  destruct (FileDescriptor_write_views _ _ _ _) as [[v w']|e] eqn:Ew.
  - exists v, w'. destruct Hw as [Hv [Hs _ _ _]]. split_and!; [done|done|exact Hs|].
    vm_compute in Ew. by injection Ew as <- <-.
  - destruct Hw as [Hn _]. by destruct (Hn toy_calm).
Defined.

Lemma descriptor_closed_with_last_handle_witness :
  exists fd w, handle_life 5 [h_duplicate; h_read 10; h_destroy; h_write [1; 2]; h_destroy]
                 (toy_world {[5 := [1; 2; 3]]} 2) = Ok (fd, w) /\
    w_fds w !! fd = None /\ closes 5 (w_log w) = 1%nat.
Proof.
  pose proof (descriptor_closed_with_last_handle (K:=toy) 5 [h_duplicate; h_read 10; h_destroy; h_write [1; 2]; h_destroy]
    (toy_world {[5 := [1; 2; 3]]} 2) 0%nat) as Hw.
  destruct (handle_life _ _ _) as [[fd w]|e] eqn:Ew.
  - exists fd, w. split; [done|]. apply Hw; [done| |done]. repeat apply Forall_cons_2; by try apply Forall_nil_2.
  - destruct Hw as [Hn _]; [done| |done|by destruct (Hn toy_calm)].
    repeat apply Forall_cons_2; by try apply Forall_nil_2.
Defined.
