(* ===== verification/EventLoops.v ===== *)
(** Waiting for events on file descriptors: [EventLoop] and its [Rule]s
    (src/libsponge/util/eventloop.hh and .cc).

    A rule's callbacks are code on the world of [FileDescriptors]; the list of
    rules is the object itself.

    Theorems: an invariant that interest, callback and cancellation of each rule
    keep is kept by [wait_next_event], and when it reports that nothing is left to
    wait for, every rule that is left was found uninterested; a callback that
    neither reads nor writes and stays interested is reported as a busy wait; a
    [poll] that fails goes unnoticed unless it was interrupted. *)

From S2P Require Import Prelude Addresses Effects FileDescriptors.

Inductive Direction : Type := Direction_In | Direction_Out.

Definition direction_events (d : Direction) : Z :=
  match d with Direction_In => POLLIN | Direction_Out => POLLOUT end.

Inductive EventLoop_Result : Type := Result_Success | Result_Timeout | Result_Exit.

Record Rule (K U : Type) : Type := MkRule {
  ru_fd : FileDescriptor;
  ru_direction : Direction;
  ru_callback : io (world K U) unit;
  ru_interest : io (world K U) bool;
  ru_cancel : io (world K U) unit
}.

Arguments MkRule {K U}.
Arguments ru_fd {K U}.
Arguments ru_direction {K U}.
Arguments ru_callback {K U}.
Arguments ru_interest {K U}.
Arguments ru_cancel {K U}.

(** <errno.h> *)
Definition EINTR : Z := 4.

Section event_loop.
Context {K U : Type} `{Kernel K}.

Abbreviation prog := (io (world K U)).

Definition Rule_service_count (r : Rule K U) : prog Z :=
  match ru_direction r with
  | Direction_In => FileDescriptor_read_count (ru_fd r)
  | Direction_Out => FileDescriptor_write_count (ru_fd r)
  end.

(** The list of rules with a new one at its end. *)
Definition EventLoop_add_rule (rules : list (Rule K U)) (fd : FileDescriptor) (direction : Direction)
    (callback : prog unit) (interest : prog bool) (cancel : prog unit) : prog (list (Rule K U)) :=
  fd ← FileDescriptor_duplicate fd;
  mret (rules ++ [MkRule fd direction callback interest cancel]).

(** [this_rule.cancel(); it = _rules.erase(it);]: the rule's handle goes with it. *)
Definition cancel_rule (r : Rule K U) : prog unit :=
  _ ← ru_cancel r;
  FileDescriptor_destroy (ru_fd r).

(** The loop that sets up a [pollfd] for each rule: the rules left, their
    [pollfd]s (number and events), and [something_to_poll]. *)
Fixpoint setup_pollfds (rules : list (Rule K U)) : prog (list (Rule K U) * list (Z * Z) * bool) :=
  match rules with
  | [] => mret ([], [], false)
  | this_rule :: rules =>
      eof ← (match ru_direction this_rule with Direction_In => FileDescriptor_eof (ru_fd this_rule) | Direction_Out => mret false end);
      if (eof : bool) then _ ← cancel_rule this_rule; setup_pollfds rules
      else
        closed ← FileDescriptor_closed (ru_fd this_rule);
        if (closed : bool) then _ ← cancel_rule this_rule; setup_pollfds rules
        else
          interested ← ru_interest this_rule;
          num ← FileDescriptor_fd_num (ru_fd this_rule);
          '(rules, pollfds, something) ← setup_pollfds rules;
          mret (this_rule :: rules,
                (num, if (interested : bool) then direction_events (ru_direction this_rule) else 0) :: pollfds,
                interested || something)
  end.

(** The loop over the results of [poll]: the rules left. *)
Fixpoint service_rules (rules : list (Rule K U)) (pollfds : list (Z * Z)) (revents : list Z) : prog (list (Rule K U)) :=
  match rules with
  | [] => mret []
  | this_rule :: rules =>
      let events := default 0 (snd <$> head pollfds) in
      let revent := default 0 (head revents) in
      let poll_error := negb (Z.land revent (Z.lor POLLERR POLLNVAL) =? 0) in
      if poll_error then throw runtime_error
      else
        let poll_ready := negb (Z.land revent events =? 0) in
        let poll_hup := negb (Z.land revent POLLHUP =? 0) in
        if poll_hup && negb (events =? 0) && negb poll_ready then
          _ ← cancel_rule this_rule;
          service_rules rules (tail pollfds) (tail revents)
        else
          _ ← (if poll_ready then
                 count_before ← Rule_service_count this_rule;
                 _ ← ru_callback this_rule;
                 count_after ← Rule_service_count this_rule;
                 if count_before =? count_after then
                   interested ← ru_interest this_rule;
                   if (interested : bool) then throw runtime_error else mret tt
                 else mret tt
               else mret tt);
          rules ← service_rules rules (tail pollfds) (tail revents);
          mret (this_rule :: rules)
  end.

(** [wait_next_event(timeout_ms)]: the result, and the rules left. *)
Definition EventLoop_wait_next_event (rules : list (Rule K U)) (timeout_ms : Z) :
    prog (EventLoop_Result * list (Rule K U)) :=
  '(rules, pollfds, something_to_poll) ← setup_pollfds rules;
  if negb something_to_poll then mret (Result_Exit, rules)
  else
    r ← call (sys_poll pollfds timeout_ms);
    let go_through :=
      rules ← service_rules rules pollfds (rp_numbers r);
      mret (Result_Success, rules) in
    match SystemCall (rp_value r) (rp_errno r) 0 with
    | Ok v => if v =? 0 then mret (Result_Timeout, rules) else go_through
    | Throw (unix_error errno) => if errno =? EINTR then mret (Result_Exit, rules) else go_through
    | Throw e => throw e
    end.

(** The handles of the rules that are left go with the event loop. *)
Fixpoint EventLoop_destroy (rules : list (Rule K U)) : prog unit :=
  match rules with
  | [] => mret tt
  | r :: rules => _ ← FileDescriptor_destroy (ru_fd r); EventLoop_destroy rules
  end.

End event_loop.

(** ** The invariant of an event loop *)

(** The count of a wrapper that matters to a rule. *)
Definition service_of (d : Direction) (o : FDWrapper) : Z :=
  match d with Direction_In => fw_read_count o | Direction_Out => fw_write_count o end.

Section invariant.
Context {K U : Type} `{KernelLaws K}.
Context (E : exn -> Prop) (HE : forall e, trouble K e -> E e).

(** [J rules w] holds between events; [X r w] is what is known of the world when
    rule [r] is not interested, [Y r w] when it is. *)
Context (J : list (Rule K U) -> world K U -> Prop) (X Y : Rule K U -> world K U -> Prop).

(** What is known of the rules in [l] stays true. *)
Definition undisturbed (l : list (Rule K U)) (w w' : world K U) : Prop := forall x, x ∈ l -> X x w -> X x w'.

(** A rule that reads is not served after the end of file. *)
Definition rule_open (r : Rule K U) (w : world K U) : Prop :=
  ru_direction r = Direction_In -> exists o n, w_fds w !! ru_fd r = Some (o, n) /\ fw_eof o = false.

(** The rules in [l] that are open, or known to be interested, stay so. *)
Definition stay_open (l : list (Rule K U)) (w w' : world K U) : Prop :=
  forall x, x ∈ l -> (rule_open x w -> rule_open x w') /\ (Y x w -> Y x w').

Lemma stay_open_refl l w : stay_open l w w.
Proof. by intros x. Qed.

Lemma stay_open_trans l w1 w2 w3 : stay_open l w1 w2 -> stay_open l w2 w3 -> stay_open l w1 w3.
Proof. intros H1 H2 x Hx. destruct (H1 x Hx), (H2 x Hx). auto. Qed.

Lemma stay_open_sub l l' w w' : (forall x, x ∈ l' -> x ∈ l) -> stay_open l w w' -> stay_open l' w w'.
Proof. intros Hs H1 x Hx. auto. Qed.

(** Why a rule may be cancelled: end of file, a closed descriptor, or a hangup. *)
Definition cancel_reason (r : Rule K U) (w : world K U) : Prop :=
  (exists o n, w_fds w !! ru_fd r = Some (o, n) /\
     (ru_direction r = Direction_In /\ fw_eof o = true \/ fw_closed o = true)) \/
  ~ no_hangup K.

(** What each rule has to do for its part.  A callback reads, writes, or loses
    interest. *)
Record loop_laws : Prop := {
  ll_alive : forall l r w, J l w -> r ∈ l -> is_Some (w_fds w !! ru_fd r);
  ll_interest : forall l r w, J l w -> r ∈ l ->
    wp (ru_interest r) E (fun b w' => J l w' /\ undisturbed l w w' /\ stay_open l w w' /\
      if b then Y r w' else X r w') w;
  ll_cancel : forall l1 r l2 w, J (l1 ++ r :: l2) w -> cancel_reason r w ->
    wp (cancel_rule r) E (fun _ w' => J (l1 ++ l2) w' /\ undisturbed l1 w w' /\ stay_open (l1 ++ l2) w w') w;
  ll_callback : forall l1 r l2 w, J (l1 ++ r :: l2) w -> rule_open r w -> Y r w ->
    wp (ru_callback r) E (fun _ w' => J (l1 ++ r :: l2) w' /\ stay_open l2 w w' /\
      ((exists o n o' n', w_fds w !! ru_fd r = Some (o, n) /\ w_fds w' !! ru_fd r = Some (o', n') /\
          service_of (ru_direction r) o <> service_of (ru_direction r) o') \/
       wp (ru_interest r) E (fun b w'' => b = false) w')) w
}.

Context (HL : loop_laws).

(** Waiting does not touch what the invariant is about. *)
Context (HK : forall l w fds t, J l w -> J l (world_call w (sys_poll fds t))).
Context (HY : forall r w fds t, Y r w -> Y r (world_call w (sys_poll fds t))).

Lemma alive_wp {A} (f : FDWrapper -> A) fd w (Q : A -> world K U -> Prop) :
  is_Some (w_fds w !! fd) -> (forall o n, w_fds w !! fd = Some (o, n) -> Q (f o) w) ->
  wp (o ← deref fd; mret (f o)) E Q w.
Proof. intros [[o n] Ho] HQ. wp_step. eapply deref_wp; [done|]. wp_step. by eapply HQ. Qed.

(** The uninterested rules among those left. *)
Definition idle (interests : bool) (l : list (Rule K U)) (w : world K U) : Prop :=
  interests = false -> Forall (fun r => X r w) l.

(** A rule whose [pollfd] asks for events is interested. *)
Definition asked (w : world K U) (r : Rule K U) (pollfd : Z * Z) : Prop :=
  rule_open r w /\ (snd pollfd <> 0 -> Y r w).

Lemma asked_stay l pollfds w w' : stay_open l w w' -> Forall2 (asked w) l pollfds -> Forall2 (asked w') l pollfds.
Proof.
  intros Hst Ha. induction Ha as [|r p l pollfds [H1 H2] Ha IH]; constructor.
  - destruct (Hst r ltac:(left)) as [H3 H4]. split; auto.
  - apply IH. intros x Hx. apply Hst. by right.
Qed.

(** What setting up leaves: the invariant, the rules before those set up as they
    were, and all rules that read open. *)
Definition setup_done (pre rules : list (Rule K U)) (w : world K U) (l : list (Rule K U)) (pollfds : list (Z * Z))
    (something : bool) (w' : world K U) : Prop :=
  J (pre ++ l) w' /\ undisturbed pre w w' /\ stay_open pre w w' /\ l `sublist_of` rules /\ idle something l w' /\
  Forall2 (asked w') l pollfds.

Lemma in_middle {A} (x : A) l1 l2 : x ∈ l1 ++ x :: l2.
Proof. apply elem_of_app. right. left. Qed.

Lemma setup_cancelled pre r rules w :
  (forall w, J (pre ++ rules) w ->
     wp (setup_pollfds rules) E (fun '(l, pollfds, something) w' => setup_done pre rules w l pollfds something w') w) ->
  J (pre ++ r :: rules) w -> cancel_reason r w ->
  wp (_ ← cancel_rule r; setup_pollfds rules) E
    (fun '(l, pollfds, something) w' => setup_done pre (r :: rules) w l pollfds something w') w.
Proof.
  intros IH HJ Hr. wp_step. eapply wp_mono; [by apply (ll_cancel HL)|done|]. intros [] w1 (HJ1 & Hu1 & Ho1).
  eapply wp_mono; [by apply IH|done|]. intros [[l pollfds] something] w2 (HJ2 & Hu2 & Ho2 & Hs & Hi & Hop).
  split_and!; [done|intros x Hx Hw; auto| |by constructor|done|done].
  eapply stay_open_trans; [|exact Ho2]. eapply stay_open_sub; [|exact Ho1]. intros x Hx. apply elem_of_app. by left.
Qed.

Lemma setup_wp rules pre w :
  J (pre ++ rules) w ->
  wp (setup_pollfds rules) E (fun '(l, pollfds, something) w' => setup_done pre rules w l pollfds something w') w.
Proof.
  revert pre w. induction rules as [|r rules IH]; intros pre w HJ; cbn [setup_pollfds].
  { wp_step. split_and!; try done; [by intros x|by constructor]. }
  pose proof (in_middle r pre rules) as Hin.
  pose proof (setup_cancelled pre r rules w (IH pre) HJ) as Hcancel.
  wp_step. assert (wp (match ru_direction r with Direction_In => FileDescriptor_eof (ru_fd r) | Direction_Out => mret false end)
    E (fun eof w' => w' = w /\ (if eof then cancel_reason r w else rule_open r w)) w) as Heof.
  { unfold rule_open. destruct (ru_direction r) eqn:Ed; [|by wp_step]. apply (alive_wp fw_eof); [by apply (ll_alive HL _ _ _ HJ)|].
    intros o n Ho. split; [done|]. destruct (fw_eof o) eqn:Ee; [left|]; eauto 6. }
  eapply wp_mono; [exact Heof|done|]. intros eof w1 [-> Hr]. destruct eof; [by apply Hcancel, Hr|].
  wp_step. apply (alive_wp fw_closed); [by apply (ll_alive HL _ _ _ HJ)|]. intros o n Ho.
  destruct (fw_closed o) eqn:Ec; [apply Hcancel; left; exists o, n; auto|]. wp_step.
  eapply wp_mono; [by apply (ll_interest HL)|done|]. intros interested w1 (HJ1 & Hu1 & Ho1 & Hi1).
  wp_step. apply (alive_wp fw_fd); [by apply (ll_alive HL _ _ _ HJ1)|]. intros o1 n1 _. wp_step.
  rewrite cons_middle, app_assoc in HJ1.
  eapply wp_mono; [by apply IH|done|]. intros [[l pollfds] something] w2 (HJ2 & Hu2 & Ho2 & Hs & Hi2 & Hop). wp_step.
  assert (forall x, x ∈ pre -> x ∈ pre ++ [r] /\ x ∈ pre ++ r :: rules) as Hpre.
  { intros x Hx. split; apply elem_of_app; by left. }
  split_and!; [by rewrite cons_middle, app_assoc| | |by constructor| |].
  - intros x Hx Hw. destruct (Hpre x Hx). auto.
  - eapply stay_open_trans; eapply stay_open_sub; [|exact Ho1| |exact Ho2]; intros x Hx; by destruct (Hpre x Hx).
  - intros Hb. apply orb_false_iff in Hb as [-> ->]. constructor; [|auto]. apply Hu2; [apply in_middle|auto].
  - constructor; [|done]. destruct (Ho1 r Hin) as [A1 _]. destruct (Ho2 r (in_middle r pre [])) as [A2 A3].
    split; [auto|]. destruct interested; cbn; [auto|done].
Qed.

(** What the rules that are served may assume of the results of [poll]. *)
Record revents_ok (revents : list Z) : Prop := {
  rv_calm : calm K -> Forall (fun x => Z.land x (Z.lor POLLERR POLLNVAL) = 0) revents;
  rv_hangup : no_hangup K -> Forall (fun x => Z.land x POLLHUP = 0) revents
}.

Lemma revents_tail revents : revents_ok revents -> revents_ok (tail revents).
Proof.
  intros [H1 H2]. split; intros Hc; [specialize (H1 Hc)|specialize (H2 Hc)]; by destruct revents; [|inversion H1 || inversion H2].
Qed.

Lemma service_count_wp r w (Q : Z -> world K U -> Prop) :
  is_Some (w_fds w !! ru_fd r) ->
  (forall o n, w_fds w !! ru_fd r = Some (o, n) -> Q (service_of (ru_direction r) o) w) ->
  wp (Rule_service_count r) E Q w.
Proof.
  intros Ha HQ. unfold Rule_service_count, service_of in *. destruct (ru_direction r); by apply alive_wp.
Qed.

(** Serving one rule that is ready. *)
Lemma serve_wp pre r rules w :
  J (pre ++ r :: rules) w -> rule_open r w -> Y r w ->
  wp (count_before ← Rule_service_count r;
      _ ← ru_callback r;
      count_after ← Rule_service_count r;
      if count_before =? count_after then
        interested ← ru_interest r;
        if (interested : bool) then throw runtime_error else mret tt
      else mret tt) E
    (fun _ w' => J (pre ++ r :: rules) w' /\ stay_open rules w w') w.
Proof.
  intros HJ Hr Hy. pose proof (in_middle r pre rules) as Hin.
  wp_step. apply service_count_wp; [by apply (ll_alive HL _ _ _ HJ)|]. intros o n Ho. wp_step.
  eapply wp_mono; [by apply (ll_callback HL)|done|]. intros [] w1 (HJ1 & Hst & Hprog).
  wp_step. apply service_count_wp; [by apply (ll_alive HL _ _ _ HJ1)|]. intros o1 n1 Ho1.
  destruct (Z.eqb_spec (service_of (ru_direction r) o) (service_of (ru_direction r) o1)) as [Heq|Heq]; [|by wp_step].
  destruct Hprog as [(o2 & n2 & o3 & n3 & E2 & E3 & Hne)|Hint]; [congruence|].
  wp_step. pose proof (ll_interest HL _ _ _ HJ1 Hin) as Hi. unfold wp in Hi, Hint |- *.
  destruct (ru_interest r w1) as [[b w2]|e]; [|done]. destruct Hi as (HJ2 & _ & Hst2 & _). rewrite Hint.
  split; [done|]. eapply stay_open_trans; [exact Hst|]. eapply stay_open_sub; [|exact Hst2]. intros x Hx.
  apply elem_of_app. right. by right.
Qed.

Lemma service_wp rules pre pollfds revents w :
  J (pre ++ rules) w -> Forall2 (asked w) rules pollfds -> revents_ok revents ->
  wp (service_rules rules pollfds revents) E (fun l w' => J (pre ++ l) w' /\ l `sublist_of` rules) w.
Proof.
  revert pre pollfds revents w. induction rules as [|r rules IH]; intros pre pollfds revents w HJ Hop Hrv;
    cbn [service_rules]; [by wp_step|].
  pose proof (revents_tail _ Hrv) as Htail. destruct Hrv as [Hcalm Hhup].
  inversion Hop as [|? pf ? pfs [Hopen Hasked] Hrest]; subst. cbn [head fmap option_fmap option_map default tail].
  wp_if.
  { wp_step. apply HE. split; [|by left]. intros Hc. specialize (Hcalm Hc). b2p. by destruct Hcalm. }
  wp_if.
  { assert (cancel_reason r w) as Hr.
    { right. intros Hc. specialize (Hhup Hc). b2p.
      match goal with Hx : Z.land _ POLLHUP <> 0 |- _ => apply Hx end. by destruct Hhup. }
    wp_step. eapply wp_mono; [by apply (ll_cancel HL)|done|]. intros [] w1 (HJ1 & _ & Hst).
    eapply wp_mono; [apply IH; [done| |done]|done|].
    - eapply asked_stay; [|exact Hrest]. eapply stay_open_sub; [|exact Hst]. intros x Hx. apply elem_of_app. by right.
    - intros l w2 [HJ2 Hs]. split; [done|by constructor]. }
  wp_step. apply wp_mono with (E := E) (Q := fun _ w' => J (pre ++ r :: rules) w' /\ stay_open rules w w').
  - wp_if; [|wp_step; split; [done|apply stay_open_refl]]. apply serve_wp; [done|done|]. apply Hasked. intros Hz.
    b2p. match goal with Hx : Z.land _ _ <> 0 |- _ => apply Hx end. rewrite Hz. apply Z.land_0_r.
  - done.
  - intros [] w1 [HJ1 Hst1]. wp_step. rewrite cons_middle, app_assoc in HJ1.
    eapply wp_mono; [apply IH; [done|by eapply asked_stay|done]|done|]. intros l w2 [HJ2 Hs]. wp_step.
    split; [by rewrite cons_middle, app_assoc|by constructor].
Qed.

Lemma wait_next_event_wp l timeout w :
  J l w ->
  wp (EventLoop_wait_next_event l timeout) E
    (fun '(res, l') w' => J l' w' /\ l' `sublist_of` l /\
       (res = Result_Exit -> ~ calm K \/ Forall (fun r => X r w') l')) w.
Proof.
  intros HJ. unfold EventLoop_wait_next_event. wp_step.
  eapply wp_mono; [by apply (setup_wp l [])|done|]. intros [[l1 pollfds] something] w1 (HJ1 & _ & _ & Hs1 & Hi1 & Hop1).
  destruct something; cbn [negb]; [|wp_step; split_and!; try done; intros _; right; by apply Hi1].
  wp_step. set (c := sys_poll pollfds timeout). unfold wp at 1. rewrite call_eq.
  set (r := fst (k_call c (w_kernel w1))).
  assert (J l1 (world_call w1 c)) as HJ2 by by apply HK.
  assert (wp (rules ← service_rules l1 pollfds (rp_numbers r); mret (Result_Success, rules)) E
    (fun '(res, l') w' => J l' w' /\ l' `sublist_of` l /\
       (res = Result_Exit -> ~ calm K \/ Forall (fun r => X r w') l')) (world_call w1 c)) as Hgo.
  { wp_step. eapply wp_mono; [apply (service_wp l1 [])|done|]; [done| | |].
    - eapply Forall2_impl; [exact Hop1|]. intros r' pf [A1 A2]. split; [exact A1|]. intros Hpf. by apply HY, A2.
    - split; intros Hc; [by destruct (Hc c (w_kernel w1))|apply (Hc pollfds timeout)].
    - intros l2 w2 [HJ3 Hs2]. wp_step. split_and!; [done|by etrans|done]. }
  pose proof (SystemCall_law c (w_kernel w1)) as Hcall. fold r in Hcall. destruct Hcall as [[-> Hv]|[-> Hn]].
  - destruct (rp_value r =? 0); [|done]. wp_step. by split_and!.
  - destruct (rp_errno r =? EINTR); [|done]. wp_step. split_and!; [done|done|]. by left.
Qed.

(** Waiting again and again until there is nothing left, at most [turns] times:
    whether that is reached, and the rules left. *)
Fixpoint event_loop (turns : nat) (rules : list (Rule K U)) (timeout : Z) : io (world K U) (bool * list (Rule K U)) :=
  match turns with
  | O => mret (false, rules)
  | S turns =>
      '(res, rules) ← EventLoop_wait_next_event rules timeout;
      match res with
      | Result_Exit => mret (true, rules)
      | _ => event_loop turns rules timeout
      end
  end.

Lemma event_loop_wp turns l timeout w :
  J l w ->
  wp (event_loop turns l timeout) E
    (fun '(exited, l') w' => J l' w' /\ l' `sublist_of` l /\
       (exited = true -> ~ calm K \/ Forall (fun r => X r w') l')) w.
Proof.
  revert l w. induction turns as [|turns IH]; intros l w HJ; cbn [event_loop]; [by wp_step|].
  wp_step. eapply wp_mono; [by apply wait_next_event_wp|done|]. intros [res l1] w1 (HJ1 & Hs1 & Hx1).
  assert (wp (event_loop turns l1 timeout) E
    (fun '(exited, l') w' => J l' w' /\ l' `sublist_of` l /\
       (exited = true -> ~ calm K \/ Forall (fun r => X r w') l')) w1) as Hnext.
  { eapply wp_mono; [by apply IH|done|]. intros [ex l2] w2 (HJ2 & Hs2 & Hx2). split_and!; [done|by etrans|done]. }
  destruct res; [done|done|]. wp_step. by split_and!; try intros; try apply Hx1.
Qed.

(** C16.  An event loop keeps every invariant that its rules keep.  The assumptions on
    the rules are those of [loop_laws]: interest, callback and cancellation of each rule
    keep the invariant, and a callback reads or writes its descriptor, or its rule is
    no longer interested afterwards.  Then after any number of calls of
    [wait_next_event] the invariant holds for the rules that are left, which are some
    of those there were, in their order, and exceptions are only those of the rules and
    of failing system calls.  Over a kernel whose system calls do not fail and whose
    [poll] reports no errors this means that there are only those of the rules, and not
    the one for busy waiting; and then, as nothing has interrupted it, when the loop
    ends each rule left has found nothing to be interested in. *)
Theorem event_loop_keeps_invariant turns l timeout w :
  J l w ->
  match event_loop turns l timeout w with
  | Ok (exited, l', w') => J l' w' /\ l' `sublist_of` l /\
      (exited = true -> calm K -> Forall (fun r => X r w') l')
  | Throw e => E e
  end.
Proof.
  intros HJ. pose proof (event_loop_wp turns l timeout w HJ) as Hwp. unfold wp in Hwp.
  destruct (event_loop turns l timeout w) as [[[ex l'] w']|e]; [|done].
  destruct Hwp as (H1 & H2 & H3). split_and!; [done|done|]. intros He Hc. by destruct (H3 He).
Qed.

End invariant.

(** ** A failing poll *)

Section failing.
Context {K U : Type} `{Kernel K}.

(** Nothing happened to any descriptor. *)
Lemma service_nothing (rules : list (Rule K U)) pollfds w :
  service_rules rules pollfds [] w = Ok (rules, w).
Proof.
  revert pollfds. induction rules as [|r rules IH]; intros pollfds; cbn [service_rules]; [done|].
  cbn [head default]. rewrite !Z.land_0_l. cbn. unfold mbind, io_bind. cbn. by rewrite IH.
Qed.

(** A [poll] that fails, other than by being interrupted, is not reported:
    with nothing written to the [revents], [wait_next_event] returns [Success]
    although no callback was called and nothing has happened. *)
Theorem poll_failure_unreported (rules rules' : list (Rule K U)) timeout w w1 pollfds errno k :
  setup_pollfds rules w = Ok (rules', pollfds, true, w1) ->
  k_call (sys_poll pollfds timeout) (w_kernel w1) = (MkReply (-1) errno [] [] (Address_v4 0 0), k) ->
  errno <> 0 -> errno <> EINTR ->
  EventLoop_wait_next_event rules timeout w = Ok (Result_Success, rules', world_set_kernel w1 k).
Proof.
  intros Es Ek H1 H2. unfold EventLoop_wait_next_event. unfold mbind at 1, io_bind at 1. rewrite Es. cbn [negb].
  unfold mbind at 1, io_bind at 1, call at 1. rewrite Ek. cbn [rp_value rp_errno rp_numbers].
  unfold SystemCall. change (i32 (-1)) with (-1). cbn [Z.leb Z.compare orb].
  rewrite (proj2 (Z.eqb_neq _ _)) by done. rewrite (proj2 (Z.eqb_neq _ _)) by done.
  unfold mbind, io_bind. by rewrite service_nothing.
Qed.

End failing.

(** ** Examples *)

(** A program that reads from descriptor 0 until its end. *)
Definition append_state (d : bytes) : io (world toy bytes) unit :=
  modify (fun w => world_set_state w (w_state w ++ d)).

Definition reader_rule : Rule toy bytes :=
  MkRule 0%nat Direction_In (d ← FileDescriptor_read 0%nat 10; append_state d) (mret true) (mret tt).

Definition reader_world (input : bytes) : world toy bytes :=
  MkWorld (MkToy {[7 := input]} 4) {[0%nat := (MkFDWrapper 7 false false 0 0, 2%nat)]} 1 [].

Definition reader_inv (l : list (Rule toy bytes)) (w : world toy bytes) : Prop :=
  (l = [reader_rule] /\ exists o, w_fds w !! 0%nat = Some (o, 2%nat)) \/
  (l = [] /\ exists o, w_fds w !! 0%nat = Some (o, 1%nat)).

Lemma reader_laws : loop_laws (trouble toy) reader_inv (fun _ _ => False) (fun _ _ => True).
Proof.
  split.
  - intros l r w [[-> [o Ho]]|[-> _]] Hr; [|set_solver]. apply list_elem_of_singleton in Hr as ->.
    by exists (o, 2%nat).
  - intros l r w HJ Hr. pose proof HJ as [[-> _]|[-> _]]; [|set_solver]. apply list_elem_of_singleton in Hr as ->.
    cbn [reader_rule ru_interest]. wp_step. split_and!; [done|by intros x|by intros x|exact I].
  - intros l1 r l2 w [[E1 [o Ho]]|[E1 _]] _; [|by destruct l1].
    destruct l1 as [|? []]; [|done..]. injection E1 as -> ->. unfold cancel_rule. cbn [reader_rule ru_cancel ru_fd]. wp_step. wp_step.
    eapply destroy_shared_wp; [exact Ho|]. split_and!; [|by intros x|intros x Hx; by apply elem_of_nil in Hx]. right. split; [done|].
    exists o. apply lookup_insert_eq.
  - intros l1 r l2 w [[E1 [o Ho]]|[E1 _]] _ _; [|by destruct l1].
    destruct l1 as [|? []]; [|done..]. injection E1 as -> ->.
    cbn [reader_rule ru_callback ru_interest ru_fd ru_direction]. wp_step. eapply read_wp; [done|done|done|]. intros c rp d Hd. unfold append_state. wp_step. split_and!.
    + left. split; [done|]. eexists. apply lookup_insert_eq.
    + intros x Hx. by apply elem_of_nil in Hx.
    + left. eexists o, 2%nat, _, 2%nat. split; [done|]. split; [apply lookup_insert_eq|]. cbn. wrap_lia.
Qed.

Lemma event_loop_keeps_invariant_witness :
  exists l w, event_loop 9 [reader_rule] (-1) (reader_world [1; 2; 3; 4; 5; 6]) = Ok (true, l, w) /\
    reader_inv l w /\ l = [] /\ w_state w = [1; 2; 3; 4; 5; 6].
Proof.
  pose proof (event_loop_keeps_invariant (K:=toy) (trouble toy) (fun e He => He) reader_inv (fun _ _ => False) (fun _ _ => True)
    reader_laws (fun l w fds t Hw => Hw) (fun r w fds t Hw => Hw) 9 [reader_rule] (-1) (reader_world [1; 2; 3; 4; 5; 6])) as Hw.
  destruct (event_loop _ _ _ _) as [[[ex l] w]|e] eqn:Ew.
  - destruct Hw as (H1 & H2 & H3); [left; split; [done|]; by eexists|].
    assert (ex = true /\ l = [] /\ w_state w = [1; 2; 3; 4; 5; 6]) as (-> & Hl & Hs).
    { vm_compute in Ew. by injection Ew as <- <- <-. }
    by exists l, w.
  - destruct Hw as [Hn _]; [left; split; [done|]; by eexists|]. by destruct (Hn toy_calm).
Defined.

(** A kernel that cannot [poll]. *)
Definition no_poll : Kernel unit := {| k_call c k := (MkReply (-1) 12 [] [] (Address_v4 0 0), k) |}.

Definition eager_rule : Rule unit unit := MkRule 0%nat Direction_Out (throw undefined_behaviour) (mret true) (mret tt).

Definition eager_world : world unit unit :=
  MkWorld tt {[0%nat := (MkFDWrapper 7 false false 0 0, 2%nat)]} 1 tt.

Lemma poll_failure_unreported_witness :
  @EventLoop_wait_next_event unit unit no_poll [eager_rule] 5 eager_world =
  Ok (Result_Success, [eager_rule], eager_world).
Proof.
  apply (@poll_failure_unreported unit unit no_poll [eager_rule] [eager_rule] 5 eager_world eager_world [(7, 4)] 12 tt);
    try done; by vm_compute.
Defined.
