(* ===== verification/RuleSets.v ===== *)
(** The rules of an event loop and the descriptors they hold: what the proofs about
    [bidirectional_stream_copy] and [TCPSpongeSocket] share.  Both have four rules,
    which are cancelled one by one while the order of the others stays. *)

From S2P Require Import Prelude Buffers ByteStreams Effects FileDescriptors EventLoops.

Inductive rule_id : Type := c1 | c2 | c3 | c4.

#[export] Instance rule_id_eq_dec : EqDecision rule_id.
Proof. solve_decision. Defined.

Definition all_ids : list rule_id := [c1; c2; c3; c4].
Definition rule_index (i : rule_id) : nat := match i with c1 => 1 | c2 => 2 | c3 => 3 | c4 => 4 end.

(** Rules stay in the order in which they were added. *)
Lemma ids_ordered (i1 i2 : list rule_id) i j :
  i1 ++ i :: i2 `sublist_of` all_ids -> j ∈ i1 -> (rule_index j < rule_index i)%nat.
Proof.
  intros Hs Hj. apply sublist_app_l in Hs as (k1 & k2 & Ek & H1 & H2).
  assert (j ∈ k1) as Hk1 by by eapply elem_of_sublist.
  assert (i ∈ k2) as Hk2 by (eapply elem_of_sublist; [|exact H2]; left).
  unfold all_ids in Ek. do 5 (destruct k1 as [|? k1]; [simplify_eq/=; set_solver|simplify_eq/=]).
Qed.

Lemma ids_later (i1 i2 : list rule_id) i j :
  i1 ++ i :: i2 `sublist_of` all_ids -> j ∈ i2 -> (rule_index i < rule_index j)%nat.
Proof.
  intros Hs Hj. apply list_elem_of_split in Hj as (l1 & l2 & ->).
  rewrite (app_assoc i1 [i] _ : i1 ++ i :: l1 ++ j :: l2 = _), app_assoc in Hs.
  apply (ids_ordered _ _ _ i Hs). set_solver.
Qed.

Lemma id_removed (i1 i2 : list rule_id) i :
  i1 ++ i :: i2 `sublist_of` all_ids -> bool_decide (i ∈ i1 ++ i2) = false.
Proof.
  intros Hs. apply bool_decide_eq_false. intros Hin.
  assert (NoDup (i1 ++ i :: i2)) as Hnd.
  { eapply sublist_NoDup; [|exact Hs]. unfold all_ids. repeat constructor; set_solver. }
  apply NoDup_app in Hnd as (_ & H1 & H2). apply NoDup_cons in H2 as [H2 _].
  apply elem_of_app in Hin as [Hin|Hin]; [|done]. destruct (H1 i Hin). left.
Qed.

Lemma id_kept (i1 i2 : list rule_id) i j :
  j <> i -> bool_decide (j ∈ i1 ++ i2) = bool_decide (j ∈ i1 ++ i :: i2).
Proof. intros Hne. apply bool_decide_ext. rewrite !elem_of_app, elem_of_cons. naive_solver. Qed.

Lemma ids_shrink (i1 i2 : list rule_id) i : i1 ++ i :: i2 `sublist_of` all_ids -> i1 ++ i2 `sublist_of` all_ids.
Proof. intros Hs. etrans; [|exact Hs]. apply sublist_app; [done|by constructor]. Qed.

(** Rules by their names. *)
Lemma rules_split {K U} (rule_of : rule_id -> Rule K U) ids l1 r l2 :
  l1 ++ r :: l2 = map rule_of ids ->
  exists i1 i i2, ids = i1 ++ i :: i2 /\ l1 = map rule_of i1 /\ r = rule_of i /\ l2 = map rule_of i2.
Proof.
  intros El. symmetry in El. apply map_eq_app in El as (i1 & i' & -> & <- & El).
  apply map_eq_cons in El as (i & i2 & -> & <- & <-). by exists i1, i, i2.
Qed.

(** ** Handles *)

Section handles.
Context (fd_of : rule_id -> FileDescriptor).

(** The handles that the rules hold. *)
Definition refs (ids : list rule_id) (fd : FileDescriptor) : nat :=
  length (List.filter (fun i => bool_decide (fd_of i = fd)) ids).

Lemma refs_removed i1 i i2 fd :
  refs (i1 ++ i :: i2) fd = (refs (i1 ++ i2) fd + if bool_decide (fd_of i = fd) then 1 else 0)%nat.
Proof.
  unfold refs. rewrite !List.filter_app, !length_app. cbn [List.filter].
  destruct (bool_decide _); cbn [length]; lia.
Qed.

(** A descriptor that is there and has more handles than those of the rules. *)
Definition alive (fds : gmap nat (FDWrapper * nat)) (fd : FileDescriptor) (n : Z) (ids : list rule_id)
    (may_close : bool) : Prop :=
  exists o k, fds !! fd = Some (o, k) /\ fw_fd o = n /\ (fw_closed o = true -> may_close = true) /\ (refs ids fd < k)%nat.

Lemma alive_ne fds fd n ids m fd' x : fd' <> fd -> alive fds fd n ids m -> alive (<[fd' := x]> fds) fd n ids m.
Proof. intros Hne (o & k & Ho & Hr). exists o, k. by rewrite lookup_insert_ne. Qed.

Lemma alive_set fds fd ids m o k : (refs ids fd < k)%nat -> (fw_closed o = true -> m = true) ->
  alive (<[fd := (o, k)]> fds) fd (fw_fd o) ids m.
Proof. intros Hk Hm. exists o, k. by rewrite lookup_insert_eq. Qed.

Lemma alive_fewer fds fd n i1 i i2 m : alive fds fd n (i1 ++ i :: i2) m -> alive fds fd n (i1 ++ i2) m.
Proof. intros (o & k & Ho & Hf & Hc & Hk). exists o, k. split_and!; try done. rewrite refs_removed in Hk. lia. Qed.

Lemma alive_released i1 i i2 fds o k fd n m :
  fds !! fd_of i = Some (o, S k) -> (refs (i1 ++ i :: i2) (fd_of i) < S k)%nat ->
  alive fds fd n (i1 ++ i :: i2) m -> alive (<[fd_of i := (o, k)]> fds) fd n (i1 ++ i2) m.
Proof.
  intros Hl Hk Hal. rewrite refs_removed, bool_decide_true in Hk by done.
  destruct (decide (fd_of i = fd)) as [<-|Hne]; [|apply alive_ne; [done|by eapply alive_fewer]].
  destruct Hal as (o1 & k1 & Ho1 & <- & Hc1 & _). rewrite Hl in Ho1. injection Ho1 as <- <-.
  apply alive_set; [lia|done].
Qed.

(** A descriptor is used, not closed. *)
Lemma alive_used fds (fd' : FileDescriptor) o o' k fd n ids m :
  fds !! fd' = Some (o, k) -> fw_fd o' = fw_fd o -> fw_closed o' = fw_closed o ->
  alive fds fd n ids m -> alive (<[fd' := (o', k)]> fds) fd n ids m.
Proof.
  intros Hl Hf Hc Hal. destruct (decide (fd' = fd)) as [<-|Hne]; [|by apply alive_ne].
  destruct Hal as (o1 & k1 & Ho1 & <- & Hc1 & Hk). rewrite Hl in Ho1. injection Ho1 as <- <-.
  rewrite <- Hf. apply alive_set; [done|]. by rewrite Hc.
Qed.

End handles.

(** ** End of file *)

Definition eof_of (fds : gmap nat (FDWrapper * nat)) (fd : FileDescriptor) : bool :=
  match fds !! fd with Some (o, _) => fw_eof o | None => false end.

Lemma eof_of_ne fds fd fd' x : fd' <> fd -> eof_of (<[fd' := x]> fds) fd = eof_of fds fd.
Proof. intros Hne. unfold eof_of. by rewrite lookup_insert_ne. Qed.

Lemma eof_of_eq fds fd o k : eof_of (<[fd := (o, k)]> fds) fd = fw_eof o.
Proof. unfold eof_of. by rewrite lookup_insert_eq. Qed.

Lemma eof_released fds (fd' : FileDescriptor) o k k' fd :
  fds !! fd' = Some (o, k') -> eof_of (<[fd' := (o, k)]> fds) fd = eof_of fds fd.
Proof.
  intros Hl. destruct (decide (fd' = fd)) as [<-|Hne]; [|by apply eof_of_ne].
  unfold eof_of. by rewrite lookup_insert_eq, Hl.
Qed.

(** ** Moving bytes *)

Section moving.
Context {K U : Type} `{KernelLaws K}.
Context (E : exn -> Prop) (HE : forall e, trouble (K * list event) e -> E e).

(** A callback that reads. *)
Lemma read_fd_wp fd w (Q : unit -> world (K * list event) U -> Prop) limit k o
    (body : bytes -> io (world (K * list event) U) unit) :
  w_fds w !! fd = Some (o, k) -> 0 <= limit < 2 ^ 64 ->
  (forall d w1, zlen d <= limit -> w_state w1 = w_state w -> w_fds w1 = <[fd := (read_done o limit d, k)]> (w_fds w) ->
     (forall n, bytes_read n (w_log w1) = bytes_read n (w_log w) ++ if fw_fd o =? n then d else []) ->
     (forall n, bytes_written n (w_log w1) = bytes_written n (w_log w)) ->
     wp (body d) E Q w1) ->
  wp (d ← FileDescriptor_read fd limit; body d) E Q w.
Proof.
  intros Ho Hlim HQ. wp_step. eapply read_wp; [done|done|done|]. intros c r d Hd. apply HQ; try done; intros n;
    change (w_log (world_store ?w' _ _ _)) with (w_log w').
  - rewrite call_read. f_equal.
  - rewrite call_written. apply app_nil_r.
Qed.

(** A callback that writes what a stream holds. *)
Lemma write_fd_wp fd w (Q : unit -> world (K * list event) U -> Prop) b k o
    (body : Z -> io (world (K * list event) U) unit) :
  w_fds w !! fd = Some (o, k) -> bs_wf b ->
  (forall v w1, 0 <= v <= zlen (bs_contents b) -> w_state w1 = w_state w ->
     w_fds w1 = <[fd := (write_done o, k)]> (w_fds w) ->
     (forall n, bytes_read n (w_log w1) = bytes_read n (w_log w)) ->
     (forall n, bytes_written n (w_log w1) =
        bytes_written n (w_log w) ++ if fw_fd o =? n then ztake v (bs_contents b) else []) ->
     kernel_steps (w_kernel w) (w_kernel w1) -> wp (body v) E Q w1) ->
  wp (v ← FileDescriptor_write fd (ByteStream_peek_output b (Z.min 65536 (ByteStream_buffer_size b))) false; body v)
    E Q w.
Proof.
  intros Ho Hwf HQ.
  rewrite (bs_wf_size _ Hwf). pose proof (zlen_nonneg (bs_contents b)).
  rewrite ByteStream_peek_output_eq by (done || lia). set (m := Z.min _ _).
  assert (zlen (ztake m (bs_contents b)) = m) as Hm by (unfold m; zl).
  wp_step. eapply write_some_wp; [done|done|lia|]. intros c v Hv _. unfold v in *.
  apply HQ; try done; [lia|..|apply kernel_step]; intros n; change (w_log (world_store ?w' _ _ _)) with (w_log w').
  - rewrite call_read. apply app_nil_r.
  - rewrite call_written. f_equal. unfold c. cbn [event_written fst snd map concat].
    rewrite app_nil_r, ztake_ztake by lia. rewrite Z.min_l by (fold c; lia). done.
Qed.

End moving.
