(* ===== verification/Sockets.v ===== *)
(** Sockets and TUN/TAP devices: [Socket], [UDPSocket], [TCPSocket] and
    [LocalStreamSocket] (src/libsponge/util/socket.hh and .cc), [TunTapFD]
    (src/libsponge/util/tun.hh and .cc).

    Each operation is the sequence of system calls its method makes, with the
    checks the method makes of their results.  A socket is its [FileDescriptor].

    Theorem: [UDPSocket::recv] returns whole datagrams with the address they came
    from, or throws; [shutdown] counts as reading or writing, so that an event loop
    sees progress. *)

From S2P Require Import Prelude Buffers StreamReassemblers Addresses Effects FileDescriptors EventLoops.

Definition AF_UNIX : Z := 1.
Definition SOCK_STREAM : Z := 1.
Definition SOCK_DGRAM : Z := 2.
Definition SOL_SOCKET : Z := 1.
Definition SO_REUSEADDR : Z := 2.
Definition SO_TYPE : Z := 3.
Definition SO_DOMAIN : Z := 39.
Definition SHUT_RD : Z := 0.
Definition SHUT_WR : Z := 1.
Definition SHUT_RDWR : Z := 2.
Definition sizeof_int : Z := 4.

(** An [Address] from what a system call has left in an [Address::Raw], of which it
    does not write more than there is, and the length that it has reported. *)
Definition Address_received (a : Address) : result Address :=
  Address_of_sockaddr (resize sizeof_sockaddr_storage (ad_storage a)) (ad_size a).

(** Only a length that does not fit is an exception. *)
Lemma Address_received_cases a : Address_received a =
  if sizeof_sockaddr_storage <? ad_size a then Throw runtime_error
  else Ok (MkAddress (ad_size a) (storage_of (resize sizeof_sockaddr_storage (ad_storage a)) (ad_size a))).
Proof.
  unfold Address_received, Address_of_sockaddr. destruct (Z.ltb_spec sizeof_sockaddr_storage (ad_size a)) as [|Hle]; [done|].
  by rewrite zlen_resize, (proj2 (Z.ltb_ge _ _)) by done.
Qed.

Section sockets.
Context {K U : Type} `{Kernel K}.

Abbreviation prog := (io (world K U)).

(** [Socket(const int domain, const int type)] *)
Definition Socket_new (domain type : Z) : prog FileDescriptor :=
  '(num, _) ← system (sys_socket domain type);
  FileDescriptor_new num.

(** One of the two checks of the other constructor; the reply has the value and
    its length. *)
Definition check_option (fd : FileDescriptor) (option expected : Z) : prog unit :=
  num ← FileDescriptor_fd_num fd;
  '(_, r) ← system (sys_getsockopt num option);
  let actual_value := default 0 (rp_numbers r !! 0%nat) in
  let len := default 0 (rp_numbers r !! 1%nat) in
  if negb (len =? sizeof_int) || negb (actual_value =? expected) then throw runtime_error else mret tt.

(** [Socket(FileDescriptor &&fd, const int domain, const int type)] *)
Definition Socket_of_fd (fd : FileDescriptor) (domain type : Z) : prog FileDescriptor :=
  _ ← check_option fd SO_DOMAIN domain;
  _ ← check_option fd SO_TYPE type;
  mret fd.

Definition Socket_get_address (fd : FileDescriptor) (name : Z -> syscall) : prog Address :=
  num ← FileDescriptor_fd_num fd;
  '(_, r) ← system (name num);
  lift (Address_received (rp_address r)).

Definition Socket_local_address (fd : FileDescriptor) : prog Address := Socket_get_address fd sys_getsockname.
Definition Socket_peer_address (fd : FileDescriptor) : prog Address := Socket_get_address fd sys_getpeername.

Definition Socket_bind (fd : FileDescriptor) (address : Address) : prog unit :=
  num ← FileDescriptor_fd_num fd;
  _ ← system (sys_bind num address);
  mret tt.

Definition Socket_connect (fd : FileDescriptor) (address : Address) : prog unit :=
  num ← FileDescriptor_fd_num fd;
  _ ← system (sys_connect num address);
  mret tt.

Definition Socket_shutdown (fd : FileDescriptor) (how : Z) : prog unit :=
  num ← FileDescriptor_fd_num fd;
  _ ← system (sys_shutdown num how);
  if how =? SHUT_RD then FileDescriptor_register_read fd
  else if how =? SHUT_WR then FileDescriptor_register_write fd
  else if how =? SHUT_RDWR then
    _ ← FileDescriptor_register_read fd;
    FileDescriptor_register_write fd
  else throw runtime_error.

Definition Socket_setsockopt (fd : FileDescriptor) (level option option_value : Z) : prog unit :=
  num ← FileDescriptor_fd_num fd;
  _ ← system (sys_setsockopt num level option option_value);
  mret tt.

Definition Socket_set_reuseaddr (fd : FileDescriptor) : prog unit := Socket_setsockopt fd SOL_SOCKET SO_REUSEADDR 1.

(** ** UDPSocket *)

Definition UDPSocket_new : prog FileDescriptor := Socket_new AF_INET SOCK_DGRAM.
Definition UDPSocket_of_fd (fd : FileDescriptor) : prog FileDescriptor := Socket_of_fd fd AF_INET SOCK_DGRAM.

(** [recv(received_datagram &datagram, const size_t mtu)]: the datagram, given the
    payload it had. *)
Definition UDPSocket_recv_into (fd : FileDescriptor) (payload : bytes) (mtu : Z) : prog (Address * bytes) :=
  let payload := resize mtu payload in
  num ← FileDescriptor_fd_num fd;
  '(recv_len, r) ← system (sys_recvfrom num (zlen payload));
  let payload := overwrite (rp_buffer r) payload in
  if mtu <? recv_len then throw runtime_error
  else
    _ ← FileDescriptor_register_read fd;
    source_address ← lift (Address_received (rp_address r));
    payload ← lift (string_resize (u64 recv_len) payload);
    mret (source_address, payload).

Definition UDPSocket_recv (fd : FileDescriptor) (mtu : Z) : prog (Address * bytes) := UDPSocket_recv_into fd [] mtu.

Definition sendmsg_helper (fd : FileDescriptor) (destination : option Address) (payload : BufferViewList) : prog unit :=
  num ← FileDescriptor_fd_num fd;
  '(bytes_sent, _) ← system (sys_sendmsg num destination (BufferViewList_as_iovecs payload));
  if negb (u64 bytes_sent =? BufferViewList_size payload) then throw runtime_error else mret tt.

Definition UDPSocket_sendto (fd : FileDescriptor) (destination : Address) (payload : BufferViewList) : prog unit :=
  _ ← sendmsg_helper fd (Some destination) payload;
  FileDescriptor_register_write fd.

Definition UDPSocket_send (fd : FileDescriptor) (payload : BufferViewList) : prog unit :=
  _ ← sendmsg_helper fd None payload;
  FileDescriptor_register_write fd.

(** ** TCPSocket and LocalStreamSocket *)

Definition TCPSocket_new : prog FileDescriptor := Socket_new AF_INET SOCK_STREAM.
Definition TCPSocket_of_fd (fd : FileDescriptor) : prog FileDescriptor := Socket_of_fd fd AF_INET SOCK_STREAM.

Definition TCPSocket_listen (fd : FileDescriptor) (backlog : Z) : prog unit :=
  num ← FileDescriptor_fd_num fd;
  _ ← system (sys_listen num backlog);
  mret tt.

Definition TCPSocket_accept (fd : FileDescriptor) : prog FileDescriptor :=
  _ ← FileDescriptor_register_read fd;
  num ← FileDescriptor_fd_num fd;
  '(accepted, _) ← system (sys_accept num);
  socket ← FileDescriptor_new accepted;
  TCPSocket_of_fd socket.

Definition LocalStreamSocket_of_fd (fd : FileDescriptor) : prog FileDescriptor := Socket_of_fd fd AF_UNIX SOCK_STREAM.

(** ** TUN and TAP devices *)

Definition O_RDWR : Z := 2.
Definition IFF_TUN : Z := 1.
Definition IFF_TAP : Z := 2.
Definition IFF_NO_PI : Z := 4096.
Definition IFNAMSIZ : Z := 16.

(** "/dev/net/tun" *)
Definition CLONEDEV : bytes := [47; 100; 101; 118; 47; 110; 101; 116; 47; 116; 117; 110].

(** The characters of a C string. *)
Fixpoint c_string (s : bytes) : bytes :=
  match s with
  | [] => []
  | c :: s => if c =? 0 then [] else c :: c_string s
  end.

(** [strncpy(ifr_name, devname.data(), IFNAMSIZ - 1)] and the final null. *)
Definition ifr_name (devname : bytes) : bytes := resize (IFNAMSIZ - 1) (c_string devname) ++ [0].

Definition TunTapFD_new (devname : bytes) (is_tun : bool) : prog FileDescriptor :=
  '(num, _) ← system (sys_open CLONEDEV O_RDWR);
  fd ← FileDescriptor_new num;
  let flags := Z.lor (if is_tun then IFF_TUN else IFF_TAP) IFF_NO_PI in
  num ← FileDescriptor_fd_num fd;
  _ ← system (sys_tunsetiff num flags (ifr_name devname));
  mret fd.

Definition TunFD_new (devname : bytes) : prog FileDescriptor := TunTapFD_new devname true.
Definition TapFD_new (devname : bytes) : prog FileDescriptor := TunTapFD_new devname false.

End sockets.

(** ** What the operations do *)

Section specs.
Context {K U : Type} `{KernelLaws K}.
Context (E : exn -> Prop) (HE : forall e, trouble K e -> E e).

Lemma register_read_wp fd w o n (Q : unit -> world K U -> Prop) :
  w_fds w !! fd = Some (o, n) ->
  Q tt (world_store w fd (MkFDWrapper (fw_fd o) (fw_eof o) (fw_closed o) (u32 (fw_read_count o + 1)) (fw_write_count o)) n) ->
  wp (FileDescriptor_register_read fd) E Q w.
Proof.
  intros Ho HQ. unfold FileDescriptor_register_read. wp_step. eapply deref_wp; [done|]. by eapply store_wp.
Qed.

Lemma register_write_wp fd w o n (Q : unit -> world K U -> Prop) :
  w_fds w !! fd = Some (o, n) -> Q tt (world_store w fd (write_done o) n) ->
  wp (FileDescriptor_register_write fd) E Q w.
Proof.
  intros Ho HQ. unfold FileDescriptor_register_write. wp_step. eapply deref_wp; [done|]. by eapply store_wp.
Qed.

(** Shutting down one's writing side counts as a write. *)
Lemma shutdown_wr_wp fd w o n (Q : unit -> world K U -> Prop) :
  w_fds w !! fd = Some (o, n) ->
  Q tt (world_store (world_call w (sys_shutdown (fw_fd o) SHUT_WR)) fd (write_done o) n) ->
  wp (Socket_shutdown fd SHUT_WR) E Q w.
Proof.
  intros Ho HQ. unfold Socket_shutdown. wp_step. eapply fd_num_wp; [done|]. wp_step. apply system_wp; [done|].
  intros r _ _. change (SHUT_WR =? SHUT_RD) with false. change (SHUT_WR =? SHUT_WR) with true.
  by eapply register_write_wp.
Qed.

(** What [sendto] hands to the kernel. *)
Lemma sendto_wp fd destination payload w o n (Q : unit -> world K U -> Prop) :
  w_fds w !! fd = Some (o, n) -> zlen (concat payload) < 2 ^ 31 -> (forall e, e = runtime_error -> E e) ->
  Q tt (world_store (world_call w (sys_sendmsg (fw_fd o) (Some destination) (BufferViewList_as_iovecs payload)))
          fd (write_done o) n) ->
  wp (UDPSocket_sendto fd destination payload) E Q w.
Proof.
  intros Ho Hsz Hrun HQ. unfold UDPSocket_sendto, sendmsg_helper. wp_step. wp_step. eapply fd_num_wp; [done|].
  wp_step. apply system_wp; [done|]. intros r Hv _. wp_if; [wp_step; by apply Hrun|]. wp_step.
  by eapply register_write_wp.
Qed.

End specs.

Section datagrams.
Context {K U : Type} `{KernelLaws K}.

(** [recv] hands over whole datagrams: if it returns, the payload is all of the
    datagram the kernel had, not longer than [mtu], with the address it came from,
    and the read is counted; a datagram that does not fit, or an address that does
    not, is an exception. *)
Theorem recv_whole_datagram fd mtu (w : world K U) o n :
  w_fds w !! fd = Some (o, n) -> 0 <= mtu < 2 ^ 31 ->
  let c := sys_recvfrom (fw_fd o) mtu in
  let r := fst (k_call c (w_kernel w)) in
  match UDPSocket_recv fd mtu w with
  | Ok (source, payload, w') =>
      Address_received (rp_address r) = Ok source /\ payload = rp_buffer r /\ zlen payload = rp_value r /\ zlen payload <= mtu /\
      exists o', w_fds w' !! fd = Some (o', n) /\ fw_read_count o' = u32 (fw_read_count o + 1)
  | Throw e => mtu < rp_value r \/ sizeof_sockaddr_storage < ad_size (rp_address r) \/ trouble K e
  end.
Proof.
  intros Ho Hm c r.
  enough (wp (UDPSocket_recv fd mtu)
    (fun e => mtu < rp_value r \/ sizeof_sockaddr_storage < ad_size (rp_address r) \/ trouble K e)
    (fun '(source, payload) w' =>
      Address_received (rp_address r) = Ok source /\ payload = rp_buffer r /\ zlen payload = rp_value r /\ zlen payload <= mtu /\
      exists o', w_fds w' !! fd = Some (o', n) /\ fw_read_count o' = u32 (fw_read_count o + 1)) w) as Hwp.
  { unfold wp in Hwp. by destruct (UDPSocket_recv fd mtu w) as [[[]]|]. }
  unfold UDPSocket_recv, UDPSocket_recv_into. rewrite zlen_resize by lia.
  wp_step. eapply fd_num_wp; [done|]. wp_step. apply system_wp; [by right; right|]. cbv zeta. fold c. fold r. intros Hv Hl.
  wp_if; [wp_step; left; b2p; lia|]. b2p. wp_step. eapply register_read_wp; [done|].
  assert (zlen (rp_buffer r) = rp_value r) as Hb. { destruct Hl as [[]|[_ Hl]]; [lia|]. cbn in Hl. lia. }
  wp_step. wp_step. rewrite Address_received_cases. destruct (Z.ltb_spec sizeof_sockaddr_storage (ad_size (rp_address r))).
  { right. by left. }
  wp_step. wp_step. rewrite u64_small by lia. unfold string_resize, string_max_size.
  rewrite (proj2 (Z.ltb_ge _ _)) by lia. rewrite <- Hb, overwrite_all by lia. wp_step.
  split_and!; try done; [lia|]. eexists. split; [apply lookup_insert_eq|done].
Qed.

End datagrams.

(** ** Example *)

(** A kernel that has a datagram for whoever asks. *)
Definition mailbox : Kernel bytes := {|
  k_call c k :=
    match c with
    | sys_recvfrom _ size =>
        let d := ztake 1000 k in (MkReply (zlen d) 0 (ztake size d) [] (Address_v4 16909060 99), k)
    | _ => (toy_reply 0, k)
    end
|}.

Lemma mailbox_laws : @KernelLaws bytes mailbox.
Proof. intros c k. right. destruct c; cbn; try (split; [lia|done]); zl. Qed.

Definition mailbox_world (d : bytes) : world bytes unit :=
  MkWorld d {[0%nat := (MkFDWrapper 7 false false 41 0, 1%nat)]} 1 tt.

Lemma recv_whole_datagram_witness :
  (exists w, @UDPSocket_recv bytes unit mailbox 0%nat 65536 (mailbox_world [1; 2; 3]) = Ok (Address_v4 16909060 99, [1; 2; 3], w)) /\
  @UDPSocket_recv bytes unit mailbox 0%nat 2 (mailbox_world [1; 2; 3]) = Throw runtime_error.
Proof.
  split.
  - pose proof (@recv_whole_datagram bytes unit mailbox mailbox_laws 0%nat 65536 (mailbox_world [1; 2; 3])
      (MkFDWrapper 7 false false 41 0) 1%nat eq_refl ltac:(lia)) as Hr. cbv zeta in Hr.
    destruct (UDPSocket_recv _ _ _) as [[[source payload] w]|e] eqn:Ew; [|by vm_compute in Ew].
    exists w. destruct Hr as (Hs & -> & _). vm_compute in Hs. injection Hs as <-. reflexivity.
  - by vm_compute.
Defined.
