(* ===== verification/StreamCopies.v ===== *)
(** Copying between a socket and the standard streams: [bidirectional_stream_copy]
    (src/apps/bidirectional_stream_copy.hh and .cc), used by all the applications
    that open a connection.

    The four rules run in an [EventLoop] on two [ByteStream]s; the locals of the
    function are the state of the world.

    Theorem: whatever the kernel does, the bytes written to the socket and to the
    standard output, with those in the two streams, are those read from the
    standard input and from the socket; and when the function returns, everything
    has been passed on, and the end of the streams too, unless a descriptor hung up. *)

From S2P Require Import Prelude Buffers ByteStreams Addresses Effects FileDescriptors EventLoops RuleSets Sockets.

#[local] Set Warnings "-clear-no-such-hyp".

Record copy_state : Type := MkCopyState {
  cp_outbound : ByteStream;
  cp_inbound : ByteStream;
  cp_outbound_shutdown : bool;
  cp_inbound_shutdown : bool
}.

Definition max_copy_length : Z := 65536.
Definition buffer_size : Z := 1048576.
Definition STDIN_FILENO : Z := 0.
Definition STDOUT_FILENO : Z := 1.

Definition copy_start : copy_state := MkCopyState (ByteStream_new buffer_size) (ByteStream_new buffer_size) false false.

Definition set_outbound (s : copy_state) (b : ByteStream) : copy_state :=
  MkCopyState b (cp_inbound s) (cp_outbound_shutdown s) (cp_inbound_shutdown s).
Definition set_inbound (s : copy_state) (b : ByteStream) : copy_state :=
  MkCopyState (cp_outbound s) b (cp_outbound_shutdown s) (cp_inbound_shutdown s).
Definition set_outbound_shutdown (s : copy_state) : copy_state :=
  MkCopyState (cp_outbound s) (cp_inbound s) true (cp_inbound_shutdown s).
Definition set_inbound_shutdown (s : copy_state) : copy_state :=
  MkCopyState (cp_outbound s) (cp_inbound s) (cp_outbound_shutdown s) true.

Section copy.
Context {K : Type} `{Kernel K}.

Abbreviation prog := (io (world K copy_state)).

Definition get_state : prog copy_state := gets w_state.
Definition put_state (s : copy_state) : prog unit := modify (fun w => world_set_state w s).

Context (input output socket : FileDescriptor).

(** Rule 1: from the standard input into the outbound stream. *)
Definition read_input : prog unit :=
  s ← get_state;
  d ← FileDescriptor_read input (ByteStream_remaining_capacity (cp_outbound s));
  s ← get_state;
  _ ← put_state (set_outbound s (fst (ByteStream_write_move (cp_outbound s) d)));
  eof ← FileDescriptor_eof input;
  if (eof : bool) then s ← get_state; put_state (set_outbound s (ByteStream_end_input (cp_outbound s)))
  else mret tt.

Definition read_input_interest : prog bool :=
  s ← get_state;
  mret (negb (bs_error (cp_outbound s)) && (0 <? ByteStream_remaining_capacity (cp_outbound s)) &&
        negb (bs_error (cp_inbound s))).

Definition end_outbound : prog unit :=
  s ← get_state; put_state (set_outbound s (ByteStream_end_input (cp_outbound s))).

(** Rule 2: from the outbound stream into the socket. *)
Definition write_socket : prog unit :=
  s ← get_state;
  let bytes_to_write := Z.min max_copy_length (ByteStream_buffer_size (cp_outbound s)) in
  bytes_written ← FileDescriptor_write socket (ByteStream_peek_output (cp_outbound s) bytes_to_write) false;
  s ← get_state;
  outbound ← lift (ByteStream_pop_output (cp_outbound s) bytes_written);
  _ ← put_state (set_outbound s outbound);
  if ByteStream_eof outbound then
    _ ← Socket_shutdown socket SHUT_WR;
    s ← get_state;
    put_state (set_outbound_shutdown s)
  else mret tt.

Definition write_socket_interest : prog bool :=
  s ← get_state;
  mret (negb (ByteStream_buffer_empty (cp_outbound s)) ||
        ByteStream_eof (cp_outbound s) && negb (cp_outbound_shutdown s)).

(** Rule 3: from the socket into the inbound stream. *)
Definition read_socket : prog unit :=
  s ← get_state;
  d ← FileDescriptor_read socket (ByteStream_remaining_capacity (cp_inbound s));
  s ← get_state;
  _ ← put_state (set_inbound s (fst (ByteStream_write_move (cp_inbound s) d)));
  eof ← FileDescriptor_eof socket;
  if (eof : bool) then s ← get_state; put_state (set_inbound s (ByteStream_end_input (cp_inbound s)))
  else mret tt.

Definition read_socket_interest : prog bool :=
  s ← get_state;
  mret (negb (bs_error (cp_inbound s)) && (0 <? ByteStream_remaining_capacity (cp_inbound s)) &&
        negb (bs_error (cp_outbound s))).

Definition end_inbound : prog unit :=
  s ← get_state; put_state (set_inbound s (ByteStream_end_input (cp_inbound s))).

(** Rule 4: from the inbound stream to the standard output. *)
Definition write_output : prog unit :=
  s ← get_state;
  let bytes_to_write := Z.min max_copy_length (ByteStream_buffer_size (cp_inbound s)) in
  bytes_written ← FileDescriptor_write output (ByteStream_peek_output (cp_inbound s) bytes_to_write) false;
  s ← get_state;
  inbound ← lift (ByteStream_pop_output (cp_inbound s) bytes_written);
  _ ← put_state (set_inbound s inbound);
  if ByteStream_eof inbound then
    _ ← FileDescriptor_close output;
    s ← get_state;
    put_state (set_inbound_shutdown s)
  else mret tt.

Definition write_output_interest : prog bool :=
  s ← get_state;
  mret (negb (ByteStream_buffer_empty (cp_inbound s)) ||
        ByteStream_eof (cp_inbound s) && negb (cp_inbound_shutdown s)).

(** The four calls of [add_rule]. *)
Definition copy_rules : prog (list (Rule K copy_state)) :=
  rules ← EventLoop_add_rule [] input Direction_In read_input read_input_interest end_outbound;
  rules ← EventLoop_add_rule rules socket Direction_Out write_socket write_socket_interest end_outbound;
  rules ← EventLoop_add_rule rules socket Direction_In read_socket read_socket_interest end_inbound;
  EventLoop_add_rule rules output Direction_Out write_output write_output_interest end_inbound.

End copy.

(** [bidirectional_stream_copy(socket)], for at most [turns] turns of its loop;
    whether it has returned. *)
Definition bidirectional_stream_copy {K} `{Kernel K} (turns : nat) (socket : FileDescriptor) :
    io (world K copy_state) bool :=
  input ← FileDescriptor_new STDIN_FILENO;
  output ← FileDescriptor_new STDOUT_FILENO;
  _ ← put_state copy_start;
  _ ← FileDescriptor_set_blocking socket false;
  _ ← FileDescriptor_set_blocking input false;
  _ ← FileDescriptor_set_blocking output false;
  rules ← copy_rules input output socket;
  '(returned, rules) ← event_loop turns rules (-1);
  if (returned : bool) then
    _ ← FileDescriptor_destroy output;
    _ ← FileDescriptor_destroy input;
    _ ← EventLoop_destroy rules;
    mret true
  else mret false.

(** ** One direction *)

(** A stream between a reader and a writer: [rd] and [wr] tell whether their rules
    are still there, [eof] whether the source is at its end; [recv] was read from
    the source and [sent] written to the destination. *)
Record dir_inv (b : ByteStream) (shut rd wr eof : bool) (recv sent : bytes) : Prop := {
  dv_wf : bs_wf b;
  dv_capacity : bs_capacity b = buffer_size;
  dv_error : bs_error b = false;
  dv_bytes : sent ++ bs_contents b = recv;
  dv_end : bs_input_ended b = true -> rd = false \/ eof = true \/ wr = false;
  dv_shut : shut = true -> bs_input_ended b = true /\ bs_contents b = [] /\ (rd = false \/ eof = true);
  dv_rd : rd = false -> bs_input_ended b = true
}.

Lemma dir_end b shut rd wr eof recv sent rd' wr' eof' :
  dir_inv b shut rd wr eof recv sent -> (rd' = false \/ eof' = true \/ wr' = false) ->
  (rd = false -> rd' = false) -> (eof = true -> eof' = true) ->
  dir_inv (ByteStream_end_input b) shut rd' wr' eof' recv sent.
Proof.
  intros [D1 D2 D3 D4 D5 D6 D7] Hor H1 H2. split; try done; [by apply ByteStream_end_input_wf|].
  intros Hs. destruct (D6 Hs) as (E1 & E2 & E3). split_and!; [done|done|]. destruct E3; auto.
Qed.

(** The reader reads [d]; the source may be at its end. *)
Lemma dir_read b shut wr recv sent d (eof : bool) :
  dir_inv b shut true wr false recv sent -> zlen d <= ByteStream_remaining_capacity b ->
  let b' := fst (ByteStream_write_move b d) in
  dir_inv (if eof then ByteStream_end_input b' else b') shut true wr eof (recv ++ d) sent.
Proof.
  intros [D1 D2 D3 D4 D5 D6 D7] Hd b'. rewrite ByteStream_remaining_capacity_eq in Hd by done.
  assert (shut = false) as -> by (destruct shut; [destruct D6 as (_ & _ & []); done|done]).
  pose proof (zlen_nonneg (bs_contents b)).
  destruct (ByteStream_write_exists b d D1) as (b1 & n & E & [W1 W2 W3 W4 W5 W6 W7 W8]); [unfold buffer_size in *; lia|].
  assert (b' = b1) as Hb by (unfold b'; by rewrite ByteStream_write_move_eq, E). clearbody b'. subst b'.
  assert (dir_inv b1 false true wr false (recv ++ d) sent) as Hi.
  { split; [exact W2|congruence|congruence| | |done|done].
    - rewrite W3, app_assoc, D4. f_equal. apply ztake_ge. lia.
    - intros He. rewrite W7 in He. destruct (D5 He) as [|[]]; auto. }
  destruct eof; [|done]. eapply dir_end; eauto.
Qed.

(** The writer writes the first [v] bytes, and passes on the end of the stream. *)
Lemma dir_write b shut rd eof recv sent v :
  dir_inv b shut rd true eof recv sent -> 0 <= v <= zlen (bs_contents b) ->
  exists b', ByteStream_pop_output b v = Ok b' /\
    dir_inv b' (shut || ByteStream_eof b') rd true eof recv (sent ++ ztake v (bs_contents b)).
Proof.
  intros [D1 D2 D3 D4 D5 D6 D7] Hv.
  destruct (ByteStream_pop_output_ok b v) as (b' & E & [P1 P2 P3 P4 P5 P6 P7]); [done|lia|].
  exists b'. split; [done|]. split; [exact P1|congruence|congruence| | | |].
  - by rewrite P2, <- app_assoc, ztake_zdrop.
  - intros He. rewrite P6 in He. destruct (D5 He) as [|[]]; auto.
  - intros Hs. apply orb_true_iff in Hs as [Hs|Hs].
    + destruct (D6 Hs) as (E1 & E2 & E3). split_and!; [congruence| |done]. by rewrite P2, E2, zdrop_ge by zl.
    + unfold ByteStream_eof, ByteStream_buffer_empty in Hs. rewrite (bs_wf_size _ P1) in Hs. b2p.
      split_and!; [done|by apply zlen_zero_nil|]. rewrite P6 in *. destruct (D5 ltac:(done)) as [|[]]; auto. done.
  - intros Hr. rewrite P6. auto.
Qed.

(** ** The four rules together *)

Section copying.
Context {K : Type} `{KernelLaws K}.
Context (input output socket : FileDescriptor) (num : Z).
Context (Hio : input <> output) (His : input <> socket) (Hos : output <> socket).
Context (Hnum0 : num <> STDIN_FILENO) (Hnum1 : num <> STDOUT_FILENO).

Definition copy_rule (i : rule_id) : Rule (K * list event) copy_state :=
  match i with
  | c1 => MkRule input Direction_In (read_input input) read_input_interest end_outbound
  | c2 => MkRule socket Direction_Out (write_socket socket) write_socket_interest end_outbound
  | c3 => MkRule socket Direction_In (read_socket socket) read_socket_interest end_inbound
  | c4 => MkRule output Direction_Out (write_output output) write_output_interest end_inbound
  end.

Definition copy_fd (i : rule_id) : FileDescriptor := match i with c1 => input | c2 | c3 => socket | c4 => output end.

Record copy_inv (ids : list rule_id) (w : world (K * list event) copy_state) : Prop := {
  ci_ids : ids `sublist_of` all_ids;
  ci_input : alive copy_fd (w_fds w) input STDIN_FILENO ids false;
  ci_socket : alive copy_fd (w_fds w) socket num ids false;
  ci_output : alive copy_fd (w_fds w) output STDOUT_FILENO ids (cp_inbound_shutdown (w_state w));
  ci_outbound : dir_inv (cp_outbound (w_state w)) (cp_outbound_shutdown (w_state w))
    (bool_decide (c1 ∈ ids)) (bool_decide (c2 ∈ ids)) (eof_of (w_fds w) input)
    (bytes_read STDIN_FILENO (w_log w)) (bytes_written num (w_log w));
  ci_inbound : dir_inv (cp_inbound (w_state w)) (cp_inbound_shutdown (w_state w))
    (bool_decide (c3 ∈ ids)) (bool_decide (c4 ∈ ids)) (eof_of (w_fds w) socket)
    (bytes_read num (w_log w)) (bytes_written STDOUT_FILENO (w_log w));
  ci_c2 : no_hangup K -> c2 ∈ ids;
  ci_c4 : no_hangup K -> c4 ∈ ids \/ cp_inbound_shutdown (w_state w) = true
}.

(** What is known of a rule that is not interested. *)
Definition rule_idle (i : rule_id) (s : copy_state) : Prop :=
  match i with
  | c1 => ByteStream_remaining_capacity (cp_outbound s) = 0
  | c2 => bs_contents (cp_outbound s) = [] /\ (bs_input_ended (cp_outbound s) = true -> cp_outbound_shutdown s = true)
  | c3 => ByteStream_remaining_capacity (cp_inbound s) = 0
  | c4 => bs_contents (cp_inbound s) = [] /\ (bs_input_ended (cp_inbound s) = true -> cp_inbound_shutdown s = true)
  end.

Definition J (l : list (Rule (K * list event) copy_state)) (w : world (K * list event) copy_state) : Prop :=
  exists ids, l = map copy_rule ids /\ copy_inv ids w.

Definition X (r : Rule (K * list event) copy_state) (w : world (K * list event) copy_state) : Prop :=
  exists i, r = copy_rule i /\ rule_idle i (w_state w).

Lemma copy_rule_inj i j : copy_rule i = copy_rule j -> i = j.
Proof.
  intros Hr. pose proof (f_equal ru_fd Hr) as H1. pose proof (f_equal ru_direction Hr) as H2.
  by destruct i, j; cbn in *; try done; congruence.
Qed.

Lemma copy_fd_rule i : ru_fd (copy_rule i) = copy_fd i.
Proof. by destruct i. Qed.

Lemma in_rules ids i : copy_rule i ∈ map copy_rule ids -> i ∈ ids.
Proof.
  intros Hin. apply list_elem_of_fmap in Hin as (j & Hj & Hin). by apply copy_rule_inj in Hj as ->.
Qed.

Lemma copy_alive ids w i :
  copy_inv ids w -> exists o k, w_fds w !! copy_fd i = Some (o, k) /\ (refs copy_fd ids (copy_fd i) < k)%nat /\
    (fw_closed o = true -> i = c4 /\ cp_inbound_shutdown (w_state w) = true).
Proof.
  intros [_ (o1 & k1 & A1 & _ & A2 & A3) (o2 & k2 & B1 & _ & B2 & B3) (o3 & k3 & C1 & _ & C2 & C3) _ _ _ _].
  destruct i; cbn; [exists o1, k1|exists o2, k2|exists o2, k2|exists o3, k3]; split_and!; auto; intros Hc; naive_solver.
Qed.

Lemma reader_idle b e1 e2 :
  e1 = false -> e2 = false -> negb e1 && (0 <? ByteStream_remaining_capacity b) && negb e2 = false ->
  ByteStream_remaining_capacity b = 0.
Proof.
  intros -> ->. cbn. rewrite andb_true_r. intros Hb. b2p.
  pose proof (u64_range (bs_capacity b - ByteStream_buffer_size b)). unfold ByteStream_remaining_capacity in *. lia.
Qed.

Lemma writer_idle b shut :
  bs_wf b -> negb (ByteStream_buffer_empty b) || ByteStream_eof b && negb shut = false ->
  bs_contents b = [] /\ (bs_input_ended b = true -> shut = true).
Proof.
  intros Hwf Hb. unfold ByteStream_eof, ByteStream_buffer_empty in Hb. rewrite (bs_wf_size _ Hwf) in Hb.
  destruct (Z.eqb_spec (zlen (bs_contents b)) 0) as [Hz|]; [|done]. split; [by apply zlen_zero_nil|].
  intros He. rewrite He in Hb. cbn in Hb. by apply negb_false_iff.
Qed.

Lemma interest_wp ids w i :
  copy_inv ids w -> i ∈ ids ->
  wp (ru_interest (copy_rule i)) (trouble (K * list event)) (fun b w' => w' = w /\ (b = false -> rule_idle i (w_state w))) w.
Proof.
  intros [_ _ _ _ [O1 _ O3 _ _ _ _] [I1 _ I3 _ _ _ _] _ _] Hin.
  destruct i; unfold wp; cbn; (split; [done|]); intros Hb.
  - exact (reader_idle _ _ _ O3 I3 Hb).
  - exact (writer_idle _ _ O1 Hb).
  - exact (reader_idle _ _ _ I3 O3 Hb).
  - exact (writer_idle _ _ I1 Hb).
Qed.

(** A rule goes: its stream ends, and its handle goes. *)
Definition cancelled (i : rule_id) (s : copy_state) : copy_state :=
  match i with
  | c1 | c2 => set_outbound s (ByteStream_end_input (cp_outbound s))
  | c3 | c4 => set_inbound s (ByteStream_end_input (cp_inbound s))
  end.

Lemma cancelled_shutdown i s : cp_inbound_shutdown (cancelled i s) = cp_inbound_shutdown s.
Proof. by destruct i. Qed.

(** Only a hangup cancels rule 2, and rule 4 unless the output was closed. *)
Lemma cancel_why ids i w :
  copy_inv ids w -> cancel_reason (copy_rule i) w -> no_hangup K ->
  i <> c2 /\ (i = c4 -> cp_inbound_shutdown (w_state w) = true).
Proof.
  intros Hinv Hr Hn. pose proof (copy_alive _ _ i Hinv) as (o & k & Ho & _ & Hcl).
  destruct Hr as [(o1 & k1 & Ho1 & Hwhy)|Hr]; [|by destruct (Hr (no_hangup_logged Hn))].
  rewrite copy_fd_rule, Ho in Ho1. injection Ho1 as <- <-.
  destruct i; cbn in *; split; try done; destruct Hwhy as [[]|Hc]; try done; by destruct (Hcl Hc).
Qed.

Lemma cancel_inv i1 i i2 w o k :
  copy_inv (i1 ++ i :: i2) w -> cancel_reason (copy_rule i) w -> w_fds w !! copy_fd i = Some (o, S k) ->
  copy_inv (i1 ++ i2) (world_store (world_set_state w (cancelled i (w_state w))) (copy_fd i) o k).
Proof.
  intros Hinv Hr Hl. pose proof (cancel_why _ i w Hinv Hr) as Hwhy.
  pose proof (copy_alive _ _ i Hinv) as (o' & k' & Ho' & Hk & _). rewrite Hl in Ho'. injection Ho' as <- <-.
  destruct Hinv as [V1 V2 V3 V4 V5 V6 V7 V8].
  pose proof (id_removed _ _ _ V1) as Hgone. pose proof (id_kept i1 i2 i) as Hkept.
  split; cbn [world_store world_set_fds world_set_state w_fds w_state]; rewrite ?cancelled_shutdown;
    change (w_log (world_store _ _ _ _)) with (w_log w).
  - by eapply ids_shrink.
  - by apply alive_released.
  - by apply alive_released.
  - by apply alive_released.
  - rewrite (eof_released _ _ _ _ _ _ Hl). destruct i; cbn [cancelled cp_outbound cp_outbound_shutdown set_outbound set_inbound];
      rewrite ?Hgone, ?(Hkept c1), ?(Hkept c2) by done; [eapply dir_end; eauto..|done|done].
  - rewrite (eof_released _ _ _ _ _ _ Hl). destruct i; cbn [cancelled cp_inbound set_outbound set_inbound];
      rewrite ?Hgone, ?(Hkept c3), ?(Hkept c4) by done; [done|done|eapply dir_end; eauto..].
  - intros Hn. specialize (V7 Hn). destruct (Hwhy Hn) as [Hne _]. rewrite elem_of_app, elem_of_cons in V7.
    rewrite elem_of_app. naive_solver.
  - intros Hn. destruct (Hwhy Hn) as [_ Hne]. destruct (V8 Hn) as [V|V]; [|by right].
    destruct (decide (i = c4)) as [->|Hi]; [right; auto|left]. rewrite elem_of_app, elem_of_cons in V.
    rewrite elem_of_app. naive_solver.
Qed.

Lemma cancel_wp i1 i i2 w :
  copy_inv (i1 ++ i :: i2) w -> cancel_reason (copy_rule i) w ->
  wp (cancel_rule (copy_rule i)) (trouble (K * list event))
    (fun _ w' => copy_inv (i1 ++ i2) w' /\ w_state w' = cancelled i (w_state w) /\
       forall fd, eof_of (w_fds w') fd = eof_of (w_fds w) fd) w.
Proof.
  intros Hinv Hr. pose proof (copy_alive _ _ i Hinv) as (o & k & Ho & Hk & _).
  rewrite refs_removed, bool_decide_true in Hk by done.
  destruct k as [|[|k]]; [lia|lia|]. unfold cancel_rule. wp_step.
  assert (wp (ru_cancel (copy_rule i)) (trouble (K * list event))
    (fun _ w' => w' = world_set_state w (cancelled i (w_state w))) w) as Hc by by destruct i.
  eapply wp_mono; [exact Hc|done|]. intros [] w1 ->. rewrite copy_fd_rule.
  eapply destroy_shared_wp; [exact Ho|]. split_and!; [by apply cancel_inv|done|].
  intros fd. by eapply eof_released.
Qed.

(** Cancelling a rule tells those before it nothing new. *)
Lemma cancel_undisturbed i1 i i2 j s :
  i1 ++ i :: i2 `sublist_of` all_ids -> j ∈ i1 -> rule_idle j s -> rule_idle j (cancelled i s).
Proof. intros Hs Hj. pose proof (ids_ordered _ _ _ _ Hs Hj). by destruct i, j; cbn in *; try lia. Qed.

(** What a callback leaves: the invariant, progress, and the end of file of the
    other descriptors as it was. *)
Definition served (ids : list rule_id) (i : rule_id) (w w' : world (K * list event) copy_state) : Prop :=
  copy_inv ids w' /\
  (exists o k o' k', w_fds w !! copy_fd i = Some (o, k) /\ w_fds w' !! copy_fd i = Some (o', k') /\
     service_of (ru_direction (copy_rule i)) o <> service_of (ru_direction (copy_rule i)) o') /\
  (forall fd, fd <> copy_fd i \/ i = c2 -> eof_of (w_fds w') fd = eof_of (w_fds w) fd).

Lemma read_input_wp ids w :
  copy_inv ids w -> c1 ∈ ids -> eof_of (w_fds w) input = false ->
  wp (read_input input) (trouble (K * list event)) (fun _ => served ids c1 w) w.
Proof.
  intros Hinv Hin Heof. pose proof Hinv as [V1 V2 V3 V4 V5 V6 V7 V8]. pose proof V2 as (o & k & Ho & Hf & Hc & Hk).
  assert (fw_eof o = false) as He by (unfold eof_of in Heof; by rewrite Ho in Heof).
  unfold read_input, get_state, put_state. wp_step. wp_step.
  eapply read_fd_wp; [done|exact Ho|apply u64_range|]. intros d w1 Hd Hs Hfds Hr Hw.
  wp_step. wp_step. wp_step. wp_step. rewrite Hs.
  set (b := fst (ByteStream_write_move _ d)). set (o' := read_done o _ d) in *.
  wp_step. unfold FileDescriptor_eof. wp_step. eapply deref_wp; [cbn; rewrite Hfds; apply lookup_insert_eq|]. wp_step.
  assert (wp (if fw_eof o' then s ← gets w_state; modify (fun w => world_set_state w (set_outbound s (ByteStream_end_input (cp_outbound s))))
              else mret tt) (trouble (K * list event))
    (fun _ w' => w' = world_set_state w1 (set_outbound (w_state w) (if fw_eof o' then ByteStream_end_input b else b)))
    (world_set_state w1 (set_outbound (w_state w) b))) as Hend by by destruct (fw_eof o').
  eapply wp_mono; [exact Hend|done|]. intros [] w2 ->. clear Hend.
  split_and!.
  - split; cbn [world_set_state w_fds w_state set_outbound cp_outbound cp_inbound cp_outbound_shutdown cp_inbound_shutdown];
      change (w_log (world_set_state _ _)) with (w_log w1); rewrite ?Hfds; try done; try by eapply alive_used.
    + rewrite eof_of_eq, Hr, Hw, Hf, Z.eqb_refl. rewrite Heof, (bool_decide_true (c1 ∈ ids)) in V5 by done.
      rewrite (bool_decide_true (c1 ∈ ids)) by done. by apply dir_read.
    + rewrite eof_of_ne by done. rewrite Hr, Hw, Hf, (proj2 (Z.eqb_neq _ _)), app_nil_r by done. done.
  - exists o, k, o', k. split; [done|]. split; [cbn; rewrite Hfds; apply lookup_insert_eq|]. cbn. wrap_lia.
  - intros fd [Hne|]; [|done]. cbn [world_set_state w_fds]. rewrite Hfds. by apply eof_of_ne.
Qed.

Lemma read_socket_wp ids w :
  copy_inv ids w -> c3 ∈ ids -> eof_of (w_fds w) socket = false ->
  wp (read_socket socket) (trouble (K * list event)) (fun _ => served ids c3 w) w.
Proof.
  intros Hinv Hin Heof. pose proof Hinv as [V1 V2 V3 V4 V5 V6 V7 V8]. pose proof V3 as (o & k & Ho & Hf & Hc & Hk).
  assert (fw_eof o = false) as He by (unfold eof_of in Heof; by rewrite Ho in Heof).
  unfold read_socket, get_state, put_state. wp_step. wp_step.
  eapply read_fd_wp; [done|exact Ho|apply u64_range|]. intros d w1 Hd Hs Hfds Hr Hw.
  wp_step. wp_step. wp_step. wp_step. rewrite Hs.
  set (b := fst (ByteStream_write_move _ d)). set (o' := read_done o _ d) in *.
  wp_step. unfold FileDescriptor_eof. wp_step. eapply deref_wp; [cbn; rewrite Hfds; apply lookup_insert_eq|]. wp_step.
  assert (wp (if fw_eof o' then s ← gets w_state; modify (fun w => world_set_state w (set_inbound s (ByteStream_end_input (cp_inbound s))))
              else mret tt) (trouble (K * list event))
    (fun _ w' => w' = world_set_state w1 (set_inbound (w_state w) (if fw_eof o' then ByteStream_end_input b else b)))
    (world_set_state w1 (set_inbound (w_state w) b))) as Hend by by destruct (fw_eof o').
  eapply wp_mono; [exact Hend|done|]. intros [] w2 ->. clear Hend.
  split_and!.
  - split; cbn [world_set_state w_fds w_state set_inbound cp_outbound cp_inbound cp_outbound_shutdown cp_inbound_shutdown];
      change (w_log (world_set_state _ _)) with (w_log w1); rewrite ?Hfds; try done; try by eapply alive_used.
    + rewrite eof_of_ne by done. rewrite Hr, Hw, Hf, (proj2 (Z.eqb_neq _ _)), app_nil_r by done. done.
    + rewrite eof_of_eq, Hr, Hw, Hf, Z.eqb_refl. rewrite Heof, (bool_decide_true (c3 ∈ ids)) in V6 by done.
      rewrite (bool_decide_true (c3 ∈ ids)) by done. by apply dir_read.
  - exists o, k, o', k. split; [done|]. split; [cbn; rewrite Hfds; apply lookup_insert_eq|]. cbn. wrap_lia.
  - intros fd [Hne|]; [|done]. cbn [world_set_state w_fds]. rewrite Hfds. by apply eof_of_ne.
Qed.

Lemma write_socket_wp ids w :
  copy_inv ids w -> c2 ∈ ids -> wp (write_socket socket) (trouble (K * list event)) (fun _ => served ids c2 w) w.
Proof.
  intros Hinv Hin. pose proof Hinv as [V1 V2 V3 V4 V5 V6 V7 V8]. pose proof V3 as (o & k & Ho & Hf & Hc & Hk).
  unfold write_socket, get_state, put_state. wp_step. wp_step.
  eapply write_fd_wp; [done|exact Ho|apply V5|]. intros v w1 Hv Hs Hfds Hr Hw _.
  wp_step. wp_step. wp_step. wp_step. rewrite Hs. rewrite (bool_decide_true (c2 ∈ ids)) in V5 by done.
  destruct (dir_write _ _ _ _ _ _ v V5 Hv) as (b & -> & Hb). wp_step. wp_step.
  assert (forall o' w2, w_fds w2 = <[socket := (o', k)]> (w_fds w) -> fw_fd o' = fw_fd o -> fw_closed o' = fw_closed o ->
    fw_eof o' = fw_eof o -> fw_write_count o <> fw_write_count o' ->
    w_state w2 = MkCopyState b (cp_inbound (w_state w)) (cp_outbound_shutdown (w_state w) || ByteStream_eof b)
                   (cp_inbound_shutdown (w_state w)) ->
    (forall n, bytes_read n (w_log w2) = bytes_read n (w_log w1)) ->
    (forall n, bytes_written n (w_log w2) = bytes_written n (w_log w1)) -> served ids c2 w w2) as Hdone.
  { intros o' w2 Hf2 A1 A2 A3 A4 Hs2 Hr2 Hw2. assert (forall fd, eof_of (w_fds w2) fd = eof_of (w_fds w) fd) as He2.
    { intros fd. rewrite Hf2. destruct (decide (socket = fd)) as [<-|Hne]; [|by apply eof_of_ne].
      rewrite eof_of_eq. unfold eof_of. by rewrite Ho. }
    split_and!; [|exists o, k, o', k; split_and!; [done|cbn; rewrite Hf2; apply lookup_insert_eq|done]|auto].
    split; rewrite ?He2, ?Hr2, ?Hw2, ?Hr, ?Hw, ?Hs2; try done; try (rewrite Hf2; by eapply alive_used).
    - rewrite Hf, Z.eqb_refl, (bool_decide_true (c2 ∈ ids)) by done. exact Hb.
    - rewrite Hf, (proj2 (Z.eqb_neq _ _)), app_nil_r by done. exact V6. }
  clear V5. destruct (ByteStream_eof b) eqn:Eb; [|wp_step; apply (Hdone (write_done o)); try done; [cbn; wrap_lia|]].
  - wp_step. eapply shutdown_wr_wp; [done|cbn; rewrite Hfds; apply lookup_insert_eq|]. wp_step. wp_step. wp_step.
    apply (Hdone (write_done (write_done o))); try done.
    + cbn. by rewrite Hfds, insert_insert_eq.
    + cbn. wrap_lia.
    + cbn. by rewrite orb_true_r.
    + intros n. by eapply quiet_call.
    + intros n. by eapply quiet_call.
  - cbn. by rewrite orb_false_r.
Qed.

Lemma write_output_wp ids w :
  copy_inv ids w -> c4 ∈ ids -> wp (write_output output) (trouble (K * list event)) (fun _ => served ids c4 w) w.
Proof.
  intros Hinv Hin. pose proof Hinv as [V1 V2 V3 V4 V5 V6 V7 V8]. pose proof V4 as (o & k & Ho & Hf & Hc & Hk).
  unfold write_output, get_state, put_state. wp_step. wp_step.
  eapply write_fd_wp; [done|exact Ho|apply V6|]. intros v w1 Hv Hs Hfds Hr Hw _.
  wp_step. wp_step. wp_step. wp_step. rewrite Hs. rewrite (bool_decide_true (c4 ∈ ids)) in V6 by done.
  destruct (dir_write _ _ _ _ _ _ v V6 Hv) as (b & -> & Hb). wp_step. wp_step.
  assert (forall o' w2, w_fds w2 = <[output := (o', k)]> (w_fds w) -> fw_fd o' = fw_fd o ->
    (fw_closed o' = true -> fw_closed o = true \/ ByteStream_eof b = true) -> fw_write_count o <> fw_write_count o' ->
    w_state w2 = MkCopyState (cp_outbound (w_state w)) b (cp_outbound_shutdown (w_state w))
                   (cp_inbound_shutdown (w_state w) || ByteStream_eof b) ->
    (forall n, bytes_read n (w_log w2) = bytes_read n (w_log w1)) ->
    (forall n, bytes_written n (w_log w2) = bytes_written n (w_log w1)) -> served ids c4 w w2) as Hdone.
  { intros o' w2 Hf2 A1 A2 A4 Hs2 Hr2 Hw2.
    split_and!; [|exists o, k, o', k; split_and!; [done|cbn; rewrite Hf2; apply lookup_insert_eq|done]|
      intros fd [Hne|]; [rewrite Hf2; by apply eof_of_ne|done]].
    split; rewrite ?Hr2, ?Hw2, ?Hr, ?Hw, ?Hs2, ?Hf2; cbn [cp_outbound cp_inbound cp_outbound_shutdown cp_inbound_shutdown];
      try done; try by apply alive_ne.
    - rewrite <- Hf, <- A1. apply alive_set; [done|]. intros Ho'. destruct (A2 Ho') as [Hx|Hx]; [by rewrite (Hc Hx)|].
      rewrite Hx. apply orb_true_r.
    - rewrite Hf, (proj2 (Z.eqb_neq _ _)), app_nil_r, eof_of_ne by done. exact V5.
    - rewrite Hf, Z.eqb_refl, (bool_decide_true (c4 ∈ ids)), eof_of_ne by done. exact Hb.
    - intros Hn. by left. }
  clear V6. destruct (ByteStream_eof b) eqn:Eb; [|wp_step; apply (Hdone (write_done o)); try done; [by left|cbn; wrap_lia|]].
  - wp_step. eapply close_wp; [done|cbn; rewrite Hfds; apply lookup_insert_eq|]. wp_step. wp_step. wp_step.
    eapply Hdone.
    + cbn. by rewrite Hfds, insert_insert_eq.
    + done.
    + by right.
    + cbn. wrap_lia.
    + cbn. by rewrite orb_true_r.
    + intros n. by eapply quiet_call.
    + intros n. by eapply quiet_call.
  - cbn. by rewrite orb_false_r.
Qed.

Lemma callback_wp ids i w :
  copy_inv ids w -> i ∈ ids -> (i = c1 \/ i = c3 -> eof_of (w_fds w) (copy_fd i) = false) ->
  wp (ru_callback (copy_rule i)) (trouble (K * list event)) (fun _ => served ids i w) w.
Proof.
  intros Hinv Hin He. destruct i; cbn.
  - apply read_input_wp; auto.
  - by apply write_socket_wp.
  - apply read_socket_wp; auto.
  - by apply write_output_wp.
Qed.

(** A rule that reads is open when its descriptor is there and not at its end. *)
Lemma open_eof ids w i :
  copy_inv ids w -> rule_open (copy_rule i) w <-> (i = c1 \/ i = c3 -> eof_of (w_fds w) (copy_fd i) = false).
Proof.
  intros Hinv. destruct (copy_alive _ _ i Hinv) as (o & k & Ho & _ & _). unfold rule_open, eof_of. rewrite copy_fd_rule, Ho.
  destruct i; cbn; split; intros Hx Hy; try done; try (destruct Hy; done);
    try (destruct (Hx eq_refl) as (? & ? & ? & ?); congruence); exists o, k; auto.
Qed.

Lemma copy_laws : loop_laws (trouble (K * list event)) J X (fun _ _ => True).
Proof.
  split.
  - intros l r w (ids & -> & Hinv) Hin. apply list_elem_of_fmap in Hin as (i & -> & _).
    destruct (copy_alive _ _ i Hinv) as (o & k & Ho & _). rewrite copy_fd_rule. by exists (o, k).
  - intros l r w (ids & -> & Hinv) Hin. apply list_elem_of_fmap in Hin as (i & -> & Hin).
    eapply wp_mono; [by apply (interest_wp ids)|done|]. intros b w' [-> Hb].
    split_and!; [by exists ids|by intros x|apply stay_open_refl|]. destruct b; [done|]. exists i. auto.
  - intros l1 r l2 w (ids & El & Hinv) Hr. apply rules_split in El as (i1 & i & i2 & -> & -> & -> & ->).
    eapply wp_mono; [by apply cancel_wp|done|]. intros [] w' (Hinv' & Hs & He).
    split_and!; [exists (i1 ++ i2); by rewrite map_app| |].
    + intros x Hx (j & -> & Hj). exists j. split; [done|]. rewrite Hs. apply in_rules in Hx.
      eapply cancel_undisturbed; [apply Hinv|done|done].
    + intros x Hx. rewrite <- map_app in Hx. apply list_elem_of_fmap in Hx as (j & -> & _).
      rewrite (open_eof _ _ _ Hinv), (open_eof _ _ _ Hinv'), He. done.
  - intros l1 r l2 w (ids & El & Hinv) Ho _. apply rules_split in El as (i1 & i & i2 & -> & -> & -> & ->).
    rewrite (open_eof _ _ _ Hinv) in Ho. eapply wp_mono; [apply (callback_wp (i1 ++ i :: i2)); [done|apply in_middle|done]|done|].
    intros [] w' (Hinv' & Hprog & He). rewrite copy_fd_rule. split_and!; [|
      |by left].
    + exists (i1 ++ i :: i2). by rewrite map_app.
    + intros x Hx. apply list_elem_of_fmap in Hx as (j & -> & Hj).
      rewrite (open_eof _ _ _ Hinv), (open_eof _ _ _ Hinv'). split; [|done]. intros Hj' Hor. rewrite He; [auto|].
      pose proof (ids_later _ _ _ _ (ci_ids _ _ Hinv) Hj) as Hlt. clear -Hlt Hor His Hio Hos. destruct i, j; cbn in *; try lia; naive_solver.
Qed.

Lemma poll_keeps l w fds t : J l w -> J l (world_call w (sys_poll fds t)).
Proof.
  intros (ids & -> & [V1 V2 V3 V4 V5 V6 V7 V8]). exists ids. split; [done|].
  assert (forall n, bytes_read n (w_log (world_call w (sys_poll fds t))) = bytes_read n (w_log w) /\
    bytes_written n (w_log (world_call w (sys_poll fds t))) = bytes_written n (w_log w)) as Hq
    by (intros n; by eapply quiet_call).
  split; cbn [world_call world_set_kernel w_fds w_state]; try done.
  - by rewrite (proj1 (Hq _)), (proj2 (Hq _)).
  - by rewrite (proj1 (Hq _)), (proj2 (Hq _)).
Qed.

(** With the loop at its end, both directions are done. *)
Lemma copy_finished ids w :
  copy_inv ids w -> Forall (fun r => X r w) (map copy_rule ids) -> no_hangup K ->
  bs_contents (cp_outbound (w_state w)) = [] /\ cp_outbound_shutdown (w_state w) = true /\
  bs_contents (cp_inbound (w_state w)) = [] /\ cp_inbound_shutdown (w_state w) = true.
Proof.
  intros Hinv Hidle Hn. destruct Hinv as [_ _ _ _ V5 V6 V7 V8]. rewrite Forall_map, Forall_forall in Hidle.
  assert (forall i, i ∈ ids -> rule_idle i (w_state w)) as Hi.
  { intros i Hin. destruct (Hidle i Hin) as (j & Hj & Hx). by apply copy_rule_inj in Hj as ->. }
  assert (forall b shut rd wr eof recv sent, dir_inv b shut rd wr eof recv sent -> bs_contents b = [] ->
    ByteStream_remaining_capacity b <> 0) as Hroom.
  { intros b shut rd wr eof recv sent [D1 D2 _ _ _ _ _] Hb. rewrite ByteStream_remaining_capacity_eq, Hb, D2 by done. done. }
  destruct (Hi c2 (V7 Hn)) as [A1 A2]. assert (c1 ∉ ids) as A3 by (intros Hc; by eapply Hroom, (Hi c1)).
  split_and!; [done|apply A2, (dv_rd _ _ _ _ _ _ _ V5); by apply bool_decide_eq_false|..].
  - destruct (V8 Hn) as [Hc|Hs]; [apply (Hi c4 Hc)|apply (dv_shut _ _ _ _ _ _ _ V6 Hs)].
  - destruct (V8 Hn) as [Hc|Hs]; [|done]. destruct (Hi c4 Hc) as [B1 B2].
    assert (c3 ∉ ids) as B3 by (intros Hc3; by eapply Hroom, (Hi c3)).
    apply B2, (dv_rd _ _ _ _ _ _ _ V6). by apply bool_decide_eq_false.
Qed.

End copying.

(** ** The whole function *)

Section whole.
Context {K : Type} `{KernelLaws K}.

(** Code that changes no wrapper and neither reads nor writes. *)
Definition quiet (w w' : world (K * list event) copy_state) : Prop :=
  w_state w' = w_state w /\
  forall n, bytes_read n (w_log w') = bytes_read n (w_log w) /\ bytes_written n (w_log w') = bytes_written n (w_log w).

Lemma quiet_trans w1 w2 w3 : quiet w1 w2 -> quiet w2 w3 -> quiet w1 w3.
Proof. intros [A1 A2] [B1 B2]. split; [congruence|]. intros n. destruct (A2 n), (B2 n). split; congruence. Qed.

Lemma quiet_calls c w w' :
  (forall n r, event_read n (c, r) = [] /\ event_written n (c, r) = []) ->
  w_kernel w' = snd (k_call c (w_kernel w)) -> w_state w' = w_state w -> quiet w w'.
Proof. intros Hc Hk Hs. split; [done|]. intros n. eapply quiet_call; [done|auto]. Qed.

Lemma set_blocking_wp fd b (w : world (K * list event) copy_state) o n :
  w_fds w !! fd = Some (o, n) ->
  wp (FileDescriptor_set_blocking fd b) (trouble (K * list event)) (fun _ w' => quiet w w' /\ w_fds w' = w_fds w) w.
Proof.
  intros Ho. unfold FileDescriptor_set_blocking. wp_step. eapply fd_num_wp; [done|]. wp_step.
  apply system_wp; [done|]. intros r1 _ _. wp_step. apply system_wp; [done|]. intros r2 _ _. wp_step.
  split; [|done]. apply (quiet_trans _ (world_call w (sys_getfl (fw_fd o)))).
  - by apply (quiet_calls (sys_getfl (fw_fd o))).
  - by eapply (quiet_calls (sys_setfl _ _)).
Qed.

(** The handles in a list are all there. *)
Definition held (fds : gmap nat (FDWrapper * nat)) (l : list FileDescriptor) : Prop :=
  forall fd, fd ∈ l -> exists o n, fds !! fd = Some (o, n) /\ (length (List.filter (fun x => bool_decide (x = fd)) l) <= n)%nat.

Lemma destroy_held_wp fd l (w : world (K * list event) copy_state) :
  held (w_fds w) (fd :: l) ->
  wp (FileDescriptor_destroy fd) (trouble (K * list event)) (fun _ w' => quiet w w' /\ held (w_fds w') l) w.
Proof.
  intros Hh. destruct (Hh fd ltac:(left)) as (o & n & Ho & Hn). cbn [List.filter] in Hn.
  rewrite bool_decide_true in Hn by done. cbn [length] in Hn.
  assert (forall fd', fd' <> fd -> fd' ∈ l -> exists o n, w_fds w !! fd' = Some (o, n) /\
    (length (List.filter (fun x => bool_decide (x = fd')) l) <= n)%nat) as Hother.
  { intros fd' Hne Hin. destruct (Hh fd' ltac:(by right)) as (o' & n' & Ho' & Hn').
    cbn [List.filter] in Hn'. rewrite bool_decide_false in Hn' by done. by exists o', n'. }
  destruct n as [|[|n]]; [lia| |].
  - assert (held (delete fd (w_fds w)) l) as Hd.
    { intros fd' Hin. destruct (decide (fd' = fd)) as [->|Hne]; [|rewrite lookup_delete_ne by done; auto].
      apply list_elem_of_split in Hin as (l1 & l2 & ->). rewrite List.filter_app, length_app in Hn. cbn [List.filter] in Hn.
      rewrite bool_decide_true in Hn by done. cbn [length] in Hn. lia. }
    unfold wp, FileDescriptor_destroy, FDWrapper_destroy, deref, mbind, io_bind. rewrite Ho.
    destruct (fw_closed o); [cbn; split; [by split|done]|]. rewrite call_eq. cbn [mret io_ret].
    split; [|done]. by apply (quiet_calls (sys_close (fw_fd o))).
  - eapply destroy_shared_wp; [exact Ho|]. split; [by split|]. intros fd' Hin. cbn [world_store world_set_fds w_fds].
    destruct (decide (fd = fd')) as [<-|Hne]; [rewrite lookup_insert_eq; exists o, (S n); split; [done|lia]|].
    rewrite lookup_insert_ne by done. auto.
Qed.

Lemma EventLoop_destroy_wp rules (w : world (K * list event) copy_state) :
  held (w_fds w) (map ru_fd rules) ->
  wp (EventLoop_destroy rules) (trouble (K * list event)) (fun _ w' => quiet w w') w.
Proof.
  revert w. induction rules as [|r rules IH]; intros w Hh; cbn [EventLoop_destroy]; [by wp_step|].
  wp_step. eapply wp_mono; [by eapply destroy_held_wp|done|]. intros [] w1 [Hq Hh1].
  eapply wp_mono; [by apply IH|done|]. intros [] w2 Hq2. by eapply quiet_trans.
Qed.

(** Setting up: the rules and the world in which the loop begins. *)
Lemma copy_rules_wp (input output socket : FileDescriptor) (w : world (K * list event) copy_state) o n fi fo :
  input <> output -> input <> socket -> output <> socket ->
  w_fds w !! input = Some (fi, 1%nat) -> w_fds w !! output = Some (fo, 1%nat) -> w_fds w !! socket = Some (o, n) ->
  wp (copy_rules input output socket) (trouble (K * list event))
    (fun l w' => l = map (copy_rule input output socket) all_ids /\ w_state w' = w_state w /\ w_log w' = w_log w /\
       w_fds w' !! input = Some (fi, 2%nat) /\ w_fds w' !! output = Some (fo, 2%nat) /\
       w_fds w' !! socket = Some (o, S (S n))) w.
Proof.
  intros Hio His Hos Hi Ho Hs. unfold copy_rules, EventLoop_add_rule.
  wp_step. wp_step. eapply duplicate_wp; [exact Hi|]. wp_step.
  wp_step. wp_step. eapply duplicate_wp; [cbn; rewrite lookup_insert_ne by done; exact Hs|]. wp_step.
  wp_step. wp_step. eapply duplicate_wp; [apply lookup_insert_eq|]. wp_step.
  wp_step. eapply duplicate_wp; [cbn; rewrite !lookup_insert_ne by done; exact Ho|]. wp_step.
  split_and!; try done; cbn; [|apply lookup_insert_eq|].
  - rewrite !(lookup_insert_ne _ _ input) by done. apply lookup_insert_eq.
  - rewrite lookup_insert_ne by done. apply lookup_insert_eq.
Qed.

Lemma copy_begins (input output socket : FileDescriptor) (w : world (K * list event) copy_state) o n :
  input <> output -> input <> socket -> output <> socket ->
  (0 < n)%nat -> fw_closed o = false ->
  w_fds w !! input = Some (MkFDWrapper STDIN_FILENO false false 0 0, 2%nat) ->
  w_fds w !! output = Some (MkFDWrapper STDOUT_FILENO false false 0 0, 2%nat) ->
  w_fds w !! socket = Some (o, S (S n)) -> w_state w = copy_start ->
  (forall m, bytes_read m (w_log w) = [] /\ bytes_written m (w_log w) = []) ->
  copy_inv input output socket (fw_fd o) all_ids w.
Proof.
  intros Hio His Hos Hn Hc Hi Ho Hs Hst Hq.
  assert (forall eof, dir_inv (ByteStream_new buffer_size) false true true eof [] []) as Hnew.
  { intros eof. split; try done. by apply ByteStream_new_wf. }
  split; rewrite ?Hst, ?(proj1 (Hq _)), ?(proj2 (Hq _)); try done.
  - exists (MkFDWrapper STDIN_FILENO false false 0 0), 2%nat. split_and!; try done.
    cbn. rewrite bool_decide_true, !bool_decide_false by done. cbn. lia.
  - exists o, (S (S n)). split_and!; try done; [congruence|].
    cbn. rewrite !(bool_decide_true (socket = _)), !bool_decide_false by done. cbn. lia.
  - exists (MkFDWrapper STDOUT_FILENO false false 0 0), 2%nat. split_and!; try done.
    cbn. rewrite (bool_decide_true (output = _)), !bool_decide_false by done. cbn. lia.
  - by intros _; right; left.
  - intros _. left. set_solver.
Qed.

(** At the end, every handle that goes is there. *)
Lemma copy_held input output socket num ids w :
  input <> output -> input <> socket -> output <> socket ->
  copy_inv input output socket num ids w ->
  held (w_fds w) (output :: input :: map ru_fd (map (copy_rule (K:=K) input output socket) ids)).
Proof.
  intros Hio His Hos [_ (o1 & k1 & A1 & _ & _ & A2) (o2 & k2 & B1 & _ & _ & B2) (o3 & k3 & C1 & _ & _ & C2) _ _ _ _].
  assert (forall fd, length (List.filter (fun x => bool_decide (x = fd)) (map ru_fd (map (copy_rule (K:=K) input output socket) ids)))
    = refs (copy_fd input output socket) ids fd) as Hc.
  { intros fd. unfold refs. clear -fd. induction ids as [|i ids IH]; [done|]. cbn [map List.filter]. rewrite copy_fd_rule.
    destruct (bool_decide _); cbn [length]; congruence. }
  intros fd Hin. rewrite !elem_of_cons in Hin. cbn [List.filter].
  assert (fd = input \/ fd = output \/ fd = socket) as Hfd.
  { destruct Hin as [|[|Hin]]; auto. rewrite map_map in Hin. apply list_elem_of_fmap in Hin as (i & -> & _).
    rewrite copy_fd_rule. destruct i; cbn; auto. }
  destruct Hfd as [-> | [-> | ->]]; [exists o1, k1|exists o3, k3|exists o2, k2]; (split; [done|]);
    repeat case_bool_decide; try done; cbn [length]; rewrite Hc; lia.
Qed.

(** What was copied so far, and that nothing is left of it. *)
Definition copied (num : Z) (finished : bool) (w : world (K * list event) copy_state) : Prop :=
  bytes_written num (w_log w) ++ bs_contents (cp_outbound (w_state w)) = bytes_read STDIN_FILENO (w_log w) /\
  bytes_written STDOUT_FILENO (w_log w) ++ bs_contents (cp_inbound (w_state w)) = bytes_read num (w_log w) /\
  (finished = true -> calm K -> no_hangup K ->
     bs_contents (cp_outbound (w_state w)) = [] /\ cp_outbound_shutdown (w_state w) = true /\
     bs_contents (cp_inbound (w_state w)) = [] /\ cp_inbound_shutdown (w_state w) = true).

Lemma copied_quiet num finished w w' : quiet w w' -> copied num finished w -> copied num finished w'.
Proof. intros [Hs Hq] Hc. unfold copied. by rewrite !Hs, !(proj1 (Hq _)), !(proj2 (Hq _)). Qed.

Lemma copy_loop_wp input output socket num turns (w : world (K * list event) copy_state) :
  input <> output -> input <> socket -> output <> socket -> num <> STDIN_FILENO -> num <> STDOUT_FILENO ->
  copy_inv input output socket num all_ids w ->
  wp ('(returned, rules) ← event_loop turns (map (copy_rule input output socket) all_ids) (-1);
      if (returned : bool) then
        _ ← FileDescriptor_destroy output;
        _ ← FileDescriptor_destroy input;
        _ ← EventLoop_destroy rules;
        mret true
      else mret false) (trouble (K * list event)) (copied num) w.
Proof.
  intros Hio His Hos Hn0 Hn1 Hinv. wp_step.
  eapply wp_mono; [eapply (event_loop_wp _ (fun e He => He)); [by apply (copy_laws input output socket num)|apply poll_keeps|done|]|done|].
  { exists all_ids. by split; [|exact Hinv]. }
  intros [returned rules] w1 ((ids & -> & Hinv1) & _ & Hexit).
  assert (copied num returned w1) as Hcop.
  { pose proof Hinv1 as [_ _ _ _ V5 V6 _ _]. split_and!; [apply V5|apply V6|]. intros -> Hcalm Hn.
    destruct (Hexit eq_refl) as [Hx|Hx]; [by destruct (Hx (calm_logged Hcalm))|]. by eapply (copy_finished input output socket num). }
  destruct returned; [|by wp_step]. pose proof (copy_held _ _ _ _ _ _ Hio His Hos Hinv1) as Hh.
  wp_step. eapply wp_mono; [by eapply destroy_held_wp|done|]. intros [] w2 [Hq2 Hh2].
  wp_step. eapply wp_mono; [by eapply destroy_held_wp|done|]. intros [] w3 [Hq3 Hh3].
  wp_step. eapply wp_mono; [by eapply EventLoop_destroy_wp|done|]. intros [] w4 Hq4. wp_step.
  by do 3 (eapply copied_quiet; [eassumption|]).
Qed.

(** C15.  [bidirectional_stream_copy] copies: after any number of turns of its loop,
    what the socket was given, with what waits in the outbound stream, is what was
    read from the standard input, in order, and likewise from the socket to the
    standard output.  An exception is only that of a failing system call.  When the
    function returns, with no call having failed and no hangup, both streams are
    empty: all that was read was written, and both ends were passed on. *)
Theorem stream_copy_conserves turns (socket : FileDescriptor) (w : world (K * list event) copy_state) o n :
  w_fds w !! socket = Some (o, n) -> (0 < n)%nat -> (socket < w_next w)%nat ->
  fw_closed o = false -> fw_fd o <> STDIN_FILENO -> fw_fd o <> STDOUT_FILENO -> w_log w = [] ->
  match bidirectional_stream_copy turns socket w with
  | Ok (returned, w') => copied (fw_fd o) returned w'
  | Throw e => trouble K e
  end.
Proof.
  intros Ho Hn Hlt Hc Hn0 Hn1 Hlog.
  enough (wp (bidirectional_stream_copy turns socket) (trouble (K * list event)) (copied (fw_fd o)) w) as Hwp.
  { unfold wp in Hwp. destruct (bidirectional_stream_copy _ _ _) as [[r w']|e]; [done|by apply trouble_logged]. }
  unfold bidirectional_stream_copy, FileDescriptor_new, FDWrapper_new, put_state. cbn [Z.ltb STDIN_FILENO STDOUT_FILENO Z.compare].
  wp_step. wp_step. wp_step. unfold wp at 1, make_shared at 1. wp_step. wp_step. wp_step. unfold wp at 1, make_shared. cbn [w_next].
  wp_step. wp_step. set (w0 := world_set_state _ _).
  assert (w_fds w0 !! w_next w = Some (MkFDWrapper STDIN_FILENO false false 0 0, 1%nat)) as F1.
  { cbn. rewrite lookup_insert_ne by lia. apply lookup_insert_eq. }
  assert (w_fds w0 !! S (w_next w) = Some (MkFDWrapper STDOUT_FILENO false false 0 0, 1%nat)) as F2 by apply lookup_insert_eq.
  assert (w_fds w0 !! socket = Some (o, n)) as F3 by (cbn; rewrite !lookup_insert_ne by lia; done).
  wp_step. eapply wp_mono; [by eapply set_blocking_wp|done|]. intros [] w1 [Q1 E1].
  wp_step. eapply wp_mono; [eapply set_blocking_wp; rewrite E1; exact F1|done|]. intros [] w2 [Q2 E2].
  wp_step. eapply wp_mono; [eapply set_blocking_wp; rewrite E2, E1; exact F2|done|]. intros [] w3 [Q3 E3].
  rewrite E2, E1 in E3. pose proof (quiet_trans _ _ _ (quiet_trans _ _ _ Q1 Q2) Q3) as [Hst Hq].
  wp_step. eapply wp_mono; [eapply copy_rules_wp; rewrite ?E3; [..|exact F1|exact F2|exact F3]; lia|done|].
  intros l w4 (-> & S4 & L4 & G1 & G2 & G3). apply copy_loop_wp; try done; try lia.
  apply (copy_begins _ _ _ _ _ n); try done; try lia; [by rewrite S4, Hst|]. intros m. rewrite L4.
  destruct (Hq m) as [-> ->]. change (w_log w0) with (w_log w). by rewrite Hlog.
Qed.

End whole.

(** ** An example *)

(** Five bytes each way, over descriptor 3. *)
Definition copy_world : world (toy * list event) copy_state :=
  MkWorld (MkToy (<[0 := [1; 2; 3; 4; 5]]> {[3 := [11; 12; 13; 14; 15]]}) 9, [])
    {[ 0%nat := (MkFDWrapper 3 false false 0 0, 1%nat) ]} 1 copy_start.

Lemma stream_copy_conserves_witness :
  exists w, bidirectional_stream_copy 9 0%nat copy_world = Ok (true, w) /\
    bytes_written 3 (w_log w) = [1; 2; 3; 4; 5] /\ bytes_written 1 (w_log w) = [11; 12; 13; 14; 15] /\
    cp_outbound_shutdown (w_state w) = true /\ cp_inbound_shutdown (w_state w) = true.
Proof.
  pose proof (stream_copy_conserves (K:=toy) 9 0%nat copy_world (MkFDWrapper 3 false false 0 0) 1%nat
    eq_refl ltac:(lia) ltac:(cbn; lia) eq_refl ltac:(done) ltac:(done) eq_refl) as Hw.
  assert (match bidirectional_stream_copy 9 0%nat copy_world with
          | Ok (r, w) => (r, bytes_read 0 (w_log w), bytes_read 3 (w_log w))
          | Throw _ => (false, [], [])
          end = (true, [1; 2; 3; 4; 5], [11; 12; 13; 14; 15])) as Hrun by (vm_compute; reflexivity).
  destruct (bidirectional_stream_copy _ _ _) as [[r w]|e]; [|done].
  injection Hrun as -> R1 R2. exists w. destruct Hw as (H1 & H2 & H3).
  destruct (H3 eq_refl toy_calm toy_no_hangup) as (A1 & A2 & A3 & A4).
  rewrite A1, app_nil_r in H1. rewrite A3, app_nil_r in H2.
  split_and!; [reflexivity|exact (eq_trans H1 R1)|exact (eq_trans H2 R2)|exact A2|exact A4].
Defined.
