(* ===== verification/NetworkInterfaces.v ===== *)
(** The link between IP and Ethernet: [NetworkInterface]
    (src/libsponge/network_interface.hh and .cc).

    The interface keeps a table of learned addresses with their expiry times, the
    time of the last ARP request for each address, and a queue of datagrams that
    wait for an answer.

    Theorems: what [send_datagram] does on each branch; the loop over the waiting
    datagrams ends; no datagram is lost or sent twice; requests for the same
    address are at least five seconds apart; two interfaces resolve each other
    and a datagram crosses; and a waiting datagram at the head of the queue holds
    up one whose address is known. *)

From stdpp Require Import gmap.
From S2P Require Import Prelude WrappingIntegers Buffers Parsers TCPSegments IPv4Datagrams EthernetFrames Addresses.

Definition cache_ttl_ms : Z := 30 * 1000.
Definition broadcast_interval_ms : Z := 5 * 1000.

Record NetworkInterface : Type := MkNetworkInterface {
  ni_ethernet_address : EthernetAddress;
  ni_ip_address : Address;
  ni_frames_out : list EthernetFrame;
  ni_clock : Z;
  ni_arp_table : gmap Z (EthernetAddress * Z);
  ni_last_broadcast_time : gmap Z Z;
  ni_dgram_pending : list (IPv4Datagram * Address)
}.

(** The members as the constructor initialises them. *)
Definition NetworkInterface_new (ethernet_address : EthernetAddress) (ip_address : Address) : NetworkInterface :=
  MkNetworkInterface ethernet_address ip_address [] 0 ∅ ∅ [].

(** The constructor with its body, a message that asks for the text of the address,
    which may throw; the text itself is not kept. *)
Definition NetworkInterface_construct `{NameService} (ethernet_address : EthernetAddress) (ip_address : Address) :
    result NetworkInterface :=
  _ ← Address_ip ip_address;
  Ok (NetworkInterface_new ethernet_address ip_address).

(** Assignments to the members the operations change. *)
Definition NetworkInterface_push_frame (n : NetworkInterface) (f : EthernetFrame) : NetworkInterface :=
  MkNetworkInterface (ni_ethernet_address n) (ni_ip_address n) (ni_frames_out n ++ [f]) (ni_clock n)
    (ni_arp_table n) (ni_last_broadcast_time n) (ni_dgram_pending n).

Definition NetworkInterface_set_pending (n : NetworkInterface) (q : list (IPv4Datagram * Address)) : NetworkInterface :=
  MkNetworkInterface (ni_ethernet_address n) (ni_ip_address n) (ni_frames_out n) (ni_clock n)
    (ni_arp_table n) (ni_last_broadcast_time n) q.

Definition NetworkInterface_set_broadcast (n : NetworkInterface) (m : gmap Z Z) : NetworkInterface :=
  MkNetworkInterface (ni_ethernet_address n) (ni_ip_address n) (ni_frames_out n) (ni_clock n)
    (ni_arp_table n) m (ni_dgram_pending n).

Definition NetworkInterface_set_arp (n : NetworkInterface) (m : gmap Z (EthernetAddress * Z)) : NetworkInterface :=
  MkNetworkInterface (ni_ethernet_address n) (ni_ip_address n) (ni_frames_out n) (ni_clock n)
    m (ni_last_broadcast_time n) (ni_dgram_pending n).

Definition NetworkInterface_set_frames (n : NetworkInterface) (l : list EthernetFrame) : NetworkInterface :=
  MkNetworkInterface (ni_ethernet_address n) (ni_ip_address n) l (ni_clock n)
    (ni_arp_table n) (ni_last_broadcast_time n) (ni_dgram_pending n).

(** The mapping for an address, if there is one that has not expired. *)
Definition arp_valid (n : NetworkInterface) (ip : Z) : option EthernetAddress :=
  match ni_arp_table n !! ip with
  | Some (hw_address, time_expired) => if ni_clock n <? time_expired then Some hw_address else None
  | None => None
  end.

(** Has a request for the address been sent less than [_broadcast_interval_ms] ago? *)
Definition broadcast_recently (n : NetworkInterface) (ip : Z) : bool :=
  match ni_last_broadcast_time n !! ip with
  | Some t => u64 (ni_clock n - t) <? broadcast_interval_ms
  | None => false
  end.

Definition NetworkInterface_send_datagram (n : NetworkInterface) (dgram : IPv4Datagram) (next_hop : Address) :
    result NetworkInterface :=
  next_hop_ip ← Address_ipv4_numeric next_hop;
  match arp_valid n next_hop_ip with
  | Some hw_address =>
      payload ← IPv4Datagram_serialize dgram;
      Ok (NetworkInterface_push_frame n
            (MkEthernetFrame (MkEthernetHeader hw_address (ni_ethernet_address n) TYPE_IPv4) payload))
  | None =>
      let n := NetworkInterface_set_pending n (ni_dgram_pending n ++ [(dgram, next_hop)]) in
      if broadcast_recently n next_hop_ip then Ok n
      else
        let n := NetworkInterface_set_broadcast n (<[next_hop_ip := ni_clock n]> (ni_last_broadcast_time n)) in
        sender_ip ← Address_ipv4_numeric (ni_ip_address n);
        let arp_req := ARPMessage_with OPCODE_REQUEST (ni_ethernet_address n) sender_ip [0; 0; 0; 0; 0; 0] next_hop_ip in
        payload ← ARPMessage_serialize arp_req;
        Ok (NetworkInterface_push_frame n
              (MkEthernetFrame (MkEthernetHeader ETHERNET_BROADCAST (ni_ethernet_address n) TYPE_ARP)
                 (BufferList_of_string payload)))
  end.

(** The loop [while (not _dgram_pending.empty())] of [recv_frame].  A turn that
    does not end it takes one datagram off the queue. *)
Fixpoint poll_pending (fuel : nat) (n : NetworkInterface) : result NetworkInterface :=
  match fuel with
  | O => Ok n
  | S fuel =>
      match ni_dgram_pending n with
      | [] => Ok n
      | (dgram, next_hop) :: _ =>
          let size := length (ni_dgram_pending n) in
          n ← NetworkInterface_send_datagram n dgram next_hop;
          let popped := NetworkInterface_set_pending n (tail (ni_dgram_pending n)) in
          if (size <? length (ni_dgram_pending n))%nat then Ok popped
          else poll_pending fuel popped
      end
  end.

(** A good ARP message: learn the mapping, and answer a request for our address. *)
Definition NetworkInterface_recv_arp (n : NetworkInterface) (arp_msg : ARPMessage) : result NetworkInterface :=
  let sender_ip_address := am_sender_ip_address arp_msg in
  let sender_ethernet_address := am_sender_ethernet_address arp_msg in
  let n := NetworkInterface_set_arp n
    (<[sender_ip_address := (sender_ethernet_address, u64 (ni_clock n + cache_ttl_ms))]> (ni_arp_table n)) in
  own_ip ← Address_ipv4_numeric (ni_ip_address n);
  if (am_target_ip_address arp_msg =? own_ip) && (am_opcode arp_msg =? OPCODE_REQUEST) then
    let arp_reply := MkARPMessage (am_hardware_type arp_msg) (am_protocol_type arp_msg)
      (am_hardware_address_size arp_msg) (am_protocol_address_size arp_msg) OPCODE_REPLY
      (ni_ethernet_address n) own_ip sender_ethernet_address sender_ip_address in
    payload ← ARPMessage_serialize arp_reply;
    Ok (NetworkInterface_push_frame n
          (MkEthernetFrame (MkEthernetHeader sender_ethernet_address (ni_ethernet_address n) TYPE_ARP)
             (BufferList_of_string payload)))
  else Ok n.

Definition NetworkInterface_recv_frame (n : NetworkInterface) (frame : EthernetFrame) :
    result (option IPv4Datagram * NetworkInterface) :=
  let dst := eh_dst (ef_header frame) in
  if negb (bool_decide (dst = ni_ethernet_address n)) && negb (bool_decide (dst = ETHERNET_BROADCAST))
  then Ok (None, n)
  else if eh_type (ef_header frame) =? TYPE_IPv4 then
    payload ← BufferList_to_Buffer (ef_payload frame);
    '(res, dgram) ← IPv4Datagram_parse IPv4Datagram_default payload;
    if is_NoError res then Ok (Some dgram, n) else Ok (None, n)
  else if eh_type (ef_header frame) =? TYPE_ARP then
    payload ← BufferList_to_Buffer (ef_payload frame);
    '(res, arp_msg) ← ARPMessage_parse ARPMessage_default payload;
    n ← (if is_NoError res then NetworkInterface_recv_arp n arp_msg else Ok n);
    n ← poll_pending (length (ni_dgram_pending n)) n;
    Ok (None, n)
  else Ok (None, n).

Definition NetworkInterface_tick (n : NetworkInterface) (ms_since_last_tick : Z) : NetworkInterface :=
  let clock := u64 (ni_clock n + ms_since_last_tick) in
  MkNetworkInterface (ni_ethernet_address n) (ni_ip_address n) (ni_frames_out n) clock
    (filter (fun e => clock < e.2.2) (ni_arp_table n)) (ni_last_broadcast_time n) (ni_dgram_pending n).

(** ** Well-formed interfaces *)

(** A datagram and a next hop that can be put into a frame. *)
Definition hop_ip (a : Address) (ip : Z) : Prop := Address_ipv4_numeric a = Ok ip /\ 0 <= ip < 2 ^ 32.

Definition sendable (x : IPv4Datagram * Address) : Prop := IPv4Datagram_ok x.1 /\ exists ip, hop_ip x.2 ip.

Record ni_wf (n : NetworkInterface) : Prop := {
  nw_ethernet : EthernetAddress_ok (ni_ethernet_address n);
  nw_ip : exists ip, hop_ip (ni_ip_address n) ip;
  nw_pending : Forall sendable (ni_dgram_pending n);
  nw_clock : 0 <= ni_clock n
}.

(** The frame that asks for an address. *)
Definition request_frame (eth : EthernetAddress) (own_ip ip : Z) : EthernetFrame :=
  MkEthernetFrame (MkEthernetHeader ETHERNET_BROADCAST eth TYPE_ARP)
    (BufferList_of_string (arp_bytes (ARPMessage_with OPCODE_REQUEST eth own_ip [0; 0; 0; 0; 0; 0] ip))).

Lemma zero_address_ok : EthernetAddress_ok [0; 0; 0; 0; 0; 0].
Proof. split; [done|bytes_ok]. Qed.

Lemma ARPMessage_with_ok opcode s sip t tip :
  opcode = OPCODE_REQUEST \/ opcode = OPCODE_REPLY -> EthernetAddress_ok s -> 0 <= sip < 2 ^ 32 ->
  EthernetAddress_ok t -> 0 <= tip < 2 ^ 32 -> ARPMessage_ok (ARPMessage_with opcode s sip t tip).
Proof. intros [->| ->] Hs Hsip Ht Htip; by split. Qed.

Lemma arp_bytes_inj m m' : ARPMessage_ok m -> ARPMessage_ok m' -> arp_bytes m = arp_bytes m' -> m = m'.
Proof.
  intros Hm Hm' Heq. pose proof (arp_bytes_len m Hm) as Hlen.
  assert (forall x, ARPMessage_ok x -> arp_bytes x = arp_bytes m ->
    ARPMessage_parse ARPMessage_default (Buffer_of_string (arp_bytes m)) = Ok (NoError, x)) as Hp.
  { intros x Hx Ex. destruct (ARPMessage_wire_roundtrip x Hx) as (l & El & Hl).
    cbn [wire_serialize wire_parse wire_same ARPMessage_wire] in *.
    rewrite ARPMessage_serialize_eq in El by apply Hx. injection El as <-.
    destruct (Hl ARPMessage_default (Buffer_of_string (arp_bytes m))) as (y & Ey & <-); [|rewrite Ex|done].
    - apply Buffer_of_string_wf. lia.
    - unfold BufferList_of_string. cbn [app]. rewrite flatten_cons. symmetry. apply app_nil_r. }
  pose proof (Hp m Hm eq_refl) as H1. rewrite (Hp m' Hm' (eq_sym Heq)) in H1. by injection H1.
Qed.

(** What [send_datagram] does. *)
Lemma send_datagram_eq n d hop ip own_ip :
  EthernetAddress_ok (ni_ethernet_address n) -> hop_ip (ni_ip_address n) own_ip ->
  IPv4Datagram_ok d -> hop_ip hop ip ->
  exists l, IPv4Datagram_serialize d = Ok l /\
  NetworkInterface_send_datagram n d hop = Ok
    match arp_valid n ip with
    | Some hw => NetworkInterface_push_frame n
                   (MkEthernetFrame (MkEthernetHeader hw (ni_ethernet_address n) TYPE_IPv4) l)
    | None =>
        let n' := NetworkInterface_set_pending n (ni_dgram_pending n ++ [(d, hop)]) in
        if broadcast_recently n ip then n'
        else NetworkInterface_push_frame
               (NetworkInterface_set_broadcast n' (<[ip := ni_clock n]> (ni_last_broadcast_time n)))
               (request_frame (ni_ethernet_address n) own_ip ip)
    end.
Proof.
  intros He [Hown Hownr] Hd [Hip Hipr]. pose proof (IPv4Datagram_serialize_eq d Hd) as Hl.
  eexists. split; [exact Hl|]. unfold NetworkInterface_send_datagram. rewrite Hip. cbn [mbind result_bind].
  destruct (arp_valid n ip) as [hw|]; [by rewrite Hl|].
  change (broadcast_recently (NetworkInterface_set_pending n (ni_dgram_pending n ++ [(d, hop)])) ip)
    with (broadcast_recently n ip).
  cbn zeta. destruct (broadcast_recently n ip); [done|]. cbn [ni_ip_address NetworkInterface_set_broadcast NetworkInterface_set_pending].
  rewrite Hown. cbn [mbind result_bind ni_ethernet_address].
  rewrite ARPMessage_serialize_eq; [done|done|apply He|apply zero_address_ok].
Qed.

(** ** Invariant *)

(** The frames sent so far with their times: [log] for those the owner has taken,
    then those in the queue. *)
Definition frame_log (log : list (Z * EthernetFrame)) (n : NetworkInterface) : list (Z * EthernetFrame) :=
  log ++ map (pair (ni_clock n)) (ni_frames_out n).

(** The datagrams in a log, and those in a list of requests, as they look on the wire. *)
Definition sent_datagrams (l : list (Z * EthernetFrame)) : list (result BufferList) :=
  map (fun e => Ok (ef_payload e.2)) (filter (fun e => eh_type (ef_header e.2) = TYPE_IPv4) l).

Definition as_sent (l : list (IPv4Datagram * Address)) : list (result BufferList) :=
  map (fun x => IPv4Datagram_serialize x.1) l.

Section invariant.
Context (eth : EthernetAddress) (own_ip : Z) (log : list (Z * EthernetFrame)).

Record ni_inv (sub : list (IPv4Datagram * Address)) (n : NetworkInterface) : Prop := {
  nv_wf : ni_wf n;
  nv_ethernet : ni_ethernet_address n = eth;
  nv_ip : hop_ip (ni_ip_address n) own_ip;
  nv_width : ni_clock n < 2 ^ 64;
  nv_last : forall ip t, ni_last_broadcast_time n !! ip = Some t -> 0 <= t <= ni_clock n;
  nv_conserve : sent_datagrams (frame_log log n) ++ as_sent (ni_dgram_pending n) ≡ₚ as_sent sub;
  nv_requested : forall ip t, 0 <= ip < 2 ^ 32 -> (t, request_frame eth own_ip ip) ∈ frame_log log n ->
    exists t', ni_last_broadcast_time n !! ip = Some t' /\ t <= t';
  nv_spaced : forall ip, 0 <= ip < 2 ^ 32 -> forall i j ti tj, (i < j)%nat ->
    frame_log log n !! i = Some (ti, request_frame eth own_ip ip) ->
    frame_log log n !! j = Some (tj, request_frame eth own_ip ip) -> ti + broadcast_interval_ms <= tj
}.

Lemma frame_log_push n f : frame_log log (NetworkInterface_push_frame n f) = frame_log log n ++ [(ni_clock n, f)].
Proof. unfold frame_log. cbn. by rewrite map_app, app_assoc. Qed.

Lemma sent_datagrams_snoc l t f :
  sent_datagrams (l ++ [(t, f)]) =
    sent_datagrams l ++ (if decide (eh_type (ef_header f) = TYPE_IPv4) then [Ok (ef_payload f)] else []).
Proof.
  unfold sent_datagrams. rewrite filter_app, map_app. f_equal. cbn [filter list_filter snd].
  by destruct (decide _).
Qed.

(** A frame that is not a request leaves the requests in order. *)
Lemma spaced_snoc (l : list (Z * EthernetFrame)) (e : Z * EthernetFrame) r d :
  (forall i j ti tj, (i < j)%nat -> l !! i = Some (ti, r) -> l !! j = Some (tj, r) -> ti + d <= tj) ->
  (e.2 = r -> forall t, (t, r) ∈ l -> t + d <= e.1) ->
  forall i j ti tj, (i < j)%nat -> (l ++ [e]) !! i = Some (ti, r) -> (l ++ [e]) !! j = Some (tj, r) -> ti + d <= tj.
Proof.
  intros Hl He i j ti tj Hij Hi Hj. apply lookup_app_Some in Hj as [Hj|[Hlen Hj]].
  - rewrite lookup_app_l in Hi by (apply lookup_lt_Some in Hj; lia). by eapply (Hl i j).
  - apply list_lookup_singleton_Some in Hj as [Hj ->]. rewrite lookup_app_l in Hi by lia.
    apply (He eq_refl). by eapply list_elem_of_lookup_2.
Qed.

(** The requests on the wire can be told from other messages. *)
Lemma request_frame_message h m ip :
  EthernetAddress_ok eth -> 0 <= own_ip < 2 ^ 32 -> 0 <= ip < 2 ^ 32 -> ARPMessage_ok m ->
  MkEthernetFrame h (BufferList_of_string (arp_bytes m)) = request_frame eth own_ip ip ->
  m = ARPMessage_with OPCODE_REQUEST eth own_ip [0; 0; 0; 0; 0; 0] ip.
Proof.
  intros He Ho Hi Hm H. apply (f_equal ef_payload) in H. cbn [ef_payload request_frame] in H.
  apply BufferList_of_string_inj in H. apply arp_bytes_inj; [done| |done].
  apply ARPMessage_with_ok; auto using zero_address_ok.
Qed.

(** Sending a frame that is not a request. *)
Lemma push_other_inv sub sub' n f :
  ni_inv sub n -> (forall ip, 0 <= ip < 2 ^ 32 -> f <> request_frame eth own_ip ip) ->
  (if decide (eh_type (ef_header f) = TYPE_IPv4) then [Ok (ef_payload f)] else []) ++ as_sent sub ≡ₚ as_sent sub' ->
  ni_inv sub' (NetworkInterface_push_frame n f).
Proof.
  intros [N1 N2 N3 N4 N5 N6 N7 N8] Hf Hsub. split; try done; [by destruct N1| | |]; rewrite frame_log_push.
  - rewrite sent_datagrams_snoc. cbn [ni_dgram_pending NetworkInterface_push_frame]. rewrite <- Hsub, <- N6. solve_Permutation.
  - intros ip t Hip. rewrite elem_of_app, list_elem_of_singleton. intros [H|H]; [by apply N7|].
    apply pair_eq in H as [_ H]. by destruct (Hf ip Hip).
  - intros ip Hip. apply spaced_snoc; [by apply N8|]. cbn [fst snd]. intros H. by destruct (Hf ip Hip).
Qed.

(** Sending the request for an address that has not been asked for recently. *)
Lemma push_request_inv sub n ip :
  ni_inv sub n -> 0 <= ip < 2 ^ 32 -> broadcast_recently n ip = false ->
  ni_inv sub (NetworkInterface_push_frame
    (NetworkInterface_set_broadcast n (<[ip := ni_clock n]> (ni_last_broadcast_time n))) (request_frame eth own_ip ip)).
Proof.
  intros [N1 N2 N3 N4 N5 N6 N7 N8] Hip Hrec. pose proof (nw_clock _ N1) as Hc.
  assert (forall ip', 0 <= ip' < 2 ^ 32 -> request_frame eth own_ip ip = request_frame eth own_ip ip' -> ip = ip') as Hinj.
  { intros ip' Hip' H. assert (EthernetAddress_ok eth) by (rewrite <- N2; apply N1).
    apply request_frame_message in H; [by injection H|done|apply N3|done|].
    apply ARPMessage_with_ok; auto using zero_address_ok. apply N3. }
  assert (frame_log log (NetworkInterface_set_broadcast n (<[ip := ni_clock n]> (ni_last_broadcast_time n))) =
    frame_log log n) as El by done.
  split; try done; [by destruct N1| | | |]; rewrite ?frame_log_push, ?El; cbn [ni_last_broadcast_time
    NetworkInterface_set_broadcast NetworkInterface_push_frame ni_clock ni_dgram_pending].
  - intros ip' t. rewrite lookup_insert_Some. intros [[_ <-]|[_ H]]; [lia|by apply N5 in H].
  - by rewrite sent_datagrams_snoc, app_nil_r.
  - intros ip' t Hip'. rewrite elem_of_app, list_elem_of_singleton. intros [H|H].
    + apply N7 in H as (t' & E & Ht); [|done]. pose proof (N5 _ _ E).
      destruct (decide (ip = ip')) as [<-|Hne]; [exists (ni_clock n); rewrite lookup_insert_eq; split; [done|lia]|].
      exists t'. by rewrite lookup_insert_ne.
    + apply pair_eq in H as [-> H]. symmetry in H. apply Hinj in H as <-; [|done]. exists (ni_clock n). by rewrite lookup_insert_eq.
  - intros ip' Hip'. apply spaced_snoc; [by apply N8|]. cbn [fst snd]. intros H t Ht. apply Hinj in H as <-; [|done].
    apply N7 in Ht as (t' & E & Hle); [|done]. pose proof (N5 _ _ E). unfold broadcast_recently in Hrec. rewrite E in Hrec.
    b2p. unfold broadcast_interval_ms in *. rewrite u64_small in Hrec by lia. lia.
Qed.

Lemma send_inv sub n d hop :
  ni_inv sub n -> sendable (d, hop) ->
  exists n', NetworkInterface_send_datagram n d hop = Ok n' /\ ni_inv (sub ++ [(d, hop)]) n' /\
    ni_clock n' = ni_clock n /\
    (ni_dgram_pending n' = ni_dgram_pending n \/ ni_dgram_pending n' = ni_dgram_pending n ++ [(d, hop)]).
Proof.
  intros HI [Hd [ip Hip]]. pose proof (nv_wf _ _ HI) as Hwf. pose proof (nv_ip _ _ HI) as Hown. cbn [fst snd] in *.
  destruct (send_datagram_eq n d hop ip own_ip) as (l & El & E); [apply Hwf|done..|].
  rewrite E. eexists. split; [reflexivity|]. rewrite (nv_ethernet _ _ HI).
  destruct (arp_valid n ip) as [hw|].
  - split; [|split; [done|by left]]. eapply push_other_inv; [exact HI| |].
    + intros ip' _ H. by apply (f_equal (fun f => eh_type (ef_header f))) in H.
    + unfold as_sent. rewrite map_app. cbn. rewrite El. solve_Permutation.
  - assert (ni_inv (sub ++ [(d, hop)]) (NetworkInterface_set_pending n (ni_dgram_pending n ++ [(d, hop)]))) as HI'.
    { destruct HI as [N1 N2 N3 N4 N5 N6 N7 N8]. split; try done.
      - destruct N1. split; try done. apply Forall_app_2; [done|]. apply Forall_cons_2; [|apply Forall_nil_2].
        split; [done|by exists ip].
      - unfold as_sent in *. cbn [ni_dgram_pending NetworkInterface_set_pending]. rewrite !map_app, app_assoc.
        by apply Permutation_app_tail. }
    cbn zeta. destruct (broadcast_recently n ip) eqn:Hr; [by split; [|split; [|right]]|].
    split; [|split; [done|by right]]. apply (push_request_inv _ _ ip) in HI'; [exact HI'|apply Hip|exact Hr].
Qed.

(** Taking a datagram that has been sent or queued again off the queue. *)
Lemma pop_inv sub n x q :
  ni_inv (sub ++ [x]) n -> ni_dgram_pending n = x :: q -> ni_inv sub (NetworkInterface_set_pending n q).
Proof.
  intros [N1 N2 N3 N4 N5 N6 N7 N8] Hq. split; try done.
  - destruct N1. split; try done. rewrite Hq in nw_pending0. by apply Forall_cons in nw_pending0 as [_ ?].
  - rewrite Hq in N6. unfold as_sent in *. rewrite map_app in N6. cbn [map ni_dgram_pending NetworkInterface_set_pending] in *.
    apply (Permutation_cons_inv (a := IPv4Datagram_serialize x.1)).
    etrans; [|etrans; [exact N6|]]; solve_Permutation.
Qed.

Lemma poll_inv fuel sub n :
  ni_inv sub n -> exists n', poll_pending fuel n = Ok n' /\ ni_inv sub n' /\ ni_clock n' = ni_clock n.
Proof.
  revert n. induction fuel as [|fuel IH]; intros n HI; [by exists n|]. cbn [poll_pending].
  destruct (ni_dgram_pending n) as [|[d hop] q] eqn:Hq; [by exists n|].
  assert (sendable (d, hop)) as Hs.
  { pose proof (nw_pending _ (nv_wf _ _ HI)) as H. rewrite Hq in H. by apply Forall_cons in H as [? _]. }
  destruct (send_inv sub n d hop HI Hs) as (n1 & -> & HI1 & Hc & Hp). cbn [mbind result_bind]. rewrite Hq in Hp.
  assert (exists q', ni_dgram_pending n1 = (d, hop) :: q') as [q' Hq'] by (destruct Hp as [->| ->]; by eexists).
  pose proof (pop_inv _ _ _ _ HI1 Hq') as HI2. rewrite Hq'. cbn [tail].
  destruct (_ <? _)%nat; [by eexists|].
  destruct (IH _ HI2) as (n2 & -> & HI3 & Hc'). exists n2. split_and!; try done. by rewrite Hc'.
Qed.

Lemma learn_inv sub n m : ni_inv sub n -> ni_inv sub (NetworkInterface_set_arp n m).
Proof. intros [N1 N2 N3 N4 N5 N6 N7 N8]. split; try done. by destruct N1. Qed.

Lemma recv_arp_inv sub n m :
  ni_inv sub n -> ARPMessage_ok m ->
  exists n', NetworkInterface_recv_arp n m = Ok n' /\ ni_inv sub n' /\ ni_clock n' = ni_clock n /\
    ni_dgram_pending n' = ni_dgram_pending n.
Proof.
  intros HI Hm. unfold NetworkInterface_recv_arp. cbn [ni_ip_address NetworkInterface_set_arp].
  pose proof (nv_ip _ _ HI) as Hown. rewrite (proj1 Hown). cbn [mbind result_bind].
  set (n1 := NetworkInterface_set_arp n _). assert (ni_inv sub n1) as HI1 by by apply learn_inv.
  destruct (_ && _); [|by exists n1]. fold n1.
  assert (EthernetAddress_ok (ni_ethernet_address n1)) as He by apply HI1.
  set (r := MkARPMessage _ _ _ _ OPCODE_REPLY _ _ _ _).
  assert (ARPMessage_ok r) as Hr.
  { destruct Hm as [Hsup Hs Hsip Ht Htip]. apply supported_fields in Hsup as (F1 & F2 & F3 & F4 & _).
    split; try done; [|apply Hown].
    unfold ARPMessage_supported, r. cbn. by rewrite F1, F2, F3, F4. }
  rewrite ARPMessage_serialize_eq by apply Hr. cbn [mbind result_bind]. eexists. split; [reflexivity|].
  split; [|done]. eapply push_other_inv; [exact HI1| |].
  - intros ip Hip H. apply request_frame_message in H; [|by rewrite <- (nv_ethernet _ _ HI1)|apply Hown|done|done].
    discriminate H.
  - done.
Qed.

End invariant.

(** ** Runs *)

(** What the owner does with an interface.  It takes the frames out after every
    call; the log has them with the time on the interface's clock. *)
Inductive ni_op : Type :=
  | ni_send (dgram : IPv4Datagram) (next_hop : Address)
  | ni_recv (frame : EthernetFrame)
  | ni_tick (ms : Z).

Definition ni_exec (op : ni_op) (w : NetworkInterface * list (Z * EthernetFrame)) :
    result (NetworkInterface * list (Z * EthernetFrame)) :=
  let '(n, log) := w in
  n ← match op with
      | ni_send d hop => NetworkInterface_send_datagram n d hop
      | ni_recv f => '(_, n) ← NetworkInterface_recv_frame n f; Ok n
      | ni_tick ms => Ok (NetworkInterface_tick n ms)
      end;
  Ok (NetworkInterface_set_frames n [], frame_log log n).

Fixpoint ni_run (ops : list ni_op) (w : NetworkInterface * list (Z * EthernetFrame)) :
    result (NetworkInterface * list (Z * EthernetFrame)) :=
  match ops with
  | [] => Ok w
  | op :: ops => w ← ni_exec op w; ni_run ops w
  end.

(** Frames as the link layer hands them up, with the payload in one buffer of bytes. *)
Definition frame_ok (f : EthernetFrame) : Prop :=
  exists buf, ef_payload f = [buf] /\ Buffer_wf buf /\ Forall byte_ok (Buffer_str buf).

Definition ni_op_ok (op : ni_op) : Prop :=
  match op with
  | ni_send d hop => sendable (d, hop)
  | ni_recv f => frame_ok f
  | ni_tick ms => 0 <= ms
  end.

(** The datagrams handed to the interface, and the time that passes. *)
Definition ops_datagrams (ops : list ni_op) : list (IPv4Datagram * Address) :=
  omap (fun op => match op with ni_send d hop => Some (d, hop) | _ => None end) ops.

Definition ops_time (ops : list ni_op) : Z :=
  foldr (fun op t => match op with ni_tick ms => ms | _ => 0 end + t) 0 ops.

Lemma recv_frame_inv eth own_ip log sub n f :
  ni_inv eth own_ip log sub n -> frame_ok f ->
  exists r n', NetworkInterface_recv_frame n f = Ok (r, n') /\ ni_inv eth own_ip log sub n' /\ ni_clock n' = ni_clock n.
Proof.
  intros HI (buf & Hf & Hwf & Hok). unfold NetworkInterface_recv_frame. rewrite Hf. cbn [BufferList_to_Buffer].
  destruct (_ && _); [by eexists _, n|]. destruct (_ =? TYPE_IPv4).
  { cbn [mbind result_bind]. destruct (IPv4Datagram_parse_any IPv4Datagram_default buf Hwf Hok) as (r & d' & E).
    rewrite E. cbn [mbind result_bind]. destruct (is_NoError r); by eexists _, n. }
  destruct (_ =? TYPE_ARP); [|by eexists _, n]. cbn [mbind result_bind].
  destruct (ARPMessage_parse_any ARPMessage_default buf Hwf Hok) as (r & m & E & Hm). rewrite E. cbn [mbind result_bind].
  assert (exists n1, (if is_NoError r then NetworkInterface_recv_arp n m else Ok n) = Ok n1 /\
    ni_inv eth own_ip log sub n1 /\ ni_clock n1 = ni_clock n) as (n1 & -> & HI1 & Hc1).
  { unfold is_NoError. case_bool_decide as Hr; [|by exists n].
    destruct (recv_arp_inv eth own_ip log sub n m HI (Hm Hr)) as (n1 & E1 & HI1 & Hc & _). by exists n1. }
  cbn [mbind result_bind]. destruct (poll_inv eth own_ip log (length (ni_dgram_pending n1)) sub n1 HI1) as (n2 & -> & HI2 & Hc2).
  eexists _, n2. split_and!; [reflexivity|done|congruence].
Qed.

Lemma drain_inv eth own_ip log sub n :
  ni_inv eth own_ip log sub n -> ni_inv eth own_ip (frame_log log n) sub (NetworkInterface_set_frames n []).
Proof.
  intros [N1 N2 N3 N4 N5 N6 N7 N8].
  assert (frame_log (frame_log log n) (NetworkInterface_set_frames n []) = frame_log log n) as E.
  { unfold frame_log at 1. cbn. apply app_nil_r. }
  split; try done; [by destruct N1|..]; by rewrite E.
Qed.

Lemma tick_inv eth own_ip log sub n ms :
  ni_inv eth own_ip log sub n -> ni_frames_out n = [] -> 0 <= ms -> ni_clock n + ms < 2 ^ 64 ->
  ni_inv eth own_ip log sub (NetworkInterface_tick n ms).
Proof.
  intros [N1 N2 N3 N4 N5 N6 N7 N8] Hout Hms Hc. pose proof (nw_clock _ N1).
  assert (frame_log log (NetworkInterface_tick n ms) = frame_log log n) as E by (unfold frame_log; cbn; by rewrite Hout).
  assert (ni_clock (NetworkInterface_tick n ms) = ni_clock n + ms) as Ec by (cbn; wsimpl; lia).
  split; rewrite ?E, ?Ec; try done.
  - destruct N1. split; try done. rewrite Ec. lia.
  - intros ip t H'. apply N5 in H'. lia.
Qed.

Lemma ops_time_nonneg ops : Forall ni_op_ok ops -> 0 <= ops_time ops.
Proof.
  induction 1 as [|op ops Ho _ IH]; [done|]. unfold ops_time in *. cbn [foldr]. destruct op; cbn in Ho; lia.
Qed.

Lemma ni_run_inv eth own_ip ops n log sub :
  ni_inv eth own_ip log sub n -> ni_frames_out n = [] -> Forall ni_op_ok ops -> ni_clock n + ops_time ops < 2 ^ 64 ->
  exists n' log', ni_run ops (n, log) = Ok (n', log') /\ ni_inv eth own_ip log' (sub ++ ops_datagrams ops) n' /\
    ni_frames_out n' = [].
Proof.
  intros HI Hout Hops. revert n log sub HI Hout. induction Hops as [|op ops Hop Hops IH]; intros n log sub HI Hout Ht.
  { exists n, log. cbn. by rewrite app_nil_r. }
  pose proof (ops_time_nonneg ops Hops) as Hpos.
  assert (exists n1, match op with
      | ni_send d hop => NetworkInterface_send_datagram n d hop
      | ni_recv f => '(_, n) ← NetworkInterface_recv_frame n f; Ok n
      | ni_tick ms => Ok (NetworkInterface_tick n ms)
      end = Ok n1 /\ ni_inv eth own_ip log (sub ++ ops_datagrams [op]) n1 /\ ni_clock n1 + ops_time ops < 2 ^ 64)
    as (n1 & E & HI1 & Ht1).
  { destruct op as [d hop|f|ms]; cbn [ni_op_ok ops_time foldr] in *; fold (ops_time ops) in *.
    - destruct (send_inv _ _ _ sub n d hop HI Hop) as (n1 & -> & HI1 & Hc & _). exists n1. split_and!; try done. by rewrite Hc.
    - destruct (recv_frame_inv _ _ _ sub n f HI Hop) as (r & n1 & -> & HI1 & Hc). exists n1. cbn. rewrite app_nil_r.
      split_and!; try done. by rewrite Hc.
    - eexists. split; [reflexivity|]. cbn [ops_datagrams omap list_omap]. rewrite app_nil_r.
      pose proof (nw_clock _ (nv_wf _ _ _ _ _ HI)).
      split; [apply tick_inv; (done || lia)|]. cbn. wsimpl; lia. }
  cbn [ni_run ni_exec]. rewrite E. cbn [mbind result_bind].
  destruct (IH _ _ _ (drain_inv _ _ _ _ _ HI1) eq_refl Ht1) as (n2 & log2 & -> & HI2 & Hout2).
  exists n2, log2. split_and!; try done. rewrite <- app_assoc in HI2. by destruct op.
Qed.

Lemma NetworkInterface_new_inv eth ip own_ip :
  EthernetAddress_ok eth -> hop_ip ip own_ip -> ni_inv eth own_ip [] [] (NetworkInterface_new eth ip).
Proof.
  intros He Hip. split; try done.
  - split; try done. by exists own_ip.
  - intros ip' t _ H. by inversion H.
Qed.

(** C11.  No datagram is lost, sent twice or made up: whatever an interface is asked
    to send, whatever frames arrive and however time passes, it does not throw,
    and the datagrams in the IPv4 frames it has sent together with those waiting
    for an address are exactly those it was handed. *)
Theorem interface_conserves_datagrams eth ip own_ip ops :
  EthernetAddress_ok eth -> hop_ip ip own_ip -> Forall ni_op_ok ops -> ops_time ops < 2 ^ 64 ->
  exists n log, ni_run ops (NetworkInterface_new eth ip, []) = Ok (n, log) /\
    sent_datagrams log ++ as_sent (ni_dgram_pending n) ≡ₚ as_sent (ops_datagrams ops).
Proof.
  intros He Hip Hops Ht.
  destruct (ni_run_inv eth own_ip ops _ [] [] (NetworkInterface_new_inv eth ip own_ip He Hip) eq_refl Hops Ht)
    as (n & log & E & HI & Hout).
  exists n, log. split; [done|]. pose proof (nv_conserve _ _ _ _ _ HI) as H.
  unfold frame_log in H. by rewrite Hout, app_nil_r in H.
Qed.

(** C26.  Requests are not sent in floods: in any run, two ARP requests for the same
    address are at least five seconds apart. *)
Theorem arp_requests_spaced eth ip own_ip ops n log target i j ti tj :
  EthernetAddress_ok eth -> hop_ip ip own_ip -> Forall ni_op_ok ops -> ops_time ops < 2 ^ 64 ->
  ni_run ops (NetworkInterface_new eth ip, []) = Ok (n, log) -> 0 <= target < 2 ^ 32 -> (i < j)%nat ->
  log !! i = Some (ti, request_frame eth own_ip target) ->
  log !! j = Some (tj, request_frame eth own_ip target) -> ti + broadcast_interval_ms <= tj.
Proof.
  intros He Hip Hops Ht E Htgt Hij Hi Hj.
  destruct (ni_run_inv eth own_ip ops _ [] [] (NetworkInterface_new_inv eth ip own_ip He Hip) eq_refl Hops Ht)
    as (n' & log' & E' & HI & Hout). rewrite E in E'. injection E' as <- <-.
  apply (nv_spaced _ _ _ _ _ HI target Htgt i j); [done|..]; unfold frame_log; by rewrite Hout, app_nil_r.
Qed.

(** ** The datagrams waiting *)

(** The fuel of the loop is enough: more turns change nothing. *)
Lemma poll_pending_enough eth own_ip log sub n f1 f2 :
  ni_inv eth own_ip log sub n -> (length (ni_dgram_pending n) <= f1)%nat -> (length (ni_dgram_pending n) <= f2)%nat ->
  poll_pending f1 n = poll_pending f2 n.
Proof.
  revert f2 n. induction f1 as [|f1 IH]; intros f2 n HI H1 H2.
  { destruct f2; [done|]. cbn [poll_pending]. destruct (ni_dgram_pending n) as [|[]]; [done|]. cbn in H1. lia. }
  cbn [poll_pending]. destruct (ni_dgram_pending n) as [|[d hop] q] eqn:Hq.
  { destruct f2; [done|]. cbn [poll_pending]. by rewrite Hq. }
  destruct f2 as [|f2]; [cbn in H2; lia|]. cbn [poll_pending]. rewrite Hq.
  assert (sendable (d, hop)) as Hs.
  { pose proof (nw_pending _ (nv_wf _ _ _ _ _ HI)) as H. rewrite Hq in H. by apply Forall_cons in H as [? _]. }
  destruct (send_inv _ _ _ sub n d hop HI Hs) as (n1 & -> & HI1 & Hc & Hp). cbn [mbind result_bind]. rewrite Hq in Hp.
  destruct (Nat.ltb_spec (length ((d, hop) :: q)) (length (ni_dgram_pending n1))) as [|Hge]; [done|].
  assert (ni_dgram_pending n1 = (d, hop) :: q) as Hq1.
  { destruct Hp as [?|Hp]; [done|]. rewrite Hp, length_app in Hge. cbn in Hge. lia. }
  rewrite Hq1. cbn [tail]. apply IH; [by apply (pop_inv _ _ _ _ _ _ _ HI1)|..]; cbn in *; lia.
Qed.

(** ** Address resolution between two interfaces *)

(** A frame as it arrives after a trip over the wire. *)
Definition over_wire (f : EthernetFrame) : result EthernetFrame :=
  '(_, f') ← EthernetFrame_parse EthernetFrame_default
               (Buffer_of_string (BufferList_concatenate (EthernetFrame_serialize f)));
  Ok f'.

(** Frames that arrive in order, and the datagrams handed up. *)
Fixpoint deliver_all (fs : list EthernetFrame) (n : NetworkInterface) : result (list IPv4Datagram * NetworkInterface) :=
  match fs with
  | [] => Ok ([], n)
  | f :: fs =>
      f ← over_wire f;
      '(d, n) ← NetworkInterface_recv_frame n f;
      '(ds, n) ← deliver_all fs n;
      Ok (option_list d ++ ds, n)
  end.

(** [a] is asked to send a datagram; the frames of [a] go to [b], the answers back
    to [a], and what [a] then sends to [b]. *)
Definition resolve_and_send (a b : NetworkInterface) (dgram : IPv4Datagram) (next_hop : Address) :
    result (list IPv4Datagram) :=
  a ← NetworkInterface_send_datagram a dgram next_hop;
  '(_, b) ← deliver_all (ni_frames_out a) b;
  '(_, a) ← deliver_all (ni_frames_out b) (NetworkInterface_set_frames a []);
  '(ds, b) ← deliver_all (ni_frames_out a) (NetworkInterface_set_frames b []);
  Ok ds.

Lemma over_wire_ok h l : EthernetHeader_ok h -> zlen (flatten l) < 2 ^ 63 ->
  exists buf, over_wire (MkEthernetFrame h l) = Ok (MkEthernetFrame h [buf]) /\ Buffer_wf buf /\ Buffer_str buf = flatten l.
Proof.
  intros Hh Hl. destruct (EthernetFrame_wire_roundtrip (MkEthernetFrame h l)) as (k & E & Hk); [by split|].
  injection E as <-. unfold over_wire. rewrite BufferList_concatenate_flatten. set (s := flatten (EthernetFrame_serialize _)) in *.
  assert (zlen s < 2 ^ 64) as Hs.
  { unfold s. rewrite EthernetFrame_serialize_flatten by done. cbn [ef_header ef_payload].
    rewrite zlen_app, ethernet_bytes_len by done. lia. }
  destruct (Hk EthernetFrame_default (Buffer_of_string s)) as ([h' pl] & Ef & H1 & buf & H2 & H3 & H4);
    [by apply Buffer_of_string_wf|by apply Buffer_of_string_str|].
  cbn [wire_parse EthernetFrame_wire ef_header ef_payload] in *. rewrite Ef. cbn [mbind result_bind].
  exists buf. by subst.
Qed.

(** A frame with an ARP message. *)
Definition arp_frame (dst src : EthernetAddress) (m : ARPMessage) : EthernetFrame :=
  MkEthernetFrame (MkEthernetHeader dst src TYPE_ARP) (BufferList_of_string (arp_bytes m)).

(** What arrives in a frame whose payload is in one buffer. *)
Lemma recv_arp_frame n dst src m buf :
  ARPMessage_ok m -> dst = ni_ethernet_address n \/ dst = ETHERNET_BROADCAST ->
  Buffer_wf buf -> Buffer_str buf = arp_bytes m ->
  NetworkInterface_recv_frame n (MkEthernetFrame (MkEthernetHeader dst src TYPE_ARP) [buf]) =
    (n ← NetworkInterface_recv_arp n m;
     n ← poll_pending (length (ni_dgram_pending n)) n; Ok (None, n)).
Proof.
  intros Hm Hdst Hwf Hstr. pose proof (arp_bytes_len m Hm) as Hlen.
  unfold NetworkInterface_recv_frame. cbn [ef_header eh_dst eh_type ef_payload BufferList_to_Buffer].
  assert (negb (bool_decide (dst = ni_ethernet_address n)) && negb (bool_decide (dst = ETHERNET_BROADCAST)) = false) as ->.
  { destruct Hdst as [H|H]; rewrite (bool_decide_eq_true_2 _ H); [done|apply andb_false_r]. }
  change (TYPE_ARP =? TYPE_IPv4) with false. change (TYPE_ARP =? TYPE_ARP) with true. cbn [mbind result_bind].
  destruct (ARPMessage_wire_roundtrip m Hm) as (l & El & Hl).
  cbn [wire_serialize wire_parse wire_same ARPMessage_wire] in *.
  rewrite ARPMessage_serialize_eq in El by apply Hm. injection El as <-.
  destruct (Hl ARPMessage_default buf Hwf) as (y & Ey & <-).
  { rewrite Hstr. unfold BufferList_of_string. cbn [app].
    rewrite flatten_cons, Buffer_of_string_str by lia. symmetry. apply app_nil_r. }
  rewrite Ey. cbn [mbind result_bind]. reflexivity.
Qed.

Lemma recv_ipv4_frame n dst src d l buf :
  IPv4Datagram_ok d -> IPv4Datagram_serialize d = Ok l -> dst = ni_ethernet_address n ->
  Buffer_wf buf -> Buffer_str buf = flatten l ->
  exists d', NetworkInterface_recv_frame n (MkEthernetFrame (MkEthernetHeader dst src TYPE_IPv4) [buf]) = Ok (Some d', n) /\
    IPv4Datagram_same d d'.
Proof.
  intros Hdg Hl Hdst Hwf Hstr.
  unfold NetworkInterface_recv_frame. cbn [ef_header eh_dst eh_type ef_payload BufferList_to_Buffer].
  rewrite (bool_decide_eq_true_2 _ Hdst). cbn [negb andb]. change (TYPE_IPv4 =? TYPE_IPv4) with true. cbn [mbind result_bind].
  destruct (IPv4Datagram_wire_roundtrip d Hdg) as (l' & El & Hp).
  cbn [wire_serialize wire_parse wire_same IPv4Datagram_wire] in *. assert (l' = l) as -> by congruence.
  destruct (Hp IPv4Datagram_default buf Hwf Hstr) as (d' & E & Hsame).
  rewrite E. cbn [mbind result_bind]. change (is_NoError NoError) with true. by exists d'.
Qed.

Lemma arp_payload_flatten m : ARPMessage_ok m -> flatten (BufferList_of_string (arp_bytes m)) = arp_bytes m.
Proof.
  intros Hm. pose proof (arp_bytes_len m Hm) as Hlen. unfold BufferList_of_string. cbn [app].
  rewrite flatten_cons, Buffer_of_string_str by lia. apply app_nil_r.
Qed.

Lemma deliver_arp n dst src m :
  EthernetAddress_ok dst -> EthernetAddress_ok src -> ARPMessage_ok m ->
  dst = ni_ethernet_address n \/ dst = ETHERNET_BROADCAST ->
  deliver_all [arp_frame dst src m] n =
    (n ← NetworkInterface_recv_arp n m;
     n ← poll_pending (length (ni_dgram_pending n)) n; Ok ([], n)).
Proof.
  intros Hd Hs Hm Hdst. pose proof (arp_bytes_len m Hm) as Hlen. pose proof (arp_payload_flatten m Hm) as Hfl.
  cbn [deliver_all]. unfold arp_frame.
  destruct (over_wire_ok (MkEthernetHeader dst src TYPE_ARP) (BufferList_of_string (arp_bytes m))) as (buf & -> & Hwf & Hstr);
    [by split|rewrite Hfl; lia|]. cbn [mbind result_bind]. rewrite Hfl in Hstr.
  rewrite (recv_arp_frame n dst src m buf) by done.
  destruct (NetworkInterface_recv_arp n m) as [n1|e]; cbn [mbind result_bind]; [|done].
  by destruct (poll_pending _ n1) as [n2|e].
Qed.

Lemma deliver_ipv4 n dst src d l :
  EthernetAddress_ok dst -> EthernetAddress_ok src -> IPv4Datagram_ok d -> IPv4Datagram_serialize d = Ok l ->
  dst = ni_ethernet_address n ->
  exists d', deliver_all [MkEthernetFrame (MkEthernetHeader dst src TYPE_IPv4) l] n = Ok ([d'], n) /\
    IPv4Datagram_same d d'.
Proof.
  intros Hd Hs Hdg Hl Hdst.
  assert (zlen (flatten l) < 2 ^ 63) as Hsz.
  { pose proof (IPv4Datagram_serialize_len d l Hdg Hl). lia. }
  cbn [deliver_all].
  destruct (over_wire_ok (MkEthernetHeader dst src TYPE_IPv4) l) as (buf & -> & Hwf & Hstr); [by split|done|].
  cbn [mbind result_bind].
  destruct (recv_ipv4_frame n dst src d l buf Hdg Hl Hdst Hwf Hstr) as (d' & -> & Hsame). by exists d'.
Qed.

Lemma arp_valid_learned n ip hw t :
  ni_clock n < t -> arp_valid (NetworkInterface_set_arp n (<[ip := (hw, t)]> (ni_arp_table n))) ip = Some hw.
Proof.
  intros Ht. unfold arp_valid. cbn [ni_arp_table NetworkInterface_set_arp ni_clock]. rewrite lookup_insert_eq.
  by destruct (Z.ltb_spec (ni_clock n) t); [|lia].
Qed.

(** The interface with the sender of a message in its table. *)
Definition learned (n : NetworkInterface) (ip : Z) (hw : EthernetAddress) : NetworkInterface :=
  NetworkInterface_set_arp n (<[ip := (hw, u64 (ni_clock n + cache_ttl_ms))]> (ni_arp_table n)).

(** A request for our own address is answered; others are only learned from. *)
Lemma recv_request n own src src_ip target :
  EthernetAddress_ok (ni_ethernet_address n) -> hop_ip (ni_ip_address n) own -> EthernetAddress_ok src ->
  NetworkInterface_recv_arp n (ARPMessage_with OPCODE_REQUEST src src_ip [0; 0; 0; 0; 0; 0] target) =
    Ok (if target =? own then NetworkInterface_push_frame (learned n src_ip src)
          (arp_frame src (ni_ethernet_address n) (ARPMessage_with OPCODE_REPLY (ni_ethernet_address n) own src src_ip))
        else learned n src_ip src).
Proof.
  intros He [Hown Hr] Hs.
  unfold NetworkInterface_recv_arp. cbn [ni_ip_address NetworkInterface_set_arp ARPMessage_with am_target_ip_address
    am_opcode am_sender_ip_address am_sender_ethernet_address]. rewrite Hown. cbn [mbind result_bind].
  change (OPCODE_REQUEST =? OPCODE_REQUEST) with true. rewrite andb_true_r. destruct (target =? own); [|done].
  rewrite ARPMessage_serialize_eq; [|reflexivity|apply He|apply Hs]. reflexivity.
Qed.

(** An answer lets the datagram that waits for it go. *)
Lemma recv_reply n own ip src d hop l :
  EthernetAddress_ok (ni_ethernet_address n) -> hop_ip (ni_ip_address n) own -> ni_dgram_pending n = [(d, hop)] ->
  0 <= ni_clock n < 2 ^ 63 -> hop_ip hop ip -> IPv4Datagram_ok d -> IPv4Datagram_serialize d = Ok l ->
  (n ← NetworkInterface_recv_arp n (ARPMessage_with OPCODE_REPLY src ip (ni_ethernet_address n) own);
   poll_pending (length (ni_dgram_pending n)) n) =
    Ok (NetworkInterface_set_pending (NetworkInterface_push_frame (learned n ip src)
          (MkEthernetFrame (MkEthernetHeader src (ni_ethernet_address n) TYPE_IPv4) l)) []).
Proof.
  intros He Hown Hq Hc Hip Hd Hl.
  unfold NetworkInterface_recv_arp. cbn [ni_ip_address NetworkInterface_set_arp ARPMessage_with am_target_ip_address
    am_opcode am_sender_ip_address am_sender_ethernet_address]. rewrite (proj1 Hown). cbn [mbind result_bind].
  change (OPCODE_REPLY =? OPCODE_REQUEST) with false. rewrite andb_false_r. cbn [mbind result_bind].
  fold (learned n ip src). set (n1 := learned n ip src). assert (ni_dgram_pending n1 = [(d, hop)]) as Hq1 by exact Hq.
  rewrite Hq1. cbn [length poll_pending]. rewrite Hq1.
  destruct (send_datagram_eq n1 d hop ip own) as (l' & El & E); [done..|]. assert (l' = l) as -> by congruence.
  assert (arp_valid n1 ip = Some src) as Hv.
  { apply arp_valid_learned. unfold cache_ttl_ms. wsimpl; lia. }
  rewrite E, Hv. cbn [mbind result_bind ni_dgram_pending NetworkInterface_push_frame]. rewrite Hq1. reflexivity.
Qed.

Lemma deliver_request n own src src_ip :
  EthernetAddress_ok (ni_ethernet_address n) -> hop_ip (ni_ip_address n) own -> ni_dgram_pending n = [] ->
  EthernetAddress_ok src -> 0 <= src_ip < 2 ^ 32 ->
  deliver_all [arp_frame ETHERNET_BROADCAST src (ARPMessage_with OPCODE_REQUEST src src_ip [0; 0; 0; 0; 0; 0] own)] n =
    Ok ([], NetworkInterface_push_frame (learned n src_ip src)
          (arp_frame src (ni_ethernet_address n) (ARPMessage_with OPCODE_REPLY (ni_ethernet_address n) own src src_ip))).
Proof.
  intros He Hown Hq Hs Hsr. pose proof Hown as [_ Hr].
  rewrite deliver_arp; [|split; [done|bytes_ok]|done|apply ARPMessage_with_ok; auto using zero_address_ok|by right].
  rewrite (recv_request n own) by done. rewrite Z.eqb_refl. cbn [mbind result_bind].
  cbn [ni_dgram_pending NetworkInterface_push_frame learned NetworkInterface_set_arp]. rewrite Hq. reflexivity.
Qed.

Lemma deliver_reply n own ip src d hop l :
  EthernetAddress_ok (ni_ethernet_address n) -> hop_ip (ni_ip_address n) own -> ni_dgram_pending n = [(d, hop)] ->
  ni_frames_out n = [] -> 0 <= ni_clock n < 2 ^ 63 -> EthernetAddress_ok src -> hop_ip hop ip ->
  IPv4Datagram_ok d -> IPv4Datagram_serialize d = Ok l ->
  exists n', deliver_all [arp_frame (ni_ethernet_address n) src
      (ARPMessage_with OPCODE_REPLY src ip (ni_ethernet_address n) own)] n = Ok ([], n') /\
    ni_frames_out n' = [MkEthernetFrame (MkEthernetHeader src (ni_ethernet_address n) TYPE_IPv4) l].
Proof.
  intros He Hown Hq Hout Hc Hs Hip Hd Hl.
  rewrite deliver_arp; [|done|done|apply ARPMessage_with_ok; auto; apply Hown || apply Hip|by left].
  pose proof (recv_reply n own ip src d hop l He Hown Hq Hc Hip Hd Hl) as E.
  destruct (NetworkInterface_recv_arp n _) as [n1|e]; cbn [mbind result_bind] in *; [|done]. rewrite E.
  cbn [mbind result_bind]. eexists. split; [reflexivity|]. cbn. by rewrite Hout.
Qed.

(** Two interfaces on the same link find each other: a datagram handed to one
    of them for the address of the other is held back, the request is answered,
    and the datagram arrives, unchanged. *)
Theorem arp_resolution_delivers eth1 ip1 own1 eth2 ip2 own2 d :
  EthernetAddress_ok eth1 -> EthernetAddress_ok eth2 -> hop_ip ip1 own1 -> hop_ip ip2 own2 -> IPv4Datagram_ok d ->
  exists d', resolve_and_send (NetworkInterface_new eth1 ip1) (NetworkInterface_new eth2 ip2) d ip2 = Ok [d'] /\
    IPv4Datagram_same d d'.
Proof.
  intros He1 He2 H1 H2 Hd. set (a := NetworkInterface_new eth1 ip1). set (b := NetworkInterface_new eth2 ip2).
  destruct (send_datagram_eq a d ip2 own2 own1) as (l & El & E); [done..|].
  unfold resolve_and_send. rewrite E. cbn [mbind result_bind].
  change (arp_valid a own2) with (@None EthernetAddress). change (broadcast_recently a own2) with false. cbn zeta iota.
  set (a1 := NetworkInterface_push_frame _ _).
  change (ni_frames_out a1) with
    [arp_frame ETHERNET_BROADCAST eth1 (ARPMessage_with OPCODE_REQUEST eth1 own1 [0; 0; 0; 0; 0; 0] own2)].
  rewrite (deliver_request b own2) by (done || apply H1). cbn [mbind result_bind].
  set (b1 := NetworkInterface_push_frame _ _).
  change (ni_frames_out b1) with [arp_frame eth1 eth2 (ARPMessage_with OPCODE_REPLY eth2 own2 eth1 own1)].
  destruct (deliver_reply (NetworkInterface_set_frames a1 []) own1 own2 eth2 d ip2 l) as (a2 & E2 & Hout); [done..|].
  change (ni_ethernet_address (NetworkInterface_set_frames a1 [])) with eth1 in *.
  rewrite E2. cbn [mbind result_bind]. rewrite Hout.
  destruct (deliver_ipv4 (NetworkInterface_set_frames b1 []) eth2 eth1 d l) as (d' & E3 & Hsame); [done..|].
  rewrite E3. by exists d'.
Qed.

(** C38.  The head of the queue holds up the rest: when an answer for [ip2] arrives
    while the first datagram in the queue waits for another address that was
    asked for recently, the mapping is learned, but nothing is sent; the head is
    only moved to the back, and datagrams for [ip2] go on waiting although their
    address is known. *)
Theorem unresolved_head_blocks_queue n own ip1 ip2 d1 hop1 q src :
  ni_wf n -> hop_ip (ni_ip_address n) own -> ni_clock n < 2 ^ 63 ->
  ni_dgram_pending n = (d1, hop1) :: q -> hop_ip hop1 ip1 -> arp_valid n ip1 = None -> broadcast_recently n ip1 = true ->
  EthernetAddress_ok src -> 0 <= ip2 < 2 ^ 32 -> ip1 <> ip2 ->
  exists n', deliver_all [arp_frame (ni_ethernet_address n) src
      (ARPMessage_with OPCODE_REPLY src ip2 (ni_ethernet_address n) own)] n = Ok ([], n') /\
    arp_valid n' ip2 = Some src /\ ni_frames_out n' = ni_frames_out n /\ ni_dgram_pending n' = q ++ [(d1, hop1)].
Proof.
  intros [He _ Hpend Hc] Hown Hc63 Hq Hip1 Hv Hrec Hs Hip2 Hne.
  assert (IPv4Datagram_ok d1) as Hd by (rewrite Hq in Hpend; by apply Forall_cons in Hpend as [[? _] _]).
  rewrite deliver_arp; [|done|done|apply ARPMessage_with_ok; auto; apply Hown|by left].
  unfold NetworkInterface_recv_arp. cbn [ni_ip_address NetworkInterface_set_arp ARPMessage_with am_target_ip_address
    am_opcode am_sender_ip_address am_sender_ethernet_address]. rewrite (proj1 Hown). cbn [mbind result_bind].
  change (OPCODE_REPLY =? OPCODE_REQUEST) with false. rewrite andb_false_r. cbn [mbind result_bind].
  set (n1 := NetworkInterface_set_arp n _). assert (ni_dgram_pending n1 = (d1, hop1) :: q) as Hq1 by exact Hq.
  rewrite Hq1. cbn [length poll_pending]. rewrite Hq1.
  destruct (send_datagram_eq n1 d1 hop1 ip1 own) as (l & _ & E); [done..|].
  assert (arp_valid n1 ip1 = None) as Hv1.
  { unfold arp_valid in *. cbn [n1 ni_arp_table NetworkInterface_set_arp ni_clock]. by rewrite lookup_insert_ne. }
  change (broadcast_recently n1 ip1) with (broadcast_recently n ip1) in E. rewrite Hv1, Hrec in E. cbn zeta iota in E.
  rewrite E. cbn [mbind result_bind ni_dgram_pending NetworkInterface_set_pending]. rewrite Hq1.
  destruct (Nat.ltb_spec (length ((d1, hop1) :: q)) (length (((d1, hop1) :: q) ++ [(d1, hop1)]))) as [_|Hlen];
    [|rewrite length_app in Hlen; cbn in Hlen; lia].
  cbn [mbind result_bind]. eexists. split; [reflexivity|]. split; [|done].
  unfold arp_valid. cbn [ni_arp_table NetworkInterface_set_pending n1 NetworkInterface_set_arp ni_clock].
  rewrite lookup_insert_eq. unfold cache_ttl_ms. rewrite u64_small by lia.
  by destruct (Z.ltb_spec (ni_clock n) (ni_clock n + 30 * 1000)); [|lia].
Qed.

(** ** Examples *)

Definition host_eth (k : Z) : EthernetAddress := [2; 0; 0; 0; 0; k].
Definition host_ip (k : Z) : Address := Address_v4 (10 * 2 ^ 24 + k) 0.

Lemma host_eth_ok k : 0 <= k < 256 -> EthernetAddress_ok (host_eth k).
Proof. intros. split; [done|]. repeat apply Forall_cons_2; first [apply Forall_nil_2|unfold byte_ok; lia]. Qed.

Lemma host_ip_ok k : 0 <= k < 256 -> hop_ip (host_ip k) (10 * 2 ^ 24 + k).
Proof. intros. split; [apply Address_v4_numeric|]; lia. Qed.

Lemma sample_datagram_ok : IPv4Datagram_ok sample_datagram.
Proof. split; [split; vm_compute; try split; congruence|reflexivity]. Qed.

Lemma sample_sendable k : 0 <= k < 256 -> sendable (sample_datagram, host_ip k).
Proof. intros. split; [apply sample_datagram_ok|]. eexists. by apply host_ip_ok. Qed.

(** Two datagrams for one host and one for another, four seconds apart, and then
    the request is repeated. *)
Definition sample_ops : list ni_op :=
  [ni_send sample_datagram (host_ip 2); ni_tick 4000; ni_send sample_datagram (host_ip 2);
   ni_send sample_datagram (host_ip 3); ni_tick 1000; ni_send sample_datagram (host_ip 2)].

Lemma sample_ops_ok : Forall ni_op_ok sample_ops.
Proof.
  repeat apply Forall_cons_2; first [apply Forall_nil_2|cbn; lia|apply sample_sendable; lia].
Qed.

Lemma interface_conserves_datagrams_witness :
  exists n log, ni_run sample_ops (NetworkInterface_new (host_eth 1) (host_ip 1), []) = Ok (n, log) /\
    sent_datagrams log ++ as_sent (ni_dgram_pending n) ≡ₚ as_sent (ops_datagrams sample_ops).
Proof.
  apply (interface_conserves_datagrams (host_eth 1) (host_ip 1) (10 * 2 ^ 24 + 1) sample_ops).
  - apply host_eth_ok. lia.
  - apply host_ip_ok. lia.
  - apply sample_ops_ok.
  - reflexivity.
Defined.

Lemma arp_requests_spaced_witness :
  exists n log ti tj, ni_run sample_ops (NetworkInterface_new (host_eth 1) (host_ip 1), []) = Ok (n, log) /\
    log !! 0%nat = Some (ti, request_frame (host_eth 1) (10 * 2 ^ 24 + 1) (10 * 2 ^ 24 + 2)) /\
    log !! 2%nat = Some (tj, request_frame (host_eth 1) (10 * 2 ^ 24 + 1) (10 * 2 ^ 24 + 2)) /\
    ti + broadcast_interval_ms <= tj.
Proof.
  destruct (ni_run sample_ops (NetworkInterface_new (host_eth 1) (host_ip 1), [])) as [[n log]|] eqn:E;
    [|vm_compute in E; discriminate E].
  pose proof E as E'. vm_compute in E'. injection E' as _ El.
  assert (log !! 0%nat = Some (0, request_frame (host_eth 1) (10 * 2 ^ 24 + 1) (10 * 2 ^ 24 + 2))) as H0
    by (rewrite <- El; vm_compute; reflexivity).
  assert (log !! 2%nat = Some (5000, request_frame (host_eth 1) (10 * 2 ^ 24 + 1) (10 * 2 ^ 24 + 2))) as H2
    by (rewrite <- El; vm_compute; reflexivity).
  exists n, log, 0, 5000. split; [reflexivity|]. split; [exact H0|]. split; [exact H2|].
  apply (arp_requests_spaced (host_eth 1) (host_ip 1) (10 * 2 ^ 24 + 1) sample_ops n log (10 * 2 ^ 24 + 2) 0 2).
  - apply host_eth_ok. lia.
  - apply host_ip_ok. lia.
  - apply sample_ops_ok.
  - reflexivity.
  - exact E.
  - lia.
  - lia.
  - exact H0.
  - exact H2.
Defined.

Lemma arp_resolution_delivers_witness :
  exists d', resolve_and_send (NetworkInterface_new (host_eth 1) (host_ip 1)) (NetworkInterface_new (host_eth 2) (host_ip 2))
      sample_datagram (host_ip 2) = Ok [d'] /\ IPv4Datagram_same sample_datagram d'.
Proof.
  apply (arp_resolution_delivers (host_eth 1) (host_ip 1) (10 * 2 ^ 24 + 1) (host_eth 2) (host_ip 2) (10 * 2 ^ 24 + 2)).
  - apply host_eth_ok. lia.
  - apply host_eth_ok. lia.
  - apply host_ip_ok. lia.
  - apply host_ip_ok. lia.
  - apply sample_datagram_ok.
Defined.

(** Two datagrams wait for two hosts; the answer of the second host arrives. *)
Lemma unresolved_head_blocks_queue_witness :
  exists n n', ni_run [ni_send sample_datagram (host_ip 2); ni_send sample_datagram (host_ip 3)]
      (NetworkInterface_new (host_eth 1) (host_ip 1), []) = Ok n /\
    deliver_all [arp_frame (host_eth 1) (host_eth 3)
      (ARPMessage_with OPCODE_REPLY (host_eth 3) (10 * 2 ^ 24 + 3) (host_eth 1) (10 * 2 ^ 24 + 1))] n.1 = Ok ([], n') /\
    arp_valid n' (10 * 2 ^ 24 + 3) = Some (host_eth 3) /\ ni_frames_out n' = [] /\
    ni_dgram_pending n' = [(sample_datagram, host_ip 3); (sample_datagram, host_ip 2)].
Proof.
  destruct (ni_run _ _) as [[n log]|] eqn:E; [|vm_compute in E; discriminate E].
  pose proof E as E'. vm_compute in E'. injection E' as En _.
  destruct (unresolved_head_blocks_queue n (10 * 2 ^ 24 + 1) (10 * 2 ^ 24 + 2) (10 * 2 ^ 24 + 3)
    sample_datagram (host_ip 2) [(sample_datagram, host_ip 3)] (host_eth 3)) as (n' & H1 & H2 & H3 & H4).
  - rewrite <- En. split; cbn [ni_ethernet_address ni_ip_address ni_dgram_pending ni_clock].
    + apply (host_eth_ok 1). lia.
    + eexists. apply (host_ip_ok 1). lia.
    + apply Forall_cons_2; [apply (sample_sendable 2); lia|]. apply Forall_cons_2; [apply (sample_sendable 3); lia|].
      apply Forall_nil_2.
    + lia.
  - rewrite <- En. apply (host_ip_ok 1). lia.
  - rewrite <- En. vm_compute. reflexivity.
  - rewrite <- En. reflexivity.
  - apply host_ip_ok. lia.
  - rewrite <- En. vm_compute. reflexivity.
  - rewrite <- En. vm_compute. reflexivity.
  - apply host_eth_ok. lia.
  - lia.
  - lia.
  - assert (ni_ethernet_address n = host_eth 1) as He by (rewrite <- En; reflexivity). rewrite He in H1.
    exists (n, log), n'. split; [reflexivity|]. split; [exact H1|]. split; [exact H2|].
    split; [|exact H4]. rewrite H3, <- En. reflexivity.
Defined.
