(* ===== verification/Routers.v ===== *)
(** The IP router: [Entry], [TrieNode], [Trie], [AsyncNetworkInterface] and
    [Router] (src/libsponge/router.hh and router.cc).

    Theorems: looking an address up in the trie gives the most recently added of
    the longest matching routes, whatever routes were added in whatever order;
    [route] empties the queues of all interfaces and hands each datagram, with
    its time to live counted down, to the interface and the next hop of its route
    and to no other; a packet with a wrong version number whose next hop is known
    stops the router with an exception. *)

From stdpp Require Import gmap.
From S2P Require Import Prelude WrappingIntegers Buffers Parsers TCPSegments IPv4Datagrams EthernetFrames Addresses.
From S2P Require Import NetworkInterfaces.

(** ** Entry, TrieNode and Trie *)

Record Entry : Type := MkEntry {
  en_route_prefix : Z;
  en_prefix_length : Z;
  en_next_hop : option Address;
  en_interface_num : Z
}.

#[local] Set Warnings "-register-all".

(** The children of a node are those for 0 and for 1; no other key is ever used. *)
Inductive TrieNode : Type := MkTrieNode {
  tn_zero : option TrieNode;
  tn_one : option TrieNode;
  tn_entry : option Entry
}.

Definition TrieNode_new : TrieNode := MkTrieNode None None None.

Definition TrieNode_get_child (node : TrieNode) (child : bool) : option TrieNode :=
  if child then tn_one node else tn_zero node.

Definition TrieNode_get_or_create_child (node : TrieNode) (child : bool) : TrieNode :=
  match TrieNode_get_child node child with
  | Some next => next
  | None => TrieNode_new
  end.

(** The node after something below one of its children has changed. *)
Definition TrieNode_set_child (node : TrieNode) (child : bool) (next : TrieNode) : TrieNode :=
  if child then MkTrieNode (tn_zero node) (Some next) (tn_entry node)
  else MkTrieNode (Some next) (tn_one node) (tn_entry node).

Record Trie : Type := MkTrie {
  tr_root : TrieNode;
  tr_default : option Entry
}.

Definition Trie_new : Trie := MkTrie TrieNode_new None.

(** The loop [while (prefix_length > 0)] of [insert]. *)
Fixpoint insert_loop (prefix_length : nat) (prefix mask : Z) (cur : TrieNode) (entry : Entry) : TrieNode :=
  match prefix_length with
  | O => MkTrieNode (tn_zero cur) (tn_one cur) (Some entry)
  | S prefix_length =>
      let child := 0 <? Z.land prefix mask in
      TrieNode_set_child cur child
        (insert_loop prefix_length (Z.land prefix (u32 (mask - 1))) (Z.shiftr mask 1)
           (TrieNode_get_or_create_child cur child) entry)
  end.

(** A prefix longer than 32 bits makes the shift undefined. *)
Definition Trie_insert (t : Trie) (entry : Entry) : result Trie :=
  let route_prefix := en_route_prefix entry in
  let prefix_length := en_prefix_length entry in
  if prefix_length =? 0 then Ok (MkTrie (tr_root t) (Some entry))
  else if 32 <? prefix_length then Throw undefined_behaviour
  else
    let prefix := Z.land (u32 (Z.shiftl 4294967295 (32 - prefix_length))) route_prefix in
    Ok (MkTrie (insert_loop (Z.to_nat prefix_length) prefix (2 ^ 31) (tr_root t) entry) (tr_default t)).

(** The loop [while (cur.has_value())] of [longest_prefix_match]. *)
Fixpoint match_loop (cur : TrieNode) (ip mask : Z) (longest : option Entry) {struct cur} : option Entry :=
  let child := 0 <? Z.land ip mask in
  let step next :=
    match_loop next (Z.land ip (u32 (mask - 1))) (Z.shiftr mask 1)
      (match tn_entry next with Some e => Some e | None => longest end) in
  match cur with
  | MkTrieNode zero one _ =>
      if child
      then match one with Some next => step next | None => longest end
      else match zero with Some next => step next | None => longest end
  end.

Definition Trie_longest_prefix_match (t : Trie) (ip : Z) : option Entry :=
  match match_loop (tr_root t) ip (2 ^ 31) None with
  | Some e => Some e
  | None => tr_default t
  end.

(** ** AsyncNetworkInterface and Router *)

Record AsyncNetworkInterface : Type := MkAsyncNetworkInterface {
  an_interface : NetworkInterface;
  an_datagrams_out : list IPv4Datagram
}.

Definition AsyncNetworkInterface_new (interface : NetworkInterface) : AsyncNetworkInterface :=
  MkAsyncNetworkInterface interface [].

Definition AsyncNetworkInterface_recv_frame (a : AsyncNetworkInterface) (frame : EthernetFrame) :
    result AsyncNetworkInterface :=
  '(optional_dgram, n) ← NetworkInterface_recv_frame (an_interface a) frame;
  Ok (MkAsyncNetworkInterface n
        (match optional_dgram with Some d => an_datagrams_out a ++ [d] | None => an_datagrams_out a end)).

Definition AsyncNetworkInterface_send_datagram (a : AsyncNetworkInterface) (dgram : IPv4Datagram) (next_hop : Address) :
    result AsyncNetworkInterface :=
  n ← NetworkInterface_send_datagram (an_interface a) dgram next_hop;
  Ok (MkAsyncNetworkInterface n (an_datagrams_out a)).

Record Router : Type := MkRouter {
  ro_interfaces : list AsyncNetworkInterface;
  ro_route_table : Trie
}.

Definition Router_new : Router := MkRouter [] Trie_new.

Definition Router_add_interface (r : Router) (interface : AsyncNetworkInterface) : Z * Router :=
  (zlen (ro_interfaces r), MkRouter (ro_interfaces r ++ [interface]) (ro_route_table r)).

(** [_interfaces.at(N)] *)
Definition Router_interface (r : Router) (N : Z) : result AsyncNetworkInterface :=
  match ro_interfaces r !! Z.to_nat N with
  | Some a => Ok a
  | None => Throw out_of_range
  end.

(** The message that is printed first asks for the text of the addresses, which
    may throw; the text itself is not kept. *)
Definition Router_add_route `{NameService} (r : Router) (route_prefix prefix_length : Z) (next_hop : option Address)
    (interface_num : Z) : result Router :=
  _ ← Address_ip (Address_from_ipv4_numeric route_prefix);
  _ ← (match next_hop with Some a => _ ← Address_ip a; Ok tt | None => Ok tt end);
  t ← Trie_insert (ro_route_table r) (MkEntry route_prefix prefix_length next_hop interface_num);
  Ok (MkRouter (ro_interfaces r) t).

(** [_interfaces[i].send_datagram(...)]; an index out of range is undefined. *)
Definition Router_send (r : Router) (i : Z) (dgram : IPv4Datagram) (next_hop : Address) : result Router :=
  match ro_interfaces r !! Z.to_nat i with
  | Some a =>
      a ← AsyncNetworkInterface_send_datagram a dgram next_hop;
      Ok (MkRouter (<[Z.to_nat i := a]> (ro_interfaces r)) (ro_route_table r))
  | None => Throw undefined_behaviour
  end.

Definition Router_route_one_datagram (r : Router) (dgram : IPv4Datagram) : result Router :=
  if ih_ttl (id_header dgram) <=? 1 then Ok r
  else
    let dgram := MkIPv4Datagram (IPv4Header_set_ttl (id_header dgram) (ih_ttl (id_header dgram) - 1)) (id_payload dgram) in
    let dst := ih_dst (id_header dgram) in
    match Trie_longest_prefix_match (ro_route_table r) dst with
    | None => Ok r
    | Some entry =>
        match en_next_hop entry with
        | Some next_hop => Router_send r (en_interface_num entry) dgram next_hop
        | None => Router_send r (en_interface_num entry) dgram (Address_from_ipv4_numeric dst)
        end
    end.

(** The queue of the [i]th interface. *)
Definition Router_queue (r : Router) (i : nat) : list IPv4Datagram :=
  match ro_interfaces r !! i with Some a => an_datagrams_out a | None => [] end.

Definition Router_pop (r : Router) (i : nat) : Router :=
  MkRouter (alter (fun a => MkAsyncNetworkInterface (an_interface a) (tail (an_datagrams_out a))) i (ro_interfaces r))
    (ro_route_table r).

(** The loop [while (not queue.empty())]; a turn takes one datagram off the queue. *)
Fixpoint route_queue (fuel : nat) (i : nat) (r : Router) : result Router :=
  match fuel with
  | O => Ok r
  | S fuel =>
      match Router_queue r i with
      | [] => Ok r
      | dgram :: _ =>
          r ← Router_route_one_datagram r dgram;
          route_queue fuel i (Router_pop r i)
      end
  end.

(** The loop over the interfaces. *)
Fixpoint route_from (todo : list nat) (r : Router) : result Router :=
  match todo with
  | [] => Ok r
  | i :: todo => r ← route_queue (length (Router_queue r i)) i r; route_from todo r
  end.

Definition Router_route (r : Router) : result Router :=
  route_from (seq 0 (length (ro_interfaces r))) r.

(** ** Paths in the trie *)

(** The [n] bits of [x] from bit [k] downwards. *)
Fixpoint bits (k : Z) (n : nat) (x : Z) : list bool :=
  match n with
  | O => []
  | S n => Z.testbit x k :: bits (k - 1) n x
  end.

Fixpoint path_insert (path : list bool) (cur : TrieNode) (entry : Entry) : TrieNode :=
  match path with
  | [] => MkTrieNode (tn_zero cur) (tn_one cur) (Some entry)
  | child :: path =>
      TrieNode_set_child cur child (path_insert path (TrieNode_get_or_create_child cur child) entry)
  end.

(** The entry at the end of a path. *)
Fixpoint path_lookup (path : list bool) (cur : TrieNode) : option Entry :=
  match path with
  | [] => tn_entry cur
  | child :: path =>
      match TrieNode_get_child cur child with
      | Some next => path_lookup path next
      | None => None
      end
  end.

(** The last entry on the way along a path, not counting the start. *)
Fixpoint path_match (path : list bool) (cur : TrieNode) (longest : option Entry) : option Entry :=
  match path with
  | [] => longest
  | child :: path =>
      match TrieNode_get_child cur child with
      | Some next => path_match path next (match tn_entry next with Some e => Some e | None => longest end)
      | None => longest
      end
  end.

(** No path is longer than [n]. *)
Fixpoint depth_le (n : nat) (cur : TrieNode) : Prop :=
  match n with
  | O => tn_zero cur = None /\ tn_one cur = None
  | S n => forall child next, TrieNode_get_child cur child = Some next -> depth_le n next
  end.

Lemma land_pow2_testbit x k : 0 <= k -> (0 <? Z.land x (2 ^ k)) = Z.testbit x k.
Proof.
  intros Hk. assert (Z.land x (2 ^ k) = if Z.testbit x k then 2 ^ k else 0) as ->.
  { apply Z.bits_inj'. intros i Hi. rewrite Z.land_spec, Z.pow2_bits_eqb by lia.
    destruct (Z.eqb_spec k i) as [<-|Hne].
    - rewrite andb_true_r. destruct (Z.testbit x k) eqn:E; [by rewrite Z.pow2_bits_true by lia|by rewrite Z.bits_0].
    - rewrite andb_false_r. destruct (Z.testbit x k); [by rewrite Z.pow2_bits_false by lia|by rewrite Z.bits_0]. }
  destruct (Z.testbit x k); [|done]. apply Z.ltb_lt. lia.
Qed.

Lemma bits_ext k n x y : (forall i, 0 <= i <= k -> Z.testbit x i = Z.testbit y i) -> Z.of_nat n <= k + 1 ->
  bits k n x = bits k n y.
Proof.
  revert k. induction n as [|n IH]; intros k H Hn; cbn [bits]; [done|]. f_equal; [apply H; lia|].
  apply IH; [|lia]. intros i Hi. apply H. lia.
Qed.

Lemma mask_next k : 0 < k <= 31 -> u32 (2 ^ k - 1) = Z.ones k /\ Z.shiftr (2 ^ k) 1 = 2 ^ (k - 1).
Proof.
  intros Hk. assert (2 ^ k <= 2 ^ 31) by (apply Z.pow_le_mono_r; lia).
  rewrite Z.ones_equiv. split.
  - rewrite u32_small; lia.
  - rewrite Z.shiftr_div_pow2 by lia. replace k with (k - 1 + 1) at 1 by lia. rewrite Z.pow_add_r by lia.
    by rewrite Z.div_mul.
Qed.

Lemma bits_masked k n x : 0 <= k -> Z.of_nat n <= k -> bits (k - 1) n (Z.land x (Z.ones k)) = bits (k - 1) n x.
Proof.
  intros Hk Hn. apply bits_ext; [|lia]. intros i Hi. rewrite Z.land_spec, Z.testbit_ones_nonneg by lia.
  by rewrite (proj2 (Z.ltb_lt _ _)), andb_true_r by lia.
Qed.

Lemma insert_loop_path n k prefix cur entry :
  0 <= k <= 31 -> Z.of_nat n <= k + 1 ->
  insert_loop n prefix (2 ^ k) cur entry = path_insert (bits k n prefix) cur entry.
Proof.
  revert k prefix cur. induction n as [|n IH]; intros k prefix cur Hk Hn; cbn [insert_loop path_insert bits]; [done|].
  rewrite land_pow2_testbit by lia. f_equal. destruct n as [|n]; [done|].
  destruct (mask_next k) as [-> ->]; [lia|]. rewrite IH by lia. by rewrite bits_masked by lia.
Qed.

Lemma match_loop_path n k ip cur longest :
  0 <= k <= 31 -> Z.of_nat n = k + 1 -> depth_le n cur ->
  match_loop cur ip (2 ^ k) longest = path_match (bits k n ip) cur longest.
Proof.
  revert k ip cur longest. induction n as [|n IH]; intros k ip cur longest Hk Hn Hd; [lia|].
  cbn [bits path_match]. destruct cur as [zero one e]. cbn [match_loop]. rewrite land_pow2_testbit by lia.
  assert (forall next, depth_le n next ->
    match_loop next (Z.land ip (u32 (2 ^ k - 1))) (Z.shiftr (2 ^ k) 1)
      (match tn_entry next with Some e => Some e | None => longest end) =
    path_match (bits (k - 1) n ip) next (match tn_entry next with Some e => Some e | None => longest end)) as Hstep.
  { intros next Hnext. destruct n as [|n].
    - destruct next as [z o en]. destruct Hnext as [Hz Ho]. cbn in Hz, Ho. subst. cbn [match_loop path_match bits].
      by destruct (0 <? _).
    - destruct (mask_next k) as [-> ->]; [lia|]. rewrite IH by (done || lia). by rewrite bits_masked by lia. }
  cbn [depth_le] in Hd. pose proof (Hd true) as Hd1. pose proof (Hd false) as Hd0.
  unfold TrieNode_get_child in *. cbn [tn_one tn_zero] in *. destruct (Z.testbit ip k).
  - destruct one as [next|]; [|done]. by apply Hstep, Hd1.
  - destruct zero as [next|]; [|done]. by apply Hstep, Hd0.
Qed.

Lemma path_lookup_new p : path_lookup p TrieNode_new = None.
Proof. by destruct p as [|[] p]. Qed.

Lemma get_set_child cur c c' next :
  TrieNode_get_child (TrieNode_set_child cur c next) c' = if bool_decide (c = c') then Some next else TrieNode_get_child cur c'.
Proof. by destruct c, c'. Qed.

Lemma path_lookup_insert p p' cur e :
  path_lookup p' (path_insert p cur e) = if bool_decide (p = p') then Some e else path_lookup p' cur.
Proof.
  revert p' cur. induction p as [|c p IH]; intros p' cur; cbn [path_insert].
  - by destruct p' as [|c' p'].
  - destruct p' as [|c' p']; cbn [path_lookup]; [by destruct c|]. rewrite get_set_child.
    case_bool_decide as Hc; subst.
    + rewrite IH. destruct (bool_decide_reflect (p = p')) as [->|Hne].
      * by rewrite (bool_decide_eq_true_2 (c' :: p' = c' :: p')).
      * rewrite (bool_decide_eq_false_2 (c' :: p = c' :: p')) by congruence.
        unfold TrieNode_get_or_create_child. destruct (TrieNode_get_child cur c'); [done|apply path_lookup_new].
    + rewrite (bool_decide_eq_false_2 (c :: p = c' :: p')) by congruence. done.
Qed.

Lemma depth_le_new n : depth_le n TrieNode_new.
Proof. destruct n; [done|]. intros child next. by destruct child. Qed.

Lemma depth_le_insert n p cur e : (length p <= n)%nat -> depth_le n cur -> depth_le n (path_insert p cur e).
Proof.
  revert p cur. induction n as [|n IH]; intros [|c p] cur Hlen Hd; cbn in Hlen; try lia; [done|done|].
  cbn [path_insert depth_le] in *. intros c' next. rewrite get_set_child. case_bool_decide as Hc; [|apply Hd].
  intros [= <-]. apply IH; [lia|]. unfold TrieNode_get_or_create_child.
  destruct (TrieNode_get_child cur c) as [next|] eqn:E; [by eapply Hd|apply depth_le_new].
Qed.

(** The last entry on a path, from the far end. *)
Fixpoint best_upto (f : nat -> option Entry) (d : option Entry) (n : nat) : option Entry :=
  match n with
  | O => d
  | S m => match f n with Some e => Some e | None => best_upto f d m end
  end.

Lemma best_upto_ext f g d n : (forall l, (1 <= l <= n)%nat -> f l = g l) -> best_upto f d n = best_upto g d n.
Proof.
  induction n as [|n IH]; intros H; cbn [best_upto]; [done|]. rewrite H by lia. rewrite IH; [done|].
  intros l Hl. apply H. lia.
Qed.

Lemma best_upto_none f d n : (forall l, (1 <= l)%nat -> f l = None) -> best_upto f d n = d.
Proof. intros H. induction n as [|n IH]; cbn [best_upto]; [done|]. by rewrite H by lia. Qed.

Lemma path_match_best path cur d :
  path_match path cur d = best_upto (fun l => path_lookup (take l path) cur) d (length path).
Proof.
  revert cur d. induction path as [|c path IH]; intros cur d; [done|]. cbn [path_match length].
  destruct (TrieNode_get_child cur c) as [next|] eqn:E.
  - rewrite IH.
    assert (forall m, best_upto (fun l => path_lookup (take l (c :: path)) cur) d (S m) =
      best_upto (fun l => path_lookup (take l path) next) (match tn_entry next with Some e => Some e | None => d end) m) as H.
    { induction m as [|m IHm]; cbn [best_upto take path_lookup] in *; rewrite E in *; [done|].
      destruct path; cbn [take path_lookup] in *; by rewrite IHm. }
    by rewrite H.
  - symmetry. apply best_upto_none. intros [|l] Hl; [lia|]. cbn [take path_lookup]. by rewrite E.
Qed.

(** ** The routes *)

Record entry_ok (e : Entry) : Prop := {
  eo_prefix : 0 <= en_route_prefix e < 2 ^ 32;
  eo_length : 0 <= en_prefix_length e <= 32
}.

(** Does a route apply to an address: do the leading bits agree? *)
Definition entry_matches (ip : Z) (e : Entry) : bool :=
  Z.shiftr ip (32 - en_prefix_length e) =? Z.shiftr (en_route_prefix e) (32 - en_prefix_length e).

(** The routes are added one by one. *)
Fixpoint Trie_insert_all (es : list Entry) (t : Trie) : result Trie :=
  match es with
  | [] => Ok t
  | e :: es => t ← Trie_insert t e; Trie_insert_all es t
  end.

(** The newest route of length [l] for [ip]; [es] has the newest first. *)
Definition newest (es : list Entry) (ip : Z) (l : nat) : option Entry :=
  List.find (fun e => (en_prefix_length e =? Z.of_nat l) && entry_matches ip e) es.

Lemma bits_length k n x : length (bits k n x) = n.
Proof. revert k. induction n as [|n IH]; intros k; cbn; [done|]. by rewrite IH. Qed.

Lemma take_bits l k n x : (l <= n)%nat -> take l (bits k n x) = bits k l x.
Proof.
  revert l k. induction n as [|n IH]; intros [|l] k Hl; cbn; try done; [lia|]. by rewrite IH by lia.
Qed.

Lemma bits_testbit k n x y :
  bits k n x = bits k n y <-> forall i, k - Z.of_nat n < i <= k -> Z.testbit x i = Z.testbit y i.
Proof.
  revert k. induction n as [|n IH]; intros k; cbn [bits]; [split; [intros _ i Hi; lia|done]|]. split.
  - intros [= H1 H2] i Hi. destruct (Z.eq_dec i k) as [->|]; [done|]. apply (proj1 (IH (k - 1)) H2). lia.
  - intros H. f_equal; [apply H; lia|]. apply IH. intros i Hi. apply H. lia.
Qed.

Lemma bits_shiftr l x y : 0 <= x < 2 ^ 32 -> 0 <= y < 2 ^ 32 -> (l <= 32)%nat ->
  bits 31 l x = bits 31 l y <-> Z.shiftr x (32 - Z.of_nat l) = Z.shiftr y (32 - Z.of_nat l).
Proof.
  intros Hx Hy Hl. rewrite bits_testbit. split.
  - intros H. apply Z.bits_inj'. intros i Hi. rewrite !Z.shiftr_spec by lia.
    destruct (Z.le_gt_cases (i + (32 - Z.of_nat l)) 31) as [Hle|Hgt]; [apply H; lia|].
    assert (forall z, 0 <= z < 2 ^ 32 -> Z.testbit z (i + (32 - Z.of_nat l)) = false) as Hhigh.
    { intros z Hz. destruct (Z.eq_dec z 0) as [->|]; [apply Z.bits_0|]. apply Z.bits_above_log2; [lia|].
      apply Z.lt_le_trans with 32; [|lia]. apply Z.log2_lt_pow2; lia. }
    by rewrite !Hhigh.
  - intros H i Hi. apply (f_equal (fun z => Z.testbit z (i - (32 - Z.of_nat l)))) in H.
    rewrite !Z.shiftr_spec in H by lia. by replace (i - (32 - Z.of_nat l) + (32 - Z.of_nat l)) with i in H by lia.
Qed.

(** The mask that [insert] applies keeps the leading bits. *)
Lemma bits_prefix l x : (1 <= l <= 32)%nat ->
  bits 31 l (Z.land (u32 (Z.shiftl 4294967295 (32 - Z.of_nat l))) x) = bits 31 l x.
Proof.
  intros Hl. apply bits_testbit. intros i Hi. rewrite Z.land_spec. unfold u32.
  rewrite Z.mod_pow2_bits_low, Z.shiftl_spec by lia. change 4294967295 with (Z.ones 32).
  rewrite Z.testbit_ones_nonneg by lia. by rewrite (proj2 (Z.ltb_lt _ _)) by lia.
Qed.

(** The trie holds the routes [es], the newest first. *)
Record trie_holds (es : list Entry) (t : Trie) : Prop := {
  th_depth : depth_le 32 (tr_root t);
  th_paths : forall ip l, 0 <= ip < 2 ^ 32 -> (1 <= l <= 32)%nat ->
    path_lookup (bits 31 l ip) (tr_root t) = newest es ip l;
  th_default : forall ip, 0 <= ip < 2 ^ 32 -> tr_default t = newest es ip 0
}.

Lemma Trie_new_holds : trie_holds [] Trie_new.
Proof. split; [apply depth_le_new| |done]. intros ip l _ _. apply path_lookup_new. Qed.

Lemma newest_cons_ne e es ip l : en_prefix_length e <> Z.of_nat l -> newest (e :: es) ip l = newest es ip l.
Proof. intros H. unfold newest. cbn [List.find]. by rewrite (proj2 (Z.eqb_neq _ _) H). Qed.

Lemma Trie_insert_holds es t e : trie_holds es t -> entry_ok e ->
  exists t', Trie_insert t e = Ok t' /\ trie_holds (e :: es) t'.
Proof.
  intros [H1 H2 H3] [Hp Hl]. unfold Trie_insert. destruct (Z.eqb_spec (en_prefix_length e) 0) as [H0|H0].
  - eexists. split; [done|]. split; cbn [tr_root tr_default]; [done| |].
    + intros ip l Hip Hl'. rewrite newest_cons_ne by lia. by apply H2.
    + intros ip [Hip1 Hip2]. unfold newest, entry_matches. cbn [List.find]. rewrite H0. change (32 - 0) with 32.
      rewrite !Z.shiftr_div_pow2, !Z.div_small by lia. done.
  - rewrite (proj2 (Z.ltb_ge 32 _)) by lia. eexists. split; [done|].
    set (n := Z.to_nat (en_prefix_length e)). assert (en_prefix_length e = Z.of_nat n) as Hn by lia.
    rewrite insert_loop_path, Hn, bits_prefix by lia.
    split; cbn [tr_root tr_default].
    + apply depth_le_insert; [rewrite bits_length; lia|done].
    + intros ip l Hip Hl'. rewrite path_lookup_insert. destruct (decide (n = l)) as [->|Hne].
      * unfold newest, entry_matches. cbn [List.find]. rewrite Hn, Z.eqb_refl. cbn [andb].
        destruct (Z.eqb_spec (Z.shiftr ip (32 - Z.of_nat l)) (Z.shiftr (en_route_prefix e) (32 - Z.of_nat l))) as [E|E].
        -- rewrite bool_decide_eq_true_2; [done|]. symmetry. by apply (bits_shiftr l ip (en_route_prefix e)); [..|lia|].
        -- rewrite bool_decide_eq_false_2; [by apply H2|]. intros H. apply E. by apply (bits_shiftr l ip (en_route_prefix e)); [..|lia|].
      * rewrite bool_decide_eq_false_2; [rewrite newest_cons_ne by lia; by apply H2|].
        intros H. apply (f_equal length) in H. rewrite !bits_length in H. done.
    + intros ip Hip. rewrite newest_cons_ne by lia. by apply H3.
Qed.

Lemma Trie_insert_all_holds es old t : trie_holds old t -> Forall entry_ok es ->
  exists t', Trie_insert_all es t = Ok t' /\ trie_holds (rev es ++ old) t'.
Proof.
  intros Ht Hes. revert old t Ht. induction Hes as [|e es He _ IH]; intros old t Ht; [by exists t|].
  cbn [Trie_insert_all]. destruct (Trie_insert_holds old t e Ht He) as (t1 & -> & H1). cbn [mbind result_bind].
  destruct (IH _ _ H1) as (t2 & -> & H2). exists t2. split; [done|]. cbn [rev]. by rewrite <- app_assoc.
Qed.

Lemma match_best es t ip : trie_holds es t -> 0 <= ip < 2 ^ 32 ->
  Trie_longest_prefix_match t ip = best_upto (newest es ip) (newest es ip 0) 32.
Proof.
  intros [H1 H2 H3] Hip. unfold Trie_longest_prefix_match. rewrite (match_loop_path 32 31) by (done || lia).
  rewrite path_match_best, bits_length, (H3 ip Hip).
  rewrite (best_upto_ext _ (newest es ip)) by (intros l Hl; rewrite take_bits by lia; by apply H2).
  generalize 32%nat. intros n. induction n as [|n IH]; cbn [best_upto]; [done|]. destruct (newest es ip (S n)); [done|exact IH].
Qed.

Lemma newest_some es ip l e : newest es ip l = Some e ->
  exists es1 es2, es = es1 ++ e :: es2 /\ en_prefix_length e = Z.of_nat l /\ entry_matches ip e = true /\
    forall e', e' ∈ es1 -> entry_matches ip e' = true -> en_prefix_length e' <> Z.of_nat l.
Proof.
  unfold newest. induction es as [|x es IH]; [done|]. cbn [List.find].
  destruct (_ && entry_matches ip x) eqn:E.
  - intros [= ->]. b2p. exists [], es. split_and!; try done. intros e' He'. by inversion He'.
  - intros H. destruct (IH H) as (es1 & es2 & -> & H1 & H2 & H3). exists (x :: es1), es2. split_and!; try done.
    intros e' [->|He']%elem_of_cons Hm; [|by apply H3]. intros Hl. rewrite Hl, Z.eqb_refl, Hm in E. done.
Qed.

Lemma newest_none es ip l e : newest es ip l = None -> e ∈ es -> entry_matches ip e = true ->
  en_prefix_length e <> Z.of_nat l.
Proof.
  intros H He Hm Hl. apply list_elem_of_In in He. apply (find_none _ _ H) in He. by rewrite Hl, Z.eqb_refl, Hm in He.
Qed.

Lemma best_upto_newest es ip n :
  match best_upto (newest es ip) (newest es ip 0) n with
  | Some e => exists l, (l <= n)%nat /\ newest es ip l = Some e /\
      forall e', e' ∈ es -> entry_matches ip e' = true -> 0 <= en_prefix_length e' <= Z.of_nat n ->
        en_prefix_length e' <= Z.of_nat l
  | None => forall e', e' ∈ es -> entry_matches ip e' = true -> ~ 0 <= en_prefix_length e' <= Z.of_nat n
  end.
Proof.
  induction n as [|n IH]; cbn [best_upto].
  - destruct (newest es ip 0) as [e|] eqn:E.
    + exists 0%nat. split_and!; [lia|done|]. intros e' _ _ H. lia.
    + intros e' He' Hm H. apply (newest_none _ _ _ _ E He' Hm). lia.
  - destruct (newest es ip (S n)) as [e|] eqn:E.
    + exists (S n). split_and!; [lia|done|]. intros e' _ _ H. lia.
    + destruct (best_upto _ _ n) as [e|].
      * destruct IH as (l & Hl & El & IH). exists l. split_and!; [lia|done|]. intros e' He' Hm H.
        apply IH; [done..|]. pose proof (newest_none _ _ _ _ E He' Hm). lia.
      * intros e' He' Hm H. apply (IH e' He' Hm). pose proof (newest_none _ _ _ _ E He' Hm). lia.
Qed.

(** A route that applies to [ip], with none longer, and none as long added later. *)
Definition best_entry (es : list Entry) (ip : Z) (e : Entry) : Prop :=
  exists older newer, es = older ++ e :: newer /\ entry_matches ip e = true /\
    (forall e', e' ∈ es -> entry_matches ip e' = true -> en_prefix_length e' <= en_prefix_length e) /\
    (forall e', e' ∈ newer -> entry_matches ip e' = true -> en_prefix_length e' < en_prefix_length e).

Lemma trie_match es t ip : Forall entry_ok es -> 0 <= ip < 2 ^ 32 -> trie_holds (rev es) t ->
  match Trie_longest_prefix_match t ip with
  | Some e => best_entry es ip e
  | None => forall e, e ∈ es -> entry_matches ip e = false
  end.
Proof.
  intros Hes Hip Ht. rewrite (match_best (rev es) t ip Ht Hip).
  assert (forall e, e ∈ es -> e ∈ rev es /\ 0 <= en_prefix_length e <= Z.of_nat 32) as Hin.
  { intros e He. split; [apply list_elem_of_In; rewrite <- in_rev; by apply list_elem_of_In|].
    rewrite Forall_forall in Hes. by apply Hes. }
  pose proof (best_upto_newest (rev es) ip 32) as Hb. destruct (best_upto _ _ 32) as [e|].
  - destruct Hb as (l & _ & El & Hmax). destruct (newest_some _ _ _ _ El) as (es1 & es2 & Hrev & Hl & Hm & Hnew).
    assert (es = rev es2 ++ e :: rev es1) as Hes'.
    { rewrite <- (rev_involutive es), Hrev, rev_app_distr. cbn [rev]. by rewrite <- app_assoc. }
    exists (rev es2), (rev es1). split_and!; [done|done| |].
    + intros e' He' Hm'. rewrite Hl. destruct (Hin e' He'). by apply Hmax.
    + intros e' He' Hm'. assert (e' ∈ es) as He by (rewrite Hes'; apply elem_of_app; right; apply elem_of_cons; by right).
      destruct (Hin e' He) as [Hr Hle]. pose proof (Hmax e' Hr Hm' Hle).
      assert (e' ∈ es1) as H1 by (apply list_elem_of_In; rewrite in_rev; by apply list_elem_of_In).
      pose proof (Hnew e' H1 Hm'). lia.
  - intros e He. destruct (Hin e He) as [Hr Hle]. destruct (entry_matches ip e) eqn:Hm; [|done]. by destruct (Hb e Hr Hm).
Qed.

(** C8.  The trie implements longest-prefix match: after any sequence of routes has
    been added, looking an address up gives a route that matches it; no route
    that matches is longer, and of those as long none was added later; and when
    nothing is found, no route matches. *)
Theorem longest_prefix_match_correct es ip :
  Forall entry_ok es -> 0 <= ip < 2 ^ 32 ->
  exists t, Trie_insert_all es Trie_new = Ok t /\
    match Trie_longest_prefix_match t ip with
    | Some e => exists older newer, es = older ++ e :: newer /\ entry_matches ip e = true /\
        (forall e', e' ∈ es -> entry_matches ip e' = true -> en_prefix_length e' <= en_prefix_length e) /\
        (forall e', e' ∈ newer -> entry_matches ip e' = true -> en_prefix_length e' < en_prefix_length e)
    | None => forall e, e ∈ es -> entry_matches ip e = false
    end.
Proof.
  intros Hes Hip. destruct (Trie_insert_all_holds es [] Trie_new Trie_new_holds Hes) as (t & E & Ht).
  rewrite app_nil_r in Ht. exists t. split; [exact E|]. exact (trie_match es t ip Hes Hip Ht).
Qed.

(** A default route, a net and a host in it. *)
Definition sample_routes : list Entry :=
  [MkEntry (10 * 2 ^ 24) 8 None 1; MkEntry 0 0 (Some (host_ip 1)) 0; MkEntry (10 * 2 ^ 24 + 5) 32 (Some (host_ip 9)) 2].

Lemma sample_routes_ok : Forall entry_ok sample_routes.
Proof. repeat apply Forall_cons_2; first [apply Forall_nil_2|split; cbn; lia]. Qed.

Lemma longest_prefix_match_correct_witness :
  exists t, Trie_insert_all sample_routes Trie_new = Ok t /\
    Trie_longest_prefix_match t (10 * 2 ^ 24 + 5) = Some (MkEntry (10 * 2 ^ 24 + 5) 32 (Some (host_ip 9)) 2) /\
    match Trie_longest_prefix_match t (10 * 2 ^ 24 + 7) with
    | Some e => exists older newer, sample_routes = older ++ e :: newer /\
        entry_matches (10 * 2 ^ 24 + 7) e = true /\
        (forall e', e' ∈ sample_routes -> entry_matches (10 * 2 ^ 24 + 7) e' = true -> en_prefix_length e' <= en_prefix_length e) /\
        (forall e', e' ∈ newer -> entry_matches (10 * 2 ^ 24 + 7) e' = true -> en_prefix_length e' < en_prefix_length e)
    | None => forall e, e ∈ sample_routes -> entry_matches (10 * 2 ^ 24 + 7) e = false
    end.
Proof.
  destruct (longest_prefix_match_correct sample_routes (10 * 2 ^ 24 + 7) sample_routes_ok ltac:(lia)) as (t & E & H).
  exists t. split; [exact E|]. split; [|exact H]. vm_compute in E. injection E as <-. vm_compute. reflexivity.
Defined.

(** ** Forwarding *)

(** The reference for the table: of the routes, in the order in which they were
    added, the last one of the longest that apply. *)
Definition better (ip : Z) (best : option Entry) (e : Entry) : option Entry :=
  if entry_matches ip e && (match best with Some b => en_prefix_length b <=? en_prefix_length e | None => true end)
  then Some e else best.

Definition best_route (es : list Entry) (ip : Z) : option Entry := foldl (better ip) None es.

Lemma best_route_spec es ip :
  match best_route es ip with
  | Some e => best_entry es ip e
  | None => forall e, e ∈ es -> entry_matches ip e = false
  end.
Proof.
  unfold best_route, best_entry. induction es as [|x es IH] using rev_ind; [intros e He; by inversion He|].
  rewrite foldl_app. cbn [foldl]. set (best := foldl _ None es) in *. unfold better at 1.
  destruct (entry_matches ip x) eqn:Hx; cbn [andb].
  - destruct best as [b|]; [|exists es, []; split_and!; try done].
    + destruct IH as (older & newer & E & H1 & H2 & H3). destruct (Z.leb_spec (en_prefix_length b) (en_prefix_length x)).
      * exists es, []. split_and!; [done|done| |intros e He; by inversion He].
        intros e [He|He%list_elem_of_singleton]%elem_of_app Hm; [specialize (H2 e He Hm); lia|by subst].
      * exists older, (newer ++ [x]). split_and!; [by rewrite E, <- app_assoc|done| |].
        -- intros e [He|He%list_elem_of_singleton]%elem_of_app Hm; [by apply H2|subst; lia].
        -- intros e [He|He%list_elem_of_singleton]%elem_of_app Hm; [by apply H3|by subst].
    + intros e [He|He%list_elem_of_singleton]%elem_of_app Hm; [by rewrite IH in Hm|by subst].
    + intros e He. by inversion He.
  - destruct best as [b|].
    + destruct IH as (older & newer & E & H1 & H2 & H3). exists older, (newer ++ [x]).
      split_and!; [by rewrite E, <- app_assoc|done| |]; intros e [He|He%list_elem_of_singleton]%elem_of_app Hm; subst; auto; congruence.
    + intros e [He|He%list_elem_of_singleton]%elem_of_app; [by apply IH|by subst].
Qed.

(** Only one route is the best. *)
Lemma best_entry_unique es ip e1 e2 : best_entry es ip e1 -> best_entry es ip e2 -> e1 = e2.
Proof.
  intros (o1 & n1 & E1 & M1 & L1 & N1) (o2 & n2 & E2 & M2 & L2 & N2).
  assert (e1 ∈ es /\ e2 ∈ es) as [I1 I2] by (split; [rewrite E1|rewrite E2]; set_solver).
  specialize (L1 e2 I2 M2). specialize (L2 e1 I1 M1). rewrite E1 in E2.
  apply app_eq_inv in E2 as [(k & -> & E)|(k & -> & E)]; destruct k as [|x k]; cbn in E; injection E as <- ->; try done.
  - specialize (N2 e1 ltac:(set_solver) M1). lia.
  - specialize (N1 e2 ltac:(set_solver) M2). lia.
Qed.

Lemma match_best_route es t ip : Trie_insert_all es Trie_new = Ok t -> Forall entry_ok es -> 0 <= ip < 2 ^ 32 ->
  Trie_longest_prefix_match t ip = best_route es ip.
Proof.
  intros Ht Hes Hip. destruct (Trie_insert_all_holds es [] Trie_new Trie_new_holds Hes) as (t' & E & H).
  rewrite app_nil_r in H. assert (t' = t) as -> by congruence.
  pose proof (trie_match es t ip Hes Hip H) as Ha. pose proof (best_route_spec es ip) as Hb.
  assert (forall e, best_entry es ip e -> e ∈ es /\ entry_matches ip e = true) as Hin.
  { intros e (o & n & -> & Hm & _). split; [set_solver|done]. }
  destruct (Trie_longest_prefix_match t ip) as [e1|], (best_route es ip) as [e2|]; [|exfalso..|done].
  - f_equal. by eapply best_entry_unique.
  - destruct (Hin e1 Ha) as [H1 H2]. by rewrite Hb in H2.
  - destruct (Hin e2 Hb) as [H1 H2]. by rewrite Ha in H2.
Qed.

(** A datagram after a hop, and where a route sends it next. *)
Definition passed (d : IPv4Datagram) : IPv4Datagram :=
  MkIPv4Datagram (IPv4Header_set_ttl (id_header d) (ih_ttl (id_header d) - 1)) (id_payload d).

Definition entry_hop (e : Entry) (d : IPv4Datagram) : Address :=
  default (Address_from_ipv4_numeric (ih_dst (id_header d))) (en_next_hop e).

(** What is to become of a datagram when [lookup] finds the routes: nothing when its
    time is up or there is no route; otherwise the interface it goes out on, the
    datagram as it goes out, and its next hop. *)
Definition onward (lookup : Z -> option Entry) (d : IPv4Datagram) : option (nat * (IPv4Datagram * Address)) :=
  if ih_ttl (id_header d) <=? 1 then None
  else e ← lookup (ih_dst (id_header d)); Some (Z.to_nat (en_interface_num e), (passed d, entry_hop e d)).

Definition route_of (t : Trie) : IPv4Datagram -> option (nat * (IPv4Datagram * Address)) :=
  onward (Trie_longest_prefix_match t).

(** The datagrams that go out on interface [j], in the order of their arrival, each
    with its next hop. *)
Definition assigned (where_to : IPv4Datagram -> option (nat * (IPv4Datagram * Address))) (j : nat)
    (ds : list IPv4Datagram) : list (IPv4Datagram * Address) :=
  omap (fun d => match where_to d with Some (k, x) => if decide (k = j) then Some x else None | None => None end) ds.

(** Datagrams given to an interface one after the other. *)
Fixpoint send_all (l : list (IPv4Datagram * Address)) (n : NetworkInterface) : result NetworkInterface :=
  match l with
  | [] => Ok n
  | (d, hop) :: l => n ← NetworkInterface_send_datagram n d hop; send_all l n
  end.

Lemma send_all_app l1 l2 n n1 : send_all l1 n = Ok n1 -> send_all (l1 ++ l2) n = send_all l2 n1.
Proof.
  revert n. induction l1 as [|[d hop] l1 IH]; intros n; cbn [send_all app]; [by intros [= ->]|].
  destruct (NetworkInterface_send_datagram n d hop) as [n2|]; [|done]. apply IH.
Qed.

(** Sending does not change what the interface knows of its neighbours. *)
Lemma send_keeps_arp n d hop n' ip : NetworkInterface_send_datagram n d hop = Ok n' -> arp_valid n' ip = arp_valid n ip.
Proof.
  unfold NetworkInterface_send_datagram. destruct (Address_ipv4_numeric hop) as [h|]; [|done]. cbn [mbind result_bind].
  destruct (arp_valid n h); [destruct (IPv4Datagram_serialize d); [|done]; by intros [= <-]|].
  cbn zeta. destruct (broadcast_recently _ h); [by intros [= <-]|].
  destruct (Address_ipv4_numeric _); [|done]. cbn [mbind result_bind]. destruct (ARPMessage_serialize _); [|done].
  by intros [= <-].
Qed.

Lemma send_all_keeps_arp l n n' ip : send_all l n = Ok n' -> arp_valid n' ip = arp_valid n ip.
Proof.
  revert n. induction l as [|[d hop] l IH]; intros n; cbn [send_all]; [by intros [= ->]|].
  destruct (NetworkInterface_send_datagram n d hop) as [n1|] eqn:E; [|done]. cbn [mbind result_bind]. intros H.
  rewrite (IH _ H). by eapply send_keeps_arp.
Qed.

(** The datagrams an interface has in its frames or its waiting queue. *)
Definition handed (n : NetworkInterface) : list (result BufferList) :=
  sent_datagrams (frame_log [] n) ++ as_sent (ni_dgram_pending n).

Definition interface_ok (n : NetworkInterface) : Prop := exists eth own_ip sub, ni_inv eth own_ip [] sub n.

Lemma send_all_hands l n n' : interface_ok n -> Forall sendable l -> send_all l n = Ok n' -> handed n' ≡ₚ handed n ++ as_sent l.
Proof.
  intros (eth & own_ip & sub & Hn) Hl. revert n sub Hn. induction Hl as [|[d hop] l Hd _ IH]; intros n sub Hn; cbn [send_all].
  - intros [= <-]. cbn. by rewrite app_nil_r.
  - destruct (send_inv _ _ _ sub n d hop Hn Hd) as (n1 & -> & H1 & _). cbn [mbind result_bind]. intros E.
    rewrite (IH n1 _ H1 E). unfold handed. rewrite (nv_conserve _ _ _ _ _ H1), (nv_conserve _ _ _ _ _ Hn).
    unfold as_sent. rewrite map_app. cbn [map fmap list_fmap]. by rewrite <- app_assoc.
Qed.

Definition async_ok (a : AsyncNetworkInterface) : Prop := interface_ok (an_interface a).

(** The table only names interfaces the router has, and next hops that are IPv4
    addresses. *)
Definition table_ok (r : Router) : Prop :=
  forall ip e, 0 <= ip < 2 ^ 32 -> Trie_longest_prefix_match (ro_route_table r) ip = Some e ->
    0 <= en_interface_num e < zlen (ro_interfaces r) /\
    match en_next_hop e with Some a => exists hop, hop_ip a hop | None => True end.

Definition router_ok (r : Router) : Prop := Forall async_ok (ro_interfaces r) /\ table_ok r.

(** The step from [r] to [r'] that takes care of the datagrams [ds]: each interface
    has been given those assigned to it. *)
Record routed (ds : list IPv4Datagram) (r r' : Router) : Prop := {
  rd_table : ro_route_table r' = ro_route_table r;
  rd_length : length (ro_interfaces r') = length (ro_interfaces r);
  rd_interfaces : forall j a, ro_interfaces r !! j = Some a -> exists a', ro_interfaces r' !! j = Some a' /\
    send_all (assigned (route_of (ro_route_table r)) j ds) (an_interface a) = Ok (an_interface a')
}.

Lemma routed_nil r : routed [] r r.
Proof. split; [done..|]. intros j a H. by exists a. Qed.

Lemma routed_app ds1 ds2 r1 r2 r3 : routed ds1 r1 r2 -> routed ds2 r2 r3 -> routed (ds1 ++ ds2) r1 r3.
Proof.
  intros [A1 A2 A3] [B1 B2 B3]. split; [congruence..|]. intros j a Ha.
  destruct (A3 j a Ha) as (a2 & H2 & P2). destruct (B3 j a2 H2) as (a3 & H3 & P3). exists a3. split; [done|].
  unfold assigned in *. rewrite omap_app, (send_all_app _ _ _ _ P2). by rewrite <- A1.
Qed.

Lemma set_ttl_ok d : IPv4Datagram_ok d -> 1 < ih_ttl (id_header d) -> IPv4Datagram_ok (passed d).
Proof. intros [[] Hl] Ht. split; [|done]. split; try assumption. cbn. lia. Qed.

Lemma send_to_ok r i d hop a :
  router_ok r -> ro_interfaces r !! i = Some a -> sendable (d, hop) ->
  exists r' a', Router_send r (Z.of_nat i) d hop = Ok r' /\ ro_interfaces r' = <[i := a']> (ro_interfaces r) /\
    ro_route_table r' = ro_route_table r /\ async_ok a' /\ an_datagrams_out a' = an_datagrams_out a /\
    send_all [(d, hop)] (an_interface a) = Ok (an_interface a').
Proof.
  intros [Hr _] Ha Hs. unfold Router_send. rewrite Nat2Z.id, Ha. rewrite Forall_lookup in Hr.
  destruct (Hr _ _ Ha) as (eth & own_ip & sub & HI). unfold AsyncNetworkInterface_send_datagram. cbn [send_all].
  destruct (send_inv _ _ _ sub _ d hop HI Hs) as (n' & -> & HI' & _). cbn [mbind result_bind].
  eexists _, _. split_and!; try done. by eexists _, _, _.
Qed.

Lemma assigned_one f j d : assigned f j [d] =
  match f d with Some (k, x) => if decide (k = j) then [x] else [] | None => [] end.
Proof. unfold assigned. cbn. destruct (f d) as [[k x]|]; [|done]. by destruct (decide (k = j)). Qed.

(** A step that does not touch the queues. *)
Definition same_queues (r r' : Router) : Prop := forall i, Router_queue r' i = Router_queue r i.

Lemma onward_sendable r d k x : table_ok r -> IPv4Datagram_ok d -> route_of (ro_route_table r) d = Some (k, x) -> sendable x.
Proof.
  intros Ht Hd. unfold route_of, onward. destruct (Z.leb_spec (ih_ttl (id_header d)) 1) as [|Httl]; [done|].
  pose proof (iho_dst _ (ido_header _ Hd)) as Hdst.
  destruct (Trie_longest_prefix_match _ _) as [e|] eqn:El; [|done]. destruct (Ht _ _ Hdst El) as [_ Hhop]. cbn. intros [= _ <-].
  split; [by apply set_ttl_ok|]. cbn [snd]. unfold entry_hop. destruct (en_next_hop e) as [a|]; [done|]. cbn.
  exists (ih_dst (id_header d)). split; [by apply (Address_v4_numeric _ 0)|done].
Qed.

Lemma route_one_ok r d : router_ok r -> IPv4Datagram_ok d ->
  exists r', Router_route_one_datagram r d = Ok r' /\ routed [d] r r' /\ router_ok r' /\ same_queues r r'.
Proof.
  intros Hr Hd. pose proof Hr as [Hi Ht]. pose proof (onward_sendable r d) as Hs.
  assert (route_of (ro_route_table r) d = None -> routed [d] r r) as Hnone.
  { intros H. split; [done..|]. intros j a Ha. exists a. split; [done|]. by rewrite assigned_one, H. }
  unfold Router_route_one_datagram, route_of, onward in *. destruct (Z.leb_spec (ih_ttl (id_header d)) 1) as [|Httl].
  { exists r. split; [done|]. split; [by apply Hnone|done]. }
  cbn [id_header ih_dst IPv4Header_set_ttl]. pose proof (iho_dst _ (ido_header _ Hd)) as Hdst.
  destruct (Trie_longest_prefix_match _ _) as [e|] eqn:El; [|exists r; split; [done|]; split; [by apply Hnone|done]].
  destruct (Ht _ _ Hdst El) as [Hnum _]. specialize (Hs _ _ Ht Hd eq_refl).
  set (i := Z.to_nat (en_interface_num e)) in *. assert (en_interface_num e = Z.of_nat i) as Ei by lia.
  destruct (lookup_lt_is_Some_2 (ro_interfaces r) i) as [a Ha]; [unfold zlen in Hnum; lia|].
  destruct (send_to_ok r i (passed d) (entry_hop e d) a Hr Ha Hs) as (r' & a' & E & Hint & Htab & Hok & Hq & Hh).
  exists r'. split; [unfold entry_hop in E; rewrite Ei; by destruct (en_next_hop e)|]. split_and!.
  - split; [done|by rewrite Hint, length_insert|]. intros j b Hb. rewrite Hint, assigned_one. unfold route_of, onward.
    rewrite (proj2 (Z.leb_gt _ _) Httl), El. cbn [mbind option_bind]. fold i. destruct (decide (i = j)) as [<-|Hne].
    + exists a'. assert (b = a) as -> by congruence.
      split; [apply list_lookup_insert_eq; by eapply lookup_lt_Some|done].
    + exists b. split; [by rewrite list_lookup_insert_ne|done].
  - split; [rewrite Hint; by apply Forall_insert|]. intros ip e' Hip. rewrite Htab, Hint. unfold zlen. rewrite length_insert.
    by apply Ht.
  - intros j. unfold Router_queue. rewrite Hint. destruct (decide (i = j)) as [<-|Hne].
    + rewrite list_lookup_insert_eq by (by eapply lookup_lt_Some). by rewrite Ha.
    + by rewrite list_lookup_insert_ne.
Qed.

Lemma pop_queue r i j : Router_queue (Router_pop r i) j = if decide (i = j) then tail (Router_queue r i) else Router_queue r j.
Proof.
  unfold Router_queue, Router_pop. cbn [ro_interfaces]. destruct (decide (i = j)) as [<-|Hne].
  - rewrite list_lookup_alter_eq. by destruct (ro_interfaces r !! i).
  - by rewrite list_lookup_alter_ne.
Qed.

Lemma pop_ok r i : router_ok r -> router_ok (Router_pop r i) /\ routed [] r (Router_pop r i).
Proof.
  intros [Hi Ht]. split.
  - split.
    + unfold Router_pop. cbn [ro_interfaces]. by apply Forall_alter.
    + intros ip e Hip. unfold Router_pop, zlen. cbn [ro_interfaces ro_route_table]. rewrite length_alter. by apply Ht.
  - split; [done|by apply length_alter|]. intros j a Ha. cbn [Router_pop ro_interfaces assigned omap list_omap].
    destruct (decide (i = j)) as [<-|Hne].
    + rewrite list_lookup_alter_eq, Ha. by eexists.
    + rewrite list_lookup_alter_ne by done. by exists a.
Qed.

(** The inner loop takes the datagrams off the queue one by one. *)
Lemma route_queue_ok q rest r i : router_ok r -> Forall IPv4Datagram_ok q -> Router_queue r i = q ++ rest ->
  exists r', (forall fuel, route_queue (length q + fuel) i r = route_queue fuel i r') /\ routed q r r' /\ router_ok r' /\
    forall j, Router_queue r' j = if decide (i = j) then rest else Router_queue r j.
Proof.
  intros Hr Hq. revert r Hr. induction Hq as [|d q Hd _ IH]; intros r Hr Hq; cbn [length route_queue Nat.add].
  - exists r. split; [done|]. split; [apply routed_nil|]. split; [done|]. intros j. by destruct (decide (i = j)) as [<-|].
  - rewrite Hq. cbn [app]. destruct (route_one_ok r d Hr Hd) as (r1 & -> & H1 & Hr1 & Hs1). cbn [mbind result_bind].
    destruct (pop_ok r1 i Hr1) as [Hr2 H2].
    destruct (IH (Router_pop r1 i) Hr2) as (r3 & E3 & H3 & Hr3 & Hq3).
    { rewrite pop_queue, decide_True, Hs1, Hq by done. done. }
    exists r3. split; [exact E3|]. split; [apply (routed_app [d] q r (Router_pop r1 i)); [|done]|].
    { by apply (routed_app [d] [] r r1). }
    split; [done|]. intros j. rewrite Hq3, pop_queue. destruct (decide (i = j)); [done|apply Hs1].
Qed.

Lemma route_from_ok todo rest r : router_ok r -> NoDup todo ->
  (forall i, i ∈ todo -> Forall IPv4Datagram_ok (Router_queue r i)) ->
  exists r', route_from (todo ++ rest) r = route_from rest r' /\ routed (concat (map (Router_queue r) todo)) r r' /\
    router_ok r' /\ (forall j, Router_queue r' j = if decide (j ∈ todo) then [] else Router_queue r j).
Proof.
  intros Hr Hnd. revert r Hr. induction Hnd as [|i todo Hi _ IH]; intros r Hr Hok; cbn [route_from app].
  - exists r. split; [done|]. split; [apply routed_nil|]. split; [done|]. intros j. by rewrite decide_False by (intros H; inversion H).
  - destruct (route_queue_ok (Router_queue r i) [] r i Hr) as (r1 & E1 & H1 & Hr1 & Hq1); [apply Hok; set_solver|by rewrite app_nil_r|].
    specialize (E1 0%nat). rewrite Nat.add_0_r in E1. rewrite E1. cbn [route_queue mbind result_bind].
    destruct (IH r1 Hr1) as (r2 & -> & H2 & Hr2 & Hq2).
    { intros j Hj. rewrite Hq1. destruct (decide (i = j)); [constructor|]. apply Hok. set_solver. }
    exists r2. split; [done|].
    assert (map (Router_queue r1) todo = map (Router_queue r) todo) as Hm.
    { apply map_ext_in. intros j Hj. rewrite Hq1, decide_False; [done|]. intros ->. by apply Hi, list_elem_of_In. }
    rewrite Hm in H2. split; [by apply (routed_app _ _ r r1)|]. split; [done|]. intros j. rewrite Hq2, Hq1.
    destruct (decide (j ∈ todo)) as [Hj|Hj]; [by rewrite decide_True by by apply elem_of_cons; right|].
    destruct (decide (i = j)) as [<-|Hne]; [by rewrite decide_True by by apply elem_of_cons; left|].
    rewrite decide_False; [done|]. rewrite elem_of_cons. intros [?|?]; congruence.
Qed.

(** All the datagrams the router is asked to route, interface by interface. *)
Definition router_input (r : Router) : list IPv4Datagram :=
  concat (map (Router_queue r) (seq 0 (length (ro_interfaces r)))).

(** A router to which the routes [es] have been added, in this order: they name
    interfaces it has and next hops that are IPv4 addresses, and its interfaces are
    in a state that the operations lead to. *)
Record forwarding_ok (es : list Entry) (r : Router) : Prop := {
  fo_table : Trie_insert_all es Trie_new = Ok (ro_route_table r);
  fo_entries : Forall entry_ok es;
  fo_interface_num : Forall (fun e => 0 <= en_interface_num e < zlen (ro_interfaces r)) es;
  fo_next_hop : Forall (fun e => match en_next_hop e with Some a => exists hop, hop_ip a hop | None => True end) es;
  fo_interfaces : Forall async_ok (ro_interfaces r)
}.

Lemma forwarding_router es r : forwarding_ok es r -> router_ok r.
Proof.
  intros [F1 F2 F3 F4 F5]. split; [done|]. intros ip e Hip. rewrite (match_best_route es) by done. intros He.
  pose proof (best_route_spec es ip) as Hb. rewrite He in Hb. destruct Hb as (o & n & -> & _).
  rewrite Forall_forall in F3, F4. split; [apply F3|apply F4]; set_solver.
Qed.

Lemma onward_es es r d : forwarding_ok es r -> IPv4Datagram_ok d -> route_of (ro_route_table r) d = onward (best_route es) d.
Proof.
  intros Hf Hd. unfold route_of, onward. rewrite (match_best_route es); [done|apply Hf|apply Hf|apply Hd].
Qed.

Lemma assigned_es es r j ds : forwarding_ok es r -> Forall IPv4Datagram_ok ds ->
  assigned (route_of (ro_route_table r)) j ds = assigned (onward (best_route es)) j ds.
Proof.
  intros Hf Hds. unfold assigned. induction Hds as [|d ds Hd _ IH]; [done|]. cbn [omap list_omap].
  by rewrite (onward_es es), IH.
Qed.

Lemma assigned_sendable r j ds : router_ok r -> Forall IPv4Datagram_ok ds ->
  Forall sendable (assigned (route_of (ro_route_table r)) j ds).
Proof.
  intros [_ Ht] Hds. unfold assigned. induction Hds as [|d ds Hd _ IH]; [constructor|]. cbn [omap list_omap].
  destruct (route_of _ d) as [[k x]|] eqn:E; [|done]. destruct (decide (k = j)); [|done].
  constructor; [|done]. by eapply onward_sendable.
Qed.

Lemma router_input_ok r : (forall i, Forall IPv4Datagram_ok (Router_queue r i)) -> Forall IPv4Datagram_ok (router_input r).
Proof.
  intros H. unfold router_input. induction (seq 0 _) as [|i l IH]; cbn; [constructor|]. by apply Forall_app_2.
Qed.

(** C10.  [route] with well-formed datagrams in the queues and routes that name
    interfaces the router has and next hops that are IPv4 addresses: it does not
    throw, leaves every queue empty and the table as it is, and what it does to each
    interface is to send, in the order of their arrival, exactly the datagrams whose
    best route leads there, their time to live counted down, to the next hop of the
    route or to the destination if it has none.  The best route is the one that a scan
    of the list of routes finds.  Datagrams whose time is up or that have no route are
    dropped; those sent are in the frames of the interface or wait for an address. *)
Theorem route_forwards_all es r :
  forwarding_ok es r -> (forall i, Forall IPv4Datagram_ok (Router_queue r i)) ->
  exists r', Router_route r = Ok r' /\ ro_route_table r' = ro_route_table r /\
    length (ro_interfaces r') = length (ro_interfaces r) /\
    forall j a, ro_interfaces r !! j = Some a -> exists n',
      let out := assigned (onward (best_route es)) j (router_input r) in
      ro_interfaces r' !! j = Some (MkAsyncNetworkInterface n' []) /\
      send_all out (an_interface a) = Ok n' /\ handed n' ≡ₚ handed (an_interface a) ++ as_sent out.
Proof.
  intros Hf Hok. pose proof (forwarding_router es r Hf) as Hr.
  destruct (route_from_ok (seq 0 (length (ro_interfaces r))) [] r Hr) as (r' & E & [H1 H2 H3] & _ & Hq);
    [apply NoDup_seq|auto|].
  rewrite app_nil_r in E. exists r'. split; [exact E|]. split; [done|]. split; [done|]. intros j a Ha.
  pose proof (router_input_ok r Hok) as Hin. destruct (H3 j a Ha) as (a' & Ha' & P). exists (an_interface a').
  pose proof (assigned_sendable r j _ Hr Hin) as Hs. fold (router_input r) in P. rewrite (assigned_es es) in P, Hs by done.
  intros out. split; [|split; [exact P|]].
  - specialize (Hq j). rewrite decide_True in Hq.
    + unfold Router_queue in Hq. rewrite Ha' in *. f_equal. destruct a'. cbn in *. by subst.
    + apply elem_of_seq. apply lookup_lt_Some in Ha. lia.
  - apply send_all_hands; [|done|done]. pose proof (fo_interfaces _ _ Hf) as Hi. rewrite Forall_lookup in Hi. exact (Hi _ _ Ha).
Qed.

(** ** Packets of another version *)

(** The router after the [i]th interface has changed. *)
Definition with_interface (r : Router) (i : nat) (a : AsyncNetworkInterface) : Router :=
  MkRouter (<[i := a]> (ro_interfaces r)) (ro_route_table r).

Lemma with_interface_ok es r i a a' : ro_interfaces r !! i = Some a -> an_interface a' = an_interface a ->
  forwarding_ok es r -> forwarding_ok es (with_interface r i a').
Proof.
  intros Ha Hn [F1 F2 F3 F4 F5]. split; cbn [with_interface ro_interfaces ro_route_table]; try done.
  - unfold zlen in *. by rewrite length_insert.
  - apply Forall_insert; [done|]. unfold async_ok. rewrite Hn. rewrite Forall_lookup in F5. exact (F5 _ _ Ha).
Qed.

Lemma with_interface_queue r i a j : (i < length (ro_interfaces r))%nat ->
  Router_queue (with_interface r i a) j = if decide (i = j) then an_datagrams_out a else Router_queue r j.
Proof.
  intros Hi. unfold Router_queue, with_interface. cbn [ro_interfaces]. destruct (decide (i = j)) as [<-|Hne].
  - by rewrite list_lookup_insert_eq.
  - by rewrite list_lookup_insert_ne.
Qed.

Lemma recv_other_version n dst src buf h payload :
  other_version h payload -> Buffer_wf buf -> Buffer_str buf = fixed_bytes h ++ payload ->
  dst = ni_ethernet_address n \/ dst = ETHERNET_BROADCAST ->
  exists b, NetworkInterface_recv_frame n (MkEthernetFrame (MkEthernetHeader dst src TYPE_IPv4) [buf]) =
    Ok (Some (MkIPv4Datagram h [b]), n).
Proof.
  intros Hh Hwf Hstr Hdst. unfold NetworkInterface_recv_frame. cbn [ef_header eh_dst eh_type ef_payload BufferList_to_Buffer].
  assert (negb (bool_decide (dst = ni_ethernet_address n)) && negb (bool_decide (dst = ETHERNET_BROADCAST)) = false) as ->.
  { destruct Hdst as [H|H]; rewrite (bool_decide_eq_true_2 _ H); [done|apply andb_false_r]. }
  rewrite Z.eqb_refl. cbn [mbind result_bind].
  destruct (other_version_parse IPv4Datagram_default buf h payload Hh Hwf Hstr) as (b & -> & _). by exists b.
Qed.

(** A datagram of another version whose next hop is known cannot be sent. *)
Lemma route_one_throws r d e out hop hw :
  ih_ver (id_header d) <> 4 -> 1 < ih_ttl (id_header d) ->
  Trie_longest_prefix_match (ro_route_table r) (ih_dst (id_header d)) = Some e ->
  ro_interfaces r !! Z.to_nat (en_interface_num e) = Some out ->
  Address_ipv4_numeric (entry_hop e d) = Ok hop -> arp_valid (an_interface out) hop = Some hw ->
  Router_route_one_datagram r d = Throw runtime_error.
Proof.
  intros Hv Ht He Ho Hh Ha. unfold Router_route_one_datagram. rewrite (proj2 (Z.leb_gt _ _) Ht).
  cbn [id_header ih_dst IPv4Header_set_ttl]. rewrite He.
  assert (Router_send r (en_interface_num e) (passed d) (entry_hop e d) = Throw runtime_error) as Hs.
  { unfold Router_send. rewrite Ho. unfold AsyncNetworkInterface_send_datagram, NetworkInterface_send_datagram.
    rewrite Hh. cbn [mbind result_bind]. rewrite Ha. by rewrite other_version_serialize. }
  unfold entry_hop in Hs. by destruct (en_next_hop e).
Qed.

(** C39.  A packet from the wire can stop the router.  Whatever well-formed datagrams
    are in the queues: when a frame for an interface brings a packet of another
    version than 4, with a length field that fits, a time to live above 1 and a
    route whose next hop is in the table of the interface it leads to, then the
    packet is queued, although [IPv4Header::parse] checks the version, because
    [IPv4Datagram::parse] drops its result; and [route] throws [runtime_error] when it
    comes to serialise it. *)
Theorem wrong_version_stops_router es r i a h payload buf dst src e out hop hw :
  forwarding_ok es r -> (forall k, Forall IPv4Datagram_ok (Router_queue r k)) ->
  other_version h payload -> Buffer_wf buf -> Buffer_str buf = fixed_bytes h ++ payload ->
  ro_interfaces r !! i = Some a -> dst = ni_ethernet_address (an_interface a) \/ dst = ETHERNET_BROADCAST ->
  1 < ih_ttl h -> best_route es (ih_dst h) = Some e ->
  ro_interfaces r !! Z.to_nat (en_interface_num e) = Some out ->
  Address_ipv4_numeric (default (Address_from_ipv4_numeric (ih_dst h)) (en_next_hop e)) = Ok hop ->
  arp_valid (an_interface out) hop = Some hw ->
  exists a' b,
    AsyncNetworkInterface_recv_frame a (MkEthernetFrame (MkEthernetHeader dst src TYPE_IPv4) [buf]) = Ok a' /\
    an_datagrams_out a' = an_datagrams_out a ++ [MkIPv4Datagram h [b]] /\
    Router_route (with_interface r i a') = Throw runtime_error.
Proof.
  intros Hf Hok Hh Hwf Hstr Ha Hdst Httl He Ho Hhop Harp.
  destruct (recv_other_version (an_interface a) dst src buf h payload Hh Hwf Hstr Hdst) as (b & Er).
  unfold AsyncNetworkInterface_recv_frame. rewrite Er. cbn [mbind result_bind]. set (d := MkIPv4Datagram h [b]).
  set (a' := MkAsyncNetworkInterface (an_interface a) _). exists a', b. split; [done|]. split; [done|].
  assert (forwarding_ok es (with_interface r i a')) as Hf' by (by eapply with_interface_ok). clear Hf.
  pose proof (lookup_lt_Some _ _ _ Ha) as Hi. set (r0 := with_interface r i a') in *.
  assert (forall j, Router_queue r0 j = if decide (i = j) then Router_queue r i ++ [d] else Router_queue r j) as Hq0.
  { intros j. unfold r0. rewrite with_interface_queue by done. unfold Router_queue. by rewrite Ha. }
  assert (exists out0, ro_interfaces r0 !! Z.to_nat (en_interface_num e) = Some out0 /\
    arp_valid (an_interface out0) hop = Some hw) as (out0 & Ho0 & Harp0).
  { unfold r0, with_interface. cbn [ro_interfaces]. destruct (decide (i = Z.to_nat (en_interface_num e))) as [Hie|Hne].
    - rewrite <- Hie in *. exists a'. rewrite list_lookup_insert_eq by done. split; [done|]. assert (out = a) as -> by congruence. exact Harp.
    - exists out. by rewrite list_lookup_insert_ne. }
  pose proof (forwarding_router es r0 Hf') as Hr0.
  unfold Router_route. assert (length (ro_interfaces r0) = (i + S (length (ro_interfaces r) - S i))%nat) as ->
    by (unfold r0; cbn [with_interface ro_interfaces]; rewrite length_insert; lia).
  rewrite seq_app. cbn [seq Nat.add].
  destruct (route_from_ok (seq 0 i) (i :: seq (S i) (length (ro_interfaces r) - S i)) r0 Hr0) as (r1 & -> & R1 & Hr1 & Hq1).
  { apply NoDup_seq. }
  { intros k Hk%elem_of_seq. rewrite Hq0, decide_False by lia. apply Hok. }
  assert (Router_queue r1 i = Router_queue r i ++ [d]) as Hqi.
  { rewrite Hq1, decide_False by (rewrite elem_of_seq; lia). by rewrite Hq0, decide_True. }
  cbn [route_from]. rewrite Hqi, length_app. cbn [length].
  destruct (route_queue_ok (Router_queue r i) [d] r1 i Hr1 (Hok i) Hqi) as (r2 & -> & R2 & _ & Hq2).
  destruct (routed_app _ _ _ _ _ R1 R2) as [T2 _ S2]. destruct (S2 _ _ Ho0) as (out2 & Ho2 & Hsend).
  cbn [route_queue]. rewrite Hq2, decide_True by done.
  rewrite (route_one_throws r2 d e out2 hop hw); [done|apply Hh|done| |done|done|].
  - rewrite T2, (match_best_route es); [done|apply Hf'|apply Hf'|apply Hh].
  - by rewrite (send_all_keeps_arp _ _ _ hop Hsend).
Qed.

(** ** Examples *)

(** Two interfaces; everything goes out on the second one, to host 9. *)
Definition sample_router (first second : AsyncNetworkInterface) : result Router :=
  let '(_, r) := Router_add_interface Router_new first in
  let '(_, r) := Router_add_interface r second in
  @Router_add_route dotted_name_service r 0 0 (Some (host_ip 9)) 1.

Definition sample_async (k : Z) (q : list IPv4Datagram) : AsyncNetworkInterface :=
  MkAsyncNetworkInterface (NetworkInterface_new (host_eth k) (host_ip k)) q.

Lemma sample_async_ok k q : 0 <= k < 256 -> async_ok (sample_async k q).
Proof.
  intros Hk. eexists _, _, _. apply NetworkInterface_new_inv; [by apply host_eth_ok|by apply host_ip_ok].
Qed.

Lemma sample_forwarding first second r : async_ok first -> async_ok second -> sample_router first second = Ok r ->
  forwarding_ok [MkEntry 0 0 (Some (host_ip 9)) 1] r.
Proof.
  intros H1 H2 E. vm_compute in E. injection E as <-. split; [reflexivity| | | |].
  - by repeat constructor.
  - by repeat constructor.
  - constructor; [|constructor]. exists (10 * 2 ^ 24 + 9). apply (host_ip_ok 9). lia.
  - constructor; [exact H1|]. constructor; [exact H2|constructor].
Qed.

Lemma route_forwards_all_witness :
  exists r r' n', sample_router (sample_async 1 [sample_datagram]) (sample_async 2 []) = Ok r /\ Router_route r = Ok r' /\
    ro_interfaces r' !! 1%nat = Some (MkAsyncNetworkInterface n' []) /\
    send_all [(passed sample_datagram, host_ip 9)] (NetworkInterface_new (host_eth 2) (host_ip 2)) = Ok n'.
Proof.
  destruct (sample_router (sample_async 1 [sample_datagram]) (sample_async 2 [])) as [r|] eqn:E; [|vm_compute in E; discriminate E].
  destruct (route_forwards_all [MkEntry 0 0 (Some (host_ip 9)) 1] r) as (r' & Er & _ & _ & H).
  - apply (sample_forwarding (sample_async 1 [sample_datagram]) (sample_async 2 [])); [apply sample_async_ok; lia..|exact E].
  - intros i. vm_compute in E. injection E as <-. destruct i as [|[|i]]; [|constructor..].
    constructor; [apply sample_datagram_ok|constructor].
  - pose proof E as Ec. vm_compute in Ec. injection Ec as Ec.
    destruct (H 1%nat (sample_async 2 [])) as (n' & H1 & H2 & _); [rewrite <- Ec; reflexivity|].
    exists r, r', n'. split; [reflexivity|]. split; [exact Er|]. split; [exact H1|].
    rewrite <- H2, <- Ec. reflexivity.
Defined.

(** A header of version 6 for a packet without payload. *)
Definition version6_header : IPv4Header := MkIPv4Header 6 5 0 20 0 true false 0 64 6 0 (quad 10 0 0 5) (quad 192 168 0 1).

(** The second interface knows host 9. *)
Definition sample_known : AsyncNetworkInterface :=
  AsyncNetworkInterface_new (learned (NetworkInterface_new (host_eth 2) (host_ip 2)) (10 * 2 ^ 24 + 9) (host_eth 9)).

Lemma sample_known_ok : async_ok sample_known.
Proof. eexists _, _, _. apply learn_inv. apply (NetworkInterface_new_inv _ _ (10 * 2 ^ 24 + 2)); [by apply host_eth_ok|by apply host_ip_ok]. Qed.

Lemma wrong_version_stops_router_witness :
  exists r a', sample_router (sample_async 1 [sample_datagram]) sample_known = Ok r /\
    AsyncNetworkInterface_recv_frame (sample_async 1 [sample_datagram])
      (MkEthernetFrame (MkEthernetHeader (host_eth 1) (host_eth 5) TYPE_IPv4) [Buffer_of_string (fixed_bytes version6_header)]) = Ok a' /\
    length (an_datagrams_out a') = 2%nat /\ Router_route (with_interface r 0 a') = Throw runtime_error.
Proof.
  destruct (sample_router (sample_async 1 [sample_datagram]) sample_known) as [r|] eqn:E; [|vm_compute in E; discriminate E].
  pose proof E as Ec. vm_compute in Ec. injection Ec as Ec.
  destruct (wrong_version_stops_router [MkEntry 0 0 (Some (host_ip 9)) 1] r 0 (sample_async 1 [sample_datagram]) version6_header []
    (Buffer_of_string (fixed_bytes version6_header)) (host_eth 1) (host_eth 5) (MkEntry 0 0 (Some (host_ip 9)) 1) sample_known
    (10 * 2 ^ 24 + 9) (host_eth 9)) as (a' & b & E1 & E2 & E3).
  - apply (sample_forwarding (sample_async 1 [sample_datagram]) sample_known); [apply sample_async_ok; lia|apply sample_known_ok|exact E].
  - intros i. rewrite <- Ec. destruct i as [|[|i]]; [|constructor..]. constructor; [apply sample_datagram_ok|constructor].
  - split; vm_compute; try split; congruence.
  - apply Buffer_of_string_wf. reflexivity.
  - reflexivity.
  - rewrite <- Ec. reflexivity.
  - left. reflexivity.
  - reflexivity.
  - reflexivity.
  - rewrite <- Ec. vm_compute. reflexivity.
  - reflexivity.
  - reflexivity.
  - exists r, a'. split; [reflexivity|]. split; [exact E1|]. split; [rewrite E2; reflexivity|exact E3].
Defined.
