(* ===== verification/Adapters.v ===== *)
(** Adapters between TCP segments and datagrams: [FdAdapterConfig]
    (src/libsponge/tcp_helpers/tcp_config.hh), [FdAdapterBase] and
    [TCPOverUDPSocketAdapter] (fd_adapter.hh and .cc), [LossyFdAdapter]
    (lossy_fd_adapter.hh), [TCPOverIPv4Adapter] (tcp_over_ip.hh and .cc),
    [TCPOverIPv4OverTunFdAdapter] and [TCPOverIPv4OverEthernetAdapter]
    (tuntap_adapter.hh and .cc).

    What a device delivers is an argument of [read], what is written to it a
    result of [write].  The class [FdAdapter] is what the template
    [LossyFdAdapter<AdapterT>] asks of its argument.

    Theorems: a segment written to the TUN device by one endpoint is read by the
    other one, and a listening adapter takes its peer from the SYN; a lossy
    adapter only loses segments. *)

From S2P Require Import Prelude WrappingIntegers Buffers Parsers TCPSegments IPv4Datagrams EthernetFrames Addresses.
From S2P Require Import NetworkInterfaces.

(** ** FdAdapterBase *)

Record FdAdapterConfig : Type := MkFdAdapterConfig {
  fc_source : Address;
  fc_destination : Address;
  fc_loss_rate_dn : Z;
  fc_loss_rate_up : Z
}.

Record FdAdapterBase : Type := MkFdAdapterBase {
  fb_cfg : FdAdapterConfig;
  fb_listen : bool
}.

Definition FdAdapterConfig_set_source (c : FdAdapterConfig) (a : Address) : FdAdapterConfig :=
  MkFdAdapterConfig a (fc_destination c) (fc_loss_rate_dn c) (fc_loss_rate_up c).

Definition FdAdapterConfig_set_destination (c : FdAdapterConfig) (a : Address) : FdAdapterConfig :=
  MkFdAdapterConfig (fc_source c) a (fc_loss_rate_dn c) (fc_loss_rate_up c).

Definition FdAdapterBase_set_listening (b : FdAdapterBase) (l : bool) : FdAdapterBase :=
  MkFdAdapterBase (fb_cfg b) l.

Section adapters.
Context `{NameService}.

(** ** TCPOverIPv4Adapter *)

Definition TCPOverIPv4Adapter_unwrap_tcp_in_ip (b : FdAdapterBase) (ip_dgram : IPv4Datagram) :
    result (option TCPSegment * FdAdapterBase) :=
  let h := id_header ip_dgram in
  let listening := fb_listen b in
  not_for_us ← (if negb listening
                then ip ← Address_ipv4_numeric (fc_source (fb_cfg b)); Ok (negb (ih_dst h =? ip)) else Ok false);
  if (not_for_us : bool) then Ok (None, b) else
  not_from_peer ← (if negb listening
                   then ip ← Address_ipv4_numeric (fc_destination (fb_cfg b)); Ok (negb (ih_src h =? ip)) else Ok false);
  if (not_from_peer : bool) then Ok (None, b) else
  if negb (ih_proto h =? PROTO_TCP) then Ok (None, b) else
  payload ← BufferList_to_Buffer (id_payload ip_dgram);
  '(res, tcp_seg) ← TCPSegment_parse TCPSegment_default payload (IPv4Header_pseudo_cksum h);
  if negb (is_NoError res) then Ok (None, b) else
  sport ← Address_port (fc_source (fb_cfg b));
  if negb (th_dport (ts_header tcp_seg) =? sport) then Ok (None, b) else
  let finish b :=
    dport ← Address_port (fc_destination (fb_cfg b));
    if negb (th_sport (ts_header tcp_seg) =? dport) then Ok (None, b) else Ok (Some tcp_seg, b) in
  if listening then
    if th_syn (ts_header tcp_seg) && negb (th_rst (ts_header tcp_seg)) then
      port ← Address_port (fc_source (fb_cfg b));
      source ← Address_of_ip (inet_ntoa (ih_dst h)) port;
      let b := MkFdAdapterBase (FdAdapterConfig_set_source (fb_cfg b) source) (fb_listen b) in
      destination ← Address_of_ip (inet_ntoa (ih_src h)) (th_sport (ts_header tcp_seg));
      let b := MkFdAdapterBase (FdAdapterConfig_set_destination (fb_cfg b) destination) (fb_listen b) in
      finish (FdAdapterBase_set_listening b false)
    else Ok (None, b)
  else finish b.

(** The segment is the caller's and keeps the ports set here. *)
Definition TCPOverIPv4Adapter_wrap_tcp_in_ip (b : FdAdapterBase) (seg : TCPSegment) :
    result (IPv4Datagram * TCPSegment) :=
  sport ← Address_port (fc_source (fb_cfg b));
  dport ← Address_port (fc_destination (fb_cfg b));
  let seg := MkTCPSegment (TCPHeader_set_ports (ts_header seg) sport dport) (ts_payload seg) in
  src ← Address_ipv4_numeric (fc_source (fb_cfg b));
  dst ← Address_ipv4_numeric (fc_destination (fb_cfg b));
  let len := u16 (ih_hlen IPv4Header_default * 4 + th_doff (ts_header seg) * 4 + Buffer_size (ts_payload seg)) in
  let header := IPv4Header_set_route IPv4Header_default src dst len in
  payload ← TCPSegment_serialize seg (IPv4Header_pseudo_cksum header);
  Ok (MkIPv4Datagram header payload, seg).

(** ** TCPOverIPv4OverTunFdAdapter *)

(** [_tun.read()] returned [packet]. *)
Definition TunAdapter_read (b : FdAdapterBase) (packet : bytes) : result (option TCPSegment * FdAdapterBase) :=
  '(res, ip_dgram) ← IPv4Datagram_parse IPv4Datagram_default (Buffer_of_string packet);
  if negb (is_NoError res) then Ok (None, b)
  else TCPOverIPv4Adapter_unwrap_tcp_in_ip b ip_dgram.

(** The packets for [_tun.write()]. *)
Definition TunAdapter_write (b : FdAdapterBase) (seg : TCPSegment) : result (list BufferList * FdAdapterBase) :=
  '(ip_dgram, _) ← TCPOverIPv4Adapter_wrap_tcp_in_ip b seg;
  l ← IPv4Datagram_serialize ip_dgram;
  Ok ([l], b).

(** ** TCPOverIPv4OverEthernetAdapter *)

Record EthernetAdapter : Type := MkEthernetAdapter {
  ea_base : FdAdapterBase;
  ea_interface : NetworkInterface;
  ea_next_hop : Address
}.

(** The constructor, and the dummy frame it writes to the device. *)
Definition EthernetAdapter_new (b : FdAdapterBase) (eth_address : EthernetAddress) (ip_address next_hop : Address) :
    result (list BufferList * EthernetAdapter) :=
  interface ← NetworkInterface_construct eth_address ip_address;
  Ok ([EthernetFrame_serialize EthernetFrame_default], MkEthernetAdapter b interface next_hop).

(** [send_pending()]: all frames go to the device, in order. *)
Definition EthernetAdapter_send_pending (a : EthernetAdapter) : list BufferList * EthernetAdapter :=
  (map EthernetFrame_serialize (ni_frames_out (ea_interface a)),
   MkEthernetAdapter (ea_base a) (NetworkInterface_set_frames (ea_interface a) []) (ea_next_hop a)).

(** [_tap.read()] returned [packet]. *)
Definition EthernetAdapter_read (a : EthernetAdapter) (packet : bytes) :
    result (list BufferList * option TCPSegment * EthernetAdapter) :=
  '(res, frame) ← EthernetFrame_parse EthernetFrame_default (Buffer_of_string packet);
  if negb (is_NoError res) then Ok ([], None, a)
  else
    '(ip_dgram, n) ← NetworkInterface_recv_frame (ea_interface a) frame;
    let '(out, a) := EthernetAdapter_send_pending (MkEthernetAdapter (ea_base a) n (ea_next_hop a)) in
    match ip_dgram with
    | Some d =>
        '(seg, b) ← TCPOverIPv4Adapter_unwrap_tcp_in_ip (ea_base a) d;
        Ok (out, seg, MkEthernetAdapter b (ea_interface a) (ea_next_hop a))
    | None => Ok (out, None, a)
    end.

Definition EthernetAdapter_tick (a : EthernetAdapter) (ms_since_last_tick : Z) : list BufferList * EthernetAdapter :=
  EthernetAdapter_send_pending
    (MkEthernetAdapter (ea_base a) (NetworkInterface_tick (ea_interface a) ms_since_last_tick) (ea_next_hop a)).

Definition EthernetAdapter_write (a : EthernetAdapter) (seg : TCPSegment) : result (list BufferList * EthernetAdapter) :=
  '(ip_dgram, _) ← TCPOverIPv4Adapter_wrap_tcp_in_ip (ea_base a) seg;
  n ← NetworkInterface_send_datagram (ea_interface a) ip_dgram (ea_next_hop a);
  Ok (EthernetAdapter_send_pending (MkEthernetAdapter (ea_base a) n (ea_next_hop a))).

(** ** TCPOverUDPSocketAdapter *)

(** [_sock.recv()] returned [payload] from [source_address]. *)
Definition UDPAdapter_read (b : FdAdapterBase) (datagram : Address * bytes) : result (option TCPSegment * FdAdapterBase) :=
  let '(source_address, payload) := datagram in
  if negb (fb_listen b) && negb (Address_eqb source_address (fc_destination (fb_cfg b))) then Ok (None, b)
  else
    '(res, seg) ← TCPSegment_parse TCPSegment_default (Buffer_of_string payload) 0;
    if negb (is_NoError res) then Ok (None, b)
    else if fb_listen b then
      if th_syn (ts_header seg) && negb (th_rst (ts_header seg)) then
        let b := MkFdAdapterBase (FdAdapterConfig_set_destination (fb_cfg b) source_address) (fb_listen b) in
        Ok (Some seg, FdAdapterBase_set_listening b false)
      else Ok (None, b)
    else Ok (Some seg, b).

(** The datagrams for [_sock.sendto()]. *)
Definition UDPAdapter_write (b : FdAdapterBase) (seg : TCPSegment) :
    result (list (Address * BufferList) * FdAdapterBase) :=
  sport ← Address_port (fc_source (fb_cfg b));
  dport ← Address_port (fc_destination (fb_cfg b));
  let seg := MkTCPSegment (TCPHeader_set_ports (ts_header seg) sport dport) (ts_payload seg) in
  l ← TCPSegment_serialize seg 0;
  Ok ([(fc_destination (fb_cfg b), l)], b).

End adapters.

(** ** LossyFdAdapter *)

(** What the template asks of [AdapterT]: its configuration, [read] and [write]. *)
Class FdAdapter (A I O : Type) : Type := {
  fa_config : A -> FdAdapterConfig;
  fa_read : A -> I -> result (option TCPSegment * A);
  fa_write : A -> TCPSegment -> result (list O * A)
}.

#[export] Instance TunAdapter_fd `{NameService} : FdAdapter FdAdapterBase bytes BufferList := {|
  fa_config := fb_cfg;
  fa_read := TunAdapter_read;
  fa_write := TunAdapter_write
|}.

#[export] Instance UDPAdapter_fd `{NameService} : FdAdapter FdAdapterBase (Address * bytes) (Address * BufferList) := {|
  fa_config := fb_cfg;
  fa_read := UDPAdapter_read;
  fa_write := UDPAdapter_write
|}.

(** The generator is the sequence of numbers it still has to give out. *)
Record LossyFdAdapter (A : Type) : Type := MkLossyFdAdapter {
  la_rand : nat -> Z;
  la_adapter : A
}.

Arguments MkLossyFdAdapter {A}.
Arguments la_rand {A}.
Arguments la_adapter {A}.

Definition LossyFdAdapter_should_drop {A} (config : A -> FdAdapterConfig) (l : LossyFdAdapter A) (uplink : bool) :
    bool * LossyFdAdapter A :=
  let cfg := config (la_adapter l) in
  let loss := if uplink then fc_loss_rate_up cfg else fc_loss_rate_dn cfg in
  if loss =? 0 then (false, l)
  else (u16 (la_rand l 0%nat) <? loss, MkLossyFdAdapter (fun k => la_rand l (S k)) (la_adapter l)).

Section lossy.
Context {A I O : Type} `{FdAdapter A I O}.

Definition LossyFdAdapter_read (l : LossyFdAdapter A) (input : I) : result (option TCPSegment * LossyFdAdapter A) :=
  '(ret, a) ← fa_read (la_adapter l) input;
  let '(drop, l) := LossyFdAdapter_should_drop fa_config (MkLossyFdAdapter (la_rand l) a) false in
  if drop then Ok (None, l) else Ok (ret, l).

Definition LossyFdAdapter_write (l : LossyFdAdapter A) (seg : TCPSegment) : result (list O * LossyFdAdapter A) :=
  let '(drop, l) := LossyFdAdapter_should_drop fa_config l true in
  if drop then Ok ([], l)
  else
    '(out, a) ← fa_write (la_adapter l) seg;
    Ok (out, MkLossyFdAdapter (la_rand l) a).

End lossy.

(** ** Over IPv4 *)

Section over_ip.
Context `{NameServiceLaws}.

(** Both ends of a connection, as the configuration has them. *)
Record endpoints_ok (sip sport dip dport : Z) : Prop := {
  ep_sip : 0 <= sip < 2 ^ 32;
  ep_sport : 0 <= sport < 2 ^ 16;
  ep_dip : 0 <= dip < 2 ^ 32;
  ep_dport : 0 <= dport < 2 ^ 16
}.

(** A segment that fits a datagram. *)
Record segment_ok (seg : TCPSegment) : Prop := {
  sgo_header : TCPHeader_ok (ts_header seg);
  sgo_wf : Buffer_wf (ts_payload seg);
  sgo_bytes : Forall byte_ok (Buffer_str (ts_payload seg));
  sgo_size : 20 + 4 * th_doff (ts_header seg) + Buffer_size (ts_payload seg) <= 65535
}.

Definition with_ports (seg : TCPSegment) (sport dport : Z) : TCPSegment :=
  MkTCPSegment (TCPHeader_set_ports (ts_header seg) sport dport) (ts_payload seg).

Lemma with_ports_ok seg sport dport :
  segment_ok seg -> 0 <= sport < 2 ^ 16 -> 0 <= dport < 2 ^ 16 -> segment_ok (with_ports seg sport dport).
Proof. intros [[] H1 H2 H3] Hs Hd. by split; [split|..]. Qed.

Lemma pseudo_cksum_bound h :
  0 <= ih_src h < 2 ^ 32 -> 0 <= ih_dst h < 2 ^ 32 -> 0 <= ih_proto h < 2 ^ 8 ->
  0 <= IPv4Header_pseudo_cksum h <= 2 ^ 20.
Proof.
  intros Hs Hd Hp. unfold IPv4Header_pseudo_cksum. pose proof (u16_range (ih_len h - 4 * ih_hlen h)) as Hl.
  change (u16 (ih_len h - 4 * ih_hlen h)) with (IPv4Header_payload_length h) in Hl.
  rewrite !land_65535, !Z.shiftr_div_pow2 by lia. change (2 ^ 16) with 65536 in *. wrap_lia.
Qed.

(** What [wrap_tcp_in_ip] makes of a segment. *)
Definition ip_header_for (seg : TCPSegment) (sip dip : Z) : IPv4Header :=
  IPv4Header_set_route IPv4Header_default sip dip (20 + 4 * th_doff (ts_header seg) + Buffer_size (ts_payload seg)).

Lemma wrap_tcp_in_ip_ok b seg sip sport dip dport :
  endpoints_ok sip sport dip dport -> fc_source (fb_cfg b) = Address_v4 sip sport ->
  fc_destination (fb_cfg b) = Address_v4 dip dport -> segment_ok seg ->
  let seg' := with_ports seg sport dport in
  let header := ip_header_for seg sip dip in
  let d := MkIPv4Datagram header
             [Buffer_of_string (sealed_header seg' (IPv4Header_pseudo_cksum header)); ts_payload seg] in
  TCPOverIPv4Adapter_wrap_tcp_in_ip b seg = Ok (d, seg') /\ IPv4Datagram_ok d /\
  flatten (id_payload d) = sealed_header seg' (IPv4Header_pseudo_cksum header) ++ Buffer_str (ts_payload seg).
Proof.
  intros [Hsip Hsp Hdip Hdp] Hs Hd Hseg seg' header d. pose proof (with_ports_ok seg sport dport Hseg Hsp Hdp) as Hseg'.
  pose proof (tho_doff _ (sgo_header _ Hseg)) as Hdoff. pose proof (sgo_size _ Hseg) as Hsz.
  pose proof (Buffer_size_bound _ (sgo_wf _ Hseg)) as Hb.
  pose proof (sealed_header_len seg' (IPv4Header_pseudo_cksum header) ltac:(apply Hdoff)) as Hlen.
  change (th_doff (ts_header seg')) with (th_doff (ts_header seg)) in Hlen.
  assert (flatten (id_payload d) = sealed_header seg' (IPv4Header_pseudo_cksum header) ++ Buffer_str (ts_payload seg)) as Hfl.
  { cbn [d id_payload]. rewrite flatten_cons, Buffer_of_string_str, flatten_cons by lia. f_equal. apply app_nil_r. }
  split_and!; [| |exact Hfl].
  - unfold TCPOverIPv4Adapter_wrap_tcp_in_ip. rewrite Hs, Hd, !Address_port_v4, !Address_v4_numeric by done.
    cbn [mbind result_bind]. fold (with_ports seg sport dport). fold seg'.
    change (ih_hlen IPv4Header_default * 4) with 20. rewrite u16_small by (cbn; lia).
    change (th_doff (ts_header seg')) with (th_doff (ts_header seg)).
    change (ts_payload seg') with (ts_payload seg). rewrite (Z.mul_comm _ 4).
    fold (ip_header_for seg sip dip). fold header.
    rewrite TCPSegment_serialize_eq by exact Hdoff. reflexivity.
  - assert (ih_len header = 20 + 4 * th_doff (ts_header seg) + Buffer_size (ts_payload seg)) as Hl by reflexivity.
    split.
    + split; try done; change (ih_hlen (id_header d)) with 5; change (ih_len (id_header d)) with (ih_len header); lia.
    + rewrite Hfl, zlen_app, Hlen. change (ih_hlen (id_header d)) with 5.
      change (ih_len (id_header d)) with (ih_len header). rewrite Hl. unfold Buffer_size. lia.
Qed.

(** The adapter [b] takes segments from [sip]:[sport] to [dip]:[dport] and is
    [b'] afterwards: it is connected to that peer, or it listens on that port and
    the segment opens the connection. *)
Inductive takes (sip sport dip dport : Z) (seg : TCPSegment) (b : FdAdapterBase) : FdAdapterBase -> Prop :=
  | takes_connected : fb_listen b = false -> fc_source (fb_cfg b) = Address_v4 dip dport ->
      fc_destination (fb_cfg b) = Address_v4 sip sport -> takes sip sport dip dport seg b b
  | takes_listening any : fb_listen b = true -> 0 <= any < 2 ^ 32 -> fc_source (fb_cfg b) = Address_v4 any dport ->
      th_syn (ts_header seg) = true -> th_rst (ts_header seg) = false ->
      takes sip sport dip dport seg b
        (MkFdAdapterBase (MkFdAdapterConfig (Address_v4 dip dport) (Address_v4 sip sport)
           (fc_loss_rate_dn (fb_cfg b)) (fc_loss_rate_up (fb_cfg b))) false).

Lemma unwrap_tcp_in_ip_ok b b' seg seg2 sip sport dip dport h buf :
  endpoints_ok sip sport dip dport -> takes sip sport dip dport seg b b' ->
  ih_src h = sip -> ih_dst h = dip -> ih_proto h = PROTO_TCP ->
  TCPSegment_parse TCPSegment_default buf (IPv4Header_pseudo_cksum h) = Ok (NoError, seg2) ->
  th_sport (ts_header seg2) = sport -> th_dport (ts_header seg2) = dport ->
  th_syn (ts_header seg2) = th_syn (ts_header seg) -> th_rst (ts_header seg2) = th_rst (ts_header seg) ->
  TCPOverIPv4Adapter_unwrap_tcp_in_ip b (MkIPv4Datagram h [buf]) = Ok (Some seg2, b').
Proof.
  intros [Hsip Hsp Hdip Hdp] Ht Hs Hd Hp Hparse Esp Edp Esyn Erst. unfold TCPOverIPv4Adapter_unwrap_tcp_in_ip.
  cbn [id_header id_payload BufferList_to_Buffer mbind result_bind].
  destruct Ht as [Hl Hsrc Hdst|any Hl Hany Hsrc Hsyn Hrst]; rewrite Hl; cbn [negb]; cbn [mbind result_bind].
  - rewrite Hsrc, Hdst, !Address_v4_numeric by done. cbn [mbind result_bind]. rewrite Hs, Hd, Hp, !Z.eqb_refl. cbn [negb].
    rewrite Hparse. cbn [mbind result_bind]. change (is_NoError NoError) with true. cbn [negb].
    rewrite !Address_port_v4 by done. cbn [mbind result_bind]. by rewrite Edp, Esp, !Z.eqb_refl.
  - rewrite Hp, Z.eqb_refl. cbn [negb]. rewrite Hparse. cbn [mbind result_bind].
    change (is_NoError NoError) with true. cbn [negb]. rewrite Hsrc, Address_port_v4 by done. cbn [mbind result_bind].
    rewrite Edp, Z.eqb_refl. cbn [negb]. rewrite Esyn, Erst, Hsyn, Hrst. cbn [negb andb].
    rewrite Hs, Hd, Esp, !Address_of_ntoa by done. cbn [mbind result_bind].
    cbn [FdAdapterBase_set_listening fb_cfg FdAdapterConfig_set_destination FdAdapterConfig_set_source fc_destination].
    rewrite Address_port_v4 by done. cbn [mbind result_bind]. by rewrite Z.eqb_refl.
Qed.

(** The packet that an adapter writes for a segment, taken apart again. *)
Lemma tun_written b1 seg sip sport dip dport :
  endpoints_ok sip sport dip dport -> fc_source (fb_cfg b1) = Address_v4 sip sport ->
  fc_destination (fb_cfg b1) = Address_v4 dip dport -> segment_ok seg ->
  exists l h buf seg2 ck, TunAdapter_write b1 seg = Ok ([l], b1) /\
    IPv4Datagram_parse IPv4Datagram_default (Buffer_of_string (BufferList_concatenate l)) = Ok (NoError, MkIPv4Datagram h [buf]) /\
    ih_src h = sip /\ ih_dst h = dip /\ ih_proto h = PROTO_TCP /\
    TCPSegment_parse TCPSegment_default buf (IPv4Header_pseudo_cksum h) = Ok (NoError, seg2) /\
    ts_header seg2 = TCPHeader_set_cksum (TCPHeader_set_ports (ts_header seg) sport dport) ck /\
    Buffer_str (ts_payload seg2) = Buffer_str (ts_payload seg).
Proof.
  intros He Hs1 Hd1 Hseg. destruct (wrap_tcp_in_ip_ok b1 seg sip sport dip dport He Hs1 Hd1 Hseg) as (Ew & Hd & Hfl).
  set (seg' := with_ports seg sport dport) in *. set (header := ip_header_for seg sip dip) in *.
  set (d := MkIPv4Datagram header _) in *. pose proof (with_ports_ok seg _ _ Hseg (ep_sport _ _ _ _ He) (ep_dport _ _ _ _ He)) as Hseg'.
  fold seg' in Hseg'.
  destruct (IPv4Datagram_wire_roundtrip d Hd) as (l & El & Hp).
  cbn [wire_serialize wire_parse wire_same IPv4Datagram_wire] in *.
  pose proof (IPv4Datagram_serialize_len d l Hd El) as Hl.
  destruct (Hp IPv4Datagram_default (Buffer_of_string (flatten l))) as ([h' pl] & E & Hh & Hpl & buf & Hbuf & Hwf);
    [apply Buffer_of_string_wf; lia|apply Buffer_of_string_str; lia|]. cbn [id_header id_payload] in *. subst h' pl.
  assert (Buffer_str buf = flatten (id_payload d)) as Hbs by (rewrite <- Hpl, flatten_cons; symmetry; apply app_nil_r).
  assert (0 <= IPv4Header_pseudo_cksum header <= 2 ^ 20) as Hpc by (apply pseudo_cksum_bound; [apply He|apply He|done]).
  destruct (TCPSegment_parse_sealed seg' TCPSegment_default (IPv4Header_pseudo_cksum header) buf) as (seg2 & E2 & Hh2 & _ & Hp2).
  - apply Hseg'.
  - done.
  - by rewrite Hbs, Hfl.
  - apply Hseg'.
  - pose proof (sgo_size _ Hseg'). lia.
  - done.
  - eexists l, _, buf, seg2, _. unfold TunAdapter_write. rewrite Ew. cbn [mbind result_bind]. rewrite El. cbn [mbind result_bind].
    split; [reflexivity|]. rewrite BufferList_concatenate_flatten. split_and!; [exact E|done|done|done|exact E2|exact Hh2|exact Hp2].
Qed.

(** C12.  What one end writes the other end reads: a segment written by an adapter
    to its TUN device, arriving as the bytes of one packet at an adapter that is
    connected to the sender, or that listens and sees a SYN, is handed up with
    the same header, but for the ports and the checksum, and the same payload;
    the listening adapter is then connected to the sender. *)
Theorem tun_adapters_deliver b1 b2 b2' seg sip sport dip dport :
  endpoints_ok sip sport dip dport -> fc_source (fb_cfg b1) = Address_v4 sip sport ->
  fc_destination (fb_cfg b1) = Address_v4 dip dport -> segment_ok seg -> takes sip sport dip dport seg b2 b2' ->
  exists l seg2 ck, TunAdapter_write b1 seg = Ok ([l], b1) /\
    TunAdapter_read b2 (BufferList_concatenate l) = Ok (Some seg2, b2') /\
    ts_header seg2 = TCPHeader_set_cksum (TCPHeader_set_ports (ts_header seg) sport dport) ck /\
    Buffer_str (ts_payload seg2) = Buffer_str (ts_payload seg).
Proof.
  intros He Hs1 Hd1 Hseg Ht. destruct (tun_written b1 seg sip sport dip dport He Hs1 Hd1 Hseg)
    as (l & h & buf & seg2 & ck & Ew & Ep & Es & Ed & Epr & E2 & Hh2 & Hp2).
  exists l, seg2, ck. split; [exact Ew|]. split; [|done]. unfold TunAdapter_read. rewrite Ep. cbn [mbind result_bind].
  change (is_NoError NoError) with true. cbn [negb].
  apply (unwrap_tcp_in_ip_ok b2 b2' seg seg2 sip sport dip dport); try done; rewrite Hh2; reflexivity.
Qed.

End over_ip.

(** A SYN from 10.0.0.1:4000 to an adapter that listens on port 80. *)
Definition syn_segment : TCPSegment := MkTCPSegment (TCPHeader_set_syn TCPHeader_default true) (Buffer_of_string [104; 105]).

Definition sample_client : FdAdapterBase :=
  MkFdAdapterBase (MkFdAdapterConfig (Address_v4 (10 * 2 ^ 24 + 1) 4000) (Address_v4 (10 * 2 ^ 24 + 2) 80) 0 0) false.

Definition sample_server : FdAdapterBase :=
  MkFdAdapterBase (MkFdAdapterConfig (Address_v4 0 80) (Address_v4 0 0) 0 0) true.

Lemma tun_adapters_deliver_witness :
  exists l seg2 ck, @TunAdapter_write dotted_name_service sample_client syn_segment = Ok ([l], sample_client) /\
    @TunAdapter_read dotted_name_service sample_server (BufferList_concatenate l) =
      Ok (Some seg2, MkFdAdapterBase
        (MkFdAdapterConfig (Address_v4 (10 * 2 ^ 24 + 2) 80) (Address_v4 (10 * 2 ^ 24 + 1) 4000) 0 0) false) /\
    ts_header seg2 = TCPHeader_set_cksum (TCPHeader_set_ports (TCPHeader_set_syn TCPHeader_default true) 4000 80) ck /\
    Buffer_str (ts_payload seg2) = [104; 105].
Proof.
  apply (@tun_adapters_deliver dotted_name_service dotted_name_service_laws sample_client sample_server _ syn_segment
    (10 * 2 ^ 24 + 1) 4000 (10 * 2 ^ 24 + 2) 80).
  - split; lia.
  - reflexivity.
  - reflexivity.
  - split; [split; vm_compute; split; congruence|apply Buffer_of_string_wf; reflexivity|bytes_ok|vm_compute; congruence].
  - apply (takes_listening _ _ _ _ _ sample_server 0); [reflexivity|lia|reflexivity|reflexivity|reflexivity].
Defined.

(** ** Losses *)

Section losses.
Context {A I O : Type} `{FdAdapter A I O}.

(** What an adapter hands up when [inputs] arrive. *)
Fixpoint plain_reads (a : A) (inputs : list I) : result (list TCPSegment * A) :=
  match inputs with
  | [] => Ok ([], a)
  | i :: inputs =>
      '(seg, a) ← fa_read a i;
      '(segs, a) ← plain_reads a inputs;
      Ok (option_list seg ++ segs, a)
  end.

Fixpoint lossy_reads (l : LossyFdAdapter A) (inputs : list I) : result (list TCPSegment * LossyFdAdapter A) :=
  match inputs with
  | [] => Ok ([], l)
  | i :: inputs =>
      '(seg, l) ← LossyFdAdapter_read l i;
      '(segs, l) ← lossy_reads l inputs;
      Ok (option_list seg ++ segs, l)
  end.

Lemma should_drop_adapter {B} (config : B -> FdAdapterConfig) l uplink :
  la_adapter (LossyFdAdapter_should_drop config l uplink).2 = la_adapter l.
Proof. unfold LossyFdAdapter_should_drop. by destruct (_ =? 0). Qed.

Lemma lossy_read_cases l i :
  match fa_read (la_adapter l) i with
  | Ok (seg, a) => exists seg' l', LossyFdAdapter_read l i = Ok (seg', l') /\ la_adapter l' = a /\
      (seg' = seg \/ seg' = None) /\ (fc_loss_rate_dn (fa_config a) = 0 -> seg' = seg)
  | Throw e => LossyFdAdapter_read l i = Throw e
  end.
Proof.
  unfold LossyFdAdapter_read. destruct (fa_read (la_adapter l) i) as [[seg a]|e]; [|done]. cbn [mbind result_bind].
  pose proof (should_drop_adapter fa_config (MkLossyFdAdapter (la_rand l) a) false) as Ha.
  destruct (LossyFdAdapter_should_drop fa_config (MkLossyFdAdapter (la_rand l) a) false) as [drop l'] eqn:E. cbn [snd la_adapter] in Ha.
  destruct drop; eexists _, l'; (split; [reflexivity|]); (split; [done|]); split; auto.
  unfold LossyFdAdapter_should_drop in E. cbn [la_adapter] in E. intros H0. rewrite H0 in E. discriminate E.
Qed.

(** A lossy adapter only loses: whatever numbers its generator gives, what it
    hands up for a sequence of arrivals is what the underlying adapter would
    hand up with some segments missing, in the same order; the underlying
    adapter ends in the same state, and the same exceptions are thrown. *)
Theorem lossy_adapter_thins l inputs :
  match plain_reads (la_adapter l) inputs with
  | Ok (segs, a) => exists segs' l', lossy_reads l inputs = Ok (segs', l') /\ la_adapter l' = a /\ segs' `sublist_of` segs
  | Throw e => lossy_reads l inputs = Throw e
  end.
Proof.
  revert l. induction inputs as [|i inputs IH]; intros l; cbn [plain_reads lossy_reads]; [by eexists _, l|].
  pose proof (lossy_read_cases l i) as Hr. destruct (fa_read (la_adapter l) i) as [[seg a]|e]; cbn [mbind result_bind];
    [|by rewrite Hr].
  destruct Hr as (seg' & l' & -> & <- & Hseg & _). cbn [mbind result_bind]. specialize (IH l').
  destruct (plain_reads (la_adapter l') inputs) as [[segs a']|e]; cbn [mbind result_bind]; [|by rewrite IH].
  destruct IH as (segs' & l2 & -> & H2 & Hsub). cbn [mbind result_bind]. eexists _, l2. split; [reflexivity|].
  split; [done|]. destruct Hseg as [->| ->]; [by apply sublist_app|].
  cbn. etrans; [exact Hsub|]. by apply sublist_inserts_l.
Qed.

End losses.
