(* ===== verification/TCPReceivers.v ===== *)
(** The receiving half of TCP: [TCPReceiver] (src/libsponge/tcp_receiver.hh and
    .cc).

    A peer with initial sequence number [isn] sends the stream [S].  Whichever of
    its segments arrive, in whatever order, as long as they are within 2^31 of what
    was received, the reader gets a prefix of [S], the acknowledgment number is the
    first sequence number not received, and the right edge of the window advertised
    moves only with the reader.  A segment beyond the window throws. *)

From S2P Require Import Prelude WrappingIntegers Buffers ByteStreams StreamReassemblers Parsers TCPSegments.

Record TCPReceiver : Type := MkTCPReceiver {
  tr_reassembler : StreamReassembler;
  tr_capacity : Z;
  tr_sender_isn : option WrappingInt32
}.

Definition TCPReceiver_new (capacity : Z) : TCPReceiver :=
  MkTCPReceiver (StreamReassembler_new capacity) capacity None.

Definition TCPReceiver_stream_out (r : TCPReceiver) : ByteStream :=
  StreamReassembler_stream_out (tr_reassembler r).

Definition TCPReceiver_unassembled_bytes (r : TCPReceiver) : Z :=
  StreamReassembler_unassembled_bytes (tr_reassembler r).

Definition TCPReceiver_ackno (r : TCPReceiver) : option WrappingInt32 :=
  match tr_sender_isn r with
  | None => None
  | Some isn =>
      let stream_index := ByteStream_bytes_written (TCPReceiver_stream_out r) in
      let abs_seqno := u64 (stream_index + 1) in
      let abs_seqno :=
        if ByteStream_input_ended (TCPReceiver_stream_out r) then u64 (abs_seqno + 1) else abs_seqno in
      Some (wrap abs_seqno isn)
  end.

Definition TCPReceiver_window_size (r : TCPReceiver) : Z :=
  ByteStream_remaining_capacity (TCPReceiver_stream_out r).

Definition TCPReceiver_in_listen (r : TCPReceiver) : bool := negb (bool_decide (is_Some (TCPReceiver_ackno r))).
Definition TCPReceiver_in_syn_recv (r : TCPReceiver) : bool :=
  bool_decide (is_Some (TCPReceiver_ackno r)) && negb (ByteStream_input_ended (TCPReceiver_stream_out r)).
Definition TCPReceiver_in_fin_recv (r : TCPReceiver) : bool :=
  ByteStream_input_ended (TCPReceiver_stream_out r).

(** [_sender_isn.value()] throws when the SYN has not been seen. *)
Definition TCPReceiver_segment_received (r : TCPReceiver) (seg : TCPSegment) : result TCPReceiver :=
  let seqno := th_seqno (ts_header seg) in
  let syn := th_syn (ts_header seg) in
  let fin := th_fin (ts_header seg) in
  let payload := ts_payload seg in
  let r := if syn then MkTCPReceiver (tr_reassembler r) (tr_capacity r) (Some seqno) else r in
  if TCPReceiver_in_syn_recv r then
    match tr_sender_isn r with
    | None => Throw bad_optional_access
    | Some isn =>
        let abs_seqno := unwrap seqno isn (ByteStream_bytes_written (TCPReceiver_stream_out r)) in
        let push abs_seqno :=
          let stream_index := u64 (abs_seqno - 1) in
          reassembler ← StreamReassembler_push_substring (tr_reassembler r) (Buffer_copy payload) stream_index fin;
          Ok (MkTCPReceiver reassembler (tr_capacity r) (tr_sender_isn r)) in
        if abs_seqno =? 0
        then if negb syn then Ok r else push 1
        else push abs_seqno
    end
  else Ok r.

(** The owner of the receiver reads from [stream_out()]. *)
Definition TCPReceiver_with_output (r : TCPReceiver) (out : ByteStream) : TCPReceiver :=
  MkTCPReceiver (StreamReassembler_with_output (tr_reassembler r) out) (tr_capacity r) (tr_sender_isn r).

(** ** A peer and its segments *)

(** The absolute sequence number of a segment whose payload starts at [index]. *)
Definition seg_abs (seg : TCPSegment) (index : Z) : Z :=
  if th_syn (ts_header seg) then 0 else index + 1.

Record peer_segment (S : bytes) (isn : WrappingInt32) (seg : TCPSegment) (index : Z) : Prop := {
  peer_seqno : th_seqno (ts_header seg) = wrap (seg_abs seg index) isn;
  peer_syn : th_syn (ts_header seg) = true -> index = 0;
  peer_payload : substring_of S (Buffer_str (ts_payload seg)) index (th_fin (ts_header seg))
}.

Abbreviation tr_written r := (sr_written (tr_reassembler r)) (only parsing).

(** The sequence number is close enough to what has been received so far for
    32 bits to tell it. *)
Definition seg_near (r : TCPReceiver) (seg : TCPSegment) (index : Z) : Prop :=
  - 2 ^ 31 < seg_abs seg index - tr_written r < 2 ^ 31.

(** The states reached, with the bytes read so far, and whether a SYN has arrived and,
    with it or after it, a FIN. *)
Inductive received (S : bytes) (isn : WrappingInt32) (cap : Z) : TCPReceiver -> bytes -> bool -> bool -> Prop :=
  | rcv_new : received S isn cap (TCPReceiver_new cap) [] false false
  | rcv_segment r acc syn fin seg index r' :
      received S isn cap r acc syn fin -> peer_segment S isn seg index -> seg_near r seg index ->
      TCPReceiver_segment_received r seg = Ok r' ->
      received S isn cap r' acc (syn || th_syn (ts_header seg))
        (fin || ((syn || th_syn (ts_header seg)) && th_fin (ts_header seg)))
  | rcv_read r acc syn fin n out b :
      received S isn cap r acc syn fin -> 0 <= n < 2 ^ 64 ->
      ByteStream_read (TCPReceiver_stream_out r) n = Ok (out, b) ->
      received S isn cap (TCPReceiver_with_output r out) (acc ++ b) syn fin.

(** What holds of every state reached. *)
Record receiver_inv (S : bytes) (isn : WrappingInt32) (cap : Z) (r : TCPReceiver) (acc : bytes) (syn fin : bool) : Prop := {
  ri_reassembled : reassembled S cap (tr_reassembler r) acc;
  ri_isn : tr_sender_isn r = if syn then Some isn else None;
  ri_listen : syn = false -> tr_written r = 0;
  ri_fin : sr_got_eof (tr_reassembler r) = fin
}.

Lemma wrap_isn isn : WrappingInt32_ok isn -> wrap 0 isn = isn.
Proof. destruct isn as [m]. unfold WrappingInt32_ok. simpl. intros. unfold wrap. simpl. f_equal. wrap_lia. Qed.

(** A peer's segment amounts to a push at its index, once the SYN is in. *)
Lemma segment_received_push S isn r seg index :
  WrappingInt32_ok isn -> sr_wf (tr_reassembler r) -> peer_segment S isn seg index -> seg_near r seg index ->
  th_syn (ts_header seg) = true \/ tr_sender_isn r = Some isn ->
  TCPReceiver_segment_received r seg =
    if ByteStream_input_ended (TCPReceiver_stream_out r)
    then Ok (MkTCPReceiver (tr_reassembler r) (tr_capacity r) (Some isn))
    else reassembler ← StreamReassembler_push_substring (tr_reassembler r) (Buffer_str (ts_payload seg)) index
                         (th_fin (ts_header seg));
         Ok (MkTCPReceiver reassembler (tr_capacity r) (Some isn)).
Proof.
  intros isn_ok Hwf [Hq Hsyn Hpl] Hnear Hin. unfold TCPReceiver_segment_received.
  pose proof (sw_written _ Hwf) as Hw. destruct Hpl as [[Hi1 Hi2] _ _].
  unfold index_limit in *. pose proof (zlen_nonneg (Buffer_str (ts_payload seg))).
  unfold seg_near, seg_abs in *.
  set (r0 := if th_syn (ts_header seg) then _ else r).
  assert (r0 = MkTCPReceiver (tr_reassembler r) (tr_capacity r) (Some isn)) as ->.
  { unfold r0. destruct (th_syn (ts_header seg)); [by rewrite Hq, wrap_isn|].
    destruct Hin as [?|Hin]; [done|]. destruct r as [re c i]. simpl in *. by rewrite Hin. }
  unfold TCPReceiver_in_syn_recv. rewrite bool_decide_true by by eexists. cbn [andb tr_sender_isn].
  change (TCPReceiver_stream_out (MkTCPReceiver _ _ _)) with (TCPReceiver_stream_out r).
  destruct (ByteStream_input_ended (TCPReceiver_stream_out r)); [done|]. cbn [negb].
  change (ByteStream_bytes_written (TCPReceiver_stream_out r)) with (tr_written r).
  rewrite (unwrap_near _ isn (tr_written r) (if th_syn (ts_header seg) then 0 else index + 1));
    [|exact isn_ok|unfold seq_limit; lia|destruct (th_syn _); lia|exact Hq|exact Hnear].
  unfold Buffer_copy. cbn [tr_reassembler tr_capacity]. destruct (th_syn (ts_header seg)).
  - rewrite Z.eqb_refl. cbn [negb]. by rewrite Hsyn.
  - destruct (Z.eqb_spec (index + 1) 0); [lia|]. rewrite u64_small by lia.
    by replace (index + 1 - 1) with index by lia.
Qed.

(** Before the SYN a segment without one changes nothing. *)
Lemma segment_received_listen r seg :
  th_syn (ts_header seg) = false -> tr_sender_isn r = None -> TCPReceiver_segment_received r seg = Ok r.
Proof.
  intros Hsyn Hn. unfold TCPReceiver_segment_received. rewrite Hsyn.
  unfold TCPReceiver_in_syn_recv, TCPReceiver_ackno. by rewrite Hn.
Qed.

(** A push notes the end of the stream, also when it is the second one to do so. *)
Lemma push_notes_eof S r data index eof r' :
  sr_wf r -> sr_agrees S r -> substring_of S data index eof ->
  StreamReassembler_push_substring r data index eof = Ok r' ->
  ByteStream_input_ended (sr_output r) = false -> sr_got_eof r' = eof || sr_got_eof r.
Proof.
  intros Hwf Ha Hsub Hpush Hend. pose proof Hsub as [[Hi1 Hi2] _ He]. pose proof (sa_written _ _ Ha).
  destruct (Z.lt_ge_cases (index + zlen data) (sr_written r)).
  { rewrite push_substring_stale in Hpush by done. injection Hpush as <-. destruct eof; [specialize (He eq_refl); lia|done]. }
  destruct (Z.le_gt_cases index (sr_written r + sr_capacity r)).
  - destruct (push_substring_ok r data index eof) as (r2 & E & Hs); try done. rewrite Hpush in E. injection E as <-. apply Hs.
  - by rewrite push_substring_beyond_throws in Hpush by (done || lia).
Qed.

Lemma ended_noted r : sr_wf r -> ByteStream_input_ended (sr_output r) = true -> sr_got_eof r = true.
Proof. intros Hwf. unfold ByteStream_input_ended. rewrite (sw_ended _ Hwf). by intros [H _]%andb_true_iff. Qed.

Lemma received_inv S isn cap r acc syn fin :
  WrappingInt32_ok isn -> 0 <= cap < index_limit -> zlen S < index_limit ->
  received S isn cap r acc syn fin -> receiver_inv S isn cap r acc syn fin.
Proof.
  intros isn_ok cap_ok S_ok. induction 1 as [|r acc syn fin seg index r' _ IH Hseg Hnear Hr|r acc syn fin n out b _ IH Hn Hr].
  - split; [constructor|done..].
  - pose proof IH as [I1 I2 I3 I4]. destruct (syn || th_syn (ts_header seg)) eqn:Hin.
    + destruct (reassembled_inv _ _ _ _ cap_ok S_ok I1) as (Hwf & Ha & _).
      rewrite (segment_received_push S isn r seg index) in Hr; try done.
      2:{ destruct (th_syn (ts_header seg)); [by left|right]. rewrite orb_false_r in Hin. by rewrite I2, Hin. }
      destruct (ByteStream_input_ended (TCPReceiver_stream_out r)) eqn:Hend.
      { injection Hr as <-. split; [done..|]. cbn [tr_reassembler].
        rewrite I4. rewrite (ended_noted _ Hwf Hend) in I4. by rewrite <- I4. }
      destruct (StreamReassembler_push_substring _ _ _ _) as [re|] eqn:E; [|done].
      cbn in Hr. injection Hr as <-. split; [by eapply rs_push; [|apply Hseg|exact E]|done..|]. cbn [tr_reassembler andb].
      rewrite (push_notes_eof S _ _ _ _ _ Hwf Ha (peer_payload _ _ _ _ Hseg) E Hend), I4. apply orb_comm.
    + apply orb_false_iff in Hin as [-> Hs]. rewrite segment_received_listen in Hr by done. injection Hr as <-.
      by rewrite orb_false_r.
  - pose proof IH as [I1 I2 I3 I4]. destruct (reassembled_inv _ _ _ _ cap_ok S_ok I1) as (Hwf & Ha & _ & _).
    destruct (read_preserves S (tr_reassembler r) n out b Hwf Ha ltac:(lia) Hr) as (_ & _ & _ & Hw).
    split; [by eapply rs_read; [|done|exact Hr]|done| |done]. intros Hs. cbn. rewrite Hw. by apply I3.
Qed.

(** What the next segment does: one that the receiver looks at and that starts beyond
    the window throws, and one that reaches back to what has been assembled delivers
    all that the capacity allows. *)
Lemma next_segment S isn cap r acc syn fin seg index :
  WrappingInt32_ok isn -> 0 <= cap < index_limit -> zlen S < index_limit -> receiver_inv S isn cap r acc syn fin ->
  peer_segment S isn seg index -> seg_near r seg index ->
  match TCPReceiver_segment_received r seg with
  | Ok r' => syn || th_syn (ts_header seg) = true -> ByteStream_input_ended (TCPReceiver_stream_out r) = false ->
      index <= tr_written r ->
      Z.min (index + Buffer_size (ts_payload seg)) (bs_bytes_read (TCPReceiver_stream_out r) + cap) <= tr_written r'
  | Throw e => e = length_error /\ syn || th_syn (ts_header seg) = true /\
      ByteStream_input_ended (TCPReceiver_stream_out r) = false /\ tr_written r + cap < index
  end.
Proof.
  intros isn_ok cap_ok S_ok [I1 I2 I3 I4] Hseg Hnear. destruct (syn || th_syn (ts_header seg)) eqn:Hin.
  2:{ apply orb_false_iff in Hin as [-> Hs]. by rewrite segment_received_listen by done. }
  destruct (reassembled_inv _ _ _ _ cap_ok S_ok I1) as (Hwf & Ha & Hc & _).
  rewrite (segment_received_push S isn r seg index); try done.
  2:{ destruct (th_syn (ts_header seg)); [by left|right]. rewrite orb_false_r in Hin. by rewrite I2, Hin. }
  destruct (ByteStream_input_ended (TCPReceiver_stream_out r)) eqn:Hend; [done|].
  pose proof (peer_payload _ _ _ _ Hseg) as Hsub. pose proof Hsub as [[Hi1 Hi2] _ _]. unfold Buffer_size.
  destruct (Z.le_gt_cases index (tr_written r + cap)) as [Hle|Hgt].
  - destruct (Z.le_gt_cases index (tr_written r)) as [Hle'|Hgt].
    + destruct (push_delivers S (tr_reassembler r) _ _ _ Hwf Ha Hsub Hend Hle') as (re & -> & H). cbn [mbind result_bind].
      intros _ _ _. by rewrite <- Hc.
    + destruct (push_substring_ok (tr_reassembler r) (Buffer_str (ts_payload seg)) index (th_fin (ts_header seg)))
        as (re & -> & _); try done; [pose proof (zlen_nonneg (Buffer_str (ts_payload seg))); lia|lia|]. cbn [mbind result_bind]. lia.
  - by rewrite push_substring_beyond_throws by (done || lia).
Qed.

(** C5.  Segments of a peer that sends [S] arrive in any order, with any repetition,
    each near enough to what has been received for 32 bits to tell its place, and the
    owner reads at any time.  Then the bytes read and those ready to be read are the
    first bytes of [S]; there is an acknowledgment number exactly when a SYN has
    arrived, and it is that of the first byte not yet assembled, one more when the
    stream has ended; the stream has ended exactly when the FIN has arrived and all of
    [S] is there; the right edge of the advertised window is the number of bytes read
    plus the capacity; and a reader that sees the end has read exactly [S].  The next
    segment throws nothing but [length_error], and that only when it starts more than
    the capacity after what has been assembled; one that starts at or before the first
    byte not yet assembled has all of it assembled that the window allows. *)
Theorem receiver_delivers_stream S isn cap r acc syn fin :
  WrappingInt32_ok isn -> 0 <= cap < index_limit -> zlen S < index_limit -> received S isn cap r acc syn fin ->
  let written := zlen acc + zlen (bs_contents (TCPReceiver_stream_out r)) in
  let ended := ByteStream_input_ended (TCPReceiver_stream_out r) in
  acc ++ bs_contents (TCPReceiver_stream_out r) = ztake written S /\
  TCPReceiver_ackno r = (if syn then Some (wrap (written + 1 + b2z ended) isn) else None) /\
  ended = fin && (written =? zlen S) /\
  written + TCPReceiver_window_size r = zlen acc + cap /\
  (ByteStream_eof (TCPReceiver_stream_out r) = true -> acc = S) /\
  forall seg index, peer_segment S isn seg index -> seg_near r seg index ->
    match TCPReceiver_segment_received r seg with
    | Ok r' => syn || th_syn (ts_header seg) = true -> ended = false -> index <= written ->
        Z.min (index + Buffer_size (ts_payload seg)) (zlen acc + cap) <= ByteStream_bytes_written (TCPReceiver_stream_out r')
    | Throw e => e = length_error /\ syn || th_syn (ts_header seg) = true /\ ended = false /\ written + cap < index
    end.
Proof.
  intros Hisn Hcap HS Hrcv. pose proof (received_inv S isn cap r acc syn fin Hisn Hcap HS Hrcv) as Hinv.
  pose proof Hinv as [Hr Hi _ Hf].
  destruct (reassembled_inv S cap _ acc Hcap HS Hr) as (Hwf & Ha & Hc & He).
  intros written ended. unfold TCPReceiver_stream_out, StreamReassembler_stream_out in *.
  pose proof (sw_written _ Hwf) as Hw. destruct (sw_capacity _ Hwf) as [Hc1 Hc2].
  assert (tr_written r <= zlen S) as Hle by apply Ha.
  assert (written = tr_written r) as Hwr.
  { unfold written. rewrite <- zlen_app, He, zlen_ztake. lia. }
  assert (zlen acc = bs_bytes_read (sr_output (tr_reassembler r))) as Hacc by (rewrite (sw_read _ Hwf); lia).
  assert (ended = fin && (written =? zlen S)) as Hend.
  { unfold ended, ByteStream_input_ended. rewrite (sw_ended _ Hwf), Hf, Hwr. destruct fin; [|done]. cbn [andb].
    rewrite (sa_end _ _ Ha Hf). apply Z.eqb_sym. }
  unfold index_limit in *. split_and!.
  - by rewrite Hwr.
  - unfold TCPReceiver_ackno. rewrite Hi. destruct syn; [|done].
    unfold TCPReceiver_stream_out, StreamReassembler_stream_out, ByteStream_bytes_written. fold ended.
    rewrite Hwr. do 2 f_equal. destruct ended; simpl b2z; rewrite ?(u64_small (sr_written _ + 1)) by lia; wsimpl; lia.
  - exact Hend.
  - unfold TCPReceiver_window_size, TCPReceiver_stream_out, StreamReassembler_stream_out.
    rewrite ByteStream_remaining_capacity_eq by apply Hwf. unfold written. lia.
  - unfold ByteStream_eof, ByteStream_buffer_empty. rewrite (bs_wf_size _ (sw_output _ Hwf)).
    change (bs_input_ended (sr_output (tr_reassembler r))) with ended. rewrite Hend. intros H. b2p.
    rewrite (zlen_zero_nil (bs_contents _)), app_nil_r in He by done. rewrite He, <- Hwr. apply ztake_ge. lia.
  - intros seg index Hseg Hnear. rewrite Hwr, Hacc.
    exact (next_segment S isn cap r acc syn fin seg index Hisn Hcap HS Hinv Hseg Hnear).
Qed.

Lemma receiver_delivers_stream_witness :
  match TCPReceiver_segment_received (TCPReceiver_new 5)
          (MkTCPSegment (TCPHeader_set_fin (TCPHeader_set_seqno (TCPHeader_set_syn TCPHeader_default true) (MkWrappingInt32 9)) true)
             (Buffer_of_string [7; 8])) with
  | Ok r => TCPReceiver_ackno r = Some (MkWrappingInt32 13) /\
            [] ++ bs_contents (TCPReceiver_stream_out r) = ztake 2 [7; 8]
  | Throw _ => False
  end.
Proof.
  destruct (TCPReceiver_segment_received _ _) as [r|e] eqn:E.
  - pose proof E as E'. vm_compute in E'. injection E' as Hr.
    assert (received [7; 8] (MkWrappingInt32 9) 5 r [] true true) as H.
    { match type of E with TCPReceiver_segment_received _ ?seg = _ =>
        apply (rcv_segment [7; 8] (MkWrappingInt32 9) 5 (TCPReceiver_new 5) [] false false seg 0 r (rcv_new _ _ _)) end;
        [|split; vm_compute; reflexivity|exact E].
      split; [reflexivity|reflexivity|]. split; [vm_compute; split; congruence|reflexivity|reflexivity]. }
    apply receiver_delivers_stream in H;
      [|unfold WrappingInt32_ok; simpl; lia|unfold index_limit; lia|reflexivity].
    rewrite <- Hr in *. destruct H as (H1 & H2 & _). split; [exact H2|exact H1].
  - vm_compute in E. discriminate E.
Defined.

(** Data that the window allows is taken: a segment of the peer that starts
    at the first byte not yet assembled (or carries the SYN), and whose payload
    fits the window, is received without an exception; all of its payload is
    assembled, and with the FIN the stream ends. *)
Theorem receiver_accepts_in_order S isn cap r acc syn fin seg :
  WrappingInt32_ok isn -> 0 <= cap < index_limit -> zlen S < index_limit -> received S isn cap r acc syn fin ->
  peer_segment S isn seg (tr_written r) -> seg_near r seg (tr_written r) ->
  th_syn (ts_header seg) = true \/ tr_sender_isn r = Some isn ->
  ByteStream_input_ended (TCPReceiver_stream_out r) = false ->
  Buffer_size (ts_payload seg) <= TCPReceiver_window_size r ->
  exists r', TCPReceiver_segment_received r seg = Ok r' /\
    tr_written r + Buffer_size (ts_payload seg) <= tr_written r' /\
    (th_fin (ts_header seg) = true -> ByteStream_input_ended (TCPReceiver_stream_out r') = true).
Proof.
  intros Hisn Hcap HS Hrcv Hseg Hnear Hin Hend Hfit.
  pose proof (received_inv S isn cap r acc syn fin Hisn Hcap HS Hrcv) as Hinv.
  destruct (reassembled_inv S cap _ acc Hcap HS (ri_reassembled _ _ _ _ _ _ _ Hinv)) as (Hwf & Ha & Hc & He).
  rewrite (segment_received_push S isn r seg (tr_written r)) by done. rewrite Hend.
  destruct (peer_payload _ _ _ _ Hseg) as [[Hi1 Hi2] _ _]. pose proof (sw_capacity _ Hwf) as [Hc1 Hc2].
  unfold Buffer_size in *. set (pl := Buffer_str (ts_payload seg)) in *. pose proof (zlen_nonneg pl).
  destruct (push_substring_ok (tr_reassembler r) pl (tr_written r) (th_fin (ts_header seg)))
    as (re & E & Hspec); [done|done|lia|done|lia|lia|].
  rewrite E. cbn [mbind result_bind]. eexists. split; [reflexivity|].
  pose proof (pp_agrees _ _ _ _ _ Hspec S Ha (peer_payload _ _ _ _ Hseg)) as [Ha' _].
  pose proof (pp_wf _ _ _ _ _ Hspec) as Hwf'. cbn [tr_reassembler TCPReceiver_stream_out].
  assert (tr_written r + zlen pl <= sr_written re) as Hadv.
  { pose proof (sw_read _ Hwf). pose proof (sw_read _ Hwf'). pose proof (pp_read _ _ _ _ _ Hspec).
    unfold TCPReceiver_window_size, TCPReceiver_stream_out, StreamReassembler_stream_out in Hfit.
    rewrite ByteStream_remaining_capacity_eq in Hfit by apply Hwf.
    destruct (pp_progress _ _ _ _ _ Hspec) as [Hfull|Hnot]; [lia|].
    destruct (Z.le_gt_cases (tr_written r + zlen pl) (sr_written re)); [done|exfalso]. apply Hnot.
    apply (pp_held _ _ _ _ _ Hspec). pose proof (zlen_nonneg (bs_contents (sr_output (tr_reassembler r)))).
    destruct (Z.lt_ge_cases (sr_written re) (tr_written r)); [left; by left|right; lia]. }
  split; [exact Hadv|]. intros Hfin. unfold TCPReceiver_stream_out, ByteStream_input_ended.
  cbn [tr_reassembler]. change (bs_input_ended (sr_output re) = true). rewrite (sw_ended _ Hwf').
  assert (sr_got_eof re = true) as Hg by (by rewrite (pp_eof _ _ _ _ _ Hspec), Hfin).
  rewrite Hg, (sa_end _ _ Ha' Hg). cbn [andb]. apply Z.eqb_eq.
  pose proof (sa_written _ _ Ha'). pose proof (so_eof _ _ _ _ (peer_payload _ _ _ _ Hseg) Hfin) as Hse.
  fold pl in Hse. lia.
Qed.

Lemma receiver_accepts_in_order_witness :
  exists r', TCPReceiver_segment_received (TCPReceiver_new 5)
               (MkTCPSegment (TCPHeader_set_syn TCPHeader_default true) (Buffer_of_string [7; 8])) = Ok r' /\
    2 <= tr_written r' /\ (false = true -> ByteStream_input_ended (TCPReceiver_stream_out r') = true).
Proof.
  apply (receiver_accepts_in_order [7; 8; 9] (MkWrappingInt32 0) 5 (TCPReceiver_new 5) [] false false
    (MkTCPSegment (TCPHeader_set_syn TCPHeader_default true) (Buffer_of_string [7; 8]))).
  - split; simpl; lia.
  - unfold index_limit; lia.
  - reflexivity.
  - apply rcv_new.
  - split; [reflexivity|reflexivity|]. split; [vm_compute; split; congruence|reflexivity|discriminate].
  - split; reflexivity.
  - by left.
  - reflexivity.
  - vm_compute. congruence.
Defined.
