(* ===== verification/TCPSenders.v ===== *)
(** The sending half of TCP: [RetransmissionTimer], [TCPSegmentBuilder] and
    [TCPSender] (src/libsponge/tcp_sender.hh and .cc), with the constants of
    [TCPConfig] (src/libsponge/tcp_helpers/tcp_config.hh).

    Theorems: every segment ever sent carries the bytes of the outgoing stream
    that its sequence number stands for, whatever acknowledgments arrive; the
    window is filled completely and, for a peer that does not shrink it, never
    exceeded; the segments kept for retransmission are exactly those not yet
    acknowledged; the timer runs exactly while some are, and its timeout
    doubles with every retransmission. *)

From S2P Require Import Prelude WrappingIntegers Buffers ByteStreams StreamReassemblers Parsers TCPSegments.

(** ** TCPConfig *)

Definition DEFAULT_CAPACITY : Z := 64000.
Definition MAX_PAYLOAD_SIZE : Z := 1000.
Definition TIMEOUT_DFLT : Z := 1000.
Definition MAX_RETX_ATTEMPTS : Z := 8.

Record TCPConfig : Type := MkTCPConfig {
  cfg_rt_timeout : Z;
  cfg_recv_capacity : Z;
  cfg_send_capacity : Z;
  cfg_fixed_isn : option WrappingInt32
}.

Definition TCPConfig_default : TCPConfig :=
  MkTCPConfig TIMEOUT_DFLT DEFAULT_CAPACITY DEFAULT_CAPACITY None.

(** ** RetransmissionTimer *)

Record RetransmissionTimer : Type := MkRetransmissionTimer {
  rt_timeout : Z;
  rt_time_elapsed : Z;
  rt_running : bool
}.

Definition RetransmissionTimer_default : RetransmissionTimer := MkRetransmissionTimer 0 0 false.

Definition RetransmissionTimer_reset (t : RetransmissionTimer) (timeout : Z) : RetransmissionTimer :=
  MkRetransmissionTimer timeout 0 false.

Definition RetransmissionTimer_start (t : RetransmissionTimer) (timeout : Z) : RetransmissionTimer :=
  let t := RetransmissionTimer_reset t timeout in
  MkRetransmissionTimer (rt_timeout t) (rt_time_elapsed t) true.

Definition RetransmissionTimer_timeout (t : RetransmissionTimer) : bool :=
  rt_running t && (rt_timeout t <=? rt_time_elapsed t).

Definition RetransmissionTimer_running (t : RetransmissionTimer) : bool := rt_running t.

Definition RetransmissionTimer_tick (t : RetransmissionTimer) (ms_since_last_tick : Z) : RetransmissionTimer :=
  if rt_running t
  then MkRetransmissionTimer (rt_timeout t) (u64 (rt_time_elapsed t + ms_since_last_tick)) (rt_running t)
  else t.

Definition RetransmissionTimer_stop (t : RetransmissionTimer) : RetransmissionTimer :=
  MkRetransmissionTimer (rt_timeout t) (rt_time_elapsed t) false.

(** ** TCPSegmentBuilder *)

Record TCPSegmentBuilder : Type := MkTCPSegmentBuilder {
  tb_ack : bool;
  tb_rst : bool;
  tb_syn : bool;
  tb_fin : bool;
  tb_seqno : WrappingInt32;
  tb_ackno : WrappingInt32;
  tb_data : bytes
}.

Definition TCPSegmentBuilder_default : TCPSegmentBuilder :=
  MkTCPSegmentBuilder false false false false (MkWrappingInt32 0) (MkWrappingInt32 0) [].

Definition with_ack (ackno : WrappingInt32) (b : TCPSegmentBuilder) : TCPSegmentBuilder :=
  MkTCPSegmentBuilder true (tb_rst b) (tb_syn b) (tb_fin b) (tb_seqno b) ackno (tb_data b).
Definition with_rst (b : TCPSegmentBuilder) : TCPSegmentBuilder :=
  MkTCPSegmentBuilder (tb_ack b) true (tb_syn b) (tb_fin b) (tb_seqno b) (tb_ackno b) (tb_data b).
Definition with_syn (b : TCPSegmentBuilder) : TCPSegmentBuilder :=
  MkTCPSegmentBuilder (tb_ack b) (tb_rst b) true (tb_fin b) (tb_seqno b) (tb_ackno b) (tb_data b).
Definition with_fin (b : TCPSegmentBuilder) : TCPSegmentBuilder :=
  MkTCPSegmentBuilder (tb_ack b) (tb_rst b) (tb_syn b) true (tb_seqno b) (tb_ackno b) (tb_data b).
Definition with_seqno (seqno : WrappingInt32) (b : TCPSegmentBuilder) : TCPSegmentBuilder :=
  MkTCPSegmentBuilder (tb_ack b) (tb_rst b) (tb_syn b) (tb_fin b) seqno (tb_ackno b) (tb_data b).
Definition with_data (data : bytes) (b : TCPSegmentBuilder) : TCPSegmentBuilder :=
  MkTCPSegmentBuilder (tb_ack b) (tb_rst b) (tb_syn b) (tb_fin b) (tb_seqno b) (tb_ackno b) data.

Definition build_segment (b : TCPSegmentBuilder) : TCPSegment :=
  MkTCPSegment
    (MkTCPHeader (th_sport TCPHeader_default) (th_dport TCPHeader_default) (tb_seqno b) (tb_ackno b)
       (th_doff TCPHeader_default) (th_urg TCPHeader_default) (tb_ack b) (th_psh TCPHeader_default)
       (tb_rst b) (tb_syn b) (tb_fin b) (th_win TCPHeader_default) (th_cksum TCPHeader_default)
       (th_uptr TCPHeader_default))
    (Buffer_of_string (tb_data b)).

(** ** TCPSender *)

Record TCPSender : Type := MkTCPSender {
  sd_isn : WrappingInt32;
  sd_segments_out : list TCPSegment;
  sd_initial_retransmission_timeout : Z;
  sd_stream : ByteStream;
  sd_next_seqno : Z;
  sd_zero_window_size : bool;
  sd_receiver_window_size : Z;
  sd_receiver_window_left : Z;
  sd_receiver_window_right : Z;
  sd_retransmission_timeout : Z;
  sd_segments_pending : list TCPSegment;
  sd_syned : bool;
  sd_fined : bool;
  sd_timer : RetransmissionTimer;
  sd_consecutive_retransmissions : Z
}.

(** The constructor; [random] is what [random_device()()] returns. *)
Definition TCPSender_new (capacity retx_timeout : Z) (fixed_isn : option WrappingInt32) (random : Z) : TCPSender :=
  MkTCPSender (default (MkWrappingInt32 random) fixed_isn) [] retx_timeout (ByteStream_new capacity)
    0 false 1 0 1 retx_timeout [] false false RetransmissionTimer_default 0.

(** Assignments to the members the operations change. *)
Definition TCPSender_set_stream (s : TCPSender) (stream : ByteStream) : TCPSender :=
  MkTCPSender (sd_isn s) (sd_segments_out s) (sd_initial_retransmission_timeout s) stream
    (sd_next_seqno s) (sd_zero_window_size s) (sd_receiver_window_size s) (sd_receiver_window_left s)
    (sd_receiver_window_right s) (sd_retransmission_timeout s) (sd_segments_pending s) (sd_syned s)
    (sd_fined s) (sd_timer s) (sd_consecutive_retransmissions s).

Definition TCPSender_set_segments_out (s : TCPSender) (out : list TCPSegment) : TCPSender :=
  MkTCPSender (sd_isn s) out (sd_initial_retransmission_timeout s) (sd_stream s)
    (sd_next_seqno s) (sd_zero_window_size s) (sd_receiver_window_size s) (sd_receiver_window_left s)
    (sd_receiver_window_right s) (sd_retransmission_timeout s) (sd_segments_pending s) (sd_syned s)
    (sd_fined s) (sd_timer s) (sd_consecutive_retransmissions s).

Definition TCPSender_set_fined (s : TCPSender) (fined : bool) : TCPSender :=
  MkTCPSender (sd_isn s) (sd_segments_out s) (sd_initial_retransmission_timeout s) (sd_stream s)
    (sd_next_seqno s) (sd_zero_window_size s) (sd_receiver_window_size s) (sd_receiver_window_left s)
    (sd_receiver_window_right s) (sd_retransmission_timeout s) (sd_segments_pending s) (sd_syned s)
    fined (sd_timer s) (sd_consecutive_retransmissions s).

Definition TCPSender_set_zero_window (s : TCPSender) (zero : bool) : TCPSender :=
  MkTCPSender (sd_isn s) (sd_segments_out s) (sd_initial_retransmission_timeout s) (sd_stream s)
    (sd_next_seqno s) zero (sd_receiver_window_size s) (sd_receiver_window_left s)
    (sd_receiver_window_right s) (sd_retransmission_timeout s) (sd_segments_pending s) (sd_syned s)
    (sd_fined s) (sd_timer s) (sd_consecutive_retransmissions s).

Definition TCPSender_set_window (s : TCPSender) (size left right : Z) : TCPSender :=
  MkTCPSender (sd_isn s) (sd_segments_out s) (sd_initial_retransmission_timeout s) (sd_stream s)
    (sd_next_seqno s) (sd_zero_window_size s) size left right (sd_retransmission_timeout s)
    (sd_segments_pending s) (sd_syned s) (sd_fined s) (sd_timer s) (sd_consecutive_retransmissions s).

Definition TCPSender_set_retransmission (s : TCPSender) (timeout : Z) (timer : RetransmissionTimer)
    (consecutive : Z) : TCPSender :=
  MkTCPSender (sd_isn s) (sd_segments_out s) (sd_initial_retransmission_timeout s) (sd_stream s)
    (sd_next_seqno s) (sd_zero_window_size s) (sd_receiver_window_size s) (sd_receiver_window_left s)
    (sd_receiver_window_right s) timeout (sd_segments_pending s) (sd_syned s)
    (sd_fined s) timer consecutive.

Definition TCPSender_set_timer (s : TCPSender) (timer : RetransmissionTimer) : TCPSender :=
  TCPSender_set_retransmission s (sd_retransmission_timeout s) timer (sd_consecutive_retransmissions s).

Definition TCPSender_set_pending (s : TCPSender) (pending : list TCPSegment) : TCPSender :=
  MkTCPSender (sd_isn s) (sd_segments_out s) (sd_initial_retransmission_timeout s) (sd_stream s)
    (sd_next_seqno s) (sd_zero_window_size s) (sd_receiver_window_size s) (sd_receiver_window_left s)
    (sd_receiver_window_right s) (sd_retransmission_timeout s) pending (sd_syned s)
    (sd_fined s) (sd_timer s) (sd_consecutive_retransmissions s).

Definition TCPSender_set_next_seqno (s : TCPSender) (next : Z) : TCPSender :=
  MkTCPSender (sd_isn s) (sd_segments_out s) (sd_initial_retransmission_timeout s) (sd_stream s)
    next (sd_zero_window_size s) (sd_receiver_window_size s) (sd_receiver_window_left s)
    (sd_receiver_window_right s) (sd_retransmission_timeout s) (sd_segments_pending s) (sd_syned s)
    (sd_fined s) (sd_timer s) (sd_consecutive_retransmissions s).

(** Accessors *)

Definition TCPSender_stream_in (s : TCPSender) : ByteStream := sd_stream s.
Definition TCPSender_next_seqno_absolute (s : TCPSender) : Z := sd_next_seqno s.
Definition TCPSender_next_seqno (s : TCPSender) : WrappingInt32 := wrap (sd_next_seqno s) (sd_isn s).
Definition TCPSender_consecutive_retransmissions (s : TCPSender) : Z := sd_consecutive_retransmissions s.
Definition TCPSender_fined (s : TCPSender) : bool := sd_fined s.

Fixpoint bytes_in_flight_from (bytes : Z) (l : list TCPSegment) : Z :=
  match l with
  | [] => bytes
  | seg :: l => bytes_in_flight_from (u64 (bytes + TCPSegment_length_in_sequence_space seg)) l
  end.

Definition TCPSender_bytes_in_flight (s : TCPSender) : Z := bytes_in_flight_from 0 (sd_segments_pending s).

Definition TCPSender_in_closed (s : TCPSender) : bool := TCPSender_next_seqno_absolute s =? 0.

Definition TCPSender_in_syn_sent (s : TCPSender) : bool :=
  (0 <? TCPSender_next_seqno_absolute s) && (TCPSender_next_seqno_absolute s =? TCPSender_bytes_in_flight s).

Definition TCPSender_in_syn_acked (s : TCPSender) : bool :=
  ((TCPSender_bytes_in_flight s <? TCPSender_next_seqno_absolute s) &&
     negb (ByteStream_eof (TCPSender_stream_in s))) ||
  (ByteStream_eof (TCPSender_stream_in s) &&
     (TCPSender_next_seqno_absolute s <? u64 (ByteStream_bytes_written (TCPSender_stream_in s) + 2))).

Definition TCPSender_in_fin_sent (s : TCPSender) : bool :=
  ByteStream_eof (TCPSender_stream_in s) &&
  (TCPSender_next_seqno_absolute s =? u64 (ByteStream_bytes_written (TCPSender_stream_in s) + 2)) &&
  (0 <? TCPSender_bytes_in_flight s).

Definition TCPSender_in_fin_acked (s : TCPSender) : bool :=
  ByteStream_eof (TCPSender_stream_in s) &&
  (TCPSender_next_seqno_absolute s =? u64 (ByteStream_bytes_written (TCPSender_stream_in s) + 2)) &&
  (TCPSender_bytes_in_flight s =? 0).

(** Operations *)

Definition TCPSender_send (s : TCPSender) (builder : TCPSegmentBuilder) : TCPSender :=
  let seg := build_segment builder in
  let s := TCPSender_set_segments_out s (sd_segments_out s ++ [seg]) in
  let s :=
    if 0 <? TCPSegment_length_in_sequence_space seg then
      let s := TCPSender_set_pending s (sd_segments_pending s ++ [seg]) in
      if negb (RetransmissionTimer_running (sd_timer s))
      then TCPSender_set_timer s (RetransmissionTimer_start (sd_timer s) (sd_retransmission_timeout s))
      else s
    else s in
  TCPSender_set_next_seqno s (u64 (sd_next_seqno s + TCPSegment_length_in_sequence_space seg)).

Definition window_remaining (s : TCPSender) : Z :=
  u64 (sd_receiver_window_right s - TCPSender_next_seqno_absolute s).

(** The [while] loop of [fill_window].  Every turn but the last takes a byte from
    the stream or sets [_fined], see [fill_loop_spec]; running out of [fuel] is an
    exception that no call meets. *)
Fixpoint fill_loop (fuel : nat) (s : TCPSender) (builder : TCPSegmentBuilder)
    (receiver_window_remaining payload_len_limit : Z) : result TCPSender :=
  match fuel with
  | O => Throw undefined_behaviour
  | S fuel =>
      if (0 <? payload_len_limit) && negb (sd_fined s) then
        '(stream, payload) ← ByteStream_read (sd_stream s) payload_len_limit;
        let s := TCPSender_set_stream s stream in
        let builder := with_data payload (with_seqno (TCPSender_next_seqno s) builder) in
        if bool_decide (payload = []) && negb (ByteStream_eof (sd_stream s)) then Ok s
        else
          let '(s, builder) :=
            if negb (ByteStream_eof (sd_stream s)) && negb (bool_decide (payload = []))
            then (TCPSender_send s builder, builder)
            else if ByteStream_eof (sd_stream s) then
              let '(s, builder) :=
                if zlen payload <? payload_len_limit then (TCPSender_set_fined s true, with_fin builder)
                else if payload_len_limit <? receiver_window_remaining
                then (TCPSender_set_fined s true, with_fin builder)
                else (s, builder) in
              (TCPSender_send s builder, builder)
            else (s, builder) in
          let receiver_window_remaining := window_remaining s in
          let payload_len_limit := Z.min receiver_window_remaining MAX_PAYLOAD_SIZE in
          fill_loop fuel s builder receiver_window_remaining payload_len_limit
      else Ok s
  end.

Definition TCPSender_fill_window (s : TCPSender) : result TCPSender :=
  let builder := TCPSegmentBuilder_default in
  if TCPSender_in_closed s then
    let builder := with_syn (with_seqno (TCPSender_next_seqno s) builder) in
    Ok (TCPSender_send s builder)
  else
    let receiver_window_remaining := window_remaining s in
    let payload_len_limit := Z.min receiver_window_remaining MAX_PAYLOAD_SIZE in
    fill_loop (Z.to_nat (ByteStream_buffer_size (sd_stream s)) + 2) s builder
      receiver_window_remaining payload_len_limit.

(** The loop of [ack_received] that drops the acknowledged segments. *)
Fixpoint pop_acked (isn : WrappingInt32) (window_left : Z) (pending : list TCPSegment) : list TCPSegment :=
  match pending with
  | [] => []
  | seg :: rest =>
      let absolute_seqno := unwrap (th_seqno (ts_header seg)) isn window_left in
      if u64 (absolute_seqno + TCPSegment_length_in_sequence_space seg) <=? window_left
      then pop_acked isn window_left rest
      else pending
  end.

Definition TCPSender_ack_received (s : TCPSender) (ackno : WrappingInt32) (window_size : Z) : result TCPSender :=
  let absolute_ackno := unwrap ackno (sd_isn s) (sd_receiver_window_left s) in
  let s := if window_size =? 0 then TCPSender_set_zero_window s true else TCPSender_set_zero_window s false in
  if sd_receiver_window_right s <? absolute_ackno then Ok s
  else
    let update_window s :=
      let size := if sd_zero_window_size s then 1 else window_size in
      TCPSender_set_window s size absolute_ackno (u64 (absolute_ackno + size)) in
    if sd_receiver_window_left s <? absolute_ackno then
      let s := update_window s in
      let s := TCPSender_set_retransmission s (sd_initial_retransmission_timeout s) (sd_timer s) 0 in
      let s := TCPSender_set_pending s (pop_acked (sd_isn s) (sd_receiver_window_left s) (sd_segments_pending s)) in
      let s :=
        match sd_segments_pending s with
        | [] => TCPSender_set_timer s (RetransmissionTimer_stop (sd_timer s))
        | _ => TCPSender_set_timer s (RetransmissionTimer_start (sd_timer s) (sd_retransmission_timeout s))
        end in
      TCPSender_fill_window s
    else if absolute_ackno =? sd_receiver_window_left s then Ok (update_window s)
    else Ok s.

Definition TCPSender_tick (s : TCPSender) (ms_since_last_tick : Z) : TCPSender :=
  let s := TCPSender_set_timer s (RetransmissionTimer_tick (sd_timer s) ms_since_last_tick) in
  let s :=
    match sd_segments_pending s with
    | seg :: _ =>
        if RetransmissionTimer_timeout (sd_timer s) then
          let s := TCPSender_set_segments_out s (sd_segments_out s ++ [seg]) in
          let timeout :=
            if negb (sd_zero_window_size s) then u32 (sd_retransmission_timeout s * 2)
            else sd_retransmission_timeout s in
          TCPSender_set_retransmission s timeout (RetransmissionTimer_start (sd_timer s) timeout)
            (u32 (sd_consecutive_retransmissions s + 1))
        else s
    | [] => s
    end in
  match sd_segments_pending s with
  | [] => TCPSender_set_timer s (RetransmissionTimer_stop (sd_timer s))
  | _ => s
  end.

Definition TCPSender_send_empty_segment (s : TCPSender) : TCPSender :=
  let builder := with_seqno (TCPSender_next_seqno s) TCPSegmentBuilder_default in
  TCPSender_send s builder.

(** ** The segments sent *)

(** [seg] carries what the absolute sequence number [a] stands for: the SYN at 0,
    and from 1 on the bytes of [W], with a FIN only at their end. *)
Record sent_segment (W : bytes) (isn : WrappingInt32) (seg : TCPSegment) (a : Z) : Prop := {
  ss_seqno : th_seqno (ts_header seg) = wrap a isn;
  ss_abs : 0 <= a;
  ss_syn : th_syn (ts_header seg) = true -> a = 0;
  ss_first : a = 0 -> Buffer_str (ts_payload seg) = [] /\ th_fin (ts_header seg) = false;
  ss_data : 1 <= a -> substring_of W (Buffer_str (ts_payload seg)) (a - 1) (th_fin (ts_header seg));
  ss_size : Buffer_wf (ts_payload seg) /\ Buffer_size (ts_payload seg) <= MAX_PAYLOAD_SIZE;
  ss_doff : th_doff (ts_header seg) = 5
}.

Definition seg_len (seg : TCPSegment) : Z :=
  zlen (Buffer_str (ts_payload seg)) + b2z (th_syn (ts_header seg)) + b2z (th_fin (ts_header seg)).

(** Consecutive segments that cover the sequence numbers from [a] to [b]. *)
Fixpoint sent_chain (W : bytes) (isn : WrappingInt32) (a : Z) (l : list TCPSegment) (b : Z) : Prop :=
  match l with
  | [] => a = b
  | seg :: l => sent_segment W isn seg a /\ 0 < seg_len seg /\ sent_chain W isn (a + seg_len seg) l b
  end.

(** The segment was sent by [s]: it is one of those above, it ends no later than
    the next sequence number, and it carries a FIN only if [s] has sent one. *)
Definition sent_by (W : bytes) (s : TCPSender) (seg : TCPSegment) : Prop :=
  exists a, sent_segment W (sd_isn s) seg a /\ a + seg_len seg <= sd_next_seqno s /\
    (th_fin (ts_header seg) = true -> sd_fined s = true).

Record sender_core (W : bytes) (s : TCPSender) : Prop := {
  sc_isn : WrappingInt32_ok (sd_isn s);
  sc_stream : bs_wf (sd_stream s);
  sc_written : bs_bytes_written (sd_stream s) = zlen W;
  sc_read : 0 <= bs_bytes_read (sd_stream s) <= zlen W;
  sc_contents : bs_contents (sd_stream s) = zdrop (bs_bytes_read (sd_stream s)) W;
  sc_limit : zlen W + 2 < index_limit;
  sc_window : 0 <= sd_receiver_window_left s < 2 ^ 64 /\ 0 <= sd_receiver_window_right s < 2 ^ 64;
  sc_sent : Forall (sent_by W s) (sd_segments_out s) /\ Forall (sent_by W s) (sd_segments_pending s);
  sc_timer : rt_running (sd_timer s) = bool_decide (sd_segments_pending s <> []) /\
             (rt_running (sd_timer s) = true -> rt_timeout (sd_timer s) = sd_retransmission_timeout s)
}.

(** Where the sender is in its stream. *)
Record sender_pos (W : bytes) (s : TCPSender) : Prop := {
  sp_next : sd_next_seqno s = 0 /\ bs_bytes_read (sd_stream s) = 0 /\ sd_fined s = false \/
            sd_next_seqno s = 1 + bs_bytes_read (sd_stream s) + b2z (sd_fined s);
  sp_fined : sd_fined s = true ->
             bs_input_ended (sd_stream s) = true /\ bs_bytes_read (sd_stream s) = zlen W
}.

(** What [fill_window] leaves alone. *)
Definition sender_frame (s : TCPSender) :=
  (sd_isn s, sd_initial_retransmission_timeout s, sd_zero_window_size s, sd_receiver_window_size s,
   sd_receiver_window_left s, sd_receiver_window_right s, sd_retransmission_timeout s,
   sd_consecutive_retransmissions s, bs_capacity (sd_stream s), bs_input_ended (sd_stream s),
   bs_error (sd_stream s)).

Lemma seg_len_nonneg seg : 0 <= seg_len seg.
Proof. unfold seg_len. pose proof (zlen_nonneg (Buffer_str (ts_payload seg))). unfold b2z. destruct (th_syn _), (th_fin _); lia. Qed.

Lemma length_in_sequence_space_eq seg :
  zlen (Buffer_str (ts_payload seg)) < 2 ^ 63 -> TCPSegment_length_in_sequence_space seg = seg_len seg.
Proof.
  intros. unfold TCPSegment_length_in_sequence_space, seg_len, b2z.
  pose proof (zlen_nonneg (Buffer_str (ts_payload seg))).
  destruct (th_syn _), (th_fin _); rewrite u64_small; lia.
Qed.

Lemma sent_length W isn seg a : sent_segment W isn seg a ->
  TCPSegment_length_in_sequence_space seg = seg_len seg.
Proof.
  intros []. destruct ss_size0 as [_ Hs]. unfold Buffer_size, MAX_PAYLOAD_SIZE in Hs.
  apply length_in_sequence_space_eq. lia.
Qed.

Lemma sent_chain_app W isn a l b k c :
  sent_chain W isn a l b -> sent_chain W isn b k c -> sent_chain W isn a (l ++ k) c.
Proof.
  revert a. induction l as [|seg l IH]; intros a; simpl; [by intros ->|].
  intros (H1 & H2 & H3) Hk. split_and!; try done. by apply IH.
Qed.

Lemma sent_chain_le W isn a l b : sent_chain W isn a l b -> a <= b.
Proof.
  revert a. induction l as [|seg l IH]; intros a; simpl; [lia|]. intros (_ & H & Hl%IH). lia.
Qed.

Lemma ByteStream_eof_eq s : bs_wf s -> ByteStream_eof s = bs_input_ended s && (zlen (bs_contents s) =? 0).
Proof.
  intros Hwf. unfold ByteStream_eof, ByteStream_buffer_empty. rewrite (bs_wf_size _ Hwf).
  unfold ByteStream_input_ended. first [reflexivity|apply andb_comm].
Qed.

(** [_send] in closed form. *)
Lemma TCPSender_send_eq s b :
  TCPSender_send s b =
    let seg := build_segment b in
    let len := TCPSegment_length_in_sequence_space seg in
    MkTCPSender (sd_isn s) (sd_segments_out s ++ [seg]) (sd_initial_retransmission_timeout s) (sd_stream s)
      (u64 (sd_next_seqno s + len)) (sd_zero_window_size s) (sd_receiver_window_size s)
      (sd_receiver_window_left s) (sd_receiver_window_right s) (sd_retransmission_timeout s)
      (sd_segments_pending s ++ if 0 <? len then [seg] else []) (sd_syned s) (sd_fined s)
      (if (0 <? len) && negb (rt_running (sd_timer s))
       then MkRetransmissionTimer (sd_retransmission_timeout s) 0 true else sd_timer s)
      (sd_consecutive_retransmissions s).
Proof.
  unfold TCPSender_send, RetransmissionTimer_running.
  destruct (0 <? TCPSegment_length_in_sequence_space (build_segment b)); simpl;
    [by destruct (rt_running (sd_timer s))|by rewrite app_nil_r].
Qed.

Lemma sent_by_mono W s s' seg :
  sd_isn s' = sd_isn s -> sd_next_seqno s <= sd_next_seqno s' ->
  (sd_fined s = true -> sd_fined s' = true) -> sent_by W s seg -> sent_by W s' seg.
Proof.
  intros Hi Hn Hf (a & Ha & Hle & Hfin). exists a. rewrite Hi. split_and!; [done|lia|auto].
Qed.

(** Sending what comes next in the stream. *)
Lemma TCPSender_send_core W s b :
  sender_core W s -> sent_segment W (sd_isn s) (build_segment b) (sd_next_seqno s) ->
  (tb_fin b = true -> sd_fined s = true) ->
  sd_next_seqno s < 2 ^ 63 + 2 ->
  sender_core W (TCPSender_send s b) /\
  sd_next_seqno (TCPSender_send s b) = sd_next_seqno s + seg_len (build_segment b).
Proof.
  intros Hc Hs Hfin Hn. pose proof (sent_length _ _ _ _ Hs) as Hlen.
  pose proof (seg_len_nonneg (build_segment b)) as Hl0. pose proof (ss_abs _ _ _ _ Hs).
  assert (seg_len (build_segment b) <= 1002) as Hl.
  { destruct (ss_size _ _ _ _ Hs) as [_ Hz]. unfold Buffer_size, MAX_PAYLOAD_SIZE, seg_len, b2z in *.
    destruct (th_syn _), (th_fin _); lia. }
  rewrite TCPSender_send_eq. cbn zeta. rewrite Hlen. simpl sd_next_seqno.
  rewrite u64_small by lia. split; [|done].
  destruct Hc as [C1 C2 C3 C4 C5 C6 C7 [C81 C82] [C91 C92]]. split; simpl; try done.
  - assert (forall s', sd_isn s' = sd_isn s -> sd_next_seqno s' = sd_next_seqno s + seg_len (build_segment b) ->
      sd_fined s' = sd_fined s ->
      (forall seg, sent_by W s seg -> sent_by W s' seg) /\ sent_by W s' (build_segment b)) as Hnew.
    { intros s' E1 E2 E3. split.
      - intros seg. apply sent_by_mono; [done|lia|by rewrite E3].
      - exists (sd_next_seqno s). rewrite E1, E2, E3. split_and!; [done|lia|exact Hfin]. }
    split; apply Forall_app; (split; [eapply Forall_impl; [eassumption|by apply Hnew]|]).
    + apply Forall_singleton. by apply Hnew.
    + destruct (0 <? seg_len (build_segment b)); [|apply Forall_nil_2]. apply Forall_singleton. by apply Hnew.
  - rewrite C91 in *. destruct (0 <? seg_len (build_segment b)); simpl.
    + rewrite (bool_decide_true (sd_segments_pending s ++ _ <> [])) by (by destruct (sd_segments_pending s)).
      destruct (bool_decide (sd_segments_pending s <> [])) eqn:E; simpl; [|done]. by rewrite C91.
    + by rewrite app_nil_r, C91.
Qed.

(** ** Filling the window *)

(** What a piece of [fill_window] does: it sends the segments [new], one after
    the other in sequence space, and never past a window that was respected. *)
Record filled (W : bytes) (s s' : TCPSender) (new : list TCPSegment) : Prop := {
  fl_core : sender_core W s';
  fl_pos : sender_pos W s';
  fl_frame : sender_frame s' = sender_frame s;
  fl_out : sd_segments_out s' = sd_segments_out s ++ new;
  fl_pending : sd_segments_pending s' = sd_segments_pending s ++ new;
  fl_chain : sent_chain W (sd_isn s) (sd_next_seqno s) new (sd_next_seqno s');
  fl_window : 1 <= sd_next_seqno s -> sd_next_seqno s <= sd_receiver_window_right s ->
              sd_next_seqno s' <= sd_receiver_window_right s;
  fl_fined : sd_fined s = true -> sd_fined s' = true
}.

(** Nothing more can be sent: the window is full, or the stream has been sent,
    FIN included if it has ended. *)
Definition sender_full (s : TCPSender) : Prop :=
  sd_next_seqno s = sd_receiver_window_right s \/
  (bs_contents (sd_stream s) = [] /\ (bs_input_ended (sd_stream s) = true -> sd_fined s = true)).

Definition builder_clean (b : TCPSegmentBuilder) : Prop :=
  tb_ack b = false /\ tb_rst b = false /\ tb_syn b = false /\ tb_fin b = false.

Lemma filled_refl W s : sender_core W s -> sender_pos W s -> filled W s s [].
Proof. intros. by split; rewrite ?app_nil_r. Qed.

Lemma filled_trans W s1 s2 s3 l k : filled W s1 s2 l -> filled W s2 s3 k -> filled W s1 s3 (l ++ k).
Proof.
  intros [A1 A2 A3 A4 A5 A6 A7 A8] [B1 B2 B3 B4 B5 B6 B7 B8].
  unfold sender_frame in *. pose proof A3 as A3'. injection A3' as Ei _ _ _ _ Er _ _ _ _ _.
  split; [exact B1|exact B2|exact (eq_trans B3 A3)| | | | |auto].
  - by rewrite B4, A4, app_assoc.
  - by rewrite B5, A5, app_assoc.
  - eapply sent_chain_app; [exact A6|]. by rewrite <- Ei.
  - pose proof (sent_chain_le _ _ _ _ _ A6). intros H1 H2. rewrite <- Er. apply B7; [lia|]. rewrite Er. auto.
Qed.

Lemma read_core W s st n :
  sender_core W s -> pop_spec (sd_stream s) n st -> 0 <= n ->
  sender_core W (TCPSender_set_stream s st) /\
  bs_bytes_read st = bs_bytes_read (sd_stream s) + Z.min n (zlen (bs_contents (sd_stream s))) /\
  sender_frame (TCPSender_set_stream s st) = sender_frame s.
Proof.
  intros [] [P1 P2 P3 P4 P5 P6 P7] Hn. pose proof (zlen_nonneg (bs_contents (sd_stream s))) as H0.
  assert (zlen (bs_contents (sd_stream s)) = zlen W - bs_bytes_read (sd_stream s)) as Hc.
  { rewrite sc_contents0, zlen_zdrop. lia. }
  unfold index_limit in *. rewrite u64_small in P4 by lia.
  split; [|split; [done|]].
  - split; simpl; try done; try lia.
    rewrite P2, P4, <- (zdrop_min n (bs_contents _)) by done. rewrite sc_contents0 at 2.
    apply zdrop_zdrop; lia.
  - unfold sender_frame. simpl. congruence.
Qed.

(** The bytes read from the stream make the next segment. *)
Lemma next_segment_sent W s st payload seg f :
  sender_core W s -> sd_next_seqno s = 1 + bs_bytes_read (sd_stream s) ->
  payload = ztake (zlen payload) (bs_contents (sd_stream s)) -> zlen payload <= MAX_PAYLOAD_SIZE ->
  pop_spec (sd_stream s) (zlen payload) st -> (f = true -> bs_contents st = []) ->
  ts_payload seg = Buffer_of_string payload -> th_seqno (ts_header seg) = TCPSender_next_seqno s ->
  th_syn (ts_header seg) = false -> th_fin (ts_header seg) = f -> th_doff (ts_header seg) = 5 ->
  sent_segment W (sd_isn s) seg (sd_next_seqno s) /\ seg_len seg = zlen payload + b2z f.
Proof.
  intros Hc Hnext Hpl Hmax Hpop Hf Epl Eseq Esyn Efin Edoff.
  destruct (read_core W s st (zlen payload) Hc Hpop (zlen_nonneg _)) as (Hc0 & Hrd & _).
  pose proof (zlen_nonneg payload). pose proof (sc_read _ _ Hc) as Hr. pose proof (sc_read _ _ Hc0) as Hr0.
  simpl in Hr0. unfold MAX_PAYLOAD_SIZE in *. pose proof (sc_limit _ _ Hc).
  assert (zlen payload <= zlen (bs_contents (sd_stream s))) as Hple.
  { rewrite Hpl at 1. rewrite zlen_ztake. pose proof (zlen_nonneg (bs_contents (sd_stream s))). lia. }
  assert (Buffer_str (ts_payload seg) = payload) as Hbs by (rewrite Epl; apply Buffer_of_string_str; lia).
  split; [|unfold seg_len; rewrite Hbs, Esyn, Efin; simpl; lia].
  split; [done|lia|congruence|lia| | |done].
  - intros _. rewrite Hbs, Efin. split.
    + lia.
    + rewrite Hpl at 1. rewrite (sc_contents _ _ Hc). unfold slice. do 2 f_equal. lia.
    + intros ->. pose proof (sc_contents _ _ Hc0) as Hcc. simpl in Hcc. rewrite Hf in Hcc by done.
      apply (f_equal zlen) in Hcc. rewrite zlen_zdrop, zlen_nil in Hcc. lia.
  - unfold Buffer_size. rewrite Hbs, Epl. split; [apply Buffer_of_string_wf; lia|unfold MAX_PAYLOAD_SIZE; lia].
Qed.

(** The state in which the segment is sent. *)
Lemma read_state W s st n (f : bool) :
  sender_core W s -> sd_fined s = false -> pop_spec (sd_stream s) n st -> 0 <= n ->
  let s0 := TCPSender_set_stream s st in
  let s1 := if f then TCPSender_set_fined s0 true else s0 in
  sender_core W s1 /\ sd_isn s1 = sd_isn s /\ sd_next_seqno s1 = sd_next_seqno s /\ sd_stream s1 = st /\
  sd_fined s1 = f /\ sender_frame s1 = sender_frame s /\ sd_segments_out s1 = sd_segments_out s /\
  sd_segments_pending s1 = sd_segments_pending s.
Proof.
  intros Hc Hnf Hpop Hn s0 s1. destruct (read_core W s st n Hc Hpop Hn) as (Hc0 & _ & Hfr).
  unfold s1. destruct f; [|by split_and!]. split; [|by split_and!].
  destruct Hc0 as [C1 C2 C3 C4 C5 C6 C7 [C81 C82] C9]. split; try done.
  split; eapply Forall_impl; [exact C81| |exact C82|]; intros seg; by apply sent_by_mono.
Qed.

Lemma filled_one W s st b payload (f : bool) :
  sender_core W s -> sender_pos W s -> 1 <= sd_next_seqno s -> sd_fined s = false -> builder_clean b ->
  payload = ztake (zlen payload) (bs_contents (sd_stream s)) -> zlen payload <= MAX_PAYLOAD_SIZE ->
  pop_spec (sd_stream s) (zlen payload) st ->
  (f = true -> bs_input_ended (sd_stream s) = true /\ bs_contents st = []) ->
  0 < zlen payload + b2z f ->
  (sd_next_seqno s <= sd_receiver_window_right s ->
     zlen payload + b2z f <= sd_receiver_window_right s - sd_next_seqno s) ->
  let b1 := with_data payload (with_seqno (TCPSender_next_seqno s) b) in
  let s0 := TCPSender_set_stream s st in
  filled W s (TCPSender_send (if f then TCPSender_set_fined s0 true else s0) (if f then with_fin b1 else b1))
    [build_segment (if f then with_fin b1 else b1)].
Proof.
  intros Hc Hp Hn Hnf (B1 & B2 & B3 & B4) Hpl Hmax Hpop Hf Hpos Hwin b1 s0.
  set (bb := if f then with_fin b1 else b1).
  destruct (read_state W s st _ f Hc Hnf Hpop (zlen_nonneg _)) as (Hc1 & E1 & E2 & E3 & E4 & E5 & E6 & E7).
  fold s0 in Hc1, E1, E2, E3, E4, E5, E6, E7. set (s1 := if f then TCPSender_set_fined s0 true else s0) in *.
  assert (sd_next_seqno s = 1 + bs_bytes_read (sd_stream s)) as Hnext.
  { destruct (sp_next _ _ Hp) as [?|E]; [lia|]. rewrite Hnf in E. simpl in E. lia. }
  destruct (next_segment_sent W s st payload (build_segment bb) f) as [Hss Hsl];
    [done|done|done|done|done|by intros [_ ?]%Hf|by destruct f..|].
  pose proof (sc_read _ _ Hc) as Hr. pose proof (sc_limit _ _ Hc) as Hlim. unfold index_limit in Hlim.
  destruct (TCPSender_send_core W s1 bb Hc1) as (Hc2 & Hn2).
  { by rewrite E1, E2. } { rewrite E4. unfold bb. destruct f; [done|]. simpl. congruence. } { lia. }
  destruct (read_core W s st (zlen payload) Hc Hpop (zlen_nonneg _)) as (Hc0 & Hrd & _).
  assert (zlen payload <= zlen (bs_contents (sd_stream s))) as Hple.
  { rewrite Hpl at 1. rewrite zlen_ztake. pose proof (zlen_nonneg (bs_contents (sd_stream s))). lia. }
  rewrite Z.min_l in Hrd by done.
  rewrite Hsl, E2 in Hn2. pose proof (sent_length _ _ _ _ Hss) as Hlen. rewrite Hsl in Hlen.
  rewrite TCPSender_send_eq in *. cbn zeta in *. rewrite Hlen in *. split; simpl in *.
  - exact Hc2.
  - split; simpl; rewrite E3, E4; [right; rewrite Hn2, Hrd; lia|].
    intros ->. destruct (Hf eq_refl) as [He1 He2]. split; [rewrite <- He1; apply Hpop|].
    pose proof (sc_contents _ _ Hc0) as Hcc. simpl in Hcc. rewrite He2 in Hcc.
    pose proof (sc_read _ _ Hc0) as Hr0. simpl in Hr0.
    apply (f_equal zlen) in Hcc. rewrite zlen_zdrop, zlen_nil in Hcc. lia.
  - rewrite <- E5. done.
  - by rewrite E6.
  - rewrite E7. by rewrite (proj2 (Z.ltb_lt _ _) Hpos).
  - split_and!; [done|lia|lia].
  - lia.
  - congruence.
Qed.

Lemma pop_spec_min s n s' : 0 <= n -> pop_spec s n s' -> pop_spec s (Z.min n (zlen (bs_contents s))) s'.
Proof.
  intros Hn [P1 P2 P3 P4 P5 P6 P7]. pose proof (zlen_nonneg (bs_contents s)).
  split; try done; [by rewrite zdrop_min|]. rewrite P4. do 2 f_equal. lia.
Qed.

Lemma ztake_nonempty {A} n (l : list A) : 0 < n -> ztake n l = [] -> l = [].
Proof.
  intros Hn Hl. apply zlen_zero_nil. apply (f_equal zlen) in Hl. zl.
Qed.

Lemma window_remaining_range s : 0 <= window_remaining s < 2 ^ 64.
Proof. apply u64_range. Qed.

Lemma window_remaining_eq W s : sender_core W s -> 0 <= sd_next_seqno s ->
  sd_next_seqno s <= sd_receiver_window_right s ->
  window_remaining s = sd_receiver_window_right s - sd_next_seqno s.
Proof.
  intros Hc H1 H2. pose proof (sc_window _ _ Hc). unfold window_remaining, TCPSender_next_seqno_absolute.
  apply u64_small. lia.
Qed.

Lemma sender_pos_range W s : sender_core W s -> sender_pos W s -> 0 <= sd_next_seqno s < 2 ^ 63.
Proof.
  intros Hc [[(? & _)|Hp] _]; [lia|]. pose proof (sc_read _ _ Hc). pose proof (sc_limit _ _ Hc).
  unfold index_limit, b2z in *. destruct (sd_fined s); lia.
Qed.

Definition fill_measure (s : TCPSender) : Z := zlen (bs_contents (sd_stream s)) + b2z (negb (sd_fined s)).

(** One turn of the loop that sends something. *)
Lemma fill_turn W s st b (f : bool) :
  let lim := Z.min (window_remaining s) MAX_PAYLOAD_SIZE in
  let payload := ztake lim (bs_contents (sd_stream s)) in
  sender_core W s -> sender_pos W s -> 1 <= sd_next_seqno s -> sd_fined s = false -> builder_clean b ->
  0 < lim -> pop_spec (sd_stream s) lim st ->
  (f = true -> bs_input_ended (sd_stream s) = true /\ bs_contents st = [] /\
     (zlen payload < lim \/ lim < window_remaining s)) ->
  (f = false -> payload <> []) ->
  let b1 := with_data payload (with_seqno (TCPSender_next_seqno s) b) in
  let s0 := TCPSender_set_stream s st in
  let s1 := TCPSender_send (if f then TCPSender_set_fined s0 true else s0) (if f then with_fin b1 else b1) in
  filled W s s1 [build_segment (if f then with_fin b1 else b1)] /\ fill_measure s1 < fill_measure s /\
  sd_fined s1 = f.
Proof.
  intros lim payload Hc Hp Hn Hnf Hb Hlim Hpop Hf Hnf' b1 s0 s1.
  set (c := bs_contents (sd_stream s)) in *. pose proof (zlen_nonneg c).
  assert (zlen payload = Z.min lim (zlen c)) as Hlen by (unfold payload; rewrite zlen_ztake; lia).
  assert (sd_fined s1 = f) as Hf1 by (unfold s1; rewrite TCPSender_send_eq; by destruct f).
  split; [|split; [|done]].
  - apply filled_one; try done.
    + rewrite Hlen. unfold payload. fold c. destruct (Z.le_gt_cases lim (zlen c)).
      * by rewrite Z.min_l.
      * rewrite Z.min_r by lia. by rewrite !ztake_ge by lia.
    + lia.
    + rewrite Hlen. apply pop_spec_min; [lia|done].
    + intros ->. by destruct (Hf eq_refl) as (? & ? & _).
    + destruct f; simpl; [lia|]. destruct payload eqn:E; [by destruct (Hnf' eq_refl)|]. rewrite zlen_cons in *. zl.
    + intros Hw. pose proof (window_remaining_eq W s Hc ltac:(lia) Hw).
      destruct f; simpl; [destruct (Hf eq_refl) as (_ & _ & [?|?])|]; lia.
  - assert (bs_contents (sd_stream s1) = zdrop lim c) as Hc1.
    { transitivity (bs_contents st); [unfold s1; rewrite TCPSender_send_eq; by destruct f|apply Hpop]. }
    unfold fill_measure. fold c. rewrite Hf1, Hnf, Hc1, zlen_zdrop. destruct f; simpl; [lia|].
    destruct c; [|rewrite zlen_cons in *; zl]. destruct (Hnf' eq_refl). by unfold payload, ztake; rewrite take_nil.
Qed.

(** The loop ends because the window is full or the FIN has been sent. *)
Lemma fill_stop W s : sender_core W s -> sender_pos W s ->
  Z.min (window_remaining s) MAX_PAYLOAD_SIZE <= 0 \/ sd_fined s = true -> sender_full s.
Proof.
  intros Hc Hp [Hlim|Hfd]; [left|right].
  - pose proof (window_remaining_range s). pose proof (sender_pos_range W s Hc Hp).
    pose proof (sc_window _ _ Hc) as [_ Hr].
    unfold MAX_PAYLOAD_SIZE, window_remaining, TCPSender_next_seqno_absolute in *.
    assert (u64 (sd_receiver_window_right s - sd_next_seqno s) = 0) as Hz by lia. wrap_lia.
  - destruct (sp_fined _ _ Hp Hfd) as [_ Hrd]. rewrite (sc_contents _ _ Hc), Hrd, zdrop_ge by lia. done.
Qed.

(** The loop ends because there is nothing to read and more may come. *)
Lemma fill_break W s st lim : sender_core W s -> sender_pos W s ->
  0 < lim -> pop_spec (sd_stream s) lim st -> ztake lim (bs_contents (sd_stream s)) = [] ->
  bs_input_ended (sd_stream s) && (zlen (bs_contents st) =? 0) = false ->
  filled W s (TCPSender_set_stream s st) [] /\ sender_full (TCPSender_set_stream s st).
Proof.
  intros Hc Hp Hlim Hpop Hpe He.
  destruct (read_core W s st lim Hc Hpop ltac:(lia)) as (Hc0 & Hrd & Hfr).
  pose proof (ztake_nonempty _ _ Hlim Hpe) as Hnil. rewrite Hnil, zlen_nil, Z.min_r, Z.add_0_r in Hrd by lia.
  assert (bs_contents st = []) as Hst by (rewrite (ps_contents _ _ _ Hpop), Hnil; by apply zdrop_ge; zl).
  rewrite Hst in He. split.
  - split; rewrite ?app_nil_r; try done. destruct Hp as [P1 P2]. split; simpl; rewrite ?Hrd; try done.
    by rewrite (ps_ended _ _ _ Hpop).
  - right. simpl. split; [done|]. rewrite (ps_ended _ _ _ Hpop). intros Hi. by rewrite Hi in He.
Qed.

Lemma fill_loop_spec W fuel s b :
  sender_core W s -> sender_pos W s -> 1 <= sd_next_seqno s -> (sd_fined s = false -> builder_clean b) ->
  fill_measure s < Z.of_nat fuel ->
  exists s' new, fill_loop fuel s b (window_remaining s) (Z.min (window_remaining s) MAX_PAYLOAD_SIZE) = Ok s' /\
    filled W s s' new /\ sender_full s'.
Proof.
  revert s b. induction fuel as [|fuel IH]; intros s b Hc Hp Hn Hb Hfuel.
  { unfold fill_measure, b2z in Hfuel. destruct (negb _); zl. }
  cbn [fill_loop]. set (lim := Z.min (window_remaining s) MAX_PAYLOAD_SIZE).
  destruct ((0 <? lim) && negb (sd_fined s)) eqn:Hgo; b2p.
  2:{ eexists _, []. split; [done|]. split; [by apply filled_refl|]. apply (fill_stop W); [done..|].
      destruct Hgo as [H|H]; b2p; [left; exact H|by right]. }
  specialize (Hb ltac:(done)).
  destruct (ByteStream_read_ok (sd_stream s) lim (sc_stream _ _ Hc) ltac:(lia)) as (st & Er & Hpop).
  rewrite Er. cbn [mbind result_bind]. set (payload := ztake lim (bs_contents (sd_stream s))).
  cbn [sd_stream TCPSender_set_stream]. rewrite (ByteStream_eof_eq st (ps_wf _ _ _ Hpop)).
  rewrite (ps_ended _ _ _ Hpop). set (eof := bs_input_ended (sd_stream s) && (zlen (bs_contents st) =? 0)).
  assert (forall f b1 s1,
    let b0 := with_data payload (with_seqno (TCPSender_next_seqno s) b) in
    let s0 := TCPSender_set_stream s st in
    (f = true -> eof = true /\ (zlen payload < lim \/ lim < window_remaining s)) -> (f = false -> payload <> []) ->
    b1 = (if f then with_fin b0 else b0) ->
    s1 = TCPSender_send (if f then TCPSender_set_fined s0 true else s0) b1 ->
    exists s' new, fill_loop fuel s1 b1 (window_remaining s1) (Z.min (window_remaining s1) MAX_PAYLOAD_SIZE) = Ok s' /\
      filled W s s' new /\ sender_full s') as Hturn.
  { intros f b1 s1 b0 s0 Hf Hnf -> ->. destruct (fill_turn W s st b f) as (F1 & F2 & F3); try done.
    { intros ->. destruct (Hf eq_refl) as [He ?]. unfold eof in He. b2p.
      split_and!; [done|by apply zlen_zero_nil|done]. }
    pose proof (sent_chain_le _ _ _ _ _ (fl_chain _ _ _ _ F1)).
    destruct (IH _ (if f then with_fin b0 else b0) (fl_core _ _ _ _ F1) (fl_pos _ _ _ _ F1))
      as (s' & new & E & G1 & G2); [lia|rewrite F3; by intros ->|lia|].
    eexists s', _. split; [exact E|]. split; [by eapply filled_trans|done]. }
  destruct (bool_decide_reflect (payload = [])) as [Hpe|Hpe], eof eqn:He; cbn [andb negb].
  - destruct (Z.ltb_spec (zlen payload) lim); [|rewrite Hpe in *; zl].
    apply (Hturn true); try done. by intros _; split; [|left].
  - eexists _, []. split; [done|]. by apply (fill_break W s st lim).
  - destruct (Z.ltb_spec (zlen payload) lim); [apply (Hturn true); try done; by intros _; split; [|left]|].
    destruct (Z.ltb_spec lim (window_remaining s)); [apply (Hturn true); try done; by intros _; split; [|right]|].
    by apply (Hturn false).
  - by apply (Hturn false).
Qed.

Lemma syn_filled W s : sender_core W s -> sender_pos W s -> sd_next_seqno s = 0 ->
  let b := with_syn (with_seqno (TCPSender_next_seqno s) TCPSegmentBuilder_default) in
  filled W s (TCPSender_send s b) [build_segment b] /\ sd_next_seqno (TCPSender_send s b) = 1.
Proof.
  intros Hc [Hp1 Hp2] Hn b.
  assert (sent_segment W (sd_isn s) (build_segment b) 0) as Hss.
  { split; [by rewrite <- Hn|lia|done|done|lia| |done]. split; [by apply Buffer_of_string_wf|].
    by vm_compute. }
  assert (sd_fined s = false /\ bs_bytes_read (sd_stream s) = 0) as [Hf Hr].
  { destruct Hp1 as [(_ & ? & ?)|E]; [done|]. pose proof (sc_read _ _ Hc). unfold b2z in E.
    destruct (sd_fined s); lia. }
  destruct (TCPSender_send_core W s b Hc) as (Hc2 & _); [by rewrite Hn|done|lia|].
  assert (u64 (sd_next_seqno s + 1) = 1) as Hn2 by by rewrite Hn.
  pose proof (sent_length _ _ _ _ Hss) as Hlen. change (seg_len (build_segment b)) with 1 in Hlen.
  rewrite TCPSender_send_eq in *. cbn zeta in *. rewrite Hlen in *. split; [|done].
  split; simpl; try done.
  - split; simpl; rewrite Hf; [rewrite Hn2, Hr; by right|done].
  - rewrite Hn. split_and!; [done|by vm_compute|by vm_compute].
  - lia.
Qed.

Lemma fill_window_ok W s : sender_core W s -> sender_pos W s ->
  exists s' new, TCPSender_fill_window s = Ok s' /\ filled W s s' new /\ 1 <= sd_next_seqno s' /\
    (1 <= sd_next_seqno s -> sender_full s').
Proof.
  intros Hc Hp. pose proof (sender_pos_range W s Hc Hp) as Hr.
  unfold TCPSender_fill_window, TCPSender_in_closed, TCPSender_next_seqno_absolute.
  destruct (Z.eqb_spec (sd_next_seqno s) 0) as [E|E].
  { destruct (syn_filled W s Hc Hp E) as [Hf H1]. eexists _, _. split; [done|]. split; [exact Hf|].
    rewrite H1. split; [lia|]. rewrite E. lia. }
  destruct (fill_loop_spec W (Z.to_nat (ByteStream_buffer_size (sd_stream s)) + 2) s TCPSegmentBuilder_default)
    as (s' & new & El & Hf & Hfull); [done|done|lia|done| |].
  { rewrite (bs_wf_size _ (sc_stream _ _ Hc)). unfold fill_measure, b2z. pose proof (zlen_nonneg (bs_contents (sd_stream s))).
    destruct (negb _); lia. }
  exists s', new. split; [done|]. split; [done|]. split; [|done].
  pose proof (sent_chain_le _ _ _ _ _ (fl_chain _ _ _ _ Hf)). lia.
Qed.

(** ** Acknowledgments and time *)

Lemma pop_acked_suffix isn left l : exists k, l = k ++ pop_acked isn left l.
Proof.
  induction l as [|seg l [k Hk]]; [by exists []|]. simpl.
  destruct (_ <=? left); [|by exists []]. exists (seg :: k). simpl. by rewrite <- Hk.
Qed.

Lemma unwrap_range n isn cp : 0 <= cp < 2 ^ 64 -> 0 <= unwrap n isn cp < 2 ^ 64.
Proof. intros. unfold unwrap. destruct (0 <=? _); cases_if; try apply u64_range. Qed.

(** A state that differs from [s] in its window, its timer and by segments that
    are no longer pending. *)
Lemma sender_core_acked W s size left right rto (pending : list TCPSegment) zero consec timer :
  sender_core W s -> 0 <= left < 2 ^ 64 -> 0 <= right < 2 ^ 64 -> (exists k, sd_segments_pending s = k ++ pending) ->
  rt_running timer = bool_decide (pending <> []) /\ (rt_running timer = true -> rt_timeout timer = rto) ->
  sender_core W (MkTCPSender (sd_isn s) (sd_segments_out s) (sd_initial_retransmission_timeout s) (sd_stream s)
    (sd_next_seqno s) zero size left right rto pending (sd_syned s) (sd_fined s) timer consec).
Proof.
  intros [C1 C2 C3 C4 C5 C6 C7 [C81 C82] C9] Hl Hr [k Hk] Ht. split; simpl; try done.
  assert (forall l, Forall (sent_by W s) l -> Forall (sent_by W (MkTCPSender (sd_isn s) (sd_segments_out s)
    (sd_initial_retransmission_timeout s) (sd_stream s) (sd_next_seqno s) zero size left right rto pending
    (sd_syned s) (sd_fined s) timer consec)) l) as Hm.
  { intros l Hl'. eapply Forall_impl; [exact Hl'|]. intros seg. by apply sent_by_mono. }
  rewrite Hk in C82. apply Forall_app in C82 as [_ C82]. split; by apply Hm.
Qed.

(** The timer after an acknowledgment of new data. *)
Definition acked_timer (s : TCPSender) (pending : list TCPSegment) : RetransmissionTimer :=
  if bool_decide (pending <> []) then MkRetransmissionTimer (sd_initial_retransmission_timeout s) 0 true
  else RetransmissionTimer_stop (sd_timer s).

(** The state in which [ack_received] fills the window. *)
Definition acked_sender (s : TCPSender) (zero : bool) (size a : Z) : TCPSender :=
  let pending := pop_acked (sd_isn s) a (sd_segments_pending s) in
  MkTCPSender (sd_isn s) (sd_segments_out s) (sd_initial_retransmission_timeout s) (sd_stream s)
    (sd_next_seqno s) zero size a (u64 (a + size)) (sd_initial_retransmission_timeout s) pending (sd_syned s)
    (sd_fined s) (acked_timer s pending) 0.

(** [ack_received] in closed form. *)
Lemma ack_received_eq s ackno win :
  let a := unwrap ackno (sd_isn s) (sd_receiver_window_left s) in
  let size := if win =? 0 then 1 else win in
  let s0 := TCPSender_set_zero_window s (win =? 0) in
  TCPSender_ack_received s ackno win =
    if sd_receiver_window_right s <? a then Ok s0
    else if sd_receiver_window_left s <? a then TCPSender_fill_window (acked_sender s (win =? 0) size a)
    else if a =? sd_receiver_window_left s then Ok (TCPSender_set_window s0 size a (u64 (a + size)))
    else Ok s0.
Proof.
  unfold TCPSender_ack_received, acked_sender, acked_timer.
  destruct (win =? 0); simpl; by destruct (pop_acked (sd_isn s) _ (sd_segments_pending s)).
Qed.

Lemma acked_timer_ok s pending :
  rt_running (acked_timer s pending) = bool_decide (pending <> []) /\
  (rt_running (acked_timer s pending) = true ->
   rt_timeout (acked_timer s pending) = sd_initial_retransmission_timeout s).
Proof. unfold acked_timer. by destruct (bool_decide (pending <> [])). Qed.

Lemma ack_received_ok W s ackno win :
  sender_core W s -> sender_pos W s -> 0 <= win < 2 ^ 16 ->
  exists s' new, TCPSender_ack_received s ackno win = Ok s' /\ sender_core W s' /\ sender_pos W s' /\
    sd_isn s' = sd_isn s /\ sd_segments_out s' = sd_segments_out s ++ new /\
    sd_next_seqno s <= sd_next_seqno s' /\ (sd_fined s = true -> sd_fined s' = true).
Proof.
  intros Hc Hp Hw. rewrite ack_received_eq. cbn zeta.
  destruct (sc_window _ _ Hc) as [Hleft Hright]. pose proof (sc_timer _ _ Hc) as Ht.
  pose proof (unwrap_range ackno (sd_isn s) _ Hleft) as Ha.
  set (a := unwrap ackno (sd_isn s) (sd_receiver_window_left s)) in *. set (size := if win =? 0 then 1 else win).
  assert (forall s1, sender_core W s1 -> sd_isn s1 = sd_isn s -> sd_next_seqno s1 = sd_next_seqno s ->
    sd_stream s1 = sd_stream s -> sd_fined s1 = sd_fined s -> sd_segments_out s1 = sd_segments_out s ->
    exists s' new, Ok s1 = Ok s' /\ sender_core W s' /\ sender_pos W s' /\
      sd_isn s' = sd_isn s /\ sd_segments_out s' = sd_segments_out s ++ new /\
      sd_next_seqno s <= sd_next_seqno s' /\ (sd_fined s = true -> sd_fined s' = true)) as Hdone.
  { intros s1 H1 E1 E2 E3 E4 E5. exists s1, []. rewrite app_nil_r. split_and!; try done; [|lia|by rewrite E4].
    destruct Hp as [P1 P2]. split; by rewrite ?E2, ?E3, ?E4. }
  assert (exists k, sd_segments_pending s = k ++ sd_segments_pending s) as Hself by by exists [].
  destruct (sd_receiver_window_right s <? a); [apply Hdone; [by apply (sender_core_acked W s)|done..]|].
  destruct (sd_receiver_window_left s <? a).
  2:{ destruct (a =? sd_receiver_window_left s); (apply Hdone; [|done..]);
      by apply (sender_core_acked W s); try apply u64_range. }
  destruct (fill_window_ok W (acked_sender s (win =? 0) size a)) as (s' & new & E & Hf & _).
  { apply (sender_core_acked W s); [done|done|apply u64_range|apply pop_acked_suffix|apply acked_timer_ok]. }
  { by destruct Hp. }
  exists s', new. split; [exact E|]. pose proof (sent_chain_le _ _ _ _ _ (fl_chain _ _ _ _ Hf)).
  pose proof (fl_frame _ _ _ _ Hf) as Fr. unfold sender_frame in Fr. injection Fr as Ei _ _ _ _ _ _ _ _ _ _.
  split_and!; try apply Hf; done.
Qed.

(** What [tick] does, by cases. *)
Definition tick_fires (s : TCPSender) (ms : Z) : bool :=
  bool_decide (sd_segments_pending s <> []) && (rt_timeout (sd_timer s) <=? u64 (rt_time_elapsed (sd_timer s) + ms)).

Definition backed_off (s : TCPSender) : Z :=
  if sd_zero_window_size s then sd_retransmission_timeout s else u32 (sd_retransmission_timeout s * 2).

Lemma tick_eq W s ms : sender_core W s ->
  TCPSender_tick s ms =
    let fires := tick_fires s ms in
    MkTCPSender (sd_isn s)
      (sd_segments_out s ++ if fires then option_list (head (sd_segments_pending s)) else [])
      (sd_initial_retransmission_timeout s) (sd_stream s)
      (sd_next_seqno s) (sd_zero_window_size s) (sd_receiver_window_size s) (sd_receiver_window_left s)
      (sd_receiver_window_right s) (if fires then backed_off s else sd_retransmission_timeout s)
      (sd_segments_pending s) (sd_syned s) (sd_fined s)
      (if fires then MkRetransmissionTimer (backed_off s) 0 true
       else match sd_segments_pending s with
            | [] => sd_timer s
            | _ => MkRetransmissionTimer (rt_timeout (sd_timer s)) (u64 (rt_time_elapsed (sd_timer s) + ms)) true
            end)
      (if fires then u32 (sd_consecutive_retransmissions s + 1) else sd_consecutive_retransmissions s).
Proof.
  intros Hc. destruct (sc_timer _ _ Hc) as [Ht _].
  unfold TCPSender_tick, tick_fires, backed_off, RetransmissionTimer_tick, RetransmissionTimer_timeout.
  destruct s as [isn out irto st next zero size left right rto pending syned fined [t e run] consec]. simpl in *.
  destruct pending as [|seg pending]; [rewrite bool_decide_false in Ht by tauto|rewrite bool_decide_true in Ht by done];
    subst run; simpl.
  - by rewrite app_nil_r.
  - destruct (t <=? u64 (e + ms)); simpl; [by destruct zero|by rewrite app_nil_r].
Qed.

Lemma tick_ok W s ms : sender_core W s -> sender_pos W s ->
  sender_core W (TCPSender_tick s ms) /\ sender_pos W (TCPSender_tick s ms).
Proof.
  intros Hc Hp. rewrite (tick_eq W) by done. cbn zeta. split; [|by destruct Hp].
  destruct Hc as [C1 C2 C3 C4 C5 C6 C7 [C81 C82] [C91 C92]]. split; simpl; try done.
  - split; [apply Forall_app; split|].
    + eapply Forall_impl; [exact C81|]. intros seg. by apply sent_by_mono.
    + destruct (tick_fires s ms); [|apply Forall_nil_2].
      destruct (sd_segments_pending s) as [|seg l]; [apply Forall_nil_2|]. simpl. apply Forall_singleton.
      apply Forall_cons in C82 as [C82 _]. eapply sent_by_mono; [| | |exact C82]; done.
    + eapply Forall_impl; [exact C82|]. intros seg. by apply sent_by_mono.
  - unfold tick_fires. destruct (sd_segments_pending s); simpl; [done|].
    destruct (_ <=? _); simpl; [done|]. split; [done|]. intros _. by apply C92.
Qed.

(** An empty segment carries the next sequence number. *)
Lemma send_empty_ok W s : sender_core W s -> sender_pos W s ->
  exists seg, TCPSender_send_empty_segment s = TCPSender_set_segments_out s (sd_segments_out s ++ [seg]) /\
    sender_core W (TCPSender_send_empty_segment s) /\ sender_pos W (TCPSender_send_empty_segment s).
Proof.
  intros Hc Hp. unfold TCPSender_send_empty_segment.
  set (b := with_seqno _ _). pose proof (sender_pos_range W s Hc Hp) as Hr.
  assert (sent_segment W (sd_isn s) (build_segment b) (sd_next_seqno s)) as Hss.
  { split; [reflexivity|lia|discriminate|done| |split; [by apply Buffer_of_string_wf|by vm_compute]|done].
    intros Hn. change (Buffer_str (ts_payload (build_segment b))) with (@nil Z).
    split; [change (zlen (@nil Z)) with 0; unfold index_limit; lia| |discriminate]. symmetry. by apply slice_none. }
  destruct (TCPSender_send_core W s b Hc Hss) as (Hc2 & Hn2); [done|lia|].
  change (seg_len (build_segment b)) with 0 in Hn2.
  assert (TCPSender_send s b = TCPSender_set_segments_out s (sd_segments_out s ++ [build_segment b])) as E.
  { rewrite TCPSender_send_eq. cbn zeta. change (TCPSegment_length_in_sequence_space (build_segment b)) with 0.
    simpl. rewrite app_nil_r, Z.add_0_r, u64_small by lia. done. }
  exists (build_segment b). split; [done|]. split; [done|]. rewrite E. by destruct Hp.
Qed.

(** Writing to the outgoing stream, before its end. *)
Lemma sent_segment_more W W' isn seg a :
  sent_segment W isn seg a -> th_fin (ts_header seg) = false -> sent_segment (W ++ W') isn seg a.
Proof.
  intros [] Hf. split; try done. intros Ha. destruct (ss_data0 Ha) as [S1 S2 S3].
  split; [done| |by rewrite Hf]. set (d := Buffer_str (ts_payload seg)) in *.
  destruct (Z.eq_dec (zlen d) 0) as [E|E].
  { rewrite (zlen_zero_nil d) by done. symmetry. by apply slice_none. }
  pose proof (zlen_nonneg d). pose proof (slice_inside W d (a - 1) ltac:(lia) S2 ltac:(lia)).
  rewrite slice_app_l by lia. done.
Qed.

Lemma sent_by_more W W' s l :
  sd_fined s = false -> Forall (sent_by W s) l -> Forall (sent_by (W ++ W') s) l.
Proof.
  intros Hf Hl. eapply Forall_impl; [exact Hl|]. intros seg (a & Ha1 & Ha2 & Ha3). exists a.
  split_and!; try done. apply sent_segment_more; [done|].
  destruct (th_fin (ts_header seg)); [|done]. specialize (Ha3 eq_refl). congruence.
Qed.

Lemma write_ok W s d st n :
  sender_core W s -> sender_pos W s -> sd_fined s = false ->
  ByteStream_write (sd_stream s) d = (st, n) -> zlen W + zlen d + 2 < index_limit ->
  sender_core (W ++ ztake n d) (TCPSender_set_stream s st) /\
  sender_pos (W ++ ztake n d) (TCPSender_set_stream s st).
Proof.
  intros Hc Hp Hnf Hw Hlim. pose proof (zlen_nonneg d). unfold index_limit in *.
  destruct Hc as [C1 C2 C3 C4 C5 C6 C7 [C81 C82] C9].
  apply ByteStream_write_ok in Hw as [W1 W2 W3 W4 W5 W6 W7 W8]; [|done|lia].
  pose proof (bs_wf_fits _ C2). pose proof (zlen_nonneg (bs_contents (sd_stream s))). pose proof (zlen_nonneg W).
  assert (zlen (ztake n d) = n) as Hn by (rewrite zlen_ztake; lia).
  assert (forall l, Forall (sent_by W s) l -> Forall (sent_by (W ++ ztake n d) (TCPSender_set_stream s st)) l) as Hm.
  { intros l Hl. exact (sent_by_more W (ztake n d) s l Hnf Hl). }
  split.
  - split; simpl; rewrite ?zlen_app, ?Hn, ?W5; unfold index_limit; try done; try lia; auto.
    + rewrite W4, C3. apply u64_small. lia.
    + rewrite W3, C5. by rewrite zdrop_app_le by lia.
  - destruct Hp as [P1 P2]. split; simpl; rewrite ?W5; [done|]. congruence.
Qed.

Lemma end_input_ok W s : sender_core W s -> sender_pos W s ->
  sender_core W (TCPSender_set_stream s (ByteStream_end_input (sd_stream s))) /\
  sender_pos W (TCPSender_set_stream s (ByteStream_end_input (sd_stream s))).
Proof.
  intros [C1 C2 C3 C4 C5 C6 C7 C8 C9] [P1 P2]. split.
  - split; simpl; auto with sponge.
  - split; simpl; [done|]. intros H. by destruct (P2 H).
Qed.

(** The owner takes segments out of the queue. *)
Lemma drain_ok W s l k : sd_segments_out s = l ++ k ->
  sender_core W s -> sender_pos W s ->
  sender_core W (TCPSender_set_segments_out s k) /\ sender_pos W (TCPSender_set_segments_out s k).
Proof.
  intros E [C1 C2 C3 C4 C5 C6 C7 [C81 C82] C9] [P1 P2]. rewrite E in C81. apply Forall_app in C81 as [_ C81].
  split; [|by split]. split; simpl; try done.
Qed.

(** ** Runs of a sender *)

(** What the owner of a sender does to it; [snd_drain] takes the queued segments. *)
Inductive sender_op : Type :=
  | snd_write (data : bytes)
  | snd_end_input
  | snd_fill_window
  | snd_ack (ackno : WrappingInt32) (window_size : Z)
  | snd_tick (ms : Z)
  | snd_send_empty
  | snd_drain.

(** A sender, the bytes its stream has accepted, and the segments taken. *)
Definition sender_world : Type := TCPSender * bytes * list TCPSegment.

(** The owner does not write after the end of its stream. *)
Definition sender_exec (o : sender_op) (x : sender_world) : result sender_world :=
  let '(s, W, sent) := x in
  match o with
  | snd_write d =>
      if ByteStream_input_ended (sd_stream s) then Ok x
      else let '(st, n) := ByteStream_write (sd_stream s) d in
           Ok (TCPSender_set_stream s st, W ++ ztake n d, sent)
  | snd_end_input => Ok (TCPSender_set_stream s (ByteStream_end_input (sd_stream s)), W, sent)
  | snd_fill_window => s' ← TCPSender_fill_window s; Ok (s', W, sent)
  | snd_ack ackno win => s' ← TCPSender_ack_received s ackno win; Ok (s', W, sent)
  | snd_tick ms => Ok (TCPSender_tick s ms, W, sent)
  | snd_send_empty => Ok (TCPSender_send_empty_segment s, W, sent)
  | snd_drain => Ok (TCPSender_set_segments_out s [], W, sent ++ sd_segments_out s)
  end.

Fixpoint sender_run (ops : list sender_op) (x : sender_world) : result sender_world :=
  match ops with
  | [] => Ok x
  | o :: ops => x' ← sender_exec o x; sender_run ops x'
  end.

Definition sender_op_ok (o : sender_op) : Prop :=
  match o with snd_ack _ win => 0 <= win < 2 ^ 16 | _ => True end.

Definition op_bytes (o : sender_op) : Z := match o with snd_write d => zlen d | _ => 0 end.

Fixpoint ops_bytes (ops : list sender_op) : Z :=
  match ops with [] => 0 | o :: ops => op_bytes o + ops_bytes ops end.

Record world_inv (x : sender_world) : Prop := {
  wi_core : sender_core (snd (fst x)) (fst (fst x));
  wi_pos : sender_pos (snd (fst x)) (fst (fst x));
  wi_sent : Forall (sent_by (snd (fst x)) (fst (fst x))) (snd x)
}.

Lemma TCPSender_new_inv cap rto fixed random :
  0 <= cap < 2 ^ 64 -> WrappingInt32_ok (default (MkWrappingInt32 random) fixed) ->
  world_inv (TCPSender_new cap rto fixed random, [], []).
Proof.
  intros Hcap Hisn. split; simpl; [| |apply Forall_nil_2].
  - split; simpl; try done. by apply ByteStream_new_wf.
  - split; simpl; [by left|done].
Qed.

(** The segments taken were sent by the sender as it is now. *)
Lemma sent_later W s s' new l :
  filled W s s' new -> Forall (sent_by W s) l -> Forall (sent_by W s') l.
Proof.
  intros Hf Hl. pose proof (fl_frame _ _ _ _ Hf) as E. injection E as Ei _ _ _ _ _ _ _ _ _ _.
  eapply Forall_impl; [exact Hl|]. intros seg. apply sent_by_mono; [done| |apply Hf].
  apply (sent_chain_le _ _ _ _ _ (fl_chain _ _ _ _ Hf)).
Qed.

Lemma world_exec o x : world_inv x -> sender_op_ok o ->
  zlen (snd (fst x)) + op_bytes o + 2 < index_limit ->
  exists x', sender_exec o x = Ok x' /\ world_inv x' /\
    zlen (snd (fst x')) <= zlen (snd (fst x)) + op_bytes o.
Proof.
  destruct x as [[s W] sent]. intros [Hc Hp Hs] Ho Hlim. cbn [fst snd] in *.
  destruct o as [d| | |ackno win|ms| |]; cbn [sender_exec op_bytes] in *; rewrite ?Z.add_0_r in *.
  - unfold ByteStream_input_ended. destruct (bs_input_ended (sd_stream s)) eqn:He.
    { eexists. split; [done|]. split; [by split|]. pose proof (zlen_nonneg d). simpl. lia. }
    destruct (ByteStream_write (sd_stream s) d) as [st n] eqn:Ew.
    assert (sd_fined s = false) as Hnf.
    { destruct (sd_fined s) eqn:E; [|done]. destruct (sp_fined _ _ Hp E). congruence. }
    destruct (write_ok W s d st n Hc Hp Hnf Ew Hlim) as [Hc' Hp'].
    eexists. split; [done|]. cbn [fst snd]. split; [split; [exact Hc'|exact Hp'|]|zl].
    cbn [fst snd]. eapply Forall_impl; [exact Hs|]. intros seg (a & Ha1 & Ha2 & Ha3). exists a. simpl.
    split_and!; try done. apply sent_segment_more; [done|].
    destruct (th_fin (ts_header seg)); [|done]. destruct (sp_fined _ _ Hp (Ha3 eq_refl)). congruence.
  - destruct (end_input_ok W s Hc Hp) as [Hc' Hp']. eexists. split; [done|].
    split; [split; [exact Hc'|exact Hp'|]|simpl; lia]. eapply Forall_impl; [exact Hs|].
    intros seg. by apply sent_by_mono.
  - destruct (fill_window_ok W s Hc Hp) as (s' & new & E & Hf & _). rewrite E. cbn [mbind result_bind].
    eexists. split; [done|]. split; [split; [apply Hf|apply Hf|]|simpl; lia]. by eapply sent_later.
  - destruct (ack_received_ok W s ackno win Hc Hp Ho) as (s' & new & E & Hc' & Hp' & Hi & _ & Hn & Hf).
    rewrite E. cbn [mbind result_bind]. eexists. split; [done|].
    split; [split; [exact Hc'|exact Hp'|]|simpl; lia]. eapply Forall_impl; [exact Hs|].
    intros seg. by apply sent_by_mono.
  - destruct (tick_ok W s ms Hc Hp) as [Hc' Hp']. eexists. split; [done|].
    split; [split; [exact Hc'|exact Hp'|]|simpl; lia]. eapply Forall_impl; [exact Hs|].
    intros seg. cbn [fst snd]. rewrite (tick_eq W) by done. by apply sent_by_mono.
  - destruct (send_empty_ok W s Hc Hp) as (seg0 & E & Hc' & Hp'). eexists. split; [done|].
    split; [split; [exact Hc'|exact Hp'|]|simpl; lia]. eapply Forall_impl; [exact Hs|].
    intros seg. cbn [fst snd]. rewrite E. by apply sent_by_mono.
  - destruct (drain_ok W s (sd_segments_out s) []) as [Hc' Hp']; [by rewrite app_nil_r|done|done|].
    eexists. split; [done|]. split; [split; [exact Hc'|exact Hp'|]|simpl; lia]. apply Forall_app.
    split; (eapply Forall_impl; [|intros seg; by apply sent_by_mono]); [exact Hs|apply Hc].
Qed.

Lemma world_run ops x : world_inv x -> Forall sender_op_ok ops ->
  zlen (snd (fst x)) + ops_bytes ops + 2 < index_limit ->
  exists x', sender_run ops x = Ok x' /\ world_inv x'.
Proof.
  revert x. induction ops as [|o ops IH]; intros x Hx Hops Hlim; [by exists x|].
  apply Forall_cons in Hops as [Ho Hops]. cbn [ops_bytes sender_run] in *.
  assert (0 <= ops_bytes ops) as H0.
  { clear. induction ops as [|[] ops IH]; cbn [ops_bytes op_bytes]; zl. }
  destruct (world_exec o x Hx Ho ltac:(lia)) as (x1 & E & Hx1 & Hl1). rewrite E. cbn [mbind result_bind].
  apply IH; [done|done|lia].
Qed.

(** C6.  However the owner drives a new sender (writes, window fills, clock
    ticks, empty segments), and whatever acknowledgments arrive, the sender
    never throws and never loops, and every segment it ever puts out carries
    what its sequence number stands for: the SYN at the initial sequence
    number, then the bytes accepted by the outgoing stream in their order, at
    most [MAX_PAYLOAD_SIZE] of them, and a FIN only behind the last one of a
    stream that has ended. *)
Theorem sender_sends_stream cap rto fixed random ops :
  0 <= cap < 2 ^ 64 -> WrappingInt32_ok (default (MkWrappingInt32 random) fixed) ->
  Forall sender_op_ok ops -> ops_bytes ops + 2 < index_limit ->
  exists s W sent, sender_run ops (TCPSender_new cap rto fixed random, [], []) = Ok (s, W, sent) /\
    bs_bytes_written (sd_stream s) = zlen W /\
    Forall (fun seg => exists a, sent_segment W (sd_isn s) seg a /\ a + seg_len seg <= sd_next_seqno s /\
              (th_fin (ts_header seg) = true -> ByteStream_input_ended (sd_stream s) = true))
      (sent ++ sd_segments_out s ++ sd_segments_pending s).
Proof.
  intros Hcap Hisn Hops Hlim.
  destruct (world_run ops _ (TCPSender_new_inv cap rto fixed random Hcap Hisn) Hops Hlim)
    as ([[s W] sent] & E & [Hc Hp Hs]). exists s, W, sent. split; [done|]. split; [apply Hc|].
  destruct (sc_sent _ _ Hc) as [S1 S2]. cbn [fst snd] in *.
  eapply Forall_impl; [apply Forall_app_2; [exact Hs|apply Forall_app_2; [exact S1|exact S2]]|].
  intros seg (a & H1 & H2 & H3). exists a. split_and!; try done. intros Hfin. by apply (sp_fined _ _ Hp), H3.
Qed.

Lemma sender_sends_stream_witness :
  exists s W sent, sender_run [snd_fill_window; snd_ack (MkWrappingInt32 8) 3; snd_write [1; 2; 3; 4]; snd_end_input;
      snd_fill_window; snd_ack (MkWrappingInt32 11) 9; snd_drain]
      (TCPSender_new 10 1000 (Some (MkWrappingInt32 7)) 0, [], []) = Ok (s, W, sent) /\
    bs_bytes_written (sd_stream s) = zlen W /\
    Forall (fun seg => exists a, sent_segment W (sd_isn s) seg a /\ a + seg_len seg <= sd_next_seqno s /\
              (th_fin (ts_header seg) = true -> ByteStream_input_ended (sd_stream s) = true))
      (sent ++ sd_segments_out s ++ sd_segments_pending s).
Proof.
  apply sender_sends_stream.
  - lia.
  - unfold WrappingInt32_ok. simpl. lia.
  - repeat apply Forall_cons_2; [..|apply Forall_nil_2]; simpl; try lia; exact I.
  - vm_compute. reflexivity.
Defined.

(** ** The window *)

(** A sender that has been handed two bytes and may send one. *)
Definition sample_ops : list sender_op :=
  [snd_fill_window; snd_ack (MkWrappingInt32 8) 1; snd_write [1; 2]; snd_drain].

Lemma sample_inv : exists s, sender_run sample_ops (TCPSender_new 10 1000 (Some (MkWrappingInt32 7)) 0, [], []) =
    Ok (s, [1; 2], [build_segment (with_syn (with_seqno (MkWrappingInt32 7) TCPSegmentBuilder_default))]) /\
  sender_core [1; 2] s /\ sender_pos [1; 2] s /\ sd_next_seqno s = 1 /\ sd_receiver_window_right s = 2.
Proof.
  destruct (world_run sample_ops (TCPSender_new 10 1000 (Some (MkWrappingInt32 7)) 0, [], []))
    as ([[s W] sent] & E & [Hc Hp _]).
  - apply TCPSender_new_inv; [lia|]. unfold WrappingInt32_ok. simpl. lia.
  - repeat apply Forall_cons_2; [..|apply Forall_nil_2]; simpl; try lia; exact I.
  - by vm_compute.
  - exists s. cbn [fst snd] in *. vm_compute in E. injection E as <- <- <-. split_and!; try done.
Qed.

(** C13.  Once the SYN has been sent, and provided the next sequence number is not past
    the right edge of the window, which it is when a peer has shrunk its window too
    far, [fill_window] fills the window: it sends consecutive segments from the
    next sequence number on, none past the right edge, and stops only at that edge or
    when everything in the stream has been sent, the FIN included if the stream has
    ended. *)
Theorem fill_window_fills W s :
  sender_core W s -> sender_pos W s -> 1 <= sd_next_seqno s <= sd_receiver_window_right s ->
  exists s' new, TCPSender_fill_window s = Ok s' /\
    sd_segments_out s' = sd_segments_out s ++ new /\ sd_segments_pending s' = sd_segments_pending s ++ new /\
    sent_chain W (sd_isn s) (sd_next_seqno s) new (sd_next_seqno s') /\
    sd_next_seqno s' <= sd_receiver_window_right s /\
    (sd_next_seqno s' = sd_receiver_window_right s \/
     ByteStream_buffer_empty (sd_stream s') = true /\
     (ByteStream_input_ended (sd_stream s') = true -> sd_fined s' = true)).
Proof.
  intros Hc Hp Hn. destruct (fill_window_ok W s Hc Hp) as (s' & new & E & Hf & _ & Hfull).
  exists s', new. split; [done|]. pose proof Hf as [F1 F2 F3 F4 F5 F6 F7 F8]. split_and!; try done.
  - apply F7; lia.
  - unfold sender_frame in F3. injection F3 as _ _ _ _ _ Er _ _ _ _ _. rewrite <- Er.
    destruct (Hfull ltac:(lia)) as [H|[H1 H2]]; [by left|right]. split; [|done].
    unfold ByteStream_buffer_empty. by rewrite (bs_wf_size _ (sc_stream _ _ F1)), H1.
Qed.

Lemma fill_window_fills_witness :
  exists s s' new, TCPSender_fill_window s = Ok s' /\ sd_segments_out s' = sd_segments_out s ++ new /\
    sd_next_seqno s = 1 /\ sent_chain [1; 2] (sd_isn s) 1 new (sd_next_seqno s') /\ sd_next_seqno s' <= 2.
Proof.
  destruct sample_inv as (s & _ & Hc & Hp & Hn & Hr).
  destruct (fill_window_fills [1; 2] s Hc Hp) as (s' & new & E & Ho & _ & Hch & Hle & _).
  - rewrite Hn, Hr. lia.
  - rewrite Hn in Hch. rewrite Hr in Hle. exists s, s', new. split_and!; assumption.
Defined.

(** A peer that shrinks its window below what has already been sent turns
    flow control off: the subtraction wraps around, and [fill_window] sends
    everything there is in the stream, however much it is. *)
Theorem fill_window_ignores_shrunk_window W s :
  sender_core W s -> sender_pos W s -> 1 <= sd_next_seqno s -> sd_receiver_window_right s < sd_next_seqno s ->
  exists s', TCPSender_fill_window s = Ok s' /\ ByteStream_buffer_empty (sd_stream s') = true /\
    (ByteStream_input_ended (sd_stream s') = true -> sd_fined s' = true) /\
    sd_next_seqno s' = 1 + zlen W + b2z (sd_fined s').
Proof.
  intros Hc Hp Hn Hr. destruct (fill_window_ok W s Hc Hp) as (s' & new & E & Hf & Hn' & Hfull).
  exists s'. split; [done|]. pose proof (sent_chain_le _ _ _ _ _ (fl_chain _ _ _ _ Hf)) as Hle.
  pose proof (fl_frame _ _ _ _ Hf) as Fr. unfold sender_frame in Fr. injection Fr as _ _ _ _ _ Er _ _ _ _ _.
  pose proof (fl_core _ _ _ _ Hf) as Hc'. pose proof (fl_pos _ _ _ _ Hf) as Hp'.
  destruct (Hfull ltac:(lia)) as [H|[H1 H2]]; [lia|]. split_and!; [|done|].
  - unfold ByteStream_buffer_empty. by rewrite (bs_wf_size _ (sc_stream _ _ Hc')), H1.
  - destruct (sp_next _ _ Hp') as [(? & _)|E']; [lia|]. rewrite E'. do 2 f_equal.
    pose proof (sc_contents _ _ Hc') as Hcc. rewrite H1 in Hcc. apply (f_equal zlen) in Hcc.
    pose proof (sc_read _ _ Hc'). rewrite zlen_zdrop, zlen_nil in Hcc. lia.
Qed.

Lemma fill_window_ignores_shrunk_window_witness :
  exists s s', sd_receiver_window_right s = 3 /\ sd_next_seqno s = 5 /\
    TCPSender_fill_window s = Ok s' /\ sd_next_seqno s' = 1 + 10 + b2z (sd_fined s').
Proof.
  destruct (world_run [snd_fill_window; snd_ack (MkWrappingInt32 8) 4; snd_write [1; 2; 3; 4]; snd_fill_window;
      snd_ack (MkWrappingInt32 8) 2; snd_write [5; 6; 7; 8; 9; 10]]
    (TCPSender_new 10 1000 (Some (MkWrappingInt32 7)) 0, [], [])) as ([[s W] sent] & E & [Hc Hp _]).
  - apply TCPSender_new_inv; [lia|]. unfold WrappingInt32_ok. simpl. lia.
  - repeat apply Forall_cons_2; [..|apply Forall_nil_2]; simpl; try lia; exact I.
  - vm_compute. reflexivity.
  - cbn [fst snd] in *. vm_compute in E. injection E as Es EW _.
    destruct (fill_window_ignores_shrunk_window W s Hc Hp) as (s' & Ef & _ & _ & Hn).
    + rewrite <- Es. vm_compute. congruence.
    + rewrite <- Es. vm_compute. reflexivity.
    + exists s, s'. split; [by rewrite <- Es|]. split; [by rewrite <- Es|]. split; [exact Ef|].
      rewrite <- EW in Hn. exact Hn.
Defined.

(** ** Acknowledgments of a well-behaved peer *)

(** The segments kept for retransmission cover the sequence numbers from [base]
    to the next one; the first of them is not fully acknowledged; and what is
    in flight lies in the window. *)
Record in_flight (W : bytes) (s : TCPSender) (base : Z) : Prop := {
  if_chain : sent_chain W (sd_isn s) base (sd_segments_pending s) (sd_next_seqno s);
  if_base : 0 <= base <= sd_receiver_window_left s;
  if_head : match sd_segments_pending s with
            | [] => base = sd_next_seqno s
            | seg :: _ => sd_receiver_window_left s < base + seg_len seg
            end;
  if_window : sd_receiver_window_left s <= sd_next_seqno s <= sd_receiver_window_right s;
  if_size : sd_receiver_window_right s <= sd_receiver_window_left s + 65535
}.

(** An acknowledgment of sequence number [a]: of something that was sent, not too
    old to be told, and, unless it is an old one, with a window that does not
    shrink below what has been sent.  A window of zero is taken for one. *)
Record good_ack (s : TCPSender) (ackno : WrappingInt32) (win a : Z) : Prop := {
  ga_ackno : ackno = wrap a (sd_isn s);
  ga_sent : 0 <= a <= sd_next_seqno s;
  ga_near : sd_receiver_window_left s - 2 ^ 31 < a;
  ga_win : 0 <= win < 2 ^ 16;
  ga_keeps : sd_receiver_window_left s <= a -> sd_next_seqno s <= a + Z.max 1 win
}.

Lemma sent_seg_len W isn seg a : sent_segment W isn seg a -> seg_len seg <= 1002.
Proof.
  intros Hs. destruct (ss_size _ _ _ _ Hs) as [_ Hz]. unfold Buffer_size, MAX_PAYLOAD_SIZE, seg_len, b2z in *.
  destruct (th_syn _), (th_fin _); lia.
Qed.

Lemma pop_acked_chain W isn a base l next :
  WrappingInt32_ok isn -> 0 <= a -> sent_chain W isn base l next ->
  a - 2 ^ 31 < base -> next < a + 2 ^ 31 -> next < 2 ^ 63 -> a < 2 ^ 63 ->
  exists base', sent_chain W isn base' (pop_acked isn a l) next /\ base <= base' /\ (base' <= a \/ base' = base) /\
    match pop_acked isn a l with [] => True | seg :: _ => a < base' + seg_len seg end.
Proof.
  intros Hisn Ha. revert base. induction l as [|seg l IH]; intros base Hch H1 H2 H3 H4.
  { exists base. simpl in *. split_and!; [done|lia|by right|done]. }
  pose proof (sent_chain_le _ _ _ _ _ Hch) as Hle. destruct Hch as (Hs & Hl & Hch).
  pose proof (sent_chain_le _ _ _ _ _ Hch) as Hle'. pose proof (ss_abs _ _ _ _ Hs). cbn [pop_acked].
  rewrite (unwrap_near _ isn a base Hisn); [|unfold seq_limit; lia|lia|apply Hs|lia].
  rewrite (sent_length _ _ _ _ Hs). rewrite u64_small by lia.
  destruct (Z.leb_spec (base + seg_len seg) a).
  - destruct (IH (base + seg_len seg) Hch) as (base' & B1 & B2 & B3 & B4); [lia..|].
    exists base'. split_and!; [done|lia|lia|done].
  - exists base. split_and!; [by split_and!|lia|by right|done].
Qed.

Lemma bytes_in_flight_chain W isn base l next acc :
  sent_chain W isn base l next -> 0 <= acc -> acc + (next - base) < 2 ^ 64 ->
  bytes_in_flight_from acc l = acc + (next - base).
Proof.
  revert base acc. induction l as [|seg l IH]; intros base acc Hch H0 Hlt; simpl.
  - simpl in Hch. lia.
  - destruct Hch as (Hs & Hl & Hch). pose proof (sent_chain_le _ _ _ _ _ Hch).
    rewrite (sent_length _ _ _ _ Hs). rewrite u64_small by lia. rewrite (IH (base + seg_len seg)); [lia|done|lia|lia].
Qed.

(** Filling the window keeps what is in flight in order. *)
Lemma filled_in_flight W s s' new base :
  filled W s s' new -> in_flight W s base -> sd_next_seqno s' <= sd_receiver_window_right s -> in_flight W s' base.
Proof.
  intros [F1 F2 F3 F4 F5 F6 _ F8] [I1 I2 I3 [I41 I42] I5] Hn. pose proof (sent_chain_le _ _ _ _ _ F6).
  unfold sender_frame in F3. injection F3 as Ei _ _ _ El Er _ _ _ _ _.
  split; rewrite ?Ei, ?El, ?Er, ?F5; [|lia| |lia|lia].
  - by eapply sent_chain_app.
  - destruct (sd_segments_pending s) as [|seg l]; [|done]. simpl. simpl in I1.
    destruct new as [|seg new]; simpl in F6; [lia|]. destruct F6 as (_ & ? & _). lia.
Qed.

Lemma acked_in_flight W s base (zero : bool) size a :
  sender_core W s -> sender_pos W s -> 1 <= sd_next_seqno s -> in_flight W s base ->
  sd_receiver_window_left s < a -> a <= sd_next_seqno s -> sd_next_seqno s <= a + size -> 1 <= size < 2 ^ 16 ->
  let s1 := acked_sender s zero size a in
  sender_core W s1 /\ sender_pos W s1 /\ exists base', in_flight W s1 base'.
Proof.
  intros Hc Hp Hn [I1 I2 I3 I4 I5] Hla Han Hkeep Hsz s1.
  pose proof (sender_pos_range W s Hc Hp) as Hr. split; [|split; [by destruct Hp|]].
  - apply (sender_core_acked W s); [done|lia|apply u64_range|apply pop_acked_suffix|apply acked_timer_ok].
  - assert (sd_next_seqno s - 2 ^ 20 < base) as Hbase.
    { destruct (sd_segments_pending s) as [|seg l] eqn:E; [lia|]. destruct I1 as (Hs & _ & _).
      pose proof (sent_seg_len _ _ _ _ Hs). lia. }
    destruct (pop_acked_chain W (sd_isn s) a base (sd_segments_pending s) (sd_next_seqno s))
      as (base' & B1 & B2 & B3 & B4); [apply Hc|lia|done|lia|lia|lia|lia|].
    exists base'. split; simpl; rewrite ?u64_small by lia; [done|lia| |lia|lia].
    destruct (pop_acked (sd_isn s) a (sd_segments_pending s)); [exact B1|exact B4].
Qed.

Lemma in_flight_bytes W s base : sender_core W s -> sender_pos W s -> in_flight W s base ->
  TCPSender_bytes_in_flight s = sd_next_seqno s - base.
Proof.
  intros Hc Hp [J1 J2 J3 J4 J5]. pose proof (sender_pos_range W s Hc Hp). unfold TCPSender_bytes_in_flight.
  rewrite (bytes_in_flight_chain _ _ _ _ _ 0 J1); lia.
Qed.

Lemma sent_chain_pos W isn a l b : sent_chain W isn a l b -> Forall (fun seg => 0 < seg_len seg) l.
Proof. revert a. induction l as [|seg l IH]; intros a; [done|]. intros (_ & H & Hc). apply Forall_cons. eauto. Qed.

(** What an acknowledgment leaves alone. *)
Definition ack_frame (s : TCPSender) :=
  (sd_initial_retransmission_timeout s, bs_capacity (sd_stream s), bs_input_ended (sd_stream s)).

Lemma ack_received_flight W s base ackno win a :
  sender_core W s -> sender_pos W s -> 1 <= sd_next_seqno s -> in_flight W s base -> good_ack s ackno win a ->
  exists s' base', TCPSender_ack_received s ackno win = Ok s' /\
    sd_receiver_window_left s' = Z.max (sd_receiver_window_left s) a /\
    (sd_receiver_window_left s <= a -> sd_receiver_window_right s' = a + Z.max 1 win) /\
    sender_core W s' /\ sender_pos W s' /\ in_flight W s' base' /\ ack_frame s' = ack_frame s /\
    exists new, sd_segments_out s' = sd_segments_out s ++ new /\ Forall (fun seg => 0 < seg_len seg) new.
Proof.
  intros Hc Hp Hn HI [G1 G2 G3 G4 G5]. pose proof HI as [I1 I2 I3 I4 I5].
  pose proof (sender_pos_range W s Hc Hp) as Hr. pose proof (sc_window _ _ Hc) as [Hw1 Hw2].
  rewrite ack_received_eq. cbn zeta.
  rewrite (unwrap_near _ _ _ a (sc_isn _ _ Hc)); [|unfold seq_limit; lia|lia|exact G1|lia].
  set (size := if win =? 0 then 1 else win).
  assert (1 <= size < 2 ^ 16 /\ size = Z.max 1 win) as [Hsz Hsz'].
  { unfold size. destruct (Z.eqb_spec win 0); lia. }
  rewrite (proj2 (Z.ltb_ge (sd_receiver_window_right s) a)) by lia.
  assert (exists k, sd_segments_pending s = k ++ sd_segments_pending s) as Hself by by exists [].
  assert (exists new, sd_segments_out s = sd_segments_out s ++ new /\ Forall (fun seg => 0 < seg_len seg) new) as Hnone.
  { exists []. by rewrite app_nil_r. }
  destruct (Z.ltb_spec (sd_receiver_window_left s) a) as [Hla|Hla].
  { destruct (acked_in_flight W s base (win =? 0) size a) as (Hc1 & Hp1 & base' & HI1); try done; try lia.
    destruct (fill_window_ok W _ Hc1 Hp1) as (s' & new & E & Hf & _).
    pose proof (filled_in_flight _ _ _ _ _ Hf HI1 (fl_window _ _ _ _ Hf Hn (proj2 (if_window _ _ _ HI1)))) as HI'.
    pose proof (fl_frame _ _ _ _ Hf) as Fr. unfold sender_frame in Fr. injection Fr as _ Ei _ _ El Er _ _ Ec Ee _.
    exists s', base'. unfold ack_frame. rewrite El, Er, Ei, Ec, Ee. simpl. rewrite u64_small by lia.
    split_and!; [exact E|lia|lia|apply Hf|apply Hf|exact HI'|done|].
    exists new. split; [apply Hf|]. eapply sent_chain_pos, Hf. }
  destruct (Z.eqb_spec a (sd_receiver_window_left s)) as [->|Hne]; (eexists _, base; split; [done|]).
  - simpl. rewrite u64_small by lia. split_and!; [lia|lia| |by destruct Hp| |done|done].
    + apply (sender_core_acked W s); try done; [lia|apply Hc].
    + split; simpl; rewrite ?u64_small by lia; try done; lia.
  - simpl. split_and!; [lia|lia| |by destruct Hp|by split|done|done]. apply (sender_core_acked W s); try done; apply Hc.
Qed.

(** C14.  An acknowledgment from a peer that acknowledges only what was sent and
    does not take back its window: it is processed without an exception; the
    left edge of the window moves to it, never back; the segments kept are
    then consecutive, end at the next sequence number and begin with one that
    is not fully acknowledged; and the bytes in flight are counted exactly and
    lie in the window. *)
Theorem ack_received_keeps_flight W s base ackno win a :
  sender_core W s -> sender_pos W s -> 1 <= sd_next_seqno s -> in_flight W s base -> good_ack s ackno win a ->
  exists s' base', TCPSender_ack_received s ackno win = Ok s' /\
    sd_receiver_window_left s' = Z.max (sd_receiver_window_left s) a /\
    sender_core W s' /\ sender_pos W s' /\ in_flight W s' base' /\
    TCPSender_bytes_in_flight s' = sd_next_seqno s' - base'.
Proof.
  intros Hc Hp Hn HI Ha. destruct (ack_received_flight W s base ackno win a Hc Hp Hn HI Ha)
    as (s' & base' & E & El & _ & Hc' & Hp' & HI' & _ & _).
  exists s', base'. split_and!; try done. by eapply in_flight_bytes.
Qed.

Lemma ack_received_keeps_flight_witness :
  exists s s' base', sd_next_seqno s = 1 /\ TCPSender_ack_received s (MkWrappingInt32 8) 5 = Ok s' /\
    sd_receiver_window_left s' = 1 /\ TCPSender_bytes_in_flight s' = sd_next_seqno s' - base'.
Proof.
  destruct sample_inv as (s & E & Hc & Hp & Hn & Hr). vm_compute in E. injection E as Es.
  destruct (ack_received_keeps_flight [1; 2] s 1 (MkWrappingInt32 8) 5 1 Hc Hp) as (s' & base' & Ea & El & _ & _ & _ & Hb).
  - rewrite Hn. lia.
  - rewrite <- Es. split; vm_compute; try reflexivity; try (split; congruence). congruence.
  - rewrite <- Es. split; vm_compute; try reflexivity; try (split; congruence). congruence.
  - exists s, s', base'. rewrite <- Es in El. split_and!; [exact Hn|exact Ea|exact El|exact Hb].
Defined.

(** ** Retransmission *)

(** The sum of the ticks. *)
Definition zsum (l : list Z) : Z := foldr Z.add 0 l.

Lemma zsum_nonneg l : Forall (fun ms => 0 <= ms) l -> 0 <= zsum l.
Proof. induction 1; simpl; lia. Qed.

(** How often a timer expires that has been running for [elapsed] of its [timeout]
    milliseconds, when the clock ticks by the amounts in [mss]: at the tick with which
    the time since its start reaches the timeout.  It starts again then, with twice
    the timeout, or with the same one while the peer's window is zero. *)
Fixpoint expiries (zero_window : bool) (elapsed timeout : Z) (mss : list Z) : nat :=
  match mss with
  | [] => 0
  | ms :: mss =>
      if timeout <=? elapsed + ms then S (expiries zero_window 0 (if zero_window then timeout else timeout * 2) mss)
      else expiries zero_window (elapsed + ms) timeout mss
  end.

(** The factor by which [n] expiries lengthen the timeout. *)
Definition backoff (zero_window : bool) (n : nat) : Z := if zero_window then 1 else 2 ^ Z.of_nat n.

Lemma backoff_S zero n : backoff zero (S n) = backoff zero 1 * backoff zero n.
Proof. unfold backoff. destruct zero; [done|]. rewrite Nat2Z.inj_succ, Z.pow_succ_r by lia. lia. Qed.

Lemma backoff_pos zero n : 1 <= backoff zero n.
Proof. unfold backoff. destruct zero; [done|]. pose proof (Z.pow_pos_nonneg 2 (Z.of_nat n)). lia. Qed.

(** C30.  While a segment is outstanding the timer is running: whatever the amounts by
    which the clock ticks, every expiry of the timer, and nothing else, sends the
    oldest outstanding segment once more and is counted; it doubles the timeout, or
    leaves it as it is when the last acknowledgment announced a window of zero.  The
    numbers are those in range of their types: 64 bits for the time and 32 for the
    timeout and the count. *)
Theorem retransmission_backoff W s seg rest mss :
  let zero := sd_zero_window_size s in
  let n := expiries zero (rt_time_elapsed (sd_timer s)) (sd_retransmission_timeout s) mss in
  sender_core W s -> sender_pos W s -> sd_segments_pending s = seg :: rest ->
  0 <= rt_time_elapsed (sd_timer s) -> Forall (fun ms => 0 <= ms) mss -> rt_time_elapsed (sd_timer s) + zsum mss < 2 ^ 64 ->
  0 <= sd_retransmission_timeout s -> sd_retransmission_timeout s * backoff zero n < 2 ^ 32 ->
  0 <= sd_consecutive_retransmissions s -> sd_consecutive_retransmissions s + Z.of_nat n < 2 ^ 32 ->
  let s' := foldl TCPSender_tick s mss in
  sd_segments_out s' = sd_segments_out s ++ replicate n seg /\
  sd_retransmission_timeout s' = sd_retransmission_timeout s * backoff zero n /\
  TCPSender_consecutive_retransmissions s' = sd_consecutive_retransmissions s + Z.of_nat n /\
  sd_segments_pending s' = seg :: rest.
Proof.
  revert s. induction mss as [|ms mss IH]; intros s zero n Hc Hp Hs He Hms Hlt H0 Hr Hcn0 Hcn s'.
  { subst n s'. cbn in *. rewrite app_nil_r. unfold backoff, TCPSender_consecutive_retransmissions.
    split_and!; try done; [destruct zero; lia|lia]. }
  apply Forall_cons in Hms as [Hm Hms]. cbn [zsum foldr] in Hlt. fold (zsum mss) in Hlt. pose proof (zsum_nonneg mss Hms).
  destruct (tick_ok W s ms Hc Hp) as [Hc' Hp']. destruct (sc_timer _ _ Hc) as [Ht1 Ht2].
  rewrite Hs in Ht1. specialize (Ht2 Ht1).
  assert (tick_fires s ms = (sd_retransmission_timeout s <=? rt_time_elapsed (sd_timer s) + ms)) as Hf.
  { unfold tick_fires. rewrite Hs, Ht2, u64_small by lia. done. }
  subst n s'. cbn [foldl expiries] in *. rewrite (tick_eq W) in * by done. cbn zeta in *. rewrite Hf, Hs in *. unfold backed_off in *.
  destruct (sd_retransmission_timeout s <=? rt_time_elapsed (sd_timer s) + ms) eqn:Hexp.
  - set (t' := if zero then sd_retransmission_timeout s else sd_retransmission_timeout s * 2) in *.
    set (n := expiries zero 0 t' mss) in *. rewrite backoff_S in *. pose proof (backoff_pos zero n).
    assert (t' = sd_retransmission_timeout s * backoff zero 1) as Et by (unfold t', backoff; destruct zero; lia).
    assert ((if sd_zero_window_size s then sd_retransmission_timeout s else u32 (sd_retransmission_timeout s * 2)) = t') as Eb.
    { unfold t'. fold zero. unfold backoff in Hr. destruct zero; [done|]. apply u32_small. nia. }
    rewrite Eb in *. rewrite (u32_small (sd_consecutive_retransmissions s + 1)) in * by lia.
    assert (t' * backoff zero n < 2 ^ 32) by nia. assert (0 <= t') by (unfold t'; destruct zero; lia).
    destruct (IH _ Hc' Hp') as (J1 & J2 & J3 & J4); cbn -[Z.add expiries zsum replicate Z.of_nat Z.mul]; fold zero n; try done; try lia.
    cbn -[Z.add expiries zsum replicate Z.of_nat Z.mul] in J1, J2, J3, J4. fold zero n in J1, J2, J3, J4.
    rewrite J1, J2, J3, J4, <- app_assoc. cbn [option_list head app replicate]. split_and!; [done|rewrite Et; lia|lia|done].
  - rewrite app_nil_r in *. rewrite u64_small in * by lia.
    destruct (IH _ Hc' Hp') as (J1 & J2 & J3 & J4); cbn -[Z.add expiries zsum replicate Z.of_nat Z.mul]; fold zero; try done; try lia.
Qed.

(** A SYN that is not answered, and ticks of half a second. *)
Lemma retransmission_backoff_witness :
  exists s seg, let s' := foldl TCPSender_tick s [500; 600; 1900; 99; 1; 5000] in
    sd_retransmission_timeout s' = 8000 /\ sd_segments_out s' = sd_segments_out s ++ [seg; seg; seg].
Proof.
  destruct (world_run [snd_fill_window] (TCPSender_new 10 1000 (Some (MkWrappingInt32 7)) 0, [], []))
    as ([[s W] sent] & E & [Hc Hp _]).
  - apply TCPSender_new_inv; [lia|]. unfold WrappingInt32_ok. simpl. lia.
  - repeat apply Forall_cons_2; [..|apply Forall_nil_2]; exact I.
  - vm_compute. reflexivity.
  - cbn [fst snd] in *. vm_compute in E. injection E as Es _ _.
    destruct (sd_segments_pending s) as [|seg rest] eqn:Ep; [rewrite <- Es in Ep; discriminate Ep|].
    destruct (retransmission_backoff W s seg rest [500; 600; 1900; 99; 1; 5000] Hc Hp Ep) as (H1 & H2 & _ & _);
      try (repeat apply Forall_cons_2; [lia..|apply Forall_nil_2]);
      try (rewrite <- Es; vm_compute; try reflexivity; try (split; congruence); congruence).
    exists s, seg. rewrite H1, H2, <- Es. split; reflexivity.
Defined.
