(* ===== verification/SocketAdapters.v ===== *)
(** The adapters on their descriptors: [TCPOverIPv4OverTunFdAdapter] and
    [TCPOverIPv4OverEthernetAdapter] (src/libsponge/tcp_helpers/tuntap_adapter.hh
    and .cc), [TCPOverUDPSocketAdapter] (fd_adapter.hh and .cc) and
    [LossyFdAdapter] (lossy_fd_adapter.hh) as code that reads and writes.

    [Adapters] has what they do with a packet; here they get it from a device or a
    socket and hand it over.  The class [DatagramAdapter] is what
    [TCPSpongeSocket<AdaptT>] asks of its argument, the class [AdapterLaws] what
    its proofs rely on; each adapter is an instance of both. *)

From S2P Require Import Prelude WrappingIntegers Buffers ByteStreams StreamReassemblers Parsers TCPSegments IPv4Datagrams.
From S2P Require Import EthernetFrames Addresses Effects FileDescriptors EventLoops Sockets NetworkInterfaces Adapters.
From S2P Require Import TCPSenders.

(** ** The interface *)

(** The descriptor, the configuration and the listening flag. *)
Class AdapterBase (A : Type) : Type := {
  da_fd : A -> FileDescriptor;
  da_config : A -> FdAdapterConfig;
  da_set_config : A -> FdAdapterConfig -> A;
  da_set_listening : A -> bool -> A
}.

Class DatagramAdapter (K U A : Type) `{AdapterBase A} : Type := {
  da_read : A -> io (world K U) (option TCPSegment * A);
  da_write : A -> TCPSegment -> io (world K U) A;
  da_tick : A -> Z -> io (world K U) A
}.

Definition FdAdapterBase_set_config (b : FdAdapterBase) (c : FdAdapterConfig) : FdAdapterBase :=
  MkFdAdapterBase c (fb_listen b).

(** [std::numeric_limits<size_t>::max()], the default limit of [read]. *)
Definition size_max : Z := 2 ^ 64 - 1.
(** The default [mtu] of [recv]. *)
Definition default_mtu : Z := 65536.

(** ** TCPOverIPv4OverTunFdAdapter *)

Record TunFdAdapter : Type := MkTunFdAdapter { tf_base : FdAdapterBase; tf_tun : FileDescriptor }.

(** ** TCPOverUDPSocketAdapter *)

Record UDPSocketAdapter : Type := MkUDPSocketAdapter { uf_base : FdAdapterBase; uf_sock : FileDescriptor }.

(** ** TCPOverIPv4OverEthernetAdapter *)

Record TapFdAdapter : Type := MkTapFdAdapter { pf_adapter : EthernetAdapter; pf_tap : FileDescriptor }.

Section adapters.
Context {K U : Type} `{Kernel K} `{NameService}.

Abbreviation prog := (io (world K U)).

Definition TunFdAdapter_read (a : TunFdAdapter) : prog (option TCPSegment * TunFdAdapter) :=
  packet ← FileDescriptor_read (tf_tun a) size_max;
  '(seg, b) ← lift (TunAdapter_read (tf_base a) packet);
  mret (seg, MkTunFdAdapter b (tf_tun a)).

(** [write(BufferViewList)] with its default [write_all], once for each packet. *)
Fixpoint write_packets (fd : FileDescriptor) (packets : list BufferList) : prog unit :=
  match packets with
  | [] => mret tt
  | l :: packets =>
      _ ← FileDescriptor_write_views fd (BufferViewList_of_BufferList l) true;
      write_packets fd packets
  end.

Definition TunFdAdapter_write (a : TunFdAdapter) (seg : TCPSegment) : prog TunFdAdapter :=
  '(packets, b) ← lift (TunAdapter_write (tf_base a) seg);
  _ ← write_packets (tf_tun a) packets;
  mret (MkTunFdAdapter b (tf_tun a)).

Definition UDPSocketAdapter_read (a : UDPSocketAdapter) : prog (option TCPSegment * UDPSocketAdapter) :=
  datagram ← UDPSocket_recv (uf_sock a) default_mtu;
  '(seg, b) ← lift (UDPAdapter_read (uf_base a) datagram);
  mret (seg, MkUDPSocketAdapter b (uf_sock a)).

Fixpoint send_datagrams (fd : FileDescriptor) (datagrams : list (Address * BufferList)) : prog unit :=
  match datagrams with
  | [] => mret tt
  | (destination, l) :: datagrams =>
      _ ← UDPSocket_sendto fd destination (BufferViewList_of_BufferList l);
      send_datagrams fd datagrams
  end.

Definition UDPSocketAdapter_write (a : UDPSocketAdapter) (seg : TCPSegment) : prog UDPSocketAdapter :=
  '(datagrams, b) ← lift (UDPAdapter_write (uf_base a) seg);
  _ ← send_datagrams (uf_sock a) datagrams;
  mret (MkUDPSocketAdapter b (uf_sock a)).

(** [send_pending()]: each frame is written and popped. *)
Definition TapFdAdapter_send_pending (a : TapFdAdapter) : prog TapFdAdapter :=
  let '(frames, e) := EthernetAdapter_send_pending (pf_adapter a) in
  _ ← write_packets (pf_tap a) frames;
  mret (MkTapFdAdapter e (pf_tap a)).

(** The constructor, which writes a dummy frame. *)
Definition TapFdAdapter_new (tap : FileDescriptor) (b : FdAdapterBase) (eth_address : EthernetAddress)
    (ip_address next_hop : Address) : prog TapFdAdapter :=
  '(frames, e) ← lift (EthernetAdapter_new b eth_address ip_address next_hop);
  _ ← write_packets tap frames;
  mret (MkTapFdAdapter e tap).

Definition TapFdAdapter_with (a : TapFdAdapter) (b : FdAdapterBase) (n : NetworkInterface) : TapFdAdapter :=
  MkTapFdAdapter (MkEthernetAdapter b n (ea_next_hop (pf_adapter a))) (pf_tap a).

Definition TapFdAdapter_read (a : TapFdAdapter) : prog (option TCPSegment * TapFdAdapter) :=
  packet ← FileDescriptor_read (pf_tap a) size_max;
  '(res, frame) ← lift (EthernetFrame_parse EthernetFrame_default (Buffer_of_string packet));
  if negb (is_NoError res) then mret (None, a)
  else
    '(ip_dgram, n) ← lift (NetworkInterface_recv_frame (ea_interface (pf_adapter a)) frame);
    a ← TapFdAdapter_send_pending (TapFdAdapter_with a (ea_base (pf_adapter a)) n);
    match ip_dgram with
    | Some d =>
        '(seg, b) ← lift (TCPOverIPv4Adapter_unwrap_tcp_in_ip (ea_base (pf_adapter a)) d);
        mret (seg, TapFdAdapter_with a b (ea_interface (pf_adapter a)))
    | None => mret (None, a)
    end.

Definition TapFdAdapter_tick (a : TapFdAdapter) (ms_since_last_tick : Z) : prog TapFdAdapter :=
  TapFdAdapter_send_pending
    (TapFdAdapter_with a (ea_base (pf_adapter a)) (NetworkInterface_tick (ea_interface (pf_adapter a)) ms_since_last_tick)).

Definition TapFdAdapter_write (a : TapFdAdapter) (seg : TCPSegment) : prog TapFdAdapter :=
  '(ip_dgram, _) ← lift (TCPOverIPv4Adapter_wrap_tcp_in_ip (ea_base (pf_adapter a)) seg);
  n ← lift (NetworkInterface_send_datagram (ea_interface (pf_adapter a)) ip_dgram (ea_next_hop (pf_adapter a)));
  TapFdAdapter_send_pending (TapFdAdapter_with a (ea_base (pf_adapter a)) n).

End adapters.

#[export] Instance TunFdAdapter_base : AdapterBase TunFdAdapter := {|
  da_fd := tf_tun;
  da_config a := fb_cfg (tf_base a);
  da_set_config a c := MkTunFdAdapter (FdAdapterBase_set_config (tf_base a) c) (tf_tun a);
  da_set_listening a l := MkTunFdAdapter (FdAdapterBase_set_listening (tf_base a) l) (tf_tun a)
|}.

#[export] Instance UDPSocketAdapter_base : AdapterBase UDPSocketAdapter := {|
  da_fd := uf_sock;
  da_config a := fb_cfg (uf_base a);
  da_set_config a c := MkUDPSocketAdapter (FdAdapterBase_set_config (uf_base a) c) (uf_sock a);
  da_set_listening a l := MkUDPSocketAdapter (FdAdapterBase_set_listening (uf_base a) l) (uf_sock a)
|}.

#[export] Instance TapFdAdapter_base : AdapterBase TapFdAdapter := {|
  da_fd := pf_tap;
  da_config a := fb_cfg (ea_base (pf_adapter a));
  da_set_config a c := TapFdAdapter_with a (FdAdapterBase_set_config (ea_base (pf_adapter a)) c) (ea_interface (pf_adapter a));
  da_set_listening a l := TapFdAdapter_with a (FdAdapterBase_set_listening (ea_base (pf_adapter a)) l) (ea_interface (pf_adapter a))
|}.

#[export] Instance TunFdAdapter_datagrams {K U} `{Kernel K} `{NameService} : DatagramAdapter K U TunFdAdapter := {|
  da_read := TunFdAdapter_read;
  da_write := TunFdAdapter_write;
  da_tick a _ := mret a
|}.

#[export] Instance UDPSocketAdapter_datagrams {K U} `{Kernel K} `{NameService} : DatagramAdapter K U UDPSocketAdapter := {|
  da_read := UDPSocketAdapter_read;
  da_write := UDPSocketAdapter_write;
  da_tick a _ := mret a
|}.

#[export] Instance TapFdAdapter_datagrams {K U} `{Kernel K} `{NameService} : DatagramAdapter K U TapFdAdapter := {|
  da_read := TapFdAdapter_read;
  da_write := TapFdAdapter_write;
  da_tick := TapFdAdapter_tick
|}.

(** ** LossyFdAdapter *)

Section lossy.
Context {K U A : Type} `{DatagramAdapter K U A}.

Definition LossyAdapter_with (l : LossyFdAdapter A) (a : A) : LossyFdAdapter A := MkLossyFdAdapter (la_rand l) a.

Definition LossyAdapter_read (l : LossyFdAdapter A) : io (world K U) (option TCPSegment * LossyFdAdapter A) :=
  '(ret, a) ← da_read (la_adapter l);
  let '(drop, l) := LossyFdAdapter_should_drop da_config (LossyAdapter_with l a) false in
  if (drop : bool) then mret (None, l) else mret (ret, l).

Definition LossyAdapter_write (l : LossyFdAdapter A) (seg : TCPSegment) : io (world K U) (LossyFdAdapter A) :=
  let '(drop, l) := LossyFdAdapter_should_drop da_config l true in
  if (drop : bool) then mret l
  else a ← da_write (la_adapter l) seg; mret (LossyAdapter_with l a).

Definition LossyAdapter_tick (l : LossyFdAdapter A) (ms_since_last_tick : Z) : io (world K U) (LossyFdAdapter A) :=
  a ← da_tick (la_adapter l) ms_since_last_tick; mret (LossyAdapter_with l a).

End lossy.

#[export] Instance LossyAdapter_base {A} `{AdapterBase A} : AdapterBase (LossyFdAdapter A) := {|
  da_fd l := da_fd (la_adapter l);
  da_config l := da_config (la_adapter l);
  da_set_config l c := LossyAdapter_with l (da_set_config (la_adapter l) c);
  da_set_listening l b := LossyAdapter_with l (da_set_listening (la_adapter l) b)
|}.

#[export] Instance LossyAdapter_datagrams {K U A} `{DatagramAdapter K U A} : DatagramAdapter K U (LossyFdAdapter A) := {|
  da_read := LossyAdapter_read;
  da_write := LossyAdapter_write;
  da_tick := LossyAdapter_tick
|}.

(** ** What an adapter does to the world *)

Section uses.
Context {K U : Type} `{KernelLaws K}.
Implicit Types w : world (K * list event) U.

(** Only descriptor [fd] was used: its wrapper was [o] and is [o']. *)
Record used (fd : FileDescriptor) (o : FDWrapper) (n : nat) (w w' : world (K * list event) U) (o' : FDWrapper) : Prop := {
  us_fds : w_fds w' = <[fd := (o', n)]> (w_fds w);
  us_num : fw_fd o' = fw_fd o;
  us_closed : fw_closed o' = fw_closed o;
  us_state : w_state w' = w_state w;
  us_kernel : kernel_steps (w_kernel w) (w_kernel w');
  us_log : forall num, num <> fw_fd o ->
    bytes_read num (w_log w') = bytes_read num (w_log w) /\ bytes_written num (w_log w') = bytes_written num (w_log w)
}.

Lemma used_refl fd o n w : w_fds w !! fd = Some (o, n) -> used fd o n w w o.
Proof. intros Ho. split; try done. by rewrite insert_id. Qed.

Lemma used_trans fd o o1 o2 n w w1 w2 : used fd o n w w1 o1 -> used fd o1 n w1 w2 o2 -> used fd o n w w2 o2.
Proof.
  intros [A1 A2 A3 A4 A6 A5] [B1 B2 B3 B4 B6 B5]. split; try congruence.
  - by rewrite B1, A1, insert_insert_eq.
  - by etrans.
  - intros num Hn. destruct (A5 num Hn), (B5 num); [congruence|]. split; congruence.
Qed.

(** A system call on the descriptor, and a change to the counters. *)
Lemma used_call fd o n w c o' :
  fw_fd o' = fw_fd o -> fw_closed o' = fw_closed o ->
  (forall num r, num <> fw_fd o -> event_read num (c, r) = [] /\ event_written num (c, r) = []) ->
  used fd o n w (world_store (world_call w c) fd o' n) o'.
Proof.
  intros Hf Hc Hq. split; try done; [apply kernel_step|]. intros num Hn. change (w_log (world_store ?w' _ _ _)) with (w_log w').
  rewrite call_read, call_written. destruct (Hq num (fst (k_call c (w_kernel w))) Hn) as [-> ->].
  by rewrite !app_nil_r.
Qed.

Lemma used_lookup fd o n w w' o' : used fd o n w w' o' -> w_fds w' !! fd = Some (o', n).
Proof. intros [-> _ _ _ _ _]. apply lookup_insert_eq. Qed.

Context (E : exn -> Prop) (HE : forall e, trouble (K * list event) e -> E e).

(** Writing uses the descriptor and reads nothing; sizes that no memory holds are
    excluded, unless every exception is accepted. *)
Definition written (fd : FileDescriptor) (o : FDWrapper) (n : nat) (w w' : world (K * list event) U) : Prop :=
  exists o', used fd o n w w' o' /\ fw_read_count o' = fw_read_count o.

Lemma written_trans fd o n w w1 w2 o1 :
  used fd o n w w1 o1 -> written fd o1 n w1 w2 -> exists o2, used fd o n w w2 o2 /\ fw_read_count o2 = fw_read_count o1.
Proof. intros H1 (o2 & H2 & H3). exists o2. split; [by eapply used_trans|done]. Qed.

Lemma writev_quiet o iov num r :
  num <> fw_fd o -> event_read num (sys_writev (fw_fd o) iov, r) = [] /\ event_written num (sys_writev (fw_fd o) iov, r) = [].
Proof. intros Hn. cbn. by rewrite (proj2 (Z.eqb_neq _ _)) by done. Qed.

Lemma write_loop_any fuel fd buffer write_all total w o n :
  (forall e, E e) -> w_fds w !! fd = Some (o, n) ->
  wp (write_loop fuel fd buffer write_all total) E (fun _ => written fd o n w) w.
Proof.
  intros Hall. revert buffer total w o. induction fuel as [|fuel IH]; intros buffer total w o Ho; [apply Hall|].
  cbn [write_loop]. wp_step. eapply fd_num_wp; [done|]. set (c := sys_writev _ _). wp_step. apply system_wp; [done|].
  intros r _ _. wp_if; [apply Hall|]. wp_if; [apply Hall|].
  wp_step. eapply register_write_wp; [exact Ho|]. wp_step. wp_step.
  destruct (BufferViewList_remove_prefix _ _) as [buffer'|e]; [|apply Hall].
  pose proof (used_call fd o n w c (write_done o) eq_refl eq_refl (fun num rr => writev_quiet o _ num rr)) as Hu.
  wp_if; [|wp_step; by exists (write_done o)].
  eapply wp_mono; [apply (IH _ _ _ (write_done o)); by eapply used_lookup|done|]. intros v w' Hw.
  destruct (written_trans _ _ _ _ _ _ _ Hu Hw) as (o2 & H2 & H3). by exists o2.
Qed.

Lemma write_views_used fd buffer w o n :
  zlen (concat buffer) < 2 ^ 63 \/ (forall e, E e) -> w_fds w !! fd = Some (o, n) ->
  wp (FileDescriptor_write_views fd buffer true) E (fun _ => written fd o n w) w.
Proof.
  intros [Hsz|Hall] Ho; [|by apply write_loop_any]. unfold FileDescriptor_write_views.
  eapply wp_mono; [apply (write_loop_inv (written fd o n w))|exact HE|done];
    [|lia|done|exists o; split; [by apply used_refl|done]].
  intros w1 (o1 & Hu & Hr). exists o1, n. split; [by eapply used_lookup|]. intros iov. exists (write_done o1).
  split; [|done]. eapply used_trans; [exact Hu|]. apply used_call; try done. intros num r. apply writev_quiet.
Qed.

Lemma write_packets_used fd packets w o n :
  Forall (fun l => zlen (flatten l) < 2 ^ 63) packets \/ (forall e, E e) -> w_fds w !! fd = Some (o, n) ->
  wp (write_packets fd packets) E (fun _ => written fd o n w) w.
Proof.
  revert w o. induction packets as [|l packets IH]; intros w o Hsz Ho; cbn [write_packets].
  - wp_step. exists o. split; [by apply used_refl|done].
  - assert (zlen (concat (BufferViewList_of_BufferList l)) < 2 ^ 63 \/ (forall e, E e)) as Hl.
    { destruct Hsz as [Hsz|]; [left; by inversion Hsz|by right]. }
    assert (Forall (fun l => zlen (flatten l) < 2 ^ 63) packets \/ (forall e, E e)) as Hrest.
    { destruct Hsz as [Hsz|]; [left; by inversion Hsz|by right]. }
    wp_step. eapply wp_mono; [by apply write_views_used|done|]. intros v w1 (o1 & H1 & R1).
    eapply wp_mono; [apply (IH w1 o1 Hrest); by eapply used_lookup|done|]. intros [] w2 Hw.
    destruct (written_trans _ _ _ _ _ _ _ H1 Hw) as (o2 & H2 & R2). exists o2. split; [done|congruence].
Qed.

End uses.

(** ** What the proofs about sockets rely on *)

(** A segment as the sender makes them. *)
Definition sendable (seg : TCPSegment) : Prop :=
  th_doff (ts_header seg) = 5 /\ Buffer_wf (ts_payload seg) /\ Buffer_size (ts_payload seg) <= MAX_PAYLOAD_SIZE.

(** [E] holds of the exceptions; a read is counted, and the segment's window is a
    16-bit number. *)
Class AdapterLaws (K U A : Type) (E : exn -> Prop) `{KernelLaws K} `{DatagramAdapter (K * list event) U A} : Prop := {
  al_read : forall (a : A) (w : world (K * list event) U) o n, w_fds w !! da_fd a = Some (o, n) ->
    wp (da_read a) E (fun '(seg, a') w' => da_fd a' = da_fd a /\
      (exists o', used (da_fd a) o n w w' o' /\ fw_read_count o' = u32 (fw_read_count o + 1)) /\
      forall s, seg = Some s -> 0 <= th_win (ts_header s) < 2 ^ 16) w;
  al_write : forall (a : A) seg (w : world (K * list event) U) o n, w_fds w !! da_fd a = Some (o, n) -> sendable seg ->
    wp (da_write a seg) E (fun a' w' => da_fd a' = da_fd a /\ written (da_fd a) o n w w') w;
  al_tick : forall (a : A) ms (w : world (K * list event) U) o n, w_fds w !! da_fd a = Some (o, n) ->
    wp (da_tick a ms) E (fun a' w' => da_fd a' = da_fd a /\ written (da_fd a) o n w w') w;
  al_config : forall (a : A) c, da_fd (da_set_config a c) = da_fd a;
  al_listening : forall (a : A) b, da_fd (da_set_listening a b) = da_fd a
}.

(** ** Segments that come in *)

Lemma parse_int_range len p v p' :
  0 < len -> NetParser_parse_int len p = Ok (v, p') -> 0 <= v < 2 ^ (8 * len).
Proof.
  intros Hl. unfold NetParser_parse_int. destruct (NetParser_has_error _); [intros [= <- _]; lia|].
  assert (forall b i n ret r, parse_int_loop b len i n ret = Ok r -> 0 <= ret < 2 ^ (8 * len) -> 0 <= r < 2 ^ (8 * len)) as Hloop.
  { intros b i n. revert i. induction n as [|n IH]; intros i ret r; cbn [parse_int_loop]; [by intros [= <-]|].
    destruct (Buffer_at b i) as [c|e]; [|done]. cbn [mbind result_bind]. intros Hr _. apply (IH _ _ _ Hr).
    apply Z.mod_pos_bound. lia. }
  destruct (parse_int_loop _ _ _ _ _) as [r|e] eqn:Er; [|done]. cbn [mbind result_bind].
  destruct (Buffer_remove_prefix _ _) as [b|e]; [|done]. cbn. intros [= <- _]. eapply Hloop; [exact Er|lia].
Qed.

(** The next parser call of a sequence that succeeded. *)
Ltac parsed H := match type of H with
  | (mbind _ ?m = Ok _) => let E := fresh "E" in destruct m as [[]|] eqn:E; [cbn [mbind result_bind] in H|discriminate H]
  end.

Lemma parse_win old b pseudo r seg :
  TCPSegment_parse old b pseudo = Ok (r, seg) -> is_NoError r = true -> 0 <= th_win (ts_header seg) < 2 ^ 16.
Proof.
  unfold TCPSegment_parse. destruct (negb _); [by intros [= <- _]|]. intros H _. parsed H.
  destruct p as [r0 h0]. injection H as _ <-. unfold TCPHeader_parse in E. do 9 parsed E.
  assert (0 <= z5 < 2 ^ 16) as Hwin by (eapply (parse_int_range 2); [lia|eassumption]).
  cbn [ts_header].
  destruct (_ <? 5); [by injection E as _ <- _|].
  destruct (NetParser_remove_prefix _ _) as [p9|e]; [cbn [mbind result_bind] in E|discriminate E].
  destruct (NetParser_has_error p9); by injection E as _ <- _.
Qed.

(** The next step of code that succeeded. *)
Ltac unbind H := match type of H with
  | (mbind _ ?m = Ok _) => let E := fresh "E" in destruct m eqn:E; [cbn [mbind result_bind] in H|discriminate H]
  | ((if ?b then _ else _) = Ok _) => let E := fresh "E" in destruct b eqn:E
  | ((let '(_, _) := ?p in _) = Ok _) => destruct p
  | (Ok _ = Ok _) => injection H as H
  end.

Section over_ip.
Context `{NameService}.

Lemma unwrap_win b d seg b' :
  TCPOverIPv4Adapter_unwrap_tcp_in_ip b d = Ok (Some seg, b') -> 0 <= th_win (ts_header seg) < 2 ^ 16.
Proof.
  unfold TCPOverIPv4Adapter_unwrap_tcp_in_ip. intros Hu.
  unbind Hu. unbind Hu; [discriminate Hu|]. unbind Hu. unbind Hu; [discriminate Hu|]. unbind Hu; [discriminate Hu|].
  unbind Hu. unbind Hu. unbind Hu.
  destruct (is_NoError p) eqn:Ep; [|discriminate Hu]. cbn [negb] in Hu.
  assert (0 <= th_win (ts_header t) < 2 ^ 16) as Hwin by by eapply parse_win.
  unbind Hu. unbind Hu; [discriminate Hu|].
  assert (forall b1 s b2, (dport ← Address_port (fc_destination (fb_cfg b1));
    if negb (th_sport (ts_header t) =? dport) then Ok (None, b1) else Ok (Some t, b1)) = Ok (Some s, b2) -> s = t) as Hfin.
  { intros b1 s b2 Hf. unbind Hf. unbind Hf; [discriminate Hf|]. by injection Hf as <- _. }
  destruct (fb_listen b); [|by rewrite (Hfin _ _ _ Hu)].
  unbind Hu; [|discriminate Hu]. unbind Hu. unbind Hu. by rewrite (Hfin _ _ _ Hu).
Qed.

Lemma tun_read_win b packet seg b' :
  TunAdapter_read b packet = Ok (Some seg, b') -> 0 <= th_win (ts_header seg) < 2 ^ 16.
Proof.
  unfold TunAdapter_read. intros Hr. unbind Hr. unbind Hr. destruct (negb _); [discriminate Hr|]. by eapply unwrap_win.
Qed.

Lemma udp_read_win b datagram seg b' :
  UDPAdapter_read b datagram = Ok (Some seg, b') -> 0 <= th_win (ts_header seg) < 2 ^ 16.
Proof.
  destruct datagram as [source payload]. unfold UDPAdapter_read. intros Hr. unbind Hr; [discriminate Hr|]. unbind Hr. unbind Hr.
  destruct (is_NoError p) eqn:Ep; [|discriminate Hr]. cbn [negb] in Hr.
  assert (0 <= th_win (ts_header t) < 2 ^ 16) as Hwin by by eapply parse_win.
  unbind Hr; [unbind Hr; [|discriminate Hr]|]; by injection Hr as <- _.
Qed.

(** ** Segments that go out *)

Lemma serialize_len seg pseudo l :
  sendable seg -> TCPSegment_serialize seg pseudo = Ok l -> zlen (flatten l) <= 20 + MAX_PAYLOAD_SIZE.
Proof.
  intros (Hd & Hwf & Hsz) Hs. rewrite TCPSegment_serialize_eq in Hs by lia. injection Hs as <-.
  pose proof (sealed_header_len seg pseudo ltac:(lia)) as Hl.
  rewrite flatten_cons, flatten_cons, Buffer_of_string_str by lia. change (flatten []) with (@nil Z).
  rewrite app_nil_r, zlen_app, Hl, Hd. unfold Buffer_size in Hsz. lia.
Qed.

Lemma ip_serialize_len d l :
  ih_ver (id_header d) = 4 -> ih_hlen (id_header d) = 5 -> IPv4Datagram_serialize d = Ok l ->
  zlen (flatten l) = 20 + zlen (flatten (id_payload d)).
Proof.
  destruct d as [h payload]. cbn [id_header id_payload]. intros Hv Hh Hs.
  assert (forall c, IPv4Header_serialize (IPv4Header_set_cksum h c) = Ok (ip_bytes (IPv4Header_set_cksum h c)) /\
    zlen (ip_bytes (IPv4Header_set_cksum h c)) = 20) as Hip.
  { intros c. split; [by apply IPv4Header_serialize_eq; cbn; rewrite ?Hh; try lia|].
    rewrite ip_bytes_len; cbn; rewrite Hh; lia. }
  unfold IPv4Datagram_serialize in Hs. cbn [id_payload id_header] in Hs. unbind Hs; [discriminate Hs|].
  unbind Hs. unbind Hs. rewrite set_cksum_twice in *. set (c := InternetChecksum_value _) in *. clearbody c.
  destruct (Hip c) as [Hc Hl]. rewrite Hc in E1. injection E1 as <-. injection Hs as <-.
  rewrite flatten_cons, Buffer_of_string_str, zlen_app by lia. lia.
Qed.

Lemma wrap_len b seg d seg' :
  sendable seg -> TCPOverIPv4Adapter_wrap_tcp_in_ip b seg = Ok (d, seg') ->
  ih_ver (id_header d) = 4 /\ ih_hlen (id_header d) = 5 /\ zlen (flatten (id_payload d)) <= 20 + MAX_PAYLOAD_SIZE.
Proof.
  intros Hseg Hw. unfold TCPOverIPv4Adapter_wrap_tcp_in_ip in Hw. do 5 unbind Hw.
  injection Hw as <- _. split_and!; [reflexivity|reflexivity|]. eapply serialize_len; [|eassumption]. by destruct Hseg.
Qed.

Lemma tun_write_len b seg packets b' :
  sendable seg -> TunAdapter_write b seg = Ok (packets, b') -> Forall (fun l => zlen (flatten l) < 2 ^ 63) packets.
Proof.
  intros Hseg Hw. unfold TunAdapter_write in Hw. do 3 unbind Hw. injection Hw as <- _. apply Forall_singleton.
  destruct (wrap_len _ _ _ _ Hseg E) as (Hv & Hh & Hl). rewrite (ip_serialize_len _ _ Hv Hh E0).
  unfold MAX_PAYLOAD_SIZE in Hl. lia.
Qed.

Lemma udp_write_len b seg datagrams b' :
  sendable seg -> UDPAdapter_write b seg = Ok (datagrams, b') -> Forall (fun d => zlen (flatten (snd d)) < 2 ^ 31) datagrams.
Proof.
  intros Hseg Hw. unfold UDPAdapter_write in Hw. unbind Hw. unbind Hw. unbind Hw. injection Hw as <- _.
  apply Forall_singleton. cbn [snd].
  assert (zlen (flatten a1) <= 20 + MAX_PAYLOAD_SIZE) as Hlen by (eapply serialize_len; [|eassumption]; by destruct Hseg).
  unfold MAX_PAYLOAD_SIZE in Hlen. lia.
Qed.

End over_ip.

(** ** The adapters keep the laws *)

Section laws.
Context {K U : Type} `{KernelLaws K} `{NameService}.

(** The exceptions of each adapter. *)
Definition tun_exn (e : exn) : Prop :=
  trouble (K * list event) e \/ (exists b packet, TunAdapter_read b packet = Throw e) \/
  (exists b seg, TunAdapter_write b seg = Throw e).

Definition udp_exn (e : exn) : Prop :=
  trouble (K * list event) e \/ e = runtime_error \/ (exists b datagram, UDPAdapter_read b datagram = Throw e) \/
  (exists b seg, UDPAdapter_write b seg = Throw e).

Lemma lift_ok {A} (m : result A) (E : exn -> Prop) (Q : A -> world (K * list event) U -> Prop) w :
  (forall e, m = Throw e -> E e) -> (forall x, m = Ok x -> Q x w) -> wp (lift m) E Q w.
Proof. intros Ht Hx. unfold wp, lift. destruct m; auto. Qed.

Lemma read_used fd limit (E : exn -> Prop) (w : world (K * list event) U) o n Q :
  (forall e, trouble (K * list event) e -> E e) -> w_fds w !! fd = Some (o, n) -> 0 <= limit < 2 ^ 64 ->
  (forall d w' o', used fd o n w w' o' -> fw_read_count o' = u32 (fw_read_count o + 1) -> Q d w') ->
  wp (FileDescriptor_read fd limit) E Q w.
Proof.
  intros HE Ho Hl HQ. eapply read_wp; [done|done|done|]. intros c r d _.
  apply (HQ d _ (read_done o limit d)); [|done]. apply used_call; try done. intros num r' Hn. unfold c. cbn.
  by rewrite (proj2 (Z.eqb_neq _ _)) by done.
Qed.

#[export] Instance TunFdAdapter_laws : AdapterLaws K U TunFdAdapter tun_exn.
Proof.
  assert (forall e, trouble (K * list event) e -> tun_exn e) as HE by by left.
  split; try done.
  - intros a w o n Ho. cbn [da_read TunFdAdapter_datagrams da_fd TunFdAdapter_base] in *. unfold TunFdAdapter_read.
    wp_step. eapply read_used; [done|done|done|]. intros d w1 o1 Hu Hr. wp_step. apply lift_ok.
    { intros e He. right. left. by eexists _, _. }
    intros [seg b] Hseg. wp_step. split_and!; [done|by exists o1|]. intros s ->. by eapply tun_read_win.
  - intros a seg w o n Ho Hseg. cbn [da_write TunFdAdapter_datagrams da_fd TunFdAdapter_base] in *. unfold TunFdAdapter_write.
    wp_step. apply lift_ok. { intros e He. right. right. by eexists _, _. }
    intros [packets b] Hw. wp_step. eapply wp_mono; [apply write_packets_used; [exact HE| |done]|done|].
    { left. by eapply tun_write_len. }
    intros [] w1 Hw1. by wp_step.
  - intros a ms w o n Ho. cbn [da_tick TunFdAdapter_datagrams]. wp_step. split; [done|]. exists o.
    split; [by apply used_refl|done].
Qed.

Lemma send_datagrams_used fd datagrams (w : world (K * list event) U) o n :
  Forall (fun d => zlen (flatten (snd d)) < 2 ^ 31) datagrams -> w_fds w !! fd = Some (o, n) ->
  wp (send_datagrams fd datagrams) udp_exn (fun _ => written fd o n w) w.
Proof.
  intros Hd. revert w o. induction Hd as [|[destination l] datagrams Hl Hd IH]; intros w o Ho; cbn [send_datagrams].
  - wp_step. exists o. split; [by apply used_refl|done].
  - wp_step. eapply sendto_wp; [by left|done|exact Hl|intros e ->; right; by left|].
    set (c := sys_sendmsg _ _ _).
    assert (used fd o n w (world_store (world_call w c) fd (write_done o) n) (write_done o)) as Hu by by apply used_call.
    eapply wp_mono; [apply (IH _ (write_done o)); by eapply used_lookup|done|]. intros [] w2 Hw.
    destruct (written_trans _ _ _ _ _ _ _ Hu Hw) as (o2 & H2 & R2). by exists o2.
Qed.

#[export] Instance UDPSocketAdapter_laws : AdapterLaws K U UDPSocketAdapter udp_exn.
Proof.
  assert (forall e, trouble (K * list event) e -> udp_exn e) as HE by by left.
  split; try done.
  - intros a w o n Ho. cbn [da_read UDPSocketAdapter_datagrams da_fd UDPSocketAdapter_base] in *.
    unfold UDPSocketAdapter_read, UDPSocket_recv, UDPSocket_recv_into. wp_step. wp_step. eapply fd_num_wp; [done|].
    wp_step. apply system_wp; [done|]. intros r Hv Hl. wp_if; [right; by left|]. wp_step. eapply register_read_wp; [done|].
    wp_step. apply lift_ok. { intros e He. rewrite Address_received_cases in He. right. left.
      destruct (sizeof_sockaddr_storage <? _) in He; [|done]. by injection He as <-. }
    intros source _. wp_step. apply lift_ok.
    { intros e He. unfold string_resize, string_max_size in He. rewrite u64_small, (proj2 (Z.ltb_ge _ _)) in He by lia. done. }
    intros payload _. wp_step. wp_step. apply lift_ok. { intros e He. right. right. left. by eexists _, _. }
    intros [seg b] Hseg. wp_step. split_and!; [done| |intros s ->; by eapply udp_read_win].
    eexists. split; [by apply used_call|done].
  - intros a seg w o n Ho Hseg. cbn [da_write UDPSocketAdapter_datagrams da_fd UDPSocketAdapter_base] in *.
    unfold UDPSocketAdapter_write. wp_step. apply lift_ok. { intros e He. right. right. right. by eexists _, _. }
    intros [datagrams b] Hw. wp_step. eapply wp_mono; [apply send_datagrams_used; [by eapply udp_write_len|done]|done|].
    intros [] w1 Hw1. by wp_step.
  - intros a ms w o n Ho. cbn [da_tick UDPSocketAdapter_datagrams]. wp_step. split; [done|]. exists o.
    split; [by apply used_refl|done].
Qed.

(** For the Ethernet adapter every exception is accepted: its frames are as large
    as the datagrams that others had it forward. *)
Definition any_exn (e : exn) : Prop := True.

Lemma send_pending_used (a : TapFdAdapter) (w : world (K * list event) U) o n :
  w_fds w !! pf_tap a = Some (o, n) ->
  wp (TapFdAdapter_send_pending a) any_exn
    (fun a' w' => pf_tap a' = pf_tap a /\ written (pf_tap a) o n w w') w.
Proof.
  intros Ho. unfold TapFdAdapter_send_pending. cbn [EthernetAdapter_send_pending].
  wp_step. eapply wp_mono; [apply (write_packets_used any_exn); [done|by right|done]|done|]. intros [] w1 Hw. by wp_step.
Qed.

#[export] Instance TapFdAdapter_laws : AdapterLaws K U TapFdAdapter any_exn.
Proof.
  split; try done.
  - intros a w o n Ho. cbn [da_read TapFdAdapter_datagrams da_fd TapFdAdapter_base] in *. unfold TapFdAdapter_read.
    wp_step. eapply read_used; [done|done|done|]. intros d w1 o1 Hu Hr. wp_step. apply lift_ok; [done|].
    intros [res frame] _. wp_if; [wp_step; split_and!; [done|by exists o1|done]|].
    wp_step. apply lift_ok; [done|]. intros [ip_dgram n'] _. wp_step.
    eapply wp_mono; [eapply send_pending_used; exact (used_lookup _ _ _ _ _ _ Hu)|done|]. intros a' w2 [Ha Hw].
    destruct (written_trans _ _ _ _ _ _ _ Hu Hw) as (o2 & H2 & R2).
    destruct ip_dgram as [dg|]; [|wp_step; split_and!; [done|exists o2; split; [done|congruence]|done]].
    wp_step. apply lift_ok; [done|]. intros [seg b] Hseg. wp_step.
    split_and!; [done|exists o2; split; [done|congruence]|]. intros s ->. by eapply unwrap_win.
  - intros a seg w o n Ho Hseg. cbn [da_write TapFdAdapter_datagrams da_fd TapFdAdapter_base] in *.
    unfold TapFdAdapter_write. wp_step. apply lift_ok; [done|]. intros [d seg'] _. wp_step. apply lift_ok; [done|].
    intros n' _. by eapply (send_pending_used (TapFdAdapter_with a _ _)).
  - intros a ms w o n Ho. cbn [da_tick TapFdAdapter_datagrams da_fd TapFdAdapter_base] in *.
    by eapply (send_pending_used (TapFdAdapter_with a _ _)).
Qed.

#[export] Instance LossyAdapter_laws {A} (E : exn -> Prop) `{AdapterLaws K U A E} : AdapterLaws K U (LossyFdAdapter A) E.
Proof.
  assert (forall l u, la_adapter (LossyFdAdapter_should_drop da_config l u).2 = la_adapter l) as Hdrop
    by (intros; apply should_drop_adapter).
  split.
  - intros a w o n Ho. cbn [da_read LossyAdapter_datagrams da_fd LossyAdapter_base] in *. unfold LossyAdapter_read.
    wp_step. eapply wp_mono; [by apply al_read|done|]. intros [ret a'] w' (Ha & Hu & Hs).
    specialize (Hdrop (LossyAdapter_with a a') false).
    destruct (LossyFdAdapter_should_drop _ _ _) as [drop l]. cbn [snd] in Hdrop.
    destruct drop; wp_step; (split_and!; [by rewrite Hdrop|done|done]).
  - intros a seg w o n Ho Hseg. cbn [da_write LossyAdapter_datagrams da_fd LossyAdapter_base] in *. unfold LossyAdapter_write.
    specialize (Hdrop a true). destruct (LossyFdAdapter_should_drop _ _ _) as [drop l]. cbn [snd] in Hdrop.
    destruct drop; [wp_step; rewrite Hdrop; split; [done|exists o; split; [by apply used_refl|done]]|].
    rewrite Hdrop. wp_step. eapply wp_mono; [by apply al_write|done|]. intros a' w' Hw. by wp_step.
  - intros a ms w o n Ho. cbn [da_tick LossyAdapter_datagrams da_fd LossyAdapter_base] in *. unfold LossyAdapter_tick.
    wp_step. eapply wp_mono; [by apply al_tick|done|]. intros a' w' Hw. by wp_step.
  - intros a c. exact (al_config (K:=K) (U:=U) (A:=A) (E:=E) (la_adapter a) c).
  - intros a c. exact (al_listening (K:=K) (U:=U) (A:=A) (E:=E) (la_adapter a) c).
Qed.

End laws.
