(* ===== verification/TCPConnections.v ===== *)
(** A whole endpoint: [TCPConnection] (src/libsponge/tcp_connection.hh and .cc),
    built from a [TCPReceiver] and a [TCPSender].

    Theorems: the only exceptions of a connection are those of the reassembler;
    what becomes of the two streams of a connection that is reset, and that it
    is over; how long a finished connection stays around. *)

From S2P Require Import Prelude WrappingIntegers Buffers ByteStreams StreamReassemblers Parsers TCPSegments.
From S2P Require Import TCPReceivers TCPSenders.

Record TCPConnection : Type := MkTCPConnection {
  cn_cfg : TCPConfig;
  cn_receiver : TCPReceiver;
  cn_sender : TCPSender;
  cn_segments_out : list TCPSegment;
  cn_linger_after_streams_finish : bool;
  cn_time_since_last_segment_received : Z;
  cn_time_done : option Z;
  cn_active : bool;
  cn_rst_set : bool
}.

(** [TCPConnection(cfg)]; [random] is the random number the sender may draw. *)
Definition TCPConnection_new (cfg : TCPConfig) (random : Z) : TCPConnection :=
  MkTCPConnection cfg (TCPReceiver_new (cfg_recv_capacity cfg))
    (TCPSender_new (cfg_send_capacity cfg) (cfg_rt_timeout cfg) (cfg_fixed_isn cfg) random)
    [] true 0 None true false.

(** Assignments to the members the operations change. *)
Definition TCPConnection_set_receiver (c : TCPConnection) (r : TCPReceiver) : TCPConnection :=
  MkTCPConnection (cn_cfg c) r (cn_sender c) (cn_segments_out c) (cn_linger_after_streams_finish c)
    (cn_time_since_last_segment_received c) (cn_time_done c) (cn_active c) (cn_rst_set c).

Definition TCPConnection_set_sender (c : TCPConnection) (s : TCPSender) : TCPConnection :=
  MkTCPConnection (cn_cfg c) (cn_receiver c) s (cn_segments_out c) (cn_linger_after_streams_finish c)
    (cn_time_since_last_segment_received c) (cn_time_done c) (cn_active c) (cn_rst_set c).

Definition TCPConnection_set_segments_out (c : TCPConnection) (out : list TCPSegment) : TCPConnection :=
  MkTCPConnection (cn_cfg c) (cn_receiver c) (cn_sender c) out (cn_linger_after_streams_finish c)
    (cn_time_since_last_segment_received c) (cn_time_done c) (cn_active c) (cn_rst_set c).

Definition TCPConnection_set_linger (c : TCPConnection) (linger : bool) : TCPConnection :=
  MkTCPConnection (cn_cfg c) (cn_receiver c) (cn_sender c) (cn_segments_out c) linger
    (cn_time_since_last_segment_received c) (cn_time_done c) (cn_active c) (cn_rst_set c).

Definition TCPConnection_set_times (c : TCPConnection) (since : Z) (done : option Z) : TCPConnection :=
  MkTCPConnection (cn_cfg c) (cn_receiver c) (cn_sender c) (cn_segments_out c) (cn_linger_after_streams_finish c)
    since done (cn_active c) (cn_rst_set c).

Definition TCPConnection_set_rst (c : TCPConnection) (rst : bool) : TCPConnection :=
  MkTCPConnection (cn_cfg c) (cn_receiver c) (cn_sender c) (cn_segments_out c) (cn_linger_after_streams_finish c)
    (cn_time_since_last_segment_received c) (cn_time_done c) (cn_active c) rst.

(** Accessors *)

Definition TCPConnection_inbound_stream (c : TCPConnection) : ByteStream := TCPReceiver_stream_out (cn_receiver c).
Definition TCPConnection_remaining_outbound_capacity (c : TCPConnection) : Z :=
  ByteStream_remaining_capacity (TCPSender_stream_in (cn_sender c)).
Definition TCPConnection_bytes_in_flight (c : TCPConnection) : Z := TCPSender_bytes_in_flight (cn_sender c).
Definition TCPConnection_unassembled_bytes (c : TCPConnection) : Z := TCPReceiver_unassembled_bytes (cn_receiver c).
Definition TCPConnection_time_since_last_segment_received (c : TCPConnection) : Z :=
  cn_time_since_last_segment_received c.

(** [numeric_limits<char16_t>::max()] *)
Definition char16_max : Z := 65535.

(** What the loop of [_send_outbound_segments] does to one segment. *)
Definition stamp_segment (receiver : TCPReceiver) (rst_set : bool) (seg : TCPSegment) : TCPSegment :=
  let header := ts_header seg in
  let header :=
    match TCPReceiver_ackno receiver with
    | Some ackno => TCPHeader_set_ackno header true ackno
    | None => header
    end in
  let header :=
    if char16_max <? TCPReceiver_window_size receiver
    then TCPHeader_set_win header char16_max
    else TCPHeader_set_win header (u16 (TCPReceiver_window_size receiver)) in
  let header := if rst_set then TCPHeader_set_rst header true else header in
  MkTCPSegment header (ts_payload seg).

(** Every segment of the sender's queue is popped, stamped and pushed. *)
Definition TCPConnection_send_outbound_segments (c : TCPConnection) : TCPConnection :=
  let stamped := map (stamp_segment (cn_receiver c) (cn_rst_set c)) (sd_segments_out (cn_sender c)) in
  TCPConnection_set_segments_out
    (TCPConnection_set_sender c (TCPSender_set_segments_out (cn_sender c) []))
    (cn_segments_out c ++ stamped).

Definition TCPConnection_done (c : TCPConnection) : bool :=
  if negb (ByteStream_eof (TCPReceiver_stream_out (cn_receiver c)) ||
           bs_error (TCPReceiver_stream_out (cn_receiver c)))
  then false
  else if negb (bs_error (TCPSender_stream_in (cn_sender c))) &&
          negb (ByteStream_eof (TCPSender_stream_in (cn_sender c)) &&
                (TCPSender_bytes_in_flight (cn_sender c) =? 0) && TCPSender_fined (cn_sender c))
  then false
  else true.

Definition TCPConnection_check_done (c : TCPConnection) : TCPConnection :=
  if TCPConnection_done c && negb (bool_decide (is_Some (cn_time_done c)))
  then TCPConnection_set_times c (cn_time_since_last_segment_received c)
         (Some (cn_time_since_last_segment_received c))
  else c.

Definition TCPConnection_active (c : TCPConnection) : bool :=
  if negb (TCPConnection_done c) then true
  else if negb (cn_linger_after_streams_finish c) then false
  else match cn_time_done c with
       | Some done => u64 (cn_time_since_last_segment_received c - done) <? 10 * cfg_rt_timeout (cn_cfg c)
       | None => false
       end.

(** What [_reset] does to the inbound stream and to the sender. *)
Definition receiver_error (r : TCPReceiver) : TCPReceiver :=
  TCPReceiver_with_output r (ByteStream_set_error (TCPReceiver_stream_out r)).

Definition sender_error (s : TCPSender) : TCPSender :=
  let s := TCPSender_set_stream s (ByteStream_set_error (sd_stream s)) in
  let s := TCPSender_set_stream s (ByteStream_end_input (sd_stream s)) in
  TCPSender_set_segments_out s [].

Definition TCPConnection_reset (c : TCPConnection) (send_rst : bool) : TCPConnection :=
  let c := TCPConnection_set_receiver c (receiver_error (cn_receiver c)) in
  let c := TCPConnection_set_sender c (sender_error (cn_sender c)) in
  let c := TCPConnection_set_linger c false in
  if send_rst then
    let c := TCPConnection_set_rst c true in
    let c := TCPConnection_set_sender c (TCPSender_send_empty_segment (cn_sender c)) in
    TCPConnection_send_outbound_segments c
  else c.

Definition TCPConnection_segment_received (c : TCPConnection) (seg : TCPSegment) : result TCPConnection :=
  let header := ts_header seg in
  let c := TCPConnection_set_times c 0 (cn_time_done c) in
  if th_rst header then
    if TCPReceiver_in_listen (cn_receiver c) && TCPSender_in_closed (cn_sender c) then Ok c
    else if TCPSender_in_syn_sent (cn_sender c) && negb (th_ack header) then Ok c
    else Ok (TCPConnection_reset c false)
  else if TCPReceiver_in_listen (cn_receiver c) && negb (th_syn header) then Ok c
  else if TCPSender_in_syn_sent (cn_sender c) && th_ack header && (0 <? Buffer_size (ts_payload seg)) then Ok c
  else
    receiver ← TCPReceiver_segment_received (cn_receiver c) seg;
    let c := TCPConnection_set_receiver c receiver in
    c ← (if th_ack header && (0 <? TCPSender_next_seqno_absolute (cn_sender c)) then
           sender ← TCPSender_ack_received (cn_sender c) (th_ackno header) (th_win header);
           sender ← TCPSender_fill_window sender;
           Ok (TCPConnection_set_sender c sender)
         else Ok c);
    c ← (if th_syn header && (TCPSender_next_seqno_absolute (cn_sender c) =? 0) then
           sender ← TCPSender_fill_window (cn_sender c);
           Ok (TCPConnection_set_sender c sender)
         else if (0 <? TCPSegment_length_in_sequence_space seg) &&
                 (0 <? TCPSender_next_seqno_absolute (cn_sender c))
         then Ok (TCPConnection_set_sender c (TCPSender_send_empty_segment (cn_sender c)))
         else Ok c);
    let c := TCPConnection_send_outbound_segments c in
    let c :=
      if ByteStream_eof (TCPReceiver_stream_out (cn_receiver c)) &&
         negb (ByteStream_eof (TCPSender_stream_in (cn_sender c)))
      then TCPConnection_set_linger c false else c in
    Ok (TCPConnection_check_done c).

Definition TCPConnection_write (c : TCPConnection) (data : bytes) : result (TCPConnection * Z) :=
  let '(stream, wc) := ByteStream_write (sd_stream (cn_sender c)) data in
  let sender := TCPSender_set_stream (cn_sender c) stream in
  sender ← TCPSender_fill_window sender;
  Ok (TCPConnection_send_outbound_segments (TCPConnection_set_sender c sender), wc).

Definition TCPConnection_tick (c : TCPConnection) (ms_since_last_tick : Z) : TCPConnection :=
  let c := TCPConnection_set_times c
             (u64 (cn_time_since_last_segment_received c + ms_since_last_tick)) (cn_time_done c) in
  let c := TCPConnection_set_sender c (TCPSender_tick (cn_sender c) ms_since_last_tick) in
  let c :=
    if MAX_RETX_ATTEMPTS <? TCPSender_consecutive_retransmissions (cn_sender c)
    then TCPConnection_reset c true else c in
  let c := TCPConnection_send_outbound_segments c in
  TCPConnection_check_done c.

Definition TCPConnection_end_input_stream (c : TCPConnection) : result TCPConnection :=
  let sender := TCPSender_set_stream (cn_sender c) (ByteStream_end_input (sd_stream (cn_sender c))) in
  sender ← TCPSender_fill_window sender;
  let c := TCPConnection_send_outbound_segments (TCPConnection_set_sender c sender) in
  Ok (TCPConnection_check_done c).

Definition TCPConnection_connect (c : TCPConnection) : result TCPConnection :=
  sender ← TCPSender_fill_window (cn_sender c);
  let c := TCPConnection_send_outbound_segments (TCPConnection_set_sender c sender) in
  Ok (TCPConnection_check_done c).

(** The destructor; what it puts in the queue is lost with the connection. *)
Definition TCPConnection_destroy (c : TCPConnection) : TCPConnection :=
  if TCPConnection_active c then TCPConnection_reset c true else c.

(** ** The sending side of a connection *)

(** What a sender keeps while it works: its initial sequence number, how far it
    has come, and whether it has sent a FIN. *)
Record sender_le (s s' : TCPSender) : Prop := {
  le_isn : sd_isn s' = sd_isn s;
  le_next : sd_next_seqno s <= sd_next_seqno s';
  le_fined : sd_fined s = true -> sd_fined s' = true
}.

#[export] Instance sender_le_preorder : PreOrder sender_le.
Proof.
  split; [by intros s; split|]. intros s1 s2 s3 [A1 A2 A3] [B1 B2 B3].
  split; [congruence|lia|auto].
Qed.

Lemma sent_by_le W s s' seg : sender_le s s' -> sent_by W s seg -> sent_by W s' seg.
Proof. intros []. by apply sent_by_mono. Qed.

(** A segment on the wire: one of the sender's, with a 16-bit window. *)
Definition on_wire (W : bytes) (s : TCPSender) (seg : TCPSegment) : Prop :=
  sent_by W s seg /\ 0 <= th_win (ts_header seg) < 2 ^ 16.

Record conn_inv (W : bytes) (c : TCPConnection) : Prop := {
  ci_core : sender_core W (cn_sender c);
  ci_pos : sender_pos W (cn_sender c);
  ci_out : Forall (on_wire W (cn_sender c)) (cn_segments_out c)
}.

Lemma on_wire_le W s s' l : sender_le s s' -> Forall (on_wire W s) l -> Forall (on_wire W s') l.
Proof. intros Hle Hl. eapply Forall_impl; [exact Hl|]. intros seg [H1 H2]. split; [by eapply sent_by_le|done]. Qed.

Lemma on_wire_more W W' s l : sd_fined s = false -> Forall (on_wire W s) l -> Forall (on_wire (W ++ W') s) l.
Proof.
  intros Hf. unfold on_wire. rewrite !Forall_and. intros [H1 H2]. split; [by apply sent_by_more|done].
Qed.

Lemma stamp_on_wire W s r rst seg : sent_by W s seg -> on_wire W s (stamp_segment r rst seg).
Proof.
  intros (a & [S1 S2 S3 S4 S5 S6 S7] & H2 & H3). unfold stamp_segment. split.
  - exists a. destruct (TCPReceiver_ackno r), (char16_max <? TCPReceiver_window_size r), rst; by split_and!.
  - pose proof (u16_range (TCPReceiver_window_size r)). unfold char16_max.
    destruct (TCPReceiver_ackno r), (65535 <? TCPReceiver_window_size r), rst; simpl; lia.
Qed.

(** The sender has moved on and its new segments are stamped and queued. *)
Lemma send_outbound_inv W c s' :
  conn_inv W c -> sender_core W s' -> sender_pos W s' -> sender_le (cn_sender c) s' ->
  let c' := TCPConnection_send_outbound_segments (TCPConnection_set_sender c s') in
  conn_inv W c' /\ sender_le (cn_sender c) (cn_sender c') /\ cn_receiver c' = cn_receiver c.
Proof.
  intros [C1 C2 C3] Hc Hp Hle c'.
  destruct (drain_ok W s' (sd_segments_out s') []) as [Hc' Hp']; [by rewrite app_nil_r|done|done|].
  split; [|split; [by destruct Hle|done]]. split; [exact Hc'|exact Hp'|]. simpl.
  assert (forall l, Forall (on_wire W s') l -> Forall (on_wire W (TCPSender_set_segments_out s' [])) l) as Hm.
  { intros l Hl. eapply on_wire_le; [|exact Hl]. by split. }
  apply Forall_app. split; apply Hm.
  - by eapply on_wire_le.
  - apply Forall_map. eapply Forall_impl; [apply (sc_sent _ _ Hc)|]. intros seg. apply stamp_on_wire.
Qed.

Lemma conn_inv_same W c c' :
  cn_sender c' = cn_sender c -> cn_segments_out c' = cn_segments_out c -> conn_inv W c -> conn_inv W c'.
Proof. intros E1 E2 []. split; by rewrite ?E1, ?E2. Qed.

(** [_check_done] touches neither streams nor segments. *)
Lemma check_done_same c :
  cn_sender (TCPConnection_check_done c) = cn_sender c /\
  cn_segments_out (TCPConnection_check_done c) = cn_segments_out c /\
  cn_receiver (TCPConnection_check_done c) = cn_receiver c.
Proof. unfold TCPConnection_check_done. by destruct (_ && _). Qed.

Lemma check_done_inv W c : conn_inv W c -> conn_inv W (TCPConnection_check_done c).
Proof. destruct (check_done_same c) as (E1 & E2 & _). by apply conn_inv_same. Qed.

Lemma fill_window_le W s : sender_core W s -> sender_pos W s ->
  exists s', TCPSender_fill_window s = Ok s' /\ sender_core W s' /\ sender_pos W s' /\ sender_le s s'.
Proof.
  intros Hc Hp. destruct (fill_window_ok W s Hc Hp) as (s' & new & E & Hf & _). exists s'.
  pose proof (sent_chain_le _ _ _ _ _ (fl_chain _ _ _ _ Hf)).
  pose proof (fl_frame _ _ _ _ Hf) as Fr. unfold sender_frame in Fr. injection Fr as Ei _ _ _ _ _ _ _ _ _ _.
  split_and!; try apply Hf; try done. split; [done|lia|apply Hf].
Qed.

Lemma ack_received_le W s ackno win : sender_core W s -> sender_pos W s -> 0 <= win < 2 ^ 16 ->
  exists s', TCPSender_ack_received s ackno win = Ok s' /\ sender_core W s' /\ sender_pos W s' /\ sender_le s s'.
Proof.
  intros Hc Hp Hw. destruct (ack_received_ok W s ackno win Hc Hp Hw) as (s' & new & E & Hc' & Hp' & Hi & _ & Hn & Hf).
  by exists s'.
Qed.

Lemma send_empty_le W s : sender_core W s -> sender_pos W s ->
  let s' := TCPSender_send_empty_segment s in sender_core W s' /\ sender_pos W s' /\ sender_le s s'.
Proof.
  intros Hc Hp s'. destruct (send_empty_ok W s Hc Hp) as (seg & E & Hc' & Hp'). fold s' in E, Hc', Hp'.
  split_and!; [done|done|]. rewrite E. by split.
Qed.

Lemma sender_error_ok W s : sender_core W s -> sender_pos W s ->
  sender_core W (sender_error s) /\ sender_pos W (sender_error s) /\ sender_le s (sender_error s).
Proof.
  intros [D1 D2 D3 D4 D5 D6 D7 [D81 D82] D9] [P1 P2]. split_and!; [|split; simpl; [done|]|by split].
  - split; simpl; auto with sponge.
  - intros Hf. by destruct (P2 Hf).
Qed.

(** The segment that carries the RST. *)
Definition rst_segment (c : TCPConnection) : TCPSegment :=
  stamp_segment (receiver_error (cn_receiver c)) true
    (build_segment (with_seqno (TCPSender_next_seqno (cn_sender c)) TCPSegmentBuilder_default)).

(** [_reset] in closed form. *)
Lemma reset_eq W c send_rst : conn_inv W c ->
  TCPConnection_reset c send_rst =
    MkTCPConnection (cn_cfg c) (receiver_error (cn_receiver c)) (sender_error (cn_sender c))
      (cn_segments_out c ++ if send_rst then [rst_segment c] else []) false
      (cn_time_since_last_segment_received c) (cn_time_done c) (cn_active c) (if send_rst then true else cn_rst_set c).
Proof.
  intros [C1 C2 C3]. unfold TCPConnection_reset. destruct send_rst; [|by rewrite app_nil_r].
  destruct (sender_error_ok W _ C1 C2) as (D1 & D2 & _).
  destruct (send_empty_ok W _ D1 D2) as (seg & E & _).
  assert (seg = build_segment (with_seqno (TCPSender_next_seqno (cn_sender c)) TCPSegmentBuilder_default)) as ->.
  { apply (f_equal sd_segments_out) in E. unfold TCPSender_send_empty_segment in E. rewrite TCPSender_send_eq in E.
    cbn [sd_segments_out TCPSender_set_segments_out] in E. apply app_inv_head in E. by injection E as <-. }
  cbn [cn_sender TCPConnection_set_rst TCPConnection_set_linger TCPConnection_set_sender TCPConnection_set_receiver].
  by rewrite E.
Qed.

(** [_reset] puts both streams in the error state. *)
Lemma reset_inv W c send_rst : conn_inv W c ->
  let c' := TCPConnection_reset c send_rst in
  conn_inv W c' /\ sender_le (cn_sender c) (cn_sender c') /\ cn_receiver c' = receiver_error (cn_receiver c).
Proof.
  intros Hi c'. unfold c'. rewrite (reset_eq W) by done. destruct Hi as [C1 C2 C3].
  destruct (sender_error_ok W _ C1 C2) as (D1 & D2 & D3). split; [|split; done].
  split; [exact D1|exact D2|]. cbn [cn_sender cn_segments_out]. apply Forall_app. split; [by eapply on_wire_le|].
  destruct send_rst; [|apply Forall_nil_2]. apply Forall_singleton, stamp_on_wire.
  destruct (send_empty_ok W _ D1 D2) as (seg & E & G1 & _). destruct (sc_sent _ _ G1) as [G2 _]. rewrite E in G2.
  apply (f_equal sd_segments_out) in E. unfold TCPSender_send_empty_segment in E. rewrite TCPSender_send_eq in E.
  cbn [sd_segments_out TCPSender_set_segments_out] in E, G2. rewrite <- E in G2.
  apply Forall_app in G2 as [_ G2]. apply Forall_cons in G2 as [G2 _]. exact G2.
Qed.

Lemma connect_ok W c : conn_inv W c ->
  exists c', TCPConnection_connect c = Ok c' /\ conn_inv W c' /\ sender_le (cn_sender c) (cn_sender c') /\
    cn_receiver c' = cn_receiver c.
Proof.
  intros Hi. pose proof Hi as [C1 C2 _]. destruct (fill_window_le W _ C1 C2) as (s' & E & Hc & Hp & Hle).
  unfold TCPConnection_connect. rewrite E. cbn [mbind result_bind]. eexists. split; [done|].
  destruct (send_outbound_inv W c s' Hi Hc Hp Hle) as (H1 & H2 & H3).
  split; [by apply check_done_inv|]. destruct (check_done_same
    (TCPConnection_send_outbound_segments (TCPConnection_set_sender c s'))) as (-> & _ & ->). done.
Qed.

Lemma end_input_stream_ok W c : conn_inv W c ->
  exists c', TCPConnection_end_input_stream c = Ok c' /\ conn_inv W c' /\ sender_le (cn_sender c) (cn_sender c') /\
    cn_receiver c' = cn_receiver c.
Proof.
  intros Hi. pose proof Hi as [C1 C2 _]. destruct (end_input_ok W _ C1 C2) as [C1' C2'].
  destruct (fill_window_le W _ C1' C2') as (s' & E & Hc & Hp & Hle).
  unfold TCPConnection_end_input_stream. rewrite E. cbn [mbind result_bind]. eexists. split; [done|].
  assert (sender_le (cn_sender c) s') as Hle' by (etrans; [|exact Hle]; by split).
  destruct (send_outbound_inv W c s' Hi Hc Hp Hle') as (H1 & H2 & H3).
  split; [by apply check_done_inv|]. destruct (check_done_same
    (TCPConnection_send_outbound_segments (TCPConnection_set_sender c s'))) as (-> & _ & ->). done.
Qed.

(** [write] adds to the outgoing stream what fits and sends what it can. *)
Lemma conn_write_ok W c d : conn_inv W c -> sd_fined (cn_sender c) = false ->
  zlen W + zlen d + 2 < index_limit ->
  exists c' n, TCPConnection_write c d = Ok (c', n) /\
    n = Z.min (zlen d) (TCPConnection_remaining_outbound_capacity c) /\
    conn_inv (W ++ ztake n d) c' /\ sender_le (cn_sender c) (cn_sender c') /\ cn_receiver c' = cn_receiver c.
Proof.
  intros [C1 C2 C3] Hnf Hlim. unfold TCPConnection_write. pose proof (zlen_nonneg d). pose proof (zlen_nonneg W).
  destruct (ByteStream_write (sd_stream (cn_sender c)) d) as [st n] eqn:Ew.
  destruct (write_ok W _ d st n C1 C2 Hnf Ew Hlim) as [C1' C2'].
  destruct (fill_window_le _ _ C1' C2') as (s' & E & Hc & Hp & Hle). rewrite E. cbn [mbind result_bind].
  unfold index_limit in *. apply ByteStream_write_ok in Ew as Hw; [|apply C1|lia].
  eexists _, n. split; [done|]. split.
  { rewrite (ws_count _ _ _ _ Hw). unfold TCPConnection_remaining_outbound_capacity, TCPSender_stream_in.
    by rewrite ByteStream_remaining_capacity_eq by apply C1. }
  destruct (send_outbound_inv (W ++ ztake n d) (TCPConnection_set_sender c (TCPSender_set_stream (cn_sender c) st)) s')
    as (H1 & H2 & H3); [|done..|].
  { split; [done|done|]. simpl. eapply on_wire_le; [|by apply on_wire_more]. by split. }
  split_and!; [exact H1| |exact H3]. etrans; [|exact H2]. by split.
Qed.

Lemma conn_tick_ok W c ms : conn_inv W c ->
  let c' := TCPConnection_tick c ms in
  conn_inv W c' /\ sender_le (cn_sender c) (cn_sender c') /\
  (cn_receiver c' = cn_receiver c \/ cn_receiver c' = receiver_error (cn_receiver c)).
Proof.
  intros [C1 C2 C3] c'. destruct (tick_ok W _ ms C1 C2) as [C1' C2'].
  assert (sender_le (cn_sender c) (TCPSender_tick (cn_sender c) ms)) as Hle.
  { rewrite (tick_eq W) by done. by split. }
  unfold c', TCPConnection_tick.
  set (c1 := TCPConnection_set_sender (TCPConnection_set_times c _ _) _).
  assert (conn_inv W c1) as H1 by (split; [done|done|simpl; by eapply on_wire_le]).
  set (c2 := if MAX_RETX_ATTEMPTS <? _ then _ else _).
  assert (conn_inv W c2 /\ sender_le (cn_sender c1) (cn_sender c2) /\
    (cn_receiver c2 = cn_receiver c \/ cn_receiver c2 = receiver_error (cn_receiver c))) as (H2 & L2 & R2).
  { unfold c2. destruct (_ <? _); [|split_and!; [done|done|by left]].
    destruct (reset_inv W c1 true H1) as (? & ? & ?). split_and!; [done|done|by right]. }
  pose proof H2 as [D1 D2 _].
  destruct (send_outbound_inv W c2 (cn_sender c2) H2 D1 D2 ltac:(done)) as (H3 & L3 & R3).
  replace (TCPConnection_set_sender c2 (cn_sender c2)) with c2 in H3, L3, R3 by by destruct c2.
  destruct (check_done_same (TCPConnection_send_outbound_segments c2)) as (-> & _ & ->).
  split_and!; [by apply check_done_inv|etrans; [exact Hle|etrans; [exact L2|exact L3]]|by rewrite R3].
Qed.

(** The acknowledgment of a segment, as the connection processes it. *)
Lemma conn_ack_ok W c seg :
  conn_inv W c -> 0 <= th_win (ts_header seg) < 2 ^ 16 ->
  exists s', (if th_ack (ts_header seg) && (0 <? TCPSender_next_seqno_absolute (cn_sender c)) then
     sender ← TCPSender_ack_received (cn_sender c) (th_ackno (ts_header seg)) (th_win (ts_header seg));
     sender ← TCPSender_fill_window sender;
     Ok (TCPConnection_set_sender c sender)
   else Ok c) = Ok (TCPConnection_set_sender c s') /\
  sender_core W s' /\ sender_pos W s' /\ sender_le (cn_sender c) s'.
Proof.
  intros [C1 C2 C3] Hwin. destruct (_ && _).
  - destruct (ack_received_le W _ (th_ackno (ts_header seg)) _ C1 C2 Hwin) as (s1 & E1 & H1 & H2 & L1).
    rewrite E1. cbn [mbind result_bind]. destruct (fill_window_le W s1 H1 H2) as (s2 & E2 & H3 & H4 & L2).
    rewrite E2. cbn [mbind result_bind]. exists s2. split_and!; [done|done|done|by etrans].
  - exists (cn_sender c). split_and!; [by destruct c|done|done|done].
Qed.

(** The answer to a segment: a SYN of our own, or an empty segment. *)
Lemma conn_answer_ok W c seg : conn_inv W c ->
  exists s', (if th_syn (ts_header seg) && (TCPSender_next_seqno_absolute (cn_sender c) =? 0) then
     sender ← TCPSender_fill_window (cn_sender c);
     Ok (TCPConnection_set_sender c sender)
   else if (0 <? TCPSegment_length_in_sequence_space seg) && (0 <? TCPSender_next_seqno_absolute (cn_sender c))
   then Ok (TCPConnection_set_sender c (TCPSender_send_empty_segment (cn_sender c)))
   else Ok c) = Ok (TCPConnection_set_sender c s') /\
  sender_core W s' /\ sender_pos W s' /\ sender_le (cn_sender c) s'.
Proof.
  intros [C1 C2 C3]. destruct (th_syn _ && _).
  - destruct (fill_window_le W _ C1 C2) as (s2 & E2 & H3 & H4 & L2). rewrite E2. by exists s2.
  - destruct (_ && _).
    + destruct (send_empty_le W _ C1 C2) as (H1 & H2 & L). eexists. by split_and!.
    + exists (cn_sender c). split_and!; [by destruct c|done|done|done].
Qed.

Lemma conn_segment_received_ok W c seg :
  conn_inv W c -> 0 <= th_win (ts_header seg) < 2 ^ 16 ->
  (exists c', TCPConnection_segment_received c seg = Ok c' /\ conn_inv W c' /\
     sender_le (cn_sender c) (cn_sender c') /\
     (cn_receiver c' = cn_receiver c \/ cn_receiver c' = receiver_error (cn_receiver c) \/
      TCPReceiver_segment_received (cn_receiver c) seg = Ok (cn_receiver c'))) \/
  (exists e, TCPReceiver_segment_received (cn_receiver c) seg = Throw e /\
     TCPConnection_segment_received c seg = Throw e).
Proof.
  intros Hi Hwin. unfold TCPConnection_segment_received.
  set (c0 := TCPConnection_set_times c 0 (cn_time_done c)).
  assert (conn_inv W c0) as H0 by (by eapply conn_inv_same; [| |exact Hi]).
  change (cn_sender c) with (cn_sender c0). change (cn_receiver c) with (cn_receiver c0). cbn zeta.
  destruct (th_rst (ts_header seg)).
  { left. destruct (_ && _); [exists c0; split_and!; [done|done|done|by left]|].
    destruct (_ && _); [exists c0; split_and!; [done|done|done|by left]|].
    destruct (reset_inv W c0 false H0) as (H1 & H2 & H3). eexists. split_and!; [done|done|done|by right; left]. }
  destruct (_ && _); [left; exists c0; split_and!; [done|done|done|by left]|].
  destruct (_ && _); [left; exists c0; split_and!; [done|done|done|by left]|].
  destruct (TCPReceiver_segment_received (cn_receiver c0) seg) as [r|e]; [left|right; by exists e].
  cbn [mbind result_bind]. set (c1 := TCPConnection_set_receiver c0 r).
  assert (conn_inv W c1) as H1 by (by eapply conn_inv_same; [| |exact H0]).
  destruct (conn_ack_ok W c1 seg H1 Hwin) as (s2 & E2 & K1 & K2 & L2). rewrite E2. cbn [mbind result_bind].
  set (c2 := TCPConnection_set_sender c1 s2).
  assert (conn_inv W c2) as H2 by (split; [done|done|simpl; by eapply on_wire_le; [|apply H1]]).
  destruct (conn_answer_ok W c2 seg H2) as (s3 & E3 & K3 & K4 & L3). rewrite E3. cbn [mbind result_bind].
  destruct (send_outbound_inv W c2 s3 H2 K3 K4 L3) as (H4 & L4 & R4).
  set (c4 := TCPConnection_send_outbound_segments _) in *.
  set (c5 := if _ && _ then TCPConnection_set_linger c4 false else c4).
  assert (conn_inv W c5 /\ cn_sender c5 = cn_sender c4 /\ cn_receiver c5 = r) as (H5 & E5 & R5).
  { unfold c5. destruct (ByteStream_eof (TCPReceiver_stream_out (cn_receiver c4)) && _); (split_and!; [|done|exact R4]); [|done]. by eapply conn_inv_same; [| |exact H4]. }
  eexists. split; [done|]. destruct (check_done_same c5) as (-> & _ & ->).
  split_and!; [by apply check_done_inv| |by right; right; rewrite R5]. rewrite E5. etrans; [exact L2|exact L4].
Qed.

(** ** Reset *)

Lemma TCPConnection_new_inv cfg random :
  0 <= cfg_send_capacity cfg < 2 ^ 64 ->
  WrappingInt32_ok (default (MkWrappingInt32 random) (cfg_fixed_isn cfg)) ->
  conn_inv [] (TCPConnection_new cfg random).
Proof.
  intros Hc Hi. destruct (TCPSender_new_inv (cfg_send_capacity cfg) (cfg_rt_timeout cfg) (cfg_fixed_isn cfg) random)
    as [H1 H2 _]; [done|done|]. split; [exact H1|exact H2|apply Forall_nil_2].
Qed.

Lemma reset_over W c send_rst : conn_inv W c ->
  let c' := TCPConnection_reset c send_rst in
  TCPConnection_done c' = true /\ TCPConnection_active c' = false /\
  bs_error (TCPConnection_inbound_stream c') = true /\ bs_error (TCPSender_stream_in (cn_sender c')) = true.
Proof.
  intros Hi c'. unfold c'. rewrite (reset_eq W) by done.
  assert (TCPConnection_done (MkTCPConnection (cn_cfg c) (receiver_error (cn_receiver c)) (sender_error (cn_sender c))
      (cn_segments_out c ++ if send_rst then [rst_segment c] else []) false
      (cn_time_since_last_segment_received c) (cn_time_done c) (cn_active c)
      (if send_rst then true else cn_rst_set c)) = true) as Hd.
  { unfold TCPConnection_done. simpl. by rewrite orb_true_r. }
  split_and!; [done| |done|done]. unfold TCPConnection_active. by rewrite Hd.
Qed.


(** The RSTs that the code ignores: those that find it in LISTEN, and those without an
    acknowledgment while its SYN is not acknowledged. *)
Definition rst_ignored (c : TCPConnection) (h : TCPHeader) : bool :=
  TCPReceiver_in_listen (cn_receiver c) && TCPSender_in_closed (cn_sender c) ||
  TCPSender_in_syn_sent (cn_sender c) && negb (th_ack h).


(** A RST is ignored or ends the connection. *)
Lemma rst_received W c seg : conn_inv W c -> th_rst (ts_header seg) = true ->
  exists c', TCPConnection_segment_received c seg = Ok c' /\
    if rst_ignored c (ts_header seg) then c' = TCPConnection_set_times c 0 (cn_time_done c)
    else TCPConnection_active c' = false /\ bs_error (TCPConnection_inbound_stream c') = true /\
      bs_error (TCPSender_stream_in (cn_sender c')) = true /\ cn_segments_out c' = cn_segments_out c.
Proof.
  intros Hi Hr. unfold TCPConnection_segment_received, rst_ignored. rewrite Hr. cbn zeta. simpl.
  destruct (TCPReceiver_in_listen _ && _); [by eexists|]. destruct (TCPSender_in_syn_sent _ && _); [by eexists|]. cbn [orb].
  eexists. split; [done|]. set (c1 := TCPConnection_set_times c 0 (cn_time_done c)).
  assert (conn_inv W c1) as Hi1 by (by eapply conn_inv_same; [| |exact Hi]).
  by destruct (reset_over W c1 false Hi1) as (_ & G2 & G3 & G4).
Qed.

(** The code does not look at the number that a RST acknowledges, nor at its place: a
    RST that should be ignored in SYN_SENT ends the connection as well. *)
Lemma bad_rst_obeyed W c seg : conn_inv W c -> th_rst (ts_header seg) = true ->
  TCPSender_in_syn_sent (cn_sender c) = true -> th_ack (ts_header seg) = true ->
  exists c', TCPConnection_segment_received c seg = Ok c' /\ TCPConnection_active c' = false.
Proof.
  intros Hi Hr Hs Ha. destruct (rst_received W c seg Hi Hr) as (c' & E & H). exists c'. split; [done|].
  assert (rst_ignored c (ts_header seg) = false) as Hg; [|rewrite Hg in H; apply H].
  unfold rst_ignored. rewrite Hs, Ha. cbn [negb andb]. rewrite orb_false_r. unfold TCPSender_in_syn_sent, TCPSender_in_closed in *.
  apply andb_true_iff in Hs as [Hs _]. b2p. rewrite (proj2 (Z.eqb_neq (TCPSender_next_seqno_absolute (cn_sender c)) 0)) by lia. apply andb_false_r.
Qed.



(** ** Lingering *)

Lemma idle_tick W c ms :
  conn_inv W c -> sd_segments_pending (cn_sender c) = [] ->
  sd_consecutive_retransmissions (cn_sender c) <= MAX_RETX_ATTEMPTS -> is_Some (cn_time_done c) ->
  TCPConnection_tick c ms = TCPConnection_send_outbound_segments
    (TCPConnection_set_times c (u64 (cn_time_since_last_segment_received c + ms)) (cn_time_done c)).
Proof.
  intros Hi Hp Hn Hd. unfold TCPConnection_tick.
  assert (TCPSender_tick (cn_sender c) ms = cn_sender c) as E.
  { rewrite (tick_eq W) by apply Hi. unfold tick_fires. destruct (cn_sender c). simpl in *. subst. simpl.
    by rewrite app_nil_r. }
  simpl. rewrite E. unfold TCPSender_consecutive_retransmissions. rewrite (proj2 (Z.ltb_ge _ _)) by done.
  unfold TCPConnection_check_done. rewrite (bool_decide_true (is_Some _)) by done. rewrite andb_false_r. by destruct c.
Qed.

(** C32.  A connection whose streams have both finished, with nothing outstanding, and
    which is to linger and has noted the time at which it was done, counted from the
    last segment: as the clock ticks and no segment arrives, it stays active exactly
    until ten initial timeouts have passed since then. *)
Theorem finished_connection_lingers W c t mss :
  conn_inv W c -> TCPConnection_done c = true -> cn_linger_after_streams_finish c = true ->
  cn_time_done c = Some t -> sd_segments_pending (cn_sender c) = [] ->
  sd_consecutive_retransmissions (cn_sender c) <= MAX_RETX_ATTEMPTS ->
  0 <= t <= cn_time_since_last_segment_received c -> Forall (fun ms => 0 <= ms) mss ->
  cn_time_since_last_segment_received c + zsum mss < 2 ^ 64 ->
  TCPConnection_active (foldl TCPConnection_tick c mss) =
    (cn_time_since_last_segment_received c + zsum mss - t <? 10 * cfg_rt_timeout (cn_cfg c)).
Proof.
  intros Hi Hd Hl Ht Hp Hn H0 Hms Hlt. revert c Hi Hd Hl Ht Hp Hn H0 Hlt.
  induction Hms as [|ms mss Hm Hms IH]; intros c Hi Hd Hl Ht Hp Hn H0 Hlt; cbn [foldl zsum foldr] in *.
  { unfold TCPConnection_active. rewrite Hd, Hl, Ht. cbn [negb]. rewrite u64_small by lia. f_equal. lia. }
  fold (zsum mss) in *. pose proof (zsum_nonneg mss Hms) as Hz.
  rewrite (idle_tick W) by (done || by rewrite Ht). rewrite u64_small by lia.
  set (c1 := TCPConnection_set_times c _ _).
  assert (conn_inv W c1) as H1 by (by eapply conn_inv_same; [| |exact Hi]). pose proof H1 as [D1 D2 _].
  destruct (send_outbound_inv W c1 (cn_sender c1) H1 D1 D2 ltac:(done)) as (H2 & _ & _).
  replace (TCPConnection_set_sender c1 (cn_sender c1)) with c1 in H2 by by destruct c1.
  rewrite IH; [simpl; f_equal; lia|exact H2|exact Hd|done|done|done|done|simpl; lia|simpl; lia].
Qed.

(** A connection that opens, sends a FIN and is answered by one. *)
Definition sample_finished : result TCPConnection :=
  let cfg := MkTCPConfig 1000 64 64 (Some (MkWrappingInt32 7)) in
  let seg syn fin seqno ackno := MkTCPSegment (MkTCPHeader 0 0 (MkWrappingInt32 seqno) (MkWrappingInt32 ackno) 5
    false true false false syn fin 100 0 0) Buffer_default in
  c ← TCPConnection_connect (TCPConnection_new cfg 0);
  c ← TCPConnection_segment_received c (seg true false 20 8);
  c ← TCPConnection_end_input_stream c;
  TCPConnection_segment_received c (seg false true 21 9).

Lemma sample_finished_inv : exists c, sample_finished = Ok c /\ conn_inv [] c.
Proof.
  set (cfg := MkTCPConfig 1000 64 64 (Some (MkWrappingInt32 7))).
  set (seg syn fin seqno ackno := MkTCPSegment (MkTCPHeader 0 0 (MkWrappingInt32 seqno) (MkWrappingInt32 ackno) 5
    false true false false syn fin 100 0 0) Buffer_default).
  destruct (connect_ok [] (TCPConnection_new cfg 0)) as (c1 & E1 & I1 & _).
  { apply TCPConnection_new_inv; simpl; [lia|]. unfold WrappingInt32_ok. simpl. lia. }
  destruct (conn_segment_received_ok [] c1 (seg true false 20 8) I1) as [(c2 & E2 & I2 & _)|(e & Er & E2)]; [simpl; lia| |].
  2:{ exfalso. vm_compute in E1. injection E1 as <-. vm_compute in Er. discriminate Er. }
  destruct (end_input_stream_ok [] c2 I2) as (c3 & E3 & I3 & _).
  destruct (conn_segment_received_ok [] c3 (seg false true 21 9) I3) as [(c4 & E4 & I4 & _)|(e & Er & E4)]; [simpl; lia| |].
  2:{ exfalso. vm_compute in E1. injection E1 as <-. vm_compute in E2. injection E2 as <-.
      vm_compute in E3. injection E3 as <-. vm_compute in Er. discriminate Er. }
  exists c4. split; [|done]. unfold sample_finished. fold cfg. rewrite E1. cbn [mbind result_bind].
  change (TCPConnection_segment_received c1 _) with (TCPConnection_segment_received c1 (seg true false 20 8)).
  rewrite E2. cbn [mbind result_bind]. rewrite E3. cbn [mbind result_bind]. exact E4.
Qed.

Lemma finished_connection_lingers_witness :
  exists c, sample_finished = Ok c /\
    TCPConnection_active (foldl TCPConnection_tick c [4000; 5999]) = true /\
    TCPConnection_active (foldl TCPConnection_tick c [4000; 5999; 1]) = false.
Proof.
  destruct sample_finished_inv as (c & E & Hi). exists c. split; [exact E|]. vm_compute in E. injection E as Ec.
  split; rewrite (finished_connection_lingers [] c 0 _ Hi);
    try (rewrite <- Ec; reflexivity); try (rewrite <- Ec; vm_compute; congruence); try (rewrite <- Ec; vm_compute; split; congruence);
    repeat apply Forall_cons_2; [lia|lia|apply Forall_nil_2|lia|lia|lia|apply Forall_nil_2].
Defined.

(** The times after a segment has arrived at a connection that is done. *)
Definition times_are (c : TCPConnection) (cfg : TCPConfig) (t : Z) : Prop :=
  cn_time_since_last_segment_received c = 0 /\ cn_time_done c = Some t /\ cn_cfg c = cfg.

Ltac case_in H := match type of H with context [if ?b then _ else _] => destruct b end.

Lemma check_done_times c cfg t : times_are c cfg t -> times_are (TCPConnection_check_done c) cfg t.
Proof.
  intros (F1 & F2 & F3). unfold TCPConnection_check_done. rewrite F2. simpl. by rewrite andb_false_r.
Qed.

Lemma segment_received_times c seg c' t :
  cn_time_done c = Some t -> th_rst (ts_header seg) = false -> TCPConnection_segment_received c seg = Ok c' ->
  times_are c' (cn_cfg c) t.
Proof.
  intros Ht Hrst E. unfold TCPConnection_segment_received in E. rewrite Hrst in E. cbn zeta in E.
  case_in E; [by injection E as <-|]. case_in E; [by injection E as <-|].
  destruct (TCPReceiver_segment_received _ _) as [r|]; [|done]. cbn [mbind result_bind] in E.
  destruct (if th_ack _ && _ then _ else _) as [c1|] eqn:Ea; [|done]. cbn [mbind result_bind] in E.
  assert (times_are c1 (cn_cfg c) t) as F1.
  { case_in Ea; [|by injection Ea as <-].
    destruct (TCPSender_ack_received _ _ _) as [s1|]; [|done]. cbn [mbind result_bind] in Ea.
    destruct (TCPSender_fill_window s1) as [s2|]; [|done]. by injection Ea as <-. }
  destruct (if th_syn _ && _ then _ else _) as [c2|] eqn:Eb; [|done]. cbn [mbind result_bind] in E.
  assert (times_are c2 (cn_cfg c) t) as F2.
  { case_in Eb; [destruct (TCPSender_fill_window _) as [s1|]; [|done]; by injection Eb as <-|].
    case_in Eb; by injection Eb as <-. }
  injection E as <-. apply check_done_times.
  match goal with |- context [if ?b then _ else _] => by destruct b end.
Qed.

(** C40.  The clock of a connection that is done is not started again by the next
    segment.  A connection that lingers and was done some time after the last segment
    (its reader was late, say) compares the time since the last segment, then zero, with
    that time; the subtraction wraps around and it is not active any more.  A connection
    that was done at the very arrival of its last segment, with the time 0, is not
    concerned. *)
Theorem segment_cuts_lingering_short c seg c' t :
  cn_time_done c = Some t -> 0 < t <= 2 ^ 64 - 10 * cfg_rt_timeout (cn_cfg c) ->
  th_rst (ts_header seg) = false -> TCPConnection_segment_received c seg = Ok c' ->
  TCPConnection_done c' = true -> cn_linger_after_streams_finish c' = true ->
  cn_time_since_last_segment_received c' = 0 /\ TCPConnection_active c' = false.
Proof.
  intros Ht Hr Hrst E Hd Hl.
  assert (cn_time_since_last_segment_received c' = 0 /\ cn_time_done c' = Some t /\ cn_cfg c' = cn_cfg c) as (E1 & E2 & E3).
  { by eapply segment_received_times. }
  split; [done|]. unfold TCPConnection_active. rewrite Hd, Hl, E2, E1, E3. cbn [negb].
  apply Z.ltb_ge. destruct (Z.le_gt_cases (10 * cfg_rt_timeout (cn_cfg c)) 0); [pose proof (u64_range (0 - t)); lia|].
  replace (u64 (0 - t)) with (2 ^ 64 - t) by wrap_lia. lia.
Qed.

(** A connection whose reader takes the last byte only after a while. *)
Definition sample_late : result TCPConnection :=
  let cfg := MkTCPConfig 1000 64 64 (Some (MkWrappingInt32 7)) in
  let seg syn fin seqno ackno data := MkTCPSegment (MkTCPHeader 0 0 (MkWrappingInt32 seqno) (MkWrappingInt32 ackno) 5
    false true false false syn fin 100 0 0) (Buffer_of_string data) in
  c ← TCPConnection_connect (TCPConnection_new cfg 0);
  c ← TCPConnection_segment_received c (seg true false 20 8 []);
  c ← TCPConnection_end_input_stream c;
  c ← TCPConnection_segment_received c (seg false true 21 9 [1]);
  '(out, _) ← ByteStream_read (TCPConnection_inbound_stream c) 1;
  let c := TCPConnection_set_receiver c (TCPReceiver_with_output (cn_receiver c) out) in
  Ok (TCPConnection_tick c 5).

Lemma segment_cuts_lingering_short_witness :
  exists c seg c', sample_late = Ok c /\ TCPConnection_active c = true /\
    TCPConnection_segment_received c seg = Ok c' /\
    cn_time_since_last_segment_received c' = 0 /\ TCPConnection_active c' = false.
Proof.
  destruct sample_late as [c|e] eqn:E; [|vm_compute in E; discriminate E].
  pose proof E as Ec. vm_compute in Ec. injection Ec as Ec.
  set (seg := MkTCPSegment (MkTCPHeader 0 0 (MkWrappingInt32 21) (MkWrappingInt32 9) 5
    false true false false false true 100 0 0) (Buffer_of_string [1])).
  destruct (TCPConnection_segment_received c seg) as [c2|e] eqn:E2;
    [|rewrite <- Ec in E2; vm_compute in E2; discriminate E2].
  exists c, seg, c2. split; [reflexivity|]. split; [rewrite <- Ec; vm_compute; reflexivity|]. split; [exact E2|].
  pose proof E2 as E3. rewrite <- Ec in E3. vm_compute in E3. injection E3 as Ec2.
  apply (segment_cuts_lingering_short c seg c2 5).
  - rewrite <- Ec. reflexivity.
  - rewrite <- Ec. vm_compute. split; congruence.
  - reflexivity.
  - exact E2.
  - rewrite <- Ec2. vm_compute. reflexivity.
  - rewrite <- Ec2. reflexivity.
Defined.

(** A connection whose peer's last bytes are still to be read does not linger
    either: everything was sent and acknowledged and the peer has finished, but
    [_time_done] is set only by operations of the connection, so that when the owner
    reads the last bytes from [inbound_stream()] the connection is at once no longer
    active, although it should linger for ten timeouts. *)
Theorem last_read_skips_lingering c n out data :
  bs_wf (TCPConnection_inbound_stream c) -> bs_error (TCPConnection_inbound_stream c) = false ->
  bs_input_ended (TCPConnection_inbound_stream c) = true -> bs_contents (TCPConnection_inbound_stream c) <> [] ->
  cn_linger_after_streams_finish c = true -> cn_time_done c = None ->
  ByteStream_eof (sd_stream (cn_sender c)) = true -> TCPSender_bytes_in_flight (cn_sender c) = 0 ->
  sd_fined (cn_sender c) = true -> zlen (bs_contents (TCPConnection_inbound_stream c)) <= n ->
  ByteStream_read (TCPConnection_inbound_stream c) n = Ok (out, data) ->
  data = bs_contents (TCPConnection_inbound_stream c) /\ TCPConnection_active c = true /\
  TCPConnection_active (TCPConnection_set_receiver c (TCPReceiver_with_output (cn_receiver c) out)) = false.
Proof.
  intros Hwf He Hend Hne Hl Ht Hs Hf Hfin Hn Hr. pose proof (zlen_nonneg (bs_contents (TCPConnection_inbound_stream c))) as Hz.
  destruct (ByteStream_read_ok _ n Hwf ltac:(lia)) as (out' & Hr' & [P1 P2 _ _ _ P6 P7]).
  assert (out' = out /\ data = ztake n (bs_contents (TCPConnection_inbound_stream c))) as [-> ->] by (split; congruence).
  split; [by apply ztake_ge|]. unfold TCPConnection_active, TCPConnection_done, TCPSender_stream_in, TCPSender_fined.
  change (TCPReceiver_stream_out (cn_receiver c)) with (TCPConnection_inbound_stream c). cbn.
  unfold TCPReceiver_stream_out, StreamReassembler_stream_out. cbn.
  rewrite Hs, Hf, Hfin, Ht, Hl, P7, He. unfold ByteStream_eof, ByteStream_buffer_empty. rewrite !bs_wf_size by done.
  rewrite P2, P6, Hend, (zdrop_ge n _ Hn). cbn. rewrite andb_false_r. split; [|done].
  destruct (Z.eqb_spec (zlen (bs_contents (TCPConnection_inbound_stream c))) 0) as [E|E]; [|done].
  destruct Hne. by apply zlen_zero_nil.
Qed.

(** The peer's FIN comes with a byte. *)
Definition sample_unread : result TCPConnection :=
  let cfg := MkTCPConfig 1000 64 64 (Some (MkWrappingInt32 7)) in
  let seg syn fin seqno ackno data := MkTCPSegment (MkTCPHeader 0 0 (MkWrappingInt32 seqno) (MkWrappingInt32 ackno) 5
    false true false false syn fin 100 0 0) (Buffer_of_string data) in
  c ← TCPConnection_connect (TCPConnection_new cfg 0);
  c ← TCPConnection_segment_received c (seg true false 20 8 []);
  c ← TCPConnection_end_input_stream c;
  TCPConnection_segment_received c (seg false true 21 9 [1]).

Lemma last_read_skips_lingering_witness :
  exists c out, sample_unread = Ok c /\ TCPConnection_active c = true /\
    ByteStream_read (TCPConnection_inbound_stream c) 1 = Ok (out, [1]) /\
    TCPConnection_active (TCPConnection_set_receiver c (TCPReceiver_with_output (cn_receiver c) out)) = false.
Proof.
  destruct sample_unread as [c|e] eqn:E; [|vm_compute in E; discriminate E].
  pose proof E as Ec. vm_compute in Ec. injection Ec as Ec.
  assert (bs_wf (TCPConnection_inbound_stream c)) as Hwf.
  { rewrite <- Ec. split; [cbn; lia..| |reflexivity|vm_compute; congruence].
    apply Forall_cons. split; [|by constructor]. split; [cbn; lia|]. cbn. intros s [= <-]. zl. }
  destruct (ByteStream_read (TCPConnection_inbound_stream c) 1) as [[out data]|e] eqn:Er;
    [|rewrite <- Ec in Er; vm_compute in Er; discriminate Er].
  assert (bs_contents (TCPConnection_inbound_stream c) = [1]) as Hb by (rewrite <- Ec; vm_compute; reflexivity).
  assert ((bs_error (TCPConnection_inbound_stream c), bs_input_ended (TCPConnection_inbound_stream c),
    cn_linger_after_streams_finish c, cn_time_done c, ByteStream_eof (sd_stream (cn_sender c)),
    TCPSender_bytes_in_flight (cn_sender c), sd_fined (cn_sender c)) = (false, true, true, None, true, 0, true)) as Hc
    by (rewrite <- Ec; vm_compute; reflexivity).
  injection Hc as H1 H2 H3 H4 H5 H6 H7. clear Ec.
  destruct (last_read_skips_lingering c 1 out data) as (R1 & R2 & R3); try assumption; [by rewrite Hb|by rewrite Hb|].
  exists c, out. rewrite <- Hb, <- R1. by split_and!.
Defined.
