(* ===== verification/TCPStates.v ===== *)
(** The official names of TCP's states: [TCPState]
    (src/libsponge/tcp_helpers/tcp_state.hh and .cc) and [TCPConnection::state]
    (src/libsponge/tcp_connection.hh).

    Theorem: the three-way handshake takes two endpoints, whatever their initial
    sequence numbers, through the states of RFC 793. *)

From Stdlib Require Import String.
From S2P Require Import Prelude WrappingIntegers Buffers ByteStreams StreamReassemblers Parsers TCPSegments.
From S2P Require Import TCPReceivers TCPSenders TCPConnections.

#[local] Open Scope string_scope.
#[local] Open Scope Z_scope.

(** ** The summaries *)

Module TCPReceiverStateSummary.
Definition ERROR : string := "error (connection was reset)".
Definition LISTEN : string := "waiting for SYN: ackno is empty".
Definition SYN_RECV : string := "SYN received (ackno exists), and input to stream hasn't ended".
Definition FIN_RECV : string := "input to stream has ended".
End TCPReceiverStateSummary.

Module TCPSenderStateSummary.
Definition ERROR : string := "error (connection was reset)".
Definition CLOSED : string := "waiting for stream to begin (no SYN sent)".
Definition SYN_SENT : string := "stream started but nothing acknowledged".
Definition SYN_ACKED : string := "stream ongoing".
Definition FIN_SENT : string := "stream finished (FIN sent) but not fully acknowledged".
Definition FIN_ACKED : string := "stream finished and fully acknowledged".
End TCPSenderStateSummary.

Record TCPState : Type := MkTCPState {
  st_sender : string;
  st_receiver : string;
  st_active : bool;
  st_linger_after_streams_finish : bool
}.

(** [TCPState::State] *)
Inductive State : Type :=
  | LISTEN
  | SYN_RCVD
  | SYN_SENT
  | ESTABLISHED
  | CLOSE_WAIT
  | LAST_ACK
  | FIN_WAIT_1
  | FIN_WAIT_2
  | CLOSING
  | TIME_WAIT
  | CLOSED
  | RESET.

Definition TCPState_eqb (a b : TCPState) : bool :=
  eqb (st_active a) (st_active b) &&
  eqb (st_linger_after_streams_finish a) (st_linger_after_streams_finish b) &&
  String.eqb (st_sender a) (st_sender b) && String.eqb (st_receiver a) (st_receiver b).

Definition TCPState_neqb (a b : TCPState) : bool := negb (TCPState_eqb a b).

(** [std::to_string] of a [bool] *)
Definition bool_to_string (b : bool) : string := if b then "1" else "0".

Definition TCPState_name (a : TCPState) : string :=
  ("sender=`" ++ st_sender a ++ "`, receiver=`" ++ st_receiver a ++ "`, active=" ++ bool_to_string (st_active a) ++
   ", linger_after_streams_finish=" ++ bool_to_string (st_linger_after_streams_finish a))%string.

(** [TCPState(const TCPState::State)] *)
Definition TCPState_of_State (state : State) : TCPState :=
  match state with
  | LISTEN => MkTCPState TCPSenderStateSummary.CLOSED TCPReceiverStateSummary.LISTEN true true
  | SYN_RCVD => MkTCPState TCPSenderStateSummary.SYN_SENT TCPReceiverStateSummary.SYN_RECV true true
  | SYN_SENT => MkTCPState TCPSenderStateSummary.SYN_SENT TCPReceiverStateSummary.LISTEN true true
  | ESTABLISHED => MkTCPState TCPSenderStateSummary.SYN_ACKED TCPReceiverStateSummary.SYN_RECV true true
  | CLOSE_WAIT => MkTCPState TCPSenderStateSummary.SYN_ACKED TCPReceiverStateSummary.FIN_RECV true false
  | LAST_ACK => MkTCPState TCPSenderStateSummary.FIN_SENT TCPReceiverStateSummary.FIN_RECV true false
  | CLOSING => MkTCPState TCPSenderStateSummary.FIN_SENT TCPReceiverStateSummary.FIN_RECV true true
  | FIN_WAIT_1 => MkTCPState TCPSenderStateSummary.FIN_SENT TCPReceiverStateSummary.SYN_RECV true true
  | FIN_WAIT_2 => MkTCPState TCPSenderStateSummary.FIN_ACKED TCPReceiverStateSummary.SYN_RECV true true
  | TIME_WAIT => MkTCPState TCPSenderStateSummary.FIN_ACKED TCPReceiverStateSummary.FIN_RECV true true
  | RESET => MkTCPState TCPSenderStateSummary.ERROR TCPReceiverStateSummary.ERROR false false
  | CLOSED => MkTCPState TCPSenderStateSummary.FIN_ACKED TCPReceiverStateSummary.FIN_RECV false false
  end.

Definition receiver_summary (receiver : TCPReceiver) : string :=
  if bs_error (TCPReceiver_stream_out receiver) then TCPReceiverStateSummary.ERROR
  else if negb (bool_decide (is_Some (TCPReceiver_ackno receiver))) then TCPReceiverStateSummary.LISTEN
  else if ByteStream_input_ended (TCPReceiver_stream_out receiver) then TCPReceiverStateSummary.FIN_RECV
  else TCPReceiverStateSummary.SYN_RECV.

Definition sender_summary (sender : TCPSender) : string :=
  if bs_error (TCPSender_stream_in sender) then TCPSenderStateSummary.ERROR
  else if TCPSender_next_seqno_absolute sender =? 0 then TCPSenderStateSummary.CLOSED
  else if TCPSender_next_seqno_absolute sender =? TCPSender_bytes_in_flight sender then TCPSenderStateSummary.SYN_SENT
  else if negb (ByteStream_eof (TCPSender_stream_in sender)) then TCPSenderStateSummary.SYN_ACKED
  else if TCPSender_next_seqno_absolute sender <? u64 (ByteStream_bytes_written (TCPSender_stream_in sender) + 2)
  then TCPSenderStateSummary.SYN_ACKED
  else if negb (TCPSender_bytes_in_flight sender =? 0) then TCPSenderStateSummary.FIN_SENT
  else TCPSenderStateSummary.FIN_ACKED.

(** [TCPState(sender, receiver, active, linger)] *)
Definition TCPState_new (sender : TCPSender) (receiver : TCPReceiver) (active linger : bool) : TCPState :=
  MkTCPState (sender_summary sender) (receiver_summary receiver) active (if active then linger else false).

Definition TCPConnection_state (c : TCPConnection) : TCPState :=
  TCPState_new (cn_sender c) (cn_receiver c) (TCPConnection_active c) (cn_linger_after_streams_finish c).

(** ** Theorems *)

#[export] Instance State_eq_dec : EqDecision State.
Proof. solve_decision. Defined.

Lemma TCPState_eqb_eq a b : TCPState_eqb a b = true <-> a = b.
Proof.
  destruct a as [s1 r1 a1 l1], b as [s2 r2 a2 l2]. unfold TCPState_eqb. simpl.
  rewrite !andb_true_iff, !eqb_true_iff, !String.eqb_eq. split; [intros (((-> & ->) & ->) & ->); done|by intros [= -> -> -> ->]].
Qed.

(** ** The handshake *)

(** Hand the one segment in the queue of [from] to [to]. *)
Definition exchange (from to : TCPConnection) : result (TCPConnection * TCPConnection) :=
  match cn_segments_out from with
  | [seg] => to' ← TCPConnection_segment_received to seg; Ok (TCPConnection_set_segments_out from [], to')
  | _ => Throw undefined_behaviour
  end.

Definition default_endpoint (isn : WrappingInt32) : TCPConnection :=
  TCPConnection_new (MkTCPConfig TIMEOUT_DFLT DEFAULT_CAPACITY DEFAULT_CAPACITY (Some isn)) 0.

Definition in_state (c : TCPConnection) (state : State) : bool :=
  TCPState_eqb (TCPConnection_state c) (TCPState_of_State state).

(** Connect, SYN, SYN and ACK, ACK; the states after each of the four steps. *)
Definition handshake (isn_a isn_b : WrappingInt32) : result (TCPConnection * TCPConnection * list bool) :=
  let a := default_endpoint isn_a in
  let b := default_endpoint isn_b in
  a ← TCPConnection_connect a;
  let ok1 := in_state a SYN_SENT && in_state b LISTEN in
  '(a, b) ← exchange a b;
  let ok2 := in_state a SYN_SENT && in_state b SYN_RCVD in
  '(b, a) ← exchange b a;
  let ok3 := in_state a ESTABLISHED && in_state b SYN_RCVD in
  '(a, b) ← exchange a b;
  let ok4 := in_state a ESTABLISHED && in_state b ESTABLISHED in
  Ok (a, b, [ok1; ok2; ok3; ok4]).

Lemma unwrap_first isn n : WrappingInt32_ok isn -> 0 <= n < 2 ^ 31 -> unwrap (wrap n isn) isn 0 = n.
Proof. intros. apply unwrap_near; [done|unfold seq_limit; lia|lia|done|lia]. Qed.

(** [segment_received] of the connection, given what its receiver and the
    acknowledgment do. *)
Lemma segment_received_via c seg r s :
  th_rst (ts_header seg) = false ->
  TCPReceiver_in_listen (cn_receiver c) && negb (th_syn (ts_header seg)) = false ->
  TCPSender_in_syn_sent (cn_sender c) && th_ack (ts_header seg) && (0 <? Buffer_size (ts_payload seg)) = false ->
  TCPReceiver_segment_received (cn_receiver c) seg = Ok r ->
  (if th_ack (ts_header seg) && (0 <? TCPSender_next_seqno_absolute (cn_sender c)) then
     sender ← TCPSender_ack_received (cn_sender c) (th_ackno (ts_header seg)) (th_win (ts_header seg));
     TCPSender_fill_window sender
   else Ok (cn_sender c)) = Ok s ->
  TCPConnection_segment_received c seg =
    let c := TCPConnection_set_sender (TCPConnection_set_receiver (TCPConnection_set_times c 0 (cn_time_done c)) r) s in
    c ← (if th_syn (ts_header seg) && (TCPSender_next_seqno_absolute (cn_sender c) =? 0) then
           sender ← TCPSender_fill_window (cn_sender c);
           Ok (TCPConnection_set_sender c sender)
         else if (0 <? TCPSegment_length_in_sequence_space seg) &&
                 (0 <? TCPSender_next_seqno_absolute (cn_sender c))
         then Ok (TCPConnection_set_sender c (TCPSender_send_empty_segment (cn_sender c)))
         else Ok c);
    let c := TCPConnection_send_outbound_segments c in
    let c :=
      if ByteStream_eof (TCPReceiver_stream_out (cn_receiver c)) &&
         negb (ByteStream_eof (TCPSender_stream_in (cn_sender c)))
      then TCPConnection_set_linger c false else c in
    Ok (TCPConnection_check_done c).
Proof.
  intros H1 H2 H3 H4 H5. unfold TCPConnection_segment_received. rewrite H1. cbn zeta.
  cbn [cn_receiver cn_sender TCPConnection_set_times]. rewrite H2, H3, H4. cbn [mbind result_bind].
  cbn [cn_sender TCPConnection_set_receiver TCPConnection_set_times]. case_in H5.
  - destruct (TCPSender_ack_received _ _ _) as [s1|]; [|done]. cbn [mbind result_bind] in *. by rewrite H5.
  - by injection H5 as <-.
Qed.

(** The sender of an endpoint whose SYN is outstanding, and after its
    acknowledgment. *)
Definition syn_sent_sender (isn : WrappingInt32) (timer : RetransmissionTimer) : TCPSender :=
  MkTCPSender isn [] TIMEOUT_DFLT (ByteStream_new DEFAULT_CAPACITY) 1 false 1 0 1 TIMEOUT_DFLT
    [build_segment (with_syn (with_seqno (wrap 0 isn) TCPSegmentBuilder_default))] false false timer 0.

Lemma syn_acked isn timer : WrappingInt32_ok isn ->
  (sender ← TCPSender_ack_received (syn_sent_sender isn timer) (wrap 1 isn) 64000; TCPSender_fill_window sender) =
  Ok (MkTCPSender isn [] TIMEOUT_DFLT (ByteStream_new DEFAULT_CAPACITY) 1 false 64000 1 64001 TIMEOUT_DFLT
        [] false false (RetransmissionTimer_stop timer) 0).
Proof.
  intros Hi. rewrite ack_received_eq. cbn zeta. cbn [sd_isn sd_receiver_window_left syn_sent_sender].
  rewrite unwrap_first by (done || lia). cbn [sd_receiver_window_right syn_sent_sender].
  change (1 <? 1) with false. change (0 <? 1) with true. cbn iota.
  assert (pop_acked isn 1 (sd_segments_pending (syn_sent_sender isn timer)) = []) as Hpop.
  { cbn [syn_sent_sender sd_segments_pending pop_acked].
    rewrite (unwrap_near _ isn 1 0); [done|done|unfold seq_limit; lia|lia|done|lia]. }
  unfold acked_sender. cbn [sd_isn syn_sent_sender]. fold (syn_sent_sender isn timer). rewrite Hpop.
  cbv -[wrap unwrap]. reflexivity.
Qed.

(** The receiver of an endpoint that gets the SYN. *)
Lemma syn_received isn seg : WrappingInt32_ok isn ->
  th_seqno (ts_header seg) = wrap 0 isn -> th_syn (ts_header seg) = true -> th_fin (ts_header seg) = false ->
  Buffer_str (ts_payload seg) = [] ->
  TCPReceiver_segment_received (TCPReceiver_new DEFAULT_CAPACITY) seg =
    Ok (MkTCPReceiver (StreamReassembler_new DEFAULT_CAPACITY) DEFAULT_CAPACITY (Some isn)).
Proof.
  intros Hi Hq Hs Hf Hp. rewrite (segment_received_push [] isn _ _ 0).
  - rewrite Hp, Hf. vm_compute. reflexivity.
  - done.
  - apply StreamReassembler_new_wf. by vm_compute.
  - split; [unfold seg_abs; by rewrite Hs|done|]. rewrite Hp, Hf. by split.
  - unfold seg_near, seg_abs. by rewrite Hs.
  - by left.
Qed.

(** The receiver of an endpoint that gets an empty segment after the SYN. *)
Lemma empty_received isn seg : WrappingInt32_ok isn ->
  th_seqno (ts_header seg) = wrap 1 isn -> th_syn (ts_header seg) = false -> th_fin (ts_header seg) = false ->
  Buffer_str (ts_payload seg) = [] ->
  TCPReceiver_segment_received (MkTCPReceiver (StreamReassembler_new DEFAULT_CAPACITY) DEFAULT_CAPACITY (Some isn)) seg =
    Ok (MkTCPReceiver (StreamReassembler_new DEFAULT_CAPACITY) DEFAULT_CAPACITY (Some isn)).
Proof.
  intros Hi Hq Hs Hf Hp. rewrite (segment_received_push [] isn _ _ 0).
  - rewrite Hp, Hf. vm_compute. reflexivity.
  - done.
  - apply StreamReassembler_new_wf. by vm_compute.
  - split; [unfold seg_abs; by rewrite Hs|by rewrite Hs|]. rewrite Hp, Hf. by split.
  - unfold seg_near, seg_abs. by rewrite Hs.
  - by right.
Qed.

(** The endpoints and the segments of the handshake. *)
Definition endpoint (isn : WrappingInt32) (r : TCPReceiver) (s : TCPSender) (out : list TCPSegment) : TCPConnection :=
  MkTCPConnection (MkTCPConfig TIMEOUT_DFLT DEFAULT_CAPACITY DEFAULT_CAPACITY (Some isn)) r s out true 0 None true false.

Definition started : RetransmissionTimer := RetransmissionTimer_start RetransmissionTimer_default TIMEOUT_DFLT.

Definition synced_receiver (isn : WrappingInt32) : TCPReceiver :=
  MkTCPReceiver (StreamReassembler_new DEFAULT_CAPACITY) DEFAULT_CAPACITY (Some isn).

Definition acked_endpoint_sender (isn : WrappingInt32) : TCPSender :=
  MkTCPSender isn [] TIMEOUT_DFLT (ByteStream_new DEFAULT_CAPACITY) 1 false 64000 1 64001 TIMEOUT_DFLT
    [] false false (RetransmissionTimer_stop started) 0.

Definition handshake_segment (syn ack : bool) (seqno ackno : WrappingInt32) : TCPSegment :=
  MkTCPSegment (MkTCPHeader 0 0 seqno ackno 5 false ack false false syn false 64000 0 0) (Buffer_of_string []).

Lemma handshake_connect isn :
  TCPConnection_connect (default_endpoint isn) =
  Ok (endpoint isn (TCPReceiver_new DEFAULT_CAPACITY) (syn_sent_sender isn started)
        [handshake_segment true false (wrap 0 isn) (MkWrappingInt32 0)]).
Proof. cbv -[wrap unwrap]. reflexivity. Qed.

Lemma handshake_syn isn_a isn_b : WrappingInt32_ok isn_a ->
  TCPConnection_segment_received (default_endpoint isn_b)
    (handshake_segment true false (wrap 0 isn_a) (MkWrappingInt32 0)) =
  Ok (endpoint isn_b (synced_receiver isn_a) (syn_sent_sender isn_b started)
        [handshake_segment true true (wrap 0 isn_b) (wrap 1 isn_a)]).
Proof.
  intros Ha. rewrite (segment_received_via _ _ (synced_receiver isn_a) (cn_sender (default_endpoint isn_b))).
  - cbv -[wrap unwrap]. reflexivity.
  - reflexivity.
  - reflexivity.
  - reflexivity.
  - by apply syn_received.
  - reflexivity.
Qed.

Lemma handshake_synack isn_a isn_b : WrappingInt32_ok isn_a -> WrappingInt32_ok isn_b ->
  TCPConnection_segment_received
    (endpoint isn_a (TCPReceiver_new DEFAULT_CAPACITY) (syn_sent_sender isn_a started) [])
    (handshake_segment true true (wrap 0 isn_b) (wrap 1 isn_a)) =
  Ok (endpoint isn_a (synced_receiver isn_b) (acked_endpoint_sender isn_a)
        [handshake_segment false true (wrap 1 isn_a) (wrap 1 isn_b)]).
Proof.
  intros Ha Hb. rewrite (segment_received_via _ _ (synced_receiver isn_b) (acked_endpoint_sender isn_a)).
  - cbv -[wrap unwrap]. reflexivity.
  - reflexivity.
  - reflexivity.
  - reflexivity.
  - by apply syn_received.
  - by apply (syn_acked isn_a).
Qed.

Lemma handshake_ack isn_a isn_b : WrappingInt32_ok isn_a -> WrappingInt32_ok isn_b ->
  TCPConnection_segment_received (endpoint isn_b (synced_receiver isn_a) (syn_sent_sender isn_b started) [])
    (handshake_segment false true (wrap 1 isn_a) (wrap 1 isn_b)) =
  Ok (endpoint isn_b (synced_receiver isn_a) (acked_endpoint_sender isn_b) []).
Proof.
  intros Ha Hb. rewrite (segment_received_via _ _ (synced_receiver isn_a) (acked_endpoint_sender isn_b)).
  - cbv -[wrap unwrap]. reflexivity.
  - reflexivity.
  - reflexivity.
  - reflexivity.
  - by apply empty_received.
  - by apply (syn_acked isn_b).
Qed.

Lemma exchange_endpoint isn r s seg to to' :
  TCPConnection_segment_received to seg = Ok to' ->
  exchange (endpoint isn r s [seg]) to = Ok (endpoint isn r s [], to').
Proof. intros E. unfold exchange. cbn [cn_segments_out endpoint]. by rewrite E. Qed.

Lemma handshake_run isn_a isn_b a1 a2 b2 a3 b3 a4 b4 :
  TCPConnection_connect (default_endpoint isn_a) = Ok a1 ->
  exchange a1 (default_endpoint isn_b) = Ok (a2, b2) -> exchange b2 a2 = Ok (b3, a3) -> exchange a3 b3 = Ok (a4, b4) ->
  handshake isn_a isn_b =
    Ok (a4, b4, [in_state a1 SYN_SENT && in_state (default_endpoint isn_b) LISTEN;
                 in_state a2 SYN_SENT && in_state b2 SYN_RCVD;
                 in_state a3 ESTABLISHED && in_state b3 SYN_RCVD;
                 in_state a4 ESTABLISHED && in_state b4 ESTABLISHED]).
Proof. intros E1 E2 E3 E4. unfold handshake. rewrite E1. cbn [mbind result_bind].
  rewrite E2. cbn [mbind result_bind]. rewrite E3. cbn [mbind result_bind]. by rewrite E4. Qed.

Lemma in_state_syn_sent isn out :
  in_state (endpoint isn (TCPReceiver_new DEFAULT_CAPACITY) (syn_sent_sender isn started) out) SYN_SENT = true.
Proof. cbv -[wrap unwrap]. reflexivity. Qed.

Lemma in_state_listen isn : in_state (default_endpoint isn) LISTEN = true.
Proof. cbv -[wrap unwrap]. reflexivity. Qed.

Lemma in_state_syn_rcvd isn isn' out :
  in_state (endpoint isn (synced_receiver isn') (syn_sent_sender isn started) out) SYN_RCVD = true.
Proof. cbv -[wrap unwrap]. reflexivity. Qed.

Lemma in_state_established isn isn' out :
  in_state (endpoint isn (synced_receiver isn') (acked_endpoint_sender isn) out) ESTABLISHED = true.
Proof. cbv -[wrap unwrap]. reflexivity. Qed.

(** C22.  The three-way handshake: with any initial sequence numbers, an
    endpoint that connects and one that listens exchange SYN, SYN with ACK, and
    ACK, one segment each, without an exception; they pass through SYN_SENT and
    LISTEN, SYN_SENT and SYN_RCVD, ESTABLISHED and SYN_RCVD, and end in
    ESTABLISHED on both sides. *)
Theorem handshake_establishes isn_a isn_b :
  WrappingInt32_ok isn_a -> WrappingInt32_ok isn_b ->
  exists a b, handshake isn_a isn_b = Ok (a, b, [true; true; true; true]).
Proof.
  intros Ha Hb. eexists _, _. etrans.
  - apply handshake_run.
    + apply handshake_connect.
    + apply exchange_endpoint. by apply handshake_syn.
    + apply exchange_endpoint. by apply handshake_synack.
    + apply exchange_endpoint. by apply handshake_ack.
  - by rewrite !in_state_syn_sent, in_state_listen, !in_state_syn_rcvd, !in_state_established.
Qed.

Lemma handshake_establishes_witness :
  exists a b, handshake (MkWrappingInt32 4294967295) (MkWrappingInt32 7) = Ok (a, b, [true; true; true; true]).
Proof. apply handshake_establishes; unfold WrappingInt32_ok; simpl; lia. Defined.
