(* ===== verification/EndToEnd.v ===== *)
(** Two endpoints and a network between them.

    Two [TCPConnection]s (src/libsponge/tcp_connection.hh and .cc) talk over a
    network that may lose, repeat, delay and reorder segments at will: every
    segment an endpoint has ever put on the wire can be delivered to the other
    one any number of times, at any time.  The owners connect, write, read, end
    their streams and let time pass as they please.

    Theorem: the bytes that come out of one side are a prefix of those that went
    in at the other, a reader that sees the end of the stream has read all of
    it, and the only exception that can stop the two is the [length_error] of
    the reassembler.  That exception does occur: a window announcement that is
    overtaken by a newer one leads to it, and a run is given in which it does. *)

From S2P Require Import Prelude WrappingIntegers Buffers ByteStreams StreamReassemblers Parsers TCPSegments.
From S2P Require Import TCPReceivers TCPSenders TCPConnections.

(** ** Endpoints *)

(** An endpoint: its connection, the bytes written to it and read from it so far,
    and the segments it has put on the wire. *)
Record peer : Type := MkPeer {
  pe_conn : TCPConnection;
  pe_written : bytes;
  pe_read : bytes;
  pe_wire : list TCPSegment
}.

(** What happens at an endpoint.  [act_transmit] moves the queued segments to the
    wire; [act_deliver k] is the arrival of the [k]th segment that the other side
    ever put on the wire. *)
Inductive action : Type :=
  | act_connect
  | act_write (data : bytes)
  | act_end_input
  | act_read (len : Z)
  | act_tick (ms : Z)
  | act_transmit
  | act_deliver (k : nat).

Definition peer_set_conn (p : peer) (c : TCPConnection) : peer :=
  MkPeer c (pe_written p) (pe_read p) (pe_wire p).

(** The owner does not write once the FIN is out. *)
Definition peer_exec (a : action) (p : peer) (wire : list TCPSegment) : result peer :=
  let c := pe_conn p in
  match a with
  | act_connect => c ← TCPConnection_connect c; Ok (peer_set_conn p c)
  | act_write d =>
      if TCPSender_fined (cn_sender c) then Ok p
      else '(c, n) ← TCPConnection_write c d;
           Ok (MkPeer c (pe_written p ++ ztake n d) (pe_read p) (pe_wire p))
  | act_end_input => c ← TCPConnection_end_input_stream c; Ok (peer_set_conn p c)
  | act_read n =>
      '(out, b) ← ByteStream_read (TCPConnection_inbound_stream c) n;
      Ok (MkPeer (TCPConnection_set_receiver c (TCPReceiver_with_output (cn_receiver c) out))
            (pe_written p) (pe_read p ++ b) (pe_wire p))
  | act_tick ms => Ok (peer_set_conn p (TCPConnection_tick c ms))
  | act_transmit =>
      Ok (MkPeer (TCPConnection_set_segments_out c []) (pe_written p) (pe_read p) (pe_wire p ++ cn_segments_out c))
  | act_deliver k =>
      match wire !! k with
      | Some seg => c ← TCPConnection_segment_received c seg; Ok (peer_set_conn p c)
      | None => Ok p
      end
  end.

(** Something happens at the first ([true]) or at the second endpoint. *)
Definition net_exec (side : bool) (a : action) (net : peer * peer) : result (peer * peer) :=
  let '(p, q) := net in
  if side then p ← peer_exec a p (pe_wire q); Ok (p, q)
  else q ← peer_exec a q (pe_wire p); Ok (p, q).

Fixpoint net_run (acts : list (bool * action)) (net : peer * peer) : result (peer * peer) :=
  match acts with
  | [] => Ok net
  | (side, a) :: acts => net ← net_exec side a net; net_run acts net
  end.

Definition peer_new (cfg : TCPConfig) (random : Z) : peer := MkPeer (TCPConnection_new cfg random) [] [] [].

(** ** Invariant *)

(** Streams are short enough for 32 bits to tell every sequence number. *)
Definition stream_limit : Z := 2 ^ 31 - 3.

(** The receiver of an endpoint, relative to the other one's sender. *)
Record receiving (W : bytes) (s : TCPSender) (r : TCPReceiver) (acc : bytes) : Prop := {
  rv_wf : sr_wf (tr_reassembler r);
  rv_agrees : sr_agrees W (tr_reassembler r);
  rv_bytes : acc ++ bs_contents (TCPReceiver_stream_out r) = ztake (tr_written r) W;
  rv_isn : tr_sender_isn r = None \/ tr_sender_isn r = Some (sd_isn s);
  rv_eof : sr_got_eof (tr_reassembler r) = true -> sd_fined s = true
}.

(** An endpoint's own part: its sender, and what it has put on the wire. *)
Record sending (p : peer) : Prop := {
  sn_conn : conn_inv (pe_written p) (pe_conn p);
  sn_wire : Forall (on_wire (pe_written p) (cn_sender (pe_conn p))) (pe_wire p)
}.

(** [p] receives from [q]. *)
Definition linked (q p : peer) : Prop :=
  receiving (pe_written q) (cn_sender (pe_conn q)) (cn_receiver (pe_conn p)) (pe_read p).

Lemma receiving_later W s s' r acc : sender_le s s' -> receiving W s r acc -> receiving W s' r acc.
Proof. intros [L1 L2 L3] []. split; try done; [by rewrite L1|auto]. Qed.

Lemma receiving_more W d s r acc :
  sd_fined s = false -> zlen (W ++ d) < index_limit -> receiving W s r acc -> receiving (W ++ d) s r acc.
Proof.
  intros Hf Hl [R1 R2 R3 R4 R5].
  assert (sr_got_eof (tr_reassembler r) = false) as He.
  { destruct (sr_got_eof _); [|done]. specialize (R5 eq_refl). congruence. }
  split; try done; [by apply sr_agrees_more|]. rewrite R3. symmetry. apply ztake_app_le. apply R2.
Qed.

Lemma receiving_error W s r acc : receiving W s r acc -> receiving W s (receiver_error r) acc.
Proof.
  intros [R1 R2 R3 R4 R5]. split; try done; [by apply set_error_wf|]. by destruct R2.
Qed.

(** ** Steps of the receiver *)

Lemma receiving_read W s r acc n out b :
  0 <= n -> receiving W s r acc -> ByteStream_read (TCPReceiver_stream_out r) n = Ok (out, b) ->
  receiving W s (TCPReceiver_with_output r out) (acc ++ b).
Proof.
  intros Hn [R1 R2 R3 R4 R5] Hr. destruct (read_preserves W _ n out b R1 R2 Hn Hr) as (Hwf & Ha & Hb & Hw).
  split; try done. change (TCPReceiver_stream_out _) with out.
  change (tr_written _) with (bs_bytes_written out). by rewrite Hw, <- R3, <- app_assoc, Hb.
Qed.

(** A segment that only carries the initial sequence number, without the SYN. *)
Lemma segment_received_stale isn r seg :
  WrappingInt32_ok isn -> 0 <= tr_written r < 2 ^ 31 -> th_seqno (ts_header seg) = wrap 0 isn ->
  th_syn (ts_header seg) = false -> tr_sender_isn r = None \/ tr_sender_isn r = Some isn ->
  TCPReceiver_segment_received r seg = Ok r.
Proof.
  intros Hisn Hw Hseq Hsyn [Hi|Hi]; [by apply segment_received_listen|].
  unfold TCPReceiver_segment_received. rewrite Hsyn, Hi.
  rewrite (unwrap_near (th_seqno (ts_header seg)) isn _ 0); try done; [by destruct (TCPReceiver_in_syn_recv r)| |];
    unfold ByteStream_bytes_written, TCPReceiver_stream_out, StreamReassembler_stream_out; try lia.
  split; [lia|]. unfold seq_limit. lia.
Qed.

Lemma receiving_push W s r acc index seg :
  WrappingInt32_ok (sd_isn s) -> receiving W s r acc ->
  peer_segment W (sd_isn s) seg index -> seg_near r seg index ->
  th_syn (ts_header seg) = true \/ tr_sender_isn r = Some (sd_isn s) ->
  (th_fin (ts_header seg) = true -> sd_fined s = true) ->
  (exists r', TCPReceiver_segment_received r seg = Ok r' /\ receiving W s r' acc) \/
  TCPReceiver_segment_received r seg = Throw length_error.
Proof.
  intros Hisn [R1 R2 R3 R4 R5] Hseg Hnear Hsyn Hfin.
  rewrite (segment_received_push W (sd_isn s) r seg index) by done.
  destruct (ByteStream_input_ended (TCPReceiver_stream_out r)).
  { left. eexists. split; [done|]. split; auto. }
  pose proof (peer_payload _ _ _ _ Hseg) as Hsub. destruct (so_index _ _ _ _ Hsub) as [H1 H2].
  destruct (push_substring_cases (tr_reassembler r) (Buffer_str (ts_payload seg)) index (th_fin (ts_header seg)) R1 H1 H2)
    as [[re E]|E]; rewrite E; [left|by right].
  eexists. split; [done|].
  destruct (push_substring_preserves W _ _ _ _ _ R1 R2 Hsub E) as (Hwf & Ha & _). split; auto.
  - exact (push_substring_extends W _ _ _ _ _ acc R1 R2 Hsub E R3).
  - intros Hg. destruct (push_substring_got_eof _ _ _ _ _ E Hg); auto.
Qed.

Lemma receiving_segment W s r acc seg :
  WrappingInt32_ok (sd_isn s) -> zlen W <= stream_limit -> sender_pos W s -> 0 <= bs_bytes_read (sd_stream s) <= zlen W ->
  receiving W s r acc -> sent_by W s seg ->
  (exists r', TCPReceiver_segment_received r seg = Ok r' /\ receiving W s r' acc) \/
  TCPReceiver_segment_received r seg = Throw length_error.
Proof.
  intros Hisn HW Hpos Hread Hr (a & [S1 S2 S3 S4 S5 S6 S7] & Ha & Hfin). unfold stream_limit in *.
  assert (0 <= tr_written r <= zlen W) as Hw.
  { pose proof (sw_written _ (rv_wf _ _ _ _ Hr)). split; [lia|apply Hr]. }
  assert (sd_next_seqno s <= zlen W + 2).
  { destruct (sp_next _ _ Hpos) as [(H & _)|H]; rewrite H; [lia|]. unfold b2z. destruct (sd_fined s); lia. }
  pose proof (seg_len_nonneg seg).
  destruct (th_syn (ts_header seg)) eqn:Es.
  - rewrite S3 in * by done. destruct S4 as [P1 P2]; [done|].
    apply (receiving_push W s r acc 0); auto; [|unfold seg_near, seg_abs; rewrite Es; lia].
    split; [unfold seg_abs; by rewrite Es|done|]. rewrite P1, P2. split; [|by rewrite slice_none by done|done].
    unfold index_limit. zl.
  - destruct (decide (a = 0)) as [->|Ha0].
    + left. exists r. split; [|done]. apply (segment_received_stale (sd_isn s)); try done; [lia|apply Hr].
    + destruct (rv_isn _ _ _ _ Hr) as [Hn|Hn]; [left; exists r; split; [by apply segment_received_listen|done]|].
      assert (seg_abs seg (a - 1) = a) as Eabs by (unfold seg_abs; rewrite Es; lia).
      apply (receiving_push W s r acc (a - 1)); auto.
      * split; [by rewrite Eabs|by rewrite Es|apply S5; lia].
      * unfold seg_near. rewrite Eabs. lia.
Qed.

(** ** Steps of an endpoint *)

(** What a step of endpoint [p] does to both directions. *)
Record stepped (q p p' : peer) : Prop := {
  st_sending : sending p';
  st_in : linked q p';
  st_out : linked p q -> linked p' q
}.

(** The owner's requests that make sense, and the bytes they may write. *)
Definition action_ok (a : action) : Prop :=
  match a with act_read n => 0 <= n | _ => True end.

Definition action_bytes (a : action) : Z :=
  match a with act_write d => zlen d | _ => 0 end.

Lemma conn_step_ok q p c' :
  sending p -> conn_inv (pe_written p) c' -> sender_le (cn_sender (pe_conn p)) (cn_sender c') ->
  receiving (pe_written q) (cn_sender (pe_conn q)) (cn_receiver c') (pe_read p) ->
  stepped q p (peer_set_conn p c').
Proof.
  intros [S1 S2] Hc Hle Hr. split; [|done|].
  - split; [done|]. by eapply on_wire_le.
  - by apply receiving_later.
Qed.

Lemma write_step_ok q p d :
  sending p -> linked q p -> zlen (pe_written p) + zlen d <= stream_limit ->
  exists p', peer_exec (act_write d) p (pe_wire q) = Ok p' /\ stepped q p p' /\
    zlen (pe_written p') <= zlen (pe_written p) + zlen d.
Proof.
  intros [S1 S2] Hl Hd. pose proof (zlen_nonneg d). unfold stream_limit in *. simpl. unfold TCPSender_fined.
  destruct (sd_fined (cn_sender (pe_conn p))) eqn:Hf.
  { exists p. split; [done|]. split; [by split|lia]. }
  destruct (conn_write_ok _ _ d S1 Hf) as (c' & n & -> & Hn & Hc & Hle & Hr); [unfold index_limit; lia|].
  eexists. split; [done|]. assert (zlen (ztake n d) <= zlen d) as Hz by (rewrite zlen_ztake; lia).
  split; [|simpl; rewrite zlen_app; lia]. split.
  - split; [done|]. simpl. eapply on_wire_le; [done|]. by apply on_wire_more.
  - unfold linked in *. simpl. by rewrite Hr.
  - intros Hq. unfold linked in *. simpl. eapply receiving_later; [done|].
    apply receiving_more; [done|rewrite zlen_app; unfold index_limit; lia|done].
Qed.

Lemma deliver_step_ok q p k :
  sending q -> sending p -> linked q p -> zlen (pe_written q) <= stream_limit ->
  (exists p', peer_exec (act_deliver k) p (pe_wire q) = Ok p' /\ stepped q p p' /\ pe_written p' = pe_written p) \/
  peer_exec (act_deliver k) p (pe_wire q) = Throw length_error.
Proof.
  intros [[Q1 Q2 _] Q4] Hp Hl Hq. simpl. destruct (pe_wire q !! k) as [seg|] eqn:E.
  2: { left. exists p. split; [done|]. split; [by split|done]. }
  rewrite Forall_lookup in Q4. destruct (Q4 _ _ E) as [Hby Hwin].
  pose proof (receiving_segment _ _ _ _ seg (sc_isn _ _ Q1) Hq Q2 (sc_read _ _ Q1) Hl Hby) as Hseg.
  destruct (conn_segment_received_ok (pe_written p) (pe_conn p) seg (sn_conn _ Hp) Hwin)
    as [(c' & -> & Hc & Hle & Hr)|(e & Er & ->)].
  - left. eexists. split; [done|]. split; [|done]. apply conn_step_ok; try done.
    destruct Hr as [Hr|[Hr|Hr]].
    + by rewrite Hr.
    + rewrite Hr. by apply receiving_error.
    + destruct Hseg as [(r' & Er & Hr')|Er]; [|congruence]. assert (r' = cn_receiver c') as <- by congruence. done.
  - right. destruct Hseg as [(r' & Er' & _)|Er']; simpl; congruence.
Qed.

Lemma peer_step_ok q p a :
  sending q -> sending p -> linked q p -> action_ok a ->
  zlen (pe_written q) <= stream_limit -> zlen (pe_written p) + action_bytes a <= stream_limit ->
  (exists p', peer_exec a p (pe_wire q) = Ok p' /\ stepped q p p' /\
     zlen (pe_written p') <= zlen (pe_written p) + action_bytes a) \/
  peer_exec a p (pe_wire q) = Throw length_error.
Proof.
  intros Hq Hp Hl Ha Hlq Hlp. pose proof Hp as [Hc Hw]. unfold linked in Hl.
  destruct a as [|d| |n|ms| |k]; cbn [action_bytes action_ok] in *.
  - left. simpl. destruct (connect_ok _ _ Hc) as (c' & -> & Hc' & Hle & Hr).
    eexists. split; [done|]. split; [|simpl; lia]. apply conn_step_ok; try done. by rewrite Hr.
  - left. by apply write_step_ok.
  - left. simpl. destruct (end_input_stream_ok _ _ Hc) as (c' & -> & Hc' & Hle & Hr).
    eexists. split; [done|]. split; [|simpl; lia]. apply conn_step_ok; try done. by rewrite Hr.
  - left. simpl. destruct (ByteStream_read_ok (TCPConnection_inbound_stream (pe_conn p)) n) as (out & E & _);
      [apply Hl|done|]. rewrite E. cbn [mbind result_bind]. eexists. split; [done|]. split; [|simpl; lia].
    split; [|by apply (receiving_read _ _ _ _ n)|done]. split; [|done]. by destruct Hc.
  - left. simpl. destruct (conn_tick_ok _ _ ms Hc) as (Hc' & Hle & Hr).
    eexists. split; [done|]. split; [|simpl; lia]. apply conn_step_ok; try done.
    destruct Hr as [->| ->]; [done|by apply receiving_error].
  - left. simpl. eexists. split; [done|]. split; [|simpl; lia]. destruct Hc as [C1 C2 C3].
    split; [|done|done]. split; [by split|]. apply Forall_app. by split.
  - destruct (deliver_step_ok q p k Hq Hp Hl Hlq) as [(p' & -> & Hs & Hp')|H]; [left|by right].
    exists p'. split; [done|]. split; [done|]. rewrite Hp'. lia.
Qed.

(** ** The two together *)

Record net_inv (p q : peer) : Prop := {
  ni_p : sending p;
  ni_q : sending q;
  ni_pq : linked p q;
  ni_qp : linked q p
}.

(** The bytes each owner hands over. *)
Definition acts_bytes (side : bool) (acts : list (bool * action)) : Z :=
  foldr (fun sa n => (if Bool.eqb (fst sa) side then action_bytes (snd sa) else 0) + n) 0 acts.

Lemma acts_bytes_nonneg side acts : 0 <= acts_bytes side acts.
Proof.
  induction acts as [|[s a] acts IH]; simpl; [lia|].
  assert (0 <= action_bytes a) by (destruct a; simpl; zl). destruct (Bool.eqb s side); lia.
Qed.

Lemma net_run_inv acts p q :
  net_inv p q -> Forall (fun sa => action_ok (snd sa)) acts ->
  zlen (pe_written p) + acts_bytes true acts <= stream_limit ->
  zlen (pe_written q) + acts_bytes false acts <= stream_limit ->
  match net_run acts (p, q) with
  | Ok (p', q') => net_inv p' q'
  | Throw e => e = length_error
  end.
Proof.
  revert p q. induction acts as [|[side a] acts IH]; intros p q [I1 I2 I3 I4] Hok Hp Hq; [done|].
  apply Forall_cons in Hok as [Ha Hok].
  pose proof (acts_bytes_nonneg true acts). pose proof (acts_bytes_nonneg false acts). simpl in Ha, Hp, Hq |- *.
  destruct side; simpl in Hp, Hq |- *.
  - destruct (peer_step_ok q p a) as [(p' & -> & [] & Hz)| ->]; try done; [lia|lia|].
    cbn [mbind result_bind]. apply IH; [split; auto|done|lia|lia].
  - destruct (peer_step_ok p q a) as [(q' & -> & [] & Hz)| ->]; try done; [lia|lia|].
    cbn [mbind result_bind]. apply IH; [split; auto|done|lia|lia].
Qed.

Definition config_ok (cfg : TCPConfig) (random : Z) : Prop :=
  0 <= cfg_recv_capacity cfg < index_limit /\ 0 <= cfg_send_capacity cfg < 2 ^ 64 /\
  WrappingInt32_ok (default (MkWrappingInt32 random) (cfg_fixed_isn cfg)).

Lemma peer_new_sending cfg random : config_ok cfg random -> sending (peer_new cfg random).
Proof. intros (H1 & H2 & H3). split; [by apply TCPConnection_new_inv|constructor]. Qed.

Lemma peer_new_linked cfg random q : config_ok cfg random -> pe_written q = [] -> linked q (peer_new cfg random).
Proof.
  intros (H1 & _) Hq. unfold linked. rewrite Hq. split; [by apply StreamReassembler_new_wf| |done|by left|done].
  split; simpl; try done; zl.
Qed.

Lemma net_inv_new cfg1 rnd1 cfg2 rnd2 :
  config_ok cfg1 rnd1 -> config_ok cfg2 rnd2 -> net_inv (peer_new cfg1 rnd1) (peer_new cfg2 rnd2).
Proof. intros H1 H2. split; auto using peer_new_sending, peer_new_linked. Qed.

Lemma net_inv_sym p q : net_inv p q -> net_inv q p.
Proof. intros []. by split. Qed.

Lemma stepped_net p p' q : net_inv p q -> stepped q p p' -> net_inv p' q.
Proof. intros [N1 N2 N3 N4] [S1 S2 S3]. split; auto. Qed.

(** What [q] has received of what was written to [p]: a prefix, all of it when
    the stream has ended. *)
Definition delivered (p q : peer) : Prop :=
  let inbound := TCPConnection_inbound_stream (pe_conn q) in
  pe_read q ++ bs_contents inbound `prefix_of` pe_written p /\
  (ByteStream_eof inbound = true -> pe_read q = pe_written p).

Lemma linked_delivered p q : linked p q -> delivered p q.
Proof.
  intros [R1 R2 R3 _ _]. unfold delivered, TCPConnection_inbound_stream. split.
  - rewrite R3. exists (zdrop (tr_written (cn_receiver (pe_conn q))) (pe_written p)). by rewrite ztake_zdrop.
  - unfold ByteStream_eof, ByteStream_buffer_empty, TCPReceiver_stream_out, StreamReassembler_stream_out in *.
    rewrite (sw_ended _ R1), (bs_wf_size _ (sw_output _ R1)). intros H. b2p.
    rewrite (zlen_zero_nil (bs_contents _)), app_nil_r in R3 by done. rewrite R3.
    rewrite (sa_end _ _ R2) in * by done. apply ztake_ge. lia.
Qed.

(** C2.  Reliable delivery between two endpoints: whatever the owners do and
    whatever the network loses, repeats, delays or reorders, the bytes that come
    out at either side are a prefix of those written at the other, a reader
    that sees the end of the stream has read exactly what was written, and the
    only exception that may stop the run is a [length_error]. *)
Theorem end_to_end_delivery cfg1 rnd1 cfg2 rnd2 acts :
  config_ok cfg1 rnd1 -> config_ok cfg2 rnd2 -> Forall (fun sa => action_ok (snd sa)) acts ->
  acts_bytes true acts <= stream_limit -> acts_bytes false acts <= stream_limit ->
  match net_run acts (peer_new cfg1 rnd1, peer_new cfg2 rnd2) with
  | Ok (p, q) => delivered p q /\ delivered q p
  | Throw e => e = length_error
  end.
Proof.
  intros H1 H2 Hok Hb1 Hb2.
  pose proof (net_run_inv acts (peer_new cfg1 rnd1) (peer_new cfg2 rnd2)) as H.
  specialize (H (net_inv_new _ _ _ _ H1 H2) Hok Hb1 Hb2). destruct (net_run _ _) as [[p q]|e]; [|done].
  destruct H. auto using linked_delivered.
Qed.

(** A run in which the first data segment is lost and sent again after a timeout,
    the second arrives first, and one of them arrives twice. *)
Definition lossy_acts : list (bool * action) :=
  [(true, act_connect); (true, act_transmit); (false, act_deliver 0); (false, act_transmit);
   (true, act_deliver 0); (true, act_transmit); (false, act_deliver 1);
   (true, act_write [1; 2]); (true, act_write [3]); (true, act_end_input); (true, act_transmit);
   (false, act_deliver 3); (false, act_deliver 4); (true, act_tick 1000); (true, act_transmit);
   (false, act_read 9); (false, act_deliver 5); (false, act_deliver 3); (false, act_read 9)].

Definition small_config (isn : Z) : TCPConfig := MkTCPConfig 1000 8 8 (Some (MkWrappingInt32 isn)).

Lemma end_to_end_delivery_witness :
  match net_run lossy_acts (peer_new (small_config 4294967295) 0, peer_new (small_config 7) 0) with
  | Ok (p, q) => pe_read q = [1; 2; 3] /\ delivered p q
  | Throw _ => False
  end.
Proof.
  pose proof (end_to_end_delivery (small_config 4294967295) 0 (small_config 7) 0 lossy_acts) as H.
  destruct (net_run _ _) as [[p q]|e] eqn:E.
  - destruct H as [H _].
    + unfold config_ok, WrappingInt32_ok, index_limit. simpl. lia.
    + unfold config_ok, WrappingInt32_ok, index_limit. simpl. lia.
    + repeat apply Forall_cons_2; [..|apply Forall_nil_2]; simpl; try exact I; lia.
    + vm_compute. congruence.
    + vm_compute. congruence.
    + split; [|exact H]. vm_compute in E. injection E as _ <-. reflexivity.
  - vm_compute in E. discriminate E.
Defined.

(** The second endpoint has room for two bytes.  Its announcement that the window
    is full is overtaken by the later one that there is room again, and the last
    data segment of the first endpoint overtakes the ones before it. *)
Definition overtaken_acts : list (bool * action) :=
  [(true, act_connect); (true, act_transmit); (false, act_deliver 0); (false, act_transmit);
   (true, act_deliver 0); (true, act_transmit); (false, act_deliver 1);
   (true, act_write [1; 2]); (true, act_transmit); (false, act_deliver 2); (false, act_transmit);
   (false, act_read 2); (false, act_write [9]); (false, act_transmit);
   (true, act_deliver 2); (true, act_write [3; 4]); (true, act_deliver 1);
   (true, act_write [5; 6]); (true, act_write [7; 8]); (true, act_transmit); (false, act_deliver 6)].

Definition narrow_config (isn : Z) : TCPConfig := MkTCPConfig 1000 2 100 (Some (MkWrappingInt32 isn)).

Lemma overtaken_run :
  net_run overtaken_acts (peer_new (narrow_config 100) 0, peer_new (narrow_config 200) 0) = Throw length_error.
Proof. vm_compute. reflexivity. Qed.

Lemma sender_run_app l1 l2 x : sender_run (l1 ++ l2) x = (y ← sender_run l1 x; sender_run l2 y).
Proof.
  revert x. induction l1 as [|o l1 IH]; intros x; [done|]. cbn [app sender_run].
  destruct (sender_exec o x) as [y|]; [|done]. cbn [mbind result_bind]. apply IH.
Qed.

(** What happens there, in general.  A sender whose window ends before its next sequence
    number sends whatever is written. *)
Lemma write_overruns W s d sent :
  sender_core W s -> sender_pos W s -> 1 <= sd_next_seqno s -> sd_receiver_window_right s < sd_next_seqno s ->
  bs_input_ended (sd_stream s) = false -> zlen d <= ByteStream_remaining_capacity (sd_stream s) ->
  zlen W + zlen d + 2 < index_limit ->
  exists s' new, sender_run [snd_write d; snd_fill_window] (s, W, sent) = Ok (s', W ++ d, sent) /\
    sender_core (W ++ d) s' /\ sender_pos (W ++ d) s' /\ sd_isn s' = sd_isn s /\
    sd_receiver_window_right s' = sd_receiver_window_right s /\ bs_input_ended (sd_stream s') = false /\
    bs_contents (sd_stream s') = [] /\ bs_capacity (sd_stream s') = bs_capacity (sd_stream s) /\
    sd_next_seqno s' = 1 + zlen (W ++ d) /\ sd_segments_out s' = sd_segments_out s ++ new /\
    sent_chain (W ++ d) (sd_isn s) (sd_next_seqno s) new (sd_next_seqno s').
Proof.
  intros Hc Hp Hn Hr He Hd Hlim. pose proof (sc_stream _ _ Hc) as Hwf.
  assert (sd_fined s = false) as Hnf.
  { destruct (sd_fined s) eqn:E; [|done]. destruct (sp_fined _ _ Hp E). congruence. }
  cbn [sender_run sender_exec]. unfold ByteStream_input_ended. rewrite He.
  rewrite ByteStream_remaining_capacity_eq in Hd by done. pose proof (zlen_nonneg (bs_contents (sd_stream s))).
  pose proof (bs_wf_capacity _ Hwf).
  destruct (ByteStream_write (sd_stream s) d) as [st n] eqn:Ew.
  destruct (write_ok W s d st n Hc Hp Hnf Ew Hlim) as [Hc1 Hp1].
  apply ByteStream_write_ok in Ew as [Ek _ _ _ _ Ecap Eend _]; [|done|lia].
  assert (n = zlen d) as -> by lia. rewrite ztake_ge in * by lia. cbn [mbind result_bind sender_run sender_exec].
  destruct (fill_window_ok (W ++ d) _ Hc1 Hp1) as (s' & new & -> & Hf & _ & Hfull). cbn [mbind result_bind].
  destruct Hf as [F1 F2 F3 F4 F5 F6 F7 F8]. unfold sender_frame in F3. injection F3 as Ei _ _ _ _ Er _ _ Ec Ee _. cbn [sd_isn sd_stream sd_receiver_window_right sd_segments_out TCPSender_set_stream sd_next_seqno] in *.
  exists s', new. pose proof (sent_chain_le _ _ _ _ _ F6). specialize (Hfull Hn).
  destruct Hfull as [Hfull|[Hfull _]]; [lia|].
  assert (bs_input_ended (sd_stream s') = false) as He' by congruence.
  assert (sd_fined s' = false) as Hnf'.
  { destruct (sd_fined s') eqn:E; [|done]. destruct (sp_fined _ _ F2 E). congruence. }
  split_and!; try done; try congruence.
  destruct (sp_next _ _ F2) as [(Hz & _)|E]; [lia|]. rewrite E, Hnf'. cbn [b2z].
  pose proof (sc_contents _ _ F1) as Hcon. rewrite Hfull in Hcon. apply (f_equal zlen) in Hcon. rewrite zlen_zdrop in Hcon.
  change (zlen (@nil Z)) with 0 in Hcon. pose proof (sc_read _ _ F1). lia.
Qed.

(** An announcement that repeats the acknowledgment number takes the right edge back. *)
Lemma stale_ack W s ackno win :
  sender_core W s -> sender_pos W s -> sd_receiver_window_left s <= sd_receiver_window_right s ->
  ackno = wrap (sd_receiver_window_left s) (sd_isn s) -> 0 <= win < 2 ^ 16 ->
  sd_receiver_window_left s + Z.max 1 win < sd_next_seqno s ->
  exists s', TCPSender_ack_received s ackno win = Ok s' /\ sender_core W s' /\ sender_pos W s' /\ sd_isn s' = sd_isn s /\
    sd_next_seqno s' = sd_next_seqno s /\ sd_stream s' = sd_stream s /\ sd_segments_out s' = sd_segments_out s /\
    sd_receiver_window_right s' = sd_receiver_window_left s + Z.max 1 win.
Proof.
  intros Hc Hp Hle Ha Hw Hlt. destruct (sc_window _ _ Hc) as [Hleft Hright]. pose proof (sender_pos_range W s Hc Hp) as Hpr.
  pose proof (sc_limit _ _ Hc). unfold index_limit in *.
  assert (sd_next_seqno s <= zlen W + 2) as Hnw.
  { pose proof (sc_read _ _ Hc). destruct (sp_next _ _ Hp) as [(-> & _)| ->]; unfold b2z; destruct (sd_fined s); lia. }
  destruct (ack_received_ok W s ackno win Hc Hp Hw) as (s' & new & E & C1 & C2 & _). pose proof E as E'.
  rewrite ack_received_eq in E'. cbn zeta in E'.
  rewrite (unwrap_near _ _ _ (sd_receiver_window_left s) (sc_isn _ _ Hc)) in E'; [|unfold seq_limit; lia|lia|exact Ha|lia].
  rewrite (proj2 (Z.ltb_ge _ _)), Z.ltb_irrefl, Z.eqb_refl in E' by done. injection E' as <-.
  eexists. split; [exact E|]. split_and!; try done. cbn [TCPSender_set_window sd_receiver_window_right].
  destruct (Z.eqb_spec win 0) as [->|Hw0]; rewrite u64_small; lia.
Qed.

(** C36.  A window announcement that is overtaken by a newer one makes the receiver throw.
    Whatever the states of a sender and of the receiver of its stream: when an
    acknowledgment repeats the number that the sender has seen last, with a window that
    ends before its next sequence number, because more has been announced and used
    since, then the sender no longer respects any window.  Two writes are sent at once,
    and the first segment of the second one, if it starts more than the capacity after
    what the receiver has assembled, throws [length_error] out of it. *)
Theorem overtaken_window_throws W s r ackno win d1 d2 :
  sender_core W s -> sender_pos W s -> 1 <= sd_next_seqno s -> bs_input_ended (sd_stream s) = false ->
  sd_receiver_window_left s <= sd_receiver_window_right s ->
  ackno = wrap (sd_receiver_window_left s) (sd_isn s) -> 0 <= win < 2 ^ 16 ->
  sd_receiver_window_left s + Z.max 1 win < sd_next_seqno s ->
  zlen d1 + zlen d2 <= ByteStream_remaining_capacity (sd_stream s) -> d2 <> [] ->
  zlen W + zlen d1 + zlen d2 + 2 < index_limit ->
  sr_wf (tr_reassembler r) -> tr_sender_isn r = Some (sd_isn s) ->
  ByteStream_input_ended (TCPReceiver_stream_out r) = false ->
  tr_written r + sr_capacity (tr_reassembler r) < zlen W + zlen d1 -> zlen W + zlen d1 + 1 - tr_written r < 2 ^ 31 ->
  exists s' seg, sender_run [snd_ack ackno win; snd_write d1; snd_fill_window; snd_write d2; snd_fill_window] (s, W, []) =
      Ok (s', W ++ d1 ++ d2, []) /\
    seg ∈ sd_segments_out s' /\ TCPReceiver_segment_received r seg = Throw length_error.
Proof.
  intros Hc Hp Hn He Hle Ha Hw Hlt Hroom Hd2 Hlim Hwf Hisn Hend Hbey Hnear.
  pose proof (zlen_nonneg d1). pose proof (zlen_nonneg d2). pose proof (zlen_nonneg W).
  destruct (stale_ack W s ackno win Hc Hp Hle Ha Hw Hlt) as (s1 & E1 & C1 & P1 & I1 & N1 & S1 & _ & R1).
  destruct (write_overruns W s1 d1 [] C1 P1) as (s2 & new1 & E2 & C2 & P2 & I2 & R2 & He2 & Hcon2 & Hcap2 & N2 & _ & _);
    [lia|lia|congruence|rewrite S1; lia|lia|].
  rewrite ByteStream_remaining_capacity_eq in Hroom by apply Hc. pose proof (zlen_nonneg (bs_contents (sd_stream s))).
  assert (zlen (W ++ d1) = zlen W + zlen d1) as Hz by apply zlen_app.
  destruct (write_overruns (W ++ d1) s2 d2 [] C2 P2) as (s3 & new2 & E3 & C3 & P3 & I3 & _ & _ & _ & _ & N3 & O3 & Ch);
    [lia| |done| |lia|].
  { rewrite R2, R1, N2. pose proof (sc_read _ _ Hc). destruct (sp_next _ _ Hp) as [(Hnx & _)|Hnx]; [lia|].
    assert (sd_fined s = false) as Hnf by (destruct (sd_fined s) eqn:Ef; [destruct (sp_fined _ _ Hp Ef); congruence|done]).
    rewrite Hnf in Hnx. cbn [b2z] in Hnx. lia. }
  { rewrite ByteStream_remaining_capacity_eq, Hcon2, Hcap2, S1 by apply C2. change (zlen (@nil Z)) with 0. lia. }
  rewrite <- app_assoc in *. assert (0 < zlen d2) by (destruct d2; [done|zl]).
  destruct new2 as [|seg new2]; cbn [sent_chain] in Ch; [rewrite !zlen_app in *; lia|]. destruct Ch as (Hseg & _ & _).
  exists s3, seg. split.
  { change (sender_run ([snd_ack ackno win] ++ [snd_write d1; snd_fill_window] ++ [snd_write d2; snd_fill_window]) (s, W, []) =
      Ok (s3, W ++ d1 ++ d2, [])).
    rewrite !sender_run_app. cbn [sender_run sender_exec]. rewrite E1. cbn [mbind result_bind].
    change (sender_run ([snd_write d1; snd_fill_window] ++ [snd_write d2; snd_fill_window]) (s1, W, []) = Ok (s3, W ++ d1 ++ d2, [])).
    rewrite sender_run_app, E2. exact E3. }
  split; [rewrite O3; apply elem_of_app; right; by left|].
  rewrite N2, Hz in Hseg. destruct Hseg as [Q1 _ Q2 _ Q3 _ _]. specialize (Q3 ltac:(lia)).
  replace (1 + (zlen W + zlen d1) - 1) with (zlen W + zlen d1) in Q3 by lia.
  assert (th_syn (ts_header seg) = false) as Hsyn by (destruct (th_syn (ts_header seg)); [specialize (Q2 eq_refl); lia|done]).
  rewrite (segment_received_push (W ++ d1 ++ d2) (sd_isn s) r seg (zlen W + zlen d1)); [|apply Hc|done| | |by right].
  - rewrite Hend, push_substring_beyond_throws by (done || apply Q3 || lia). done.
  - split; [|by rewrite Hsyn|done]. unfold seg_abs. rewrite Hsyn, Q1. f_equal; [lia|congruence].
  - unfold seg_near, seg_abs. rewrite Hsyn. pose proof (sw_written _ Hwf). pose proof (bs_wf_capacity _ (sw_output _ Hwf)).
    destruct (sw_capacity _ Hwf). lia.
Qed.

(** The state in which the announcement of that run arrives late: two bytes are
    acknowledged, two more are on their way in the window announced since. *)
Definition overtaken_sender_ops : list sender_op :=
  [snd_fill_window; snd_ack (MkWrappingInt32 101) 2; snd_write [1; 2]; snd_fill_window; snd_ack (MkWrappingInt32 103) 2;
   snd_write [3; 4]; snd_fill_window; snd_drain].

Lemma overtaken_sender : exists s sent,
  sender_run overtaken_sender_ops (TCPSender_new 100 1000 (Some (MkWrappingInt32 100)) 0, [], []) = Ok (s, [1; 2; 3; 4], sent) /\
  sender_core [1; 2; 3; 4] s /\ sender_pos [1; 2; 3; 4] s /\ sd_isn s = MkWrappingInt32 100 /\
  sd_next_seqno s = 5 /\ sd_receiver_window_left s = 3 /\ sd_receiver_window_right s = 5 /\
  bs_input_ended (sd_stream s) = false /\ ByteStream_remaining_capacity (sd_stream s) = 100.
Proof.
  destruct (world_run overtaken_sender_ops (TCPSender_new 100 1000 (Some (MkWrappingInt32 100)) 0, [], []))
    as ([[s W] sent] & E & [Hc Hp _]).
  - apply TCPSender_new_inv; [lia|]. unfold WrappingInt32_ok. simpl. lia.
  - repeat apply Forall_cons_2; [..|apply Forall_nil_2]; simpl; try lia; exact I.
  - by vm_compute.
  - cbn [fst snd] in *. pose proof E as E'. vm_compute in E'. injection E' as Es <- _. exists s, sent.
    do 3 (split; [assumption|]). rewrite <- Es. split_and!; vm_compute; reflexivity.
Qed.

(** The receiver has assembled the first two bytes, and room for two more. *)
Lemma overtaken_receiver : exists r,
  TCPReceiver_segment_received (TCPReceiver_new 2)
    (MkTCPSegment (TCPHeader_set_seqno (TCPHeader_set_syn TCPHeader_default true) (MkWrappingInt32 100)) (Buffer_of_string [1; 2])) = Ok r /\
  sr_wf (tr_reassembler r) /\ tr_sender_isn r = Some (MkWrappingInt32 100) /\ tr_written r = 2 /\
  sr_capacity (tr_reassembler r) = 2 /\ ByteStream_input_ended (TCPReceiver_stream_out r) = false.
Proof.
  destruct (TCPReceiver_segment_received _ _) as [r|e] eqn:E; [|vm_compute in E; discriminate E].
  exists r. split; [done|]. split; [|vm_compute in E; injection E as <-; by split_and!].
  match type of E with TCPReceiver_segment_received _ ?seg = _ =>
    assert (received [1; 2] (MkWrappingInt32 100) 2 r [] true false) as H;
      [apply (rcv_segment [1; 2] (MkWrappingInt32 100) 2 (TCPReceiver_new 2) [] false false seg 0 r (rcv_new _ _ _))|] end.
  - split; [reflexivity|reflexivity|]. split; [vm_compute; split; congruence|reflexivity|discriminate].
  - split; vm_compute; reflexivity.
  - exact E.
  - apply received_inv in H; [|unfold WrappingInt32_ok; simpl; lia|unfold index_limit; lia|reflexivity].
    apply ri_reassembled, reassembled_inv in H as [H _]; [done|unfold index_limit; lia|reflexivity].
Qed.

Lemma overtaken_window_throws_witness : exists s r s' seg,
  sd_next_seqno s = 5 /\ tr_written r = 2 /\
  sender_run [snd_ack (MkWrappingInt32 103) 0; snd_write [5; 6]; snd_fill_window; snd_write [7; 8]; snd_fill_window]
    (s, [1; 2; 3; 4], []) = Ok (s', [1; 2; 3; 4; 5; 6; 7; 8], []) /\
  seg ∈ sd_segments_out s' /\ TCPReceiver_segment_received r seg = Throw length_error.
Proof.
  destruct overtaken_sender as (s & _ & _ & Hc & Hp & Ei & En & El & Er & He & Hroom).
  destruct overtaken_receiver as (r & _ & Hwf & Hisn & Hw & Hcap & Hend).
  destruct (overtaken_window_throws [1; 2; 3; 4] s r (MkWrappingInt32 103) 0 [5; 6] [7; 8]) as (s' & seg & H).
  - exact Hc.
  - exact Hp.
  - lia.
  - exact He.
  - lia.
  - rewrite El, Ei. reflexivity.
  - lia.
  - rewrite El, En. reflexivity.
  - rewrite Hroom. vm_compute. congruence.
  - discriminate.
  - vm_compute. reflexivity.
  - exact Hwf.
  - by rewrite Ei.
  - exact Hend.
  - rewrite Hw, Hcap. reflexivity.
  - rewrite Hw. reflexivity.
  - exists s, r, s', seg. split_and!; [exact En|exact Hw|apply H..].
Defined.
