(* ===== verification/Recovery.v ===== *)
(** Recovery from losses: a [TCPSender] and a [TCPReceiver] (src/libsponge/
    tcp_sender.cc and tcp_receiver.cc) that transfer a stream over a network that
    loses, repeats, delays and reorders segments and loses and delays
    acknowledgments.

    The owner of the sender writes what its stream has room for, the reader takes
    what has been assembled, and every segment that arrives is answered with the
    acknowledgment and the window that [TCPConnection] sends, before the reader
    takes it.  Acknowledgments arrive in the order in which they were sent: one
    that is overtaken may end in an exception, see [EndToEnd].

    Theorem: no schedule of losses stops the transfer with an exception, and a
    schedule that leaves as many undisturbed retransmissions as the stream has
    sequence numbers, SYN and FIN included, delivers all of it and has it
    acknowledged. *)

From S2P Require Import Prelude WrappingIntegers Buffers ByteStreams StreamReassemblers Parsers TCPSegments.
From S2P Require Import TCPReceivers TCPSenders TCPConnections EndToEnd.

(** ** A transfer *)

(** The stream to be transferred, the two ends, the segments ever sent, the answers
    under way and the bytes read. *)
Record transfer : Type := MkTransfer {
  tf_data : bytes;
  tf_sender : TCPSender;
  tf_receiver : TCPReceiver;
  tf_wire : list TCPSegment;
  tf_answers : list (WrappingInt32 * Z);
  tf_read : bytes
}.

Definition transfer_new (data : bytes) (s : TCPSender) (capacity : Z) : transfer :=
  MkTransfer data s (TCPReceiver_new capacity) [] [] [].

(** The sender has become [s], and what it has queued is sent. *)
Definition tf_send (t : transfer) (s : TCPSender) (answers : list (WrappingInt32 * Z)) : transfer :=
  MkTransfer (tf_data t) (TCPSender_set_segments_out s []) (tf_receiver t) (tf_wire t ++ sd_segments_out s) answers (tf_read t).

(** The owner writes what there is room for, and ends the stream when all is written. *)
Definition owner_writes (data : bytes) (stream : ByteStream) : ByteStream :=
  if ByteStream_input_ended stream then stream
  else
    let rest := zdrop (ByteStream_bytes_written stream) data in
    let '(stream, n) := ByteStream_write stream rest in
    if n =? zlen rest then ByteStream_end_input stream else stream.

Definition tf_write (t : transfer) : result transfer :=
  let s := tf_sender t in
  s ← TCPSender_fill_window (TCPSender_set_stream s (owner_writes (tf_data t) (sd_stream s)));
  Ok (tf_send t s (tf_answers t)).

Definition tf_tick (t : transfer) (ms : Z) : transfer := tf_send t (TCPSender_tick (tf_sender t) ms) (tf_answers t).

(** The window that goes into a segment, see [stamp_segment]. *)
Definition announced (r : TCPReceiver) : Z := Z.min (TCPReceiver_window_size r) char16_max.

(** Segment number [k] of all that were sent arrives. *)
Definition tf_arrive (t : transfer) (k : nat) : result transfer :=
  match tf_wire t !! k with
  | None => Ok t
  | Some seg =>
      r ← TCPReceiver_segment_received (tf_receiver t) seg;
      let answer := match TCPReceiver_ackno r with Some ackno => [(ackno, announced r)] | None => [] end in
      '(out, data) ← ByteStream_read (TCPReceiver_stream_out r) (ByteStream_buffer_size (TCPReceiver_stream_out r));
      Ok (MkTransfer (tf_data t) (tf_sender t) (TCPReceiver_with_output r out) (tf_wire t) (tf_answers t ++ answer)
        (tf_read t ++ data))
  end.

(** The oldest answer arrives. *)
Definition tf_answer (t : transfer) : result transfer :=
  match tf_answers t with
  | [] => Ok t
  | (ackno, win) :: answers =>
      s ← TCPSender_ack_received (tf_sender t) ackno win;
      Ok (tf_send t s answers)
  end.

Fixpoint tf_drain (n : nat) (t : transfer) : result transfer :=
  match n with
  | O => Ok t
  | S n => t ← tf_answer t; tf_drain n t
  end.

(** An undisturbed retransmission: the owner writes, the timer expires, the segment
    that is sent again arrives, and so do all answers. *)
Definition tf_recover (t : transfer) : result transfer :=
  t ← tf_write t;
  let t := tf_tick t (sd_retransmission_timeout (tf_sender t)) in
  t ← tf_arrive t (pred (length (tf_wire t)));
  tf_drain (length (tf_answers t)) t.

Inductive event : Type :=
  | ev_write
  | ev_tick (ms : Z)
  | ev_arrive (k : nat)
  | ev_answer
  | ev_answer_lost
  | ev_recover.

Definition tf_exec (e : event) (t : transfer) : result transfer :=
  match e with
  | ev_write => tf_write t
  | ev_tick ms => Ok (tf_tick t ms)
  | ev_arrive k => tf_arrive t k
  | ev_answer => tf_answer t
  | ev_answer_lost =>
      Ok (MkTransfer (tf_data t) (tf_sender t) (tf_receiver t) (tf_wire t) (tail (tf_answers t)) (tf_read t))
  | ev_recover => tf_recover t
  end.

Fixpoint tf_run (es : list event) (t : transfer) : result transfer :=
  match es with
  | [] => Ok t
  | e :: es => t ← tf_exec e t; tf_run es t
  end.

Definition is_recover (e : event) : bool := match e with ev_recover => true | _ => false end.
Definition recoveries (es : list event) : Z := zlen (List.filter is_recover es).

Definition event_ok (e : event) : Prop := match e with ev_tick ms => 0 <= ms < 2 ^ 63 | _ => True end.

(** ** What has been sent *)

(** The part of the stream [W] that the sender has put into segments. *)
Definition sent_part (W : bytes) (s : TCPSender) : bytes := ztake (bs_bytes_read (sd_stream s)) W.

Lemma sent_part_len W s : sender_core W s -> zlen (sent_part W s) = bs_bytes_read (sd_stream s).
Proof. intros Hc. pose proof (sc_read _ _ Hc). unfold sent_part. rewrite zlen_ztake. lia. Qed.

(** A segment that has been sent is one of that part. *)
Lemma sent_part_segment W s seg a :
  sender_core W s -> sender_pos W s -> sent_segment W (sd_isn s) seg a -> a + seg_len seg <= sd_next_seqno s ->
  (th_fin (ts_header seg) = true -> sd_fined s = true) -> sent_segment (sent_part W s) (sd_isn s) seg a.
Proof.
  intros Hc Hp [S1 S2 S3 S4 S5 S6 S7] Hle Hfin. split; try done. intros Ha. destruct (S5 Ha) as [D1 D2 D3].
  pose proof (sc_read _ _ Hc) as Hr. pose proof (zlen_nonneg (Buffer_str (ts_payload seg))) as Hz.
  assert (th_syn (ts_header seg) = false) as Hsyn by (destruct (th_syn (ts_header seg)); [lia|done]).
  unfold seg_len in Hle. rewrite Hsyn in Hle. simpl b2z in Hle.
  assert (0 <= b2z (th_fin (ts_header seg))) as Hb by (by destruct (th_fin (ts_header seg))).
  split; [done| |].
  - destruct (Z.eq_dec (zlen (Buffer_str (ts_payload seg))) 0) as [E|E].
    { rewrite (zlen_zero_nil _ E). symmetry. by apply slice_none. }
    assert (a - 1 + zlen (Buffer_str (ts_payload seg)) <= bs_bytes_read (sd_stream s)) as Hin.
    { pose proof (slice_inside W _ (a - 1) ltac:(lia) D2 ltac:(lia)) as Hs.
      destruct (sp_next _ _ Hp) as [(E0 & _ & _)|E1]; [lia|]. destruct (sd_fined s) eqn:Ef.
      - rewrite (proj2 (sp_fined _ _ Hp Ef)). lia.
      - simpl b2z in E1. destruct (th_fin (ts_header seg)); [specialize (Hfin eq_refl); done|]. simpl b2z in Hle. lia. }
    rewrite D2 at 1. unfold sent_part. rewrite <- slice_0, slice_slice by lia. by rewrite Z.add_0_l.
  - intros Hf. rewrite sent_part_len by done. rewrite (proj2 (sp_fined _ _ Hp (Hfin Hf))). by apply D3.
Qed.

(** ** A segment arrives *)

(** The first sequence number that has not been received. *)
Definition rack (r : TCPReceiver) : Z :=
  match tr_sender_isn r with
  | None => 0
  | Some _ => tr_written r + 1 + b2z (ByteStream_input_ended (TCPReceiver_stream_out r))
  end.

Lemma ended_written S s r acc : receiving S s r acc ->
  ByteStream_input_ended (TCPReceiver_stream_out r) = true -> tr_written r = zlen S /\ sd_fined s = true.
Proof.
  intros [R1 R2 R3 R4 R5]. unfold ByteStream_input_ended, TCPReceiver_stream_out, StreamReassembler_stream_out.
  rewrite (sw_ended _ R1). intros H. b2p. rewrite <- (sa_end _ _ R2) by done. auto.
Qed.

Lemma ackno_rack S s r acc : receiving S s r acc ->
  TCPReceiver_ackno r = match tr_sender_isn r with None => None | Some _ => Some (wrap (rack r) (sd_isn s)) end.
Proof.
  intros Hr. unfold TCPReceiver_ackno, rack. destruct (tr_sender_isn r) as [isn|] eqn:Ei; [|done].
  destruct (rv_isn _ _ _ _ Hr) as [E|E]; rewrite Ei in E; [done|]. injection E as ->.
  pose proof (sw_written _ (rv_wf _ _ _ _ Hr)) as Hw. unfold index_limit in Hw.
  unfold ByteStream_bytes_written, TCPReceiver_stream_out, StreamReassembler_stream_out in *.
  do 2 f_equal. destruct (ByteStream_input_ended _); simpl b2z; rewrite (u64_small (sr_written _ + 1)) by lia; wsimpl; lia.
Qed.

(** What an accepted segment does to the receiver. *)
Record took (r r' : TCPReceiver) (index len : Z) (fin : bool) : Prop := {
  tk_capacity : sr_capacity (tr_reassembler r') = sr_capacity (tr_reassembler r);
  tk_read : bs_bytes_read (TCPReceiver_stream_out r') = bs_bytes_read (TCPReceiver_stream_out r);
  tk_written : tr_written r <= tr_written r';
  tk_ended : ByteStream_input_ended (TCPReceiver_stream_out r) = true -> ByteStream_input_ended (TCPReceiver_stream_out r') = true;
  tk_data : index <= tr_written r -> index + len <= tr_written r';
  tk_fin : index <= tr_written r -> fin = true -> ByteStream_input_ended (TCPReceiver_stream_out r') = true
}.

Lemma push_took S re data index fin :
  sr_wf re -> sr_agrees S re -> substring_of S data index fin -> ByteStream_input_ended (sr_output re) = false ->
  index + zlen data <= bs_bytes_read (sr_output re) + sr_capacity re ->
  exists re', StreamReassembler_push_substring re data index fin = Ok re' /\ sr_capacity re' = sr_capacity re /\
    bs_bytes_read (sr_output re') = bs_bytes_read (sr_output re) /\ sr_written re <= sr_written re' /\
    (index <= sr_written re -> index + zlen data <= sr_written re' /\ (fin = true -> bs_input_ended (sr_output re') = true)).
Proof.
  intros Hwf Ha Hsub Hend Hwin. destruct (so_index _ _ _ _ Hsub) as [Hi1 Hi2]. pose proof (zlen_nonneg data) as Hz.
  destruct (Z.lt_ge_cases (index + zlen data) (sr_written re)) as [Hlt|Hge].
  { rewrite push_substring_stale by done. exists re. split_and!; try done. intros _. split; [lia|]. intros Hfin.
    pose proof (so_eof _ _ _ _ Hsub Hfin). pose proof (sa_written _ _ Ha). lia. }
  pose proof (sw_read _ Hwf) as Hr1. pose proof (zlen_nonneg (bs_contents (sr_output re))) as Hz0.
  destruct (push_substring_ok re data index fin) as (re' & E & Hspec); [done|done|done|done|lia|lia|].
  exists re'. split; [done|]. pose proof (pp_agrees _ _ _ _ _ Hspec S Ha Hsub) as [Ha' Hc'].
  pose proof (pp_wf _ _ _ _ _ Hspec) as Hwf'. pose proof (sw_read _ Hwf') as Hr2.
  pose proof (pp_read _ _ _ _ _ Hspec) as Hr. pose proof (f_equal zlen Hc') as Hlc. rewrite zlen_app in Hlc.
  pose proof (zlen_nonneg (slice (sr_written re) (sr_written re' - sr_written re) S)) as Hz'.
  split_and!; [apply Hspec|done|lia|]. intros Hin.
  assert (index + zlen data <= sr_written re') as Hadv.
  { destruct (pp_progress _ _ _ _ _ Hspec) as [Hfull|Hnot]; [lia|].
    destruct (Z.le_gt_cases (index + zlen data) (sr_written re')); [done|exfalso]. apply Hnot.
    apply (pp_held _ _ _ _ _ Hspec). right. lia. }
  split; [done|]. intros Hfin. rewrite (sw_ended _ Hwf').
  assert (sr_got_eof re' = true) as Hg by (by rewrite (pp_eof _ _ _ _ _ Hspec), Hfin).
  rewrite Hg, (sa_end _ _ Ha' Hg). cbn [andb]. apply Z.eqb_eq. pose proof (sa_written _ _ Ha').
  pose proof (so_eof _ _ _ _ Hsub Hfin). lia.
Qed.

Lemma arrive_push S s r acc seg index :
  WrappingInt32_ok (sd_isn s) -> receiving S s r acc ->
  peer_segment S (sd_isn s) seg index -> seg_near r seg index ->
  th_syn (ts_header seg) = true \/ tr_sender_isn r = Some (sd_isn s) -> (th_fin (ts_header seg) = true -> sd_fined s = true) ->
  (ByteStream_input_ended (TCPReceiver_stream_out r) = false ->
   index + zlen (Buffer_str (ts_payload seg)) <= bs_bytes_read (TCPReceiver_stream_out r) + sr_capacity (tr_reassembler r)) ->
  exists r', TCPReceiver_segment_received r seg = Ok r' /\ receiving S s r' acc /\ tr_sender_isn r' = Some (sd_isn s) /\
    took r r' index (zlen (Buffer_str (ts_payload seg))) (th_fin (ts_header seg)).
Proof.
  intros Hisn Hr Hseg Hnear Hsyn Hfin Hwin. pose proof (peer_payload _ _ _ _ Hseg) as Hsub.
  pose proof (receiving_push S s r acc index seg Hisn Hr Hseg Hnear Hsyn Hfin) as Hcases.
  rewrite (segment_received_push S (sd_isn s) r seg index) in * by (done || apply Hr).
  destruct (ByteStream_input_ended (TCPReceiver_stream_out r)) eqn:Hend.
  - destruct (ended_written _ _ _ _ Hr Hend) as [Hw _]. destruct Hcases as [(r' & E & Hr')|E]; [|done].
    exists r'. injection E as <-. split_and!; try done. split; try done; simpl.
    intros Hi. destruct (Z.eq_dec (zlen (Buffer_str (ts_payload seg))) 0) as [E|E]; [lia|].
    pose proof (zlen_nonneg (Buffer_str (ts_payload seg))). destruct Hsub as [[D1 D2] D3 _].
    pose proof (slice_inside S _ index ltac:(lia) D3 ltac:(lia)). lia.
  - destruct (push_took S (tr_reassembler r) (Buffer_str (ts_payload seg)) index (th_fin (ts_header seg)))
      as (re & E & T1 & T2 & T3 & T4); try apply Hr; try done; [by apply Hwin|].
    rewrite E in *. cbn [mbind result_bind] in *. destruct Hcases as [(r' & E' & Hr')|E']; [|done].
    exists r'. injection E' as <-. split_and!; try done. split; try done; simpl; [congruence|by apply T4|by apply T4].
Qed.

Lemma b2z_range b : 0 <= b2z b <= 1.
Proof. by destruct b. Qed.

Lemma b2z_mono a b : (a = true -> b = true) -> b2z a <= b2z b.
Proof. intros H. destruct a; [by rewrite H|]. apply b2z_range. Qed.

(** A segment that is not empty ends within the stream. *)
Lemma substring_end S data index fin : substring_of S data index fin -> 0 < zlen data + b2z fin -> index + zlen data <= zlen S.
Proof.
  intros [[D1 D2] D3 D4] Hlen. pose proof (zlen_nonneg data). destruct (Z.eq_dec (zlen data) 0) as [E|E].
  - destruct fin; [rewrite D4 by done; lia|]. simpl b2z in Hlen. lia.
  - pose proof (slice_inside S _ index ltac:(lia) D3 ltac:(lia)). lia.
Qed.

(** The first sequence number that the receiver has no room for. *)
Definition reach (r : TCPReceiver) : Z :=
  bs_bytes_read (TCPReceiver_stream_out r) + sr_capacity (tr_reassembler r) + 1 + b2z (ByteStream_input_ended (TCPReceiver_stream_out r)).

Lemma took_reach r r' index len fin : took r r' index len fin -> reach r <= reach r'.
Proof. intros [T1 T2 _ T4 _ _]. unfold reach. rewrite T1, T2. pose proof (b2z_mono _ _ T4). lia. Qed.

(** A segment of the sender arrives at a receiver whose window it fits. *)
Lemma arrive_segment S s r acc seg a :
  WrappingInt32_ok (sd_isn s) -> zlen S <= stream_limit -> receiving S s r acc ->
  sent_segment S (sd_isn s) seg a -> (th_fin (ts_header seg) = true -> sd_fined s = true) ->
  a < 2 ^ 31 -> a + seg_len seg <= reach r ->
  exists r', TCPReceiver_segment_received r seg = Ok r' /\ receiving S s r' acc /\
    sr_capacity (tr_reassembler r') = sr_capacity (tr_reassembler r) /\
    bs_bytes_read (TCPReceiver_stream_out r') = bs_bytes_read (TCPReceiver_stream_out r) /\
    tr_written r <= tr_written r' /\ tr_written r' - tr_written r <= rack r' - rack r /\ reach r <= reach r' /\
    (a <= rack r -> a + seg_len seg <= rack r').
Proof.
  intros Hisn HS Hr Hseg Hfin Ha Hwin. pose proof Hseg as [S1 S2 S3 S4 S5 S6 S7]. unfold stream_limit in HS.
  pose proof (sa_written _ _ (rv_agrees _ _ _ _ Hr)) as Hw. pose proof (sw_written _ (rv_wf _ _ _ _ Hr)) as Hw0.
  assert (forall r' index len fin, took r r' index len fin -> tr_sender_isn r' = Some (sd_isn s) ->
    tr_written r' - tr_written r <= rack r' - rack r) as Hrack.
  { intros r' index len fin T Hi'. pose proof (b2z_mono _ _ (tk_ended _ _ _ _ _ T)).
    pose proof (b2z_range (ByteStream_input_ended (TCPReceiver_stream_out r'))).
    unfold rack. rewrite Hi'. destruct (tr_sender_isn r); lia. }
  destruct (th_syn (ts_header seg)) eqn:Es.
  - rewrite (S3 eq_refl) in *. destruct (S4 eq_refl) as [P1 P2].
    destruct (arrive_push S s r acc seg 0) as (r' & E & Hr' & Hi' & T); try done; try (by left).
    + split; [unfold seg_abs; by rewrite Es|done|]. rewrite P1, P2. split; [unfold index_limit; zl|by rewrite slice_none by done|done].
    + unfold seg_near, seg_abs. rewrite Es. lia.
    + intros _. rewrite P1. change (zlen []) with 0. pose proof (bs_wf_read _ (sw_output _ (rv_wf _ _ _ _ Hr))).
      pose proof (bs_wf_capacity _ (sw_output _ (rv_wf _ _ _ _ Hr))) as Hcap. rewrite (proj1 (sw_capacity _ (rv_wf _ _ _ _ Hr))) in Hcap.
      unfold TCPReceiver_stream_out, StreamReassembler_stream_out. lia.
    + exists r'. split_and!; try done; try apply T; [by eapply Hrack|by eapply took_reach|]. intros _. unfold rack, seg_len. rewrite Hi', Es, P1, P2.
      pose proof (b2z_range (ByteStream_input_ended (TCPReceiver_stream_out r'))). change (zlen []) with 0.
      change (b2z true) with 1. change (b2z false) with 0. pose proof (tk_written _ _ _ _ _ T). lia.
  - destruct (Z.eq_dec a 0) as [->|Hne].
    { exists r. rewrite (segment_received_stale (sd_isn s)) by (done || apply Hr || lia). destruct (S4 eq_refl) as [P1 P2].
      unfold seg_len. rewrite Es, P1, P2. split_and!; try done; lia. }
    assert (1 <= a) as Ha1 by lia.
    destruct (rv_isn _ _ _ _ Hr) as [Hi|Hi].
    { exists r. rewrite segment_received_listen by done. unfold rack. rewrite Hi. split_and!; try done; lia. }
    unfold seg_len in *. rewrite Es in *. simpl (b2z false) in *. unfold reach in Hwin.
    pose proof (substring_end _ _ _ _ (S5 Ha1)) as Hse.
    pose proof (b2z_range (th_fin (ts_header seg))) as Hbf. pose proof (ended_written _ _ _ _ Hr) as Hew.
    assert (seg_abs seg (a - 1) = a) as Eabs by (unfold seg_abs; rewrite Es; lia).
    destruct (arrive_push S s r acc seg (a - 1)) as (r' & E & Hr' & Hi' & T); try done; try (by right).
    + split; [by rewrite Eabs|by rewrite Es|by apply S5].
    + unfold seg_near. rewrite Eabs. lia.
    + intros Hne'. rewrite Hne' in Hwin. simpl b2z in Hwin. lia.
    + exists r'. split_and!; try done; try apply T; [by eapply Hrack|by eapply took_reach|]. unfold rack. rewrite Hi, Hi'. intros Hle.
      pose proof (tk_written _ _ _ _ _ T) as Hmono. pose proof (tk_data _ _ _ _ _ T) as Hdata.
      pose proof (tk_fin _ _ _ _ _ T) as Hf. pose proof (tk_ended _ _ _ _ _ T) as He'.
      destruct (ByteStream_input_ended (TCPReceiver_stream_out r)).
      * destruct (Hew eq_refl) as [Hw1 _]. rewrite He' by done. simpl b2z in *.
        pose proof (zlen_nonneg (Buffer_str (ts_payload seg))). destruct (Z.eq_dec (zlen (Buffer_str (ts_payload seg)) + b2z (th_fin (ts_header seg))) 0); lia.
      * simpl b2z in Hle. specialize (Hdata ltac:(lia)). pose proof (b2z_mono _ _ (Hf ltac:(lia))). lia.
Qed.

(** When everything has been read, the whole capacity is left. *)
Lemma reach_read S s r acc : receiving S s r acc -> bs_contents (TCPReceiver_stream_out r) = [] ->
  rack r + sr_capacity (tr_reassembler r) <= reach r.
Proof.
  intros Hr Hempty. pose proof (sw_read _ (rv_wf _ _ _ _ Hr)) as R. unfold rack, reach.
  pose proof (b2z_range (ByteStream_input_ended (TCPReceiver_stream_out r))). pose proof (bs_wf_read _ (sw_output _ (rv_wf _ _ _ _ Hr))).
  unfold TCPReceiver_stream_out, StreamReassembler_stream_out in *. rewrite Hempty in R. change (zlen []) with 0 in R.
  destruct (tr_sender_isn r); lia.
Qed.

(** ** Answers under way *)

(** Answers in the order of their numbers and of the right edges of their windows,
    from the sender's window to the receiver's; the last one says what the receiver
    has now. *)
Fixpoint answers_ok (isn : WrappingInt32) (left right : Z) (l : list (WrappingInt32 * Z)) (a1 e1 : Z) : Prop :=
  match l with
  | [] => left <= a1 /\ right <= e1
  | (ackno, win) :: l =>
      exists a, ackno = wrap a isn /\ 1 <= a /\ left <= a /\ 0 <= win < 2 ^ 16 /\ right <= a + Z.max 1 win /\
        (l = [] -> a = a1) /\ answers_ok isn a (a + Z.max 1 win) l a1 e1
  end.

Lemma answers_ends isn lft rgt l a1 e1 : answers_ok isn lft rgt l a1 e1 -> lft <= a1 /\ rgt <= e1.
Proof.
  revert lft rgt. induction l as [|[ackno win] l IH]; intros lft rgt; simpl; [done|].
  intros (a & _ & _ & H1 & _ & H2 & _ & H). apply IH in H. lia.
Qed.

Lemma answers_from isn lft rgt lft' rgt' l a1 e1 :
  lft' <= lft -> rgt' <= rgt -> answers_ok isn lft rgt l a1 e1 -> answers_ok isn lft' rgt' l a1 e1.
Proof.
  destruct l as [|[ackno win] l]; simpl; [lia|]. intros H1 H2 (a & A1 & A2 & A3 & A4 & A5 & A6 & A7).
  exists a. split_and!; try done; lia.
Qed.

Lemma answers_snoc isn lft rgt l a1 e1 a win e2 :
  answers_ok isn lft rgt l a1 e1 -> 1 <= a -> a1 <= a -> 0 <= win < 2 ^ 16 -> e1 <= a + Z.max 1 win <= e2 ->
  answers_ok isn lft rgt (l ++ [(wrap a isn, win)]) a e2.
Proof.
  revert lft rgt. induction l as [|[ackno w] l IH]; intros lft rgt; simpl.
  - intros [H1 H2] Ha Ha1 Hw He. exists a. split_and!; try done; lia.
  - intros (b & B1 & B2 & B3 & B4 & B5 & _ & B6) Ha Ha1 Hw He. exists b. split_and!; try done; try lia; [by destruct l|by apply IH].
Qed.

(** ** The clock *)

Definition timer_fresh (t : RetransmissionTimer) : Prop := rt_running t = true -> 0 <= rt_time_elapsed t < 2 ^ 32.

Record timer_ok (s : TCPSender) : Prop := {
  to_timeout : 0 <= sd_retransmission_timeout s < 2 ^ 32;
  to_initial : 0 <= sd_initial_retransmission_timeout s < 2 ^ 32;
  to_fresh : timer_fresh (sd_timer s)
}.

Lemma send_fresh s b : timer_fresh (sd_timer s) -> timer_fresh (sd_timer (TCPSender_send s b)).
Proof.
  intros Ht. rewrite TCPSender_send_eq. cbn zeta. simpl. destruct (_ && _); [|done]. intros _. simpl. lia.
Qed.

Lemma fill_loop_fresh fuel s b x y s' :
  timer_fresh (sd_timer s) -> fill_loop fuel s b x y = Ok s' -> timer_fresh (sd_timer s').
Proof.
  revert s b x y. induction fuel as [|fuel IH]; intros s b x y Ht; simpl; [done|].
  destruct (_ && _); [|by intros [= <-]]. destruct (ByteStream_read _ _) as [[st payload]|]; cbn [mbind result_bind]; [|done].
  destruct (bool_decide _ && _); [by intros [= <-]|].
  destruct (negb _ && _); [apply IH; by apply send_fresh|]. destruct (ByteStream_eof _); [|by apply IH].
  destruct (_ <? _); [apply IH; by apply send_fresh|]. destruct (_ <? _); apply IH; by apply send_fresh.
Qed.

Lemma fill_window_timer W s s' : sender_core W s -> sender_pos W s -> timer_ok s -> TCPSender_fill_window s = Ok s' -> timer_ok s'.
Proof.
  intros Hc Hp [T1 T2 T3] E. destruct (fill_window_ok W s Hc Hp) as (s2 & new & E2 & Hf & _). rewrite E in E2. injection E2 as <-.
  pose proof (fl_frame _ _ _ _ Hf) as Fr. unfold sender_frame in Fr. injection Fr as _ Ei _ _ _ _ Er _ _ _ _.
  split; rewrite ?Ei, ?Er; try done. unfold TCPSender_fill_window in E.
  destruct (TCPSender_in_closed s); [injection E as <-; by apply send_fresh|]. by eapply fill_loop_fresh.
Qed.

Lemma ack_timer W s ackno win s' : sender_core W s -> sender_pos W s -> timer_ok s ->
  TCPSender_ack_received s ackno win = Ok s' -> timer_ok s'.
Proof.
  intros Hc Hp Ht. pose proof Ht as [T1 T2 T3]. rewrite ack_received_eq. cbn zeta.
  pose proof (unwrap_range ackno (sd_isn s) _ (proj1 (sc_window _ _ Hc))) as Ha.
  destruct (_ <? _); [by intros [= <-]|]. destruct (_ <? _); [|by destruct (_ =? _); intros [= <-]].
  apply (fill_window_timer W); [|by destruct Hp|].
  - apply (sender_core_acked W s); [done|done|apply u64_range|apply pop_acked_suffix|apply acked_timer_ok].
  - split; simpl; [done..|]. unfold acked_timer. destruct (bool_decide _); intros H; simpl in *; [lia|done].
Qed.

Lemma tick_timer W s ms : sender_core W s -> timer_ok s -> 0 <= ms < 2 ^ 63 -> timer_ok (TCPSender_tick s ms).
Proof.
  intros Hc [T1 T2 T3] Hms. rewrite (tick_eq W) by done. cbn zeta. split; simpl; [|done|].
  - destruct (tick_fires s ms); [|done]. unfold backed_off. destruct (sd_zero_window_size s); [done|apply u32_range].
  - unfold tick_fires. destruct (sc_timer _ _ Hc) as [Ht Ht2]. destruct (sd_segments_pending s) as [|seg l]; [done|].
    rewrite bool_decide_true in * by done. simpl. specialize (Ht2 Ht). specialize (T3 Ht).
    destruct (Z.leb_spec (rt_timeout (sd_timer s)) (u64 (rt_time_elapsed (sd_timer s) + ms))) as [|Hlt]; intros _; simpl; [lia|].
    rewrite u64_small in * by lia. lia.
Qed.

(** When the timer expires the oldest outstanding segment is sent. *)
Lemma expiry_resends W s seg rest : sender_core W s -> timer_ok s -> sd_segments_pending s = seg :: rest ->
  sd_segments_out (TCPSender_tick s (sd_retransmission_timeout s)) = sd_segments_out s ++ [seg].
Proof.
  intros Hc [T1 T2 T3] Hs. rewrite (tick_eq W) by done. cbn zeta. simpl. unfold tick_fires.
  destruct (sc_timer _ _ Hc) as [Ht Ht2]. rewrite Hs in *. rewrite bool_decide_true in * by done. rewrite Ht2 by done.
  specialize (T3 Ht). rewrite u64_small by lia. by rewrite (proj2 (Z.leb_le _ _)) by lia.
Qed.

(** ** Invariant *)

(** A segment that was sent and is not empty. *)
Definition wired (W : bytes) (s : TCPSender) (seg : TCPSegment) : Prop := sent_by W s seg /\ 0 < seg_len seg.

(** The right edge that the receiver will announce at least. *)
Definition edge (r : TCPReceiver) : Z := rack r + Z.min (sr_capacity (tr_reassembler r)) char16_max.

(** The sender, which has been given the part [W] of the stream. *)
Record sender_side (data W : bytes) (s : TCPSender) : Prop := {
  sx_core : sender_core W s;
  sx_pos : sender_pos W s;
  sx_flight : exists base, in_flight W s base;
  sx_window : sd_receiver_window_left s < sd_receiver_window_right s;
  sx_timer : timer_ok s;
  sx_capacity : 1 <= bs_capacity (sd_stream s);
  sx_prefix : exists rest, data = W ++ rest;
  sx_ended : bs_input_ended (sd_stream s) = true -> W = data
}.

Record transferring (W : bytes) (t : transfer) : Prop := {
  tx_data : zlen (tf_data t) <= stream_limit;
  tx_sender : sender_side (tf_data t) W (tf_sender t);
  tx_out : sd_segments_out (tf_sender t) = [];
  tx_wire : Forall (wired W (tf_sender t)) (tf_wire t);
  tx_received : receiving (sent_part W (tf_sender t)) (tf_sender t) (tf_receiver t) (tf_read t);
  tx_empty : bs_contents (TCPReceiver_stream_out (tf_receiver t)) = [];
  tx_capacity : 1 <= sr_capacity (tr_reassembler (tf_receiver t));
  tx_rack : rack (tf_receiver t) <= sd_next_seqno (tf_sender t);
  tx_answers : answers_ok (sd_isn (tf_sender t)) (sd_receiver_window_left (tf_sender t)) (sd_receiver_window_right (tf_sender t))
    (tf_answers t) (rack (tf_receiver t)) (edge (tf_receiver t))
}.

(** Taking the queued segments changes nothing else. *)
Lemma sender_side_drain data W s : sender_side data W s -> sender_side data W (TCPSender_set_segments_out s []).
Proof.
  intros [X1 X2 [base X3] X4 [T1 T2 T3] X6 X7 X8].
  destruct (drain_ok W s (sd_segments_out s) []) as [Hc Hp]; [by rewrite app_nil_r|done|done|].
  split; try done. exists base. by destruct X3.
Qed.

(** The sender has been given more, and has sent more. *)
Lemma sent_part_grows W d s s' : sender_core W s -> sender_pos W s -> sender_core (W ++ d) s' -> sender_pos (W ++ d) s' ->
  sender_le s s' -> exists e, sent_part (W ++ d) s' = sent_part W s ++ e.
Proof.
  intros Hc Hp Hc' Hp' [L1 L2 L3]. pose proof (sc_read _ _ Hc) as R. pose proof (sc_read _ _ Hc') as R'. pose proof (zlen_nonneg d) as Hd.
  rewrite zlen_app in R'.
  assert (bs_bytes_read (sd_stream s) <= bs_bytes_read (sd_stream s')) as Hle.
  { destruct (sd_fined s') eqn:Ef; [destruct (sp_fined _ _ Hp' Ef) as [_ ->]; rewrite zlen_app; lia|].
    assert (sd_fined s = false) as Ef0 by (destruct (sd_fined s); [by specialize (L3 eq_refl)|done]).
    destruct (sp_next _ _ Hp) as [(N1 & N2 & _)|N1], (sp_next _ _ Hp') as [(N1' & N2' & _)|N1'];
      rewrite ?Ef, ?Ef0 in *; simpl b2z in *; lia. }
  exists (slice (bs_bytes_read (sd_stream s)) (bs_bytes_read (sd_stream s') - bs_bytes_read (sd_stream s)) (W ++ d)).
  unfold sent_part. rewrite <- (ztake_app_le _ W d) by lia. rewrite <- !slice_0.
  rewrite (slice_app_adj 0) by lia. f_equal. lia.
Qed.

Lemma wired_moves W d s s' l : sender_le s s' -> (sd_fined s = true -> d = []) ->
  Forall (wired W s) l -> Forall (wired (W ++ d) s') l.
Proof.
  intros Hle Hd Hl. eapply Forall_impl; [exact Hl|]. intros seg [H1 H2]. split; [|done]. eapply sent_by_le; [exact Hle|].
  destruct (sd_fined s) eqn:Ef; [by rewrite Hd, app_nil_r|].
  apply (Forall_singleton (sent_by (W ++ d) s)), sent_by_more; [done|]. by apply Forall_singleton.
Qed.

Lemma receiving_moves W d s s' r acc : sender_core W s -> sender_pos W s -> sender_core (W ++ d) s' -> sender_pos (W ++ d) s' ->
  sender_le s s' -> (sd_fined s = true -> d = []) -> receiving (sent_part W s) s r acc -> receiving (sent_part (W ++ d) s') s' r acc.
Proof.
  intros Hc Hp Hc' Hp' Hle Hd Hr. destruct (sent_part_grows W d s s') as [e Ee]; try done.
  apply (receiving_later _ s); [done|]. destruct (sd_fined s) eqn:Ef.
  - assert (sent_part (W ++ d) s' = sent_part W s) as ->; [|done].
    rewrite (Hd eq_refl), app_nil_r in *. unfold sent_part.
    rewrite (proj2 (sp_fined _ _ Hp Ef)), (proj2 (sp_fined _ _ Hp' (le_fined _ _ Hle Ef))). done.
  - rewrite Ee. apply receiving_more; [done| |done]. rewrite <- Ee, sent_part_len by done.
    pose proof (sc_read _ _ Hc'). pose proof (sc_limit _ _ Hc'). lia.
Qed.

(** The sender moves on. *)
Lemma send_ok W d t s' answers : transferring W t -> sender_side (tf_data t) (W ++ d) s' -> sender_le (tf_sender t) s' ->
  (sd_fined (tf_sender t) = true -> d = []) -> Forall (fun seg => 0 < seg_len seg) (sd_segments_out s') ->
  answers_ok (sd_isn s') (sd_receiver_window_left s') (sd_receiver_window_right s') answers (rack (tf_receiver t)) (edge (tf_receiver t)) ->
  transferring (W ++ d) (tf_send t s' answers).
Proof.
  intros [X1 X2 X3 X4 X5 X6 X7 X8 X9] Hs Hle Hd Hout Ha. unfold tf_send.
  pose proof (sx_core _ _ _ Hs) as Hc'. pose proof (sx_pos _ _ _ Hs) as Hp'.
  pose proof (sender_side_drain _ _ _ Hs) as Hs2.
  split; simpl; try done.
  - apply Forall_app. split.
    + eapply (wired_moves W d (tf_sender t)); [|done|done]. by destruct Hle.
    + pose proof (proj1 (sc_sent _ _ Hc')) as Hso. rewrite Forall_forall in Hso, Hout |- *. intros seg Hin. split; [|by apply Hout].
      eapply (sent_by_le _ s'); [by split|by apply Hso].
  - apply (receiving_moves W d (tf_sender t)); try done; try apply X2; try apply Hs2. by destruct Hle.
  - pose proof (le_next _ _ Hle). lia.
Qed.

(** ** Steps of the sender *)

Lemma sent_chain_more W d isn a l b : Forall (fun seg => th_fin (ts_header seg) = false) l ->
  sent_chain W isn a l b -> sent_chain (W ++ d) isn a l b.
Proof.
  revert a. induction l as [|seg l IH]; intros a; [done|]. intros [Hf Hl]%Forall_cons (H1 & H2 & H3).
  split_and!; [by apply sent_segment_more|done|by apply IH].
Qed.

(** The next bytes of the stream are written. *)
Lemma write_side data W s d tl st n : zlen data <= stream_limit -> sender_side data W s -> data = W ++ d ++ tl ->
  bs_input_ended (sd_stream s) = false -> ByteStream_write (sd_stream s) d = (st, n) ->
  sender_side data (W ++ ztake n d) (TCPSender_set_stream s st) /\ write_spec (sd_stream s) d st n /\ sd_fined s = false.
Proof.
  intros Hlim [Hc Hp [base [I1 I2 I3 I4 I5]] Hw Ht Hcap _ He] Hd Hend Ew. unfold stream_limit in Hlim. rewrite Hd, !zlen_app in Hlim.
  assert (sd_fined s = false) as Hnf.
  { destruct (sd_fined s) eqn:Ef; [|done]. destruct (sp_fined _ _ Hp Ef). congruence. }
  pose proof (zlen_nonneg d) as Hz. pose proof (zlen_nonneg W) as HzW. pose proof (zlen_nonneg tl) as Hzt.
  destruct (write_ok W s d st n Hc Hp Hnf Ew) as [Hc1 Hp1]; [unfold index_limit; lia|].
  apply ByteStream_write_ok in Ew as Hws; [|apply Hc|lia]. pose proof Hws as [V1 V2 V3 V4 V5 V6 V7 V8].
  split; [|done]. split; try done; [|by destruct Ht|simpl; lia| |simpl; congruence].
  - exists base. split; try done. apply sent_chain_more; [|done]. eapply Forall_impl; [apply (sc_sent _ _ Hc)|].
    intros seg (a & _ & _ & Hf). destruct (th_fin (ts_header seg)); [|done]. specialize (Hf eq_refl). congruence.
  - exists (zdrop n d ++ tl). rewrite Hd, <- app_assoc. f_equal. by rewrite app_assoc, ztake_zdrop.
Qed.

(** All is written, and the stream is ended. *)
Lemma end_side data s : sender_side data data s ->
  sender_side data data (TCPSender_set_stream s (ByteStream_end_input (sd_stream s))).
Proof.
  intros [Hc Hp [base HI] Hw Ht Hcap Hpre He]. destruct (end_input_ok _ _ Hc Hp) as [Hc2 Hp2].
  split; try done; [exists base; by destruct HI|by destruct Ht].
Qed.

(** The owner writes on: all there is room for. *)
Lemma owner_writes_ok data W s : zlen data <= stream_limit -> sender_side data W s ->
  let s1 := TCPSender_set_stream s (owner_writes data (sd_stream s)) in
  exists d, sender_side data (W ++ d) s1 /\ (sd_fined s = true -> d = []) /\
    (bs_input_ended (sd_stream s1) = true \/ zlen (bs_contents (sd_stream s1)) = bs_capacity (sd_stream s1)).
Proof.
  intros Hlim Hs. pose proof Hs as [Hc Hp _ _ _ _ [rest Hpre] _]. unfold owner_writes, ByteStream_input_ended.
  destruct (bs_input_ended (sd_stream s)) eqn:Eend.
  { exists []. rewrite app_nil_r. assert (TCPSender_set_stream s (sd_stream s) = s) as -> by (by destruct s). auto. }
  unfold ByteStream_bytes_written. rewrite (sc_written _ _ Hc), Hpre, zdrop_app_ge, Z.sub_diag, zdrop_le0 by lia.
  destruct (ByteStream_write (sd_stream s) rest) as [st n] eqn:Ew.
  destruct (write_side data W s rest [] st n) as (Hs1 & [V1 V2 V3 V4 V5 V6 V7 V8] & Hnf); try done; [by rewrite app_nil_r|].
  exists (ztake n rest). rewrite <- Hpre. split_and!; [|congruence|].
  - destruct (Z.eqb_spec n (zlen rest)) as [E|E]; [|done]. rewrite ztake_ge, <- Hpre in * by lia.
    exact (end_side data _ Hs1).
  - destruct (Z.eqb_spec n (zlen rest)) as [E|E]; simpl; [by left|right].
    pose proof (bs_wf_fits _ (sc_stream _ _ Hc)). rewrite V3, V6, zlen_app, zlen_ztake. pose proof (zlen_nonneg rest). lia.
Qed.

Lemma fill_side data W s : sender_side data W s ->
  exists s' new, TCPSender_fill_window s = Ok s' /\ filled W s s' new /\ sender_side data W s' /\ sender_le s s' /\
    (1 <= sd_next_seqno s -> sender_full s') /\ (sd_next_seqno s = 0 -> sd_next_seqno s' = 1).
Proof.
  intros [Hc Hp [base HI] Hw Ht Hcap Hpre He]. pose proof (sender_pos_range W s Hc Hp) as Hr.
  destruct (fill_window_ok W s Hc Hp) as (s' & new & E & Hf & Hn & Hfull). exists s', new.
  assert (sd_next_seqno s = 0 -> sd_next_seqno s' = 1) as H1.
  { intros E0. destruct (syn_filled W s Hc Hp E0) as [_ E1]. unfold TCPSender_fill_window, TCPSender_in_closed, TCPSender_next_seqno_absolute in E.
    rewrite E0 in E. injection E as <-. exact E1. }
  pose proof (fl_frame _ _ _ _ Hf) as Fr. unfold sender_frame in Fr. injection Fr as Ei _ _ _ El Er _ _ Ec Ee _.
  pose proof (if_base _ _ _ HI) as Hb. pose proof (if_window _ _ _ HI) as Hiw.
  assert (sd_next_seqno s' <= sd_receiver_window_right s) as Hin.
  { destruct (Z.eq_dec (sd_next_seqno s) 0) as [E0|E0]; [rewrite H1 by done; lia|]. apply (fl_window _ _ _ _ Hf); lia. }
  split_and!; try done.
  - split; try apply Hf; rewrite ?El, ?Er, ?Ec, ?Ee; try done; [exists base; by eapply filled_in_flight|by eapply fill_window_timer].
  - destruct (fill_window_le W s Hc Hp) as (s2 & E2 & _ & _ & Hle). rewrite E in E2. by injection E2 as <-.
Qed.

(** The sequence number up to which everything is acknowledged. *)
Definition acked (t : transfer) : Z := sd_receiver_window_left (tf_sender t).

(** With nothing outstanding after the owner has written and the window has been filled,
    the transfer is complete. *)
Lemma filled_complete data W s s' new : sender_side data W s -> filled W s s' new -> sender_side data W s' ->
  (1 <= sd_next_seqno s -> sender_full s') -> (sd_next_seqno s = 0 -> sd_next_seqno s' = 1) ->
  bs_input_ended (sd_stream s) = true \/ zlen (bs_contents (sd_stream s)) = bs_capacity (sd_stream s) ->
  sd_segments_pending s' = [] -> sd_receiver_window_left s = zlen data + 2.
Proof.
  intros [Hc Hp [base HI] Hw _ Hcap _ _] Hf [Hc' Hp' [base' HI'] _ _ _ _ He'] Hfull Hsyn Hfed Hnone.
  pose proof (fl_frame _ _ _ _ Hf) as Fr. unfold sender_frame in Fr. injection Fr as _ _ _ _ El Er _ _ Ec Ee _.
  destruct HI' as [_ J2 J3 J4 _]. rewrite Hnone in J3. rewrite El, Er in *. pose proof (if_window _ _ _ HI) as [Hiw _].
  pose proof (sender_pos_range W s Hc Hp) as Hr. pose proof (sc_read _ _ Hc) as Hrd.
  pose proof (sent_chain_le _ _ _ _ _ (fl_chain _ _ _ _ Hf)) as Hmono.
  assert (1 <= sd_next_seqno s) as H1.
  { destruct (Z.eq_dec (sd_next_seqno s) 0) as [E0|]; [|lia]. specialize (Hsyn E0). lia. }
  destruct (Hfull H1) as [Hfl|[Hempty Hfin]]; [lia|]. destruct Hfed as [Hended|Hfed].
  - rewrite <- Ee in Hended. specialize (Hfin Hended). specialize (He' Hended). subst data.
    destruct (sp_fined _ _ Hp' Hfin) as [_ Hrd']. destruct (sp_next _ _ Hp') as [(_ & _ & E)|E]; [congruence|].
    rewrite Hrd', Hfin in E. simpl b2z in E. lia.
  - exfalso. pose proof (sc_contents _ _ Hc) as Hct. pose proof (sc_contents _ _ Hc') as Hct'. rewrite Hempty in Hct'.
    pose proof (sc_read _ _ Hc') as Hrd'. assert (zlen (zdrop (bs_bytes_read (sd_stream s')) W) = 0) as Hz by (by rewrite <- Hct').
    rewrite Hct, zlen_zdrop in Hfed. rewrite zlen_zdrop in Hz.
    destruct (sp_next _ _ Hp) as [(E & _)|E]; [lia|]. destruct (sp_next _ _ Hp') as [(E' & _)|E']; [lia|].
    assert (sd_fined s = false) as Hnf by (destruct (sd_fined s) eqn:Ef; [destruct (sp_fined _ _ Hp Ef); lia|done]).
    rewrite Hnf in E. simpl b2z in E. pose proof (b2z_range (sd_fined s')). lia.
Qed.

Lemma tf_write_ok W t : transferring W t ->
  exists t' d, tf_write t = Ok t' /\ transferring (W ++ d) t' /\ acked t' = acked t /\ tf_data t' = tf_data t /\
    (sd_segments_pending (tf_sender t') = [] -> acked t = zlen (tf_data t) + 2).
Proof.
  intros HT. destruct (owner_writes_ok _ W _ (tx_data _ _ HT) (tx_sender _ _ HT)) as (d & Hs1 & Hd & Hfed).
  destruct (fill_side _ _ _ Hs1) as (s' & new & E & Hf & Hs' & Hle & Hfull & Hsyn).
  pose proof (fl_frame _ _ _ _ Hf) as Fr. unfold sender_frame in Fr. injection Fr as Ei _ _ _ El Er _ _ _ _ _.
  unfold tf_write. rewrite E. cbn [mbind result_bind]. eexists _, d. split; [done|]. split_and!; [|exact El|done|].
  - apply send_ok; try done.
    + destruct Hle. by split.
    + rewrite (fl_out _ _ _ _ Hf). simpl. rewrite (tx_out _ _ HT). simpl. eapply sent_chain_pos, Hf.
    + rewrite Ei, El, Er. apply HT.
  - exact (filled_complete _ _ _ _ _ Hs1 Hf Hs' Hfull Hsyn Hfed).
Qed.

(** Time passes. *)
Lemma tick_side data W s ms : 0 <= ms < 2 ^ 63 -> sender_side data W s -> sender_side data W (TCPSender_tick s ms).
Proof.
  intros Hms [Hc Hp [base HI] Hw Ht Hcap Hpre He]. destruct (tick_ok W s ms Hc Hp) as [Hc' Hp'].
  pose proof (tick_timer W _ ms Hc Ht Hms) as Ht'. pose proof (tick_eq W s ms Hc) as E. cbn zeta in E.
  split; try done; rewrite E; try done. exists base. by destruct HI.
Qed.

Lemma tf_tick_ok W t ms : 0 <= ms < 2 ^ 63 -> transferring W t ->
  transferring W (tf_tick t ms) /\ acked (tf_tick t ms) = acked t /\
  sd_segments_pending (tf_sender (tf_tick t ms)) = sd_segments_pending (tf_sender t).
Proof.
  intros Hms HT. pose proof (tick_side _ _ _ ms Hms (tx_sender _ _ HT)) as Hs'.
  destruct (tx_sender _ _ HT) as [Hc Hp [base HI] Hw Ht Hcap Hpre He]. pose proof (tick_eq W (tf_sender t) ms Hc) as E. cbn zeta in E. unfold acked, tf_tick. cbn [tf_sender tf_send].
  split; [|by rewrite E]. rewrite <- (app_nil_r W) at 1. apply send_ok; rewrite ?app_nil_r; try done.
  - by rewrite E.
  - rewrite E. simpl. rewrite (tx_out _ _ HT). simpl. destruct (tick_fires _ _); [|apply Forall_nil_2].
    pose proof (sent_chain_pos _ _ _ _ _ (if_chain _ _ _ HI)) as Hpos. destruct (sd_segments_pending _); [apply Forall_nil_2|].
    apply Forall_cons in Hpos as [Hpos _]. by apply Forall_singleton.
  - rewrite E. simpl. apply HT.
Qed.

(** ** Steps of the receiver *)

Lemma received_rack W s r acc : sender_core W s -> sender_pos W s -> 1 <= sd_next_seqno s ->
  receiving (sent_part W s) s r acc -> rack r <= sd_next_seqno s.
Proof.
  intros Hc Hp Hn Hr. unfold rack. destruct (tr_sender_isn r); [|lia].
  pose proof (sa_written _ _ (rv_agrees _ _ _ _ Hr)) as Hw. rewrite sent_part_len in Hw by done.
  pose proof (b2z_mono _ _ (fun H => proj2 (ended_written _ _ _ _ Hr H))).
  destruct (sp_next _ _ Hp) as [(E & _)|E]; lia.
Qed.

Lemma rack_cases S s r acc : receiving S s r acc ->
  tr_sender_isn r = None /\ rack r = 0 \/ tr_sender_isn r = Some (sd_isn s) /\ 1 <= rack r.
Proof.
  intros Hr. unfold rack. pose proof (sw_written _ (rv_wf _ _ _ _ Hr)).
  pose proof (b2z_range (ByteStream_input_ended (TCPReceiver_stream_out r))).
  destruct (rv_isn _ _ _ _ Hr) as [->| ->]; [by left|right]. split; [done|lia].
Qed.

(** The reader takes everything. *)
Lemma read_all S s r acc : receiving S s r acc ->
  exists out b, ByteStream_read (TCPReceiver_stream_out r) (ByteStream_buffer_size (TCPReceiver_stream_out r)) = Ok (out, b) /\
    receiving S s (TCPReceiver_with_output r out) (acc ++ b) /\ bs_contents out = [] /\ rack (TCPReceiver_with_output r out) = rack r /\
    reach r <= reach (TCPReceiver_with_output r out).
Proof.
  intros Hr. pose proof (sw_output _ (rv_wf _ _ _ _ Hr)) as Hwf. change (sr_output (tr_reassembler r)) with (TCPReceiver_stream_out r) in Hwf.
  rewrite (bs_wf_size _ Hwf). pose proof (zlen_nonneg (bs_contents (TCPReceiver_stream_out r))) as Hz.
  destruct (ByteStream_read_ok _ (zlen (bs_contents (TCPReceiver_stream_out r))) Hwf Hz) as (out & E & P).
  eexists out, _. split; [exact E|]. split_and!.
  - by eapply receiving_read.
  - rewrite (ps_contents _ _ _ P). by apply zdrop_ge.
  - unfold rack. simpl. destruct (tr_sender_isn r); [|done]. f_equal; [|f_equal].
    + f_equal. apply (ps_written _ _ _ P).
    + apply (ps_ended _ _ _ P).
  - unfold reach. change (TCPReceiver_stream_out (TCPReceiver_with_output r out)) with out. unfold ByteStream_input_ended.
    rewrite (ps_ended _ _ _ P), (ps_read _ _ _ P).
    pose proof (sw_read _ (rv_wf _ _ _ _ Hr)) as R. pose proof (sw_written _ (rv_wf _ _ _ _ Hr)) as Hw. unfold index_limit in Hw.
    pose proof (bs_wf_read _ Hwf). unfold TCPReceiver_stream_out, StreamReassembler_stream_out in *. rewrite u64_small by lia. simpl. lia.
Qed.

(** The number in its header tells where a segment belongs. *)
Lemma sent_place W W' isn seg seg' a a' : WrappingInt32_ok isn -> sent_segment W isn seg a -> sent_segment W' isn seg' a' ->
  th_seqno (ts_header seg) = th_seqno (ts_header seg') -> a < 2 ^ 31 -> a' < 2 ^ 31 -> a = a'.
Proof.
  intros Hisn [S1 S2 _ _ _ _ _] [S1' S2' _ _ _ _ _] E Ha Ha'.
  transitivity (unwrap (th_seqno (ts_header seg)) isn a'); [symmetry|]; apply unwrap_near; try done; try congruence; unfold seq_limit; lia.
Qed.

(** A segment that was sent arrives: nothing is thrown, and if it is the oldest one
    outstanding the receiver has more than is acknowledged. *)
Lemma arrive_wired W t seg : transferring W t -> wired W (tf_sender t) seg ->
  let r := tf_receiver t in
  exists r', TCPReceiver_segment_received r seg = Ok r' /\ receiving (sent_part W (tf_sender t)) (tf_sender t) r' (tf_read t) /\
    sr_capacity (tr_reassembler r') = sr_capacity (tr_reassembler r) /\ rack r <= rack r' <= sd_next_seqno (tf_sender t) /\
    edge r <= rack r' + Z.max 1 (announced r') <= edge r' /\ 0 <= announced r' < 2 ^ 16 /\
    (forall rest, sd_segments_pending (tf_sender t) = seg :: rest -> acked t < rack r').
Proof.
  intros HT [(a & Hs & Hle & Hfin) Hlen] r. set (s := tf_sender t) in *. pose proof (tx_received _ _ HT) as Hr. fold s r in Hr.
  destruct (tx_sender _ _ HT) as [Hc Hp [base HI] Hw Ht Hcap [rest0 Hpre] He]. fold s in Hc, Hp, HI, Hw, Ht.
  pose proof (tx_data _ _ HT) as Hlim. rewrite Hpre, zlen_app in Hlim. pose proof (zlen_nonneg rest0) as Hz0.
  destruct (answers_ends _ _ _ _ _ _ (tx_answers _ _ HT)) as [Ha1 Ha2]. fold s r in Ha1, Ha2. pose proof (if_window _ _ _ HI) as Hiw.
  pose proof (sc_read _ _ Hc) as Hrd. pose proof (ss_abs _ _ _ _ Hs) as Ha0. pose proof (tx_capacity _ _ HT) as Hrc. fold r in Hrc.
  assert (sd_next_seqno s <= zlen W + 2) as Hnext.
  { pose proof (b2z_range (sd_fined s)). destruct (sp_next _ _ Hp) as [(E & _)|E]; lia. }
  unfold edge, char16_max, stream_limit in *.
  destruct (arrive_segment (sent_part W s) s r (tf_read t) seg a) as (r' & E & Hr' & T1 & T2 & T3 & T4 & _ & T5);
    [apply Hc|rewrite sent_part_len by done; unfold stream_limit; lia|done|by apply sent_part_segment|done|lia| |].
  { pose proof (reach_read _ _ _ _ Hr (tx_empty _ _ HT)). lia. }
  exists r'. pose proof (received_rack W s r' (tf_read t) Hc Hp ltac:(lia) Hr') as Hrk.
  assert (0 <= TCPReceiver_window_size r' /\ TCPReceiver_window_size r' = sr_capacity (tr_reassembler r) - (tr_written r' - tr_written r)) as [Hw0 Hwin].
  { pose proof (rv_wf _ _ _ _ Hr') as Hwf'. pose proof (sw_read _ Hwf') as R2. pose proof (sw_read _ (rv_wf _ _ _ _ Hr)) as R1.
    pose proof (tx_empty _ _ HT) as Hem. fold r in Hem. unfold TCPReceiver_stream_out, StreamReassembler_stream_out in *. rewrite Hem in R1. change (zlen []) with 0 in R1.
    unfold TCPReceiver_window_size, TCPReceiver_stream_out, StreamReassembler_stream_out.
    rewrite ByteStream_remaining_capacity_eq by apply Hwf'. pose proof (bs_wf_fits _ (sw_output _ Hwf')). rewrite (proj1 (sw_capacity _ Hwf')) in *. lia. }
  unfold announced, char16_max. split_and!; try done; try lia.
  intros rest Hpend. pose proof (if_head _ _ _ HI) as Hh. rewrite Hpend in Hh. pose proof (if_chain _ _ _ HI) as Hch. rewrite Hpend in Hch.
  destruct Hch as (Hs2 & _). pose proof (if_base _ _ _ HI) as Hb. unfold acked. fold s.
  rewrite (sent_place _ _ _ _ _ _ _ (sc_isn _ _ Hc) Hs Hs2 eq_refl) in T5 by lia. specialize (T5 ltac:(lia)). lia.
Qed.

Lemma tf_arrive_ok W t k : transferring W t ->
  exists t', tf_arrive t k = Ok t' /\ transferring W t' /\ tf_sender t' = tf_sender t /\ tf_data t' = tf_data t /\
    (forall seg rest, tf_wire t !! k = Some seg -> sd_segments_pending (tf_sender t) = seg :: rest ->
      acked t < rack (tf_receiver t') /\ tf_answers t' <> []).
Proof.
  intros HT. unfold tf_arrive. destruct (tf_wire t !! k) as [seg|] eqn:Ek; [|by exists t].
  pose proof (Forall_lookup_1 _ _ _ _ (tx_wire _ _ HT) Ek) as Hseg.
  destruct (arrive_wired W t seg HT Hseg) as (r' & E & Hr' & Hcap & Hrack & Hedge & Hann & Hnew).
  destruct (read_all _ _ _ _ Hr') as (out & b & Er & Hr2 & Hempty & Hrk & _). rewrite E. cbn [mbind result_bind]. rewrite Er. cbn [mbind result_bind].
  eexists. split; [done|]. split_and!; try done.
  - destruct HT as [X1 X2 X3 X4 X5 X6 X7 X8 X9]. split; simpl; try done; rewrite ?Hrk; [lia|lia|].
    assert (edge (TCPReceiver_with_output r' out) = edge r') as -> by (unfold edge; by rewrite Hrk).
    rewrite (ackno_rack _ _ _ _ Hr'). destruct (rack_cases _ _ _ _ Hr') as [[-> E0]|[-> E1]].
    + rewrite app_nil_r. destruct (rack_cases _ _ _ _ X5) as [[_ E1]|[_ E1]]; [|lia].
      unfold edge in *. rewrite E0, Hcap. rewrite E1 in X9. exact X9.
    + eapply answers_snoc; [exact X9|lia..].
  - intros seg' rest [= <-] Hp. specialize (Hnew rest Hp). simpl. rewrite Hrk. split; [done|].
    rewrite (ackno_rack _ _ _ _ Hr'). destruct (rack_cases _ _ _ _ Hr') as [[_ E0]|[-> _]]; [|by destruct (tf_answers t)].
    destruct (sx_flight _ _ _ (tx_sender _ _ HT)) as [base HI]. pose proof (if_base _ _ _ HI). unfold acked in Hnew. lia.
Qed.

(** ** An answer arrives *)

Lemma good_answer W t ackno win answers : transferring W t -> tf_answers t = (ackno, win) :: answers ->
  let s := tf_sender t in
  exists a, good_ack s ackno win a /\ 1 <= a /\ sd_receiver_window_left s <= a /\ 0 <= win < 2 ^ 16 /\
    (answers = [] -> a = rack (tf_receiver t)) /\
    answers_ok (sd_isn s) a (a + Z.max 1 win) answers (rack (tf_receiver t)) (edge (tf_receiver t)) /\ 1 <= sd_next_seqno s.
Proof.
  intros HT Ea s. pose proof (tx_answers _ _ HT) as Hans. rewrite Ea in Hans. destruct Hans as (a & A1 & A2 & A3 & A4 & A5 & A6 & A7).
  destruct (answers_ends _ _ _ _ _ _ A7) as [A8 _]. pose proof (tx_rack _ _ HT) as Hrk.
  destruct (sx_flight _ _ _ (tx_sender _ _ HT)) as [base HI]. pose proof (if_window _ _ _ HI) as Hiw.
  subst s. exists a. split_and!; try done; try lia. split; try done; lia.
Qed.

Lemma tf_answer_ok W t : transferring W t ->
  exists t', tf_answer t = Ok t' /\ transferring W t' /\ tf_answers t' = tail (tf_answers t) /\ tf_data t' = tf_data t /\
    tf_receiver t' = tf_receiver t /\ acked t <= acked t' /\ (length (tf_answers t) = 1%nat -> acked t' = rack (tf_receiver t)).
Proof.
  intros HT. unfold tf_answer. destruct (tf_answers t) as [|[ackno win] answers] eqn:Ea; [exists t; by rewrite Ea|].
  destruct (good_answer W t ackno win answers HT Ea) as (a & Hga & Ha1 & Hla & Hwin & Hlast & Hans & Hn).
  destruct (tx_sender _ _ HT) as [Hc Hp [base HI] Hw Ht Hcap Hpre He].
  destruct (ack_received_flight W (tf_sender t) base ackno win a Hc Hp Hn HI Hga) as (s' & base' & E & El & Er & Hc' & Hp' & HI' & Hfr & new & Ho & Hnew).
  destruct (ack_received_le W (tf_sender t) ackno win Hc Hp Hwin) as (s2 & E2 & _ & _ & Hle). rewrite E in E2. injection E2 as <-.
  unfold ack_frame in Hfr. injection Hfr as Hf1 Hf2 Hf3. specialize (Er Hla).
  rewrite E. cbn [mbind result_bind]. eexists. split; [done|]. unfold acked. cbn [tf_send tf_answers tf_data tf_receiver tf_sender].
  assert (sd_receiver_window_left s' = a) as El' by lia. change (sd_receiver_window_left (TCPSender_set_segments_out s' [])) with (sd_receiver_window_left s').
  rewrite El'. split_and!; try done; [|intros Hl; apply Hlast; by destruct answers].
  rewrite <- (app_nil_r W). apply send_ok; rewrite ?app_nil_r; try done.
  - split; rewrite ?Hf2, ?Hf3; try done; [by exists base'|lia|exact (ack_timer W _ _ _ _ Hc Hp Ht E)].
  - by rewrite Ho, (tx_out _ _ HT).
  - by rewrite El', Er, (le_isn _ _ Hle).
Qed.

Lemma tf_drain_ok n W t : transferring W t -> length (tf_answers t) = n ->
  exists t', tf_drain n t = Ok t' /\ transferring W t' /\ tf_data t' = tf_data t /\ acked t <= acked t' /\
    (tf_answers t <> [] -> acked t' = rack (tf_receiver t)).
Proof.
  revert t. induction n as [|n IH]; intros t HT Hl; simpl; [exists t; split_and!; try done; by destruct (tf_answers t)|].
  destruct (tf_answer_ok W t HT) as (t1 & E & HT1 & Ha1 & Hd1 & Hr1 & Hle1 & Hlast). rewrite E. cbn [mbind result_bind].
  destruct (IH t1 HT1) as (t' & E' & HT' & Hd' & Hle' & Hall); [rewrite Ha1; by destruct (tf_answers t); simplify_eq/=|].
  exists t'. split_and!; try done; [congruence|lia|]. intros _. destruct n as [|n].
  - injection E' as <-. by apply Hlast.
  - rewrite Hall, Hr1; [done|]. rewrite Ha1. destruct (tf_answers t) as [|? [|? ?]]; simplify_eq/=. done.
Qed.

(** ** Schedules *)

(** An undisturbed retransmission brings the acknowledgments on, up to the end. *)
Lemma tf_recover_ok W t : transferring W t ->
  exists t' W', tf_recover t = Ok t' /\ transferring W' t' /\ tf_data t' = tf_data t /\
    Z.min (acked t + 1) (zlen (tf_data t) + 2) <= acked t'.
Proof.
  intros HT. unfold tf_recover. destruct (tf_write_ok W t HT) as (t1 & d & E1 & HT1 & Ha1 & Hd1 & Hdone). rewrite E1. cbn [mbind result_bind].
  pose proof (to_timeout _ (sx_timer _ _ _ (tx_sender _ _ HT1))) as Hto.
  destruct (tf_tick_ok _ t1 (sd_retransmission_timeout (tf_sender t1)) ltac:(lia) HT1) as (HT2 & Ha2 & Hp2).
  set (t2 := tf_tick t1 _) in *. destruct (tf_arrive_ok _ t2 (pred (length (tf_wire t2))) HT2) as (t3 & E3 & HT3 & Hs3 & Hd3 & Hnew).
  rewrite E3. cbn [mbind result_bind]. destruct (tf_drain_ok _ _ t3 HT3 eq_refl) as (t4 & E4 & HT4 & Hd4 & Hle4 & Hall).
  assert (tf_data t2 = tf_data t1) as Hd2 by done.
  exists t4, (W ++ d). assert (acked t3 = acked t2) as Ha3 by (unfold acked; by rewrite Hs3).
  split_and!; [done|done|congruence|]. destruct (sd_segments_pending (tf_sender t1)) as [|seg rest] eqn:Ep; [specialize (Hdone eq_refl); lia|].
  destruct (Hnew seg rest) as [Hgt Hne]; [|by rewrite Hp2|rewrite (Hall Hne); lia].
  unfold t2, tf_tick. cbn [tf_send tf_wire]. destruct (tx_sender _ _ HT1) as [Hc1 _ _ _ Ht1 _ _ _].
  rewrite (expiry_resends _ _ seg rest Hc1 Ht1 Ep), (tx_out _ _ HT1), length_app. simpl.
  by rewrite Nat.add_1_r, list_lookup_middle.
Qed.

Lemma acked_bound W t : transferring W t -> acked t <= sd_next_seqno (tf_sender t) <= zlen (tf_data t) + 2.
Proof.
  intros HT. destruct (tx_sender _ _ HT) as [Hc Hp [base HI] _ _ _ [rest Hpre] _]. pose proof (if_window _ _ _ HI). pose proof (sc_read _ _ Hc).
  pose proof (zlen_nonneg rest). rewrite Hpre, zlen_app. pose proof (b2z_range (sd_fined (tf_sender t))). unfold acked.
  destruct (sp_next _ _ Hp) as [(E & _)|E]; lia.
Qed.

Lemma tf_exec_ok W t e : transferring W t -> event_ok e ->
  exists t' W', tf_exec e t = Ok t' /\ transferring W' t' /\ tf_data t' = tf_data t /\ acked t <= acked t' /\
    (is_recover e = true -> Z.min (acked t + 1) (zlen (tf_data t) + 2) <= acked t').
Proof.
  intros HT He. destruct e as [|ms|k| | |]; simpl.
  - destruct (tf_write_ok W t HT) as (t' & d & E & HT' & Ha & Hd & _). exists t', (W ++ d). split_and!; try done. lia.
  - destruct (tf_tick_ok W t ms He HT) as (HT' & Ha & _). eexists _, W. split_and!; try done. lia.
  - destruct (tf_arrive_ok W t k HT) as (t' & E & HT' & Hs & Hd & _). exists t', W. split_and!; try done. unfold acked. by rewrite Hs.
  - destruct (tf_answer_ok W t HT) as (t' & E & HT' & _ & Hd & _ & Hle & _). by exists t', W.
  - eexists _, W. split; [done|]. split_and!; try done. destruct HT as [X1 X2 X3 X4 X5 X6 X7 X8 X9]. split; try done. simpl.
    destruct (tf_answers t) as [|[ackno win] l]; [done|]. destruct X9 as (a & A1 & A2 & A3 & A4 & A5 & A6 & A7).
    by eapply answers_from.
  - destruct (tf_recover_ok W t HT) as (t' & W' & E & HT' & Hd & Hle). exists t', W'. split_and!; try done.
    pose proof (acked_bound W t HT). lia.
Qed.

Lemma tf_run_ok es W t : transferring W t -> Forall event_ok es ->
  exists t' W', tf_run es t = Ok t' /\ transferring W' t' /\ tf_data t' = tf_data t /\
    Z.min (acked t + recoveries es) (zlen (tf_data t) + 2) <= acked t'.
Proof.
  revert W t. induction es as [|e es IH]; intros W t HT He; simpl.
  - exists t, W. split_and!; try done. change (recoveries []) with 0. lia.
  - apply Forall_cons in He as [He Hes]. destruct (tf_exec_ok W t e HT He) as (t1 & W1 & E & HT1 & Hd & Hle & Hrec). rewrite E. cbn [mbind result_bind].
    destruct (IH W1 t1 HT1 Hes) as (t' & W' & E' & HT' & Hd' & Hle'). exists t', W'. split_and!; try done; [congruence|].
    rewrite Hd in Hle'. unfold recoveries in *. cbn [List.filter]. destruct (is_recover e); [|lia].
    specialize (Hrec eq_refl). rewrite zlen_cons. pose proof (zlen_nonneg (List.filter is_recover es)). lia.
Qed.

Lemma transfer_new_ok data scap rto fixed random rcap :
  WrappingInt32_ok (default (MkWrappingInt32 random) fixed) -> zlen data <= stream_limit -> 1 <= scap < 2 ^ 64 ->
  0 <= rto < 2 ^ 32 -> 1 <= rcap < index_limit -> transferring [] (transfer_new data (TCPSender_new scap rto fixed random) rcap).
Proof.
  intros Hisn Hdata Hscap Hrto Hrcap. destruct (TCPSender_new_inv scap rto fixed random ltac:(lia) Hisn) as [Hc Hp _].
  split; simpl; try done.
  - split; simpl; try done; [exists 0; split; simpl; try done; lia|lia|by exists data].
  - change (sent_part [] _) with (@nil Z). split; simpl; try done; [apply StreamReassembler_new_wf; lia|by left].
  - lia.
  - unfold edge, rack, char16_max. simpl. lia.
Qed.

Lemma read_prefix W t : transferring W t ->
  zlen (tf_read t) = tr_written (tf_receiver t) /\ tf_read t = ztake (zlen (tf_read t)) (tf_data t).
Proof.
  intros HT. destruct (tx_sender _ _ HT) as [Hc _ _ _ _ _ [rest ->] _]. pose proof (sc_read _ _ Hc).
  pose proof (tx_received _ _ HT) as Hr. pose proof (rv_bytes _ _ _ _ Hr) as Hb. rewrite (tx_empty _ _ HT), app_nil_r in Hb.
  pose proof (sa_written _ _ (rv_agrees _ _ _ _ Hr)) as Hw. rewrite sent_part_len in Hw by done.
  pose proof (sw_written _ (rv_wf _ _ _ _ Hr)). unfold sent_part in Hb. rewrite ztake_ztake, Z.min_l in Hb by done.
  assert (zlen (tf_read t) = tr_written (tf_receiver t)) as E by (rewrite Hb, zlen_ztake; lia).
  split; [done|]. rewrite E, ztake_app_le by lia. exact Hb.
Qed.

(** Everything acknowledged: everything has been read, and both ends know it. *)
Lemma acked_complete W t : transferring W t -> acked t = zlen (tf_data t) + 2 ->
  tf_read t = tf_data t /\ ByteStream_eof (TCPReceiver_stream_out (tf_receiver t)) = true /\ TCPSender_in_fin_acked (tf_sender t) = true.
Proof.
  intros HT Ha. pose proof (acked_bound W t HT) as Hb. pose proof (tx_rack _ _ HT) as Hrk. destruct (read_prefix W t HT) as [Hrl Hrp].
  destruct (answers_ends _ _ _ _ _ _ (tx_answers _ _ HT)) as [Hra _]. fold (acked t) in Hra.
  destruct (tx_sender _ _ HT) as [Hc Hp [base HI] _ _ _ [rest Hpre] He]. pose proof (sc_read _ _ Hc) as Hrd.
  pose proof (zlen_nonneg rest) as Hzr. assert (zlen (tf_data t) = zlen W + zlen rest) as Hz by (by rewrite Hpre, zlen_app).
  pose proof (tx_received _ _ HT) as Hr. pose proof (sa_written _ _ (rv_agrees _ _ _ _ Hr)) as Hw. rewrite sent_part_len in Hw by done.
  pose proof (b2z_range (sd_fined (tf_sender t))) as Hbf. pose proof (zlen_nonneg W) as HzW.
  destruct (sp_next _ _ Hp) as [(E & _)|E]; [lia|].
  assert (ByteStream_input_ended (TCPReceiver_stream_out (tf_receiver t)) = true /\ tr_written (tf_receiver t) = zlen (tf_data t)) as [Hend Hwr].
  { unfold rack in *. destruct (tr_sender_isn (tf_receiver t)); [|lia].
    destruct (ByteStream_input_ended _); simpl b2z in *; [split; [done|lia]|lia]. }
  split_and!.
  - rewrite Hrp, Hrl, Hwr. by apply ztake_ge.
  - rewrite ByteStream_eof_eq by exact (sw_output _ (rv_wf _ _ _ _ Hr)). rewrite (tx_empty _ _ HT). unfold ByteStream_input_ended in Hend. by rewrite Hend.
  - destruct (ended_written _ _ _ _ Hr Hend) as [_ Hfin]. destruct (sp_fined _ _ Hp Hfin) as [Hie Hrd'].
    unfold TCPSender_in_fin_acked, TCPSender_stream_in, TCPSender_next_seqno_absolute, ByteStream_bytes_written.
    rewrite ByteStream_eof_eq by apply Hc. rewrite (in_flight_bytes W _ base Hc Hp HI), (sc_contents _ _ Hc), (sc_written _ _ Hc), Hie, Hrd'.
    rewrite zdrop_ge by lia. pose proof (sc_limit _ _ Hc). unfold index_limit in *. rewrite u64_small by lia.
    pose proof (if_head _ _ _ HI) as Hh. pose proof (if_chain _ _ _ HI) as Hch. pose proof (if_window _ _ _ HI). unfold acked in *.
    destruct (sd_segments_pending (tf_sender t)) as [|seg l]; [|destruct Hch as (_ & _ & Hch); apply sent_chain_le in Hch; lia].
    b2p. rewrite Hfin in E. simpl b2z in E. rewrite !andb_true_iff, !Z.eqb_eq. split_and!; try done; lia.
Qed.

(** C3.  Losses do not stop a transfer.  Over a network that loses, repeats, delays and
    reorders segments, and loses or delays acknowledgments, no schedule ends in an
    exception and what is read is a prefix of the stream; and when the schedule has as
    many undisturbed retransmissions as the stream has sequence numbers, whatever
    happens between them, all of the stream has been read, its end has been seen, and
    the sender has everything acknowledged, the FIN included. *)
Theorem lossy_transfer_completes data scap rto fixed random rcap es :
  WrappingInt32_ok (default (MkWrappingInt32 random) fixed) -> zlen data <= stream_limit -> 1 <= scap < 2 ^ 64 ->
  0 <= rto < 2 ^ 32 -> 1 <= rcap < index_limit -> Forall event_ok es ->
  exists t, tf_run es (transfer_new data (TCPSender_new scap rto fixed random) rcap) = Ok t /\
    tf_read t = ztake (zlen (tf_read t)) data /\
    (zlen data + 2 <= recoveries es ->
      tf_read t = data /\ ByteStream_eof (TCPReceiver_stream_out (tf_receiver t)) = true /\
      TCPSender_in_fin_acked (tf_sender t) = true).
Proof.
  intros Hisn Hdata Hscap Hrto Hrcap Hes.
  destruct (tf_run_ok es [] _ (transfer_new_ok data scap rto fixed random rcap Hisn Hdata Hscap Hrto Hrcap) Hes) as (t & W & E & HT & Hd & Hle).
  change (acked (transfer_new _ _ _)) with 0 in Hle. cbn [tf_data transfer_new] in Hd, Hle. exists t. split; [done|]. split.
  - rewrite <- Hd. by apply (read_prefix W).
  - intros Hn. pose proof (acked_bound W t HT). rewrite <- Hd. apply (acked_complete W); [done|]. rewrite Hd in *. lia.
Qed.

(** The SYN is lost, its retransmission is answered but the answer is lost, old
    segments arrive again, time passes. *)
Definition lossy_schedule : list event :=
  [ev_write; ev_tick 1000; ev_arrive 1; ev_answer_lost; ev_recover; ev_arrive 0; ev_write; ev_tick 500; ev_recover;
   ev_answer; ev_recover; ev_arrive 3; ev_arrive 2; ev_answer_lost; ev_tick 70000; ev_recover; ev_recover].

Lemma lossy_transfer_completes_witness :
  exists t, tf_run lossy_schedule (transfer_new [1; 2; 3] (TCPSender_new 2 1000 (Some (MkWrappingInt32 7)) 0) 2) = Ok t /\
    tf_read t = [1; 2; 3] /\ ByteStream_eof (TCPReceiver_stream_out (tf_receiver t)) = true /\
    TCPSender_in_fin_acked (tf_sender t) = true.
Proof.
  destruct (lossy_transfer_completes [1; 2; 3] 2 1000 (Some (MkWrappingInt32 7)) 0 2 lossy_schedule) as (t & E & _ & H).
  - split; simpl; lia.
  - vm_compute. congruence.
  - lia.
  - lia.
  - unfold index_limit. lia.
  - repeat apply Forall_cons_2; try exact I; try apply Forall_nil_2; split; reflexivity || (vm_compute; congruence).
  - exists t. split; [exact E|]. apply H. vm_compute. congruence.
Defined.
