(* ===== verification/Flows.v ===== *)
(** Two connections that hand each other their segments without losses (src/libsponge/
    tcp_connection.cc): how one direction of the traffic advances when a whole batch
    of segments arrives, in any order, before anything is read.

    A sender moves by acknowledgments and by filling its window; [moved] says what
    that does to the segments outstanding and to the clock.  A [half] is one
    direction, a sender and the receiver at the other end; [half_arrive] and
    [half_moved] are its steps, [ends_receive] puts the halves together into what
    [TCPConnection::segment_received] does to an endpoint, and [conn_writes],
    [conn_ends] and [conn_ticks] are what its owner does. *)

From S2P Require Import Prelude WrappingIntegers Buffers ByteStreams StreamReassemblers Parsers TCPSegments.
From S2P Require Import TCPReceivers TCPSenders TCPConnections EndToEnd Recovery.

(** ** How a sender moves *)

(** A segment as the sender builds it: neither acknowledging nor resetting. *)
Definition plain (seg : TCPSegment) : Prop := th_ack (ts_header seg) = false /\ th_rst (ts_header seg) = false.

(** What every assignment of [fill_window] keeps, [fill_window] keeps. *)
Section fill.
Context (P : TCPSender -> Prop).
Context (P_stream : forall s st, P s -> P (TCPSender_set_stream s st)).
Context (P_fined : forall s f, P s -> P (TCPSender_set_fined s f)).
Context (P_send : forall s b, tb_ack b = false -> tb_rst b = false -> P s -> P (TCPSender_send s b)).

Lemma fill_loop_keeps fuel s b x y s' :
  tb_ack b = false -> tb_rst b = false -> P s -> fill_loop fuel s b x y = Ok s' -> P s'.
Proof.
  revert s b x y. induction fuel as [|fuel IH]; intros s b x y Ha Hr Hs; simpl; [done|].
  destruct (_ && _); [|by intros [= <-]]. destruct (ByteStream_read _ _) as [[st payload]|]; cbn [mbind result_bind]; [|done].
  destruct (bool_decide _ && _); [intros [= <-]; auto|].
  destruct (negb _ && _); [apply IH; auto|]. destruct (ByteStream_eof _); [|apply IH; auto].
  destruct (_ <? _); [apply IH; auto|]. destruct (_ <? _); apply IH; auto.
Qed.

Lemma fill_window_keeps s s' : P s -> TCPSender_fill_window s = Ok s' -> P s'.
Proof.
  intros Hs. unfold TCPSender_fill_window. destruct (TCPSender_in_closed s); [intros [= <-]; auto|].
  by apply fill_loop_keeps.
Qed.
End fill.

Lemma fill_window_plain s s' : TCPSender_fill_window s = Ok s' ->
  Forall plain (sd_segments_pending s) -> Forall plain (sd_segments_pending s').
Proof.
  intros E Hp. revert Hp E. apply (fill_window_keeps (fun s => Forall plain (sd_segments_pending s))); try done. intros s1 b Ha Hr H. rewrite TCPSender_send_eq. simpl.
  apply Forall_app. split; [done|]. destruct (0 <? _); [|apply Forall_nil_2]. by apply Forall_singleton.
Qed.

(** The timer runs on, or starts afresh. *)
Lemma fill_window_clock s s' : TCPSender_fill_window s = Ok s' ->
  (rt_running (sd_timer s) = true -> sd_timer s' = sd_timer s) /\
  (rt_running (sd_timer s) = false -> rt_running (sd_timer s') = true -> rt_time_elapsed (sd_timer s') = 0).
Proof.
  intros E. apply (fill_window_keeps (fun s1 => (rt_running (sd_timer s) = true -> sd_timer s1 = sd_timer s) /\
    (rt_running (sd_timer s) = false -> rt_running (sd_timer s1) = true -> rt_time_elapsed (sd_timer s1) = 0))) in E; try done.
  - intros s1 b _ _ [H1 H2]. rewrite TCPSender_send_eq. simpl. destruct ((0 <? _) && _) eqn:Ec; [|done]. b2p. simpl. split; [|done].
    intros Hr. rewrite (H1 Hr) in *. congruence.
  - split; [done|]. congruence.
Qed.

(** [s] has become [s'] and has sent [new]; the stream may have been given more. *)
Record moved (W : bytes) (s s' : TCPSender) (new : list TCPSegment) : Prop := {
  mv_le : sender_le s s';
  mv_left : sd_receiver_window_left s <= sd_receiver_window_left s';
  mv_initial : sd_initial_retransmission_timeout s' = sd_initial_retransmission_timeout s;
  mv_sent : Forall (sent_by W s') new /\ Forall (fun seg => 0 < seg_len seg) new;
  mv_none : sd_next_seqno s' = sd_next_seqno s -> new = [];
  mv_pending : forall seg, seg ∈ sd_segments_pending s' -> seg ∈ sd_segments_pending s \/ seg ∈ new;
  mv_plain : Forall plain (sd_segments_pending s) -> Forall plain (sd_segments_pending s') /\ Forall plain new;
  mv_same : sd_receiver_window_left s' = sd_receiver_window_left s ->
    sd_segments_pending s' = sd_segments_pending s ++ new /\
    sd_retransmission_timeout s' = sd_retransmission_timeout s /\
    sd_consecutive_retransmissions s' = sd_consecutive_retransmissions s;
  mv_on : sd_receiver_window_left s < sd_receiver_window_left s' ->
    sd_retransmission_timeout s' = sd_initial_retransmission_timeout s /\ sd_consecutive_retransmissions s' = 0;
  mv_start : sd_segments_pending s' <> [] ->
    sd_receiver_window_left s < sd_receiver_window_left s' \/ sd_segments_pending s = [] -> rt_time_elapsed (sd_timer s') = 0;
  mv_keep : sd_receiver_window_left s' = sd_receiver_window_left s -> sd_segments_pending s <> [] -> sd_timer s' = sd_timer s
}.

Lemma moved_refl W s : moved W s s [].
Proof. split; try done; try lia; auto; [by rewrite app_nil_r|]. intros Hp [H|H]; [lia|done]. Qed.

Lemma sent_by_all W s s' l : sender_le s s' -> Forall (sent_by W s) l -> Forall (sent_by W s') l.
Proof. intros Hle Hl. eapply Forall_impl; [exact Hl|]. intros seg. by apply sent_by_le. Qed.

Lemma moved_trans W s1 s2 s3 l k : moved W s1 s2 l -> moved W s2 s3 k -> moved W s1 s3 (l ++ k).
Proof.
  intros [A1 A2 A3 [A41 A42] A5 A6 A7 A8 A9 A10 A11] [B1 B2 B3 [B41 B42] B5 B6 B7 B8 B9 B10 B11]. pose proof (le_next _ _ A1). pose proof (le_next _ _ B1).
  split; [by etrans|lia|congruence| | | | | | | |].
  - split; apply Forall_app; [|done]. split; [by eapply sent_by_all|done].
  - intros E. by rewrite A5, B5 by lia.
  - intros seg H1. rewrite elem_of_app. destruct (B6 seg H1) as [H2|H2]; [|by auto]. destruct (A6 seg H2); auto.
  - intros Hp. destruct (A7 Hp) as [P1 P2]. destruct (B7 P1). split; [done|by apply Forall_app].
  - intros E. destruct A8 as (E1 & E2 & E3); [lia|]. destruct B8 as (F1 & F2 & F3); [lia|].
    rewrite F1, E1, app_assoc. split_and!; congruence.
  - intros Hlt. rewrite <- A3. destruct (Z.eq_dec (sd_receiver_window_left s3) (sd_receiver_window_left s2)) as [E|E].
    + destruct (B8 E) as (_ & -> & ->). rewrite A3. apply A9. lia.
    + apply B9. lia.
  - intros Hp Hcase. destruct (Z.eq_dec (sd_receiver_window_left s3) (sd_receiver_window_left s2)) as [E|E]; [|apply B10; [done|left; lia]].
    destruct (decide (sd_segments_pending s2 = [])) as [Hn|Hn]; [apply B10; auto|]. rewrite B11 by done. apply A10; [done|].
    destruct Hcase; [left; lia|by right].
  - intros E Hp. rewrite B11, A11; try done; try lia. destruct A8 as (-> & _); [lia|]. intros [Hnil _]%app_eq_nil. done.
Qed.

(** The window is filled. *)
Lemma fill_moved data W s : sender_side data W s -> 1 <= sd_next_seqno s ->
  exists s' new, TCPSender_fill_window s = Ok s' /\ sender_side data W s' /\ moved W s s' new /\ sender_full s' /\
    sd_segments_out s' = sd_segments_out s ++ new /\ sd_receiver_window_left s' = sd_receiver_window_left s /\
    sd_receiver_window_right s' = sd_receiver_window_right s /\ bs_input_ended (sd_stream s') = bs_input_ended (sd_stream s).
Proof.
  intros Hs Hn. destruct (fill_side data W s Hs) as (s' & new & E & Hf & Hs' & Hle & Hfull & _).
  pose proof (fl_frame _ _ _ _ Hf) as Fr. unfold sender_frame in Fr. injection Fr as _ Ei _ _ El Er Et Ec _ Ee _.
  exists s', new. split_and!; try done; [|auto|apply Hf]. destruct (fill_window_clock s s' E) as [K1 K2].
  pose proof (fl_pending _ _ _ _ Hf) as Hp. pose proof (sc_timer _ _ (sx_core _ _ _ Hs)) as [T1 _].
  pose proof (sc_timer _ _ (sx_core _ _ _ Hs')) as [T1' _].
  split; try done; [lia| | | | |lia| |].
  - split; [|by eapply sent_chain_pos, Hf]. pose proof (proj2 (sc_sent _ _ (sx_core _ _ _ Hs'))) as Hsent.
    rewrite Hp in Hsent. by apply Forall_app in Hsent as [_ Hsent].
  - intros En. pose proof (fl_chain _ _ _ _ Hf) as Hch. destruct new as [|seg new]; [done|]. destruct Hch as (_ & H1 & H2).
    apply sent_chain_le in H2. lia.
  - intros seg. by rewrite Hp, elem_of_app.
  - intros Hpl. pose proof (fill_window_plain s s' E Hpl) as Hpl'. split; [done|]. rewrite Hp in Hpl'. by apply Forall_app in Hpl' as [_ Hpl'].
  - intros Hne [H|H]; [lia|]. rewrite bool_decide_true in T1' by done. apply K2; [|done]. rewrite T1. apply bool_decide_false. intros Hne2. by apply Hne2.
  - intros _ Hne. apply K1. rewrite T1. by apply bool_decide_true.
Qed.

(** An acknowledgment comes in, before the window is filled. *)
Lemma acked_side data W s (zero : bool) size a : sender_side data W s -> 1 <= sd_next_seqno s ->
  sd_receiver_window_left s < a -> a <= sd_next_seqno s -> sd_next_seqno s <= a + size -> 1 <= size < 2 ^ 16 ->
  let s1 := acked_sender s zero size a in
  sender_side data W s1 /\ moved W s s1 [] /\ sd_receiver_window_right s1 = a + size.
Proof.
  intros [X1 X2 [base X3] X4 [T1 T2 T3] X6 X7 X8] Hn Hla Han Hkeep Hsz s1. pose proof (sender_pos_range W s X1 X2) as Hr.
  destruct (acked_in_flight W s base zero size a X1 X2 Hn X3 Hla Han Hkeep Hsz) as (Hc & Hp & HI). fold s1 in Hc, Hp, HI.
  assert (sd_receiver_window_right s1 = a + size) as Er by (simpl; rewrite u64_small; lia).
  assert (forall seg, seg ∈ pop_acked (sd_isn s) a (sd_segments_pending s) -> seg ∈ sd_segments_pending s) as Hsub.
  { intros seg Hin. destruct (pop_acked_suffix (sd_isn s) a (sd_segments_pending s)) as [k Hk]. rewrite Hk. apply elem_of_app. by right. }
  assert (sd_segments_pending s1 <> [] -> sd_timer s1 = MkRetransmissionTimer (sd_initial_retransmission_timeout s) 0 true) as Ht.
  { intros Hne. unfold s1, acked_sender, acked_timer. simpl in *. by rewrite bool_decide_true. }
  split_and!; [| |done].
  - split; try done; [simpl sd_receiver_window_left; lia|]. split; simpl; [done..|]. unfold acked_timer.
    destruct (bool_decide _); intros H; simpl in *; [lia|done].
  - split; simpl; try done; [lia|by auto| |lia| |lia].
    + intros Hpl. split; [|apply Forall_nil_2]. rewrite Forall_forall in Hpl |- *. auto.
    + intros Hne _. simpl in Ht. by rewrite Ht.
Qed.

(** ... or it only opens the window, or is old. *)
Lemma window_side data W s (zero : bool) size left right : sender_side data W s ->
  left = sd_receiver_window_left s -> sd_next_seqno s <= right -> left < right <= left + 65535 ->
  let s1 := TCPSender_set_window (TCPSender_set_zero_window s zero) size left right in
  sender_side data W s1 /\ moved W s s1 [].
Proof.
  intros [X1 X2 [base [I1 I2 I3 I4 I5]] X4 [T1 T2 T3] X6 X7 X8] -> Hn Hw s1. pose proof (sc_window _ _ X1) as [Hw1 Hw2].
  pose proof (sender_pos_range W s X1 X2) as Hr. split.
  - split; try done; [|by destruct X2| |simpl; lia].
    + apply (sender_core_acked W s); try done; [lia|by exists []|apply X1].
    + exists base. split; simpl; try done; lia.
  - split; simpl; try done; try lia; auto; [by rewrite app_nil_r|]. intros Hne [H|H]; [lia|done].
Qed.

(** What [segment_received] does with an acknowledgment. *)
Lemma ack_moved data W s ackno win a : sender_side data W s -> 1 <= sd_next_seqno s -> good_ack s ackno win a ->
  exists s' new, (s ← TCPSender_ack_received s ackno win; TCPSender_fill_window s) = Ok s' /\
    sender_side data W s' /\ moved W s s' new /\ sender_full s' /\ sd_segments_out s' = sd_segments_out s ++ new /\
    sd_receiver_window_left s' = Z.max (sd_receiver_window_left s) a /\
    sd_receiver_window_right s' = (if sd_receiver_window_left s <=? a then a + Z.max 1 win else sd_receiver_window_right s) /\
    bs_input_ended (sd_stream s') = bs_input_ended (sd_stream s).
Proof.
  intros Hs Hn [G1 G2 G3 G4 G5]. pose proof Hs as [X1 X2 [base X3] X4 X5 X6 X7 X8]. pose proof (sender_pos_range W s X1 X2) as Hr.
  pose proof (if_window _ _ _ X3) as Hiw. pose proof (sc_window _ _ X1) as [Hw1 Hw2]. pose proof (if_size _ _ _ X3) as Hisz.
  rewrite ack_received_eq. cbn zeta. rewrite (unwrap_near _ _ _ a (sc_isn _ _ X1)); [|unfold seq_limit; lia|lia|exact G1|lia].
  set (size := if win =? 0 then 1 else win).
  assert (1 <= size < 2 ^ 16 /\ size = Z.max 1 win) as [Hsz Hsz'] by (unfold size; destruct (Z.eqb_spec win 0); lia).
  rewrite (proj2 (Z.ltb_ge (sd_receiver_window_right s) a)) by lia. rewrite <- Hsz'.
  destruct (Z.ltb_spec (sd_receiver_window_left s) a) as [Hla|Hla].
  { destruct (acked_side data W s (win =? 0) size a) as (Hs1 & M1 & E1); try done; try lia. set (s1 := acked_sender s _ size a) in *.
    destruct (fill_moved data W s1 Hs1 Hn) as (s2 & n2 & E2 & Hs2 & M2 & _ & O2 & L2 & R2 & N2). rewrite E2. cbn [mbind result_bind].
    pose proof (le_next _ _ (mv_le _ _ _ _ M2)). change (sd_next_seqno s1) with (sd_next_seqno s) in *.
    destruct (fill_moved data W s2 Hs2 ltac:(lia)) as (s3 & n3 & E3 & Hs3 & M3 & F3 & O3 & L3 & R3 & N3).
    exists s3, (n2 ++ n3). rewrite N3, N2, O3, O2, L3, L2, R3, R2, E1, app_assoc. change (sd_receiver_window_left s1) with a.
    rewrite (proj2 (Z.leb_le (sd_receiver_window_left s) a)) by lia. split_and!; try done; [|lia].
    apply (moved_trans _ _ s1 _ [] _); [done|]. by eapply moved_trans. }
  assert (exists s1, (if a =? sd_receiver_window_left s
      then Ok (TCPSender_set_window (TCPSender_set_zero_window s (win =? 0)) size a (u64 (a + size)))
      else Ok (TCPSender_set_zero_window s (win =? 0))) = Ok s1 /\ sender_side data W s1 /\ moved W s s1 [] /\
    sd_next_seqno s1 = sd_next_seqno s /\ sd_segments_out s1 = sd_segments_out s /\
    sd_receiver_window_left s1 = sd_receiver_window_left s /\
    sd_receiver_window_right s1 = (if sd_receiver_window_left s <=? a then a + size else sd_receiver_window_right s) /\
    bs_input_ended (sd_stream s1) = bs_input_ended (sd_stream s)) as (s1 & -> & Hs1 & M1 & N1 & O1 & L1 & R1 & I1).
  { destruct (Z.eqb_spec a (sd_receiver_window_left s)) as [->|Hne]; eexists; (split; [done|]).
    - destruct (window_side data W s (win =? 0) size (sd_receiver_window_left s) (u64 (sd_receiver_window_left s + size)))
        as [Hs1 M1]; try done; [rewrite u64_small; lia..|].
      rewrite Z.leb_refl. split_and!; try done. simpl. rewrite u64_small; lia.
    - destruct (window_side data W s (win =? 0) (sd_receiver_window_size s) (sd_receiver_window_left s) (sd_receiver_window_right s))
        as [Hs1 M1]; try done; [lia..|].
      rewrite (proj2 (Z.leb_gt (sd_receiver_window_left s) a)) by lia. by split_and!. }
  cbn [mbind result_bind]. destruct (fill_moved data W s1 Hs1 ltac:(lia)) as (s2 & n2 & E2 & Hs2 & M2 & F2 & O2 & L2 & R2 & N2).
  exists s2, n2. rewrite N2, I1, O2, O1, L2, L1, R2, R1. split_and!; try done; [|lia]. by apply (moved_trans _ _ s1 _ [] _).
Qed.

(** ** One direction *)

(** A sender that has opened its connection, and the receiver at the other end. *)
Record half (data W acc : bytes) (s : TCPSender) (r : TCPReceiver) : Prop := {
  hf_limit : zlen data <= stream_limit;
  hf_side : sender_side data W s;
  hf_syn : 1 <= sd_next_seqno s;
  hf_out : sd_segments_out s = [];
  hf_plain : Forall plain (sd_segments_pending s);
  hf_full : sender_full s;
  hf_received : receiving (sent_part W s) s r acc;
  hf_capacity : 1 <= sr_capacity (tr_reassembler r) <= 65535;
  hf_left : sd_receiver_window_left s <= rack r
}.

Lemma side_next data W s : sender_side data W s -> zlen W <= zlen data /\ sd_next_seqno s <= zlen data + 2.
Proof.
  intros [Hc Hp _ _ _ _ [rest ->] _]. rewrite zlen_app. pose proof (zlen_nonneg rest). pose proof (sc_read _ _ Hc).
  pose proof (zlen_nonneg W). pose proof (b2z_range (sd_fined s)). destruct (sp_next _ _ Hp) as [(E & _)|E]; lia.
Qed.

Lemma half_rack data W acc s r : half data W acc s r -> rack r <= sd_next_seqno s.
Proof. intros H. eapply received_rack; try apply H. Qed.

(** The edge that the receiver announces; a closed window counts as one. *)
Definition tip (r : TCPReceiver) : Z := Z.max (rack r + 1) (reach r).

Lemma half_announced data W acc s r : half data W acc s r -> tr_sender_isn r <> None ->
  0 <= TCPReceiver_window_size r <= sr_capacity (tr_reassembler r) /\ TCPReceiver_window_size r = reach r - rack r.
Proof.
  intros H Hi. pose proof (rv_wf _ _ _ _ (hf_received _ _ _ _ _ H)) as Hwf. pose proof (sw_read _ Hwf) as R. pose proof (hf_capacity _ _ _ _ _ H).
  unfold TCPReceiver_window_size, rack, reach, TCPReceiver_stream_out, StreamReassembler_stream_out in *.
  rewrite ByteStream_remaining_capacity_eq by apply Hwf. pose proof (bs_wf_fits _ (sw_output _ Hwf)).
  pose proof (zlen_nonneg (bs_contents (sr_output (tr_reassembler r)))).
  rewrite (proj1 (sw_capacity _ Hwf)) in *. destruct (tr_sender_isn r); [|done]. lia.
Qed.

(** Two segments at the same place. *)
Definition alike (seg seg' : TCPSegment) : Prop :=
  th_seqno (ts_header seg) = th_seqno (ts_header seg') /\ seg_len seg = seg_len seg'.

Lemma half_arrive data W acc s r seg :
  half data W acc s r -> sd_receiver_window_right s <= reach r -> sent_by W s seg ->
  exists r', TCPReceiver_segment_received r seg = Ok r' /\ half data W acc s r' /\ rack r <= rack r' /\ reach r <= reach r' /\
    bs_bytes_read (TCPReceiver_stream_out r') = bs_bytes_read (TCPReceiver_stream_out r) /\
    sr_capacity (tr_reassembler r') = sr_capacity (tr_reassembler r) /\
    (forall h rest, sd_segments_pending s = h :: rest -> alike seg h -> sd_receiver_window_left s < rack r').
Proof.
  intros [H1 H2 H3 H4 H5 H6 H7 H8 H9] Hroom (a & Hs & Hle & Hfin). pose proof H2 as [Hc Hp [base HI] Hw Ht Hcap Hpre He].
  destruct (side_next _ _ _ H2) as [HW Hnext]. pose proof (if_window _ _ _ HI) as Hiw. pose proof (sc_read _ _ Hc) as Hrd.
  pose proof (seg_len_nonneg seg) as Hl. unfold stream_limit in *. pose proof (ss_abs _ _ _ _ Hs) as Ha0.
  destruct (arrive_segment (sent_part W s) s r acc seg a) as (r' & E & Hr' & T1 & T2 & T3 & T4 & T5 & T6);
    [apply Hc|rewrite sent_part_len by done; unfold stream_limit; lia|done|by apply sent_part_segment|done|lia|lia|].
  exists r'. split_and!; try done; [split; try done; [by rewrite T1|lia]|lia|].
  intros h rest Hpend [E1 E2]. pose proof (if_head _ _ _ HI) as Hh. rewrite Hpend in Hh. pose proof (if_chain _ _ _ HI) as Hch. rewrite Hpend in Hch.
  destruct Hch as (Hs2 & _). pose proof (if_base _ _ _ HI) as Hb.
  rewrite (sent_place _ _ _ _ _ _ _ (sc_isn _ _ Hc) Hs Hs2 E1) in T6 by lia. specialize (T6 ltac:(lia)). lia.
Qed.

(** The sender has moved, and what it queued has been taken. *)
Lemma half_moved data W d acc s s' r : half data W acc s r -> sender_side data (W ++ d) s' -> sender_le s s' ->
  (sd_fined s = true -> d = []) -> sd_segments_out s' = [] -> Forall plain (sd_segments_pending s') -> sender_full s' ->
  sd_receiver_window_left s' <= rack r -> half data (W ++ d) acc s' r.
Proof.
  intros [H1 H2 H3 H4 H5 H6 H7 H8 H9] Hs Hle Hd Ho Hp Hf Hl. pose proof (le_next _ _ Hle).
  split; try done; [lia|]. apply (receiving_moves W d s); try done; try apply H2; apply Hs.
Qed.

Lemma moved_drain W s s' new : moved W s s' new -> moved W s (TCPSender_set_segments_out s' []) new.
Proof.
  intros [[L1 L2 L3] M2 M3 [M4 M5] M6 M7 M8 M9 M10 M11 M12]. by split.
Qed.

(** ** The segments of a connection *)

(** What a segment acknowledges. *)
Definition answer (seg : TCPSegment) : list (WrappingInt32 * Z) :=
  if th_ack (ts_header seg) then [(th_ackno (ts_header seg), th_win (ts_header seg))] else [].

Definition answers : list TCPSegment -> list (WrappingInt32 * Z) := flat_map answer.

(** A segment of [s] that goes out from a connection with the receiver [r']. *)
Definition stamped (r' : TCPReceiver) (seg : TCPSegment) : TCPSegment := stamp_segment r' false seg.

Lemma stamped_alike r' seg : alike (stamped r' seg) seg /\ ts_payload (stamped r' seg) = ts_payload seg /\
  th_syn (ts_header (stamped r' seg)) = th_syn (ts_header seg) /\ th_rst (ts_header (stamped r' seg)) = th_rst (ts_header seg) /\
  seg_len (stamped r' seg) = seg_len seg.
Proof.
  unfold stamped, stamp_segment, alike, seg_len. by destruct (TCPReceiver_ackno r'), (char16_max <? TCPReceiver_window_size r').
Qed.

Lemma stamped_sent W s r' seg : sent_by W s seg -> sent_by W s (stamped r' seg).
Proof. intros H. by apply (stamp_on_wire W s r' false). Qed.

(** It carries what the receiver has and has room for. *)
Lemma stamped_answer data W acc s r' seg : half data W acc s r' -> plain seg ->
  answer (stamped r' seg) = match tr_sender_isn r' with Some _ => [(wrap (rack r') (sd_isn s), reach r' - rack r')] | None => [] end.
Proof.
  intros Hh [Hack Hrst]. unfold answer, stamped, stamp_segment. rewrite (ackno_rack _ _ _ _ (hf_received _ _ _ _ _ Hh)).
  destruct (tr_sender_isn r') eqn:Ei.
  - destruct (half_announced _ _ _ _ _ Hh ltac:(congruence)) as [Hw <-]. unfold char16_max. pose proof (hf_capacity _ _ _ _ _ Hh).
    destruct (Z.ltb_spec 65535 (TCPReceiver_window_size r')); [lia|]. simpl. rewrite u16_small by lia. done.
  - destruct (char16_max <? _); simpl; by rewrite Hack.
Qed.

(** The answer to a segment that is not empty. *)
Definition reply_segment (s : TCPSender) : TCPSegment :=
  build_segment (with_seqno (TCPSender_next_seqno s) TCPSegmentBuilder_default).

Lemma reply_ok W s : sender_core W s -> sender_pos W s ->
  TCPSender_send_empty_segment s = TCPSender_set_segments_out s (sd_segments_out s ++ [reply_segment s]) /\
  sent_by W s (reply_segment s) /\ plain (reply_segment s) /\ Buffer_str (ts_payload (reply_segment s)) = [] /\ seg_len (reply_segment s) = 0.
Proof.
  intros Hc Hp. destruct (send_empty_ok W s Hc Hp) as (seg & E & Hc' & _).
  assert (seg = reply_segment s) as ->.
  { apply (f_equal sd_segments_out) in E. unfold TCPSender_send_empty_segment in E. rewrite TCPSender_send_eq in E.
    cbn [sd_segments_out TCPSender_set_segments_out] in E. apply app_inv_head in E. by injection E as <-. }
  split_and!; try done. rewrite E in Hc'. destruct (sc_sent _ _ Hc') as [Hs _]. simpl in Hs. apply Forall_app in Hs as [_ Hs].
  by apply Forall_cons in Hs as [Hs _].
Qed.

(** Whether a segment is passed over by [segment_received]. *)
Definition ignored (c : TCPConnection) (seg : TCPSegment) : bool :=
  TCPReceiver_in_listen (cn_receiver c) && negb (th_syn (ts_header seg)) ||
  TCPSender_in_syn_sent (cn_sender c) && th_ack (ts_header seg) && (0 <? Buffer_size (ts_payload seg)).

Lemma conn_ignored c seg : th_rst (ts_header seg) = false -> ignored c seg = true ->
  TCPConnection_segment_received c seg = Ok (TCPConnection_set_times c 0 (cn_time_done c)).
Proof.
  unfold ignored, TCPConnection_segment_received. intros -> H. cbn [cn_receiver cn_sender TCPConnection_set_times].
  destruct (_ && negb _); [done|]. simpl in H. by rewrite H.
Qed.

(** What is left of the sender, the queue and the clocks when a segment has been
    received. *)
Record answered (data W : bytes) (c c' : TCPConnection) (r' : TCPReceiver) (seg : TCPSegment) (new : list TCPSegment) : Prop := {
  an_receiver : cn_receiver c' = r';
  an_side : sender_side data W (cn_sender c');
  an_drained : sd_segments_out (cn_sender c') = [];
  an_moved : moved W (cn_sender c) (cn_sender c') new;
  an_full : sender_full (cn_sender c');
  an_ended : bs_input_ended (sd_stream (cn_sender c')) = bs_input_ended (sd_stream (cn_sender c));
  an_queue : cn_segments_out c' = cn_segments_out c ++
    map (stamped r') (new ++ if 0 <? seg_len seg then [reply_segment (cn_sender c')] else []);
  an_rst : cn_rst_set c' = false;
  an_cfg : cn_cfg c' = cn_cfg c;
  an_time : cn_time_since_last_segment_received c' = 0;
  an_done : cn_time_done c' = cn_time_done c \/ cn_time_done c' = Some 0
}.

(** The last steps of [segment_received]. *)
Lemma finish_same c : let c' := TCPConnection_check_done
    (if ByteStream_eof (TCPReceiver_stream_out (cn_receiver c)) && negb (ByteStream_eof (TCPSender_stream_in (cn_sender c)))
     then TCPConnection_set_linger c false else c) in
  cn_receiver c' = cn_receiver c /\ cn_sender c' = cn_sender c /\ cn_segments_out c' = cn_segments_out c /\
  cn_rst_set c' = cn_rst_set c /\ cn_cfg c' = cn_cfg c /\
  cn_time_since_last_segment_received c' = cn_time_since_last_segment_received c /\
  (cn_time_done c' = cn_time_done c \/ cn_time_done c' = Some (cn_time_since_last_segment_received c)).
Proof. unfold TCPConnection_check_done. destruct (_ && _), (_ && _); split_and!; try done; auto. Qed.

Lemma conn_receive data W c seg r' a :
  let s := cn_sender c in
  sender_side data W s -> 1 <= sd_next_seqno s -> sd_segments_out s = [] -> sender_full s -> cn_rst_set c = false ->
  th_rst (ts_header seg) = false -> ignored c seg = false -> TCPSegment_length_in_sequence_space seg = seg_len seg ->
  TCPReceiver_segment_received (cn_receiver c) seg = Ok r' ->
  (th_ack (ts_header seg) = true -> good_ack s (th_ackno (ts_header seg)) (th_win (ts_header seg)) a) ->
  exists c' new, TCPConnection_segment_received c seg = Ok c' /\ answered data W c c' r' seg new /\
    sd_receiver_window_left (cn_sender c') =
      (if th_ack (ts_header seg) then Z.max (sd_receiver_window_left s) a else sd_receiver_window_left s) /\
    sd_receiver_window_right (cn_sender c') =
      (if th_ack (ts_header seg) && (sd_receiver_window_left s <=? a) then a + Z.max 1 (th_win (ts_header seg))
       else sd_receiver_window_right s).
Proof.
  intros s Hs Hn Ho Hf Hrst Hr Hig Hlen Hrcv Hack. unfold TCPConnection_segment_received.
  cbn [cn_receiver cn_sender TCPConnection_set_times TCPConnection_set_receiver]. fold s. apply orb_false_elim in Hig as [-> I2].
  fold s in I2. rewrite Hr, I2, Hrcv. cbn [mbind result_bind]. unfold TCPSender_next_seqno_absolute. rewrite (proj2 (Z.ltb_lt 0 (sd_next_seqno s))) by lia.
  rewrite andb_true_r.
  set (c1 := TCPConnection_set_receiver _ r').
  assert (exists s' new, (if th_ack (ts_header seg) then
       sender ← TCPSender_ack_received s (th_ackno (ts_header seg)) (th_win (ts_header seg));
       sender ← TCPSender_fill_window sender; Ok (TCPConnection_set_sender c1 sender) else Ok c1) = Ok (TCPConnection_set_sender c1 s') /\
    sender_side data W s' /\ moved W s s' new /\ sender_full s' /\ sd_segments_out s' = new /\
    sd_receiver_window_left s' = (if th_ack (ts_header seg) then Z.max (sd_receiver_window_left s) a else sd_receiver_window_left s) /\
    sd_receiver_window_right s' = (if th_ack (ts_header seg) && (sd_receiver_window_left s <=? a) then a + Z.max 1 (th_win (ts_header seg))
       else sd_receiver_window_right s) /\ bs_input_ended (sd_stream s') = bs_input_ended (sd_stream s))
    as (s' & new & -> & Hs' & M & Hf' & Ho' & L & R & N).
  { destruct (th_ack (ts_header seg)).
    - destruct (ack_moved data W s _ _ a Hs Hn (Hack eq_refl)) as (s' & new & E & Hs' & M & F & O & L & R & N).
      exists s', new. rewrite Ho in O. split_and!; try done. destruct (TCPSender_ack_received s _ _) as [s1|]; [|done].
      cbn [mbind result_bind] in *. by rewrite E.
    - exists s, []. split_and!; try done. apply moved_refl. }
  cbn [mbind result_bind cn_sender TCPConnection_set_sender]. pose proof (le_next _ _ (mv_le _ _ _ _ M)).
  rewrite (proj2 (Z.eqb_neq (sd_next_seqno s') 0)), (proj2 (Z.ltb_lt 0 (sd_next_seqno s'))), andb_false_r, andb_true_r, Hlen by lia.
  destruct (reply_ok W s') as (Er & _); [apply Hs'..|].
  set (c3 := if 0 <? seg_len seg then Ok _ else Ok _).
  assert (exists s3, c3 = Ok (TCPConnection_set_sender c1 s3) /\ sd_segments_out s3 = new ++ (if 0 <? seg_len seg then [reply_segment s'] else []) /\
    TCPSender_set_segments_out s3 [] = TCPSender_set_segments_out s' []) as (s3 & -> & O3 & D3).
  { unfold c3. destruct (0 <? seg_len seg); eexists; (split; [done|]).
    - rewrite Er. simpl. by rewrite Ho'.
    - by rewrite app_nil_r. }
  cbn [mbind result_bind]. eexists _, new. split; [done|].
  set (c4 := TCPConnection_send_outbound_segments _). destruct (finish_same c4) as (F1 & F2 & F3 & F4 & F5 & F6 & F7).
  assert (cn_sender c4 = TCPSender_set_segments_out s' []) as S4 by exact D3.
  pose proof (eq_trans F2 S4) as F2'. clear F2. split_and!; [|rewrite F2'; exact L|rewrite F2'; exact R]. split; rewrite ?F1, ?F2', ?F3, ?F4, ?F5, ?F6; try done.
  - by apply sender_side_drain.
  - by apply moved_drain.
  - simpl. by rewrite O3, Hrst.
Qed.

(** ** A connection in the middle of a batch *)

Definition silent (seg : TCPSegment) : Prop := seg_len seg = 0.

(** [c] has received [segs] and has become [c']. *)
Record went (W : bytes) (segs : list TCPSegment) (c c' : TCPConnection) : Prop := {
  wn_moved : exists new, moved W (cn_sender c) (cn_sender c') new;
  wn_rack : rack (cn_receiver c) <= rack (cn_receiver c');
  wn_reach : reach (cn_receiver c) <= reach (cn_receiver c');
  wn_read : bs_bytes_read (TCPReceiver_stream_out (cn_receiver c')) = bs_bytes_read (TCPReceiver_stream_out (cn_receiver c));
  wn_capacity : sr_capacity (tr_reassembler (cn_receiver c')) = sr_capacity (tr_reassembler (cn_receiver c));
  wn_queue : exists l, cn_segments_out c' = cn_segments_out c ++ l;
  wn_quiet : sd_next_seqno (cn_sender c') = sd_next_seqno (cn_sender c) ->
    exists l, cn_segments_out c' = cn_segments_out c ++ l /\ Forall silent l /\ (Forall silent segs -> l = []);
  wn_ended : bs_input_ended (sd_stream (cn_sender c')) = bs_input_ended (sd_stream (cn_sender c));
  wn_cfg : cn_cfg c' = cn_cfg c;
  wn_rst : cn_rst_set c' = cn_rst_set c;
  wn_time : cn_time_since_last_segment_received c' = 0 \/
    segs = [] /\ cn_time_since_last_segment_received c' = cn_time_since_last_segment_received c;
  wn_done : cn_time_done c' = cn_time_done c \/ cn_time_done c' = Some 0
}.

Lemma went_refl W c : went W [] c c.
Proof.
  split; try done; auto; [eexists; apply moved_refl|exists []; by rewrite app_nil_r|].
  intros _. exists []. by rewrite app_nil_r.
Qed.

Lemma went_trans W l k c1 c2 c3 : went W l c1 c2 -> went W k c2 c3 -> went W (l ++ k) c1 c3.
Proof.
  intros [[n1 A1] A2 A3 A4 A5 [q1 A6] A7 A8 A9 A10 A11 A12] [[n2 B1] B2 B3 B4 B5 [q2 B6] B7 B8 B9 B10 B11 B12].
  pose proof (le_next _ _ (mv_le _ _ _ _ A1)). pose proof (le_next _ _ (mv_le _ _ _ _ B1)).
  split; try congruence; try lia.
  - eexists. by eapply moved_trans.
  - exists (q1 ++ q2). by rewrite B6, A6, app_assoc.
  - intros E. destruct A7 as (p1 & E1 & S1 & Z1); [lia|]. destruct B7 as (p2 & E2 & S2 & Z2); [lia|].
    exists (p1 ++ p2). rewrite E2, E1, app_assoc. split_and!; [done|by apply Forall_app|].
    intros [Hl Hk]%Forall_app. by rewrite Z1, Z2.
  - destruct B11 as [B|[-> ->]]; [by left|]. destruct A11 as [A|[-> ->]]; [by left|by right].
  - destruct B12 as [->|B]; [done|by right].
Qed.

(** Both directions at one end: [c] receives from [sp] and sends to [rp]. *)
Section receives.
Context (Din Win accin : bytes) (sp : TCPSender) (Dout Wout accout : bytes) (rp : TCPReceiver).

Record ends (c : TCPConnection) : Prop := {
  ed_in : half Din Win accin sp (cn_receiver c);
  ed_room : sd_receiver_window_right sp <= reach (cn_receiver c);
  ed_out : half Dout Wout accout (cn_sender c) rp;
  ed_rst : cn_rst_set c = false
}.

Lemma ends_ignored c seg : ends c -> th_rst (ts_header seg) = false -> ignored c seg = true ->
  let c' := TCPConnection_set_times c 0 (cn_time_done c) in
  TCPConnection_segment_received c seg = Ok c' /\ ends c' /\ went Wout [seg] c c'.
Proof.
  intros [E1 E2 E3 E4] Hr Hi c'. split; [by apply conn_ignored|]. split; [done|].
  split; try done; auto; [eexists; apply moved_refl|exists []; by rewrite app_nil_r|].
  intros _. exists []. by rewrite app_nil_r.
Qed.

Lemma ends_receive c seg a : ends c -> sent_by Win sp seg -> th_rst (ts_header seg) = false -> ignored c seg = false ->
  (th_ack (ts_header seg) = true -> good_ack (cn_sender c) (th_ackno (ts_header seg)) (th_win (ts_header seg)) a /\ a <= rack rp) ->
  exists c' new, TCPConnection_segment_received c seg = Ok c' /\ ends c' /\ went Wout [seg] c c' /\
    answered Dout Wout c c' (cn_receiver c') seg new /\
    sd_receiver_window_left (cn_sender c') =
      (if th_ack (ts_header seg) then Z.max (sd_receiver_window_left (cn_sender c)) a else sd_receiver_window_left (cn_sender c)) /\
    sd_receiver_window_right (cn_sender c') =
      (if th_ack (ts_header seg) && (sd_receiver_window_left (cn_sender c) <=? a) then a + Z.max 1 (th_win (ts_header seg))
       else sd_receiver_window_right (cn_sender c)) /\
    (forall h rest, sd_segments_pending sp = h :: rest -> alike seg h -> sd_receiver_window_left sp < rack (cn_receiver c')).
Proof.
  intros [E1 E2 E3 E4] Hseg Hr Hi Hack. destruct (half_arrive _ _ _ _ _ _ E1 E2 Hseg) as (r' & Er & Hin & A1 & A2 & A3 & A4 & A5).
  pose proof Hseg as (p & Hs & _). pose proof (sent_length _ _ _ _ Hs) as Hlen.
  destruct (conn_receive Dout Wout c seg r' a) as (c' & new & Ec & An & L & R); try apply E3; try done; [by intros H; apply Hack|].
  pose proof (an_receiver _ _ _ _ _ _ _ An) as Erc. pose proof (an_moved _ _ _ _ _ _ _ An) as M.
  exists c', new. rewrite Erc. split_and!; try done.
  - split; rewrite ?Erc; try done; [lia| |apply An]. rewrite <- (app_nil_r Wout) at 1.
    apply (half_moved Dout Wout [] accout (cn_sender c)); rewrite ?app_nil_r; try done; try apply An; [apply E3|].
    pose proof (hf_left _ _ _ _ _ E3). rewrite L. destruct (th_ack (ts_header seg)); [|done]. destruct (Hack eq_refl). lia.
  - split; rewrite ?Erc; try done.
    + by exists new.
    + eexists. apply An.
    + intros Hn. rewrite (an_queue _ _ _ _ _ _ _ An), (mv_none _ _ _ _ M Hn). eexists. split; [done|]. cbn [app].
      destruct (Z.ltb_spec 0 (seg_len seg)) as [Hlt|Hlt]; cbn [map].
      * split; [|intros [H _]%Forall_cons; unfold silent in H; lia]. apply Forall_singleton. unfold silent.
        destruct (stamped_alike r' (reply_segment (cn_sender c'))) as (_ & _ & _ & _ & ->).
        destruct (reply_ok Wout (cn_sender c')) as (_ & _ & _ & _ & ->); [apply An..|done].
      * split; [apply Forall_nil_2|done].
    + apply An.
    + apply An.
    + rewrite (an_rst _ _ _ _ _ _ _ An). by rewrite E4.
    + left. apply An.
    + apply An.
Qed.
End receives.

(** ** Time *)

(** The clock of a sender that retransmits after one second: with nothing outstanding
    it has not backed off. *)
Record clock_ok (s : TCPSender) : Prop := {
  ck_initial : sd_initial_retransmission_timeout s = 1000;
  ck_idle : sd_segments_pending s = [] -> sd_retransmission_timeout s = 1000 /\ sd_consecutive_retransmissions s = 0;
  ck_count : 0 <= sd_consecutive_retransmissions s <= 7;
  ck_timeout : sd_retransmission_timeout s <= 4000
}.

Lemma clock_moved W s s' new : clock_ok s -> moved W s s' new -> clock_ok s'.
Proof.
  intros [K1 K2 K3 K4] M. pose proof (mv_left _ _ _ _ M) as Hl. pose proof (mv_initial _ _ _ _ M) as Hi.
  destruct (Z.eq_dec (sd_receiver_window_left s') (sd_receiver_window_left s)) as [E|E].
  - destruct (mv_same _ _ _ _ M E) as (P1 & P2 & P3). split; rewrite ?P1, ?P2, ?P3; try lia. intros [E1 _]%app_eq_nil. auto.
  - destruct (mv_on _ _ _ _ M) as [P1 P2]; [lia|]. split; rewrite ?P1, ?P2; try lia.
Qed.

(** What a second does: the oldest segment is sent again, or its turn comes nearer. *)
Record ticked (s s' : TCPSender) (again : list TCPSegment) : Prop := {
  ti_again : sd_segments_out s' = again;
  ti_frame : s' = TCPSender_set_segments_out (TCPSender_set_retransmission s (sd_retransmission_timeout s') (sd_timer s')
    (sd_consecutive_retransmissions s')) again;
  ti_idle : sd_segments_pending s = [] -> again = [] /\ sd_retransmission_timeout s' = sd_retransmission_timeout s /\
    sd_consecutive_retransmissions s' = sd_consecutive_retransmissions s;
  ti_head : forall h rest, sd_segments_pending s = h :: rest ->
    sd_retransmission_timeout s <= rt_time_elapsed (sd_timer s) + 1000 /\ again = [h] /\ rt_time_elapsed (sd_timer s') = 0 /\
      sd_retransmission_timeout s' <= 2 * sd_retransmission_timeout s /\
      sd_consecutive_retransmissions s' = sd_consecutive_retransmissions s + 1 \/
    rt_time_elapsed (sd_timer s) + 1000 < sd_retransmission_timeout s /\ again = [] /\
      rt_time_elapsed (sd_timer s') = rt_time_elapsed (sd_timer s) + 1000 /\
      sd_retransmission_timeout s' = sd_retransmission_timeout s /\
      sd_consecutive_retransmissions s' = sd_consecutive_retransmissions s
}.

Lemma tick_ticked data W s : sender_side data W s -> sd_segments_out s = [] -> clock_ok s ->
  exists again, ticked s (TCPSender_tick s 1000) again.
Proof.
  intros Hs Ho [K1 K2 K3 K4]. pose proof (sx_core _ _ _ Hs) as Hc. rewrite (tick_eq W) by done. cbn zeta.
  destruct (sc_timer _ _ Hc) as [T1 T2]. destruct (sx_timer _ _ _ Hs) as [U1 U2 U3]. rewrite Ho. eexists. split; [done|by destruct s| |].
  - intros E. unfold tick_fires. by rewrite E.
  - intros h rest E. unfold tick_fires. rewrite E in *. rewrite bool_decide_true in * by done. rewrite T2 by done.
    specialize (U3 T1). rewrite u64_small by lia. cbn [andb app option_list head].
    destruct (Z.leb_spec (sd_retransmission_timeout s) (rt_time_elapsed (sd_timer s) + 1000)) as [Hle|Hlt]; [left|right].
    + split_and!; try done; [|simpl; rewrite u32_small by lia; done]. simpl. unfold backed_off.
      destruct (sd_zero_window_size s); [lia|]. rewrite u32_small; lia.
    + by split_and!.
Qed.

(** ** What the owner of a connection does *)

(** [c] has become [c'] and has sent [new]; its receiver is not concerned. *)
Record spoke (W : bytes) (c c' : TCPConnection) (new : list TCPSegment) : Prop := {
  sk_moved : moved W (cn_sender c) (cn_sender c') new;
  sk_receiver : cn_receiver c' = cn_receiver c;
  sk_queue : cn_segments_out c' = cn_segments_out c ++ map (stamped (cn_receiver c)) new;
  sk_rst : cn_rst_set c' = cn_rst_set c;
  sk_cfg : cn_cfg c' = cn_cfg c;
  sk_time : cn_time_since_last_segment_received c' = cn_time_since_last_segment_received c;
  sk_done : cn_time_done c' = cn_time_done c \/ cn_time_done c' = Some (cn_time_since_last_segment_received c)
}.

Lemma moved_stream W s st s' new : moved W (TCPSender_set_stream s st) s' new -> moved W s s' new.
Proof. intros [[L1 L2 L3] M2 M3 M4 M5 M6 M7 M8 M9 M10 M11]. by split. Qed.

(** The stream has become [st]; the window is filled and the segments go out. *)
Lemma conn_fills data W d acc c rp st : half data W acc (cn_sender c) rp -> cn_rst_set c = false ->
  sender_side data (W ++ d) (TCPSender_set_stream (cn_sender c) st) -> (sd_fined (cn_sender c) = true -> d = []) ->
  exists s' new, TCPSender_fill_window (TCPSender_set_stream (cn_sender c) st) = Ok s' /\
    let c' := TCPConnection_send_outbound_segments (TCPConnection_set_sender c s') in
    half data (W ++ d) acc (cn_sender c') rp /\ spoke (W ++ d) c c' new /\ cn_time_done c' = cn_time_done c /\
    sd_receiver_window_left (cn_sender c') = sd_receiver_window_left (cn_sender c) /\
    sd_receiver_window_right (cn_sender c') = sd_receiver_window_right (cn_sender c) /\
    bs_input_ended (sd_stream (cn_sender c')) = bs_input_ended st.
Proof.
  intros Hh Hrst Hs Hd. destruct (fill_moved data (W ++ d) _ Hs (hf_syn _ _ _ _ _ Hh)) as (s' & new & E & Hs' & M & F & O & L & R & N).
  exists s', new. split; [done|]. intros c'. pose proof (hf_out _ _ _ _ _ Hh) as Ho. simpl in O. rewrite Ho in O. simpl in O.
  apply moved_stream in M. pose proof (hf_left _ _ _ _ _ Hh) as Hl. split_and!; try done.
  - apply (half_moved data W d acc (cn_sender c)); try done.
    + by apply sender_side_drain.
    + by destruct (mv_le _ _ _ _ M).
    + by apply (mv_plain _ _ _ _ M), Hh.
    + cbn in L |- *. lia.
  - split; try done; [by apply moved_drain| |by left]. simpl. by rewrite O, Hrst.
Qed.

(** Bytes are written that there is room for. *)
Lemma conn_writes data W acc c rp d tl : half data W acc (cn_sender c) rp -> cn_rst_set c = false ->
  data = W ++ d ++ tl -> bs_input_ended (sd_stream (cn_sender c)) = false ->
  zlen d <= TCPConnection_remaining_outbound_capacity c ->
  exists c' new, TCPConnection_write c d = Ok (c', zlen d) /\
    half data (W ++ d) acc (cn_sender c') rp /\ spoke (W ++ d) c c' new /\ cn_time_done c' = cn_time_done c /\
    sd_receiver_window_left (cn_sender c') = sd_receiver_window_left (cn_sender c) /\
    sd_receiver_window_right (cn_sender c') = sd_receiver_window_right (cn_sender c) /\
    bs_input_ended (sd_stream (cn_sender c')) = false.
Proof.
  intros Hh Hrst Hd He Hroom. unfold TCPConnection_write. destruct (ByteStream_write (sd_stream (cn_sender c)) d) as [st n] eqn:Ew.
  destruct (write_side data W (cn_sender c) d tl st n (hf_limit _ _ _ _ _ Hh) (hf_side _ _ _ _ _ Hh) Hd He Ew) as (Hs & V & Hf).
  unfold TCPConnection_remaining_outbound_capacity, TCPSender_stream_in in Hroom.
  rewrite ByteStream_remaining_capacity_eq in Hroom by apply Hh. pose proof (ws_count _ _ _ _ V) as Hn. rewrite Z.min_l in Hn by lia. subst n.
  rewrite ztake_ge in Hs by lia. destruct (conn_fills data W d acc c rp st Hh Hrst Hs) as (s' & new & E & H1 & H2 & H3 & H4 & H5 & H6); [congruence|].
  rewrite E. cbn [mbind result_bind]. eexists _, new. split; [done|]. split_and!; try done. rewrite H6, (ws_ended _ _ _ _ V). done.
Qed.

Lemma check_done_spoke W c c' new : spoke W c c' new -> cn_time_done c' = cn_time_done c -> spoke W c (TCPConnection_check_done c') new.
Proof.
  intros [K1 K2 K3 K4 K5 K6 K7] Hd. unfold TCPConnection_check_done. destruct (_ && _); [|by split]. split; try done. right. simpl. by rewrite K6.
Qed.

(** All has been written. *)
Lemma conn_ends data acc c rp : half data data acc (cn_sender c) rp -> cn_rst_set c = false ->
  exists c' new, TCPConnection_end_input_stream c = Ok c' /\
    half data data acc (cn_sender c') rp /\ spoke data c c' new /\
    sd_receiver_window_left (cn_sender c') = sd_receiver_window_left (cn_sender c) /\
    sd_receiver_window_right (cn_sender c') = sd_receiver_window_right (cn_sender c) /\
    bs_input_ended (sd_stream (cn_sender c')) = true.
Proof.
  intros Hh Hrst. unfold TCPConnection_end_input_stream. pose proof (end_side data _ (hf_side _ _ _ _ _ Hh)) as Hs.
  rewrite <- (app_nil_r data) in Hs at 2. destruct (conn_fills data data [] acc c rp _ Hh Hrst Hs) as (s' & new & E & H1 & H2 & H3 & H4 & H5 & H6); [done|].
  rewrite E. cbn [mbind result_bind]. rewrite app_nil_r in *. eexists _, new. split; [done|].
  destruct (check_done_same (TCPConnection_send_outbound_segments (TCPConnection_set_sender c s'))) as (E1 & _ & _). rewrite E1.
  split_and!; try done. by apply check_done_spoke.
Qed.

(** A second passes. *)
Lemma conn_ticks data W acc c rp : half data W acc (cn_sender c) rp -> cn_rst_set c = false -> clock_ok (cn_sender c) ->
  let c' := TCPConnection_tick c 1000 in
  exists s1 again, ticked (cn_sender c) s1 again /\ cn_sender c' = TCPSender_set_segments_out s1 [] /\
    half data W acc (cn_sender c') rp /\ cn_receiver c' = cn_receiver c /\
    cn_segments_out c' = cn_segments_out c ++ map (stamped (cn_receiver c)) again /\
    cn_rst_set c' = false /\ cn_cfg c' = cn_cfg c /\
    cn_time_since_last_segment_received c' = u64 (cn_time_since_last_segment_received c + 1000) /\
    cn_time_done c' = (if TCPConnection_done c' && negb (bool_decide (is_Some (cn_time_done c)))
      then Some (u64 (cn_time_since_last_segment_received c + 1000)) else cn_time_done c).
Proof.
  intros Hh Hrst Hk c'. destruct (tick_ticked data W _ (hf_side _ _ _ _ _ Hh) (hf_out _ _ _ _ _ Hh) Hk) as [again T].
  pose proof (tick_side data W _ 1000 ltac:(lia) (hf_side _ _ _ _ _ Hh)) as Hs. set (s1 := TCPSender_tick (cn_sender c) 1000) in *.
  assert (sd_consecutive_retransmissions s1 <= 8) as Hcons.
  { pose proof (ck_count _ Hk). destruct (sd_segments_pending (cn_sender c)) as [|h rest] eqn:Ep.
    - destruct (ti_idle _ _ _ T Ep) as (_ & _ & ->). lia.
    - destruct (ti_head _ _ _ T h rest Ep) as [(_ & _ & _ & _ & ->)|(_ & _ & _ & _ & ->)]; lia. }
  set (c1 := TCPConnection_send_outbound_segments (TCPConnection_set_sender
    (TCPConnection_set_times c (u64 (cn_time_since_last_segment_received c + 1000)) (cn_time_done c)) s1)).
  assert (c' = TCPConnection_check_done c1) as Ec.
  { unfold c', TCPConnection_tick. cbn [cn_sender TCPConnection_set_times TCPConnection_set_sender]. fold s1.
    unfold TCPSender_consecutive_retransmissions, MAX_RETX_ATTEMPTS. by rewrite (proj2 (Z.ltb_ge 8 _)) by lia. }
  assert (cn_sender c' = TCPSender_set_segments_out s1 [] /\ cn_receiver c' = cn_receiver c /\ cn_segments_out c' = cn_segments_out c1) as (E1 & E2 & E3).
  { rewrite Ec. by destruct (check_done_same c1) as (-> & -> & ->). }
  exists s1, again. rewrite E1, E2, E3. split_and!; try done.
  - rewrite <- (app_nil_r W). apply (half_moved data W [] acc (cn_sender c)); rewrite ?app_nil_r; try done; rewrite (ti_frame _ _ _ T); try apply Hh; try done.
    rewrite <- (ti_frame _ _ _ T). by apply sender_side_drain.
  - simpl. by rewrite (ti_again _ _ _ T), Hrst.
  - rewrite Ec. unfold TCPConnection_check_done. by destruct (_ && _).
  - rewrite Ec. unfold TCPConnection_check_done. by destruct (_ && _).
  - rewrite Ec. unfold TCPConnection_check_done. by destruct (_ && _).
  - rewrite Ec. unfold TCPConnection_check_done. change (cn_time_done c1) with (cn_time_done c). destruct (TCPConnection_done c1) eqn:Ed; simpl.
    + destruct (negb _) eqn:En; simpl; [|by rewrite andb_false_r].
      change (TCPConnection_done (TCPConnection_set_times _ _ _)) with (TCPConnection_done c1). by rewrite Ed.
    + by rewrite Ed.
Qed.
