(* ===== verification/SpongeSockets.v ===== *)
(** A TCP connection behind a socket: [TCPSpongeSocket], [CS144TCPSocket] and
    [FullStackSocket] (src/libsponge/tcp_helpers/tcp_sponge_socket.hh and .cc).

    The owner talks to one end of a pair of local sockets; an event loop moves
    bytes between the other end and the [TCPConnection], and segments between the
    connection and the adapter.  The object's members are the state of the world;
    the event loop's rules are passed along.  The owner may set [_abort] at any
    time: what each turn of the loop finds there is an argument.

    The theorems are in [SpongeRuns] and [SpongeNetworks]. *)

From Stdlib Require Import String.
From S2P Require Import Prelude WrappingIntegers Buffers ByteStreams StreamReassemblers Parsers TCPSegments IPv4Datagrams.
From S2P Require Import EthernetFrames Addresses Effects FileDescriptors EventLoops Sockets NetworkInterfaces Adapters.
From S2P Require Import TCPReceivers TCPSenders SocketAdapters TCPConnections TCPStates EndToEnd Texts.

#[local] Open Scope Z_scope.

Record TCPSpongeSocket (A : Type) : Type := MkTCPSpongeSocket {
  sk_socket : FileDescriptor;
  sk_thread_data : FileDescriptor;
  sk_datagram_adapter : A;
  sk_tcp : option TCPConnection;
  sk_inbound_shutdown : bool;
  sk_outbound_shutdown : bool;
  sk_fully_acked : bool
}.

Arguments MkTCPSpongeSocket {A}.
Arguments sk_socket {A}.
Arguments sk_thread_data {A}.
Arguments sk_datagram_adapter {A}.
Arguments sk_tcp {A}.
Arguments sk_inbound_shutdown {A}.
Arguments sk_outbound_shutdown {A}.
Arguments sk_fully_acked {A}.

(** Assignments to a member. *)
Definition sk_set_adapter {A} (s : TCPSpongeSocket A) (a : A) : TCPSpongeSocket A :=
  MkTCPSpongeSocket (sk_socket s) (sk_thread_data s) a (sk_tcp s) (sk_inbound_shutdown s) (sk_outbound_shutdown s)
    (sk_fully_acked s).
Definition sk_set_tcp {A} (s : TCPSpongeSocket A) (c : option TCPConnection) : TCPSpongeSocket A :=
  MkTCPSpongeSocket (sk_socket s) (sk_thread_data s) (sk_datagram_adapter s) c (sk_inbound_shutdown s)
    (sk_outbound_shutdown s) (sk_fully_acked s).
Definition sk_set_inbound_shutdown {A} (s : TCPSpongeSocket A) : TCPSpongeSocket A :=
  MkTCPSpongeSocket (sk_socket s) (sk_thread_data s) (sk_datagram_adapter s) (sk_tcp s) true (sk_outbound_shutdown s)
    (sk_fully_acked s).
Definition sk_set_outbound_shutdown {A} (s : TCPSpongeSocket A) : TCPSpongeSocket A :=
  MkTCPSpongeSocket (sk_socket s) (sk_thread_data s) (sk_datagram_adapter s) (sk_tcp s) (sk_inbound_shutdown s) true
    (sk_fully_acked s).
Definition sk_set_fully_acked {A} (s : TCPSpongeSocket A) : TCPSpongeSocket A :=
  MkTCPSpongeSocket (sk_socket s) (sk_thread_data s) (sk_datagram_adapter s) (sk_tcp s) (sk_inbound_shutdown s)
    (sk_outbound_shutdown s) true.

Definition TCP_TICK_MS : Z := 10.

Section socket.
Context {K A : Type} `{Kernel K} `{DatagramAdapter K (TCPSpongeSocket A) A} `{NameService}.

Abbreviation prog := (io (world K (TCPSpongeSocket A))).
Abbreviation rules := (list (Rule K (TCPSpongeSocket A))).

Definition sk_get : prog (TCPSpongeSocket A) := gets w_state.
Definition sk_modify (f : TCPSpongeSocket A -> TCPSpongeSocket A) : prog unit :=
  modify (fun w => world_set_state w (f (w_state w))).

(** [_tcp->] *)
Definition tcp_arrow : prog TCPConnection :=
  s ← sk_get;
  match sk_tcp s with Some c => mret c | None => throw undefined_behaviour end.

(** [_tcp.value()] *)
Definition tcp_value : prog TCPConnection :=
  s ← sk_get;
  match sk_tcp s with Some c => mret c | None => throw bad_optional_access end.

Definition tcp_store (c : TCPConnection) : prog unit := sk_modify (fun s => sk_set_tcp s (Some c)).

(** [_datagram_adapter.config().destination.to_string()], for a message. *)
Definition destination_to_string : prog unit :=
  s ← sk_get;
  _ ← lift (Address_to_string (fc_destination (da_config (sk_datagram_adapter s))));
  mret tt.

(** [timestamp_ms()] *)
Definition timestamp_ms : prog Z :=
  r ← call sys_clock;
  mret (u64 (rp_value r)).

(** ** The four rules *)

(** Rule 1: read from filtered packet stream and dump into TCPConnection. *)
Definition read_segment : prog unit :=
  s ← sk_get;
  '(seg, a) ← da_read (sk_datagram_adapter s);
  _ ← sk_modify (fun s => sk_set_adapter s a);
  _ ← (match seg with
       | Some seg =>
           c ← tcp_arrow;
           c ← lift (TCPConnection_segment_received c seg);
           tcp_store c
       | None => mret tt
       end);
  s ← sk_get;
  eof ← FileDescriptor_eof (sk_thread_data s);
  if (eof : bool) then
    c ← tcp_value;
    if (TCPConnection_bytes_in_flight c =? 0) && negb (sk_fully_acked s) then
      _ ← destination_to_string;
      sk_modify sk_set_fully_acked
    else mret tt
  else mret tt.

Definition read_segment_interest : prog bool := c ← tcp_arrow; mret (TCPConnection_active c).

(** Rule 2: read from pipe into outbound buffer. *)
Definition read_pipe : prog unit :=
  s ← sk_get;
  c ← tcp_arrow;
  data ← FileDescriptor_read (sk_thread_data s) (TCPConnection_remaining_outbound_capacity c);
  let len := zlen data in
  c ← tcp_arrow;
  '(c, amount_written) ← lift (TCPConnection_write c data);
  _ ← tcp_store c;
  if negb (amount_written =? len) then throw runtime_error
  else
    eof ← FileDescriptor_eof (sk_thread_data s);
    if (eof : bool) then
      c ← tcp_arrow;
      c ← lift (TCPConnection_end_input_stream c);
      _ ← tcp_store c;
      _ ← sk_modify sk_set_outbound_shutdown;
      _ ← destination_to_string;
      _ ← tcp_value;
      mret tt
    else mret tt.

Definition read_pipe_interest : prog bool :=
  s ← sk_get;
  c ← tcp_arrow;
  mret (TCPConnection_active c && negb (sk_outbound_shutdown s) && (0 <? TCPConnection_remaining_outbound_capacity c)).

Definition end_pipe : prog unit :=
  c ← tcp_arrow;
  c ← lift (TCPConnection_end_input_stream c);
  _ ← tcp_store c;
  sk_modify sk_set_outbound_shutdown.

(** [inbound_stream()] is a reference into the connection. *)
Definition inbound_store (b : ByteStream) : prog unit :=
  c ← tcp_arrow;
  tcp_store (TCPConnection_set_receiver c (TCPReceiver_with_output (cn_receiver c) b)).

(** Rule 3: read from inbound buffer into pipe. *)
Definition write_pipe : prog unit :=
  s ← sk_get;
  c ← tcp_arrow;
  let inbound := TCPConnection_inbound_stream c in
  let amount_to_write := Z.min 65536 (ByteStream_buffer_size inbound) in
  let buffer := ByteStream_peek_output inbound amount_to_write in
  bytes_written ← FileDescriptor_write (sk_thread_data s) buffer false;
  inbound ← lift (ByteStream_pop_output inbound bytes_written);
  _ ← inbound_store inbound;
  if ByteStream_eof inbound || bs_error inbound then
    _ ← Socket_shutdown (sk_thread_data s) SHUT_WR;
    _ ← sk_modify sk_set_inbound_shutdown;
    _ ← destination_to_string;
    _ ← tcp_value;
    mret tt
  else mret tt.

Definition write_pipe_interest : prog bool :=
  s ← sk_get;
  c ← tcp_arrow;
  let inbound := TCPConnection_inbound_stream c in
  mret (negb (ByteStream_buffer_empty inbound) ||
        (ByteStream_eof inbound || bs_error inbound) && negb (sk_inbound_shutdown s)).

(** Rule 4: read outbound segments from TCPConnection and send as datagrams.  The
    queue changes only by the [pop()] after each [write]. *)
Fixpoint write_segments_from (queue : list TCPSegment) : prog unit :=
  match queue with
  | [] => mret tt
  | seg :: queue =>
      s ← sk_get;
      a ← da_write (sk_datagram_adapter s) seg;
      _ ← sk_modify (fun s => sk_set_adapter s a);
      c ← tcp_arrow;
      _ ← tcp_store (TCPConnection_set_segments_out c queue);
      write_segments_from queue
  end.

Definition write_segments : prog unit :=
  c ← tcp_arrow;
  write_segments_from (cn_segments_out c).

Definition write_segments_interest : prog bool :=
  c ← tcp_arrow;
  mret (negb (bool_decide (cn_segments_out c = []))).

(** [_initialize_TCP(config)]; [random] is the random number the sender may draw. *)
Definition initialize_TCP (config : TCPConfig) (random : Z) : prog rules :=
  _ ← tcp_store (TCPConnection_new config random);
  s ← sk_get;
  let adapter := da_fd (sk_datagram_adapter s) in
  let thread_data := sk_thread_data s in
  rules ← EventLoop_add_rule [] adapter Direction_In read_segment read_segment_interest (mret tt);
  rules ← EventLoop_add_rule rules thread_data Direction_In read_pipe read_pipe_interest end_pipe;
  rules ← EventLoop_add_rule rules thread_data Direction_Out write_pipe write_pipe_interest (mret tt);
  EventLoop_add_rule rules adapter Direction_Out write_segments write_segments_interest (mret tt).

(** ** The loop *)

(** One turn: whether the loop goes on, the rules left and the new [base_time]. *)
Definition tcp_turn (abort : bool) (rs : rules) (base_time : Z) : prog (bool * rules * Z) :=
  '(ret, rs) ← EventLoop_wait_next_event rs TCP_TICK_MS;
  if (match ret with Result_Exit => true | _ => false end) || abort then mret (false, rs, base_time)
  else
    c ← tcp_value;
    if TCPConnection_active c then
      next_time ← timestamp_ms;
      c ← tcp_value;
      _ ← tcp_store (TCPConnection_tick c (u64 (next_time - base_time)));
      s ← sk_get;
      a ← da_tick (sk_datagram_adapter s) (u64 (next_time - base_time));
      _ ← sk_modify (fun s => sk_set_adapter s a);
      mret (true, rs, next_time)
    else mret (true, rs, base_time).

(** The [while] loop, for as many turns as [aborts] has values of [_abort]: whether
    it has ended, and the rules left. *)
Fixpoint tcp_loop_from (aborts : list bool) (condition : prog bool) (rs : rules) (base_time : Z) : prog (bool * rules) :=
  go_on ← condition;
  if negb go_on then mret (true, rs)
  else
    match aborts with
    | [] => mret (false, rs)
    | abort :: aborts =>
        '(go_on, rs, base_time) ← tcp_turn abort rs base_time;
        if (go_on : bool) then tcp_loop_from aborts condition rs base_time else mret (true, rs)
    end.

(** [_tcp_loop(condition)] *)
Definition tcp_loop (aborts : list bool) (condition : prog bool) (rs : rules) : prog (bool * rules) :=
  base_time ← timestamp_ms;
  tcp_loop_from aborts condition rs base_time.

(** [_tcp->state() == state] *)
Definition tcp_in_state (state : State) : prog bool := c ← tcp_arrow; mret (in_state c state).

(** What [connect(c_tcp, c_ad)] does before its loop. *)
Definition connect_begin (random : Z) (c_tcp : TCPConfig) (c_ad : FdAdapterConfig) : prog rules :=
  s ← sk_get;
  match sk_tcp s with
  | Some _ => throw runtime_error
  | None =>
      rs ← initialize_TCP c_tcp random;
      _ ← sk_modify (fun s => sk_set_adapter s (da_set_config (sk_datagram_adapter s) c_ad));
      _ ← destination_to_string;
      c ← tcp_arrow;
      c ← lift (TCPConnection_connect c);
      _ ← tcp_store c;
      expected ← tcp_in_state SYN_SENT;
      if negb expected then throw runtime_error else mret rs
  end.

(** [connect(c_tcp, c_ad)]: whether it has returned, and the rules, which the new
    thread goes on with. *)
Definition TCPSpongeSocket_connect (aborts : list bool) (random : Z) (c_tcp : TCPConfig) (c_ad : FdAdapterConfig) :
    prog (bool * rules) :=
  rs ← connect_begin random c_tcp c_ad;
  '(done, rs) ← tcp_loop aborts (tcp_in_state SYN_SENT) rs;
  if (done : bool) then _ ← destination_to_string; mret (true, rs) else mret (false, rs).

(** What [listen_and_accept(c_tcp, c_ad)] does before its loop. *)
Definition listen_begin (random : Z) (c_tcp : TCPConfig) (c_ad : FdAdapterConfig) : prog rules :=
  s ← sk_get;
  match sk_tcp s with
  | Some _ => throw runtime_error
  | None =>
      rs ← initialize_TCP c_tcp random;
      _ ← sk_modify (fun s => sk_set_adapter s (da_set_config (sk_datagram_adapter s) c_ad));
      _ ← sk_modify (fun s => sk_set_adapter s (da_set_listening (sk_datagram_adapter s) true));
      mret rs
  end.

Definition accepting : prog bool :=
  c ← tcp_arrow;
  mret (in_state c LISTEN || in_state c SYN_RCVD || in_state c SYN_SENT).

Definition TCPSpongeSocket_listen_and_accept (aborts : list bool) (random : Z) (c_tcp : TCPConfig) (c_ad : FdAdapterConfig) :
    prog (bool * rules) :=
  rs ← listen_begin random c_tcp c_ad;
  '(done, rs) ← tcp_loop aborts accepting rs;
  if (done : bool) then _ ← destination_to_string; mret (true, rs) else mret (false, rs).

(** [_tcp_main()].  [_tcp.reset()] destroys the connection. *)
Definition tcp_main (aborts : list bool) (rs : rules) : prog (bool * rules) :=
  s ← sk_get;
  match sk_tcp s with
  | None => throw runtime_error
  | Some _ =>
      '(done, rs) ← tcp_loop aborts (mret true) rs;
      if (done : bool) then
        s ← sk_get;
        _ ← Socket_shutdown (sk_socket s) SHUT_RDWR;
        _ ← tcp_value;
        _ ← sk_modify (fun s => sk_set_tcp s None);
        mret (true, rs)
      else mret (false, rs)
  end.

(** ** Construction and destruction *)

(** [socket_pair_helper(type)]; the reply has the two numbers. *)
Definition socket_pair_helper (type : Z) : prog (FileDescriptor * FileDescriptor) :=
  '(_, r) ← system (sys_socketpair AF_UNIX type);
  first ← FileDescriptor_new (default 0 (rp_numbers r !! 0%nat));
  second ← FileDescriptor_new (default 0 (rp_numbers r !! 1%nat));
  mret (first, second).

(** [TCPSpongeSocket(data_socket_pair, datagram_interface)] *)
Definition TCPSpongeSocket_of_pair (data_socket_pair : FileDescriptor * FileDescriptor) (datagram_interface : A) : prog unit :=
  socket ← LocalStreamSocket_of_fd (fst data_socket_pair);
  thread_data ← LocalStreamSocket_of_fd (snd data_socket_pair);
  _ ← sk_modify (fun _ => MkTCPSpongeSocket socket thread_data datagram_interface None false false false);
  FileDescriptor_set_blocking thread_data false.

(** [TCPSpongeSocket(datagram_interface)] *)
Definition TCPSpongeSocket_new (datagram_interface : A) : prog unit :=
  data_socket_pair ← socket_pair_helper SOCK_STREAM;
  TCPSpongeSocket_of_pair data_socket_pair datagram_interface.

(** [wait_until_closed()], before the owner waits for the thread. *)
Definition TCPSpongeSocket_wait_until_closed : prog unit :=
  s ← sk_get;
  Socket_shutdown (sk_socket s) SHUT_RDWR.

(** The destructor, after the thread has ended: the members go in the opposite
    order of their declarations. *)
Definition TCPSpongeSocket_destroy (rs : rules) : prog unit :=
  _ ← EventLoop_destroy rs;
  s ← sk_get;
  _ ← FileDescriptor_destroy (da_fd (sk_datagram_adapter s));
  _ ← FileDescriptor_destroy (sk_thread_data s);
  FileDescriptor_destroy (sk_socket s).

End socket.

(** ** CS144TCPSocket and FullStackSocket *)

Definition LOCAL_TAP_IP_ADDRESS : bytes := string_bytes "169.254.10.9".
Definition LOCAL_TAP_NEXT_HOP_ADDRESS : bytes := string_bytes "169.254.10.1".

(** "tun144" and "tap10" *)
Definition tun144 : bytes := [116; 117; 110; 49; 52; 52].
Definition tap10 : bytes := [116; 97; 112; 49; 48].

(** The six draws are the numbers that [random_device] gives out. *)
Definition random_private_ethernet_address (draws : list Z) : EthernetAddress :=
  match map u8 draws with
  | byte :: rest => Z.land (Z.lor byte 2) 254 :: rest
  | [] => []
  end.

Section helpers.
Context {K : Type} `{Kernel K} `{NameService}.

(** [FdAdapterConfig()]: both addresses are "0" with port 0. *)
Definition FdAdapterConfig_default : result FdAdapterConfig :=
  source ← Address_of_ip (string_bytes "0") 0;
  destination ← Address_of_ip (string_bytes "0") 0;
  Ok (MkFdAdapterConfig source destination 0 0).

(** What both [connect]s do: the configuration with a random port. *)
Definition connect_config (source_ip : bytes) (random : Z) (address : Address) : result (TCPConfig * FdAdapterConfig) :=
  let tcp_config := MkTCPConfig 100 DEFAULT_CAPACITY DEFAULT_CAPACITY None in
  multiplexer_config ← FdAdapterConfig_default;
  source ← Address_of_host source_ip (decimal (u16 random));
  let multiplexer_config := FdAdapterConfig_set_source multiplexer_config source in
  let multiplexer_config := FdAdapterConfig_set_destination multiplexer_config address in
  Ok (tcp_config, multiplexer_config).

Definition CS144TCPSocket_new : io (world K (TCPSpongeSocket TunFdAdapter)) unit :=
  tun ← TunFD_new tun144;
  config ← lift FdAdapterConfig_default;
  TCPSpongeSocket_new (MkTunFdAdapter (MkFdAdapterBase config false) tun).

Definition CS144TCPSocket_connect (aborts : list bool) (random isn : Z) (address : Address) :
    io (world K (TCPSpongeSocket TunFdAdapter)) (bool * list (Rule K (TCPSpongeSocket TunFdAdapter))) :=
  '(tcp_config, multiplexer_config) ← lift (connect_config (string_bytes "169.254.144.9") random address);
  TCPSpongeSocket_connect aborts isn tcp_config multiplexer_config.

Definition FullStackSocket_new (draws : list Z) : io (world K (TCPSpongeSocket TapFdAdapter)) unit :=
  tap ← TapFD_new tap10;
  config ← lift FdAdapterConfig_default;
  ip_address ← lift (Address_of_host LOCAL_TAP_IP_ADDRESS (string_bytes "0"));
  next_hop ← lift (Address_of_host LOCAL_TAP_NEXT_HOP_ADDRESS (string_bytes "0"));
  adapter ← TapFdAdapter_new tap (MkFdAdapterBase config false) (random_private_ethernet_address draws) ip_address next_hop;
  TCPSpongeSocket_new adapter.

Definition FullStackSocket_connect (aborts : list bool) (random isn : Z) (address : Address) :
    io (world K (TCPSpongeSocket TapFdAdapter)) (bool * list (Rule K (TCPSpongeSocket TapFdAdapter))) :=
  '(tcp_config, multiplexer_config) ← lift (connect_config LOCAL_TAP_IP_ADDRESS random address);
  TCPSpongeSocket_connect aborts isn tcp_config multiplexer_config.

End helpers.

(** A private address: one bit says that it is locally administered, another that
    it is no multicast address. *)
Lemma random_address_private draws :
  length draws = 6%nat ->
  exists byte rest, random_private_ethernet_address draws = byte :: rest /\ length rest = 5%nat /\
    Z.testbit byte 1 = true /\ Z.testbit byte 0 = false /\ Forall byte_ok (byte :: rest).
Proof.
  destruct draws as [|x draws]; [done|]. intros Hl. injection Hl as Hl. cbn [random_private_ethernet_address map].
  eexists _, _. split; [reflexivity|]. rewrite length_map. split; [done|].
  rewrite !Z.land_spec, !Z.lor_spec. cbn [Z.testbit]. rewrite orb_true_r, andb_false_r.
  split; [done|]. split; [done|]. constructor.
  - assert (Z.land (Z.lor (u8 x) 2) 254 = Z.land (Z.lor (u8 x) 2) 254 mod 256) as ->; [|apply Z.mod_pos_bound; lia].
    by rewrite <- land_255, <- Z.land_assoc.
  - apply Forall_map, Forall_true. intros y. unfold byte_ok. apply u8_range.
Qed.
