(* ===== verification/SpongeRuns.v ===== *)
(** Runs of a [TCPSpongeSocket] (src/libsponge/tcp_helpers/tcp_sponge_socket.cc):
    every turn of its event loop is a sequence of steps of the endpoint of [EndToEnd]
    whose owner wrote what was read from the local socket and read what was written
    to it; each rule keeps this, and so does opening the connection. *)

From S2P Require Import Prelude WrappingIntegers Buffers ByteStreams StreamReassemblers Parsers TCPSegments IPv4Datagrams.
From S2P Require Import EthernetFrames Addresses Effects FileDescriptors EventLoops RuleSets Sockets NetworkInterfaces Adapters.
From S2P Require Import TCPReceivers TCPSenders SocketAdapters TCPConnections TCPStates EndToEnd SpongeSockets.

(** ** The end of the outgoing stream, and errors *)

Definition flags (s : TCPSender) : bool * bool := (bs_input_ended (sd_stream s), bs_error (sd_stream s)).

Lemma read_flags b n b' d : ByteStream_read b n = Ok (b', d) -> bs_input_ended b' = bs_input_ended b /\ bs_error b' = bs_error b.
Proof.
  unfold ByteStream_read, ByteStream_pop_output. destruct (BufferList_remove_prefix _ _); [|done]. cbn. by intros [= <- _].
Qed.

Lemma send_flags s b : flags (TCPSender_send s b) = flags s.
Proof. by rewrite TCPSender_send_eq. Qed.

Lemma fill_loop_flags fuel s b rem lim s' : fill_loop fuel s b rem lim = Ok s' -> flags s' = flags s.
Proof.
  revert s b rem lim. induction fuel as [|fuel IH]; intros s b rem lim; cbn [fill_loop]; [done|].
  destruct (_ && negb (sd_fined s)); [|by intros [= <-]].
  destruct (ByteStream_read (sd_stream s) lim) as [[st d]|e] eqn:Er; [|done]. cbn [mbind result_bind].
  apply read_flags in Er as [E1 E2].
  assert (flags (TCPSender_set_stream s st) = flags s) as Hst by (unfold flags; simpl; by rewrite E1, E2).
  destruct (bool_decide (d = []) && _); [by intros [= <-]|].
  destruct (negb _ && _); [intros Hl; by rewrite (IH _ _ _ _ Hl), send_flags|].
  destruct (ByteStream_eof _); [|intros Hl; by rewrite (IH _ _ _ _ Hl)].
  destruct (zlen d <? lim); [intros Hl; by rewrite (IH _ _ _ _ Hl), send_flags|].
  destruct (lim <? rem); intros Hl; by rewrite (IH _ _ _ _ Hl), send_flags.
Qed.

Lemma fill_window_flags s s' : TCPSender_fill_window s = Ok s' -> flags s' = flags s.
Proof.
  unfold TCPSender_fill_window. destruct (TCPSender_in_closed s); [intros [= <-]; apply send_flags|].
  apply fill_loop_flags.
Qed.

Lemma ack_received_flags s ackno win s' : TCPSender_ack_received s ackno win = Ok s' -> flags s' = flags s.
Proof.
  rewrite ack_received_eq. cbn zeta. destruct (_ <? _); [by intros [= <-]|]. destruct (_ <? _).
  - intros Hf. by rewrite (fill_window_flags _ _ Hf).
  - by destruct (_ =? _); intros [= <-].
Qed.

(** A connection that was reset. *)
Record over (c : TCPConnection) : Prop := {
  ov_inbound : bs_error (TCPConnection_inbound_stream c) = true;
  ov_outbound : bs_error (sd_stream (cn_sender c)) = true;
  ov_linger : cn_linger_after_streams_finish c = false
}.

Lemma over_inactive c : over c -> TCPConnection_active c = false.
Proof.
  intros [H1 H2 H3]. unfold TCPConnection_active, TCPConnection_done, TCPConnection_inbound_stream, TCPSender_stream_in in *.
  by rewrite H1, H2, H3, orb_true_r.
Qed.

Lemma check_done_linger c :
  cn_linger_after_streams_finish (TCPConnection_check_done c) = cn_linger_after_streams_finish c.
Proof. unfold TCPConnection_check_done. by destruct (_ && _). Qed.

Lemma check_done_over c : over (TCPConnection_check_done c) <-> over c.
Proof.
  destruct (check_done_same c) as (E1 & _ & E2).
  split; intros [H1 H2 H3]; split; unfold TCPConnection_inbound_stream in *; rewrite ?E1, ?E2, ?check_done_linger in *; done.
Qed.

Lemma send_outbound_over c : over c -> over (TCPConnection_send_outbound_segments c).
Proof. by intros []. Qed.

(** An operation that leaves the sender's flags alone, or resets the connection. *)
Definition keeps_flags (c c' : TCPConnection) : Prop := flags (cn_sender c') = flags (cn_sender c) \/ over c'.

Lemma reset_is_over W c send_rst : conn_inv W c -> over (TCPConnection_reset c send_rst).
Proof.
  intros Hi. destruct (reset_over W c send_rst Hi) as (_ & _ & H1 & H2). split; [done|done|].
  by rewrite (reset_eq W) by done.
Qed.

Lemma segment_received_flags W c seg c' :
  conn_inv W c -> TCPConnection_segment_received c seg = Ok c' -> keeps_flags c c'.
Proof.
  intros Hi. unfold TCPConnection_segment_received. set (c0 := TCPConnection_set_times c 0 (cn_time_done c)).
  assert (conn_inv W c0) as H0 by (by eapply conn_inv_same; [| |exact Hi]). cbn zeta.
  destruct (th_rst _).
  { destruct (_ && _); [intros [= <-]; by left|]. destruct (_ && _); intros [= <-]; [by left|right].
    exact (reset_is_over W c0 false H0). }
  destruct (_ && _); [intros [= <-]; by left|]. destruct (_ && _); [intros [= <-]; by left|].
  intros Hr. left. unbind Hr. unbind Hr. unbind Hr. injection Hr as <-.
  assert (flags (cn_sender a0) = flags (cn_sender c)) as F0.
  { unbind E0; [|by injection E0 as <-]. unbind E0. unbind E0. injection E0 as <-. cbn [cn_sender TCPConnection_set_sender].
    erewrite fill_window_flags by eassumption. by erewrite ack_received_flags by eassumption. }
  assert (flags (cn_sender a1) = flags (cn_sender c)) as F1.
  { unbind E1; [unbind E1; injection E1 as <-; cbn [cn_sender TCPConnection_set_sender];
      by erewrite fill_window_flags by eassumption|].
    unbind E1; injection E1 as <-; [|done]. cbn [cn_sender TCPConnection_set_sender].
    unfold TCPSender_send_empty_segment. by rewrite send_flags. }
  match goal with |- flags (cn_sender (TCPConnection_check_done ?c5)) = _ =>
    destruct (check_done_same c5) as (-> & _ & _) end.
  by destruct (ByteStream_eof _ && _).
Qed.

Lemma tick_flags W c ms : conn_inv W c -> keeps_flags c (TCPConnection_tick c ms).
Proof.
  intros Hi. unfold TCPConnection_tick. set (c1 := TCPConnection_set_sender (TCPConnection_set_times c _ _) _).
  destruct (tick_ok W (cn_sender c) ms) as [C1 C2]; [apply Hi..|].
  assert (sender_le (cn_sender c) (TCPSender_tick (cn_sender c) ms) /\ flags (TCPSender_tick (cn_sender c) ms) = flags (cn_sender c)) as [L F].
  { rewrite (tick_eq W) by apply Hi. by split. }
  assert (conn_inv W c1) as H1 by (split; [done|done|simpl; by eapply on_wire_le; [|apply Hi]]).
  unfold keeps_flags. rewrite check_done_over.
  match goal with |- flags (cn_sender (TCPConnection_check_done ?c5)) = _ \/ _ =>
    destruct (check_done_same c5) as (-> & _ & _) end.
  destruct (_ <? _); [right|by left]. by apply send_outbound_over, (reset_is_over W).
Qed.

(** Before the end of the stream no FIN is sent. *)
Lemma send_fined s b : sd_fined (TCPSender_send s b) = sd_fined s.
Proof. by rewrite TCPSender_send_eq. Qed.

Lemma fill_loop_fined fuel s b rem lim s' :
  bs_input_ended (sd_stream s) = false -> fill_loop fuel s b rem lim = Ok s' -> sd_fined s' = sd_fined s.
Proof.
  revert s b rem lim. induction fuel as [|fuel IH]; intros s b rem lim He; cbn [fill_loop]; [done|].
  destruct (_ && negb (sd_fined s)); [|by intros [= <-]].
  destruct (ByteStream_read (sd_stream s) lim) as [[st d]|e] eqn:Er; [|done]. cbn [mbind result_bind].
  apply read_flags in Er as [E1 E2]. rewrite He in E1.
  assert (ByteStream_eof (sd_stream (TCPSender_set_stream s st)) = false) as Hne.
  { unfold ByteStream_eof. simpl. by rewrite E1. }
  destruct (bool_decide (d = []) && _); [by intros [= <-]|]. rewrite Hne. cbn [negb andb].
  destruct (bool_decide (d = [])); intros Hl; (rewrite (IH _ _ _ _) with (2 := Hl); [|by rewrite ?TCPSender_send_eq]);
    cbn [negb]; by rewrite ?send_fined.
Qed.

Lemma fill_window_fined s s' :
  bs_input_ended (sd_stream s) = false -> TCPSender_fill_window s = Ok s' -> sd_fined s' = sd_fined s.
Proof.
  intros He. unfold TCPSender_fill_window. destruct (TCPSender_in_closed s); [intros [= <-]; apply send_fined|].
  by apply fill_loop_fined.
Qed.

Lemma ack_received_fined s ackno win s' :
  bs_input_ended (sd_stream s) = false -> TCPSender_ack_received s ackno win = Ok s' -> sd_fined s' = sd_fined s.
Proof.
  intros He. rewrite ack_received_eq. cbn zeta. destruct (_ <? _); [by intros [= <-]|]. destruct (_ <? _).
  - intros Hf. by rewrite (fill_window_fined _ _) with (2 := Hf).
  - by destruct (_ =? _); intros [= <-].
Qed.

Lemma segment_received_fined c seg c' :
  bs_input_ended (sd_stream (cn_sender c)) = false -> TCPConnection_segment_received c seg = Ok c' ->
  sd_fined (cn_sender c') = sd_fined (cn_sender c).
Proof.
  intros He. unfold TCPConnection_segment_received. cbn zeta. destruct (th_rst _).
  { destruct (_ && _); [by intros [= <-]|]. by destruct (_ && _); intros [= <-]. }
  destruct (_ && _); [by intros [= <-]|]. destruct (_ && _); [by intros [= <-]|].
  intros Hr. unbind Hr. unbind Hr. unbind Hr. injection Hr as <-.
  assert (sd_fined (cn_sender a0) = sd_fined (cn_sender c) /\ bs_input_ended (sd_stream (cn_sender a0)) = false) as [F0 G0].
  { unbind E0; [|by injection E0 as <-]. unbind E0. unbind E0. injection E0 as <-. cbn [cn_sender TCPConnection_set_sender].
    pose proof (ack_received_fined _ _ _ _ He E3) as R2. pose proof (ack_received_flags _ _ _ _ E3) as R3.
    unfold flags in R3. injection R3 as R3 _. simpl in R3. rewrite He in R3. pose proof (fill_window_fined _ _ R3 E4) as R4.
    pose proof (fill_window_flags _ _ E4) as R5. unfold flags in R5. injection R5 as R5 _. split; congruence. }
  assert (sd_fined (cn_sender a1) = sd_fined (cn_sender c)) as F1.
  { unbind E1; [unbind E1; injection E1 as <-; cbn [cn_sender TCPConnection_set_sender];
      rewrite <- F0; by eapply fill_window_fined|].
    unbind E1; injection E1 as <-; [|done]. cbn [cn_sender TCPConnection_set_sender].
    unfold TCPSender_send_empty_segment. by rewrite send_fined. }
  match goal with |- sd_fined (cn_sender (TCPConnection_check_done ?c5)) = _ =>
    destruct (check_done_same c5) as (-> & _ & _) end.
  by destruct (ByteStream_eof _ && _).
Qed.

(** Operations of the owner leave the inbound stream and the lingering alone. *)
Definition owners_only (c c' : TCPConnection) : Prop :=
  bs_error (sd_stream (cn_sender c')) = bs_error (sd_stream (cn_sender c)) /\
  TCPConnection_inbound_stream c' = TCPConnection_inbound_stream c /\
  cn_linger_after_streams_finish c' = cn_linger_after_streams_finish c.

Lemma owners_over c c' : owners_only c c' -> over c -> over c'.
Proof. intros (H1 & H2 & H3) [O1 O2 O3]. split; congruence. Qed.

Lemma conn_write_flags c d c' n :
  bs_wf (sd_stream (cn_sender c)) -> zlen d < 2 ^ 64 -> TCPConnection_write c d = Ok (c', n) ->
  owners_only c c' /\ bs_input_ended (sd_stream (cn_sender c')) = bs_input_ended (sd_stream (cn_sender c)).
Proof.
  intros Hwf Hd. unfold TCPConnection_write. destruct (ByteStream_write _ _) as [st m] eqn:Ew.
  apply ByteStream_write_ok in Ew as Hw; [|done|done]. intros Hc. unbind Hc. injection Hc as <- _.
  apply fill_window_flags in E. unfold flags in E. injection E as E1 E2. simpl in *.
  split; [split_and!; [|done|done]|]; simpl; [rewrite E2; apply Hw|rewrite E1; apply Hw].
Qed.

Lemma end_input_flags c c' : TCPConnection_end_input_stream c = Ok c' -> owners_only c c'.
Proof.
  unfold TCPConnection_end_input_stream. intros Hc. unbind Hc. injection Hc as <-.
  apply fill_window_flags in E. unfold flags in E. injection E as E1 E2. simpl in E2.
  match goal with |- owners_only _ (TCPConnection_check_done ?c5) =>
    unfold owners_only, TCPConnection_inbound_stream; destruct (check_done_same c5) as (-> & _ & ->); rewrite check_done_linger end.
  by split_and!.
Qed.

(** *** The inbound stream *)

(** The inbound stream is at its end, or broken. *)
Definition inbound_over (r : TCPReceiver) : bool :=
  ByteStream_eof (TCPReceiver_stream_out r) || bs_error (TCPReceiver_stream_out r).

Lemma reassemble_error segs output u segs' output' u' :
  reassemble segs output u = (segs', output', u') -> bs_error output' = bs_error output.
Proof.
  revert output u. induction segs as [|s rest IH]; intros output u; cbn [reassemble]; [by intros [= _ <- _]|].
  destruct (_ =? _); [|by intros [= _ <- _]]. destruct (ByteStream_write_move _ _) as [out wc] eqn:Ew.
  assert (bs_error out = bs_error output) as Ho by (unfold ByteStream_write_move in Ew; by injection Ew as <- _).
  destruct (wc =? 0); [by intros [= _ <- _]|]. destruct (_ <? _); [by intros [= _ <- _]|].
  intros Hr. by rewrite (IH _ _ Hr).
Qed.

Lemma push_substring_over r data index eof r' :
  StreamReassembler_push_substring r data index eof = Ok r' ->
  ByteStream_eof (sr_output r) || bs_error (sr_output r) = true -> ByteStream_eof (sr_output r') || bs_error (sr_output r') = true.
Proof.
  unfold StreamReassembler_push_substring. destruct (ByteStream_input_ended _) eqn:Ei; [by intros [= <-]|].
  unfold ByteStream_input_ended in Ei. unfold ByteStream_eof at 1. rewrite Ei. cbn [andb orb].
  destruct (_ <? _); [intros [= <-] ->; apply orb_true_r|]. destruct (string_of_view _ _); [|done]. cbn [mbind result_bind].
  destruct (push_interval _ _ _) as [segs u]. destruct (reassemble _ _ _) as [[segs' out] u'] eqn:Er.
  apply reassemble_error in Er. intros [= <-] He. cbn [sr_output]. destruct (_ && _); cbn [bs_error ByteStream_end_input];
    rewrite Er, He; apply orb_true_r.
Qed.

Lemma receiver_inbound_over r seg r' :
  TCPReceiver_segment_received r seg = Ok r' -> inbound_over r = true -> inbound_over r' = true.
Proof.
  unfold TCPReceiver_segment_received. cbn zeta. set (r0 := if th_syn _ then _ else r). intros Hr Ho.
  assert (inbound_over r0 = true) as Ho0 by (unfold r0; by destruct (th_syn _)). clearbody r0.
  unbind Hr; [|by injection Hr as <-]. destruct (tr_sender_isn r0) as [isn|]; [|done].
  unbind Hr; [unbind Hr; [by injection Hr as <-|]|]; unbind Hr; injection Hr as <-; by eapply push_substring_over.
Qed.

Lemma segment_inbound_over W c seg c' :
  conn_inv W c -> 0 <= th_win (ts_header seg) < 2 ^ 16 -> TCPConnection_segment_received c seg = Ok c' ->
  inbound_over (cn_receiver c) = true -> inbound_over (cn_receiver c') = true.
Proof.
  intros Hi Hw Hc Ho. destruct (conn_segment_received_ok W c seg Hi Hw) as [(c5 & E & _ & _ & Hr)|(e & _ & E)]; [|congruence].
  assert (c5 = c') as -> by congruence. destruct Hr as [-> | [-> | Hr]]; [done|apply orb_true_r|by eapply receiver_inbound_over].
Qed.

Lemma tick_inbound_over W c ms :
  conn_inv W c -> inbound_over (cn_receiver c) = true -> inbound_over (cn_receiver (TCPConnection_tick c ms)) = true.
Proof. intros Hi Ho. destruct (conn_tick_ok W c ms Hi) as (_ & _ & [-> | ->]); [done|apply orb_true_r]. Qed.

(** [connect] takes a new connection to SYN_SENT, whatever its configuration. *)
Lemma connect_syn_sent cfg random :
  exists c, TCPConnection_connect (TCPConnection_new cfg random) = Ok c /\ in_state c SYN_SENT = true /\
    flags (cn_sender c) = (false, false).
Proof. eexists. split; [reflexivity|]. split; cbv -[wrap unwrap]; reflexivity. Qed.

(** ** Segments on the wire *)

(** What an endpoint looks at: not the ports, the checksum, the padding or how the
    payload is stored. *)
Definition content (seg : TCPSegment) : Z * Z * Z * bool * bool * bool * bool * bytes :=
  let h := ts_header seg in
  (raw_value (th_seqno h), raw_value (th_ackno h), th_win h, th_ack h, th_rst h, th_syn h, th_fin h,
   Buffer_str (ts_payload seg)).

Definition same_segment (seg seg' : TCPSegment) : Prop := content seg = content seg'.

#[export] Instance same_segment_equivalence : Equivalence same_segment.
Proof. split; unfold same_segment; congruence. Qed.

#[export] Instance same_segment_dec : RelDecision same_segment.
Proof. intros seg seg'. unfold same_segment. apply _. Defined.

#[export] Instance receiver_segment_proper r : Proper (same_segment ==> eq) (TCPReceiver_segment_received r).
Proof.
  intros [[] p] [[] p'] Hc. unfold same_segment, content in Hc. simpl in Hc. injection Hc as E1 E2 E3 E4 E5 E6 E7 E8.
  unfold TCPReceiver_segment_received, Buffer_copy. simpl. rewrite E8.
  destruct th_seqno, th_seqno0. simpl in *. by subst.
Qed.

#[export] Instance connection_segment_proper c : Proper (same_segment ==> eq) (TCPConnection_segment_received c).
Proof.
  intros seg seg' Hc. unfold TCPConnection_segment_received. rewrite (receiver_segment_proper _ _ _ Hc).
  destruct seg as [[] p], seg' as [[] p']. unfold same_segment, content in Hc. simpl in Hc.
  injection Hc as E1 E2 E3 E4 E5 E6 E7 E8.
  unfold TCPSegment_length_in_sequence_space, Buffer_size. simpl. rewrite E8.
  destruct th_ackno, th_ackno0. simpl in *. by subst.
Qed.

(** An adapter with the network behind it: of what comes in, only what the other
    endpoint has put on the wire gets through; what is sent is remembered. *)
Record channel (A : Type) : Type := MkChannel {
  ch_adapter : A;
  ch_incoming : list TCPSegment;
  ch_sent : list TCPSegment
}.

Arguments MkChannel {A}.
Arguments ch_adapter {A}.
Arguments ch_incoming {A}.
Arguments ch_sent {A}.

Definition channel_with {A} (l : channel A) (a : A) : channel A := MkChannel a (ch_incoming l) (ch_sent l).

Definition let_through (incoming : list TCPSegment) (seg : option TCPSegment) : option TCPSegment :=
  match seg with
  | Some s => if decide (Exists (same_segment s) incoming) then Some s else None
  | None => None
  end.

#[export] Instance channel_base {A} `{AdapterBase A} : AdapterBase (channel A) := {|
  da_fd l := da_fd (ch_adapter l);
  da_config l := da_config (ch_adapter l);
  da_set_config l c := channel_with l (da_set_config (ch_adapter l) c);
  da_set_listening l b := channel_with l (da_set_listening (ch_adapter l) b)
|}.

#[export] Instance channel_datagrams {K U A} `{DatagramAdapter K U A} : DatagramAdapter K U (channel A) := {|
  da_read l := '(seg, a) ← da_read (ch_adapter l); mret (let_through (ch_incoming l) seg, channel_with l a);
  da_write l seg :=
    a ← da_write (ch_adapter l) seg; mret (MkChannel a (ch_incoming l) (ch_sent l ++ [seg]));
  da_tick l ms := a ← da_tick (ch_adapter l) ms; mret (channel_with l a)
|}.

(** ** One socket *)

Section one.
Context {K A : Type} `{KernelLaws K} `{AdapterBase A} `{!DatagramAdapter (K * list event) (TCPSpongeSocket (channel A)) A}.
Context (AE : exn -> Prop) `{!AdapterLaws K (TCPSpongeSocket (channel A)) A AE} `{NameService}.

Abbreviation W := (world (K * list event) (TCPSpongeSocket (channel A))).

(** The descriptors of the socket: the thread's end of the pair, with its number,
    and the adapter's. *)
Context (td ad : FileDescriptor) (tnum : Z) (Hfds : td <> ad).

(** The bytes that the owner may still write: reading them takes them away. *)
Context (left : K -> Z).
Context (Hleft : forall c k, 0 <= left (snd (k_call c k)) /\
  zlen (event_read tnum (c, fst (k_call c k))) + left (snd (k_call c k)) <= left k).

(** The endpoint on the other side. *)
Context (q : peer) (Hq : zlen (pe_written q) <= stream_limit).

(** The exceptions of the thread. *)
Definition sk_exn (e : exn) : Prop :=
  AE e \/ trouble (K * list event) e \/ e = length_error \/ exists a, Address_to_string a = Throw e.

Definition sk_fd (i : rule_id) : FileDescriptor := match i with c1 | c4 => ad | c2 | c3 => td end.

Definition sk_rule (i : rule_id) : Rule (K * list event) (TCPSpongeSocket (channel A)) :=
  match i with
  | c1 => MkRule ad Direction_In read_segment read_segment_interest (mret tt)
  | c2 => MkRule td Direction_In read_pipe read_pipe_interest end_pipe
  | c3 => MkRule td Direction_Out write_pipe write_pipe_interest (mret tt)
  | c4 => MkRule ad Direction_Out write_segments write_segments_interest (mret tt)
  end.

Abbreviation chan w := (sk_datagram_adapter (w_state w)) (only parsing).

(** The endpoint that the socket implements. *)
Definition peer_of (c : TCPConnection) (w : W) : peer :=
  MkPeer c (bytes_read tnum (w_log w)) (bytes_written tnum (w_log w)) (ch_sent (chan w)).

(** The connection: linked with the other endpoint; its stream ends when the owner
    says so, or with an error, and then the connection is over; the owner is told of
    an end when there is one. *)
Record tcp_inv (w : W) (c : TCPConnection) : Prop := {
  ti_tcp : sk_tcp (w_state w) = Some c;
  ti_net : net_inv (peer_of c w) q;
  ti_open : sk_outbound_shutdown (w_state w) = false -> bs_input_ended (sd_stream (cn_sender c)) = true -> over c;
  ti_error : bs_error (sd_stream (cn_sender c)) = true -> over c;
  ti_shut : sk_inbound_shutdown (w_state w) = true -> inbound_over (cn_receiver c) = true
}.

(** The descriptors and the rules that hold them. *)
Record fds_inv (ids : list rule_id) (w : W) : Prop := {
  fi_ids : ids `sublist_of` all_ids;
  fi_thread : alive sk_fd (w_fds w) td tnum ids false;
  fi_adapter : exists anum, anum <> tnum /\ alive sk_fd (w_fds w) ad anum ids false;
  fi_td : sk_thread_data (w_state w) = td;
  fi_ad : da_fd (chan w) = ad;
  fi_incoming : ch_incoming (chan w) = pe_wire q;
  fi_keep : no_hangup K -> c3 ∈ ids /\ c4 ∈ ids
}.

Definition within_limit (w : W) : Prop :=
  0 <= left (fst (w_kernel w)) /\ zlen (bytes_read tnum (w_log w)) + left (fst (w_kernel w)) <= stream_limit.

Record sk_inv (ids : list rule_id) (w : W) : Prop := {
  si_fds : fds_inv ids w;
  si_tcp : exists c, tcp_inv w c;
  si_limit : within_limit w
}.

(** The limit is not exceeded, whatever is called. *)
Lemma within_limit_call w w' c :
  w_kernel w' = snd (k_call c (w_kernel w)) -> within_limit w -> within_limit w'.
Proof.
  intros Hk [_ Hl]. unfold within_limit in *. assert (w_log w' = w_log (world_call w c)) as -> by (unfold w_log; by rewrite Hk).
  rewrite call_read. destruct (w_kernel w) as [k l] eqn:Ew. rewrite logged_call in Hk. rewrite Hk. cbn [fst snd] in *.
  destruct (Hleft c k) as [B1 B2]. split; [done|]. rewrite logged_call. cbn [fst]. rewrite zlen_app. lia.
Qed.

Lemma left_steps (k k' : K * list event) : kernel_steps k k' -> 0 <= left (fst k) -> 0 <= left (fst k') <= left (fst k).
Proof.
  induction 1 as [|k1 k2 k3 [c ->] _ IH]; [lia|]. intros Hk. destruct k1 as [k1 l1]. rewrite logged_call in IH. cbn [fst snd] in *.
  destruct (Hleft c k1) as [B1 B2]. pose proof (zlen_nonneg (event_read tnum (c, fst (k_call c k1)))). specialize (IH B1). lia.
Qed.

Lemma within_limit_steps w w' :
  kernel_steps (w_kernel w) (w_kernel w') -> bytes_read tnum (w_log w') = bytes_read tnum (w_log w) ->
  within_limit w -> within_limit w'.
Proof.
  intros Hs Hb [B1 B2]. destruct (left_steps _ _ Hs B1) as [B3 B4]. split; [done|]. rewrite Hb. lia.
Qed.

(** *** Frames *)

Lemma fds_inv_used ids w w' fd o o' n :
  fds_inv ids w -> w_fds w !! fd = Some (o, n) -> w_fds w' = <[fd := (o', n)]> (w_fds w) ->
  fw_fd o' = fw_fd o -> fw_closed o' = fw_closed o ->
  sk_thread_data (w_state w') = sk_thread_data (w_state w) -> da_fd (chan w') = da_fd (chan w) ->
  ch_incoming (chan w') = ch_incoming (chan w) -> fds_inv ids w'.
Proof.
  intros [V1 V2 (anum & Hn & V3) V4 V5 V6 V7] Ho Hf E1 E2 E3 E4 E5.
  split; rewrite ?Hf; try done; try congruence; [by eapply alive_used|]. exists anum. split; [done|]. by eapply alive_used.
Qed.

Lemma fds_inv_same ids w w' :
  fds_inv ids w -> w_fds w' = w_fds w -> sk_thread_data (w_state w') = sk_thread_data (w_state w) ->
  da_fd (chan w') = da_fd (chan w) -> ch_incoming (chan w') = ch_incoming (chan w) -> fds_inv ids w'.
Proof. intros [V1 V2 V3 V4 V5 V6 V7] Hf E3 E4 E5. split; rewrite ?Hf; try done; congruence. Qed.

Lemma tcp_inv_same w w' c :
  tcp_inv w c -> sk_tcp (w_state w') = sk_tcp (w_state w) -> ch_sent (chan w') = ch_sent (chan w) ->
  sk_outbound_shutdown (w_state w') = sk_outbound_shutdown (w_state w) ->
  sk_inbound_shutdown (w_state w') = sk_inbound_shutdown (w_state w) ->
  bytes_read tnum (w_log w') = bytes_read tnum (w_log w) -> bytes_written tnum (w_log w') = bytes_written tnum (w_log w) ->
  tcp_inv w' c.
Proof.
  intros [T1 T2 T3 T4 T5] E1 E2 E3 E6 E4 E5. split; [congruence| |by rewrite E3|done|by rewrite E6].
  unfold peer_of. by rewrite E2, E4, E5.
Qed.

Lemma net_inv_conn p : net_inv p q -> conn_inv (pe_written p) (pe_conn p).
Proof. intros Hn. apply Hn. Qed.

(** The thread's own descriptor and the adapter's, when the rules are there. *)
Lemma thread_fd ids w :
  fds_inv ids w -> exists o n, w_fds w !! td = Some (o, n) /\ fw_fd o = tnum /\ fw_closed o = false /\ (refs sk_fd ids td < n)%nat.
Proof.
  intros Hf. destruct (fi_thread _ _ Hf) as (o & n & Ho & Hn & Hc & Hk). exists o, n. split_and!; try done.
  destruct (fw_closed o); [by specialize (Hc eq_refl)|done].
Qed.

Lemma adapter_fd ids w :
  fds_inv ids w -> exists o n, w_fds w !! ad = Some (o, n) /\ fw_fd o <> tnum /\ fw_closed o = false /\ (refs sk_fd ids ad < n)%nat.
Proof.
  intros Hf. destruct (fi_adapter _ _ Hf) as (anum & Hne & o & n & Ho & Hn & Hc & Hk). exists o, n. split_and!; try done; [congruence|].
  destruct (fw_closed o); [by specialize (Hc eq_refl)|done].
Qed.

(** *** Small steps *)

Lemma sk_get_wp w E (Q : TCPSpongeSocket (channel A) -> W -> Prop) : Q (w_state w) w -> wp sk_get E Q w.
Proof. done. Qed.

Lemma sk_modify_wp w E f (Q : unit -> W -> Prop) : Q tt (world_set_state w (f (w_state w))) -> wp (sk_modify f) E Q w.
Proof. done. Qed.

Lemma tcp_arrow_wp w c E (Q : TCPConnection -> W -> Prop) : sk_tcp (w_state w) = Some c -> Q c w -> wp tcp_arrow E Q w.
Proof. intros Hc HQ. unfold tcp_arrow, sk_get. wp_step. wp_step. rewrite Hc. by wp_step. Qed.

Lemma tcp_value_wp w c E (Q : TCPConnection -> W -> Prop) : sk_tcp (w_state w) = Some c -> Q c w -> wp tcp_value E Q w.
Proof. intros Hc HQ. unfold tcp_value, sk_get. wp_step. wp_step. rewrite Hc. by wp_step. Qed.

Lemma destination_wp w (Q : unit -> W -> Prop) : Q tt w -> wp destination_to_string sk_exn Q w.
Proof.
  intros HQ. unfold destination_to_string, sk_get. wp_step. wp_step. wp_step. apply lift_ok.
  - intros e He. right. right. right. by eexists.
  - intros x _. by wp_step.
Qed.

(** The adapter with the network behind it. *)
Lemma channel_read_wp (l : channel A) (w : W) o n :
  w_fds w !! da_fd l = Some (o, n) ->
  wp (da_read l) AE (fun '(seg, l') w' =>
    (exists o', used (da_fd l) o n w w' o' /\ fw_read_count o' = u32 (fw_read_count o + 1)) /\
    (exists a, l' = channel_with l a /\ da_fd a = da_fd (ch_adapter l)) /\
    forall s, seg = Some s -> Exists (same_segment s) (ch_incoming l)) w.
Proof.
  intros Ho. cbn [da_read channel_datagrams]. wp_step. eapply wp_mono; [by apply al_read|done|].
  intros [seg a] w' (Ha & Hu & Hs). wp_step. split_and!; [done|by exists a|].
  intros s. unfold let_through. destruct seg as [s'|]; [|done]. case_decide as Hd; [|done]. by intros [= <-].
Qed.

(** *** The connection moves *)

(** Events that are not the owner's. *)
Lemma tcp_inv_moves w w' c c' :
  tcp_inv w c -> bs_error (sd_stream (cn_sender c)) = false -> keeps_flags c c' ->
  (inbound_over (cn_receiver c) = true -> inbound_over (cn_receiver c') = true) ->
  sk_tcp (w_state w') = Some c' -> sk_outbound_shutdown (w_state w') = sk_outbound_shutdown (w_state w) ->
  sk_inbound_shutdown (w_state w') = sk_inbound_shutdown (w_state w) ->
  net_inv (peer_of c' w') q -> tcp_inv w' c'.
Proof.
  intros [T1 T2 T3 T4 T5] He Hk Hi E1 E2 E3 Hn. split; [done|done| | |rewrite E3; auto].
  - rewrite E2. intros Hs He'. destruct Hk as [Hk|Hk]; [|done]. unfold flags in Hk. injection Hk as F1 F2.
    rewrite F1 in He'. destruct (T3 Hs He'). congruence.
  - intros He'. destruct Hk as [Hk|Hk]; [|done]. unfold flags in Hk. injection Hk as F1 F2. congruence.
Qed.

(** And the owner's. *)
Lemma tcp_inv_owner w w' c c' :
  tcp_inv w c -> owners_only c c' -> sk_inbound_shutdown (w_state w') = sk_inbound_shutdown (w_state w) ->
  (sk_outbound_shutdown (w_state w') = false ->
     sk_outbound_shutdown (w_state w) = false /\
     bs_input_ended (sd_stream (cn_sender c')) = bs_input_ended (sd_stream (cn_sender c))) ->
  sk_tcp (w_state w') = Some c' -> net_inv (peer_of c' w') q -> tcp_inv w' c'.
Proof.
  intros [T1 T2 T3 T4 T5] Ho Hi Hs E1 Hn. split; [done|done| | |].
  - intros Hs' He. destruct (Hs Hs') as [Hs1 Hs2]. rewrite Hs2 in He. eapply owners_over; eauto.
  - intros He. destruct Ho as (O1 & O2 & O3). rewrite O1 in He. by eapply owners_over; [|apply T4].
  - rewrite Hi. intros Hs'. destruct Ho as (_ & O2 & _). unfold inbound_over, TCPConnection_inbound_stream in *. rewrite O2. auto.
Qed.

Lemma deliver_moves w c seg :
  tcp_inv w c -> Exists (same_segment seg) (pe_wire q) ->
  (exists c', TCPConnection_segment_received c seg = Ok c' /\ net_inv (peer_of c' w) q /\ keeps_flags c c' /\
     (inbound_over (cn_receiver c) = true -> inbound_over (cn_receiver c') = true)) \/
  TCPConnection_segment_received c seg = Throw length_error.
Proof.
  intros [T1 T2 T3 T4 T5] Hex. apply Exists_exists in Hex as (seg' & Hin & Hsame).
  apply list_elem_of_lookup in Hin as (k & Hk). rewrite (connection_segment_proper c _ _ Hsame).
  pose proof T2 as [N1 N2 N3 N4].
  destruct (deliver_step_ok q (peer_of c w) k N2 N1 N4 Hq) as [(p' & Ep & Hst & Hw)|Ep]; cbn [peer_exec] in Ep; rewrite Hk in Ep.
  - left. cbn [pe_conn peer_of] in Ep. destruct (TCPConnection_segment_received c seg') as [c'|e] eqn:Ec; [|done].
    injection Ep as <-. exists c'. split; [done|]. split; [exact (stepped_net _ _ _ T2 Hst)|].
    split; [eapply segment_received_flags; [apply (net_inv_conn _ T2)|exact Ec]|].
    pose proof (sn_wire _ N2) as Hw2. rewrite Forall_lookup in Hw2. destruct (Hw2 _ _ Hk) as [_ Hwin].
    exact (segment_inbound_over _ c seg' c' (net_inv_conn _ T2) Hwin Ec).
  - right. cbn [pe_conn peer_of] in Ep. destruct (TCPConnection_segment_received c seg') as [c'|e] eqn:Ec; [done|].
    by injection Ep as ->.
Qed.

(** Rule 1. *)
Definition served (ids : list rule_id) (i : rule_id) (w w' : W) : Prop :=
  sk_inv ids w' /\
  ((exists o n o' n', w_fds w !! sk_fd i = Some (o, n) /\ w_fds w' !! sk_fd i = Some (o', n') /\
     service_of (ru_direction (sk_rule i)) o <> service_of (ru_direction (sk_rule i)) o') \/
   wp (ru_interest (sk_rule i)) sk_exn (fun b _ => b = false) w') /\
  (forall fd, fd <> sk_fd i -> w_fds w' !! fd = w_fds w !! fd).

Lemma sk_inv_acked ids w : sk_inv ids w -> sk_inv ids (world_set_state w (sk_set_fully_acked (w_state w))).
Proof.
  intros [I1 (c & I2) I3]. split; [by eapply fds_inv_same|exists c; by eapply tcp_inv_same|done].
Qed.

(** The message that everything was acknowledged. *)
Lemma acked_message_wp ids w (Q : unit -> W -> Prop) :
  sk_inv ids w -> (forall w', sk_inv ids w' -> w_fds w' = w_fds w -> w_state w' = w_state w \/
    w_state w' = sk_set_fully_acked (w_state w) -> Q tt w') ->
  wp (s ← sk_get;
      eof ← FileDescriptor_eof (sk_thread_data s);
      if (eof : bool) then
        c ← tcp_value;
        if (TCPConnection_bytes_in_flight c =? 0) && negb (sk_fully_acked s) then
          _ ← destination_to_string;
          sk_modify sk_set_fully_acked
        else mret tt
      else mret tt) sk_exn Q w.
Proof.
  intros Hinv HQ. pose proof Hinv as [I1 (c & I2) I3]. destruct (thread_fd _ _ I1) as (o & n & Ho & _).
  unfold sk_get, FileDescriptor_eof. wp_step. wp_step. wp_step. wp_step. eapply deref_wp; [rewrite (fi_td _ _ I1); exact Ho|].
  wp_step. destruct (fw_eof o); [|wp_step; auto]. wp_step. eapply tcp_value_wp; [apply I2|].
  destruct (_ && _); [|wp_step; auto]. wp_step. apply destination_wp. unfold sk_modify. wp_step.
  apply HQ; [by apply sk_inv_acked|done|by right].
Qed.

(** The pipe may be read: no FIN was sent, and none is due. *)
Definition may_write (w : W) : Prop :=
  exists c, sk_tcp (w_state w) = Some c /\ sd_fined (cn_sender c) = false /\
    (bs_input_ended (sd_stream (cn_sender c)) = false \/ over c).

(** The stream to send is not broken. *)
Definition unbroken (w : W) : Prop :=
  exists c, sk_tcp (w_state w) = Some c /\ bs_error (sd_stream (cn_sender c)) = false.

(** A read of the adapter changes nothing else. *)
Lemma sk_inv_read ids w w1 a o n o' :
  sk_inv ids w -> w_fds w !! ad = Some (o, n) -> fw_fd o <> tnum -> used ad o n w w1 o' -> da_fd a = da_fd (ch_adapter (chan w)) ->
  sk_inv ids (world_set_state w1 (sk_set_adapter (w_state w1) (channel_with (chan w) a))).
Proof.
  intros [I1 (c & I2) I3] Ho Hne [U1 U2 U3 U4 U5 U6] Ha. destruct (U6 tnum) as [L1 L2]; [congruence|]. split.
  - eapply fds_inv_used; [exact I1|exact Ho|exact U1|exact U2|exact U3|cbn; by rewrite U4|exact Ha|done].
  - exists c. eapply tcp_inv_same; [exact I2|cbn; by rewrite U4|done|cbn; by rewrite U4..|exact L1|exact L2].
  - eapply within_limit_steps; [exact U5|exact L1|exact I3].
Qed.

Lemma sk_inv_deliver ids w c' c :
  sk_inv ids w -> tcp_inv w c -> bs_error (sd_stream (cn_sender c)) = false -> keeps_flags c c' ->
  (inbound_over (cn_receiver c) = true -> inbound_over (cn_receiver c') = true) ->
  net_inv (peer_of c' w) q -> sk_inv ids (world_set_state w (sk_set_tcp (w_state w) (Some c'))).
Proof.
  intros [I1 _ I3] I2 He Hk Hi Hn. split; [by eapply fds_inv_same| |done]. exists c'. by eapply tcp_inv_moves.
Qed.

Lemma read_segment_wp ids w :
  sk_inv ids w -> unbroken w ->
  wp read_segment sk_exn (fun _ w' => served ids c1 w w' /\ (may_write w -> may_write w')) w.
Proof.
  intros Hinv (c & Hc & He). pose proof Hinv as [I1 (c0 & I2) I3].
  assert (c0 = c) as -> by (pose proof (ti_tcp _ _ I2); congruence).
  destruct (adapter_fd _ _ I1) as (o & n & Ho & Hne & Hcl & Hn).
  unfold read_segment, sk_get. wp_step. wp_step. wp_step.
  eapply wp_mono; [eapply (channel_read_wp (chan w)); rewrite (fi_ad _ _ I1); exact Ho|by left|].
  rewrite (fi_ad _ _ I1). intros [seg l] w1 ((o' & Hu & Hcount) & (a & -> & Ha) & Hseg).
  wp_step. apply sk_modify_wp. set (w2 := world_set_state _ _).
  assert (sk_inv ids w2) as Hinv2 by (by eapply sk_inv_read).
  assert (sk_tcp (w_state w2) = Some c) as Hc2 by (unfold w2; cbn; by rewrite (us_state _ _ _ _ _ _ Hu)).
  wp_step. eapply (wp_mono _ sk_exn _ (fun _ w' => sk_inv ids w' /\ w_fds w' = w_fds w2 /\ (may_write w -> may_write w'))).
  - destruct seg as [seg|].
    2: { wp_step. split_and!; try done. intros (c5 & Hc5 & R). exists c5. split; [congruence|done]. }
    wp_step. eapply tcp_arrow_wp; [done|]. wp_step. pose proof Hinv2 as [J1 (c5 & J2) J3].
    assert (c5 = c) as -> by (pose proof (ti_tcp _ _ J2); congruence).
    destruct (deliver_moves w2 c seg J2) as [(c' & Ec & Hnet & Hk & Hi)|Ec].
    { pose proof (Hseg _ eq_refl) as Hin. by rewrite (fi_incoming _ _ I1) in Hin. }
    + rewrite Ec. wp_step. unfold tcp_store, sk_modify. wp_step. split_and!; [by eapply sk_inv_deliver|done|].
      intros (c5 & Hc5 & Hf & Hov). exists c'. split; [done|]. assert (c5 = c) as -> by congruence.
      destruct Hov as [Hov|Hov]; [|by destruct Hov; congruence].
      rewrite (segment_received_fined c seg c' Hov Ec). split; [done|]. destruct Hk as [Hk|Hk]; [left|by right].
      unfold flags in Hk. injection Hk as F1 F2. congruence.
    + rewrite Ec. wp_step. right. right. by left.
  - done.
  - intros [] w3 (J1 & J2 & J3). eapply acked_message_wp; [exact J1|]. intros w4 K1 K2 K3. split.
    + split_and!; [done| |].
      * left. exists o, n, o', n. cbn [sk_fd]. rewrite K2, J2. split; [done|]. unfold w2. cbn [w_fds world_set_state].
        rewrite (us_fds _ _ _ _ _ _ Hu). split; [apply lookup_insert_eq|]. cbn. rewrite Hcount. wrap_lia.
      * intros fd Hfd. rewrite K2, J2. unfold w2. cbn [w_fds world_set_state]. rewrite (us_fds _ _ _ _ _ _ Hu).
        by apply lookup_insert_ne.
    + intros Hm. destruct (J3 Hm) as (c5 & Hc5 & R). exists c5. split; [|done]. by destruct K3 as [-> | ->].
Qed.

(** *** Rule 2 *)

Lemma write_moves w c d :
  tcp_inv w c -> sd_fined (cn_sender c) = false -> zlen d <= TCPConnection_remaining_outbound_capacity c ->
  zlen (bytes_read tnum (w_log w)) + zlen d <= stream_limit ->
  exists c', TCPConnection_write c d = Ok (c', zlen d) /\ owners_only c c' /\
    bs_input_ended (sd_stream (cn_sender c')) = bs_input_ended (sd_stream (cn_sender c)) /\
    net_inv (MkPeer c' (bytes_read tnum (w_log w) ++ d) (bytes_written tnum (w_log w)) (ch_sent (chan w))) q.
Proof.
  intros [T1 T2 T3 T4 T5] Hf Hcap Hl. pose proof T2 as [N1 N2 N3 N4].
  destruct (write_step_ok q (peer_of c w) d N1 N4 Hl) as (p' & Ep & Hst & _).
  pose proof (zlen_nonneg (bytes_read tnum (w_log w))). unfold stream_limit in *.
  destruct (conn_write_ok _ c d (net_inv_conn _ T2) Hf) as (c' & n & Ec & En & _); [cbn; unfold index_limit; lia|].
  rewrite Z.min_l in En by lia. subst n. exists c'. split; [done|].
  destruct (conn_write_flags c d c' (zlen d)) as [F1 F2]; [apply (net_inv_conn _ T2)|lia|done|]. split_and!; try done.
  cbn [peer_exec peer_of pe_conn] in Ep. unfold TCPSender_fined in Ep. rewrite Hf, Ec in Ep.
  cbn in Ep. rewrite ztake_ge in Ep by lia. injection Ep as <-. exact (stepped_net _ _ _ T2 Hst).
Qed.

Lemma end_moves w c :
  tcp_inv w c -> within_limit w ->
  exists c', TCPConnection_end_input_stream c = Ok c' /\ owners_only c c' /\ net_inv (peer_of c' w) q.
Proof.
  intros [T1 T2 T3 T4 T5] [Hl0 Hl]. pose proof T2 as [N1 N2 N3 N4].
  assert (zlen (pe_written (peer_of c w)) + action_bytes act_end_input <= stream_limit) as Hlim by (cbn; lia).
  destruct (end_input_stream_ok _ c (net_inv_conn _ T2)) as (c' & Ec & _ & Hle & Hr). exists c'. split; [done|].
  split; [by apply end_input_flags|].
  destruct (peer_step_ok q (peer_of c w) act_end_input N2 N1 N4 I Hq Hlim) as [(p' & Ep & Hst & _)|Ep]; cbn [peer_exec peer_of pe_conn] in Ep.
  - rewrite Ec in Ep. injection Ep as <-. exact (stepped_net _ _ _ T2 Hst).
  - rewrite Ec in Ep. done.
Qed.

(** The owner's stream ends. *)
Lemma sk_inv_ended ids w :
  sk_inv ids w -> exists c c', sk_tcp (w_state w) = Some c /\ TCPConnection_end_input_stream c = Ok c' /\
    let w' := world_set_state w (sk_set_outbound_shutdown (sk_set_tcp (w_state w) (Some c'))) in
    sk_inv ids w' /\ (unbroken w -> unbroken w').
Proof.
  intros Hinv. pose proof Hinv as [I1 (c & I2) I3]. destruct (end_moves w c I2 I3) as (c' & Ec & Ho & Hn).
  exists c, c'. split; [apply I2|]. split; [done|]. split.
  - split; [by eapply fds_inv_same| |done]. exists c'. by eapply tcp_inv_owner.
  - intros (c5 & Hc5 & He). exists c'. split; [done|]. destruct Ho as (-> & _). pose proof (ti_tcp _ _ I2). congruence.
Qed.

Lemma end_pipe_wp ids w :
  sk_inv ids w -> wp end_pipe sk_exn (fun _ w' => sk_inv ids w' /\ w_fds w' = w_fds w /\ (unbroken w -> unbroken w')) w.
Proof.
  intros Hinv. destruct (sk_inv_ended ids w Hinv) as (c & c' & Hc & Ec & Hinv' & Hu). unfold end_pipe.
  wp_step. eapply tcp_arrow_wp; [done|]. wp_step. rewrite Ec. wp_step. wp_step. apply sk_modify_wp. by apply sk_modify_wp.
Qed.

Lemma capacity_range w c : tcp_inv w c -> 0 <= TCPConnection_remaining_outbound_capacity c < 2 ^ 64.
Proof.
  intros [T1 T2 T3 T4 T5]. pose proof (sc_stream _ _ (ci_core _ _ (net_inv_conn _ T2))) as Hwf. cbn in Hwf.
  unfold TCPConnection_remaining_outbound_capacity, TCPSender_stream_in.
  rewrite ByteStream_remaining_capacity_eq by done. destruct Hwf. pose proof (zlen_nonneg (bs_contents (sd_stream (cn_sender c)))). lia.
Qed.

(** Bytes of the owner are read and written to the connection. *)
Lemma pipe_in_wp ids w (Q : unit -> W -> Prop) (rest : io W unit) :
  sk_inv ids w -> may_write w ->
  (forall w' o n o', sk_inv ids w' -> w_fds w !! td = Some (o, n) -> w_fds w' = <[td := (o', n)]> (w_fds w) ->
     fw_read_count o' = u32 (fw_read_count o + 1) -> sk_thread_data (w_state w') = td -> wp rest sk_exn Q w') ->
  wp (c ← tcp_arrow;
      data ← FileDescriptor_read (sk_thread_data (w_state w)) (TCPConnection_remaining_outbound_capacity c);
      let len := zlen data in
      c ← tcp_arrow;
      '(c, amount_written) ← lift (TCPConnection_write c data);
      _ ← tcp_store c;
      if negb (amount_written =? len) then throw runtime_error else rest) sk_exn Q w.
Proof.
  intros Hinv (c & Hc & Hf & _) HQ. pose proof Hinv as [I1 (c0 & I2) I3].
  assert (c0 = c) as -> by (pose proof (ti_tcp _ _ I2); congruence).
  destruct (thread_fd _ _ I1) as (o & n & Ho & Hnum & _). wp_step. eapply tcp_arrow_wp; [done|].
  wp_step. rewrite (fi_td _ _ I1). eapply (read_wp sk_exn); [intros; right; by left|exact Ho|by eapply capacity_range|].
  set (lim := TCPConnection_remaining_outbound_capacity c). intros call r d Hd. set (w1 := world_store _ _ _ _).
  assert (w_kernel w1 = snd (k_call call (w_kernel w))) as Hk by done.
  assert (bytes_read tnum (w_log w1) = bytes_read tnum (w_log w) ++ d) as Lr.
  { change (w_log w1) with (w_log (world_call w call)). rewrite call_read. f_equal. unfold call, event_read. cbn [fst snd]. by rewrite (proj2 (Z.eqb_eq _ _) Hnum). }
  assert (bytes_written tnum (w_log w1) = bytes_written tnum (w_log w)) as Lw.
  { change (w_log w1) with (w_log (world_call w call)). rewrite call_written. apply app_nil_r. }
  pose proof (within_limit_call w w1 _ Hk I3) as I3'. pose proof I3' as [B1 B2]. rewrite Lr, zlen_app in B2.
  destruct (write_moves w c d I2 Hf Hd) as (c' & Ec & Hown & Hend & Hnet); [lia|].
  cbv zeta. wp_step. eapply tcp_arrow_wp; [exact Hc|]. wp_step. rewrite Ec. wp_step. wp_step. apply sk_modify_wp. rewrite Z.eqb_refl. cbn [negb].
  eapply HQ; [|exact Ho|done|done|apply (fi_td _ _ I1)]. split; [by eapply fds_inv_used| |done].
  exists c'. eapply tcp_inv_owner; [exact I2|exact Hown|done|done|done|].
  unfold peer_of. cbn [w_state world_set_state]. change (w_log (world_set_state ?x _)) with (w_log x). by rewrite Lr, Lw.
Qed.

Lemma read_pipe_wp ids w : sk_inv ids w -> may_write w -> wp read_pipe sk_exn (fun _ w' => served ids c2 w w') w.
Proof.
  intros Hinv Hm. unfold read_pipe. wp_step. apply sk_get_wp. eapply pipe_in_wp; [done|done|].
  intros w1 o n o' Hinv1 Ho Hf Hcnt Htd.
  assert (forall w', sk_inv ids w' -> w_fds w' = w_fds w1 -> served ids c2 w w') as Hsv.
  { intros w' J1 J2. split_and!; [done| |intros fd Hfd; rewrite J2, Hf; by apply lookup_insert_ne].
    left. exists o, n, o', n. cbn [sk_fd]. rewrite J2, Hf. split; [done|]. split; [apply lookup_insert_eq|].
    cbn. rewrite Hcnt. wrap_lia. }
  wp_step. unfold FileDescriptor_eof. wp_step. rewrite (fi_td _ _ (si_fds _ _ Hinv)).
  eapply deref_wp; [rewrite Hf; apply lookup_insert_eq|]. wp_step. destruct (fw_eof o'); [|wp_step; by apply Hsv].
  destruct (sk_inv_ended ids w1 Hinv1) as (c & c' & Hc & Ec & Hinv' & _).
  wp_step. eapply tcp_arrow_wp; [done|]. wp_step. rewrite Ec. wp_step. wp_step. apply sk_modify_wp. wp_step. apply sk_modify_wp.
  wp_step. apply destination_wp. wp_step. eapply tcp_value_wp; [done|]. wp_step. by apply Hsv.
Qed.

(** *** Rule 3 *)

Lemma read_moves w c v :
  tcp_inv w c -> within_limit w -> 0 <= v ->
  exists out, ByteStream_pop_output (TCPConnection_inbound_stream c) v = Ok out /\
    bs_error out = bs_error (TCPConnection_inbound_stream c) /\
    (ByteStream_eof (TCPConnection_inbound_stream c) = true -> ByteStream_eof out = true) /\
    net_inv (MkPeer (TCPConnection_set_receiver c (TCPReceiver_with_output (cn_receiver c) out))
      (bytes_read tnum (w_log w)) (bytes_written tnum (w_log w) ++ ztake v (bs_contents (TCPConnection_inbound_stream c)))
      (ch_sent (chan w))) q.
Proof.
  intros [T1 T2 T3 T4 T5] [Hl0 Hl] Hv. pose proof T2 as [N1 N2 N3 N4].
  assert (zlen (pe_written (peer_of c w)) + action_bytes (act_read v) <= stream_limit) as Hlim by (cbn; lia).
  assert (bs_wf (TCPConnection_inbound_stream c)) as Hwf by apply N4.
  destruct (ByteStream_read_ok _ v Hwf Hv) as (out & Er & Hp). exists out.
  destruct (peer_step_ok q (peer_of c w) (act_read v) N2 N1 N4 Hv Hq Hlim) as [(p' & Ep & Hst & _)|Ep];
    cbn [peer_exec peer_of pe_conn] in Ep; rewrite Er in Ep; [|done].
  injection Ep as <-. split.
  { unfold ByteStream_read in Er. destruct (ByteStream_pop_output _ v); [by injection Er as <- _|done]. }
  split; [apply Hp|]. split; [|exact (stepped_net _ _ _ T2 Hst)].
  unfold ByteStream_eof, ByteStream_buffer_empty. rewrite !bs_wf_size by (done || apply Hp). intros He. b2p.
  rewrite (ps_contents _ _ _ Hp), (ps_ended _ _ _ Hp), zlen_zdrop. apply andb_true_intro. split; [done|]. apply Z.eqb_eq. lia.
Qed.

(** The connection after its inbound stream was read. *)
Definition taken (c : TCPConnection) (out : ByteStream) : TCPConnection :=
  TCPConnection_set_receiver c (TCPReceiver_with_output (cn_receiver c) out).

Lemma taken_inv w w' c v out :
  tcp_inv w c -> within_limit w -> 0 <= v -> ByteStream_pop_output (TCPConnection_inbound_stream c) v = Ok out ->
  sk_tcp (w_state w') = Some (taken c out) -> ch_sent (chan w') = ch_sent (chan w) ->
  sk_outbound_shutdown (w_state w') = sk_outbound_shutdown (w_state w) ->
  (sk_inbound_shutdown (w_state w') = true ->
     sk_inbound_shutdown (w_state w) = true \/ ByteStream_eof out || bs_error out = true) ->
  bytes_read tnum (w_log w') = bytes_read tnum (w_log w) ->
  bytes_written tnum (w_log w') = bytes_written tnum (w_log w) ++ ztake v (bs_contents (TCPConnection_inbound_stream c)) ->
  tcp_inv w' (taken c out).
Proof.
  intros I2 I3 Hv Ep E1 E2 E3 E4 E5 E6. destruct (read_moves w c v I2 I3 Hv) as (out' & Ep' & He & Heof & Hn).
  assert (out' = out) as -> by congruence. destruct I2 as [T1 T2 T3 T4 T5].
  assert (over c -> over (taken c out)) as Hov by (intros [O1 O2 O3]; split; [cbn; congruence|done|done]).
  split; [done| |rewrite E3; intros; by apply Hov, T3|intros; by apply Hov, T4|].
  - unfold peer_of. rewrite E2, E5, E6. exact Hn.
  - intros Hs. destruct (E4 Hs) as [Hs0|Hs0]; [|done]. specialize (T5 Hs0). unfold inbound_over in *. cbn in *.
    change (TCPReceiver_stream_out (cn_receiver c)) with (TCPConnection_inbound_stream c) in T5.
    rewrite He. apply orb_prop in T5 as [T5 | ->]; [by rewrite (Heof T5)|apply orb_true_r].
Qed.

(** A write to the pipe. *)
Lemma piped ids w w' c o o' n :
  sk_inv ids w -> w_fds w !! td = Some (o, n) -> w_fds w' = <[td := (o', n)]> (w_fds w) -> fw_fd o' = fw_fd o ->
  fw_closed o' = fw_closed o -> fw_write_count o <> fw_write_count o' ->
  sk_thread_data (w_state w') = sk_thread_data (w_state w) -> chan w' = chan w ->
  kernel_steps (w_kernel w) (w_kernel w') -> bytes_read tnum (w_log w') = bytes_read tnum (w_log w) ->
  tcp_inv w' c -> served ids c3 w w'.
Proof.
  intros [I1 _ I3] Ho Hf E1 E2 E3 E4 E5 E6 E7 Ht. split_and!.
  - split; [eapply fds_inv_used; eauto; by rewrite E5|by exists c|by eapply within_limit_steps].
  - left. exists o, n, o', n. cbn [sk_fd]. rewrite Hf. split_and!; [done|apply lookup_insert_eq|done].
  - intros fd Hfd. rewrite Hf. by apply lookup_insert_ne.
Qed.

Lemma write_pipe_wp ids w : sk_inv ids w -> wp write_pipe sk_exn (fun _ w' => served ids c3 w w') w.
Proof.
  intros Hinv. pose proof Hinv as [I1 (c & I2) I3]. destruct (thread_fd _ _ I1) as (o & n & Ho & Hnum & _).
  unfold write_pipe. wp_step. apply sk_get_wp. wp_step. eapply tcp_arrow_wp; [apply I2|]. cbv zeta.
  rewrite (fi_td _ _ I1). assert (bs_wf (TCPConnection_inbound_stream c)) as Hwf by apply (ti_net _ _ I2).
  eapply (write_fd_wp sk_exn); [intros; right; by left|exact Ho|done|]. intros v w1 Hv Hs Hf Hr Hw Hk.
  destruct (read_moves w c v I2 I3) as (out & Ep & _); [lia|]. wp_step. rewrite Ep. wp_step.
  unfold inbound_store. wp_step. wp_step. eapply tcp_arrow_wp; [rewrite Hs; apply I2|]. apply sk_modify_wp. fold (taken c out).
  specialize (Hw tnum). rewrite (proj2 (Z.eqb_eq _ _) Hnum) in Hw. destruct (ByteStream_eof out || bs_error out) eqn:Eo.
  - wp_step. eapply (shutdown_wr_wp sk_exn); [intros; right; by left|cbn; rewrite Hf; apply lookup_insert_eq|].
    wp_step. apply sk_modify_wp. wp_step. apply destination_wp. wp_step. eapply tcp_value_wp; [done|]. wp_step.
    eapply (piped _ _ _ (taken c out) o (write_done (write_done o)) n); try done.
    + cbn. by rewrite Hf, insert_insert_eq.
    + cbn. wrap_lia.
    + cbn. by rewrite Hs.
    + cbn. by rewrite Hs.
    + etrans; [exact Hk|]. apply kernel_step.
    + rewrite <- Hr. by eapply quiet_call.
    + eapply (taken_inv w _ c v out); try done; [lia|cbn; by rewrite Hs..|by right| |].
      * rewrite <- Hr. by eapply quiet_call.
      * rewrite <- Hw. by eapply quiet_call.
  - wp_step. eapply (piped _ _ _ (taken c out) o (write_done o) n); try done; try (cbn; by rewrite Hs).
    + cbn. wrap_lia.
    + eapply (taken_inv w _ c v out); try done; try (cbn; by rewrite Hs); [lia|cbn; rewrite Hs; by left].
Qed.

(** *** Rule 4 *)

(** One segment goes out. *)
Lemma transmit_moves c W R wire seg rest :
  net_inv (MkPeer c W R wire) q -> cn_segments_out c = seg :: rest ->
  sendable seg /\ net_inv (MkPeer (TCPConnection_set_segments_out c rest) W R (wire ++ [seg])) q.
Proof.
  intros [[[C1 C2 C3] S2] N2 N3 N4] Hs. cbn in *. rewrite Hs in C3. apply Forall_cons in C3 as [Hseg C3]. split.
  - destruct Hseg as [(a & [_ _ _ _ _ S7 S8] & _) _]. by split.
  - split; [split; [by split|]|done|done|done]. cbn. apply Forall_app. split; [done|by constructor].
Qed.

Lemma channel_write_wp (l : channel A) seg (w : W) o n :
  w_fds w !! da_fd l = Some (o, n) -> sendable seg ->
  wp (da_write l seg) AE (fun l' w' => written (da_fd l) o n w w' /\
    exists a, l' = MkChannel a (ch_incoming l) (ch_sent l ++ [seg]) /\ da_fd a = da_fd (ch_adapter l)) w.
Proof.
  intros Ho Hs. cbn [da_write channel_datagrams]. wp_step. eapply wp_mono; [by apply al_write|done|].
  intros a w' (Ha & Hu). wp_step. split; [done|]. by exists a.
Qed.

Lemma sk_inv_sent ids w w1 a o n o' c seg rest :
  sk_inv ids w -> tcp_inv w c -> cn_segments_out c = seg :: rest -> w_fds w !! ad = Some (o, n) -> fw_fd o <> tnum ->
  used ad o n w w1 o' -> da_fd a = da_fd (ch_adapter (chan w)) ->
  let s1 := sk_set_adapter (w_state w1) (MkChannel a (ch_incoming (chan w)) (ch_sent (chan w) ++ [seg])) in
  sk_inv ids (world_set_state w1 (sk_set_tcp s1 (Some (TCPConnection_set_segments_out c rest)))).
Proof.
  intros [I1 _ I3] I2 Hs Ho Hne [U1 U2 U3 U4 U5 U6] Ha s1. destruct (U6 tnum) as [L1 L2]; [congruence|]. split.
  - eapply fds_inv_used; [exact I1|exact Ho|exact U1|exact U2|exact U3|cbn; by rewrite U4|exact Ha|done].
  - destruct I2 as [T1 T2 T3 T4 T5]. destruct (transmit_moves _ _ _ _ _ _ T2 Hs) as [_ Hn].
    assert (over c -> over (TCPConnection_set_segments_out c rest)) as Hov by (by intros []).
    exists (TCPConnection_set_segments_out c rest). unfold s1.
    split; [done| |cbn; rewrite U4; intros; by apply Hov, T3|intros; by apply Hov, T4|cbn; by rewrite U4].
    unfold peer_of. change (w_log (world_set_state w1 _)) with (w_log w1). rewrite L1, L2. exact Hn.
  - eapply within_limit_steps; [exact U5|exact L1|exact I3].
Qed.

Lemma write_segments_from_wp ids queue w c :
  sk_inv ids w -> tcp_inv w c -> cn_segments_out c = queue ->
  wp (write_segments_from queue) sk_exn (fun _ w' => sk_inv ids w' /\
    (exists c', sk_tcp (w_state w') = Some c' /\ cn_segments_out c' = []) /\
    (forall fd, fd <> ad -> w_fds w' !! fd = w_fds w !! fd)) w.
Proof.
  revert w c. induction queue as [|seg queue IH]; intros w c Hinv I2 Hq1; cbn [write_segments_from].
  { wp_step. split_and!; [done|exists c; split; [apply I2|done]|done]. }
  pose proof (si_fds _ _ Hinv) as I1. destruct (adapter_fd _ _ I1) as (o & n & Ho & Hne & _).
  destruct (transmit_moves _ _ _ _ _ _ (ti_net _ _ I2) Hq1) as [Hsend _].
  wp_step. apply sk_get_wp. wp_step.
  eapply wp_mono; [eapply (channel_write_wp (chan w)); [rewrite (fi_ad _ _ I1); exact Ho|done]|by left|].
  rewrite (fi_ad _ _ I1). intros l w1 ((o' & Hu & _) & (a & -> & Ha)). wp_step. apply sk_modify_wp.
  wp_step. eapply tcp_arrow_wp; [cbn; rewrite (us_state _ _ _ _ _ _ Hu); apply I2|]. wp_step. apply sk_modify_wp.
  set (w2 := world_set_state _ _). pose proof (sk_inv_sent ids w w1 a o n o' c seg queue Hinv I2 Hq1 Ho Hne Hu Ha) as Hinv2.
  fold w2 in Hinv2. pose proof Hinv2 as [_ (c2 & J2) _].
  assert (c2 = TCPConnection_set_segments_out c queue) as -> by (pose proof (ti_tcp _ _ J2) as Ht; cbn in Ht; congruence).
  eapply wp_mono; [by eapply IH|done|]. intros [] w3 (R1 & R2 & R3). split_and!; [done|done|].
  intros fd Hfd. rewrite R3 by done. cbn. rewrite (us_fds _ _ _ _ _ _ Hu). by apply lookup_insert_ne.
Qed.

Lemma write_segments_wp ids w : sk_inv ids w -> wp write_segments sk_exn (fun _ w' => served ids c4 w w') w.
Proof.
  intros Hinv. pose proof Hinv as [I1 (c & I2) I3]. unfold write_segments. wp_step. eapply tcp_arrow_wp; [apply I2|].
  eapply wp_mono; [by eapply write_segments_from_wp|done|]. intros [] w' (R1 & (c' & R2 & R3) & R4).
  split_and!; [done|right|done]. cbn [sk_rule ru_interest]. unfold write_segments_interest. wp_step.
  eapply tcp_arrow_wp; [done|]. wp_step. by rewrite R3.
Qed.

(** *** The rules *)

Definition asks (i : rule_id) (w : W) : Prop :=
  match i with c1 => unbroken w | c2 => may_write w | _ => True end.

Definition idles (i : rule_id) (w : W) : Prop :=
  match i with
  | c3 => exists c, sk_tcp (w_state w) = Some c /\ bs_contents (TCPConnection_inbound_stream c) = [] /\
            (inbound_over (cn_receiver c) = true -> sk_inbound_shutdown (w_state w) = true)
  | c4 => exists c, sk_tcp (w_state w) = Some c /\ cn_segments_out c = []
  | _ => True
  end.

Lemma sk_interest_wp ids i w :
  sk_inv ids w -> wp (ru_interest (sk_rule i)) sk_exn (fun b w' => w' = w /\ if b then asks i w else idles i w) w.
Proof.
  intros Hinv. pose proof Hinv as [I1 (c & I2) I3]. pose proof (ti_tcp _ _ I2) as Hc. destruct i; cbn [sk_rule ru_interest].
  - unfold read_segment_interest. wp_step. eapply tcp_arrow_wp; [done|]. wp_step. split; [done|].
    destruct (TCPConnection_active c) eqn:Ea; [|done]. exists c. split; [done|]. apply not_true_is_false. intros He.
    rewrite over_inactive in Ea; [done|]. by apply (ti_error _ _ I2).
  - unfold read_pipe_interest. wp_step. apply sk_get_wp. wp_step. eapply tcp_arrow_wp; [done|]. wp_step. split; [done|].
    destruct (_ && _) eqn:Eb; [|done]. b2p. exists c. split; [done|].
    assert (bs_input_ended (sd_stream (cn_sender c)) = false) as He.
    { apply not_true_is_false. intros He. pose proof (over_inactive c) as Hov. rewrite Hov in *; [done|]. by apply (ti_open _ _ I2). }
    split; [|by left]. apply not_true_is_false. intros Hf.
    destruct (sp_fined _ _ (ci_pos _ _ (net_inv_conn _ (ti_net _ _ I2))) Hf). cbn in *. congruence.
  - unfold write_pipe_interest. wp_step. apply sk_get_wp. wp_step. eapply tcp_arrow_wp; [done|]. wp_step. split; [done|].
    destruct (negb _ || _) eqn:Eb; [done|]. apply orb_false_elim in Eb as [E1 E2]. exists c. split; [done|].
    unfold ByteStream_buffer_empty in E1. rewrite bs_wf_size in E1 by apply (ti_net _ _ I2). b2p.
    split; [by apply zlen_zero_nil|]. intros Hio. unfold inbound_over in Hio.
    change (TCPReceiver_stream_out (cn_receiver c)) with (TCPConnection_inbound_stream c) in Hio. rewrite Hio in E2.
    destruct E2 as [E2|E2]; [done|]. by apply negb_false_iff.
  - unfold write_segments_interest. wp_step. eapply tcp_arrow_wp; [done|]. wp_step. split; [done|].
    destruct (bool_decide _) eqn:Eb; [|done]. exists c. split; [done|]. by apply bool_decide_eq_true in Eb.
Qed.

Lemma sk_fd_rule i : ru_fd (sk_rule i) = sk_fd i.
Proof. by destruct i. Qed.

Lemma sk_rule_inj i j : sk_rule i = sk_rule j -> i = j.
Proof.
  intros Hr. assert (ru_direction (sk_rule i) = ru_direction (sk_rule j)) as Hd by (by rewrite Hr).
  assert (sk_fd i = sk_fd j) as Hf by (by rewrite <- !sk_fd_rule, Hr). destruct i, j; cbn in *; congruence.
Qed.

Lemma sk_alive ids i w :
  fds_inv ids w -> exists o k, w_fds w !! sk_fd i = Some (o, k) /\ (refs sk_fd ids (sk_fd i) < k)%nat /\ fw_closed o = false.
Proof.
  intros Hf. destruct (thread_fd _ _ Hf) as (o & k & A1 & _ & A3 & A4). destruct (adapter_fd _ _ Hf) as (o' & k' & B1 & _ & B3 & B4).
  destruct i; [exists o', k'|exists o, k|exists o, k|exists o', k']; done.
Qed.

(** Only a hangup cancels a rule that writes. *)
Lemma sk_cancel_why ids i w : fds_inv ids w -> cancel_reason (sk_rule i) w -> no_hangup K -> i <> c3 /\ i <> c4.
Proof.
  intros Hf Hr Hn. destruct (sk_alive _ i _ Hf) as (o & k & Ho & _ & Hc).
  destruct Hr as [(o1 & k1 & Ho1 & Hwhy)|Hr]; [|by destruct (Hr (no_hangup_logged Hn))].
  rewrite sk_fd_rule, Ho in Ho1. injection Ho1 as <- <-. destruct Hwhy as [[Hd _]|Hc']; [|congruence].
  by destruct i.
Qed.

Lemma id_stays (i1 i2 : list rule_id) i j : i <> j -> j ∈ i1 ++ i :: i2 -> j ∈ i1 ++ i2.
Proof. rewrite !elem_of_app, elem_of_cons. intros Hne [Hj|[Hj|Hj]]; [by left|congruence|by right]. Qed.

Lemma sk_cancel_inv i1 i i2 w o k :
  sk_inv (i1 ++ i :: i2) w -> (no_hangup K -> i <> c3 /\ i <> c4) -> w_fds w !! sk_fd i = Some (o, S k) ->
  sk_inv (i1 ++ i2) (world_store w (sk_fd i) o k).
Proof.
  intros [[V1 V2 (anum & Hne & V3) V4 V5 V6 V7] (c & I2) I3] Hwhy Ho. split; [|exists c; by eapply tcp_inv_same|done].
  assert (refs sk_fd (i1 ++ i :: i2) (sk_fd i) < S k)%nat as Hk.
  { destruct (sk_alive (i1 ++ i :: i2) i w) as (o' & k' & Ho' & Hk & _); [split; try done; by exists anum|]. congruence. }
  split; try done.
  - by eapply ids_shrink.
  - by apply alive_released.
  - exists anum. split; [done|]. by apply alive_released.
  - intros Hn. destruct (V7 Hn) as [K3 K4]. destruct (Hwhy Hn) as [W3 W4]. 
    split; eapply id_stays; eauto.
Qed.

Lemma sk_cancel_wp i1 i i2 w :
  sk_inv (i1 ++ i :: i2) w -> cancel_reason (sk_rule i) w ->
  wp (cancel_rule (sk_rule i)) sk_exn (fun _ w' => sk_inv (i1 ++ i2) w' /\ (i <> c2 -> w_state w' = w_state w) /\
    (unbroken w -> unbroken w') /\ forall fd, eof_of (w_fds w') fd = eof_of (w_fds w) fd) w.
Proof.
  intros Hinv Hr. pose proof (sk_cancel_why _ _ _ (si_fds _ _ Hinv) Hr) as Hwhy.
  destruct (sk_alive _ i _ (si_fds _ _ Hinv)) as (o & k & Ho & Hk & _).
  rewrite refs_removed, bool_decide_true in Hk by done. destruct k as [|[|k]]; [lia|lia|]. unfold cancel_rule. wp_step.
  apply (wp_mono _ sk_exn _ (fun _ w' => sk_inv (i1 ++ i :: i2) w' /\ w_fds w' = w_fds w /\ (i <> c2 -> w_state w' = w_state w) /\
    (unbroken w -> unbroken w'))); [|done|].
  - destruct i; cbn [sk_rule ru_cancel]; try (by wp_step). eapply wp_mono; [by apply end_pipe_wp|done|].
    intros [] w' (R1 & R2 & R3). by split_and!.
  - intros [] w1 (R1 & R2 & R3 & R4). rewrite sk_fd_rule. rewrite <- R2 in Ho. eapply destroy_shared_wp; [exact Ho|].
    split_and!; [by eapply sk_cancel_inv|done|done|]. intros fd. rewrite <- R2. by eapply eof_released.
Qed.

Lemma sk_callback_wp ids i w :
  sk_inv ids w -> asks i w ->
  wp (ru_callback (sk_rule i)) sk_exn (fun _ w' => served ids i w w' /\ (i = c1 -> may_write w -> may_write w')) w.
Proof.
  intros Hinv Ha. destruct i; cbn [sk_rule ru_callback].
  - eapply wp_mono; [by apply read_segment_wp|done|]. intros [] w' [R1 R2]. by split.
  - eapply wp_mono; [by apply read_pipe_wp|done|]. intros [] w' R1. by split.
  - eapply wp_mono; [by apply write_pipe_wp|done|]. intros [] w' R1. by split.
  - eapply wp_mono; [by apply write_segments_wp|done|]. intros [] w' R1. by split.
Qed.

Definition sk_J (l : list (Rule (K * list event) (TCPSpongeSocket (channel A)))) (w : W) : Prop :=
  exists ids, l = map sk_rule ids /\ sk_inv ids w.
Definition sk_X (r : Rule (K * list event) (TCPSpongeSocket (channel A))) (w : W) : Prop :=
  exists i, r = sk_rule i /\ idles i w.
Definition sk_Y (r : Rule (K * list event) (TCPSpongeSocket (channel A))) (w : W) : Prop :=
  exists i, r = sk_rule i /\ asks i w.

Lemma sk_Y_rule i w : sk_Y (sk_rule i) w <-> asks i w.
Proof. split; [|by exists i]. intros (j & Hj & Ha). by apply sk_rule_inj in Hj as ->. Qed.

(** A rule that reads is open when its descriptor is not at its end. *)
Lemma sk_open ids i w :
  fds_inv ids w -> rule_open (sk_rule i) w <-> (ru_direction (sk_rule i) = Direction_In -> eof_of (w_fds w) (sk_fd i) = false).
Proof.
  intros Hf. destruct (sk_alive _ i _ Hf) as (o & k & Ho & _). unfold rule_open, eof_of. rewrite sk_fd_rule, Ho. split; intros Hx Hd.
  - destruct (Hx Hd) as (o1 & n1 & E1 & E2). congruence.
  - exists o, k. auto.
Qed.

Lemma asks_cancelled i1 i i2 j w w' :
  i1 ++ i :: i2 `sublist_of` all_ids -> j ∈ i1 ++ i2 -> (i <> c2 -> w_state w' = w_state w) -> (unbroken w -> unbroken w') ->
  asks j w -> asks j w'.
Proof.
  intros Hs Hj Hst Hu. destruct j; cbn [asks]; [done| |done|done]. intros (c & Hc & Hr). exists c. split; [|done].
  rewrite Hst; [done|]. intros ->. pose proof (id_removed _ _ _ Hs) as Hno. by rewrite bool_decide_eq_false in Hno.
Qed.

Lemma sk_laws : loop_laws sk_exn sk_J sk_X sk_Y.
Proof.
  split.
  - intros l r w (ids & -> & Hinv) Hin. apply list_elem_of_fmap in Hin as (i & -> & _).
    destruct (sk_alive _ i _ (si_fds _ _ Hinv)) as (o & k & Ho & _). rewrite sk_fd_rule. by exists (o, k).
  - intros l r w (ids & -> & Hinv) Hin. apply list_elem_of_fmap in Hin as (i & -> & Hin).
    eapply wp_mono; [by apply (sk_interest_wp ids)|done|]. intros b w' [-> Hb].
    split_and!; [by exists ids|by intros x|apply stay_open_refl|]. destruct b; by exists i.
  - intros l1 r l2 w (ids & El & Hinv) Hr. apply rules_split in El as (i1 & i & i2 & -> & -> & -> & ->).
    pose proof (fi_ids _ _ (si_fds _ _ Hinv)) as Hids.
    eapply wp_mono; [by apply sk_cancel_wp|done|]. intros [] w' (Hinv' & Hs & Hu & He).
    split_and!; [exists (i1 ++ i2); by rewrite map_app| |].
    + intros x Hx (j & -> & Hj). exists j. split; [done|]. apply list_elem_of_fmap in Hx as (j' & Ej & Hx).
      apply sk_rule_inj in Ej as <-. pose proof (ids_ordered _ _ _ _ Hids Hx) as Hlt.
      destruct j, i; cbn in Hlt; try lia; cbn [idles] in *; try done; by rewrite Hs.
    + intros x Hx. rewrite <- map_app in Hx. apply list_elem_of_fmap in Hx as (j & -> & Hj).
      rewrite (sk_open _ _ _ (si_fds _ _ Hinv)), (sk_open _ _ _ (si_fds _ _ Hinv')), He, !sk_Y_rule. split; [done|].
      by eapply asks_cancelled.
  - intros l1 r l2 w (ids & El & Hinv) _ Hy. apply rules_split in El as (i1 & i & i2 & -> & -> & -> & ->).
    apply sk_Y_rule in Hy. eapply wp_mono; [by apply (sk_callback_wp (i1 ++ i :: i2))|done|].
    intros [] w' ((Hinv' & Hprog & He) & Hm). rewrite sk_fd_rule. split_and!; [exists (i1 ++ i :: i2); by rewrite map_app| |done].
    intros x Hx. apply list_elem_of_fmap in Hx as (j & -> & Hj).
    rewrite (sk_open _ _ _ (si_fds _ _ Hinv)), (sk_open _ _ _ (si_fds _ _ Hinv')), !sk_Y_rule.
    pose proof (ids_later _ _ _ _ (fi_ids _ _ (si_fds _ _ Hinv)) Hj) as Hlt.
    destruct j; cbn [sk_rule ru_direction asks sk_fd]; try done; destruct i; cbn in Hlt; try lia.
    split; [|by apply Hm]. unfold eof_of. by rewrite He.
Qed.

(** Calls that have nothing to do with the bytes. *)
Lemma sk_inv_quiet ids w w' c :
  sk_inv ids w -> (forall n r, event_read n (c, r) = [] /\ event_written n (c, r) = []) ->
  w_kernel w' = snd (k_call c (w_kernel w)) -> w_state w' = w_state w -> w_fds w' = w_fds w -> sk_inv ids w'.
Proof.
  intros [I1 (c0 & I2) I3] Hq1 Hk Hs Hf. destruct (quiet_call tnum w w' c) as [Q1 Q2]; [auto|done|].
  split; [eapply fds_inv_same; eauto; by rewrite Hs|exists c0; eapply tcp_inv_same; eauto; by rewrite Hs|].
  by eapply within_limit_call.
Qed.

Lemma sk_poll_keeps l w fds t : sk_J l w -> sk_J l (world_call w (sys_poll fds t)).
Proof. intros (ids & -> & Hinv). exists ids. split; [done|]. by eapply (sk_inv_quiet ids w _ (sys_poll fds t)). Qed.

Lemma sk_poll_asks r w fds t : sk_Y r w -> sk_Y r (world_call w (sys_poll fds t)).
Proof. intros (i & -> & Ha). exists i. split; [done|]. by destruct i. Qed.

(** *** A turn of the loop *)

Lemma tick_moves w c ms :
  tcp_inv w c -> within_limit w -> net_inv (peer_of (TCPConnection_tick c ms) w) q.
Proof.
  intros [T1 T2 T3 T4 T5] [Hl0 Hl]. pose proof T2 as [N1 N2 N3 N4].
  assert (zlen (pe_written (peer_of c w)) + action_bytes (act_tick ms) <= stream_limit) as Hlim by (cbn; lia).
  destruct (peer_step_ok q (peer_of c w) (act_tick ms) N2 N1 N4 I Hq Hlim) as [(p' & Ep & Hst & _)|Ep];
    cbn [peer_exec peer_of pe_conn] in Ep; [|done]. injection Ep as <-. exact (stepped_net _ _ _ T2 Hst).
Qed.

Lemma sk_inv_tick ids w c ms :
  sk_inv ids w -> sk_tcp (w_state w) = Some c -> TCPConnection_active c = true ->
  sk_inv ids (world_set_state w (sk_set_tcp (w_state w) (Some (TCPConnection_tick c ms)))).
Proof.
  intros [I1 (c0 & I2) I3] Hc Ha. assert (c0 = c) as -> by (pose proof (ti_tcp _ _ I2); congruence).
  assert (bs_error (sd_stream (cn_sender c)) = false) as He.
  { apply not_true_is_false. intros He. rewrite over_inactive in Ha; [done|]. by apply (ti_error _ _ I2). }
  pose proof (net_inv_conn _ (ti_net _ _ I2)) as Hi. split; [by eapply fds_inv_same| |done].
  exists (TCPConnection_tick c ms). eapply tcp_inv_moves; try done; [by eapply tick_flags|by eapply tick_inbound_over|].
  by apply (tick_moves w).
Qed.

Lemma timestamp_wp ids w :
  sk_inv ids w -> wp timestamp_ms sk_exn (fun _ w' => sk_inv ids w' /\ w_state w' = w_state w /\ w_fds w' = w_fds w) w.
Proof.
  intros Hinv. unfold timestamp_ms. wp_step. unfold wp at 1. rewrite call_eq. wp_step. split_and!; try done.
  by eapply (sk_inv_quiet ids w _ sys_clock).
Qed.

Lemma channel_tick_wp (l : channel A) ms (w : W) o n :
  w_fds w !! da_fd l = Some (o, n) ->
  wp (da_tick l ms) AE (fun l' w' => written (da_fd l) o n w w' /\
    exists a, l' = channel_with l a /\ da_fd a = da_fd (ch_adapter l)) w.
Proof.
  intros Ho. cbn [da_tick channel_datagrams]. wp_step. eapply wp_mono; [by apply al_tick|done|].
  intros a w' (Ha & Hu). wp_step. split; [done|]. by exists a.
Qed.

(** Time passes. *)
Lemma turn_tick_wp ids w c (rs : list (Rule (K * list event) (TCPSpongeSocket (channel A)))) (base_time : Z) :
  sk_inv ids w -> sk_tcp (w_state w) = Some c -> TCPConnection_active c = true ->
  wp (next_time ← timestamp_ms;
      c ← tcp_value;
      _ ← tcp_store (TCPConnection_tick c (u64 (next_time - base_time)));
      s ← sk_get;
      a ← da_tick (sk_datagram_adapter s) (u64 (next_time - base_time));
      _ ← sk_modify (fun s => sk_set_adapter s a);
      mret (true, rs, next_time)) sk_exn
    (fun '(go_on, rs', _) w' => go_on = true /\ rs' = rs /\ sk_inv ids w') w.
Proof.
  intros Hinv Hc Ha. wp_step. eapply wp_mono; [by apply (timestamp_wp ids)|done|]. intros now w1 (Hinv1 & Hs1 & _).
  wp_step. eapply tcp_value_wp; [by rewrite Hs1|]. wp_step. apply sk_modify_wp. set (w2 := world_set_state _ _).
  assert (sk_inv ids w2) as Hinv2 by (apply sk_inv_tick; [done|by rewrite Hs1|done]). wp_step. apply sk_get_wp.
  destruct (adapter_fd _ _ (si_fds _ _ Hinv2)) as (o & n & Ho & Hne & _). wp_step.
  eapply wp_mono; [eapply (channel_tick_wp (chan w2)); rewrite (fi_ad _ _ (si_fds _ _ Hinv2)); exact Ho|by left|].
  rewrite (fi_ad _ _ (si_fds _ _ Hinv2)). intros l w3 ((o' & Hu & _) & (a & -> & Hfd)). wp_step. apply sk_modify_wp. wp_step.
  split_and!; [done|done|]. by eapply sk_inv_read.
Qed.

(** When a turn is the last one. *)
Definition last_turn (abort : bool) (rs : list (Rule (K * list event) (TCPSpongeSocket (channel A)))) (w : W) : Prop :=
  abort = true \/ ~ calm (K * list event) \/ Forall (fun r => sk_X r w) rs.

Lemma turn_wp abort rs base_time w :
  sk_J rs w ->
  wp (tcp_turn abort rs base_time) sk_exn (fun '(go_on, rs', _) w' => sk_J rs' w' /\ rs' `sublist_of` rs /\
    (go_on = false -> last_turn abort rs' w')) w.
Proof.
  intros HJ. unfold tcp_turn. wp_step.
  eapply wp_mono; [apply (wait_next_event_wp sk_exn (fun e He => or_intror (or_introl He)) sk_J sk_X sk_Y sk_laws sk_poll_keeps sk_poll_asks);
    exact HJ|done|].
  intros [ret rs1] w1 (HJ1 & Hsub & Hex). pose proof HJ1 as (ids & -> & Hinv1).
  destruct (_ || abort) eqn:Eb.
  - wp_step. split_and!; [done|done|]. intros _. unfold last_turn. destruct abort; [by left|]. right. apply Hex. by destruct ret.
  - pose proof (si_tcp _ _ Hinv1) as (c & I2). wp_step. eapply tcp_value_wp; [apply I2|].
    destruct (TCPConnection_active c) eqn:Ea; [|wp_step; by split_and!].
    eapply wp_mono; [exact (turn_tick_wp ids w1 c (map sk_rule ids) base_time Hinv1 (ti_tcp _ _ I2) Ea)|done|].
    intros [[go rs'] t] w2 (-> & -> & Hinv2). split_and!; [by exists ids|done|done].
Qed.

(** *** The beginning *)

(** A socket that is not in use yet. *)
Record fresh (w : W) : Prop := {
  fr_thread : exists o n, w_fds w !! td = Some (o, S n) /\ fw_fd o = tnum /\ fw_closed o = false;
  fr_adapter : exists o n, w_fds w !! ad = Some (o, S n) /\ fw_fd o <> tnum /\ fw_closed o = false;
  fr_td : sk_thread_data (w_state w) = td;
  fr_ad : da_fd (chan w) = ad;
  fr_tcp : sk_tcp (w_state w) = None;
  fr_flags : sk_outbound_shutdown (w_state w) = false /\ sk_inbound_shutdown (w_state w) = false;
  fr_sent : ch_sent (chan w) = [];
  fr_log : bytes_read tnum (w_log w) = [] /\ bytes_written tnum (w_log w) = [];
  fr_limit : 0 <= left (fst (w_kernel w)) <= stream_limit
}.

Lemma initialize_wp cfg random w :
  fresh w -> net_inv (peer_new cfg random) q -> ch_incoming (chan w) = pe_wire q ->
  wp (initialize_TCP cfg random) sk_exn (fun rs w' => rs = map sk_rule all_ids /\ sk_inv all_ids w' /\
    w_state w' = sk_set_tcp (w_state w) (Some (TCPConnection_new cfg random)) /\ w_kernel w' = w_kernel w) w.
Proof.
  intros [(o & n & F1 & F2 & F3) (o' & n' & G1 & G2 & G3) F4 F5 F6 [F7 F7'] F8 [F9 F9'] F10] Hn Hw.
  unfold initialize_TCP, EventLoop_add_rule. wp_step. apply sk_modify_wp. wp_step. apply sk_get_wp. cbn zeta.
  change (da_fd (sk_datagram_adapter (w_state (world_set_state w _)))) with (da_fd (chan w)).
  change (sk_thread_data (w_state (world_set_state w _))) with (sk_thread_data (w_state w)). rewrite F4, F5.
  wp_step. wp_step. eapply duplicate_wp; [exact G1|]. wp_step.
  wp_step. wp_step. eapply duplicate_wp; [cbn; rewrite lookup_insert_ne by done; exact F1|]. wp_step.
  wp_step. wp_step. eapply duplicate_wp; [apply lookup_insert_eq|]. wp_step.
  wp_step. eapply duplicate_wp; [cbn; rewrite !lookup_insert_ne by done; apply lookup_insert_eq|]. wp_step.
  split_and!; [done| |done|done]. split.
  - assert (refs sk_fd all_ids td = 2%nat /\ refs sk_fd all_ids ad = 2%nat) as [R1 R2].
    { unfold refs, all_ids. cbn. by rewrite !(bool_decide_true (td = td)), !(bool_decide_true (ad = ad)),
        !(bool_decide_false (ad = td)), !(bool_decide_false (td = ad)) by done. }
    split; try done; [| |by intros; split; unfold all_ids; set_solver].
    + exists o, (S (S (S n))). split; [cbn; rewrite lookup_insert_ne by done; apply lookup_insert_eq|].
      rewrite R1. split_and!; [done|congruence|lia].
    + exists (fw_fd o'). split; [done|]. exists o', (S (S (S n'))). split; [apply lookup_insert_eq|]. rewrite R2. split_and!; [done|congruence|lia].
  - exists (TCPConnection_new cfg random). split; try done.
    + unfold peer_of. cbn. change (w_log (world_store _ _ _ _)) with (w_log w). by rewrite F8, F9, F9'.
    + cbn. congruence.
  - unfold within_limit. change (w_log (world_store _ _ _ _)) with (w_log w).
    change (w_kernel (world_store _ _ _ _)) with (w_kernel w). rewrite F9. change (zlen []) with 0. lia.
Qed.

Lemma sk_inv_adapter ids w a :
  sk_inv ids w -> da_fd a = da_fd (ch_adapter (chan w)) ->
  sk_inv ids (world_set_state w (sk_set_adapter (w_state w) (channel_with (chan w) a))).
Proof.
  intros [I1 (c & I2) I3] Ha. split; [by eapply fds_inv_same|exists c; by eapply tcp_inv_same|done].
Qed.

Lemma connect_moves cfg random w c :
  tcp_inv w (TCPConnection_new cfg random) -> within_limit w -> TCPConnection_connect (TCPConnection_new cfg random) = Ok c ->
  net_inv (peer_of c w) q.
Proof.
  intros [T1 T2 T3 T4 T5] [Hl0 Hl] Ec. pose proof T2 as [N1 N2 N3 N4].
  assert (zlen (pe_written (peer_of (TCPConnection_new cfg random) w)) + action_bytes act_connect <= stream_limit) as Hlim by (cbn; lia).
  destruct (peer_step_ok q (peer_of (TCPConnection_new cfg random) w) act_connect N2 N1 N4 I Hq Hlim) as [(p' & Ep & Hst & _)|Ep];
    cbn [peer_exec peer_of pe_conn] in Ep; rewrite Ec in Ep; [|done]. injection Ep as <-. exact (stepped_net _ _ _ T2 Hst).
Qed.

Lemma connect_begin_wp random cfg c_ad w :
  fresh w -> net_inv (peer_new cfg random) q -> ch_incoming (chan w) = pe_wire q ->
  wp (connect_begin random cfg c_ad) sk_exn (fun rs w' => sk_J rs w') w.
Proof.
  intros Hf Hn Hw. unfold connect_begin. wp_step. apply sk_get_wp. rewrite (fr_tcp _ Hf). wp_step.
  eapply wp_mono; [by apply initialize_wp|done|]. intros rs w1 (-> & Hinv1 & Hs1 & _). wp_step. apply sk_modify_wp.
  set (w2 := world_set_state _ _). assert (sk_inv all_ids w2) as Hinv2.
  { apply sk_inv_adapter; [done|]. exact (al_config (K:=K) (U:=TCPSpongeSocket (channel A)) (A:=A) (E:=AE) _ _). }
  wp_step. apply destination_wp. assert (sk_tcp (w_state w2) = Some (TCPConnection_new cfg random)) as Ht by (cbn; by rewrite Hs1).
  wp_step. eapply tcp_arrow_wp; [exact Ht|]. destruct (connect_syn_sent cfg random) as (c & Ec & Hst & Hfl). wp_step. rewrite Ec. wp_step.
  wp_step. apply sk_modify_wp. wp_step. unfold tcp_in_state. wp_step. eapply tcp_arrow_wp; [done|]. wp_step. rewrite Hst. cbn [negb]. wp_step.
  exists all_ids. split; [done|]. pose proof Hinv2 as [I1 (c0 & I2) I3].
  assert (c0 = TCPConnection_new cfg random) as -> by (pose proof (ti_tcp _ _ I2); congruence).
  unfold flags in Hfl. injection Hfl as E1 E2. split; [by eapply fds_inv_same| |done]. exists c.
  split; [done|exact (connect_moves cfg random w2 c I2 I3 Ec)|congruence|congruence|]. cbn. rewrite Hs1. cbn. destruct (fr_flags _ Hf). congruence.
Qed.

Lemma listen_begin_wp random cfg c_ad w :
  fresh w -> net_inv (peer_new cfg random) q -> ch_incoming (chan w) = pe_wire q ->
  wp (listen_begin random cfg c_ad) sk_exn (fun rs w' => sk_J rs w') w.
Proof.
  intros Hf Hn Hw. unfold listen_begin. wp_step. apply sk_get_wp. rewrite (fr_tcp _ Hf). wp_step.
  eapply wp_mono; [by apply initialize_wp|done|]. intros rs w1 (-> & Hinv1 & _). wp_step. apply sk_modify_wp.
  wp_step. apply sk_modify_wp. wp_step. exists all_ids. split; [done|].
  apply (sk_inv_adapter _ (world_set_state w1 (sk_set_adapter (w_state w1) (channel_with (chan w1) _)))).
  - apply sk_inv_adapter; [done|]. exact (al_config (K:=K) (U:=TCPSpongeSocket (channel A)) (A:=A) (E:=AE) _ _).
  - exact (al_listening (K:=K) (U:=TCPSpongeSocket (channel A)) (A:=A) (E:=AE) _ _).
Qed.

End one.
