(* ===== verification/SpongeNetworks.v ===== *)
(** Two [TCPSpongeSocket]s and the network between them
    (src/libsponge/tcp_helpers/tcp_sponge_socket.cc).

    Each socket runs the loop of [_tcp_loop], one turn at a time, on a host of its
    own; turns of the two interleave in any order.  In a turn a socket may receive
    any of the segments that the other one has sent so far, in any order and any
    number of times, or none.  The owners act through the kernels: what an owner
    has written is what its socket's thread reads from the local socket, and what
    an owner gets is what the thread writes there. *)

From S2P Require Import Prelude WrappingIntegers Buffers ByteStreams StreamReassemblers Parsers TCPSegments.
From S2P Require Import Addresses Effects FileDescriptors EventLoops RuleSets Sockets Adapters TCPReceivers TCPSenders.
From S2P Require Import SocketAdapters TCPConnections TCPStates EndToEnd SpongeSockets SpongeRuns.

#[local] Open Scope Z_scope.

Section network.
Context {K A : Type} `{KernelLaws K} `{AdapterBase A} `{!DatagramAdapter (K * list event) (TCPSpongeSocket (channel A)) A}.
Context (AE : exn -> Prop) `{!AdapterLaws K (TCPSpongeSocket (channel A)) A AE} `{NameService}.

Abbreviation W := (world (K * list event) (TCPSpongeSocket (channel A))).
Abbreviation chan w := (sk_datagram_adapter (w_state w)) (only parsing).

(** A host: its socket, the rules of the event loop, the loop's [base_time], and
    whether the loop goes on; if not, whether [_abort] was set. *)
Record site : Type := MkSite {
  st_world : W;
  st_rules : list (Rule (K * list event) (TCPSpongeSocket (channel A)));
  st_base : Z;
  st_running : bool;
  st_aborted : bool
}.

(** How the socket comes to its connection. *)
Inductive opening : Type :=
  | opening_connect (random : Z) (c_tcp : TCPConfig) (c_ad : FdAdapterConfig)
  | opening_listen (random : Z) (c_tcp : TCPConfig) (c_ad : FdAdapterConfig).

Definition opening_peer (o : opening) : peer :=
  match o with opening_connect random c_tcp _ | opening_listen random c_tcp _ => peer_new c_tcp random end.

Definition opening_ok (o : opening) : Prop :=
  match o with opening_connect random c_tcp _ | opening_listen random c_tcp _ => config_ok c_tcp random end.

Definition opening_prog (o : opening) : io W (list (Rule (K * list event) (TCPSpongeSocket (channel A)))) :=
  match o with
  | opening_connect random c_tcp c_ad => connect_begin random c_tcp c_ad
  | opening_listen random c_tcp c_ad => listen_begin random c_tcp c_ad
  end.

(** The other socket's segments reach the network in front of this one. *)
Definition hear (w : W) (incoming : list TCPSegment) : W :=
  world_set_state w (sk_set_adapter (w_state w) (MkChannel (ch_adapter (chan w)) incoming (ch_sent (chan w)))).

Definition site_open (o : opening) (w : W) (incoming : list TCPSegment) : result site :=
  '(rs, w) ← opening_prog o (hear w incoming);
  '(base_time, w) ← timestamp_ms w;
  Ok (MkSite w rs base_time true false).

(** A turn of the loop; or the clock is read, when the loop of [_tcp_main] takes
    over from that of [connect] or [listen_and_accept]. *)
Inductive site_step : Type :=
  | site_turn (abort : bool)
  | site_clock.

Definition site_exec (step : site_step) (s : site) (incoming : list TCPSegment) : result site :=
  if negb (st_running s) then Ok s
  else
    let w := hear (st_world s) incoming in
    match step with
    | site_turn abort =>
        '(go_on, rs, base_time, w) ← tcp_turn abort (st_rules s) (st_base s) w;
        Ok (MkSite w rs base_time go_on (st_aborted s || abort))
    | site_clock =>
        '(base_time, w) ← timestamp_ms w;
        Ok (MkSite w (st_rules s) base_time true (st_aborted s))
    end.

Definition sites_exec (side : bool) (step : site_step) (sites : site * site) : result (site * site) :=
  let '(s1, s2) := sites in
  if side then s1 ← site_exec step s1 (ch_sent (chan (st_world s2))); Ok (s1, s2)
  else s2 ← site_exec step s2 (ch_sent (chan (st_world s1))); Ok (s1, s2).

Fixpoint sites_run (steps : list (bool * site_step)) (sites : site * site) : result (site * site) :=
  match steps with
  | [] => Ok sites
  | (side, step) :: steps => sites ← sites_exec side step sites; sites_run steps sites
  end.

Definition sites_open (o1 o2 : opening) (w1 w2 : W) : result (site * site) :=
  s1 ← site_open o1 w1 [];
  s2 ← site_open o2 w2 (ch_sent (chan (st_world s1)));
  Ok (s1, s2).

(** ** One site *)

Section one_site.
Context (td ad : FileDescriptor) (tnum : Z) (Hfds : td <> ad).
Context (left : K -> Z).
Context (Hleft : forall c k, 0 <= left (snd (k_call c k)) /\
  zlen (event_read tnum (c, fst (k_call c k))) + left (snd (k_call c k)) <= left k).

Definition site_peer (c : TCPConnection) (s : site) : peer := peer_of tnum c (st_world s).

Record site_inv (q : peer) (s : site) : Prop := {
  so_inv : sk_J td ad tnum left q (st_rules s) (hear (st_world s) (pe_wire q));
  so_end : st_running s = false -> last_turn td ad (st_aborted s) (st_rules s) (st_world s)
}.

Lemma hear_same w : hear w (ch_incoming (chan w)) = w.
Proof. destruct w as [k f n s]. unfold hear, world_set_state, sk_set_adapter. cbn. by destruct s as [? ? [] ? ? ? ?]. Qed.

Lemma sk_J_heard q rs w : sk_J td ad tnum left q rs w -> sk_J td ad tnum left q rs (hear w (pe_wire q)).
Proof. intros HJ. pose proof HJ as (ids & _ & [F _ _]). by rewrite <- (fi_incoming _ _ _ _ _ _ F), hear_same. Qed.

Lemma site_exec_ok q step s :
  zlen (pe_written q) <= stream_limit -> site_inv q s ->
  match site_exec step s (pe_wire q) with Ok s' => site_inv q s' | Throw e => sk_exn (K:=K) AE e end.
Proof.
  intros Hq [HJ He]. unfold site_exec. destruct (st_running s) eqn:Er; cbn [negb]; [|by split; auto].
  destruct step as [abort|].
  - pose proof (turn_wp AE td ad tnum Hfds left Hleft q Hq abort (st_rules s) (st_base s) _ HJ) as Hwp.
    unfold wp in Hwp. destruct (tcp_turn _ _ _ _) as [[[[go_on rs] t] w]|e]; [|done]. cbn.
    destruct Hwp as (HJ' & _ & Hlast). split; cbn; [by apply sk_J_heard|]. intros Hgo. unfold last_turn in *.
    destruct (Hlast Hgo) as [->|R]; [|by right]. left. apply orb_true_r.
  - pose proof HJ as (ids & Hrs & Hinv).
    pose proof (timestamp_wp AE td ad tnum Hfds left Hleft q ids _ Hinv) as Hwp. unfold wp in Hwp.
    destruct (timestamp_ms _) as [[t w]|e]; [|done]. destruct Hwp as (Hinv' & _). split; [|done]. cbn.
    apply sk_J_heard. by exists ids.
Qed.

(** Seen from another state of the other endpoint. *)
Lemma site_inv_net q s :
  site_inv q s -> exists c, sk_tcp (w_state (st_world s)) = Some c /\ net_inv (site_peer c s) q /\
    zlen (pe_written (site_peer c s)) <= stream_limit.
Proof.
  clear Hfds Hleft. intros [(ids & _ & [F (c & T) [L1 L2]]) _]. exists c. split; [apply T|]. split; [apply T|].
  unfold site_peer, peer_of. cbn in *. change (w_log (hear ?w _)) with (w_log w) in L2. lia.
Qed.

Lemma site_inv_other q q' s c :
  site_inv q s -> sk_tcp (w_state (st_world s)) = Some c -> net_inv (site_peer c s) q' -> site_inv q' s.
Proof.
  intros [(ids & Hrs & [F (c0 & T) L]) He] Hc Hn. split; [|done]. exists ids. split; [done|].
  destruct T as [T1 T2 T3 T4 T5]. cbn in T1. assert (c0 = c) as -> by congruence.
  split; [|exists c; by split|done]. destruct F as [F1 F2 F3 F4 F5 F6 F7]. by split.
Qed.

Lemma fresh_hear w incoming : fresh td ad tnum left w -> fresh td ad tnum left (hear w incoming).
Proof. intros [F1 F2 F3 F4 F5 F6 F7 F8 F9]. by split. Qed.

Lemma site_open_ok q o w :
  fresh td ad tnum left w -> net_inv (opening_peer o) q -> zlen (pe_written q) <= stream_limit ->
  match site_open o w (pe_wire q) with Ok s => site_inv q s | Throw e => sk_exn (K:=K) AE e end.
Proof.
  intros Hf Hn Hq. unfold site_open. apply (fresh_hear w (pe_wire q)) in Hf.
  assert (wp (opening_prog o) (sk_exn (K:=K) AE) (fun rs w' => sk_J td ad tnum left q rs w') (hear w (pe_wire q))) as Hwp.
  { destruct o; [by apply connect_begin_wp|by apply listen_begin_wp]. }
  unfold wp in Hwp. destruct (opening_prog o _) as [[rs w1]|e]; [|done]. cbn [mbind result_bind].
  pose proof Hwp as (ids & Hrs & Hinv).
  pose proof (timestamp_wp AE td ad tnum Hfds left Hleft q ids _ Hinv) as Hwp2. unfold wp in Hwp2.
  destruct (timestamp_ms w1) as [[t w2]|e]; [|done]. destruct Hwp2 as (Hinv' & _). split; [|done]. cbn.
  apply sk_J_heard. by exists ids.
Qed.

End one_site.

(** ** Both sites *)

(** What the first owner has written, against what the second one was given. *)
Record handed_over (tnum1 tnum2 : Z) (s1 s2 : site) (c : TCPConnection) : Prop := {
  ho_tcp : sk_tcp (w_state (st_world s2)) = Some c;
  ho_prefix : bytes_written tnum2 (w_log (st_world s2)) ++ bs_contents (TCPConnection_inbound_stream c)
    `prefix_of` bytes_read tnum1 (w_log (st_world s1));
  ho_eof : sk_inbound_shutdown (w_state (st_world s2)) = true -> bs_error (TCPConnection_inbound_stream c) = false ->
    bytes_written tnum2 (w_log (st_world s2)) = bytes_read tnum1 (w_log (st_world s1));
  ho_end : st_running s2 = false -> st_aborted s2 = false -> calm K -> no_hangup K ->
    bs_contents (TCPConnection_inbound_stream c) = [] /\ cn_segments_out c = [] /\
    (ByteStream_eof (TCPConnection_inbound_stream c) = true -> sk_inbound_shutdown (w_state (st_world s2)) = true)
}.

Lemma site_handed_over td ad tnum1 tnum2 left s1 s2 c1 :
  td <> ad -> site_inv td ad tnum2 left (site_peer tnum1 c1 s1) s2 -> exists c, handed_over tnum1 tnum2 s1 s2 c.
Proof.
  intros Hfds [(ids & Hrs & [F (c & [T1 T2 T3 T4 T5]) L]) He]. exists c. cbn in T1. destruct (linked_delivered _ _ (ni_qp _ _ T2)) as [D1 D2].
  cbn in D1, D2. split; [done|exact D1| |].
  - intros Hs Her. cbn in T5. specialize (T5 Hs). apply D2. unfold inbound_over in T5.
    change (TCPReceiver_stream_out (cn_receiver c)) with (TCPConnection_inbound_stream c) in T5. by rewrite Her, orb_false_r in T5.
  - intros Hr Ha Hcalm Hhup. destruct (He Hr) as [Hx|[Hx|Hx]]; [congruence|by destruct (Hx (calm_logged Hcalm))|].
    destruct (fi_keep _ _ _ _ _ _ F Hhup) as [K3 K4]. rewrite Hrs, Forall_map, Forall_forall in Hx.
    destruct (Hx _ K3) as (i3 & E3 & X3). apply (sk_rule_inj td ad Hfds) in E3 as <-.
    destruct (Hx _ K4) as (i4 & E4 & X4). apply (sk_rule_inj td ad Hfds) in E4 as <-.
    destruct X3 as (c3 & P1 & P2 & P3), X4 as (c4 & P4 & P5).
    assert (c3 = c) as -> by congruence. assert (c4 = c) as -> by congruence. split_and!; [done|done|].
    intros Hf. apply P3. unfold inbound_over. change (TCPReceiver_stream_out (cn_receiver c)) with (TCPConnection_inbound_stream c).
    by rewrite Hf.
Qed.

(** Site [s] as its neighbour [n] knows it. *)
Definition known_to (td ad : FileDescriptor) (tnum : Z) (left : K -> Z) (tnum' : Z) (n s : site) : Prop :=
  exists c, sk_tcp (w_state (st_world n)) = Some c /\ site_inv td ad tnum left (site_peer tnum' c n) s.

(** A step at one site, seen from both. *)
Lemma step_both td ad tnum left td' ad' tnum' left' step s n :
  td <> ad -> (forall c k, 0 <= left (snd (k_call c k)) /\
    zlen (event_read tnum (c, fst (k_call c k))) + left (snd (k_call c k)) <= left k) ->
  known_to td' ad' tnum' left' tnum s n -> known_to td ad tnum left tnum' n s ->
  match site_exec step s (ch_sent (chan (st_world n))) with
  | Ok s' => known_to td' ad' tnum' left' tnum s' n /\ known_to td ad tnum left tnum' n s'
  | Throw e => sk_exn (K:=K) AE e
  end.
Proof.
  intros Hfds Hl (c & Hc & Hn) (cn & Hcn & Hs). destruct (site_inv_net _ _ _ _ _ _ Hn) as (cn' & Tn & Nn & Ln).
  assert (cn' = cn) as -> by congruence.
  pose proof (site_exec_ok td ad tnum Hfds left Hl (site_peer tnum' cn n) step s Ln Hs) as Hex.
  change (pe_wire (site_peer tnum' cn n)) with (ch_sent (chan (st_world n))) in Hex.
  destruct (site_exec _ _ _) as [s'|e]; [|done].
  destruct (site_inv_net _ _ _ _ _ _ Hex) as (c' & Ts & Ns & Ls). split; [exists c'|by exists cn]. split; [done|].
  eapply site_inv_other; [exact Hn|done|]. by apply net_inv_sym.
Qed.

Section both.
Context (td1 ad1 : FileDescriptor) (tnum1 : Z) (Hfds1 : td1 <> ad1) (left1 : K -> Z).
Context (td2 ad2 : FileDescriptor) (tnum2 : Z) (Hfds2 : td2 <> ad2) (left2 : K -> Z).
Context (Hleft1 : forall c k, 0 <= left1 (snd (k_call c k)) /\
  zlen (event_read tnum1 (c, fst (k_call c k))) + left1 (snd (k_call c k)) <= left1 k).
Context (Hleft2 : forall c k, 0 <= left2 (snd (k_call c k)) /\
  zlen (event_read tnum2 (c, fst (k_call c k))) + left2 (snd (k_call c k)) <= left2 k).

Definition both_inv (s1 s2 : site) : Prop :=
  known_to td2 ad2 tnum2 left2 tnum1 s1 s2 /\ known_to td1 ad1 tnum1 left1 tnum2 s2 s1.

Lemma sites_run_inv steps s1 s2 :
  both_inv s1 s2 ->
  match sites_run steps (s1, s2) with Ok (s1', s2') => both_inv s1' s2' | Throw e => sk_exn (K:=K) AE e end.
Proof.
  revert s1 s2. induction steps as [|[side step] steps IH]; intros s1 s2 [B1 B2]; cbn [sites_run]; [done|]. unfold sites_exec.
  destruct side.
  - pose proof (step_both td1 ad1 tnum1 left1 td2 ad2 tnum2 left2 step s1 s2 Hfds1 Hleft1 B1 B2) as Hs.
    destruct (site_exec _ _ _) as [s'|e]; [|done]. cbn [mbind result_bind]. by apply IH.
  - pose proof (step_both td2 ad2 tnum2 left2 td1 ad1 tnum1 left1 step s2 s1 Hfds2 Hleft2 B2 B1) as Hs.
    destruct (site_exec _ _ _) as [s'|e]; [|done]. destruct Hs. cbn [mbind result_bind]. by apply IH.
Qed.

Lemma sites_open_inv o1 o2 w1 w2 :
  opening_ok o1 -> opening_ok o2 -> fresh td1 ad1 tnum1 left1 w1 -> fresh td2 ad2 tnum2 left2 w2 ->
  match sites_open o1 o2 w1 w2 with Ok (s1, s2) => both_inv s1 s2 | Throw e => sk_exn (K:=K) AE e end.
Proof.
  intros Ho1 Ho2 F1 F2. unfold sites_open. assert (net_inv (opening_peer o1) (opening_peer o2)) as Hn.
  { destruct o1, o2; by apply net_inv_new. }
  pose proof (site_open_ok td1 ad1 tnum1 Hfds1 left1 Hleft1 (opening_peer o2) o1 w1 F1 Hn) as S1.
  assert (zlen (pe_written (opening_peer o2)) <= stream_limit) as L2 by (by destruct o2). specialize (S1 L2).
  assert (pe_wire (opening_peer o2) = []) as E2 by (by destruct o2). rewrite E2 in S1.
  destruct (site_open o1 w1 []) as [s1|e]; [|done]. cbn [mbind result_bind].
  destruct (site_inv_net _ _ _ _ _ _ S1) as (c1 & T1 & N1 & L1).
  pose proof (site_open_ok td2 ad2 tnum2 Hfds2 left2 Hleft2 (site_peer tnum1 c1 s1) o2 w2 F2 (net_inv_sym _ _ N1) L1) as S2.
  change (pe_wire (site_peer tnum1 c1 s1)) with (ch_sent (chan (st_world s1))) in S2.
  destruct (site_open o2 w2 _) as [s2|e]; [|done]. cbn [mbind result_bind].
  destruct (site_inv_net _ _ _ _ _ _ S2) as (c2 & T2 & N2 & _). split; [by exists c1|exists c2]. split; [done|].
  eapply site_inv_other; [exact S1|done|]. by apply net_inv_sym.
Qed.


(** C1.  Two sockets deliver: whatever the owners do, however the turns of the two
    loops interleave, and whatever the network loses, repeats, delays or reorders,
    what the thread of either socket hands to its owner is a prefix of what the other
    owner wrote.  An owner that is told of the end of the stream has been given exactly
    what was written, provided the inbound stream is not in its error state: after a
    reset the end is told as well, and bytes may be missing.  Over a kernel whose system
    calls do not fail and whose [poll] reports neither errors nor hangups, a loop that has ended
    without having been aborted has handed over everything that arrived, told the owner
    of the end if there is one, and put every segment on the wire.  The only exceptions
    are those of the adapters, of failing system calls and name lookups, and
    [length_error]. *)
Theorem sockets_deliver o1 o2 w1 w2 steps :
  opening_ok o1 -> opening_ok o2 -> fresh td1 ad1 tnum1 left1 w1 -> fresh td2 ad2 tnum2 left2 w2 ->
  match (sites ← sites_open o1 o2 w1 w2; sites_run steps sites) with
  | Ok (s1, s2) => (exists c, handed_over tnum1 tnum2 s1 s2 c) /\ (exists c, handed_over tnum2 tnum1 s2 s1 c)
  | Throw e => sk_exn (K:=K) AE e
  end.
Proof.
  intros Ho1 Ho2 F1 F2. pose proof (sites_open_inv o1 o2 w1 w2 Ho1 Ho2 F1 F2) as Hi.
  destruct (sites_open o1 o2 w1 w2) as [[s1 s2]|e]; [|done]. cbn [mbind result_bind].
  pose proof (sites_run_inv steps s1 s2 Hi) as Hr. destruct (sites_run steps (s1, s2)) as [[s1' s2']|e]; [|done].
  destruct Hr as [(c1 & _ & R1) (c2 & _ & R2)].
  split; [exact (site_handed_over _ _ _ _ _ _ _ _ Hfds2 R1)|exact (site_handed_over _ _ _ _ _ _ _ _ Hfds1 R2)].
Qed.

End both.
End network.

(** ** An example *)

(** A kernel with a plan: what arrives at which descriptor before each [poll].
    Descriptors with something to read are ready, and all are ready to write. *)
Record desk : Type := MkDesk { dk_inbox : list (Z * bytes); dk_later : list (list (Z * bytes)); dk_time : Z }.

Fixpoint desk_take (fd limit : Z) (items : list (Z * bytes)) : bytes * list (Z * bytes) :=
  match items with
  | [] => ([], [])
  | (f, d) :: rest =>
      if f =? fd then (ztake limit d, if zlen d <=? limit then rest else (f, zdrop limit d) :: rest)
      else let '(b, rest) := desk_take fd limit rest in (b, (f, d) :: rest)
  end.

Definition desk_events (inbox : list (Z * bytes)) (fd events : Z) : Z :=
  Z.land events (if existsb (fun i => fst i =? fd) inbox then 5 else 4).

#[export] Instance desk_kernel : Kernel desk := {|
  k_call c k :=
    match c with
    | sys_read fd count =>
        let '(d, inbox) := desk_take fd (Z.max 0 (Z.min count 1000)) (dk_inbox k) in
        (MkReply (zlen d) 0 d [] (Address_v4 0 0), MkDesk inbox (dk_later k) (dk_time k))
    | sys_recvfrom fd size =>
        let '(d, inbox) := desk_take fd 1000 (dk_inbox k) in
        (MkReply (zlen d) 0 (ztake (Z.max 0 size) d) [] (Address_v4 9 9), MkDesk inbox (dk_later k) (dk_time k))
    | sys_writev _ iov | sys_sendmsg _ _ iov => (toy_reply (Z.min 1000 (zlen (concat (map fst iov)))), k)
    | sys_poll fds _ =>
        let inbox := dk_inbox k ++ default [] (head (dk_later k)) in
        (MkReply 1 0 [] (map (fun f => desk_events inbox (fst f) (snd f)) fds) (Address_v4 0 0),
         MkDesk inbox (tail (dk_later k)) (dk_time k))
    | sys_clock => (toy_reply (Z.max 0 (Z.min 1000 (dk_time k))), k)
    | _ => (toy_reply 0, k)
    end
|}.

Lemma desk_take_size fd limit items : 0 <= limit -> zlen (fst (desk_take fd limit items)) <= limit.
Proof.
  intros Hl. induction items as [|[f d] rest IH]; cbn [desk_take]; [done|]. destruct (f =? fd); [cbn; zl|].
  by destruct (desk_take fd limit rest).
Qed.

#[export] Instance desk_laws : KernelLaws desk.
Proof.
  intros c k. right. destruct c; cbn [k_call desk_kernel]; try (split; [cbn; lia|done]);
    try (destruct (desk_take _ _ _) as [d inbox] eqn:Et; apply (f_equal fst) in Et; cbn in Et; subst d); cbn [fst rp_value rp_buffer toy_reply].
  - pose proof (desk_take_size fd (Z.max 0 (Z.min count 1000)) (dk_inbox k)). zl.
  - zl.
  - pose proof (desk_take_size fd 1000 (dk_inbox k)). split; zl.
  - zl.
Qed.

(** The bytes that are still to come at a descriptor. *)
Definition desk_total (fd : Z) (items : list (Z * bytes)) : Z :=
  zlen (concat (map (fun i => if fst i =? fd then snd i else []) items)).

Definition desk_left (fd : Z) (k : desk) : Z := desk_total fd (dk_inbox k) + desk_total fd (concat (dk_later k)).

Lemma desk_total_cons fd f d items : desk_total fd ((f, d) :: items) = (if f =? fd then zlen d else 0) + desk_total fd items.
Proof. unfold desk_total. cbn. rewrite zlen_app. by destruct (f =? fd). Qed.

Lemma desk_total_app fd l1 l2 : desk_total fd (l1 ++ l2) = desk_total fd l1 + desk_total fd l2.
Proof. unfold desk_total. by rewrite map_app, concat_app, zlen_app. Qed.

Lemma desk_total_nonneg fd items : 0 <= desk_total fd items.
Proof. unfold desk_total. zl. Qed.

Lemma desk_take_total fd fd' limit items :
  0 <= limit -> (if fd' =? fd then zlen (fst (desk_take fd' limit items)) else 0) + desk_total fd (snd (desk_take fd' limit items))
    <= desk_total fd items.
Proof.
  intros Hl. induction items as [|[f d] rest IH]; cbn [desk_take]; [by destruct (fd' =? fd)|]. rewrite desk_total_cons.
  destruct (Z.eqb_spec f fd') as [->|Hne].
  - cbn [fst snd]. destruct (Z.leb_spec (zlen d) limit); [|rewrite desk_total_cons]; destruct (fd' =? fd); zl.
  - destruct (desk_take fd' limit rest) as [b r]. cbn [fst snd] in *. rewrite desk_total_cons. lia.
Qed.

Lemma desk_budget fd c k :
  0 <= desk_left fd (snd (k_call c k)) /\
  zlen (event_read fd (c, fst (k_call c k))) + desk_left fd (snd (k_call c k)) <= desk_left fd k.
Proof.
  assert (forall k, 0 <= desk_left fd k) as Hpos.
  { intros k'. unfold desk_left. pose proof (desk_total_nonneg fd (dk_inbox k')). pose proof (desk_total_nonneg fd (concat (dk_later k'))). lia. }
  split; [apply Hpos|]. destruct c; cbn [k_call desk_kernel]; try (cbn; change (zlen []) with 0; lia).
  - pose proof (desk_take_total fd fd0 (Z.max 0 (Z.min count 1000)) (dk_inbox k)) as Ht.
    destruct (desk_take _ _ _) as [d inbox]. cbn in *. unfold desk_left. cbn. destruct (fd0 =? fd); zl.
  - cbn. change (zlen []) with 0. unfold desk_left. cbn [dk_inbox dk_later]. rewrite desk_total_app.
    destruct (dk_later k) as [|r later]; cbn; [change (desk_total fd []) with 0; lia|]. rewrite desk_total_app. lia.
  - pose proof (desk_take_total fd fd0 1000 (dk_inbox k)) as Ht. destruct (desk_take _ _ _) as [d inbox]. cbn in *.
    change (zlen []) with 0. unfold desk_left. cbn. destruct (fd0 =? fd); zl.
Qed.

(** Host 1 connects, sends three bytes and ends its stream; host 2 listens.  The FIN
    overtakes the data, which arrives twice. *)
#[local] Existing Instance dotted_name_service.

Definition desk_adapter (port : Z) : FdAdapterConfig := MkFdAdapterConfig (Address_v4 1 port) (Address_v4 9 9) 0 0.

Definition desk_config (isn : Z) : TCPConfig := MkTCPConfig TIMEOUT_DFLT 10 10 (Some (MkWrappingInt32 isn)).

Definition desk_world (later : list (list (Z * bytes))) :
    world (desk * list event) (TCPSpongeSocket (channel UDPSocketAdapter)) :=
  MkWorld (MkDesk [] later 0, [])
    (<[0%nat := (MkFDWrapper 5 false false 0 0, 1%nat)]> {[1%nat := (MkFDWrapper 6 false false 0 0, 1%nat)]}) 3
    (MkTCPSpongeSocket 2%nat 0%nat
       (MkChannel (MkUDPSocketAdapter (MkFdAdapterBase (desk_adapter 0) false) 1%nat) [] []) None false false false).

Definition desk_syn : bytes := [0; 7; 0; 9; 0; 0; 0; 100; 0; 0; 0; 0; 80; 2; 0; 10; 175; 127; 0; 0].
Definition desk_syn_ack : bytes := [0; 8; 0; 9; 0; 0; 0; 200; 0; 0; 0; 101; 80; 18; 0; 10; 174; 165; 0; 0].
Definition desk_data : bytes :=
  [0; 7; 0; 9; 0; 0; 0; 101; 0; 0; 0; 201; 80; 16; 0; 10; 170; 165; 0; 0; 1; 2; 3].
Definition desk_fin : bytes := [0; 7; 0; 9; 0; 0; 0; 104; 0; 0; 0; 201; 80; 17; 0; 10; 174; 163; 0; 0].

Definition desk_world1 : world (desk * list event) (TCPSpongeSocket (channel UDPSocketAdapter)) :=
  desk_world [[(5, [1; 2; 3])]; [(6, desk_syn_ack); (5, [])]].
Definition desk_world2 : world (desk * list event) (TCPSpongeSocket (channel UDPSocketAdapter)) :=
  desk_world [[(6, desk_syn)]; []; [(6, desk_fin)]; [(6, desk_data)]; [(6, desk_data)]].

Definition desk_steps : list (bool * site_step) :=
  map (fun side => (side, site_turn false)) [true; false; false; true; true; true; false; false; false; false].

Definition desk_run : result (site (K:=desk) (A:=UDPSocketAdapter) * site) :=
  sites ← sites_open (opening_connect 0 (desk_config 100) (desk_adapter 7))
            (opening_listen 0 (desk_config 200) (desk_adapter 8)) desk_world1 desk_world2;
  sites_run desk_steps sites.

Lemma desk_fresh later :
  desk_left 5 (MkDesk [] later 0) <= stream_limit -> fresh 0%nat 1%nat 5 (desk_left 5) (desk_world later).
Proof.
  intros Hl. split; try done; [by eexists _, _|by eexists _, _|]. split; [|exact Hl].
  unfold desk_left. cbn [desk_world w_kernel fst dk_inbox dk_later].
  pose proof (desk_total_nonneg 5 (concat later)). pose proof (desk_total_nonneg 5 []). lia.
Qed.

Lemma desk_configured random isn config : 0 <= isn < 2 ^ 32 -> opening_ok (opening_connect random (desk_config isn) config).
Proof. intros Hi. split_and!; cbn; [lia|done|lia|done|exact Hi]. Qed.

Lemma desk_fresh1 : fresh 0%nat 1%nat 5 (desk_left 5) desk_world1.
Proof. apply desk_fresh. by vm_compute. Qed.

Lemma desk_fresh2 : fresh 0%nat 1%nat 5 (desk_left 5) desk_world2.
Proof. apply desk_fresh. by vm_compute. Qed.

Definition desk_adapters : AdapterLaws desk (TCPSpongeSocket (channel UDPSocketAdapter)) UDPSocketAdapter (udp_exn (K:=desk)) :=
  UDPSocketAdapter_laws.

Lemma sockets_deliver_witness :
  exists s1 s2 c, desk_run = Ok (s1, s2) /\ handed_over 5 5 s1 s2 c /\
    sk_inbound_shutdown (w_state (st_world s2)) = true /\ bytes_written 5 (w_log (st_world s2)) = [1; 2; 3].
Proof.
  pose proof (sockets_deliver (K:=desk) (A:=UDPSocketAdapter) (AdapterLaws0:=desk_adapters) (udp_exn (K:=desk)) 0%nat 1%nat 5 ltac:(done) (desk_left 5) 0%nat 1%nat 5 ltac:(done) (desk_left 5)
    (desk_budget 5) (desk_budget 5) (opening_connect 0 (desk_config 100) (desk_adapter 7))
    (opening_listen 0 (desk_config 200) (desk_adapter 8)) desk_world1 desk_world2 desk_steps
    (desk_configured 0 100 (desk_adapter 7) ltac:(lia)) (desk_configured 0 200 (desk_adapter 8) ltac:(lia))
    desk_fresh1 desk_fresh2) as Hw.
  assert (match desk_run with
          | Ok (s1, s2) => (sk_inbound_shutdown (w_state (st_world s2)), bytes_written 5 (w_log (st_world s2)))
          | Throw _ => (false, [])
          end = (true, [1; 2; 3])) as Hrun by (vm_compute; reflexivity).
  fold desk_run in Hw. destruct desk_run as [[s1 s2]|e]; [|done]. injection Hrun as E1 E2.
  destruct Hw as [(c & Hc) _]. by exists s1, s2, c.
Defined.
