(* ===== verification/Benchmarks.v ===== *)
(** The throughput benchmark (src/apps/tcp_benchmark.cc): two connections in one
    process that hand their segments to each other, in order or in reverse order.

    The random bytes, the two random numbers that the senders may draw, and how many
    turns the loops take at most are arguments; the clocks and the output are left
    out.  Theorem: unless [x] is reset, the checks of the benchmark never fail; that
    neither connection is reset, and that the loops end, is shown in
    [BenchmarkRuns]. *)

From S2P Require Import Prelude WrappingIntegers Buffers ByteStreams StreamReassemblers TCPSegments.
From S2P Require Import TCPReceivers TCPSenders SocketAdapters TCPConnections EndToEnd SpongeRuns.

#[local] Open Scope Z_scope.

Definition len : Z := 100 * 1024 * 1024.

(** [y.segment_received()] for each segment. *)
Fixpoint receive_all (y : TCPConnection) (segments : list TCPSegment) : result TCPConnection :=
  match segments with
  | [] => Ok y
  | seg :: segments => y ← TCPConnection_segment_received y seg; receive_all y segments
  end.

(** [move_segments(x, y, segments, reorder)]: the two connections, and the vector. *)
Definition move_segments (x y : TCPConnection) (segments : list TCPSegment) (reorder : bool) :
    result (TCPConnection * TCPConnection * list TCPSegment) :=
  let segments := segments ++ cn_segments_out x in
  let x := TCPConnection_set_segments_out x [] in
  y ← receive_all y (if reorder then rev segments else segments);
  Ok (x, y, []).

(** The variables of [main_loop]. *)
Record bench : Type := MkBench {
  be_x : TCPConnection;
  be_y : TCPConnection;
  be_bytes_to_send : Buffer;
  be_x_closed : bool;
  be_string_received : bytes
}.

(** [while (bytes_to_send.size() and x.remaining_outbound_capacity())] *)
Fixpoint write_input (fuel : nat) (x : TCPConnection) (bytes_to_send : Buffer) : result (TCPConnection * Buffer) :=
  match fuel with
  | O => Throw undefined_behaviour
  | S fuel =>
      if negb (Buffer_size bytes_to_send =? 0) && negb (TCPConnection_remaining_outbound_capacity x =? 0) then
        let want := Z.min (TCPConnection_remaining_outbound_capacity x) (Buffer_size bytes_to_send) in
        '(x, written) ← TCPConnection_write x (ztake want (Buffer_str bytes_to_send));
        if negb (want =? written) then Throw runtime_error
        else
          bytes_to_send ← Buffer_remove_prefix bytes_to_send written;
          write_input fuel x bytes_to_send
      else Ok (x, bytes_to_send)
  end.

(** The lambda [loop].  Each turn of [write_input] but the last one takes a byte. *)
Definition bench_loop (reorder : bool) (b : bench) : result bench :=
  '(x, bytes_to_send) ← write_input (S (length (Buffer_str (be_bytes_to_send b)))) (be_x b) (be_bytes_to_send b);
  '(x, x_closed) ←
    (if (Buffer_size bytes_to_send =? 0) && negb (be_x_closed b)
     then x ← TCPConnection_end_input_stream x; Ok (x, true)
     else Ok (x, be_x_closed b));
  '(x, y, segments) ← move_segments x (be_y b) [] reorder;
  '(y, x, segments) ← move_segments y x segments false;
  let available_output := ByteStream_buffer_size (TCPConnection_inbound_stream y) in
  '(y, string_received) ←
    (if 0 <? available_output then
       '(out, s) ← ByteStream_read (TCPConnection_inbound_stream y) available_output;
       Ok (TCPConnection_set_receiver y (TCPReceiver_with_output (cn_receiver y) out), be_string_received b ++ s)
     else Ok (y, be_string_received b));
  let x := TCPConnection_tick x 1000 in
  let y := TCPConnection_tick y 1000 in
  Ok (MkBench x y bytes_to_send x_closed string_received).

(** [while (condition) loop();], for at most [turns] turns: whether it has ended. *)
Fixpoint bench_while (turns : nat) (condition : bench -> bool) (reorder : bool) (b : bench) : result (bool * bench) :=
  if negb (condition b) then Ok (true, b)
  else
    match turns with
    | O => Ok (false, b)
    | S turns => b ← bench_loop reorder b; bench_while turns condition reorder b
    end.

Definition receiving_on (b : bench) : bool := negb (ByteStream_eof (TCPConnection_inbound_stream (be_y b))).
Definition any_active (b : bench) : bool := TCPConnection_active (be_x b) || TCPConnection_active (be_y b).

(** What [main_loop] does before its first loop. *)
Definition bench_start (random_x random_y : Z) (string_to_send : bytes) : result bench :=
  x ← TCPConnection_connect (TCPConnection_new TCPConfig_default random_x);
  y ← TCPConnection_end_input_stream (TCPConnection_new TCPConfig_default random_y);
  Ok (MkBench x y (Buffer_of_string string_to_send) false []).

(** [main_loop(reorder)]: whether it has returned, and the variables. *)
Definition main_loop (turns1 turns2 : nat) (random_x random_y : Z) (string_to_send : bytes) (reorder : bool) :
    result (bool * bench) :=
  b ← bench_start random_x random_y string_to_send;
  '(done, b) ← bench_while turns1 receiving_on reorder b;
  if negb done then Ok (false, b)
  else if negb (bool_decide (be_string_received b = string_to_send)) then Throw runtime_error
  else bench_while turns2 any_active reorder b.

(** ** Steps of the two connections *)

(** The stream's end is left alone, or there was an error. *)
Definition kept (c c' : TCPConnection) : Prop :=
  bs_error (sd_stream (cn_sender c')) = true \/ flags (cn_sender c') = flags (cn_sender c).

Lemma kept_trans c1 c2 c3 : kept c1 c2 -> kept c2 c3 -> kept c1 c3.
Proof.
  unfold kept, flags. intros [E1|F1] [E2|F2]; [by left|left|by left|right; congruence]. injection F2. congruence.
Qed.

Lemma keeps_kept c c' : keeps_flags c c' -> kept c c'.
Proof. intros [Hf|Ho]; [by right|left; apply Ho]. Qed.

(** Segments that are on the wire of [q] are received by [p]. *)
Lemma receive_all_ok q p segments :
  net_inv p q -> zlen (pe_written q) <= stream_limit -> Forall (fun seg => seg ∈ pe_wire q) segments ->
  match receive_all (pe_conn p) segments with
  | Ok c => net_inv (peer_set_conn p c) q /\ kept (pe_conn p) c
  | Throw e => e = length_error
  end.
Proof.
  intros Hn Hq Hin. revert p Hn. induction Hin as [|seg segments Hseg Hin IH]; intros p Hn; cbn [receive_all].
  { split; [by destruct p|by right]. }
  apply list_elem_of_lookup in Hseg as (k & Hk). pose proof Hn as [N1 N2 N3 N4].
  destruct (deliver_step_ok q p k N2 N1 N4 Hq) as [(p' & Ep & Hst & _)|Ep]; cbn [peer_exec] in Ep; rewrite Hk in Ep;
    destruct (TCPConnection_segment_received (pe_conn p) seg) as [c|e] eqn:Ec; try done; [|by injection Ep].
  injection Ep as <-. cbn [mbind result_bind]. specialize (IH _ (stepped_net _ _ _ Hn Hst)). cbn [pe_conn peer_set_conn] in IH.
  destruct (receive_all c segments) as [c'|e]; [|done]. destruct IH as [IH1 IH2]. split; [done|].
  eapply kept_trans; [|exact IH2]. eapply keeps_kept, segment_received_flags; [apply N1|done].
Qed.

(** All segments of [p] go to [q]. *)
Lemma move_segments_ok p q reorder :
  net_inv p q -> zlen (pe_written p) <= stream_limit ->
  match move_segments (pe_conn p) (pe_conn q) [] reorder with
  | Ok (x, y, segments) => segments = [] /\ kept (pe_conn p) x /\ kept (pe_conn q) y /\
      net_inv (MkPeer x (pe_written p) (pe_read p) (pe_wire p ++ cn_segments_out (pe_conn p))) (peer_set_conn q y)
  | Throw e => e = length_error
  end.
Proof.
  intros Hn Hp. unfold move_segments. cbn [app]. set (p' := MkPeer (TCPConnection_set_segments_out (pe_conn p) []) (pe_written p)
    (pe_read p) (pe_wire p ++ cn_segments_out (pe_conn p))).
  assert (net_inv p' q) as Hn'.
  { destruct Hn as [[[C1 C2 C3] S2] N2 N3 N4]. split; try done. split; [by split|]. by apply Forall_app. }
  pose proof (receive_all_ok p' q (if reorder then rev (cn_segments_out (pe_conn p)) else cn_segments_out (pe_conn p))
    (net_inv_sym _ _ Hn') Hp) as Hr. destruct (receive_all _ _) as [y|e].
  - cbn [mbind result_bind]. destruct Hr as [R1 R2].
    { apply Forall_forall. intros seg Hs. apply elem_of_app. right. destruct reorder; [|done]. by apply list_elem_of_In, in_rev, list_elem_of_In. }
    split_and!; [done|by right|done|by apply net_inv_sym].
  - apply Hr. apply Forall_forall. intros seg Hs. apply elem_of_app. right. destruct reorder; [|done].
    by apply list_elem_of_In, in_rev, list_elem_of_In.
Qed.

(** ** The invariant *)

(** [W] was written to [x], and the rest of the string is to come. *)
Record bench_inv (string_to_send : bytes) (b : bench) : Prop := {
  bi_net : exists W wx wy, W ++ Buffer_str (be_bytes_to_send b) = string_to_send /\
    net_inv (MkPeer (be_x b) W [] wx) (MkPeer (be_y b) [] (be_string_received b) wy);
  bi_buffer : Buffer_wf (be_bytes_to_send b);
  bi_open : bs_error (sd_stream (cn_sender (be_x b))) = false -> bs_input_ended (sd_stream (cn_sender (be_x b))) = true ->
    be_x_closed b = true;
  bi_closed : be_x_closed b = true -> Buffer_str (be_bytes_to_send b) = []
}.

Lemma write_input_ok fuel x W wx q buf :
  net_inv (MkPeer x W [] wx) q -> Buffer_wf buf -> zlen (W ++ Buffer_str buf) <= stream_limit ->
  (Buffer_str buf <> [] -> bs_input_ended (sd_stream (cn_sender x)) = false) -> (length (Buffer_str buf) < fuel)%nat ->
  exists x' buf' W', write_input fuel x buf = Ok (x', buf') /\ W' ++ Buffer_str buf' = W ++ Buffer_str buf /\
    net_inv (MkPeer x' W' [] wx) q /\ Buffer_wf buf' /\ flags (cn_sender x') = flags (cn_sender x) /\
    zlen (Buffer_str buf') <= zlen (Buffer_str buf).
Proof.
  revert x W buf. induction fuel as [|fuel IH]; intros x W buf Hn Hb Hlim Hopen Hfuel; [lia|]. cbn [write_input].
  unfold Buffer_size. destruct (_ && _) eqn:Ec; [|by exists x, buf, W]. b2p.
  set (want := Z.min _ _). pose proof (zlen_nonneg (Buffer_str buf)) as Hz. pose proof (zlen_nonneg W) as HzW.
  pose proof (sc_stream _ _ (ci_core _ _ (sn_conn _ (ni_p _ _ Hn)))) as Hwf. cbn in Hwf.
  assert (0 < TCPConnection_remaining_outbound_capacity x) as Hcap.
  { unfold TCPConnection_remaining_outbound_capacity, TCPSender_stream_in in *. rewrite ByteStream_remaining_capacity_eq in * by done.
    destruct Hwf. lia. }
  assert (Buffer_str buf <> []) as Hne by (intros E; rewrite E in *; done). specialize (Hopen Hne).
  assert (sd_fined (cn_sender x) = false) as Hf.
  { apply not_true_is_false. intros Hf. destruct (sp_fined _ _ (ci_pos _ _ (sn_conn _ (ni_p _ _ Hn))) Hf). cbn in *. congruence. }
  rewrite zlen_app in Hlim. assert (zlen (ztake want (Buffer_str buf)) = want) as Hw by (unfold want; zl).
  assert (0 < want <= zlen (Buffer_str buf) /\ want <= TCPConnection_remaining_outbound_capacity x) as Hwant by (unfold want; lia).
  unfold stream_limit in *. destruct (write_step_ok q _ (ztake want (Buffer_str buf)) (ni_p _ _ Hn) (ni_qp _ _ Hn)) as (p' & Ep & Hst & _);
    [cbn; unfold stream_limit; lia|]. cbn [peer_exec pe_conn] in Ep. unfold TCPSender_fined in Ep. rewrite Hf in Ep.
  destruct (conn_write_ok _ x (ztake want (Buffer_str buf)) (sn_conn _ (ni_p _ _ Hn)) Hf) as (x1 & n & Ew & En & _);
    [cbn; unfold index_limit; lia|]. rewrite Hw, Z.min_l in En by lia. subst n.
  destruct (conn_write_flags x (ztake want (Buffer_str buf)) x1 want Hwf ltac:(lia) Ew) as [[F1 _] F2]. rewrite Ew in Ep |- *.
  cbn [mbind result_bind pe_written pe_read pe_wire] in Ep. rewrite ztake_ge in Ep by lia. injection Ep as <-.
  cbn [mbind result_bind]. rewrite Z.eqb_refl. cbn [negb].
  destruct (Buffer_remove_prefix_ok buf want Hb ltac:(lia)) as (buf1 & -> & Hb1 & Es). cbn [mbind result_bind].
  assert ((W ++ ztake want (Buffer_str buf)) ++ Buffer_str buf1 = W ++ Buffer_str buf) as EW by (by rewrite Es, <- app_assoc, ztake_zdrop).
  destruct (IH x1 (W ++ ztake want (Buffer_str buf)) buf1) as (x' & buf' & W' & R1 & R2 & R3 & R4 & R5 & R6).
  - exact (stepped_net _ _ _ Hn Hst).
  - done.
  - rewrite EW, zlen_app. unfold stream_limit. lia.
  - intros _. congruence.
  - rewrite Es. unfold zdrop. rewrite length_drop. unfold want. unfold zlen in *. lia.
  - exists x', buf', W'. split_and!; [done|congruence|done|done| |].
    + rewrite R5. unfold flags. congruence.
    + rewrite Es in R6. revert R6. zl.
Qed.

(** The other steps of a turn. *)
Lemma step_ok a p q :
  net_inv p q -> action_ok a -> action_bytes a = 0 -> zlen (pe_written p) <= stream_limit -> zlen (pe_written q) <= stream_limit ->
  (exists p', peer_exec a p (pe_wire q) = Ok p' /\ net_inv p' q) \/ peer_exec a p (pe_wire q) = Throw length_error.
Proof.
  intros Hn Ha Hz Hp Hq. pose proof Hn as [N1 N2 N3 N4].
  destruct (peer_step_ok q p a N2 N1 N4 Ha Hq) as [(p' & Ep & Hst & _)|Ep]; [lia| |by right].
  left. exists p'. split; [done|]. exact (stepped_net _ _ _ Hn Hst).
Qed.

Lemma close_ok (x : TCPConnection) W wx q (buf : Buffer) (closed : bool) :
  net_inv (MkPeer x W [] wx) q -> zlen W <= stream_limit -> zlen (pe_written q) <= stream_limit ->
  exists x' closed', (if (Buffer_size buf =? 0) && negb closed
     then x ← TCPConnection_end_input_stream x; Ok (x, true) else Ok (x, closed)) = Ok (x', closed') /\
    net_inv (MkPeer x' W [] wx) q /\ (closed' = true -> closed = true \/ Buffer_str buf = []) /\
    (closed' = true \/ closed' = closed /\ flags (cn_sender x') = flags (cn_sender x)).
Proof.
  intros Hn HW Hq. destruct (_ && _) eqn:Ec.
  2: { exists x, closed. split_and!; [done|done|by left|by right]. }
  b2p. destruct (step_ok act_end_input _ q Hn I eq_refl HW Hq) as [(p' & Ep & Hn')|Ep]; cbn [peer_exec pe_conn] in Ep;
    destruct (end_input_stream_ok _ x (sn_conn _ (ni_p _ _ Hn))) as (x1 & Ex & _); rewrite Ex in *; [|done].
  injection Ep as <-. exists x1, true. split_and!; [done|exact Hn'| |by left]. intros _. right.
  unfold Buffer_size in *. by apply zlen_zero_nil.
Qed.

Lemma read_ok (y : TCPConnection) received wy q :
  net_inv (MkPeer y [] received wy) q -> zlen (pe_written q) <= stream_limit ->
  exists y' received', (if 0 <? ByteStream_buffer_size (TCPConnection_inbound_stream y) then
       '(out, s) ← ByteStream_read (TCPConnection_inbound_stream y) (ByteStream_buffer_size (TCPConnection_inbound_stream y));
       Ok (TCPConnection_set_receiver y (TCPReceiver_with_output (cn_receiver y) out), received ++ s)
     else Ok (y, received)) = Ok (y', received') /\ net_inv (MkPeer y' [] received' wy) q.
Proof.
  intros Hn Hq. destruct (Z.ltb_spec 0 (ByteStream_buffer_size (TCPConnection_inbound_stream y))) as [Hlt|Hlt]; [|by exists y, received].
  assert (bs_wf (TCPConnection_inbound_stream y)) as Hwf by apply (ni_qp _ _ Hn).
  destruct (step_ok (act_read (ByteStream_buffer_size (TCPConnection_inbound_stream y))) _ q Hn ltac:(cbn; lia) eq_refl) as [(p' & Ep & Hn')|Ep];
    [done|done| |]; cbn [peer_exec pe_conn] in Ep; destruct (ByteStream_read_ok _ (ByteStream_buffer_size (TCPConnection_inbound_stream y)) Hwf)
      as (out & Er & _); try lia; rewrite Er in *; [|done].
  injection Ep as <-. cbn [mbind result_bind]. eexists _, _. split; [done|exact Hn'].
Qed.

Lemma ticks_ok x W wx y received wy :
  net_inv (MkPeer x W [] wx) (MkPeer y [] received wy) -> zlen W <= stream_limit ->
  net_inv (MkPeer (TCPConnection_tick x 1000) W [] wx) (MkPeer (TCPConnection_tick y 1000) [] received wy) /\
  kept x (TCPConnection_tick x 1000).
Proof.
  intros Hn HW. destruct (step_ok (act_tick 1000) _ _ Hn I eq_refl HW) as [(p' & Ep & Hn1)|Ep]; [done| |done].
  injection Ep as <-. destruct (step_ok (act_tick 1000) _ _ (net_inv_sym _ _ Hn1) I eq_refl) as [(q' & Eq & Hn2)|Eq]; [done|exact HW| |done].
  injection Eq as <-. split; [exact (net_inv_sym _ _ Hn2)|]. eapply keeps_kept, tick_flags. apply (sn_conn _ (ni_p _ _ Hn)).
Qed.

Lemma bench_loop_ok string_to_send reorder b :
  zlen string_to_send <= stream_limit -> bench_inv string_to_send b -> bs_error (sd_stream (cn_sender (be_x b))) = false ->
  match bench_loop reorder b with Ok b' => bench_inv string_to_send b' | Throw e => e = length_error end.
Proof.
  intros Hlim [(W & wx & wy & EW & Hn) Hb Hopen Hclosed] He. unfold bench_loop.
  assert (Buffer_str (be_bytes_to_send b) <> [] -> bs_input_ended (sd_stream (cn_sender (be_x b))) = false) as Hend.
  { intros Hne. apply not_true_is_false. intros Hend. by apply Hne, Hclosed, Hopen. }
  destruct (write_input_ok (S (length (Buffer_str (be_bytes_to_send b)))) (be_x b) W wx _ (be_bytes_to_send b) Hn Hb)
    as (x1 & buf & W1 & -> & EW1 & Hn1 & Hb1 & F1 & L1); [by rewrite EW|done|lia|]. cbn [mbind result_bind].
  assert (zlen W1 <= stream_limit) as HW1.
  { rewrite EW in EW1. rewrite <- EW1, zlen_app in Hlim. pose proof (zlen_nonneg (Buffer_str buf)). lia. }
  destruct (close_ok x1 W1 wx _ buf (be_x_closed b) Hn1 HW1 ltac:(done)) as (x2 & closed & -> & Hn2 & C1 & C2). cbn [mbind result_bind].
  pose proof (move_segments_ok _ _ reorder Hn2 HW1) as Hm. cbn [pe_conn] in Hm.
  destruct (move_segments x2 (be_y b) [] reorder) as [[[x3 y3] segs]|e]; [|done]. destruct Hm as (-> & K3 & _ & Hn3). cbn [mbind result_bind].
  pose proof (move_segments_ok _ _ false (net_inv_sym _ _ Hn3) ltac:(done)) as Hm. cbn [pe_conn peer_set_conn] in Hm.
  destruct (move_segments y3 x3 [] false) as [[[y4 x4] segs]|e]; [|done]. destruct Hm as (_ & _ & K4 & Hn4). cbn [mbind result_bind].
  cbn [pe_written pe_read pe_wire peer_set_conn] in Hn4.
  destruct (read_ok y4 _ _ _ Hn4 HW1) as (y5 & received & -> & Hn5). cbn [mbind result_bind].
  destruct (ticks_ok _ _ _ _ _ _ (net_inv_sym _ _ Hn5) HW1) as [Hn6 K6]. split; cbn.
  - eexists W1, _, _. split; [congruence|exact Hn6].
  - done.
  - intros He' Hend'. destruct C2 as [C2|[-> C2]]; [done|]. pose proof (kept_trans _ _ _ (kept_trans _ _ _ K3 K4) K6) as [K|K]; [congruence|].
    apply Hopen; [done|]. unfold flags in *. congruence.
  - intros Hc. destruct (C1 Hc) as [Hc'|Hc']; [|done]. rewrite (Hclosed Hc') in L1.
    apply zlen_zero_nil. pose proof (zlen_nonneg (Buffer_str buf)). change (zlen []) with 0 in L1. lia.
Qed.

(** ** Runs *)

(** What was received stays. *)
Lemma bench_loop_grows reorder b b' : bench_loop reorder b = Ok b' -> be_string_received b `prefix_of` be_string_received b'.
Proof.
  unfold bench_loop. intros Hl. destruct (write_input _ _ _) as [[x1 buf]|]; [|done]. cbn [mbind result_bind] in Hl.
  destruct (if (Buffer_size buf =? 0) && _ then _ else _) as [[x2 closed]|]; [|done]. cbn [mbind result_bind] in Hl.
  destruct (move_segments x2 _ _ _) as [[[x3 y3] segs]|]; [|done]. cbn [mbind result_bind] in Hl.
  destruct (move_segments y3 _ _ _) as [[[y4 x4] segs']|]; [|done]. cbn [mbind result_bind] in Hl.
  destruct (0 <? _); [|injection Hl as <-; done].
  destruct (ByteStream_read _ _) as [[out s]|]; [|done]. injection Hl as <-. by eexists.
Qed.

Lemma bench_while_grows turns condition reorder b d b' :
  bench_while turns condition reorder b = Ok (d, b') -> be_string_received b `prefix_of` be_string_received b'.
Proof.
  revert b. induction turns as [|turns IH]; intros b; cbn [bench_while]; destruct (condition b); cbn [negb]; try by intros [= _ <-].
  destruct (bench_loop reorder b) as [b1|] eqn:El; [|done]. cbn [mbind result_bind]. intros Hw.
  etrans; [by eapply bench_loop_grows|by eapply IH].
Qed.

Lemma bench_start_ok random_x random_y string_to_send :
  0 <= random_x < 2 ^ 32 -> 0 <= random_y < 2 ^ 32 -> zlen string_to_send <= stream_limit ->
  exists b, bench_start random_x random_y string_to_send = Ok b /\ bench_inv string_to_send b.
Proof.
  intros Hx Hy Hlim. unfold bench_start, stream_limit in *.
  assert (forall r, 0 <= r < 2 ^ 32 -> config_ok TCPConfig_default r) as Hc.
  { intros r Hr. unfold config_ok, index_limit. cbn. unfold DEFAULT_CAPACITY. split_and!; try lia; exact Hr. }
  pose proof (net_inv_new _ _ _ _ (Hc _ Hx) (Hc _ Hy)) as Hn.
  destruct (connect_syn_sent TCPConfig_default random_x) as (x & Ex & _ & Fx).
  destruct (step_ok act_connect _ _ Hn I eq_refl) as [(p' & Ep & Hn1)|Ep]; [done|done| |]; cbn [peer_exec peer_new pe_conn] in Ep;
    rewrite Ex in Ep; [|done]. injection Ep as <-.
  destruct (end_input_stream_ok [] (TCPConnection_new TCPConfig_default random_y)) as (y & Ey & _);
    [exact (sn_conn _ (ni_q _ _ Hn))|].
  destruct (step_ok act_end_input _ _ (net_inv_sym _ _ Hn1) I eq_refl) as [(q' & Eq & Hn2)|Eq]; [done|done| |];
    cbn [peer_exec peer_new pe_conn] in Eq; rewrite Ey in Eq; [|done]. injection Eq as <-.
  rewrite Ex, Ey. cbn [mbind result_bind]. eexists. split; [done|]. unfold flags in Fx. injection Fx as E1 E2. split; cbn.
  - exists [], [], []. split; [by apply Buffer_of_string_str; lia|exact (net_inv_sym _ _ Hn2)].
  - apply Buffer_of_string_wf. lia.
  - congruence.
  - done.
Qed.

Section runs.
Context (random_x random_y : Z) (string_to_send : bytes) (reorder : bool).

(** The states of a run after [n] turns in which [x] was not reset before. *)
Inductive bench_reach : nat -> bench -> Prop :=
  | reach_start b : bench_start random_x random_y string_to_send = Ok b -> bench_reach 0 b
  | reach_turn n b b' : bench_reach n b -> bs_error (sd_stream (cn_sender (be_x b))) = false ->
      bench_loop reorder b = Ok b' -> bench_reach (S n) b'.

(** [x] was reset within [turns] turns, after too many retransmissions or by [y]. *)
Definition bench_reset (turns : nat) : Prop :=
  exists n b, (n <= turns)%nat /\ bench_reach n b /\ bs_error (sd_stream (cn_sender (be_x b))) = true.

Context (Hx : 0 <= random_x < 2 ^ 32) (Hy : 0 <= random_y < 2 ^ 32) (Hlen : zlen string_to_send <= stream_limit).

Lemma reach_inv n b : bench_reach n b -> bench_inv string_to_send b.
Proof.
  induction 1 as [b Hb|n b b' Hr IH He Hl].
  - destruct (bench_start_ok _ _ _ Hx Hy Hlen) as (b0 & Hb0 & Hi). congruence.
  - pose proof (bench_loop_ok _ reorder b Hlen IH He) as Hok. by rewrite Hl in Hok.
Qed.

Lemma bench_while_reach turns condition n b :
  bench_reach n b ->
  bench_reset (n + turns) \/
  match bench_while turns condition reorder b with
  | Ok (done, b') => (exists m, (m <= n + turns)%nat /\ bench_reach m b') /\ (done = true -> condition b' = false)
  | Throw e => e = length_error
  end.
Proof.
  revert n b. induction turns as [|turns IH]; intros n b Hr; cbn [bench_while]; destruct (condition b) eqn:Ec; cbn [negb];
    try (right; split; [exists n; split; [lia|done]|done]).
  destruct (bs_error (sd_stream (cn_sender (be_x b)))) eqn:He; [left; exists n, b; split_and!; [lia|done|done]|].
  pose proof (bench_loop_ok _ reorder b Hlen (reach_inv n b Hr) He) as Hok.
  destruct (bench_loop reorder b) as [b'|e] eqn:El; [|by right]. cbn [mbind result_bind].
  replace (n + S turns)%nat with (S n + turns)%nat by lia. apply IH. by eapply reach_turn.
Qed.

Lemma reach_received n b : bench_reach n b ->
  be_string_received b `prefix_of` string_to_send /\
  (receiving_on b = false -> bs_error (sd_stream (cn_sender (be_x b))) = false -> be_string_received b = string_to_send).
Proof.
  intros Hr. destruct (reach_inv n b Hr) as [(W & wx & wy & EW & Hn) Hb Hopen Hclosed].
  destruct (linked_delivered _ _ (ni_pq _ _ Hn)) as [D1 D2]. cbn in D1, D2. split.
  - destruct D1 as [k Hk]. rewrite <- EW, Hk, <- !app_assoc. by eexists.
  - unfold receiving_on. rewrite negb_false_iff. intros He Her. rewrite (D2 He), <- EW.
    pose proof (ni_pq _ _ Hn) as [R1 _ _ _ R5]. assert (sd_fined (cn_sender (be_x b)) = true) as Hf.
    { apply R5. cbn. unfold ByteStream_eof in He. apply andb_prop in He as [He _].
      pose proof (sw_ended _ R1) as Hsw. change (sr_output _) with (TCPConnection_inbound_stream (be_y b)) in Hsw. rewrite He in Hsw.
      symmetry in Hsw. by apply andb_prop in Hsw as [Hsw _]. }
    destruct (sp_fined _ _ (ci_pos _ _ (sn_conn _ (ni_p _ _ Hn))) Hf) as [Hend _]. rewrite Hclosed, app_nil_r; auto.
Qed.

(** The benchmark transfers its string: in order or reordered, and however many
    turns its loops take, [y] has received a prefix of the string, the whole of it
    when the first loop ends, so that neither check of [main_loop] fails and only a
    [length_error] may stop it; unless [x] gave up and reset the connection. *)
Theorem benchmark_transfers turns1 turns2 :
  bench_reset (turns1 + turns2) \/
  match main_loop turns1 turns2 random_x random_y string_to_send reorder with
  | Ok (finished, b) => be_string_received b `prefix_of` string_to_send /\
      (finished = true -> be_string_received b = string_to_send /\ any_active b = false)
  | Throw e => e = length_error
  end.
Proof.
  assert (forall n, (n <= turns1 + turns2)%nat -> bench_reset n -> bench_reset (turns1 + turns2)) as Hmono.
  { intros n Hn (m & b & Hm & R). exists m, b. split; [lia|done]. }
  unfold main_loop. destruct (bench_start_ok _ _ _ Hx Hy Hlen) as (b0 & Hb0 & _). rewrite Hb0. cbn [mbind result_bind].
  destruct (bench_while_reach turns1 receiving_on 0 b0 (reach_start _ Hb0)) as [Hw|Hw]; [left; eapply Hmono; [|exact Hw]; lia|].
  destruct (bench_while turns1 receiving_on reorder b0) as [[d b]|e]; [|by right]. destruct Hw as [(m & Hm & Hr) Hd]. cbn [mbind result_bind].
  destruct (reach_received m b Hr) as [Hp Heq]. destruct d; cbn [negb]; [|by right].
  destruct (bs_error (sd_stream (cn_sender (be_x b)))) eqn:He; [left; exists m, b; split; [lia|done]|].
  rewrite bool_decide_true by auto. cbn [negb].
  destruct (bench_while_reach turns2 any_active m b Hr) as [Hw|Hw]; [left; eapply Hmono; [|exact Hw]; lia|].
  destruct (bench_while turns2 any_active reorder b) as [[d' b']|e] eqn:Ew; [|by right]. destruct Hw as [(m' & _ & Hr') Hd'].
  destruct (reach_received m' b' Hr') as [Hp' _]. apply bench_while_grows in Ew. rewrite (Heq (Hd eq_refl) eq_refl) in Ew.
  right. split; [done|]. intros Hf. split; [|auto]. by apply (anti_symm prefix).
Qed.

(** The state after [n] turns, computed. *)
Fixpoint bench_iter (n : nat) : result bench :=
  match n with
  | O => bench_start random_x random_y string_to_send
  | S n => b ← bench_iter n; bench_loop reorder b
  end.

Lemma reach_iter n b : bench_reach n b -> bench_iter n = Ok b.
Proof. induction 1 as [b Hb|n b b' Hr IH He Hl]; [done|]. cbn [bench_iter]. by rewrite IH. Qed.

End runs.

(** Three bytes, in reverse order: four turns are enough, and twelve more until
    both connections are closed. *)
Lemma benchmark_transfers_witness :
  exists b, main_loop 4 12 5 9 [1; 2; 3] true = Ok (true, b) /\ be_string_received b = [1; 2; 3] /\ any_active b = false.
Proof.
  assert (forallb (fun n => match bench_iter 5 9 [1; 2; 3] true n with
    | Ok b => negb (bs_error (sd_stream (cn_sender (be_x b)))) | Throw _ => true end) (seq 0 17) = true) as Hiter by (vm_compute; reflexivity).
  destruct (benchmark_transfers 5 9 [1; 2; 3] true ltac:(lia) ltac:(lia) ltac:(by vm_compute) 4 12) as [(n & b & Hn & Hr & He)|Hw].
  { rewrite forallb_forall in Hiter. specialize (Hiter n ltac:(apply in_seq; lia)). apply reach_iter in Hr. rewrite Hr, He in Hiter. done. }
  assert (match main_loop 4 12 5 9 [1; 2; 3] true with Ok (f, _) => f | Throw _ => false end = true) as Hrun by (vm_compute; reflexivity).
  destruct (main_loop 4 12 5 9 [1; 2; 3] true) as [[f b]|e]; [|done]. subst f. exists b. split; [done|]. by apply Hw.
Defined.
