(* ===== verification/BenchmarkRuns.v ===== *)
(** The throughput benchmark ends (src/apps/tcp_benchmark.cc): whatever the string and
    in whichever order the segments are handed over, both loops of [main_loop] end
    after a number of turns that is linear in the length of the string, without an
    exception, with the string received and both connections closed.

    One turn takes what [x] has queued to [y], in order or reversed, and then what [y]
    has queued to [x]; [forth] and [back] are the states in the middle of the two
    batches.  The string is sent by [x]; [y] only opens and closes its own stream,
    which takes three turns.  While [y] is still waiting for its SYN to be
    acknowledged it passes over what carries payload, so that in reverse order the
    first data is lost and has to wait for the timer. *)

From S2P Require Import Prelude WrappingIntegers Buffers ByteStreams StreamReassemblers Parsers TCPSegments.
From S2P Require Import TCPReceivers TCPSenders SocketAdapters TCPConnections EndToEnd Recovery Flows SpongeRuns Benchmarks.

(** ** Queues *)

Definition queued (W : bytes) (s : TCPSender) (seg : TCPSegment) : Prop := sent_by W s seg /\ th_rst (ts_header seg) = false.

(** What the segment acknowledges has been received by [r], and there is room for its window. *)
Definition confirms (isn : WrappingInt32) (r : TCPReceiver) (seg : TCPSegment) : Prop :=
  th_ack (ts_header seg) = true ->
  exists a, th_ackno (ts_header seg) = wrap a isn /\ 1 <= a <= rack r /\ 0 <= th_win (ts_header seg) <= sr_capacity (tr_reassembler r).

Lemma queued_le W s s' l : sender_le s s' -> Forall (queued W s) l -> Forall (queued W s') l.
Proof. intros Hle Hl. eapply Forall_impl; [exact Hl|]. intros seg [H1 H2]. split; [by eapply sent_by_le|done]. Qed.

Lemma confirms_le isn r r' l : rack r <= rack r' -> sr_capacity (tr_reassembler r') = sr_capacity (tr_reassembler r) ->
  Forall (confirms isn r) l -> Forall (confirms isn r') l.
Proof.
  intros H1 H2 Hl. eapply Forall_impl; [exact Hl|]. intros seg H Ha. destruct (H Ha) as (a & A1 & A2 & A3). exists a. rewrite H2.
  split_and!; try done; lia.
Qed.

Lemma queued_stamped W s r l : Forall (sent_by W s) l -> Forall plain l -> Forall (queued W s) (map (stamped r) l).
Proof.
  intros H1 H2. apply Forall_map. rewrite Forall_forall in *. intros seg Hin. split; [by apply stamped_sent, H1|].
  destruct (stamped_alike r seg) as (_ & _ & _ & -> & _). by apply H2.
Qed.

Lemma stamped_ack data W acc s r seg : half data W acc s r -> plain seg -> th_ack (ts_header (stamped r seg)) = true ->
  1 <= rack r /\ th_ackno (ts_header (stamped r seg)) = wrap (rack r) (sd_isn s) /\ th_win (ts_header (stamped r seg)) = reach r - rack r /\
  0 <= reach r - rack r <= sr_capacity (tr_reassembler r).
Proof.
  intros Hh Hp Ha. pose proof (stamped_answer _ _ _ _ _ seg Hh Hp) as E. unfold answer in E. rewrite Ha in E.
  destruct (rack_cases _ _ _ _ (hf_received _ _ _ _ _ Hh)) as [[Hi _]|[Hi H1]]; rewrite Hi in E; [done|]. injection E as E1 E2.
  destruct (half_announced _ _ _ _ _ Hh ltac:(congruence)) as [A1 A2]. split_and!; try done; lia.
Qed.

Lemma confirms_stamped data W acc s r l : half data W acc s r -> Forall plain l -> Forall (confirms (sd_isn s) r) (map (stamped r) l).
Proof.
  intros Hh Hl. apply Forall_map. eapply Forall_impl; [exact Hl|]. intros seg Hp Ha.
  destruct (stamped_ack _ _ _ _ _ seg Hh Hp Ha) as (H1 & H2 & -> & H4). exists (rack r). split_and!; try done; lia.
Qed.

(** What goes out when a segment has been received. *)
Lemma answered_out data W acc c c' rp r' seg new : half data W acc (cn_sender c) rp -> answered data W c c' r' seg new ->
  exists out, cn_segments_out c' = cn_segments_out c ++ map (stamped r') out /\ Forall plain out /\
    Forall (sent_by W (cn_sender c')) out /\ (forall sg, sg ∈ new -> sg ∈ out) /\
    (0 < seg_len seg -> exists reply, reply ∈ out /\ Buffer_str (ts_payload reply) = []).
Proof.
  intros Hh An. pose proof (an_moved _ _ _ _ _ _ _ An) as M.
  destruct (mv_plain _ _ _ _ M (hf_plain _ _ _ _ _ Hh)) as [_ Hpl]. destruct (mv_sent _ _ _ _ M) as [Hsent _].
  destruct (reply_ok W (cn_sender c')) as (_ & R1 & R2 & R3 & _); [apply (an_side _ _ _ _ _ _ _ An)..|].
  eexists. split; [apply An|]. split_and!.
  - apply Forall_app. split; [done|]. destruct (0 <? _); [by apply Forall_singleton|apply Forall_nil_2].
  - apply Forall_app. split; [done|]. destruct (0 <? _); [by apply Forall_singleton|apply Forall_nil_2].
  - intros sg Hin. apply elem_of_app. by left.
  - intros Hlt. exists (reply_segment (cn_sender c')). rewrite (proj2 (Z.ltb_lt _ _)) by lia. split; [|done].
    apply elem_of_app. right. by apply list_elem_of_singleton.
Qed.

Lemma elem_stamped r seg l : seg ∈ l -> stamped r seg ∈ map (stamped r) l.
Proof. intros H. by apply list_elem_of_In, in_map, list_elem_of_In. Qed.

(** The oldest outstanding segment. *)
Lemma head_flight data W acc s r h rest : half data W acc s r -> sd_segments_pending s = h :: rest ->
  0 <= sd_receiver_window_left s /\ 0 < seg_len h.
Proof.
  intros Hh Hp. destruct (sx_flight _ _ _ (hf_side _ _ _ _ _ Hh)) as [base HI]. pose proof (if_base _ _ _ HI) as Hbase. split; [lia|].
  pose proof (sent_chain_pos _ _ _ _ _ (if_chain _ _ _ HI)) as Hpos. rewrite Hp in Hpos. by apply Forall_cons in Hpos as [Hpos _].
Qed.

(** ** Answers *)

(** The answers [A] lead from the sender's window to what [r] has received up to [a]. *)
Definition leads (s : TCPSender) (A : list (WrappingInt32 * Z)) (r : TCPReceiver) (a : Z) : Prop :=
  exists e, answers_ok (sd_isn s) (sd_receiver_window_left s) (sd_receiver_window_right s) A a e /\ a <= rack r /\ e <= tip r.

Lemma leads_stamped data W acc s r A a l : half data W acc s r -> leads s A r a -> Forall plain l ->
  exists a', leads s (A ++ answers (map (stamped r) l)) r a' /\ a <= a' /\
    (l <> [] -> 1 <= rack r -> a' = rack r /\ answers (map (stamped r) l) <> []).
Proof.
  intros Hh. revert A a. induction l as [|seg l IH]; intros A a HA Hl; [exists a; by rewrite app_nil_r|].
  apply Forall_cons in Hl as [Hs Hl]. change (answers (map (stamped r) (seg :: l))) with (answer (stamped r seg) ++ answers (map (stamped r) l)).
  rewrite app_assoc. assert (exists a1, leads s (A ++ answer (stamped r seg)) r a1 /\ a <= a1 /\ (1 <= rack r -> a1 = rack r /\ answer (stamped r seg) <> []))
    as (a1 & H1 & H2 & H3).
  { rewrite (stamped_answer _ _ _ _ _ _ Hh Hs). destruct (rack_cases _ _ _ _ (hf_received _ _ _ _ _ Hh)) as [[Hi Hr]|[Hi Hr]]; rewrite Hi.
    - exists a. rewrite app_nil_r. split_and!; try done; lia.
    - destruct (half_announced _ _ _ _ _ Hh ltac:(congruence)) as [A1 A2]. destruct HA as (e & B1 & B2 & B3). pose proof (hf_capacity _ _ _ _ _ Hh).
      exists (rack r). split_and!; try done. exists (tip r). split; [|done]. unfold tip in *. eapply answers_snoc; [exact B1|lia..]. }
  destruct (IH _ _ H1 Hl) as (a2 & G1 & G2 & G3). exists a2. split_and!; [done|lia|]. intros _ Hr. destruct (H3 Hr) as [E1 E2]. split.
  - destruct G1 as (e & _ & G1 & _). lia.
  - by destruct (answer (stamped r seg)).
Qed.

Lemma leads_later s A r r' a : rack r <= rack r' -> reach r <= reach r' -> leads s A r a -> leads s A r' a.
Proof. intros H1 H2 (e & E1 & E2 & E3). exists e. unfold tip in *. split_and!; [done|lia|lia]. Qed.

Section turns.
Context (D : bytes).

(** ** From [x] to [y] *)

(** [y] has yet to receive [segs] of what [x] had queued. *)
Record forth (W acc : bytes) (x y : TCPConnection) (segs : list TCPSegment) (a : Z) : Prop := {
  fo_ends : ends D W acc (cn_sender x) [] [] [] (cn_receiver x) y;
  fo_back_room : sd_receiver_window_right (cn_sender y) <= reach (cn_receiver x);
  fo_first : sd_receiver_window_left (cn_sender y) = 0 -> sd_receiver_window_right (cn_sender y) = 1;
  fo_segs : Forall (queued W (cn_sender x)) segs /\ Forall (confirms (sd_isn (cn_sender y)) (cn_receiver x)) segs;
  fo_queue : Forall (queued [] (cn_sender y)) (cn_segments_out y);
  fo_leads : leads (cn_sender x) (answers (cn_segments_out y)) (cn_receiver y) a;
  fo_pending : forall seg, seg ∈ sd_segments_pending (cn_sender y) ->
    (exists r, stamped r seg ∈ cn_segments_out y) \/
    exists p, sent_segment [] (sd_isn (cn_sender y)) seg p /\ p + seg_len seg <= rack (cn_receiver x)
}.

(** [y]'s stream is empty, and so is what it has received of it. *)
Lemma back_short acc s r : half [] [] acc s r -> sd_next_seqno s <= 2 /\ rack r + sr_capacity (tr_reassembler r) <= reach r.
Proof.
  intros Hh. split; [apply (side_next _ _ _ (hf_side _ _ _ _ _ Hh))|]. pose proof (hf_received _ _ _ _ _ Hh) as Hr. apply (reach_read _ _ _ _ Hr).
  pose proof (rv_bytes _ _ _ _ Hr) as E. unfold sent_part, ztake in E. rewrite !take_nil in E. by apply app_eq_nil in E as [_ E].
Qed.

(** A segment is passed over only by one that listens or that waits for its SYN to
    be acknowledged. *)
Lemma not_ignored data W acc c rp seg : half data W acc (cn_sender c) rp ->
  1 <= sd_receiver_window_left (cn_sender c) \/ Buffer_str (ts_payload seg) = [] ->
  1 <= rack (cn_receiver c) \/ th_syn (ts_header seg) = true -> ignored c seg = false.
Proof.
  intros Hh H1 H2. unfold ignored. apply orb_false_intro.
  - destruct H2 as [H2|H2]; [|rewrite H2; apply andb_false_r]. unfold TCPReceiver_in_listen, rack, TCPReceiver_ackno in *.
    destruct (tr_sender_isn (cn_receiver c)); [done|lia].
  - destruct H1 as [H1|H1]; [|unfold Buffer_size; rewrite H1; apply andb_false_r]. unfold TCPSender_in_syn_sent.
    destruct (sx_flight _ _ _ (hf_side _ _ _ _ _ Hh)) as [base HI].
    rewrite (in_flight_bytes _ _ _ (sx_core _ _ _ (hf_side _ _ _ _ _ Hh)) (sx_pos _ _ _ (hf_side _ _ _ _ _ Hh)) HI).
    unfold TCPSender_next_seqno_absolute. destruct (Z.eqb_spec (sd_next_seqno (cn_sender c)) (sd_next_seqno (cn_sender c) - base)); [|by rewrite andb_false_r].
    exfalso. assert (base = 0) as -> by lia. destruct HI as [I1 _ I3 I4 _]. destruct (sd_segments_pending (cn_sender c)) as [|h rest].
    + pose proof (hf_syn _ _ _ _ _ Hh). lia.
    + destruct I1 as (Hs & _ & _). destruct (ss_first _ _ _ _ Hs eq_refl) as [P1 P2]. unfold seg_len in I3. rewrite P1, P2 in I3.
      change (zlen []) with 0 in I3. change (b2z false) with 0 in I3. pose proof (b2z_range (th_syn (ts_header h))). lia.
Qed.

(** An acknowledgment of [y]'s own numbers, in any order. *)
Lemma back_ack acc s r ackno win a : half [] [] acc s r -> ackno = wrap a (sd_isn s) -> 1 <= a <= rack r ->
  0 <= win <= sr_capacity (tr_reassembler r) -> good_ack s ackno win a.
Proof.
  intros Hh -> Ha Hw. destruct (back_short _ _ _ Hh) as [Hn _]. pose proof (half_rack _ _ _ _ _ Hh). pose proof (hf_capacity _ _ _ _ _ Hh).
  destruct (sx_flight _ _ _ (hf_side _ _ _ _ _ Hh)) as [base HI]. pose proof (if_window _ _ _ HI). split; try done; lia.
Qed.

Lemma y_receives W acc x y seg segs a k : forth W acc x y (seg :: segs) a ->
  (th_ack (ts_header seg) = true -> th_ackno (ts_header seg) = wrap k (sd_isn (cn_sender y)) /\ 1 <= k <= rack (cn_receiver x)) ->
  exists y' a', TCPConnection_segment_received y seg = Ok y' /\ forth W acc x y' segs a' /\ went [] [seg] y y' /\ a <= a' /\
    (ignored y seg = false -> (th_ack (ts_header seg) = true -> k <= sd_receiver_window_left (cn_sender y')) /\
     forall h rest, sd_segments_pending (cn_sender x) = h :: rest -> alike seg h ->
       sd_receiver_window_left (cn_sender x) < a' /\ answers (cn_segments_out y') <> []).
Proof.
  intros [F1 F2 F3 [F4 F5] F6 F7 F8] Hk. apply Forall_cons in F4 as [[S1 S2] F4]. apply Forall_cons in F5 as [S3 F5].
  destruct (ignored y seg) eqn:Ei.
  { destruct (ends_ignored _ _ _ _ _ _ _ _ y seg F1 S2 Ei) as (E & E1 & E2). eexists _, a. split; [exact E|]. split_and!; [|exact E2|done|done].
    by split. }
  pose proof (ed_out _ _ _ _ _ _ _ _ _ F1) as Hb. destruct (back_short _ _ _ Hb) as [Hn Hreach]. pose proof (hf_capacity _ _ _ _ _ Hb) as Hcap.
  destruct (ends_receive _ _ _ _ _ _ _ _ y seg k F1 S1 S2 Ei) as (y' & new & E & E1 & Wn & An & L & R & Hd).
  { intros Ha. destruct (Hk Ha) as [K1 K2]. destruct (S3 Ha) as (_ & _ & _ & S5). split; [|lia]. by eapply back_ack. }
  pose proof (an_moved _ _ _ _ _ _ _ An) as M. pose proof (mv_le _ _ _ _ M) as Hle.
  destruct (answered_out _ _ _ _ _ _ _ _ _ Hb An) as (out & Q & O1 & O2 & O3 & O4).
  destruct (leads_stamped D W acc (cn_sender x) (cn_receiver y') (answers (cn_segments_out y)) a out) as (a' & A1 & A2 & A3);
    [apply E1|by eapply leads_later; [apply Wn|apply Wn|]|done|].
  exists y', a'. split; [done|]. split_and!; try done.
  - split; try done.
    + rewrite R. destruct (th_ack (ts_header seg)) eqn:Ha; [|done]. destruct (S3 Ha) as (_ & _ & _ & S5). destruct (Hk eq_refl) as [_ K2].
      destruct (_ && _); lia.
    + rewrite L, R. destruct (th_ack (ts_header seg)); [|done]. destruct (Hk eq_refl) as [_ K2]. lia.
    + split; [done|]. by rewrite (le_isn _ _ Hle).
    + rewrite Q. apply Forall_app. split; [by eapply queued_le|]. by apply queued_stamped.
    + unfold answers. rewrite Q, flat_map_app. exact A1.
    + intros sg Hin. rewrite Q. destruct (mv_pending _ _ _ _ M sg Hin) as [Ho|Hnew].
      * destruct (F8 sg Ho) as [[r Hr]|[p Hp]]; [left; exists r; apply elem_of_app; by left|right]. exists p. by rewrite (le_isn _ _ Hle).
      * left. exists (cn_receiver y'). apply elem_of_app. right. by apply elem_stamped, O3.
  - intros _. split; [intros Ha; rewrite L, Ha; lia|]. intros h rest Hp Hal. specialize (Hd h rest Hp Hal).
    destruct (head_flight _ _ _ _ _ _ _ (ed_in _ _ _ _ _ _ _ _ _ E1) Hp) as [Hbase Hpos]. destruct Hal as [_ Hal].
    assert (out <> []) as Hout by (destruct (O4 ltac:(lia)) as (reply & Hin & _); by destruct out; [apply not_elem_of_nil in Hin|]).
    destruct (A3 Hout) as [A4 A5]; [lia|]. split; [lia|]. unfold answers. rewrite Q, flat_map_app. intros H. by apply app_eq_nil in H as [_ H].
Qed.

(** The oldest outstanding segment is the SYN as long as nothing was received. *)
Lemma head_minded data W acc s r seg h rest : half data W acc s r -> sent_by W s seg ->
  sd_segments_pending s = h :: rest -> alike seg h -> 1 <= rack r \/ th_syn (ts_header seg) = true.
Proof.
  intros Hh (p & Hs & Hle & _) Hp [E1 E2]. destruct (Z.le_gt_cases 1 (rack r)) as [|Hr]; [by left|right].
  pose proof (hf_side _ _ _ _ _ Hh) as Hsd. destruct (sx_flight _ _ _ Hsd) as [base HI]. pose proof (if_base _ _ _ HI). pose proof (hf_left _ _ _ _ _ Hh).
  assert (base = 0) as -> by lia. destruct HI as [I1 _ _ _ _]. rewrite Hp in I1. destruct I1 as (Hh0 & Hpos & _).
  pose proof (hf_limit _ _ _ _ _ Hh) as Hlim. destruct (side_next _ _ _ Hsd) as [_ Hn]. pose proof (seg_len_nonneg seg). unfold stream_limit in Hlim.
  rewrite (sent_place _ _ _ _ _ _ _ (sc_isn _ _ (sx_core _ _ _ Hsd)) Hs Hh0 E1) in Hs by lia.
  destruct (ss_first _ _ _ _ Hs eq_refl) as [P1 P2]. rewrite <- E2 in Hpos. unfold seg_len in Hpos. rewrite P1, P2 in Hpos.
  by destruct (th_syn (ts_header seg)).
Qed.

Lemma y_receives_all W acc x y segs a : forth W acc x y segs a ->
  exists y' a', receive_all y segs = Ok y' /\ forth W acc x y' [] a' /\ went [] segs y y' /\ a <= a' /\
    (forall seg h rest, seg ∈ segs -> sd_segments_pending (cn_sender x) = h :: rest -> alike seg h ->
      1 <= sd_receiver_window_left (cn_sender y) \/ Buffer_str (ts_payload seg) = [] ->
      sd_receiver_window_left (cn_sender x) < a' /\ answers (cn_segments_out y') <> []) /\
    (forall seg k, seg ∈ segs -> th_ack (ts_header seg) = true -> th_ackno (ts_header seg) = wrap k (sd_isn (cn_sender y)) ->
      1 <= k <= rack (cn_receiver x) -> Buffer_str (ts_payload seg) = [] -> 1 <= rack (cn_receiver y) ->
      k <= sd_receiver_window_left (cn_sender y')).
Proof.
  revert y a. induction segs as [|seg segs IH]; intros y a HF.
  { exists y, a. split_and!; try done; [apply went_refl|intros ? ? ? []%not_elem_of_nil|intros ? ? []%not_elem_of_nil]. }
  pose proof (fo_segs _ _ _ _ _ _ HF) as [[[S1 S2] _]%Forall_cons [S3 _]%Forall_cons].
  assert (exists k, th_ack (ts_header seg) = true -> th_ackno (ts_header seg) = wrap k (sd_isn (cn_sender y)) /\ 1 <= k <= rack (cn_receiver x)) as [k0 Hk0].
  { destruct (th_ack (ts_header seg)) eqn:Ea; [|by exists 0]. destruct (S3 Ea) as (k & K1 & K2 & _). by exists k. }
  destruct (y_receives W acc x y seg segs a k0 HF Hk0) as (y1 & a1 & E1 & HF1 & W1 & L1 & Hd1). cbn [receive_all]. rewrite E1. cbn [mbind result_bind].
  destruct (IH y1 a1 HF1) as (y2 & a2 & E2 & HF2 & W2 & L2 & C1 & C2). exists y2, a2.
  destruct (wn_moved _ _ _ _ W1) as [n1 M1]. destruct (wn_moved _ _ _ _ W2) as [n2 M2]. pose proof (mv_left _ _ _ _ M1). pose proof (mv_left _ _ _ _ M2).
  split_and!; try done; [exact (went_trans _ [seg] _ _ _ _ W1 W2)|lia| |].
  - intros sg h rest [->|Hin]%elem_of_cons Hp Hal Hmind.
    + destruct (Hd1 (not_ignored _ _ _ _ _ _ (ed_out _ _ _ _ _ _ _ _ _ (fo_ends _ _ _ _ _ _ HF)) Hmind
        (head_minded _ _ _ _ _ _ _ _ (ed_in _ _ _ _ _ _ _ _ _ (fo_ends _ _ _ _ _ _ HF)) S1 Hp Hal))) as [_ Hd].
      destruct (Hd h rest Hp Hal) as [D1 D2]. split; [lia|]. destruct (wn_queue _ _ _ _ W2) as [l ->]. unfold answers. rewrite flat_map_app.
      intros Hn. by apply app_eq_nil in Hn as [Hn _].
    + eapply (C1 sg); try done. destruct Hmind; [left; lia|by right].
  - intros sg k [->|Hin]%elem_of_cons Ha Hk Hkr Hpay Hrk.
    + destruct (y_receives W acc x y seg segs a k HF) as (y1' & a1' & E1' & _ & _ & _ & Hd'); [done|]. rewrite E1 in E1'. injection E1' as <-.
      destruct (Hd' (not_ignored _ _ _ _ _ _ (ed_out _ _ _ _ _ _ _ _ _ (fo_ends _ _ _ _ _ _ HF)) (or_intror Hpay) (or_introl Hrk))) as [Hc _].
      specialize (Hc Ha). lia.
    + apply (C2 sg k); try done; [by rewrite (le_isn _ _ (mv_le _ _ _ _ M1))|]. pose proof (wn_rack _ _ _ _ W1). lia.
Qed.

(** ** From [y] to [x] *)

(** A segment that tells [y] that more of its own numbers have been received. *)
Definition tells (s : TCPSender) (r : TCPReceiver) (seg : TCPSegment) (k : Z) : Prop :=
  th_ack (ts_header seg) = true /\ th_ackno (ts_header seg) = wrap k (sd_isn s) /\ Buffer_str (ts_payload seg) = [] /\
  sd_receiver_window_left s < k <= rack r.

(** [x] has yet to receive [segs] of what [y] had queued. *)
Record back (W acc : bytes) (x y : TCPConnection) (segs : list TCPSegment) (a : Z) : Prop := {
  ba_ends : ends [] [] [] (cn_sender y) D W acc (cn_receiver y) x;
  ba_segs : Forall (queued [] (cn_sender y)) segs;
  ba_queue : Forall (queued W (cn_sender x)) (cn_segments_out x) /\ Forall (confirms (sd_isn (cn_sender y)) (cn_receiver x)) (cn_segments_out x);
  ba_leads : leads (cn_sender x) (answers segs) (cn_receiver y) a;
  ba_syn : rack (cn_receiver x) = 0 ->
    match segs with [] => True | seg :: _ => th_syn (ts_header seg) = true /\ th_ack (ts_header seg) = false end
}.

Lemma back_payload s seg : sent_by [] s seg -> Buffer_str (ts_payload seg) = [].
Proof.
  intros (p & Hs & _). destruct (Z.eq_dec p 0) as [->|Hp]; [by apply Hs|]. pose proof (ss_abs _ _ _ _ Hs).
  destruct (ss_data _ _ _ _ Hs ltac:(lia)) as [[D1 _] D2 _]. rewrite D2. unfold slice, ztake, zdrop. by rewrite drop_nil, take_nil.
Qed.

(** A SYN is the oldest segment as long as nothing was received. *)
Lemma syn_alike data W acc s r seg : half data W acc s r -> sent_by W s seg -> th_syn (ts_header seg) = true -> rack r = 0 ->
  exists h rest, sd_segments_pending s = h :: rest /\ alike seg h.
Proof.
  intros Hh (p & Hs & _) Hsyn Hr. destruct (sx_flight _ _ _ (hf_side _ _ _ _ _ Hh)) as [base HI]. pose proof (if_base _ _ _ HI).
  pose proof (hf_left _ _ _ _ _ Hh). assert (base = 0) as -> by lia. destruct HI as [I1 _ I3 _ _].
  destruct (sd_segments_pending s) as [|h rest]; [pose proof (hf_syn _ _ _ _ _ Hh); lia|]. exists h, rest. split; [done|].
  destruct I1 as (Hh0 & Hpos & _). rewrite (ss_syn _ _ _ _ Hs Hsyn) in Hs. destruct (ss_first _ _ _ _ Hs eq_refl) as [P1 P2].
  destruct (ss_first _ _ _ _ Hh0 eq_refl) as [Q1 Q2]. split; [by rewrite (ss_seqno _ _ _ _ Hs), (ss_seqno _ _ _ _ Hh0)|].
  unfold seg_len in *. rewrite Q1, Q2 in *. rewrite P1, P2, Hsyn. destruct (th_syn (ts_header h)); [done|]. by change (zlen []) with 0 in Hpos.
Qed.

(** Answers arrive in order. *)
Lemma leads_ack data W acc s r seg segs a : half data W acc s r -> leads s (answers (seg :: segs)) r a ->
  exists k, (th_ack (ts_header seg) = true -> good_ack s (th_ackno (ts_header seg)) (th_win (ts_header seg)) k /\ k <= rack r /\
    sd_receiver_window_left s <= k /\ (answers segs = [] -> k = a)) /\
    forall s', sd_isn s' = sd_isn s ->
      sd_receiver_window_left s' = (if th_ack (ts_header seg) then Z.max (sd_receiver_window_left s) k else sd_receiver_window_left s) ->
      sd_receiver_window_right s' = (if th_ack (ts_header seg) && (sd_receiver_window_left s <=? k) then k + Z.max 1 (th_win (ts_header seg))
         else sd_receiver_window_right s) -> leads s' (answers segs) r a.
Proof.
  intros Hh (e & He & H1 & H2). change (answers (seg :: segs)) with (answer seg ++ answers segs) in He. unfold answer in He.
  destruct (th_ack (ts_header seg)).
  - destruct He as (k & K1 & K2 & K3 & K4 & K5 & K6 & K7). destruct (answers_ends _ _ _ _ _ _ K7) as [K8 _]. exists k.
    destruct (sx_flight _ _ _ (hf_side _ _ _ _ _ Hh)) as [base HI]. pose proof (if_window _ _ _ HI). pose proof (half_rack _ _ _ _ _ Hh).
    split; [intros _; split_and!; try done; [split; try done; lia|lia]|]. intros s' E1 E2 E3. rewrite (proj2 (Z.leb_le _ _)), Z.max_r in * by lia.
    exists e. rewrite E1, E2, E3. by split_and!.
  - exists 0. split; [done|]. intros s' E1 E2 E3. exists e. rewrite E1, E2, E3. by split_and!.
Qed.

Lemma x_receives W acc x y seg segs a : back W acc x y (seg :: segs) a ->
  exists x', TCPConnection_segment_received x seg = Ok x' /\ back W acc x' y segs a /\ went W [seg] x x' /\
    (th_ack (ts_header seg) = true -> answers segs = [] -> sd_receiver_window_left (cn_sender x') = a) /\
    (forall h rest, sd_segments_pending (cn_sender y) = h :: rest -> alike seg h ->
      exists sg k, sg ∈ cn_segments_out x' /\ tells (cn_sender y) (cn_receiver x') sg k).
Proof.
  intros [B1 B2 [B3 B4] B5 B6]. apply Forall_cons in B2 as [[S1 S2] B2]. pose proof (ed_out _ _ _ _ _ _ _ _ _ B1) as Ho.
  pose proof (ed_in _ _ _ _ _ _ _ _ _ B1) as Hin. destruct (leads_ack _ _ _ _ _ _ _ _ Ho B5) as (k & Hk & Hleads).
  assert (1 <= rack (cn_receiver x) \/ th_syn (ts_header seg) = true) as Hmind.
  { destruct (rack_cases _ _ _ _ (hf_received _ _ _ _ _ Hin)) as [[_ Hr]|[_ Hr]]; [right; by apply B6|by left]. }
  destruct (ends_receive _ _ _ _ _ _ _ _ x seg k B1 S1 S2 (not_ignored _ _ _ _ _ _ Ho (or_intror (back_payload _ _ S1)) Hmind))
    as (x' & new & E & E1 & Wn & An & L & R & Hd); [intros Ha; destruct (Hk Ha) as (? & ? & _); done|].
  pose proof (an_moved _ _ _ _ _ _ _ An) as M. pose proof (mv_le _ _ _ _ M) as Hle.
  destruct (answered_out _ _ _ _ _ _ _ _ _ Ho An) as (out & Q & O1 & O2 & O3 & O4).
  pose proof (ed_in _ _ _ _ _ _ _ _ _ E1) as Hin'.
  exists x'. split_and!; try done.
  - split; try done.
    + rewrite Q. split; apply Forall_app; split.
      * by eapply queued_le.
      * by apply queued_stamped.
      * eapply confirms_le; [apply Wn|apply Wn|done].
      * by eapply confirms_stamped.
    + apply Hleads; [apply Hle|done|done].
    + intros H0. exfalso. pose proof (wn_rack _ _ _ _ Wn). destruct Hmind as [Hm|Hm]; [lia|].
      destruct (rack_cases _ _ _ _ (hf_received _ _ _ _ _ Hin)) as [[_ Hr]|[_ Hr]]; [|lia].
      destruct (syn_alike _ _ _ _ _ _ Hin S1 Hm Hr) as (h & rest & Hp & Hal). specialize (Hd h rest Hp Hal).
      destruct (head_flight _ _ _ _ _ _ _ Hin Hp). lia.
  - intros Ha Hnone. destruct (Hk Ha) as (_ & _ & K1 & K2). rewrite L, Ha, <- (K2 Hnone). lia.
  - intros h rest Hp Hal. specialize (Hd h rest Hp Hal). destruct (head_flight _ _ _ _ _ _ _ Hin Hp) as [Hbase Hpos]. destruct Hal as [_ Hal].
    destruct (O4 ltac:(lia)) as (reply & Hout & Hpay). exists (stamped (cn_receiver x') reply), (rack (cn_receiver x')).
    split; [rewrite Q; apply elem_of_app; right; by apply elem_stamped|]. rewrite Forall_forall in O1.
    pose proof (stamped_answer _ _ _ _ _ _ Hin' (O1 _ Hout)) as Ea. destruct (rack_cases _ _ _ _ (hf_received _ _ _ _ _ Hin')) as [[_ Hr]|[Hi Hr]]; [lia|].
    rewrite Hi in Ea. unfold answer in Ea. destruct (th_ack (ts_header (stamped _ _))) eqn:Eack; [|done]. injection Ea as Ea _.
    destruct (stamped_alike (cn_receiver x') reply) as (_ & Epay & _). split_and!; try done; lia.
Qed.

Lemma x_receives_all W acc x y segs a : back W acc x y segs a ->
  exists x', receive_all x segs = Ok x' /\ back W acc x' y [] a /\ went W segs x x' /\
    (answers segs <> [] -> sd_receiver_window_left (cn_sender x') = a) /\
    (forall seg h rest, seg ∈ segs -> sd_segments_pending (cn_sender y) = h :: rest -> alike seg h ->
      exists sg k, sg ∈ cn_segments_out x' /\ tells (cn_sender y) (cn_receiver x') sg k).
Proof.
  revert x. induction segs as [|seg segs IH]; intros x HB.
  { exists x. split_and!; try done; [apply went_refl|intros ? ? ? []%not_elem_of_nil]. }
  destruct (x_receives W acc x y seg segs a HB) as (x1 & E1 & HB1 & W1 & L1 & T1). cbn [receive_all]. rewrite E1. cbn [mbind result_bind].
  destruct (IH x1 HB1) as (x2 & E2 & HB2 & W2 & L2 & T2). exists x2. split_and!; try done.
  - exact (went_trans _ [seg] _ _ _ _ W1 W2).
  - intros Hne. destruct (decide (answers segs = [])) as [Hn|Hn]; [|by apply L2].
    assert (th_ack (ts_header seg) = true) as Ha.
    { change (answers (seg :: segs)) with (answer seg ++ answers segs) in Hne. rewrite Hn, app_nil_r in Hne. unfold answer in Hne. by destruct (th_ack (ts_header seg)). }
    specialize (L1 Ha Hn). destruct (wn_moved _ _ _ _ W2) as [n2 M2]. pose proof (mv_left _ _ _ _ M2) as Hl.
    destruct (ba_leads _ _ _ _ _ _ HB2) as (e & He & _). cbn in He. lia.
  - intros sg h rest [->|Hin]%elem_of_cons Hp Hal; [|by eapply T2].
    destruct (T1 h rest Hp Hal) as (sg & k & Hsg & K1 & K2 & K3 & K4). exists sg, k. destruct (wn_queue _ _ _ _ W2) as [l ->].
    split; [apply elem_of_app; by left|]. pose proof (wn_rack _ _ _ _ W2). split_and!; try done; lia.
Qed.

(** ** The string is written *)

Lemma moved_more W d s s' new : moved W s s' new -> (sd_fined s' = true -> d = []) -> moved (W ++ d) s s' new.
Proof.
  intros [M1 M2 M3 [M4 M4'] M5 M6 M7 M8 M9 M10 M11] Hd. split; try done. split; [|done].
  destruct (sd_fined s') eqn:Ef; [by rewrite Hd, app_nil_r|by apply sent_by_more].
Qed.

Lemma spoke_trans W d c1 c2 c3 l k : spoke W c1 c2 l -> spoke (W ++ d) c2 c3 k -> (sd_fined (cn_sender c2) = true -> d = []) ->
  cn_time_done c2 = cn_time_done c1 -> spoke (W ++ d) c1 c3 (l ++ k).
Proof.
  intros [A1 A2 A3 A4 A5 A6 A7] [B1 B2 B3 B4 B5 B6 B7] Hd Ht. split; try congruence.
  - eapply moved_trans; [by apply moved_more|done].
  - by rewrite B3, A3, A2, map_app, app_assoc.
Qed.

Lemma spoke_refl W c : spoke W c c [].
Proof. split; try done; [apply moved_refl|by rewrite app_nil_r|by left]. Qed.

(** [write_input] writes until all is written or the stream is full. *)
Lemma write_all fuel x W acc rp buf : half D W acc (cn_sender x) rp -> cn_rst_set x = false -> D = W ++ Buffer_str buf -> Buffer_wf buf ->
  (Buffer_str buf <> [] -> bs_input_ended (sd_stream (cn_sender x)) = false) -> (length (Buffer_str buf) < fuel)%nat ->
  exists x' buf' d new, write_input fuel x buf = Ok (x', buf') /\ half D (W ++ d) acc (cn_sender x') rp /\ D = (W ++ d) ++ Buffer_str buf' /\
    Buffer_wf buf' /\ spoke (W ++ d) x x' new /\ cn_time_done x' = cn_time_done x /\
    sd_receiver_window_left (cn_sender x') = sd_receiver_window_left (cn_sender x) /\
    sd_receiver_window_right (cn_sender x') = sd_receiver_window_right (cn_sender x) /\
    bs_input_ended (sd_stream (cn_sender x')) = bs_input_ended (sd_stream (cn_sender x)) /\
    (sd_fined (cn_sender x) = true -> d = []) /\
    (Buffer_str buf' = [] \/ TCPConnection_remaining_outbound_capacity x' = 0).
Proof.
  revert x W buf. induction fuel as [|fuel IH]; intros x W buf Hh Hr HD Hb Hopen Hfuel; [lia|]. cbn [write_input]. unfold Buffer_size.
  destruct (_ && _) eqn:Ec.
  2: { exists x, buf, [], []. rewrite app_nil_r. split_and!; try done; [apply spoke_refl|]. apply andb_false_iff in Ec as [E|E]; apply negb_false_iff in E; b2p;
       [left; by apply zlen_zero_nil|by right]. }
  b2p. assert (Buffer_str buf <> []) as Hne by (intros E; rewrite E in *; done). specialize (Hopen Hne).
  pose proof (sc_stream _ _ (sx_core _ _ _ (hf_side _ _ _ _ _ Hh))) as Hwf.
  assert (0 < TCPConnection_remaining_outbound_capacity x) as Hcap.
  { unfold TCPConnection_remaining_outbound_capacity, TCPSender_stream_in in *. rewrite ByteStream_remaining_capacity_eq in * by done. destruct Hwf. lia. }
  pose proof (zlen_nonneg (Buffer_str buf)) as Hz. set (want := Z.min _ _).
  assert (0 < want <= zlen (Buffer_str buf) /\ want <= TCPConnection_remaining_outbound_capacity x) as Hwant by (unfold want; lia).
  assert (zlen (ztake want (Buffer_str buf)) = want) as Hw by (unfold want; zl).
  destruct (conn_writes D W acc x rp (ztake want (Buffer_str buf)) (zdrop want (Buffer_str buf)) Hh Hr) as (x1 & n1 & Ew & H1 & K1 & T1 & L1 & R1 & I1);
    [by rewrite ztake_zdrop|done|lia|]. rewrite Hw in Ew. rewrite Ew. cbn [mbind result_bind]. rewrite Z.eqb_refl. cbn [negb].
  destruct (Buffer_remove_prefix_ok buf want Hb ltac:(lia)) as (buf1 & -> & Hb1 & Es). cbn [mbind result_bind].
  destruct (IH x1 (W ++ ztake want (Buffer_str buf)) buf1) as (x2 & buf2 & d2 & n2 & E2 & H2 & D2 & B2 & K2 & T2 & L2 & R2 & I2 & F2 & C2).
  - done.
  - by rewrite (sk_rst _ _ _ _ K1).
  - by rewrite Es, <- app_assoc, ztake_zdrop.
  - done.
  - done.
  - rewrite Es. unfold zdrop. rewrite length_drop. unfold want. unfold zlen in *. lia.
  - exists x2, buf2, (ztake want (Buffer_str buf) ++ d2), (n1 ++ n2). rewrite app_assoc.
    split_and!; try done; try congruence; [by eapply spoke_trans|].
    intros Hf. destruct (sp_fined _ _ (sx_pos _ _ _ (hf_side _ _ _ _ _ Hh)) Hf). congruence.
Qed.

(** With all that can be written in the stream, nothing outstanding means that all
    is acknowledged. *)
Lemma full_complete W acc s r : half D W acc s r -> sd_segments_pending s = [] ->
  bs_input_ended (sd_stream s) = true \/ ByteStream_remaining_capacity (sd_stream s) = 0 -> sd_receiver_window_left s = zlen D + 2.
Proof.
  intros Hh Hnone Hfed. pose proof (hf_side _ _ _ _ _ Hh) as [Hc Hp [base [_ I2 I3 I4 _]] Hw _ Hcap _ He]. rewrite Hnone in I3.
  destruct (hf_full _ _ _ _ _ Hh) as [Hfl|[Hempty Hfin]]; [lia|]. destruct Hfed as [Hended|Hfed].
  - specialize (Hfin Hended). specialize (He Hended). destruct (sp_fined _ _ Hp Hfin) as [_ Hrd].
    destruct (sp_next _ _ Hp) as [(_ & _ & E)|E]; [congruence|]. rewrite Hrd, Hfin, He in E. simpl b2z in E. lia.
  - rewrite ByteStream_remaining_capacity_eq, Hempty in Hfed by apply Hc. change (zlen []) with 0 in Hfed. lia.
Qed.

(** ** Between two turns *)

(** The segment [h] is in the queue of [c]. *)
Definition in_queue (c : TCPConnection) (h : TCPSegment) : Prop := exists r, stamped r h ∈ cn_segments_out c.

Lemma in_queue_app c c' h l : cn_segments_out c' = cn_segments_out c ++ l -> in_queue c h -> in_queue c' h.
Proof. intros E [r Hr]. exists r. rewrite E. apply elem_of_app. by left. Qed.

Record mid (W acc : bytes) (x y : TCPConnection) : Prop := {
  md_fwd : half D W acc (cn_sender x) (cn_receiver y);
  md_bwd : half [] [] [] (cn_sender y) (cn_receiver x);
  md_rst : cn_rst_set x = false /\ cn_rst_set y = false;
  md_closed : bs_input_ended (sd_stream (cn_sender y)) = true;
  md_empty : bs_contents (TCPReceiver_stream_out (cn_receiver y)) = [];
  md_back_room : sd_receiver_window_right (cn_sender y) <= reach (cn_receiver x);
  md_first : sd_receiver_window_left (cn_sender y) = 0 -> sd_receiver_window_right (cn_sender y) = 1;
  md_qx : Forall (queued W (cn_sender x)) (cn_segments_out x) /\ Forall (confirms (sd_isn (cn_sender y)) (cn_receiver x)) (cn_segments_out x);
  md_qy : Forall (queued [] (cn_sender y)) (cn_segments_out y);
  md_leads : exists a, leads (cn_sender x) (answers (cn_segments_out y)) (cn_receiver y) a;
  md_syn : rack (cn_receiver x) = 0 ->
    exists seg l, cn_segments_out y = seg :: l /\ th_syn (ts_header seg) = true /\ th_ack (ts_header seg) = false;
  md_heard : 1 <= rack (cn_receiver y) \/
    exists h rest, sd_segments_pending (cn_sender x) = h :: rest /\ in_queue x h /\ Buffer_str (ts_payload h) = [];
  md_tells : sd_segments_pending (cn_sender y) <> [] ->
    1 <= rack (cn_receiver y) /\ (exists sg k, sg ∈ cn_segments_out x /\ tells (cn_sender y) (cn_receiver x) sg k) \/
    rack (cn_receiver x) = 0 /\ forall seg, seg ∈ sd_segments_pending (cn_sender y) -> in_queue y seg
}.

Lemma queued_moves W d s s' l : sender_le s s' -> (sd_fined s = true -> d = []) -> Forall (queued W s) l -> Forall (queued (W ++ d) s') l.
Proof.
  intros Hle Hd Hl. eapply Forall_impl; [exact Hl|]. intros seg [H1 H2]. split; [|done]. eapply sent_by_le; [exact Hle|].
  destruct (sd_fined s) eqn:Ef; [by rewrite Hd, app_nil_r|].
  apply (Forall_singleton (sent_by (W ++ d) s)), sent_by_more; [done|]. by apply Forall_singleton.
Qed.

Lemma mid_spoke W d acc x x' y new : mid W acc x y -> half D (W ++ d) acc (cn_sender x') (cn_receiver y) -> spoke (W ++ d) x x' new ->
  (sd_fined (cn_sender x) = true -> d = []) ->
  sd_receiver_window_left (cn_sender x') = sd_receiver_window_left (cn_sender x) ->
  sd_receiver_window_right (cn_sender x') = sd_receiver_window_right (cn_sender x) -> mid (W ++ d) acc x' y.
Proof.
  intros [H1 H2 [H31 H32] H3 H4 H5 H6 [H7 H7'] H8 H9 H10 H11 H12] Hh [K1 K2 K3 K4 K5 K6 K7] Hd HL HR.
  destruct (mv_plain _ _ _ _ K1 (hf_plain _ _ _ _ _ H1)) as [_ Hpl]. destruct (mv_sent _ _ _ _ K1) as [Hsent _].
  destruct (mv_same _ _ _ _ K1 HL) as (Hp & _). pose proof (mv_le _ _ _ _ K1) as Hle.
  split; rewrite ?K2, ?K4, ?HL; try done.
  - rewrite K3. split; apply Forall_app; split; [by eapply queued_moves|by apply queued_stamped|done|by eapply confirms_stamped].
  - destruct H9 as (a & e & A1 & A2). exists a, e. by rewrite HL, HR, (le_isn _ _ Hle).
  - destruct H11 as [H11|(h & rest & E1 & E2 & E3)]; [by left|right]. exists h, (rest ++ new). rewrite Hp, E1.
    split_and!; [done|by eapply in_queue_app|done].
  - intros Hne. destruct (H12 Hne) as [[T1 (sg & k & T2 & T3)]|T]; [left|by right]. split; [done|]. exists sg, k. rewrite K3.
    split; [apply elem_of_app; by left|done].
Qed.

(** The rest of the string, and whether [x]'s stream has been closed. *)
Record stock (W : bytes) (x : TCPConnection) (buf : Buffer) (closed : bool) : Prop := {
  st_rest : D = W ++ Buffer_str buf;
  st_buffer : Buffer_wf buf;
  st_closed : closed = bs_input_ended (sd_stream (cn_sender x));
  st_all : closed = true -> Buffer_str buf = []
}.

Lemma feed W acc x y buf closed : mid W acc x y -> stock W x buf closed ->
  exists x1 buf1 x2 closed2 W2 new, write_input (S (length (Buffer_str buf))) x buf = Ok (x1, buf1) /\
    (if (Buffer_size buf1 =? 0) && negb closed then x ← TCPConnection_end_input_stream x1; Ok (x, true) else Ok (x1, closed)) = Ok (x2, closed2) /\
    mid W2 acc x2 y /\ stock W2 x2 buf1 closed2 /\ spoke W2 x x2 new /\
    sd_receiver_window_left (cn_sender x2) = sd_receiver_window_left (cn_sender x) /\
    (sd_segments_pending (cn_sender x2) = [] -> sd_receiver_window_left (cn_sender x) = zlen D + 2).
Proof.
  intros HM [S1 S2 S3 S4]. pose proof (md_fwd _ _ _ _ HM) as Hh. pose proof (proj1 (md_rst _ _ _ _ HM)) as Hr.
  destruct (write_all (S (length (Buffer_str buf))) x W acc (cn_receiver y) buf Hh Hr S1 S2) as (x1 & buf1 & d & n1 & E1 & H1 & D1 & B1 & K1 & T1 & L1 & R1 & I1 & F1 & C1);
    [intros Hne; rewrite <- S3; destruct closed; [by specialize (S4 eq_refl)|done]|lia|].
  pose proof (mid_spoke W d acc x x1 y n1 HM H1 K1 F1 L1 R1) as HM1. exists x1, buf1. unfold Buffer_size.
  destruct (Z.eqb_spec (zlen (Buffer_str buf1)) 0) as [Ez|Ez]; cbn [andb]; [destruct closed; cbn [negb]|].
  - exists x1, true, (W ++ d), n1. split_and!; try done.
    + split; try done; [congruence|]. intros _. by apply zlen_zero_nil.
    + intros Hp. rewrite <- L1. apply (full_complete (W ++ d) acc _ _ H1 Hp). left. congruence.
  - apply zlen_zero_nil in Ez. assert (D = W ++ d) as ED by (by rewrite Ez, app_nil_r in D1). rewrite <- ED in *.
    destruct (conn_ends D acc x1 (cn_receiver y) H1) as (x2 & n2 & E2 & H2 & K2 & L2 & R2 & I2); [apply HM1|]. rewrite E2. cbn [mbind result_bind].
    assert (D = D ++ []) as En by (by rewrite app_nil_r).
    exists x2, true, D, (n1 ++ n2). split_and!; try done.
    + rewrite En at 1. apply (mid_spoke D [] acc x1 x2 y n2); rewrite ?app_nil_r; try done.
    + rewrite En. eapply spoke_trans; [done|by rewrite app_nil_r|done|done].
    + congruence.
    + intros Hp. rewrite <- L1, <- L2. apply (full_complete D acc _ _ H2 Hp). by left.
  - exists x1, closed, (W ++ d), n1. split_and!; try done.
    + split; try done; [congruence|]. intros Hc. rewrite (S4 Hc), app_nil_r in S1. rewrite S1 in D1. rewrite <- app_assoc in D1.
      rewrite <- (app_nil_r W) in D1 at 1. apply app_inv_head in D1. symmetry in D1. by apply app_eq_nil in D1 as [_ ->].
    + intros Hp. rewrite <- L1. apply (full_complete (W ++ d) acc _ _ H1 Hp). destruct C1 as [C1|C1]; [by rewrite C1 in Ez|by right].
Qed.

(** ** The segments are handed over *)

Abbreviation emptied c := (TCPConnection_set_segments_out c []).

(** [y]'s numbers: at most one is outstanding. *)
Lemma back_one acc s r : half [] [] acc s r -> (sd_receiver_window_left s = 0 -> sd_receiver_window_right s = 1) ->
  sd_next_seqno s <= sd_receiver_window_left s + 1.
Proof.
  intros Hh H0. destruct (back_short _ _ _ Hh) as [H2 _]. destruct (sx_flight _ _ _ (hf_side _ _ _ _ _ Hh)) as [base HI].
  pose proof (if_window _ _ _ HI). pose proof (if_base _ _ _ HI). destruct (Z.eq_dec (sd_receiver_window_left s) 0); [rewrite H0 in *; lia|lia].
Qed.

Lemma tells_all acc s r sg k : half [] [] acc s r -> (sd_receiver_window_left s = 0 -> sd_receiver_window_right s = 1) ->
  tells s r sg k -> k = rack r /\ rack r = sd_next_seqno s.
Proof. intros Hh H0 (_ & _ & _ & Hk). pose proof (back_one _ _ _ Hh H0). pose proof (half_rack _ _ _ _ _ Hh). lia. Qed.

(** What is in a permutation of the queue. *)
Lemma elem_order (reorder : bool) (seg : TCPSegment) l : seg ∈ (if reorder then rev l else l) <-> seg ∈ l.
Proof. destruct reorder; [|done]. by rewrite !list_elem_of_In, <- in_rev. Qed.

Lemma Forall_order (P : TCPSegment -> Prop) (reorder : bool) l : Forall P (if reorder then rev l else l) <-> Forall P l.
Proof. rewrite !Forall_forall. by setoid_rewrite elem_order. Qed.

Lemma mid_forth W acc x y (reorder : bool) : mid W acc x y ->
  exists a, forth W acc (emptied x) y (if reorder then rev (cn_segments_out x) else cn_segments_out x) a.
Proof.
  intros [H1 H2 [H31 H32] H3 H4 H5 H6 [H7 H7'] H8 [a H9] H10 H11 H12]. exists a. split; try done.
  - split; try done. destruct H9 as (e & He & _ & Ht). destruct (answers_ends _ _ _ _ _ _ He) as [_ Hr].
    pose proof (reach_read _ _ _ _ (hf_received _ _ _ _ _ H1) H4). pose proof (hf_capacity _ _ _ _ _ H1). unfold tip in Ht. cbn in *. lia.
  - by rewrite !Forall_order.
  - intros seg Hin. destruct H12 as [[_ (sg & k & _ & Hk)]|[_ Hq]]; [by intros E; rewrite E in Hin; apply not_elem_of_nil in Hin| |left; by apply Hq].
    right. destruct (tells_all _ _ _ _ _ H2 H6 Hk) as [_ Hn]. pose proof (proj2 (sc_sent _ _ (sx_core _ _ _ (hf_side _ _ _ _ _ H2)))) as Hs.
    rewrite Forall_forall in Hs. destruct (Hs seg Hin) as (p & P1 & P2 & _). exists p. cbn. split; [done|lia].
Qed.

(** After the first batch the oldest segment of [y] is in its queue. *)
Lemma forth_head W acc x y a h rest : forth W acc x y [] a -> sd_segments_pending (cn_sender y) = h :: rest ->
  rack (cn_receiver x) <= sd_receiver_window_left (cn_sender y) -> in_queue y h.
Proof.
  intros HF Hp Hr. destruct (fo_pending _ _ _ _ _ _ HF h) as [Hq|(p & P1 & P2)]; [rewrite Hp; by left|exact Hq|exfalso].
  pose proof (ed_out _ _ _ _ _ _ _ _ _ (fo_ends _ _ _ _ _ _ HF)) as Hb. destruct (sx_flight _ _ _ (hf_side _ _ _ _ _ Hb)) as [base HI].
  pose proof (if_head _ _ _ HI) as I3. pose proof (if_chain _ _ _ HI) as I1. rewrite Hp in I1, I3. destruct I1 as (Hs & Hpos & Hch).
  apply sent_chain_le in Hch. destruct (back_short _ _ _ Hb) as [Hn _]. pose proof (if_base _ _ _ HI). pose proof (half_rack _ _ _ _ _ Hb).
  rewrite (sent_place _ _ _ _ _ _ _ (sc_isn _ _ (sx_core _ _ _ (hf_side _ _ _ _ _ Hb))) P1 Hs eq_refl) in P2 by lia. lia.
Qed.

(** [x] has become [x'] and [y] has become [y'] when both batches have been received. *)
Record exchanged (W acc : bytes) (x y x' y' : TCPConnection) : Prop := {
  ex_back : exists a, back W acc x' (emptied y') [] a;
  ex_back_room : sd_receiver_window_right (cn_sender y') <= reach (cn_receiver x');
  ex_first : sd_receiver_window_left (cn_sender y') = 0 -> sd_receiver_window_right (cn_sender y') = 1;
  ex_rst : cn_rst_set x' = false /\ cn_rst_set y' = false;
  ex_closed : bs_input_ended (sd_stream (cn_sender y')) = true;
  ex_went_y : exists segs, (forall seg, seg ∈ segs <-> seg ∈ cn_segments_out x) /\ went [] segs y y';
  ex_went_x : went W (cn_segments_out y') (emptied x) x';
  ex_racks : 1 <= rack (cn_receiver y') /\ 1 <= rack (cn_receiver x');
  ex_tells : sd_segments_pending (cn_sender y') <> [] ->
    exists sg k, sg ∈ cn_segments_out x' /\ tells (cn_sender y') (cn_receiver x') sg k;
  ex_forward : forall h rest, sd_segments_pending (cn_sender x) = h :: rest -> in_queue x h ->
    1 <= sd_receiver_window_left (cn_sender y) -> sd_receiver_window_left (cn_sender x) < sd_receiver_window_left (cn_sender x');
  ex_backward : rack (cn_receiver x) <= sd_receiver_window_left (cn_sender y')
}.

(** How far [y] has come after the first batch. *)
Lemma forth_done W acc x y (reorder : bool) segs y' a : mid W acc x y -> segs = (if reorder then rev (cn_segments_out x) else cn_segments_out x) ->
  forth W acc (emptied x) y' [] a -> went [] segs y y' ->
  (forall seg h rest, seg ∈ segs -> sd_segments_pending (cn_sender x) = h :: rest -> alike seg h ->
    1 <= sd_receiver_window_left (cn_sender y) \/ Buffer_str (ts_payload seg) = [] ->
    sd_receiver_window_left (cn_sender x) < a /\ answers (cn_segments_out y') <> []) ->
  (forall seg k, seg ∈ segs -> th_ack (ts_header seg) = true -> th_ackno (ts_header seg) = wrap k (sd_isn (cn_sender y)) ->
    1 <= k <= rack (cn_receiver x) -> Buffer_str (ts_payload seg) = [] -> 1 <= rack (cn_receiver y) ->
    k <= sd_receiver_window_left (cn_sender y')) ->
  rack (cn_receiver x) <= sd_receiver_window_left (cn_sender y') /\ 1 <= rack (cn_receiver y').
Proof.
  intros HM Hsegs HF Wn C1 C2. destruct (wn_moved _ _ _ _ Wn) as [new M]. pose proof (mv_left _ _ _ _ M) as Hl. pose proof (wn_rack _ _ _ _ Wn) as Hrk.
  pose proof (md_bwd _ _ _ _ HM) as Hb. pose proof (half_rack _ _ _ _ _ Hb) as Hbr. destruct (sx_flight _ _ _ (hf_side _ _ _ _ _ Hb)) as [base HI]. split.
  - destruct (sd_segments_pending (cn_sender y)) as [|h rest] eqn:Ep.
    + pose proof (if_head _ _ _ HI) as I3. rewrite Ep in I3. pose proof (if_base _ _ _ HI). lia.
    + destruct (md_tells _ _ _ _ HM) as [[T1 (sg & k & T2 & T3)]|[T1 _]]; [congruence| |pose proof (if_base _ _ _ HI); lia].
      destruct (tells_all _ _ _ _ _ Hb (md_first _ _ _ _ HM) T3) as [-> _]. destruct T3 as (K1 & K2 & K3 & K4). pose proof (if_base _ _ _ HI).
      apply (C2 sg); try done; [|lia]. subst segs. by apply elem_order.
  - destruct (md_heard _ _ _ _ HM) as [H|(h & rest & Hp & [r Hq] & Hpay)]; [lia|]. destruct (stamped_alike r h) as (Hal & Epay & _).
    destruct (C1 (stamped r h) h rest) as [D1 _]; try done; [subst segs; by apply elem_order|right; by rewrite Epay|].
    destruct (fo_leads _ _ _ _ _ _ HF) as (e & _ & Ha & _). destruct (head_flight _ _ _ _ _ _ _ (md_fwd _ _ _ _ HM) Hp). lia.
Qed.

Lemma exchange W acc x y (reorder : bool) : mid W acc x y ->
  exists x' y', move_segments x y [] reorder = Ok (emptied x, y', []) /\
    move_segments y' (emptied x) [] false = Ok (emptied y', x', []) /\ exchanged W acc x y x' y'.
Proof.
  intros HM. destruct (mid_forth W acc x y reorder HM) as [a0 HF].
  destruct (y_receives_all W acc _ y _ a0 HF) as (y' & a & E & HF' & Wn & _ & C1 & C2).
  destruct (forth_done W acc x y reorder _ y' a HM eq_refl HF' Wn C1 C2) as [Hrx Hry]. pose proof HF' as [F1 F2 F3 F4 F5 F6 F7].
  pose proof (wn_queue _ _ _ _ Wn) as [ql Hql].
  assert (back W acc (emptied x) (emptied y') (cn_segments_out y') a) as HB.
  { split; try done.
    - split; try apply F1; try done. apply HM.
    - intros H0. destruct (md_syn _ _ _ _ HM H0) as (seg & l & E1 & E2 & E3). by rewrite Hql, E1. }
  destruct (x_receives_all W acc _ _ _ a HB) as (x' & E' & HB' & Wn' & L' & T').
  exists x', y'. unfold move_segments. cbn [app]. rewrite E. split; [done|]. rewrite E'. split; [done|]. destruct (wn_moved _ _ _ _ Wn') as [new' M']. pose proof (mv_left _ _ _ _ M') as Hl'. cbn in Hl'.
  assert (sd_segments_pending (cn_sender y') <> [] -> exists sg k, sg ∈ cn_segments_out x' /\ tells (cn_sender y') (cn_receiver x') sg k) as Htell.
  { intros Hne. destruct (sd_segments_pending (cn_sender y')) as [|h rest] eqn:Ep; [done|].
    destruct (forth_head W acc _ y' a h rest HF' Ep Hrx) as [r Hr]. apply (T' (stamped r h) h rest); try done. apply stamped_alike. }
  split; try done.
  - by exists a.
  - pose proof (wn_reach _ _ _ _ Wn'). cbn in *. lia.
  - split; [rewrite (wn_rst _ _ _ _ Wn'); apply HM|rewrite (wn_rst _ _ _ _ Wn); apply HM].
  - rewrite (wn_ended _ _ _ _ Wn). exact (md_closed _ _ _ _ HM).
  - eexists. split; [|exact Wn]. intros seg. apply elem_order.
  - split; [done|]. destruct (decide (sd_segments_pending (cn_sender y') = [])) as [Hp|Hp].
    + pose proof (ed_in _ _ _ _ _ _ _ _ _ (ba_ends _ _ _ _ _ _ HB')) as Hb. destruct (sx_flight _ _ _ (hf_side _ _ _ _ _ Hb)) as [base HI].
      pose proof (if_head _ _ _ HI) as I3. cbn in I3. rewrite Hp in I3. pose proof (if_base _ _ _ HI). pose proof (hf_left _ _ _ _ _ Hb). pose proof (hf_syn _ _ _ _ _ Hb).
      cbn in *. lia.
    + destruct (Htell Hp) as (sg & k & _ & _ & _ & _ & Hk). destruct (sx_flight _ _ _ (hf_side _ _ _ _ _ (ed_out _ _ _ _ _ _ _ _ _ F1))) as [base HI].
      pose proof (if_base _ _ _ HI). lia.
  - intros h rest Hp [r Hr] Hleft. destruct (stamped_alike r h) as (Hal & _). destruct (C1 (stamped r h) h rest) as [D1 D2]; try done; [by apply elem_order|by left|].
    rewrite (L' D2). done.
Qed.

(** ** [y] reads, and a second passes *)

(** The default configuration, and no clock past [T]. *)
Definition time_ok (T : Z) (c : TCPConnection) : Prop :=
  cn_cfg c = TCPConfig_default /\ 0 <= cn_time_since_last_segment_received c <= T /\ forall t, cn_time_done c = Some t -> 0 <= t <= T.

Lemma went_time W segs c c' T : went W segs c c' -> time_ok T c -> time_ok T c'.
Proof.
  intros Wn (H0 & H1 & H2). split; [by rewrite (wn_cfg _ _ _ _ Wn)|]. split; [destruct (wn_time _ _ _ _ Wn) as [->|[_ ->]]; lia|].
  intros t Ht. destruct (wn_done _ _ _ _ Wn) as [E|E]; rewrite E in Ht; [by apply H2|]. injection Ht as <-. lia.
Qed.

Lemma spoke_time W c c' new T : spoke W c c' new -> time_ok T c -> time_ok T c'.
Proof.
  intros Sp (H0 & H1 & H2). split; [by rewrite (sk_cfg _ _ _ _ Sp)|]. split; [by rewrite (sk_time _ _ _ _ Sp)|].
  intros t Ht. destruct (sk_done _ _ _ _ Sp) as [E|E]; rewrite E in Ht; [by apply H2|]. injection Ht as <-. lia.
Qed.

(** What a connection did in a turn: it moved, and then a second passed. *)
Record acted (c c' : TCPConnection) : Prop := {
  ac_moved : exists W s new s1 again, moved W (cn_sender c) s new /\ ticked s s1 again /\
    cn_sender c' = TCPSender_set_segments_out s1 [] /\ forall h, h ∈ again -> in_queue c' h;
  ac_time : forall T, 0 <= T < 2 ^ 63 -> time_ok T c -> time_ok (T + 1000) c'
}.

Lemma ticks_acted data W acc c rp : half data W acc (cn_sender c) rp -> cn_rst_set c = false -> clock_ok (cn_sender c) ->
  let c' := TCPConnection_tick c 1000 in
  exists s1 again, ticked (cn_sender c) s1 again /\ cn_sender c' = TCPSender_set_segments_out s1 [] /\
    half data W acc (cn_sender c') rp /\ cn_receiver c' = cn_receiver c /\ cn_rst_set c' = false /\
    cn_segments_out c' = cn_segments_out c ++ map (stamped (cn_receiver c)) again /\
    (forall h, h ∈ again -> in_queue c' h) /\ Forall plain again /\ Forall (sent_by W (cn_sender c')) again /\
    (sd_segments_pending (cn_sender c) = [] -> again = []) /\
    forall T, 0 <= T < 2 ^ 63 -> time_ok T c -> time_ok (T + 1000) c'.
Proof.
  intros Hh Hr Hk c'. destruct (conn_ticks data W acc c rp Hh Hr Hk) as (s1 & again & T & E1 & H1 & E2 & E3 & E4 & E7 & E5 & E6). fold c' in E1, H1, E2, E3, E4, E5, E6, E7.
  assert (forall h, h ∈ again -> h ∈ sd_segments_pending (cn_sender c)) as Hsub.
  { intros h Hin. destruct (sd_segments_pending (cn_sender c)) as [|h0 rest] eqn:Ep.
    - destruct (ti_idle _ _ _ T Ep) as [-> _]. by apply not_elem_of_nil in Hin.
    - destruct (ti_head _ _ _ T h0 rest Ep) as [(_ & -> & _)|(_ & -> & _)]; [|by apply not_elem_of_nil in Hin].
      apply list_elem_of_singleton in Hin as ->. by left. }
  exists s1, again. split_and!; try done.
  - intros h Hin. exists (cn_receiver c). rewrite E3. apply elem_of_app. right. by apply elem_stamped.
  - pose proof (hf_plain _ _ _ _ _ Hh) as Hp. rewrite Forall_forall in Hp |- *. auto.
  - pose proof (proj2 (sc_sent _ _ (sx_core _ _ _ (hf_side _ _ _ _ _ Hh)))) as Hs. rewrite Forall_forall in Hs |- *. intros h Hin.
    eapply (sent_by_le _ (cn_sender c)); [|by apply Hs, Hsub]. rewrite E1, (ti_frame _ _ _ T). by split.
  - intros Ep. by destruct (ti_idle _ _ _ T Ep).
  - intros B HB (T0 & T1 & T2). split; [by rewrite E7|]. split; [rewrite E5, u64_small by lia; lia|]. intros t. rewrite E6. destruct (_ && _); [|intros Ht; specialize (T2 t Ht); lia].
    intros [= <-]. rewrite u64_small by lia. lia.
Qed.

Lemma y_reads data W s c received : half data W received s (cn_receiver c) ->
  exists r' received', (if 0 <? ByteStream_buffer_size (TCPConnection_inbound_stream c) then
       '(out, b) ← ByteStream_read (TCPConnection_inbound_stream c) (ByteStream_buffer_size (TCPConnection_inbound_stream c));
       Ok (TCPConnection_set_receiver c (TCPReceiver_with_output (cn_receiver c) out), received ++ b)
     else Ok (c, received)) = Ok (TCPConnection_set_receiver c r', received') /\
    half data W received' s r' /\ bs_contents (TCPReceiver_stream_out r') = [] /\ rack r' = rack (cn_receiver c) /\
    reach (cn_receiver c) <= reach r'.
Proof.
  intros Hh. pose proof (hf_received _ _ _ _ _ Hh) as Hr. pose proof (sw_output _ (rv_wf _ _ _ _ Hr)) as Hwf.
  destruct (Z.ltb_spec 0 (ByteStream_buffer_size (TCPConnection_inbound_stream c))) as [Hlt|Hlt].
  - destruct (read_all _ _ _ _ Hr) as (out & b & E & H1 & H2 & H3 & H4). change (TCPConnection_inbound_stream c) with (TCPReceiver_stream_out (cn_receiver c)).
    rewrite E. cbn [mbind result_bind]. eexists _, _. split; [done|]. split_and!; try done. destruct Hh. split; try done. by rewrite H3.
  - exists (cn_receiver c), received. split; [by destruct c|]. split_and!; try done. apply zlen_zero_nil.
    change (TCPConnection_inbound_stream c) with (sr_output (tr_reassembler (cn_receiver c))) in Hlt. rewrite (bs_wf_size _ Hwf) in Hlt.
    pose proof (zlen_nonneg (bs_contents (sr_output (tr_reassembler (cn_receiver c))))).
    change (TCPReceiver_stream_out (cn_receiver c)) with (sr_output (tr_reassembler (cn_receiver c))). lia.
Qed.

Lemma settle W acc x y x' y' : exchanged W acc x y x' y' -> clock_ok (cn_sender x') -> clock_ok (cn_sender y') ->
  let y1 := emptied y' in
  exists r' acc' sx ax sy ay, (if 0 <? ByteStream_buffer_size (TCPConnection_inbound_stream y1) then
       '(out, b) ← ByteStream_read (TCPConnection_inbound_stream y1) (ByteStream_buffer_size (TCPConnection_inbound_stream y1));
       Ok (TCPConnection_set_receiver y1 (TCPReceiver_with_output (cn_receiver y1) out), acc ++ b)
     else Ok (y1, acc)) = Ok (TCPConnection_set_receiver y1 r', acc') /\
    let x2 := TCPConnection_tick x' 1000 in let y2 := TCPConnection_tick (TCPConnection_set_receiver y1 r') 1000 in
    mid W acc' x2 y2 /\
    (ticked (cn_sender x') sx ax /\ cn_sender x2 = TCPSender_set_segments_out sx [] /\ (forall h, h ∈ ax -> in_queue x2 h) /\
     cn_segments_out x2 = cn_segments_out x' ++ map (stamped (cn_receiver x')) ax) /\
    (ticked (cn_sender y') sy ay /\ cn_sender y2 = TCPSender_set_segments_out sy [] /\ (forall h, h ∈ ay -> in_queue y2 h) /\
     cn_segments_out y2 = map (stamped r') ay) /\
    cn_receiver x2 = cn_receiver x' /\ rack (cn_receiver y2) = rack (cn_receiver y') /\
    forall T, 0 <= T < 2 ^ 63 -> (time_ok T x' -> time_ok (T + 1000) x2) /\ (time_ok T y' -> time_ok (T + 1000) y2).
Proof.
  intros [[a HB] E2 E3 [E4 E4'] E5 _ _ [E6 E7] E8 _ _] Kx Ky y1. destruct HB as [B1 B2 [B3 B4] B5 _].
  pose proof (ed_in _ _ _ _ _ _ _ _ _ B1) as Hb. pose proof (ed_out _ _ _ _ _ _ _ _ _ B1) as Hf.
  destruct (y_reads D W (cn_sender x') y1 acc Hf) as (r' & acc' & Er & Hf' & Hempty & Hrack & Hreach).
  destruct (ticks_acted D W acc' x' r' Hf' E4 Kx) as (sx & ax & Tx & Sx & Hx & Rx & Rstx & Qx & Ix & Px & Wx & _ & Timx).
  destruct (ticks_acted [] [] [] (TCPConnection_set_receiver y1 r') (cn_receiver x') Hb E4' Ky) as (sy & ay & Ty & Sy & Hy & Ry & Rsty & Qy & Iy & Py & Wy & _ & Timy).
  set (x2 := TCPConnection_tick x' 1000) in *. set (y2 := TCPConnection_tick (TCPConnection_set_receiver y1 r') 1000) in *.
  cbn [cn_receiver cn_segments_out TCPConnection_set_receiver TCPConnection_set_segments_out app] in Ry, Qy.
  exists r', acc', sx, ax, sy, ay. split; [exact Er|]. cbn zeta. fold x2 y2.
  assert (sd_receiver_window_left (cn_sender y2) = sd_receiver_window_left (cn_sender y') /\
    sd_receiver_window_right (cn_sender y2) = sd_receiver_window_right (cn_sender y') /\ sd_isn (cn_sender y2) = sd_isn (cn_sender y') /\
    sd_segments_pending (cn_sender y2) = sd_segments_pending (cn_sender y') /\
    bs_input_ended (sd_stream (cn_sender y2)) = bs_input_ended (sd_stream (cn_sender y'))) as (Ly & Ray & Isy & Pdy & Eny) by (rewrite Sy, (ti_frame _ _ _ Ty); done).
  assert (sd_receiver_window_left (cn_sender x2) = sd_receiver_window_left (cn_sender x') /\
    sd_receiver_window_right (cn_sender x2) = sd_receiver_window_right (cn_sender x') /\ sd_isn (cn_sender x2) = sd_isn (cn_sender x'))
    as (Lx & Rax & Isx) by (rewrite Sx, (ti_frame _ _ _ Tx); done).
  assert (sender_le (cn_sender x') (cn_sender x2)) as Hle by (rewrite Sx, (ti_frame _ _ _ Tx); by split).
  split_and!; try done.
  - split; rewrite ?Rx, ?Ry; try done; try congruence.
    + lia.
    + split; rewrite Qx; apply Forall_app; split.
      * by eapply queued_le.
      * by apply queued_stamped.
      * by rewrite Isy.
      * rewrite Isy. eapply (confirms_stamped [] [] []); [exact Hb|done].
    + rewrite Qy. by apply queued_stamped.
    + rewrite Qy. assert (leads (cn_sender x2) [] r' a) as HL.
      { apply (leads_later _ _ (cn_receiver y')); [cbn in Hrack; lia|exact Hreach|]. destruct B5 as (e & B5). exists e. by rewrite Isx, Lx, Rax. }
      destruct (leads_stamped D W acc' (cn_sender x2) r' [] a ay Hx HL Py) as (a' & Ha & _). by exists a'.
    + intros H0. lia.
    + left. cbn in Hrack. lia.
    + intros Hne. left. split; [cbn in Hrack; lia|]. rewrite Pdy in Hne. destruct (E8 Hne) as (sg & k & K1 & K2 & K3 & K4 & K5).
      exists sg, k. split; [rewrite Qx; apply elem_of_app; by left|]. unfold tells. rewrite Isy, Ly. split_and!; try done; lia.
  - rewrite Ry. done.
  - auto.
Qed.

(** ** A turn *)

(** The invariant of the loops: [W] has been written to [x]. *)
Record top (W : bytes) (b : bench) : Prop := {
  tp_mid : mid W (be_string_received b) (be_x b) (be_y b);
  tp_stock : stock W (be_x b) (be_bytes_to_send b) (be_x_closed b)
}.

(** What a turn does. *)
Record turned (b b' : bench) : Prop := {
  tu_x : acted (be_x b) (be_x b');
  tu_y : acted (be_y b) (be_y b');
  tu_rack : 1 <= rack (cn_receiver (be_x b'));
  tu_forward : (forall h rest, sd_segments_pending (cn_sender (be_x b)) = h :: rest -> in_queue (be_x b) h) ->
    1 <= sd_receiver_window_left (cn_sender (be_y b)) ->
    sd_receiver_window_left (cn_sender (be_x b)) < sd_receiver_window_left (cn_sender (be_x b')) \/
    sd_receiver_window_left (cn_sender (be_x b)) = zlen D + 2;
  tu_backward : rack (cn_receiver (be_x b)) <= sd_receiver_window_left (cn_sender (be_y b'));
  tu_quiet : sd_next_seqno (cn_sender (be_x b')) = sd_next_seqno (cn_sender (be_x b)) ->
    sd_next_seqno (cn_sender (be_y b')) = sd_next_seqno (cn_sender (be_y b)) ->
    sd_segments_pending (cn_sender (be_x b')) = [] -> sd_segments_pending (cn_sender (be_y b')) = [] ->
    cn_segments_out (be_y b') = [] /\ Forall silent (cn_segments_out (be_x b')) /\
    (Forall silent (cn_segments_out (be_x b)) -> cn_segments_out (be_y b) = [] -> cn_segments_out (be_x b') = [])
}.

Lemma spoke_quiet W c c' new : spoke W c c' new -> sd_next_seqno (cn_sender c') = sd_next_seqno (cn_sender c) ->
  cn_segments_out c' = cn_segments_out c.
Proof. intros Sp E. rewrite (sk_queue _ _ _ _ Sp), (mv_none _ _ _ _ (sk_moved _ _ _ _ Sp) E). apply app_nil_r. Qed.

(** With nothing new to be sent only the answers are left. *)
Lemma exchanged_quiet W acc x y x' y' : exchanged W acc x y x' y' ->
  sd_next_seqno (cn_sender x') = sd_next_seqno (cn_sender x) -> sd_next_seqno (cn_sender y') = sd_next_seqno (cn_sender y) ->
  Forall silent (cn_segments_out x') /\
  (Forall silent (cn_segments_out x) -> cn_segments_out y = [] -> cn_segments_out x' = []).
Proof.
  intros HE Hx Hy. destruct (wn_quiet _ _ _ _ (ex_went_x _ _ _ _ _ _ HE) Hx) as (l & -> & L1 & L2). split; [done|]. intros Hs Hn. cbn.
  apply L2. destruct (ex_went_y _ _ _ _ _ _ HE) as (segs & Hsegs & Wn). destruct (wn_quiet _ _ _ _ Wn Hy) as (k & -> & K1 & K2).
  rewrite Hn, K2; [apply Forall_nil_2|]. rewrite Forall_forall in Hs |- *. intros seg Hin. by apply Hs, Hsegs.
Qed.

Lemma turn reorder W b : top W b -> clock_ok (cn_sender (be_x b)) -> clock_ok (cn_sender (be_y b)) ->
  exists b' W', bench_loop reorder b = Ok b' /\ top W' b' /\ turned b b'.
Proof.
  intros [HM HS] Kx Ky. destruct b as [x y buf closed received]. cbn [be_x be_y be_bytes_to_send be_x_closed be_string_received] in *. unfold bench_loop.
  cbn [be_x be_y be_bytes_to_send be_x_closed be_string_received].
  destruct (feed W received x y buf closed HM HS) as (x1 & buf1 & x2 & closed2 & W2 & new & E1 & E2 & HM2 & HS2 & Sp & L2 & Hcomp).
  rewrite E1. cbn [mbind result_bind]. rewrite E2. cbn [mbind result_bind].
  destruct (exchange W2 received x2 y reorder HM2) as (x3 & y3 & E3 & E4 & HE). rewrite E3. cbn [mbind result_bind]. rewrite E4. cbn [mbind result_bind].
  destruct (wn_moved _ _ _ _ (ex_went_x _ _ _ _ _ _ HE)) as [n3 M3]. destruct (ex_went_y _ _ _ _ _ _ HE) as (segs & Hsegs & Wy). destruct (wn_moved _ _ _ _ Wy) as [ny My].
  pose proof (moved_trans _ _ _ _ _ _ (sk_moved _ _ _ _ Sp) M3) as Mx.
  destruct (settle W2 received x2 y x3 y3 HE (clock_moved _ _ _ _ Kx Mx) (clock_moved _ _ _ _ Ky My))
    as (r' & received' & sx & ax & sy & ay & E5 & HM5 & (Tx & Sx & Ix & Qx) & (Ty & Sy & Iy & Qy) & Rx & Ry & Tim).
  rewrite E5. cbn [mbind result_bind]. set (x4 := TCPConnection_tick x3 1000) in *. set (y4 := TCPConnection_tick (TCPConnection_set_receiver _ r') 1000) in *.
  assert (sd_receiver_window_left (cn_sender x4) = sd_receiver_window_left (cn_sender x3) /\ sd_next_seqno (cn_sender x4) = sd_next_seqno (cn_sender x3) /\
    sd_segments_pending (cn_sender x4) = sd_segments_pending (cn_sender x3) /\ bs_input_ended (sd_stream (cn_sender x4)) = bs_input_ended (sd_stream (cn_sender x3)))
    as (L4 & N4 & P4 & I4) by (by rewrite Sx, (ti_frame _ _ _ Tx)).
  assert (sd_receiver_window_left (cn_sender y4) = sd_receiver_window_left (cn_sender y3) /\ sd_next_seqno (cn_sender y4) = sd_next_seqno (cn_sender y3) /\
    sd_segments_pending (cn_sender y4) = sd_segments_pending (cn_sender y3)) as (L4' & N4' & P4') by (by rewrite Sy, (ti_frame _ _ _ Ty)).
  eexists _, W2. split; [done|]. split; [split; [done|]|]; cbn [be_x be_y be_bytes_to_send be_x_closed be_string_received].
  { destruct HS2 as [T1 T2 T3 T4]. split; try done. rewrite T3, I4. symmetry. exact (wn_ended _ _ _ _ (ex_went_x _ _ _ _ _ _ HE)). }
  split; cbn [be_x be_y].
  - split; [by eexists _, (cn_sender x3), _, sx, ax|]. intros T HT Hti. apply Tim; [done|]. eapply went_time; [apply HE|]. exact (spoke_time _ _ _ _ _ Sp Hti).
  - split; [by eexists _, (cn_sender y3), _, sy, ay|]. intros T HT Hti. apply Tim; [done|]. by eapply went_time.
  - rewrite Rx. apply HE.
  - intros Hq Hy. rewrite L4. destruct (sd_segments_pending (cn_sender x2)) as [|h rest] eqn:Ep; [right; by apply Hcomp|left].
    rewrite <- L2. apply (ex_forward _ _ _ _ _ _ HE h rest Ep); [|done]. destruct (mv_same _ _ _ _ (sk_moved _ _ _ _ Sp) L2) as (Hpn & _).
    destruct (sd_segments_pending (cn_sender x)) as [|h0 rest0] eqn:Ep0.
    + exists (cn_receiver x). rewrite (sk_queue _ _ _ _ Sp). apply elem_of_app. right. apply elem_stamped. rewrite Ep in Hpn. cbn in Hpn. rewrite <- Hpn. by left.
    + rewrite Ep in Hpn. injection Hpn as -> _. eapply in_queue_app; [apply Sp|]. by apply (Hq h0 rest0).
  - pose proof (ex_backward _ _ _ _ _ _ HE) as Hb. rewrite (sk_receiver _ _ _ _ Sp) in Hb. lia.
  - rewrite N4, N4', P4, P4'. intros Nx Ny Px Py. pose proof (le_next _ _ (mv_le _ _ _ _ (sk_moved _ _ _ _ Sp))). pose proof (le_next _ _ (mv_le _ _ _ _ M3)) as Hn3. cbn in Hn3.
    destruct (exchanged_quiet _ _ _ _ _ _ HE) as [Q1 Q2]; [lia|done|]. destruct (ti_idle _ _ _ Tx Px) as [-> _]. destruct (ti_idle _ _ _ Ty Py) as [-> _].
    rewrite Qx, Qy, app_nil_r. split_and!; try done. rewrite (spoke_quiet _ _ _ _ Sp) in Q2 by lia. done.
Qed.

(** ** The clocks *)

(** At most [n] retransmissions in a row, and a timeout of at most [R]. *)
Record calm (c : TCPConnection) (n R : Z) : Prop := {
  cl_initial : sd_initial_retransmission_timeout (cn_sender c) = 1000;
  cl_idle : sd_segments_pending (cn_sender c) = [] ->
    sd_retransmission_timeout (cn_sender c) = 1000 /\ sd_consecutive_retransmissions (cn_sender c) = 0;
  cl_count : 0 <= sd_consecutive_retransmissions (cn_sender c) <= n;
  cl_timeout : sd_retransmission_timeout (cn_sender c) <= R
}.

Lemma calm_clock c n R : calm c n R -> n <= 7 -> R <= 4000 -> clock_ok (cn_sender c).
Proof. intros [C1 C2 C3 C4] Hn HR. split; try done; lia. Qed.

Abbreviation elapsed c := (rt_time_elapsed (sd_timer (cn_sender c))).
Abbreviation timeout c := (sd_retransmission_timeout (cn_sender c)).

(** The oldest segment has just been sent; it has been sent; it is about to be. *)
Definition fresh (c : TCPConnection) : Prop :=
  calm c 1 2000 /\ forall h rest, sd_segments_pending (cn_sender c) = h :: rest -> in_queue c h /\ elapsed c = 0.
Definition ready (c : TCPConnection) : Prop :=
  calm c 2 4000 /\ forall h rest, sd_segments_pending (cn_sender c) = h :: rest -> in_queue c h.
Definition due (c : TCPConnection) : Prop :=
  calm c 1 2000 /\ (sd_segments_pending (cn_sender c) <> [] -> timeout c <= elapsed c + 1000).

Lemma fresh_ready c : fresh c -> ready c.
Proof. intros [[C1 C2 C3 C4] F]. split; [split; try done; lia|]. intros h rest Hp. by apply (F h rest). Qed.

Lemma acted_left c c' : acted c c' -> sd_receiver_window_left (cn_sender c) <= sd_receiver_window_left (cn_sender c').
Proof.
  intros [(W & s & new & s1 & again & M & T & E & _) _]. rewrite E, (ti_frame _ _ _ T). exact (mv_left _ _ _ _ M).
Qed.

(** Something was acknowledged, or nothing was outstanding. *)
Lemma acted_on c c' : acted c c' -> clock_ok (cn_sender c) ->
  sd_receiver_window_left (cn_sender c) < sd_receiver_window_left (cn_sender c') \/ sd_segments_pending (cn_sender c) = [] -> fresh c'.
Proof.
  intros [(W & s & new & s1 & again & M & T & E & Hq) _] Hk Hcase. pose proof (clock_moved _ _ _ _ Hk M) as [K1 K2 K3 K4].
  assert (sd_receiver_window_left (cn_sender c') = sd_receiver_window_left s /\ sd_segments_pending (cn_sender c') = sd_segments_pending s /\
    sd_initial_retransmission_timeout (cn_sender c') = sd_initial_retransmission_timeout s /\ timeout c' = sd_retransmission_timeout s1 /\
    sd_consecutive_retransmissions (cn_sender c') = sd_consecutive_retransmissions s1 /\ sd_timer (cn_sender c') = sd_timer s1) as (L & P & I & R & C & Ti).
  { rewrite E, (ti_frame _ _ _ T). done. }
  assert (sd_retransmission_timeout s = 1000 /\ sd_consecutive_retransmissions s = 0) as [R1 C1].
  { rewrite <- (ck_initial _ Hk). destruct (Z.eq_dec (sd_receiver_window_left s) (sd_receiver_window_left (cn_sender c))) as [El|El].
    - destruct Hcase as [Hlt|Hn]; [lia|]. destruct (mv_same _ _ _ _ M El) as (_ & -> & ->). rewrite (ck_initial _ Hk). by apply (ck_idle _ Hk).
    - apply (mv_on _ _ _ _ M). pose proof (mv_left _ _ _ _ M). lia. }
  destruct (sd_segments_pending s) as [|h rest] eqn:Ep.
  - destruct (ti_idle _ _ _ T Ep) as (_ & T1 & T2). split; [split; rewrite ?I, ?R, ?C, ?T1, ?T2; try done; lia|]. by rewrite P.
  - assert (rt_time_elapsed (sd_timer s) = 0) as He. { apply (mv_start _ _ _ _ M); [by rewrite Ep|]. rewrite <- L. exact Hcase. }
    destruct (ti_head _ _ _ T h rest Ep) as [(_ & T1 & T2 & T3 & T4)|(T0 & _)]; [|lia]. split.
    + split; rewrite ?I, ?R, ?C, ?P; try done; lia.
    + intros h' rest' Hp. rewrite P in Hp. injection Hp as <- _. rewrite Ti. split; [|done]. apply Hq. rewrite T1. by left.
Qed.

(** Nothing was acknowledged. *)
Lemma acted_still c c' n R h rest : acted c c' -> calm c n R ->
  sd_receiver_window_left (cn_sender c') = sd_receiver_window_left (cn_sender c) -> sd_segments_pending (cn_sender c) = h :: rest ->
  (exists rest', sd_segments_pending (cn_sender c') = h :: rest') /\
  (timeout c <= elapsed c + 1000 /\ in_queue c' h /\ elapsed c' = 0 /\ calm c' (n + 1) (2 * R) \/
   elapsed c + 1000 < timeout c /\ elapsed c' = elapsed c + 1000 /\ timeout c' = timeout c /\ calm c' n R).
Proof.
  intros [(W & s & new & s1 & again & M & T & E & Hq) _] [C1 C2 C3 C4] Hl Hp.
  assert (sd_receiver_window_left (cn_sender c') = sd_receiver_window_left s /\ sd_segments_pending (cn_sender c') = sd_segments_pending s /\
    sd_initial_retransmission_timeout (cn_sender c') = sd_initial_retransmission_timeout s /\ timeout c' = sd_retransmission_timeout s1 /\
    sd_consecutive_retransmissions (cn_sender c') = sd_consecutive_retransmissions s1 /\ sd_timer (cn_sender c') = sd_timer s1) as (L & P & I & Rt & C & Ti).
  { rewrite E, (ti_frame _ _ _ T). done. }
  rewrite L in Hl. destruct (mv_same _ _ _ _ M Hl) as (P1 & R1 & N1). rewrite Hp in P1. cbn in P1.
  pose proof (mv_keep _ _ _ _ M Hl ltac:(by rewrite Hp)) as K. pose proof (mv_initial _ _ _ _ M) as I1.
  split; [exists (rest ++ new); congruence|]. rewrite <- R1, <- K.
  destruct (ti_head _ _ _ T h _ P1) as [(T0 & T1 & T2 & T3 & T4)|(T0 & T1 & T2 & T3 & T4)]; [left|right].
  - split_and!; [done|apply Hq; rewrite T1; by left|by rewrite Ti|]. split; rewrite ?I, ?Rt, ?C, ?P, ?P1; try done; try congruence; lia.
  - split_and!; [done|by rewrite Ti|congruence|]. split; rewrite ?I, ?Rt, ?C, ?P, ?P1; try done; try congruence; lia.
Qed.

(** ** The start *)

(** A sender that has just sent its SYN. *)
Record opening (data : bytes) (s : TCPSender) (h : TCPSegment) : Prop := {
  op_side : sender_side data [] s;
  op_next : sd_next_seqno s = 1;
  op_out : sd_segments_out s = [h];
  op_pending : sd_segments_pending s = [h];
  op_window : sd_receiver_window_left s = 0 /\ sd_receiver_window_right s = 1;
  op_plain : plain h;
  op_syn : th_syn (ts_header h) = true /\ Buffer_str (ts_payload h) = [];
  op_clock : sd_initial_retransmission_timeout s = 1000 /\ sd_retransmission_timeout s = 1000 /\
    sd_consecutive_retransmissions s = 0 /\ rt_time_elapsed (sd_timer s) = 0
}.

Lemma sender_opens data s : sender_side data [] s -> sd_next_seqno s = 0 -> sd_segments_out s = [] -> sd_segments_pending s = [] ->
  sd_receiver_window_left s = 0 -> sd_receiver_window_right s = 1 -> sd_initial_retransmission_timeout s = 1000 ->
  sd_retransmission_timeout s = 1000 -> sd_consecutive_retransmissions s = 0 -> rt_running (sd_timer s) = false ->
  exists s' h, TCPSender_fill_window s = Ok s' /\ opening data s' h /\ sender_le s s' /\
    bs_input_ended (sd_stream s') = bs_input_ended (sd_stream s).
Proof.
  intros Hs H1 H2 H3 H4 H5 H6 H7 H8 H9. destruct (fill_side data [] s Hs) as (s' & new & E & Hf & Hs' & Hle & _ & Hn).
  pose proof (fl_frame _ _ _ _ Hf) as Fr. unfold sender_frame in Fr. injection Fr as _ _ _ _ _ _ _ _ _ Ee _.
  exists s'. unfold TCPSender_fill_window, TCPSender_in_closed, TCPSender_next_seqno_absolute in E |- *. rewrite H1 in *. cbn [Z.eqb] in *. injection E as <-.
  set (b := with_syn _) in *. exists (build_segment b). split; [done|]. split; [|done].
  rewrite TCPSender_send_eq in *. cbn zeta in *. change (TCPSegment_length_in_sequence_space (build_segment b)) with 1 in *. split; try done.
  - by rewrite Hn.
  - cbn [sd_segments_out]. by rewrite H2.
  - cbn [sd_segments_pending]. by rewrite H3.
  - simpl. rewrite H9. by split_and!.
Qed.

Lemma new_side data random : 0 <= random < 2 ^ 32 -> zlen data <= stream_limit ->
  let c := TCPConnection_new TCPConfig_default random in
  sender_side data [] (cn_sender c) /\ receiving [] (cn_sender c) (TCPReceiver_new DEFAULT_CAPACITY) [].
Proof.
  intros Hr Hd c. destruct (transfer_new_ok data DEFAULT_CAPACITY 1000 None random DEFAULT_CAPACITY) as [T1 T2 T3 T4 T5 T6 T7 T8 T9]; try done.
Qed.

(** The connection that has opened. *)
Definition opened_conn (random : Z) (s : TCPSender) : TCPConnection :=
  TCPConnection_send_outbound_segments (TCPConnection_set_sender (TCPConnection_new TCPConfig_default random) s).

Lemma opened_check random s : TCPConnection_check_done (opened_conn random s) = opened_conn random s.
Proof. done. Qed.

Lemma opened_half data random s h : 0 <= random < 2 ^ 32 -> zlen data <= stream_limit ->
  opening data s h -> sender_le (cn_sender (TCPConnection_new TCPConfig_default random)) s ->
  half data [] [] (cn_sender (opened_conn random s)) (TCPReceiver_new DEFAULT_CAPACITY).
Proof.
  intros Hr Hd [O1 O2 O3 O4 [O5 O6] O7 O8 O9] Hle. destruct (new_side data random Hr Hd) as [_ Hrec]. split; cbn [cn_sender opened_conn TCPConnection_send_outbound_segments TCPConnection_set_segments_out TCPConnection_set_sender]; try done.
  - by apply sender_side_drain.
  - cbn. lia.
  - cbn. rewrite O4. by apply Forall_singleton.
  - left. cbn. lia.
  - unfold sent_part, ztake. rewrite take_nil. eapply receiving_later; [|exact Hrec]. destruct Hle. by split.
  - cbn. lia.
Qed.

(** The clock of a connection that has opened. *)
Definition first_clock (c : TCPConnection) (h : TCPSegment) : Prop :=
  calm c 0 1000 /\ elapsed c = 0 /\ sd_segments_pending (cn_sender c) = [h] /\ sd_receiver_window_left (cn_sender c) = 0 /\ time_ok 0 c.

Lemma opened_clock data random s h : opening data s h -> first_clock (opened_conn random s) h.
Proof.
  intros [O1 O2 O3 O4 [O5 O6] O7 O8 (C1 & C2 & C3 & C4)]. unfold first_clock. split_and!; try done. split; cbn; try done; lia.
Qed.

Lemma opened_queue data random s h : opening data s h -> half data [] [] (cn_sender (opened_conn random s)) (TCPReceiver_new DEFAULT_CAPACITY) ->
  cn_segments_out (opened_conn random s) = [stamped (TCPReceiver_new DEFAULT_CAPACITY) h] /\
  Forall (queued [] (cn_sender (opened_conn random s))) (cn_segments_out (opened_conn random s)) /\
  in_queue (opened_conn random s) h /\ th_ack (ts_header (stamped (TCPReceiver_new DEFAULT_CAPACITY) h)) = false.
Proof.
  intros Op Hh. assert (cn_segments_out (opened_conn random s) = [stamped (TCPReceiver_new DEFAULT_CAPACITY) h]) as Eq
    by (cbn; by rewrite (op_out _ _ _ Op)).
  split_and!; [done| | |].
  - rewrite Eq. apply (queued_stamped _ _ _ [h]); [|apply Forall_singleton, Op].
    pose proof (proj2 (sc_sent _ _ (sx_core _ _ _ (hf_side _ _ _ _ _ Hh)))) as Hs. cbn in Hs. by rewrite (op_pending _ _ _ Op) in Hs.
  - exists (TCPReceiver_new DEFAULT_CAPACITY). rewrite Eq. by left.
  - pose proof (stamped_answer _ _ _ _ _ _ Hh (op_plain _ _ _ Op)) as E. unfold answer in E. by destruct (th_ack (ts_header (stamped _ h))).
Qed.

(** Two connections whose only segment is a SYN. *)
Lemma opened_mid x y hx hy r : cn_receiver x = r -> cn_receiver y = r -> rack r = 0 -> 1 <= reach r -> bs_contents (TCPReceiver_stream_out r) = [] ->
  half D [] [] (cn_sender x) r -> half [] [] [] (cn_sender y) r -> cn_rst_set x = false -> cn_rst_set y = false ->
  bs_input_ended (sd_stream (cn_sender y)) = true ->
  sd_segments_pending (cn_sender x) = [hx] -> sd_segments_pending (cn_sender y) = [hy] ->
  sd_receiver_window_left (cn_sender x) = 0 /\ sd_receiver_window_right (cn_sender x) = 1 ->
  sd_receiver_window_left (cn_sender y) = 0 /\ sd_receiver_window_right (cn_sender y) = 1 ->
  cn_segments_out x = [stamped r hx] -> cn_segments_out y = [stamped r hy] ->
  Forall (queued [] (cn_sender x)) [stamped r hx] -> Forall (queued [] (cn_sender y)) [stamped r hy] ->
  th_ack (ts_header (stamped r hx)) = false -> th_ack (ts_header (stamped r hy)) = false ->
  th_syn (ts_header hy) = true -> Buffer_str (ts_payload hx) = [] -> mid [] [] x y.
Proof.
  intros Rx Ry Hrk Hrc Hem Hx Hy Rsx Rsy He Px Py [Wx1 Wx2] [Wy1 Wy2] Qx Qy Ux Uy Ax Ay Sy Bx.
  assert (in_queue x hx /\ in_queue y hy) as [Ix Iy] by (split; exists r; rewrite ?Qx, ?Qy; by left).
  destruct (stamped_alike r hy) as (_ & _ & Sy2 & _).
  split; rewrite ?Rx, ?Ry, ?Qx, ?Qy, ?Wy1, ?Wy2; try done.
  - split; [done|]. apply Forall_singleton. intros Ha. congruence.
  - exists 0, (tip r). unfold answers, answer. cbn [flat_map]. rewrite Ay, Wx1, Wx2. cbn [app answers_ok]. unfold tip. lia.
  - intros _. eexists _, _. split; [done|]. by rewrite Sy2.
  - right. by exists hx, [].
  - intros _. right. split; [done|]. intros seg. rewrite Py. by intros ->%list_elem_of_singleton.
Qed.

Lemma connect_opens random s : TCPSender_fill_window (cn_sender (TCPConnection_new TCPConfig_default random)) = Ok s ->
  TCPConnection_connect (TCPConnection_new TCPConfig_default random) = Ok (opened_conn random s).
Proof. unfold TCPConnection_connect. intros ->. cbn [mbind result_bind]. by rewrite <- (opened_check random s). Qed.

Lemma end_input_opens random s : let s0 := cn_sender (TCPConnection_new TCPConfig_default random) in
  TCPSender_fill_window (TCPSender_set_stream s0 (ByteStream_end_input (sd_stream s0))) = Ok s ->
  TCPConnection_end_input_stream (TCPConnection_new TCPConfig_default random) = Ok (opened_conn random s).
Proof. intros s0 E. unfold TCPConnection_end_input_stream. fold s0. rewrite E. cbn [mbind result_bind]. by rewrite <- (opened_check random s). Qed.

(** [bench_start] opens both connections. *)
Lemma start_opens random_x random_y : 0 <= random_x < 2 ^ 32 -> 0 <= random_y < 2 ^ 32 -> zlen D <= stream_limit ->
  exists sx hx sy hy, bench_start random_x random_y D =
      Ok (MkBench (opened_conn random_x sx) (opened_conn random_y sy) (Buffer_of_string D) false []) /\
    opening D sx hx /\ sender_le (cn_sender (TCPConnection_new TCPConfig_default random_x)) sx /\ bs_input_ended (sd_stream sx) = false /\
    opening [] sy hy /\ sender_le (cn_sender (TCPConnection_new TCPConfig_default random_y)) sy /\ bs_input_ended (sd_stream sy) = true.
Proof.
  intros Hx Hy Hlim. unfold bench_start.
  assert (zlen ([] : bytes) <= stream_limit) as Hnil by done.
  destruct (new_side D random_x Hx Hlim) as [Sx _]. destruct (new_side [] random_y Hy Hnil) as [Sy _]. apply end_side in Sy.
  destruct (sender_opens D _ Sx) as (sx & hx & Ex & Ox & Lx & Ix); try done. destruct (sender_opens [] _ Sy) as (sy & hy & Ey & Oy & Ly & Iy); try done.
  rewrite (connect_opens _ _ Ex), (end_input_opens _ _ Ey).
  exists sx, hx, sy, hy. split_and!; try done. by destruct Ly.
Qed.

Lemma start_top random_x random_y : 0 <= random_x < 2 ^ 32 -> 0 <= random_y < 2 ^ 32 -> zlen D <= stream_limit ->
  exists b hx hy, bench_start random_x random_y D = Ok b /\ top [] b /\ first_clock (be_x b) hx /\ first_clock (be_y b) hy.
Proof.
  intros Hx Hy Hlim. destruct (start_opens random_x random_y Hx Hy Hlim) as (sx & hx & sy & hy & E & Ox & Lx & Ix & Oy & Ly & Iy).
  eexists _, hx, hy. split; [exact E|]. cbn [be_x be_y]. split_and!; [|by eapply opened_clock..].
  pose proof (opened_half D random_x sx hx Hx Hlim Ox Lx) as Hfx.
  assert (zlen ([] : bytes) <= stream_limit) as Hnil by done. pose proof (opened_half [] random_y sy hy Hy Hnil Oy Ly) as Hfy.
  destruct (opened_queue D random_x sx hx Ox Hfx) as (Qx1 & Qx2 & _ & Qx4). destruct (opened_queue [] random_y sy hy Oy Hfy) as (Qy1 & Qy2 & _ & Qy4).
  rewrite Qx1 in Qx2. rewrite Qy1 in Qy2. split; cbn [be_x be_y be_string_received be_bytes_to_send be_x_closed].
  - eapply (opened_mid _ _ hx hy (TCPReceiver_new DEFAULT_CAPACITY)); try done; try apply Ox; try apply Oy.
  - unfold stream_limit in Hlim. split; [by rewrite Buffer_of_string_str by lia|apply Buffer_of_string_wf; lia| |done].
    change (false = bs_input_ended (sd_stream sx)). by rewrite Ix.
Qed.

(** ** Turn by turn *)

Abbreviation left_x b := (sd_receiver_window_left (cn_sender (be_x b))).
Abbreviation left_y b := (sd_receiver_window_left (cn_sender (be_y b))).

Lemma half_complete data W acc s r : half data W acc s r -> sd_receiver_window_left s = zlen data + 2 ->
  sd_segments_pending s = [] /\ sd_next_seqno s = zlen data + 2.
Proof.
  intros Hh Hl. destruct (side_next _ _ _ (hf_side _ _ _ _ _ Hh)) as [_ Hn]. destruct (sx_flight _ _ _ (hf_side _ _ _ _ _ Hh)) as [base HI].
  pose proof (if_window _ _ _ HI). split; [|lia]. destruct (sd_segments_pending s) as [|h rest] eqn:Ep; [done|exfalso].
  pose proof (if_head _ _ _ HI) as I3. pose proof (if_chain _ _ _ HI) as I1. rewrite Ep in I1, I3. destruct I1 as (_ & _ & Hch).
  apply sent_chain_le in Hch. lia.
Qed.

(** [y]'s own stream is acknowledged when nothing of it is outstanding. *)
Lemma back_complete W b : top W b -> sd_segments_pending (cn_sender (be_y b)) = [] -> left_y b = 2.
Proof.
  intros [HM _] Hp. pose proof (hf_side _ _ _ _ _ (md_bwd _ _ _ _ HM)) as [Hc Hps [base [_ I2 I3 I4 _]] Hw _ _ _ _]. rewrite Hp in I3.
  destruct (hf_full _ _ _ _ _ (md_bwd _ _ _ _ HM)) as [Hfl|[_ Hfin]]; [lia|]. specialize (Hfin (md_closed _ _ _ _ HM)).
  destruct (sp_fined _ _ Hps Hfin) as [_ Hrd]. destruct (sp_next _ _ Hps) as [(_ & _ & E)|E]; [congruence|]. rewrite Hrd, Hfin in E.
  change (zlen []) with 0 in E. change (b2z true) with 1 in E. lia.
Qed.

Lemma left_y_bound W b : top W b -> 0 <= left_y b <= 2.
Proof.
  intros [HM _]. destruct (back_short _ _ _ (md_bwd _ _ _ _ HM)) as [H2 _]. destruct (sx_flight _ _ _ (hf_side _ _ _ _ _ (md_bwd _ _ _ _ HM))) as [base HI].
  pose proof (if_window _ _ _ HI). pose proof (if_base _ _ _ HI). lia.
Qed.

(** Once its SYN has been received, [y] hears of all it has sent in each turn. *)
Lemma y_advances W b b' : top W b -> turned b b' -> 1 <= rack (cn_receiver (be_x b)) ->
  left_y b < left_y b' \/ sd_segments_pending (cn_sender (be_y b)) = [].
Proof.
  intros [HM _] Ht Hr. destruct (decide (sd_segments_pending (cn_sender (be_y b)) = [])) as [Hp|Hp]; [by right|left].
  pose proof (tu_backward _ _ Ht). destruct (md_tells _ _ _ _ HM Hp) as [[_ (sg & k & _ & Hk)]|[H0 _]]; [|lia].
  destruct Hk as (_ & _ & _ & Hk). lia.
Qed.

Lemma fresh_clock c : fresh c -> clock_ok (cn_sender c).
Proof. intros [C _]. by eapply calm_clock. Qed.

Lemma ready_clock c : ready c -> clock_ok (cn_sender c).
Proof. intros [C _]. by eapply calm_clock. Qed.

Lemma due_clock c : due c -> clock_ok (cn_sender c).
Proof. intros [C _]. by eapply calm_clock. Qed.

(** After the first turn, after the second, and from the third on. *)
Definition first_turn (b : bench) : Prop := fresh (be_x b) /\ fresh (be_y b) /\ 1 <= rack (cn_receiver (be_x b)).
Definition second_turn (b : bench) : Prop :=
  (ready (be_x b) \/ due (be_x b)) /\ fresh (be_y b) /\ 1 <= rack (cn_receiver (be_x b)) /\ 1 <= left_y b.
Definition later_turn (b : bench) : Prop :=
  ready (be_x b) /\ fresh (be_y b) /\ 1 <= rack (cn_receiver (be_x b)) /\ left_y b = 2.

Lemma first_acted c c' h : acted c c' -> first_clock c h -> fresh c'.
Proof.
  intros Ha (Hc & He & Hp & Hl & _). pose proof (acted_left _ _ Ha). destruct (Z.eq_dec (sd_receiver_window_left (cn_sender c')) 0) as [E|E].
  2: { eapply acted_on; [done|by eapply calm_clock|left; lia]. }
  destruct (acted_still c c' 0 1000 h [] Ha Hc ltac:(lia) Hp) as [[rest Hp'] [(_ & Q & E' & C)|(H0 & _)]].
  - split; [exact C|]. intros h' rest' Hh. rewrite Hp' in Hh. injection Hh as <- _. done.
  - pose proof (cl_timeout _ _ _ Hc). lia.
Qed.

Lemma turn_one b b' hx hy : turned b b' -> first_clock (be_x b) hx -> first_clock (be_y b) hy -> first_turn b'.
Proof. intros [T1 T2 T3 _ _ _] Hx Hy. split_and!; [by eapply first_acted|by eapply first_acted|done]. Qed.

Lemma turn_two W b b' : top W b -> turned b b' -> first_turn b -> second_turn b'.
Proof.
  intros Ht HT (Fx & Fy & Hr). pose proof HT as [T1 T2 T3 _ T5 _]. split_and!; [|by eapply acted_on; [done|by apply fresh_clock|eapply y_advances]|done|lia].
  pose proof (acted_left _ _ T1). pose proof Fx as [Cx Qx]. destruct (decide (sd_segments_pending (cn_sender (be_x b)) = [])) as [Hp|Hp].
  { left. apply fresh_ready. eapply acted_on; [done|by apply fresh_clock|by right]. }
  destruct (Z.eq_dec (left_x b') (left_x b)) as [E|E]; [|left; apply fresh_ready; eapply acted_on; [done|by apply fresh_clock|left; lia]].
  destruct (sd_segments_pending (cn_sender (be_x b))) as [|h rest] eqn:Ep; [done|]. destruct (Qx h rest eq_refl) as [_ He].
  destruct (acted_still _ _ 1 2000 h rest T1 Cx E Ep) as [[rest' Hp'] [(_ & Q & _ & C)|(_ & E1 & E2 & C)]].
  - left. split; [exact C|]. intros h' r' Hh. rewrite Hp' in Hh. by injection Hh as <- _.
  - right. split; [exact C|]. intros _. pose proof (cl_timeout _ _ _ C). lia.
Qed.

Lemma turn_three W b b' : top W b -> turned b b' -> second_turn b -> ready (be_x b').
Proof.
  intros Ht HT (Hx & Fy & Hr & Hy). pose proof HT as [T1 T2 T3 T4 T5 _]. pose proof (acted_left _ _ T1).
  assert (clock_ok (cn_sender (be_x b))) as Hk by (destruct Hx; [by apply ready_clock|by apply due_clock]).
  destruct (decide (sd_segments_pending (cn_sender (be_x b)) = [])) as [Hp|Hp]; [apply fresh_ready; eapply acted_on; [done|done|by right]|].
  destruct (Z.eq_dec (left_x b') (left_x b)) as [E|E]; [|apply fresh_ready; eapply acted_on; [done|done|left; lia]].
  destruct (sd_segments_pending (cn_sender (be_x b))) as [|h rest] eqn:Ep; [done|].
  destruct Hx as [[Cx Qx]|[Cx Dx]].
  - destruct T4 as [H1|H1]; [by rewrite <- Ep|done|lia|]. destruct (half_complete _ _ _ _ _ (md_fwd _ _ _ _ (tp_mid _ _ Ht)) H1). congruence.
  - destruct (acted_still _ _ 1 2000 h rest T1 Cx E Ep) as [[rest' Hp'] [(_ & Q & _ & C)|(H0 & _)]]; [|specialize (Dx ltac:(by rewrite Ep)); lia].
    split; [exact C|]. intros h' r' Hh. rewrite Hp' in Hh. by injection Hh as <- _.
Qed.

Lemma left_y_done W W' b b' : top W b -> top W' b' -> turned b b' -> second_turn b -> left_y b' = 2.
Proof.
  intros Ht Ht' HT (_ & _ & Hr & Hy). pose proof (left_y_bound _ _ Ht'). pose proof (acted_left _ _ (tu_y _ _ HT)).
  destruct (decide (sd_segments_pending (cn_sender (be_y b)) = [])) as [Hp|Hp]; [pose proof (back_complete _ _ Ht Hp); lia|].
  destruct (md_tells _ _ _ _ (tp_mid _ _ Ht) Hp) as [[_ (sg & k & _ & _ & _ & _ & Hk)]|[Hr0 _]]; [|lia]. pose proof (tu_backward _ _ HT). lia.
Qed.

Lemma turn_later W W' b b' : top W b -> top W' b' -> turned b b' -> later_turn b ->
  later_turn b' /\ Z.min (left_x b + 1) (zlen D + 2) <= left_x b'.
Proof.
  intros Ht Ht' HT (Hx & Fy & Hr & Hy). pose proof HT as [T1 T2 T3 T4 T5 _]. pose proof (left_y_bound _ _ Ht'). pose proof (acted_left _ _ T2).
  assert (fresh (be_y b')) as Fy' by (eapply acted_on; [done|by apply fresh_clock|by eapply y_advances]).
  destruct T4 as [H1|H1]; [apply Hx|lia| |].
  - split; [|lia]. split_and!; [|done|done|lia]. apply fresh_ready. eapply acted_on; [done|by apply ready_clock|by left].
  - destruct (half_complete _ _ _ _ _ (md_fwd _ _ _ _ (tp_mid _ _ Ht)) H1) as [Hp _]. pose proof (acted_left _ _ T1).
    split; [|lia]. split_and!; [|done|done|lia]. apply fresh_ready. eapply acted_on; [done|by apply ready_clock|by right].
Qed.

(** ** The end *)

(** Both streams have been received and acknowledged. *)
Definition complete (b : bench) : Prop := left_x b = zlen D + 2 /\ left_y b = 2.

(** A stream that has been acknowledged has ended at both sides. *)
Lemma half_ended data W acc s r : half data W acc s r -> sd_receiver_window_left s = zlen data + 2 ->
  bs_contents (TCPReceiver_stream_out r) = [] ->
  sd_fined s = true /\ ByteStream_eof (sd_stream s) = true /\ TCPSender_bytes_in_flight s = 0 /\ ByteStream_eof (TCPReceiver_stream_out r) = true.
Proof.
  intros Hh Hl Hempty. destruct (half_complete _ _ _ _ _ Hh Hl) as [Hp Hn]. pose proof (hf_side _ _ _ _ _ Hh) as Hs. destruct (side_next _ _ _ Hs) as [HW _].
  destruct Hs as [Hc Hps _ _ _ _ _ _]. pose proof (sc_read _ _ Hc) as Hrd. pose proof (b2z_range (sd_fined s)) as Hb. pose proof (zlen_nonneg data).
  assert (sd_fined s = true) as Hf by (destruct (sp_next _ _ Hps) as [(E & _)|E]; [lia|]; destruct (sd_fined s); [done|cbn [b2z] in E; lia]).
  destruct (sp_fined _ _ Hps Hf) as [He Hr]. split_and!; [done| | |].
  - rewrite ByteStream_eof_eq, He, (sc_contents _ _ Hc), Hr, zdrop_ge by (apply Hc || lia). done.
  - unfold TCPSender_bytes_in_flight. by rewrite Hp.
  - pose proof (hf_received _ _ _ _ _ Hh) as Hrec. rewrite ByteStream_eof_eq, Hempty by apply (sw_output _ (rv_wf _ _ _ _ Hrec)).
    pose proof (hf_left _ _ _ _ _ Hh) as Hrk. unfold rack in Hrk. pose proof (sa_written _ _ (rv_agrees _ _ _ _ Hrec)) as Hw. rewrite sent_part_len in Hw by done.
    destruct (tr_sender_isn r); [|lia]. unfold ByteStream_input_ended in Hrk. destruct (bs_input_ended (TCPReceiver_stream_out r)); [done|cbn [b2z] in Hrk; lia].
Qed.

Lemma done_ok c : ByteStream_eof (TCPReceiver_stream_out (cn_receiver c)) = true -> ByteStream_eof (sd_stream (cn_sender c)) = true ->
  TCPSender_bytes_in_flight (cn_sender c) = 0 -> sd_fined (cn_sender c) = true -> TCPConnection_done c = true.
Proof.
  intros H1 H2 H3 H4. unfold TCPConnection_done, TCPSender_stream_in, TCPSender_fined. rewrite H1, H2, H3, H4. cbn. by rewrite andb_false_r.
Qed.

Lemma back_empty acc s r : half [] [] acc s r -> bs_contents (TCPReceiver_stream_out r) = [].
Proof.
  intros Hh. pose proof (rv_bytes _ _ _ _ (hf_received _ _ _ _ _ Hh)) as E. unfold sent_part, ztake in E. rewrite !take_nil in E.
  by apply app_eq_nil in E as [_ E].
Qed.

Lemma complete_done W b : top W b -> complete b ->
  TCPConnection_done (be_x b) = true /\ TCPConnection_done (be_y b) = true /\ receiving_on b = false.
Proof.
  intros [HM _] [Hx Hy]. destruct (half_ended _ _ _ _ _ (md_fwd _ _ _ _ HM) Hx (md_empty _ _ _ _ HM)) as (A1 & A2 & A3 & A4).
  destruct (half_ended _ _ _ _ _ (md_bwd _ _ _ _ HM) Hy (back_empty _ _ _ (md_bwd _ _ _ _ HM))) as (B1 & B2 & B3 & B4).
  split_and!; [by apply done_ok|by apply done_ok|]. unfold receiving_on. change (TCPConnection_inbound_stream (be_y b)) with (TCPReceiver_stream_out (cn_receiver (be_y b))).
  by rewrite A4.
Qed.

(** What [y] has read when the stream has ended. *)
Lemma ended_received W b : top W b -> receiving_on b = false -> be_string_received b = D.
Proof.
  intros [HM _] Hon. unfold receiving_on in Hon. apply negb_false_iff in Hon. pose proof (md_fwd _ _ _ _ HM) as Hh. pose proof (hf_received _ _ _ _ _ Hh) as Hr.
  change (TCPConnection_inbound_stream (be_y b)) with (TCPReceiver_stream_out (cn_receiver (be_y b))) in Hon.
  rewrite ByteStream_eof_eq in Hon by apply (sw_output _ (rv_wf _ _ _ _ Hr)). apply andb_prop in Hon as [He _].
  destruct (ended_written _ _ _ _ Hr He) as [Hw Hf]. pose proof (rv_bytes _ _ _ _ Hr) as Hb. rewrite (md_empty _ _ _ _ HM), app_nil_r in Hb.
  rewrite Hb, ztake_ge by lia. pose proof (hf_side _ _ _ _ _ Hh) as Hs. destruct (sp_fined _ _ (sx_pos _ _ _ Hs) Hf) as [Hend Hrd].
  unfold sent_part. rewrite Hrd, ztake_ge by lia. exact (sx_ended _ _ _ Hs Hend).
Qed.

(** Nothing more goes out once both streams are complete. *)
Lemma complete_quiet W W' b b' : top W b -> top W' b' -> turned b b' -> complete b ->
  complete b' /\ cn_segments_out (be_y b') = [] /\ Forall silent (cn_segments_out (be_x b')) /\
  (Forall silent (cn_segments_out (be_x b)) -> cn_segments_out (be_y b) = [] -> cn_segments_out (be_x b') = []).
Proof.
  intros Ht Ht' HT [Hx Hy]. pose proof (acted_left _ _ (tu_x _ _ HT)). pose proof (acted_left _ _ (tu_y _ _ HT)). pose proof (left_y_bound _ _ Ht').
  pose proof (md_fwd _ _ _ _ (tp_mid _ _ Ht')) as Hf'. pose proof (md_bwd _ _ _ _ (tp_mid _ _ Ht')) as Hb'.
  destruct (side_next _ _ _ (hf_side _ _ _ _ _ Hf')) as [_ Hn]. destruct (sx_flight _ _ _ (hf_side _ _ _ _ _ Hf')) as [base HI].
  pose proof (if_window _ _ _ HI). assert (left_x b' = zlen D + 2) as Hx' by lia. assert (left_y b' = 2) as Hy' by lia. split; [done|].
  destruct (half_complete _ _ _ _ _ (md_fwd _ _ _ _ (tp_mid _ _ Ht)) Hx) as [_ N1]. destruct (half_complete _ _ _ _ _ (md_bwd _ _ _ _ (tp_mid _ _ Ht)) Hy) as [_ N2].
  destruct (half_complete _ _ _ _ _ Hf' Hx') as [P1 M1]. destruct (half_complete _ _ _ _ _ Hb' Hy') as [P2 M2].
  apply (tu_quiet _ _ HT); congruence.
Qed.

(** A turn in which nothing is under way: only time passes. *)
Lemma quiet_loop reorder W b : top W b -> complete b -> cn_segments_out (be_x b) = [] -> cn_segments_out (be_y b) = [] ->
  bench_loop reorder b = Ok (MkBench (TCPConnection_tick (be_x b) 1000) (TCPConnection_tick (be_y b) 1000) (be_bytes_to_send b) (be_x_closed b) (be_string_received b)).
Proof.
  intros [HM HS] [Hx Hy] Qx Qy. destruct (half_ended _ _ _ _ _ (md_fwd _ _ _ _ HM) Hx (md_empty _ _ _ _ HM)) as (A1 & A2 & A3 & A4).
  destruct HS as [S1 S2 S3 S4]. destruct (sp_fined _ _ (sx_pos _ _ _ (hf_side _ _ _ _ _ (md_fwd _ _ _ _ HM))) A1) as [He _].
  rewrite He in S3. specialize (S4 S3). destruct b as [x y buf closed received]. cbn [be_x be_y be_bytes_to_send be_x_closed be_string_received] in *. subst closed.
  assert (write_input (S (length (Buffer_str buf))) x buf = Ok (x, buf)) as Ew by (cbn [write_input]; unfold Buffer_size; by rewrite S4).
  assert (Buffer_size buf = 0) as Eb by (unfold Buffer_size; by rewrite S4).
  assert (emptied x = x) as Ex by (destruct x; cbn in Qx; by subst). assert (emptied y = y) as Ey by (destruct y; cbn in Qy; by subst).
  assert (move_segments x y [] reorder = Ok (x, y, [])) as E1 by (unfold move_segments; rewrite Qx, Ex; by destruct reorder).
  assert (move_segments y x [] false = Ok (y, x, [])) as E2 by (unfold move_segments; by rewrite Qy, Ey).
  assert (ByteStream_buffer_size (TCPConnection_inbound_stream y) = 0) as E3.
  { pose proof (sw_output _ (rv_wf _ _ _ _ (hf_received _ _ _ _ _ (md_fwd _ _ _ _ HM)))) as Hwf. cbn [cn_receiver be_y] in Hwf.
    change (TCPConnection_inbound_stream y) with (sr_output (tr_reassembler (cn_receiver y))). rewrite (bs_wf_size _ Hwf).
    pose proof (md_empty _ _ _ _ HM) as Hempty. change (sr_output (tr_reassembler (cn_receiver y))) with (TCPReceiver_stream_out (cn_receiver y)).
    by rewrite Hempty. }
  unfold bench_loop. cbn [be_x be_y be_bytes_to_send be_x_closed be_string_received]. rewrite Ew. cbn [mbind result_bind].
  rewrite Eb. cbn [Z.eqb negb andb mbind result_bind]. rewrite E1. cbn [mbind result_bind]. rewrite E2. cbn [mbind result_bind]. by rewrite E3.
Qed.

Lemma quiet_ticks reorder W b b' : top W b -> complete b -> cn_segments_out (be_x b) = [] -> cn_segments_out (be_y b) = [] ->
  bench_loop reorder b = Ok b' -> be_x b' = TCPConnection_tick (be_x b) 1000 /\ be_y b' = TCPConnection_tick (be_y b) 1000.
Proof. intros Ht Hc Qx Qy E. rewrite (quiet_loop reorder W b Ht Hc Qx Qy) in E. by inversion E. Qed.

(** ** Runs *)

(** After [m] turns. *)
Definition phase (m : Z) (b : bench) : Prop :=
  (m = 0 /\ (exists h, first_clock (be_x b) h) /\ (exists h, first_clock (be_y b) h)) \/
  (m = 1 /\ first_turn b) \/ (m = 2 /\ second_turn b) \/
  (3 <= m /\ later_turn b /\ Z.min (m - 3) (zlen D + 2) <= left_x b).

(** The turn from which on nothing is sent any more. *)
Definition calm_turn : Z := zlen D + 8.

(** [c] has noted when its streams were done, and has heard nothing since then. *)
Definition waits (m : Z) (c : TCPConnection) : Prop :=
  exists t, cn_time_done c = Some t /\ 0 <= t <= 1000 * calm_turn /\ 1000 * (m - calm_turn) <= cn_time_since_last_segment_received c.

Record stage (m : Z) (b : bench) : Prop := {
  sg_top : exists W, top W b;
  sg_phase : phase m b;
  sg_time : time_ok (1000 * m) (be_x b) /\ time_ok (1000 * m) (be_y b);
  sg_silent : calm_turn - 2 <= m -> cn_segments_out (be_y b) = [] /\ Forall silent (cn_segments_out (be_x b));
  sg_quiet : calm_turn - 1 <= m -> cn_segments_out (be_x b) = [];
  sg_waits : calm_turn <= m -> waits m (be_x b) /\ waits m (be_y b)
}.

Lemma phase_clock m b : phase m b -> clock_ok (cn_sender (be_x b)) /\ clock_ok (cn_sender (be_y b)).
Proof.
  intros [(_ & [hx (Hx & _)] & [hy (Hy & _)])|[(_ & Hx & Hy & _)|[(_ & [Hx|Hx] & Hy & _)|(_ & (Hx & Hy & _) & _)]]];
    (split; first [by eapply calm_clock|by apply fresh_clock|by apply ready_clock|by apply due_clock]).
Qed.

Lemma phase_turn m W W' b b' : top W b -> top W' b' -> turned b b' -> phase m b -> phase (m + 1) b'.
Proof.
  intros Ht Ht' HT [(-> & [hx Hx] & [hy Hy])|[(-> & H)|[(-> & H)|(Hm & H & Hl)]]].
  - right. left. split; [done|]. by eapply turn_one.
  - right. right. left. split; [done|]. exact (turn_two W b b' Ht HT H).
  - right. right. right. split; [done|]. pose proof H as (_ & Fy & Hr & _). pose proof (left_y_done _ _ _ _ Ht Ht' HT H) as Hy2. split.
    + split_and!; [exact (turn_three W b b' Ht HT H)|by eapply acted_on; [apply HT|by apply fresh_clock|eapply y_advances]|apply HT|done].
    + destruct (sx_flight _ _ _ (hf_side _ _ _ _ _ (md_fwd _ _ _ _ (tp_mid _ _ Ht')))) as [base HI]. pose proof (if_base _ _ _ HI). lia.
  - right. right. right. destruct (turn_later _ _ _ _ Ht Ht' HT H) as [H' Hl']. split_and!; [lia|done|lia].
Qed.

Lemma stage_complete m b : stage m b -> calm_turn - 3 <= m -> complete b.
Proof.
  intros Hs Hm. unfold calm_turn in Hm. destruct (sg_top _ _ Hs) as [W Ht]. pose proof (zlen_nonneg D).
  destruct (sg_phase _ _ Hs) as [(-> & _)|[(-> & _)|[(-> & _)|(_ & (_ & _ & _ & Hy) & Hl)]]]; [lia..|]. split; [|done].
  pose proof (hf_side _ _ _ _ _ (md_fwd _ _ _ _ (tp_mid _ _ Ht))) as Hsd. destruct (side_next _ _ _ Hsd) as [_ Hn].
  destruct (sx_flight _ _ _ Hsd) as [base HI]. pose proof (if_window _ _ _ HI). lia.
Qed.

(** Only time passes: the moment at which a connection was done is noted, and kept. *)
Lemma tick_waits data W acc c rp m : half data W acc (cn_sender c) rp -> cn_rst_set c = false -> clock_ok (cn_sender c) ->
  TCPConnection_done (TCPConnection_tick c 1000) = true -> calm_turn - 1 <= m < 2 ^ 40 -> time_ok (1000 * m) c ->
  (calm_turn <= m -> waits m c) -> waits (m + 1) (TCPConnection_tick c 1000).
Proof.
  intros Hh Hr Hk Hd Hm (_ & T1 & T2) Hw. destruct (conn_ticks data W acc c rp Hh Hr Hk) as (_ & _ & _ & _ & _ & _ & _ & _ & _ & E5 & E6).
  rewrite Hd in E6. unfold waits. rewrite E5, E6, u64_small by lia. destruct (Z.le_gt_cases calm_turn m) as [Hle|Hgt].
  - destruct (Hw Hle) as (t & Ht & H1 & H2). rewrite Ht, bool_decide_true by done. exists t. split_and!; try done; lia.
  - destruct (cn_time_done c) as [t|]; [rewrite bool_decide_true by done|rewrite bool_decide_false by (by intros [? ?])]; cbn [andb negb].
    + exists t. specialize (T2 t eq_refl). split_and!; try done; lia.
    + eexists. split_and!; [done|lia..].
Qed.

Lemma stage_turn reorder m b : stage m b -> 0 <= m < 2 ^ 40 -> exists b', bench_loop reorder b = Ok b' /\ stage (m + 1) b'.
Proof.
  intros Hs Hm. destruct (sg_top _ _ Hs) as [W Ht]. destruct (phase_clock _ _ (sg_phase _ _ Hs)) as [Kx Ky].
  destruct (turn reorder W b Ht Kx Ky) as (b' & W' & E & Ht' & HT). exists b'. split; [done|]. destruct (sg_time _ _ Hs) as [Tx Ty].
  assert (1000 * (m + 1) = 1000 * m + 1000) as Et by lia. split.
  - by exists W'.
  - by eapply phase_turn; [exact Ht| | |apply Hs].
  - rewrite Et. split; [apply (ac_time _ _ (tu_x _ _ HT))|apply (ac_time _ _ (tu_y _ _ HT))]; try done; lia.
  - intros Hc. destruct (complete_quiet _ _ _ _ Ht Ht' HT (stage_complete _ _ Hs ltac:(lia))) as (_ & Q1 & Q2 & _). done.
  - intros Hc. destruct (complete_quiet _ _ _ _ Ht Ht' HT (stage_complete _ _ Hs ltac:(lia))) as (_ & _ & _ & Q3).
    destruct (sg_silent _ _ Hs ltac:(lia)). auto.
  - intros Hc. pose proof (stage_complete _ _ Hs ltac:(lia)) as Hcomp. destruct (complete_quiet _ _ _ _ Ht Ht' HT Hcomp) as (Hcomp' & _).
    destruct (complete_done _ _ Ht' Hcomp') as (Dx & Dy & _). destruct (sg_silent _ _ Hs ltac:(lia)) as [Qy _]. pose proof (sg_quiet _ _ Hs ltac:(lia)) as Qx.
    destruct (quiet_ticks reorder W b b' Ht Hcomp Qx Qy E) as [Ex Ey]. rewrite Ex in Dx |- *. rewrite Ey in Dy |- *.
    pose proof (tp_mid _ _ Ht) as HM. destruct (md_rst _ _ _ _ HM) as [Rx Ry].
    split; (eapply tick_waits; [apply HM|done|done|done|lia|done|]); intros Hle; by apply (sg_waits _ _ Hs).
Qed.

(** When a connection is no longer active. *)
Lemma waits_inactive m c : cn_cfg c = TCPConfig_default -> TCPConnection_done c = true -> waits m c ->
  0 <= cn_time_since_last_segment_received c < 2 ^ 63 -> 2 * calm_turn + 10 <= m -> TCPConnection_active c = false.
Proof.
  intros Hcfg Hd (t & Ht & H1 & H2) Hr Hm. unfold TCPConnection_active. rewrite Hd, Ht, Hcfg. cbn [negb].
  destruct (cn_linger_after_streams_finish c); [cbn [negb]|done]. change (10 * cfg_rt_timeout TCPConfig_default) with 10000.
  rewrite u64_small by lia. apply Z.ltb_ge. lia.
Qed.

Lemma stage_inactive m b : stage m b -> 2 * calm_turn + 10 <= m < 2 ^ 40 -> any_active b = false.
Proof.
  intros Hs Hm. destruct (sg_top _ _ Hs) as [W Ht]. pose proof (zlen_nonneg D). assert (calm_turn <= m) as Hc by (unfold calm_turn in *; lia).
  destruct (complete_done _ _ Ht (stage_complete _ _ Hs ltac:(lia))) as (Dx & Dy & _). destruct (sg_waits _ _ Hs Hc) as [Wx Wy].
  destruct (sg_time _ _ Hs) as [(Cx & Tx & _) (Cy & Ty & _)]. unfold any_active.
  rewrite (waits_inactive m _ Cx Dx Wx), (waits_inactive m _ Cy Dy Wy) by lia. done.
Qed.

(** A loop whose condition fails after [last] turns at the latest. *)
Lemma while_stage turns condition reorder m last b :
  (forall m b, stage m b -> last <= m < 2 ^ 40 -> condition b = false) -> last <= 2 ^ 39 -> stage m b -> 0 <= m <= 2 ^ 39 ->
  exists finished m' b', bench_while turns condition reorder b = Ok (finished, b') /\ stage m' b' /\ m <= m' <= Z.max m last /\
    (finished = true -> condition b' = false) /\ (last - m <= Z.of_nat turns -> finished = true).
Proof.
  intros Hlast Hbound. revert m b. induction turns as [|turns IH]; intros m b Hs Hm; cbn [bench_while]; destruct (condition b) eqn:Ec; cbn [negb];
    try (exists true, m, b; split_and!; try done; lia).
  - exists false, m, b. split_and!; try done; [lia..|]. intros Hle. by rewrite (Hlast m b Hs) in Ec by lia.
  - destruct (Z.le_gt_cases last m) as [Hle|Hgt]; [by rewrite (Hlast m b Hs) in Ec by lia|].
    destruct (stage_turn reorder m b Hs ltac:(lia)) as (b' & -> & Hs'). cbn [mbind result_bind].
    destruct (IH (m + 1) b' Hs') as (finished & m' & b2 & E & S2 & L & C & F); [lia|]. exists finished, m', b2. split_and!; try done; [lia..|].
    intros Hle. apply F. lia.
Qed.

(** What [y] has read is a part of the string. *)
Lemma stage_received m b : stage m b -> be_string_received b `prefix_of` D /\
  (receiving_on b = false -> be_string_received b = D) /\ cn_rst_set (be_x b) = false /\ cn_rst_set (be_y b) = false.
Proof.
  intros Hs. destruct (sg_top _ _ Hs) as [W Ht]. pose proof (tp_mid _ _ Ht) as HM. split_and!; [|by eapply ended_received|apply HM|apply HM].
  pose proof (md_fwd _ _ _ _ HM) as Hh. pose proof (rv_bytes _ _ _ _ (hf_received _ _ _ _ _ Hh)) as Hb. rewrite (md_empty _ _ _ _ HM), app_nil_r in Hb.
  destruct (sx_prefix _ _ _ (hf_side _ _ _ _ _ Hh)) as [rest HD]. rewrite Hb. unfold sent_part, ztake. rewrite take_take.
  etrans; [apply prefix_take|]. exists rest. exact HD.
Qed.

Lemma stage_start random_x random_y : 0 <= random_x < 2 ^ 32 -> 0 <= random_y < 2 ^ 32 -> zlen D <= stream_limit ->
  exists b, bench_start random_x random_y D = Ok b /\ stage 0 b.
Proof.
  intros Hx Hy Hlim. destruct (start_top random_x random_y Hx Hy Hlim) as (b & hx & hy & E & Ht & Kx & Ky). exists b. split; [done|].
  pose proof (zlen_nonneg D). split; [by exists []|left; split_and!; [done|by exists hx|by exists hy]| |unfold calm_turn; lia..].
  split; [apply Kx|apply Ky].
Qed.
End turns.

(** C4.  The benchmark ends: for every string that sequence numbers can carry, for every
    initial sequence numbers and in either order of delivery, no turn of [main_loop]
    throws and neither connection is reset; what [y] has received is always a prefix of
    the string; and [n + 5] turns of the first loop and [2n + 26] turns of the second
    are enough for a string of [n] bytes, after which [y] has received the whole
    string and both connections are closed. *)
Theorem benchmark_completes turns1 turns2 random_x random_y (string_to_send : bytes) reorder :
  0 <= random_x < 2 ^ 32 -> 0 <= random_y < 2 ^ 32 -> zlen string_to_send <= stream_limit ->
  exists finished b, main_loop turns1 turns2 random_x random_y string_to_send reorder = Ok (finished, b) /\
    be_string_received b `prefix_of` string_to_send /\ cn_rst_set (be_x b) = false /\ cn_rst_set (be_y b) = false /\
    (finished = true -> be_string_received b = string_to_send /\ any_active b = false) /\
    ((length string_to_send + 5 <= turns1)%nat -> (2 * length string_to_send + 26 <= turns2)%nat -> finished = true).
Proof.
  intros Hx Hy Hlim. set (D := string_to_send) in *. pose proof Hlim as Hlim'. unfold stream_limit in Hlim'. pose proof (zlen_nonneg D) as Hz.
  destruct (stage_start D random_x random_y Hx Hy Hlim) as (b0 & E0 & S0). unfold main_loop. rewrite E0. cbn [mbind result_bind].
  destruct (while_stage D turns1 receiving_on reorder 0 (zlen D + 5) b0) as (f1 & m1 & b1 & E1 & S1 & L1 & C1 & F1); [|lia|done|lia|].
  { intros m b Hs Hm. destruct (sg_top _ _ _ Hs) as [W Ht]. eapply complete_done; [done|]. eapply stage_complete; [done|]. unfold calm_turn. lia. }
  rewrite E1. cbn [mbind result_bind]. destruct (stage_received D m1 b1 S1) as (P1 & R1 & X1 & Y1). destruct f1; cbn [negb].
  2: { exists false, b1. split_and!; try done. intros Ht _. apply F1. unfold zlen. lia. }
  rewrite bool_decide_true by auto. cbn [negb].
  destruct (while_stage D turns2 any_active reorder m1 (2 * calm_turn D + 10) b1) as (f2 & m2 & b2 & E2 & S2 & L2 & C2 & F2);
    [intros m b; apply stage_inactive|unfold calm_turn; lia|done|lia|].
  destruct (stage_received D m2 b2 S2) as (P2 & R2 & X2 & Y2). exists f2, b2. split_and!; try done.
  - intros Hf. split; [|by apply C2]. pose proof (bench_while_grows _ _ _ _ _ _ E2) as Hg. rewrite (R1 (C1 eq_refl)) in Hg. by apply (anti_symm prefix).
  - intros _ Ht. apply F2. unfold calm_turn. unfold zlen in *. lia.
Qed.

(** Three bytes in reverse order. *)
Lemma benchmark_completes_witness :
  exists b, main_loop 8 32 5 9 [1; 2; 3] true = Ok (true, b) /\ be_string_received b = [1; 2; 3] /\ any_active b = false.
Proof.
  destruct (benchmark_completes 8 32 5 9 [1; 2; 3] true) as (f & b & E & _ & _ & _ & Hf & Hfin).
  - lia.
  - lia.
  - by vm_compute.
  - assert (f = true) as -> by (apply Hfin; cbn; lia). exists b. split; [exact E|]. by apply Hf.
Defined.
