(* ===== verification/Simulators.v ===== *)
(** The network simulator (src/apps/network_simulator.cc): hosts around a router,
    their links, and the test that the program runs.

    The random generator is the list of the numbers it gives out; messages are left
    out, and that computing those of [deliver] does not throw is shown in [Summaries].
    Theorem: [Host::check()] accepts exactly the datagrams that were expected,
    in any order.  That the test succeeds is shown in [SimulatorRuns], with what
    [Links] and [Stars] say of the rounds of [simulate()]. *)

From Stdlib Require Import String Ascii.
From stdpp Require Import gmap strings.
From S2P Require Import Prelude Texts WrappingIntegers Buffers Parsers TCPSegments IPv4Datagrams EthernetFrames Addresses.
From S2P Require Import NetworkInterfaces Routers.

#[local] Open Scope Z_scope.

(** ** Numbers and text *)

(** [rd()] *)
Definition draw (rd : list Z) : Z * list Z := (u32 (default 0 (head rd)), tail rd).

Fixpoint draw_bytes (n : nat) (rd : list Z) : list Z * list Z :=
  match n with
  | O => ([], rd)
  | S n => let '(x, rd) := draw rd in let '(l, rd) := draw_bytes n rd in (u8 x :: l, rd)
  end.

Definition random_host_ethernet_address (rd : list Z) : EthernetAddress * list Z :=
  let '(addr, rd) := draw_bytes 6 rd in
  (match addr with byte :: rest => Z.land (Z.lor byte 2) 254 :: rest | [] => [] end, rd).

Definition random_router_ethernet_address (rd : list Z) : EthernetAddress * list Z :=
  let '(addr, rd) := draw_bytes 6 rd in ([2; 0; 0] ++ zdrop 3 addr, rd).

(** ** Queues of frames *)

(** [clear(queue1, queue2)]: what is left of [queue2]. *)
Definition clear {A} (queue1 queue2 : list A) : list A := drop (length queue1) queue2.

(** [deliver(src_name, src, dst_name, dst)]: each frame with its payload in one piece. *)
Fixpoint deliver (src : list EthernetFrame) (dst : AsyncNetworkInterface) : result AsyncNetworkInterface :=
  match src with
  | [] => Ok dst
  | frame :: src =>
      dst ← AsyncNetworkInterface_recv_frame dst
              (MkEthernetFrame (ef_header frame) (BufferList_of_string (BufferList_concatenate (ef_payload frame))));
      deliver src dst
  end.

Definition frames_out (a : AsyncNetworkInterface) : list EthernetFrame := ni_frames_out (an_interface a).
Definition clear_frames (frames : list EthernetFrame) (a : AsyncNetworkInterface) : AsyncNetworkInterface :=
  MkAsyncNetworkInterface (NetworkInterface_set_frames (an_interface a) (clear frames (frames_out a))) (an_datagrams_out a).

(** [exchange_frames] between two interfaces, and among three. *)
Definition exchange_frames (x y : AsyncNetworkInterface) : result (AsyncNetworkInterface * AsyncNetworkInterface) :=
  let x_frames := frames_out x in
  let y_frames := frames_out y in
  y ← deliver x_frames y;
  x ← deliver y_frames x;
  Ok (clear_frames x_frames x, clear_frames y_frames y).

Definition exchange_frames3 (x y z : AsyncNetworkInterface) :
    result (AsyncNetworkInterface * AsyncNetworkInterface * AsyncNetworkInterface) :=
  let x_frames := frames_out x in
  let y_frames := frames_out y in
  let z_frames := frames_out z in
  y ← deliver x_frames y;
  z ← deliver x_frames z;
  x ← deliver y_frames x;
  z ← deliver y_frames z;
  x ← deliver z_frames x;
  y ← deliver z_frames y;
  Ok (clear_frames x_frames x, clear_frames y_frames y, clear_frames z_frames z).

(** ** Host *)

Record Host : Type := MkHost {
  hs_name : string;
  hs_my_address : Address;
  hs_interface : AsyncNetworkInterface;
  hs_next_hop : Address;
  hs_expecting_to_receive : list IPv4Datagram
}.

Definition Host_new `{NameService} (rd : list Z) (name : string) (my_address next_hop : Address) : result (Host * list Z) :=
  let '(addr, rd) := random_host_ethernet_address rd in
  interface ← NetworkInterface_construct addr my_address;
  Ok (MkHost name my_address (AsyncNetworkInterface_new interface) next_hop [], rd).

Definition Host_set_interface (h : Host) (a : AsyncNetworkInterface) : Host :=
  MkHost (hs_name h) (hs_my_address h) a (hs_next_hop h) (hs_expecting_to_receive h).

(** [serialize().concatenate()] *)
Definition wire (d : IPv4Datagram) : result bytes := l ← IPv4Datagram_serialize d; Ok (BufferList_concatenate l).

(** The comparison serialises the expected datagram first. *)
Fixpoint expecting (l : list IPv4Datagram) (expected : IPv4Datagram) : result bool :=
  match l with
  | [] => Ok false
  | x :: l =>
      a ← wire x;
      b ← wire expected;
      if bool_decide (a = b) then Ok true else expecting l expected
  end.

Fixpoint remove_expectation (l : list IPv4Datagram) (expected : IPv4Datagram) : result (list IPv4Datagram) :=
  match l with
  | [] => Ok []
  | x :: l =>
      a ← wire x;
      b ← wire expected;
      if bool_decide (a = b) then Ok l else l ← remove_expectation l expected; Ok (x :: l)
  end.

Definition Host_send_to (rd : list Z) (h : Host) (destination : Address) (ttl : Z) : result (IPv4Datagram * Host * list Z) :=
  src ← Address_ipv4_numeric (hs_my_address h);
  dst ← Address_ipv4_numeric destination;
  let '(number, rd) := draw rd in
  let payload := BufferList_of_string (string_bytes "random payload: {" ++ decimal number ++ string_bytes "}") in
  let header := IPv4Header_set_route IPv4Header_default src dst
                  (u16 (ih_hlen IPv4Header_default * 4 + BufferList_size payload)) in
  let dgram := MkIPv4Datagram (IPv4Header_set_ttl header ttl) payload in
  a ← AsyncNetworkInterface_send_datagram (hs_interface h) dgram (hs_next_hop h);
  Ok (dgram, Host_set_interface h a, rd).

Definition Host_expect (h : Host) (expected : IPv4Datagram) : Host :=
  MkHost (hs_name h) (hs_my_address h) (hs_interface h) (hs_next_hop h) (hs_expecting_to_receive h ++ [expected]).

(** The loop of [check()] over the datagrams received: the expectations left. *)
Fixpoint check_received (received expected : list IPv4Datagram) : result (list IPv4Datagram) :=
  match received with
  | [] => Ok expected
  | dgram_received :: received =>
      found ← expecting expected dgram_received;
      if negb found then Throw runtime_error
      else expected ← remove_expectation expected dgram_received; check_received received expected
  end.

Definition Host_check (h : Host) : result Host :=
  expected ← check_received (an_datagrams_out (hs_interface h)) (hs_expecting_to_receive h);
  if negb (bool_decide (expected = [])) then Throw runtime_error
  else Ok (MkHost (hs_name h) (hs_my_address h) (MkAsyncNetworkInterface (an_interface (hs_interface h)) [])
             (hs_next_hop h) []).

(** ** Network *)

Section network.
Context `{NameService}.

(** [Address{"a.b.c.d"}]; the text "0" of the program stands for 0.0.0.0. *)
Definition dotted (a b c d : Z) : result Address := Address_of_ip (dotted_quad (quad a b c d)) 0.

(** [ip("a.b.c.d")] *)
Definition ip (a b c d : Z) : result Z := address ← dotted a b c d; Address_ipv4_numeric address.

Record Network : Type := MkNetwork {
  nw_router : Router;
  nw_default_id : Z;
  nw_eth0_id : Z;
  nw_eth1_id : Z;
  nw_eth2_id : Z;
  nw_uun3_id : Z;
  nw_hs4_id : Z;
  nw_mit5_id : Z;
  nw_hosts : gmap string Host
}.

Definition Network_set_router (n : Network) (r : Router) : Network :=
  MkNetwork r (nw_default_id n) (nw_eth0_id n) (nw_eth1_id n) (nw_eth2_id n) (nw_uun3_id n) (nw_hs4_id n) (nw_mit5_id n) (nw_hosts n).
Definition Network_set_hosts (n : Network) (hosts : gmap string Host) : Network :=
  MkNetwork (nw_router n) (nw_default_id n) (nw_eth0_id n) (nw_eth1_id n) (nw_eth2_id n) (nw_uun3_id n) (nw_hs4_id n) (nw_mit5_id n) hosts.

(** [host(name)], a reference into the map. *)
Definition Network_host (n : Network) (name : string) : result Host :=
  match nw_hosts n !! name with
  | None => Throw runtime_error
  | Some h => if negb (bool_decide (hs_name h = name)) then Throw runtime_error else Ok h
  end.

Definition Network_set_host (n : Network) (name : string) (h : Host) : Network :=
  Network_set_hosts n (<[name := h]> (nw_hosts n)).

(** [_router.add_interface({random_router_ethernet_address(), {"a.b.c.d"}})] *)
Definition add_router_interface (rd : list Z) (r : Router) (address : result Address) : result (Z * Router * list Z) :=
  let '(addr, rd) := random_router_ethernet_address rd in
  address ← address;
  interface ← NetworkInterface_construct addr address;
  let '(id, r) := Router_add_interface r (AsyncNetworkInterface_new interface) in
  Ok (id, r, rd).

(** [_hosts.insert({name, {name, my_address, next_hop}})] *)
Definition insert_host (rd : list Z) (hosts : gmap string Host) (name : string) (my_address next_hop : result Address) :
    result (gmap string Host * list Z) :=
  my_address ← my_address;
  next_hop ← next_hop;
  '(h, rd) ← Host_new rd name my_address next_hop;
  Ok (match hosts !! name with Some _ => hosts | None => <[name := h]> hosts end, rd).

(** [_router.add_route(ip(...), length, next_hop, id)] *)
Definition add_network_route (n : Network) (prefix : result Z) (prefix_length : Z) (next_hop : option Address) (id : Z) :
    result Network :=
  prefix ← prefix;
  r ← Router_add_route (nw_router n) prefix prefix_length next_hop id;
  Ok (Network_set_router n r).

(** [host(name).address()] *)
Definition host_address (n : Network) (name : string) : result Address := h ← Network_host n name; Ok (hs_my_address h).

Definition Network_new (rd : list Z) : result (Network * list Z) :=
  '(default_id, r, rd) ← add_router_interface rd Router_new (dotted 171 67 76 46);
  '(eth0_id, r, rd) ← add_router_interface rd r (dotted 10 0 0 1);
  '(eth1_id, r, rd) ← add_router_interface rd r (dotted 172 16 0 1);
  '(eth2_id, r, rd) ← add_router_interface rd r (dotted 192 168 0 1);
  '(uun3_id, r, rd) ← add_router_interface rd r (dotted 198 178 229 1);
  '(hs4_id, r, rd) ← add_router_interface rd r (dotted 143 195 0 2);
  '(mit5_id, r, rd) ← add_router_interface rd r (dotted 128 30 76 255);
  '(hosts, rd) ← insert_host rd ∅ "applesauce" (dotted 10 0 0 2) (dotted 10 0 0 1);
  '(hosts, rd) ← insert_host rd hosts "default_router" (dotted 171 67 76 1) (dotted 0 0 0 0);
  '(hosts, rd) ← insert_host rd hosts "cherrypie" (dotted 192 168 0 2) (dotted 192 168 0 1);
  '(hosts, rd) ← insert_host rd hosts "hs_router" (dotted 143 195 0 1) (dotted 0 0 0 0);
  '(hosts, rd) ← insert_host rd hosts "dm42" (dotted 198 178 229 42) (dotted 198 178 229 1);
  '(hosts, rd) ← insert_host rd hosts "dm43" (dotted 198 178 229 43) (dotted 198 178 229 1);
  let n := MkNetwork r default_id eth0_id eth1_id eth2_id uun3_id hs4_id mit5_id hosts in
  default_router ← host_address n "default_router";
  hs_router ← host_address n "hs_router";
  mit ← dotted 128 30 0 1;
  n ← add_network_route n (ip 0 0 0 0) 0 (Some default_router) default_id;
  n ← add_network_route n (ip 10 0 0 0) 8 None eth0_id;
  n ← add_network_route n (ip 172 16 0 0) 16 None eth1_id;
  n ← add_network_route n (ip 192 168 0 0) 24 None eth2_id;
  n ← add_network_route n (ip 198 178 229 0) 24 None uun3_id;
  n ← add_network_route n (ip 143 195 0 0) 17 (Some hs_router) hs4_id;
  n ← add_network_route n (ip 143 195 128 0) 18 (Some hs_router) hs4_id;
  n ← add_network_route n (ip 143 195 192 0) 19 (Some hs_router) hs4_id;
  n ← add_network_route n (ip 128 30 76 255) 16 (Some mit) mit5_id;
  Ok (n, rd).

(** The interface of the router and those of the hosts, after an exchange. *)
Definition Router_set_interface (r : Router) (i : Z) (a : AsyncNetworkInterface) : Router :=
  MkRouter (<[Z.to_nat i := a]> (ro_interfaces r)) (ro_route_table r).

Definition connect_two (n : Network) (id : Z) (name : string) : result Network :=
  a ← Router_interface (nw_router n) id;
  h ← Network_host n name;
  '(a, b) ← exchange_frames a (hs_interface h);
  Ok (Network_set_host (Network_set_router n (Router_set_interface (nw_router n) id a)) name (Host_set_interface h b)).

Definition connect_three (n : Network) (id : Z) (name1 name2 : string) : result Network :=
  a ← Router_interface (nw_router n) id;
  h1 ← Network_host n name1;
  h2 ← Network_host n name2;
  '(a, b, c) ← exchange_frames3 a (hs_interface h1) (hs_interface h2);
  Ok (Network_set_host (Network_set_host (Network_set_router n (Router_set_interface (nw_router n) id a))
        name1 (Host_set_interface h1 b)) name2 (Host_set_interface h2 c)).

Definition Network_simulate_physical_connections (n : Network) : result Network :=
  n ← connect_two n (nw_default_id n) "default_router";
  n ← connect_two n (nw_eth0_id n) "applesauce";
  n ← connect_two n (nw_eth2_id n) "cherrypie";
  n ← connect_two n (nw_hs4_id n) "hs_router";
  connect_three n (nw_uun3_id n) "dm42" "dm43".

(** One round of [simulate()]. *)
Definition Network_round (n : Network) : result Network :=
  r ← Router_route (nw_router n);
  Network_simulate_physical_connections (Network_set_router n r).

Fixpoint Network_rounds (rounds : nat) (n : Network) : result Network :=
  match rounds with
  | O => Ok n
  | S rounds => n ← Network_round n; Network_rounds rounds n
  end.

(** The loop over the hosts; which of them comes first makes no difference but to
    the message of an exception. *)
Fixpoint check_hosts (names : list string) (hosts : gmap string Host) : result (gmap string Host) :=
  match names with
  | [] => Ok hosts
  | name :: names =>
      match hosts !! name with
      | Some h => h ← Host_check h; check_hosts names (<[name := h]> hosts)
      | None => check_hosts names hosts
      end
  end.

Definition Network_simulate (n : Network) : result Network :=
  n ← Network_rounds 256 n;
  hosts ← check_hosts (map fst (map_to_list (nw_hosts n))) (nw_hosts n);
  Ok (Network_set_hosts n hosts).

(** ** The test *)

(** One of the tests: [from] sends to [destination]; the datagram is expected at
    [expected_at], with its time to live counted down, or nowhere. *)
Definition test_traffic (rd : list Z) (n : Network) (from : string) (destination : result Address) (ttl : Z)
    (expected_at : option string) : result (Network * list Z) :=
  h ← Network_host n from;
  destination ← destination;
  '(dgram_sent, h, rd) ← Host_send_to rd h destination ttl;
  let n := Network_set_host n from h in
  n ← (match expected_at with
       | Some name =>
           let dgram_sent := MkIPv4Datagram (IPv4Header_set_ttl (id_header dgram_sent) (u8 (ih_ttl (id_header dgram_sent) - 1)))
                               (id_payload dgram_sent) in
           h ← Network_host n name;
           Ok (Network_set_host n name (Host_expect h dgram_sent))
       | None => Ok n
       end);
  n ← Network_simulate n;
  Ok (n, rd).

(** The tests, one after the other. *)
Definition simulator_tests (rd : list Z) (n : Network) : result Network :=
  '(n, rd) ← test_traffic rd n "applesauce" (host_address n "cherrypie") 64 (Some "cherrypie");
  '(n, rd) ← test_traffic rd n "cherrypie" (host_address n "applesauce") 64 (Some "applesauce");
  '(n, rd) ← test_traffic rd n "applesauce" (dotted 1 2 3 4) 64 (Some "default_router");
  '(n, rd) ← test_traffic rd n "applesauce" (dotted 143 195 131 17) 64 (Some "hs_router");
  '(n, rd) ← test_traffic rd n "cherrypie" (dotted 143 195 193 52) 64 (Some "hs_router");
  '(n, rd) ← test_traffic rd n "cherrypie" (dotted 143 195 223 255) 64 (Some "hs_router");
  '(n, rd) ← test_traffic rd n "cherrypie" (dotted 143 195 224 0) 64 (Some "default_router");
  '(n, rd) ← test_traffic rd n "dm42" (host_address n "dm43") 64 (Some "dm43");
  '(n, rd) ← test_traffic rd n "applesauce" (dotted 1 2 3 4) 1 None;
  '(n, rd) ← test_traffic rd n "applesauce" (dotted 1 2 3 4) 0 None;
  Ok n.

Definition network_simulator (rd : list Z) : result Network :=
  '(n, rd) ← Network_new rd;
  simulator_tests rd n.

End network.

(** ** What a host accepts *)

(** A host after a check that found nothing wrong. *)
Definition checked (h : Host) : Host :=
  MkHost (hs_name h) (hs_my_address h) (MkAsyncNetworkInterface (an_interface (hs_interface h)) []) (hs_next_hop h) [].

(** The datagrams that can be put on the wire. *)
Definition on_wire (d : IPv4Datagram) : Prop := exists b, wire d = Ok b.

Lemma expecting_spec l d : Forall on_wire l -> on_wire d ->
  exists found, expecting l d = Ok found /\
    if found then exists l', remove_expectation l d = Ok l' /\ l' ⊆+ l /\ map wire l ≡ₚ wire d :: map wire l'
    else wire d ∉ map wire l.
Proof.
  intros Hl [b Hd]. induction Hl as [|x l [a Hx] Hl IH]; cbn [expecting remove_expectation map].
  { exists false. split; [done|]. apply not_elem_of_nil. }
  rewrite Hx, Hd. cbn [mbind result_bind]. case_bool_decide as Hab.
  { exists true. split; [done|]. exists l. rewrite Hab. split; [done|]. split; [by apply submseteq_cons|done]. }
  destruct IH as ([] & -> & H).
  - exists true. split; [done|]. destruct H as (l' & -> & Hs & Hp). exists (x :: l'). split; [done|].
    split; [by apply submseteq_skip|]. cbn [map]. rewrite Hx, Hp, Hd. apply Permutation_swap.
  - exists false. split; [done|]. rewrite Hd in H. rewrite elem_of_cons. intros [[= ->]|?]; done.
Qed.

Lemma check_received_spec received expected : Forall on_wire received -> Forall on_wire expected ->
  match check_received received expected with
  | Ok rest => map wire expected ≡ₚ map wire received ++ map wire rest
  | Throw e => e = runtime_error /\ ~ exists rest, map wire expected ≡ₚ map wire received ++ rest
  end.
Proof.
  intros Hr. revert expected. induction Hr as [|d received Hd Hr IH]; intros expected He; cbn [check_received map]; [done|].
  destruct (expecting_spec expected d He Hd) as ([] & -> & H); cbn [mbind result_bind negb].
  - destruct H as (l' & -> & Hs & Hp). cbn [mbind result_bind].
    assert (Forall on_wire l') as Hl' by (rewrite Forall_forall in *; intros x Hx; apply He; by eapply elem_of_submseteq).
    specialize (IH l' Hl'). destruct (check_received received l') as [rest|e].
    + by rewrite Hp, IH.
    + destruct IH as [-> IH]. split; [done|]. intros [rest Hrest]. apply IH. exists rest. rewrite Hp in Hrest.
      by apply Permutation_cons_inv in Hrest.
  - split; [done|]. intros [rest Hrest]. apply H. rewrite Hrest. cbn [app]. apply elem_of_cons. by left.
Qed.

Lemma host_check_spec h :
  Forall on_wire (an_datagrams_out (hs_interface h)) -> Forall on_wire (hs_expecting_to_receive h) ->
  (map wire (an_datagrams_out (hs_interface h)) ≡ₚ map wire (hs_expecting_to_receive h) /\ Host_check h = Ok (checked h)) \/
  (~ map wire (an_datagrams_out (hs_interface h)) ≡ₚ map wire (hs_expecting_to_receive h) /\
   Host_check h = Throw runtime_error).
Proof.
  intros Hr He. pose proof (check_received_spec _ _ Hr He) as H. unfold Host_check.
  destruct (check_received _ _) as [rest|e]; cbn [mbind result_bind].
  - destruct rest as [|x rest].
    + left. rewrite bool_decide_eq_true_2 by done. rewrite H. cbn [map]. by rewrite app_nil_r.
    + right. rewrite bool_decide_eq_false_2 by done. split; [|done]. intros Hp. rewrite Hp in H.
      apply Permutation_length in H. rewrite length_app in H. cbn in H. lia.
  - destruct H as [-> H]. right. split; [|done]. intros Hp. apply H. exists []. by rewrite app_nil_r.
Qed.

(** [Host::check()] is exact: when all the datagrams can be serialised, it
    succeeds if those the host received are, byte for byte and each as often, those
    it was told to expect, in any order, and then forgets both; and it throws
    [runtime_error] if a datagram is missing, unexpected, altered or doubled. *)
Theorem host_check_exact h :
  Forall on_wire (an_datagrams_out (hs_interface h)) -> Forall on_wire (hs_expecting_to_receive h) ->
  (map wire (an_datagrams_out (hs_interface h)) ≡ₚ map wire (hs_expecting_to_receive h) /\ Host_check h = Ok (checked h)) \/
  (~ map wire (an_datagrams_out (hs_interface h)) ≡ₚ map wire (hs_expecting_to_receive h) /\
   Host_check h = Throw runtime_error).
Proof. exact (host_check_spec h). Qed.

(** A host that has received [received] and waits for [expected]. *)
Definition sample_host (received expected : list IPv4Datagram) : Host :=
  MkHost "host" (host_ip 1) (sample_async 1 received) (host_ip 2) expected.

Definition sample_datagram2 : IPv4Datagram :=
  MkIPv4Datagram (IPv4Header_set_ttl (id_header sample_datagram) 7) (id_payload sample_datagram).

Lemma sample_on_wire : on_wire sample_datagram /\ on_wire sample_datagram2.
Proof. split; eexists; vm_compute; reflexivity. Qed.

(** The order makes no difference; a datagram that comes twice does. *)
Lemma host_check_exact_witness :
  Host_check (sample_host [sample_datagram2; sample_datagram] [sample_datagram; sample_datagram2]) =
    Ok (checked (sample_host [] [])) /\
  Host_check (sample_host [sample_datagram; sample_datagram] [sample_datagram]) = Throw runtime_error.
Proof.
  destruct sample_on_wire as [H1 H2]. split.
  - destruct (host_check_exact (sample_host [sample_datagram2; sample_datagram] [sample_datagram; sample_datagram2]))
      as [[_ H]|[H _]]; [by repeat constructor..|exact H|]. destruct H. apply Permutation_swap.
  - destruct (host_check_exact (sample_host [sample_datagram; sample_datagram] [sample_datagram]))
      as [[H _]|[_ H]]; [by repeat constructor..| |exact H]. apply Permutation_length in H. discriminate H.
Defined.
