(* ===== verification/Links.v ===== *)
(** Interfaces that share a link, as in the simulator (src/apps/network_simulator.cc).

    On a link between two or three interfaces, of which one sends a datagram to
    another, address resolution takes its course: the request, the answer, the
    datagram.  The state of a link is described by what each interface holds.

    Theorems: every exchange of frames takes a link from one phase to the next, until
    the datagram has arrived at its destination and nowhere else. *)

From stdpp Require Import gmap strings.
From S2P Require Import Prelude WrappingIntegers Buffers Parsers TCPSegments IPv4Datagrams EthernetFrames Addresses.
From S2P Require Import NetworkInterfaces Routers Simulators.

(** ** Datagrams that differ in their checksum only *)

Definition alike (d d' : IPv4Datagram) : Prop :=
  IPv4Header_set_cksum (id_header d) 0 = IPv4Header_set_cksum (id_header d') 0 /\
  flatten (id_payload d) = flatten (id_payload d').

#[export] Instance alike_equivalence : Equivalence alike.
Proof.
  split; [done|intros d d' [H1 H2]; by split|]. intros d d' d'' [H1 H2] [H3 H4]. split; congruence.
Qed.

#[export] Instance passed_proper : Proper (alike ==> alike) passed.
Proof.
  intros [h p] [h' p'] [H1 H2]. split; [|exact H2]. destruct h, h'. cbn in *. injection H1; intros; by subst.
Qed.

Lemma same_alike d d' : IPv4Datagram_same d d' -> alike d d'.
Proof. intros (H1 & H2 & _). split; [by rewrite H1|done]. Qed.

Lemma same_ok d d' : IPv4Datagram_ok d -> IPv4Datagram_same d d' -> IPv4Datagram_ok d'.
Proof.
  intros [Hh Hl] (H1 & H2 & _). split; rewrite H1; [by apply ip_sealed_ok|]. by rewrite H2.
Qed.

Lemma alike_route d d' : alike d d' ->
  ih_ttl (id_header d) = ih_ttl (id_header d') /\ ih_dst (id_header d) = ih_dst (id_header d').
Proof. intros [H _]. destruct d as [[] p], d' as [[] p']. cbn in *. by injection H. Qed.

Lemma wire_ok d : IPv4Datagram_ok d -> wire d = Ok (ip_bytes (ip_sealed (id_header d)) ++ flatten (id_payload d)).
Proof.
  intros Hd. unfold wire. rewrite IPv4Datagram_serialize_eq by done. cbn [mbind result_bind].
  rewrite BufferList_concatenate_flatten, flatten_cons. pose proof (iho_hlen _ (ido_header _ Hd)).
  pose proof (ip_bytes_len (ip_sealed (id_header d)) ltac:(cbn; lia)) as Hlen.
  change (ih_hlen (ip_sealed (id_header d))) with (ih_hlen (id_header d)) in Hlen.
  by rewrite Buffer_of_string_str by lia.
Qed.

Lemma alike_wire d d' : IPv4Datagram_ok d -> IPv4Datagram_ok d' -> alike d d' -> wire d = wire d'.
Proof.
  intros Hd Hd' [H1 H2]. rewrite !wire_ok by done. rewrite H2. do 3 f_equal.
  unfold ip_sealed, ip_sealing_cksum. rewrite H1.
  rewrite <- (set_cksum_twice (id_header d) 0), H1. reflexivity.
Qed.

(** ** What an interface holds *)

(** An interface on a link: its Ethernet address and its IP address. *)
Definition member : Type := EthernetAddress * Z.

(** The members of a link can be told apart. *)
Record link_ok (link : list member) : Prop := {
  lo_members : Forall (fun m => EthernetAddress_ok m.1 /\ m.1 <> ETHERNET_BROADCAST /\ 0 <= m.2 < 2 ^ 32) link;
  lo_ips : NoDup (map snd link);
  lo_apart : forall s t k (ms mt mk : member), link !! s = Some ms -> link !! t = Some mt -> link !! k = Some mk ->
    s <> t -> s <> k -> t <> k -> mt.1 <> mk.1
}.

(** The address it has asked for without an answer yet, the frames to be sent, the
    datagrams that wait, and those received. *)
Record status : Type := MkStatus {
  su_asked : option Z;
  su_frames : list EthernetFrame;
  su_pending : list (IPv4Datagram * Address);
  su_got : list IPv4Datagram
}.

Definition idle : status := MkStatus None [] [] [].

Section link.
Context (link : list member) (Hlink : link_ok link).

Record iface (m : member) (st : status) (a : AsyncNetworkInterface) : Prop := {
  if_ethernet : ni_ethernet_address (an_interface a) = m.1;
  if_ip : ni_ip_address (an_interface a) = Address_v4 m.2 0;
  if_clock : ni_clock (an_interface a) = 0;
  if_table : forall ip hw t, ni_arp_table (an_interface a) !! ip = Some (hw, t) -> t = cache_ttl_ms /\ (hw, ip) ∈ link;
  if_asked : forall ip, is_Some (ni_last_broadcast_time (an_interface a) !! ip) ->
    is_Some (ni_arp_table (an_interface a) !! ip) \/ su_asked st = Some ip;
  if_frames : ni_frames_out (an_interface a) = su_frames st;
  if_pending : ni_dgram_pending (an_interface a) = su_pending st;
  if_got : an_datagrams_out a = su_got st
}.

Lemma member_ok m : m ∈ link -> EthernetAddress_ok m.1 /\ m.1 <> ETHERNET_BROADCAST /\ 0 <= m.2 < 2 ^ 32.
Proof. intros Hm. pose proof (lo_members _ Hlink) as H. rewrite Forall_forall in H. by apply H. Qed.

Lemma member_hop m : m ∈ link -> hop_ip (Address_v4 m.2 0) m.2.
Proof. intros Hm. split; [apply Address_v4_numeric|]; by apply member_ok. Qed.

Lemma members_ip x y : (x, y) ∈ link -> forall x', (x', y) ∈ link -> x = x'.
Proof.
  pose proof (lo_ips _ Hlink) as Hnd. clear Hlink. induction link as [|[a b] l IH]; [intros H; inversion H|].
  cbn [map snd] in Hnd. apply NoDup_cons in Hnd as [Hn Hnd]. intros H x' H'.
  apply elem_of_cons in H as [[= -> ->]|H]; apply elem_of_cons in H' as [[= -> ]|H']; [done| | |by eapply IH].
  - destruct Hn. apply list_elem_of_fmap. by exists (x', b).
  - subst. destruct Hn. apply list_elem_of_fmap. by exists (x, b).
Qed.

(** A frame with a datagram. *)
Definition data_frame (dst src : EthernetAddress) (l : BufferList) : EthernetFrame :=
  MkEthernetFrame (MkEthernetHeader dst src TYPE_IPv4) l.

(** The answer of [mt] to [ms]. *)
Definition reply_frame (mt ms : member) : EthernetFrame :=
  arp_frame ms.1 mt.1 (ARPMessage_with OPCODE_REPLY mt.1 mt.2 ms.1 ms.2).

(** Handing over a datagram for another member. *)
Lemma send_iface m mt got d a :
  m ∈ link -> mt ∈ link -> IPv4Datagram_ok d -> iface m (MkStatus None [] [] got) a ->
  exists a' l, IPv4Datagram_serialize d = Ok l /\ AsyncNetworkInterface_send_datagram a d (Address_v4 mt.2 0) = Ok a' /\
    (iface m (MkStatus None [data_frame mt.1 m.1 l] [] got) a' \/
     iface m (MkStatus (Some mt.2) [request_frame m.1 m.2 mt.2] [(d, Address_v4 mt.2 0)] got) a').
Proof.
  intros Hm Hmt Hd [I1 I2 I3 I4 I5 I6 I7 I8]. destruct (member_ok m Hm) as (He & _ & _).
  destruct (send_datagram_eq (an_interface a) d (Address_v4 mt.2 0) mt.2 m.2) as (l & Hl & E);
    [by rewrite I1|rewrite I2; by apply member_hop|done|by apply member_hop|].
  unfold AsyncNetworkInterface_send_datagram. rewrite E. cbn [mbind result_bind]. eexists _, l. split; [done|].
  split; [reflexivity|]. cbn [su_asked su_frames su_pending su_got] in *. rewrite I1.
  destruct (ni_arp_table (an_interface a) !! mt.2) as [[hw t]|] eqn:Et.
  - left. destruct (I4 _ _ _ Et) as [-> Hin]. assert (arp_valid (an_interface a) mt.2 = Some mt.1) as ->.
    { unfold arp_valid. rewrite Et, I3. cbn. f_equal. apply (members_ip hw mt.2 Hin). by destruct mt. }
    split; cbn [an_interface NetworkInterface_push_frame ni_ethernet_address ni_ip_address ni_clock ni_arp_table
      ni_last_broadcast_time ni_frames_out ni_dgram_pending an_datagrams_out su_frames su_pending su_got su_asked]; try done.
    by rewrite I6.
  - right. assert (arp_valid (an_interface a) mt.2 = None) as -> by (unfold arp_valid; by rewrite Et).
    assert (ni_last_broadcast_time (an_interface a) !! mt.2 = None) as Hb.
    { apply eq_None_not_Some. intros Hs. destruct (I5 _ Hs) as [[x Hx]|?]; congruence. }
    assert (broadcast_recently (an_interface a) mt.2 = false) as -> by (unfold broadcast_recently; by rewrite Hb).
    split; cbn; try done; [|by rewrite I6|by rewrite I7]. intros ip.
    destruct (decide (mt.2 = ip)) as [<-|Hne]; [by right|]. rewrite lookup_insert_ne by done. intros Hs.
    destruct (I5 _ Hs); [by left|done].
Qed.

(** ** Receiving *)

(** A frame as [Network::deliver] hands it over. *)
Definition in_one_piece (f : EthernetFrame) : EthernetFrame :=
  MkEthernetFrame (ef_header f) (BufferList_of_string (BufferList_concatenate (ef_payload f))).

Lemma one_piece l : zlen (flatten l) < 2 ^ 63 ->
  exists buf, BufferList_of_string (BufferList_concatenate l) = [buf] /\ Buffer_wf buf /\ Buffer_str buf = flatten l.
Proof.
  intros Hl. rewrite BufferList_concatenate_flatten. eexists. split; [reflexivity|].
  split; [apply Buffer_of_string_wf; lia|apply Buffer_of_string_str; lia].
Qed.

(** A frame for someone else. *)
Lemma recv_passes a f : eh_dst (ef_header f) <> ni_ethernet_address (an_interface a) ->
  eh_dst (ef_header f) <> ETHERNET_BROADCAST -> AsyncNetworkInterface_recv_frame a (in_one_piece f) = Ok a.
Proof.
  intros H1 H2. unfold AsyncNetworkInterface_recv_frame, NetworkInterface_recv_frame. cbn [in_one_piece ef_header].
  rewrite !bool_decide_eq_false_2 by done. cbn. by destruct a.
Qed.

Lemma recv_data m src d l st a :
  m ∈ link -> IPv4Datagram_ok d -> IPv4Datagram_serialize d = Ok l -> iface m st a ->
  exists d' a', AsyncNetworkInterface_recv_frame a (in_one_piece (data_frame m.1 src l)) = Ok a' /\
    IPv4Datagram_same d d' /\
    iface m (MkStatus (su_asked st) (su_frames st) (su_pending st) (su_got st ++ [d'])) a'.
Proof.
  intros Hm Hd Hl [I1 I2 I3 I4 I5 I6 I7 I8]. pose proof (IPv4Datagram_serialize_len d l Hd Hl) as Hsz.
  destruct (one_piece l) as (buf & Eb & Hwf & Hstr); [lia|]. unfold AsyncNetworkInterface_recv_frame, in_one_piece.
  cbn [data_frame ef_header ef_payload]. rewrite Eb.
  destruct (recv_ipv4_frame (an_interface a) m.1 src d l buf) as (d' & -> & Hs); [done|done|by rewrite I1|done|done|].
  cbn [mbind result_bind]. eexists d', _. split; [reflexivity|]. split; [done|].
  split; cbn; try done. by rewrite I8.
Qed.

Lemma learned_iface m ms st a : ms ∈ link -> iface m st a ->
  iface m (MkStatus (if bool_decide (su_asked st = Some ms.2) then None else su_asked st)
             (su_frames st) (su_pending st) (su_got st))
    (MkAsyncNetworkInterface (learned (an_interface a) ms.2 ms.1) (an_datagrams_out a)).
Proof.
  intros Hms [I1 I2 I3 I4 I5 I6 I7 I8]. split; cbn [an_interface learned NetworkInterface_set_arp ni_ethernet_address
    ni_ip_address ni_clock ni_arp_table ni_last_broadcast_time ni_frames_out ni_dgram_pending an_datagrams_out
    su_frames su_pending su_got su_asked]; try done.
  - intros ip hw t. rewrite lookup_insert_Some. intros [[<- [= <- <-]]|[_ H]]; [|by apply I4].
    rewrite I3. split; [done|]. by destruct ms.
  - intros ip Hs. destruct (decide (ms.2 = ip)) as [<-|Hne]; [left; by rewrite lookup_insert_eq|].
    rewrite lookup_insert_ne by done. destruct (I5 _ Hs) as [?|Ha]; [by left|]. right. rewrite Ha.
    rewrite bool_decide_eq_false_2; [done|]. congruence.
Qed.

(** The request of [ms] for [mt] at [m]. *)
Lemma recv_request_iface m ms mt a :
  m ∈ link -> ms ∈ link -> mt ∈ link -> iface m idle a ->
  exists a', AsyncNetworkInterface_recv_frame a (in_one_piece (request_frame ms.1 ms.2 mt.2)) = Ok a' /\
    iface m (MkStatus None (if mt.2 =? m.2 then [reply_frame m ms] else []) [] []) a'.
Proof.
  intros Hm Hms Hmt HI. pose proof HI as [I1 I2 I3 I4 I5 I6 I7 I8].
  destruct (member_ok m Hm) as (He & _ & _). destruct (member_ok ms Hms) as (Hes & _ & Hsr).
  destruct (member_ok mt Hmt) as (_ & _ & Htr).
  set (msg := ARPMessage_with OPCODE_REQUEST ms.1 ms.2 [0; 0; 0; 0; 0; 0] mt.2).
  assert (ARPMessage_ok msg) as Hmsg by (apply ARPMessage_with_ok; auto using zero_address_ok).
  destruct (one_piece (BufferList_of_string (arp_bytes msg))) as (buf & Eb & Hwf & Hstr).
  { rewrite arp_payload_flatten, arp_bytes_len by done. lia. }
  rewrite arp_payload_flatten in Hstr by done.
  unfold AsyncNetworkInterface_recv_frame, in_one_piece, request_frame. fold msg. cbn [ef_header ef_payload]. rewrite Eb.
  rewrite (recv_arp_frame _ _ _ msg) by (done || by right). unfold msg.
  rewrite (recv_request _ m.2) by (rewrite ?I1, ?I2; done || by apply member_hop). rewrite I1. cbn [mbind result_bind].
  pose proof (learned_iface m ms idle a Hms HI) as HL. cbn [idle su_asked su_frames su_pending su_got] in HL.
  destruct HL as [L1 L2 L3 L4 L5 L6 L7 L8]. cbn [su_asked su_frames su_pending su_got an_interface an_datagrams_out] in *.
  change (if bool_decide (None = Some ms.2) then None else None) with (@None Z) in L5.
  destruct (mt.2 =? m.2); cbn [ni_dgram_pending NetworkInterface_push_frame]; rewrite L7; cbn [length poll_pending mbind result_bind].
  - eexists. split; [reflexivity|]. split; cbn [an_interface NetworkInterface_push_frame ni_ethernet_address ni_ip_address ni_clock ni_arp_table
      ni_last_broadcast_time ni_frames_out ni_dgram_pending an_datagrams_out su_frames su_pending su_got su_asked]; try done.
    by rewrite L6.
  - eexists. split; [reflexivity|]. by split.
Qed.

(** The answer of [mt] at [m], where a datagram waits for it. *)
Lemma recv_reply_iface m mt d l a :
  m ∈ link -> mt ∈ link -> IPv4Datagram_ok d -> IPv4Datagram_serialize d = Ok l ->
  iface m (MkStatus (Some mt.2) [] [(d, Address_v4 mt.2 0)] []) a ->
  exists a', AsyncNetworkInterface_recv_frame a (in_one_piece (reply_frame mt m)) = Ok a' /\
    iface m (MkStatus None [data_frame mt.1 m.1 l] [] []) a'.
Proof.
  intros Hm Hmt Hd Hl HI. pose proof HI as [I1 I2 I3 I4 I5 I6 I7 I8].
  destruct (member_ok m Hm) as (He & _ & Hr). destruct (member_ok mt Hmt) as (Het & _ & Htr).
  set (msg := ARPMessage_with OPCODE_REPLY mt.1 mt.2 m.1 m.2).
  assert (ARPMessage_ok msg) as Hmsg by (apply ARPMessage_with_ok; auto).
  destruct (one_piece (BufferList_of_string (arp_bytes msg))) as (buf & Eb & Hwf & Hstr).
  { rewrite arp_payload_flatten, arp_bytes_len by done. lia. }
  rewrite arp_payload_flatten in Hstr by done.
  unfold AsyncNetworkInterface_recv_frame, in_one_piece, reply_frame, arp_frame. fold msg. cbn [ef_header ef_payload]. rewrite Eb.
  rewrite (recv_arp_frame _ _ _ msg) by (done || by left). unfold msg.
  pose proof (recv_reply (an_interface a) m.2 mt.2 mt.1 d (Address_v4 mt.2 0) l) as Hrep. rewrite I1 in Hrep.
  specialize (Hrep He ltac:(rewrite I2; by apply member_hop) I7 ltac:(rewrite I3; lia) (member_hop _ Hmt) Hd Hl).
  destruct (NetworkInterface_recv_arp (an_interface a) _) as [n1|e]; cbn [mbind result_bind] in *; [|done]. rewrite Hrep.
  cbn [mbind result_bind]. eexists. split; [reflexivity|].
  pose proof (learned_iface m mt _ a Hmt HI) as HL. cbn [su_asked su_frames su_pending su_got] in HL.
  rewrite bool_decide_eq_true_2 in HL by done. destruct HL as [L1 L2 L3 L4 L5 L6 L7 L8].
  split; cbn [an_interface NetworkInterface_push_frame NetworkInterface_set_pending ni_ethernet_address ni_ip_address ni_clock ni_arp_table
      ni_last_broadcast_time ni_frames_out ni_dgram_pending an_datagrams_out su_frames su_pending su_got su_asked] in *; try done.
  by rewrite L6.
Qed.

End link.

(** ** Exchanging frames *)

(** [exchange_frames] on the interfaces of a link; one that is alone on its link is
    not taken care of. *)
Definition exchange (l : list AsyncNetworkInterface) : result (list AsyncNetworkInterface) :=
  match l with
  | [x; y] => '(x, y) ← exchange_frames x y; Ok [x; y]
  | [x; y; z] => '(x, y, z) ← exchange_frames3 x y z; Ok [x; y; z]
  | _ => Ok l
  end.

Lemma clear_nothing a : clear_frames [] a = a.
Proof. by destruct a as [[] q]. Qed.

Lemma deliver_one f a : deliver [f] a = AsyncNetworkInterface_recv_frame a (in_one_piece f).
Proof. cbn [deliver]. unfold in_one_piece. by destruct (AsyncNetworkInterface_recv_frame a _). Qed.

(** Nothing to send. *)
Lemma exchange_idle l : Forall (fun a => frames_out a = []) l -> exchange l = Ok l.
Proof.
  intros Hl. destruct l as [|x [|y [|z [|]]]]; try done; repeat (apply Forall_cons in Hl as [?Hx Hl]);
    cbn [exchange]; unfold exchange_frames, exchange_frames3; repeat match goal with H : frames_out _ = [] |- _ => rewrite H; clear H end;
    cbn [deliver mbind result_bind]; by rewrite !clear_nothing.
Qed.

(** One delivery after the other. *)
Ltac exchange_step :=
  repeat first
    [ progress cbn [mbind result_bind]
    | rewrite deliver_one
    | progress change (deliver [] ?a) with (Ok a)
    | match goal with H : AsyncNetworkInterface_recv_frame _ _ = Ok _ |- _ => rewrite H end ].

(** One of them, [s], has one frame to send: the others receive it. *)
Definition others_receive (s : nat) (f : EthernetFrame) (l l' : list AsyncNetworkInterface) : Prop :=
  length l' = length l /\
  forall k a a', l !! k = Some a -> l' !! k = Some a' ->
    if decide (k = s) then frames_out a = [f] /\ a' = clear_frames [f] a
    else frames_out a = [] /\ AsyncNetworkInterface_recv_frame a (in_one_piece f) = Ok a'.

Lemma exchange_one s f l l' : (2 <= length l <= 3)%nat -> (s < length l)%nat -> others_receive s f l l' -> exchange l = Ok l'.
Proof.
  intros Hn Hs [Hlen H]. destruct l as [|x [|y l]]; cbn in Hn, Hs, Hlen; [lia..|].
  destruct l' as [|x' [|y' l']]; cbn in Hlen; [lia..|].
  pose proof (H 0%nat x x' eq_refl eq_refl) as Hx. pose proof (H 1%nat y y' eq_refl eq_refl) as Hy.
  destruct l as [|z [|]]; cbn in Hn, Hlen; [|destruct l' as [|z' l']; cbn in Hlen; [lia|]|lia].
  - destruct l'; [|cbn in Hlen; lia]. cbn [exchange]. unfold exchange_frames.
    destruct s as [|[|s]]; [| |cbn in Hs; lia]; cbn in Hx, Hy; destruct Hx as [-> Hx], Hy as [-> Hy]; subst; cbn zeta;
      exchange_step; by rewrite ?clear_nothing.
  - destruct l'; [|cbn in Hlen; lia]. pose proof (H 2%nat z z' eq_refl eq_refl) as Hz. cbn [exchange]. unfold exchange_frames3.
    destruct s as [|[|[|s]]]; [| | |cbn in Hs; lia]; cbn in Hx, Hy, Hz;
      destruct Hx as [-> Hx], Hy as [-> Hy], Hz as [-> Hz]; subst; cbn zeta;
      exchange_step; by rewrite ?clear_nothing.
Qed.

Lemma list_choice {A B} (P : nat -> A -> B -> Prop) l :
  (forall k a, l !! k = Some a -> exists b, P k a b) ->
  exists l', length l' = length l /\ forall k a b, l !! k = Some a -> l' !! k = Some b -> P k a b.
Proof.
  revert P. induction l as [|x l IH]; intros P H; [by exists []|].
  destruct (H 0%nat x eq_refl) as [y Hy]. destruct (IH (fun k => P (S k)) (fun k => H (S k))) as (l' & Hlen & Hl').
  exists (y :: l'). split; [cbn; by rewrite Hlen|]. intros [|k] a b; cbn; [|apply Hl']. by intros [= <-] [= <-].
Qed.

(** ** The phases of a delivery *)

(** One interface is in the state [st], the others are idle. *)
Definition only (s : nat) (st : status) (k : nat) : status := if decide (k = s) then st else idle.

Lemma only_eq s st : only s st s = st.
Proof. unfold only. by rewrite decide_True. Qed.

Lemma only_ne s st k : k <> s -> only s st k = idle.
Proof. intros H. unfold only. by rewrite decide_False. Qed.

Section phases.
Context (link : list member) (Hlink : link_ok link).

Definition link_in (S : nat -> status) (l : list AsyncNetworkInterface) : Prop :=
  length l = length link /\ forall k m a, link !! k = Some m -> l !! k = Some a -> iface link m (S k) a.

Lemma link_in_lookup S l k m : link_in S l -> link !! k = Some m -> exists a, l !! k = Some a /\ iface link m (S k) a.
Proof.
  intros [Hlen H] Hm. destruct (lookup_lt_is_Some_2 l k) as [a Ha]; [rewrite Hlen; by eapply lookup_lt_Some|].
  exists a. split; [done|]. by apply H.
Qed.

Lemma link_in_ext S S' l : (forall k, S k = S' k) -> link_in S l -> link_in S' l.
Proof. intros HS [Hlen H]. split; [done|]. intros k m a Hm Ha. rewrite <- HS. by apply H. Qed.

Lemma link_in_quiet S l : (forall k, su_frames (S k) = []) -> link_in S l -> exchange l = Ok l.
Proof.
  intros HS [Hlen H]. apply exchange_idle, Forall_lookup. intros k a Ha.
  destruct (lookup_lt_is_Some_2 link k) as [m Hm]; [rewrite <- Hlen; by eapply lookup_lt_Some|].
  unfold frames_out. by rewrite (if_frames _ _ _ _ (H k m a Hm Ha)).
Qed.

Lemma exchange_link S S' s f l :
  (2 <= length link <= 3)%nat -> (s < length link)%nat -> link_in S l -> su_frames (S s) = [f] ->
  S' s = MkStatus (su_asked (S s)) [] (su_pending (S s)) (su_got (S s)) ->
  (forall k m a, k <> s -> link !! k = Some m -> l !! k = Some a -> iface link m (S k) a ->
     su_frames (S k) = [] /\ exists a', AsyncNetworkInterface_recv_frame a (in_one_piece f) = Ok a' /\ iface link m (S' k) a') ->
  exists l', exchange l = Ok l' /\ link_in S' l'.
Proof.
  intros Hn Hs [Hlen H] Hf HS' Hk.
  set (P k a a' := (if decide (k = s) then frames_out a = [f] /\ a' = clear_frames [f] a
    else frames_out a = [] /\ AsyncNetworkInterface_recv_frame a (in_one_piece f) = Ok a') /\
    forall m, link !! k = Some m -> iface link m (S' k) a').
  destruct (list_choice P l) as (l' & Hlen' & Hl').
  { intros k a Ha. destruct (lookup_lt_is_Some_2 link k) as [m Hm]; [rewrite <- Hlen; by eapply lookup_lt_Some|].
    pose proof (H k m a Hm Ha) as HI. unfold P. destruct (decide (k = s)) as [->|Hne].
    - exists (clear_frames [f] a). destruct HI as [I1 I2 I3 I4 I5 I6 I7 I8]. unfold frames_out. rewrite I6. split; [done|].
      intros m' Hm'. rewrite Hm in Hm'. injection Hm' as <-.
      rewrite HS'. split; cbn; try done. unfold clear, frames_out. by rewrite I6, Hf.
    - destruct (Hk k m a Hne Hm Ha HI) as [Hf' (a' & Ea & HI')]. exists a'. split.
      + split; [|done]. unfold frames_out. by rewrite (if_frames _ _ _ _ HI).
      + intros m' Hm'. rewrite Hm in Hm'. by injection Hm' as <-. }
  exists l'. split.
  - apply (exchange_one s f); [by rewrite Hlen|by rewrite Hlen|]. split; [done|]. intros k a a' Ha Ha'. by apply (Hl' k a a').
  - split; [congruence|]. intros k m a' Hm Ha'. destruct (lookup_lt_is_Some_2 l k) as [a Ha].
    { rewrite <- Hlen'. by eapply lookup_lt_Some. }
    by apply (Hl' k a a').
Qed.

(** Member [s] sends [d] to member [t], which takes [p] exchanges: with the address
    known, one; otherwise the request and the answer come first. *)
Definition phase (s t : nat) (d : IPv4Datagram) (p : nat) (l : list AsyncNetworkInterface) : Prop :=
  exists ms mt : member, link !! s = Some ms /\ link !! t = Some mt /\
  match p with
  | O => exists d', IPv4Datagram_same d d' /\ link_in (only t (MkStatus None [] [] [d'])) l
  | 1%nat => exists b, IPv4Datagram_serialize d = Ok b /\ link_in (only s (MkStatus None [data_frame mt.1 ms.1 b] [] [])) l
  | 2%nat => link_in (fun k => if decide (k = s) then MkStatus (Some mt.2) [] [(d, Address_v4 mt.2 0)] []
                               else only t (MkStatus None [reply_frame mt ms] [] []) k) l
  | _ => link_in (only s (MkStatus (Some mt.2) [request_frame ms.1 ms.2 mt.2] [(d, Address_v4 mt.2 0)] [])) l
  end.

Lemma ips_index k t mk mt : link !! k = Some mk -> link !! t = Some mt -> mk.2 = mt.2 -> k = t.
Proof.
  intros Hk Ht E. pose proof (lo_ips _ Hlink) as Hnd. change (NoDup (snd <$> link)) in Hnd.
  eapply (NoDup_lookup (snd <$> link) k t mt.2); [done|..].
  - apply list_lookup_fmap_Some. by exists mk.
  - apply list_lookup_fmap_Some. by exists mt.
Qed.

Lemma in_link k m : link !! k = Some m -> m ∈ link.
Proof. apply list_elem_of_lookup_2. Qed.

(** A frame for [mt] is passed over by third parties. *)
Lemma third_passes s t k ms mt mk f st a :
  link !! s = Some ms -> link !! t = Some mt -> link !! k = Some mk -> s <> t -> k <> s -> k <> t ->
  eh_dst (ef_header f) = mt.1 -> iface link mk st a -> AsyncNetworkInterface_recv_frame a (in_one_piece f) = Ok a.
Proof.
  intros Hs Ht Hk Hst Hks Hkt Hf HI. apply recv_passes; rewrite Hf.
  - rewrite (if_ethernet _ _ _ _ HI). by apply (lo_apart _ Hlink s t k ms mt mk); auto.
  - apply (member_ok link Hlink). by eapply in_link.
Qed.

Context (Hlen : (2 <= length link <= 3)%nat).

Lemma request_step s t d l : s <> t -> phase s t d 3 l -> exists l', exchange l = Ok l' /\ phase s t d 2 l'.
Proof.
  intros Hst (ms & mt & Hs & Ht & Hp). pose proof (lookup_lt_Some _ _ _ Hs) as Hsl.
  edestruct (exchange_link _ (fun k => if decide (k = s) then MkStatus (Some mt.2) [] [(d, Address_v4 mt.2 0)] []
    else only t (MkStatus None [reply_frame mt ms] [] []) k) s (request_frame ms.1 ms.2 mt.2) l Hlen Hsl Hp) as (l' & E & H');
    [by rewrite only_eq|by rewrite only_eq, decide_True| |exists l'; split; [done|by exists ms, mt]].
  intros k m a Hne Hm Ha HI. rewrite only_ne in * by done. split; [done|]. rewrite decide_False by done.
  destruct (recv_request_iface link Hlink m ms mt a) as (a' & Ea & HI'); [by eapply in_link..|done|].
  exists a'. split; [done|]. destruct (Z.eqb_spec mt.2 m.2) as [E|E].
  - assert (k = t) as -> by (by eapply ips_index). rewrite only_eq. assert (m = mt) as -> by congruence. done.
  - rewrite only_ne; [done|]. intros ->. assert (m = mt) as -> by congruence. done.
Qed.

Lemma reply_step s t d l : s <> t -> IPv4Datagram_ok d -> phase s t d 2 l -> exists l', exchange l = Ok l' /\ phase s t d 1 l'.
Proof.
  intros Hst Hd (ms & mt & Hs & Ht & Hp). pose proof (lookup_lt_Some _ _ _ Ht) as Htl.
  pose proof (IPv4Datagram_serialize_eq d Hd) as Hb. set (b := _ :: _) in Hb.
  edestruct (exchange_link _ (only s (MkStatus None [data_frame mt.1 ms.1 b] [] [])) t (reply_frame mt ms) l Hlen Htl Hp)
    as (l' & E & H'); [by rewrite decide_False, only_eq by done|
    by rewrite decide_False, only_eq, only_ne by done| |exists l'; split; [done|exists ms, mt; split_and!; try done; by exists b]].
  intros k m a Hne Hm Ha HI. destruct (decide (k = s)) as [->|Hks].
  - split; [done|]. assert (m = ms) as -> by congruence. rewrite only_eq.
    by apply (recv_reply_iface link Hlink ms mt d b); [by eapply in_link..| | |].
  - rewrite only_ne in * by done. split; [done|]. exists a. rewrite only_ne by done. split; [|done].
    by apply (third_passes t s k mt ms m _ idle); auto.
Qed.

Lemma data_step s t d l : s <> t -> IPv4Datagram_ok d -> phase s t d 1 l -> exists l', exchange l = Ok l' /\ phase s t d 0 l'.
Proof.
  intros Hst Hd (ms & mt & Hs & Ht & b & Hb & Hp). pose proof (lookup_lt_Some _ _ _ Hs) as Hsl.
  destruct (link_in_lookup _ l t mt Hp Ht) as (at' & Hat & HIt). rewrite only_ne in HIt by done.
  destruct (recv_data link mt ms.1 d b idle at') as (d' & a' & Ea & Hsame & HI'); [by eapply in_link|done..|].
  edestruct (exchange_link _ (only t (MkStatus None [] [] [d'])) s (data_frame mt.1 ms.1 b) l Hlen Hsl Hp)
    as (l' & E & H'); [by rewrite only_eq|by rewrite only_eq, only_ne by done| |
    exists l'; split; [done|exists ms, mt; split_and!; try done; by exists d']].
  intros k m a Hne Hm Ha HI. rewrite only_ne in * by done. split; [done|]. destruct (decide (k = t)) as [->|Hkt].
  - assert (m = mt) as -> by congruence. assert (a = at') as -> by congruence. rewrite only_eq. by exists a'.
  - rewrite only_ne by done. exists a. split; [|done]. by apply (third_passes s t k ms mt m _ idle).
Qed.

Lemma phase_step s t d p l : s <> t -> IPv4Datagram_ok d -> (p <= 2)%nat -> phase s t d (S p) l ->
  exists l', exchange l = Ok l' /\ phase s t d p l'.
Proof.
  intros Hst Hd Hp. destruct p as [|[|[|p]]]; [by apply data_step|by apply reply_step|by apply request_step|lia].
Qed.

(** The beginning of a delivery. *)
Lemma phase_send s t d l ms mt a got :
  link !! s = Some ms -> link !! t = Some mt -> IPv4Datagram_ok d -> l !! s = Some a ->
  link_in (only s (MkStatus None [] [] got)) l ->
  exists a', AsyncNetworkInterface_send_datagram a d (Address_v4 mt.2 0) = Ok a' /\
    an_datagrams_out a' = got /\
    exists p, (p = 1 \/ p = 3)%nat /\ phase s t d p (<[s := MkAsyncNetworkInterface (an_interface a') []]> l).
Proof.
  intros Hs Ht Hd Ha Hin. pose proof Hin as [Hl HI]. pose proof (HI s ms a Hs Ha) as HIs. rewrite only_eq in HIs.
  destruct (send_iface link Hlink ms mt got d a) as (a' & b & Hb & E & H); [by eapply in_link..|done|done|].
  exists a'. split; [done|].
  assert (forall st, iface link ms st a' -> link_in (only s (MkStatus (su_asked st) (su_frames st) (su_pending st) []))
    (<[s := MkAsyncNetworkInterface (an_interface a') []]> l)) as Hput.
  { intros st [J1 J2 J3 J4 J5 J6 J7 J8]. split; [by rewrite length_insert|]. intros k m x Hm.
    rewrite list_lookup_insert_Some. intros [(<- & <- & _)|[Hne Hx]].
    - rewrite only_eq. assert (m = ms) as -> by congruence. by split.
    - rewrite only_ne by done. pose proof (HI k m x Hm Hx) as HIk. by rewrite only_ne in HIk by done. }
  destruct H as [H|H].
  - split; [by apply (if_got _ _ _ _ H)|]. exists 1%nat. split; [by left|]. exists ms, mt. split_and!; [done..|]. exists b.
    split; [done|]. exact (Hput _ H).
  - split; [by apply (if_got _ _ _ _ H)|]. exists 3%nat. split; [by right|]. exists ms, mt. split_and!; [done..|]. exact (Hput _ H).
Qed.

End phases.
