(* ===== verification/Stars.v ===== *)
(** Links around a router, as in the simulator (src/apps/network_simulator.cc): every
    link has an interface of the router and those of some hosts.

    A round lets the router route and then exchanges the frames of every link.
    Theorem: a datagram that a host sends reaches the router, and from there the host
    that its route leads to, in a few rounds, and nothing else changes. *)

From stdpp Require Import gmap strings.
From S2P Require Import Prelude WrappingIntegers Buffers Parsers TCPSegments IPv4Datagrams EthernetFrames Addresses.
From S2P Require Import NetworkInterfaces Routers Simulators Links.

(** ** Routing with little to do *)

Lemma route_from_idle todo r : (forall i, i ∈ todo -> Router_queue r i = []) -> route_from todo r = Ok r.
Proof.
  induction todo as [|i todo IH]; intros H; [done|]. cbn [route_from]. rewrite H by apply list_elem_of_here.
  cbn [length route_queue mbind result_bind]. apply IH. intros j Hj. apply H. by apply list_elem_of_further.
Qed.

Lemma Router_route_idle r : (forall i, Router_queue r i = []) -> Router_route r = Ok r.
Proof. intros H. by apply route_from_idle. Qed.

(** One datagram, which came in on interface [i]. *)
Lemma route_from_one todo r i d r' : NoDup todo -> i ∈ todo -> Router_queue r i = [d] ->
  (forall j, j <> i -> Router_queue r j = []) -> Router_route_one_datagram r d = Ok r' -> same_queues r r' ->
  route_from todo r = Ok (Router_pop r' i).
Proof.
  intros Hnd Hi Hq Ho E Hs. induction Hnd as [|j todo Hj Hnd IH]; [by apply elem_of_nil in Hi|]. cbn [route_from].
  apply elem_of_cons in Hi as [<-|Hi].
  - rewrite Hq. cbn [length route_queue]. rewrite Hq, E. cbn [mbind result_bind].
    apply route_from_idle. intros j Hj'. rewrite pop_queue. destruct (decide (i = j)) as [<-|Hne]; [done|].
    rewrite Hs. by apply Ho.
  - rewrite Ho by (intros ->; done). cbn [length route_queue mbind result_bind]. by apply IH.
Qed.

Lemma Router_route_one r i d r' : (i < length (ro_interfaces r))%nat -> Router_queue r i = [d] ->
  (forall j, j <> i -> Router_queue r j = []) -> Router_route_one_datagram r d = Ok r' -> same_queues r r' ->
  Router_route r = Ok (Router_pop r' i).
Proof.
  intros Hi Hq Ho E Hs. apply (route_from_one _ _ _ d); try done; [apply NoDup_seq|]. apply elem_of_seq. lia.
Qed.

(** ** The links of a router *)

(** Their first interfaces are the router's. *)
Definition set_heads (ifs : list AsyncNetworkInterface) (L : list (list AsyncNetworkInterface)) :
    list (list AsyncNetworkInterface) := zip_with (fun a l => a :: tail l) ifs L.

Definition route_links (table : Trie) (L : list (list AsyncNetworkInterface)) : result (list (list AsyncNetworkInterface)) :=
  r ← Router_route (MkRouter (omap head L) table);
  Ok (set_heads (ro_interfaces r) L).

Definition links_round (table : Trie) (L : list (list AsyncNetworkInterface)) : result (list (list AsyncNetworkInterface)) :=
  L ← route_links table L;
  mapM exchange L.

Fixpoint links_rounds (table : Trie) (n : nat) (L : list (list AsyncNetworkInterface)) :
    result (list (list AsyncNetworkInterface)) :=
  match n with
  | O => Ok L
  | S n => L ← links_round table L; links_rounds table n L
  end.

Lemma links_rounds_app table n m L L' : links_rounds table n L = Ok L' ->
  links_rounds table (n + m) L = links_rounds table m L'.
Proof.
  revert L. induction n as [|n IH]; intros L; cbn [links_rounds Nat.add]; [by intros [= <-]|].
  destruct (links_round table L) as [L1|e]; [|done]. apply IH.
Qed.

Lemma links_rounds_fixed table n L : links_round table L = Ok L -> links_rounds table n L = Ok L.
Proof. intros H. induction n as [|n IH]; [done|]. cbn [links_rounds]. by rewrite H. Qed.

Lemma mapM_ok {A B} (f : A -> result B) l l' : Forall2 (fun a b => f a = Ok b) l l' -> mapM f l = Ok l'.
Proof. induction 1 as [|a b l l' H _ IH]; [done|]. cbn [mapM]. rewrite H. cbn. by rewrite IH. Qed.

Lemma heads_lookup (L : list (list AsyncNetworkInterface)) i l : Forall (fun l => l <> []) L -> L !! i = Some l ->
  omap head L !! i = head l.
Proof.
  intros HL. revert i. induction HL as [|x L Hx _ IH]; intros i Hi; [done|]. destruct x as [|a x]; [done|].
  destruct i as [|i]; cbn in *; [by injection Hi as <-|by apply IH].
Qed.

Lemma heads_length (L : list (list AsyncNetworkInterface)) : Forall (fun l => l <> []) L -> length (omap head L) = length L.
Proof. induction 1 as [|x L Hx _ IH]; [done|]. destruct x as [|a x]; [done|]. cbn. f_equal. exact IH. Qed.

Lemma set_heads_same L : Forall (fun l => l <> []) L -> set_heads (omap head L) L = L.
Proof. induction 1 as [|x L Hx _ IH]; [done|]. destruct x as [|a x]; [done|]. cbn. by f_equal. Qed.

Lemma set_heads_lookup ifs L i a l : ifs !! i = Some a -> L !! i = Some l -> set_heads ifs L !! i = Some (a :: tail l).
Proof. intros Ha Hl. unfold set_heads. by rewrite lookup_zip_with, Ha; cbn; rewrite Hl. Qed.

Section star.
Context (C : list (list member)) (HC : Forall (fun link => link_ok link /\ (1 <= length link <= 3)%nat) C).

Definition net_with (P : nat -> list member -> list AsyncNetworkInterface -> Prop) (L : list (list AsyncNetworkInterface)) : Prop :=
  length L = length C /\ forall j link l, C !! j = Some link -> L !! j = Some l -> P j link l.

(** Nothing is going on. *)
Definition quiet (j : nat) (link : list member) (l : list AsyncNetworkInterface) : Prop := link_in link (fun _ => idle) l.

(** On link [i] a datagram is on its way from member [s] to member [t]. *)
Definition under_way (i s t : nat) (d : IPv4Datagram) (p : nat) (j : nat) (link : list member)
    (l : list AsyncNetworkInterface) : Prop :=
  if decide (j = i) then phase link s t d p l else quiet j link l.

Lemma link_at j link : C !! j = Some link -> link_ok link /\ (1 <= length link <= 3)%nat.
Proof. rewrite Forall_lookup in HC. apply HC. Qed.

Lemma net_lookup P L j link : net_with P L -> C !! j = Some link -> exists l, L !! j = Some l /\ P j link l.
Proof.
  intros [Hlen H] Hj. destruct (lookup_lt_is_Some_2 L j) as [l Hl]; [rewrite Hlen; by eapply lookup_lt_Some|].
  exists l. split; [done|]. by apply H.
Qed.

Lemma net_lookup_inv P L j l : net_with P L -> L !! j = Some l -> exists link, C !! j = Some link /\ P j link l.
Proof.
  intros [Hlen H] Hj. destruct (lookup_lt_is_Some_2 C j) as [link Hl]; [rewrite <- Hlen; by eapply lookup_lt_Some|].
  exists link. split; [done|]. by apply H.
Qed.

(** Exchanging the frames on every link. *)
Lemma exchange_links P P' L : net_with P L ->
  (forall j link l, C !! j = Some link -> P j link l -> exists l', exchange l = Ok l' /\ P' j link l') ->
  exists L', mapM exchange L = Ok L' /\ net_with P' L'.
Proof.
  intros HN HP. destruct (list_choice (fun j l l' => exchange l = Ok l' /\ forall link, C !! j = Some link -> P' j link l') L)
    as (L' & Hlen' & HL').
  { intros j l Hl. destruct (net_lookup_inv _ _ _ _ HN Hl) as (link & Hj & Hp). destruct (HP j link l Hj Hp) as (l' & E & Hp').
    exists l'. split; [done|]. intros link' Hj'. rewrite Hj in Hj'. by injection Hj' as <-. }
  exists L'. split.
  - apply mapM_ok, Forall2_same_length_lookup. split; [done|]. intros j l l' Hl Hl'. by apply (HL' j).
  - destruct HN as [Hlen _]. split; [congruence|]. intros j link l' Hj Hl'.
    destruct (lookup_lt_is_Some_2 L j) as [l Hl]; [rewrite <- Hlen'; by eapply lookup_lt_Some|]. by apply (HL' j l l').
Qed.

Lemma exchange_same P L : net_with P L -> (forall j link l, C !! j = Some link -> P j link l -> exchange l = Ok l) ->
  mapM exchange L = Ok L.
Proof.
  intros HN HP. apply mapM_ok, Forall2_same_length_lookup. split; [done|]. intros j l l' Hl [= <-]%(eq_trans (eq_sym Hl)).
  destruct (net_lookup_inv _ _ _ _ HN Hl) as (link & Hj & Hp). by eapply HP.
Qed.

Lemma quiet_exchange j link l : quiet j link l -> exchange l = Ok l.
Proof. by apply link_in_quiet. Qed.

Lemma arrived_exchange link s t d l : phase link s t d 0 l -> exchange l = Ok l.
Proof.
  intros (ms & mt & _ & _ & d' & _ & H). eapply link_in_quiet; [|exact H]. intros k. unfold only. by destruct (decide (k = t)).
Qed.

Lemma under_way_step i s t d p L : s <> t -> IPv4Datagram_ok d -> (p <= 2)%nat -> net_with (under_way i s t d (S p)) L ->
  exists L', mapM exchange L = Ok L' /\ net_with (under_way i s t d p) L'.
Proof.
  intros Hst Hd Hp HN. eapply exchange_links; [exact HN|]. intros j link l Hj. unfold under_way.
  destruct (link_at j link Hj) as [Hlink Hlen]. destruct (decide (j = i)) as [->|Hne].
  - intros Hph. apply phase_step; try done. destruct Hph as (ms & mt & Hs & Ht & _).
    apply lookup_lt_Some in Hs, Ht. lia.
  - intros Hq. exists l. split; [by eapply quiet_exchange|done].
Qed.

(** ** What the router sees *)

(** The statuses of the interfaces on a link. *)
Definition link_status (i s t : nat) (d : IPv4Datagram) (p j : nat) (link : list member) (l : list AsyncNetworkInterface)
    (S : nat -> status) : Prop :=
  link_in link S l /\ forall k, su_got (S k) = [] \/ j = i /\ p = 0%nat /\ k = t.

Lemma under_way_status i s t d p j link l : under_way i s t d p j link l -> exists S, link_status i s t d p j link l S.
Proof.
  unfold under_way. destruct (decide (j = i)) as [->|Hne]; [|intros Hq; exists (fun _ => idle); split; [exact Hq|by left]].
  intros (ms & mt & _ & _ & H). destruct p as [|[|[|p]]].
  - destruct H as (d' & _ & H). eexists. split; [exact H|]. intros k. unfold only. destruct (decide (k = t)); [by right|by left].
  - destruct H as (b & _ & H). eexists. split; [exact H|]. intros k. left. unfold only. by destruct (decide (k = s)).
  - eexists. split; [exact H|]. intros k. left. unfold only. by destruct (decide (k = s)), (decide (k = t)).
  - eexists. split; [exact H|]. intros k. left. unfold only. by destruct (decide (k = s)).
Qed.

Lemma quiet_under_way L : net_with quiet L -> net_with (under_way (length C) 0 0 IPv4Datagram_default 1) L.
Proof.
  intros [Hlen H]. split; [done|]. intros j link l Hj Hl. unfold under_way.
  rewrite decide_False; [by apply H|]. apply lookup_lt_Some in Hj. lia.
Qed.

Lemma under_way_nonempty i s t d p L : net_with (under_way i s t d p) L -> Forall (fun l => l <> []) L.
Proof.
  intros HN. apply Forall_lookup. intros j l Hl. destruct (net_lookup_inv _ _ _ _ HN Hl) as (link & Hj & Hp).
  destruct (under_way_status _ _ _ _ _ _ _ _ Hp) as (S & [Hlen _] & _). destruct (link_at j link Hj) as [_ Hn].
  intros ->. cbn in Hlen. lia.
Qed.

(** A status of the router's interface. *)
Lemma head_iface S link l a : (1 <= length link)%nat -> link_in link S l -> head l = Some a ->
  exists m, link !! 0%nat = Some m /\ iface link m (S 0%nat) a.
Proof.
  intros Hn [Hlen H] Ha. destruct l as [|a' l]; [done|]. injection Ha as ->. destruct link as [|m link]; [cbn in Hn; lia|].
  exists m. split; [done|]. by apply (H 0%nat).
Qed.

Lemma heads_queue i s t d p table L j : net_with (under_way i s t d p) L -> (p <> 0%nat \/ t <> 0%nat \/ j <> i) ->
  Router_queue (MkRouter (omap head L) table) j = [].
Proof.
  intros HN Hor. unfold Router_queue. cbn [ro_interfaces]. pose proof (under_way_nonempty _ _ _ _ _ _ HN) as Hne.
  destruct (L !! j) as [l|] eqn:Hl.
  - rewrite (heads_lookup L j l Hne Hl). destruct (net_lookup_inv _ _ _ _ HN Hl) as (link & Hj & Hp).
    destruct (under_way_status _ _ _ _ _ _ _ _ Hp) as (S & HS & Hgot). destruct (head l) as [a|] eqn:Ha; [|done].
    destruct (link_at j link Hj) as [_ Hn]. destruct (head_iface S link l a ltac:(lia) HS Ha) as (m & _ & HI).
    rewrite (if_got _ _ _ _ HI). destruct (Hgot 0%nat) as [->|(-> & -> & <-)]; [done|]. destruct Hor as [?|[?|?]]; done.
  - rewrite lookup_ge_None_2; [done|]. rewrite heads_length by done. by apply lookup_ge_None_1.
Qed.

(** The router has nothing to do. *)
Lemma route_links_idle table L : (exists i s t d p, net_with (under_way i s t d p) L /\ (p <> 0%nat \/ t <> 0%nat)) ->
  route_links table L = Ok L.
Proof.
  intros (i & s & t & d & p & HN & Hor). unfold route_links. rewrite Router_route_idle.
  - cbn [mbind result_bind ro_interfaces]. rewrite set_heads_same; [done|]. by eapply under_way_nonempty.
  - intros j. eapply heads_queue; [exact HN|]. destruct Hor; auto.
Qed.

Lemma quiet_round table L : net_with quiet L -> links_round table L = Ok L.
Proof.
  intros HN. unfold links_round. rewrite route_links_idle.
  - cbn [mbind result_bind]. eapply exchange_same; [exact HN|]. intros j link l _. apply quiet_exchange.
  - eexists _, _, _, _, _. split; [by apply quiet_under_way|by left].
Qed.

Lemma arrived_round table i s t d L : t <> 0%nat -> net_with (under_way i s t d 0) L -> links_round table L = Ok L.
Proof.
  intros Ht HN. unfold links_round. rewrite route_links_idle by (eexists _, _, _, _, _; split; [exact HN|by right]).
  cbn [mbind result_bind]. eapply exchange_same; [exact HN|]. intros j link l _. unfold under_way.
  destruct (decide (j = i)); [apply arrived_exchange|apply quiet_exchange].
Qed.

Lemma under_way_round table i s t d p L : s <> t -> IPv4Datagram_ok d -> (p <= 2)%nat -> net_with (under_way i s t d (S p)) L ->
  exists L', links_round table L = Ok L' /\ net_with (under_way i s t d p) L'.
Proof.
  intros Hst Hd Hp HN. unfold links_round. rewrite route_links_idle by (eexists _, _, _, _, _; split; [exact HN|by left]).
  by apply under_way_step.
Qed.

(** As many rounds as there are phases left. *)
Lemma under_way_rounds table i s t d p L : s <> t -> IPv4Datagram_ok d -> (p <= 3)%nat -> net_with (under_way i s t d p) L ->
  exists L', links_rounds table p L = Ok L' /\ net_with (under_way i s t d 0) L'.
Proof.
  intros Hst Hd. revert L. induction p as [|p IH]; intros L Hp HN; [by exists L|]. cbn [links_rounds].
  destruct (under_way_round table i s t d p L) as (L1 & -> & HN1); [done|done|lia|done|]. cbn [mbind result_bind].
  apply IH; [lia|done].
Qed.

(** ** What the router does *)

Lemma net_set_heads P ifs L : length L = length C -> length ifs = length L ->
  (forall j link a l, C !! j = Some link -> ifs !! j = Some a -> L !! j = Some l -> P j link (a :: tail l)) ->
  net_with P (set_heads ifs L).
Proof.
  intros Hlen Hifs H. split; [unfold set_heads; rewrite length_zip_with; lia|]. intros j link l Hj Hl.
  unfold set_heads in Hl. apply lookup_zip_with_Some in Hl as (a & l' & -> & Ha & Hl'). by apply H.
Qed.

Lemma pop_link link d a l : link_in link (only 0 (MkStatus None [] [] [d])) (a :: l) ->
  link_in link (fun _ => idle) (MkAsyncNetworkInterface (an_interface a) [] :: l).
Proof.
  intros [Hlen H]. split; [done|]. intros [|k] m x Hm Hx; cbn in Hx.
  - injection Hx as <-. destruct (H 0%nat m a Hm eq_refl) as [I1 I2 I3 I4 I5 I6 I7 I8]. by split.
  - by apply (H (S k) m x Hm).
Qed.

(** A datagram [d'] has reached the router on link [i]: its queues, and the links. *)
Record at_router (i : nat) (d' : IPv4Datagram) (table : Trie) (L : list (list AsyncNetworkInterface)) : Prop := {
  ar_length : length L = length C;
  ar_nonempty : Forall (fun l => l <> []) L;
  ar_here : Router_queue (MkRouter (omap head L) table) i = [d'];
  ar_others : forall j, j <> i -> Router_queue (MkRouter (omap head L) table) j = [];
  ar_links : forall j link a l, C !! j = Some link -> L !! j = Some (a :: l) ->
    link_in link (only 0 (MkStatus None [] [] (if decide (j = i) then [d'] else []))) (a :: l)
}.

Lemma arrived_at_router i s d table L : net_with (under_way i s 0 d 0) L -> (i < length C)%nat ->
  exists d', IPv4Datagram_same d d' /\ at_router i d' table L.
Proof.
  intros HN Hi. destruct (lookup_lt_is_Some_2 C i Hi) as [link Hlink].
  destruct (net_lookup _ _ _ _ HN Hlink) as (l & Hl & Hp). unfold under_way in Hp. rewrite decide_True in Hp by done.
  destruct Hp as (ms & mt & _ & Hm & d' & Hsame & Hin). exists d'. split; [done|]. pose proof (under_way_nonempty _ _ _ _ _ _ HN) as Hne.
  split; [apply HN|done| | |].
  - unfold Router_queue. cbn [ro_interfaces]. rewrite (heads_lookup L i l Hne Hl). destruct (head l) as [a|] eqn:Ha.
    + destruct (head_iface _ link l a ltac:(apply lookup_lt_Some in Hm; lia) Hin Ha) as (m & _ & HI).
      rewrite (if_got _ _ _ _ HI). by rewrite only_eq.
    + destruct l; [|done]. rewrite Forall_lookup in Hne. by destruct (Hne _ _ Hl).
  - intros j Hj. eapply heads_queue; [exact HN|]. by right; right.
  - intros j link' a l' Hj Hl'. destruct (decide (j = i)) as [->|Hji].
    + assert (link' = link) as -> by congruence. assert (l = a :: l') as -> by congruence. done.
    + pose proof (proj2 HN j link' _ Hj Hl') as Hq. unfold under_way in Hq. rewrite decide_False in Hq by done.
      eapply link_in_ext; [|exact Hq]. intros k. unfold only. by destruct (decide (k = 0%nat)).
Qed.

(** What is left when the router has changed its interfaces to [ifs] and taken the
    datagram off its queue. *)
Definition popped (i : nat) (ifs : list AsyncNetworkInterface) : list AsyncNetworkInterface :=
  alter (fun a => MkAsyncNetworkInterface (an_interface a) (tail (an_datagrams_out a))) i ifs.

Lemma route_links_one i d' table L ifs : at_router i d' table L -> (i < length C)%nat ->
  Router_route_one_datagram (MkRouter (omap head L) table) d' = Ok (MkRouter ifs table) ->
  same_queues (MkRouter (omap head L) table) (MkRouter ifs table) ->
  route_links table L = Ok (set_heads (popped i ifs) L).
Proof.
  intros [A1 A2 A3 A4 A5] Hi E Hs. unfold route_links.
  rewrite (Router_route_one _ i d' (MkRouter ifs table)); [done| |done..]. cbn [ro_interfaces]. rewrite heads_length by done. lia.
Qed.

Lemma head_at (L : list (list AsyncNetworkInterface)) j l a : Forall (fun l => l <> []) L -> L !! j = Some l -> omap head L !! j = Some a ->
  l = a :: tail l.
Proof.
  intros Hne Hl Ha. rewrite (heads_lookup L j l Hne Hl) in Ha. destruct l as [|x l]; [done|]. by injection Ha as ->.
Qed.

(** The queue of the interface that has the datagram. *)
Lemma router_queue_at i d' table L a : at_router i d' table L -> omap head L !! i = Some a -> an_datagrams_out a = [d'].
Proof. intros [_ _ A3 _ _] Ha. unfold Router_queue in A3. cbn [ro_interfaces] in A3. by rewrite Ha in A3. Qed.

(** Dropped. *)
Lemma route_drops i d' table L : at_router i d' table L -> (i < length C)%nat -> route_of table d' = None ->
  exists L', route_links table L = Ok L' /\ net_with quiet L'.
Proof.
  intros HA Hi Hr. pose proof HA as [A1 A2 A3 A4 A5]. eexists. split.
  - apply (route_links_one i d' table L (omap head L) HA Hi); [|done]. unfold Router_route_one_datagram. unfold route_of, onward, entry_hop in Hr.
    destruct (_ <=? 1); [done|]. cbn [id_header ih_dst IPv4Header_set_ttl]. by destruct (Trie_longest_prefix_match _ _).
  - apply net_set_heads; [done|unfold popped; rewrite length_alter; by apply heads_length|]. intros j link a l Hj Ha Hl.
    unfold popped in Ha. rewrite list_lookup_alter in Ha. destruct (decide (i = j)) as [<-|Hne].
    + destruct (omap head L !! i) as [b|] eqn:Hb; [|done]. injection Ha as <-. rewrite (router_queue_at i d' table L b HA Hb).
      cbn [tail]. rewrite (head_at L i l b A2 Hl Hb) in Hl. pose proof (A5 i link b _ Hj Hl) as Hin.
      rewrite decide_True in Hin by done. by apply pop_link in Hin.
    + rewrite (head_at L j l a A2 Hl Ha) in Hl. pose proof (A5 j link a _ Hj Hl) as Hin. rewrite decide_False in Hin by done.
      eapply link_in_ext; [|exact Hin]. intros k. unfold only. by destruct (decide (k = 0%nat)).
Qed.

(** Forwarded, on link [j] to its member [t]. *)
Lemma route_forwards i d' table L j t link mt : at_router i d' table L -> (i < length C)%nat -> IPv4Datagram_ok d' ->
  route_of table d' = Some (j, (passed d', Address_v4 mt.2 0)) -> 1 < ih_ttl (id_header d') ->
  C !! j = Some link -> link !! t = Some mt ->
  exists L' p, route_links table L = Ok L' /\ (p = 1 \/ p = 3)%nat /\ net_with (under_way j 0 t (passed d') p) L'.
Proof.
  intros HA Hi Hd Hr Httl Hj Ht. pose proof HA as [A1 A2 A3 A4 A5]. destruct (link_at j link Hj) as [Hlink Hlen].
  destruct (lookup_lt_is_Some_2 L j) as [l Hl]; [rewrite A1; by eapply lookup_lt_Some|].
  destruct (lookup_lt_is_Some_2 (omap head L) j) as [a Ha]; [rewrite heads_length, A1 by done; by eapply lookup_lt_Some|].
  pose proof (head_at L j l a A2 Hl Ha) as El. rewrite El in Hl. pose proof (A5 j link a _ Hj Hl) as Hin.
  destruct link as [|m0 link']; [cbn in Hlen; lia|]. set (link := m0 :: link') in *.
  destruct (phase_send link Hlink 0 t (passed d') (a :: tail l) m0 mt a _ eq_refl Ht (set_ttl_ok d' Hd Httl) eq_refl Hin)
    as (a' & Es & Hout & p & Hp & Hph).
  exists (set_heads (popped i (<[j := a']> (omap head L))) L), p. split; [|split; [done|]].
  - apply (route_links_one i d' table L _ HA Hi).
    + unfold Router_route_one_datagram. unfold route_of, onward, entry_hop in Hr. destruct (_ <=? 1); [done|].
      cbn [id_header ih_dst IPv4Header_set_ttl]. destruct (Trie_longest_prefix_match _ _) as [e|]; [|done].
      injection Hr as Hnum Hhop. fold (passed d').
      assert (Router_send (MkRouter (omap head L) table) (en_interface_num e) (passed d') (Address_v4 mt.2 0) =
        Ok (MkRouter (<[j := a']> (omap head L)) table)) as E.
      { unfold Router_send. cbn [ro_interfaces ro_route_table]. by rewrite Hnum, Ha, Es. }
      destruct (en_next_hop e); cbn in Hhop; by rewrite Hhop.
    + intros k. unfold Router_queue. cbn [ro_interfaces]. destruct (decide (j = k)) as [<-|Hne].
      * rewrite list_lookup_insert_eq, Ha by (by eapply lookup_lt_Some). rewrite Hout. destruct (decide (j = i)) as [->|Hji].
        -- symmetry. exact (router_queue_at i d' table L a HA Ha).
        -- specialize (A4 j Hji). unfold Router_queue in A4. cbn [ro_interfaces] in A4. by rewrite Ha in A4.
      * by rewrite list_lookup_insert_ne.
  - apply net_set_heads; [done|unfold popped; rewrite length_alter, length_insert; by apply heads_length|].
    intros k lk b lb Hk Hb Hlb. unfold popped in Hb. rewrite list_lookup_alter in Hb. unfold under_way.
    destruct (decide (k = j)) as [->|Hkj].
    + assert (lk = link) as -> by congruence. assert (lb = a :: tail l) as -> by congruence. cbn [tail].
      destruct (decide (i = j)) as [<-|Hij]; rewrite list_lookup_insert_eq in Hb by (by eapply lookup_lt_Some); injection Hb as <-.
      * rewrite Hout, decide_True by done. exact Hph.
      * rewrite decide_False in Hout by done. destruct a' as [n' q']. cbn in Hout. subst q'. exact Hph.
    + destruct (decide (i = k)) as [<-|Hik]; rewrite list_lookup_insert_ne in Hb by done.
      * destruct (omap head L !! i) as [x|] eqn:Hx; [|done]. injection Hb as <-. rewrite (router_queue_at i d' table L x HA Hx).
        cbn [tail]. rewrite (head_at L i lb x A2 Hlb Hx) in Hlb. pose proof (A5 i lk x _ Hk Hlb) as Hq.
        rewrite decide_True in Hq by done. by apply pop_link in Hq.
      * rewrite (head_at L k lb b A2 Hlb Hb) in Hlb. pose proof (A5 k lk b _ Hk Hlb) as Hq. rewrite decide_False in Hq by done.
        eapply link_in_ext; [|exact Hq]. intros x. unfold only. by destruct (decide (x = 0%nat)).
Qed.

(** ** From host to host *)

Lemma rounds_settle table n rounds L L' : links_rounds table n L = Ok L' -> links_round table L' = Ok L' -> (n <= rounds)%nat ->
  links_rounds table rounds L = Ok L'.
Proof.
  intros Hn Hf Hle. replace rounds with (n + (rounds - n))%nat by lia. rewrite (links_rounds_app _ _ _ _ _ Hn).
  by apply links_rounds_fixed.
Qed.

(** The datagram goes to the router, and on to member [t] of link [j]. *)
Lemma star_delivers table rounds i s d p L j t link mt :
  net_with (under_way i s 0 d p) L -> s <> 0%nat -> (p <= 3)%nat -> (i < length C)%nat -> IPv4Datagram_ok d ->
  1 < ih_ttl (id_header d) -> route_of table d = Some (j, (passed d, Address_v4 mt.2 0)) ->
  C !! j = Some link -> link !! t = Some mt -> t <> 0%nat -> (6 <= rounds)%nat ->
  exists L' d', links_rounds table rounds L = Ok L' /\ alike d d' /\ IPv4Datagram_ok (passed d') /\
    net_with (under_way j 0 t (passed d') 0) L'.
Proof.
  intros HN Hs Hp Hi Hd Httl Hr Hj Ht Ht0 Hn.
  destruct (under_way_rounds table i s 0 d p L Hs Hd Hp HN) as (L1 & E1 & HN1).
  destruct (arrived_at_router i s d table L1 HN1 Hi) as (d' & Hsame & HA).
  pose proof (same_alike _ _ Hsame) as Hal. pose proof (same_ok _ _ Hd Hsame) as Hd'. destruct (alike_route _ _ Hal) as [Ettl Edst].
  assert (route_of table d' = Some (j, (passed d', Address_v4 mt.2 0))) as Hr'.
  { unfold route_of, onward, entry_hop in *. rewrite <- Ettl, <- Edst. destruct (_ <=? 1); [done|]. destruct (Trie_longest_prefix_match _ _); [|done].
    by injection Hr as <- <-. }
  destruct (route_forwards i d' table L1 j t link mt HA Hi Hd' Hr' ltac:(lia) Hj Ht) as (L2 & p2 & E2 & Hp2 & HN2).
  pose proof (set_ttl_ok d' Hd' ltac:(lia)) as Hok.
  destruct (under_way_step j 0 t (passed d') (pred p2) L2) as (L3 & E3 & HN3);
    [done|exact Hok|lia|by replace (S (pred p2)) with p2 by lia|].
  destruct (under_way_rounds table j 0 t (passed d') (pred p2) L3) as (L4 & E4 & HN4); [done|exact Hok|lia|done|].
  exists L4, d'. split_and!; [|done|done|done].
  apply (rounds_settle table (p + S (pred p2))); [|by eapply arrived_round|lia].
  rewrite (links_rounds_app _ _ _ _ _ E1). cbn [links_rounds]. unfold links_round at 1. rewrite E2. cbn [mbind result_bind].
  by rewrite E3.
Qed.

(** The datagram goes to the router, which drops it. *)
Lemma star_drops table rounds i s d p L :
  net_with (under_way i s 0 d p) L -> s <> 0%nat -> (p <= 3)%nat -> (i < length C)%nat -> IPv4Datagram_ok d ->
  route_of table d = None -> (4 <= rounds)%nat ->
  exists L', links_rounds table rounds L = Ok L' /\ net_with quiet L'.
Proof.
  intros HN Hs Hp Hi Hd Hr Hn.
  destruct (under_way_rounds table i s 0 d p L Hs Hd Hp HN) as (L1 & E1 & HN1).
  destruct (arrived_at_router i s d table L1 HN1 Hi) as (d' & Hsame & HA). pose proof (same_alike _ _ Hsame) as Hal.
  destruct (alike_route _ _ Hal) as [Ettl Edst].
  assert (route_of table d' = None) as Hr'.
  { unfold route_of, onward, entry_hop in *. rewrite <- Ettl, <- Edst. destruct (_ <=? 1); [done|]. by destruct (Trie_longest_prefix_match _ _). }
  destruct (route_drops i d' table L1 HA Hi Hr') as (L2 & E2 & HN2). exists L2. split; [|done].
  apply (rounds_settle table (p + 1)); [|by apply quiet_round|lia].
  rewrite (links_rounds_app _ _ _ _ _ E1). cbn [links_rounds]. unfold links_round. rewrite E2. cbn [mbind result_bind].
  rewrite (exchange_same quiet L2 HN2); [done|]. intros j link l _. apply quiet_exchange.
Qed.

(** A host sends. *)
Lemma host_sends i s d L link ms m0 l a :
  net_with quiet L -> C !! i = Some link -> link !! 0%nat = Some m0 -> link !! s = Some ms -> L !! i = Some l -> l !! s = Some a ->
  IPv4Datagram_ok d ->
  exists a' p, AsyncNetworkInterface_send_datagram a d (Address_v4 m0.2 0) = Ok a' /\ (p <= 3)%nat /\
    net_with (under_way i s 0 d p) (<[i := <[s := a']> l]> L).
Proof.
  intros HN Hi H0 Hs Hl Ha Hd. destruct (link_at i link Hi) as [Hlink _].
  pose proof (proj2 HN i link l Hi Hl) as Hq.
  destruct (phase_send link Hlink s 0 d l ms m0 a [] Hs H0 Hd Ha) as (a' & E & Hout & p & Hp & Hph).
  { eapply link_in_ext; [|exact Hq]. intros k. unfold only. by destruct (decide (k = s)). }
  exists a', p. split; [done|]. split; [lia|]. destruct a' as [n q]. cbn in Hout. subst q.
  split; [rewrite length_insert; apply HN|]. intros j link' l' Hj. rewrite list_lookup_insert_Some. unfold under_way.
  intros [(<- & <- & _)|[Hne Hl']].
  - rewrite decide_True by done. assert (link' = link) as -> by congruence. exact Hph.
  - rewrite decide_False by done. by apply (proj2 HN).
Qed.

End star.
