(* ===== verification/SimulatorRuns.v ===== *)
(** Runs of the network simulator (src/apps/network_simulator.cc).

    The network is a star of links around its router, so that the theorems of
    [Stars] say what its rounds do.  Theorem: whatever random numbers are drawn, the
    test of the simulator succeeds, unless two interfaces that share a link with a
    third one were given the same Ethernet address. *)

From stdpp Require Import gmap strings functions.
From S2P Require Import Prelude Texts WrappingIntegers Buffers Parsers TCPSegments IPv4Datagrams EthernetFrames Addresses.
From S2P Require Import NetworkInterfaces Routers Simulators Links Stars.

(** ** The network as links *)

Definition host_names : list string := ["applesauce"; "default_router"; "cherrypie"; "hs_router"; "dm42"; "dm43"]%string.

(** The hosts on the link of each interface of the router. *)
Definition topology : list (list string) :=
  [["default_router"]; ["applesauce"]; []; ["cherrypie"]; ["dm42"; "dm43"]; ["hs_router"]; []]%string.

Definition mk_hosts (f : string -> Host) : gmap string Host := list_to_map (map (fun x => (x, f x)) host_names).

Definition net (table : Trie) (ifs : list AsyncNetworkInterface) (f : string -> Host) : Network :=
  MkNetwork (MkRouter ifs table) 0 1 2 3 4 5 6 (mk_hosts f).

Definition links_of (ifs : list AsyncNetworkInterface) (f : string -> Host) : list (list AsyncNetworkInterface) :=
  zip_with (fun a names => a :: map (fun x => hs_interface (f x)) names) ifs topology.

(** The hosts are where their names say, and only their interfaces change. *)
Definition named (f : string -> Host) : Prop := forall x, x ∈ host_names -> hs_name (f x) = x.

Definition same_hosts (f f' : string -> Host) : Prop := forall x, f' x = Host_set_interface (f x) (hs_interface (f' x)).

Lemma names_nodup : NoDup host_names.
Proof. by apply (bool_decide_unpack _). Qed.

Lemma mk_hosts_lookup f x : mk_hosts f !! x = if decide (x ∈ host_names) then Some (f x) else None.
Proof.
  unfold mk_hosts. destruct (decide (x ∈ host_names)) as [Hx|Hx].
  - apply elem_of_list_to_map_1.
    + rewrite map_map. cbn [fst]. rewrite map_id. apply names_nodup.
    + apply list_elem_of_fmap. by exists x.
  - apply not_elem_of_list_to_map_1. intros H. apply Hx. apply list_elem_of_fmap in H as ([y h] & -> & Hy).
    by apply list_elem_of_fmap in Hy as (z & [= -> ->] & Hz).
Qed.

Lemma mk_hosts_insert f x h : x ∈ host_names -> <[x := h]> (mk_hosts f) = mk_hosts (<[x := h]> f).
Proof.
  intros Hx. apply map_eq. intros y. rewrite mk_hosts_lookup. destruct (decide (x = y)) as [<-|Hne].
  - by rewrite lookup_insert_eq, decide_True, fn_lookup_insert by done.
  - by rewrite lookup_insert_ne, mk_hosts_lookup, fn_lookup_insert_ne by done.
Qed.

Lemma net_host table ifs f x : named f -> x ∈ host_names -> Network_host (net table ifs f) x = Ok (f x).
Proof.
  intros Hf Hx. unfold Network_host, net. cbn [nw_hosts]. rewrite mk_hosts_lookup, decide_True by done.
  rewrite bool_decide_eq_true_2 by (by apply Hf). done.
Qed.

Lemma net_set_host table ifs f x h : x ∈ host_names -> Network_set_host (net table ifs f) x h = net table ifs (<[x := h]> f).
Proof. intros Hx. unfold net. by rewrite <- mk_hosts_insert. Qed.

Lemma same_hosts_refl f : same_hosts f f.
Proof. intros x. by destruct (f x). Qed.

Lemma same_hosts_trans f1 f2 f3 : same_hosts f1 f2 -> same_hosts f2 f3 -> same_hosts f1 f3.
Proof. intros H1 H2 x. rewrite (H2 x), (H1 x). reflexivity. Qed.

Lemma same_hosts_named f f' : same_hosts f f' -> named f -> named f'.
Proof. intros H Hf x Hx. rewrite (H x). by apply Hf. Qed.

Lemma same_hosts_insert f x b : same_hosts f (<[x := Host_set_interface (f x) b]> f).
Proof.
  intros y. destruct (decide (x = y)) as [<-|Hne]; [by rewrite !fn_lookup_insert|].
  rewrite !fn_lookup_insert_ne by done. by destruct (f y).
Qed.

(** ** Rounds *)

Lemma connect_two_net table ifs f i id name a a' b' :
  ifs !! i = Some a -> id = Z.of_nat i -> name ∈ host_names -> named f ->
  exchange_frames a (hs_interface (f name)) = Ok (a', b') ->
  connect_two (net table ifs f) id name = Ok (net table (<[i := a']> ifs) (<[name := Host_set_interface (f name) b']> f)).
Proof.
  intros Ha -> Hx Hf E. unfold connect_two, Router_interface. cbn [nw_router net ro_interfaces]. rewrite Nat2Z.id, Ha.
  cbn [mbind result_bind]. rewrite net_host by done. cbn [mbind result_bind]. rewrite E. cbn [mbind result_bind].
  unfold Router_set_interface. cbn [ro_interfaces ro_route_table]. rewrite Nat2Z.id.
  change (Network_set_router (net table ifs f) _) with (net table (<[i := a']> ifs) f). by rewrite net_set_host.
Qed.

Lemma connect_three_net table ifs f i id name1 name2 a a' b' c' :
  ifs !! i = Some a -> id = Z.of_nat i -> name1 ∈ host_names -> name2 ∈ host_names -> named f ->
  exchange_frames3 a (hs_interface (f name1)) (hs_interface (f name2)) = Ok (a', b', c') ->
  connect_three (net table ifs f) id name1 name2 =
    Ok (net table (<[i := a']> ifs)
          (<[name2 := Host_set_interface (f name2) c']> (<[name1 := Host_set_interface (f name1) b']> f))).
Proof.
  intros Ha -> Hx Hy Hf E. unfold connect_three, Router_interface. cbn [nw_router net ro_interfaces]. rewrite Nat2Z.id, Ha.
  cbn [mbind result_bind]. rewrite !net_host by done. cbn [mbind result_bind]. rewrite E. cbn [mbind result_bind].
  unfold Router_set_interface. cbn [ro_interfaces ro_route_table]. rewrite Nat2Z.id.
  change (Network_set_router (net table ifs f) _) with (net table (<[i := a']> ifs) f). by rewrite !net_set_host.
Qed.

Lemma in_names x : bool_decide (x ∈ host_names) = true -> x ∈ host_names.
Proof. apply bool_decide_eq_true. Qed.

#[local] Open Scope string_scope.
#[local] Open Scope list_scope.
#[local] Open Scope Z_scope.

#[local] Hint Extern 1 (_ ∈ host_names) => apply in_names; reflexivity : core.

Lemma physical_net table ifs f L' : length ifs = 7%nat -> named f -> mapM exchange (links_of ifs f) = Ok L' ->
  exists ifs' f', Network_simulate_physical_connections (net table ifs f) = Ok (net table ifs' f') /\
    length ifs' = 7%nat /\ same_hosts f f' /\ links_of ifs' f' = L'.
Proof.
  intros Hlen Hf. destruct ifs as [|r0 [|r1 [|r2 [|r3 [|r4 [|r5 [|r6 [|]]]]]]]]; try done. clear Hlen.
  cbn [links_of zip_with topology map mapM exchange]. unfold mbind, mret, result_bind, result_ret.
  destruct (exchange_frames r0 _) as [[r0' b0]|] eqn:E0; [|done].
  destruct (exchange_frames r1 _) as [[r1' b1]|] eqn:E1; [|done].
  destruct (exchange_frames r3 _) as [[r3' b3]|] eqn:E3; [|done].
  destruct (exchange_frames3 r4 _ _) as [[[r4' b4] c4]|] eqn:E4; [|done].
  destruct (exchange_frames r5 _) as [[r5' b5]|] eqn:E5; [|done]. intros [= <-].
  unfold Network_simulate_physical_connections.
  erewrite (connect_two_net _ _ _ 0); [|done|done|auto|done|exact E0]. cbn [mbind result_bind nw_eth0_id net].
  set (f0 := <[_ := _]> f). assert (same_hosts f f0) as S0 by apply same_hosts_insert.
  erewrite (connect_two_net _ _ f0 1); [|done|done|auto|by eapply same_hosts_named|exact E1]. cbn [mbind result_bind nw_eth2_id net].
  set (f1 := <[_ := _]> f0). assert (same_hosts f f1) as S1 by (eapply same_hosts_trans, same_hosts_insert; done).
  erewrite (connect_two_net _ _ f1 3); [|done|done|auto|by eapply same_hosts_named|exact E3]. cbn [mbind result_bind nw_hs4_id net].
  set (f3 := <[_ := _]> f1). assert (same_hosts f f3) as S3 by (eapply same_hosts_trans, same_hosts_insert; done).
  erewrite (connect_two_net _ _ f3 5); [|done|done|auto|by eapply same_hosts_named|exact E5]. cbn [mbind result_bind nw_uun3_id net].
  set (f5 := <[_ := _]> f3). assert (same_hosts f f5) as S5 by (eapply same_hosts_trans, same_hosts_insert; done).
  erewrite (connect_three_net _ _ f5 4); [|done|done|auto|auto|by eapply same_hosts_named|exact E4].
  eexists _, _. split; [reflexivity|]. split; [done|]. split; [|reflexivity].
  eapply same_hosts_trans; [exact S5|].
  eapply same_hosts_trans; [apply (same_hosts_insert f5 "dm42" b4)|].
  exact (same_hosts_insert (<["dm42" := Host_set_interface (f5 "dm42") b4]> f5) "dm43" c4).
Qed.

(** Routing leaves the table alone and keeps the interfaces. *)
Lemma route_queue_shape fuel i r r' : route_queue fuel i r = Ok r' ->
  ro_route_table r' = ro_route_table r /\ length (ro_interfaces r') = length (ro_interfaces r).
Proof.
  revert r. induction fuel as [|fuel IH]; intros r; cbn [route_queue]; [by intros [= <-]|].
  destruct (Router_queue r i) as [|d q]; [by intros [= <-]|].
  destruct (Router_route_one_datagram r d) as [r1|e] eqn:E; [|done]. cbn [mbind result_bind]. intros H. apply IH in H as [H1 H2].
  assert (ro_route_table r1 = ro_route_table r /\ length (ro_interfaces r1) = length (ro_interfaces r)) as [E1 E2].
  { assert (forall j d hop, Router_send r j d hop = Ok r1 ->
      ro_route_table r1 = ro_route_table r /\ length (ro_interfaces r1) = length (ro_interfaces r)) as Hs.
    { intros j d1 hop. unfold Router_send. destruct (ro_interfaces r !! _) as [a|]; [|done].
      destruct (AsyncNetworkInterface_send_datagram a d1 hop); [|done]. intros [= <-]. cbn. by rewrite length_insert. }
    unfold Router_route_one_datagram in E. destruct (_ <=? 1); [by injection E as <-|].
    destruct (Trie_longest_prefix_match _ _) as [en|]; [|by injection E as <-].
    destruct (en_next_hop en); by apply Hs in E. }
  cbn in H1, H2. rewrite length_alter in H2. split; congruence.
Qed.

Lemma route_shape r r' : Router_route r = Ok r' ->
  ro_route_table r' = ro_route_table r /\ length (ro_interfaces r') = length (ro_interfaces r).
Proof.
  unfold Router_route. generalize (seq 0 (length (ro_interfaces r))). intros todo. revert r.
  induction todo as [|i todo IH]; intros r; cbn [route_from]; [by intros [= <-]|].
  destruct (route_queue _ i r) as [r1|e] eqn:E; [|done]. cbn [mbind result_bind]. intros H.
  apply route_queue_shape in E as [E1 E2]. apply IH in H as [H1 H2]. split; congruence.
Qed.

Lemma round_net table ifs f L' : length ifs = 7%nat -> named f -> links_round table (links_of ifs f) = Ok L' ->
  exists ifs' f', Network_round (net table ifs f) = Ok (net table ifs' f') /\
    length ifs' = 7%nat /\ same_hosts f f' /\ links_of ifs' f' = L'.
Proof.
  intros Hlen Hf. unfold links_round, route_links.
  assert (omap head (links_of ifs f) = ifs) as ->.
  { by destruct ifs as [|r0 [|r1 [|r2 [|r3 [|r4 [|r5 [|r6 [|]]]]]]]]. }
  destruct (Router_route (MkRouter ifs table)) as [r|e] eqn:Er; [|done]. cbn [mbind result_bind].
  destruct (route_shape _ _ Er) as [Et El]. cbn [ro_route_table ro_interfaces] in Et, El. rewrite Hlen in El.
  assert (set_heads (ro_interfaces r) (links_of ifs f) = links_of (ro_interfaces r) f) as ->.
  { destruct ifs as [|r0 [|r1 [|r2 [|r3 [|r4 [|r5 [|r6 [|]]]]]]]]; try done.
    by destruct (ro_interfaces r) as [|s0 [|s1 [|s2 [|s3 [|s4 [|s5 [|s6 [|]]]]]]]]. }
  intros H. destruct (physical_net table (ro_interfaces r) f L' El Hf H) as (ifs' & f' & E & H1 & H2 & H3).
  exists ifs', f'. split_and!; [|done..]. unfold Network_round. cbn [nw_router net]. rewrite Er. cbn [mbind result_bind].
  rewrite <- E. destruct r as [ri rt]. cbn in Et. by subst rt.
Qed.

Lemma rounds_net table n ifs f L' : length ifs = 7%nat -> named f -> links_rounds table n (links_of ifs f) = Ok L' ->
  exists ifs' f', Network_rounds n (net table ifs f) = Ok (net table ifs' f') /\
    length ifs' = 7%nat /\ same_hosts f f' /\ links_of ifs' f' = L'.
Proof.
  revert ifs f. induction n as [|n IH]; intros ifs f Hlen Hf; cbn [links_rounds Network_rounds].
  { intros [= <-]. exists ifs, f. split_and!; try done. apply same_hosts_refl. }
  destruct (links_round table (links_of ifs f)) as [L1|e] eqn:E; [|done]. cbn [mbind result_bind]. intros H.
  destruct (round_net table ifs f L1 Hlen Hf E) as (ifs1 & f1 & E1 & Hlen1 & Hs1 & <-). rewrite E1. cbn [mbind result_bind].
  destruct (IH ifs1 f1 Hlen1 (same_hosts_named _ _ Hs1 Hf) H) as (ifs2 & f2 & E2 & Hlen2 & Hs2 & H2).
  exists ifs2, f2. split_and!; try done. by eapply same_hosts_trans.
Qed.

(** ** The checks *)

Lemma check_hosts_ok names (m : gmap string Host) g : NoDup names ->
  (forall x h, x ∈ names -> m !! x = Some h -> Host_check h = Ok (g x)) ->
  exists m', check_hosts names m = Ok m' /\
    forall y, m' !! y = if decide (y ∈ names) then (fun _ => g y) <$> m !! y else m !! y.
Proof.
  intros Hnd. revert m. induction Hnd as [|x names Hx Hnd IH]; intros m Hg; cbn [check_hosts]; [by exists m|].
  assert (forall m' : gmap string Host, (forall y, y <> x -> m' !! y = m !! y) -> forall y h, y ∈ names -> m' !! y = Some h -> Host_check h = Ok (g y)) as Hrest.
  { intros m' Hm' y h Hy Hh. apply Hg; [by apply list_elem_of_further|]. rewrite <- Hh. symmetry. apply Hm'. by intros ->. }
  destruct (m !! x) as [h|] eqn:Hm.
  - rewrite (Hg x h) by (done || apply list_elem_of_here). cbn [mbind result_bind].
    destruct (IH (<[x := g x]> m)) as (m' & -> & Hm').
    { apply Hrest. intros y Hy. by rewrite lookup_insert_ne. }
    exists m'. split; [done|]. intros y. rewrite Hm'. destruct (decide (y = x)) as [->|Hne].
    + rewrite decide_False, decide_True, lookup_insert_eq, Hm by (done || apply list_elem_of_here). done.
    + rewrite lookup_insert_ne by done. destruct (decide (y ∈ names)) as [Hy|Hy].
      * by rewrite decide_True by by apply list_elem_of_further.
      * rewrite decide_False; [done|]. by intros [?|?]%elem_of_cons.
  - destruct (IH m) as (m' & -> & Hm'); [by apply Hrest|]. exists m'. split; [done|]. intros y. rewrite Hm'.
    destruct (decide (y ∈ names)) as [Hy|Hy]; [by rewrite decide_True by by apply list_elem_of_further|].
    destruct (decide (y ∈ x :: names)) as [Hy'|]; [|done]. apply elem_of_cons in Hy' as [->|?]; [|done]. by rewrite Hm.
Qed.

Lemma check_net table ifs f g : (forall x, x ∈ host_names -> Host_check (f x) = Ok (g x)) ->
  (hosts ← check_hosts (map fst (map_to_list (mk_hosts f))) (mk_hosts f);
   Ok (Network_set_hosts (net table ifs f) hosts)) = Ok (net table ifs g).
Proof.
  intros Hg. destruct (check_hosts_ok (map fst (map_to_list (mk_hosts f))) (mk_hosts f) g) as (m' & -> & Hm').
  - apply NoDup_fst_map_to_list.
  - intros x h _. rewrite mk_hosts_lookup. destruct (decide (x ∈ host_names)); [|done]. intros [= <-]. by apply Hg.
  - cbn [mbind result_bind]. assert (m' = mk_hosts g) as ->; [|done]. apply map_eq. intros y. rewrite Hm', !mk_hosts_lookup.
    destruct (decide (y ∈ host_names)) as [Hy|Hy]; [|by destruct (decide _)]. rewrite decide_True; [done|].
    apply list_elem_of_fmap. exists (y, f y). split; [done|]. apply elem_of_map_to_list. by rewrite mk_hosts_lookup, decide_True.
Qed.

(** ** Where the hosts are *)

Definition ip_of (x : string) : Z :=
  if String.eqb x "applesauce" then quad 10 0 0 2
  else if String.eqb x "default_router" then quad 171 67 76 1
  else if String.eqb x "cherrypie" then quad 192 168 0 2
  else if String.eqb x "hs_router" then quad 143 195 0 1
  else if String.eqb x "dm42" then quad 198 178 229 42
  else quad 198 178 229 43.

(** The link of a host, and its place there. *)
Definition place (x : string) : nat * nat :=
  if String.eqb x "applesauce" then (1, 1)%nat
  else if String.eqb x "default_router" then (0, 1)%nat
  else if String.eqb x "cherrypie" then (3, 1)%nat
  else if String.eqb x "hs_router" then (5, 1)%nat
  else if String.eqb x "dm42" then (4, 1)%nat
  else (4, 2)%nat.

Definition router_ips : list Z :=
  [quad 171 67 76 46; quad 10 0 0 1; quad 172 16 0 1; quad 192 168 0 1; quad 198 178 229 1; quad 143 195 0 2;
   quad 128 30 76 255].

(** The hosts whose next hop is the router. *)
Definition hop_of (x : string) : Z :=
  if String.eqb x "default_router" then 0 else if String.eqb x "hs_router" then 0
  else nth (place x).1 router_ips 0.

Ltac each_host Hx := repeat (apply elem_of_cons in Hx as [->|Hx]); [..|by apply elem_of_nil in Hx].

Lemma place_inj x y : x ∈ host_names -> y ∈ host_names -> place x = place y -> x = y.
Proof. intros Hx Hy. each_host Hx; each_host Hy; (done || discriminate). Qed.

Section tests.
Context (me : nat -> EthernetAddress) (he : string -> EthernetAddress).

(** The members of the links. *)
Definition members : list (list member) :=
  imap (fun i names => (me i, nth i router_ips 0) :: map (fun x => (he x, ip_of x)) names) topology.

Context (Hmembers : Forall (fun link => link_ok link /\ (1 <= length link <= 3)%nat) members).

(** A host in the links and in the members. *)
Record placed (ifs : list AsyncNetworkInterface) (f : string -> Host) (x : string) (i s : nat)
    (link : list member) (l : list AsyncNetworkInterface) : Prop := {
  pl_link : members !! i = Some link;
  pl_links : links_of ifs f !! i = Some l;
  pl_router : link !! 0%nat = Some (me i, nth i router_ips 0);
  pl_member : link !! s = Some (he x, ip_of x);
  pl_host : l !! s = Some (hs_interface (f x));
  pl_nonzero : s <> 0%nat;
  pl_set : forall a, links_of ifs (<[x := Host_set_interface (f x) a]> f) = <[i := <[s := a]> l]> (links_of ifs f)
}.

Lemma placed_host ifs f x i s : x ∈ host_names -> length ifs = 7%nat -> place x = (i, s) ->
  exists link l, placed ifs f x i s link l.
Proof.
  intros Hx Hlen. destruct ifs as [|r0 [|r1 [|r2 [|r3 [|r4 [|r5 [|r6 [|]]]]]]]]; try done.
  each_host Hx; intros [= <- <-]; eexists _, _; split; try reflexivity; done.
Qed.

Lemma links_of_ext ifs f f' : (forall x, hs_interface (f' x) = hs_interface (f x)) -> links_of ifs f' = links_of ifs f.
Proof.
  intros H. unfold links_of. generalize topology. induction ifs as [|a ifs IH]; intros [|names T]; cbn; [done..|].
  rewrite IH. do 2 f_equal. apply map_ext. exact H.
Qed.

(** The network between two tests. *)
Record ready (table : Trie) (n : Network) (ifs : list AsyncNetworkInterface) (f : string -> Host) : Prop := {
  rn_net : n = net table ifs f;
  rn_length : length ifs = 7%nat;
  rn_named : named f;
  rn_address : forall x, x ∈ host_names -> hs_my_address (f x) = Address_v4 (ip_of x) 0;
  rn_hop : forall x, x ∈ host_names -> hs_next_hop (f x) = Address_v4 (hop_of x) 0;
  rn_expecting : forall x, x ∈ host_names -> hs_expecting_to_receive (f x) = [];
  rn_quiet : net_with members quiet (links_of ifs f)
}.

(** The datagram of [send_to]. *)
Lemma decimal_length fuel n acc : zlen (decimal_digits fuel n acc) <= Z.of_nat fuel + zlen acc.
Proof.
  revert n acc. induction fuel as [|fuel IH]; intros n acc; cbn [decimal_digits]; [lia|].
  destruct (n <? 10); [unfold zlen; cbn [length]; lia|]. etrans; [apply IH|]. unfold zlen. cbn [length]. lia.
Qed.

Lemma send_to_datagram rd h src dst ttl : hs_my_address h = Address_v4 src 0 -> 0 <= src < 2 ^ 32 -> 0 <= dst < 2 ^ 32 ->
  0 <= ttl < 256 ->
  exists d rd', IPv4Datagram_ok d /\ ih_ttl (id_header d) = ttl /\ ih_dst (id_header d) = dst /\
    forall a, AsyncNetworkInterface_send_datagram (hs_interface h) d (hs_next_hop h) = Ok a ->
      Host_send_to rd h (Address_v4 dst 0) ttl = Ok (d, Host_set_interface h a, rd').
Proof.
  intros Ha Hs Hd Ht. unfold Host_send_to. rewrite Ha, !Address_v4_numeric by done. cbn [mbind result_bind].
  destruct (draw rd) as [number rd']. set (str := _ ++ decimal number ++ _).
  assert (zlen str < 100) as Hlen.
  { unfold str. rewrite !zlen_app. pose proof (decimal_length 20 number []) as H.
    change (zlen (@nil Z)) with 0 in H. change (decimal_digits 20 number []) with (decimal number) in H.
    change (zlen (string_bytes "random payload: {")) with 17. change (zlen (string_bytes "}")) with 1. lia. }
  pose proof (zlen_nonneg str) as Hpos.
  assert (flatten (BufferList_of_string str) = str) as Hfl.
  { unfold BufferList_of_string. cbn [app]. rewrite flatten_cons, Buffer_of_string_str by lia. apply app_nil_r. }
  eexists _, rd'. split; [|split; [|split; [|intros a ->; reflexivity]]]; [|reflexivity..].
  assert (u16 (ih_hlen IPv4Header_default * 4 + BufferList_size (BufferList_of_string str)) = 20 + zlen str) as El.
  { rewrite BufferList_size_flatten, Hfl by (rewrite Hfl; lia). change (ih_hlen IPv4Header_default * 4) with 20. apply u16_small. lia. }
  split; cbn [id_header id_payload].
  - split; cbn [IPv4Header_set_ttl IPv4Header_set_route ih_ver ih_hlen ih_tos ih_len ih_id ih_offset ih_ttl ih_proto ih_cksum ih_src ih_dst];
      try done; try (cbn; lia). rewrite El. lia.
  - rewrite Hfl. cbn [IPv4Header_set_ttl IPv4Header_set_route ih_len ih_hlen]. rewrite El. change (ih_hlen IPv4Header_default) with 5. lia.
Qed.

Lemma ip_of_range x : 0 <= ip_of x < 2 ^ 32.
Proof. unfold ip_of, quad. repeat destruct (String.eqb _ _); lia. Qed.

(** A host sends a datagram to the router. *)
Lemma host_sends_to table n ifs f rd from dst ttl i s :
  ready table n ifs f -> from ∈ host_names -> place from = (i, s) -> hop_of from = nth i router_ips 0 ->
  0 <= dst < 2 ^ 32 -> 0 <= ttl < 256 ->
  exists d rd' a p, IPv4Datagram_ok d /\ ih_ttl (id_header d) = ttl /\ ih_dst (id_header d) = dst /\
    Host_send_to rd (f from) (Address_v4 dst 0) ttl = Ok (d, Host_set_interface (f from) a, rd') /\ (p <= 3)%nat /\
    net_with members (under_way i s 0 d p) (links_of ifs (<[from := Host_set_interface (f from) a]> f)).
Proof.
  intros [_ Hlen _ Haddr Hhop _ Hq] Hx Hp Hr Hdst Httl.
  destruct (send_to_datagram rd (f from) (ip_of from) dst ttl (Haddr _ Hx) (ip_of_range _) Hdst Httl)
    as (d & rd' & Hd & H1 & H2 & Hsend).
  destruct (placed_host ifs f from i s Hx Hlen Hp) as (link & l & [P1 P2 P3 P4 P5 P6 P7]).
  destruct (host_sends members Hmembers i s d (links_of ifs f) link _ _ l _ Hq P1 P3 P4 P2 P5 Hd) as (a & p & E & Hp3 & HN).
  exists d, rd', a, p. split_and!; try done; [|by rewrite P7]. apply Hsend. by rewrite (Hhop _ Hx), Hr.
Qed.

(** ** After the rounds *)

(** All that the interfaces hold is what the hosts have received. *)
Definition received_only (j : nat) (link : list member) (l : list AsyncNetworkInterface) : Prop :=
  exists g, link_in link (fun k => MkStatus None [] [] (g k)) l /\ g 0%nat = [].

Lemma quiet_received j link l : quiet j link l -> received_only j link l.
Proof. intros H. by exists (fun _ => []). Qed.

Lemma arrived_received i s t d j link l : t <> 0%nat -> under_way i s t d 0 j link l -> received_only j link l.
Proof.
  intros Ht. unfold under_way. destruct (decide (j = i)); [|apply quiet_received]. intros (ms & mt & _ & _ & d' & _ & H).
  exists (fun k => if decide (k = t) then [d'] else []). split; [|by rewrite decide_False].
  eapply link_in_ext; [|exact H]. intros k. unfold only. by destruct (decide (k = t)).
Qed.

Lemma checked_quiet ifs f : length ifs = 7%nat -> net_with members received_only (links_of ifs f) ->
  net_with members quiet (links_of ifs (fun x => checked (f x))).
Proof.
  intros Hlen [HL H].
  assert (links_of ifs (fun x => checked (f x)) =
    map (fun l => match l with [] => [] | a :: l => a :: map (fun a => MkAsyncNetworkInterface (an_interface a) []) l end) (links_of ifs f)) as ->.
  { by destruct ifs as [|r0 [|r1 [|r2 [|r3 [|r4 [|r5 [|r6 [|]]]]]]]]. }
  split; [by rewrite length_map|]. intros j link l Hj Hl. apply list_lookup_fmap_Some in Hl as (l0 & -> & Hl0).
  destruct (H j link l0 Hj Hl0) as (g & [Hlen0 Hg] & Hg0). destruct l0 as [|a l0]; [done|].
  split; [cbn in *; by rewrite length_map|]. intros [|k] m b Hm Hb; cbn in Hb.
  - injection Hb as <-. pose proof (Hg 0%nat m a Hm eq_refl) as HI. by rewrite Hg0 in HI.
  - apply list_lookup_fmap_Some in Hb as (b0 & -> & Hb0). destruct (Hg (S k) m b0 Hm Hb0) as [I1 I2 I3 I4 I5 I6 I7 I8]. by split.
Qed.

(** What a host has received. *)
Lemma host_status ifs f (P : nat -> list member -> list AsyncNetworkInterface -> Prop) x i s :
  net_with members P (links_of ifs f) -> x ∈ host_names -> length ifs = 7%nat -> place x = (i, s) ->
  exists link l, P i link l /\ link !! s = Some (he x, ip_of x) /\ l !! s = Some (hs_interface (f x)).
Proof.
  intros HN Hx Hlen Hp. destruct (placed_host ifs f x i s Hx Hlen Hp) as (link & l & [P1 P2 P3 P4 P5 P6 P7]).
  exists link, l. split_and!; try done. by apply (proj2 HN).
Qed.

Lemma check_empty h : an_datagrams_out (hs_interface h) = [] -> hs_expecting_to_receive h = [] -> Host_check h = Ok (checked h).
Proof. intros H1 H2. unfold Host_check. by rewrite H1, H2. Qed.

Lemma checks_quiet ifs f : length ifs = 7%nat -> net_with members quiet (links_of ifs f) ->
  (forall x, x ∈ host_names -> hs_expecting_to_receive (f x) = []) ->
  forall x, x ∈ host_names -> Host_check (f x) = Ok (checked (f x)).
Proof.
  intros Hlen HN He x Hx. apply check_empty; [|by apply He]. destruct (place x) as [i s] eqn:Hp.
  destruct (host_status ifs f _ x i s HN Hx Hlen Hp) as (link & l & Hq & Hm & Ha).
  by rewrite (if_got _ _ _ _ (proj2 Hq s _ _ Hm Ha)).
Qed.

Lemma checks_arrived ifs f i s t d d2 name : length ifs = 7%nat -> net_with members (under_way i s t d 0) (links_of ifs f) ->
  name ∈ host_names -> place name = (i, t) -> IPv4Datagram_ok d -> IPv4Datagram_ok d2 -> alike d d2 ->
  (forall x, x ∈ host_names -> hs_expecting_to_receive (f x) = if decide (x = name) then [d2] else []) ->
  forall x, x ∈ host_names -> Host_check (f x) = Ok (checked (f x)).
Proof.
  intros Hlen HN Hn Hpn Hd Hd2 Hal He x Hx. destruct (place x) as [j k] eqn:Hp.
  destruct (host_status ifs f _ x j k HN Hx Hlen Hp) as (link & l & Hw & Hm & Ha). specialize (He x Hx). unfold under_way in Hw.
  destruct (decide (x = name)) as [->|Hne].
  - assert (j = i /\ k = t) as [-> ->] by (rewrite Hpn in Hp; by injection Hp). rewrite decide_True in Hw by done.
    destruct Hw as (ms & mt & _ & _ & d' & Hsame & Hin). pose proof (if_got _ _ _ _ (proj2 Hin t _ _ Hm Ha)) as Hgot.
    rewrite only_eq in Hgot. cbn in Hgot. pose proof (same_ok _ _ Hd Hsame) as Hd'.
    destruct (host_check_spec (f name)) as [[_ H]|[H _]]; [rewrite ?Hgot, ?He..|exact H|].
    + apply Forall_singleton. eexists. by apply wire_ok.
    + apply Forall_singleton. eexists. by apply wire_ok.
    + destruct H. rewrite Hgot, He. cbn. rewrite (alike_wire d2 d'); [done..|].
      rewrite <- Hal. by apply same_alike.
  - apply check_empty; [|done]. destruct (decide (j = i)) as [->|Hji].
    + destruct Hw as (ms & mt & _ & _ & d' & _ & Hin). rewrite (if_got _ _ _ _ (proj2 Hin k _ _ Hm Ha)).
      rewrite only_ne; [done|]. intros ->. apply Hne. apply place_inj; [done..|]. congruence.
    + by rewrite (if_got _ _ _ _ (proj2 Hw k _ _ Hm Ha)).
Qed.

(** ** The tests *)

Definition kept_hosts (f f' : string -> Host) : Prop := forall x,
  hs_name (f' x) = hs_name (f x) /\ hs_my_address (f' x) = hs_my_address (f x) /\ hs_next_hop (f' x) = hs_next_hop (f x).

Lemma kept_named f f' : kept_hosts f f' -> named f -> named f'.
Proof. intros H Hf x Hx. destruct (H x) as (-> & _ & _). by apply Hf. Qed.

Lemma same_kept f f' : same_hosts f f' -> kept_hosts f f'.
Proof. intros H x. by rewrite (H x). Qed.

Lemma kept_hosts_trans f1 f2 f3 : kept_hosts f1 f2 -> kept_hosts f2 f3 -> kept_hosts f1 f3.
Proof. intros H1 H2 x. destruct (H1 x) as (<- & <- & <-). apply H2. Qed.

Lemma kept_insert f x h : hs_name h = hs_name (f x) -> hs_my_address h = hs_my_address (f x) ->
  hs_next_hop h = hs_next_hop (f x) -> kept_hosts f (<[x := h]> f).
Proof.
  intros H1 H2 H3 y. destruct (decide (x = y)) as [<-|Hne]; [by rewrite fn_lookup_insert|by rewrite fn_lookup_insert_ne].
Qed.

(** [simulate()], when the rounds and the checks are known to succeed. *)
Lemma simulate_ready table n ifs f ifs1 f1 L' :
  ready table n ifs f -> kept_hosts f f1 -> length ifs1 = 7%nat -> links_rounds table 256 (links_of ifs1 f1) = Ok L' ->
  net_with members received_only L' ->
  (forall ifs' f', length ifs' = 7%nat -> same_hosts f1 f' -> links_of ifs' f' = L' ->
     forall x, x ∈ host_names -> Host_check (f' x) = Ok (checked (f' x))) ->
  exists n' ifs' f', Network_simulate (net table ifs1 f1) = Ok n' /\ ready table n' ifs' f'.
Proof.
  intros [_ _ R3 R4 R5 _ _] Hk Hlen Hr HN Hc.
  destruct (rounds_net table 256 ifs1 f1 L' Hlen (kept_named _ _ Hk R3) Hr) as (ifs' & f' & E & Hlen' & Hs & HL).
  assert (kept_hosts f f') as Hk' by (eapply kept_hosts_trans, same_kept; done).
  exists (net table ifs' (fun x => checked (f' x))), ifs', (fun x => checked (f' x)). split.
  - unfold Network_simulate. rewrite E. cbn [mbind result_bind]. apply check_net. by apply (Hc ifs').
  - split; [done|done| | | |done|by apply checked_quiet; rewrite ?HL].
    + intros x Hx. cbn. destruct (Hk' x) as (-> & _ & _). by apply R3.
    + intros x Hx. cbn. destruct (Hk' x) as (_ & -> & _). by apply R4.
    + intros x Hx. cbn. destruct (Hk' x) as (_ & _ & ->). by apply R5.
Qed.

(** A datagram that should arrive does. *)
Lemma test_delivers table n ifs f rd from name dst ttl i s j t e :
  ready table n ifs f -> from ∈ host_names -> name ∈ host_names -> place from = (i, s) -> place name = (j, t) ->
  hop_of from = nth i router_ips 0 -> 0 <= dst < 2 ^ 32 -> 1 < ttl < 256 ->
  Trie_longest_prefix_match table dst = Some e -> en_interface_num e = Z.of_nat j ->
  default (Address_from_ipv4_numeric dst) (en_next_hop e) = Address_v4 (ip_of name) 0 ->
  exists n' rd' ifs' f', test_traffic rd n from (Ok (Address_v4 dst 0)) ttl (Some name) = Ok (n', rd') /\ ready table n' ifs' f'.
Proof.
  intros HR Hx Hy Hpx Hpy Hhop Hdst Httl Hm Hnum He. pose proof HR as [-> Hlen R3 R4 R5 R6 R7].
  destruct (host_sends_to table _ ifs f rd from dst ttl i s HR Hx Hpx Hhop Hdst ltac:(lia))
    as (d & rd' & a & p & Hd & H1 & H2 & Hsend & Hp & HN).
  set (f1 := <[from := Host_set_interface (f from) a]> f) in *. set (f2 := <[name := Host_expect (f1 name) (passed d)]> f1).
  assert (kept_hosts f f1) as K1 by by apply kept_insert. assert (kept_hosts f f2) as K2 by by eapply kept_hosts_trans, kept_insert.
  assert (links_of ifs f2 = links_of ifs f1) as EL.
  { apply links_of_ext. intros x. unfold f2. destruct (decide (name = x)) as [<-|Hne]; [by rewrite fn_lookup_insert|by rewrite fn_lookup_insert_ne]. }
  destruct (placed_host ifs f name j t Hy Hlen Hpy) as (link & l & [P1 P2 P3 P4 P5 P6 P7]).
  destruct (placed_host ifs f from i s Hx Hlen Hpx) as (linkx & lx & [Q1 Q2 Q3 Q4 Q5 Q6 Q7]).
  destruct (star_delivers members Hmembers table 256 i s d p (links_of ifs f1) j t link (he name, ip_of name))
    as (L' & d' & EL' & Hal & Hok & HN'); try done; [by eapply lookup_lt_Some|lia| |lia|].
  { unfold route_of, onward, entry_hop. rewrite H1, H2, Hm. cbn [mbind option_bind]. rewrite Hnum, Nat2Z.id, He.
    by destruct (Z.leb_spec ttl 1); [lia|]. }
  destruct (simulate_ready table _ ifs f ifs f2 L' HR K2 Hlen) as (n' & ifs' & f' & ES & HR'); [by rewrite EL| | |].
  - split; [apply HN'|]. intros j' link' l' Hj' Hl'. eapply arrived_received; [exact P6|]. by apply (proj2 HN').
  - intros ifs' f' Hlen' Hs HL. apply (checks_arrived ifs' f' j 0 t (passed d') (passed d) name); try done.
    + by rewrite HL.
    + apply set_ttl_ok; [done|lia].
    + by rewrite Hal.
    + intros x Hxn. rewrite (Hs x). unfold f2. cbn [Host_set_interface hs_expecting_to_receive].
      assert (forall y, y ∈ host_names -> hs_expecting_to_receive (f1 y) = []) as Hf1.
      { intros y Hyn. unfold f1. destruct (decide (from = y)) as [<-|Hne]; [rewrite fn_lookup_insert; by apply R6|].
        rewrite fn_lookup_insert_ne by done. by apply R6. }
      destruct (decide (x = name)) as [->|Hne].
      * rewrite fn_lookup_insert. cbn [Host_expect hs_expecting_to_receive]. by rewrite Hf1.
      * rewrite fn_lookup_insert_ne by done. by apply Hf1.
  - exists n', rd', ifs', f'. split; [|done]. unfold test_traffic. rewrite net_host by done. cbn [mbind result_bind].
    rewrite Hsend. cbn [mbind result_bind]. rewrite net_set_host by done. fold f1.
    rewrite net_host by (done || by eapply kept_named). cbn [mbind result_bind]. rewrite H1, u8_small by lia.
    rewrite net_set_host by done. rewrite <- H1. fold (passed d). fold f2. rewrite ES. done.
Qed.

(** A datagram whose time is up is dropped. *)
Lemma test_drops table n ifs f rd from dst ttl i s :
  ready table n ifs f -> from ∈ host_names -> place from = (i, s) -> hop_of from = nth i router_ips 0 ->
  0 <= dst < 2 ^ 32 -> 0 <= ttl <= 1 ->
  exists n' rd' ifs' f', test_traffic rd n from (Ok (Address_v4 dst 0)) ttl None = Ok (n', rd') /\ ready table n' ifs' f'.
Proof.
  intros HR Hx Hpx Hhop Hdst Httl. pose proof HR as [-> Hlen R3 R4 R5 R6 R7].
  destruct (host_sends_to table _ ifs f rd from dst ttl i s HR Hx Hpx Hhop Hdst ltac:(lia))
    as (d & rd' & a & p & Hd & H1 & H2 & Hsend & Hp & HN).
  set (f1 := <[from := Host_set_interface (f from) a]> f) in *. assert (kept_hosts f f1) as K1 by by apply kept_insert.
  destruct (placed_host ifs f from i s Hx Hlen Hpx) as (linkx & lx & [Q1 Q2 Q3 Q4 Q5 Q6 Q7]).
  destruct (star_drops members Hmembers table 256 i s d p (links_of ifs f1)) as (L' & EL' & HN'); try done;
    [by eapply lookup_lt_Some| |lia|].
  { unfold route_of, onward. rewrite H1. by destruct (Z.leb_spec ttl 1); [|lia]. }
  destruct (simulate_ready table _ ifs f ifs f1 L' HR K1 Hlen EL') as (n' & ifs' & f' & ES & HR').
  - split; [apply HN'|]. intros j' link' l' Hj' Hl'. by apply quiet_received, (proj2 HN').
  - intros ifs' f' Hlen' Hs HL. apply (checks_quiet ifs' f'); [done|by rewrite HL|]. intros x Hxn. rewrite (Hs x).
    unfold f1. cbn [Host_set_interface hs_expecting_to_receive].
    destruct (decide (from = x)) as [<-|Hne]; [rewrite fn_lookup_insert|rewrite fn_lookup_insert_ne by done]; by apply R6.
  - exists n', rd', ifs', f'. split; [|done]. unfold test_traffic. rewrite net_host by done. cbn [mbind result_bind].
    rewrite Hsend. cbn [mbind result_bind]. rewrite net_set_host by done. fold f1. by rewrite ES.
Qed.

End tests.

(** ** Random addresses *)

Lemma draw_bytes_ok n rd : length (draw_bytes n rd).1 = n /\ Forall byte_ok (draw_bytes n rd).1.
Proof.
  revert rd. induction n as [|n IH]; intros rd; cbn [draw_bytes]; [done|]. unfold draw.
  destruct (IH (tail rd)) as [H1 H2]. destruct (draw_bytes n (tail rd)) as [l rd']. cbn [fst] in *.
  split; [cbn; by rewrite H1|]. constructor; [apply u8_range|done].
Qed.

Lemma private_byte b : byte_ok (Z.land (Z.lor b 2) 254) /\ Z.land (Z.lor b 2) 254 <> 255.
Proof.
  split.
  - assert (Z.land (Z.lor b 2) 254 = Z.land (Z.lor b 2) 254 mod 256) as ->; [|apply Z.mod_pos_bound; lia].
    by rewrite <- land_255, <- Z.land_assoc.
  - intros H. apply (f_equal (fun z => Z.testbit z 0)) in H. by rewrite Z.land_spec, andb_false_r in H.
Qed.

(** An address for one interface. *)
Definition unicast (e : EthernetAddress) : Prop := EthernetAddress_ok e /\ e <> ETHERNET_BROADCAST.

Lemma random_host_unicast rd : unicast (random_host_ethernet_address rd).1.
Proof.
  unfold random_host_ethernet_address. destruct (draw_bytes_ok 6 rd) as [Hl Hb]. destruct (draw_bytes 6 rd) as [addr rd'].
  cbn [fst] in *. destruct addr as [|byte addr]; [done|]. apply Forall_cons in Hb as [_ Hb]. injection Hl as Hl.
  destruct (private_byte byte) as [H1 H2]. split; [|by intros [=]]. split; [unfold zlen; cbn; by rewrite Hl|by constructor].
Qed.

Lemma random_router_unicast rd : unicast (random_router_ethernet_address rd).1.
Proof.
  unfold random_router_ethernet_address. destruct (draw_bytes_ok 6 rd) as [Hl Hb]. destruct (draw_bytes 6 rd) as [addr rd'].
  cbn [fst] in *. do 7 (destruct addr as [|? addr]; try done). cbn.
  do 3 (apply Forall_cons in Hb as [_ Hb]). split; [|by intros [=]]. split; [done|]. repeat (constructor; [done|]). done.
Qed.

(** ** The network as it is built *)

(** The routes of [Network::Network()]. *)
Definition simulator_routes : list Entry :=
  [MkEntry (quad 0 0 0 0) 0 (Some (Address_v4 (ip_of "default_router") 0)) 0;
   MkEntry (quad 10 0 0 0) 8 None 1;
   MkEntry (quad 172 16 0 0) 16 None 2;
   MkEntry (quad 192 168 0 0) 24 None 3;
   MkEntry (quad 198 178 229 0) 24 None 4;
   MkEntry (quad 143 195 0 0) 17 (Some (Address_v4 (ip_of "hs_router") 0)) 5;
   MkEntry (quad 143 195 128 0) 18 (Some (Address_v4 (ip_of "hs_router") 0)) 5;
   MkEntry (quad 143 195 192 0) 19 (Some (Address_v4 (ip_of "hs_router") 0)) 5;
   MkEntry (quad 128 30 76 255) 16 (Some (Address_v4 (quad 128 30 0 1) 0)) 6].

Definition simulator_table : Trie :=
  Eval vm_compute in match Trie_insert_all simulator_routes Trie_new with Ok t => t | Throw _ => Trie_new end.

Definition new_interface (e : EthernetAddress) (ip : Z) : AsyncNetworkInterface :=
  AsyncNetworkInterface_new (NetworkInterface_new e (Address_v4 ip 0)).

Definition new_host (he : string -> EthernetAddress) (x : string) : Host :=
  MkHost x (Address_v4 (ip_of x) 0) (new_interface (he x) (ip_of x)) (Address_v4 (hop_of x) 0) [].

(** Links of new interfaces. *)
Definition unicast_member (m : member) : Prop := unicast m.1 /\ 0 <= m.2 < 2 ^ 32.

Lemma small_link_ok link : Forall unicast_member link -> NoDup (map snd link) -> (length link <= 2)%nat -> link_ok link.
Proof.
  intros Hm Hn Hl. split; [|done|].
  - eapply Forall_impl; [exact Hm|]. intros m [[H1 H2] H3]. exact (conj H1 (conj H2 H3)).
  - intros a b c ma mb mc Ha Hb Hc H1 H2 H3. apply lookup_lt_Some in Ha, Hb, Hc. exfalso. lia.
Qed.

Lemma three_link_ok m1 m2 m3 : Forall unicast_member [m1; m2; m3] -> NoDup (map snd [m1; m2; m3]) ->
  NoDup [m1.1; m2.1; m3.1] -> link_ok [m1; m2; m3].
Proof.
  intros Hm Hn He. split; [|done|].
  - eapply Forall_impl; [exact Hm|]. intros m [[H1 H2] H3]. exact (conj H1 (conj H2 H3)).
  - intros a b c ma mb mc _ Hb Hc _ _ Hne Heq. apply Hne. eapply (NoDup_lookup (map fst [m1; m2; m3]) b c mb.1); [exact He|..];
      apply list_lookup_fmap_Some; eauto.
Qed.

Lemma members_ok me he : (forall i, unicast (me i)) -> (forall x, unicast (he x)) -> NoDup [me 4%nat; he "dm42"; he "dm43"] ->
  Forall (fun link => link_ok link /\ (1 <= length link <= 3)%nat) (members me he).
Proof.
  intros Hme Hhe Hnd.
  assert (forall e ip, unicast e -> bool_decide (0 <= ip < 2 ^ 32) = true -> unicast_member (e, ip)) as Hu.
  { intros e ip He Hip. split; [done|]. by apply bool_decide_eq_true in Hip. }
  cbn [members imap topology map]. repeat apply Forall_cons_2; [| | | | | | |apply Forall_nil_2]; (split; [|cbn; lia]).
  5: apply three_link_ok; [repeat (constructor; [apply Hu; [done|reflexivity]|]); constructor|apply (bool_decide_unpack _); reflexivity|exact Hnd].
  all: apply small_link_ok; [repeat (constructor; [apply Hu; [done|reflexivity]|]); constructor|apply (bool_decide_unpack _); reflexivity|cbn; lia].
Qed.

Lemma new_iface link e ip : iface link (e, ip) idle (new_interface e ip).
Proof. split; try done. intros x [t [=]]. Qed.

Lemma new_ready me he : ready me he simulator_table
  (net simulator_table (imap (fun i => new_interface (me i)) router_ips) (new_host he))
  (imap (fun i => new_interface (me i)) router_ips) (new_host he).
Proof.
  split; try done. split; [done|]. intros j link l Hj Hl.
  do 7 (destruct j as [|j]; [injection Hj as <-; injection Hl as <-; split; [done|];
    intros k m a Hm Ha; do 3 (destruct k as [|k]; [try done; injection Hm as <-; injection Ha as <-; apply new_iface|]); done|]).
  done.
Qed.

Section build.
Context `{NameServiceLaws}.

Lemma dotted_ok a b c d : byte_ok a -> byte_ok b -> byte_ok c -> byte_ok d -> dotted a b c d = Ok (Address_v4 (quad a b c d) 0).
Proof. unfold byte_ok. intros. unfold dotted. apply Address_of_dotted; unfold quad; lia. Qed.

Lemma ip_ok a b c d : byte_ok a -> byte_ok b -> byte_ok c -> byte_ok d -> ip a b c d = Ok (quad a b c d).
Proof. intros. unfold ip. rewrite dotted_ok by done. apply Address_v4_numeric. unfold byte_ok, quad in *. lia. Qed.

Lemma host_address_net table ifs f x : named f -> x ∈ host_names -> host_address (net table ifs f) x = Ok (hs_my_address (f x)).
Proof. intros Hf Hx. unfold host_address. by rewrite net_host. Qed.

Lemma add_route_net table ifs f prefix len hop id :
  0 <= prefix < 2 ^ 32 -> match hop with Some a => exists ip, 0 <= ip < 2 ^ 32 /\ a = Address_v4 ip 0 | None => True end ->
  add_network_route (net table ifs f) (Ok prefix) len hop id =
    (t ← Trie_insert table (MkEntry prefix len hop id); Ok (net t ifs f)).
Proof.
  intros Hp Hh. unfold add_network_route, Router_add_route. cbn [mbind result_bind].
  rewrite from_ipv4_numeric_v4, Address_ip_v4 by (done || lia). cbn [mbind result_bind].
  destruct hop as [a|]; [destruct Hh as (ip & Hip & ->); rewrite Address_ip_v4 by (done || lia)|];
    cbn; by destruct (Trie_insert _ _).
Qed.

Lemma add_interface_ok rd r ip : 0 <= ip < 2 ^ 32 -> exists e rd', unicast e /\
  add_router_interface rd r (Ok (Address_v4 ip 0)) =
    Ok (zlen (ro_interfaces r), MkRouter (ro_interfaces r ++ [new_interface e ip]) (ro_route_table r), rd').
Proof.
  intros Hip. unfold add_router_interface, NetworkInterface_construct. pose proof (random_router_unicast rd) as Hu.
  destruct (random_router_ethernet_address rd) as [e rd']. cbn [mbind result_bind].
  rewrite Address_ip_v4 by (done || lia). by exists e, rd'.
Qed.

Lemma insert_host_ok rd hosts x ip hop : hosts !! x = None -> 0 <= ip < 2 ^ 32 -> exists e rd', unicast e /\
  insert_host rd hosts x (Ok (Address_v4 ip 0)) (Ok (Address_v4 hop 0)) =
    Ok (<[x := MkHost x (Address_v4 ip 0) (new_interface e ip) (Address_v4 hop 0) []]> hosts, rd').
Proof.
  intros Hx Hip. unfold insert_host, Host_new, NetworkInterface_construct. cbn [mbind result_bind].
  pose proof (random_host_unicast rd) as Hu. destruct (random_host_ethernet_address rd) as [e rd'].
  rewrite Address_ip_v4 by (done || lia). cbn [mbind result_bind]. rewrite Hx. by exists e, rd'.
Qed.

(** Dotted quads are 32-bit numbers, and the next hops of the routes are IPv4
    addresses. *)
Ltac quad_lia := unfold quad; lia.
Ltac route_side := first [exact I|quad_lia|eexists; split; [|reflexivity]; vm_compute; split; congruence].

Lemma Network_new_net rd : exists me he rd',
  Network_new rd = Ok (net simulator_table (imap (fun i => new_interface (me i)) router_ips) (new_host he), rd') /\
  (forall i, unicast (me i)) /\ forall x, unicast (he x).
Proof.
  unfold Network_new. rewrite !ip_ok, !dotted_ok by done.
  edestruct (add_interface_ok rd) as (e0 & rd0 & U0 & ->); [quad_lia|]. cbn [mbind result_bind].
  edestruct (add_interface_ok rd0) as (e1 & rd1 & U1 & ->); [quad_lia|]. cbn [mbind result_bind].
  edestruct (add_interface_ok rd1) as (e2 & rd2 & U2 & ->); [quad_lia|]. cbn [mbind result_bind].
  edestruct (add_interface_ok rd2) as (e3 & rd3 & U3 & ->); [quad_lia|]. cbn [mbind result_bind].
  edestruct (add_interface_ok rd3) as (e4 & rd4 & U4 & ->); [quad_lia|]. cbn [mbind result_bind].
  edestruct (add_interface_ok rd4) as (e5 & rd5 & U5 & ->); [quad_lia|]. cbn [mbind result_bind].
  edestruct (add_interface_ok rd5) as (e6 & rd6 & U6 & ->); [quad_lia|]. cbn [mbind result_bind].
  edestruct (insert_host_ok rd6) as (h0 & rd7 & V0 & ->); [done|quad_lia|]. cbn [mbind result_bind].
  edestruct (insert_host_ok rd7) as (h1 & rd8 & V1 & ->); [done|quad_lia|]. cbn [mbind result_bind].
  edestruct (insert_host_ok rd8) as (h2 & rd9 & V2 & ->); [done|quad_lia|]. cbn [mbind result_bind].
  edestruct (insert_host_ok rd9) as (h3 & rd10 & V3 & ->); [done|quad_lia|]. cbn [mbind result_bind].
  edestruct (insert_host_ok rd10) as (h4 & rd11 & V4 & ->); [done|quad_lia|]. cbn [mbind result_bind].
  edestruct (insert_host_ok rd11) as (h5 & rd12 & V5 & ->); [done|quad_lia|]. cbn [mbind result_bind].
  set (hosts := <["dm43" := _]> _).
  set (he x := if String.eqb x "applesauce" then h0 else if String.eqb x "default_router" then h1
    else if String.eqb x "cherrypie" then h2 else if String.eqb x "hs_router" then h3
    else if String.eqb x "dm42" then h4 else h5).
  assert (hosts = mk_hosts (new_host he)) as ->.
  { apply map_eq. intros y. rewrite mk_hosts_lookup. destruct (decide (y ∈ host_names)) as [Hy|Hy].
    - each_host Hy; reflexivity.
    - unfold hosts. rewrite !lookup_insert_ne by (intros <-; by apply Hy; auto). done. }
  set (ifs := imap (fun i => new_interface (nth i [e0; e1; e2; e3; e4; e5] e6)) router_ips).
  exists (fun i => nth i [e0; e1; e2; e3; e4; e5] e6), he, rd12. fold ifs. split_and!.
  - cbn zeta. match goal with |- context [MkNetwork ?r ?i0 ?i1 ?i2 ?i3 ?i4 ?i5 ?i6 ?h] =>
      change (MkNetwork r i0 i1 i2 i3 i4 i5 i6 h) with (net Trie_new ifs (new_host he)) end.
    rewrite !host_address_net by (done || auto). cbn [mbind result_bind].
    do 9 (rewrite add_route_net by route_side; match goal with |- context [Trie_insert ?t ?e] =>
      let r := eval vm_compute in (Trie_insert t e) in change (Trie_insert t e) with r end; cbn [mbind result_bind]).
    reflexivity.
  - intros i. do 6 (destruct i as [|i]; [done|]). by destruct i.
  - intros x. unfold he. by repeat destruct (String.eqb _ _).
Qed.

(** Where the routes of the simulator lead. *)
Definition leads_to (from name : string) (dst ttl : Z) : bool :=
  bool_decide (from ∈ host_names) && bool_decide (name ∈ host_names) &&
  (hop_of from =? nth (place from).1 router_ips 0) && (0 <=? dst) && (dst <? 2 ^ 32) && (1 <? ttl) && (ttl <? 256) &&
  match Trie_longest_prefix_match simulator_table dst with
  | Some e => (en_interface_num e =? Z.of_nat (place name).1) &&
      bool_decide (default (Address_from_ipv4_numeric dst) (en_next_hop e) = Address_v4 (ip_of name) 0)
  | None => false
  end.

Section runs.
Context (me : nat -> EthernetAddress) (he : string -> EthernetAddress).
Context (Hmembers : Forall (fun link => link_ok link /\ (1 <= length link <= 3)%nat) (members me he)).

Definition all_quiet (n : Network) : Prop := exists ifs f, ready me he simulator_table n ifs f.

Lemma quiet_address n x : all_quiet n -> x ∈ host_names -> host_address n x = Ok (Address_v4 (ip_of x) 0).
Proof. intros (ifs & f & [-> _ R3 R4 _ _ _]) Hx. by rewrite host_address_net, R4. Qed.

Lemma delivers n rd from name dst ttl : all_quiet n -> leads_to from name dst ttl = true ->
  exists n' rd', test_traffic rd n from (Ok (Address_v4 dst 0)) ttl (Some name) = Ok (n', rd') /\ all_quiet n'.
Proof.
  intros (ifs & f & HR) Hl. unfold leads_to in Hl. destruct (Trie_longest_prefix_match simulator_table dst) as [e|] eqn:Em;
    [|by rewrite andb_false_r in Hl]. b2p.
  destruct (place from) as [i s] eqn:Px, (place name) as [j t] eqn:Py. cbn [fst] in *.
  repeat match goal with H : bool_decide _ = true |- _ => apply bool_decide_eq_true in H end.
  edestruct (test_delivers me he Hmembers simulator_table n ifs f rd from name dst ttl i s j t e HR)
    as (n' & rd' & ifs' & f' & E & HR'); try done.
  exists n', rd'. split; [exact E|]. by exists ifs', f'.
Qed.

Lemma drops n rd from dst ttl : all_quiet n -> from ∈ host_names -> hop_of from = nth (place from).1 router_ips 0 ->
  0 <= dst < 2 ^ 32 -> 0 <= ttl <= 1 ->
  exists n' rd', test_traffic rd n from (Ok (Address_v4 dst 0)) ttl None = Ok (n', rd') /\ all_quiet n'.
Proof.
  intros (ifs & f & HR) Hx Hh Hd Ht. destruct (place from) as [i s] eqn:Px.
  destruct (test_drops me he Hmembers simulator_table n ifs f rd from dst ttl i s HR Hx Px Hh Hd Ht)
    as (n' & rd' & ifs' & f' & E & HR').
  exists n', rd'. split; [exact E|]. by exists ifs', f'.
Qed.

Lemma simulator_tests_succeed rd n : all_quiet n -> exists n', simulator_tests rd n = Ok n'.
Proof.
  intros HR. unfold simulator_tests.
  rewrite !dotted_ok by done.
  rewrite (quiet_address _ _ HR) by auto.
  destruct (delivers _ rd "applesauce" "cherrypie" (ip_of "cherrypie") 64 HR ltac:(lazy; reflexivity)) as (n1 & rd1 & -> & R1). cbn [mbind result_bind].
  rewrite (quiet_address _ _ R1) by auto.
  destruct (delivers _ rd1 "cherrypie" "applesauce" (ip_of "applesauce") 64 R1 ltac:(lazy; reflexivity)) as (n2 & rd2 & -> & R2). cbn [mbind result_bind].
  destruct (delivers _ rd2 "applesauce" "default_router" (quad 1 2 3 4) 64 R2 ltac:(lazy; reflexivity)) as (n3 & rd3 & -> & R3). cbn [mbind result_bind].
  destruct (delivers _ rd3 "applesauce" "hs_router" (quad 143 195 131 17) 64 R3 ltac:(lazy; reflexivity)) as (n4 & rd4 & -> & R4). cbn [mbind result_bind].
  destruct (delivers _ rd4 "cherrypie" "hs_router" (quad 143 195 193 52) 64 R4 ltac:(lazy; reflexivity)) as (n5 & rd5 & -> & R5). cbn [mbind result_bind].
  destruct (delivers _ rd5 "cherrypie" "hs_router" (quad 143 195 223 255) 64 R5 ltac:(lazy; reflexivity)) as (n6 & rd6 & -> & R6). cbn [mbind result_bind].
  destruct (delivers _ rd6 "cherrypie" "default_router" (quad 143 195 224 0) 64 R6 ltac:(lazy; reflexivity)) as (n7 & rd7 & -> & R7). cbn [mbind result_bind].
  rewrite (quiet_address _ _ R7) by auto.
  destruct (delivers _ rd7 "dm42" "dm43" (ip_of "dm43") 64 R7 ltac:(lazy; reflexivity)) as (n8 & rd8 & -> & R8). cbn [mbind result_bind].
  destruct (drops _ rd8 "applesauce" (quad 1 2 3 4) 1 R8) as (n9 & rd9 & -> & R9); [auto|done..|]. cbn [mbind result_bind].
  destruct (drops _ rd9 "applesauce" (quad 1 2 3 4) 0 R9) as (n10 & rd10 & -> & R10); [auto|done..|]. cbn [mbind result_bind].
  by exists n10.
Qed.

End runs.

(** The Ethernet addresses on the link of one of the router's interfaces. *)
Definition link_addresses (n : Network) (id : Z) (names : list string) : result (list EthernetAddress) :=
  a ← Router_interface (nw_router n) id;
  hosts ← mapM (Network_host n) names;
  Ok (map (fun a => ni_ethernet_address (an_interface a)) (a :: map hs_interface hosts)).

(** C9.  The simulator's test succeeds: whatever random numbers are drawn for the
    Ethernet addresses and the payloads, the network is built, every datagram that a
    host sends is routed, in 256 rounds and with all the address resolution that
    takes, to the host that the longest prefix names, with its time to live counted
    down, and to no other host, and datagrams whose time is up are dropped; unless
    two of the three interfaces that share a link drew the same address. *)
Theorem network_simulator_succeeds rd :
  exists n rd' addresses, Network_new rd = Ok (n, rd') /\
    link_addresses n (nw_uun3_id n) ["dm42"; "dm43"] = Ok addresses /\
    (NoDup addresses -> exists n', network_simulator rd = Ok n').
Proof.
  destruct (Network_new_net rd) as (me & he & rd' & E & Hme & Hhe).
  eexists _, rd', [me 4%nat; he "dm42"; he "dm43"]. split; [exact E|]. split.
  { unfold link_addresses. cbn [mapM]. by rewrite !net_host by (done || auto). }
  intros Hnd. pose proof (members_ok me he Hme Hhe Hnd) as Hm.
  assert (all_quiet me he (net simulator_table (imap (fun i => new_interface (me i)) router_ips) (new_host he))) as R
    by (eexists _, _; apply new_ready).
  unfold network_simulator. rewrite E. cbn [mbind result_bind]. by apply (simulator_tests_succeed me he).
Qed.

End build.

(** With an example of a name service and of random numbers. *)
Definition sample_draws : list Z := map (fun k => 37 * Z.of_nat k + 5) (seq 0 90).

Lemma network_simulator_succeeds_witness : exists n', @network_simulator dotted_name_service sample_draws = Ok n'.
Proof.
  destruct (@network_simulator_succeeds dotted_name_service dotted_name_service_laws sample_draws) as (n & rd' & addresses & E & Ea & H).
  apply H. assert (Ok addresses = @Ok (list EthernetAddress) [[2; 0; 0; 236; 17; 54]; [142; 180; 217; 254; 35; 72]; [110; 146; 183; 220; 1; 38]]) as Hn.
  { rewrite <- Ea. clear Ea H. vm_compute in E. injection E as <- _. vm_compute. reflexivity. }
  injection Hn as ->. apply (bool_decide_unpack _). vm_compute. exact I.
Defined.
