(* ===== verification/Tcpdumps.v ===== *)
(** Showing TCP segments in UDP datagrams: src/apps/udp_tcpdump.cc.

    The packet capture library is outside the sources: a packet is the list of the
    bytes captured, and reading past them is undefined.  What is shown is a value of
    [dumped], with addresses as the bytes that [inet_ntop] turns into text and the
    payload as its [hexdump].

    Theorems: whatever is captured, the walk over the headers ends, and the only
    trouble there can be comes from a packet that ends in its IPv4 header or in its
    UDP header; a segment that the UDP adapter has sent is shown as it was; a packet
    cut off in its UDP header ends the program; and of a segment with a bad checksum
    the header shown is the default one. *)

From S2P Require Import Prelude Texts WrappingIntegers Buffers Parsers TCPSegments Addresses Adapters.

(** ** Reading the packet *)

(** [data[i]] *)
Definition byte_at (data : bytes) (i : Z) : result Z :=
  if (0 <=? i) && (i <? zlen data) then Ok (default 0 (head (zdrop i data))) else Throw undefined_behaviour.

(** The [n] bytes from [data + i] on. *)
Definition bytes_at (data : bytes) (i n : Z) : result bytes :=
  if (0 <=? i) && (i + n <=? zlen data) then Ok (ztake n (zdrop i data)) else Throw undefined_behaviour.

Definition inet4_addr (data : bytes) (i : Z) : result bytes := bytes_at data i 4.
Definition inet6_addr (data : bytes) (i : Z) : result bytes := bytes_at data i 16.

(** The loop over the IPv6 extension headers; it does not end with the fuel that
    [process_ipv4_ipv6] gives it used up. *)
Fixpoint ipv6_headers (fuel : nat) (len : Z) (data : bytes) (nxt data_offset : Z) : result (option Z) :=
  match fuel with
  | O => Throw undefined_behaviour
  | S fuel =>
      if nxt =? 17 then Ok (Some data_offset)
      else if negb (nxt =? 0) && negb (nxt =? 43) && negb (nxt =? 60) then Ok None
      else
        nxt ← byte_at data data_offset;
        ext ← byte_at data (data_offset + 1);
        let data_offset := data_offset + 8 * (1 + ext) in
        if len <? data_offset + 2 then Ok None
        else ipv6_headers fuel len data nxt data_offset
  end.

(** The offset of the UDP payload with the two addresses, or none for -1. *)
Definition process_ipv4_ipv6 (len : Z) (data : bytes) : result (option (Z * bytes * bytes)) :=
  if len <? 1 then Ok None
  else
    first ← byte_at data 0;
    let pt := Z.land first 240 in
    if pt =? 64 then
      let data_offset := Z.land first 15 * 4 in
      if len <? data_offset then Ok None
      else
        proto ← byte_at data 9;
        if negb (proto =? 17) then Ok None
        else
          src_addr ← inet4_addr data 12;
          dst_addr ← inet4_addr data 16;
          Ok (Some (data_offset + 8, src_addr, dst_addr))
    else if pt =? 96 then
      if len <? 42 then Ok None
      else
        nxt ← byte_at data 6;
        offset ← ipv6_headers (length data) len data nxt 40;
        match offset with
        | None => Ok None
        | Some data_offset =>
            src_addr ← inet6_addr data 8;
            dst_addr ← inet6_addr data 24;
            Ok (Some (data_offset + 8, src_addr, dst_addr))
        end
    else Ok None.

(** ** Showing a packet *)

Inductive datalink : Type :=
  | DLT_RAW
  | DLT_NULL
  | DLT_EN10MB
  | DLT_LINUX_SLL
  | DLT_LINUX_SLL2
  | DLT_other.

Inductive dumped : Type :=
  | dump_malformed
  | dump_not_ip
  | dump_bad_ip
  | dump_unrecognized (src dst hex : bytes)
  | dump_segment (src dst : bytes) (seg : TCPSegment) (correct : bool) (hex : bytes)
  | dump_gives_up.

(** Two bytes as a number. *)
Definition u16_at (data : bytes) (i : Z) : result Z :=
  hi ← byte_at data i;
  lo ← byte_at data (i + 1);
  Ok (Z.lor (Z.shiftl hi 8) lo).

(** Where the packet of the network layer starts, or what is said instead. *)
Definition link_header (dl_type : datalink) (pkt : bytes) : result (Z + dumped) :=
  let ethernet_type hdr_off i :=
    if zlen pkt <? hdr_off then Ok (inr dump_malformed)
    else
      pt ← u16_at pkt i;
      if negb (pt =? 2048) && negb (pt =? 34525) then Ok (inr dump_not_ip) else Ok (inl hdr_off) in
  match dl_type with
  | DLT_NULL =>
      if zlen pkt <? 4 then Ok (inr dump_malformed)
      else
        pt ← byte_at pkt 3;
        if negb (pt =? 2) && negb (pt =? 24) && negb (pt =? 28) && negb (pt =? 30) then Ok (inr dump_not_ip) else Ok (inl 4)
  | DLT_EN10MB => ethernet_type 14 12
  | DLT_LINUX_SLL => ethernet_type 16 14
  | DLT_LINUX_SLL2 => ethernet_type 20 0
  | DLT_RAW => Ok (inl 0)
  | DLT_other => Ok (inr dump_gives_up)
  end.

(** [string(payload)], from a view of [len] bytes at [off]. *)
Definition payload_string (pkt : bytes) (off len : Z) : result bytes :=
  if 2 ^ 63 <=? len then Throw length_error else bytes_at pkt off len.

(** [res > ParseResult::BadChecksum] *)
Definition after_BadChecksum (res : ParseResult) : bool :=
  match res with NoError | BadChecksum => false | _ => true end.

(** One turn of the loop in [main]. *)
Definition dump_packet (dl_type : datalink) (pkt : bytes) : result dumped :=
  start ← link_header dl_type pkt;
  match start with
  | inr what => Ok what
  | inl hdr_off =>
      ip ← process_ipv4_ipv6 (i32 (u64 (zlen pkt - hdr_off))) (zdrop hdr_off pkt);
      match ip with
      | None => Ok dump_bad_ip
      | Some (start_off, src, dst) =>
          let payload_off := u64 (hdr_off + start_off) in
          let payload_len := u64 (zlen pkt - payload_off) in
          payload ← payload_string pkt payload_off payload_len;
          '(res, seg) ← TCPSegment_parse TCPSegment_default (Buffer_of_string payload) 0;
          let hex := hexdump payload 8 in
          if after_BadChecksum res then Ok (dump_unrecognized src dst hex)
          else Ok (dump_segment src dst seg (is_NoError res) hex)
      end
  end.

(** How the loop in [main] ends: [pcap_next_ex] has returned a negative number, or the
    type of the link is not known. *)
Inductive capture_end : Type :=
  | stopped (next_ret : Z)
  | gave_up.

(** The loop in [main] over what [pcap_next_ex] returns: what is shown, and how the loop
    has ended if it has. *)
Fixpoint capture (dl_type : datalink) (packets : list (Z * bytes)) : result (list dumped * option capture_end) :=
  match packets with
  | [] => Ok ([], None)
  | (next_ret, pkt) :: packets =>
      if next_ret <? 0 then Ok ([], Some (stopped next_ret))
      else if next_ret =? 0 then capture dl_type packets
      else
        d ← dump_packet dl_type pkt;
        match d with
        | dump_gives_up => Ok ([d], Some gave_up)
        | _ => '(ds, e) ← capture dl_type packets; Ok (d :: ds, e)
        end
  end.

(** With a known type of link the loop does not give up. *)
Lemma link_header_known dl_type pkt : dl_type <> DLT_other -> link_header dl_type pkt <> Ok (inr dump_gives_up).
Proof.
  intros Hk. destruct dl_type; cbn [link_header]; try done.
  1: destruct (zlen pkt <? 4); [done|]. 2: destruct (zlen pkt <? 14); [done|]. 3: destruct (zlen pkt <? 16); [done|]. 4: destruct (zlen pkt <? 20); [done|].
  1: destruct (byte_at pkt 3) as [pt|]. 3: destruct (u16_at pkt 12) as [pt|]. 5: destruct (u16_at pkt 14) as [pt|]. 7: destruct (u16_at pkt 0) as [pt|].
  all: cbn [mbind result_bind]; try done; by repeat case_match.
Qed.

Lemma dump_packet_known dl_type pkt : dl_type <> DLT_other -> dump_packet dl_type pkt <> Ok dump_gives_up.
Proof.
  intros Hk E. pose proof (link_header_known dl_type pkt Hk) as Hl. unfold dump_packet in E.
  destruct (link_header dl_type pkt) as [[hdr_off|what]|]; cbn [mbind result_bind] in E; [|congruence|done].
  destruct (process_ipv4_ipv6 _ _) as [[[[off src] dst]|]|]; cbn [mbind result_bind] in E; try done.
  destruct (payload_string _ _ _) as [payload|]; cbn [mbind result_bind] in E; [|done].
  destruct (TCPSegment_parse _ _ _) as [[res seg]|]; cbn [mbind result_bind] in E; [|done]. by destruct (after_BadChecksum res).
Qed.

Lemma capture_known dl_type packets ds e : dl_type <> DLT_other -> capture dl_type packets = Ok (ds, e) -> (dump_gives_up ∉ ds) /\ e <> Some gave_up.
Proof.
  intros Hk. revert ds e. induction packets as [|[next_ret pkt] packets IH]; intros ds e; cbn [capture].
  { intros [= <- <-]. by split; [apply not_elem_of_nil|]. }
  destruct (next_ret <? 0); [intros [= <- <-]; by split; [apply not_elem_of_nil|]|]. destruct (next_ret =? 0); [by apply IH|].
  pose proof (dump_packet_known dl_type pkt Hk) as Hd. destruct (dump_packet dl_type pkt) as [d|]; cbn [mbind result_bind]; [|done].
  assert (d <> dump_gives_up) as Hne by congruence. destruct (capture dl_type packets) as [[ds' e']|]; cbn [mbind result_bind].
  - destruct (IH ds' e' eq_refl) as [I1 I2].
    assert ((dump_gives_up ∉ d :: ds') /\ e' <> Some gave_up) as H by (rewrite not_elem_of_cons; auto).
    destruct d; try done; by intros [= <- <-].
  - by destruct d.
Qed.

(** ** The walk over the headers *)

Lemma byte_at_ok data i : Forall byte_ok data -> 0 <= i < zlen data -> exists x, byte_at data i = Ok x /\ 0 <= x < 256.
Proof.
  intros Hb Hi. unfold byte_at. rewrite (proj2 (Z.leb_le _ _)), (proj2 (Z.ltb_lt _ _)) by lia. cbn [andb].
  eexists. split; [reflexivity|]. assert (Forall byte_ok (zdrop i data)) as Hd by (by apply Forall_drop).
  destruct (zdrop i data) as [|x l] eqn:E; [cbn; lia|]. by apply Forall_cons in Hd as [? _].
Qed.

Lemma bytes_at_ok data i n : 0 <= i -> i + n <= zlen data -> bytes_at data i n = Ok (ztake n (zdrop i data)).
Proof. intros H1 H2. unfold bytes_at. by rewrite (proj2 (Z.leb_le _ _)), (proj2 (Z.leb_le _ _)) by lia. Qed.

(** The loop over the extension headers ends within the packet. *)
Lemma ipv6_headers_ok fuel data nxt off :
  Forall byte_ok data -> 0 <= off -> off + 2 <= zlen data -> zlen data < off + 8 * Z.of_nat fuel ->
  exists r, ipv6_headers fuel (zlen data) data nxt off = Ok r /\ forall o, r = Some o -> off <= o /\ o + 2 <= zlen data.
Proof.
  intros Hb. revert nxt off. induction fuel as [|fuel IH]; intros nxt off H0 H1 Hf; [lia|]. cbn [ipv6_headers].
  destruct (nxt =? 17); [exists (Some off); split; [done|]; intros o [= <-]; lia|].
  destruct (_ && _); [by exists None|].
  destruct (byte_at_ok data off Hb ltac:(lia)) as (x & -> & Hx). destruct (byte_at_ok data (off + 1) Hb ltac:(lia)) as (y & -> & Hy).
  cbn [mbind result_bind]. destruct (Z.ltb_spec (zlen data) (off + 8 * (1 + y) + 2)) as [|Hge]; [by exists None|].
  destruct (IH x (off + 8 * (1 + y)) ltac:(lia) ltac:(lia) ltac:(lia)) as (r & -> & Hr). exists r. split; [done|].
  intros o Ho. apply Hr in Ho. lia.
Qed.

(** A packet that ends inside the fixed part of its IPv4 header. *)
Definition short_ipv4 (data : bytes) : Prop := 1 <= zlen data < 20 /\ exists x, byte_at data 0 = Ok x /\ Z.land x 240 = 64.

Lemma process_ok data : Forall byte_ok data -> zlen data <= 65535 ->
  match process_ipv4_ipv6 (zlen data) data with
  | Ok None => True
  | Ok (Some (o, _, _)) => 8 <= o <= zlen data + 8
  | Throw e => e = undefined_behaviour /\ short_ipv4 data
  end.
Proof.
  intros Hb Hlen. unfold process_ipv4_ipv6. destruct (Z.ltb_spec (zlen data) 1) as [|H1]; [done|].
  destruct (byte_at_ok data 0 Hb ltac:(lia)) as (x & Ex & Hx). rewrite Ex. cbn [mbind result_bind].
  destruct (Z.eqb_spec (Z.land x 240) 64) as [H4|H4].
  - assert (0 <= Z.land x 15 < 16) as Hihl by (change 15 with (Z.ones 4); rewrite Z.land_ones by lia; apply Z.mod_pos_bound; lia).
    destruct (Z.ltb_spec (zlen data) (Z.land x 15 * 4)) as [|Hge]; [done|].
    assert (zlen data < 20 -> short_ipv4 data) as Hs by (intros; split; [lia|by exists x]).
    unfold byte_at at 1. cbn [Z.leb Z.compare andb]. destruct (Z.ltb_spec 9 (zlen data)) as [H9|H9]; [|split; [done|apply Hs; lia]].
    cbn [mbind result_bind]. destruct (negb _); [done|]. unfold inet4_addr, bytes_at. cbn [Z.leb Z.compare andb].
    destruct (Z.leb_spec (12 + 4) (zlen data)) as [H12|H12]; [|split; [done|apply Hs; lia]]. cbn [mbind result_bind].
    destruct (Z.leb_spec (16 + 4) (zlen data)) as [H16|H16]; [|split; [done|apply Hs; lia]]. cbn [mbind result_bind]. lia.
  - destruct (Z.land x 240 =? 96); [|done]. destruct (Z.ltb_spec (zlen data) 42) as [|H42]; [done|].
    destruct (byte_at_ok data 6 Hb ltac:(lia)) as (y & -> & Hy). cbn [mbind result_bind].
    destruct (ipv6_headers_ok (length data) data y 40 Hb) as (r & -> & Hr); [lia|lia|unfold zlen in *; lia|]. cbn [mbind result_bind].
    destruct r as [o|]; [|done]. specialize (Hr o eq_refl). unfold inet6_addr.
    rewrite !bytes_at_ok by lia. cbn [mbind result_bind]. lia.
Qed.

Lemma link_header_ok dl_type pkt : Forall byte_ok pkt ->
  exists r, link_header dl_type pkt = Ok r /\ forall off, r = inl off -> 0 <= off <= zlen pkt /\ off <= 20.
Proof.
  intros Hb. pose proof (zlen_nonneg pkt) as Hz.
  assert (forall hdr_off i, 0 <= i -> i + 2 <= hdr_off -> hdr_off <= 20 -> exists r,
    (if zlen pkt <? hdr_off then Ok (inr dump_malformed)
     else pt ← u16_at pkt i;
          if negb (pt =? 2048) && negb (pt =? 34525) then Ok (inr dump_not_ip) else Ok (inl hdr_off)) = Ok r /\
    forall off, r = inl off -> 0 <= off <= zlen pkt /\ off <= 20) as He.
  { intros hdr_off i H0 Hi H20. destruct (Z.ltb_spec (zlen pkt) hdr_off) as [|Hge]; [by eexists|]. unfold u16_at.
    destruct (byte_at_ok pkt i Hb ltac:(lia)) as (x & -> & _). destruct (byte_at_ok pkt (i + 1) Hb ltac:(lia)) as (y & -> & _).
    cbn [mbind result_bind]. destruct (_ && _); (eexists; split; [reflexivity|]; intros off Ho); [done|]. injection Ho as <-. lia. }
  destruct dl_type; cbn [link_header].
  - eexists. split; [reflexivity|]. intros off [= <-]. lia.
  - destruct (Z.ltb_spec (zlen pkt) 4) as [|Hge]; [by eexists|]. destruct (byte_at_ok pkt 3 Hb ltac:(lia)) as (x & -> & _).
    cbn [mbind result_bind]. destruct (_ && _); (eexists; split; [reflexivity|]; intros off Ho); [done|]. injection Ho as <-. lia.
  - apply He; lia.
  - apply He; lia.
  - apply He; lia.
  - by eexists.
Qed.

(** The packet of the network layer and the space that is left for it. *)
Lemma network_length (pkt : bytes) off : 0 <= off <= zlen pkt -> zlen pkt <= 65535 ->
  i32 (u64 (zlen pkt - off)) = zlen (zdrop off pkt) /\ zlen (zdrop off pkt) = zlen pkt - off.
Proof. intros Ho Hl. rewrite u64_small, zlen_zdrop by lia. split; [wrap_lia|lia]. Qed.

(** C17.  Whatever bytes were captured, [udp_tcpdump] gets through the packet: the loop
    over the headers ends and nothing outside the packet is read, unless the packet
    ends inside the fixed part of its IPv4 header; and no exception is thrown, unless
    it ends inside its UDP header. *)
Theorem dump_packet_safe dl_type pkt : Forall byte_ok pkt -> zlen pkt <= 65535 ->
  match dump_packet dl_type pkt with
  | Ok _ => True
  | Throw e => exists off, link_header dl_type pkt = Ok (inl off) /\
      (e = undefined_behaviour /\ short_ipv4 (zdrop off pkt) \/
       e = length_error /\ exists o src dst, process_ipv4_ipv6 (zlen pkt - off) (zdrop off pkt) = Ok (Some (o, src, dst)) /\
         off + o - 8 <= zlen pkt < off + o)
  end.
Proof.
  intros Hb Hlen. unfold dump_packet. destruct (link_header_ok dl_type pkt Hb) as (r & Er & Hr). rewrite Er. cbn [mbind result_bind].
  destruct r as [off|]; [|done]. destruct (Hr off eq_refl) as [Ho H20]. destruct (network_length pkt off Ho Hlen) as [-> Hz].
  assert (Forall byte_ok (zdrop off pkt)) as Hbd by (by apply Forall_drop).
  pose proof (process_ok (zdrop off pkt) Hbd ltac:(lia)) as Hp.
  destruct (process_ipv4_ipv6 _ _) as [[[[o src] dst]|]|e] eqn:Ep; cbn [mbind result_bind]; [|done|exists off; split; [done|by left]].
  rewrite (u64_small (off + o)) by lia. unfold payload_string. destruct (Z.le_gt_cases (off + o) (zlen pkt)) as [Hle|Hgt].
  - rewrite u64_small, (proj2 (Z.leb_gt _ _)), bytes_at_ok by lia. cbn [mbind result_bind].
    destruct (TCPSegment_parse_any TCPSegment_default (Buffer_of_string (ztake (zlen pkt - (off + o)) (zdrop (off + o) pkt))) 0)
      as (r & seg & -> & _).
    + apply Buffer_of_string_wf. rewrite zlen_ztake. lia.
    + rewrite Buffer_of_string_str by (rewrite zlen_ztake; lia). by apply Forall_take, Forall_drop.
    + cbn [mbind result_bind]. by destruct (after_BadChecksum r).
  - assert (u64 (zlen pkt - (off + o)) = 2 ^ 64 + (zlen pkt - (off + o))) as -> by wrap_lia.
    rewrite (proj2 (Z.leb_le _ _)) by lia. exists off. split; [done|]. right. split; [done|]. exists o, src, dst. rewrite <- Hz. split; [done|]. lia.
Qed.

Lemma dump_packet_safe_witness :
  dump_packet DLT_RAW [64; 0] = Throw undefined_behaviour /\ short_ipv4 [64; 0].
Proof.
  assert (dump_packet DLT_RAW [64; 0] = Throw undefined_behaviour) as E by reflexivity.
  pose proof (dump_packet_safe DLT_RAW [64; 0] ltac:(bytes_ok) ltac:(vm_compute; congruence)) as H. rewrite E in H.
  destruct H as (off & El & H). injection El as <-. destruct H as [[_ H]|[H _]]; [by split|done].
Defined.

(** ** Segments of the UDP adapter *)

Lemma byte_at_app a b i x : byte_at a i = Ok x -> byte_at (a ++ b) i = Ok x.
Proof.
  pose proof (zlen_nonneg b). unfold byte_at. destruct (Z.leb_spec 0 i), (Z.ltb_spec i (zlen a)) as [Hi|]; try done. cbn [andb].
  rewrite zlen_app, (proj2 (Z.ltb_lt _ _)) by lia. intros [= <-]. rewrite zdrop_app_le by lia.
  assert (0 < zlen (zdrop i a)) by (rewrite zlen_zdrop; lia). by destruct (zdrop i a).
Qed.

Lemma version_ihl ihl : 5 <= ihl <= 15 -> Z.land (64 + ihl) 240 = 64 /\ Z.land (64 + ihl) 15 = ihl.
Proof.
  intros H. assert (exists k, (k <= 10)%nat /\ ihl = 5 + Z.of_nat k) as (k & Hk & ->) by (exists (Z.to_nat (ihl - 5)); lia).
  do 11 (destruct k as [|k]; [by split|]). lia.
Qed.

(** An IPv4 header for UDP. *)
Record udp_over_ipv4 (hdr : bytes) : Prop := {
  uo_ihl : exists ihl, 5 <= ihl <= 15 /\ zlen hdr = 4 * ihl /\ byte_at hdr 0 = Ok (64 + ihl);
  uo_proto : byte_at hdr 9 = Ok 17
}.

Lemma process_udp hdr rest : udp_over_ipv4 hdr ->
  process_ipv4_ipv6 (zlen (hdr ++ rest)) (hdr ++ rest) =
    Ok (Some (zlen hdr + 8, ztake 4 (zdrop 12 hdr), ztake 4 (zdrop 16 hdr))).
Proof.
  intros [(ihl & Hi & Hl & H0) H9]. destruct (version_ihl ihl Hi) as [V1 V2]. pose proof (zlen_nonneg rest) as Hr.
  unfold process_ipv4_ipv6. rewrite zlen_app, (proj2 (Z.ltb_ge _ _)) by lia.
  rewrite (byte_at_app hdr rest 0 (64 + ihl)) by done. cbn [mbind result_bind]. rewrite V1, V2, Z.eqb_refl.
  rewrite (proj2 (Z.ltb_ge _ _)) by lia. rewrite (byte_at_app hdr rest 9 17) by done. cbn [mbind result_bind].
  rewrite Z.eqb_refl. cbn [negb]. unfold inet4_addr. rewrite !bytes_at_ok by (rewrite ?zlen_app; lia). cbn [mbind result_bind].
  rewrite !zdrop_app_le, !ztake_app_le by (rewrite ?zlen_zdrop; lia). by rewrite Hl, Z.mul_comm.
Qed.

(** A packet cut off inside its UDP header ends the program: the length of the
    payload wraps around. *)
Lemma cut_off_udp_header hdr udp packets : udp_over_ipv4 hdr -> zlen udp < 8 ->
  capture DLT_RAW ((1, hdr ++ udp) :: packets) = Throw length_error.
Proof.
  intros Hh Hu. pose proof (process_udp hdr udp Hh) as Hp. destruct (uo_ihl _ Hh) as (ihl & Hi & Hl & _). pose proof (zlen_nonneg udp) as Hz.
  cbn [capture Z.ltb Z.eqb Z.compare]. unfold dump_packet. cbn [link_header mbind result_bind].
  rewrite zdrop_le0, Z.sub_0_r by lia.
  assert (i32 (u64 (zlen (hdr ++ udp))) = zlen (hdr ++ udp)) as -> by (rewrite zlen_app; wrap_lia).
  rewrite Hp. cbn [mbind result_bind]. rewrite zlen_app. unfold payload_string.
  rewrite (u64_small (0 + _)) by lia. rewrite (proj2 (Z.leb_le _ _)); [done|]. wrap_lia.
Qed.

(** What is done with a payload found in the packet. *)
Lemma dump_packet_payload dl_type pkt off o src dst : zlen pkt <= 65535 -> 0 <= off <= zlen pkt -> 0 <= o -> off + o <= zlen pkt ->
  link_header dl_type pkt = Ok (inl off) -> process_ipv4_ipv6 (zlen (zdrop off pkt)) (zdrop off pkt) = Ok (Some (o, src, dst)) ->
  dump_packet dl_type pkt =
    ('(res, seg) ← TCPSegment_parse TCPSegment_default (Buffer_of_string (zdrop (off + o) pkt)) 0;
     let hex := hexdump (zdrop (off + o) pkt) 8 in
     if after_BadChecksum res then Ok (dump_unrecognized src dst hex)
     else Ok (dump_segment src dst seg (is_NoError res) hex)).
Proof.
  intros Hlen Hoff Ho Hle El Ep. unfold dump_packet. rewrite El. cbn [mbind result_bind].
  destruct (network_length pkt off Hoff Hlen) as [-> _]. rewrite Ep. cbn [mbind result_bind]. unfold payload_string.
  rewrite (u64_small (off + o)), u64_small, (proj2 (Z.leb_gt _ _)), bytes_at_ok by lia. cbn [mbind result_bind].
  by rewrite ztake_ge by (rewrite zlen_zdrop; lia).
Qed.

(** Of a segment with a bad checksum nothing is shown but a default header. *)
Lemma bad_checksum_blank dl_type pkt off o src dst :
  zlen pkt <= 65535 -> 0 <= off <= zlen pkt -> 0 <= o -> off + o <= zlen pkt ->
  link_header dl_type pkt = Ok (inl off) -> process_ipv4_ipv6 (zlen (zdrop off pkt)) (zdrop off pkt) = Ok (Some (o, src, dst)) ->
  InternetChecksum_value (InternetChecksum_add (InternetChecksum_new 0) (Buffer_str (Buffer_of_string (zdrop (off + o) pkt)))) <> 0 ->
  dump_packet dl_type pkt = Ok (dump_segment src dst TCPSegment_default false (hexdump (zdrop (off + o) pkt) 8)).
Proof.
  intros Hlen Hoff Ho Hle El Ep Hck. rewrite (dump_packet_payload dl_type pkt off o src dst) by done. unfold TCPSegment_parse.
  by rewrite (proj2 (Z.eqb_neq _ _) Hck).
Qed.

Section shown.
Context `{NameService}.

(** What the UDP adapter sends is what [udp_tcpdump] shows: captured behind any
    link header, IPv4 header and UDP header, the payload that
    [TCPOverUDPSocketAdapter::write] made of a segment is shown with a correct
    checksum and with the segment's fields, its ports filled in, between the two
    addresses of the IPv4 header. *)
Theorem tcpdump_shows_segment dl_type lh hdr udp b seg dest l sport dport :
  udp_over_ipv4 hdr -> zlen udp = 8 -> TCPHeader_ok (ts_header seg) -> Buffer_wf (ts_payload seg) ->
  Forall byte_ok (Buffer_str (ts_payload seg)) ->
  Address_port (fc_source (fb_cfg b)) = Ok sport -> Address_port (fc_destination (fb_cfg b)) = Ok dport ->
  0 <= sport < 2 ^ 16 -> 0 <= dport < 2 ^ 16 -> 4 * th_doff (ts_header seg) + Buffer_size (ts_payload seg) <= 65535 ->
  UDPAdapter_write b seg = Ok ([(dest, l)], b) ->
  let pkt := lh ++ hdr ++ udp ++ BufferList_concatenate l in
  zlen pkt <= 65535 -> link_header dl_type pkt = Ok (inl (zlen lh)) ->
  exists seg' ck, dump_packet dl_type pkt =
      Ok (dump_segment (ztake 4 (zdrop 12 hdr)) (ztake 4 (zdrop 16 hdr)) seg' true (hexdump (BufferList_concatenate l) 8)) /\
    ts_header seg' = TCPHeader_set_cksum (TCPHeader_set_ports (ts_header seg) sport dport) ck /\
    Buffer_str (ts_payload seg') = Buffer_str (ts_payload seg).
Proof.
  intros Hh Hu Hok Hwf Hbs Es Ed Hs Hd Hlen Ew pkt Hp El. unfold UDPAdapter_write in Ew. rewrite Es, Ed in Ew. cbn [mbind result_bind] in Ew.
  set (seg1 := MkTCPSegment _ _) in Ew.
  assert (TCPHeader_ok (ts_header seg1)) as Hok1 by (destruct Hok; by split).
  destruct (TCPSegment_parse_serialized seg1 TCPSegment_default 0 Hok1 Hwf Hbs Hlen ltac:(lia)) as (l' & ck & seg' & E & Eparse & Hh' & Hpay).
  rewrite E in Ew. cbn [mbind result_bind] in Ew. injection Ew as _ ->.
  pose proof (zlen_nonneg lh) as Hz1. pose proof (zlen_nonneg hdr) as Hz2. pose proof (zlen_nonneg (BufferList_concatenate l)) as Hz3.
  assert (zdrop (zlen lh) pkt = hdr ++ udp ++ BufferList_concatenate l) as E1 by (unfold pkt; rewrite zdrop_app_ge, Z.sub_diag, zdrop_le0 by lia; done).
  assert (zdrop (zlen lh + (zlen hdr + 8)) pkt = BufferList_concatenate l) as E2.
  { unfold pkt. rewrite !zdrop_app_ge by lia. apply zdrop_le0. lia. }
  assert (zlen pkt = zlen lh + (zlen hdr + (8 + zlen (BufferList_concatenate l)))) as Ez by (unfold pkt; rewrite !zlen_app; lia).
  exists seg', ck. split; [|done].
  rewrite (dump_packet_payload dl_type pkt (zlen lh) (zlen hdr + 8) (ztake 4 (zdrop 12 hdr)) (ztake 4 (zdrop 16 hdr))); try lia; [|done|rewrite E1; by apply process_udp].
  rewrite E2, Eparse. reflexivity.
Qed.

End shown.

(** The headers before a segment from 10.0.0.1:4000 to 10.0.0.2:80. *)
Definition shown_ipv4 : bytes := [69; 0; 0; 50; 0; 0; 64; 0; 128; 17; 0; 0; 10; 0; 0; 1; 10; 0; 0; 2].
Definition shown_udp : bytes := [15; 160; 0; 80; 0; 30; 0; 0].

Lemma tcpdump_shows_segment_witness : exists l dest, @UDPAdapter_write dotted_name_service sample_client syn_segment = Ok ([(dest, l)], sample_client) /\
  exists seg' ck, dump_packet DLT_RAW ([] ++ shown_ipv4 ++ shown_udp ++ BufferList_concatenate l) =
      Ok (dump_segment (ztake 4 (zdrop 12 shown_ipv4)) (ztake 4 (zdrop 16 shown_ipv4)) seg' true (hexdump (BufferList_concatenate l) 8)) /\
    ts_header seg' = TCPHeader_set_cksum (TCPHeader_set_ports (ts_header syn_segment) 4000 80) ck /\
    Buffer_str (ts_payload seg') = Buffer_str (ts_payload syn_segment).
Proof.
  eexists _, _. split; [vm_compute; reflexivity|].
  apply (@tcpdump_shows_segment dotted_name_service DLT_RAW [] shown_ipv4 shown_udp sample_client syn_segment
    (Address_v4 (10 * 2 ^ 24 + 2) 80) _ 4000 80).
  - split; [|reflexivity]. exists 5. split; [lia|done].
  - reflexivity.
  - split; vm_compute; split; congruence.
  - apply Buffer_of_string_wf. reflexivity.
  - bytes_ok.
  - reflexivity.
  - reflexivity.
  - lia.
  - lia.
  - vm_compute. congruence.
  - vm_compute. reflexivity.
  - vm_compute. congruence.
  - reflexivity.
Defined.
