(* ===== verification/CommandLines.v ===== *)
(** The arguments of the programs under src/apps/: [get_config] of tcp_ipv4.cc,
    tcp_udp.cc and tcp_ip_ethernet.cc, and [parse_arguments] of udp_tcpdump.cc.

    The three programs share their options and differ in which of them they know, so
    that one loop, given the options that a program knows, models the three.  The
    arguments are those after the name of the program; the loop has reached the
    argument [argv[curr]] when the list of those left starts with it.

    Theorems: whatever the arguments, the options are read without leaving [argv], and
    what is left are the two arguments for host and port; and in client mode the
    configuration is the one that the options ask for, in whatever order they come. *)

From stdpp Require Import strings.
From S2P Require Import Prelude Texts WrappingIntegers Parsers Addresses Adapters TCPSegments TCPSenders Effects SpongeSockets.

#[local] Open Scope Z_scope.
#[local] Open Scope list_scope.

(** The program ends with a status, after a message about its usage; or it goes on. *)
Inductive outcome (A : Type) : Type :=
  | exits (status : Z) (message : option bytes)
  | proceeds (a : A).
Arguments exits {A}.
Arguments proceeds {A}.

(** ** Options *)

Inductive option_kind : Type :=
  | opt_listen | opt_address | opt_port | opt_next_hop | opt_window | opt_timeout | opt_device
  | opt_loss_up | opt_loss_dn | opt_help | opt_unknown.

#[export] Instance option_kind_eq_dec : EqDecision option_kind.
Proof. solve_decision. Defined.

Definition is_flag (flag : string) (arg : bytes) : bool := strncmp_eq (string_bytes flag) arg 3.

(** The options of tcp_ipv4. *)
Definition option_ipv4 (arg : bytes) : option_kind :=
  if is_flag "-l" arg then opt_listen
  else if is_flag "-a" arg then opt_address
  else if is_flag "-s" arg then opt_port
  else if is_flag "-w" arg then opt_window
  else if is_flag "-t" arg then opt_timeout
  else if is_flag "-d" arg then opt_device
  else if is_flag "-Lu" arg then opt_loss_up
  else if is_flag "-Ld" arg then opt_loss_dn
  else if is_flag "-h" arg then opt_help
  else opt_unknown.

(** The options of tcp_udp. *)
Definition option_udp (arg : bytes) : option_kind :=
  if is_flag "-l" arg then opt_listen
  else if is_flag "-w" arg then opt_window
  else if is_flag "-t" arg then opt_timeout
  else if is_flag "-Lu" arg then opt_loss_up
  else if is_flag "-Ld" arg then opt_loss_dn
  else if is_flag "-h" arg then opt_help
  else opt_unknown.

(** The options of tcp_ip_ethernet. *)
Definition option_ethernet (arg : bytes) : option_kind :=
  if is_flag "-a" arg then opt_address
  else if is_flag "-s" arg then opt_port
  else if is_flag "-n" arg then opt_next_hop
  else if is_flag "-w" arg then opt_window
  else if is_flag "-t" arg then opt_timeout
  else if is_flag "-d" arg then opt_device
  else if is_flag "-h" arg then opt_help
  else opt_unknown.

(** The variables that the options set. *)
Record settings : Type := MkSettings {
  st_fsm : TCPConfig;
  st_listen : bool;
  st_source_address : bytes;
  st_source_port : bytes;
  st_next_hop : bytes;
  st_device : option bytes;
  st_loss_up : Z;
  st_loss_dn : Z
}.

Definition set_listen (s : settings) : settings :=
  MkSettings (st_fsm s) true (st_source_address s) (st_source_port s) (st_next_hop s) (st_device s) (st_loss_up s) (st_loss_dn s).

(** What an option does with its argument.  The window is a [size_t], the timeout a
    [uint16_t]. *)
Definition apply_option (k : option_kind) (arg : bytes) (s : settings) : result settings :=
  let '(MkSettings fsm listen address port next_hop device up dn) := s in
  match k with
  | opt_address => Ok (MkSettings fsm listen arg port next_hop device up dn)
  | opt_port => Ok (MkSettings fsm listen address arg next_hop device up dn)
  | opt_next_hop => Ok (MkSettings fsm listen address port arg device up dn)
  | opt_window =>
      let fsm := MkTCPConfig (cfg_rt_timeout fsm) (u64 (strtol arg)) (cfg_send_capacity fsm) (cfg_fixed_isn fsm) in
      Ok (MkSettings fsm listen address port next_hop device up dn)
  | opt_timeout =>
      let fsm := MkTCPConfig (u16 (strtol arg)) (cfg_recv_capacity fsm) (cfg_send_capacity fsm) (cfg_fixed_isn fsm) in
      Ok (MkSettings fsm listen address port next_hop device up dn)
  | opt_device => Ok (MkSettings fsm listen address port next_hop (Some arg) up dn)
  | opt_loss_up => up ← loss_rate arg; Ok (MkSettings fsm listen address port next_hop device up dn)
  | opt_loss_dn => dn ← loss_rate arg; Ok (MkSettings fsm listen address port next_hop device up dn)
  | _ => Ok s
  end.

(** The message when an option has no argument. *)
Definition option_error (k : option_kind) : string :=
  match k with
  | opt_address => "ERROR: -a requires one argument."
  | opt_port => "ERROR: -s requires one argument."
  | opt_next_hop => "ERROR: -n requires one argument."
  | opt_window => "ERROR: -w requires one argument."
  | opt_loss_up | opt_loss_dn => "ERROR: -Lu requires one argument."
  | _ => "ERROR: -t requires one argument."
  end.

(** [check_argc(argc, argv, curr, err)] *)
Definition check_argc (rest : list bytes) : bool := (length rest <=? 3)%nat.

(** The loop of [get_config]. *)
Fixpoint get_options (option_of : bytes -> option_kind) (rest : list bytes) (s : settings) :
    result (outcome (settings * list bytes)) :=
  if (length rest <=? 2)%nat then Ok (proceeds (s, rest))
  else
    match rest with
    | [] => Throw undefined_behaviour
    | opt :: rest1 =>
        match option_of opt with
        | opt_listen => get_options option_of rest1 (set_listen s)
        | opt_help => Ok (exits 0 None)
        | opt_unknown => Ok (exits 1 (Some (string_bytes "ERROR: unrecognized option " ++ opt)))
        | k =>
            if check_argc rest then Ok (exits 1 (Some (string_bytes (option_error k))))
            else
              match rest1 with
              | [] => Throw undefined_behaviour
              | arg :: rest2 => s ← apply_option k arg s; get_options option_of rest2 s
              end
        end
    end.

(** ** Configurations *)

Section config.
Context `{NameService}.

Definition no_arguments : option bytes := Some (string_bytes "ERROR: required arguments are missing.").

Definition start_settings (address next_hop : string) (device : option bytes) (random : Z) : settings :=
  MkSettings TCPConfig_default false (string_bytes address) (decimal (u16 random)) (string_bytes next_hop) device 0 0.

(** [c_filt] with the loss rates that were asked for. *)
Definition filter_config (s : settings) : result FdAdapterConfig :=
  c ← FdAdapterConfig_default;
  Ok (MkFdAdapterConfig (fc_source c) (fc_destination c) (st_loss_dn s) (st_loss_up s)).

Definition get_config_ipv4 (random : Z) (args : list bytes) : result (outcome (TCPConfig * FdAdapterConfig * bool * option bytes)) :=
  o ← get_options option_ipv4 args (start_settings "169.254.144.9" "" None random);
  match o with
  | exits status message => Ok (exits status message)
  | proceeds (s, host :: port :: _) =>
      c_filt ← filter_config s;
      if st_listen s then
        source ← Address_of_host (string_bytes "0") port;
        let c_filt := FdAdapterConfig_set_source c_filt source in
        number ← Address_port (fc_source c_filt);
        if number =? 0 then Ok (exits 1 (Some (string_bytes "ERROR: listen port cannot be zero in server mode.")))
        else Ok (proceeds (st_fsm s, c_filt, true, st_device s))
      else
        destination ← Address_of_host host port;
        let c_filt := FdAdapterConfig_set_destination c_filt destination in
        source ← Address_of_host (st_source_address s) (st_source_port s);
        let c_filt := FdAdapterConfig_set_source c_filt source in
        Ok (proceeds (st_fsm s, c_filt, false, st_device s))
  | proceeds _ => Throw undefined_behaviour
  end.

Definition get_config_udp (args : list bytes) : result (outcome (TCPConfig * FdAdapterConfig * bool)) :=
  o ← get_options option_udp args (start_settings "" "" None 0);
  match o with
  | exits status message => Ok (exits status message)
  | proceeds (s, _) =>
      c_filt ← filter_config s;
      match reverse args with
      | port :: host :: _ =>
          if st_listen s then
            source ← Address_of_host (string_bytes "0") port;
            Ok (proceeds (st_fsm s, FdAdapterConfig_set_source c_filt source, true))
          else
            destination ← Address_of_host host port;
            Ok (proceeds (st_fsm s, FdAdapterConfig_set_destination c_filt destination, false))
      | _ => Throw undefined_behaviour
      end
  end.

Definition get_config_ethernet (random : Z) (args : list bytes) : result (outcome (TCPConfig * FdAdapterConfig * Address * bytes)) :=
  o ← get_options option_ethernet args (start_settings "169.254.10.9" "169.254.10.1" (Some tap10) random);
  match o with
  | exits status message => Ok (exits status message)
  | proceeds (s, host :: port :: _) =>
      c_filt ← filter_config s;
      destination ← Address_of_host host port;
      let c_filt := FdAdapterConfig_set_destination c_filt destination in
      source ← Address_of_host (st_source_address s) (st_source_port s);
      let c_filt := FdAdapterConfig_set_source c_filt source in
      next_hop ← Address_of_host (st_next_hop s) (string_bytes "0");
      Ok (proceeds (st_fsm s, c_filt, next_hop, default tap10 (st_device s)))
  | proceeds _ => Throw undefined_behaviour
  end.

End config.

(** ** udp_tcpdump *)

(** The device asked for, and the words of the filter expression. *)
Fixpoint parse_arguments (rest : list bytes) (dev : option bytes) : outcome (option bytes * list bytes) :=
  match rest with
  | [] => proceeds (dev, [])
  | opt :: rest1 =>
      if is_flag "-i" opt then
        match rest1 with
        | [] => exits 1 (Some (string_bytes "ERROR: -i requires an argument"))
        | arg :: rest2 => parse_arguments rest2 (Some arg)
        end
      else if is_flag "-h" opt || strncmp_eq (string_bytes "--help") opt 7 then exits 0 None
      else proceeds (dev, rest)
  end.

(** The filter expression. *)
Definition filter_expression (words : list bytes) : bytes := concat (map (fun w => w ++ [32]) words).

(** ** Reading the options *)

Lemma apply_option_throws k arg s e : apply_option k arg s = Throw e -> loss_rate arg = Throw e.
Proof. destruct s, k; cbn; try done; destruct (loss_rate arg); cbn; congruence. Qed.

(** How the loop may end. *)
Definition options_read (args : list bytes) (r : result (outcome (settings * list bytes))) : Prop :=
  match r with
  | Ok (exits status _) => status = 0 \/ status = 1
  | Ok (proceeds (_, rest)) => exists front host port, rest = [host; port] /\ args = front ++ rest
  | Throw e => exists arg, arg ∈ args /\ loss_rate arg = Throw e
  end.

Lemma options_read_app front args r : options_read args r -> options_read (front ++ args) r.
Proof.
  destruct r as [[status m|[s rest]]|e]; cbn [options_read]; [done| |].
  - intros (f & host & port & Er & ->). exists (front ++ f), host, port. by rewrite app_assoc.
  - intros (arg & Hin & E). exists arg. split; [|done]. apply elem_of_app. by right.
Qed.

(** C18.  Whatever the arguments, the loop of [get_config] ends without reading outside
    [argv]: it ends the program with status 0 or 1, or what is left are the last two
    arguments, the host and the port; an exception can only come from a loss rate, and
    then it is the one of that argument. *)
Theorem get_options_safe option_of args s : (2 <= length args)%nat -> options_read args (get_options option_of args s).
Proof.
  remember (length args) as n eqn:En. revert args s En. induction n as [n IH] using lt_wf_ind. intros args s -> Hlen.
  destruct args as [|opt rest1]; [simpl in Hlen; lia|]. cbn [get_options]. destruct (Nat.leb_spec (length (opt :: rest1)) 2) as [H2|H2].
  { destruct rest1 as [|port [|? ?]]; simpl in H2, Hlen; try lia. by exists [], opt, port. }
  cbn [length] in *.
  assert (forall k, options_read (opt :: rest1)
    (if check_argc (opt :: rest1) then Ok (exits 1 (Some (string_bytes (option_error k))))
     else match rest1 with
          | [] => Throw undefined_behaviour
          | arg :: rest2 => s ← apply_option k arg s; get_options option_of rest2 s
          end)) as Harg.
  { intros k. unfold check_argc. destruct (Nat.leb_spec (length (opt :: rest1)) 3) as [|H3]; [by right|].
    destruct rest1 as [|arg rest2]; [simpl in H2; lia|]. destruct (apply_option k arg s) as [s'|e] eqn:E; cbn [mbind result_bind].
    - apply (options_read_app [opt; arg]). simpl in *. apply (IH (length rest2)); [lia|done|lia].
    - exists arg. split; [set_solver|]. by eapply apply_option_throws. }
  destruct (option_of opt); try (by apply Harg); [|by left|by right].
  apply (options_read_app [opt]). apply (IH (length rest1)); [lia|done|lia].
Qed.

Lemma get_options_safe_witness :
  options_read [string_bytes "-w"; string_bytes "cs144.keithw.org"; string_bytes "1234"]
    (get_options option_ipv4 [string_bytes "-w"; string_bytes "cs144.keithw.org"; string_bytes "1234"]
      (start_settings "169.254.144.9" "" None 7)).
Proof. apply get_options_safe. simpl. lia. Defined.

(** ** What a command line asks for *)

(** One thing that the options of tcp_ipv4 can ask for: numbers in decimal, and a loss
    rate as a text with the number that it stands for. *)
Inductive request : Type :=
  | ask_listen
  | ask_address (a : bytes)
  | ask_port (p : bytes)
  | ask_window (w : Z)
  | ask_timeout (t : Z)
  | ask_device (d : bytes)
  | ask_loss_up (text : bytes) (n : Z)
  | ask_loss_dn (text : bytes) (n : Z).

Definition render_request (r : request) : list bytes :=
  match r with
  | ask_listen => [string_bytes "-l"]
  | ask_address a => [string_bytes "-a"; a]
  | ask_port p => [string_bytes "-s"; p]
  | ask_window w => [string_bytes "-w"; decimal w]
  | ask_timeout t => [string_bytes "-t"; decimal t]
  | ask_device d => [string_bytes "-d"; d]
  | ask_loss_up text _ => [string_bytes "-Lu"; text]
  | ask_loss_dn text _ => [string_bytes "-Ld"; text]
  end.

(** The command line that makes the requests [l] in their order. *)
Definition command_line (l : list request) (host port : bytes) : list bytes := concat (map render_request l) ++ [host; port].

Definition request_ok (r : request) : Prop :=
  match r with
  | ask_window w => 0 <= w < 2 ^ 63
  | ask_timeout t => 0 <= t < 2 ^ 16
  | ask_loss_up text n | ask_loss_dn text n => loss_rate text = Ok n
  | _ => True
  end.

Definition listen_of (r : request) : option bool := match r with ask_listen => Some true | _ => None end.
Definition address_of (r : request) : option bytes := match r with ask_address a => Some a | _ => None end.
Definition port_of (r : request) : option bytes := match r with ask_port p => Some p | _ => None end.
Definition window_of (r : request) : option Z := match r with ask_window w => Some w | _ => None end.
Definition timeout_of (r : request) : option Z := match r with ask_timeout t => Some t | _ => None end.
Definition device_of (r : request) : option (option bytes) := match r with ask_device d => Some (Some d) | _ => None end.
Definition loss_up_of (r : request) : option Z := match r with ask_loss_up _ n => Some n | _ => None end.
Definition loss_dn_of (r : request) : option Z := match r with ask_loss_dn _ n => Some n | _ => None end.

(** What the requests say of one of the settings: the last one that speaks of it counts,
    and without one the setting keeps its default. *)
Definition asked {A} (f : request -> option A) (dflt : A) (l : list request) : A := default dflt (last (omap f l)).

Lemma asked_cons {A} (f : request -> option A) dflt r l : asked f dflt (r :: l) = asked f (default dflt (f r)) l.
Proof.
  unfold asked. cbn. destruct (f r) as [x|]; [|done]. rewrite last_cons. by destruct (last _).
Qed.

Definition requested_fsm (l : list request) (c : TCPConfig) : TCPConfig :=
  MkTCPConfig (asked timeout_of (cfg_rt_timeout c) l) (asked window_of (cfg_recv_capacity c) l) (cfg_send_capacity c) (cfg_fixed_isn c).

Definition requested (l : list request) (s : settings) : settings :=
  MkSettings (requested_fsm l (st_fsm s)) (asked listen_of (st_listen s) l) (asked address_of (st_source_address s) l)
    (asked port_of (st_source_port s) l) (st_next_hop s) (asked device_of (st_device s) l) (asked loss_up_of (st_loss_up s) l)
    (asked loss_dn_of (st_loss_dn s) l).

(** One option with its argument, and at least the two last arguments behind it. *)
Definition takes_argument (k : option_kind) : bool :=
  match k with opt_listen | opt_help | opt_unknown => false | _ => true end.

Lemma get_options_argument option_of opt arg rest s : takes_argument (option_of opt) = true -> (2 <= length rest)%nat ->
  get_options option_of (opt :: arg :: rest) s = (s ← apply_option (option_of opt) arg s; get_options option_of rest s).
Proof.
  intros Hk Hl. cbn [get_options]. unfold check_argc. assert (4 <= length (opt :: arg :: rest))%nat as H4 by (simpl; lia).
  rewrite (proj2 (Nat.leb_gt (length (opt :: arg :: rest)) 2)), (proj2 (Nat.leb_gt (length (opt :: arg :: rest)) 3)) by lia.
  by destruct (option_of opt).
Qed.

Lemma get_options_listen option_of opt rest s : option_of opt = opt_listen -> (2 <= length rest)%nat ->
  get_options option_of (opt :: rest) s = get_options option_of rest (set_listen s).
Proof. intros Hk Hl. cbn [get_options]. rewrite (proj2 (Nat.leb_gt (length (opt :: rest)) 2)) by (simpl; lia). by rewrite Hk. Qed.

(** The loop does what one request asks for. *)
Lemma get_options_request r rest s : request_ok r -> (2 <= length rest)%nat ->
  get_options option_ipv4 (render_request r ++ rest) s = get_options option_ipv4 rest (requested [r] s).
Proof.
  intros Hr Hl. destruct s as [[rt win cap isn] listen a p nh dev up dn]. destruct r; cbn [render_request app request_ok] in *.
  { by rewrite get_options_listen. }
  all: rewrite get_options_argument by done.
  - done.
  - done.
  - change (option_ipv4 (string_bytes "-w")) with opt_window. cbn [apply_option mbind result_bind].
    rewrite strtol_decimal, u64_small by lia. done.
  - change (option_ipv4 (string_bytes "-t")) with opt_timeout. cbn [apply_option mbind result_bind].
    rewrite strtol_decimal, u16_small by lia. done.
  - done.
  - change (option_ipv4 (string_bytes "-Lu")) with opt_loss_up. cbn [apply_option]. rewrite Hr. done.
  - change (option_ipv4 (string_bytes "-Ld")) with opt_loss_dn. cbn [apply_option]. rewrite Hr. done.
Qed.

Lemma requested_cons r l s : requested (r :: l) s = requested l (requested [r] s).
Proof. unfold requested, requested_fsm. rewrite !asked_cons. by destruct r. Qed.

Lemma get_options_requests l host port s : Forall request_ok l ->
  get_options option_ipv4 (command_line l host port) s = Ok (proceeds (requested l s, [host; port])).
Proof.
  unfold command_line. revert s. induction l as [|r l IH]; intros s Hl; [by destruct s as [[]]|].
  apply Forall_cons in Hl as [Hr Hl]. cbn [map concat]. rewrite <- app_assoc, get_options_request, IH, (requested_cons r l); try done.
  rewrite length_app. simpl. lia.
Qed.

Section configured.
Context `{NameServiceLaws}.

Lemma filter_config_eq s : filter_config s = Ok (MkFdAdapterConfig (Address_v4 0 0) (Address_v4 0 0) (st_loss_dn s) (st_loss_up s)).
Proof. unfold filter_config, FdAdapterConfig_default. by rewrite Address_of_zero by lia. Qed.


(** In server mode the address to bind is any address with the given port, although the
    usage text says that it is the one of the host; port 0 is refused. *)
Lemma server_ignores_host l host port random : Forall request_ok l -> asked listen_of false l = true -> 0 <= port < 2 ^ 16 ->
  get_config_ipv4 random (command_line l host (decimal port)) =
    if port =? 0 then Ok (exits 1 (Some (string_bytes "ERROR: listen port cannot be zero in server mode.")))
    else Ok (proceeds (requested_fsm l TCPConfig_default,
                       MkFdAdapterConfig (Address_v4 0 port) (Address_v4 0 0) (asked loss_dn_of 0 l) (asked loss_up_of 0 l),
                       true, asked device_of None l)).
Proof.
  intros Hl Hc Hp. unfold get_config_ipv4. rewrite get_options_requests by done. cbn [mbind result_bind]. rewrite filter_config_eq.
  cbn [mbind result_bind requested st_listen start_settings]. rewrite Hc, Address_host_zero by done.
  cbn [mbind result_bind FdAdapterConfig_set_source fc_source]. rewrite Address_port_v4 by lia. cbn [mbind result_bind].
  by destruct (port =? 0).
Qed.

End configured.


