(* ===== verification/Usages.v ===== *)
(** The usage texts of the programs under src/apps/: [show_usage] of tcp_ipv4.cc,
    tcp_udp.cc, tcp_ip_ethernet.cc, tcp_native.cc and udp_tcpdump.cc, as the text that
    they print; an [outcome] that ends the program carries the message for it.

    Theorems: tcp_ipv4.cc, tcp_udp.cc and tcp_ip_ethernet.cc know exactly the options
    that their usage texts list; udp_tcpdump.cc does not know its option -F; and the
    default window that the texts give is not the default. *)

From stdpp Require Import strings.
From S2P Require Import Prelude Texts TCPSenders CommandLines.

#[local] Open Scope Z_scope.
#[local] Open Scope list_scope.

(** A text made of lines. *)
Definition lines (l : list bytes) : bytes := concat (map (fun line => line ++ [10]) l).

Abbreviation text := string_bytes.
Abbreviation blank := (@nil Z).

Definition usage_head (argv0 : bytes) : bytes :=
  lines [text "Usage: " ++ argv0 ++ text " [options] <host> <port>"; blank;
    text "   Option                                                          Default";
    text "   --                                                              --"; blank].

Definition options_ipv4 : bytes :=
  lines [text "   -l              Server (listen) mode.                           (client mode)";
    text "                   In server mode, <host>:<port> is the address to bind."; blank;
    text "   -a <addr>       Set source address (client mode only)           " ++ text "169.254.144.9";
    text "   -s <port>       Set source port (client mode only)              (random)"; blank;
    text "   -w <winsz>      Use a window of <winsz> bytes                   " ++ decimal MAX_PAYLOAD_SIZE; blank;
    text "   -t <tmout>      Set rt_timeout to tmout                         " ++ decimal TIMEOUT_DFLT; blank;
    text "   -d <tundev>     Connect to tun <tundev>                         " ++ text "tun144"; blank;
    text "   -Lu <loss>      Set uplink loss to <rate> (float in 0..1)       (no loss)";
    text "   -Ld <loss>      Set downlink loss to <rate> (float in 0..1)     (no loss)"; blank;
    text "   -h              Show this message."; blank].

Definition show_usage_ipv4 (argv0 : bytes) (msg : option bytes) : bytes :=
  usage_head argv0 ++ options_ipv4 ++ default [] msg ++ [10].

Definition options_udp : bytes :=
  lines [text "   -l              Server (listen) mode.                           (client mode)";
    text "                   In server mode, <host>:<port> is the address to bind."; blank;
    text "   -w <winsz>      Use a window of <winsz> bytes                   " ++ decimal MAX_PAYLOAD_SIZE; blank;
    text "   -t <tmout>      Set rt_timeout to tmout                         " ++ decimal TIMEOUT_DFLT; blank;
    text "   -Lu <loss>      Set uplink loss to <rate> (float in 0..1)       (no loss)";
    text "   -Ld <loss>      Set downlink loss to <rate> (float in 0..1)     (no loss)"; blank;
    text "   -h              Show this message and quit."; blank].

Definition show_usage_udp (argv0 : bytes) (msg : option bytes) : bytes :=
  usage_head argv0 ++ options_udp ++ default [] msg ++ [10].

Definition options_ethernet : bytes :=
  lines [text "   -a <addr>       Set IP source address (client mode only)        " ++ text "169.254.10.9";
    text "   -s <port>       Set TCP source port (client mode only)          (random)"; blank;
    text "   -n <addr>       Set IP next-hop address                         " ++ text "169.254.10.1";
    text "   -w <winsz>      Use a window of <winsz> bytes                   " ++ decimal MAX_PAYLOAD_SIZE; blank;
    text "   -t <tmout>      Set rt_timeout to tmout                         " ++ decimal TIMEOUT_DFLT; blank;
    text "   -d <tapdev>     Connect to tap <tapdev>                         " ++ text "tap10"; blank;
    text "   -h              Show this message."; blank].

Definition show_usage_ethernet (argv0 : bytes) (msg : option bytes) : bytes :=
  usage_head argv0 ++ options_ethernet ++ default [] msg ++ [10].

Definition show_usage_native (argv0 : bytes) : bytes :=
  lines [text "Usage: " ++ argv0 ++ text " [-l] <host> <port>"; blank;
    text "  -l specifies listen mode; <host>:<port> is the listening address."].

Definition show_usage_tcpdump (arg0 : bytes) (errmsg : option bytes) : bytes :=
  lines [text "Usage: " ++ arg0 ++ text " [-i <intf>] [-F <file>] [-h|--help] <expression>"; blank;
    text "  -i <intf>    only capture packets from <intf> (default: all)"; blank;
    text "  -F <file>    reads in a filter expression from <file>";
    text "               <expression> is ignored if -F is supplied."; blank;
    text "  -h, --help   show this message"; blank;
    text "  <expression> a filter expression in pcap-filter(7) syntax"] ++
  match errmsg with Some m => 10 :: m | None => [] end ++ [10].

(** ** The options that a text lists *)

(** The lines of a text. *)
Fixpoint split_lines (s line : bytes) : list bytes :=
  match s with
  | [] => match line with [] => [] | _ => [line] end
  | c :: s => if c =? 10 then line :: split_lines s [] else split_lines s (line ++ [c])
  end.

(** The characters up to the next space. *)
Fixpoint word (s : bytes) : bytes :=
  match s with
  | c :: s => if (c =? 32) || (c =? 44) then [] else c :: word s
  | [] => []
  end.

(** A line lists an option when its first word, behind at most three spaces, begins
    with a dash. *)
Definition listed_option (line : bytes) : list bytes :=
  let w := word (skip_spaces line) in
  if bool_decide (head w = Some 45) && (length line - length (skip_spaces line) <=? 3)%nat then [w] else [].

Definition listed_options (s : bytes) : list bytes := flat_map listed_option (split_lines s []).

(** Each option that [option_of] knows is listed, each that is listed is known, and no
    two of them are the same one.  As [strncmp] looks at three characters only, an
    argument that continues -Lu or -Ld is taken for it. *)
Record knows_listed (option_of : bytes -> option_kind) (flags : list bytes) : Prop := {
  kl_known : forall arg, option_of arg <> opt_unknown <-> exists flag, flag ∈ flags /\ strncmp_eq flag arg 3 = true;
  kl_distinct : NoDup (map option_of flags)
}.

(** What [flags] holds, as a disjunction. *)
Lemma listed_exists (P : bytes -> Prop) f flags :
  (exists flag, flag ∈ f :: flags /\ P flag) <-> P f \/ exists flag, flag ∈ flags /\ P flag.
Proof. set_solver. Qed.

Lemma listed_none (P : bytes -> Prop) : (exists flag, flag ∈ [] /\ P flag) <-> False.
Proof. set_solver. Qed.

Lemma known_step (b : bool) (k rest : option_kind) (Q : Prop) : k <> opt_unknown -> (rest <> opt_unknown <-> Q) ->
  (if b then k else rest) <> opt_unknown <-> b = true \/ Q.
Proof. intros Hk <-. destruct b; naive_solver. Qed.

Ltac match_flags := intros arg; rewrite ?listed_exists, listed_none; unfold is_flag;
  repeat (apply known_step; [done|]); naive_solver.

(** tcp_ipv4, tcp_udp and tcp_ip_ethernet know exactly the options that they list. *)
Theorem usage_lists_options :
  knows_listed option_ipv4 (listed_options options_ipv4) /\ knows_listed option_udp (listed_options options_udp) /\
  knows_listed option_ethernet (listed_options options_ethernet).
Proof.
  assert (listed_options options_ipv4 = map string_bytes ["-l"; "-a"; "-s"; "-w"; "-t"; "-d"; "-Lu"; "-Ld"; "-h"]%string) as -> by (vm_compute; reflexivity).
  assert (listed_options options_udp = map string_bytes ["-l"; "-w"; "-t"; "-Lu"; "-Ld"; "-h"]%string) as -> by (vm_compute; reflexivity).
  assert (listed_options options_ethernet = map string_bytes ["-a"; "-s"; "-n"; "-w"; "-t"; "-d"; "-h"]%string) as -> by (vm_compute; reflexivity).
  split_and!; (split; [cbn [map]; unfold option_ipv4, option_udp, option_ethernet; match_flags|vm_compute; repeat constructor; set_solver]).
Qed.

(** udp_tcpdump lists -F but takes it for the start of the filter expression. *)
Theorem tcpdump_option_F_unknown file rest dev :
  string_bytes "-F" ∈ listed_options (show_usage_tcpdump (text "udp_tcpdump") None) /\
  parse_arguments (string_bytes "-F" :: file :: rest) dev = proceeds (dev, string_bytes "-F" :: file :: rest).
Proof. split; [|done]. apply list_elem_of_In. vm_compute. tauto. Qed.

(** The window that the texts call the default is that of one segment. *)
Theorem usage_default_window : MAX_PAYLOAD_SIZE < cfg_recv_capacity TCPConfig_default.
Proof. by vm_compute. Qed.
