(* ===== verification/Programs.v ===== *)
(** What the programs under src/apps/ do with their arguments: [main] of tcp_ipv4.cc,
    tcp_udp.cc and tcp_ip_ethernet.cc up to the connection, on which
    [bidirectional_stream_copy] then works beside the thread of the socket; [main] of
    tcp_native.cc and of udp_tcpdump.cc, with the packet capture library as the class
    [Pcap]; the loop of tun.cc; and [get_URL] of webget.cc.

    Theorems: tun.cc gets through every packet, and shows a segment that the adapter for
    the TUN device has written; tcp_native.cc reads only arguments that are there;
    udp_tcpdump.cc never meets a type of link that it does not know, and asks a handle
    that was freed why a capture has failed; and the loop with which webget.cc waits for
    the end of the answer does not end, since it does not read. *)

From stdpp Require Import gmap strings.
From S2P Require Import Prelude Texts WrappingIntegers Buffers Parsers TCPSegments IPv4Datagrams EthernetFrames Addresses.
From S2P Require Import Effects FileDescriptors EventLoops Sockets StreamCopies NetworkInterfaces Adapters TCPSenders.
From S2P Require Import SocketAdapters SpongeSockets CommandLines Usages Tcpdumps.

#[local] Open Scope Z_scope.
#[local] Open Scope list_scope.

(** ** Programs with a TCPSpongeSocket *)

Section sponge.
Context {K : Type} `{Kernel K} `{NameService}.

(** The argument count that [main] checks before [get_config]. *)
Definition with_arguments {A} (args : list bytes) (config : result (outcome A)) : result (outcome A) :=
  if (length args <? 2)%nat then Ok (exits 1 no_arguments) else config.

(** tcp_ipv4.cc; [random] draws the port, [isn] the initial sequence number and [rand]
    the losses. *)
Definition tcp_ipv4_open (aborts : list bool) (random isn : Z) (rand : nat -> Z) (args : list bytes) :
    io (world K (TCPSpongeSocket (LossyFdAdapter TunFdAdapter)))
      (outcome (bool * list (Rule K (TCPSpongeSocket (LossyFdAdapter TunFdAdapter))))) :=
  o ← lift (with_arguments args (get_config_ipv4 random args));
  match o with
  | exits status message => mret (exits status message)
  | proceeds (c_fsm, c_filt, listen, tun_dev_name) =>
      tun ← TunFD_new (default tun144 tun_dev_name);
      config ← lift FdAdapterConfig_default;
      _ ← TCPSpongeSocket_new (MkLossyFdAdapter rand (MkTunFdAdapter (MkFdAdapterBase config false) tun));
      r ← (if (listen : bool) then TCPSpongeSocket_listen_and_accept aborts isn c_fsm c_filt
           else TCPSpongeSocket_connect aborts isn c_fsm c_filt);
      mret (proceeds r)
  end.

(** tcp_udp.cc *)
Definition tcp_udp_open (aborts : list bool) (isn : Z) (rand : nat -> Z) (args : list bytes) :
    io (world K (TCPSpongeSocket (LossyFdAdapter UDPSocketAdapter)))
      (outcome (bool * list (Rule K (TCPSpongeSocket (LossyFdAdapter UDPSocketAdapter))))) :=
  o ← lift (with_arguments args (get_config_udp args));
  match o with
  | exits status message => mret (exits status message)
  | proceeds (c_fsm, c_filt, listen) =>
      udp_sock ← UDPSocket_new;
      _ ← (if (listen : bool) then Socket_bind udp_sock (fc_source c_filt) else mret tt);
      config ← lift FdAdapterConfig_default;
      _ ← TCPSpongeSocket_new (MkLossyFdAdapter rand (MkUDPSocketAdapter (MkFdAdapterBase config false) udp_sock));
      r ← (if (listen : bool) then TCPSpongeSocket_listen_and_accept aborts isn c_fsm c_filt
           else TCPSpongeSocket_connect aborts isn c_fsm c_filt);
      mret (proceeds r)
  end.

(** tcp_ip_ethernet.cc; [draws] are the numbers for the Ethernet address. *)
Definition tcp_ip_ethernet_open (aborts : list bool) (draws : list Z) (random isn : Z) (args : list bytes) :
    io (world K (TCPSpongeSocket TapFdAdapter)) (outcome (bool * list (Rule K (TCPSpongeSocket TapFdAdapter)))) :=
  o ← lift (with_arguments args (get_config_ethernet random args));
  match o with
  | exits status message => mret (exits status message)
  | proceeds (c_fsm, c_filt, next_hop, tap_dev_name) =>
      tap ← TapFD_new tap_dev_name;
      config ← lift FdAdapterConfig_default;
      adapter ← TapFdAdapter_new tap (MkFdAdapterBase config false) (random_private_ethernet_address draws) (fc_source c_filt) next_hop;
      _ ← TCPSpongeSocket_new adapter;
      r ← TCPSpongeSocket_connect aborts isn c_fsm c_filt;
      mret (proceeds r)
  end.

End sponge.

(** ** tcp_native *)

(** What the arguments ask for: the address to listen at, or to connect to. *)
Definition native_arguments (args : list bytes) : result (outcome (bool * bytes * bytes)) :=
  let usage := Ok (exits 1 None) in
  if (length args <? 2)%nat then usage
  else
    match args with
    | [] => Throw undefined_behaviour
    | first :: rest =>
        let server_mode := strncmp_eq (string_bytes "-l") first 3 in
        if server_mode && (length args <? 3)%nat then usage
        else if server_mode then
          match rest with host :: port :: _ => Ok (proceeds (true, host, port)) | _ => Throw undefined_behaviour end
        else
          match rest with port :: _ => Ok (proceeds (false, first, port)) | [] => Throw undefined_behaviour end
    end.

Section native.
Context {K : Type} `{Kernel K} `{NameService}.

(** The socket to copy from and to; the listening socket goes when the lambda returns. *)
Definition native_socket (server_mode : bool) (host port : bytes) : io (world K copy_state) FileDescriptor :=
  if server_mode then
    listening_socket ← TCPSocket_new;
    _ ← Socket_set_reuseaddr listening_socket;
    address ← lift (Address_of_host host port);
    _ ← Socket_bind listening_socket address;
    _ ← TCPSocket_listen listening_socket 16;
    socket ← TCPSocket_accept listening_socket;
    _ ← FileDescriptor_destroy listening_socket;
    mret socket
  else
    connecting_socket ← TCPSocket_new;
    address ← lift (Address_of_host host port);
    _ ← Socket_connect connecting_socket address;
    mret connecting_socket.

Definition tcp_native (turns : nat) (args : list bytes) : io (world K copy_state) (outcome bool) :=
  o ← lift (native_arguments args);
  match o with
  | exits status message => mret (exits status message)
  | proceeds (server_mode, host, port) =>
      socket ← native_socket server_mode host port;
      returned ← bidirectional_stream_copy turns socket;
      _ ← (if (returned : bool) then FileDescriptor_destroy socket else mret tt);
      mret (proceeds returned)
  end.

End native.

(** [tcp_native] reads only arguments that are there. *)
Lemma native_arguments_safe args : exists o, native_arguments args = Ok o /\
  match o with
  | exits status _ => status = 1
  | proceeds (_, host, port) => host ∈ args /\ port ∈ args
  end.
Proof.
  unfold native_arguments. destruct (Nat.ltb_spec (length args) 2) as [|H2]; [by eexists|].
  destruct args as [|first rest]; [simpl in H2; lia|]. destruct (strncmp_eq _ first 3) eqn:E; cbn [andb].
  - destruct (Nat.ltb_spec (length (first :: rest)) 3) as [|H3]; [by eexists|].
    destruct rest as [|host [|port rest]]; simpl in H3; try lia. eexists. split; [done|]. set_solver.
  - destruct rest as [|port rest]; [simpl in H2; lia|]. eexists. split; [done|]. set_solver.
Qed.

(** ** udp_tcpdump *)

(** The packet capture library: it opens a capture on a device or on all of them, or
    says why it cannot, names the type of its link, compiles a filter and sets it, each
    time or says why not, and then returns packets. *)
Class Pcap (P F : Type) : Type := {
  pcap_open_live : option bytes -> bytes + P;
  pcap_datalink : P -> datalink;
  pcap_datalink_description : P -> bytes;
  pcap_compile : P -> bytes -> bytes + F;
  pcap_setfilter : P -> F -> bytes + P;
  pcap_next : P -> list (Z * bytes)
}.

Section tcpdump.
Context {P F : Type} `{Pcap P F}.

(** What the program has said, and its status or what it goes on with. *)
Definition tcpdump_step (A : Type) : Type := bytes * (Z + A).

(** The lambda that opens the capture. *)
Definition tcpdump_open (dev : option bytes) : tcpdump_step P :=
  let said := match dev with
              | Some dev => string_bytes "Capturing on interface " ++ dev
              | None => string_bytes "Capturing on all interfaces"
              end in
  match pcap_open_live dev with
  | inl errbuf => (said ++ [10] ++ string_bytes "Error initiating capture: " ++ errbuf ++ [10], inl 1)
  | inr p_hdl =>
      match pcap_datalink p_hdl with
      | DLT_RAW | DLT_NULL | DLT_EN10MB | DLT_LINUX_SLL | DLT_LINUX_SLL2 =>
          (said ++ string_bytes " (type: " ++ pcap_datalink_description p_hdl ++ string_bytes ")" ++ [10], inr p_hdl)
      | DLT_other =>
          (said ++ [10] ++ string_bytes "Error: unsupported datalink type " ++ pcap_datalink_description p_hdl ++ [10], inl 1)
      end
  end.

(** The block that compiles the filter expression and sets it. *)
Definition tcpdump_filter (p_hdl : P) (words : list bytes) : tcpdump_step P :=
  let said := string_bytes "Using filter expression: " ++ filter_expression words ++ [10] in
  match pcap_compile p_hdl (filter_expression words) with
  | inl err => (said ++ string_bytes "Error compiling filter expression: " ++ err ++ [10], inl 1)
  | inr p_flt =>
      match pcap_setfilter p_hdl p_flt with
      | inl err => (said ++ string_bytes "Error configuring packet filter: " ++ err ++ [10], inl 1)
      | inr p_hdl => (said, inr p_hdl)
      end
  end.

(** [main]: what is said before the loop, what the loop shows, and the status once the
    program has ended.  When [pcap_next_ex] has failed, [pcap_geterr] is called with the
    handle that [pcap_close] has freed. *)
Definition tcpdump_main (arg0 : bytes) (args : list bytes) : result (bytes * list dumped * option Z) :=
  match parse_arguments args None with
  | exits status message => Ok (show_usage_tcpdump arg0 message, [], Some status)
  | proceeds (dev, words) =>
      match tcpdump_open dev with
      | (said, inl status) => Ok (said, [], Some status)
      | (said, inr p_hdl) =>
          let dl_type := pcap_datalink p_hdl in
          match tcpdump_filter p_hdl words with
          | (said', inl status) => Ok (said ++ said', [], Some status)
          | (said', inr p_hdl) =>
              '(shown, e) ← capture dl_type (pcap_next p_hdl);
              match e with
              | None => Ok (said ++ said', shown, None)
              | Some gave_up => Ok (said ++ said', shown, Some 1)
              | Some (stopped next_ret) =>
                  if next_ret =? -1 then Throw undefined_behaviour else Ok (said ++ said', shown, Some 0)
              end
          end
      end
  end.

(** The branch for a mysterious type of link is not reached, since such a capture is
    refused when it is opened. *)
Theorem tcpdump_never_gives_up arg0 args said shown status :
  tcpdump_main arg0 args = Ok (said, shown, status) -> dump_gives_up ∉ shown.
Proof.
  unfold tcpdump_main. destruct (parse_arguments args None) as [st m|[dev words]]; [intros [= _ <- _]; apply not_elem_of_nil|].
  unfold tcpdump_open. destruct (pcap_open_live dev) as [err|p_hdl]; [intros [= _ <- _]; apply not_elem_of_nil|].
  destruct (pcap_datalink p_hdl) eqn:El; [..|intros [= _ <- _]; apply not_elem_of_nil];
  (destruct (tcpdump_filter p_hdl words) as [said' [st|p_hdl']]; [intros [= _ <- _]; apply not_elem_of_nil|];
   destruct (capture _ _) as [[ds e]|] eqn:Ec; cbn [mbind result_bind]; [|done];
   apply capture_known in Ec as [Hc _]; [|congruence];
   destruct e as [[n|]|]; [destruct (n =? -1)|..]; by intros [= _ <- _]).
Qed.
End tcpdump.

(** A capture on raw IP that returns recorded results, for any filter. *)
#[local] Instance recorded_pcap (packets : list (Z * bytes)) : Pcap unit unit := {
  pcap_open_live _ := inr tt;
  pcap_datalink _ := DLT_RAW;
  pcap_datalink_description _ := string_bytes "Raw IP";
  pcap_compile _ _ := inr tt;
  pcap_setfilter _ _ := inr tt;
  pcap_next _ := packets
}.

(** A capture that breaks off ends the program; one that fails makes it ask a handle that
    was freed for the error. *)
Lemma failed_capture_undefined arg0 words :
  @tcpdump_main unit unit (recorded_pcap [(-2, [])]) arg0 (string_bytes "udp" :: words) =
    Ok (string_bytes "Capturing on all interfaces (type: Raw IP)" ++ [10] ++ string_bytes "Using filter expression: udp " ++
        filter_expression words ++ [10], [], Some 0) /\
  @tcpdump_main unit unit (recorded_pcap [(-1, [])]) arg0 (string_bytes "udp" :: words) = Throw undefined_behaviour.
Proof. by split. Qed.

(** ** tun *)

Inductive tun_report : Type :=
  | tun_not_ipv4
  | tun_not_tcp (header : IPv4Header)
  | tun_not_segment (header : IPv4Header)
  | tun_segment (header : IPv4Header) (tcp_header : TCPHeader) (payload_len : Z).

(** What is said of a packet, after its [hexdump]. *)
Definition tun_packet (buffer : bytes) : result (bytes * tun_report) :=
  let hex := hexdump buffer 0 in
  '(res, ip_dgram) ← IPv4Datagram_parse IPv4Datagram_default (Buffer_of_string buffer);
  if negb (is_NoError res) then Ok (hex, tun_not_ipv4)
  else
    let header := id_header ip_dgram in
    if negb (ih_proto header =? PROTO_TCP) then Ok (hex, tun_not_tcp header)
    else
      payload ← BufferList_to_Buffer (id_payload ip_dgram);
      '(res, tcp_seg) ← TCPSegment_parse TCPSegment_default payload (IPv4Header_pseudo_cksum header);
      if negb (is_NoError res) then Ok (hex, tun_not_segment header)
      else Ok (hex, tun_segment header (ts_header tcp_seg) (Buffer_size (ts_payload tcp_seg))).

Section tun.
Context {K U : Type} `{Kernel K}.

(** The loop, for [turns] packets. *)
Fixpoint tun_loop (turns : nat) (tun : FileDescriptor) : io (world K U) (list (bytes * tun_report)) :=
  match turns with
  | O => mret []
  | S turns =>
      buffer ← FileDescriptor_read tun size_max;
      report ← lift (tun_packet buffer);
      reports ← tun_loop turns tun;
      mret (report :: reports)
  end.

Definition tun_main (turns : nat) : io (world K U) (list (bytes * tun_report)) :=
  tun ← TunFD_new tun144;
  tun_loop turns tun.

End tun.

(** ** webget *)

Definition http_request (host path : bytes) : bytes :=
  string_bytes "GET " ++ path ++ string_bytes " HTTP/1.1" ++ [13; 10] ++ string_bytes "Host: " ++ host ++ [13; 10] ++
  string_bytes "Connection: close" ++ [13; 10; 13; 10].

Section webget.
Context {K U : Type} `{Kernel K}.

(** [while (!socket.eof()) response += recv;] for at most [turns] turns. *)
Fixpoint webget_wait (turns : nat) (socket : FileDescriptor) (response recv : bytes) : io (world K U) (option bytes) :=
  match turns with
  | O => mret None
  | S turns =>
      eof ← FileDescriptor_eof socket;
      if (eof : bool) then mret (Some response) else webget_wait turns socket (response ++ recv) recv
  end.

End webget.

Section get_URL.
Context {K : Type} `{Kernel K} `{NameService}.

(** [get_URL(host, path)]: what it prints as the answer, if the connection was made and
    the loop has ended. *)
Definition get_URL (aborts : list bool) (turns : nat) (draws : list Z) (random isn : Z) (host path : bytes) :
    io (world K (TCPSpongeSocket TapFdAdapter)) (option bytes) :=
  _ ← FullStackSocket_new draws;
  address ← lift (Address_of_host host (string_bytes "http"));
  '(connected, rs) ← FullStackSocket_connect aborts random isn address;
  if (connected : bool) then
    s ← sk_get;
    _ ← FileDescriptor_write (sk_socket s) (http_request host path) true;
    _ ← Socket_shutdown (sk_socket s) SHUT_WR;
    response ← webget_wait turns (sk_socket s) [] [];
    match response with
    | None => mret None
    | Some response =>
        _ ← TCPSpongeSocket_wait_until_closed;
        _ ← FileDescriptor_close (sk_socket s);
        mret (Some response)
    end
  else mret None.

End get_URL.

(** ** tun: packets *)

(** Whatever the packet, [tun] gets through it. *)
Lemma tun_packet_total buffer : zlen buffer < 2 ^ 64 -> Forall byte_ok buffer -> exists report, tun_packet buffer = Ok (hexdump buffer 0, report).
Proof.
  intros Hlen Hb. unfold tun_packet.
  destruct (IPv4Datagram_parse_total IPv4Datagram_default (Buffer_of_string buffer)) as (r & d & buf & -> & Hpl & Hwf & (k & Hk & Hs) & _).
  - by apply Buffer_of_string_wf.
  - by rewrite Buffer_of_string_str.
  - cbn [mbind result_bind]. destruct (negb _); [by eexists|]. destruct (negb _); [by eexists|]. rewrite Hpl. cbn [BufferList_to_Buffer mbind result_bind].
    destruct (TCPSegment_parse_any TCPSegment_default buf (IPv4Header_pseudo_cksum (id_header d)) Hwf) as (r2 & seg & -> & _).
    + rewrite Hs, Buffer_of_string_str by done. by apply Forall_drop.
    + cbn [mbind result_bind]. destruct (negb _); by eexists.
Qed.

Section shown.
Context `{NameServiceLaws}.

(** What the adapter for the TUN device writes is what [tun] shows: the packet for
    a segment between two addresses is recognised as IPv4 and TCP, with these
    addresses, and with the header of the segment, its ports and checksum filled in. *)
Theorem tun_shows_segment b seg sip sport dip dport :
  endpoints_ok sip sport dip dport -> fc_source (fb_cfg b) = Address_v4 sip sport ->
  fc_destination (fb_cfg b) = Address_v4 dip dport -> segment_ok seg ->
  exists l h ck, TunAdapter_write b seg = Ok ([l], b) /\ ih_src h = sip /\ ih_dst h = dip /\
    tun_packet (BufferList_concatenate l) =
      Ok (hexdump (BufferList_concatenate l) 0,
          tun_segment h (TCPHeader_set_cksum (TCPHeader_set_ports (ts_header seg) sport dport) ck) (Buffer_size (ts_payload seg))).
Proof.
  intros He Hs Hd Hseg. destruct (tun_written b seg sip sport dip dport He Hs Hd Hseg)
    as (l & h & buf & seg2 & ck & Ew & Ep & Es & Ed & Epr & E2 & Hh2 & Hp2).
  exists l, h, ck. split_and!; try done. unfold tun_packet. rewrite Ep. cbn [mbind result_bind]. change (negb (is_NoError NoError)) with false.
  cbn [id_header id_payload]. rewrite Epr, Z.eqb_refl. cbn [negb BufferList_to_Buffer mbind result_bind]. rewrite E2. cbn [mbind result_bind].
  change (negb (is_NoError NoError)) with false. cbv iota. unfold Buffer_size. by rewrite Hh2, Hp2.
Qed.

End shown.

Lemma tun_shows_segment_witness :
  exists l h ck, @TunAdapter_write dotted_name_service sample_client syn_segment = Ok ([l], sample_client) /\
    ih_src h = 10 * 2 ^ 24 + 1 /\ ih_dst h = 10 * 2 ^ 24 + 2 /\
    tun_packet (BufferList_concatenate l) =
      Ok (hexdump (BufferList_concatenate l) 0,
          tun_segment h (TCPHeader_set_cksum (TCPHeader_set_ports (ts_header syn_segment) 4000 80) ck) (Buffer_size (ts_payload syn_segment))).
Proof.
  apply (@tun_shows_segment dotted_name_service dotted_name_service_laws sample_client syn_segment (10 * 2 ^ 24 + 1) 4000 (10 * 2 ^ 24 + 2) 80).
  - split; lia.
  - reflexivity.
  - reflexivity.
  - split; [split; vm_compute; split; congruence|apply Buffer_of_string_wf; reflexivity|bytes_ok|vm_compute; congruence].
Defined.

(** ** webget: waiting *)

Section waiting.
Context {K U : Type} `{Kernel K}.

(** C37.  [webget] does not get its answer: the loop that waits for the end of the stream
    does not read from the socket, so that a socket that is not yet at its end never
    gets there; the loop makes no system call, changes nothing and does not end,
    however many turns it takes. *)
Theorem webget_waits_forever turns socket o n (w : world K U) : w_fds w !! socket = Some (o, n) -> fw_eof o = false ->
  webget_wait turns socket [] [] w = Ok (None, w).
Proof.
  intros Hw Ho. induction turns as [|turns IH]; [done|]. cbn [webget_wait].
  unfold FileDescriptor_eof, deref, mbind, mret, io_bind, io_ret. rewrite Hw, Ho. exact IH.
Qed.

End waiting.

Lemma webget_waits_forever_witness :
  @webget_wait unit unit 1000 0%nat [] [] (MkWorld tt {[0%nat := (MkFDWrapper 3 false false 0 0, 1%nat)]} 1%nat tt) =
    Ok (None, MkWorld tt {[0%nat := (MkFDWrapper 3 false false 0 0, 1%nat)]} 1%nat tt).
Proof. apply (webget_waits_forever 1000 0%nat (MkFDWrapper 3 false false 0 0) 1%nat); reflexivity. Defined.
